(* ===== verification/_CoqProject ===== *)
-Q . S2P
Prelude.v
CMem.v
Memp.v
Pbuf.v
IpAddr.v
Mem.v
Packets.v
Ethernet.v
Etharp.v
EtharpInv.v
EtharpOk.v
EtharpIo.v
EthInput.v
Checksum.v
Ip4.v
PacketsIp.v
Ip4Ok.v
Ip4Out.v
IcmpOk.v
Ip4In.v
Ip4Props.v
NetHeap.v
Queue.v
QueueWait.v
SysArch.v
Timeouts.v
FList.v
Heap4.v
Klist.v
KlistNew.v
Tasks.v
TasksInv.v
TasksStep.v
TasksRun.v
TasksApi.v
TasksCalls.v
TasksPrio.v
TasksSusp.v
TasksNotify.v
TasksNew.v
TasksLife.v
TasksStart.v
TasksDelete.v
TasksHeap.v
TasksFrame.v
TasksValues.v
TasksSystem.v
TasksBoot.v
TasksProps.v
EventGroups.v
EventGroupsOk.v
EventGroupsProps.v
Streams.v
StreamsOk.v
StreamsShared.v
StreamBuffers.v
StreamBuffersOk.v
Timers.v
TimersOk.v
TimersCmd.v
TimersProps.v
EthDriver.v
EthernetIf.v
NetConf.v
