(* ===== verification/Prelude.v ===== *)
(** * A verified model of the CH32V307 lwIP demo

    The program runs the lwIP stack on FreeRTOS on a CH32V307 board.  Interrupts
    of the Ethernet controller give semaphores; a task moves received frames from
    the DMA ring to lwIP and polls the link; lwIP's own thread runs the protocols
    and their timers; the kernel supplies tasks, lists, queues and memory.

    ** Files

    Foundations:
    - [Prelude.v]: this header, fixed-width integers, the state and error monad
      [M] with its weakest preconditions [wp], shared lemmas and tactics.
    - [CMem.v]: byte memory.

    The kernel (FreeRTOS/):
    - [FList.v] (list.c): one circular list; [Klist.v], [KlistNew.v]: all lists
      of the kernel in one store, seen as a [view] of sequences.
    - [Heap4.v] (portable/MemMang/heap_4.c): the kernel heap.
    - [Tasks.v] (tasks.c): the scheduler, its data and operations;
      [TasksNotify.v]: task notifications; [TasksNew.v]: creation and deletion of
      tasks, start of the scheduler, the stack frame of port.c and portASM.S.
      [TasksInv.v] has the invariant [sched] and [good]; [TasksStep.v],
      [TasksRun.v], [TasksApi.v], [TasksCalls.v], [TasksPrio.v], [TasksSusp.v],
      [TasksLife.v], [TasksStart.v], [TasksDelete.v] prove that the operations
      keep it and what they do; [TasksFrame.v] and [TasksValues.v] say what they
      leave alone; [TasksHeap.v] puts the tasks on heap_4.  [TasksSystem.v] makes
      every critical section a step of a system with a decidable guard,
      [TasksBoot.v] is a concrete boot with four tasks, [TasksProps.v] has the
      theorems about the whole.
    - [Queue.v], [QueueWait.v] (queue.c): queues, semaphores, mutexes.
    - [EventGroups.v], [EventGroupsOk.v], [EventGroupsProps.v] (event_groups.c).
    - [Streams.v], [StreamsOk.v], [StreamsShared.v], [StreamBuffers.v],
      [StreamBuffersOk.v] (stream_buffer.c): the ring of bytes, the ring shared
      without a lock, the calls on top of the scheduler.
    - [Timers.v], [TimersOk.v], [TimersCmd.v], [TimersProps.v] (timers.c): software
      timers: the code, its invariant over the wrapping tick count, the commands,
      the theorems with a daemon that has a clock and a log.

    The stack (LWIP/src/):
    - [Memp.v] (core/memp.c), [Mem.v] (core/mem.c): pools and heap.
    - [Pbuf.v] (core/pbuf.c): packet buffers; [Packets.v]: packets with owners.
    - [IpAddr.v] (core/def.c, ipv4/ip4_addr.c): byte order, addresses.
    - [Checksum.v] (core/inet_chksum.c): the Internet checksum.
    - [Timeouts.v] (core/timeouts.c): the list of timeouts.
    - [Ethernet.v], [EthInput.v] (netif/ethernet.c): frames out and in.
    - [Etharp.v], [EtharpInv.v], [EtharpOk.v], [EtharpIo.v] (ipv4/etharp.c):
      address resolution.
    - [NetHeap.v]: the memory of the packets, made of memp.c and mem.c.
    - [Ip4.v] (ipv4/ip4.c, ipv4/icmp.c): routing, output and input of IPv4 packets,
      echo replies and "destination unreachable".  [PacketsIp.v]: trimming a packet,
      reading and writing its header; [Ip4Ok.v], [Ip4Out.v], [IcmpOk.v], [Ip4In.v]:
      what the operations do; [Ip4Props.v]: the theorems, the layer as the [IpInput]
      of ethernet.c, and a board that is pinged.

    The port:
    - [SysArch.v] (LWIP_PORT/arch/sys_arch.c): lwIP's semaphores, mutexes and
      mailboxes on queue.c.
    - [EthDriver.v] (ETH_Driver/eth_driver_RMII.c and what it uses of
      Peripheral/src/ch32v30x_eth.c): descriptor rings, PHY polling, interrupts.
    - [EthernetIf.v] (LWIP_PORT/ethernetif.c): frames between ring and stack.
    - [NetConf.v] (LWIP_PORT/netconf.c): start-up and the interface task.

    ** Conventions

    Integers are [Z]; every store to a variable of a fixed width wraps with
    [u8], [u16] or [u32].  A C function that reads or writes state is a computation
    in [M S]: it ends with a value and a state, or stops with [Fault] (undefined
    behaviour of C), [Asserted] (a failed [configASSERT] or [LWIP_ASSERT], which
    spin) or [NoFuel].  [wp m s Q] says that [m] ends in [s] and its result
    satisfies [Q], so every theorem about a run is also one about its end.
    Structures live in stores indexed by their addresses, so that aliasing is the
    program's; a list of the program is a chain of pointers in such a store, and
    lemmas relate it to a sequence.

    A critical section, and a section with the scheduler suspended in
    event_groups.c, is one run; where a function leaves its critical section the
    other tasks and the interrupts are an argument ([others], [idle], the
    [Environment] of a queue) or a step of a system of steps
    ([TasksSystem.call], [StreamsShared.action]).  The scheduler suspension
    around the bodies of heap_4.c and the mutex around those of mem.c make each
    of them a step; the allocations of [xTaskCreate] and [prvDeleteTCB] run
    without an interrupt in between.

    ** Interfaces and hypotheses

    - [EthLayout], [LayoutOk]: the descriptor rings and buffers lie apart; the
      heap array and its head do in [Heap4.v].
    - [PbufAlloc], [PbufPool], [PbufHeap]: what pbufs and packets ask of their
      allocators; memp.c and mem.c side by side keep it ([NetHeap.v]).
    - [Link], [LinkOk]: [netif->linkoutput] reads the packet and does not change
      it; ethernetif.c is such a function, and so is the one of the witnesses.
    - [IpInput], [IpInputOk]: the IPv4 layer takes over the packets it is given;
      ip4.c keeps it ([Ip4Props.ip4_layer_ok]).
    - [Transport], [TransportOk]: UDP and TCP take over the packets they are given.
    - [Queue.Kernel], [Clock], [Environment]: what queue.c asks of tasks.c and of
      the heap, that time goes on, and that others use the queue through its own
      functions.
    - [StaticsOk]: the lists of tasks.c lie apart.  [KernelHeap]: what the tasks
      ask of the heap; heap_4.c keeps it ([TasksHeap.kernel_heap_4]).
    - [Daemon]: what timers.c asks of its queue, the scheduler and the heap, and the
      callbacks, which act on the rest of the program and reach the timers by
      commands only; [TimerStatics]: its two lists.
    - [makes_timer_queue]: the queue that [xTimerCreateTimerTask] creates leaves
      the scheduler alone.

    Each theorem with hypotheses has a witness that instantiates them with
    concrete functions and states.

    ** Fuel

    Loops over a chain take the number of its elements plus one: pbufs
    ([free_loop], [take_loop], ...), pool elements, blocks of a heap, tasks
    ([unblock_due], [set_loop], [delete_loop], [cleanup]), items of a list
    ([insert_ordered]).  The tick loops of [xTaskResumeAll] take the pended ticks.
    The loops that wait ([receive_loop], [send_loop], [take_loop]) take the number
    of times the task may be woken with nothing to do for it; with an environment
    that lets time pass the number of ticks to wait is enough.  A reloaded timer
    takes a turn for each period that has passed, the end of a turn of the tick
    count one for each timer.  The theorems name
    the amounts that are enough; no theorem assumes that a loop ends.

    ** Theorems

    - The scheduler: every step allowed by its guard ends and keeps the
      invariant; the switch selects the first ready task of the highest priority;
      the tick wakes exactly the tasks that are due; a delay takes exactly its
      ticks; priorities are inherited and restored; creating and deleting a task
      leaks nothing; the start ends with the highest task current; the idle task
      frees every deleted task.
    - Event groups wake exactly those whose bits are there; a stream buffer with
      one writer and one reader needs no lock; an interrupt that sends wakes the
      task that waits.
    - The kernel heap: allocations are disjoint, first fit, and freeing
      coalesces.  Queues refine bounded lists; a call that waits is served or
      late.
    - Software timers: the daemon serves every timer that is due, once for every
      period that has passed, and never sleeps past one, across the wrapping of
      the tick count; a command does what its time says whenever it is taken.
    - lwIP's heap, pools and pbufs refine finite maps and byte sequences;
      allocation is all or nothing; checksums verify and do not depend on how a
      packet is cut into pbufs; addresses survive printing and parsing.
    - Address resolution keeps its table whatever happens, delivers or keeps
      packets, learns, and forgets after the documented number of ticks.  A
      received frame is dropped, answered or handed up; none is leaked.
    - IPv4 takes exactly the packets with a valid header that are for the board and
      hands them to their protocol; what it sends has a header that verifies and
      goes to the interface its route names; an echo request is answered by an
      echo reply whose checksums are right.
    - The receive ring is a bounded queue of frames; transmission hands a frame
      to the DMA or says that it did not; the link task reports every edge once;
      due timeouts are called and the list ends.

    ** Not modelled

    The manifest lists the parts that have no model with the reason.  In the
    modelled parts: names and statistics of tasks, the registers on the stacks
    beyond the frame that starts a task, tracing, static allocation, queue sets
    and co-routines (compiled out), [xNumOfOverflows] as a signed word (it is
    unbounded here, and wraps at its uses), pin and clock set-up, the DMA engine
    (an argument), the callers of the code.
*)

From Stdlib Require Export ZArith Lia.
From stdpp Require Export base numbers list gmap option sorting.

#[global] Open Scope Z_scope.

(** * Machine integers

    Unsigned integers of the C program are [Z]; every store to a variable of a
    fixed width wraps explicitly with one of the following. *)

Definition u8 (x : Z) : Z := x mod 256.
Definition u16 (x : Z) : Z := x mod 65536.
Definition u32 (x : Z) : Z := x mod 4294967296.

Definition is_u8 (x : Z) : Prop := 0 <= x < 256.
Definition is_u16 (x : Z) : Prop := 0 <= x < 65536.
Definition is_u32 (x : Z) : Prop := 0 <= x < 4294967296.

#[export] Instance is_u8_dec x : Decision (is_u8 x).
Proof. unfold is_u8. apply _. Defined.
#[export] Instance is_u16_dec x : Decision (is_u16 x).
Proof. unfold is_u16. apply _. Defined.
#[export] Instance is_u32_dec x : Decision (is_u32 x).
Proof. unfold is_u32. apply _. Defined.

(** C's truth value of a comparison and the truth of an integer. *)
Definition b2z (b : bool) : Z := if b then 1 else 0.
Definition nz (x : Z) : bool := negb (x =? 0).

(** [zlia] is [lia] after the quotients and remainders have been replaced by
    their defining equations. *)
Ltac zlia := unfold u8, u16, u32, is_u8, is_u16, is_u32 in *;
             Z.div_mod_to_equations; lia.

Lemma u8_range x : is_u8 (u8 x).
Proof. unfold is_u8, u8. apply Z.mod_pos_bound. lia. Qed.
Lemma u16_range x : is_u16 (u16 x).
Proof. unfold is_u16, u16. apply Z.mod_pos_bound. lia. Qed.
Lemma u32_range x : is_u32 (u32 x).
Proof. unfold is_u32, u32. apply Z.mod_pos_bound. lia. Qed.
Lemma u8_small x : is_u8 x -> u8 x = x.
Proof. apply Z.mod_small. Qed.
Lemma u16_small x : is_u16 x -> u16 x = x.
Proof. apply Z.mod_small. Qed.
Lemma u32_small x : is_u32 x -> u32 x = x.
Proof. apply Z.mod_small. Qed.

Create HintDb cint.
Create Rewrite HintDb cint.
Create Rewrite HintDb cbits.
#[export] Hint Resolve u8_range u16_range u32_range : cint.
#[export] Hint Rewrite u8_small u16_small u32_small using (assumption || zlia) : cint.

(** Bit operations that are arithmetic in disguise. *)
Lemma land_ones_mod x n : 0 <= n -> Z.land x (Z.ones n) = x mod 2 ^ n.
Proof. apply Z.land_ones. Qed.
Lemma land_255 x : Z.land x 255 = x mod 256.
Proof. exact (Z.land_ones x 8 ltac:(lia)). Qed.
Lemma land_65535 x : Z.land x 65535 = x mod 65536.
Proof. exact (Z.land_ones x 16 ltac:(lia)). Qed.
Lemma shiftr_8 x : Z.shiftr x 8 = x / 256.
Proof. exact (Z.shiftr_div_pow2 x 8 ltac:(lia)). Qed.
Lemma shiftr_16 x : Z.shiftr x 16 = x / 65536.
Proof. exact (Z.shiftr_div_pow2 x 16 ltac:(lia)). Qed.
Lemma shiftr_24 x : Z.shiftr x 24 = x / 16777216.
Proof. exact (Z.shiftr_div_pow2 x 24 ltac:(lia)). Qed.
Lemma shiftl_8 x : Z.shiftl x 8 = x * 256.
Proof. exact (Z.shiftl_mul_pow2 x 8 ltac:(lia)). Qed.
Lemma shiftl_16 x : Z.shiftl x 16 = x * 65536.
Proof. exact (Z.shiftl_mul_pow2 x 16 ltac:(lia)). Qed.
Lemma shiftl_24 x : Z.shiftl x 24 = x * 16777216.
Proof. exact (Z.shiftl_mul_pow2 x 24 ltac:(lia)). Qed.
#[export] Hint Rewrite land_255 land_65535 shiftr_8 shiftr_16 shiftr_24
  shiftl_8 shiftl_16 shiftl_24 : cbits.

(** Masking with a single bit is testing it. *)
Lemma land_pow2 x n : 0 <= n -> Z.land x (2 ^ n) = if Z.testbit x n then 2 ^ n else 0.
Proof.
  intros Hn. apply Z.bits_inj'. intros m Hm. rewrite Z.land_spec, Z.pow2_bits_eqb by done.
  destruct (Z.eqb_spec n m) as [->|E].
  - destruct (Z.testbit x m) eqn:Ex; cbn; [|by rewrite Z.testbit_0_l].
    by rewrite Z.pow2_bits_eqb, Z.eqb_refl.
  - rewrite andb_false_r. destruct (Z.testbit x n); [|by rewrite Z.testbit_0_l].
    rewrite Z.pow2_bits_eqb by done. by destruct (Z.eqb_spec n m).
Qed.

Lemma testbit_div x n : 0 <= n -> Z.testbit x n = (x / 2 ^ n mod 2 =? 1).
Proof.
  intros Hn. destruct (Z.eqb_spec (x / 2 ^ n mod 2) 1) as [E|E].
  - by apply Z.testbit_true.
  - apply not_true_iff_false. by rewrite Z.testbit_true.
Qed.

(** A disjoint [lor] is an addition. *)
Lemma lor_disjoint_add a b n :
  0 <= n -> 0 <= b < 2 ^ n -> Z.lor (a * 2 ^ n) b = a * 2 ^ n + b.
Proof.
  intros Hn Hb. rewrite <- Z.lxor_lor, <- Z.add_nocarry_lxor; try done;
  apply Z.bits_inj'; intros m Hm; rewrite Z.land_spec, Z.testbit_0_l;
  rewrite <- Z.shiftl_mul_pow2 by lia;
  (destruct (decide (m < n));
   [rewrite Z.shiftl_spec_low by lia; done
   |rewrite <- (Z.mod_small b (2 ^ n)) by lia;
    rewrite Z.mod_pow2_bits_high by lia; apply andb_false_r]).
Qed.

(** lwIP's result codes ([err_t]). *)
Definition ERR_OK : Z := 0.
Definition ERR_MEM : Z := -1.
Definition ERR_BUF : Z := -2.
Definition ERR_TIMEOUT : Z := -3.
Definition ERR_RTE : Z := -4.
Definition ERR_VAL : Z := -6.
Definition ERR_USE : Z := -8.
Definition ERR_IF : Z := -12.
Definition ERR_ARG : Z := -16.

(** * Lists *)

Lemma last_cons_default {A} (x a : A) p : List.last (x :: p) a = List.last p x.
Proof.
  revert x a. induction p as [|y p IH]; intros x a; [done|].
  change (List.last (y :: p) a = List.last (y :: p) x). by rewrite !IH.
Qed.

Lemma last_default_in {A} (l : list A) x : List.last l x ∈ x :: l.
Proof.
  revert x. induction l as [|y l IH]; intros x; [left|].
  rewrite last_cons_default. right. apply IH.
Qed.

Lemma StronglySorted_weaken {A} (R R' : A -> A -> Prop) l :
  (forall x y, R x y -> R' x y) -> StronglySorted R l -> StronglySorted R' l.
Proof.
  intros H. induction 1; constructor; [done|]. eapply Forall_impl; [done|]. auto.
Qed.

(** * Effects

    The C code reads and writes a state [S].  A run ends normally with a value
    and the new state, or stops: at an access that C leaves undefined, at an
    assertion that does not hold ([configASSERT] and [LWIP_ASSERT] both print
    and then spin), or because the fuel of a loop ran out. *)

Inductive stop : Set := Fault | Asserted | NoFuel.
#[export] Instance stop_eq_dec : EqDecision stop.
Proof. solve_decision. Defined.

Inductive outcome (A : Type) : Type :=
  | Done (a : A)
  | Stop (why : stop).
Arguments Done {A} a.
Arguments Stop {A} why.

Definition M (S A : Type) : Type := S -> outcome (A * S).

#[export] Instance M_ret {S} : MRet (M S) := fun A a s => Done (a, s).
#[export] Instance M_bind {S} : MBind (M S) := fun A B k m s =>
  match m s with Done (a, s') => k a s' | Stop w => Stop w end.

Definition get {S} : M S S := fun s => Done (s, s).
Definition gets {S A} (f : S -> A) : M S A := fun s => Done (f s, s).
Definition put {S} (s' : S) : M S unit := fun _ => Done (tt, s').
Definition modify {S} (f : S -> S) : M S unit := fun s => Done (tt, f s).
Definition stop_ {S A} (w : stop) : M S A := fun _ => Stop w.
Definition assert_ {S} (b : bool) : M S unit :=
  fun s => if b then Done (tt, s) else Stop Asserted.
Definition of_option {S A} (o : option A) : M S A :=
  fun s => match o with Some a => Done (a, s) | None => Stop Fault end.

(** Run a computation [n] times and collect its results. *)
Fixpoint repeatM {S A} (n : nat) (m : M S A) : M S (list A) :=
  match n with
  | O => mret []
  | S n => x ← m; xs ← repeatM n m; mret (x :: xs)
  end.

(** Run a computation on a part of a larger state. *)
Definition zoom {S T A} (g : S -> T) (p : T -> S -> S) (m : M T A) : M S A :=
  fun s => match m (g s) with
           | Done (a, t) => Done (a, p t s)
           | Stop w => Stop w
           end.

(** The state a run leaves, for concrete runs. *)
Definition exec {S A} (m : M S A) (s : S) : S :=
  match m s with Done (_, s') => s' | Stop _ => s end.

Lemma bind_done {S A B} (m : M S A) (k : A -> M S B) s a s' :
  m s = Done (a, s') -> (m ≫= k) s = k a s'.
Proof. intros H. unfold mbind, M_bind. by rewrite H. Qed.
Lemma bind_stop {S A B} (m : M S A) (k : A -> M S B) s w :
  m s = Stop w -> (m ≫= k) s = Stop w.
Proof. intros H. unfold mbind, M_bind. by rewrite H. Qed.
Lemma bind_inv {S A B} (m : M S A) (k : A -> M S B) s r s'' :
  (m ≫= k) s = Done (r, s'') ->
  exists a s', m s = Done (a, s') /\ k a s' = Done (r, s'').
Proof.
  unfold mbind, M_bind. destruct (m s) as [[a s']|w]; [|done]. eauto.
Qed.
Lemma bind_assoc {S A B C} (m : M S A) (k : A -> M S B) (h : B -> M S C) s :
  ((m ≫= k) ≫= h) s = (m ≫= (fun a => k a ≫= h)) s.
Proof. unfold mbind, M_bind. by destruct (m s) as [[? ?]|?]. Qed.

Lemma repeatM_app {S A} n k (m : M S A) s xs s1 ys s2 :
  repeatM n m s = Done (xs, s1) -> repeatM k m s1 = Done (ys, s2) ->
  repeatM (n + k) m s = Done (xs ++ ys, s2).
Proof.
  revert s xs. induction n as [|n IH]; intros s xs H1 H2; cbn in *.
  - unfold mret, M_ret in H1. by injection H1 as <- <-.
  - apply bind_inv in H1 as (x & s3 & Hm & H1). apply bind_inv in H1 as (xs' & s4 & Hr & H1).
    unfold mret, M_ret in H1. injection H1 as <- <-.
    erewrite bind_done by exact Hm. erewrite bind_done by (eapply IH; eauto). done.
Qed.

(** Reduce the monadic plumbing at the head of a goal or hypothesis. *)
Ltac mred := cbv beta iota delta [mret mbind M_ret M_bind get gets put modify assert_
                  of_option stop_ zoom fst snd].
Tactic Notation "mred" "in" hyp(H) :=
  cbv beta iota delta [mret mbind M_ret M_bind get gets put modify assert_ of_option
       stop_ zoom fst snd] in H.

(** Decide the integer test that blocks the goal, dropping impossible branches. *)
Ltac zcase :=
  match goal with
  | |- context [?a =? ?b] => destruct (Z.eqb_spec a b); try lia
  | |- context [?a <? ?b] => destruct (Z.ltb_spec a b); try lia
  | |- context [?a <=? ?b] => destruct (Z.leb_spec a b); try lia
  end.

(** Drop the wrap-arounds that [lia] proves idle. *)
Ltac u32_away :=
  repeat match goal with
  | |- context [u32 ?x] => rewrite (u32_small x) by (unfold is_u32 in *; lia)
  end.

(** Close a decidable goal by evaluating its decision procedure. *)
Ltac by_decision := refine (bool_decide_unpack _ _); vm_compute; exact I.

(** Split a hypothesis [run s = Done _] at its binds. *)
Ltac minv H :=
  lazymatch type of H with
  | (_ ≫= _) _ = Done _ =>
      let a := fresh "a" in let s := fresh "s" in
      let H1 := fresh H in let H2 := fresh H in
      apply bind_inv in H as (a & s & H1 & H2); minv H1; minv H2
  | mret _ _ = Done _ => mred in H; simplify_eq H
  | _ => idtac
  end.

(** ** Weakest preconditions

    [wp m s Q]: from [s] the run [m] ends normally and its result satisfies [Q]. *)

Definition wp {S A} (m : M S A) (s : S) (Q : A -> S -> Prop) : Prop :=
  match m s with Done (a, s') => Q a s' | Stop _ => False end.

Lemma wp_done {S A} (m : M S A) s Q : wp m s Q <-> exists a s', m s = Done (a, s') /\ Q a s'.
Proof.
  unfold wp. split.
  - destruct (m s) as [[a s']|w]; [|done]. intros HQ. by exists a, s'.
  - intros (a & s' & -> & HQ). done.
Qed.
Lemma wp_mono {S A} (m : M S A) s (Q Q' : A -> S -> Prop) :
  wp m s Q -> (forall a s', Q a s' -> Q' a s') -> wp m s Q'.
Proof. unfold wp. destruct (m s) as [[a s']|w]; auto. Qed.
Lemma wp_use {S A} (m : M S A) s a s' (Q : A -> S -> Prop) : m s = Done (a, s') -> Q a s' -> wp m s Q.
Proof. unfold wp. by intros ->. Qed.
Lemma wp_run {S A} (m : M S A) s a s' (Q : A -> S -> Prop) : wp m s Q -> m s = Done (a, s') -> Q a s'.
Proof. unfold wp. by intros HQ Hm; rewrite Hm in HQ. Qed.
Lemma wp_bind {S A B} (m : M S A) (k : A -> M S B) s Q :
  wp m s (fun a s' => wp (k a) s' Q) -> wp (m ≫= k) s Q.
Proof. unfold wp, mbind, M_bind. by destruct (m s) as [[a s']|w]. Qed.
Lemma wp_ret {S A} (a : A) (s : S) (Q : A -> S -> Prop) : Q a s -> wp (mret a) s Q.
Proof. done. Qed.
Lemma wp_get {S} (s : S) (Q : S -> S -> Prop) : Q s s -> wp get s Q.
Proof. done. Qed.
Lemma wp_gets {S A} (f : S -> A) (s : S) (Q : A -> S -> Prop) : Q (f s) s -> wp (gets f) s Q.
Proof. done. Qed.
Lemma wp_put {S} (s s' : S) (Q : unit -> S -> Prop) : Q tt s' -> wp (put s') s Q.
Proof. done. Qed.
Lemma wp_modify {S} (f : S -> S) (s : S) (Q : unit -> S -> Prop) : Q tt (f s) -> wp (modify f) s Q.
Proof. done. Qed.
Lemma wp_assert {S} (b : bool) (s : S) (Q : unit -> S -> Prop) : b = true -> Q tt s -> wp (assert_ b) s Q.
Proof. unfold wp, assert_. by intros ->. Qed.
Lemma wp_of_option {S A} (o : option A) a (s : S) (Q : A -> S -> Prop) :
  o = Some a -> Q a s -> wp (of_option o) s Q.
Proof. unfold wp, of_option. by intros ->. Qed.

Lemma wp_zoom {S T X} (g : S -> T) (f : T -> S -> S) (m : M T X) s (Q : X -> S -> Prop) :
  wp m (g s) (fun x t => Q x (f t s)) -> wp (zoom g f m) s Q.
Proof. unfold wp, zoom. by destruct (m (g s)) as [[x t]|w]. Qed.

(** Run the primitive computation at the head of a [wp] goal; the conditions of
    assertions and partial reads are left to the context. *)
Ltac wp1 :=
  lazymatch goal with
  | |- wp (_ ≫= _) _ _ => apply wp_bind
  | |- wp (mret _) _ _ => apply wp_ret
  | |- wp get _ _ => apply wp_get
  | |- wp (gets _) _ _ => apply wp_gets
  | |- wp (put _) _ _ => apply wp_put
  | |- wp (modify _) _ _ => apply wp_modify
  | |- wp (assert_ _) _ _ => apply wp_assert; [done|]
  | |- wp (of_option _) _ _ => eapply wp_of_option; [eassumption|]
  end; cbv beta.
Ltac wps := repeat wp1.
