(* ===== verification/CMem.v ===== *)
(** Byte memory: what [memcpy], [memset] and the DMA engine see.  An address is
    mapped or not; an access to an unmapped address has no result. *)
From S2P Require Import Prelude.

Abbreviation mem := (gmap Z Z).

Fixpoint load_bytes (m : mem) (a : Z) (n : nat) : option (list Z) :=
  match n with
  | O => Some []
  | S n => b ← m !! a; r ← load_bytes m (a + 1) n; Some (b :: r)
  end.

Fixpoint store_bytes (m : mem) (a : Z) (bs : list Z) : option mem :=
  match bs with
  | [] => Some m
  | b :: r => match m !! a with
              | Some _ => store_bytes (<[a := b]> m) (a + 1) r
              | None => None
              end
  end.

(** [memcpy] of disjoint blocks. *)
Definition copy_bytes (m : mem) (dst src : Z) (n : nat) : option mem :=
  bs ← load_bytes m src n; store_bytes m dst bs.

Definition mapped (m : mem) (a n : Z) : Prop := forall x, a <= x < a + n -> is_Some (m !! x).

(** A block of [n] zero bytes at [a] added to [m]. *)
Fixpoint map_block (m : mem) (a : Z) (n : nat) : mem :=
  match n with
  | O => m
  | S n => <[a := 0]> (map_block m (a + 1) n)
  end.

Lemma load_bytes_length m a n bs : load_bytes m a n = Some bs -> length bs = n.
Proof.
  revert a bs. induction n as [|n IH]; intros a bs; cbn; [by intros [= <-]|].
  intros (b & _ & (r & Hr & [= <-])%bind_Some)%bind_Some. cbn. f_equal. by eapply IH.
Qed.

Lemma load_bytes_mapped m a n : mapped m a (Z.of_nat n) -> is_Some (load_bytes m a n).
Proof.
  revert a. induction n as [|n IH]; intros a H; cbn; [by eexists|].
  destruct (H a) as [b ->]; [lia|]. cbn.
  destruct (IH (a + 1)) as [r ->]; [intros x Hx; apply H; lia|]. by eexists.
Qed.

Lemma load_bytes_frame m m' a n :
  (forall x, a <= x < a + Z.of_nat n -> m' !! x = m !! x) -> load_bytes m' a n = load_bytes m a n.
Proof.
  revert a. induction n as [|n IH]; intros a H; cbn; [done|].
  rewrite H by lia. by rewrite IH by (intros; apply H; lia).
Qed.

Lemma load_bytes_app m a n k :
  load_bytes m a (n + k) =
  (xs ← load_bytes m a n; ys ← load_bytes m (a + Z.of_nat n) k; Some (xs ++ ys)).
Proof.
  revert a. induction n as [|n IH]; intros a; cbn [load_bytes Nat.add].
  - cbn. rewrite Z.add_0_r. by destruct (load_bytes m a k).
  - rewrite IH. replace (a + Z.of_nat (S n)) with (a + 1 + Z.of_nat n) by lia.
    destruct (m !! a); cbn; [|done]. destruct (load_bytes m (a + 1) n); cbn; [|done].
    by destruct (load_bytes m _ k).
Qed.

Lemma load_bytes_take m a n k bs :
  load_bytes m a n = Some bs -> (k <= n)%nat -> load_bytes m a k = Some (take k bs).
Proof.
  intros Hl Hk. replace n with (k + (n - k))%nat in Hl by lia. rewrite load_bytes_app in Hl.
  apply bind_Some in Hl as (xs & Hxs & (ys & _ & [= <-])%bind_Some).
  by rewrite Hxs, take_app_length' by (symmetry; by eapply load_bytes_length).
Qed.

Lemma store_bytes_frame m a bs m' x :
  store_bytes m a bs = Some m' -> x < a \/ a + Z.of_nat (length bs) <= x -> m' !! x = m !! x.
Proof.
  revert m a. induction bs as [|b bs IH]; intros m a; cbn [store_bytes length]; [by intros [= <-]|].
  destruct (m !! a) eqn:E; [|done]. intros Hs Hx. rewrite (IH _ _ Hs) by lia.
  by rewrite lookup_insert_ne by lia.
Qed.

Lemma store_bytes_mapped m a bs :
  mapped m a (Z.of_nat (length bs)) ->
  exists m', store_bytes m a bs = Some m' /\ (forall x, is_Some (m' !! x) <-> is_Some (m !! x)).
Proof.
  revert m a. induction bs as [|b bs IH]; intros m a H; cbn [store_bytes length] in *; [by exists m|].
  destruct (H a) as [c Hc]; [lia|]. rewrite Hc.
  destruct (IH (<[a := b]> m) (a + 1)) as (m' & -> & Hm').
  - intros x Hx. rewrite lookup_insert_ne by lia. apply H. lia.
  - exists m'. split; [done|]. intros x. rewrite Hm'. destruct (decide (x = a)) as [->|N].
    + rewrite lookup_insert_eq, Hc. split; by eauto.
    + by rewrite lookup_insert_ne.
Qed.

Lemma store_load m a bs m' : store_bytes m a bs = Some m' -> load_bytes m' a (length bs) = Some bs.
Proof.
  revert m a. induction bs as [|b bs IH]; intros m a; cbn [store_bytes load_bytes length]; [done|].
  destruct (m !! a) eqn:E; [|done]. intros Hs. rewrite (IH _ _ Hs).
  rewrite (store_bytes_frame _ _ _ _ a Hs) by lia. by rewrite lookup_insert_eq.
Qed.

Lemma store_bytes_app m a xs ys :
  store_bytes m a (xs ++ ys) = (m' ← store_bytes m a xs; store_bytes m' (a + Z.of_nat (length xs)) ys).
Proof.
  revert m a. induction xs as [|x xs IH]; intros m a; cbn [store_bytes app length].
  - cbn. by rewrite Z.add_0_r.
  - destruct (m !! a); [|done]. rewrite IH.
    by replace (a + Z.of_nat (S (length xs))) with (a + 1 + Z.of_nat (length xs)) by lia.
Qed.

Lemma mapped_sub m a n b k : mapped m a n -> a <= b -> b + k <= a + n -> mapped m b k.
Proof. intros H ? ? x ?. apply H. lia. Qed.

Lemma mapped_store m a bs m' b n : store_bytes m a bs = Some m' -> mapped m b n -> mapped m' b n.
Proof.
  revert m a. induction bs as [|c bs IH]; intros m a; cbn [store_bytes length]; [by intros [= <-]|].
  destruct (m !! a) eqn:E; [|done]. intros Hs H. eapply IH; [exact Hs|]. intros x Hx.
  destruct (decide (x = a)) as [->|]; [rewrite lookup_insert_eq; eauto|].
  rewrite lookup_insert_ne by done. by apply H.
Qed.

Lemma map_block_lookup m a n x : a <= x < a + Z.of_nat n -> map_block m a n !! x = Some 0.
Proof.
  revert a. induction n as [|n IH]; intros a Hx; [lia|]. cbn [map_block].
  destruct (decide (x = a)) as [->|]; [by rewrite lookup_insert_eq|].
  rewrite lookup_insert_ne by done. apply IH. lia.
Qed.

Lemma map_block_under m a n b k : mapped m b k -> mapped (map_block m a n) b k.
Proof.
  intros Hm x Hx. revert a. induction n as [|n IH]; intros a; [by apply Hm|]. cbn [map_block].
  destruct (decide (x = a)) as [->|]; [by rewrite lookup_insert_eq|]. by rewrite lookup_insert_ne.
Qed.

Lemma map_block_mapped m a n b k : a <= b -> b + k <= a + Z.of_nat n -> mapped (map_block m a n) b k.
Proof. intros ? ? x ?. rewrite map_block_lookup by lia. eauto. Qed.

Lemma copy_bytes_spec m dst src n :
  mapped m src (Z.of_nat n) -> mapped m dst (Z.of_nat n) ->
  exists bs m', load_bytes m src n = Some bs /\ length bs = n /\
    copy_bytes m dst src n = Some m' /\ store_bytes m dst bs = Some m'.
Proof.
  intros Hs Hd. destruct (load_bytes_mapped _ _ _ Hs) as [bs Hbs].
  pose proof (load_bytes_length _ _ _ _ Hbs) as Hl.
  destruct (store_bytes_mapped m dst bs) as (m' & Hm' & _); [by rewrite Hl|].
  exists bs, m'. unfold copy_bytes. rewrite Hbs. done.
Qed.

(** A slice of a block. *)
Lemma load_bytes_slice m a n bs off k :
  load_bytes m a n = Some bs -> (off + k <= n)%nat ->
  load_bytes m (a + Z.of_nat off) k = Some (take k (drop off bs)).
Proof.
  intros Hl Hk. replace n with (off + (k + (n - off - k)))%nat in Hl by lia.
  rewrite load_bytes_app in Hl. apply bind_Some in Hl as (xs & Hxs & (ys & Hys & [= <-])%bind_Some).
  rewrite drop_app_length' by (symmetry; by eapply load_bytes_length).
  eapply load_bytes_take; [exact Hys|lia].
Qed.

(** Storing in one block leaves another one alone. *)
Lemma load_store_apart m a bs m' b n :
  store_bytes m a bs = Some m' -> b + Z.of_nat n <= a \/ a + Z.of_nat (length bs) <= b ->
  load_bytes m' b n = load_bytes m b n.
Proof.
  intros Hs Hd. apply load_bytes_frame. intros x Hx. eapply store_bytes_frame; [exact Hs|]. lia.
Qed.

Lemma load_is_mapped m a n bs : load_bytes m a n = Some bs -> mapped m a (Z.of_nat n).
Proof.
  revert a bs. induction n as [|n IH]; intros a bs; cbn [load_bytes]; [intros _ x; lia|].
  intros (b & Hb & (r & Hr & _)%bind_Some)%bind_Some x Hx.
  destruct (decide (x = a)) as [->|]; [by eexists|]. eapply IH; [exact Hr|lia].
Qed.

(** Overwriting the front of a block. *)
Lemma load_store_front m a xs m' n bs :
  store_bytes m a xs = Some m' -> load_bytes m a n = Some bs -> (length xs <= n)%nat ->
  load_bytes m' a n = Some (xs ++ drop (length xs) bs).
Proof.
  intros Hs Hl Hn. replace n with (length xs + (n - length xs))%nat by lia. rewrite load_bytes_app.
  rewrite (store_load _ _ _ _ Hs). cbn [mbind option_bind].
  rewrite (load_store_apart _ _ _ _ _ _ Hs) by (right; lia).
  rewrite (load_bytes_slice _ _ _ _ (length xs) (n - length xs) Hl) by lia. cbn.
  by rewrite take_ge by (rewrite length_drop, (load_bytes_length _ _ _ _ Hl); lia).
Qed.

(** Overwriting a part of a block. *)
Definition patch (off : nat) (xs c : list Z) : list Z := take off c ++ xs ++ drop (off + length xs) c.
Lemma patch_length off xs c : (off + length xs <= length c)%nat -> length (patch off xs c) = length c.
Proof. intros Hl. unfold patch. rewrite !length_app, length_take, length_drop. lia. Qed.

Lemma load_store_patch m a off xs m' n c :
  store_bytes m (a + Z.of_nat off) xs = Some m' -> load_bytes m a n = Some c -> (off + length xs <= n)%nat ->
  load_bytes m' a n = Some (patch off xs c).
Proof.
  intros Hs Hl Hn. replace n with (off + (length xs + (n - off - length xs)))%nat by lia. rewrite !load_bytes_app.
  rewrite (load_store_apart _ _ _ _ a off Hs), (load_bytes_take _ _ _ off _ Hl) by lia. cbn [mbind option_bind].
  rewrite (store_load _ _ _ _ Hs). cbn [mbind option_bind].
  rewrite (load_store_apart _ _ _ _ _ _ Hs) by lia.
  replace (a + Z.of_nat off + Z.of_nat (length xs)) with (a + Z.of_nat (off + length xs)) by lia.
  rewrite (load_bytes_slice _ _ _ _ (off + length xs) _ Hl) by lia. cbn. unfold patch. do 3 f_equal.
  rewrite take_ge; [done|]. rewrite length_drop, (load_bytes_length _ _ _ _ Hl). lia.
Qed.
