(* ===== verification/Memp.v ===== *)
(** LWIP/src/core/memp.c: pools of elements of a fixed size, with their free
    elements linked through the elements themselves.  MEMP_MEM_MALLOC,
    MEMP_OVERFLOW_CHECK and MEMP_STATS are off; MEMP_SIZE is 0 and MEM_ALIGNMENT is 4.
    The table of pools, whose element sizes are those of the structures of
    the stack, is an argument. *)
From S2P Require Import Prelude.

Definition MEM_ALIGNMENT : Z := 4.
Definition LWIP_MEM_ALIGN (addr : Z) : Z := Z.land (addr + MEM_ALIGNMENT - 1) (Z.lnot (MEM_ALIGNMENT - 1)).
Definition LWIP_MEM_ALIGN_SIZE (size : Z) : Z := Z.land (size + MEM_ALIGNMENT - 1) (Z.lnot (MEM_ALIGNMENT - 1)).

Record memp_desc := mkMempDesc {
  size : Z;
  num : nat;
  base : Z
}.

(** [tab] of each pool (0 is NULL) and the [next] field of the free elements. *)
Record pools := mkPools {
  tab : gmap nat Z;
  links : gmap Z Z
}.

Section Memp.
Context (memp_pools : list memp_desc).

(** The loop of [memp_init_pool] over the remaining elements. *)
Fixpoint link_elements (todo : nat) (ty : nat) (sz memp : Z) (s : pools) : pools :=
  match todo with
  | O => s
  | S todo =>
      let first := default 0 (tab s !! ty) in
      link_elements todo ty sz (memp + sz)
        (mkPools (<[ty := memp]> (tab s)) (<[memp := first]> (links s)))
  end.
Definition memp_init_pool (ty : nat) (desc : memp_desc) (s : pools) : pools :=
  link_elements (num desc) ty (size desc) (LWIP_MEM_ALIGN (base desc))
    (mkPools (<[ty := 0]> (tab s)) (links s)).

Fixpoint init_pools (ty : nat) (descs : list memp_desc) (s : pools) : pools :=
  match descs with
  | [] => s
  | d :: descs => init_pools (S ty) descs (memp_init_pool ty d s)
  end.
Definition memp_init (s : pools) : pools := init_pools 0 memp_pools s.

Definition do_memp_malloc_pool (ty : nat) : M pools Z :=
  s ← get;
  memp ← of_option (tab s !! ty);
  if negb (memp =? 0) then
    next ← of_option (links s !! memp);
    put (mkPools (<[ty := next]> (tab s)) (links s));;
    assert_ (memp mod MEM_ALIGNMENT =? 0);;
    mret memp
  else mret 0.

Definition memp_malloc (ty : nat) : M pools Z :=
  if (Z.of_nat ty <? Z.of_nat (length memp_pools)) then do_memp_malloc_pool ty else mret 0.

Definition do_memp_free_pool (ty : nat) (mem : Z) : M pools unit :=
  assert_ (mem mod MEM_ALIGNMENT =? 0);;
  s ← get;
  first ← of_option (tab s !! ty);
  put (mkPools (<[ty := mem]> (tab s)) (<[mem := first]> (links s))).

Definition memp_free (ty : nat) (mem : Z) : M pools unit :=
  if (Z.of_nat ty <? Z.of_nat (length memp_pools)) then
    if mem =? 0 then mret tt else do_memp_free_pool ty mem
  else mret tt.

(** [memp_malloc_pool] and [memp_free_pool] on a descriptor of the table. *)
Definition memp_malloc_pool (ty : nat) : M pools Z := do_memp_malloc_pool ty.
Definition memp_free_pool (ty : nat) (mem : Z) : M pools unit :=
  if mem =? 0 then mret tt else do_memp_free_pool ty mem.

(** ** The free elements of each pool *)

(** The list [l] of free elements starts at [p]. *)
Fixpoint linked (lk : gmap Z Z) (p : Z) (l : list Z) : Prop :=
  match l with
  | [] => p = 0
  | a :: l => p = a /\ a <> 0 /\ exists n, lk !! a = Some n /\ linked lk n l
  end.

(** The addresses of the elements of a pool. *)
Definition elements (d : memp_desc) : list Z :=
  map (fun i => LWIP_MEM_ALIGN (base d) + size d * Z.of_nat i) (seq 0 (num d)).

(** The pools lie apart, and their elements are aligned and not at NULL. *)
Record pools_ok : Prop := {
  ok_apart : forall i j d e, memp_pools !! i = Some d -> memp_pools !! j = Some e -> i <> j ->
    forall a, a ∈ elements d -> a ∈ elements e -> False;
  ok_elems : forall i d, memp_pools !! i = Some d -> 0 < size d /\ 0 < LWIP_MEM_ALIGN (base d) /\
    size d mod MEM_ALIGNMENT = 0
}.

Definition upd (f : nat -> list Z) (i : nat) (l : list Z) (j : nat) : list Z :=
  if decide (j = i) then l else f j.
Lemma upd_eq f i l : upd f i l i = l.
Proof. unfold upd. by rewrite decide_True. Qed.
Lemma upd_ne f i l j : j <> i -> upd f i l j = f j.
Proof. intros N. unfold upd. by rewrite decide_False. Qed.

(** [free i] are the free elements of pool [i], in the order in which they are given out. *)
Record pools_rep (s : pools) (free : nat -> list Z) : Prop := {
  rep_tab : forall i d, memp_pools !! i = Some d -> exists p, tab s !! i = Some p /\ linked (links s) p (free i);
  rep_free : forall i d, memp_pools !! i = Some d -> free i ⊆ elements d;
  rep_nodup : forall i d, memp_pools !! i = Some d -> NoDup (free i)
}.

Lemma linked_insert lk a v p l : a ∉ l -> linked lk p l -> linked (<[a := v]> lk) p l.
Proof.
  revert p. induction l as [|b l IH]; intros p Hn; cbn [linked]; [done|].
  apply not_elem_of_cons in Hn as [Hab Hn]. intros (-> & Hb & n & Hl & Hr). split; [done|]. split; [done|].
  exists n. rewrite lookup_insert_ne by done. split; [done|]. by apply IH.
Qed.

Lemma align_mod x : LWIP_MEM_ALIGN x mod MEM_ALIGNMENT = 0.
Proof.
  unfold LWIP_MEM_ALIGN, MEM_ALIGNMENT. change (Z.lnot (4 - 1)) with (Z.lnot (Z.ones 2)).
  rewrite <- Z.ldiff_land, Z.ldiff_ones_r, Z.shiftl_mul_pow2 by lia. by rewrite Z.mod_mul.
Qed.

Lemma align_size_eq x : LWIP_MEM_ALIGN_SIZE x = (x + 3) / 4 * 4.
Proof.
  unfold LWIP_MEM_ALIGN_SIZE, MEM_ALIGNMENT. change (Z.lnot (4 - 1)) with (Z.lnot (Z.ones 2)).
  rewrite <- Z.ldiff_land, Z.ldiff_ones_r, Z.shiftl_mul_pow2, Z.shiftr_div_pow2 by lia.
  by replace (x + 4 - 1) with (x + 3) by lia.
Qed.

Context (Hok : pools_ok).

Lemma element_aligned i d a : memp_pools !! i = Some d -> a ∈ elements d ->
  a <> 0 /\ a mod MEM_ALIGNMENT = 0.
Proof.
  intros Hd (k & -> & _)%list_elem_of_fmap. destruct (ok_elems Hok i d Hd) as (H1 & H2 & H3).
  split; [nia|]. rewrite Z.add_mod, align_mod by done. unfold MEM_ALIGNMENT in *.
  rewrite <- Z.mul_mod_idemp_l, H3 by lia. done.
Qed.

Lemma elements_nodup i d : memp_pools !! i = Some d -> NoDup (elements d).
Proof.
  intros Hd. destruct (ok_elems Hok i d Hd) as (H1 & _). apply NoDup_fmap_2; [|apply NoDup_ListNoDup, seq_NoDup].
  intros x y E. nia.
Qed.

Lemma in_table ty d : memp_pools !! ty = Some d -> (Z.of_nat ty <? Z.of_nat (length memp_pools)) = true.
Proof. intros Hd. apply lookup_lt_Some in Hd. apply Z.ltb_lt. lia. Qed.

Lemma memp_malloc_empty s free ty d : pools_rep s free -> memp_pools !! ty = Some d -> free ty = [] ->
  memp_malloc ty s = Done (0, s).
Proof.
  intros Hr Hd Hf. destruct (rep_tab _ _ Hr ty d Hd) as (p & Hp & Hl). rewrite Hf in Hl. cbn in Hl. subst p.
  unfold memp_malloc. rewrite (in_table _ _ Hd). unfold do_memp_malloc_pool. mred. by rewrite Hp.
Qed.

Lemma memp_malloc_some s free ty d a l : pools_rep s free -> memp_pools !! ty = Some d -> free ty = a :: l ->
  wp (memp_malloc ty) s (fun r s' => r = a /\ pools_rep s' (upd free ty l)).
Proof.
  intros Hr Hd Hf. destruct (rep_tab _ _ Hr ty d Hd) as (p & Hp & Hl). rewrite Hf in Hl.
  destruct Hl as (-> & Ha & n & Hn & Hl).
  assert (Hin : a ∈ elements d) by (apply (rep_free _ _ Hr ty d Hd); rewrite Hf; left).
  destruct (element_aligned ty d a Hd Hin) as [Hz Hal].
  unfold memp_malloc. rewrite (in_table _ _ Hd). unfold do_memp_malloc_pool. wps.
  destruct (Z.eqb_spec a 0) as [|_]; [done|]. cbn [negb]. wps.
  apply wp_assert; [by apply Z.eqb_eq|]. wps. split; [done|]. constructor; intros i e He; cbn [tab links];
    (destruct (decide (i = ty)) as [->|N]; [rewrite upd_eq|rewrite upd_ne by done]).
  - exists n. by rewrite lookup_insert_eq.
  - rewrite lookup_insert_ne by done. by apply (rep_tab _ _ Hr i e).
  - pose proof (rep_free _ _ Hr ty e He) as H2. rewrite Hf in H2. set_solver.
  - by apply (rep_free _ _ Hr i e).
  - pose proof (rep_nodup _ _ Hr ty e He) as H2. rewrite Hf in H2. by apply NoDup_cons in H2 as [_ H2].
  - by apply (rep_nodup _ _ Hr i e).
Qed.

Lemma memp_free_run s free ty d a : pools_rep s free -> memp_pools !! ty = Some d ->
  a ∈ elements d -> a ∉ free ty ->
  wp (memp_free ty a) s (fun _ s' => pools_rep s' (upd free ty (a :: free ty))).
Proof.
  intros Hr Hd Hin Hn. destruct (rep_tab _ _ Hr ty d Hd) as (p & Hp & Hl).
  destruct (element_aligned ty d a Hd Hin) as [Hz Hal].
  unfold memp_free. rewrite (in_table _ _ Hd). destruct (Z.eqb_spec a 0) as [|_]; [done|].
  unfold do_memp_free_pool. wps. apply wp_assert; [by apply Z.eqb_eq|]. wps.
  constructor; intros i e He; cbn [tab links];
    (destruct (decide (i = ty)) as [->|N]; [rewrite upd_eq|rewrite upd_ne by done]).
  - exists a. rewrite lookup_insert_eq. split; [done|]. cbn [linked]. split; [done|]. split; [done|].
    exists p. rewrite lookup_insert_eq. split; [done|]. by apply linked_insert.
  - rewrite lookup_insert_ne by done. destruct (rep_tab _ _ Hr i e He) as (q & Hq & Hlq). exists q. split; [done|].
    apply linked_insert; [|done]. intros Hai. apply (ok_apart Hok i ty e d He Hd N a); [|done].
    by apply (rep_free _ _ Hr i e He).
  - assert (e = d) as -> by congruence. pose proof (rep_free _ _ Hr ty d Hd). set_solver.
  - by apply (rep_free _ _ Hr i e).
  - constructor; [done|]. by apply (rep_nodup _ _ Hr ty e).
  - by apply (rep_nodup _ _ Hr i e).
Qed.

(** ** Initialisation *)

Lemma link_elements_run todo ty sz memp s p l :
  tab s !! ty = Some p -> linked (links s) p l -> 0 < sz -> 0 < memp -> (forall a, a ∈ l -> a < memp) ->
  let new := map (fun i => memp + sz * Z.of_nat i) (seq 0 todo) in
  let s' := link_elements todo ty sz memp s in
  (exists p', tab s' !! ty = Some p' /\ linked (links s') p' (reverse new ++ l)) /\
  (forall i, i <> ty -> tab s' !! i = tab s !! i) /\
  (forall a, a ∉ new -> links s' !! a = links s !! a).
Proof.
  revert memp s p l. induction todo as [|todo IH]; intros memp s p l Hp Hl Hsz Hm Hlt; cbn [seq map link_elements].
  - rewrite reverse_nil. cbn. eauto.
  - rewrite Hp. cbn [default]. set (s1 := mkPools _ _).
    assert (Hl1 : linked (links s1) memp (memp :: l)).
    { cbn [links s1 linked]. split; [done|]. split; [lia|]. exists p. rewrite lookup_insert_eq. split; [done|].
      apply linked_insert; [|done]. intros Hin. specialize (Hlt _ Hin). lia. }
    destruct (IH (memp + sz) s1 memp (memp :: l)) as (H1 & H2 & H3);
      [by cbn; rewrite lookup_insert_eq|done|lia|lia| |].
    { intros a [->|Hin]%elem_of_cons; [lia|]. specialize (Hlt _ Hin). lia. }
    assert (Hnew : map (fun i => memp + sz * Z.of_nat i) (seq 1 todo) =
      map (fun i => memp + sz + sz * Z.of_nat i) (seq 0 todo)).
    { rewrite <- seq_shift, map_map. apply map_ext. intros i. lia. }
    rewrite Hnew, reverse_cons, <- app_assoc, Z.mul_0_r, Z.add_0_r. cbn [app]. split; [done|]. split.
    + intros i N. rewrite H2 by done. cbn. by rewrite lookup_insert_ne.
    + intros a N. apply not_elem_of_cons in N as [N1 N2]. rewrite H3 by done. cbn. by rewrite lookup_insert_ne.
Qed.

Lemma memp_init_pool_run ty d s : 0 < size d -> 0 < LWIP_MEM_ALIGN (base d) ->
  let s' := memp_init_pool ty d s in
  (exists p', tab s' !! ty = Some p' /\ linked (links s') p' (reverse (elements d))) /\
  (forall i, i <> ty -> tab s' !! i = tab s !! i) /\
  (forall a, a ∉ elements d -> links s' !! a = links s !! a).
Proof.
  intros Hsz Hb. cbv zeta. unfold memp_init_pool. set (s1 := mkPools _ _).
  destruct (link_elements_run (num d) ty (size d) (LWIP_MEM_ALIGN (base d)) s1 0 []) as (H1 & H2 & H3);
    [by cbn; rewrite lookup_insert_eq|done|done|done|by intros a ?%elem_of_nil|].
  rewrite app_nil_r in H1. split; [done|]. split; [|done].
  intros i N. rewrite H2 by done. cbn. by rewrite lookup_insert_ne.
Qed.

Lemma linked_frame lk lk' p l : (forall a, a ∈ l -> lk' !! a = lk !! a) -> linked lk p l -> linked lk' p l.
Proof.
  revert p. induction l as [|b l IH]; intros p He; cbn [linked]; [done|].
  intros (-> & Hb & n & Hl & Hr). split; [done|]. split; [done|].
  exists n. rewrite He by (by left). split; [done|]. apply IH; [|done]. intros a Ha. apply He. by right.
Qed.

Lemma init_pools_run ty descs s :
  descs = drop ty memp_pools ->
  (forall i d, (i < ty)%nat -> memp_pools !! i = Some d ->
    exists p, tab s !! i = Some p /\ linked (links s) p (reverse (elements d))) ->
  forall i d, memp_pools !! i = Some d ->
    exists p, tab (init_pools ty descs s) !! i = Some p /\
      linked (links (init_pools ty descs s)) p (reverse (elements d)).
Proof.
  revert ty s. induction descs as [|e descs IH]; intros ty s Hdrop Hs i d Hd; cbn [init_pools].
  - apply Hs; [|done]. apply lookup_lt_Some in Hd. destruct (decide (i < ty)%nat); [done|].
    assert (Hl : length (drop ty memp_pools) = 0%nat) by (by rewrite <- Hdrop). rewrite length_drop in Hl. lia.
  - assert (He : memp_pools !! ty = Some e) by (rewrite <- (Nat.add_0_r ty), <- lookup_drop, <- Hdrop; done).
    destruct (ok_elems Hok ty e He) as (H1 & H2 & _).
    destruct (memp_init_pool_run ty e s H1 H2) as ((p & Hp & Hl) & Ht & Hk).
    apply IH; [|..|done].
    + rewrite <- Nat.add_1_r, <- drop_drop, <- Hdrop. done.
    + intros j f Hj Hf. destruct (decide (j = ty)) as [->|N].
      * assert (f = e) as -> by congruence. by exists p.
      * rewrite Ht by done. destruct (Hs j f ltac:(lia) Hf) as (q & Hq & Hlq). exists q. split; [done|].
        eapply linked_frame; [|exact Hlq]. intros a Ha. apply Hk. intros Hae.
        apply (ok_apart Hok j ty f e Hf He N a); [by rewrite elem_of_reverse in Ha|done].
Qed.

(** The free elements after initialisation. *)
Definition all_free (i : nat) : list Z := reverse (default [] (elements <$> memp_pools !! i)).

Lemma memp_init_run s : pools_rep (memp_init s) all_free.
Proof.
  constructor; intros i d Hd; unfold all_free; rewrite Hd; cbn [fmap option_fmap option_map default].
  - apply init_pools_run; [done|lia|done].
  - intros a. by rewrite elem_of_reverse.
  - rewrite reverse_Permutation. by eapply elements_nodup.
Qed.

(** [used i] are the elements of pool [i] that are handed out. *)
Definition partition (s : pools) (used : nat -> list Z) : Prop :=
  exists free, pools_rep s free /\
    forall i d, memp_pools !! i = Some d -> Permutation (free i ++ used i) (elements d).

Lemma partition_init s : partition (memp_init s) (fun _ => []).
Proof.
  exists all_free. split; [apply memp_init_run|]. intros i e He. unfold all_free. rewrite He, app_nil_r.
  cbn [fmap option_fmap option_map default]. by rewrite reverse_Permutation.
Qed.

(** *** Properties *)

(** C25: after [memp_init] no element is in use.  From then on [memp_malloc] on a
    pool returns NULL exactly when all its elements are in use, and otherwise an
    aligned element of that pool that is not in use; [memp_free] of an element in
    use makes it available again; neither touches another pool. *)
Theorem memp_elements_partitioned s0 s used ty d a : partition s used -> memp_pools !! ty = Some d ->
  partition (memp_init s0) (fun _ => []) /\
  (exists r s', memp_malloc ty s = Done (r, s') /\
    (if bool_decide (length (used ty) = num d) then r = 0 /\ s' = s
     else r ∈ elements d /\ ~ (r ∈ used ty) /\ (r mod MEM_ALIGNMENT = 0) /\
       partition s' (upd used ty (r :: used ty)))) /\
  (a ∈ used ty -> exists s' l, memp_free ty a s = Done (tt, s') /\ Permutation (used ty) (a :: l) /\
    partition s' (upd used ty l)).
Proof.
  intros (free & Hr & Hp) Hd. split; [|split].
  - apply partition_init.
  - pose proof (Hp ty d Hd) as Hpt. pose proof (Permutation_length Hpt) as Hlen.
    unfold elements in Hlen. rewrite length_app, length_map, length_seq in Hlen.
    destruct (free ty) as [|b l] eqn:Ef.
    + cbn in Hlen. rewrite bool_decide_eq_true_2 by done. exists 0, s. by rewrite (memp_malloc_empty s free ty d).
    + cbn in Hlen. rewrite bool_decide_eq_false_2 by lia.
      destruct (proj1 (wp_done _ _ _) (memp_malloc_some s free ty d b l Hr Hd Ef)) as (r & s' & Hrun & -> & Hr').
      exists b, s'. split; [done|]. assert (Hb : b ∈ elements d) by (rewrite <- Hpt; by left).
      pose proof (elements_nodup ty d Hd) as Hnd. rewrite <- Hpt in Hnd. cbn in Hnd.
      split; [done|]. split; [apply NoDup_cons in Hnd as [Hnb _]; set_solver|].
      split; [by eapply element_aligned|]. exists (upd free ty l). split; [done|].
      intros i e He. destruct (decide (i = ty)) as [->|N]; [rewrite !upd_eq|rewrite !upd_ne by done; by apply Hp].
      assert (e = d) as -> by congruence. rewrite <- Hpt. by rewrite <- Permutation_middle.
  - intros Ha. apply elem_of_Permutation in Ha as [l Hl]. pose proof (Hp ty d Hd) as Hpt.
    pose proof (elements_nodup ty d Hd) as Hnd. rewrite <- Hpt in Hnd.
    assert (Hin : a ∈ elements d) by (rewrite <- Hpt, Hl; set_solver).
    assert (Hnf : a ∉ free ty) by (rewrite Hl in Hnd; apply NoDup_app in Hnd as (_ & Hx & _); intros Hf; apply (Hx a Hf); by left).
    destruct (proj1 (wp_done _ _ _) (memp_free_run s free ty d a Hr Hd Hin Hnf)) as ([] & s' & Hrun & Hr').
    exists s', l. split; [done|]. split; [done|]. exists (upd free ty (a :: free ty)). split; [done|].
    intros i e He. destruct (decide (i = ty)) as [->|N]; [rewrite !upd_eq|rewrite !upd_ne by done; by apply Hp].
    assert (e = d) as -> by congruence. rewrite <- Hpt, Hl. cbn. by rewrite Permutation_middle.
Qed.
End Memp.

(** ** The property on two small pools *)

Definition two_pools : list memp_desc := [mkMempDesc 16 3 1000; mkMempDesc 528 2 2002].
Lemma two_pools_ok : pools_ok two_pools.
Proof.
  constructor.
  - intros [|[|i]] [|[|j]] d e; cbn; intros [= <-] [= <-] N a; try done;
      vm_compute (elements _); rewrite !elem_of_cons, !elem_of_nil; lia.
  - intros [|[|i]] d; cbn; intros [= <-]; by_decision.
Qed.

Lemma memp_elements_partitioned_witness :
  exists r s', memp_malloc two_pools 1 (memp_init two_pools (mkPools ∅ ∅)) = Done (r, s') /\ r mod 4 = 0.
Proof.
  destruct (memp_elements_partitioned two_pools two_pools_ok (mkPools ∅ ∅) (memp_init two_pools (mkPools ∅ ∅))
    (fun _ => []) 1 (mkMempDesc 528 2 2002) 0) as (_ & (r & s' & H1 & H2) & _).
  - apply (partition_init two_pools two_pools_ok).
  - reflexivity.
  - exists r, s'. split; [exact H1|]. destruct H2 as (_ & _ & H3 & _). exact H3.
Defined.
