(* ===== verification/Pbuf.v ===== *)
(** LWIP/src/core/pbuf.c: packet buffers.  The headers are a store indexed by
    address, the payload bytes lie in byte memory; a freed pbuf has no header any
    more, so that its use is a [Fault].  The pools and the heap the pbufs come
    from are an interface, [PbufAlloc].  Custom pbufs, checksum on copy and
    [pbuf_split_64k] are compiled out.  Every loop over a chain has as many
    iterations as there are pbufs, plus one. *)
From S2P Require Import Prelude CMem Memp.

Definition PBUF_TRANSPORT : Z := 54.
Definition PBUF_IP : Z := 34.
Definition PBUF_LINK : Z := 14.
Definition PBUF_RAW : Z := 0.
Definition PBUF_TYPE_FLAG_STRUCT_DATA_CONTIGUOUS : Z := 128.
Definition PBUF_TYPE_FLAG_DATA_VOLATILE : Z := 64.
Definition PBUF_TYPE_ALLOC_SRC_MASK : Z := 15.
Definition PBUF_ALLOC_FLAG_RX : Z := 256.
Definition PBUF_ALLOC_FLAG_DATA_CONTIGUOUS : Z := 512.
Definition PBUF_TYPE_ALLOC_SRC_MASK_STD_HEAP : Z := 0.
Definition PBUF_TYPE_ALLOC_SRC_MASK_STD_MEMP_PBUF : Z := 1.
Definition PBUF_TYPE_ALLOC_SRC_MASK_STD_MEMP_PBUF_POOL : Z := 2.
Definition PBUF_RAM : Z := Z.lor (Z.lor PBUF_ALLOC_FLAG_DATA_CONTIGUOUS PBUF_TYPE_FLAG_STRUCT_DATA_CONTIGUOUS)
                             PBUF_TYPE_ALLOC_SRC_MASK_STD_HEAP.
Definition PBUF_ROM : Z := PBUF_TYPE_ALLOC_SRC_MASK_STD_MEMP_PBUF.
Definition PBUF_REF : Z := Z.lor PBUF_TYPE_FLAG_DATA_VOLATILE PBUF_TYPE_ALLOC_SRC_MASK_STD_MEMP_PBUF.
Definition PBUF_POOL : Z := Z.lor (Z.lor PBUF_ALLOC_FLAG_RX PBUF_TYPE_FLAG_STRUCT_DATA_CONTIGUOUS)
                              PBUF_TYPE_ALLOC_SRC_MASK_STD_MEMP_PBUF_POOL.
Definition SIZEOF_STRUCT_PBUF : Z := 16.
Definition PBUF_POOL_BUFSIZE_ALIGNED : Z := 512.
Definition NETIF_NO_INDEX : Z := 0.

Record pbuf := mkPbuf {
  next : Z;
  payload : Z;
  tot_len : Z;
  len : Z;
  type_internal : Z;
  flags : Z;
  ref : Z;
  if_idx : Z
}.
Definition set_next (v : Z) (b : pbuf) :=
  mkPbuf v (payload b) (tot_len b) (len b) (type_internal b) (flags b) (ref b) (if_idx b).
Definition set_lens (tl l : Z) (b : pbuf) :=
  mkPbuf (next b) (payload b) tl l (type_internal b) (flags b) (ref b) (if_idx b).
Definition set_tot_len (tl : Z) (b : pbuf) := set_lens tl (len b) b.
Definition set_payload (v : Z) (b : pbuf) :=
  mkPbuf (next b) v (tot_len b) (len b) (type_internal b) (flags b) (ref b) (if_idx b).
Definition set_ref (v : Z) (b : pbuf) :=
  mkPbuf (next b) (payload b) (tot_len b) (len b) (type_internal b) (flags b) v (if_idx b).

(** The pools pbufs and the queues of packets use. *)
Inductive memp_t := MEMP_PBUF | MEMP_PBUF_POOL | MEMP_ARP_QUEUE.

(** What pbufs ask of the allocators (0 is NULL), and the call that queues
    [pbuf_free_ooseq] in the thread of the stack. *)
Class PbufAlloc (A : Type) := {
  memp_malloc : memp_t -> A -> Z * A;
  memp_free : memp_t -> Z -> A -> A;
  mem_malloc : Z -> A -> Z * A;
  mem_free : Z -> A -> A;
  mem_trim : Z -> Z -> A -> Z * A;
  tcpip_try_callback : A -> Z * A
}.

Record pst (A : Type) := mkPst {
  pbufs : gmap Z pbuf;
  pmem : mem;
  palloc : A;
  pbuf_free_ooseq_pending : Z
}.
Arguments mkPst {_}.
Arguments pbufs {_}.
Arguments pmem {_}.
Arguments palloc {_}.
Arguments pbuf_free_ooseq_pending {_}.

Section Pbuf.
Context {A : Type} `{PbufAlloc A}.
Abbreviation St := (pst A).

Definition set_pbufs (m : gmap Z pbuf) (s : St) : St := mkPst m (pmem s) (palloc s) (pbuf_free_ooseq_pending s).
Definition set_pmem (m : mem) (s : St) : St := mkPst (pbufs s) m (palloc s) (pbuf_free_ooseq_pending s).
Definition set_palloc (a : A) (s : St) : St := mkPst (pbufs s) (pmem s) a (pbuf_free_ooseq_pending s).
Definition set_pending (v : Z) (s : St) : St := mkPst (pbufs s) (pmem s) (palloc s) v.

Definition rd (p : Z) : M St pbuf := s ← get; of_option (pbufs s !! p).
Definition wr (p : Z) (f : pbuf -> pbuf) : M St unit :=
  b ← rd p; modify (fun s => set_pbufs (<[p := f b]> (pbufs s)) s).
Definition on_alloc (f : A -> Z * A) : M St Z :=
  s ← get; let '(p, a) := f (palloc s) in put (set_palloc a s);; mret p.
Definition release (f : A -> A) : M St unit := modify (fun s => set_palloc (f (palloc s)) s).
Definition MEMCPY (dst src n : Z) : M St unit :=
  s ← get; m ← of_option (copy_bytes (pmem s) dst src (Z.to_nat n)); put (set_pmem m s).
(** Enough for a loop over any chain of the store. *)
Definition chain_fuel : M St nat := gets (fun s => S (base.size (pbufs s))).

Definition pbuf_pool_is_empty : M St unit :=
  s ← get;
  let queued := pbuf_free_ooseq_pending s in
  put (set_pending 1 s);;
  if queued =? 0 then
    err ← on_alloc tcpip_try_callback;
    if negb (err =? ERR_OK) then modify (set_pending 0) else mret tt
  else mret tt.

Definition pbuf_init_alloced_pbuf (p pl tl l type fl : Z) : M St unit :=
  modify (fun s => set_pbufs (<[p := mkPbuf 0 pl tl l (u8 type) fl 1 NETIF_NO_INDEX]> (pbufs s)) s).

(** ** Reference counts *)

Fixpoint free_loop (fuel : nat) (p count : Z) : M St Z :=
  match fuel with
  | O => stop_ NoFuel
  | S fuel =>
      if p =? 0 then mret count
      else
        b ← rd p;
        assert_ (0 <? ref b);;
        let r := u8 (ref b - 1) in
        wr p (set_ref r);;
        if r =? 0 then
          let alloc_src := Z.land (type_internal b) PBUF_TYPE_ALLOC_SRC_MASK in
          (if alloc_src =? PBUF_TYPE_ALLOC_SRC_MASK_STD_MEMP_PBUF_POOL then release (memp_free MEMP_PBUF_POOL p)
           else if alloc_src =? PBUF_TYPE_ALLOC_SRC_MASK_STD_MEMP_PBUF then release (memp_free MEMP_PBUF p)
           else if alloc_src =? PBUF_TYPE_ALLOC_SRC_MASK_STD_HEAP then release (mem_free p)
           else stop_ Asserted);;
          modify (fun s => set_pbufs (delete p (pbufs s)) s);;
          free_loop fuel (next b) (u8 (count + 1))
        else mret count
  end.
Definition pbuf_free (p : Z) : M St Z :=
  assert_ (negb (p =? 0));;
  n ← chain_fuel;
  free_loop n p 0.

Definition pbuf_ref (p : Z) : M St unit :=
  if p =? 0 then mret tt
  else
    wr p (fun b => set_ref (u8 (ref b + 1)) b);;
    b ← rd p;
    assert_ (0 <? ref b).

(** ** Allocation *)

Definition pbuf_alloc_reference (pl length type : Z) : M St Z :=
  assert_ ((type =? PBUF_REF) || (type =? PBUF_ROM));;
  p ← on_alloc (memp_malloc MEMP_PBUF);
  if p =? 0 then mret 0
  else pbuf_init_alloced_pbuf p pl length length type 0;; mret p.

Fixpoint alloc_pool (fuel : nat) (offset rem_len p last type : Z) : M St Z :=
  match fuel with
  | O => stop_ NoFuel
  | S fuel =>
      q ← on_alloc (memp_malloc MEMP_PBUF_POOL);
      if q =? 0 then
        pbuf_pool_is_empty;;
        (if negb (p =? 0) then pbuf_free p;; mret tt else mret tt);;
        mret 0
      else
        let qlen := Z.min rem_len (u16 (PBUF_POOL_BUFSIZE_ALIGNED - LWIP_MEM_ALIGN_SIZE offset)) in
        let pl := LWIP_MEM_ALIGN (q + SIZEOF_STRUCT_PBUF + offset) in
        pbuf_init_alloced_pbuf q pl rem_len qlen type 0;;
        assert_ (pl mod MEM_ALIGNMENT =? 0);;
        assert_ (0 <? u32 (PBUF_POOL_BUFSIZE_ALIGNED - LWIP_MEM_ALIGN_SIZE offset));;
        (if p =? 0 then mret tt else wr last (set_next q));;
        let p := if p =? 0 then q else p in
        let rem_len := u16 (rem_len - qlen) in
        if 0 <? rem_len then alloc_pool fuel 0 rem_len p q type else mret p
  end.

Definition pbuf_alloc (layer length type : Z) : M St Z :=
  let offset := u16 layer in
  if (type =? PBUF_REF) || (type =? PBUF_ROM) then pbuf_alloc_reference 0 length type
  else if type =? PBUF_POOL then alloc_pool (S (Z.to_nat length)) offset length 0 0 type
  else if type =? PBUF_RAM then
    let payload_len := u16 (LWIP_MEM_ALIGN_SIZE offset + LWIP_MEM_ALIGN_SIZE length) in
    let alloc_len := u16 (LWIP_MEM_ALIGN_SIZE SIZEOF_STRUCT_PBUF + payload_len) in
    if (payload_len <? LWIP_MEM_ALIGN_SIZE length) || (alloc_len <? LWIP_MEM_ALIGN_SIZE length)
    then mret 0
    else
      p ← on_alloc (mem_malloc alloc_len);
      if p =? 0 then mret 0
      else
        let pl := LWIP_MEM_ALIGN (p + SIZEOF_STRUCT_PBUF + offset) in
        pbuf_init_alloced_pbuf p pl length length type 0;;
        assert_ (pl mod MEM_ALIGNMENT =? 0);;
        mret p
  else stop_ Asserted.

(** ** Headers *)

(** Non-zero is failure. *)
Definition pbuf_add_header_impl (p inc : Z) (force : bool) : M St Z :=
  assert_ (negb (p =? 0));;
  if 65535 <? inc then mret 1
  else if inc =? 0 then mret 0
  else
    b ← rd p;
    let increment_magnitude := u16 inc in
    if u16 (increment_magnitude + tot_len b) <? increment_magnitude then mret 1
    else
      let pl := payload b - inc in
      let grow := wr p (fun b => set_lens (u16 (tot_len b + increment_magnitude))
                                          (u16 (len b + increment_magnitude)) (set_payload pl b));; mret 0 in
      if nz (Z.land (type_internal b) PBUF_TYPE_FLAG_STRUCT_DATA_CONTIGUOUS) then
        if pl <? p + SIZEOF_STRUCT_PBUF then mret 1 else grow
      else if force then grow else mret 1.
Definition pbuf_add_header (p inc : Z) : M St Z := pbuf_add_header_impl p inc false.
Definition pbuf_add_header_force (p inc : Z) : M St Z := pbuf_add_header_impl p inc true.

Definition pbuf_remove_header (p dec : Z) : M St Z :=
  assert_ (negb (p =? 0));;
  if 65535 <? dec then mret 1
  else if dec =? 0 then mret 0
  else
    b ← rd p;
    let increment_magnitude := u16 dec in
    if negb (increment_magnitude <=? len b) then mret 1
    else
      wr p (fun b => set_lens (u16 (tot_len b - increment_magnitude)) (u16 (len b - increment_magnitude))
                              (set_payload (payload b + dec) b));;
      mret 0.

Definition pbuf_header_impl (p inc : Z) (force : bool) : M St Z :=
  if inc <? 0 then pbuf_remove_header p (- inc) else pbuf_add_header_impl p inc force.
Definition pbuf_header (p inc : Z) : M St Z := pbuf_header_impl p inc false.
Definition pbuf_header_force (p inc : Z) : M St Z := pbuf_header_impl p inc true.

Fixpoint free_header_loop (fuel : nat) (p free_left : Z) : M St Z :=
  match fuel with
  | O => stop_ NoFuel
  | S fuel =>
      if (free_left =? 0) || (p =? 0) then mret p
      else
        b ← rd p;
        if len b <=? free_left then
          let free_left := u16 (free_left - len b) in
          wr p (set_next 0);;
          pbuf_free p;;
          free_header_loop fuel (next b) free_left
        else
          pbuf_remove_header p free_left;;
          free_header_loop fuel p 0
  end.
Definition pbuf_free_header (q size : Z) : M St Z :=
  n ← chain_fuel;
  free_header_loop (S n) q size.

(** ** Chains *)

Fixpoint clen_loop (fuel : nat) (p n : Z) : M St Z :=
  match fuel with
  | O => stop_ NoFuel
  | S fuel => if p =? 0 then mret n else b ← rd p; clen_loop fuel (next b) (u16 (n + 1))
  end.
Definition pbuf_clen (p : Z) : M St Z := n ← chain_fuel; clen_loop n p 0.

(** Walk to the last pbuf of the head chain, adding the length of the tail. *)
Fixpoint cat_loop (fuel : nat) (p t : Z) : M St Z :=
  match fuel with
  | O => stop_ NoFuel
  | S fuel =>
      b ← rd p;
      if next b =? 0 then mret p
      else
        bt ← rd t;
        wr p (fun b => set_tot_len (u16 (tot_len b + tot_len bt)) b);;
        cat_loop fuel (next b) t
  end.
Definition pbuf_cat (h t : Z) : M St unit :=
  if (h =? 0) || (t =? 0) then mret tt
  else
    n ← chain_fuel;
    p ← cat_loop n h t;
    b ← rd p;
    assert_ (tot_len b =? len b);;
    assert_ (next b =? 0);;
    bt ← rd t;
    wr p (fun b => set_tot_len (u16 (tot_len b + tot_len bt)) b);;
    wr p (set_next t).

Definition pbuf_chain (h t : Z) : M St unit := pbuf_cat h t;; pbuf_ref t.

Definition pbuf_dechain (p : Z) : M St Z :=
  b ← rd p;
  let q := next b in
  tail_gone ← (if negb (q =? 0) then
                 bq ← rd q;
                 assert_ (tot_len bq =? tot_len b - len b);;
                 wr q (set_tot_len (u16 (tot_len b - len b)));;
                 wr p (set_next 0);;
                 wr p (set_tot_len (len b));;
                 pbuf_free q
               else mret 1);
  b ← rd p;
  assert_ (tot_len b =? len b);;
  mret (if 0 <? tail_gone then 0 else q).

(** The walk over the pbufs that stay; returns the new last one and its length. *)
Fixpoint realloc_loop (fuel : nat) (q rem_len shrink : Z) : M St (Z * Z) :=
  match fuel with
  | O => stop_ NoFuel
  | S fuel =>
      b ← rd q;
      if len b <? rem_len then
        wr q (fun b => set_tot_len (u16 (tot_len b - shrink)) b);;
        assert_ (negb (next b =? 0));;
        realloc_loop fuel (next b) (u16 (rem_len - len b)) shrink
      else mret (q, rem_len)
  end.
Definition pbuf_realloc (p new_len : Z) : M St unit :=
  assert_ (negb (p =? 0));;
  b ← rd p;
  if tot_len b <=? new_len then mret tt
  else
    n ← chain_fuel;
    '(q, rem_len) ← realloc_loop n p new_len (u16 (tot_len b - new_len));
    b ← rd q;
    q ← (if (Z.land (type_internal b) PBUF_TYPE_ALLOC_SRC_MASK =? PBUF_TYPE_ALLOC_SRC_MASK_STD_HEAP)
            && negb (rem_len =? len b) then
           q ← on_alloc (mem_trim q (u16 (payload b - q + rem_len)));
           assert_ (negb (q =? 0));;
           mret q
         else mret q);
    wr q (set_lens rem_len rem_len);;
    b ← rd q;
    (if negb (next b =? 0) then pbuf_free (next b);; mret tt else mret tt);;
    wr q (set_next 0).

(** ** Contents *)

(** The pbuf that holds an offset, and the offset in it; 0 when the chain is too short. *)
Fixpoint skip_loop (fuel : nat) (q offset_left : Z) : M St (Z * Z) :=
  match fuel with
  | O => stop_ NoFuel
  | S fuel =>
      if q =? 0 then mret (0, offset_left)
      else
        b ← rd q;
        if len b <=? offset_left then skip_loop fuel (next b) (u16 (offset_left - len b))
        else mret (q, offset_left)
  end.
Definition pbuf_skip (p in_offset : Z) : M St (Z * Z) := n ← chain_fuel; skip_loop n p in_offset.

Fixpoint copy_partial_loop (fuel : nat) (p dataptr left ln offset copied : Z) : M St Z :=
  match fuel with
  | O => stop_ NoFuel
  | S fuel =>
      if (ln =? 0) || (p =? 0) then mret copied
      else
        b ← rd p;
        if negb (offset =? 0) && (len b <=? offset) then
          copy_partial_loop fuel (next b) dataptr left ln (u16 (offset - len b)) copied
        else
          let n := u16 (len b - offset) in
          let n := if ln <? n then ln else n in
          MEMCPY (dataptr + left) (payload b + offset) n;;
          copy_partial_loop fuel (next b) dataptr (u16 (left + n)) (u16 (ln - n)) 0 (u16 (copied + n))
  end.
Definition pbuf_copy_partial (buf dataptr ln offset : Z) : M St Z :=
  if (buf =? 0) || (dataptr =? 0) then mret 0
  else n ← chain_fuel; copy_partial_loop n buf dataptr 0 ln offset 0.

Definition pbuf_get_contiguous (p buffer bufsize ln offset : Z) : M St Z :=
  if (p =? 0) || (buffer =? 0) || (bufsize <? ln) then mret 0
  else
    '(q, out_offset) ← pbuf_skip p offset;
    if negb (q =? 0) then
      b ← rd q;
      if out_offset + ln <=? len b then mret (payload b + out_offset)
      else
        n ← pbuf_copy_partial q buffer ln out_offset;
        mret (if n =? ln then buffer else 0)
    else mret 0.

Fixpoint take_loop (fuel : nat) (p dataptr total_copy_len copied_total : Z) : M St (Z * Z) :=
  match fuel with
  | O => stop_ NoFuel
  | S fuel =>
      if total_copy_len =? 0 then mret (total_copy_len, copied_total)
      else
        assert_ (negb (p =? 0));;
        b ← rd p;
        let n := if len b <? total_copy_len then len b else total_copy_len in
        MEMCPY (payload b) (dataptr + copied_total) n;;
        take_loop fuel (next b) dataptr (total_copy_len - n) (copied_total + n)
  end.
Definition pbuf_take (buf dataptr ln : Z) : M St Z :=
  if (buf =? 0) || (dataptr =? 0) then mret ERR_ARG
  else
    b ← rd buf;
    if tot_len b <? ln then mret ERR_MEM
    else
      n ← chain_fuel;
      '(total_copy_len, copied_total) ← take_loop n buf dataptr ln 0;
      assert_ ((total_copy_len =? 0) && (copied_total =? ln));;
      mret ERR_OK.

Definition pbuf_take_at (buf dataptr ln offset : Z) : M St Z :=
  '(q, target_offset) ← pbuf_skip buf offset;
  if q =? 0 then mret ERR_MEM
  else
    b ← rd q;
    if target_offset + ln <=? tot_len b then
      assert_ (target_offset <? len b);;
      let first_copy_len := u16 (Z.min (len b - target_offset) ln) in
      MEMCPY (payload b + target_offset) dataptr first_copy_len;;
      let remaining_len := u16 (ln - first_copy_len) in
      if 0 <? remaining_len then pbuf_take (next b) (dataptr + first_copy_len) remaining_len
      else mret ERR_OK
    else mret ERR_MEM.

(** [next] and the check against packet queues at the end of an iteration; the
    result is the error to return, if any. *)
Definition queue_check (p : Z) : M St bool :=
  if p =? 0 then mret true
  else b ← rd p; mret (negb (len b =? tot_len b) || (next b =? 0)).

Fixpoint copy_pbuf_loop (fuel : nat) (p_to p_from copy_len offset_to offset_from : Z) : M St Z :=
  match fuel with
  | O => stop_ NoFuel
  | S fuel =>
      bt ← rd p_to;
      bf ← rd p_from;
      let len_calc := if u32 (len bf - offset_from) <=? u32 (len bt - offset_to)
                      then u32 (len bf - offset_from) else u32 (len bt - offset_to) in
      let n := u16 (Z.min copy_len len_calc) in
      MEMCPY (payload bt + offset_to) (payload bf + offset_from) n;;
      let offset_to := u32 (offset_to + n) in
      let offset_from := u32 (offset_from + n) in
      let copy_len := u16 (copy_len - n) in
      assert_ (offset_to <=? len bt);;
      assert_ (offset_from <=? len bf);;
      let '(p_from, offset_from) := if len bf <=? offset_from then (next bf, 0) else (p_from, offset_from) in
      if (p_from =? 0) && negb (copy_len =? 0) then mret ERR_ARG
      else
        let '(p_to, offset_to) := if offset_to =? len bt then (next bt, 0) else (p_to, offset_to) in
        if (p_to =? 0) && negb (copy_len =? 0) then mret ERR_ARG
        else
          ok ← queue_check p_from;
          if negb ok then mret ERR_VAL
          else
            ok ← queue_check p_to;
            if negb ok then mret ERR_VAL
            else if negb (copy_len =? 0) then copy_pbuf_loop fuel p_to p_from copy_len offset_to offset_from
            else mret ERR_OK
  end.

(** Every iteration but the last finishes a pbuf of one of the two chains. *)
Definition pbuf_copy_partial_pbuf (p_to p_from copy_len offset : Z) : M St Z :=
  if p_from =? 0 then mret ERR_ARG
  else
    bf ← rd p_from;
    if tot_len bf <? copy_len then mret ERR_ARG
    else if p_to =? 0 then mret ERR_ARG
    else
      bt ← rd p_to;
      if tot_len bt <? offset + copy_len then mret ERR_ARG
      else n ← chain_fuel; copy_pbuf_loop (n + n) p_to p_from copy_len offset 0.

Definition pbuf_copy (p_to p_from : Z) : M St Z :=
  if p_from =? 0 then mret ERR_ARG
  else bf ← rd p_from; pbuf_copy_partial_pbuf p_to p_from (tot_len bf) 0.

Definition pbuf_clone (layer type p : Z) : M St Z :=
  b ← rd p;
  q ← pbuf_alloc layer (tot_len b) type;
  if q =? 0 then mret 0
  else
    err ← pbuf_copy q p;
    assert_ (err =? ERR_OK);;
    mret q.

Definition pbuf_coalesce (p layer : Z) : M St Z :=
  b ← rd p;
  if next b =? 0 then mret p
  else
    q ← pbuf_clone layer PBUF_RAM p;
    if q =? 0 then mret p
    else pbuf_free p;; mret q.

(** ** Single bytes *)

Definition byte_at (a : Z) : M St Z := s ← get; of_option (pmem s !! a).

(** -1 for an offset behind the end. *)
Definition pbuf_try_get_at (p offset : Z) : M St Z :=
  '(q, q_idx) ← pbuf_skip p offset;
  if q =? 0 then mret (-1)
  else
    b ← rd q;
    if q_idx <? len b then byte_at (payload b + q_idx) else mret (-1).
Definition pbuf_get_at (p offset : Z) : M St Z :=
  ret ← pbuf_try_get_at p offset;
  mret (if 0 <=? ret then u8 ret else 0).

Definition pbuf_put_at (p offset data : Z) : M St unit :=
  '(q, q_idx) ← pbuf_skip p offset;
  if q =? 0 then mret tt
  else
    b ← rd q;
    if q_idx <? len b then
      byte_at (payload b + q_idx);;
      modify (fun s => set_pmem (<[payload b + q_idx := data]> (pmem s)) s)
    else mret tt.

Fixpoint memcmp_loop (todo : nat) (q start i s2 : Z) : M St Z :=
  match todo with
  | O => mret 0
  | S todo =>
      a ← pbuf_get_at q (u16 (start + i));
      b ← byte_at (s2 + i);
      if negb (a =? b) then mret (u16 (Z.min (i + 1) 65535)) else memcmp_loop todo q start (i + 1) s2
  end.
Definition pbuf_memcmp (p offset s2 n : Z) : M St Z :=
  b ← rd p;
  if tot_len b <? offset + n then mret 65535
  else
    '(q, start) ← pbuf_skip p offset;
    memcmp_loop (Z.to_nat n) q start 0 s2.

Fixpoint memfind_loop (todo : nat) (p mem mem_len i : Z) : M St Z :=
  match todo with
  | O => mret 65535
  | S todo =>
      plus ← pbuf_memcmp p i mem mem_len;
      if plus =? 0 then mret i else memfind_loop todo p mem mem_len (u16 (i + 1))
  end.
(** The loop runs from [start_offset] to [max_cmp_start].  This is 0xFFFF, which
    the 16-bit index cannot exceed, only for the empty pattern, and that matches
    in the first iteration. *)
Definition pbuf_memfind (p mem mem_len start_offset : Z) : M St Z :=
  b ← rd p;
  let max_cmp_start := u16 (tot_len b - mem_len) in
  if mem_len + start_offset <=? tot_len b then
    memfind_loop (Z.to_nat (max_cmp_start - start_offset + 1)) p mem mem_len start_offset
  else mret 65535.

(** ** Well-formed chains *)

(** The chain that starts at [p]: the addresses and headers of its pbufs. *)
Fixpoint chain (m : gmap Z pbuf) (p : Z) (l : list (Z * pbuf)) : Prop :=
  match l with
  | [] => p = 0
  | (a, b) :: l => p = a /\ a <> 0 /\ m !! a = Some b /\ chain m (next b) l
  end.

Lemma chain_fun m p l1 l2 : chain m p l1 -> chain m p l2 -> l1 = l2.
Proof.
  revert p l2. induction l1 as [|[a b] l1 IH]; intros p [|[a2 b2] l2]; cbn [chain]; [done|by intros -> (<- & ? & _)|
    by intros (-> & ? & _) ->|].
  intros (-> & H1 & H2 & H3) (-> & H4 & H5 & H6). assert (b = b2) as -> by congruence.
  f_equal. by eapply IH.
Qed.

Lemma pbufs_app m p l1 l2 : chain m p (l1 ++ l2) -> exists q, chain m q l2.
Proof.
  revert p. induction l1 as [|[a b] l1 IH]; intros p; cbn [app chain]; [by eauto|].
  intros (_ & _ & _ & Hc). by eapply IH.
Qed.

Lemma chain_nodup m p l : chain m p l -> NoDup l.*1.
Proof.
  revert p. induction l as [|[a b] l IH]; intros p Hc; cbn; [constructor|].
  pose proof Hc as (-> & Ha & Hb & Hl). constructor; [|by eapply IH].
  intros ([a' b'] & E & Hin)%list_elem_of_fmap. cbn in E. subst a'.
  apply list_elem_of_split in Hin as (l1 & l2 & ->). apply pbufs_app in Hl as [q Hq].
  pose proof Hq as (-> & _). pose proof (chain_fun _ _ _ _ Hc Hq) as E.
  apply (f_equal length) in E. cbn in E. rewrite length_app in E. cbn in E. lia.
Qed.

Lemma chain_lookup m p l a b : chain m p l -> (a, b) ∈ l -> m !! a = Some b.
Proof.
  revert p. induction l as [|[c d] l IH]; intros p; [by intros _ ?%elem_of_nil|].
  intros (_ & _ & Hm & Hc) [[= -> ->]|Hin]%elem_of_cons; [done|by eapply IH].
Qed.

Lemma chain_size m p l : chain m p l -> (length l <= base.size m)%nat.
Proof.
  intros Hc. pose proof (chain_nodup _ _ _ Hc) as Hn.
  rewrite <- (map_size_list_to_map (M := gmap Z) l Hn). apply map_subseteq_size, map_subseteq_spec.
  intros a b Hl. apply elem_of_list_to_map in Hl; [|done]. by eapply chain_lookup.
Qed.

(** Changing headers outside a chain, and changing its links to nothing else. *)
Lemma pbufs_frame m m' p l : chain m p l -> (forall a, a ∈ l.*1 -> m' !! a = m !! a) -> chain m' p l.
Proof.
  revert p. induction l as [|[a b] l IH]; intros p; cbn [chain]; [done|]. intros (-> & Ha & Hm & Hc) Hf.
  split; [done|]. split; [done|]. split; [rewrite Hf; [done|by left]|]. apply IH; [done|].
  intros x Hx. apply Hf. by right.
Qed.

Lemma chain_insert m p l a b : a ∉ l.*1 -> chain m p l -> chain (<[a := b]> m) p l.
Proof. intros Hn Hc. eapply pbufs_frame; [exact Hc|]. intros x Hx. by rewrite lookup_insert_ne by set_solver. Qed.

(** ** [pbuf_free] *)

(** How many pbufs at the head of a chain have no other reference. *)
Fixpoint unshared (l : list (Z * pbuf)) : nat :=
  match l with
  | (a, b) :: l => if ref b =? 1 then S (unshared l) else O
  | [] => O
  end.
Definition alloc_src (b : pbuf) : Z := Z.land (type_internal b) PBUF_TYPE_ALLOC_SRC_MASK.
(** The allocator call that gives a pbuf back. *)
Definition give_back (x : Z * pbuf) (a : A) : A :=
  if alloc_src x.2 =? PBUF_TYPE_ALLOC_SRC_MASK_STD_MEMP_PBUF_POOL then memp_free MEMP_PBUF_POOL x.1 a
  else if alloc_src x.2 =? PBUF_TYPE_ALLOC_SRC_MASK_STD_MEMP_PBUF then memp_free MEMP_PBUF x.1 a
  else mem_free x.1 a.
Definition pbuf_ok (x : Z * pbuf) : Prop := 1 <= ref x.2 < 256 /\ 0 <= alloc_src x.2 <= 2.

Definition without (l : list (Z * pbuf)) (m : gmap Z pbuf) : gmap Z pbuf := foldl (fun m x => delete x.1 m) m l.
Definition drop_ref (l : list (Z * pbuf)) (m : gmap Z pbuf) : gmap Z pbuf :=
  match l with
  | (a, b) :: _ => <[a := set_ref (ref b - 1) b]> m
  | [] => m
  end.

Lemma free_loop_run fuel p count s l :
  chain (pbufs s) p l -> Forall pbuf_ok l -> (length l < fuel)%nat ->
  let k := unshared l in
  free_loop fuel p count s = Done (if bool_decide (k = 0%nat) then count else u8 (count + Z.of_nat k),
    mkPst (drop_ref (drop k l) (without (take k l) (pbufs s))) (pmem s)
      (foldl (fun a x => give_back x a) (palloc s) (take k l)) (pbuf_free_ooseq_pending s)).
Proof.
  revert p count s l. induction fuel as [|fuel IH]; intros p count s l Hc Hok Hf; [lia|]. cbn [free_loop].
  destruct l as [|[a b] l]; cbn [unshared take drop without foldl drop_ref].
  - cbn in Hc. subst p. rewrite Z.eqb_refl. by destruct s.
  - pose proof Hc as (-> & Ha & Hm & Hl). apply Forall_cons in Hok as [[Hr Hsrc] Hok]. cbn [snd] in *.
    destruct (Z.eqb_spec a 0) as [|_]; [done|]. unfold rd, wr, rd.
    erewrite bind_done by (erewrite bind_done by reflexivity; unfold of_option; by rewrite Hm).
    erewrite bind_done by (unfold assert_; by destruct (Z.ltb_spec 0 (ref b)); [|lia]).
    set (s1 := set_pbufs (<[a := set_ref (u8 (ref b - 1)) b]> (pbufs s)) s).
    erewrite (bind_done _ _ _ tt s1) by (mred; by rewrite Hm).
    rewrite (u8_small (ref b - 1)) by (unfold is_u8; lia).
    destruct (Z.eqb_spec (ref b) 1) as [E|N].
    + rewrite E. cbn [take drop foldl]. change (1 - 1 =? 0) with true. cbv iota.
      set (s2 := mkPst (pbufs s1) (pmem s) (give_back (a, b) (palloc s)) (pbuf_free_ooseq_pending s)).
      erewrite (bind_done _ _ _ tt s2).
      2:{ unfold give_back, alloc_src, release, PBUF_TYPE_ALLOC_SRC_MASK_STD_MEMP_PBUF_POOL,
            PBUF_TYPE_ALLOC_SRC_MASK_STD_MEMP_PBUF, PBUF_TYPE_ALLOC_SRC_MASK_STD_HEAP in *. cbn [fst snd] in *.
          set (src := Z.land _ _) in *. destruct (Z.eqb_spec src 2) as [|?]; [done|].
          destruct (Z.eqb_spec src 1) as [|?]; [done|]. by destruct (Z.eqb_spec src 0); [|lia]. }
      erewrite bind_done by reflexivity. set (s3 := set_pbufs _ s2).
      assert (Es : pbufs s3 = delete a (pbufs s)) by (cbn; by rewrite delete_insert_eq).
      rewrite (IH (next b) _ s3 l); [|rewrite Es|done|cbn in Hf; lia].
      * rewrite Es. f_equal. f_equal. repeat case_bool_decide; try done; zlia.
      * eapply pbufs_frame; [exact Hl|]. intros x Hx. apply chain_nodup in Hc. cbn in Hc.
        apply NoDup_cons in Hc as [Hn _]. rewrite lookup_delete_ne; [done|]. by intros ->.
    + destruct (Z.eqb_spec (ref b - 1) 0) as [|_]; [lia|]. cbn [take drop drop_ref without foldl].
      rewrite bool_decide_eq_true_2 by done. unfold s1, set_pbufs. do 3 f_equal.
      by rewrite u8_small by (unfold is_u8; lia).
Qed.

Lemma pbuf_free_run p s l :
  chain (pbufs s) p l -> Forall pbuf_ok l -> p <> 0 ->
  let k := unshared l in
  pbuf_free p s = Done (u8 (Z.of_nat k),
    mkPst (drop_ref (drop k l) (without (take k l) (pbufs s))) (pmem s)
      (foldl (fun a x => give_back x a) (palloc s) (take k l)) (pbuf_free_ooseq_pending s)).
Proof.
  intros Hc Hok Hp. cbv zeta. unfold pbuf_free, chain_fuel. destruct (Z.eqb_spec p 0) as [|_]; [done|].
  erewrite bind_done by reflexivity. erewrite bind_done by reflexivity.
  rewrite (free_loop_run _ _ _ _ l Hc Hok) by (pose proof (chain_size _ _ _ Hc); lia).
  f_equal. f_equal. case_bool_decide as E; [by rewrite E|by rewrite Z.add_0_l].
Qed.

Lemma unshared_le l : (unshared l <= length l)%nat.
Proof. induction l as [|[a b] l IH]; cbn; [done|]. case_match; lia. Qed.
(** The pbuf at which [pbuf_free] stops is shared. *)
Lemma unshared_next l a b : l !! unshared l = Some (a, b) -> ref b <> 1.
Proof.
  induction l as [|[c d] l IH]; [done|]. cbn [unshared]. destruct (Z.eqb_spec (ref d) 1) as [E|N]; cbn; [apply IH|].
  by intros [= -> ->].
Qed.
Lemma lookup_without l m y : without l m !! y = if bool_decide (y ∈ l.*1) then None else m !! y.
Proof.
  revert m. induction l as [|x l IH]; intros m; [done|].
  change (without (x :: l) m) with (without l (delete x.1 m)). rewrite IH.
  change ((x :: l).*1) with (x.1 :: l.*1). destruct (decide (y = x.1)) as [->|N].
  - rewrite lookup_delete_eq, (bool_decide_eq_true_2 (x.1 ∈ x.1 :: _)) by left. by case_bool_decide.
  - rewrite lookup_delete_ne by done. erewrite bool_decide_ext; [done|]. rewrite elem_of_cons. naive_solver.
Qed.

(** ** Contents of a chain *)

Fixpoint contents (m : mem) (l : list (Z * pbuf)) : option (list Z) :=
  match l with
  | [] => Some []
  | x :: l => c1 ← load_bytes m (payload x.2) (Z.to_nat (len x.2)); c2 ← contents m l; Some (c1 ++ c2)
  end.
Definition lens_ok (l : list (Z * pbuf)) : Prop := Forall (fun x => is_u16 (len x.2)) l.
Definition total (l : list (Z * pbuf)) : Z := foldr (fun x n => len x.2 + n) 0 l.
(** A block of memory that no payload of the chain overlaps. *)
Definition apart (a n : Z) (l : list (Z * pbuf)) : Prop :=
  Forall (fun x => payload x.2 + len x.2 <= a \/ a + n <= payload x.2) l.

Lemma contents_cons m x l c : contents m (x :: l) = Some c ->
  exists c1 c2, c = c1 ++ c2 /\ load_bytes m (payload x.2) (Z.to_nat (len x.2)) = Some c1 /\
    contents m l = Some c2 /\ length c1 = Z.to_nat (len x.2).
Proof.
  cbn. intros (c1 & H1 & (c2 & H2 & [= <-])%bind_Some)%bind_Some. exists c1, c2. repeat split; try done.
  by eapply load_bytes_length.
Qed.

Lemma contents_store m a bs m' l : store_bytes m a bs = Some m' -> lens_ok l ->
  apart a (Z.of_nat (length bs)) l -> contents m' l = contents m l.
Proof.
  intros Hs. induction l as [|x l IH]; [done|]. intros [Hx Hl]%Forall_cons [Ax Al]%Forall_cons. cbn.
  rewrite (load_store_apart _ _ _ _ _ _ Hs) by (unfold is_u16 in *; lia). by rewrite IH.
Qed.

Lemma total_cons x l : total (x :: l) = len x.2 + total l.
Proof. done. Qed.

Lemma total_pos l : lens_ok l -> 0 <= total l.
Proof.
  induction l as [|x l IH]; [done|]. intros [Hx Hl]%Forall_cons. rewrite total_cons. specialize (IH Hl).
  unfold is_u16 in Hx. lia.
Qed.

Lemma contents_total m l c : lens_ok l -> contents m l = Some c -> Z.of_nat (length c) = total l.
Proof.
  revert c. induction l as [|x l IH]; intros c; [by intros _ [= <-]|].
  intros [Hx Hl]%Forall_cons (c1 & c2 & -> & _ & H2 & Hc1)%contents_cons. rewrite length_app, total_cons.
  rewrite <- (IH c2 Hl H2). unfold is_u16 in *. lia.
Qed.

Lemma apart_sub a n b k l : apart a n l -> a <= b -> b + k <= a + n -> apart b k l.
Proof. intros Ha ? ?. eapply Forall_impl; [exact Ha|]. cbn. intros x Hx. lia. Qed.

Lemma MEMCPY_run s dst src bs m' n : load_bytes (pmem s) src (Z.to_nat n) = Some bs ->
  store_bytes (pmem s) dst bs = Some m' -> MEMCPY dst src n s = Done (tt, set_pmem m' s).
Proof. intros H1 H2. unfold MEMCPY, copy_bytes. mred. rewrite H1. cbn. by rewrite H2. Qed.

Lemma rd_run s p b : pbufs s !! p = Some b -> rd p s = Done (b, s).
Proof. intros Hb. unfold rd. mred. by rewrite Hb. Qed.
Lemma wr_run s p b f : pbufs s !! p = Some b -> wr p f s = Done (tt, set_pbufs (<[p := f b]> (pbufs s)) s).
Proof. intros Hb. unfold wr. erewrite bind_done by (by apply rd_run). done. Qed.

Lemma copy_partial_loop_run fuel p dst left ln offset copied s l c :
  chain (pbufs s) p l -> lens_ok l -> contents (pmem s) l = Some c -> (length l < fuel)%nat ->
  0 <= offset < 65536 -> 0 <= ln -> 0 <= left -> left + ln < 65536 -> 0 <= copied -> copied + ln < 65536 ->
  apart (dst + left) ln l -> mapped (pmem s) (dst + left) ln ->
  let bs := take (Z.to_nat ln) (drop (Z.to_nat offset) c) in
  exists m', store_bytes (pmem s) (dst + left) bs = Some m' /\
    copy_partial_loop fuel p dst left ln offset copied s =
      Done (copied + Z.of_nat (length bs), set_pmem m' s).
Proof.
  revert p left ln offset copied s c fuel. induction l as [|[a b] l IH];
    intros p left ln offset copied s c fuel Hc Hl Hcon Hf Ho Hln Hle Hll Hcp Hcl Hap Hmap;
    (destruct fuel as [|fuel]; [cbn in Hf; lia|]); cbn [copy_partial_loop].
  - cbn in Hc. subst p. injection Hcon as <-. rewrite drop_nil, take_nil. exists (pmem s). split; [done|].
    rewrite orb_true_r. cbn. rewrite Z.add_0_r. by destruct s.
  - destruct (Z.eqb_spec ln 0) as [->|Hn0]; cbn [orb].
    { cbn. exists (pmem s). split; [done|]. rewrite Z.add_0_r. by destruct s. }
    pose proof Hc as (-> & Ha & Hm & Hc'). destruct (Z.eqb_spec a 0) as [|_]; [done|].
    erewrite bind_done by (by apply rd_run). cbn [snd] in *.
    apply contents_cons in Hcon as (c1 & c2 & -> & Hc1 & Hc2 & Hlen1). cbn [snd] in *.
    apply Forall_cons in Hl as [Hlb Hl]. apply Forall_cons in Hap as [Hab Hap]. cbn [snd] in *. unfold is_u16 in Hlb.
    destruct (negb (offset =? 0) && (len b <=? offset)) eqn:Es.
    + apply andb_true_iff in Es as [_ Es%Z.leb_le]. rewrite u16_small by (unfold is_u16; lia).
      rewrite drop_app_ge by lia. replace (Z.to_nat offset - length c1)%nat with (Z.to_nat (offset - len b)) by lia.
      apply IH; try done; [cbn in Hf; lia|lia].
    + assert (Hol : offset <= len b) by (apply andb_false_iff in Es as [Es|Es];
        [apply negb_false_iff, Z.eqb_eq in Es; lia|apply Z.leb_gt in Es; lia]).
      rewrite (u16_small (len b - offset)) by (unfold is_u16; lia). cbv zeta.
      set (n := if ln <? len b - offset then ln else len b - offset).
      assert (En : n = Z.min ln (len b - offset)) by (unfold n; zcase). clearbody n.
      assert (Hnr : 0 <= n <= ln) by lia.
      pose proof (load_bytes_slice _ _ _ _ (Z.to_nat offset) (Z.to_nat n) Hc1 ltac:(lia)) as Hsl.
      rewrite Z2Nat.id in Hsl by lia. set (x := take (Z.to_nat n) (drop (Z.to_nat offset) c1)) in *.
      assert (Hx : length x = Z.to_nat n) by (unfold x; rewrite length_take, length_drop; lia).
      destruct (store_bytes_mapped (pmem s) (dst + left) x) as (m1 & Hm1 & _);
        [rewrite Hx; eapply mapped_sub; [exact Hmap|lia|lia]|].
      erewrite bind_done by (eapply MEMCPY_run; [exact Hsl|exact Hm1]).
      rewrite !u16_small by (unfold is_u16; lia).
      destruct (IH (next b) (left + n) (ln - n) 0 (copied + n) (set_pmem m1 s) c2 fuel) as (m2 & Hs2 & Hrun);
        try lia; try done.
      { cbn [set_pmem pmem]. rewrite <- Hc2. eapply contents_store; [exact Hm1|done|].
        rewrite Hx. eapply apart_sub; [exact Hap|lia|lia]. }
      { cbn in Hf; lia. }
      { eapply apart_sub; [exact Hap|lia|lia]. }
      { eapply mapped_store; [exact Hm1|]. eapply mapped_sub; [exact Hmap|lia|lia]. }
      cbn [set_pmem pmem] in Hs2. change (Z.to_nat 0) with 0%nat in *. rewrite drop_0 in *.
      assert (Esplit : take (Z.to_nat ln) (drop (Z.to_nat offset) (c1 ++ c2)) = x ++ take (Z.to_nat (ln - n)) c2).
      { rewrite drop_app_le by lia. rewrite take_app, length_drop. f_equal.
        - unfold x. destruct (decide (ln <= len b - offset)).
          + by replace n with ln by lia.
          + rewrite !take_ge by (rewrite length_drop; lia). done.
        - f_equal. lia. }
      rewrite Esplit, store_bytes_app, Hm1. cbn [mbind option_bind].
      replace (dst + left + Z.of_nat (length x)) with (dst + (left + n)) by lia.
      exists m2. split; [done|]. rewrite Hrun, length_app, Hx. do 2 f_equal. lia.
Qed.

Lemma pbuf_copy_partial_run p dst ln offset s l c :
  chain (pbufs s) p l -> lens_ok l -> contents (pmem s) l = Some c -> p <> 0 -> dst <> 0 ->
  0 <= offset < 65536 -> 0 <= ln < 65536 -> apart dst ln l -> mapped (pmem s) dst ln ->
  let bs := take (Z.to_nat ln) (drop (Z.to_nat offset) c) in
  exists m', store_bytes (pmem s) dst bs = Some m' /\
    pbuf_copy_partial p dst ln offset s = Done (Z.of_nat (length bs), set_pmem m' s).
Proof.
  intros Hc Hl Hcon Hp Hd Ho Hln Hap Hmap. unfold pbuf_copy_partial, chain_fuel.
  destruct (Z.eqb_spec p 0) as [|_]; [done|]. destruct (Z.eqb_spec dst 0) as [|_]; [done|]. cbn [orb].
  destruct (copy_partial_loop_run (S (base.size (pbufs s))) p dst 0 ln offset 0 s l c) as (m' & H1 & H2);
    try done; try lia; rewrite ?Z.add_0_r; try done.
  { pose proof (chain_size _ _ _ Hc). lia. }
  rewrite Z.add_0_r in H1. exists m'. split; [done|]. erewrite bind_done by reflexivity. done.
Qed.

(** The payloads of a chain do not overlap. *)
Fixpoint disjoint (l : list (Z * pbuf)) : Prop :=
  match l with
  | [] => True
  | x :: l => apart (payload x.2) (len x.2) l /\ disjoint l
  end.
Definition outside (l : list (Z * pbuf)) (y : Z) : Prop :=
  Forall (fun x => ~ payload x.2 <= y < payload x.2 + len x.2) l.

Lemma load_outside m m' a n l : (forall y, outside l y -> m' !! y = m !! y) -> apart a (Z.of_nat n) l ->
  load_bytes m' a n = load_bytes m a n.
Proof.
  intros Hf Ha. apply load_bytes_frame. intros y Hy. apply Hf. eapply Forall_impl; [exact Ha|]. cbn. intros x Hx. lia.
Qed.

Lemma take_loop_run fuel p src tl copied s l c ds :
  chain (pbufs s) p l -> lens_ok l -> disjoint l -> contents (pmem s) l = Some c -> (length l < fuel)%nat ->
  0 <= tl <= total l -> 0 <= copied ->
  load_bytes (pmem s) (src + copied) (Z.to_nat tl) = Some ds -> apart (src + copied) tl l ->
  exists m', take_loop fuel p src tl copied s = Done ((0, copied + tl), set_pmem m' s) /\
    contents m' l = Some (ds ++ drop (length ds) c) /\ (forall y, outside l y -> m' !! y = pmem s !! y).
Proof.
  revert p tl copied s c ds fuel. induction l as [|[a b] l IH];
    intros p tl copied s c ds fuel Hc Hl Hdj Hcon Hf Htl Hcp Hds Hap;
    (destruct fuel as [|fuel]; [cbn in Hf; lia|]); cbn [take_loop];
    (destruct (Z.eqb_spec tl 0) as [->|Hn0];
     [injection Hds as <-; exists (pmem s); rewrite Z.add_0_r; by destruct s|]).
  - cbn in Htl. lia.
  - pose proof Hc as (-> & Ha & Hm & Hc').
    erewrite bind_done by (unfold assert_; by destruct (Z.eqb_spec a 0)). erewrite bind_done by (by apply rd_run).
    apply contents_cons in Hcon as (c1 & c2 & -> & Hc1 & Hc2 & Hlen1). cbn [snd] in *.
    apply Forall_cons in Hl as [Hlb Hl]. apply Forall_cons in Hap as [Hab Hap]. destruct Hdj as [Hdb Hdj].
    pose proof (total_pos l Hl) as Hpos. cbn [snd] in *. unfold is_u16 in Hlb. rewrite total_cons in Htl. cbn [snd] in Htl. cbv zeta.
    set (n := if len b <? tl then len b else tl).
    assert (En : n = Z.min tl (len b)) by (unfold n; zcase). clearbody n.
    pose proof (load_bytes_length _ _ _ _ Hds) as Hdl.
    pose proof (load_bytes_slice _ _ _ _ 0 (Z.to_nat n) Hds ltac:(lia)) as Hsl.
    rewrite Z.add_0_r, drop_0 in Hsl. set (x := take (Z.to_nat n) ds) in *.
    assert (Hx : length x = Z.to_nat n) by (unfold x; rewrite length_take; lia).
    destruct (store_bytes_mapped (pmem s) (payload b) x) as (m1 & Hm1 & _);
      [eapply mapped_sub; [eapply load_is_mapped; exact Hc1|lia|lia]|].
    erewrite bind_done by (eapply MEMCPY_run; [exact Hsl|exact Hm1]).
    destruct (IH (next b) (tl - n) (copied + n) (set_pmem m1 s) c2 (drop (Z.to_nat n) ds) fuel) as (m2 & Hrun & Hcon2 & Hout);
      cbn [set_pmem pmem pbufs]; try done; try lia.
    { rewrite <- Hc2. eapply contents_store; [exact Hm1|done|]. eapply apart_sub; [exact Hdb|lia|lia]. }
    { cbn in Hf. lia. }
    { rewrite (load_store_apart _ _ _ _ _ _ Hm1) by lia.
      pose proof (load_bytes_slice _ _ _ _ (Z.to_nat n) (Z.to_nat (tl - n)) Hds ltac:(lia)) as Hs2.
      rewrite Z2Nat.id in Hs2 by lia. replace (src + (copied + n)) with (src + copied + n) by lia.
      rewrite Hs2. by rewrite take_ge by (rewrite length_drop; lia). }
    { eapply apart_sub; [exact Hap|lia|lia]. }
    exists m2. split; [rewrite Hrun; do 3 f_equal; lia|]. split.
    + cbn [contents snd]. rewrite (load_outside m1 m2 (payload b) (Z.to_nat (len b)) l Hout)
        by (eapply apart_sub; [exact Hdb|lia|lia]).
      rewrite (load_store_front _ _ _ _ _ _ Hm1 Hc1) by lia. cbn [mbind option_bind]. rewrite Hcon2. cbn. f_equal.
      rewrite length_drop, Hx, drop_app, Hlen1. destruct (decide (tl <= len b)).
      * assert (n = tl) by lia. clear En. subst n. unfold x. rewrite (take_ge ds (Z.to_nat tl)), (drop_ge ds (Z.to_nat tl)) by lia. rewrite Hdl.
        replace (Z.to_nat tl - Z.to_nat tl)%nat with 0%nat by lia.
        replace (Z.to_nat tl - Z.to_nat (len b))%nat with 0%nat by lia. cbn [app]. by rewrite <- app_assoc.
      * assert (n = len b) by lia. clear En. subst n. rewrite (drop_ge c1 (Z.to_nat (len b))), (drop_ge c1 (length ds)) by lia.
        cbn [app]. unfold x. by rewrite app_nil_r, app_assoc, take_drop.
    + intros y [Hy Hy2]%Forall_cons. cbn [snd] in Hy. rewrite Hout by done. eapply store_bytes_frame; [exact Hm1|lia].
Qed.

(** The length fields count the bytes of the rest of the chain. *)
Fixpoint packet (l : list (Z * pbuf)) : Prop :=
  match l with
  | [] => True
  | x :: r => is_u16 (tot_len x.2) /\ is_u16 (len x.2) /\ tot_len x.2 = total l /\ packet r
  end.
Lemma packet_lens l : packet l -> lens_ok l.
Proof. induction l as [|x l IH]; [constructor|]. intros (_ & H1 & _ & H2). constructor; [done|by apply IH]. Qed.

Lemma pbuf_take_run p src ln s l c ds :
  chain (pbufs s) p l -> packet l -> disjoint l -> contents (pmem s) l = Some c -> p <> 0 -> src <> 0 ->
  0 <= ln < 65536 -> load_bytes (pmem s) src (Z.to_nat ln) = Some ds -> apart src ln l ->
  if total l <? ln then pbuf_take p src ln s = Done (ERR_MEM, s)
  else exists m', pbuf_take p src ln s = Done (ERR_OK, set_pmem m' s) /\
    contents m' l = Some (ds ++ drop (length ds) c) /\ (forall y, outside l y -> m' !! y = pmem s !! y).
Proof.
  intros Hc Hpk Hdj Hcon Hp Hsrc Hln Hds Hap. unfold pbuf_take.
  destruct (Z.eqb_spec p 0) as [|_]; [done|]. destruct (Z.eqb_spec src 0) as [|_]; [done|]. cbn [orb].
  destruct l as [|[a b] l]; [done|]. pose proof Hc as (-> & Ha & Hm & Hc').
  pose proof Hpk as (_ & _ & Ht & _). cbn [snd] in Ht. set (L := (a, b) :: l) in *.
  assert (Hrd : rd a s = Done (b, s)) by (by apply rd_run).
  destruct (Z.ltb_spec (total L) ln) as [Lt|Ge].
  - erewrite bind_done by exact Hrd. rewrite Ht. by destruct (Z.ltb_spec (total L) ln); [|lia].
  - destruct (take_loop_run (S (base.size (pbufs s))) a src ln 0 s L c ds) as (m' & Hrun & Hcon' & Hout);
      try done; try lia; rewrite ?Z.add_0_r; try done.
    { by apply packet_lens. }
    { pose proof (chain_size _ _ _ Hc). lia. }
    exists m'. split; [|done]. erewrite bind_done by exact Hrd. rewrite Ht.
    destruct (Z.ltb_spec (total L) ln) as [|_]; [lia|]. unfold chain_fuel. erewrite bind_done by reflexivity.
    erewrite bind_done by exact Hrun. rewrite Z.add_0_l, !Z.eqb_refl. done.
Qed.

(** ** Joining and cutting chains *)

Definition bump (d : Z) (l : list (Z * pbuf)) : list (Z * pbuf) :=
  map (fun x => (x.1, set_tot_len (tot_len x.2 + d) x.2)) l.
Lemma bump_addrs d l : (bump d l).*1 = l.*1.
Proof. induction l as [|x l IH]; [done|]. exact (f_equal (cons x.1) IH). Qed.
Lemma bump_total d l : total (bump d l) = total l.
Proof. induction l as [|x l IH]; [done|]. cbn [bump map]. rewrite !total_cons. cbn. by f_equal. Qed.
Lemma total_app l1 l2 : total (l1 ++ l2) = total l1 + total l2.
Proof. induction l1 as [|x l1 IH]; [done|]. cbn [app]. rewrite !total_cons, IH. lia. Qed.
Lemma bump_contents m d l : contents m (bump d l) = contents m l.
Proof. induction l as [|x l IH]; [done|]. cbn [bump map contents]. fold (bump d l). by rewrite IH. Qed.

Lemma contents_app m l1 l2 c1 c2 : contents m l1 = Some c1 -> contents m l2 = Some c2 ->
  contents m (l1 ++ l2) = Some (c1 ++ c2).
Proof.
  revert c1. induction l1 as [|x l1 IH]; intros c1; cbn [app].
  - by intros [= <-] ->.
  - intros (d1 & d2 & -> & H1 & H2 & _)%contents_cons Hc. cbn. rewrite H1. cbn. rewrite (IH d2 H2 Hc). cbn.
    by rewrite app_assoc.
Qed.
Lemma contents_app_inv m l1 l2 c : contents m (l1 ++ l2) = Some c ->
  exists c1 c2, c = c1 ++ c2 /\ contents m l1 = Some c1 /\ contents m l2 = Some c2.
Proof.
  revert c. induction l1 as [|x l1 IH]; intros c; cbn [app].
  - intros Hc. by exists [], c.
  - intros (d1 & d2 & -> & H1 & H2 & _)%contents_cons. destruct (IH d2 H2) as (c1 & c2 & -> & H3 & H4).
    exists (d1 ++ c1), c2. split; [by rewrite app_assoc|]. split; [|done]. cbn. rewrite H1. cbn. by rewrite H3.
Qed.

(** A prefix whose lengths are off by [d] when what follows changes by [d]. *)
Lemma packet_bump l1 l2 l3 : packet (l1 ++ l2) -> packet l3 ->
  total (l1 ++ l3) < 65536 -> packet (bump (total l3 - total l2) l1 ++ l3).
Proof.
  intros H1 H3. set (d := total l3 - total l2). induction l1 as [|x l1 IH]; [done|]. intros Hs.
  destruct H1 as (T1 & T2 & T3 & H1). cbn [app] in T3, Hs.
  change (packet ((x.1, set_tot_len (tot_len x.2 + d) x.2) :: (bump d l1 ++ l3))).
  pose proof (packet_lens _ H1) as Hl1. apply Forall_app in Hl1 as [Hl1 _].
  pose proof (total_pos _ Hl1). pose proof (total_pos _ (packet_lens _ H3)). unfold is_u16 in *.
  cbn [packet]. rewrite !total_cons, !total_app in *. rewrite bump_total. cbn [snd set_tot_len set_lens tot_len len].
  unfold d in *. repeat split; try lia; try (by apply T2). apply IH; [done|lia].
Qed.

(** Replacing a header of a chain by one with the same successor. *)
Lemma chain_update m p l1 a b b' l2 : chain m p (l1 ++ (a, b) :: l2) -> next b' = next b ->
  chain (<[a := b']> m) p (l1 ++ (a, b') :: l2).
Proof.
  intros Hc Hn. pose proof (chain_nodup _ _ _ Hc) as Hnd. revert p Hc. induction l1 as [|[c d] l1 IH]; intros p Hc.
  - destruct Hc as (-> & Ha & Hm & Hc). cbn [app chain]. split; [done|]. split; [done|].
    split; [by rewrite lookup_insert_eq|]. rewrite Hn. apply chain_insert; [|done]. cbn in Hnd.
    by apply NoDup_cons in Hnd as [? _].
  - destruct Hc as (-> & Ha & Hm & Hc). cbn [app chain]. split; [done|]. split; [done|].
    rewrite fmap_app in Hnd. cbn in Hnd. apply NoDup_cons in Hnd as [Hx Hnd].
    split; [rewrite lookup_insert_ne; [done|]; intros ->; apply Hx; set_solver|]. apply IH; [|done].
    by rewrite fmap_app.
Qed.

(** The last header of a chain points to another chain instead. *)
Lemma chain_relink m p l1 a b l2 b' l3 m' :
  chain m p (l1 ++ (a, b) :: l2) -> m' !! a = Some b' -> chain m' (next b') l3 ->
  (forall y, y ∈ l1.*1 -> m' !! y = m !! y) -> chain m' p (l1 ++ (a, b') :: l3).
Proof.
  intros Hc Hma Hq. revert p Hc. induction l1 as [|[c d] l1 IH]; intros p (-> & Ha & Hm & Hc) Hf; cbn [app chain].
  - by repeat split.
  - split; [done|]. split; [done|]. split; [rewrite Hf; [done|by left]|]. apply IH; try done.
    intros y Hy. apply Hf. by right.
Qed.

Lemma cat_loop_run fuel p t s l a b bt d :
  chain (pbufs s) p (l ++ [(a, b)]) -> pbufs s !! t = Some bt -> tot_len bt = d -> t ∉ (l ++ [(a, b)]).*1 ->
  Forall (fun x => is_u16 (tot_len x.2 + d)) l -> (length l < fuel)%nat ->
  exists m', cat_loop fuel p t s = Done (a, set_pbufs m' s) /\ chain m' p (bump d l ++ [(a, b)]) /\
    (forall y, y ∉ l.*1 -> m' !! y = pbufs s !! y).
Proof.
  intros Hc Ht Hd. revert p s Hc Ht fuel. induction l as [|[c e] l IH]; intros p s Hc Ht fuel Hn Hu Hf;
    (destruct fuel as [|fuel]; [cbn in Hf; lia|]); cbn [cat_loop].
  - destruct Hc as (-> & Ha & Hm & Hc). cbn in Hc. erewrite bind_done by (by apply rd_run). rewrite Hc, Z.eqb_refl.
    exists (pbufs s). split; [by destruct s|]. split; [|done]. by repeat split.
  - pose proof (chain_nodup _ _ _ Hc) as Hnd. destruct Hc as (-> & Ha & Hm & Hc).
    apply Forall_cons in Hu as [Hu Hus]. cbn [snd] in Hu.
    apply (NoDup_cons (A := Z)) in Hnd as [Hx Hnd]. apply (not_elem_of_cons (A := Z)) in Hn as [Hn1 Hn2].
    cbn [fst] in Hx, Hn1. change (c ∉ (l ++ [(a, b)]).*1) in Hx. change (t ∉ (l ++ [(a, b)]).*1) in Hn2.
    erewrite bind_done by (by apply rd_run).
    assert (Hnx : next e <> 0) by (destruct l as [|[? ?] ?]; destruct Hc as (-> & ? & _); done).
    destruct (Z.eqb_spec (next e) 0) as [|_]; [done|]. erewrite bind_done by (by apply rd_run).
    erewrite bind_done by (by apply wr_run). rewrite Hd, u16_small by done. set (e' := set_tot_len _ e).
    destruct (IH (next e) (set_pbufs (<[c := e']> (pbufs s)) s)) with (fuel := fuel) as (m' & Hrun & Hch & Hfr);
      cbn [set_pbufs pbufs]; try done.
    { by apply chain_insert. }
    { by rewrite lookup_insert_ne. }
    { cbn in Hf. lia. }
    exists m'. split; [done|]. split.
    + change (chain m' c ((c, e') :: (bump d l ++ [(a, b)]))). split; [done|]. split; [done|]. split; [|exact Hch].
      rewrite Hfr by (intros Hin; apply Hx; rewrite fmap_app; set_solver). cbn. by rewrite lookup_insert_eq.
    + intros y Hy. change (y ∉ c :: l.*1) in Hy. apply not_elem_of_cons in Hy as [Hy1 Hy2].
      rewrite Hfr by done. cbn. by rewrite lookup_insert_ne.
Qed.

Lemma packet_room l x : packet l -> x ∈ l -> 0 <= tot_len x.2 <= total l.
Proof.
  induction l as [|y l IH]; [by intros _ ?%elem_of_nil|]. intros Hpk Hin.
  pose proof (total_pos _ (packet_lens _ Hpk)). destruct Hpk as (H1 & H2 & H3 & Hpk).
  apply elem_of_cons in Hin as [->|Hin]; [unfold is_u16 in H1; lia|]. rewrite total_cons in *.
  specialize (IH Hpk Hin). unfold is_u16 in H2. lia.
Qed.
Lemma packet_last l a b : packet (l ++ [(a, b)]) -> is_u16 (len b) /\ tot_len b = len b.
Proof.
  induction l as [|x l IH]; cbn [app]; [|by intros (_ & _ & _ & ?); auto].
  intros (_ & H2 & H3 & _). rewrite total_cons in H3. cbn in *. split; [done|lia].
Qed.

Lemma total_single x : total [x] = len x.2.
Proof. rewrite total_cons. apply Z.add_0_r. Qed.

(** Links are not part of the lengths and contents of a packet. *)
Lemma total_set_next q l1 a b l2 : total (l1 ++ (a, set_next q b) :: l2) = total (l1 ++ (a, b) :: l2).
Proof. by rewrite !total_app, !total_cons. Qed.
Lemma packet_set_next q l1 a b l2 : packet (l1 ++ (a, b) :: l2) -> packet (l1 ++ (a, set_next q b) :: l2).
Proof.
  induction l1 as [|x l1 IH]; [done|]. cbn [app packet]. intros (H1 & H2 & H3 & H4).
  split; [done|]. split; [done|]. split; [|by apply IH]. rewrite H3, !total_cons. by rewrite total_set_next.
Qed.
Lemma contents_set_next m q l1 a b l2 :
  contents m (l1 ++ (a, set_next q b) :: l2) = contents m (l1 ++ (a, b) :: l2).
Proof. induction l1 as [|x l1 IH]; [done|]. cbn [app contents]. by rewrite IH. Qed.

Lemma contents_last m l d a b b' : payload b' = payload b -> len b' = len b ->
  contents m (bump d l ++ [(a, b')]) = contents m (l ++ [(a, b)]).
Proof.
  intros E1 E2. induction l as [|x l IH]; cbn [bump map app contents snd]; [by rewrite E1, E2|].
  fold (bump d l). by rewrite IH.
Qed.

Lemma pbuf_cat_run h t s lh lt :
  chain (pbufs s) h lh -> chain (pbufs s) t lt -> h <> 0 -> t <> 0 -> packet lh -> packet lt ->
  (forall y, y ∈ lh.*1 -> y ∈ lt.*1 -> False) -> total lh + total lt < 65536 ->
  exists m' lh', pbuf_cat h t s = Done (tt, set_pbufs m' s) /\ chain m' h (lh' ++ lt) /\ packet (lh' ++ lt) /\
    (forall m, contents m lh' = contents m lh) /\ lh'.*1 = lh.*1 /\
    (forall y, y ∉ lh.*1 -> m' !! y = pbufs s !! y).
Proof.
  intros Hh Ht Hh0 Ht0 Ph Pt Hd Hs.
  destruct (exists_last (l := lh)) as (l & [a b] & ->); [by destruct lh|].
  destruct lt as [|[t' bt] lt]; [by cbn in Ht|]. pose proof Ht as (-> & _ & Hbt & _). set (L := (t', bt) :: lt) in *.
  pose proof Pt as (_ & _ & Htt & _). cbn [snd] in Htt. fold L in Htt.
  pose proof (total_pos _ (packet_lens _ Pt)) as Hpos. destruct (packet_last _ _ _ Ph) as [Hlb Htb].
  pose proof (chain_lookup _ _ _ a b Hh ltac:(set_solver)) as Hma.
  assert (Hat : a ∉ L.*1) by (intros Hin; apply (Hd a); [rewrite fmap_app; set_solver|done]).
  assert (Htl : t' ∉ (l ++ [(a, b)]).*1) by (intros Hin; apply (Hd t'); [done|left]).
  assert (Hal : a ∉ l.*1).
  { pose proof (chain_nodup _ _ _ Hh) as Hn. rewrite fmap_app in Hn. apply NoDup_app in Hn as (_ & Hn & _).
    intros Hin. apply (Hn a Hin). left. }
  assert (Htb' : tot_len b + tot_len bt = tot_len b + (total L - total [])) by (rewrite Htt; cbn; lia).
  rewrite total_app, total_single in Hs. cbn [snd] in Hs.
  pose proof (packet_lens _ Ph) as Hll. apply Forall_app in Hll as [Hll _]. pose proof (total_pos _ Hll) as Hlp.
  destruct (cat_loop_run (S (base.size (pbufs s))) h t' s l a b bt (tot_len bt)) as (m1 & Hrun & Hc1 & Hf1); try done.
  { apply Forall_forall. intros x Hx. pose proof (packet_room _ x Ph ltac:(set_solver)) as Hr.
    rewrite total_app, total_single in Hr. cbn [snd] in Hr. unfold is_u16. lia. }
  { pose proof (chain_size _ _ _ Hh) as Hz. rewrite length_app in Hz. cbn in Hz. lia. }
  unfold pbuf_cat. destruct (Z.eqb_spec h 0) as [|_]; [done|]. destruct (Z.eqb_spec t' 0) as [|_]; [done|].
  cbn [orb]. unfold chain_fuel. erewrite bind_done by reflexivity. erewrite bind_done by exact Hrun.
  assert (Hm1a : m1 !! a = Some b) by (by rewrite Hf1).
  assert (Hm1t : m1 !! t' = Some bt).
  { rewrite Hf1; [done|]. intros Hin. apply Htl. rewrite fmap_app. set_solver. }
  erewrite bind_done by (by apply rd_run). rewrite (proj2 (Z.eqb_eq _ _) Htb). erewrite bind_done by reflexivity.
  assert (Hnb : next b = 0).
  { clear -Hc1. revert h Hc1. induction (bump _ l) as [|x k IH]; intros h; [by intros (_ & _ & _ & ?)|].
    destruct x as [u v]. intros (_ & _ & _ & Hk). by eapply IH. }
  rewrite Hnb, Z.eqb_refl. erewrite bind_done by reflexivity.
  erewrite bind_done by (by apply rd_run). erewrite bind_done by (by apply wr_run).
  cbv beta. rewrite u16_small by (unfold is_u16 in *; lia). set (b' := set_tot_len _ b).
  erewrite wr_run by (cbn; by rewrite lookup_insert_eq). cbn [set_pbufs pbufs]. rewrite insert_insert_eq.
  exists (<[a := set_next t' b']> m1), (bump (tot_len bt) l ++ [(a, set_next t' b')]).
  split; [done|]. rewrite <- app_assoc. cbn [app]. repeat split.
  - eapply chain_relink; [exact Hc1|by rewrite lookup_insert_eq| |].
    + eapply pbufs_frame; [exact Ht|]. intros y Hy. rewrite lookup_insert_ne by (by intros ->).
      apply Hf1. intros Hin. apply (Hd y); [rewrite fmap_app; set_solver|done].
    + intros y Hy. rewrite bump_addrs in Hy. apply lookup_insert_ne. by intros ->.
  - apply packet_set_next. replace (bump (tot_len bt) l ++ (a, b') :: L) with (bump (total L - total []) (l ++ [(a, b)]) ++ L).
    + apply packet_bump; [by rewrite app_nil_r|done|]. rewrite !total_app, total_single. cbn [snd]. lia.
    + unfold bump. rewrite map_app, <- app_assoc. cbn [map app fst snd]. unfold b'. rewrite Htb', Htt. cbn [total foldr].
      by rewrite Z.sub_0_r.
  - intros m. by apply contents_last.
  - rewrite !fmap_app, bump_addrs. done.
  - intros y Hy. rewrite fmap_app in Hy. rewrite lookup_insert_ne by set_solver. apply Hf1. set_solver.
Qed.

(** ** Allocation of packets from the pool *)

(** A chain to which [r] more bytes are going to be appended. *)
Fixpoint open_packet (r : Z) (l : list (Z * pbuf)) : Prop :=
  match l with
  | [] => True
  | x :: k => is_u16 (tot_len x.2) /\ is_u16 (len x.2) /\ tot_len x.2 = total l + r /\ open_packet r k
  end.
Lemma open_packet_closed l : open_packet 0 l -> packet l.
Proof. induction l as [|x l IH]; [done|]. intros (H1 & H2 & H3 & H4). repeat split; try apply H1; try apply H2; [lia|auto]. Qed.
Lemma open_packet_snoc r l x : open_packet (len x.2 + r) l -> is_u16 (len x.2) -> is_u16 (tot_len x.2) ->
  tot_len x.2 = len x.2 + r -> open_packet r (l ++ [x]).
Proof.
  intros H1 H2 H3 H4. induction l as [|y l IH]; cbn [app open_packet].
  - rewrite total_single. auto.
  - destruct H1 as (T1 & T2 & T3 & H1). rewrite total_cons in *. rewrite total_app, total_single.
    split; [done|]. split; [done|]. split; [lia|]. by apply IH.
Qed.
Lemma open_packet_set_next r q l1 a b : open_packet r (l1 ++ [(a, b)]) -> open_packet r (l1 ++ [(a, set_next q b)]).
Proof.
  induction l1 as [|x l1 IH]; [done|]. cbn [app open_packet]. intros (H1 & H2 & H3 & H4).
  split; [done|]. split; [done|]. split; [|by apply IH]. rewrite H3, !total_cons. by rewrite total_set_next.
Qed.

(** A pbuf as [pbuf_alloc] makes it for the pool. *)
Definition pool_pbuf (x : Z * pbuf) : Prop := ref x.2 = 1 /\ alloc_src x.2 = PBUF_TYPE_ALLOC_SRC_MASK_STD_MEMP_PBUF_POOL.

Lemma unshared_all l : Forall pool_pbuf l -> unshared l = length l.
Proof. induction 1 as [|[a b] l [H1 _] _ IH]; [done|]. cbn in *. by rewrite H1, IH. Qed.
(** Room for data in the first pbuf of a packet, and the pbufs a packet needs. *)
Definition first_room (offset : Z) : Z := PBUF_POOL_BUFSIZE_ALIGNED - LWIP_MEM_ALIGN_SIZE offset.
Definition pool_need (offset length : Z) : Z :=
  1 + (Z.max 0 (length - first_room offset) + (PBUF_POOL_BUFSIZE_ALIGNED - 1)) / PBUF_POOL_BUFSIZE_ALIGNED.

Lemma pool_need_step offset length : 0 <= first_room offset -> 0 <= length ->
  pool_need offset length = if length <=? first_room offset then 1 else 1 + pool_need 0 (length - first_room offset).
Proof.
  intros Hr Hl. unfold pool_need. change (first_room 0) with 512. unfold PBUF_POOL_BUFSIZE_ALIGNED. zcase.
  - rewrite Z.max_l by lia. done.
  - rewrite Z.max_r by lia. Z.div_mod_to_equations. lia.
Qed.
Lemma pool_need_pos offset length : 1 <= pool_need offset length.
Proof. unfold pool_need, PBUF_POOL_BUFSIZE_ALIGNED. Z.div_mod_to_equations. lia. Qed.

(** What the allocators promise of the pool: it has free elements, given out in
    order, and elements in use. *)
Class PbufPool : Type := {
  pool_is : A -> list Z -> list Z -> Prop;
  pool_distinct a l u : pool_is a l u -> NoDup (l ++ u) /\ 0 ∉ l;
  pool_take a q l u : pool_is a (q :: l) u ->
    exists a', memp_malloc MEMP_PBUF_POOL a = (q, a') /\ pool_is a' l (q :: u);
  pool_empty a u : pool_is a [] u -> exists a', memp_malloc MEMP_PBUF_POOL a = (0, a') /\ pool_is a' [] u;
  pool_give a q l u u' : pool_is a l u -> Permutation u (q :: u') -> pool_is (memp_free MEMP_PBUF_POOL q a) (q :: l) u';
  pool_callback a l u : pool_is a l u -> pool_is (tcpip_try_callback a).2 l u
}.

Section Pool.
Context `{!PbufPool}.

Lemma give_back_all a l u u' x : pool_is a l u -> Forall pool_pbuf x -> Permutation u (x.*1 ++ u') ->
  exists u2, Permutation u2 u' /\ pool_is (foldl (fun a y => give_back y a) a x) (reverse (x.*1) ++ l) u2.
Proof.
  intros Ha Hx. revert a l u Ha. induction Hx as [|y x [_ Hy] Hx IH]; intros a l u Ha Hu; cbn [foldl].
  - exists u. by split.
  - change ((y :: x).*1) with (y.1 :: x.*1) in *. rewrite reverse_cons, <- app_assoc. cbn [app]. eapply IH; [|done].
    unfold give_back. rewrite Hy, Z.eqb_refl. eapply pool_give; [exact Ha|]. exact Hu.
Qed.

Lemma pbuf_pool_is_empty_run s l u : pool_is (palloc s) l u ->
  wp pbuf_pool_is_empty s (fun _ s' => pbufs s' = pbufs s /\ pmem s' = pmem s /\ pool_is (palloc s') l u).
Proof.
  intros Hp. unfold pbuf_pool_is_empty, on_alloc. wps. destruct (_ =? 0); [|by wps].
  wps. cbn [set_pending palloc]. pose proof (pool_callback _ _ _ Hp) as Hc.
  destruct (tcpip_try_callback (palloc s)) as [e a]. wps. destruct (negb _); wps; done.
Qed.

(** Linking a new pbuf behind the last one. *)
Lemma link_new_run s p acc last q bq r :
  chain (delete q (pbufs s)) p acc -> (acc = [] \/ exists l b, acc = l ++ [(last, b)]) ->
  pbufs s !! q = Some bq -> q <> 0 -> next bq = 0 -> open_packet (len bq + r) acc -> is_u16 (len bq) ->
  is_u16 (tot_len bq) -> tot_len bq = len bq + r -> Forall pool_pbuf acc -> pool_pbuf (q, bq) ->
  wp (if p =? 0 then mret tt else wr last (set_next q)) s (fun _ s' => exists l,
    chain (pbufs s') (if p =? 0 then q else p) l /\ (exists l', l = l' ++ [(q, bq)]) /\ l.*1 = acc.*1 ++ [q] /\
    open_packet r l /\ total l = total acc + len bq /\ Forall pool_pbuf l /\
    pmem s' = pmem s /\ palloc s' = palloc s /\ (forall y, y ∉ acc.*1 -> pbufs s' !! y = pbufs s !! y)).
Proof.
  intros Hc Hlast Hq Hq0 Hn Hop Hl1 Hl2 Ht Hpp Hpq. destruct Hlast as [->|(l & b & ->)].
  - cbn in Hc. subst p. rewrite Z.eqb_refl. apply wp_ret. exists [(q, bq)]. split; [by repeat split|].
    split; [by exists []|]. split; [done|]. split; [by apply (open_packet_snoc r [] (q, bq))|].
    split; [by rewrite total_single|]. split; [by constructor|]. done.
  - assert (Hp : p <> 0) by (destruct l as [|[? ?] ?]; destruct Hc as (-> & ? & _); done).
    destruct (Z.eqb_spec p 0) as [|_]; [done|].
    pose proof (chain_lookup _ _ _ last b Hc ltac:(set_solver)) as Hb.
    apply lookup_delete_Some in Hb as [Hql Hb]. pose proof (chain_nodup _ _ _ Hc) as Hnd.
    assert (Hx : forall y, y ∈ l.*1 -> last <> y /\ q <> y).
    { intros y Hy. split.
      - intros ->. rewrite fmap_app in Hnd. apply NoDup_app in Hnd as (_ & Hnd & _). apply (Hnd y Hy). by left.
      - intros ->. apply list_elem_of_fmap in Hy as ([? b2] & -> & Hin).
        pose proof (chain_lookup _ _ _ _ _ Hc ltac:(apply elem_of_app; left; exact Hin)) as E.
        by rewrite lookup_delete_eq in E. }
    eapply wp_use; [by apply wr_run|]. cbn [set_pbufs pbufs pmem palloc].
    exists (l ++ [(last, set_next q b); (q, bq)]). split.
    { eapply (chain_relink _ _ _ _ _ _ _ [(q, bq)]); [exact Hc|by rewrite lookup_insert_eq| |].
      - cbn [next set_next chain]. rewrite lookup_insert_ne by done. done.
      - intros y Hy. destruct (Hx y Hy). rewrite lookup_insert_ne, lookup_delete_ne by done. done. }
    replace (l ++ [(last, set_next q b); (q, bq)]) with ((l ++ [(last, set_next q b)]) ++ [(q, bq)])
      by (by rewrite <- app_assoc). split; [by eexists|].
    split; [by rewrite !fmap_app|]. split.
    { apply open_packet_snoc; try done. by apply open_packet_set_next. }
    split; [rewrite (total_app (_ ++ _)), total_set_next, total_single; done|]. split.
    { apply Forall_app in Hpp as [Hpp1 Hpp2]. apply Forall_cons in Hpp2 as [Hpp2 _].
      apply Forall_app. split; [apply Forall_app; split; [done|]|]; by constructor. }
    split; [done|]. split; [done|]. intros y Hy. apply lookup_insert_ne. intros ->. apply Hy. rewrite fmap_app. set_solver.
Qed.

Definition alloc_post (acc : list (Z * pbuf)) (offset rem : Z) (qs u0 : list Z) (s : St) (r : Z) (s' : St) : Prop :=
  pmem s' = pmem s /\
  if pool_need offset rem <=? Z.of_nat (length qs) then
    let n := Z.to_nat (pool_need offset rem) in
    exists l u, chain (pbufs s') r l /\ r <> 0 /\ l.*1 = acc.*1 ++ take n qs /\ packet l /\ total l = total acc + rem /\
      Forall pool_pbuf l /\ pool_is (palloc s') (drop n qs) u /\ Permutation u (l.*1 ++ u0) /\
      (forall y, y ∉ l.*1 -> pbufs s' !! y = pbufs s !! y)
  else
    r = 0 /\ (forall y, pbufs s' !! y = if bool_decide (y ∈ acc.*1) then None else pbufs s !! y) /\
    exists qs' u, pool_is (palloc s') qs' u /\ Permutation u u0 /\ Permutation qs' (acc.*1 ++ qs).

(** The pool is exhausted: the pbufs linked so far are given back. *)
Lemma alloc_fail_run s p acc u u0 :
  chain (pbufs s) p acc -> Forall pool_pbuf acc -> pool_is (palloc s) [] u -> Permutation u (acc.*1 ++ u0) ->
  wp (pbuf_pool_is_empty;; (if negb (p =? 0) then pbuf_free p;; mret tt else mret tt);; mret 0) s (fun r s' =>
    r = 0 /\ pmem s' = pmem s /\ (forall y, pbufs s' !! y = if bool_decide (y ∈ acc.*1) then None else pbufs s !! y) /\
    exists qs' u', pool_is (palloc s') qs' u' /\ Permutation u' u0 /\ Permutation qs' (acc.*1)).
Proof.
  intros Hc Hpp Hp Hu. apply wp_bind. eapply wp_mono; [by apply pbuf_pool_is_empty_run|].
  intros _ s1 (E1 & E2 & Hp1). rewrite <- E1 in Hc. destruct (Z.eqb_spec p 0) as [->|N]; cbn [negb]; wps.
  - assert (acc = []) as -> by (destruct acc as [|[? ?] ?]; [done|]; by destruct Hc as (<- & ? & _)).
    split; [done|]. split; [done|]. split; [intros y; by rewrite E1|]. by exists [], u.
  - eapply wp_use.
    { apply (pbuf_free_run p s1 acc Hc); [|done]. eapply Forall_impl; [exact Hpp|]. intros x [H1 H2].
      unfold pbuf_ok. rewrite H1, H2. by_decision. }
    wps. rewrite (unshared_all _ Hpp), firstn_all, drop_all. cbn [drop_ref pmem pbufs palloc].
    destruct (give_back_all _ _ _ u0 acc Hp1 Hpp Hu) as (u2 & Hu2 & Hp2). rewrite app_nil_r in Hp2.
    split; [done|]. split; [done|]. split; [intros y; by rewrite lookup_without, E1|].
    exists (reverse (acc.*1)), u2. split; [done|]. split; [done|]. apply reverse_Permutation.
Qed.

(** A pbuf more at the end of the packet, and what remains to be allocated behind it. *)
Lemma alloc_post_step acc l q qs offset rem u0 s s2 r s' :
  let room := first_room offset in
  0 < room -> room < rem -> l.*1 = acc.*1 ++ [q] -> total l = total acc + room -> pmem s2 = pmem s ->
  pbufs s !! q = None -> (forall y, y ∉ acc.*1 -> y <> q -> pbufs s2 !! y = pbufs s !! y) ->
  alloc_post l 0 (rem - room) qs u0 s2 r s' -> alloc_post acc offset rem (q :: qs) u0 s r s'.
Proof.
  intros room Hroom Hrem Hl1 Htot Hm2 Hqn Hfr3 [Hm Hpost]. split; [by rewrite Hm, Hm2|].
  rewrite (pool_need_step offset rem) by (fold room; lia). fold room.
  destruct (Z.leb_spec rem room) as [|Gt]; [lia|].
  pose proof (pool_need_pos 0 (rem - room)) as Hn2. set (k := pool_need 0 (rem - room)) in *.
  cbn [length]. destruct (Z.leb_spec k (Z.of_nat (length qs))) as [Le|Gt2];
    destruct (Z.leb_spec (1 + k) (Z.of_nat (S (length qs)))); try lia.
  - destruct Hpost as (l2 & u2 & P1 & P2 & P3 & P4 & P5 & P6 & P7 & P8 & P9). exists l2, u2.
    replace (Z.to_nat (1 + k)) with (S (Z.to_nat k)) by lia. cbn [take drop].
    rewrite Hl1, <- app_assoc in P3. cbn [app] in P3.
    split; [done|]. split; [done|]. split; [done|]. split; [done|]. split; [lia|]. split; [done|].
    split; [done|]. split; [done|]. intros y Hy. rewrite P9 by done.
    apply Hfr3; [intros Hin|intros ->]; apply Hy; rewrite P3; set_solver.
  - destruct Hpost as (-> & P2 & qs3 & u3 & P3 & P4 & P5). split; [done|]. split.
    + intros y. rewrite P2, Hl1. destruct (decide (y = q)) as [->|N].
      * rewrite (bool_decide_eq_true_2 (q ∈ acc.*1 ++ [q])) by set_solver. by case_bool_decide.
      * rewrite (bool_decide_ext (y ∈ acc.*1 ++ [q]) (y ∈ acc.*1)) by set_solver. case_bool_decide; [done|by apply Hfr3].
    + exists qs3, u3. split; [done|]. split; [done|]. by rewrite P5, Hl1, <- app_assoc.
Qed.

(** The last pbuf of the packet. *)
Lemma alloc_post_last acc l q qs offset rem u u0 s s2 r :
  let room := first_room offset in
  0 <= rem <= room -> chain (pbufs s2) r l -> l.*1 = acc.*1 ++ [q] -> open_packet 0 l -> total l = total acc + rem ->
  Forall pool_pbuf l -> pool_is (palloc s2) qs u -> Permutation u (l.*1 ++ u0) -> r <> 0 -> pmem s2 = pmem s ->
  (forall y, y ∉ acc.*1 -> y <> q -> pbufs s2 !! y = pbufs s !! y) ->
  alloc_post acc offset rem (q :: qs) u0 s r s2.
Proof.
  intros room Hrem Hc Hl1 Hop Htot Hpp Hp Hu Hr Hm Hfr3. split; [done|].
  rewrite (pool_need_step offset rem) by (fold room; lia). fold room.
  destruct (Z.leb_spec rem room) as [Le|Gt]; [|lia]. cbn [length].
  destruct (Z.leb_spec 1 (Z.of_nat (S (length qs)))); [|lia]. change (Z.to_nat 1) with 1%nat. cbn [take drop].
  rewrite drop_0, take_0. exists l, u. do 3 (split; [done|]). split; [by apply open_packet_closed|].
  do 4 (split; [done|]). intros y Hy. rewrite Hl1 in Hy. apply Hfr3; set_solver.
Qed.

(** One iteration, up to the test of the loop. *)
Lemma alloc_link_run offset rem p last s acc q u u0 a' :
  chain (pbufs s) p acc -> (acc = [] \/ exists l b, acc = l ++ [(last, b)]) -> open_packet rem acc ->
  Forall pool_pbuf acc -> Permutation u (acc.*1 ++ u0) -> pbufs s !! q = None -> q <> 0 -> 0 <= rem < 65536 ->
  0 < first_room offset <= 512 ->
  let qlen := Z.min rem (first_room offset) in
  let bq := mkPbuf 0 (LWIP_MEM_ALIGN (q + SIZEOF_STRUCT_PBUF + offset)) rem qlen (u8 PBUF_POOL) 0 1 NETIF_NO_INDEX in
  wp (if p =? 0 then mret tt else wr last (set_next q)) (set_pbufs (<[q := bq]> (pbufs s)) (set_palloc a' s))
    (fun _ s2 => exists l, chain (pbufs s2) (if p =? 0 then q else p) l /\ (exists l' b, l = l' ++ [(q, b)]) /\
      l.*1 = acc.*1 ++ [q] /\ open_packet (rem - qlen) l /\ total l = total acc + qlen /\ Forall pool_pbuf l /\
      Permutation (q :: u) (l.*1 ++ u0) /\ pmem s2 = pmem s /\ palloc s2 = a' /\
      (forall y, y ∉ acc.*1 -> y <> q -> pbufs s2 !! y = pbufs s !! y)).
Proof.
  intros Hc Hlast Hop Hpp Hu Hqn Hq0 Hrem Hroom qlen bq. eapply wp_mono.
  { apply (link_new_run _ p acc last q bq (rem - qlen)); try done.
    - cbn. rewrite delete_insert_id by done. exact Hc.
    - cbn. by rewrite lookup_insert_eq.
    - cbn [len bq]. by replace (qlen + (rem - qlen)) with rem by lia.
    - unfold is_u16; cbn; lia.
    - cbn; lia. }
  cbn beta. intros _ s2 (l & Hc2 & (l' & El) & Hl1 & Hop2 & Htot & Hpp2 & Hm2 & Ha2 & Hfr2).
  exists l. split; [done|]. split; [by eexists _, _|]. do 4 (split; [done|]).
  split; [rewrite Hl1, Hu, <- app_assoc; cbn; apply Permutation_middle|]. split; [done|]. split; [done|].
  intros y Hy N. rewrite Hfr2 by done. cbn. by rewrite lookup_insert_ne.
Qed.

Lemma alloc_pool_run fuel offset rem p last s acc qs u u0 :
  chain (pbufs s) p acc -> (acc = [] \/ exists l b, acc = l ++ [(last, b)]) -> open_packet rem acc ->
  Forall pool_pbuf acc -> pool_is (palloc s) qs u -> Permutation u (acc.*1 ++ u0) ->
  (forall y, y ∈ qs -> pbufs s !! y = None) -> 0 <= rem < 65536 ->
  0 <= LWIP_MEM_ALIGN_SIZE offset < 512 -> (Z.to_nat rem < fuel)%nat ->
  wp (alloc_pool fuel offset rem p last PBUF_POOL) s (alloc_post acc offset rem qs u0 s).
Proof.
  revert offset rem p last s acc qs u. induction fuel as [|fuel IH];
    intros offset rem p last s acc qs u Hc Hlast Hop Hpp Hp Hu Hfr Hrem Hoff Hf; [lia|]. cbn [alloc_pool].
  destruct qs as [|q qs].
  - destruct (pool_empty _ _ Hp) as (a' & Ha & Hp'). apply wp_bind.
    eapply wp_use; [unfold on_alloc; mred; rewrite Ha; reflexivity|]. rewrite Z.eqb_refl.
    eapply wp_mono; [by eapply (alloc_fail_run (set_palloc a' s))|]. intros r s' (-> & Hm & Hb & Hx).
    split; [done|]. pose proof (pool_need_pos offset rem).
    destruct (Z.leb_spec (pool_need offset rem) (Z.of_nat (length (@nil Z)))); [cbn in *; lia|]. by rewrite app_nil_r.
  - destruct (pool_take _ _ _ _ Hp) as (a' & Ha & Hp'). destruct (pool_distinct _ _ _ Hp) as [Hnd Hq0].
    apply wp_bind. eapply wp_use; [unfold on_alloc; mred; rewrite Ha; reflexivity|].
    assert (q <> 0) by (intros ->; apply Hq0; by left). destruct (Z.eqb_spec q 0) as [|_]; [done|].
    assert (Hroom : 0 < first_room offset <= 512) by (unfold first_room, PBUF_POOL_BUFSIZE_ALIGNED; lia).
    fold (first_room offset). set (room := first_room offset) in *.
    rewrite (u16_small room), (u32_small room) by (unfold is_u16, is_u32; lia). cbv zeta.
    rewrite (u16_small (rem - _)) by (unfold is_u16; lia).
    apply wp_bind. eapply wp_use; [unfold pbuf_init_alloced_pbuf; reflexivity|]. cbn [set_palloc pbufs].
    apply wp_bind, wp_assert; [apply Z.eqb_eq, align_mod|]. apply wp_bind, wp_assert; [apply Z.ltb_lt; lia|].
    assert (Hqn : pbufs s !! q = None) by (apply Hfr; by left).
    apply wp_bind. eapply wp_mono; [by apply (alloc_link_run offset rem p last s acc q u u0 a')|].
    cbn beta. fold room. set (qlen := Z.min rem room).
    intros _ s2 (l & Hc2 & Hl' & Hl1 & Hop2 & Htot & Hpp2 & Hu2 & Hm2 & <- & Hfr3).
    cbn in Hnd. apply NoDup_cons in Hnd as [Hqu Hnd]. destruct (Z.ltb_spec 0 (rem - qlen)) as [Lt|Ge].
    + eapply wp_mono; [apply (IH 0 (rem - qlen) _ q s2 l qs (q :: u)); try done; try lia; [by right|]|].
      * intros y Hy. rewrite Hfr3; [apply Hfr; by right| |].
        -- intros Hin. apply NoDup_app in Hnd as (_ & Hnd & _). apply (Hnd y Hy). rewrite Hu. set_solver.
        -- intros ->. apply Hqu. set_solver.
      * assert (room < rem) by lia. replace qlen with room in * by lia. intros r s'. apply alloc_post_step with (l := l) (s2 := s2); try done; fold room; lia.
    + assert (rem <= room) by lia. replace qlen with rem in * by lia. rewrite Z.sub_diag in Hop2. apply wp_ret.
      apply alloc_post_last with (l := l) (u := q :: u); try done; [fold room; lia|]. by destruct (p =? 0) eqn:E; [|apply Z.eqb_neq].
Qed.
End Pool.

(** *** Properties *)

(** C24: [pbuf_alloc] from the pool is all or nothing.  When the pool has the
    pbufs that the length and the room for headers need, the result is a chain of
    exactly the first of them, each with one reference, whose lengths are
    consistent and add up to the length asked for, and every other pbuf is as
    before.  Otherwise the result is NULL, no pbuf has changed and all the pbufs
    taken meanwhile are in the pool again. *)
Theorem pbuf_alloc_all_or_nothing `{!PbufPool} layer length s qs u :
  pool_is (palloc s) qs u -> (forall y, y ∈ qs -> pbufs s !! y = None) ->
  0 <= layer <= 508 -> 0 <= length < 65536 ->
  let n := pool_need layer length in
  wp (pbuf_alloc layer length PBUF_POOL) s (fun r s' => pmem s' = pmem s /\
    if n <=? Z.of_nat (List.length qs) then
      exists l, chain (pbufs s') r l /\ l.*1 = take (Z.to_nat n) qs /\ packet l /\ total l = length /\
        Forall (fun x => ref x.2 = 1) l /\ (forall y, ~ (y ∈ l.*1) -> pbufs s' !! y = pbufs s !! y) /\
        exists u', pool_is (palloc s') (drop (Z.to_nat n) qs) u' /\ Permutation u' (l.*1 ++ u)
    else r = 0 /\ pbufs s' = pbufs s /\
      exists qs' u', pool_is (palloc s') qs' u' /\ Permutation qs' qs /\ Permutation u' u).
Proof.
  intros Hp Hfr Hlay Hlen n. unfold pbuf_alloc. rewrite (u16_small layer) by (unfold is_u16; lia).
  change ((PBUF_POOL =? PBUF_REF) || (PBUF_POOL =? PBUF_ROM)) with false.
  change (PBUF_POOL =? PBUF_POOL) with true. cbv iota.
  eapply wp_mono; [apply (alloc_pool_run _ layer length 0 0 s [] qs u u); try done; try lia;
    [by left|rewrite align_size_eq; zlia]|].
  intros r s' [Hm Hpost]. split; [done|]. fold n in Hpost. destruct (n <=? _).
  - destruct Hpost as (l & u' & P1 & P2 & P3 & P4 & P5 & P6 & P7 & P8 & P9). exists l.
    split; [done|]. split; [done|]. split; [done|]. split; [done|]. split; [|by eauto].
    eapply Forall_impl; [exact P6|]. by intros x [? _].
  - destruct Hpost as (-> & P2 & qs' & u' & P3 & P4 & P5). split; [done|]. split; [|by exists qs', u'].
    apply map_eq. exact P2.
Qed.

(** [pbuf_free] frees the pbufs at the head of the chain up to the first
    one that someone else holds too: it returns how many these are, takes their
    headers away and gives each back to where its type says it came from.  The
    first shared one loses one reference; the rest of the chain and all other
    pbufs are as before. *)
Theorem pbuf_free_up_to_shared p s l : chain (pbufs s) p l -> Forall pbuf_ok l -> p <> 0 -> (length l < 256)%nat ->
  let k := unshared l in
  exists s', pbuf_free p s = Done (Z.of_nat k, s') /\ pmem s' = pmem s /\
    palloc s' = foldl (fun a x => give_back x a) (palloc s) (take k l) /\
    (forall a, a ∈ (take k l).*1 -> pbufs s' !! a = None) /\
    (forall a b, l !! k = Some (a, b) -> 1 < ref b /\ pbufs s' !! a = Some (set_ref (ref b - 1) b)) /\
    (forall a, a ∉ (take (S k) l).*1 -> pbufs s' !! a = pbufs s !! a).
Proof.
  intros Hc Hok Hp Hlen k. eexists. split; [rewrite (pbuf_free_run p s l Hc Hok Hp), u8_small; [reflexivity|]|].
  { pose proof (unshared_le l). unfold is_u8. lia. }
  fold k. cbn [pmem palloc pbufs]. split; [done|]. split; [done|]. pose proof (chain_nodup _ _ _ Hc) as Hnd.
  pose proof (unshared_next l) as Hsh. fold k in Hsh. clearbody k.
  rewrite <- (take_drop k l), fmap_app in Hnd. apply NoDup_app in Hnd as (_ & Hnd & _).
  rewrite <- (Nat.add_0_r k) in Hsh. setoid_rewrite <- lookup_drop in Hsh.
  assert (Hlk : l !! k = drop k l !! 0%nat) by (by rewrite lookup_drop, Nat.add_0_r). rewrite Hlk.
  assert (Htk : (take (S k) l).*1 = (take k l).*1 ++ (take 1 (drop k l)).*1)
    by (rewrite <- fmap_app, take_take_drop; by rewrite Nat.add_1_r). rewrite Htk.
  rewrite <- (take_drop k l) in Hok. apply Forall_app in Hok as [_ Hok].
  destruct (drop k l) as [|[a b] r]; cbn [drop_ref].
  - split; [|split]; [|done|]; intros y Hy; rewrite lookup_without; [by rewrite bool_decide_eq_true_2|].
    rewrite app_nil_r in Hy. by rewrite bool_decide_eq_false_2.
  - apply Forall_cons in Hok as [[Hrf _] _]. cbn [snd] in Hrf. specialize (Hsh a b eq_refl).
    split; [|split]; intros y.
    + intros Hy. rewrite lookup_insert_ne by (intros <-; apply (Hnd a Hy); by left).
      rewrite lookup_without. by rewrite bool_decide_eq_true_2.
    + intros c [= <- <-]. rewrite lookup_insert_eq. split; [lia|done].
    + intros Hy. rewrite lookup_insert_ne by set_solver. rewrite lookup_without.
      rewrite bool_decide_eq_false_2 by set_solver. done.
Qed.

(** bytes put into a packet with [pbuf_take] are what [pbuf_copy_partial]
    reads back, followed by what the packet held behind them; bytes outside the
    packet do not change; more bytes than the packet has are refused. *)
Theorem pbuf_take_copy_roundtrip p src ln dst off n s l c ds :
  chain (pbufs s) p l -> packet l -> disjoint l -> contents (pmem s) l = Some c ->
  p <> 0 -> src <> 0 -> dst <> 0 ->
  0 <= ln < 65536 -> load_bytes (pmem s) src (Z.to_nat ln) = Some ds -> apart src ln l ->
  0 <= off < 65536 -> 0 <= n < 65536 -> apart dst n l -> mapped (pmem s) dst n ->
  if total l <? ln then pbuf_take p src ln s = Done (ERR_MEM, s)
  else exists m' bs m2, pbuf_take p src ln s = Done (ERR_OK, set_pmem m' s) /\
    (forall y, outside l y -> m' !! y = pmem s !! y) /\
    bs = take (Z.to_nat n) (drop (Z.to_nat off) (ds ++ drop (Z.to_nat ln) c)) /\
    store_bytes m' dst bs = Some m2 /\
    pbuf_copy_partial p dst n off (set_pmem m' s) = Done (Z.of_nat (length bs), set_pmem m2 s).
Proof.
  intros Hc Hpk Hdj Hcon Hp Hsrc Hdst Hln Hds Hap Hoff Hn Hap2 Hmap.
  pose proof (pbuf_take_run p src ln s l c ds Hc Hpk Hdj Hcon Hp Hsrc Hln Hds Hap) as Ht.
  destruct (total l <? ln); [done|]. destruct Ht as (m' & Ht & Hcon' & Hout).
  pose proof (load_bytes_length _ _ _ _ Hds) as Hdl. rewrite Hdl in Hcon'.
  destruct (pbuf_copy_partial_run p dst n off (set_pmem m' s) l _ Hc (packet_lens _ Hpk) Hcon' Hp Hdst Hoff Hn Hap2)
    as (m2 & Hs2 & Hrun).
  { intros y Hy. cbn. rewrite Hout; [by apply Hmap|]. eapply Forall_impl; [exact Hap2|]. cbn. intros x Hx. lia. }
  by eexists m', _, m2.
Qed.

(** [pbuf_cat] of two packets is one packet: its contents are those of the
    head followed by those of the tail, its lengths are consistent, the pbufs of
    the head are the same ones and no other header or payload changes. *)
Theorem pbuf_cat_concatenates h t s lh lt ch ct :
  chain (pbufs s) h lh -> chain (pbufs s) t lt -> h <> 0 -> t <> 0 -> packet lh -> packet lt ->
  (forall y, y ∈ lh.*1 -> y ∈ lt.*1 -> False) -> total lh + total lt < 65536 ->
  contents (pmem s) lh = Some ch -> contents (pmem s) lt = Some ct ->
  exists m' l, pbuf_cat h t s = Done (tt, set_pbufs m' s) /\ chain m' h l /\ packet l /\ l.*1 = lh.*1 ++ lt.*1 /\
    contents (pmem s) l = Some (ch ++ ct) /\ (forall y, y ∉ lh.*1 -> m' !! y = pbufs s !! y).
Proof.
  intros Hh Ht Hh0 Ht0 Ph Pt Hd Hs Hch Hct.
  destruct (pbuf_cat_run h t s lh lt Hh Ht Hh0 Ht0 Ph Pt Hd Hs) as (m' & lh' & Hrun & H1 & H2 & H3 & H4 & H5).
  exists m', (lh' ++ lt). split; [done|]. split; [done|]. split; [done|]. split; [by rewrite fmap_app, H4|].
  split; [|done]. apply contents_app; [by rewrite H3|done].
Qed.
End Pbuf.

(** ** The pools of memp.c as the source of pbufs *)

Section FromMemp.
Context {B : Type} (tbl : list memp_desc) (Hok : pools_ok tbl).
Context (pbuf_ty pool_ty queue_ty : nat) (d : memp_desc) (Hd : tbl !! pool_ty = Some d).
(** The heap and the mailbox of the thread of the stack. *)
Context (heap_malloc : Z -> B -> Z * B) (heap_free : Z -> B -> B) (heap_trim : Z -> Z -> B -> Z * B)
  (post_callback : B -> Z * B).

Definition ty_of (t : memp_t) : nat :=
  match t with MEMP_PBUF => pbuf_ty | MEMP_PBUF_POOL => pool_ty | MEMP_ARP_QUEUE => queue_ty end.
Definition on_heap {X} (f : B -> X * B) (a : pools * B) : X * (pools * B) :=
  let '(x, b) := f a.2 in (x, (a.1, b)).

#[local] Instance memp_alloc : PbufAlloc (pools * B) := {
  memp_malloc t a := match Memp.memp_malloc tbl (ty_of t) a.1 with
                     | Done (p, m) => (p, (m, a.2)) | Stop _ => (0, a) end;
  memp_free t p a := (exec (Memp.memp_free tbl (ty_of t) p) a.1, a.2);
  mem_malloc n := on_heap (heap_malloc n);
  mem_free p a := (a.1, heap_free p a.2);
  mem_trim p n := on_heap (heap_trim p n);
  tcpip_try_callback := on_heap post_callback
}.

Definition memp_pool_is (a : pools * B) (l u : list Z) : Prop :=
  exists free, pools_rep tbl a.1 free /\ free pool_ty = l /\ Permutation (l ++ u) (elements d).

#[local] Program Instance memp_pool : PbufPool (A := pools * B) := { pool_is := memp_pool_is }.
Next Obligation.
  intros a l u (free & Hr & <- & Hp). pose proof (elements_nodup tbl Hok _ _ Hd) as Hn. rewrite Hp. split; [done|].
  intros Hin. by destruct (element_aligned tbl Hok _ _ 0 Hd ltac:(rewrite <- Hp; set_solver)).
Qed.
Next Obligation.
  intros a q l u (free & Hr & Hf & Hp). cbn [memp_malloc memp_alloc ty_of].
  destruct (proj1 (wp_done _ _ _) (memp_malloc_some tbl Hok a.1 free pool_ty d q l Hr Hd Hf)) as (r & m & -> & -> & Hr').
  eexists. split; [reflexivity|]. exists (upd free pool_ty l). split; [done|]. rewrite upd_eq. split; [done|].
  rewrite <- Hp. cbn. by rewrite Permutation_middle.
Qed.
Next Obligation.
  intros a u (free & Hr & Hf & Hp). cbn [memp_malloc memp_alloc ty_of].
  rewrite (memp_malloc_empty tbl a.1 free pool_ty d Hr Hd Hf). eexists. split; [reflexivity|]. by exists free.
Qed.
Next Obligation.
  intros a q l u u' (free & Hr & Hf & Hp) Hu. cbn [memp_free memp_alloc ty_of].
  pose proof (elements_nodup tbl Hok _ _ Hd) as Hn. rewrite <- Hp, Hu in Hn.
  apply NoDup_app in Hn as (_ & Hn & _).
  destruct (proj1 (wp_done _ _ _) (memp_free_run tbl Hok a.1 free pool_ty d q Hr Hd
    ltac:(rewrite <- Hp, Hu; set_solver) ltac:(rewrite Hf; set_solver))) as ([] & m & Hrun & Hr').
  exists (upd free pool_ty (q :: free pool_ty)). unfold exec. rewrite Hrun. split; [done|]. rewrite upd_eq, Hf.
  split; [done|]. rewrite <- Hp, Hu. cbn. by rewrite Permutation_middle.
Qed.
Next Obligation.
  intros a l u Hp. unfold tcpip_try_callback, memp_alloc, on_heap. by destruct (post_callback a.2).
Qed.
End FromMemp.

(** ** The properties on concrete packets *)

Section Witnesses.
#[local] Instance demo_alloc : PbufAlloc (pools * unit) :=
  memp_alloc two_pools 0 1 2 (fun _ b => (0, b)) (fun _ b => b) (fun p _ b => (p, b)) (fun b => (ERR_OK, b)).
#[local] Instance demo_pool : PbufPool :=
  memp_pool two_pools two_pools_ok 0 1 2 (mkMempDesc 528 2 2002) eq_refl
    (fun _ b => (0, b)) (fun _ b => b) (fun p _ b => (p, b)) (fun b => (ERR_OK, b)).

Definition demo_pools : pools * unit := (memp_init two_pools (mkPools ∅ ∅), tt).
Definition demo_start : pst (pools * unit) := mkPst ∅ ∅ demo_pools 0.

(** 600 bytes behind the headers of a frame need both pbufs of the pool, 1500 bytes need more. *)
Lemma pbuf_alloc_all_or_nothing_witness :
  wp (pbuf_alloc PBUF_LINK 600 PBUF_POOL) demo_start (fun r s' => exists l, chain (pbufs s') r l /\
    total l = 600 /\ l.*1 = [2532; 2004]) /\
  wp (pbuf_alloc PBUF_LINK 1500 PBUF_POOL) demo_start (fun r s' => r = 0 /\ pbufs s' = ∅).
Proof.
  assert (Hp : pool_is (palloc demo_start) [2532; 2004] []).
  { exists (all_free two_pools). split; [apply (memp_init_run two_pools two_pools_ok)|].
    split; [done|apply perm_swap]. }
  assert (Hn : forall y, y ∈ [2532; 2004] -> pbufs demo_start !! y = None) by done.
  split; (eapply wp_mono; [apply (pbuf_alloc_all_or_nothing _ _ _ [2532; 2004] [] Hp Hn); by_decision|]).
  - intros r s' [_ (l & H1 & H2 & _ & H3 & _)]. by exists l.
  - intros r s' [_ (H1 & H2 & _)]. done.
Defined.

(** Two pbufs in a packet of five bytes, and a packet of one byte; the second pbuf is shared. *)
Definition demo_a : pbuf := mkPbuf 200 1000 5 3 (u8 PBUF_POOL) 0 1 0.
Definition demo_b : pbuf := mkPbuf 0 2000 2 2 (u8 PBUF_POOL) 0 2 0.
Definition demo_c : pbuf := mkPbuf 0 3000 1 1 (u8 PBUF_POOL) 0 1 0.
Definition demo_mem : mem :=
  list_to_map (map (fun i => (1000 + Z.of_nat i, Z.of_nat i)) (seq 0 3) ++
    map (fun i => (2000 + Z.of_nat i, 3 + Z.of_nat i)) (seq 0 2) ++
    map (fun i => (3000 + Z.of_nat i, 77)) (seq 0 1) ++
    map (fun i => (4000 + Z.of_nat i, 90 + Z.of_nat i)) (seq 0 8)).
Definition demo : pst (pools * unit) :=
  mkPst (list_to_map [(100, demo_a); (200, demo_b); (300, demo_c)]) demo_mem demo_pools 0.
Definition demo_ab : list (Z * pbuf) := [(100, demo_a); (200, demo_b)].
Lemma demo_chain : chain (pbufs demo) 100 demo_ab.
Proof. by repeat split. Qed.
Lemma demo_packet : packet demo_ab.
Proof. by repeat split. Qed.

Lemma pbuf_free_up_to_shared_witness : exists s', pbuf_free 100 demo = Done (1, s') /\
  pbufs s' !! 100 = None /\ pbufs s' !! 200 = Some (set_ref 1 demo_b).
Proof.
  destruct (pbuf_free_up_to_shared 100 demo demo_ab demo_chain) as (s' & H1 & _ & _ & H2 & H3 & _);
    [by_decision|done|by_decision|].
  exists s'. split; [exact H1|]. split; [apply H2; by_decision|]. by apply (H3 200 demo_b).
Defined.

Lemma pbuf_take_copy_roundtrip_witness : exists m' m2,
  pbuf_take 100 4000 4 demo = Done (ERR_OK, set_pmem m' demo) /\
  pbuf_copy_partial 100 4004 4 2 (set_pmem m' demo) = Done (3, set_pmem m2 demo) /\
  store_bytes m' 4004 [92; 93; 4] = Some m2.
Proof.
  destruct (pbuf_take_copy_roundtrip 100 4000 4 4004 2 4 demo demo_ab [0; 1; 2; 3; 4] [90; 91; 92; 93] demo_chain
    demo_packet) as (m' & bs & m2 & H1 & _ & -> & H3 & H4); try done; try by_decision.
  - intros x Hx. assert (Hb : bool_decide (Forall (fun y => is_Some (demo_mem !! y)) [4004; 4005; 4006; 4007]) = true)
      by (vm_compute; reflexivity).
    apply bool_decide_eq_true, Forall_forall with (x := x) in Hb; [exact Hb|]. set_unfold. lia.
  - exists m', m2. split; [exact H1|]. split; [exact H4|exact H3].
Defined.

Lemma pbuf_cat_concatenates_witness : exists m' l, pbuf_cat 100 300 demo = Done (tt, set_pbufs m' demo) /\
  chain m' 100 l /\ packet l /\ contents demo_mem l = Some [0; 1; 2; 3; 4; 77].
Proof.
  destruct (pbuf_cat_concatenates 100 300 demo demo_ab [(300, demo_c)] [0; 1; 2; 3; 4] [77] demo_chain)
    as (m' & l & H1 & H2 & H3 & _ & H4 & _); try done.
  - intros y. cbn. set_unfold. lia.
  - exists m', l. done.
Defined.
End Witnesses.
