(* ===== verification/IpAddr.v ===== *)
(** LWIP/src/core/def.c (byte order) and LWIP/src/core/ipv4/ip4_addr.c: address
    tests, parsing and printing.  Addresses are 32-bit integers in network
    order on a little-endian machine; strings are lists of character codes, the
    end of the list being the terminating NUL. *)
From S2P Require Import Prelude.

(** ** Byte order *)

Definition lwip_htons (n : Z) : Z :=
  u16 (Z.lor (Z.shiftl (Z.land n 255) 8) (Z.shiftr (Z.land n 65280) 8)).
Definition lwip_htonl (n : Z) : Z :=
  Z.lor (Z.lor (Z.lor (Z.shiftl (Z.land n 255) 24) (Z.shiftl (Z.land n 65280) 8))
               (Z.shiftr (Z.land n 16711680) 8)) (Z.shiftr (Z.land n 4278190080) 24).

Definition LWIP_MAKEU32 (a b c d : Z) : Z :=
  Z.lor (Z.lor (Z.lor (Z.shiftl (Z.land a 255) 24) (Z.shiftl (Z.land b 255) 16))
               (Z.shiftl (Z.land c 255) 8)) (Z.land d 255).
Definition IP4_ADDR (a b c d : Z) : Z := lwip_htonl (LWIP_MAKEU32 a b c d).
Definition ip4_addr_get_byte (addr idx : Z) : Z := Z.land (Z.shiftr addr (8 * idx)) 255.

Definition IPADDR_ANY : Z := 0.
Definition IPADDR_BROADCAST : Z := 4294967295.
Definition IPADDR_NONE : Z := 4294967295.
Definition NETIF_FLAG_BROADCAST : Z := 2.

(** ** Address tests *)

(** The fields of [struct netif] the test reads. *)
Record ip4_netif := mkIp4Netif {
  nflags : Z;
  ip_addr : Z;
  netmask : Z
}.

Definition ip4_addr_netcmp (a b mask : Z) : bool := Z.land a mask =? Z.land b mask.

Definition ip4_addr_isbroadcast_u32 (addr : Z) (netif : ip4_netif) : bool :=
  if (u32 (Z.lnot addr) =? IPADDR_ANY) || (addr =? IPADDR_ANY) then true
  else if Z.land (nflags netif) NETIF_FLAG_BROADCAST =? 0 then false
  else if addr =? ip_addr netif then false
  else if ip4_addr_netcmp addr (ip_addr netif) (netmask netif)
          && (Z.land addr (u32 (Z.lnot (netmask netif))) =?
              Z.land IPADDR_BROADCAST (u32 (Z.lnot (netmask netif))))
  then true else false.

(** The two loops over [mask]; [n] bounds the iterations left. *)
Fixpoint first_zero (n : nat) (nm mask : Z) : Z :=
  match n with
  | O => mask
  | S n => if negb (mask =? 0) then
             if Z.land nm mask =? 0 then mask else first_zero n nm (Z.shiftr mask 1)
           else mask
  end.
Fixpoint no_one (n : nat) (nm mask : Z) : bool :=
  match n with
  | O => true
  | S n => if negb (mask =? 0) then
             if negb (Z.land nm mask =? 0) then false else no_one n nm (Z.shiftr mask 1)
           else true
  end.
Definition ip4_addr_netmask_valid (netmask : Z) : bool :=
  let nm_hostorder := lwip_htonl netmask in
  no_one 33 nm_hostorder (first_zero 33 nm_hostorder (Z.shiftl 1 31)).

(** ** Parsing *)

Definition lwip_in_range (c lo up : Z) : bool := (lo <=? u8 c) && (u8 c <=? up).
Definition lwip_isdigit (c : Z) : bool := lwip_in_range c 48 57.
Definition lwip_isxdigit (c : Z) : bool :=
  lwip_isdigit c || lwip_in_range c 97 102 || lwip_in_range c 65 70.
Definition lwip_islower (c : Z) : bool := lwip_in_range c 97 122.
Definition lwip_isspace (c : Z) : bool :=
  (c =? 32) || (c =? 12) || (c =? 10) || (c =? 13) || (c =? 9) || (c =? 11).

(** The character at the pointer: 0 at the end of the string. *)
Definition ch (cp : list Z) : Z := match cp with [] => 0 | c :: _ => c end.

(** The inner loop: digits of the base; the value and the rest. *)
Fixpoint number (base val : Z) (cp : list Z) : Z * list Z :=
  match cp with
  | [] => (val, [])
  | c :: r =>
      if lwip_isdigit c then
        if (base =? 8) && (8 <=? u32 (c - 48)) then (val, cp)
        else number base (u32 (val * base + u32 (c - 48))) r
      else if (base =? 16) && lwip_isxdigit c then
        number base (Z.lor (u32 (Z.shiftl val 4))
                       (u32 (c + 10 - (if lwip_islower c then 97 else 65)))) r
      else (val, cp)
  end.

(** The base from the prefix. *)
Definition prefix (cp : list Z) : Z * list Z :=
  match cp with
  | c :: r =>
      if c =? 48 then
        if (ch r =? 120) || (ch r =? 88) then (16, tail r) else (8, r)
      else (10, cp)
  | [] => (10, cp)
  end.

(** The outer loop; [parts] are the numbers before the last one, [n] the dots
    still allowed. *)
Fixpoint collect (n : nat) (parts : list Z) (cp : list Z) : option (list Z * Z * list Z) :=
  if negb (lwip_isdigit (ch cp)) then None
  else
    let '(base, cp) := prefix cp in
    let '(val, cp) := number base 0 cp in
    if ch cp =? 46 then
      match n with
      | O => None
      | S n => collect n (parts ++ [val]) (tail cp)
      end
    else Some (parts, val, cp).

Definition ip4addr_aton (cp : list Z) : option Z :=
  match collect 3 [] cp with
  | None => None
  | Some (parts, val, cp) =>
      if negb (ch cp =? 0) && negb (lwip_isspace (ch cp)) then None
      else
        match parts with
        | [] => Some (lwip_htonl val)
        | [a] =>
            if (16777215 <? val) || (255 <? a) then None
            else Some (lwip_htonl (Z.lor val (u32 (Z.shiftl a 24))))
        | [a; b] =>
            if (65535 <? val) || (255 <? a) || (255 <? b) then None
            else Some (lwip_htonl (Z.lor val (Z.lor (u32 (Z.shiftl a 24)) (u32 (Z.shiftl b 16)))))
        | [a; b; c] =>
            if (255 <? val) || (255 <? a) || (255 <? b) || (255 <? c) then None
            else Some (lwip_htonl (Z.lor val
                   (Z.lor (Z.lor (u32 (Z.shiftl a 24)) (u32 (Z.shiftl b 16))) (u32 (Z.shiftl c 8)))))
        | _ => None
        end
  end.

Definition ipaddr_addr (cp : list Z) : Z :=
  match ip4addr_aton cp with Some v => v | None => IPADDR_NONE end.

(** ** Printing *)

(** The [do] loop: the digits of a byte, least significant first, as [inv]
    holds them. *)
Fixpoint byte_digits (fuel : nat) (ap : Z) : list Z :=
  match fuel with
  | O => []
  | S fuel =>
      let rem := ap mod 10 in
      let ap := ap / 10 in
      (48 + rem) :: (if ap =? 0 then [] else byte_digits fuel ap)
  end.

(** Append characters to the buffer while it has room. *)
Fixpoint emit (buflen : Z) (out cs : list Z) : option (list Z) :=
  match cs with
  | [] => Some out
  | c :: cs => if buflen <=? Z.of_nat (length out) then None else emit buflen (out ++ [c]) cs
  end.

Fixpoint print_bytes (bs : list Z) (buflen : Z) (out : list Z) : option (list Z) :=
  match bs with
  | [] => Some out
  | b :: bs =>
      out ← emit buflen out (reverse (byte_digits 3 b));
      out ← emit buflen out [46];
      print_bytes bs buflen out
  end.

(** The string in the buffer, or [None] for NULL. *)
Definition ip4addr_ntoa_r (addr buflen : Z) : option (list Z) :=
  out ← print_bytes (map (ip4_addr_get_byte addr) [0; 1; 2; 3]) buflen [];
  Some (removelast out).

Definition IP4ADDR_STRLEN_MAX : Z := 16.
Definition ip4addr_ntoa (addr : Z) : option (list Z) := ip4addr_ntoa_r addr IP4ADDR_STRLEN_MAX.

(** ** Byte order lemmas *)

Lemma land_mask_hi x k : 0 <= k -> Z.land x (Z.shiftl 255 k) = Z.shiftl (Z.land (Z.shiftr x k) 255) k.
Proof.
  intros Hk. apply Z.bits_inj'. intros n Hn. rewrite Z.land_spec.
  destruct (decide (n < k)).
  - rewrite !Z.shiftl_spec_low by lia. apply andb_false_r.
  - rewrite !Z.shiftl_spec, Z.land_spec, Z.shiftr_spec by lia. do 2 f_equal. lia.
Qed.

Definition byte_of (x i : Z) : Z := x / 2 ^ (8 * i) mod 256.

Lemma lwip_htons_spec n : lwip_htons n = n mod 256 * 256 + n / 256 mod 256.
Proof.
  unfold lwip_htons. change 65280 with (Z.shiftl 255 8). rewrite land_mask_hi by lia.
  rewrite Z.shiftr_shiftl_l, Z.shiftl_0_r by lia. autorewrite with cbits.
  change 256 with (2 ^ 8) at 2. rewrite lor_disjoint_add by zlia. change (2 ^ 8) with 256.
  rewrite u16_small by zlia. done.
Qed.

Lemma lwip_htonl_spec n :
  lwip_htonl n = n mod 256 * 16777216 + n / 256 mod 256 * 65536 + n / 65536 mod 256 * 256 + n / 16777216 mod 256.
Proof.
  unfold lwip_htonl. change 65280 with (Z.shiftl 255 8). change 16711680 with (Z.shiftl 255 16).
  change 4278190080 with (Z.shiftl 255 24). rewrite !land_mask_hi by lia.
  rewrite !Z.shiftr_shiftl_l, Z.shiftl_shiftl, Z.shiftl_0_r by lia.
  change (16 - 8) with 8. change (8 + 8) with 16. autorewrite with cbits.
  set (b0 := n mod 256). set (b1 := n / 256 mod 256). set (b2 := n / 65536 mod 256).
  set (b3 := n / 16777216 mod 256).
  assert (0 <= b0 < 256 /\ 0 <= b1 < 256 /\ 0 <= b2 < 256 /\ 0 <= b3 < 256) as (? & ? & ? & ?)
    by (unfold b0, b1, b2, b3; zlia).
  change 16777216 with (2 ^ 24). rewrite (lor_disjoint_add b0 _ 24) by lia.
  replace (b0 * 2 ^ 24 + b1 * 65536) with ((b0 * 256 + b1) * 2 ^ 16) by lia.
  rewrite (lor_disjoint_add _ _ 16) by lia.
  replace ((b0 * 256 + b1) * 2 ^ 16 + b2 * 256) with ((b0 * 65536 + b1 * 256 + b2) * 2 ^ 8) by lia.
  rewrite (lor_disjoint_add _ _ 8) by lia. lia.
Qed.

(** A word from its bytes, least significant first. *)
Definition word (b0 b1 b2 b3 : Z) : Z := b0 + b1 * 256 + b2 * 65536 + b3 * 16777216.

Lemma word_byte b0 b1 b2 b3 : is_u8 b0 -> is_u8 b1 -> is_u8 b2 -> is_u8 b3 ->
  word b0 b1 b2 b3 mod 256 = b0 /\ word b0 b1 b2 b3 / 256 mod 256 = b1 /\
  word b0 b1 b2 b3 / 65536 mod 256 = b2 /\ word b0 b1 b2 b3 / 16777216 mod 256 = b3.
Proof.
  unfold word, is_u8. intros H0 H1 H2 H3. repeat split.
  - zlia.
  - replace (_ / 256) with (b1 + (b2 + b3 * 256) * 256) by zlia. zlia.
  - replace (_ / 65536) with (b2 + b3 * 256) by zlia. zlia.
  - replace (_ / 16777216) with b3 by zlia. zlia.
Qed.

Lemma word_of n : is_u32 n -> exists b0 b1 b2 b3,
  is_u8 b0 /\ is_u8 b1 /\ is_u8 b2 /\ is_u8 b3 /\ n = word b0 b1 b2 b3.
Proof.
  intros Hn. exists (n mod 256), (n / 256 mod 256), (n / 65536 mod 256), (n / 16777216).
  unfold word, is_u8. split; [zlia|]. split; [zlia|]. split; [zlia|]. split; [zlia|].
  pose proof (Z.div_mod n 256 ltac:(lia)). pose proof (Z.div_mod (n / 256) 256 ltac:(lia)).
  pose proof (Z.div_mod (n / 256 / 256) 256 ltac:(lia)).
  rewrite !Z.div_div in * by lia. change (256 * 256) with 65536 in *. change (65536 * 256) with 16777216 in *.
  lia.
Qed.

Lemma htonl_word b0 b1 b2 b3 : is_u8 b0 -> is_u8 b1 -> is_u8 b2 -> is_u8 b3 ->
  lwip_htonl (word b0 b1 b2 b3) = word b3 b2 b1 b0.
Proof.
  intros H0 H1 H2 H3. rewrite lwip_htonl_spec.
  destruct (word_byte b0 b1 b2 b3 H0 H1 H2 H3) as (-> & -> & -> & ->). unfold word. lia.
Qed.

Lemma lwip_htonl_involutive n : is_u32 n -> lwip_htonl (lwip_htonl n) = n.
Proof.
  intros (b0 & b1 & b2 & b3 & ? & ? & ? & ? & ->)%word_of. by rewrite !htonl_word.
Qed.

Lemma lwip_htonl_range n : is_u32 (lwip_htonl n).
Proof. rewrite lwip_htonl_spec. zlia. Qed.

Lemma lwip_htons_involutive n : is_u16 n -> lwip_htons (lwip_htons n) = n.
Proof. intros Hn. rewrite !lwip_htons_spec. zlia. Qed.

Lemma make_u32_spec a b c d : is_u8 a -> is_u8 b -> is_u8 c -> is_u8 d ->
  LWIP_MAKEU32 a b c d = a * 16777216 + b * 65536 + c * 256 + d.
Proof.
  unfold is_u8. intros. unfold LWIP_MAKEU32. autorewrite with cbits. rewrite !Z.mod_small by lia.
  change 16777216 with (2 ^ 24). rewrite (lor_disjoint_add a _ 24) by lia.
  replace (a * 2 ^ 24 + b * 65536) with ((a * 256 + b) * 2 ^ 16) by lia.
  rewrite (lor_disjoint_add _ _ 16) by lia.
  replace ((a * 256 + b) * 2 ^ 16 + c * 256) with ((a * 65536 + b * 256 + c) * 2 ^ 8) by lia.
  rewrite (lor_disjoint_add _ _ 8) by lia. lia.
Qed.

(** ** Printing and parsing lemmas *)

Definition dec (b : Z) : list Z := reverse (byte_digits 3 b).

Lemma dec_cases b : is_u8 b ->
  (b < 10 /\ dec b = [48 + b]) \/
  (10 <= b < 100 /\ dec b = [48 + b / 10; 48 + b mod 10]) \/
  (100 <= b /\ dec b = [48 + b / 100; 48 + b / 10 mod 10; 48 + b mod 10]).
Proof.
  unfold is_u8. intros Hb. unfold dec, byte_digits.
  destruct (Z.eqb_spec (b / 10) 0).
  - left. split; [zlia|]. cbn. do 2 f_equal. zlia.
  - right. destruct (Z.eqb_spec (b / 10 / 10) 0).
    + left. split; [zlia|]. cbn. do 3 f_equal. zlia.
    + right. split; [zlia|]. destruct (Z.eqb_spec (b / 10 / 10 / 10) 0); [|zlia].
      cbn. do 2 f_equal. zlia.
Qed.

Lemma dec_length b : is_u8 b -> (1 <= length (dec b) <= 3)%nat.
Proof. intros [[_ ->]|[[_ ->]|[_ ->]]]%dec_cases; cbn; lia. Qed.

Lemma emit_run buflen out cs :
  emit buflen out cs = if Z.of_nat (length out + length cs) <=? Z.max buflen (Z.of_nat (length out))
                       then Some (out ++ cs) else None.
Proof.
  revert out. induction cs as [|c cs IH]; intros out; cbn [emit length].
  - rewrite app_nil_r. destruct (Z.leb_spec (Z.of_nat (length out + 0)) (Z.max buflen (Z.of_nat (length out)))); [done|lia].
  - destruct (Z.leb_spec buflen (Z.of_nat (length out))).
    + destruct (Z.leb_spec (Z.of_nat (length out + S (length cs))) (Z.max buflen (Z.of_nat (length out)))); [lia|done].
    + rewrite IH, length_app. cbn [length]. rewrite <- app_assoc. cbn [app].
      destruct (Z.leb_spec (Z.of_nat (length out + 1 + length cs)) (Z.max buflen (Z.of_nat (length out + 1)))),
        (Z.leb_spec (Z.of_nat (length out + S (length cs))) (Z.max buflen (Z.of_nat (length out)))); done || lia.
Qed.

(** The bytes printed one after the other, each with its dot. *)
Definition dotted (bs : list Z) : list Z := concat (map (fun b => dec b ++ [46]) bs).

Lemma print_bytes_run bs buflen out :
  print_bytes bs buflen out =
  if Z.of_nat (length out + length (dotted bs)) <=? Z.max buflen (Z.of_nat (length out))
  then Some (out ++ dotted bs) else None.
Proof.
  revert out. induction bs as [|b bs IH]; intros out; cbn [print_bytes].
  - cbn. rewrite app_nil_r. destruct (Z.leb_spec (Z.of_nat (length out + 0)) (Z.max buflen (Z.of_nat (length out)))); [done|lia].
  - change (dotted (b :: bs)) with ((dec b ++ [46]) ++ dotted bs). fold (dec b).
    rewrite emit_run. rewrite !length_app. cbn [length].
    destruct (Z.leb_spec (Z.of_nat (length out + length (dec b))) (Z.max buflen (Z.of_nat (length out)))) as [H1|H1]; cbn [mbind option_bind].
    + rewrite emit_run, length_app. cbn [length].
      destruct (Z.leb_spec (Z.of_nat (length out + length (dec b) + 1)) (Z.max buflen (Z.of_nat (length out + length (dec b))))) as [H2|H2]; cbn [mbind option_bind].
      * rewrite IH, !length_app. cbn [length]. rewrite <- !app_assoc.
        destruct (Z.leb_spec (Z.of_nat (length out + length (dec b) + 1 + length (dotted bs)))
                   (Z.max buflen (Z.of_nat (length out + length (dec b) + 1)))),
          (Z.leb_spec (Z.of_nat (length out + (length (dec b) + 1 + length (dotted bs))))
                   (Z.max buflen (Z.of_nat (length out)))); try done; try lia.
      * destruct (Z.leb_spec (Z.of_nat (length out + (length (dec b) + 1 + length (dotted bs))))
                   (Z.max buflen (Z.of_nat (length out)))); [lia|done].
    + destruct (Z.leb_spec (Z.of_nat (length out + (length (dec b) + 1 + length (dotted bs))))
                   (Z.max buflen (Z.of_nat (length out)))); [lia|done].
Qed.

Lemma get_byte_word b0 b1 b2 b3 : is_u8 b0 -> is_u8 b1 -> is_u8 b2 -> is_u8 b3 ->
  map (ip4_addr_get_byte (word b0 b1 b2 b3)) [0; 1; 2; 3] = [b0; b1; b2; b3].
Proof.
  intros H0 H1 H2 H3. destruct (word_byte b0 b1 b2 b3 H0 H1 H2 H3) as (E0 & E1 & E2 & E3).
  unfold ip4_addr_get_byte. cbn [map]. change (8 * 0) with 0. change (8 * 1) with 8.
  change (8 * 2) with 16. change (8 * 3) with 24. rewrite Z.shiftr_0_r. autorewrite with cbits.
  by rewrite E0, E1, E2, E3.
Qed.

(** The text of an address. *)
Definition text (b0 b1 b2 b3 : Z) : list Z :=
  dec b0 ++ 46 :: dec b1 ++ 46 :: dec b2 ++ 46 :: dec b3.

Lemma dotted_text b0 b1 b2 b3 : dotted [b0; b1; b2; b3] = text b0 b1 b2 b3 ++ [46].
Proof. unfold dotted, text. cbn. rewrite app_nil_r. by repeat (rewrite <- !app_assoc; cbn). Qed.

Lemma ntoa_r_run b0 b1 b2 b3 buflen : is_u8 b0 -> is_u8 b1 -> is_u8 b2 -> is_u8 b3 -> 0 <= buflen ->
  ip4addr_ntoa_r (word b0 b1 b2 b3) buflen =
  if Z.of_nat (length (text b0 b1 b2 b3)) <? buflen then Some (text b0 b1 b2 b3) else None.
Proof.
  intros H0 H1 H2 H3 Hb. unfold ip4addr_ntoa_r. rewrite get_byte_word by done.
  rewrite print_bytes_run, dotted_text, length_app. cbn [length Nat.add].
  destruct (Z.leb_spec (Z.of_nat (length (text b0 b1 b2 b3) + 1)) (Z.max buflen (Z.of_nat 0))),
    (Z.ltb_spec (Z.of_nat (length (text b0 b1 b2 b3))) buflen); try lia; [|done].
  cbn [mbind option_bind app]. by rewrite removelast_last.
Qed.

Definition ends (rest : list Z) : Prop := rest = [] \/ ch rest = 46.

Lemma isdigit_dec d : 0 <= d < 10 -> lwip_isdigit (48 + d) = true.
Proof.
  intros Hd. unfold lwip_isdigit, lwip_in_range. rewrite u8_small by zlia.
  apply andb_true_iff. split; apply Z.leb_le; lia.
Qed.

Lemma number_digit val d rest : 0 <= d < 10 -> 0 <= val < 1000 ->
  number 10 val ((48 + d) :: rest) = number 10 (val * 10 + d) rest.
Proof.
  intros Hd Hv. cbn [number]. rewrite isdigit_dec by done. cbn [Z.eqb Pos.eqb andb].
  rewrite (u32_small (48 + d - 48)) by zlia. rewrite u32_small by zlia. f_equal. lia.
Qed.

Lemma number_ends base val rest : ends rest -> number base val rest = (val, rest).
Proof.
  intros [->|Hc]; [done|]. destruct rest as [|c r]; [done|]. cbn in Hc. subst c. cbn [number].
  change (lwip_isdigit 46) with false. change (lwip_isxdigit 46) with false.
  by rewrite andb_false_r.
Qed.

(** Parsing what was printed. *)
Lemma number_dec b rest : is_u8 b -> ends rest ->
  lwip_isdigit (ch (dec b ++ rest)) = true /\
  (let '(base, cp) := prefix (dec b ++ rest) in number base 0 cp) = (b, rest).
Proof.
  intros Hb He. pose proof Hb as Hb'. unfold is_u8 in Hb.
  destruct (dec_cases b Hb') as [[Hr ->]|[[Hr ->]|[Hr ->]]]; cbn [app ch prefix];
    (split; [apply isdigit_dec; zlia|]).
  - destruct (Z.eqb_spec (48 + b) 48).
    + assert ((ch rest =? 120) || (ch rest =? 88) = false) as ->.
      { destruct He as [->|Hc]; [done|]. by rewrite Hc. }
      rewrite number_ends by done. f_equal. lia.
    + rewrite number_digit, number_ends by (done || lia). f_equal; lia.
  - destruct (Z.eqb_spec (48 + b / 10) 48); [zlia|].
    rewrite !number_digit, number_ends by (done || zlia). f_equal; zlia.
  - destruct (Z.eqb_spec (48 + b / 100) 48); [zlia|].
    rewrite !number_digit, number_ends by (done || zlia). f_equal; zlia.
Qed.

Lemma collect_step n parts b rest : is_u8 b -> ends (46 :: rest) ->
  collect (S n) parts (dec b ++ 46 :: rest) = collect n (parts ++ [b]) rest.
Proof.
  intros Hb He. destruct (number_dec b (46 :: rest) Hb He) as [Hd Hn]. cbn [collect].
  rewrite Hd. cbn [negb]. destruct (prefix (dec b ++ 46 :: rest)) as [base cp]. rewrite Hn. done.
Qed.

Lemma collect_last n parts b : is_u8 b -> collect n parts (dec b) = Some (parts, b, []).
Proof.
  intros Hb. destruct (number_dec b [] Hb ltac:(by left)) as [Hd Hn]. rewrite app_nil_r in *.
  destruct n; cbn [collect]; rewrite Hd; cbn [negb]; destruct (prefix (dec b)) as [base cp];
    rewrite Hn; done.
Qed.

Lemma aton_text b0 b1 b2 b3 : is_u8 b0 -> is_u8 b1 -> is_u8 b2 -> is_u8 b3 ->
  ip4addr_aton (text b0 b1 b2 b3) = Some (word b0 b1 b2 b3).
Proof.
  intros H0 H1 H2 H3. unfold ip4addr_aton, text.
  rewrite !collect_step by (done || by right). rewrite collect_last by done. cbn [app ch negb Z.eqb andb].
  unfold is_u8 in *. repeat (match goal with |- context [255 <? ?x] => destruct (Z.ltb_spec 255 x); [lia|] end).
  cbn [orb]. rewrite !u32_small by (rewrite Z.shiftl_mul_pow2 by lia; unfold is_u32; lia). f_equal.
  assert (E : Z.lor b3 (Z.lor (Z.lor (Z.shiftl b0 24) (Z.shiftl b1 16)) (Z.shiftl b2 8)) = LWIP_MAKEU32 b0 b1 b2 b3).
  { unfold LWIP_MAKEU32. rewrite !land_255, !Z.mod_small by lia. apply Z.lor_comm. }
  rewrite E, make_u32_spec by (unfold is_u8; lia).
  rewrite <- (htonl_word b3 b2 b1 b0) by (unfold is_u8; lia). f_equal. unfold word. lia.
Qed.

(** ** Netmasks and broadcast *)

(** The mask of the loops while [n] bits are left. *)
Definition mk (n : nat) : Z := match n with O => 0 | S k => 2 ^ Z.of_nat k end.

Lemma mk_shift n : Z.shiftr (mk (S n)) 1 = mk n.
Proof.
  destruct n as [|n]; [done|]. unfold mk. rewrite Z.shiftr_div_pow2 by lia.
  replace (Z.of_nat (S n)) with (1 + Z.of_nat n) by lia. rewrite Z.pow_add_r by lia.
  rewrite Z.mul_comm. by rewrite Z.div_mul by lia.
Qed.

Lemma mk_test n nm : (mk (S n) =? 0) = false /\
  (Z.land nm (mk (S n)) =? 0) = negb (Z.testbit nm (Z.of_nat n)).
Proof.
  unfold mk. split; [apply Z.eqb_neq; lia|]. rewrite land_pow2 by lia.
  destruct (Z.testbit nm (Z.of_nat n)); [apply Z.eqb_neq; lia|done].
Qed.

Lemma no_one_spec f n nm : (n < f)%nat ->
  no_one f nm (mk n) = true <-> (forall i, (i < n)%nat -> Z.testbit nm (Z.of_nat i) = false).
Proof.
  revert f. induction n as [|n IH]; intros f Hf; (destruct f as [|f]; [lia|]); cbn [no_one].
  - cbn. split; [intros; lia|done].
  - destruct (mk_test n nm) as [-> ->]. rewrite mk_shift. cbn [negb].
    destruct (Z.testbit nm (Z.of_nat n)) eqn:E; cbn [negb].
    + split; [done|]. intros H. rewrite H in E by lia. done.
    + rewrite IH by lia. split; intros H i Hi; [|by apply H; lia].
      destruct (decide (i = n)) as [->|]; [done|apply H; lia].
Qed.

Lemma first_zero_spec f n nm : (n < f)%nat ->
  exists m, (m <= n)%nat /\ first_zero f nm (mk n) = mk m /\
    (forall i, (m <= i < n)%nat -> Z.testbit nm (Z.of_nat i) = true) /\
    (forall k, m = S k -> Z.testbit nm (Z.of_nat k) = false).
Proof.
  revert f. induction n as [|n IH]; intros f Hf; (destruct f as [|f]; [lia|]); cbn [first_zero].
  - exists 0%nat. repeat split; [lia|lia|done].
  - destruct (mk_test n nm) as [-> ->]. cbn [negb]. destruct (Z.testbit nm (Z.of_nat n)) eqn:E; cbn [negb].
    + destruct (IH f) as (m & Hm & Hr & Ho & Hz); [lia|]. rewrite mk_shift. exists m.
      split; [lia|]. split; [done|]. split; [|done]. intros i Hi.
      destruct (decide (i = n)) as [->|]; [done|apply Ho; lia].
    + exists (S n). split; [lia|]. split; [done|]. split; [lia|]. by intros k [= <-].
Qed.

Lemma netmask_bits nm :
  no_one 33 nm (first_zero 33 nm (Z.shiftl 1 31)) = true <->
  exists m, (m <= 32)%nat /\ forall i, (i < 32)%nat -> Z.testbit nm (Z.of_nat i) = bool_decide (m <= i)%nat.
Proof.
  change (Z.shiftl 1 31) with (mk 32).
  destruct (first_zero_spec 33 32 nm) as (m & Hm & -> & Ho & Hz); [lia|].
  rewrite no_one_spec by lia. split.
  - intros H. exists m. split; [done|]. intros i Hi. case_bool_decide; [apply Ho; lia|apply H; lia].
  - intros (m' & Hm' & H) i Hi.
    assert (m <= m')%nat.
    { destruct m as [|k]; [lia|]. specialize (Hz k eq_refl). rewrite H in Hz by lia.
      case_bool_decide; [done|lia]. }
    rewrite H by lia. case_bool_decide; [lia|done].
Qed.

(** The netmask of a prefix of [32 - m] bits, in host order. *)
Definition prefix_mask (m : nat) : Z := 2 ^ 32 - 2 ^ Z.of_nat m.

Lemma prefix_mask_bits m i : (m <= 32)%nat -> (i < 32)%nat ->
  Z.testbit (prefix_mask m) (Z.of_nat i) = bool_decide (m <= i)%nat.
Proof.
  intros Hm Hi. unfold prefix_mask.
  replace (2 ^ 32 - 2 ^ Z.of_nat m) with (Z.shiftl (Z.ones (32 - Z.of_nat m)) (Z.of_nat m)).
  - case_bool_decide.
    + rewrite Z.shiftl_spec by lia. apply Z.ones_spec_low. lia.
    + apply Z.shiftl_spec_low. lia.
  - rewrite Z.shiftl_mul_pow2, Z.ones_equiv by lia. rewrite <- Z.sub_1_r, Z.mul_sub_distr_r.
    rewrite <- Z.pow_add_r by lia. rewrite Z.mul_1_l. do 2 f_equal. lia.
Qed.

Lemma testbit_high x i : is_u32 x -> 32 <= i -> Z.testbit x i = false.
Proof.
  unfold is_u32. intros Hx Hi. destruct (decide (x = 0)) as [->|]; [apply Z.testbit_0_l|].
  apply Z.bits_above_log2; [lia|]. assert (Z.log2 x < 32); [|lia].
  apply Z.log2_lt_pow2; [lia|]. change (2 ^ 32) with 4294967296. lia.
Qed.

Lemma prefix_mask_range m : (m <= 32)%nat -> is_u32 (prefix_mask m).
Proof.
  intros Hm. unfold prefix_mask, is_u32. pose proof (Z.pow_pos_nonneg 2 (Z.of_nat m) ltac:(lia) ltac:(lia)).
  pose proof (Z.pow_le_mono_r 2 (Z.of_nat m) 32 ltac:(lia) ltac:(lia)).
  change (2 ^ 32) with 4294967296 in *. lia.
Qed.

Lemma netmask_valid_run nm : is_u32 nm ->
  ip4_addr_netmask_valid nm = true <-> exists m, (m <= 32)%nat /\ lwip_htonl nm = prefix_mask m.
Proof.
  intros Hn. unfold ip4_addr_netmask_valid. rewrite netmask_bits. split.
  - intros (m & Hm & Hb). exists m. split; [done|]. apply Z.bits_inj'. intros i Hi.
    destruct (decide (i < 32)).
    + rewrite <- (Z2Nat.id i) by lia. rewrite Hb, prefix_mask_bits by lia. done.
    + rewrite (testbit_high (lwip_htonl nm)), (testbit_high (prefix_mask m));
        [done|by apply prefix_mask_range|lia|apply lwip_htonl_range|lia].
  - intros (m & Hm & ->). exists m. split; [done|]. intros i Hi. by apply prefix_mask_bits.
Qed.

Lemma lnot_bits m i : 0 <= i < 32 -> Z.testbit (u32 (Z.lnot m)) i = negb (Z.testbit m i).
Proof.
  intros Hi. unfold u32. change 4294967296 with (2 ^ 32).
  by rewrite Z.mod_pow2_bits_low, Z.lnot_spec by lia.
Qed.

(** Same network and all host bits set: the directed broadcast address. *)
Lemma directed_broadcast addr ip m : is_u32 addr -> is_u32 ip ->
  let hm := u32 (Z.lnot m) in
  (Z.land addr m = Z.land ip m /\ Z.land addr hm = Z.land IPADDR_BROADCAST hm) <->
  addr = Z.lor ip hm.
Proof.
  intros Ha Hi hm. assert (Hhm : is_u32 hm) by apply u32_range.
  assert (Hall : forall i, 0 <= i < 32 -> Z.testbit IPADDR_BROADCAST i = true)
    by (intros; apply (Z.ones_spec_low 32); lia).
  split.
  - intros [E1 E2]. apply Z.bits_inj'. intros i Hn. destruct (decide (i < 32)).
    + pose proof (f_equal (fun z => Z.testbit z i) E1) as B1. pose proof (f_equal (fun z => Z.testbit z i) E2) as B2.
      cbn in B1, B2. rewrite !Z.land_spec in B1, B2. rewrite Hall in B2 by lia. rewrite Z.lor_spec.
      unfold hm in *. rewrite lnot_bits in * by lia. by destruct (Z.testbit m i), (Z.testbit addr i), (Z.testbit ip i).
    + rewrite Z.lor_spec, (testbit_high addr), (testbit_high ip), (testbit_high hm); done || lia.
  - intros ->. split; apply Z.bits_inj'; intros i Hn; rewrite !Z.land_spec, Z.lor_spec;
      (destruct (decide (i < 32));
       [rewrite ?Hall by lia; unfold hm; rewrite lnot_bits by lia;
        by destruct (Z.testbit m i), (Z.testbit ip i)
       |rewrite (testbit_high ip), (testbit_high hm) by (done || lia)]).
    + done.
    + cbn. by rewrite andb_false_r.
Qed.

Lemma isbroadcast_run addr netif : is_u32 addr -> is_u32 (ip_addr netif) -> is_u32 (netmask netif) ->
  ip4_addr_isbroadcast_u32 addr netif = true <->
  addr = IPADDR_ANY \/ addr = IPADDR_BROADCAST \/
  (Z.testbit (nflags netif) 1 = true /\ addr <> ip_addr netif /\
   addr = Z.lor (ip_addr netif) (u32 (Z.lnot (netmask netif)))).
Proof.
  intros Ha Hi Hm. unfold ip4_addr_isbroadcast_u32, IPADDR_ANY, IPADDR_BROADCAST.
  assert (Hnot : u32 (Z.lnot addr) = 0 <-> addr = 4294967295).
  { unfold Z.lnot; rewrite <- Z.sub_1_r. unfold u32, is_u32 in *. zlia. }
  assert (Hfl : (Z.land (nflags netif) NETIF_FLAG_BROADCAST =? 0) = negb (Z.testbit (nflags netif) 1)).
  { change NETIF_FLAG_BROADCAST with (2 ^ 1). rewrite land_pow2 by lia.
    by destruct (Z.testbit (nflags netif) 1). }
  rewrite Hfl. set (hm := u32 (Z.lnot (netmask netif))).
  pose proof (directed_broadcast addr (ip_addr netif) (netmask netif) Ha Hi) as Hdb. cbn zeta in Hdb.
  fold hm in Hdb. unfold ip4_addr_netcmp. change 4294967295 with IPADDR_BROADCAST.
  destruct (Z.eqb_spec (u32 (Z.lnot addr)) 0), (Z.eqb_spec addr 0); cbn [orb]; [tauto..|].
  destruct (Z.testbit (nflags netif) 1); cbn [negb]; [|naive_solver].
  destruct (Z.eqb_spec addr (ip_addr netif)); [naive_solver|].
  destruct (Z.eqb_spec (Z.land addr (netmask netif)) (Z.land (ip_addr netif) (netmask netif))),
    (Z.eqb_spec (Z.land addr hm) (Z.land IPADDR_BROADCAST hm)); cbn [andb]; naive_solver.
Qed.

(** ** Properties *)

(** C20: every IPv4 address survives printing with [ip4addr_ntoa] and parsing
    with [ip4addr_aton]; the text and its NUL fit the 16-byte static buffer. *)
Theorem ip4_text_roundtrip a : is_u32 a ->
  exists str, ip4addr_ntoa a = Some str /\ ip4addr_aton str = Some a /\ (length str < 16)%nat.
Proof.
  intros (b0 & b1 & b2 & b3 & H0 & H1 & H2 & H3 & ->)%word_of. exists (text b0 b1 b2 b3).
  assert (Hl : (length (text b0 b1 b2 b3) < 16)%nat).
  { unfold text. repeat (rewrite length_app; cbn [length]).
    pose proof (dec_length b0 H0). pose proof (dec_length b1 H1). pose proof (dec_length b2 H2).
    pose proof (dec_length b3 H3). lia. }
  unfold ip4addr_ntoa. rewrite ntoa_r_run by (done || unfold IP4ADDR_STRLEN_MAX; lia).
  unfold IP4ADDR_STRLEN_MAX. destruct (Z.ltb_spec (Z.of_nat (length (text b0 b1 b2 b3))) 16); [|lia].
  split; [done|]. split; [by apply aton_text|done].
Qed.

Lemma ip4_text_roundtrip_witness :
  is_u32 15204009 /\ exists str, ip4addr_ntoa 15204009 = Some str /\ ip4addr_aton str = Some 15204009.
Proof.
  split; [by_decision|]. destruct (ip4_text_roundtrip 15204009 ltac:(by_decision)) as (str & H1 & H2 & _).
  by exists str.
Defined.

(** C21: [ip4addr_ntoa_r] returns NULL exactly when the text with its NUL does
    not fit the caller's buffer, and what it returns always does. *)
Theorem ip4addr_ntoa_r_bounds b0 b1 b2 b3 buflen :
  is_u8 b0 -> is_u8 b1 -> is_u8 b2 -> is_u8 b3 -> 0 <= buflen ->
  ip4addr_ntoa_r (word b0 b1 b2 b3) buflen =
  if Z.of_nat (length (text b0 b1 b2 b3)) + 1 <=? buflen then Some (text b0 b1 b2 b3) else None.
Proof.
  intros H0 H1 H2 H3 Hb. rewrite ntoa_r_run by done.
  destruct (Z.ltb_spec (Z.of_nat (length (text b0 b1 b2 b3))) buflen),
    (Z.leb_spec (Z.of_nat (length (text b0 b1 b2 b3)) + 1) buflen); done || lia.
Qed.

Lemma ip4addr_ntoa_r_bounds_witness :
  ip4addr_ntoa_r (word 10 0 0 255) 11 = Some (text 10 0 0 255) /\
  ip4addr_ntoa_r (word 10 0 0 255) 10 = None.
Proof.
  split; rewrite (ip4addr_ntoa_r_bounds 10 0 0 255) by (by_decision || lia); vm_compute; reflexivity.
Defined.

(** [ip4_addr_netmask_valid] accepts exactly the prefix masks /0 to /32. *)
Theorem netmask_valid_iff_prefix nm : is_u32 nm ->
  ip4_addr_netmask_valid nm = true <-> exists m, (m <= 32)%nat /\ lwip_htonl nm = prefix_mask m.
Proof. apply netmask_valid_run. Qed.

Lemma netmask_valid_iff_prefix_witness :
  ip4_addr_netmask_valid (IP4_ADDR 255 255 0 0) = true.
Proof.
  apply (netmask_valid_iff_prefix (IP4_ADDR 255 255 0 0) ltac:(by_decision)).
  exists 16%nat. split; [lia|vm_compute; reflexivity].
Defined.

(** an address is a broadcast address of an interface exactly when it is
    0.0.0.0, 255.255.255.255 or, on an interface that supports broadcast, the
    directed broadcast address of its network (and not the interface's own). *)
Theorem isbroadcast_iff_directed addr netif :
  is_u32 addr -> is_u32 (ip_addr netif) -> is_u32 (netmask netif) ->
  ip4_addr_isbroadcast_u32 addr netif = true <->
  addr = IPADDR_ANY \/ addr = IPADDR_BROADCAST \/
  (Z.testbit (nflags netif) 1 = true /\ addr <> ip_addr netif /\
   addr = Z.lor (ip_addr netif) (u32 (Z.lnot (netmask netif)))).
Proof. apply isbroadcast_run. Qed.

Lemma isbroadcast_iff_directed_witness :
  ip4_addr_isbroadcast_u32 (IP4_ADDR 169 254 255 255)
    (mkIp4Netif 26 (IP4_ADDR 169 254 231 0) (IP4_ADDR 255 255 0 0)) = true.
Proof.
  apply (isbroadcast_iff_directed (IP4_ADDR 169 254 255 255)
    (mkIp4Netif 26 (IP4_ADDR 169 254 231 0) (IP4_ADDR 255 255 0 0))); [by_decision..|].
  right. right. split; [vm_compute; reflexivity|]. split; vm_compute; [discriminate|reflexivity].
Defined.
