(* ===== verification/Mem.v ===== *)
(** LWIP/src/core/mem.c: the heap of the stack.  MEM_LIBC_MALLOC, MEM_USE_POOLS,
    MEM_OVERFLOW_CHECK, MEM_SANITY_CHECK and
    LWIP_ALLOW_MEM_FREE_FROM_OTHER_CONTEXT are off, so every operation runs under
    [mem_mutex] and is one step here; mem_size_t has 16 bits.  The headers
    ([struct mem]) are kept by address in a store of their own; the bytes
    between them belong to the clients. *)
From S2P Require Import Prelude CMem Memp.

Definition MEM_SIZE : Z := 6 * 1024.
Definition MIN_SIZE : Z := 12.
Definition MIN_SIZE_ALIGNED : Z := Eval cbv in LWIP_MEM_ALIGN_SIZE MIN_SIZE.
Definition SIZEOF_STRUCT_MEM : Z := Eval cbv in LWIP_MEM_ALIGN_SIZE 6.
Definition MEM_SIZE_ALIGNED : Z := Eval cbv in LWIP_MEM_ALIGN_SIZE MEM_SIZE.

Record struct_mem := mkMem { m_next : Z; m_prev : Z; used : Z }.
Definition set_m_next (v : Z) (h : struct_mem) := mkMem v (m_prev h) (used h).
Definition set_m_prev (v : Z) (h : struct_mem) := mkMem (m_next h) v (used h).
Definition set_used (v : Z) (h : struct_mem) := mkMem (m_next h) (m_prev h) v.

Record mem_heap := mkHeap { ram : Z; ram_end : Z; lfree : Z; mems : gmap Z struct_mem }.
Definition set_lfree (v : Z) (s : mem_heap) := mkHeap (ram s) (ram_end s) v (mems s).
Definition set_mems (m : gmap Z struct_mem) (s : mem_heap) := mkHeap (ram s) (ram_end s) (lfree s) m.

Definition ptr_to_mem (p : Z) : M mem_heap Z := gets (fun s => ram s + p).
Definition mem_to_ptr (a : Z) : M mem_heap Z := gets (fun s => u16 (a - ram s)).
Definition mem_at (a : Z) : M mem_heap struct_mem := s ← get; of_option (mems s !! a).
Definition write_mem (a : Z) (h : struct_mem) : M mem_heap unit := modify (fun s => set_mems (<[a := h]> (mems s)) s).
Definition upd_mem (a : Z) (f : struct_mem -> struct_mem) : M mem_heap unit := h ← mem_at a; write_mem a (f h).

(** [ptr_to_mem(p)->prev = v] unless [p] is the end of the heap. *)
Definition link_back (p v : Z) : M mem_heap unit :=
  if negb (p =? MEM_SIZE_ALIGNED) then a ← ptr_to_mem p; upd_mem a (set_m_prev v) else mret tt.

Definition plug_forward (mem : Z) : M mem_heap unit :=
  h ← mem_at mem;
  nmem ← ptr_to_mem (m_next h);
  if negb (mem =? nmem) then
    n ← mem_at nmem;
    s ← get;
    if (used n =? 0) && negb (nmem =? ram_end s) then
      (if lfree s =? nmem then modify (set_lfree mem) else mret tt);;
      upd_mem mem (set_m_next (m_next n));;
      p ← mem_to_ptr mem;
      link_back (m_next n) p
    else mret tt
  else mret tt.
Definition plug_backward (mem : Z) : M mem_heap unit :=
  h ← mem_at mem;
  pmem ← ptr_to_mem (m_prev h);
  if negb (pmem =? mem) then
    p ← mem_at pmem;
    s ← get;
    if used p =? 0 then
      (if lfree s =? mem then modify (set_lfree pmem) else mret tt);;
      upd_mem pmem (set_m_next (m_next h));;
      v ← mem_to_ptr pmem;
      link_back (m_next h) v
    else mret tt
  else mret tt.
Definition plug_holes (mem : Z) : M mem_heap unit :=
  s ← get;
  assert_ (ram s <=? mem);;
  assert_ (mem <? ram_end s);;
  h ← mem_at mem;
  assert_ (used h =? 0);;
  assert_ (m_next h <=? MEM_SIZE_ALIGNED);;
  plug_forward mem;;
  plug_backward mem.

(** [created] is the result of [sys_mutex_new] for [mem_mutex]. *)
Definition mem_init (ram_heap created : Z) : M mem_heap unit :=
  let ram := LWIP_MEM_ALIGN ram_heap in
  modify (fun s => mkHeap ram (ram + MEM_SIZE_ALIGNED) ram (mems s));;
  write_mem ram (mkMem MEM_SIZE_ALIGNED 0 0);;
  write_mem (ram + MEM_SIZE_ALIGNED) (mkMem MEM_SIZE_ALIGNED MEM_SIZE_ALIGNED 1);;
  assert_ (created =? ERR_OK).

Definition mem_link_valid (mem : Z) : M mem_heap bool :=
  h ← mem_at mem;
  rmem_idx ← mem_to_ptr mem;
  nmem ← ptr_to_mem (m_next h);
  pmem ← ptr_to_mem (m_prev h);
  if (MEM_SIZE_ALIGNED <? m_next h) || (MEM_SIZE_ALIGNED <? m_prev h) then mret false
  else
    bad ← (if negb (m_prev h =? rmem_idx) then p ← mem_at pmem; mret (negb (m_next p =? rmem_idx)) else mret false);
    if bad : bool then mret false
    else
      s ← get;
      if negb (nmem =? ram_end s) then n ← mem_at nmem; mret (m_prev n =? rmem_idx) else mret true.

(** An illegal pointer fails an assertion, after which nothing runs. *)
Definition mem_free (rmem : Z) : M mem_heap unit :=
  if rmem =? 0 then mret tt
  else
    assert_ (Z.land rmem (MEM_ALIGNMENT - 1) =? 0);;
    s ← get;
    let mem := rmem - SIZEOF_STRUCT_MEM in
    assert_ (negb ((mem <? ram s) || (ram_end s <? rmem + MIN_SIZE_ALIGNED)));;
    h ← mem_at mem;
    assert_ (negb (used h =? 0));;
    valid ← mem_link_valid mem;
    assert_ valid;;
    upd_mem mem (set_used 0);;
    (if mem <? lfree s then modify (set_lfree mem) else mret tt);;
    plug_holes mem.

(** The next block is free: it begins earlier. *)
Definition trim_move (mem ptr newsize : Z) : M mem_heap unit :=
  h ← mem_at mem;
  mem2 ← ptr_to_mem (m_next h);
  assert_ (negb (m_next h =? MEM_SIZE_ALIGNED));;
  h2 ← mem_at mem2;
  let next := m_next h2 in
  let ptr2 := u16 (ptr + SIZEOF_STRUCT_MEM + newsize) in
  mem2' ← ptr_to_mem ptr2;
  s ← get;
  (if lfree s =? mem2 then modify (set_lfree mem2') else mret tt);;
  write_mem mem2' (mkMem next ptr 0);;
  upd_mem mem (set_m_next ptr2);;
  link_back next ptr2.
(** The rest of the block becomes a free one. *)
Definition trim_split (mem ptr newsize : Z) : M mem_heap unit :=
  h ← mem_at mem;
  let ptr2 := u16 (ptr + SIZEOF_STRUCT_MEM + newsize) in
  assert_ (negb (m_next h =? MEM_SIZE_ALIGNED));;
  mem2 ← ptr_to_mem ptr2;
  s ← get;
  (if mem2 <? lfree s then modify (set_lfree mem2) else mret tt);;
  write_mem mem2 (mkMem (m_next h) ptr 0);;
  upd_mem mem (set_m_next ptr2);;
  link_back (m_next h) ptr2.

Definition mem_trim (rmem new_size : Z) : M mem_heap Z :=
  let newsize := Z.max (u16 (LWIP_MEM_ALIGN_SIZE new_size)) MIN_SIZE_ALIGNED in
  if (MEM_SIZE_ALIGNED <? newsize) || (newsize <? new_size) then mret 0
  else
    s ← get;
    assert_ ((ram s <=? rmem) && (rmem <? ram_end s));;
    let mem := rmem - SIZEOF_STRUCT_MEM in
    ptr ← mem_to_ptr mem;
    h ← mem_at mem;
    let size := u16 (u16 (m_next h - ptr) - SIZEOF_STRUCT_MEM) in
    assert_ (newsize <=? size);;
    if newsize =? size then mret rmem
    else
      mem2 ← ptr_to_mem (m_next h);
      h2 ← mem_at mem2;
      (if used h2 =? 0 then trim_move mem ptr newsize
       else if newsize + SIZEOF_STRUCT_MEM + MIN_SIZE_ALIGNED <=? size then trim_split mem ptr newsize
       else mret tt);;
      mret rmem.

(** The scan for a free block that is big enough: its index. *)
Fixpoint malloc_find (fuel : nat) (ptr size : Z) : M mem_heap (option Z) :=
  match fuel with
  | O => stop_ NoFuel
  | S fuel =>
      if ptr <? MEM_SIZE_ALIGNED - size then
        mem ← ptr_to_mem ptr;
        h ← mem_at mem;
        if (used h =? 0) && (size <=? u32 (m_next h - (ptr + SIZEOF_STRUCT_MEM))) then mret (Some ptr)
        else malloc_find fuel (m_next h) size
      else mret None
  end.
(** The next free block, or the end. *)
Fixpoint next_free (fuel : nat) (cur : Z) : M mem_heap Z :=
  match fuel with
  | O => stop_ NoFuel
  | S fuel =>
      h ← mem_at cur;
      s ← get;
      if negb (used h =? 0) && negb (cur =? ram_end s) then cur ← ptr_to_mem (m_next h); next_free fuel cur
      else mret cur
  end.
Definition heap_fuel : nat := Z.to_nat MEM_SIZE_ALIGNED.

Definition malloc_take (ptr size : Z) : M mem_heap unit :=
  mem ← ptr_to_mem ptr;
  h ← mem_at mem;
  if size + SIZEOF_STRUCT_MEM + MIN_SIZE_ALIGNED <=? u32 (m_next h - (ptr + SIZEOF_STRUCT_MEM)) then
    let ptr2 := u16 (ptr + SIZEOF_STRUCT_MEM + size) in
    assert_ (negb (ptr2 =? MEM_SIZE_ALIGNED));;
    mem2 ← ptr_to_mem ptr2;
    write_mem mem2 (mkMem (m_next h) ptr 0);;
    upd_mem mem (fun h => set_used 1 (set_m_next ptr2 h));;
    link_back (m_next h) ptr2
  else upd_mem mem (set_used 1).
Definition adjust_lfree (mem : Z) : M mem_heap unit :=
  s ← get;
  if mem =? lfree s then
    cur ← next_free heap_fuel (lfree s);
    modify (set_lfree cur);;
    h ← mem_at cur;
    assert_ ((cur =? ram_end s) || (used h =? 0))
  else mret tt.

Definition mem_malloc (size_in : Z) : M mem_heap Z :=
  if size_in =? 0 then mret 0
  else
    let size := Z.max (u16 (LWIP_MEM_ALIGN_SIZE size_in)) MIN_SIZE_ALIGNED in
    if (MEM_SIZE_ALIGNED <? size) || (size <? size_in) then mret 0
    else
      s ← get;
      ptr ← mem_to_ptr (lfree s);
      found ← malloc_find heap_fuel ptr size;
      match found with
      | None => mret 0
      | Some ptr =>
          mem ← ptr_to_mem ptr;
          malloc_take ptr size;;
          adjust_lfree mem;;
          assert_ (mem + SIZEOF_STRUCT_MEM + size <=? ram_end s);;
          assert_ ((mem + SIZEOF_STRUCT_MEM) mod MEM_ALIGNMENT =? 0);;
          assert_ (Z.land mem (MEM_ALIGNMENT - 1) =? 0);;
          mret (mem + SIZEOF_STRUCT_MEM)
      end.

(** On the heap and the memory of the clients; size_t has 32 bits. *)
Definition mem_calloc (count size : Z) : M (mem_heap * mem) Z :=
  let alloc_size := u32 (count * size) in
  if negb (u16 alloc_size =? alloc_size) then mret 0
  else
    p ← zoom fst (fun h s => (h, snd s)) (mem_malloc alloc_size);
    (if negb (p =? 0) then
       s ← get;
       m ← of_option (store_bytes (snd s) p (replicate (Z.to_nat alloc_size) 0));
       put (fst s, m)
     else mret tt);;
    mret p.

(** ** The blocks of the heap

    A block is its size, header included, and whether it is in use; the blocks
    follow each other from the start of the heap to its end. *)

Abbreviation blocks := (list (Z * bool)).
Definition bit (u : bool) : Z := if u then 1 else 0.
Definition block_ok (n : Z) : Prop := SIZEOF_STRUCT_MEM + MIN_SIZE_ALIGNED <= n /\ n mod MEM_ALIGNMENT = 0.
Fixpoint extent (bs : blocks) : Z := match bs with [] => 0 | (n, _) :: bs => n + extent bs end.

(** First fit: the block that is taken, and the blocks after. *)
Fixpoint place (size off : Z) (bs : blocks) : option (Z * blocks) :=
  match bs with
  | [] => None
  | (n, u) :: bs =>
      if negb u && (size + SIZEOF_STRUCT_MEM <=? n) then
        Some (off, if size + SIZEOF_STRUCT_MEM + (SIZEOF_STRUCT_MEM + MIN_SIZE_ALIGNED) <=? n
                   then (size + SIZEOF_STRUCT_MEM, true) :: (n - (size + SIZEOF_STRUCT_MEM), false) :: bs
                   else (n, true) :: bs)
      else '(x, bs) ← place size (off + n) bs; Some (x, (n, u) :: bs)
  end.
(** Neighbouring free blocks become one. *)
Fixpoint coalesce (bs : blocks) : blocks :=
  match bs with
  | [] => []
  | (n, u) :: bs =>
      match coalesce bs with
      | (k, false) :: r => if u then (n, u) :: (k, false) :: r else (n + k, false) :: r
      | r => (n, u) :: r
      end
  end.
Fixpoint first_free (off : Z) (bs : blocks) : Z :=
  match bs with
  | [] => off
  | (n, u) :: bs => if u then first_free (off + n) bs else off
  end.
(** The block that starts at [o] gets the state [f]. *)
Fixpoint at_block (o off : Z) (f : Z * bool -> blocks) (bs : blocks) : blocks :=
  match bs with
  | [] => []
  | b :: bs => if off =? o then f b ++ bs else b :: at_block o (off + b.1) f bs
  end.

Fixpoint merged (bs : blocks) : bool :=
  match bs with
  | (_, false) :: (((_, false) :: _) as r) => false
  | _ :: r => merged r
  | [] => true
  end.

Lemma extent_app l1 l2 : extent (l1 ++ l2) = extent l1 + extent l2.
Proof. induction l1 as [|[n u] l1 IH]; [done|]. cbn [app extent]. rewrite IH. lia. Qed.
Lemma extent_ok bs : Forall block_ok bs.*1 -> 0 <= extent bs /\ 20 * Z.of_nat (length bs) <= extent bs /\ extent bs mod 4 = 0.
Proof.
  induction bs as [|[n u] bs IH]; [done|]. intros [[Hb Hm] Hbs]%Forall_cons. specialize (IH Hbs). cbn [extent length fst] in *.
  unfold SIZEOF_STRUCT_MEM, MIN_SIZE_ALIGNED, MEM_ALIGNMENT in *. split; [lia|]. split; [lia|].
  rewrite Z.add_mod, Hm by lia. destruct IH as (_ & _ & ->). done.
Qed.

(** ** The headers of the blocks *)

Section Segments.
Context (R : Z).
Implicit Types (m : gmap Z struct_mem) (bs l : blocks).

(** The blocks [bs] from index [off], the first behind the one at [pr], up to index [off']. *)
Fixpoint seg m (pr off : Z) bs (pr' off' : Z) : Prop :=
  match bs with
  | [] => pr = pr' /\ off = off'
  | (n, u) :: bs => m !! (R + off) = Some (mkMem (off + n) pr (bit u)) /\ seg m off (off + n) bs pr' off'
  end.

Lemma seg_app m pr off l1 l2 pr' off' : seg m pr off (l1 ++ l2) pr' off' <->
  exists pr1, seg m pr off l1 pr1 (off + extent l1) /\ seg m pr1 (off + extent l1) l2 pr' off'.
Proof.
  revert pr off. induction l1 as [|[n u] l1 IH]; intros pr off; cbn [app seg extent].
  - rewrite Z.add_0_r. split; [intros H; by exists pr|by intros (? & [<- _] & ?)].
  - rewrite IH. replace (off + (n + extent l1)) with (off + n + extent l1) by lia. naive_solver.
Qed.
Lemma seg_extent m pr off l pr' off' : seg m pr off l pr' off' -> off' = off + extent l.
Proof.
  revert pr off. induction l as [|[n u] l IH]; intros pr off; cbn [seg extent]; [intros [_ <-]; lia|].
  intros [_ Hs]. apply IH in Hs. lia.
Qed.
Lemma seg_prev m pr off l p1 o1 p2 o2 : seg m pr off l p1 o1 -> seg m pr off l p2 o2 -> p1 = p2.
Proof. revert pr off. induction l as [|[n u] l IH]; intros pr off; cbn [seg]; [by intros [-> _] [-> _]|]. intros [_ Ha] [_ Hb]. by eapply IH. Qed.
Lemma seg_frame m m' pr off l pr' off' : Forall block_ok l.*1 -> (forall x, R + off <= x < R + off' -> m' !! x = m !! x) ->
  seg m pr off l pr' off' -> seg m' pr off l pr' off'.
Proof.
  revert pr off. induction l as [|[n u] l IH]; intros pr off Hok Hm; cbn [seg]; [done|].
  apply Forall_cons in Hok as [[Hn _] Hok]. intros [Hh Hs]. unfold SIZEOF_STRUCT_MEM, MIN_SIZE_ALIGNED in Hn. cbn in Hn.
  pose proof (seg_extent _ _ _ _ _ _ Hs) as E. pose proof (extent_ok l Hok) as [Hp _].
  split; [rewrite Hm by lia; done|]. apply IH; [done|intros x Hx; apply Hm; lia|done].
Qed.

Definition relink m (p v : Z) : gmap Z struct_mem :=
  if p =? MEM_SIZE_ALIGNED then m
  else match m !! (R + p) with Some h => <[R + p := set_m_prev v h]> m | None => m end.
Lemma relink_other m p v x : x <> R + p -> relink m p v !! x = m !! x.
Proof. intros Hx. unfold relink. destruct (_ =? _); [done|]. destruct (m !! (R + p)); [|done]. by apply lookup_insert_ne. Qed.
Lemma relink_end m p v : relink m p v !! (R + MEM_SIZE_ALIGNED) = m !! (R + MEM_SIZE_ALIGNED).
Proof.
  destruct (Z.eq_dec p MEM_SIZE_ALIGNED) as [->|Hne]; [unfold relink; by rewrite Z.eqb_refl|]. apply relink_other. lia.
Qed.

(** The blocks up to the end of the heap. *)
Definition tail m (pr off : Z) l : Prop := exists pr', seg m pr off l pr' MEM_SIZE_ALIGNED.
Lemma relink_tail m pr v off l : Forall block_ok l.*1 -> tail m pr off l -> tail (relink m off v) v off l.
Proof.
  intros Hok [pr' Hs]. destruct l as [|[n u] l]; cbn [seg] in Hs.
  - destruct Hs as [_ ->]. exists v. by split.
  - destruct Hs as [Hh Hs]. apply Forall_cons in Hok as [[Hn _] Hok]. pose proof (seg_extent _ _ _ _ _ _ Hs) as E.
    pose proof (extent_ok l Hok) as [Hp _]. unfold SIZEOF_STRUCT_MEM, MIN_SIZE_ALIGNED in Hn. cbn in Hn.
    exists pr'. cbn [seg]. unfold relink. rewrite (proj2 (Z.eqb_neq _ _)) by lia. rewrite Hh, lookup_insert_eq.
    split; [done|]. eapply seg_frame; [done| |exact Hs]. intros x Hx. apply lookup_insert_ne. lia.
Qed.

(** Some blocks in the middle are replaced by others that take the same room. *)
Lemma replace_tail m m1 l1 mid mid' l2 pr' : Forall block_ok (l1 ++ mid ++ l2).*1 -> Forall block_ok mid'.*1 -> tail m 0 0 (l1 ++ mid ++ l2) ->
  (forall x, x < R + extent l1 \/ R + extent l1 + extent mid <= x -> m1 !! x = m !! x) ->
  (forall pr, seg m 0 0 l1 pr (extent l1) -> seg m1 pr (extent l1) mid' pr' (extent l1 + extent mid)) ->
  tail (relink m1 (extent l1 + extent mid) pr') 0 0 (l1 ++ mid' ++ l2).
Proof.
  rewrite !fmap_app. intros [Ho1 [Ho2 Ho3]%Forall_app]%Forall_app Hok' [p Hs] Hm Hmid.
  apply seg_app in Hs as (pr & Hs1 & (pr2 & Hs2 & Hs3)%seg_app). rewrite Z.add_0_l in *.
  set (o := extent l1 + extent mid) in *. assert (Hp : 0 <= extent l1 /\ 0 <= extent mid) by (split; by apply extent_ok).
  assert (H3' : tail m1 pr2 o l2).
  { exists p. eapply seg_frame; [done| |exact Hs3]. intros x Hx. apply Hm. lia. }
  destruct (relink_tail _ _ pr' _ _ Ho3 H3') as [p3 Hs3']. exists p3. apply seg_app. exists pr. rewrite Z.add_0_l. split.
  - eapply seg_frame; [done| |exact Hs1]. intros x Hx. rewrite relink_other by lia. apply Hm. lia.
  - pose proof (Hmid pr Hs1) as Hmid'. pose proof (seg_extent _ _ _ _ _ _ Hmid') as E. apply seg_app. exists pr'.
    replace (extent l1 + extent mid') with o by lia. split; [|done].
    eapply seg_frame; [done| |exact Hmid']. intros x Hx. apply relink_other. lia.
Qed.

(** The header of a block in the middle. *)
Lemma tail_header m l1 n u l2 : tail m 0 0 (l1 ++ (n, u) :: l2) ->
  exists pr, seg m 0 0 l1 pr (extent l1) /\ m !! (R + extent l1) = Some (mkMem (extent l1 + n) pr (bit u)).
Proof. intros [p (pr & Hs1 & Hh & _)%seg_app]. rewrite Z.add_0_l in *. by exists pr. Qed.
End Segments.

(** ** The heap as its blocks *)

Definition last_mem : struct_mem := mkMem MEM_SIZE_ALIGNED MEM_SIZE_ALIGNED 1.

Record tiles (s : mem_heap) (bs : blocks) : Prop := {
  tl_ram : 0 < ram s /\ ram s mod MEM_ALIGNMENT = 0;
  tl_end : ram_end s = ram s + MEM_SIZE_ALIGNED;
  tl_tail : tail (ram s) (mems s) 0 0 bs;
  tl_last : mems s !! (ram s + MEM_SIZE_ALIGNED) = Some last_mem;
  tl_ok : Forall block_ok bs.*1;
  tl_lfree : lfree s = ram s + first_free 0 bs
}.
(** Between the operations no two neighbours are free. *)
Definition heap_is (s : mem_heap) (bs : blocks) : Prop := tiles s bs /\ merged bs = true.

Lemma tiles_extent s bs : tiles s bs -> extent bs = MEM_SIZE_ALIGNED.
Proof. intros Ht. destruct (tl_tail _ _ Ht) as [p Hs]. apply seg_extent in Hs. lia. Qed.

Lemma first_free_app off l1 n l2 n' l2' : first_free off (l1 ++ (n, false) :: l2) = first_free off (l1 ++ (n', false) :: l2').
Proof. revert off. induction l1 as [|[k u] l1 IH]; intros off; [done|]. cbn [app first_free]. destruct u; [apply IH|done]. Qed.
Lemma first_free_bounds off bs : Forall block_ok bs.*1 -> off <= first_free off bs <= off + extent bs.
Proof.
  revert off. induction bs as [|[n u] bs IH]; intros off; cbn [first_free extent]; [lia|]. intros [[Hn _] Hok]%Forall_cons.
  pose proof (extent_ok bs Hok) as [? _]. unfold SIZEOF_STRUCT_MEM, MIN_SIZE_ALIGNED in Hn. cbn in Hn.
  destruct u; [specialize (IH (off + n) Hok)|]; lia.
Qed.
Lemma first_free_le off l1 n l2 : Forall block_ok l1.*1 -> first_free off (l1 ++ (n, false) :: l2) <= off + extent l1.
Proof.
  revert off. induction l1 as [|[k u] l1 IH]; intros off; cbn [app first_free extent]; [lia|]. intros [[Hk _] Hok]%Forall_cons.
  pose proof (extent_ok l1 Hok) as [? _]. unfold SIZEOF_STRUCT_MEM, MIN_SIZE_ALIGNED in Hk. cbn in Hk.
  destruct u; [specialize (IH (off + k) Hok)|]; lia.
Qed.

Lemma wp_mem_at (s : mem_heap) a h (Q : struct_mem -> mem_heap -> Prop) : mems s !! a = Some h -> Q h s -> wp (mem_at a) s Q.
Proof. intros Ha HQ. unfold mem_at. apply wp_bind, wp_get. by eapply wp_of_option. Qed.
Lemma wp_upd_mem (s : mem_heap) a h f (Q : unit -> mem_heap -> Prop) : mems s !! a = Some h ->
  Q tt (set_mems (<[a := f h]> (mems s)) s) -> wp (upd_mem a f) s Q.
Proof. intros Ha HQ. unfold upd_mem. apply wp_bind. eapply wp_mem_at; [exact Ha|]. by apply wp_modify. Qed.
Lemma wp_link_back (s : mem_heap) p v (Q : unit -> mem_heap -> Prop) :
  (p <> MEM_SIZE_ALIGNED -> is_Some (mems s !! (ram s + p))) ->
  Q tt (set_mems (relink (ram s) (mems s) p v) s) -> wp (link_back p v) s Q.
Proof.
  intros Hp HQ. unfold link_back, relink in *. destruct (Z.eqb_spec p MEM_SIZE_ALIGNED) as [->|Hne]; cbn [negb].
  - apply wp_ret. by destruct s.
  - destruct (Hp Hne) as [h Hh]. apply wp_bind, wp_gets. eapply wp_upd_mem; [exact Hh|]. by rewrite Hh in HQ.
Qed.

(** The blocks up to the pointer to the lowest free one, which is set right. *)
Definition sorted_out (s : mem_heap) (bs : blocks) : Prop := tiles (set_lfree (ram s + first_free 0 bs) s) bs.
Lemma sorted_tiles s bs : sorted_out s bs -> lfree s = ram s + first_free 0 bs -> tiles s bs.
Proof. unfold sorted_out. intros Ht E. rewrite <- E in Ht. by destruct s. Qed.
Lemma tiles_sorted s bs : tiles s bs -> sorted_out s bs.
Proof. unfold sorted_out. intros Ht. rewrite <- (tl_lfree _ _ Ht). by destruct s. Qed.

(** Blocks in the middle of the heap are replaced. *)
Lemma tiles_replace s m1 v l1 mid mid' l2 : sorted_out s (l1 ++ mid ++ l2) -> Forall block_ok mid'.*1 ->
  (forall x, x < ram s + extent l1 \/ ram s + extent l1 + extent mid <= x -> m1 !! x = mems s !! x) ->
  (forall pr, seg (ram s) (mems s) 0 0 l1 pr (extent l1) -> seg (ram s) m1 pr (extent l1) mid' v (extent l1 + extent mid)) ->
  sorted_out (set_mems (relink (ram s) m1 (extent l1 + extent mid) v) s) (l1 ++ mid' ++ l2).
Proof.
  intros Ht Hok' Hm Hmid. pose proof (tiles_extent _ _ Ht) as E. rewrite !extent_app in E.
  destruct Ht as [H1 H2 H3 H4 H5 _]. pose proof H5 as H5'. rewrite !fmap_app, !Forall_app in H5'. destruct H5' as (Ho1 & Ho2 & Ho3).
  constructor; try done.
  - by eapply (replace_tail _ (mems s)).
  - cbn [mems set_mems set_lfree ram]. rewrite relink_end, Hm; [done|]. pose proof (extent_ok _ Ho3). lia.
  - rewrite !fmap_app, !Forall_app. done.
Qed.

(** Blocks after a middle part: is there a header to link back? *)
Lemma tiles_next s l1 mid l2 (m1 : gmap Z struct_mem) : sorted_out s (l1 ++ mid ++ l2) ->
  (forall x, x < ram s + extent l1 \/ ram s + extent l1 + extent mid <= x -> m1 !! x = mems s !! x) ->
  extent l1 + extent mid <> MEM_SIZE_ALIGNED -> is_Some (m1 !! (ram s + (extent l1 + extent mid))).
Proof.
  intros Ht Hm Hne. pose proof (tiles_extent _ _ Ht) as E. rewrite !extent_app in E. destruct l2 as [|[n u] l2]; [cbn in E; lia|].
  rewrite Hm by lia. pose proof (tl_tail _ _ Ht) as Hs. rewrite app_assoc in Hs. destruct (tail_header _ _ _ _ _ _ Hs) as (pr & _ & Hh).
  cbn [mems ram set_lfree] in Hh. rewrite extent_app in Hh. by rewrite Hh.
Qed.

(** ** Plugging holes *)

Lemma wp_mem_to_ptr (s : mem_heap) o (Q : Z -> mem_heap -> Prop) : is_u16 o -> Q o s -> wp (mem_to_ptr (ram s + o)) s Q.
Proof.
  intros Ho HQ. apply wp_gets. replace (ram s + o - ram s) with o by lia. by rewrite u16_small.
Qed.

Lemma tiles_index s l1 b l2 : tiles s (l1 ++ b :: l2) -> is_u16 (extent l1) /\ extent l1 + b.1 <= MEM_SIZE_ALIGNED /\
  SIZEOF_STRUCT_MEM + MIN_SIZE_ALIGNED <= b.1 /\ b.1 mod 4 = 0 /\ extent l1 mod 4 = 0 /\ 0 <= extent l2.
Proof.
  intros Ht. pose proof (tiles_extent _ _ Ht) as E. pose proof (tl_ok _ _ Ht) as Hok. destruct b as [n u].
  rewrite extent_app in E. rewrite fmap_app, Forall_app in Hok. cbn [fmap list_fmap extent fst] in *.
  destruct Hok as [Ho1 [[Hn Hm] Ho2]%Forall_cons]. pose proof (extent_ok _ Ho1). pose proof (extent_ok _ Ho2).
  unfold is_u16, MEM_SIZE_ALIGNED, SIZEOF_STRUCT_MEM, MIN_SIZE_ALIGNED, MEM_ALIGNMENT in *. lia.
Qed.

Lemma join_ok s l1 n k l2 : tiles s (l1 ++ (n, false) :: (k, false) :: l2) ->
  wp (upd_mem (ram s + extent l1) (set_m_next (extent l1 + n + k));;
      p ← mem_to_ptr (ram s + extent l1);
      link_back (extent l1 + n + k) p) s (fun _ s' => tiles s' (l1 ++ (n + k, false) :: l2) /\ ram s' = ram s).
Proof.
  intros Ht. destruct (tail_header _ _ _ _ _ _ (tl_tail _ _ Ht)) as (pr & Hs1 & Hh).
  destruct (tiles_index _ _ _ _ Ht) as (Hu & Hle & Hn & Hn4 & _). cbn [fst] in *.
  change ((n, false) :: (k, false) :: l2) with ([(n, false); (k, false)] ++ l2) in Ht.
  apply wp_bind. eapply wp_upd_mem; [exact Hh|]. set (m1 := <[_ := _]> (mems s)).
  assert (Hm1 : forall x, x < ram s + extent l1 \/ ram s + extent l1 + extent [(n, false); (k, false)] <= x -> m1 !! x = mems s !! x).
  { intros x Hx. apply lookup_insert_ne. pose proof (tl_ok _ _ Ht) as Hok. rewrite fmap_app, Forall_app in Hok.
    destruct Hok as [_ [_ [[Hk _] _]%Forall_cons]%Forall_cons]. unfold SIZEOF_STRUCT_MEM, MIN_SIZE_ALIGNED in *. cbn [extent fst] in *. lia. }
  apply wp_bind. eapply (wp_mem_to_ptr (set_mems m1 s)); [done|].
  replace (extent l1 + n + k) with (extent l1 + extent [(n, false); (k, false)]) in * by (cbn [extent]; lia).
  apply wp_link_back; [by apply (tiles_next s l1 _ l2), Hm1; apply tiles_sorted|]. split; [|done].
  apply sorted_tiles; [apply (tiles_replace s m1 (extent l1) l1 [(n, false); (k, false)] [(n + k, false)] l2 (tiles_sorted _ _ Ht)); [|exact Hm1|]|].
  - pose proof (tl_ok _ _ Ht) as Hok. rewrite fmap_app, Forall_app in Hok.
    destruct Hok as [_ [[H1 H2] [[H3 H4] _]%Forall_cons]%Forall_cons]. repeat constructor; cbn [fst].
    + unfold SIZEOF_STRUCT_MEM, MIN_SIZE_ALIGNED in *. cbn in H1, H3. lia.
    + cbn [fst] in *. by rewrite Z.add_mod, H2, H4.
  - intros pr' Hs1'. rewrite (seg_prev _ _ _ _ _ _ _ _ _ Hs1' Hs1).
    cbn [seg]. unfold m1. rewrite lookup_insert_eq. cbn [extent]. rewrite Z.add_0_r.
    split; [|split; [done|lia]]. unfold set_m_next. cbn. by rewrite Z.add_assoc.
  - cbn. rewrite (tl_lfree _ _ Ht). f_equal. apply first_free_app.
Qed.

(** A free block with the free block behind it, if there is one. *)
Definition absorb (n : Z) (l2 : blocks) : blocks :=
  match l2 with (k, false) :: r => (n + k, false) :: r | _ => (n, false) :: l2 end.

(** The lowest free block is not behind a free one. *)
Lemma lfree_before s l1 n l2 x : tiles s (l1 ++ (n, false) :: l2) -> ram s + extent l1 < x -> (lfree s =? x) = false.
Proof.
  intros Ht Hx. rewrite (tl_lfree _ _ Ht). apply Z.eqb_neq. pose proof (tl_ok _ _ Ht) as Hok.
  rewrite fmap_app, Forall_app in Hok. pose proof (first_free_le 0 l1 n l2 (proj1 Hok)). lia.
Qed.

Lemma plug_forward_ok s l1 n l2 : tiles s (l1 ++ (n, false) :: l2) ->
  wp (plug_forward (ram s + extent l1)) s (fun _ s' => tiles s' (l1 ++ absorb n l2) /\ ram s' = ram s).
Proof.
  intros Ht. destruct (tail_header _ _ _ _ _ _ (tl_tail _ _ Ht)) as (pr & Hs1 & Hh).
  destruct (tiles_index _ _ _ _ Ht) as (Hu & Hle & Hn & _). cbn [fst] in *.
  unfold SIZEOF_STRUCT_MEM, MIN_SIZE_ALIGNED in Hn. unfold plug_forward. apply wp_bind. eapply wp_mem_at; [exact Hh|]. cbn [m_next].
  apply wp_bind, wp_gets. rewrite (proj2 (Z.eqb_neq _ _)) by lia. cbn [negb].
  pose proof (tiles_extent _ _ Ht) as E. rewrite extent_app in E. cbn [extent] in E.
  destruct l2 as [|[k v] l2].
  - cbn [extent] in E. replace (extent l1 + n) with MEM_SIZE_ALIGNED by lia. apply wp_bind. eapply wp_mem_at; [apply (tl_last _ _ Ht)|].
    apply wp_bind, wp_get. cbn. by apply wp_ret.
  - assert (Ht' : tiles s ((l1 ++ [(n, false)]) ++ (k, v) :: l2)) by (by rewrite <- app_assoc).
    destruct (tail_header _ _ _ _ _ _ (tl_tail _ _ Ht')) as (pr2 & _ & Hh2). rewrite extent_app in Hh2. cbn [extent] in Hh2.
    rewrite Z.add_0_r in Hh2. apply wp_bind. eapply wp_mem_at; [exact Hh2|]. apply wp_bind, wp_get. cbn [used m_next].
    destruct v; cbn [bit Z.eqb andb]; [by apply wp_ret|].
    destruct (tiles_index _ _ _ _ Ht') as (_ & Hle2 & Hk & _ & _ & He2). rewrite extent_app in Hle2. cbn [extent fst] in *.
    unfold SIZEOF_STRUCT_MEM, MIN_SIZE_ALIGNED in Hk. rewrite (tl_end _ _ Ht), (proj2 (Z.eqb_neq _ _)) by lia. cbn [negb].
    rewrite (lfree_before _ _ _ _ _ Ht) by lia. apply wp_bind, wp_ret. by apply join_ok.
Qed.

(** The free block in front of a free one, if there is one. *)
Definition absorb_back (l1 : blocks) (n : Z) (l2 : blocks) : blocks :=
  match last l1 with
  | Some (k, false) => removelast l1 ++ (k + n, false) :: l2
  | _ => l1 ++ (n, false) :: l2
  end.

Lemma plug_backward_ok s l1 n l2 : tiles s (l1 ++ (n, false) :: l2) ->
  wp (plug_backward (ram s + extent l1)) s (fun _ s' => tiles s' (absorb_back l1 n l2) /\ ram s' = ram s).
Proof.
  intros Ht. destruct (tail_header _ _ _ _ _ _ (tl_tail _ _ Ht)) as (pr & Hs1 & Hh).
  destruct (tiles_index _ _ _ _ Ht) as (Hu & Hle & Hn & _). cbn [fst] in *.
  unfold plug_backward. apply wp_bind. eapply wp_mem_at; [exact Hh|]. cbn [m_prev m_next]. apply wp_bind, wp_gets.
  unfold absorb_back. destruct l1 as [|[k v] l1 _] using rev_ind.
  - cbn in Hs1. destruct Hs1 as [<- _]. cbn [extent]. rewrite Z.eqb_refl. by apply wp_ret.
  - rewrite last_snoc, removelast_last. rewrite <- app_assoc in Ht. cbn [app] in Ht.
    destruct (tail_header _ _ _ _ _ _ (tl_tail _ _ Ht)) as (pr2 & _ & Hh2).
    assert (pr = extent l1) as ->.
    { apply seg_app in Hs1 as (pr1 & _ & _ & [E _]). by rewrite Z.add_0_l in E. }
    destruct (tiles_index _ _ _ _ Ht) as (_ & _ & Hk & _). unfold SIZEOF_STRUCT_MEM, MIN_SIZE_ALIGNED in Hk. cbn [fst] in Hk.
    assert (Ex : extent (l1 ++ [(k, v)]) = extent l1 + k) by (rewrite extent_app; cbn [extent]; lia). rewrite Ex in *.
    rewrite (proj2 (Z.eqb_neq _ _)) by lia. cbn [negb]. apply wp_bind. eapply wp_mem_at; [exact Hh2|]. apply wp_bind, wp_get.
    cbn [used]. destruct v; cbn [bit Z.eqb]; [apply wp_ret; by rewrite <- app_assoc|].
    rewrite (lfree_before _ _ _ _ _ Ht) by lia. apply wp_bind, wp_ret. by apply join_ok.
Qed.

Lemma plug_holes_ok s l1 n l2 : tiles s (l1 ++ (n, false) :: l2) ->
  wp (plug_holes (ram s + extent l1)) s (fun _ s' => ram s' = ram s /\
    match l2 with (k, false) :: r => tiles s' (absorb_back l1 (n + k) r) | _ => tiles s' (absorb_back l1 n l2) end).
Proof.
  intros Ht. destruct (tail_header _ _ _ _ _ _ (tl_tail _ _ Ht)) as (pr & Hs1 & Hh).
  destruct (tiles_index _ _ _ _ Ht) as (Hu & Hle & Hn & _). cbn [fst] in *. unfold is_u16, SIZEOF_STRUCT_MEM, MIN_SIZE_ALIGNED in *.
  unfold plug_holes. apply wp_bind, wp_get. apply wp_bind, wp_assert; [lia|].
  apply wp_bind, wp_assert; [rewrite (tl_end _ _ Ht); lia|]. apply wp_bind. eapply wp_mem_at; [exact Hh|].
  apply wp_bind, wp_assert; [done|]. apply wp_bind, wp_assert; [cbn; lia|].
  apply wp_bind. eapply wp_mono; [by apply plug_forward_ok|]. intros _ s1 [Ht1 Hr1]. rewrite <- Hr1.
  unfold absorb in Ht1. destruct l2 as [|[k []] l2]; (eapply wp_mono; [by apply plug_backward_ok|intros _ s2 [? ?]; by split]).
Qed.

(** ** Coalescing *)

Definition free_head (bs : blocks) : bool := match bs with (_, false) :: _ => true | _ => false end.
Definition free_last (bs : blocks) : bool := match last bs with Some (_, false) => true | _ => false end.

Lemma merged_cons b bs : merged (b :: bs) = negb (negb b.2 && free_head bs) && merged bs.
Proof. destruct b as [n []], bs as [|[k []] bs]; done. Qed.
Lemma merged_app l1 l2 : merged (l1 ++ l2) = merged l1 && merged l2 && negb (free_last l1 && free_head l2).
Proof.
  induction l1 as [|b l1 IH]; [by rewrite andb_true_r|]. cbn [app]. rewrite !merged_cons, IH. destruct l1 as [|c l1].
  - cbn. destruct b as [n []]; cbn; [by rewrite andb_true_r|]. by destruct (free_head l2), (merged l2).
  - change (free_last (b :: c :: l1)) with (free_last (c :: l1)). change (free_head ((c :: l1) ++ l2)) with (free_head (c :: l1)).
    by destruct b.2, (free_head (c :: l1)), (merged (c :: l1)), (merged l2).
Qed.

Lemma coalesce_cons b bs : coalesce (b :: bs) =
  match coalesce bs with
  | (k, false) :: r => if b.2 then b :: (k, false) :: r else (b.1 + k, false) :: r
  | r => b :: r
  end.
Proof. destruct b as [n u]. cbn [coalesce]. by destruct (coalesce bs) as [|[k []] r]. Qed.
Lemma merged_coalesce bs : merged (coalesce bs) = true.
Proof.
  induction bs as [|[n u] bs IH]; [done|]. rewrite coalesce_cons. destruct (coalesce bs) as [|[k []] r]; cbn [fst snd].
  - by destruct u.
  - by destruct u.
  - destruct u; [done|]. by rewrite merged_cons in *.
Qed.
Lemma coalesce_merged bs : merged bs = true -> coalesce bs = bs.
Proof.
  induction bs as [|[n u] bs IH]; [done|]. rewrite merged_cons, coalesce_cons. intros [Hn Hm]%andb_true_iff. rewrite IH by done.
  destruct bs as [|[k []] bs]; [done..|]. by destruct u.
Qed.
Lemma coalesce_suffix l1 l2 l2' : coalesce l2 = coalesce l2' -> coalesce (l1 ++ l2) = coalesce (l1 ++ l2').
Proof. intros E. induction l1 as [|b l1 IH]; [done|]. cbn [app]. by rewrite !coalesce_cons, IH. Qed.
Lemma coalesce_join l1 a b l2 : coalesce (l1 ++ (a, false) :: (b, false) :: l2) = coalesce (l1 ++ (a + b, false) :: l2).
Proof.
  apply coalesce_suffix. rewrite !coalesce_cons. destruct (coalesce l2) as [|[k []] r]; cbn [fst snd]; try done.
  by rewrite Z.add_assoc.
Qed.

Lemma coalesce_absorb_back l1 n r : coalesce (absorb_back l1 n r) = coalesce (l1 ++ (n, false) :: r).
Proof.
  unfold absorb_back. destruct l1 as [|[k v] l1 _] using rev_ind; [done|]. rewrite last_snoc, removelast_last.
  destruct v; [done|]. rewrite <- app_assoc. symmetry. apply coalesce_join.
Qed.
Lemma merged_absorb_back l1 n r : merged l1 = true -> merged r = true -> free_head r = false -> merged (absorb_back l1 n r) = true.
Proof.
  unfold absorb_back. intros H1 Hr Hh. assert (Hx : forall k, merged ((k, false) :: r) = true).
  { intros k. by rewrite merged_cons, Hr, Hh. }
  destruct l1 as [|[k v] l1 _] using rev_ind; [apply Hx|]. rewrite last_snoc, removelast_last.
  destruct v; rewrite merged_app, Hx.
  - rewrite H1. unfold free_last. by rewrite last_snoc.
  - rewrite merged_app in H1. cbn [merged free_head] in *. by destruct (merged l1), (free_last l1).
Qed.

(** What plugging the holes makes of a heap where one block was given back. *)
Lemma plugged_ok s l1 n l2 : merged l1 = true -> merged l2 = true ->
  match l2 with (k, false) :: r => tiles s (absorb_back l1 (n + k) r) | _ => tiles s (absorb_back l1 n l2) end ->
  heap_is s (coalesce (l1 ++ (n, false) :: l2)).
Proof.
  intros H1 H2 Ht. assert (Hgo : forall n r, merged r = true -> free_head r = false -> tiles s (absorb_back l1 n r) ->
    heap_is s (coalesce (l1 ++ (n, false) :: r))).
  { intros m r Hr Hh Ht'. split; [|apply merged_coalesce]. rewrite <- coalesce_absorb_back.
    by rewrite coalesce_merged by (by apply merged_absorb_back). }
  destruct l2 as [|[k []] r].
  - by apply Hgo.
  - by apply Hgo.
  - rewrite coalesce_join. rewrite merged_cons in H2. apply andb_true_iff in H2 as [Hh Hr]. cbn in Hh.
    apply Hgo; [done|by destruct (free_head r)|done].
Qed.

(** ** mem_free *)

Lemma heap_split s l1 n u l2 : heap_is s (l1 ++ (n, u) :: l2) -> merged l1 = true /\ merged l2 = true.
Proof. intros [_ Hm]. rewrite merged_app, merged_cons in Hm. by destruct (merged l1), (merged l2), (_ && free_head l2). Qed.

Lemma link_valid_ok s l1 n u l2 : tiles s (l1 ++ (n, u) :: l2) -> wp (mem_link_valid (ram s + extent l1)) s (fun r s' => r = true /\ s' = s).
Proof.
  intros Ht. destruct (tail_header _ _ _ _ _ _ (tl_tail _ _ Ht)) as (pr & Hs1 & Hh).
  destruct (tiles_index _ _ _ _ Ht) as (Hu & Hle & Hn & _ & _ & He2). cbn [fst] in *. unfold is_u16 in Hu.
  unfold SIZEOF_STRUCT_MEM, MIN_SIZE_ALIGNED in Hn. pose proof (tiles_extent _ _ Ht) as E. rewrite extent_app in E. cbn [extent] in E.
  unfold mem_link_valid. apply wp_bind. eapply wp_mem_at; [exact Hh|]. apply wp_bind, wp_mem_to_ptr; [done|].
  apply wp_bind, wp_gets. apply wp_bind, wp_gets. cbn [m_next m_prev].
  assert (Hpr : (MEM_SIZE_ALIGNED <? pr) = false /\
    (pr <> extent l1 -> exists h, mems s !! (ram s + pr) = Some h /\ m_next h = extent l1)).
  { destruct l1 as [|[k v] l1 _] using rev_ind; [cbn in Hs1; destruct Hs1 as [<- _]; done|].
    apply seg_app in Hs1 as (pr1 & _ & Hk & [<- E1]). rewrite Z.add_0_l in *. rewrite extent_app in *. cbn [extent] in *.
    pose proof (tl_ok _ _ Ht) as Hok. rewrite !fmap_app, !Forall_app in Hok. destruct Hok as [[Ho1 [[Hk0 _] _]%Forall_cons] _].
    pose proof (extent_ok _ Ho1). unfold SIZEOF_STRUCT_MEM, MIN_SIZE_ALIGNED in Hk0. cbn [fst] in Hk0.
    split; [apply Z.ltb_ge; lia|]. intros _. eexists. split; [exact Hk|]. cbn. lia. }
  destruct Hpr as [-> Hpr]. rewrite (proj2 (Z.ltb_ge _ _)) by lia. cbn [orb]. apply wp_bind.
  eapply (wp_mono _ _ (fun bad s' => bad = false /\ s' = s)).
  { destruct (Z.eqb_spec pr (extent l1)) as [|Hne]; cbn [negb]; [by apply wp_ret|]. destruct (Hpr Hne) as (h & Hh' & Hnx).
    apply wp_bind. eapply wp_mem_at; [exact Hh'|]. apply wp_ret. by rewrite Hnx, Z.eqb_refl. }
  intros bad s' [-> ->]. apply wp_bind, wp_get. rewrite (tl_end _ _ Ht). destruct l2 as [|[k v] l2].
  - cbn [extent] in E. rewrite (proj2 (Z.eqb_eq _ _)) by lia. by apply wp_ret.
  - assert (Ht' : tiles s ((l1 ++ [(n, u)]) ++ (k, v) :: l2)) by (by rewrite <- app_assoc).
    destruct (tail_header _ _ _ _ _ _ (tl_tail _ _ Ht')) as (pr2 & Hs2 & Hh2).
    apply seg_app in Hs2 as (pr1 & _ & _ & [<- _]). rewrite extent_app in Hh2. cbn [extent] in Hh2. rewrite Z.add_0_r in Hh2.
    destruct (tiles_index _ _ _ _ Ht') as (_ & Hle2 & Hk & _). rewrite extent_app in Hle2. cbn [extent fst] in *.
    unfold SIZEOF_STRUCT_MEM, MIN_SIZE_ALIGNED in Hk. rewrite (proj2 (Z.eqb_neq _ _)) by lia. cbn [negb]. apply wp_bind.
    eapply wp_mem_at; [exact Hh2|]. apply wp_ret. by rewrite Z.add_0_l, Z.eqb_refl.
Qed.

(** A block changes its state. *)
Lemma mark_ok s l1 n u u' l2 : tiles s (l1 ++ (n, u) :: l2) ->
  exists h, mems s !! (ram s + extent l1) = Some h /\ used h = bit u /\ m_next h = extent l1 + n /\
    forall s', ram s' = ram s -> ram_end s' = ram_end s -> mems s' = <[ram s + extent l1 := set_used (bit u') h]> (mems s) ->
      lfree s' = ram s + first_free 0 (l1 ++ (n, u') :: l2) -> tiles s' (l1 ++ (n, u') :: l2).
Proof.
  intros Ht. destruct (tail_header _ _ _ _ _ _ (tl_tail _ _ Ht)) as (pr & Hs1 & Hh). eexists. split; [exact Hh|].
  split; [done|]. split; [done|]. intros s' Hr He Hm Hl. destruct (tiles_index _ _ _ _ Ht) as (_ & Hle & Hn & _ & _ & He2).
  unfold SIZEOF_STRUCT_MEM, MIN_SIZE_ALIGNED in Hn. cbn [fst] in *. pose proof (tiles_extent _ _ Ht) as E. rewrite extent_app in E.
  cbn [extent] in E. destruct Ht as [H1 H2 [p Ht] H4 H5 H6]. pose proof H5 as H5'. rewrite fmap_app, Forall_app in H5'.
  destruct H5' as [Ho1 [Ho Ho2]%Forall_cons]. constructor; rewrite ?Hr, ?He, ?Hm; try done.
  - exists p. apply seg_app in Ht as (pr' & Hs1' & Hs2). rewrite Z.add_0_l in *. cbn [seg] in Hs2.
    rewrite (seg_prev _ _ _ _ _ _ _ _ _ Hs1' Hs1) in *. destruct Hs2 as [_ Hs2]. apply seg_app. exists pr. split.
    + rewrite Z.add_0_l. eapply seg_frame; [done| |exact Hs1]. intros x Hx. apply lookup_insert_ne. lia.
    + cbn [seg]. rewrite Z.add_0_l, lookup_insert_eq. split; [done|]. eapply seg_frame; [done| |exact Hs2].
      intros x Hx. apply lookup_insert_ne. lia.
  - rewrite lookup_insert_ne by lia. done.
  - rewrite fmap_app, Forall_app. split; [done|]. by constructor.
Qed.

Lemma first_free_mark off l1 n l2 : Forall block_ok l1.*1 -> Forall block_ok l2.*1 -> 0 < n ->
  first_free off (l1 ++ (n, false) :: l2) =
    if off + extent l1 <? first_free off (l1 ++ (n, true) :: l2) then off + extent l1
    else first_free off (l1 ++ (n, true) :: l2).
Proof.
  intros Ho1 Ho2 Hn. revert off Ho1. induction l1 as [|[k u] l1 IH]; intros off; cbn [app first_free extent fmap list_fmap fst].
  - intros _. pose proof (first_free_bounds (off + n) l2 Ho2). rewrite Z.add_0_r, (proj2 (Z.ltb_lt _ _)) by lia. done.
  - intros [[Hk _] Ho1]%Forall_cons. unfold SIZEOF_STRUCT_MEM, MIN_SIZE_ALIGNED in Hk. cbn in Hk. pose proof (extent_ok _ Ho1) as [? _].
    destruct u; [rewrite IH by done; by rewrite <- Z.add_assoc|]. rewrite (proj2 (Z.ltb_ge _ _)) by lia. done.
Qed.

Lemma mem_free_ok s l1 n l2 : heap_is s (l1 ++ (n, true) :: l2) ->
  wp (mem_free (ram s + extent l1 + SIZEOF_STRUCT_MEM)) s (fun _ s' => ram s' = ram s /\
    heap_is s' (coalesce (l1 ++ (n, false) :: l2))).
Proof.
  intros Hh. destruct (heap_split _ _ _ _ _ Hh) as [Hm1 Hm2]. destruct Hh as [Ht _].
  destruct (tiles_index _ _ _ _ Ht) as (Hu & Hle & Hn & _ & Ho4 & He2). cbn [fst] in *. unfold is_u16 in Hu.
  pose proof (tl_ram _ _ Ht) as [Hr0 Hr4]. pose proof (tl_end _ _ Ht) as He. unfold MEM_ALIGNMENT in Hr4. unfold mem_free.
  assert (Hal : Z.land (ram s + extent l1 + SIZEOF_STRUCT_MEM) (MEM_ALIGNMENT - 1) = 0).
  { change (MEM_ALIGNMENT - 1) with (Z.ones 2). rewrite Z.land_ones by lia. unfold SIZEOF_STRUCT_MEM. change (2 ^ 2) with 4. zlia. }
  rewrite (proj2 (Z.eqb_neq _ _)) by (unfold SIZEOF_STRUCT_MEM; lia).
  apply wp_bind, wp_assert; [by rewrite Hal|]. apply wp_bind, wp_get.
  replace (ram s + extent l1 + SIZEOF_STRUCT_MEM - SIZEOF_STRUCT_MEM) with (ram s + extent l1) by lia.
  apply wp_bind, wp_assert.
  { unfold SIZEOF_STRUCT_MEM, MIN_SIZE_ALIGNED in *. rewrite !(proj2 (Z.ltb_ge _ _)) by lia. done. }
  destruct (mark_ok _ _ _ _ false _ Ht) as (h & Hh & Hus & Hnx & Hmark). apply wp_bind. eapply wp_mem_at; [exact Hh|].
  apply wp_bind, wp_assert; [by rewrite Hus|]. apply wp_bind. eapply wp_mono; [by apply (link_valid_ok s l1 n true l2)|].
  intros r s' [-> ->]. apply wp_bind, wp_assert; [done|]. apply wp_bind. eapply wp_upd_mem; [exact Hh|]. set (s1 := set_mems _ s).
  apply wp_bind. eapply (wp_mono _ _ (fun _ s' => tiles s' (l1 ++ (n, false) :: l2) /\ ram s' = ram s)).
  { pose proof (tl_ok _ _ Ht) as Hok. rewrite fmap_app, Forall_app in Hok. destruct Hok as [Ho1 [_ Ho2]%Forall_cons].
    unfold SIZEOF_STRUCT_MEM, MIN_SIZE_ALIGNED in Hn. pose proof (first_free_mark 0 l1 n l2 Ho1 Ho2 ltac:(lia)) as Hff.
    pose proof (tl_lfree _ _ Ht) as Hlf. rewrite Z.add_0_l in Hff. change (lfree s1) with (lfree s).
    destruct (Z.ltb_spec (ram s + extent l1) (lfree s)) as [Hlt|Hge].
    - apply wp_modify. split; [|done]. apply Hmark; try done. cbn. rewrite Hff, (proj2 (Z.ltb_lt _ _)) by lia. done.
    - apply wp_ret. split; [|done]. apply Hmark; try done. cbn. rewrite Hff, (proj2 (Z.ltb_ge _ _)) by lia. done. }
  intros _ s2 [Ht2 Hr2]. rewrite <- Hr2. eapply wp_mono; [by apply (plug_holes_ok s2 l1 n l2)|].
  intros _ s3 [Hr3 Ht3]. split; [congruence|]. by apply plugged_ok.
Qed.

(** ** mem_malloc *)

Lemma place_late size off l : Forall block_ok l.*1 -> MEM_SIZE_ALIGNED - size <= off -> off + extent l = MEM_SIZE_ALIGNED ->
  place size off l = None.
Proof.
  revert off. induction l as [|[n u] l IH]; intros off; [done|]. intros [[Hn _] Hok]%Forall_cons Hle He. cbn [place extent] in *.
  pose proof (extent_ok _ Hok). unfold SIZEOF_STRUCT_MEM, MIN_SIZE_ALIGNED in *. cbn in Hn.
  rewrite (proj2 (Z.leb_gt _ _)) by lia. rewrite andb_false_r, IH by (done || lia). done.
Qed.

Lemma malloc_find_ok fuel s pr off l size : 0 <= size -> 0 <= off -> Forall block_ok l.*1 -> tail (ram s) (mems s) pr off l -> (length l < fuel)%nat ->
  wp (malloc_find fuel off size) s (fun r s' => s' = s /\ r = fst <$> place size off l).
Proof.
  intros Hsz. revert fuel pr off. induction l as [|[n u] l IH]; intros fuel pr off Ho Hok [p Hs] Hf;
    (destruct fuel as [|fuel]; [cbn in Hf; lia|]); pose proof (seg_extent _ _ _ _ _ _ _ Hs) as E; cbn [malloc_find].
  - cbn [extent] in E. rewrite (proj2 (Z.ltb_ge _ _)) by lia. by apply wp_ret.
  - destruct (Z.ltb_spec off (MEM_SIZE_ALIGNED - size)) as [Hlt|Hge].
    2:{ rewrite place_late by (done || lia). by apply wp_ret. }
    destruct Hs as [Hh Hs]. apply Forall_cons in Hok as [[Hn _] Hok]. pose proof (extent_ok _ Hok) as [Hx _]. cbn [extent fst] in *.
    apply wp_bind, wp_gets. apply wp_bind. eapply wp_mem_at; [exact Hh|].
    cbn [used m_next place]. replace (off + n - (off + SIZEOF_STRUCT_MEM)) with (n - SIZEOF_STRUCT_MEM) by lia.
    rewrite u32_small by (unfold is_u32, SIZEOF_STRUCT_MEM, MIN_SIZE_ALIGNED, MEM_SIZE_ALIGNED in *; lia).
    assert (Efit : (bit u =? 0) && (size <=? n - SIZEOF_STRUCT_MEM) = negb u && (size + SIZEOF_STRUCT_MEM <=? n)).
    { f_equal; [by destruct u|]. destruct (Z.leb_spec size (n - SIZEOF_STRUCT_MEM)), (Z.leb_spec (size + SIZEOF_STRUCT_MEM) n); lia || done. }
    rewrite Efit. destruct (negb u && _); [by apply wp_ret|].
    eapply wp_mono; [apply (IH fuel off (off + n)); [unfold SIZEOF_STRUCT_MEM, MIN_SIZE_ALIGNED in Hn; lia|done|by exists p|cbn in Hf; lia]|].
    intros r s' [-> ->]. split; [done|]. by destruct (place size (off + n) l) as [[x l']|].
Qed.

(** The block that is taken: all of it, or its first part. *)
Definition taken (size n : Z) : blocks :=
  if size + SIZEOF_STRUCT_MEM + (SIZEOF_STRUCT_MEM + MIN_SIZE_ALIGNED) <=? n
  then [(size + SIZEOF_STRUCT_MEM, true); (n - (size + SIZEOF_STRUCT_MEM), false)] else [(n, true)].

Lemma place_some size off l x l' : place size off l = Some (x, l') -> exists l1 n l2, l = l1 ++ (n, false) :: l2 /\
  x = off + extent l1 /\ size + SIZEOF_STRUCT_MEM <= n /\ l' = l1 ++ taken size n ++ l2.
Proof.
  revert off l'. induction l as [|[n u] l IH]; intros off l'; [done|]. cbn [place].
  destruct (negb u && _) eqn:E.
  - apply andb_true_iff in E as [Hu Hn%Z.leb_le]. destruct u; [done|]. intros [= <- <-]. exists [], n, l.
    split; [done|]. split; [cbn; lia|]. split; [done|]. unfold taken. by destruct (_ <=? n).
  - destruct (place size (off + n) l) as [[y l1']|] eqn:E2; [|done]. intros [= <- <-].
    destruct (IH _ _ E2) as (l1 & k & l2 & -> & -> & Hk & ->). exists ((n, u) :: l1), k, l2.
    split; [done|]. split; [cbn [extent]; lia|]. by split.
Qed.
Lemma place_used size off l0 l : forallb snd l0 = true ->
  fst <$> place size off (l0 ++ l) = fst <$> place size (off + extent l0) l.
Proof.
  revert off. induction l0 as [|[n u] l0 IH]; intros off; [by rewrite Z.add_0_r|]. cbn [forallb snd app place extent].
  intros [Hu H0]%andb_true_iff. destruct u; [|done]. cbn [negb andb]. rewrite Z.add_assoc, <- IH by done.
  by destruct (place size (off + n) (l0 ++ l)) as [[y l']|].
Qed.

Lemma first_free_app_used off l0 l : forallb snd l0 = true -> first_free off (l0 ++ l) = first_free (off + extent l0) l.
Proof.
  revert off. induction l0 as [|[n u] l0 IH]; intros off; [by rewrite Z.add_0_r|]. cbn [forallb snd app first_free extent].
  intros [Hu H0]%andb_true_iff. destruct u; [|done]. rewrite Z.add_assoc. by apply IH.
Qed.
Lemma first_free_app_free off l1 : Forall block_ok l1.*1 -> forallb snd l1 = false ->
  exists x, x < off + extent l1 /\ forall l, first_free off (l1 ++ l) = x.
Proof.
  revert off. induction l1 as [|[n u] l1 IH]; intros off; [done|]. intros [[Hn _] Hok]%Forall_cons. cbn [forallb snd app first_free extent].
  pose proof (extent_ok _ Hok). unfold SIZEOF_STRUCT_MEM, MIN_SIZE_ALIGNED in Hn. cbn in Hn. destruct u; cbn [andb]; intros Hf.
  - destruct (IH (off + n) Hok Hf) as (x & Hx & Hl). exists x. split; [lia|done].
  - exists off. split; [lia|done].
Qed.
(** The blocks in front of the lowest free one. *)
Lemma first_free_split off l : exists l0 l1, l = l0 ++ l1 /\ forallb snd l0 = true /\ first_free off l = off + extent l0.
Proof.
  revert off. induction l as [|[n u] l IH]; intros off; [exists [], []; cbn; split; [done|]; split; [done|lia]|].
  destruct u; [|exists [], ((n, false) :: l); cbn; split; [done|]; split; [done|lia]].
  destruct (IH (off + n)) as (l0 & l1 & -> & H0 & E). exists ((n, true) :: l0), l1. split; [done|]. split; [done|].
  cbn [app first_free extent]. lia.
Qed.

Lemma next_free_ok fuel s pr off l : Forall block_ok l.*1 -> tail (ram s) (mems s) pr off l ->
  mems s !! (ram s + MEM_SIZE_ALIGNED) = Some last_mem -> ram_end s = ram s + MEM_SIZE_ALIGNED -> (length l < fuel)%nat ->
  wp (next_free fuel (ram s + off)) s (fun r s' => s' = s /\ r = ram s + first_free off l /\
    exists h, mems s !! r = Some h /\ (r =? ram_end s) || (used h =? 0) = true).
Proof.
  intros Hok Ht Hl He. revert fuel pr off Hok Ht. induction l as [|[n u] l IH]; intros fuel pr off Hok [p Hs] Hf;
    (destruct fuel as [|fuel]; [cbn in Hf; lia|]); pose proof (seg_extent _ _ _ _ _ _ _ Hs) as E; cbn [next_free].
  - cbn [extent] in E. assert (off = MEM_SIZE_ALIGNED) as -> by lia. apply wp_bind. eapply wp_mem_at; [exact Hl|].
    apply wp_bind, wp_get. rewrite He, Z.eqb_refl. apply wp_ret. split; [done|]. split; [done|]. eexists. split; [exact Hl|]. by rewrite ?He, Z.eqb_refl.
  - destruct Hs as [Hh Hs]. apply Forall_cons in Hok as [[Hn _] Hok]. pose proof (extent_ok _ Hok). cbn [extent fst] in *.
    unfold SIZEOF_STRUCT_MEM, MIN_SIZE_ALIGNED in Hn. apply wp_bind. eapply wp_mem_at; [exact Hh|]. apply wp_bind, wp_get.
    rewrite He, (proj2 (Z.eqb_neq (ram s + off) _)) by lia. cbn [used m_next first_free]. destruct u; cbn [bit Z.eqb negb andb].
    2:{ apply wp_ret. split; [done|]. split; [done|]. eexists. split; [exact Hh|]. by rewrite orb_true_r. }
    apply wp_bind, wp_gets. rewrite <- He. apply (IH fuel off); [done|by exists p|cbn in Hf; lia].
Qed.

Lemma taken_ok size n : 0 <= size -> size mod 4 = 0 -> MIN_SIZE_ALIGNED <= size -> block_ok n -> size + SIZEOF_STRUCT_MEM <= n ->
  Forall block_ok (taken size n).*1 /\ extent (taken size n) = n.
Proof.
  intros Hs Hs4 Hmin [Hn Hn4] Hle. unfold taken, block_ok, SIZEOF_STRUCT_MEM, MIN_SIZE_ALIGNED, MEM_ALIGNMENT in *.
  destruct (Z.leb_spec (size + 8 + (8 + 12)) n); (split; [|cbn; lia]); repeat constructor; cbn; zlia.
Qed.

(** Some blocks become one in use and a free one behind it. *)
Lemma carve_ok s l1 n u rest l2 a b f (e : Z) : sorted_out s (l1 ++ ((n, u) :: rest) ++ l2) -> block_ok a -> block_ok b ->
  extent ((n, u) :: rest) = a + b -> e = extent l1 + (a + b) ->
  (forall pr, f (mkMem (extent l1 + n) pr (bit u)) = mkMem (extent l1 + a) pr 1) ->
  wp (write_mem (ram s + (extent l1 + a)) (mkMem e (extent l1) 0);;
      upd_mem (ram s + extent l1) f;;
      link_back e (extent l1 + a)) s (fun _ s' => sorted_out s' (l1 ++ [(a, true); (b, false)] ++ l2) /\ ram s' = ram s /\
    ram_end s' = ram_end s /\ lfree s' = lfree s).
Proof.
  intros Ht [Ha Ha4] [Hb Hb4] Hex -> Hf. destruct (tail_header _ _ _ _ _ _ (tl_tail _ _ Ht)) as (pr & Hs1 & Hh).
  unfold SIZEOF_STRUCT_MEM, MIN_SIZE_ALIGNED in Ha, Hb. apply wp_bind, wp_modify. set (s1 := set_mems _ s).
  assert (Hne : ram s + (extent l1 + a) <> ram s + extent l1) by lia.
  apply wp_bind. eapply wp_upd_mem; [cbn [s1 mems set_mems]; rewrite lookup_insert_ne; [exact Hh|done]|].
  rewrite Hf. cbn [s1 mems set_mems]. set (m1 := <[ram s + extent l1 := _]> _).
  assert (Hm1 : forall x, x < ram s + extent l1 \/ ram s + extent l1 + extent ((n, u) :: rest) <= x -> m1 !! x = mems s !! x).
  { intros x Hx. unfold m1. rewrite !lookup_insert_ne by lia. done. }
  rewrite <- Hex. apply wp_link_back; [by apply (tiles_next s l1 _ l2)|]. split; [|done].
  apply (tiles_replace s m1 (extent l1 + a) l1 _ [(a, true); (b, false)] l2 Ht); [|exact Hm1|].
  - repeat constructor; done.
  - intros pr' Hs1'. rewrite (seg_prev _ _ _ _ _ _ _ _ _ Hs1' Hs1). cbn [seg]. unfold m1. rewrite lookup_insert_eq.
    split; [done|]. rewrite lookup_insert_ne, lookup_insert_eq by lia. rewrite Hex, <- !Z.add_assoc. by repeat split.
Qed.

Lemma malloc_take_ok s l1 n l2 size : tiles s (l1 ++ (n, false) :: l2) -> size mod 4 = 0 -> MIN_SIZE_ALIGNED <= size ->
  size + SIZEOF_STRUCT_MEM <= n ->
  wp (malloc_take (extent l1) size) s (fun _ s' => sorted_out s' (l1 ++ taken size n ++ l2) /\ ram s' = ram s /\
    ram_end s' = ram_end s /\ lfree s' = lfree s).
Proof.
  intros Ht Hs4 Hmin Hle. destruct (tail_header _ _ _ _ _ _ (tl_tail _ _ Ht)) as (pr & Hs1 & Hh).
  destruct (tiles_index _ _ _ _ Ht) as (Hu & Hle1 & Hn & Hn4 & _ & He2). cbn [fst] in *. unfold is_u16 in Hu.
  destruct (taken_ok size n) as [Hok' Hex']; [unfold MIN_SIZE_ALIGNED in Hmin; lia|done..|].
  unfold malloc_take. apply wp_bind, wp_gets. apply wp_bind. eapply wp_mem_at; [exact Hh|]. cbn [m_next].
  replace (extent l1 + n - (extent l1 + SIZEOF_STRUCT_MEM)) with (n - SIZEOF_STRUCT_MEM) by lia.
  rewrite u32_small by (unfold is_u32, SIZEOF_STRUCT_MEM, MIN_SIZE_ALIGNED, MEM_SIZE_ALIGNED in *; lia).
  unfold taken in *. replace (size + SIZEOF_STRUCT_MEM + MIN_SIZE_ALIGNED <=? n - SIZEOF_STRUCT_MEM)
    with (size + SIZEOF_STRUCT_MEM + (SIZEOF_STRUCT_MEM + MIN_SIZE_ALIGNED) <=? n).
  2:{ destruct (Z.leb_spec (size + SIZEOF_STRUCT_MEM + (SIZEOF_STRUCT_MEM + MIN_SIZE_ALIGNED)) n);
      [rewrite (proj2 (Z.leb_le _ _)) by lia|rewrite (proj2 (Z.leb_gt _ _)) by lia]; done. }
  destruct (Z.leb_spec (size + SIZEOF_STRUCT_MEM + (SIZEOF_STRUCT_MEM + MIN_SIZE_ALIGNED)) n) as [Hsp|_].
  - unfold SIZEOF_STRUCT_MEM, MIN_SIZE_ALIGNED, MEM_SIZE_ALIGNED in *. cbv zeta. rewrite u16_small by (unfold is_u16; lia).
    apply wp_bind, wp_assert; [rewrite (proj2 (Z.eqb_neq _ _)) by lia; done|]. apply wp_bind, wp_gets. rewrite <- Z.add_assoc, (Z.add_comm 8).
    cbn [fmap list_fmap fst] in Hok'. apply Forall_cons in Hok' as [Hoa [Hob _]%Forall_cons].
    apply (carve_ok s l1 n false [] l2 (size + 8) (n - (size + 8))); [by apply tiles_sorted|done|done|cbn [extent]; lia|lia|done].
  - destruct (mark_ok _ _ _ _ true _ Ht) as (h & Hh' & _ & _ & Hmark). rewrite Hh in Hh'. injection Hh' as <-.
    eapply wp_upd_mem; [exact Hh|]. split; [|done]. unfold sorted_out. by apply Hmark.
Qed.

Lemma adjust_ok s l1 n r k l2 : sorted_out s (l1 ++ (n, true) :: r) -> lfree s = ram s + first_free 0 (l1 ++ (k, false) :: l2) ->
  wp (adjust_lfree (ram s + extent l1)) s (fun _ s' => tiles s' (l1 ++ (n, true) :: r) /\ ram s' = ram s).
Proof.
  intros Ht Hlf. pose proof Ht as [H1 H2 H3 H4 H5 _]. cbn [ram ram_end mems set_lfree] in *.
  pose proof H5 as H5'. rewrite fmap_app, Forall_app in H5'. destruct H5' as [Ho1 Ho2].
  unfold adjust_lfree. apply wp_bind, wp_get. rewrite Hlf. destruct (forallb snd l1) eqn:Eu.
  - rewrite first_free_app_used by done. cbn [first_free]. rewrite Z.add_0_l, Z.eqb_refl.
    pose proof H3 as [p (pr & Hs1 & Hs2)%seg_app]. rewrite Z.add_0_l in *.
    pose proof (extent_ok _ Ho2) as (_ & Hlen & _). pose proof (extent_ok _ Ho1) as (? & _). apply seg_extent in Hs2 as Ex.
    apply wp_bind. eapply wp_mono; [apply (next_free_ok heap_fuel s pr (extent l1) _ Ho2); [by exists p|done|done|]|].
    { unfold heap_fuel, MEM_SIZE_ALIGNED in *. lia. }
    intros x s' (-> & -> & h & Hh & Hx). apply wp_bind, wp_modify. apply wp_bind. eapply wp_mem_at; [exact Hh|].
    apply wp_assert; [done|]. split; [|done]. unfold sorted_out in Ht. rewrite first_free_app_used in Ht by done. done.
  - destruct (first_free_app_free 0 l1 Ho1 Eu) as (x & Hx & Hl). rewrite Hl, (proj2 (Z.eqb_neq _ _)) by lia.
    apply wp_ret. split; [|done]. apply sorted_tiles; [done|]. by rewrite Hlf, !Hl.
Qed.

(** The size that is looked for. *)
Definition request (size_in : Z) : option Z :=
  let size := Z.max (u16 (LWIP_MEM_ALIGN_SIZE size_in)) MIN_SIZE_ALIGNED in
  if (size_in =? 0) || (MEM_SIZE_ALIGNED <? size) || (size <? size_in) then None else Some size.
Lemma request_some n size : request n = Some size -> n <= size /\ size mod 4 = 0 /\ MIN_SIZE_ALIGNED <= size <= MEM_SIZE_ALIGNED /\
  size = Z.max (u16 (LWIP_MEM_ALIGN_SIZE n)) MIN_SIZE_ALIGNED.
Proof.
  unfold request. destruct (_ || _ || _) eqn:E; [done|]. intros [= <-].
  apply orb_false_iff in E as [[_ E1%Z.ltb_ge]%orb_false_iff E2%Z.ltb_ge]. split; [done|]. split; [|split; [split; [lia|done]|done]].
  rewrite align_size_eq. unfold MIN_SIZE_ALIGNED in *. apply Z.max_case_strong; intros _; [|done]. zlia.
Qed.

Lemma taken_cons size n : exists k r, taken size n = (k, true) :: r /\ size <= k - SIZEOF_STRUCT_MEM \/ n < size + SIZEOF_STRUCT_MEM.
Proof.
  unfold taken. destruct (Z.lt_ge_cases n (size + SIZEOF_STRUCT_MEM)); [exists 0, []; by right|].
  destruct (_ <=? n); (eexists _, _; left; split; [done|lia]).
Qed.
Lemma taken_merged size n l1 l2 : merged (l1 ++ (n, false) :: l2) = true -> merged (l1 ++ taken size n ++ l2) = true.
Proof.
  rewrite !merged_app, !merged_cons. cbn [snd negb andb]. unfold taken. destruct (_ <=? n); cbn; rewrite ?merged_cons; cbn.
  all: destruct (merged l1), (merged l2), (free_last l1), (free_head l2); done.
Qed.

(** The block that was found is taken. *)
Lemma malloc_found_ok s l1 n l2 size : heap_is s (l1 ++ (n, false) :: l2) -> size mod 4 = 0 -> MIN_SIZE_ALIGNED <= size ->
  size + SIZEOF_STRUCT_MEM <= n ->
  wp (mem ← ptr_to_mem (extent l1);
      malloc_take (extent l1) size;;
      adjust_lfree mem;;
      assert_ (mem + SIZEOF_STRUCT_MEM + size <=? ram_end s);;
      assert_ ((mem + SIZEOF_STRUCT_MEM) mod MEM_ALIGNMENT =? 0);;
      assert_ (Z.land mem (MEM_ALIGNMENT - 1) =? 0);;
      mret (mem + SIZEOF_STRUCT_MEM)) s (fun r s' => ram s' = ram s /\
    r = ram s + extent l1 + SIZEOF_STRUCT_MEM /\ heap_is s' (l1 ++ taken size n ++ l2)).
Proof.
  intros [Ht Hm] Hs4 Hmin Hle. apply wp_bind, wp_gets. apply wp_bind. eapply wp_mono; [by apply (malloc_take_ok s l1 n l2 size)|].
  intros _ s1 (Ht1 & Hr1 & He1 & Hl1). pose proof (taken_merged size _ _ _ Hm) as Hm'.
  destruct (taken_cons size n) as (k & r & [[Etk Hk]|?]); [|lia]. rewrite Etk in *. cbn [app] in *.
  apply wp_bind. rewrite <- Hr1. eapply wp_mono; [apply (adjust_ok s1 l1 k (r ++ l2) n l2 Ht1); by rewrite Hl1, Hr1, (tl_lfree _ _ Ht)|].
  intros _ s2 [Ht2 Hr2]. pose proof (tl_ram _ _ Ht2) as [_ Hr4]. destruct (tiles_index _ _ _ _ Ht2) as (_ & Hi1 & Hi2 & _ & Hi4 & _).
  cbn [fst] in *. rewrite Hr2 in Hr4. unfold MEM_ALIGNMENT in *. assert (Hal : (ram s1 + extent l1) mod 4 = 0) by zlia.
  apply wp_bind, wp_assert; [rewrite (tl_end _ _ Ht), Hr1; lia|].
  apply wp_bind, wp_assert; [apply Z.eqb_eq; unfold SIZEOF_STRUCT_MEM; zlia|].
  apply wp_bind, wp_assert; [|apply wp_ret; split; [congruence|]; split; [by rewrite Hr1|by split]].
  change (4 - 1) with (Z.ones 2). rewrite Z.land_ones by lia. change (2 ^ 2) with 4. by rewrite Hal.
Qed.

Lemma mem_malloc_ok s bs size_in : heap_is s bs ->
  wp (mem_malloc size_in) s (fun r s' => ram s' = ram s /\
    match request size_in ≫= fun size => place size 0 bs with
    | None => r = 0 /\ s' = s
    | Some (x, bs') => r = ram s + x + SIZEOF_STRUCT_MEM /\ heap_is s' bs'
    end).
Proof.
  intros Hh. pose proof Hh as [Ht Hm]. unfold mem_malloc. destruct (request size_in) as [size|] eqn:Er.
  2:{ unfold request in Er. destruct (size_in =? 0); [by apply wp_ret|]. cbn [orb] in Er. by destruct (_ || _). }
  destruct (request_some _ _ Er) as (Hin & Hs4 & [Hmin Hmax] & Esz). unfold request in Er. rewrite <- Esz in *.
  destruct (size_in =? 0); [done|]. cbn [orb] in Er. destruct ((_ <? size) || _); [done|]. clear Er.
  pose proof (tl_ok _ _ Ht) as Hok. pose proof (tiles_extent _ _ Ht) as Hext. pose proof (first_free_bounds 0 bs Hok) as Hffb.
  destruct (first_free_split 0 bs) as (l0 & lr & Ebs & H0 & Eff). rewrite Z.add_0_l in *.
  apply wp_bind, wp_get. rewrite (tl_lfree _ _ Ht). apply wp_bind, wp_mem_to_ptr; [unfold is_u16, MEM_SIZE_ALIGNED in *; lia|].
  pose proof (tl_tail _ _ Ht) as [p Hs]. rewrite Ebs in Hs. apply seg_app in Hs as (pr & _ & Hs2). rewrite Z.add_0_l in *.
  pose proof Hok as Hok'. rewrite Ebs, fmap_app, Forall_app in Hok'. destruct Hok' as [Hok0 Hokr].
  apply wp_bind. eapply wp_mono; [apply (malloc_find_ok heap_fuel s pr (first_free 0 bs) lr size)|].
  { unfold MIN_SIZE_ALIGNED in Hmin. lia. } { rewrite Eff. pose proof (extent_ok _ Hok0). lia. } { done. } { rewrite Eff. by exists p. }
  { pose proof (extent_ok _ Hokr). pose proof (extent_ok _ Hok0). rewrite Ebs, extent_app in Hext. unfold heap_fuel, MEM_SIZE_ALIGNED in *. lia. }
  intros r s' [-> ->]. rewrite Eff. replace (extent l0) with (0 + extent l0) by lia. rewrite <- place_used, <- Ebs by done. cbn [mbind option_bind].
  destruct (place size 0 bs) as [[x bs']|] eqn:Ep; cbn [fmap option_fmap option_map fst]; [|by apply wp_ret].
  destruct (place_some _ _ _ _ _ Ep) as (l1 & n & l2 & -> & -> & Hle & ->). rewrite Z.add_0_l in *.
  by apply (malloc_found_ok s l1 n l2 size).
Qed.

(** ** mem_trim *)

(** The block at [l1] gives up what is behind its first [a] bytes, if that can be a block. *)
Definition trimmed (l1 : blocks) (a n : Z) (l2 : blocks) : blocks :=
  if (a <? n) && (free_head l2 || (a + (SIZEOF_STRUCT_MEM + MIN_SIZE_ALIGNED) <=? n))
  then coalesce (l1 ++ (a, true) :: (n - a, false) :: l2) else l1 ++ (n, true) :: l2.

Lemma first_free_trim l1 a n l2 : Forall block_ok l1.*1 ->
  first_free 0 (l1 ++ (a, true) :: (n, false) :: l2) = if forallb snd l1 then extent l1 + a else first_free 0 l1.
Proof.
  intros Hok. destruct (forallb snd l1) eqn:Eu.
  - rewrite first_free_app_used by done. cbn [first_free]. lia.
  - destruct (first_free_app_free 0 l1 Hok Eu) as (x & Hx & Hl). rewrite Hl. specialize (Hl []). by rewrite app_nil_r in Hl.
Qed.

(** The lowest free block after a block was cut short. *)
Lemma lfree_trim s l1 n a k l2 l2' : tiles s (l1 ++ (n, true) :: l2) -> 0 <= a <= n ->
  (if forallb snd l1 then first_free 0 (l1 ++ (a, true) :: (k, false) :: l2') = extent l1 + a /\ ram s + (extent l1 + n) <= lfree s
   else lfree s < ram s + extent l1 /\ first_free 0 (l1 ++ (a, true) :: (k, false) :: l2') = lfree s - ram s).
Proof.
  intros Ht Ha. rewrite (tl_lfree _ _ Ht). pose proof (tl_ok _ _ Ht) as Hok. rewrite fmap_app, Forall_app in Hok.
  destruct Hok as [Ho1 [_ Ho2]%Forall_cons]. rewrite first_free_trim by done. destruct (forallb snd l1) eqn:Eu.
  - split; [done|]. rewrite first_free_app_used by done. cbn [first_free]. pose proof (first_free_bounds (0 + extent l1 + n) l2 Ho2). lia.
  - destruct (first_free_app_free 0 l1 Ho1 Eu) as (x & Hx & Hl). rewrite Hl. specialize (Hl []). rewrite app_nil_r in Hl. lia.
Qed.

Lemma trim_split_ok s l1 n l2 newsize : tiles s (l1 ++ (n, true) :: l2) -> l2 <> [] ->
  newsize mod 4 = 0 -> MIN_SIZE_ALIGNED <= newsize -> newsize + SIZEOF_STRUCT_MEM + (SIZEOF_STRUCT_MEM + MIN_SIZE_ALIGNED) <= n ->
  let a := newsize + SIZEOF_STRUCT_MEM in
  wp (trim_split (ram s + extent l1) (extent l1) newsize) s (fun _ s' => ram s' = ram s /\
    tiles s' (l1 ++ (a, true) :: (n - a, false) :: l2)).
Proof.
  intros Ht Hne Hn4 Hmin Hle a. destruct (tail_header _ _ _ _ _ _ (tl_tail _ _ Ht)) as (pr & Hs1 & Hhd).
  destruct (tiles_index _ _ _ _ Ht) as (Hu & Hle1 & Hn & Hnn & _). cbn [fst] in *. unfold is_u16 in Hu.
  pose proof (tiles_extent _ _ Ht) as E. rewrite extent_app in E. cbn [extent] in E.
  assert (Hl2 : 0 < extent l2).
  { pose proof (tl_ok _ _ Ht) as Hok. rewrite fmap_app, Forall_app in Hok. destruct Hok as [_ [_ Ho2]%Forall_cons].
    destruct l2 as [|[k v] l2]; [done|]. apply Forall_cons in Ho2 as [[Hk _] Ho2]. pose proof (extent_ok _ Ho2). cbn [extent fst] in *.
    unfold SIZEOF_STRUCT_MEM, MIN_SIZE_ALIGNED in Hk. lia. }
  pose proof (lfree_trim s l1 n a (n - a) l2 l2 Ht) as Hlf. unfold trim_split. apply wp_bind. eapply wp_mem_at; [exact Hhd|].
  cbv zeta. cbn [m_next]. apply wp_bind, wp_assert; [rewrite (proj2 (Z.eqb_neq _ _)) by lia; done|].
  unfold SIZEOF_STRUCT_MEM, MIN_SIZE_ALIGNED in *. rewrite u16_small by (unfold is_u16, MEM_SIZE_ALIGNED in *; lia).
  replace (extent l1 + 8 + newsize) with (extent l1 + a) by lia. apply wp_bind, wp_gets. apply wp_bind, wp_get.
  set (lf := ram s + first_free 0 (l1 ++ (a, true) :: (n - a, false) :: l2)) in *. specialize (Hlf ltac:(lia)).
  apply wp_bind. eapply (wp_mono _ _ (fun _ s' => s' = set_lfree lf s)).
  { destruct (forallb snd l1), Hlf as [Hlf1 Hlf2]; unfold lf.
    - rewrite Hlf1, (proj2 (Z.ltb_lt _ _)) by lia. by apply wp_modify.
    - rewrite (proj2 (Z.ltb_ge _ _)) by lia. apply wp_ret. rewrite Hlf2. replace (ram s + (lfree s - ram s)) with (lfree s) by lia.
      by destruct s. }
  intros _ s' ->. apply tiles_sorted in Ht.
  eapply wp_mono; [apply (carve_ok (set_lfree lf s) l1 n true [] l2 a (n - a)); [exact Ht|..]|].
  - split; [unfold SIZEOF_STRUCT_MEM, MIN_SIZE_ALIGNED; lia|unfold MEM_ALIGNMENT; zlia].
  - split; [unfold SIZEOF_STRUCT_MEM, MIN_SIZE_ALIGNED; lia|unfold MEM_ALIGNMENT; zlia].
  - cbn [extent]. lia.
  - lia.
  - done.
  - intros _ s' (Ht' & Hr' & _ & Hl'). split; [done|]. apply sorted_tiles; [done|]. by rewrite Hl', Hr'.
Qed.

Lemma trim_move_ok s l1 n k l2 newsize : tiles s (l1 ++ (n, true) :: (k, false) :: l2) ->
  newsize mod 4 = 0 -> MIN_SIZE_ALIGNED <= newsize -> newsize + SIZEOF_STRUCT_MEM < n ->
  let a := newsize + SIZEOF_STRUCT_MEM in
  wp (trim_move (ram s + extent l1) (extent l1) newsize) s (fun _ s' => ram s' = ram s /\
    tiles s' (l1 ++ (a, true) :: (n - a + k, false) :: l2)).
Proof.
  intros Ht Hn4 Hmin Hle a. destruct (tail_header _ _ _ _ _ _ (tl_tail _ _ Ht)) as (pr & Hs1 & Hhd).
  destruct (tiles_index _ _ _ _ Ht) as (Hu & Hle1 & Hn & Hnn & _). cbn [fst] in *. unfold is_u16 in Hu.
  assert (Ht' : tiles s ((l1 ++ [(n, true)]) ++ (k, false) :: l2)) by (by rewrite <- app_assoc).
  destruct (tail_header _ _ _ _ _ _ (tl_tail _ _ Ht')) as (pr2 & _ & Hh2). rewrite extent_app in Hh2. cbn [extent] in Hh2. rewrite Z.add_0_r in Hh2.
  destruct (tiles_index _ _ _ _ Ht') as (_ & Hle2 & Hk & Hk4 & _). rewrite extent_app in Hle2. cbn [extent fst] in *.
  unfold SIZEOF_STRUCT_MEM, MIN_SIZE_ALIGNED in *. pose proof (lfree_trim s l1 n a (n - a + k) ((k, false) :: l2) l2 Ht ltac:(lia)) as Hlf.
  assert (Hlf2 : forallb snd l1 = true -> lfree s = ram s + (extent l1 + n)).
  { intros Eu. rewrite (tl_lfree _ _ Ht), first_free_app_used by done. done. }
  unfold trim_move. apply wp_bind. eapply wp_mem_at; [exact Hhd|].
  cbv zeta. cbn [m_next]. apply wp_bind, wp_gets. apply wp_bind, wp_assert; [rewrite (proj2 (Z.eqb_neq _ _)) by lia; done|].
  apply wp_bind. eapply wp_mem_at; [exact Hh2|]. cbn [m_next]. unfold SIZEOF_STRUCT_MEM.
  rewrite u16_small by (unfold is_u16, MEM_SIZE_ALIGNED in *; lia).
  replace (extent l1 + 8 + newsize) with (extent l1 + a) by lia. apply wp_bind, wp_gets. apply wp_bind, wp_get.
  set (lf := ram s + first_free 0 (l1 ++ (a, true) :: (n - a + k, false) :: l2)) in *.
  apply wp_bind. eapply (wp_mono _ _ (fun _ s' => s' = set_lfree lf s)).
  { destruct (forallb snd l1), Hlf as [Hlf1 Hlf3]; unfold lf.
    - rewrite Hlf1, Hlf2, Z.eqb_refl by done. by apply wp_modify.
    - rewrite (proj2 (Z.eqb_neq _ _)) by lia. apply wp_ret. rewrite Hlf3. replace (ram s + (lfree s - ram s)) with (lfree s) by lia.
      by destruct s. }
  intros _ s' ->. apply tiles_sorted in Ht.
  eapply wp_mono; [apply (carve_ok (set_lfree lf s) l1 n true [(k, false)] l2 a (n - a + k)); [exact Ht|..]|].
  - split; [unfold SIZEOF_STRUCT_MEM, MIN_SIZE_ALIGNED; lia|unfold MEM_ALIGNMENT; zlia].
  - split; [unfold SIZEOF_STRUCT_MEM, MIN_SIZE_ALIGNED; lia|unfold MEM_ALIGNMENT; zlia].
  - cbn [extent]. lia.
  - lia.
  - done.
  - intros _ s' (Ht2 & Hr2 & _ & Hl2). split; [done|]. apply sorted_tiles; [done|]. by rewrite Hl2, Hr2.
Qed.

(** ** mem_trim as a whole *)

Definition new_size_of (new_size : Z) : Z := Z.max (u16 (LWIP_MEM_ALIGN_SIZE new_size)) MIN_SIZE_ALIGNED.
Lemma new_size_ok n : new_size_of n mod 4 = 0 /\ MIN_SIZE_ALIGNED <= new_size_of n.
Proof.
  unfold new_size_of. rewrite align_size_eq. split; [|lia]. apply Z.max_case_strong; intros _; [|done]. zlia.
Qed.

(** The heap after the block behind [l1] was cut to [a] bytes, header included. *)
Lemma trimmed_move l1 a n k l2 : merged (l1 ++ (n, true) :: (k, false) :: l2) = true -> a < n ->
  trimmed l1 a n ((k, false) :: l2) = l1 ++ (a, true) :: (n - a + k, false) :: l2 /\
  merged (l1 ++ (a, true) :: (n - a + k, false) :: l2) = true.
Proof.
  intros Hm Ha. assert (Hm' : merged (l1 ++ (a, true) :: (n - a + k, false) :: l2) = true).
  { rewrite merged_app, !merged_cons in *. exact Hm. }
  split; [|done]. unfold trimmed. rewrite (proj2 (Z.ltb_lt _ _)) by done. cbn [free_head orb andb].
  pose proof (coalesce_join (l1 ++ [(a, true)]) (n - a) k l2) as E. rewrite <- !app_assoc in E. cbn [app] in E.
  rewrite E. by apply coalesce_merged.
Qed.
Lemma trimmed_split l1 a n l2 : merged (l1 ++ (n, true) :: l2) = true -> free_head l2 = false ->
  a + (SIZEOF_STRUCT_MEM + MIN_SIZE_ALIGNED) <= n ->
  trimmed l1 a n l2 = l1 ++ (a, true) :: (n - a, false) :: l2 /\ merged (l1 ++ (a, true) :: (n - a, false) :: l2) = true.
Proof.
  intros Hm Hh Ha. assert (Hm' : merged (l1 ++ (a, true) :: (n - a, false) :: l2) = true).
  { rewrite merged_app, !merged_cons in *. cbn [snd negb andb free_head] in *. rewrite Hh. cbn. exact Hm. }
  split; [|done]. unfold trimmed. unfold SIZEOF_STRUCT_MEM, MIN_SIZE_ALIGNED in Ha.
  rewrite (proj2 (Z.ltb_lt a n)), (proj2 (Z.leb_le _ _)) by (unfold SIZEOF_STRUCT_MEM, MIN_SIZE_ALIGNED; lia).
  rewrite orb_true_r. cbn [andb]. by apply coalesce_merged.
Qed.
Lemma trimmed_same l1 a n l2 : free_head l2 = false -> n < a + (SIZEOF_STRUCT_MEM + MIN_SIZE_ALIGNED) ->
  trimmed l1 a n l2 = l1 ++ (n, true) :: l2.
Proof. intros Hh Ha. unfold trimmed. by rewrite Hh, (proj2 (Z.leb_gt _ _)), andb_false_r by done. Qed.

(** The header behind a block: the next block's, or the last. *)
Lemma mem_next_header s l1 n u l2 : tiles s (l1 ++ (n, u) :: l2) ->
  exists h, mems s !! (ram s + (extent l1 + n)) = Some h /\ (used h =? 0) = free_head l2.
Proof.
  intros Ht. destruct l2 as [|[k v] l2].
  - pose proof (tiles_extent _ _ Ht) as E. rewrite extent_app in E. cbn [extent] in E. rewrite Z.add_0_r in E.
    rewrite E. eexists. split; [apply (tl_last _ _ Ht)|done].
  - replace (l1 ++ (n, u) :: (k, v) :: l2) with ((l1 ++ [(n, u)]) ++ (k, v) :: l2) in Ht by (by rewrite <- app_assoc).
    destruct (tail_header _ _ _ _ _ _ (tl_tail _ _ Ht)) as (pr & _ & Hh). rewrite extent_app in Hh. cbn [extent] in Hh.
    rewrite Z.add_0_r in Hh. eexists. split; [exact Hh|]. by destruct v.
Qed.

(** A block that is the last of the heap and in use cannot be cut: the assertion on its [next] fails. *)
Definition cannot_cut (a n : Z) (l2 : blocks) : Prop := l2 = [] /\ a + (SIZEOF_STRUCT_MEM + MIN_SIZE_ALIGNED) <= n.

Lemma trim_cut_ok s l1 n l2 newsize : heap_is s (l1 ++ (n, true) :: l2) -> newsize mod 4 = 0 -> MIN_SIZE_ALIGNED <= newsize ->
  let a := newsize + SIZEOF_STRUCT_MEM in
  a < n -> ~ cannot_cut a n l2 ->
  wp (if free_head l2 then trim_move (ram s + extent l1) (extent l1) newsize
      else if newsize + SIZEOF_STRUCT_MEM + MIN_SIZE_ALIGNED <=? n - SIZEOF_STRUCT_MEM
      then trim_split (ram s + extent l1) (extent l1) newsize else mret tt) s (fun _ s' => ram s' = ram s /\
    heap_is s' (trimmed l1 a n l2)).
Proof.
  intros [Ht Hm] Hn4 Hmin a Ha Hcut. destruct (free_head l2) eqn:Eh.
  - destruct l2 as [|[k []] l2]; [done..|]. destruct (trimmed_move _ _ _ _ _ Hm Ha) as [-> Hm'].
    eapply wp_mono; [by apply (trim_move_ok s l1 n k l2 newsize Ht)|]. intros _ s' [? ?]. split; [done|by split].
  - unfold cannot_cut, SIZEOF_STRUCT_MEM, MIN_SIZE_ALIGNED in *. destruct (Z.leb_spec (newsize + 8 + 12) (n - 8)) as [Hle|Hgt].
    + destruct (trimmed_split l1 a n l2 Hm Eh) as [-> Hm']; [unfold SIZEOF_STRUCT_MEM, MIN_SIZE_ALIGNED; lia|].
      eapply wp_mono; [apply (trim_split_ok s l1 n l2 newsize Ht); try done|].
      * intros ->. apply Hcut. split; [done|]. lia.
      * unfold SIZEOF_STRUCT_MEM, MIN_SIZE_ALIGNED. lia.
      * intros _ s' [? ?]. split; [done|by split].
    + apply wp_ret. rewrite trimmed_same by (done || unfold SIZEOF_STRUCT_MEM, MIN_SIZE_ALIGNED; lia). split; [done|by split].
Qed.

(** The code of [mem_trim] up to the point where the block is cut. *)
Lemma trim_prefix s l1 n l2 new_size (Q : Z -> mem_heap -> Prop) : heap_is s (l1 ++ (n, true) :: l2) ->
  let newsize := new_size_of new_size in
  let rmem := ram s + extent l1 + SIZEOF_STRUCT_MEM in
  (if (MEM_SIZE_ALIGNED <? newsize) || (newsize <? new_size) then Q 0 s
   else newsize + SIZEOF_STRUCT_MEM <= n /\
     if newsize + SIZEOF_STRUCT_MEM =? n then Q rmem s
     else wp (if free_head l2 then trim_move (ram s + extent l1) (extent l1) newsize
              else if newsize + SIZEOF_STRUCT_MEM + MIN_SIZE_ALIGNED <=? n - SIZEOF_STRUCT_MEM
              then trim_split (ram s + extent l1) (extent l1) newsize else mret tt) s (fun _ s' => Q rmem s')) ->
  wp (mem_trim rmem new_size) s Q.
Proof.
  intros [Ht Hm] newsize rmem HQ. destruct (tail_header _ _ _ _ _ _ (tl_tail _ _ Ht)) as (pr & _ & Hh).
  destruct (tiles_index _ _ _ _ Ht) as (Hu & Hle & Hn & _). cbn [fst] in *. unfold is_u16 in Hu.
  destruct (mem_next_header _ _ _ _ _ Ht) as (h2 & Hh2 & Hused).
  unfold mem_trim. fold (new_size_of new_size). fold newsize. destruct (_ || _); [by apply wp_ret|]. destruct HQ as [Ha HQ].
  unfold SIZEOF_STRUCT_MEM, MIN_SIZE_ALIGNED, MEM_SIZE_ALIGNED in *. apply wp_bind, wp_get. apply wp_bind, wp_assert.
  { unfold rmem. rewrite (tl_end _ _ Ht), (proj2 (Z.leb_le _ _)), (proj2 (Z.ltb_lt _ _)) by (unfold MEM_SIZE_ALIGNED; lia). done. }
  unfold SIZEOF_STRUCT_MEM. replace (rmem - 8) with (ram s + extent l1) by (unfold rmem; lia).
  apply wp_bind, wp_mem_to_ptr; [unfold is_u16; lia|]. apply wp_bind. eapply wp_mem_at; [exact Hh|]. cbn [m_next].
  replace (extent l1 + n - extent l1) with n by lia. rewrite !u16_small by (unfold is_u16; rewrite ?u16_small by (unfold is_u16; lia); lia).
  apply wp_bind, wp_assert; [apply Z.leb_le; lia|].
  replace (newsize =? n - 8) with (newsize + 8 =? n) by (destruct (Z.eqb_spec (newsize + 8) n), (Z.eqb_spec newsize (n - 8)); lia || done).
  destruct (newsize + 8 =? n); [by apply wp_ret|]. apply wp_bind, wp_gets. apply wp_bind. eapply wp_mem_at; [exact Hh2|].
  rewrite Hused. apply wp_bind. eapply wp_mono; [exact HQ|]. intros ? s' Hdone. by apply wp_ret.
Qed.

Lemma mem_trim_ok s l1 n l2 new_size : heap_is s (l1 ++ (n, true) :: l2) ->
  let a := new_size_of new_size + SIZEOF_STRUCT_MEM in
  let rmem := ram s + extent l1 + SIZEOF_STRUCT_MEM in
  a <= n -> ~ (a < n /\ cannot_cut a n l2) ->
  wp (mem_trim rmem new_size) s (fun r s' => ram s' = ram s /\
    if new_size_of new_size <? new_size then r = 0 /\ s' = s else r = rmem /\ heap_is s' (trimmed l1 a n l2)).
Proof.
  intros Hh a rmem Ha Hcut. pose proof Hh as [Ht Hm]. destruct (tiles_index _ _ _ _ Ht) as (Hu & Hle & Hn & _). cbn [fst] in *.
  unfold is_u16 in Hu. destruct (new_size_ok new_size) as [Hn4 Hmin]. apply (trim_prefix s l1 n l2 new_size); [done|].
  rewrite (proj2 (Z.ltb_ge MEM_SIZE_ALIGNED _)) by (unfold a, SIZEOF_STRUCT_MEM in Ha; lia). cbn [orb].
  destruct (new_size_of new_size <? new_size); [done|]. split; [done|]. fold a. fold rmem.
  destruct (Z.eqb_spec a n) as [E|Hne].
  - split; [done|]. split; [done|]. unfold trimmed. by rewrite E, Z.ltb_irrefl.
  - eapply wp_mono; [apply (trim_cut_ok s l1 n l2 (new_size_of new_size) Hh Hn4 Hmin); fold a; [lia|]|].
    + intros Hc. apply Hcut. split; [lia|done].
    + by intros _ s' [? ?].
Qed.

(** ** The memory the clients hold *)

(** The blocks in use: where their memory begins, from the start of the heap, and its size. *)
Fixpoint in_use (off : Z) (bs : blocks) : list (Z * Z) :=
  match bs with
  | [] => []
  | (n, u) :: bs => (if u then [(off + SIZEOF_STRUCT_MEM, n - SIZEOF_STRUCT_MEM)] else []) ++ in_use (off + n) bs
  end.

Lemma in_use_app off l1 l2 : in_use off (l1 ++ l2) = in_use off l1 ++ in_use (off + extent l1) l2.
Proof.
  revert off. induction l1 as [|[n u] l1 IH]; intros off; cbn [app in_use extent]; [by rewrite Z.add_0_r|].
  by rewrite IH, <- app_assoc, Z.add_assoc.
Qed.
Lemma in_use_coalesce off bs : in_use off (coalesce bs) = in_use off bs.
Proof.
  revert off. induction bs as [|[n u] bs IH]; intros off; [done|]. rewrite coalesce_cons. cbn [in_use]. rewrite <- (IH (off + n)).
  destruct (coalesce bs) as [|[k []] r]; cbn [fst snd]; try done. destruct u; [done|]. cbn [in_use app]. by rewrite Z.add_assoc.
Qed.
Lemma in_use_block off bs p k : (p, k) ∈ in_use off bs ->
  exists l1 l2, bs = l1 ++ (k + SIZEOF_STRUCT_MEM, true) :: l2 /\ p = off + extent l1 + SIZEOF_STRUCT_MEM.
Proof.
  revert off. induction bs as [|[n u] bs IH]; intros off; cbn [in_use]; [by intros ?%elem_of_nil|].
  intros [Hin|Hin]%elem_of_app.
  - destruct u; [|by apply elem_of_nil in Hin]. apply list_elem_of_singleton in Hin as [= -> ->]. exists [], bs.
    cbn [app extent]. split; [f_equal; f_equal; lia|lia].
  - destruct (IH _ Hin) as (l1 & l2 & -> & ->). exists ((n, u) :: l1), l2. cbn [app extent]. split; [done|lia].
Qed.
Lemma block_in_use off l1 n l2 : (off + extent l1 + SIZEOF_STRUCT_MEM, n - SIZEOF_STRUCT_MEM) ∈ in_use off (l1 ++ (n, true) :: l2).
Proof. rewrite in_use_app. apply elem_of_app. right. left. Qed.

Lemma in_use_bounds off bs p k : Forall block_ok bs.*1 -> (p, k) ∈ in_use off bs ->
  off + SIZEOF_STRUCT_MEM <= p /\ MIN_SIZE_ALIGNED <= k /\ p + k <= off + extent bs /\ (p - off) mod 4 = 0.
Proof.
  intros Hok (l1 & l2 & -> & ->)%in_use_block. rewrite fmap_app, Forall_app in Hok. destruct Hok as [Ho1 [[Hk _] Ho2]%Forall_cons].
  pose proof (extent_ok _ Ho1) as (? & _ & ?). pose proof (extent_ok _ Ho2). rewrite extent_app. cbn [extent fst] in *.
  unfold SIZEOF_STRUCT_MEM, MIN_SIZE_ALIGNED in *. split; [lia|]. split; [lia|]. split; [lia|].
  replace (off + extent l1 + 8 - off) with (extent l1 + 2 * 4) by lia. by rewrite Z.mod_add.
Qed.
Lemma in_use_apart off bs p k p' k' : Forall block_ok bs.*1 -> (p, k) ∈ in_use off bs -> (p', k') ∈ in_use off bs -> p <> p' ->
  p + k <= p' \/ p' + k' <= p.
Proof.
  revert off. induction bs as [|[n u] bs IH]; intros off; [by intros _ ?%elem_of_nil|]. intros [_ Hok]%Forall_cons. cbn [in_use].
  assert (Hhd : forall q j, (q, j) ∈ (if u then [(off + SIZEOF_STRUCT_MEM, n - SIZEOF_STRUCT_MEM)] else []) ->
    q = off + SIZEOF_STRUCT_MEM /\ j = n - SIZEOF_STRUCT_MEM).
  { intros q j Hin. destruct u; [|by apply elem_of_nil in Hin]. by apply list_elem_of_singleton in Hin as [= -> ->]. }
  unfold SIZEOF_STRUCT_MEM in *. intros [[-> ->]%Hhd|H1]%elem_of_app [[-> ->]%Hhd|H2]%elem_of_app Hne; [done|..|by eapply IH].
  - pose proof (in_use_bounds _ _ _ _ Hok H2). unfold SIZEOF_STRUCT_MEM in *. lia.
  - pose proof (in_use_bounds _ _ _ _ Hok H1). unfold SIZEOF_STRUCT_MEM in *. lia.
Qed.

Lemma in_use_place size off bs x bs' : place size off bs = Some (x, bs') ->
  exists k, size <= k /\ in_use off bs' ≡ₚ (x + SIZEOF_STRUCT_MEM, k) :: in_use off bs.
Proof.
  intros (l1 & n & l2 & -> & -> & Hle & ->)%place_some. rewrite in_use_app. cbn [in_use app]. unfold taken.
  assert (Hmid : forall k r, in_use off l1 ++ (off + extent l1 + SIZEOF_STRUCT_MEM, k) :: r ≡ₚ
    (off + extent l1 + SIZEOF_STRUCT_MEM, k) :: in_use off l1 ++ r) by (intros; by rewrite <- Permutation_middle).
  rewrite (in_use_app off l1 ((n, false) :: l2)). cbn [in_use app].
  destruct (_ <=? n) eqn:E; cbn [app in_use].
  - exists size. split; [lia|]. rewrite Hmid, Z.add_simpl_r.
    by replace (off + extent l1 + (size + SIZEOF_STRUCT_MEM) + (n - (size + SIZEOF_STRUCT_MEM))) with (off + extent l1 + n) by lia.
  - exists (n - SIZEOF_STRUCT_MEM). split; [lia|]. by rewrite Hmid.
Qed.
Lemma in_use_free off l1 n l2 : in_use off (l1 ++ (n, true) :: l2) ≡ₚ
  (off + extent l1 + SIZEOF_STRUCT_MEM, n - SIZEOF_STRUCT_MEM) :: in_use off (coalesce (l1 ++ (n, false) :: l2)).
Proof. rewrite in_use_coalesce, !in_use_app. cbn [in_use app]. by rewrite <- Permutation_middle. Qed.
Lemma in_use_trim off l1 a n l2 : a <= n -> exists k, a - SIZEOF_STRUCT_MEM <= k <= n - SIZEOF_STRUCT_MEM /\
  in_use off (trimmed l1 a n l2) = in_use off l1 ++ (off + extent l1 + SIZEOF_STRUCT_MEM, k) :: in_use (off + extent l1 + n) l2.
Proof.
  intros Ha. unfold trimmed. destruct (_ && _).
  - exists (a - SIZEOF_STRUCT_MEM). split; [lia|]. rewrite in_use_coalesce, in_use_app. cbn [in_use app].
    by replace (off + extent l1 + a + (n - a)) with (off + extent l1 + n) by lia.
  - exists (n - SIZEOF_STRUCT_MEM). split; [lia|]. by rewrite in_use_app.
Qed.

(** ** The calls *)

Inductive mem_call := Malloc (n : Z) | Free (p : Z) | Trim (p n : Z).
Definition run (c : mem_call) : M mem_heap Z :=
  match c with
  | Malloc n => mem_malloc n
  | Free p => mem_free p;; mret 0
  | Trim p n => mem_trim p n
  end.

(** The calls on the blocks of a heap that starts at [R]: result and blocks after. *)
Inductive served (R : Z) : mem_call -> blocks -> Z -> blocks -> Prop :=
  | served_malloc n size x bs bs' : request n = Some size -> place size 0 bs = Some (x, bs') ->
      served R (Malloc n) bs (R + x + SIZEOF_STRUCT_MEM) bs'
  | served_no_room n bs : request n ≫= (fun size => place size 0 bs) = None -> served R (Malloc n) bs 0 bs
  | served_free l1 n l2 : served R (Free (R + extent l1 + SIZEOF_STRUCT_MEM)) (l1 ++ (n, true) :: l2) 0
      (coalesce (l1 ++ (n, false) :: l2))
  | served_null bs : served R (Free 0) bs 0 bs
  | served_trim l1 n l2 k : new_size_of k + SIZEOF_STRUCT_MEM <= n -> k <= new_size_of k ->
      served R (Trim (R + extent l1 + SIZEOF_STRUCT_MEM) k) (l1 ++ (n, true) :: l2) (R + extent l1 + SIZEOF_STRUCT_MEM)
        (trimmed l1 (new_size_of k + SIZEOF_STRUCT_MEM) n l2)
  | served_too_big l1 n l2 k : new_size_of k < k ->
      served R (Trim (R + extent l1 + SIZEOF_STRUCT_MEM) k) (l1 ++ (n, true) :: l2) 0 (l1 ++ (n, true) :: l2).

(** What the callers see to: pointers they hold, and a new size that fits, not for the last block. *)
Definition legal (R : Z) (bs : blocks) (c : mem_call) : Prop :=
  match c with
  | Malloc _ => True
  | Free p => p = 0 \/ exists l1 n l2, bs = l1 ++ (n, true) :: l2 /\ p = R + extent l1 + SIZEOF_STRUCT_MEM
  | Trim p k => exists l1 n l2, bs = l1 ++ (n, true) :: l2 /\ p = R + extent l1 + SIZEOF_STRUCT_MEM /\
      let a := new_size_of k + SIZEOF_STRUCT_MEM in a <= n /\ ~ (a < n /\ cannot_cut a n l2)
  end.

Lemma run_served s bs c : heap_is s bs -> legal (ram s) bs c ->
  wp (run c) s (fun r s' => ram s' = ram s /\ exists bs', heap_is s' bs' /\ served (ram s) c bs r bs').
Proof.
  intros Hh Hl. destruct c as [n|p|p k]; cbn [run].
  - eapply wp_mono; [by apply (mem_malloc_ok s bs n)|]. intros r s' [Hr Hc]. split; [done|].
    destruct (request n) as [size|] eqn:Er; cbn [mbind option_bind] in Hc.
    + destruct (place size 0 bs) as [[x bs']|] eqn:Ep.
      * destruct Hc as [-> Hh']. exists bs'. split; [done|]. by eapply served_malloc.
      * destruct Hc as [-> ->]. exists bs. split; [done|]. apply served_no_room. by rewrite Er.
    + destruct Hc as [-> ->]. exists bs. split; [done|]. apply served_no_room. by rewrite Er.
  - destruct Hl as [->|(l1 & n & l2 & -> & ->)].
    + apply wp_ret. split; [done|]. exists bs. split; [done|apply served_null].
    + apply wp_bind. eapply wp_mono; [by apply mem_free_ok|]. intros _ s' [Hr Hh']. apply wp_ret. split; [done|].
      eexists. split; [exact Hh'|apply served_free].
  - destruct Hl as (l1 & n & l2 & -> & -> & Ha & Hcut). eapply wp_mono; [by apply (mem_trim_ok s l1 n l2 k)|].
    intros r s' [Hr Hc]. split; [done|]. destruct (Z.ltb_spec (new_size_of k) k) as [Hlt|Hge]; destruct Hc as [-> Hc].
    + subst s'. eexists. split; [exact Hh|by apply served_too_big].
    + eexists. split; [exact Hc|by apply served_trim].
Qed.

Lemma in_use_nodup off bs : Forall block_ok bs.*1 -> NoDup (in_use off bs).*1.
Proof.
  revert off. induction bs as [|[n u] bs IH]; intros off; [intros _; apply NoDup_nil_2|]. intros [[Hn _] Hok]%Forall_cons.
  destruct u; cbn [in_use app fmap list_fmap fst]; [|by apply IH]. apply NoDup_cons. split; [|by apply IH].
  intros ([q k] & E & Hq)%list_elem_of_fmap. pose proof (in_use_bounds _ _ _ _ Hok Hq). cbn [fst] in *.
  unfold SIZEOF_STRUCT_MEM, MIN_SIZE_ALIGNED in *. lia.
Qed.
Lemma merged_unused bs off : merged bs = true -> in_use off bs = [] -> bs = [] \/ exists n, bs = [(n, false)].
Proof.
  destruct bs as [|[n []] [|[k []] bs]]; cbn; try done; try by left. right. by exists n.
Qed.

(** ** The start *)

Lemma mem_init_ok ram_heap s0 : 0 < ram_heap -> wp (mem_init ram_heap ERR_OK) s0 (fun _ s =>
  ram s = LWIP_MEM_ALIGN ram_heap /\ heap_is s [(MEM_SIZE_ALIGNED, false)]).
Proof.
  intros Hp. unfold mem_init. set (R := LWIP_MEM_ALIGN ram_heap).
  assert (HR : 0 < R /\ R mod 4 = 0).
  { split; [|apply align_mod]. assert (R = (ram_heap + 3) / 4 * 4) as -> by apply (align_size_eq ram_heap). zlia. }
  apply wp_bind, wp_modify. apply wp_bind, wp_modify. apply wp_bind, wp_modify. apply wp_assert; [done|].
  split; [done|]. split; [|done]. unfold MEM_SIZE_ALIGNED. constructor; cbn; try done.
  - exists 0. cbn. rewrite lookup_insert_ne by lia. rewrite Z.add_0_r, lookup_insert_eq. done.
  - by rewrite lookup_insert_eq.
  - constructor; [|constructor]. by split.
  - lia.
Qed.

(** ** A block at the end of the heap cannot be cut *)

Lemma mem_at_run (s : mem_heap) a h : mems s !! a = Some h -> mem_at a s = Done (h, s).
Proof. intros Ha. unfold mem_at. rewrite (bind_done _ _ _ s s) by done. unfold of_option. by rewrite Ha. Qed.
Lemma then_run {S A B} (m : M S A) (k : A -> M S B) s a s' r : m s = Done (a, s') -> k a s' = r -> (m ≫= k) s = r.
Proof. intros Hm <-. by apply bind_done. Qed.
Lemma assert_run {S} b (s : S) : b = true -> assert_ b s = Done (tt, s).
Proof. by intros ->. Qed.

Lemma trim_split_last s l1 n newsize : tiles s (l1 ++ [(n, true)]) ->
  trim_split (ram s + extent l1) (extent l1) newsize s = Stop Asserted.
Proof.
  intros Ht. destruct (tail_header _ _ _ _ _ _ (tl_tail _ _ Ht)) as (pr & _ & Hh).
  pose proof (tiles_extent _ _ Ht) as He. rewrite extent_app in He. cbn [extent] in He. unfold trim_split.
  eapply then_run; [exact (mem_at_run _ _ _ Hh)|]. apply bind_stop. unfold assert_. cbn [m_next].
  by rewrite (proj2 (Z.eqb_eq (extent l1 + n) _)) by lia.
Qed.
Lemma trim_last_run s l1 n k : heap_is s (l1 ++ [(n, true)]) -> k <= new_size_of k ->
  new_size_of k + SIZEOF_STRUCT_MEM + (SIZEOF_STRUCT_MEM + MIN_SIZE_ALIGNED) <= n ->
  mem_trim (ram s + extent l1 + SIZEOF_STRUCT_MEM) k s = Stop Asserted.
Proof.
  intros [Ht Hm] Hk Hn. destruct (tail_header _ _ _ _ _ _ (tl_tail _ _ Ht)) as (pr & _ & Hh).
  destruct (tiles_index _ _ _ _ Ht) as (Hu & Hle & Hn0 & _). cbn [fst] in *. unfold is_u16 in Hu.
  pose proof (tiles_extent _ _ Ht) as He. rewrite extent_app in He. cbn [extent] in He.
  destruct (new_size_ok k) as [_ Hmin]. pose proof (tl_end _ _ Ht) as Hend. pose proof (tl_last _ _ Ht) as Hl.
  unfold mem_trim. fold (new_size_of k). set (newsize := new_size_of k) in *. unfold SIZEOF_STRUCT_MEM, MIN_SIZE_ALIGNED, MEM_SIZE_ALIGNED in *.
  rewrite (proj2 (Z.ltb_ge 6144 newsize)), (proj2 (Z.ltb_ge newsize k)) by lia. cbn [orb].
  eapply then_run; [done|]. eapply then_run.
  { apply assert_run. by rewrite (proj2 (Z.leb_le _ _)), (proj2 (Z.ltb_lt _ _)) by lia. }
  cbv zeta. replace (ram s + extent l1 + 8 - 8) with (ram s + extent l1) by lia. eapply then_run; [done|].
  replace (ram s + extent l1 - ram s) with (extent l1) by lia. rewrite (u16_small (extent l1)) by (unfold is_u16; lia).
  eapply then_run; [exact (mem_at_run _ _ _ Hh)|]. cbn [m_next].
  replace (extent l1 + n - extent l1) with n by lia. rewrite (u16_small n) by (unfold is_u16; lia). rewrite (u16_small (n - 8)) by (unfold is_u16; lia).
  eapply then_run; [apply assert_run, Z.leb_le; lia|]. rewrite (proj2 (Z.eqb_neq newsize (n - 8))) by lia.
  eapply then_run; [done|]. replace (ram s + (extent l1 + n)) with (ram s + 6144) by lia.
  eapply then_run; [exact (mem_at_run _ _ _ Hl)|]. cbn [used last_mem].
  rewrite (proj2 (Z.leb_le (newsize + 8 + 12) _)) by lia. apply bind_stop. by apply trim_split_last with n.
Qed.

(** ** What the clients see over any sequence of calls *)

(** The heap after some calls, and the memory the clients hold: the size they asked for, by address. *)
Inductive history : mem_heap -> gmap Z Z -> Prop :=
  | history_init r s0 s : 0 < r -> mem_init r ERR_OK s0 = Done (tt, s) -> history s ∅
  | history_malloc s held n p s' : history s held -> mem_malloc n s = Done (p, s') ->
      history s' (if p =? 0 then held else <[p := n]> held)
  | history_free s held p s' : history s held -> is_Some (held !! p) -> mem_free p s = Done (tt, s') ->
      history s' (delete p held)
  | history_trim s held p n k r s' : history s held -> held !! p = Some n -> 0 <= k <= n ->
      mem_trim p k s = Done (r, s') -> history s' (<[p := k]> held).

(** The blocks in use are the ones the clients hold. *)
Record accounts (s : mem_heap) (bs : blocks) (held : gmap Z Z) : Prop := {
  ac_heap : heap_is s bs;
  ac_held p n : held !! p = Some n ->
    exists k, n <= new_size_of n <= k /\ (p - ram s, k) ∈ in_use 0 bs;
  ac_used q k : (q, k) ∈ in_use 0 bs -> is_Some (held !! (ram s + q))
}.

Lemma accounts_block s bs held p n : accounts s bs held -> held !! p = Some n ->
  exists l1 k l2, bs = l1 ++ (k, true) :: l2 /\ p = ram s + extent l1 + SIZEOF_STRUCT_MEM /\ n <= new_size_of n /\
    new_size_of n + SIZEOF_STRUCT_MEM <= k.
Proof.
  intros [Hh H2 _] (k & Hk & (l1 & l2 & -> & E)%in_use_block)%H2. exists l1, (k + SIZEOF_STRUCT_MEM), l2.
  split; [done|]. split; [lia|]. split; lia.
Qed.

Lemma new_size_mono k n : 0 <= k <= n -> n <= new_size_of n <= MEM_SIZE_ALIGNED -> k <= new_size_of k <= new_size_of n.
Proof.
  unfold new_size_of, MEM_SIZE_ALIGNED, MIN_SIZE_ALIGNED. rewrite !align_size_eq. unfold u16. intros Hk Hn.
  assert (E : (k + 3) / 4 * 4 <= (n + 3) / 4 * 4) by zlia.
  assert (En : (n + 3) / 4 * 4 < 65536) by zlia.
  rewrite !Z.mod_small in * by zlia. zlia.
Qed.

Lemma accounts_init r s0 s : 0 < r -> mem_init r ERR_OK s0 = Done (tt, s) -> accounts s [(MEM_SIZE_ALIGNED, false)] ∅.
Proof.
  intros Hr Hi. pose proof (mem_init_ok r s0 Hr) as Hw. unfold wp in Hw. rewrite Hi in Hw. destruct Hw as [_ Hh].
  constructor; [done|done|]. intros q k Hq. by apply elem_of_nil in Hq.
Qed.

Lemma accounts_malloc s bs held n : accounts s bs held ->
  wp (mem_malloc n) s (fun p s' => exists bs', accounts s' bs' (if p =? 0 then held else <[p := n]> held)).
Proof.
  intros Ha. pose proof Ha as [Hh H2 H3]. eapply wp_mono; [by apply mem_malloc_ok|]. intros p s' [Hr Hc].
  destruct (request n) as [size|] eqn:Er; cbn [mbind option_bind] in Hc; [|destruct Hc as [-> ->]; by exists bs].
  destruct (place size 0 bs) as [[x bs']|] eqn:Ep; [|destruct Hc as [-> ->]; by exists bs]. destruct Hc as [-> Hh'].
  destruct (in_use_place _ _ _ _ _ Ep) as (k & Hk & Hperm). pose proof (tl_ram _ _ (proj1 Hh)) as [Hr0 _].
  destruct (place_some _ _ _ _ _ Ep) as (l1 & m & l2 & Eb & Ex & _). pose proof (tl_ok _ _ (proj1 Hh)) as Hok.
  rewrite Eb, fmap_app, Forall_app in Hok. pose proof (extent_ok _ (proj1 Hok)) as [Hp _].
  apply request_some in Er as (En & _ & _ & Es). fold (new_size_of n) in Es.
  unfold SIZEOF_STRUCT_MEM in *. rewrite (proj2 (Z.eqb_neq (ram s + x + 8) 0)) by lia. exists bs'. constructor; [done| |]; rewrite Hr.
  - intros p m' [[<- <-]|[_ (j & Hj & Hin)%H2]]%lookup_insert_Some.
    + exists k. split; [lia|]. rewrite Hperm. replace (ram s + x + 8 - ram s) with (x + 8) by lia. left.
    + exists j. split; [done|]. rewrite Hperm. by right.
  - intros q j Hq. rewrite Hperm in Hq. apply elem_of_cons in Hq as [[= -> ->]|Hq%H3].
    + replace (ram s + (x + 8)) with (ram s + x + 8) by lia. rewrite lookup_insert_eq. by eexists.
    + destruct (Z.eq_dec (ram s + q) (ram s + x + 8)) as [->|Hne]; [rewrite lookup_insert_eq; by eexists|]. by rewrite lookup_insert_ne.
Qed.

Lemma accounts_free s bs held p : accounts s bs held -> is_Some (held !! p) ->
  wp (mem_free p) s (fun _ s' => exists bs', accounts s' bs' (delete p held)).
Proof.
  intros Ha [n Hp]. destruct (accounts_block _ _ _ _ _ Ha Hp) as (l1 & k & l2 & -> & -> & _). destruct Ha as [Hh H2 H3].
  eapply wp_mono; [by apply mem_free_ok|]. intros _ s' [Hr Hh']. eexists. split; [exact Hh'|..]; rewrite Hr.
  - intros q m [Hne (j & Hj & Hin)%H2]%lookup_delete_Some. exists j. split; [done|].
    rewrite in_use_free in Hin. apply elem_of_cons in Hin as [[= E _]|Hin]; [lia|done].
  - intros q j Hq. rewrite lookup_delete_ne; [apply (H3 q j); rewrite in_use_free; by right|]. intros E.
    pose proof (in_use_nodup 0 _ (tl_ok _ _ (proj1 Hh))) as Hnd. rewrite in_use_free in Hnd. apply NoDup_cons in Hnd as [Hnd _].
    apply Hnd, list_elem_of_fmap. exists (q, j). split; [cbn; lia|done].
Qed.

Lemma elem_mid {X} (x y : X) l1 l2 : x ∈ l1 ++ y :: l2 <-> x = y \/ x ∈ l1 ++ l2.
Proof. by rewrite <- Permutation_middle, elem_of_cons. Qed.
Lemma accounts_trim s bs held p n k r s' : accounts s bs held -> held !! p = Some n -> 0 <= k <= n ->
  mem_trim p k s = Done (r, s') -> exists bs', accounts s' bs' (<[p := k]> held).
Proof.
  intros Ha Hp Hk Hrun. destruct (accounts_block _ _ _ _ _ Ha Hp) as (l1 & m & l2 & -> & -> & Hn & Hm).
  destruct Ha as [Hh H2 H3]. destruct (tiles_index _ _ _ _ (proj1 Hh)) as (_ & Hle & _). cbn [fst] in Hle.
  destruct (tiles_index _ _ _ _ (proj1 Hh)) as (Hu & _). unfold is_u16 in Hu.
  destruct (new_size_mono k n Hk) as [E1 E2]; [unfold SIZEOF_STRUCT_MEM, MEM_SIZE_ALIGNED in *; lia|].
  set (a := new_size_of k + SIZEOF_STRUCT_MEM).
  destruct (decide (a < m /\ l2 = [] /\ a + (SIZEOF_STRUCT_MEM + MIN_SIZE_ALIGNED) <= m)) as [(_ & -> & Hc)|Hc].
  { by rewrite (trim_last_run s l1 m k Hh E1 Hc) in Hrun. }
  pose proof (mem_trim_ok s l1 m l2 k Hh ltac:(lia) Hc) as Hw. unfold wp in Hw. cbv zeta in Hw. rewrite Hrun in Hw.
  destruct Hw as [Hr Hw]. rewrite (proj2 (Z.ltb_ge _ _)) in Hw by lia. destruct Hw as [-> Hh'].
  destruct (in_use_trim 0 l1 a m l2) as (j & Hj & Eu); [unfold a; lia|].
  subst a. eexists. split; [exact Hh'|..]; rewrite Hr, ?Eu; rewrite in_use_app in H2, H3; cbn [in_use app] in H2, H3.
  - intros q i [[<- <-]|[Hne (j' & Hj' & Hin)%H2]]%lookup_insert_Some.
    + exists j. split; [lia|]. rewrite elem_mid. left. f_equal. lia.
    + exists j'. split; [done|]. rewrite elem_mid in Hin |- *. destruct Hin as [[= E _]|Hin]; [lia|by right].
  - intros q j' Hq. destruct (Z.eq_dec (ram s + q) (ram s + extent l1 + SIZEOF_STRUCT_MEM)) as [->|Hne]; [rewrite lookup_insert_eq; by eexists|].
    rewrite lookup_insert_ne by done. apply (H3 q j'). rewrite elem_mid in Hq |- *. destruct Hq as [[= E _]|Hq]; [lia|by right].
Qed.

Lemma history_accounts s held : history s held -> exists bs, accounts s bs held.
Proof.
  induction 1 as [r s0 s Hr Hi|s held n p s' _ [bs IH] Hrun|s held p s' _ [bs IH] Hp Hrun|s held p n k r s' _ [bs IH] Hp Hk Hrun].
  - exists [(MEM_SIZE_ALIGNED, false)]. by eapply accounts_init.
  - pose proof (accounts_malloc s bs held n IH) as Hw. unfold wp in Hw. by rewrite Hrun in Hw.
  - pose proof (accounts_free s bs held p IH Hp) as Hw. unfold wp in Hw. by rewrite Hrun in Hw.
  - by eapply accounts_trim.
Qed.

Lemma accounts_apart s bs held p q n m : accounts s bs held -> held !! p = Some n -> held !! q = Some m -> p <> q ->
  p + n <= q \/ q + m <= p.
Proof.
  intros [Hh H2 _] (k & Hk & Hp)%H2 (j & Hj & Hq)%H2 Hne.
  destruct (in_use_apart 0 bs _ _ _ _ (tl_ok _ _ (proj1 Hh)) Hp Hq); lia.
Qed.
Lemma accounts_inside s bs held p n : accounts s bs held -> held !! p = Some n ->
  p mod MEM_ALIGNMENT = 0 /\ ram s + SIZEOF_STRUCT_MEM <= p /\ p + n <= ram s + MEM_SIZE_ALIGNED.
Proof.
  intros [Hh H2 _] (k & Hk & Hp)%H2. pose proof (in_use_bounds 0 bs _ _ (tl_ok _ _ (proj1 Hh)) Hp) as (? & _ & ? & Hm).
  rewrite (tiles_extent _ _ (proj1 Hh)) in *. destruct (tl_ram _ _ (proj1 Hh)) as [_ Hr].
  split; [|lia]. unfold MEM_ALIGNMENT in *. rewrite Z.sub_0_r in Hm. replace p with (p - ram s + ram s) by lia.
  by rewrite Z.add_mod, Hm, Hr by lia.
Qed.
Lemma accounts_none s bs : accounts s bs ∅ -> bs = [(MEM_SIZE_ALIGNED, false)].
Proof.
  intros [[Ht Hm] _ H3]. pose proof (tiles_extent _ _ Ht) as He.
  destruct (in_use 0 bs) as [|[q k] l] eqn:E.
  - destruct (merged_unused bs 0 Hm E) as [->|[n ->]]; [done|]. cbn [extent] in He. do 2 f_equal. lia.
  - destruct (H3 q k) as [x Hx]; [left|]. by rewrite lookup_empty in Hx.
Qed.

(** C32: Every call of mem.c that its callers may make returns and does to the list of blocks
    what the specification says: [mem_malloc] takes the first free block that is big enough
    and splits it, or returns NULL and changes nothing; [mem_free] gives a block
    back and joins it with its free neighbours; [mem_trim] cuts a block.  The
    headers in the heap, and the pointer to the lowest free block, keep
    representing the blocks. *)
Theorem mem_calls_refine s bs c : heap_is s bs -> legal (ram s) bs c ->
  wp (run c) s (fun r s' => ram s' = ram s /\ exists bs', heap_is s' bs' /\ served (ram s) c bs r bs').
Proof. apply run_served. Qed.

(** C33: After any sequence of calls from [mem_init] on, the memory the clients hold is
    aligned, inside the heap and pairwise disjoint, and each piece can be given back;
    [mem_malloc] returns for every size; and once everything is given back, in
    whatever order, the heap is one free block again. *)
Theorem mem_clients_safe s held : history s held ->
  (forall p n, held !! p = Some n -> p mod MEM_ALIGNMENT = 0 /\ ram s + SIZEOF_STRUCT_MEM <= p /\
     p + n <= ram s + MEM_SIZE_ALIGNED /\ exists s', mem_free p s = Done (tt, s')) /\
  (forall p q n m, held !! p = Some n -> held !! q = Some m -> p <> q -> p + n <= q \/ q + m <= p) /\
  (forall n, exists r s', mem_malloc n s = Done (r, s')) /\
  (held = ∅ -> heap_is s [(MEM_SIZE_ALIGNED, false)]).
Proof.
  intros [bs Ha]%history_accounts. split; [|split; [|split]].
  - intros p n Hp. destruct (accounts_inside _ _ _ _ _ Ha Hp) as (H1 & H2 & H3). split; [done|]. split; [done|]. split; [done|].
    destruct (proj1 (wp_done _ _ _) (accounts_free s bs held p Ha (ltac:(by eexists)))) as ([] & s' & Hrun & _). by exists s'.
  - intros p q n m. by apply (accounts_apart s bs held).
  - intros n. destruct (proj1 (wp_done _ _ _) (accounts_malloc s bs held n Ha)) as (r & s' & Hrun & _). by exists r, s'.
  - intros ->. rewrite (accounts_none s bs Ha) in Ha. apply Ha.
Qed.

(** C34: [mem_trim] of a block that reaches the end of the heap fails its assertion
    "invalid next ptr" whenever there is enough to give back for a block of its own. *)
Theorem mem_trim_last_block_asserts s l1 n k : heap_is s (l1 ++ [(n, true)]) -> k <= new_size_of k ->
  new_size_of k + SIZEOF_STRUCT_MEM + (SIZEOF_STRUCT_MEM + MIN_SIZE_ALIGNED) <= n ->
  mem_trim (ram s + extent l1 + SIZEOF_STRUCT_MEM) k s = Stop Asserted.
Proof. apply trim_last_run. Qed.

(** ** The properties on a heap at 1001 *)

Definition fresh_heap : mem_heap := exec (mem_init 1001 ERR_OK) (mkHeap 0 0 0 ∅).
Definition one_block : mem_heap := exec (mem_malloc 6120) fresh_heap.
Lemma fresh_run : mem_init 1001 ERR_OK (mkHeap 0 0 0 ∅) = Done (tt, fresh_heap).
Proof. by vm_compute. Qed.
Lemma fresh_is : heap_is fresh_heap [(MEM_SIZE_ALIGNED, false)].
Proof. apply (ac_heap _ _ ∅). by apply (accounts_init 1001 (mkHeap 0 0 0 ∅)). Qed.
Lemma one_run : mem_malloc 6120 fresh_heap = Done (1012, one_block).
Proof. by vm_compute. Qed.
Lemma one_is : heap_is one_block [(MEM_SIZE_ALIGNED, true)].
Proof.
  pose proof (mem_malloc_ok _ _ 6120 fresh_is) as Hw. unfold wp in Hw. rewrite one_run in Hw.
  replace (request 6120 ≫= _) with (Some (0, [(MEM_SIZE_ALIGNED, true)])) in Hw by (by vm_compute). destruct Hw as (_ & _ & Hw). exact Hw.
Qed.

Lemma mem_calls_refine_witness :
  wp (run (Malloc 100)) fresh_heap (fun r s' => ram s' = 1004 /\
    exists bs', heap_is s' bs' /\ served 1004 (Malloc 100) [(6144, false)] r bs').
Proof. apply (mem_calls_refine fresh_heap [(6144, false)] (Malloc 100)); [exact fresh_is|exact I]. Defined.

Lemma mem_clients_safe_witness : 1012 mod 4 = 0 /\ exists s', mem_free 1012 one_block = Done (tt, s').
Proof.
  destruct (mem_clients_safe one_block (<[1012 := 6120]> ∅)) as (H1 & _).
  - apply (history_malloc fresh_heap ∅ 6120 1012 one_block); [|exact one_run].
    apply (history_init 1001 (mkHeap 0 0 0 ∅)); [done|exact fresh_run].
  - destruct (H1 1012 6120 ltac:(by rewrite lookup_insert_eq)) as (E & _ & _ & Hf). split; [exact E|exact Hf].
Defined.

Lemma mem_trim_last_block_asserts_witness : mem_trim 1012 100 one_block = Stop Asserted.
Proof.
  apply (mem_trim_last_block_asserts one_block [] 6144 100); [exact one_is|by vm_compute|by vm_compute].
Defined.
