(* ===== verification/Packets.v ===== *)
(** Packets as objects with owners: the pbufs of a packet, the blocks of the
    allocators that carry them and the memory of their payloads.  The modules
    above pbuf.c keep and give up whole packets; their theorems rest on the
    lemmas of this file and on the interface [PbufHeap] to the allocators. *)
From S2P Require Import Prelude CMem Memp Pbuf.

Definition contiguous (b : pbuf) : bool := nz (Z.land (type_internal b) PBUF_TYPE_FLAG_STRUCT_DATA_CONTIGUOUS).

(** What the allocators promise: the blocks that are out, with their size and
    the allocator they came from ([alloc_src]), lie apart from each other in an
    arena, and so do the elements of the queue pool. *)
Class PbufHeap (A : Type) `{PbufAlloc A} := {
  arena_lo : Z;
  arena_hi : Z;
  heap_is : A -> gmap Z (Z * Z) -> gset Z -> Prop;
  block_in a B U x n k : heap_is a B U -> B !! x = Some (n, k) -> 0 < arena_lo <= x /\ x + n <= arena_hi;
  block_apart a B U x y n m k j : heap_is a B U -> B !! x = Some (n, k) -> B !! y = Some (m, j) -> x <> y ->
    x + n <= y \/ y + m <= x;
  heap_take n a B U : heap_is a B U -> 0 < n -> exists r a', mem_malloc n a = (r, a') /\
    (r = 0 /\ heap_is a' B U \/
     r mod MEM_ALIGNMENT = 0 /\ B !! r = None /\
     heap_is a' (<[r := (n, PBUF_TYPE_ALLOC_SRC_MASK_STD_HEAP)]> B) U);
  heap_give a B U r n : heap_is a B U -> B !! r = Some (n, PBUF_TYPE_ALLOC_SRC_MASK_STD_HEAP) ->
    heap_is (mem_free r a) (delete r B) U;
  pbuf_give a B U r n : heap_is a B U -> B !! r = Some (n, PBUF_TYPE_ALLOC_SRC_MASK_STD_MEMP_PBUF) ->
    heap_is (memp_free MEMP_PBUF r a) (delete r B) U;
  poolbuf_give a B U r n : heap_is a B U -> B !! r = Some (n, PBUF_TYPE_ALLOC_SRC_MASK_STD_MEMP_PBUF_POOL) ->
    heap_is (memp_free MEMP_PBUF_POOL r a) (delete r B) U;
  queue_take a B U : heap_is a B U -> exists r a', memp_malloc MEMP_ARP_QUEUE a = (r, a') /\
    (r = 0 /\ heap_is a' B U \/ r <> 0 /\ ~ (r ∈ U) /\ heap_is a' B ({[r]} ∪ U));
  queue_give a B U r : heap_is a B U -> r ∈ U -> heap_is (memp_free MEMP_ARP_QUEUE r a) B (U ∖ {[r]})
}.

Section Packets.
Context {A : Type} `{PbufHeap A}.
Abbreviation St := (pst A).

(** Where the header and the payload of a pbuf lie: inside one block, or the
    payload outside the memory of the allocators. *)
Definition placed (m : mem) (B : gmap Z (Z * Z)) (x : Z * pbuf) : Prop :=
  exists n, B !! x.1 = Some (n, alloc_src x.2) /\
    (if contiguous x.2 then x.1 + SIZEOF_STRUCT_PBUF <= payload x.2 /\ payload x.2 + len x.2 <= x.1 + n
     else mapped m (payload x.2) (len x.2) /\ (payload x.2 + len x.2 <= arena_lo \/ arena_hi <= payload x.2)).

(** One packet, not a queue of packets. *)
Definition one_packet (l : list (Z * pbuf)) : Prop :=
  Forall (fun x => len x.2 <> tot_len x.2 \/ next x.2 = 0) l.

Record packet_at (m : mem) (B : gmap Z (Z * Z)) (hs : gmap Z pbuf) (p : Z) (l : list (Z * pbuf)) : Prop := {
  pk_chain : chain hs p l;
  pk_head : l <> [];
  pk_lens : packet l;
  pk_one : one_packet l;
  pk_ok : Forall pbuf_ok l;
  pk_placed : Forall (placed m B) l
}.

Record owns (B : gmap Z (Z * Z)) (s : St) (P : gmap Z (list (Z * pbuf))) (U : gset Z) : Prop := {
  own_heap : heap_is (palloc s) B U;
  own_arena : mapped (pmem s) arena_lo (arena_hi - arena_lo);
  own_packets p l : P !! p = Some l -> packet_at (pmem s) B (pbufs s) p l;
  own_apart p p' l l' x : P !! p = Some l -> P !! p' = Some l' -> x ∈ l.*1 -> x ∈ l'.*1 -> p = p'
}.
(** The state holds the packets [P], by address, and the queue elements [U]. *)
Definition holds (s : St) (P : gmap Z (list (Z * pbuf))) (U : gset Z) : Prop := exists B, owns B s P U.

(** The contents of the packets other than [p] did not change. *)
Definition keeps (P : gmap Z (list (Z * pbuf))) (p : Z) (s s' : St) : Prop :=
  forall p' l, p' <> p -> P !! p' = Some l -> contents (pmem s') l = contents (pmem s) l.

(** ** What a held packet is *)

Lemma holds_packet s P U p l : holds s P U -> P !! p = Some l ->
  exists b l', l = (p, b) :: l' /\ p <> 0 /\ pbufs s !! p = Some b /\ chain (pbufs s) p l /\ packet l /\
    one_packet l /\ Forall pbuf_ok l.
Proof.
  intros [B Ho] Hp. destruct (own_packets _ _ _ _ Ho _ _ Hp) as [Hc Hn Hl H1 Hok _].
  destruct l as [|[a b] l]; [done|]. pose proof Hc as (-> & Ha & Hm & _). exists b, l. done.
Qed.

Lemma placed_mapped m B x a U : heap_is a B U -> mapped m arena_lo (arena_hi - arena_lo) -> placed m B x ->
  mapped m (payload x.2) (len x.2).
Proof.
  intros Hh Hm (n & Hb & Hc). destruct (contiguous x.2); [|apply Hc].
  destruct (block_in _ _ _ _ _ _ Hh Hb). unfold SIZEOF_STRUCT_PBUF in Hc.
  eapply mapped_sub; [exact Hm|lia|lia].
Qed.

Lemma mapped_contents m l : lens_ok l -> Forall (fun x => mapped m (payload x.2) (len x.2)) l -> is_Some (contents m l).
Proof.
  induction l as [|x l IH]; [by eexists|]. intros [Hx Hl]%Forall_cons [Mx Ml]%Forall_cons. cbn.
  unfold is_u16 in Hx. destruct (load_bytes_mapped m (payload x.2) (Z.to_nat (len x.2))) as [c ->];
    [by rewrite Z2Nat.id by lia|]. cbn. destruct (IH Hl Ml) as [c' ->]. by eexists.
Qed.

Lemma holds_contents s P U p l : holds s P U -> P !! p = Some l -> is_Some (contents (pmem s) l).
Proof.
  intros [B Ho] Hp. destruct (own_packets _ _ _ _ Ho _ _ Hp) as [_ _ Hl _ _ Hpl].
  apply mapped_contents; [by apply packet_lens|]. eapply Forall_impl; [exact Hpl|]. intros x Hx.
  eapply placed_mapped; [apply (own_heap _ _ _ _ Ho)|apply (own_arena _ _ _ _ Ho)|done].
Qed.

Lemma holds_forget s P U p : holds s P U -> holds s (delete p P) U.
Proof.
  intros [B [H1 H2 H3 H4]]. exists B. constructor; [done..| |].
  - intros q l [_ Hq]%lookup_delete_Some. by apply H3.
  - intros q q' l l' x [_ Hq]%lookup_delete_Some [_ Hq']%lookup_delete_Some. by eapply H4.
Qed.

(** ** Storing in the block of a packet *)

Lemma placed_apart B s P U p b l x q l' n : owns B s P U -> P !! p = Some ((p, b) :: l) -> contiguous b = true ->
  B !! p = Some (n, alloc_src b) ->
  P !! q = Some l' -> x ∈ l' -> x.1 <> p -> payload x.2 + len x.2 <= p + SIZEOF_STRUCT_PBUF \/ p + n <= payload x.2.
Proof.
  intros Ho Hp Hb HB Hq Hx Hne. pose proof (own_heap _ _ _ _ Ho) as Hh.
  pose proof (pk_placed _ _ _ _ _ (own_packets _ _ _ _ Ho _ _ Hq)) as Hpl. rewrite Forall_forall in Hpl.
  destruct (Hpl x Hx) as (n' & HB' & Hpos). unfold SIZEOF_STRUCT_PBUF in *.
  destruct (block_in _ _ _ _ _ _ Hh HB), (contiguous x.2).
  - destruct (block_apart _ _ _ _ _ _ _ _ _ Hh HB HB'); [done|lia|lia].
  - destruct Hpos as [_ [?|?]]; lia.
Qed.

Lemma placed_mono m m' B x : (forall a n, mapped m a n -> mapped m' a n) -> placed m B x -> placed m' B x.
Proof. intros Hm (n & Hb & Hc). exists n. split; [done|]. destruct (contiguous x.2); [done|]. destruct Hc. auto. Qed.

Lemma owns_mem m' B s P U : (forall a n, mapped (pmem s) a n -> mapped m' a n) -> owns B s P U ->
  owns B (set_pmem m' s) P U.
Proof.
  intros Hm [H1 H2 H3 H4]. constructor; [done|by apply Hm| |done]. intros p l Hp.
  destruct (H3 p l Hp) as [Q1 Q2 Q3 Q4 Q5 Q6]. constructor; try done.
  eapply Forall_impl; [exact Q6|]. intros x. by apply placed_mono.
Qed.

Lemma fst_in {B} (x : Z * B) l : x ∈ l -> x.1 ∈ l.*1.
Proof. intros Hx. apply list_elem_of_fmap. by exists x. Qed.

Lemma others_apart B s P U p b l q l' a k : owns B s P U -> P !! p = Some ((p, b) :: l) -> contiguous b = true ->
  p + SIZEOF_STRUCT_PBUF <= a -> a + k <= payload b + len b -> P !! q = Some l' -> q <> p -> apart a k l'.
Proof.
  intros Ho Hp Hb Ha Hk Hq Hne. apply Forall_forall. intros x Hx.
  pose proof (pk_placed _ _ _ _ _ (own_packets _ _ _ _ Ho _ _ Hp)) as [(n & HB & Hpos) _]%Forall_cons.
  cbn [fst snd] in *. rewrite Hb in Hpos.
  destruct (placed_apart B s P U p b l x q l' n Ho Hp Hb HB Hq Hx) as [?|?]; [|lia|lia].
  intros E. apply Hne. eapply (own_apart _ _ _ _ Ho q p l' _ x.1 Hq Hp); [by apply fst_in|rewrite E; left].
Qed.

(** The rest of the packet lies apart from the block of its first pbuf, too. *)
Lemma tail_apart B s P U p b l a k : owns B s P U -> P !! p = Some ((p, b) :: l) -> contiguous b = true ->
  p + SIZEOF_STRUCT_PBUF <= a -> a + k <= payload b + len b -> apart a k l.
Proof.
  intros Ho Hp Hb Ha Hk. apply Forall_forall. intros x Hx.
  pose proof (own_packets _ _ _ _ Ho _ _ Hp) as Hpk.
  pose proof (pk_placed _ _ _ _ _ Hpk) as [(n & HB & Hpos) _]%Forall_cons. cbn [fst snd] in *. rewrite Hb in Hpos.
  destruct (placed_apart B s P U p b l x p _ n Ho Hp Hb HB Hp) as [?|?]; [by right| |lia|lia].
  pose proof (chain_nodup _ _ _ (pk_chain _ _ _ _ _ Hpk)) as [Hn _]%NoDup_cons. cbn in Hn.
  intros E. apply Hn. rewrite <- E. by apply fst_in.
Qed.

Lemma store_held s P U p b l a bs : holds s P U -> P !! p = Some ((p, b) :: l) -> contiguous b = true ->
  p + SIZEOF_STRUCT_PBUF <= a -> a + Z.of_nat (length bs) <= payload b + len b ->
  exists m', store_bytes (pmem s) a bs = Some m' /\ holds (set_pmem m' s) P U /\ keeps P p s (set_pmem m' s) /\
    contents m' l = contents (pmem s) l.
Proof.
  intros [B Ho] Hp Hb Ha Hk. pose proof (own_packets _ _ _ _ Ho _ _ Hp) as Hpk.
  pose proof (pk_placed _ _ _ _ _ Hpk) as [(n & HB & Hpos) _]%Forall_cons. cbn [fst snd] in *. rewrite Hb in Hpos.
  destruct (block_in _ _ _ _ _ _ (own_heap _ _ _ _ Ho) HB) as [Hlo Hhi]. unfold SIZEOF_STRUCT_PBUF in *.
  destruct (store_bytes_mapped (pmem s) a bs) as (m' & Hm' & _);
    [eapply mapped_sub; [apply (own_arena _ _ _ _ Ho)|lia|lia]|].
  exists m'. split; [done|]. split; [|split].
  - exists B. apply owns_mem; [|done]. intros c k. by apply (mapped_store _ _ _ _ _ _ Hm').
  - intros q l' Hne Hq. eapply contents_store; [exact Hm'| |by eapply others_apart].
    apply packet_lens, (pk_lens _ _ _ _ _ (own_packets _ _ _ _ Ho _ _ Hq)).
  - eapply contents_store; [exact Hm'| |by eapply tail_apart].
    by apply pk_lens, packet_lens, Forall_cons in Hpk as [_ ?].
Qed.

(** ** Changing the header of the first pbuf *)

Lemma chain_tail_insert m p b b' l : chain m p ((p, b) :: l) -> next b' = next b -> chain (<[p := b']> m) p ((p, b') :: l).
Proof.
  intros Hc Hn. pose proof (chain_nodup _ _ _ Hc) as [Hd _]%NoDup_cons. cbn in Hd.
  destruct Hc as (_ & Hp & _ & Hl). split; [done|]. split; [done|]. rewrite lookup_insert_eq, Hn. split; [done|].
  by apply chain_insert.
Qed.

Lemma packet_at_frame m B hs hs' p l : (forall a, a ∈ l.*1 -> hs' !! a = hs !! a) -> packet_at m B hs p l -> packet_at m B hs' p l.
Proof. intros Hf [Q1 Q2 Q3 Q4 Q5 Q6]. constructor; try done. by eapply pbufs_frame. Qed.

Definition same_place (b b' : pbuf) (p : Z) : Prop :=
  alloc_src b' = alloc_src b /\ contiguous b' = contiguous b /\ next b' = next b /\
  (if contiguous b then p + SIZEOF_STRUCT_PBUF <= payload b' else payload b <= payload b') /\
  payload b' + len b' <= payload b + len b.

Lemma head_held s P U p b b' l : holds s P U -> P !! p = Some ((p, b) :: l) -> same_place b b' p ->
  packet ((p, b') :: l) -> one_packet ((p, b') :: l) -> pbuf_ok (p, b') ->
  holds (set_pbufs (<[p := b']> (pbufs s)) s) (<[p := (p, b') :: l]> P) U.
Proof.
  intros [B Ho] Hp (Hsrc & Hct & Hnx & Hpl & Hend) Hpk H1 Hok. exists B. constructor.
  - apply (own_heap _ _ _ _ Ho).
  - apply (own_arena _ _ _ _ Ho).
  - intros q l' [[<- <-]|[Hne Hq]]%lookup_insert_Some.
    + destruct (own_packets _ _ _ _ Ho _ _ Hp) as [Q1 Q2 Q3 Q4 Q5 Q6]. constructor; try done.
      * by apply (chain_tail_insert _ _ b).
      * apply Forall_cons in Q5 as [_ Q5]. by constructor.
      * apply Forall_cons in Q6 as [(n & HB & Hpos) Q6]. constructor; [|done]. exists n. cbn [fst snd] in *.
        rewrite Hsrc, Hct. split; [done|]. destruct (contiguous b); [lia|]. destruct Hpos as [Hm Hout].
        split; [eapply mapped_sub; [exact Hm|lia|lia]|lia].
    + eapply packet_at_frame; [|by apply (own_packets _ _ _ _ Ho)]. intros a Ha. cbn [set_pbufs pbufs].
      rewrite lookup_insert_ne; [done|]. intros <-. apply Hne.
      by eapply (own_apart _ _ _ _ Ho p q _ _ p Hp Hq); [left|].
  - assert (Hget : forall q l0, <[p := (p, b') :: l]> P !! q = Some l0 -> exists l1, P !! q = Some l1 /\ l1.*1 = l0.*1).
    { intros q l0 [[<- <-]|[_ Hq]]%lookup_insert_Some; [by exists ((p, b) :: l)|by exists l0]. }
    intros q q' l0 l0' x Hq Hq' Hx Hx'. destruct (Hget _ _ Hq) as (l1 & Hl1 & E1), (Hget _ _ Hq') as (l2 & Hl2 & E2).
    eapply (own_apart _ _ _ _ Ho); [exact Hl1|exact Hl2|rewrite E1; exact Hx|by rewrite E2].
Qed.

Lemma one_packet_ref p b l r : one_packet ((p, b) :: l) -> one_packet ((p, set_ref r b) :: l).
Proof. intros [Hx Hl]%Forall_cons. by constructor. Qed.

Lemma ref_held s P U p b l : holds s P U -> P !! p = Some ((p, b) :: l) -> ref b < 255 ->
  exists s', pbuf_ref p s = Done (tt, s') /\ pmem s' = pmem s /\
    holds s' (<[p := (p, set_ref (ref b + 1) b) :: l]> P) U.
Proof.
  intros Hh Hp Hr. destruct (holds_packet _ _ _ _ _ Hh Hp) as (b0 & l0 & [= <- <-] & Hp0 & Hb & Hc & Hpk & H1 & Hok).
  apply Forall_cons in Hok as [[Hr1 Hsrc] _]. cbn [snd] in *.
  exists (set_pbufs (<[p := set_ref (ref b + 1) b]> (pbufs s)) s). split; [|split; [done|]].
  - unfold pbuf_ref. destruct (Z.eqb_spec p 0) as [|_]; [done|]. erewrite bind_done by (by apply wr_run).
    cbv beta. rewrite u8_small by (unfold is_u8; lia).
    erewrite bind_done by (apply rd_run; cbn; apply lookup_insert_eq). unfold assert_. cbn [ref set_ref].
    destruct (Z.ltb_spec 0 (ref b + 1)) as [|Hn]; [done|]. exfalso. clear - Hr Hr1 Hn. lia.
  - eapply head_held; [done|done| |exact Hpk|by apply one_packet_ref|].
    + do 3 (split; [done|]). destruct Hh as [B Ho].
      pose proof (pk_placed _ _ _ _ _ (own_packets _ _ _ _ Ho _ _ Hp)) as [(n & HB & Hpos) _]%Forall_cons.
      cbn [fst snd payload len set_ref] in *. destruct (contiguous b); lia.
    + split; [cbn; lia|done].
Qed.

Lemma give_back_is a B U x n : heap_is a B U -> B !! x.1 = Some (n, alloc_src x.2) -> 0 <= alloc_src x.2 <= 2 ->
  heap_is (give_back x a) (delete x.1 B) U.
Proof.
  intros Hh HB Hs. unfold give_back.
  destruct (Z.eqb_spec (alloc_src x.2) PBUF_TYPE_ALLOC_SRC_MASK_STD_MEMP_PBUF_POOL) as [E|N].
  { rewrite E in HB. by eapply poolbuf_give. }
  destruct (Z.eqb_spec (alloc_src x.2) PBUF_TYPE_ALLOC_SRC_MASK_STD_MEMP_PBUF) as [E|N'].
  { rewrite E in HB. by eapply pbuf_give. }
  assert (alloc_src x.2 = PBUF_TYPE_ALLOC_SRC_MASK_STD_HEAP) as E.
  { unfold PBUF_TYPE_ALLOC_SRC_MASK_STD_MEMP_PBUF_POOL, PBUF_TYPE_ALLOC_SRC_MASK_STD_MEMP_PBUF,
      PBUF_TYPE_ALLOC_SRC_MASK_STD_HEAP in *. lia. }
  rewrite E in HB. by eapply heap_give.
Qed.

Lemma give_back_list a B U m l : heap_is a B U -> NoDup l.*1 -> Forall pbuf_ok l -> Forall (placed m B) l ->
  exists B', heap_is (foldl (fun a x => give_back x a) a l) B' U /\ forall y, ~ (y ∈ l.*1) -> B' !! y = B !! y.
Proof.
  revert a B. induction l as [|x l IH]; intros a B Hh Hn Hok Hpl; [by exists B|]. cbn [foldl].
  apply NoDup_cons in Hn as [Hx Hn]. apply Forall_cons in Hok as [[_ Hs] Hok].
  apply Forall_cons in Hpl as [(n & HB & _) Hpl].
  destruct (IH _ _ (give_back_is _ _ _ _ _ Hh HB Hs) Hn Hok) as (B' & HB' & Hf).
  - rewrite Forall_forall in Hpl |- *. intros y Hy. destruct (Hpl y Hy) as (k & Hk & Hpos). exists k.
    split; [|done]. rewrite lookup_delete_ne; [done|]. intros E. apply Hx. rewrite E. by apply fst_in.
  - exists B'. split; [done|]. intros y Hy. rewrite Hf by (intros Hin; apply Hy; by right).
    apply lookup_delete_ne. intros E. apply Hy. rewrite <- E. left.
Qed.

(** ** [pbuf_free] *)

(** The packets left when one reference to [p] is given up. *)
Definition dropped (p : Z) (b : pbuf) (l : list (Z * pbuf)) (P : gmap Z (list (Z * pbuf))) : gmap Z (list (Z * pbuf)) :=
  if ref b =? 1 then delete p P else <[p := (p, set_ref (ref b - 1) b) :: l]> P.

Lemma freed_frame k l hs y : ~ (y ∈ l.*1) -> drop_ref (drop k l) (without (take k l) hs) !! y = hs !! y.
Proof.
  intros Hy. assert (Hk : forall x, x ∈ take k l \/ x ∈ drop k l -> x.1 <> y).
  { intros x Hx E. apply Hy. rewrite <- E, <- (take_drop k l), fmap_app. apply elem_of_app.
    destruct Hx; [left|right]; by apply fst_in. }
  assert (Hd : drop_ref (drop k l) (without (take k l) hs) !! y = without (take k l) hs !! y).
  { destruct (drop k l) as [|[a b] r]; [done|]. cbn. apply lookup_insert_ne.
    apply (Hk (a, b)). right. left. }
  rewrite Hd, lookup_without. case_bool_decide as E; [|done]. apply list_elem_of_fmap in E as (x & -> & Hx).
  exfalso. by apply (Hk x); [left|].
Qed.

Lemma free_held s P U p b l : holds s P U -> P !! p = Some ((p, b) :: l) ->
  exists r s', pbuf_free p s = Done (r, s') /\ pmem s' = pmem s /\ holds s' (dropped p b l P) U.
Proof.
  intros [B Ho] Hp. pose proof (own_packets _ _ _ _ Ho _ _ Hp) as Hpk. set (L := (p, b) :: l) in *.
  pose proof (pk_chain _ _ _ _ _ Hpk) as Hc. pose proof (pk_ok _ _ _ _ _ Hpk) as Hok.
  assert (Hp0 : p <> 0) by apply Hc. unfold dropped. destruct (Z.eqb_spec (ref b) 1) as [E|N].
  - eexists _, _. split; [by apply (pbuf_free_run _ _ L)|]. split; [done|]. set (k := unshared L).
    destruct (give_back_list (palloc s) B U (pmem s) (take k L) (own_heap _ _ _ _ Ho)) as (B' & HB' & Hf).
    { rewrite fmap_take. pose proof (chain_nodup _ _ _ Hc) as Hn. rewrite <- (take_drop k L.*1) in Hn.
      by apply NoDup_app in Hn as (? & _). }
    { by apply Forall_take. } { by apply Forall_take, (pk_placed _ _ _ _ _ Hpk). }
    exists B'. constructor; cbn [palloc pmem pbufs]; [done|apply (own_arena _ _ _ _ Ho)| |].
    + intros q l' [Hne Hq]%lookup_delete_Some. pose proof (own_packets _ _ _ _ Ho _ _ Hq) as Hqk.
      assert (Hout : forall y, y ∈ l'.*1 -> ~ (y ∈ L.*1)).
      { intros y Hy Hy'. apply Hne. by eapply (own_apart _ _ _ _ Ho p q). }
      eapply (packet_at_frame _ _ (pbufs s)); [intros a Ha; by apply freed_frame, Hout|].
      destruct Hqk as [Q1 Q2 Q3 Q4 Q5 Q6]. constructor; try done. rewrite Forall_forall in Q6 |- *.
      intros x Hx. destruct (Q6 x Hx) as (n & Hn & Hpos). exists n. split; [|done]. rewrite Hf; [done|].
      rewrite fmap_take. intros Hin%elem_of_take. destruct Hin as (j & Hj & _). apply list_elem_of_lookup_2 in Hj.
      by apply (Hout x.1); [apply fst_in|].
    + intros q q' l1 l2 x [_ Hq]%lookup_delete_Some [_ Hq']%lookup_delete_Some. by eapply (own_apart _ _ _ _ Ho).
  - eexists _, _. split; [by apply (pbuf_free_run _ _ L)|]. split; [done|].
    assert (E0 : unshared L = 0%nat) by (cbn; by destruct (Z.eqb_spec (ref b) 1)). rewrite E0. cbn [take drop drop_ref without foldl L].
    apply Forall_cons in Hok as [[Hr Hsrc] _]. cbn [snd] in *.
    assert (Hh : holds s P U) by (by exists B). eapply head_held; [done|done| |apply Hpk|apply one_packet_ref, (pk_one _ _ _ _ _ Hpk)|].
    + repeat split; try done. pose proof (pk_placed _ _ _ _ _ Hpk) as [(n & HB & Hpos) _]%Forall_cons.
      cbn [fst snd payload len set_ref] in *. destruct (contiguous b); lia.
    + split; [cbn; lia|done].
Qed.

(** ** [pbuf_add_header] *)

Definition grown (k : Z) (b : pbuf) : pbuf := set_lens (tot_len b + k) (len b + k) (set_payload (payload b - k) b).
(** Is there room for [k] bytes in front of the packet? *)
Definition has_room (k : Z) (p : Z) (b : pbuf) : bool :=
  contiguous b && (p + SIZEOF_STRUCT_PBUF <=? payload b - k) && (tot_len b + k <? 65536).

Lemma add_header_run (s : St) p b k : pbufs s !! p = Some b -> p <> 0 -> 0 < k < 65536 -> is_u16 (tot_len b) -> 0 <= len b <= tot_len b ->
  exists r, r <> 0 /\ pbuf_add_header p k s =
    if has_room k p b then Done (0, set_pbufs (<[p := grown k b]> (pbufs s)) s) else Done (r, s).
Proof.
  intros Hb Hp Hk Ht Hl. exists 1. split; [done|]. unfold is_u16 in Ht. unfold pbuf_add_header, pbuf_add_header_impl, has_room.
  destruct (Z.eqb_spec p 0) as [|_]; [done|]. erewrite bind_done by reflexivity.
  destruct (Z.ltb_spec 65535 k) as [|_]; [lia|]. destruct (Z.eqb_spec k 0) as [|_]; [lia|].
  erewrite bind_done by (by apply rd_run). rewrite (u16_small k) by (unfold is_u16; lia). cbv zeta. fold (contiguous b).
  destruct (Z.ltb_spec (tot_len b + k) 65536) as [Hs|Hs].
  - rewrite (u16_small (k + tot_len b)) by (unfold is_u16; lia).
    destruct (Z.ltb_spec (k + tot_len b) k) as [|_]; [lia|]. rewrite andb_true_r.
    destruct (contiguous b); cbn [andb]; [|done].
    destruct (Z.ltb_spec (payload b - k) (p + SIZEOF_STRUCT_PBUF)), (Z.leb_spec (p + SIZEOF_STRUCT_PBUF) (payload b - k));
      try lia; [done|].
    erewrite bind_done by (by apply wr_run). cbv beta. rewrite !u16_small by (unfold is_u16; lia). done.
  - rewrite andb_false_r. replace (u16 (k + tot_len b)) with (k + tot_len b - 65536) by zlia.
    by destruct (Z.ltb_spec (k + tot_len b - 65536) k); [|lia].
Qed.

Lemma packet_head p b l : packet ((p, b) :: l) ->
  is_u16 (tot_len b) /\ is_u16 (len b) /\ tot_len b = len b + total l /\ 0 <= total l /\ packet l.
Proof.
  intros (H1 & H2 & H3 & H4). cbn [snd] in *. rewrite total_cons in H3. pose proof (total_pos l (packet_lens _ H4)). done.
Qed.

Lemma add_header_held s P U p b l k : holds s P U -> P !! p = Some ((p, b) :: l) -> 0 < k < 65536 ->
  exists r, r <> 0 /\
    if has_room k p b then
      let s' := set_pbufs (<[p := grown k b]> (pbufs s)) s in
      pbuf_add_header p k s = Done (0, s') /\ holds s' (<[p := (p, grown k b) :: l]> P) U
    else pbuf_add_header p k s = Done (r, s).
Proof.
  intros Hh Hp Hk. destruct (holds_packet _ _ _ _ _ Hh Hp) as (b0 & l0 & [= <- <-] & Hp0 & Hb & Hc & Hpk & H1 & Hok).
  destruct (packet_head _ _ _ Hpk) as (Ht & Hl & Htl & Hpos & Hpl). unfold is_u16 in *.
  destruct (add_header_run s p b k Hb Hp0 Hk) as (r & Hr & Hrun); [done|unfold is_u16 in *; lia|].
  exists r. split; [done|]. rewrite Hrun. destruct (has_room k p b) eqn:E; [|done]. split; [done|].
  unfold has_room in E. apply andb_true_iff in E as [[Hct Hro%Z.leb_le]%andb_true_iff Hsm%Z.ltb_lt].
  apply Forall_cons in Hok as [Hok1 _]. apply Forall_cons in H1 as [H11 H12]. cbn [snd] in *.
  eapply head_held; [done|done| | |constructor; [cbn in *; lia|done]|exact Hok1].
  - do 3 (split; [done|]). rewrite Hct. unfold grown; cbn [payload len set_lens set_payload]. lia.
  - split; [unfold is_u16; cbn; lia|]. split; [unfold is_u16; cbn; lia|]. split; [|done].
    rewrite total_cons. cbn. lia.
Qed.

(** ** A new packet in the heap *)

Definition fresh_ram (r n : Z) : pbuf := mkPbuf 0 (r + 32) n n (u8 PBUF_RAM) 0 1 NETIF_NO_INDEX.
(** With [o] bytes in front. *)
Definition fresh_at (o r n : Z) : pbuf := mkPbuf 0 (r + 16 + o) n n (u8 PBUF_RAM) 0 1 NETIF_NO_INDEX.
Lemma fresh_at_link r n : fresh_at 16 r n = fresh_ram r n.
Proof. unfold fresh_at, fresh_ram. f_equal. lia. Qed.

Lemma align_size_le n : 0 <= n -> n <= LWIP_MEM_ALIGN_SIZE n < n + 4.
Proof. intros Hn. rewrite align_size_eq. zlia. Qed.
Lemma align_at r layer : r mod MEM_ALIGNMENT = 0 -> 0 <= layer -> LWIP_MEM_ALIGN (r + SIZEOF_STRUCT_PBUF + layer) = r + 16 + LWIP_MEM_ALIGN_SIZE layer.
Proof.
  intros Hr Hl. change (LWIP_MEM_ALIGN ?x) with (LWIP_MEM_ALIGN_SIZE x). rewrite !align_size_eq.
  unfold MEM_ALIGNMENT, SIZEOF_STRUCT_PBUF in *. zlia.
Qed.

Lemma add_packet B s P U o r n k : owns B s P U -> B !! r = None -> r <> 0 -> is_u16 n -> 0 <= o -> n + 16 + o <= k ->
  forall a', heap_is a' (<[r := (k, PBUF_TYPE_ALLOC_SRC_MASK_STD_HEAP)]> B) U ->
  P !! r = None /\
  holds (set_pbufs (<[r := fresh_at o r n]> (pbufs s)) (set_palloc a' s)) (<[r := [(r, fresh_at o r n)]]> P) U.
Proof.
  intros Ho Hr Hr0 Hn Hoff Hk a' Ha'.
  assert (Hno : forall q l, P !! q = Some l -> ~ (r ∈ l.*1)).
  { intros q l Hq Hin. apply list_elem_of_fmap in Hin as (x & -> & Hx).
    pose proof (pk_placed _ _ _ _ _ (own_packets _ _ _ _ Ho _ _ Hq)) as Hpl. rewrite Forall_forall in Hpl.
    destruct (Hpl x Hx) as (m & Hm & _). congruence. }
  split.
  { destruct (P !! r) as [l|] eqn:E; [|done]. exfalso. apply (Hno r l E).
    destruct (own_packets _ _ _ _ Ho _ _ E) as [Hc Hn0 _ _ _ _]. destruct l as [|[a b] l]; [done|].
    destruct Hc as (-> & _). left. }
  exists (<[r := (k, PBUF_TYPE_ALLOC_SRC_MASK_STD_HEAP)]> B). constructor; [done|apply (own_arena _ _ _ _ Ho)| |].
  - intros q l [[<- <-]|[Hne Hq]]%lookup_insert_Some; cbn [pbufs set_pbufs set_palloc pmem].
    + constructor; [|done| | | |].
      * repeat split; [done|apply lookup_insert_eq].
      * cbn. rewrite Z.add_0_r. done.
      * constructor; [by right|constructor].
      * constructor; [|constructor]. split; cbn [snd]; [cbn; lia|]. change (alloc_src (fresh_at o r n)) with 0. lia.
      * constructor; [|constructor]. exists k. cbn [fst snd]. rewrite lookup_insert_eq. split; [done|].
        change (contiguous (fresh_at o r n)) with true. cbn. unfold SIZEOF_STRUCT_PBUF. lia.
    + pose proof (own_packets _ _ _ _ Ho _ _ Hq) as Hpk. eapply (packet_at_frame _ _ (pbufs s)).
      { intros a Ha. apply lookup_insert_ne. intros <-. by apply (Hno q l). }
      destruct Hpk as [Q1 Q2 Q3 Q4 Q5 Q6]. constructor; try done. rewrite Forall_forall in Q6 |- *.
      intros x Hx. destruct (Q6 x Hx) as (m & Hm & Hpos). exists m. split; [|done].
      rewrite lookup_insert_ne; [done|]. intros E. apply (Hno q l Hq). rewrite E. by apply fst_in.
  - intros q q' l l' x [[<- <-]|[Hne Hq]]%lookup_insert_Some [[<- <-]|[Hne' Hq']]%lookup_insert_Some Hx Hx'; try done.
    + apply list_elem_of_singleton in Hx as ->. by destruct (Hno _ _ Hq').
    + apply list_elem_of_singleton in Hx' as ->. by destruct (Hno _ _ Hq).
    + by eapply (own_apart _ _ _ _ Ho).
Qed.

Lemma alloc_at_held s P U layer n : holds s P U -> is_u16 n -> 0 <= layer <= 100 ->
  exists r s', pbuf_alloc layer n PBUF_RAM s = Done (r, s') /\ pmem s' = pmem s /\
    (r = 0 /\ holds s' P U \/
     r <> 0 /\ P !! r = None /\ holds s' (<[r := [(r, fresh_at (LWIP_MEM_ALIGN_SIZE layer) r n)]]> P) U).
Proof.
  intros [B Ho] Hn Hlayer. unfold is_u16 in Hn. pose proof (align_size_le n ltac:(lia)) as Hal. pose proof (align_size_le layer ltac:(lia)) as Hlo. unfold pbuf_alloc.
  rewrite (u16_small layer) by (unfold is_u16; lia). change ((PBUF_RAM =? PBUF_REF) || (PBUF_RAM =? PBUF_ROM)) with false.
  change (PBUF_RAM =? PBUF_POOL) with false. change (PBUF_RAM =? PBUF_RAM) with true.
  change (LWIP_MEM_ALIGN_SIZE SIZEOF_STRUCT_PBUF) with 16. cbv iota zeta.
  set (al := LWIP_MEM_ALIGN_SIZE n) in *. set (o := LWIP_MEM_ALIGN_SIZE layer) in *.
  assert (Hsz : (u16 (o + al) <? al) || (u16 (16 + u16 (o + al)) <? al) = negb (16 + o + al <? 65536)).
  { destruct (Z.ltb_spec (16 + o + al) 65536); cbn [negb];
      [rewrite !u16_small by (unfold is_u16; rewrite ?u16_small; unfold is_u16; lia); apply orb_false_iff; split; apply Z.ltb_ge; lia|].
    apply orb_true_iff. destruct (decide (o + al < 65536)).
    - right. rewrite (u16_small (o + al)) by (unfold is_u16; lia). apply Z.ltb_lt. zlia.
    - left. apply Z.ltb_lt. zlia. }
  rewrite Hsz. destruct (Z.ltb_spec (16 + o + al) 65536) as [Hs|Hs]; cbn [negb].
  2:{ exists 0, s. split; [done|]. split; [done|]. left. split; [done|]. by exists B. }
  rewrite (u16_small (o + al)), (u16_small (16 + (o + al))) by (unfold is_u16; lia).
  destruct (heap_take (16 + (o + al)) (palloc s) B U (own_heap _ _ _ _ Ho) ltac:(lia)) as (r & a' & Hrun & Hcase).
  assert (Hon : on_alloc (mem_malloc (16 + (o + al))) s = Done (r, set_palloc a' s)).
  { unfold on_alloc. mred. by rewrite Hrun. }
  erewrite bind_done by exact Hon. destruct Hcase as [[-> Hh]|(Hr & HB & Hh)].
  { exists 0, (set_palloc a' s). split; [done|]. split; [done|]. left. split; [done|]. exists B.
    destruct Ho as [? ? ? ?]. by constructor. }
  assert (Hr0 : 0 < r).
  { destruct (block_in _ _ _ _ _ _ Hh (lookup_insert_eq B r _)). lia. }
  destruct (add_packet B s P U o r n (16 + (o + al)) Ho HB ltac:(lia) Hn ltac:(lia) ltac:(lia) a' Hh) as [HP Hheld].
  destruct (Z.eqb_spec r 0) as [|_]; [lia|]. rewrite (align_at r layer Hr) by lia. fold o.
  eexists r, _. split; [|split; [|right; split; [lia|split; [exact HP|exact Hheld]]]]; [|done].
  unfold pbuf_init_alloced_pbuf. erewrite bind_done by reflexivity. unfold assert_.
  destruct (Z.eqb_spec ((r + 16 + o) mod MEM_ALIGNMENT) 0) as [|N]; [done|].
  exfalso. apply N. unfold o. rewrite align_size_eq. unfold MEM_ALIGNMENT in *. zlia.
Qed.

Lemma alloc_ram_held s P U n : holds s P U -> is_u16 n ->
  exists r s', pbuf_alloc PBUF_LINK n PBUF_RAM s = Done (r, s') /\ pmem s' = pmem s /\
    (r = 0 /\ holds s' P U \/
     r <> 0 /\ P !! r = None /\ holds s' (<[r := [(r, fresh_ram r n)]]> P) U).
Proof.
  intros Hh Hn. destruct (alloc_at_held s P U PBUF_LINK n Hh Hn) as (r & s' & Hrun & Hm & Hcase); [by unfold PBUF_LINK|].
  change (LWIP_MEM_ALIGN_SIZE PBUF_LINK) with 16 in Hcase. rewrite fresh_at_link in Hcase. by exists r, s'.
Qed.

(** ** Copying a packet into one pbuf *)

Lemma queue_check_one (s : St) p l : chain (pbufs s) p l -> one_packet l -> queue_check p s = Done (true, s).
Proof.
  intros Hc H1. unfold queue_check. destruct l as [|[a b] l]; [cbn in Hc; subst p; by rewrite Z.eqb_refl|].
  destruct Hc as (-> & Ha & Hb & _). apply Forall_cons in H1 as [H1 _]. cbn [snd] in H1.
  destruct (Z.eqb_spec a 0) as [|_]; [done|]. erewrite bind_done by (by apply rd_run).
  destruct (Z.eqb_spec (len b) (tot_len b)), (Z.eqb_spec (next b) 0); cbn; naive_solver.
Qed.

Definition one_target (s : St) (q : Z) (bt : pbuf) : Prop :=
  pbufs s !! q = Some bt /\ q <> 0 /\ next bt = 0 /\ tot_len bt = len bt /\ is_u16 (len bt) /\
  mapped (pmem s) (payload bt) (len bt).

Lemma copy_single_run fuel q bt p l off s c : one_target s q bt -> l <> [] -> chain (pbufs s) p l -> packet l ->
  one_packet l -> contents (pmem s) l = Some c -> 0 <= off -> off + total l = len bt ->
  apart (payload bt + off) (total l) l -> (length l < fuel)%nat ->
  exists m', store_bytes (pmem s) (payload bt + off) c = Some m' /\
    copy_pbuf_loop fuel q p (total l) off 0 s = Done (ERR_OK, set_pmem m' s).
Proof.
  revert p off s c fuel. induction l as [|[a b] l IH]; intros p off s c fuel Hq Hne Hc Hpk H1 Hcon Ho Htot Hap Hf; [done|].
  destruct fuel as [|fuel]; [cbn in Hf; lia|]. pose proof Hc as (-> & Ha & Hb & Hc').
  pose proof Hq as (Hbt & Hq0 & Hnx & Htl & Hlen & Hmap). destruct (packet_head _ _ _ Hpk) as (Ht & Hl & Htb & Hpos & Hpk').
  apply contents_cons in Hcon as (c1 & c2 & -> & Hc1 & Hc2 & Hlc). rewrite total_cons in *. cbn [snd] in *.
  apply Forall_cons in Hap as [Hab Hap]. cbn [snd] in Hab. unfold is_u16 in *. cbn [copy_pbuf_loop].
  erewrite bind_done by (by apply rd_run). erewrite bind_done by (by apply rd_run). cbv zeta.
  rewrite Z.sub_0_r, (u32_small (len b)), (u32_small (len bt - off)) by (unfold is_u32; lia).
  destruct (Z.leb_spec (len b) (len bt - off)) as [_|]; [|lia]. rewrite Z.min_r, (u16_small (len b)) by (unfold is_u16; lia).
  destruct (store_bytes_mapped (pmem s) (payload bt + off) c1) as (m1 & Hm1 & _); [eapply mapped_sub; [exact Hmap|lia|lia]|].
  erewrite bind_done by (eapply MEMCPY_run; [by rewrite Z.add_0_r|exact Hm1]).
  rewrite (u32_small (off + len b)), (u32_small (0 + len b)), Z.add_0_l by (unfold is_u32; lia).
  rewrite (u16_small (len b + total l - len b)) by (unfold is_u16; lia).
  replace (len b + total l - len b) with (total l) by lia.
  erewrite bind_done by (unfold assert_; by destruct (Z.leb_spec (off + len b) (len bt)); [|lia]).
  erewrite bind_done by (unfold assert_; by rewrite Z.leb_refl). rewrite Z.leb_refl. cbv iota.
  set (s1 := set_pmem m1 s). rewrite store_bytes_app, Hm1. cbn [mbind option_bind].
  apply Forall_cons in H1 as [H1b H1]. cbn [snd] in H1b.
  destruct l as [|[a2 b2] l].
  - cbn in Hc', Hc2. injection Hc2 as <-. rewrite Hc', Hnx. cbn [total foldr] in *. change (0 =? 0) with true. cbn [negb andb].
    destruct (Z.eqb_spec (off + len b) (len bt)) as [|]; [|lia]. exists m1. split; [done|].
    by rewrite andb_false_r.
  - set (L := (a2, b2) :: l) in *. pose proof Hc' as (En & Ha2 & _). 
    destruct (Z.eqb_spec (total L) 0) as [E0|N0]; [destruct H1b; lia|].
    destruct (Z.eqb_spec (next b) 0) as [|_]; [lia|]. cbn [andb].
    destruct (Z.eqb_spec (off + len b) (len bt)) as [|_]; [lia|].
    destruct (Z.eqb_spec q 0) as [|_]; [done|]. cbn [andb].
    assert (Hq1 : one_target s1 q bt) by (do 4 (split; [done|]); split; [exact Hlen|by eapply mapped_store]).
    erewrite bind_done by (by eapply queue_check_one). cbn [negb].
    erewrite bind_done.
    2:{ apply (queue_check_one s1 q [(q, bt)]); [|constructor; [by right|constructor]]. cbn. rewrite Hnx. done. }
    cbn [negb].
    destruct (IH (next b) (off + len b) s1 c2 fuel Hq1) as (m2 & Hm2 & Hrun); try done; try lia.
    + rewrite <- Hc2. apply (contents_store _ _ _ _ _ Hm1); [by apply packet_lens|].
      eapply apart_sub; [exact Hap|lia|lia].
    + eapply apart_sub; [exact Hap|lia|lia].
    + change (S (length L) < S fuel)%nat in Hf. lia.
    + exists m2. split; [|done]. rewrite Hlc, Z2Nat.id by lia. rewrite <- Hm2. unfold s1. cbn [pmem set_pmem]. f_equal. lia.
Qed.

Lemma pbuf_copy_run (s : St) q bt p l c : one_target s q bt -> chain (pbufs s) p l -> l <> [] -> packet l -> one_packet l ->
  contents (pmem s) l = Some c -> len bt = total l -> apart (payload bt) (total l) l ->
  exists m', store_bytes (pmem s) (payload bt) c = Some m' /\ pbuf_copy q p s = Done (ERR_OK, set_pmem m' s).
Proof.
  intros Hq Hc Hne Hpk H1 Hcon Hlen Hap.
  destruct (copy_single_run (S (base.size (pbufs s)) + S (base.size (pbufs s))) q bt p l 0 s c Hq Hne Hc Hpk H1 Hcon)
    as (m' & Hm' & Hrun); rewrite ?Z.add_0_r; try done; try lia.
  { pose proof (chain_size _ _ _ Hc). lia. }
  rewrite Z.add_0_r in Hm'. exists m'. split; [done|]. destruct Hq as (Hbt & Hq0 & _ & Htl & _ & _).
  destruct l as [|[a b] l]; [done|]. pose proof Hc as (-> & Ha & Hb & _). destruct Hpk as (_ & _ & Htot & _).
  set (L := (a, b) :: l) in *. cbn [snd] in Htot. unfold pbuf_copy, pbuf_copy_partial_pbuf, chain_fuel.
  assert (Hrd : rd a s = Done (b, s)) by (by apply rd_run). assert (Hrq : rd q s = Done (bt, s)) by (by apply rd_run).
  destruct (Z.eqb_spec a 0) as [|_]; [done|]. erewrite bind_done by exact Hrd.
  erewrite bind_done by exact Hrd. rewrite Z.ltb_irrefl. destruct (Z.eqb_spec q 0) as [|_]; [done|].
  erewrite bind_done by exact Hrq. destruct (Z.ltb_spec (tot_len bt) (0 + tot_len b)) as [|_]; [lia|].
  erewrite bind_done by reflexivity. rewrite Htot. exact Hrun.
Qed.

Lemma contents_single m a b c : load_bytes m (payload b) (Z.to_nat (len b)) = Some c -> contents m [(a, b)] = Some c.
Proof. cbn. intros ->. cbn. by rewrite app_nil_r. Qed.

Lemma ram_target s P U r n : holds s P U -> P !! r = Some [(r, fresh_ram r n)] -> one_target s r (fresh_ram r n).
Proof.
  intros Hh Hr. destruct (holds_packet _ _ _ _ _ Hh Hr) as (b & l & [= <- <-] & H1 & H2 & _ & Hpk & _).
  destruct (packet_head _ _ _ Hpk) as (_ & Hl & _). do 4 (split; [done|]). split; [done|].
  destruct Hh as [B Ho]. pose proof (pk_placed _ _ _ _ _ (own_packets _ _ _ _ Ho _ _ Hr)) as [Hpl _]%Forall_cons.
  eapply (placed_mapped _ _ (r, _)); [apply (own_heap _ _ _ _ Ho)|apply (own_arena _ _ _ _ Ho)|done].
Qed.

Lemma clone_held s P U p b l : holds s P U -> P !! p = Some ((p, b) :: l) ->
  exists r s', pbuf_clone PBUF_LINK PBUF_RAM p s = Done (r, s') /\ keeps P r s s' /\
    (r = 0 /\ holds s' P U \/
     r <> 0 /\ P !! r = None /\ holds s' (<[r := [(r, fresh_ram r (tot_len b))]]> P) U /\
     contents (pmem s') [(r, fresh_ram r (tot_len b))] = contents (pmem s) ((p, b) :: l)).
Proof.
  intros Hh Hp. destruct (holds_packet _ _ _ _ _ Hh Hp) as (b0 & l0 & [= <- <-] & Hp0 & Hb & _ & Hpk & _).
  destruct (packet_head _ _ _ Hpk) as (Ht & _ & Htb & _). destruct Hpk as (_ & _ & Htot & _). cbn [snd] in Htot.
  destruct (alloc_ram_held s P U (tot_len b) Hh Ht) as (r & s1 & Hal & Hm1 & [[-> Hh1]|(Hr & HPr & Hh1)]);
    unfold pbuf_clone; erewrite bind_done by (by apply rd_run); erewrite bind_done by exact Hal.
  { exists 0, s1. split; [done|]. split; [|left; done]. intros q l' _ _. by rewrite Hm1. }
  set (bt := fresh_ram r (tot_len b)) in *. set (P1 := <[r := [(r, bt)]]> P) in *.
  assert (Hpr : p <> r) by congruence.
  assert (Hp1 : P1 !! p = Some ((p, b) :: l)) by (unfold P1; by rewrite lookup_insert_ne by done).
  assert (Hr1 : P1 !! r = Some [(r, bt)]) by apply lookup_insert_eq.
  destruct (holds_packet _ _ _ _ _ Hh1 Hp1) as (b0 & l0 & [= <- <-] & _ & _ & Hc1 & Hpk1 & Hone & _).
  destruct (holds_contents _ _ _ _ _ Hh1 Hp1) as [c Hcon].
  pose proof (contents_total _ _ _ (packet_lens _ Hpk1) Hcon) as Hcl. set (L := (p, b) :: l) in *.
  assert (Hap : apart (payload bt) (total L) L).
  { destruct Hh1 as [B Ho]. eapply (others_apart B s1 P1 U r bt [] p); try done; unfold SIZEOF_STRUCT_PBUF; cbn [payload len bt fresh_ram]; lia. }
  destruct (pbuf_copy_run s1 r bt p L c (ram_target _ _ _ _ _ Hh1 Hr1) Hc1 ltac:(done) Hpk1 Hone Hcon) as (m' & Hst & Hcopy);
    [done|done|].
  destruct (store_held s1 P1 U r bt [] (payload bt) c Hh1 Hr1) as (m2 & Hst2 & Hh2 & Hk & _);
    [done|cbn; unfold SIZEOF_STRUCT_PBUF; lia|rewrite Hcl; cbn [payload len bt fresh_ram]; lia|].
  assert (m2 = m') as -> by congruence.
  exists r, (set_pmem m' s1). split; [|split; [|right; split; [done|split; [done|split; [done|]]]]].
  - destruct (Z.eqb_spec r 0) as [|_]; [done|]. erewrite bind_done by exact Hcopy. done.
  - intros q l' Hne Hq. rewrite (Hk q l' Hne); [by rewrite Hm1|]. unfold P1. by rewrite lookup_insert_ne.
  - rewrite <- Hm1, Hcon. apply contents_single. rewrite <- (store_load _ _ _ _ Hst). f_equal.
    cbn [len fresh_ram bt]. lia.
Qed.
End Packets.
