(* ===== verification/Ethernet.v ===== *)
(** LWIP/src/netif/ethernet.c, output: the Ethernet header in front of a packet
    and the call of the driver.  The network interfaces are a store by address;
    the driver behind [netif->linkoutput] is the interface [Link], which is given
    the length and the payloads of the chain it walks over.  VLAN tags are
    compiled out. *)
From S2P Require Import Prelude CMem Memp Pbuf Packets IpAddr.

Definition ETH_HWADDR_LEN : Z := 6.
Definition SIZEOF_ETH_HDR : Z := 14.
Definition ETHTYPE_IP : Z := 2048.
Definition ETHTYPE_ARP : Z := 2054.
Definition ethbroadcast : list Z := [255; 255; 255; 255; 255; 255].
Definition ethzero : list Z := [0; 0; 0; 0; 0; 0].

(** The fields of [struct netif] that link and address resolution use; the DHCP
    client of the interface, if any, with its state and the address offered. *)
Record netif := mkNetif {
  inet : ip4_netif;
  gw : Z;
  hwaddr : list Z;
  hwaddr_len : Z;
  num : Z;
  dhcp : option (Z * Z)
}.

Class Link (D : Type) := { linkoutput : Z -> list (list Z) -> M D Z }.

Record net (A D : Type) := mkNet {
  ps : pst A;
  dev : D;
  netifs : gmap Z netif
}.
Arguments mkNet {_ _}.
Arguments ps {_ _}.
Arguments dev {_ _}.
Arguments netifs {_ _}.

(** A 16-bit field as it lies in memory. *)
Definition le16 (v : Z) : list Z := [v mod 256; v / 256 mod 256].

Section Ethernet.
Context {A D : Type} `{PbufAlloc A} `{Link D}.
Abbreviation Net := (net A D).

Definition set_ps (t : pst A) (s : Net) : Net := mkNet t (dev s) (netifs s).
Definition set_dev (d : D) (s : Net) : Net := mkNet (ps s) d (netifs s).
Definition on_ps {X} (m : M (pst A) X) : M Net X := zoom ps set_ps m.
Definition netif_at (n : Z) : M Net netif := s ← get; of_option (netifs s !! n).

Definition STORE (a : Z) (bs : list Z) : M (pst A) unit :=
  s ← get; m ← of_option (store_bytes (pmem s) a bs); put (set_pmem m s).
Definition LOAD (a : Z) (n : nat) : M (pst A) (list Z) := s ← get; of_option (load_bytes (pmem s) a n).

(** What the driver reads of a chain. *)
Fixpoint payloads (fuel : nat) (p : Z) : M (pst A) (list (list Z)) :=
  match fuel with
  | O => stop_ NoFuel
  | S fuel =>
      if p =? 0 then mret []
      else
        b ← rd p;
        bs ← LOAD (payload b) (Z.to_nat (len b));
        r ← payloads fuel (next b);
        mret (bs :: r)
  end.
Definition link_output (p : Z) : M Net Z :=
  b ← on_ps (rd p);
  n ← on_ps chain_fuel;
  segs ← on_ps (payloads n p);
  zoom dev set_dev (linkoutput (tot_len b) segs).

Definition ethernet_output (n p : Z) (src dst : list Z) (eth_type : Z) : M Net Z :=
  let eth_type_be := lwip_htons eth_type in
  failed ← on_ps (pbuf_add_header p SIZEOF_ETH_HDR);
  if negb (failed =? 0) then mret ERR_BUF
  else
    b ← on_ps (rd p);
    on_ps (STORE (payload b + 12) (le16 eth_type_be));;
    on_ps (STORE (payload b) dst);;
    on_ps (STORE (payload b + 6) src);;
    ni ← netif_at n;
    assert_ (hwaddr_len ni =? ETH_HWADDR_LEN);;
    link_output p.

(** ** Sending a held packet *)

Context `{!PbufHeap A}.

(** What the driver promises: it ends, whatever the frame. *)
Class LinkOk : Type := {
  link_ok : D -> Prop;
  link_total segs d : link_ok d -> Z.of_nat (length (concat segs)) < 65536 ->
    exists err d', linkoutput (Z.of_nat (length (concat segs))) segs d = Done (err, d') /\ link_ok d'
}.
Context `{!LinkOk}.

Lemma payloads_run fuel p s l c : chain (pbufs s) p l -> contents (pmem s) l = Some c -> (length l < fuel)%nat ->
  exists segs, payloads fuel p s = Done (segs, s) /\ concat segs = c.
Proof.
  revert fuel p c. induction l as [|[a b] l IH]; intros fuel p c Hc Hcon Hf;
    (destruct fuel as [|fuel]; [cbn in Hf; lia|]); cbn [payloads].
  - cbn in Hc. subst p. injection Hcon as <-. by exists [].
  - pose proof Hc as (-> & Ha & Hb & Hc'). apply contents_cons in Hcon as (c1 & c2 & -> & Hc1 & Hc2 & _). cbn [snd] in Hc1.
    destruct (IH fuel (next b) c2 Hc' Hc2) as (segs & Hrun & <-); [cbn in Hf; lia|].
    exists (c1 :: segs). split; [|done]. destruct (Z.eqb_spec a 0) as [|_]; [done|].
    erewrite bind_done by (by apply rd_run).
    erewrite (bind_done _ _ _ c1 s) by (unfold LOAD; mred; by rewrite Hc1).
    by erewrite bind_done by exact Hrun.
Qed.

Lemma link_output_run s p l b l' c : chain (pbufs (ps s)) p l -> l = (p, b) :: l' -> packet l ->
  contents (pmem (ps s)) l = Some c -> link_ok (dev s) ->
  exists err d' segs, link_output p s = Done (err, set_dev d' s) /\ link_ok d' /\ concat segs = c /\
    linkoutput (tot_len b) segs (dev s) = Done (err, d').
Proof.
  intros Hc -> Hpk Hcon Hd. set (l := (p, b) :: l') in *.
  destruct (payloads_run (S (base.size (pbufs (ps s)))) p (ps s) l c Hc Hcon) as (segs & Hrun & Hcat).
  { pose proof (chain_size _ _ _ Hc). lia. }
  pose proof (contents_total _ _ _ (packet_lens _ Hpk) Hcon) as Hlen.
  pose proof Hpk as (Ht & _ & Htot & _). cbn [snd] in Ht, Htot. fold l in Htot.
  destruct (link_total segs (dev s) Hd) as (err & d' & Hlink & Hd'); [rewrite Hcat; unfold is_u16 in Ht; lia|].
  rewrite Hcat, Hlen, <- Htot in Hlink. exists err, d', segs. split; [|done].
  unfold link_output, on_ps. pose proof Hc as (_ & _ & Hb & _).
  erewrite (bind_done _ _ _ b s) by (unfold zoom; rewrite (rd_run _ _ _ Hb); by destruct s).
  unfold chain_fuel. erewrite (bind_done _ _ _ _ s) by (unfold zoom, gets; by destruct s).
  erewrite (bind_done _ _ _ segs s) by (unfold zoom; rewrite Hrun; by destruct s).
  unfold zoom. by rewrite Hlink.
Qed.

Lemma header_bytes m a ty dst src m1 m2 m3 : length ty = 2%nat -> length dst = 6%nat -> length src = 6%nat ->
  store_bytes m (a + 12) ty = Some m1 -> store_bytes m1 a dst = Some m2 -> store_bytes m2 (a + 6) src = Some m3 ->
  load_bytes m3 a 14 = Some (dst ++ src ++ ty) /\
  forall b n, a + 14 <= b -> load_bytes m3 b n = load_bytes m b n.
Proof.
  intros Ht Hd Hs W1 W2 W3. split.
  - change 14%nat with (6 + (6 + 2))%nat. rewrite !load_bytes_app. change (Z.of_nat 6) with 6.
    rewrite (load_store_apart _ _ _ _ a 6 W3), <- Hd, (store_load _ _ _ _ W2) by lia. cbn [mbind option_bind].
    rewrite Hd. rewrite <- Hs at 1. rewrite (store_load _ _ _ _ W3). cbn [mbind option_bind].
    rewrite (load_store_apart _ _ _ _ _ 2 W3), (load_store_apart _ _ _ _ _ 2 W2) by lia.
    replace (a + 6 + 6) with (a + 12) by lia. rewrite <- Ht, (store_load _ _ _ _ W1). done.
  - intros b n Hb. rewrite (load_store_apart _ _ _ _ b n W3), (load_store_apart _ _ _ _ b n W2),
      (load_store_apart _ _ _ _ b n W1) by lia. done.
Qed.

Lemma on_ps_run {X} (m : M (pst A) X) s x t : m (ps s) = Done (x, t) -> on_ps m s = Done (x, set_ps t s).
Proof. intros Hm. unfold on_ps, zoom. by rewrite Hm. Qed.

Lemma STORE_run (t : pst A) a bs m' : store_bytes (pmem t) a bs = Some m' -> STORE a bs t = Done (tt, set_pmem m' t).
Proof. intros Hm. unfold STORE. mred. by rewrite Hm. Qed.

(** The frame that goes out for a packet with contents [c]. *)
Definition frame_of (dst src : list Z) (eth_type : Z) (c : list Z) : list Z :=
  dst ++ src ++ le16 (lwip_htons eth_type) ++ c.

Lemma keeps_trans P p (s1 s2 s3 : pst A) : keeps P p s1 s2 -> keeps P p s2 s3 -> keeps P p s1 s3.
Proof. intros W1 W2 q l Hne Hq. rewrite (W2 q l Hne Hq). exact (W1 q l Hne Hq). Qed.

(** The three stores of the header. *)
Lemma header_held t P U p b l ty dst src : holds t P U -> P !! p = Some ((p, b) :: l) -> contiguous b = true ->
  p + SIZEOF_STRUCT_PBUF <= payload b -> 14 <= len b -> length ty = 2%nat -> length dst = 6%nat -> length src = 6%nat ->
  exists m1 m2 m3, store_bytes (pmem t) (payload b + 12) ty = Some m1 /\ store_bytes m1 (payload b) dst = Some m2 /\
    store_bytes m2 (payload b + 6) src = Some m3 /\ holds (set_pmem m3 t) P U /\ keeps P p t (set_pmem m3 t) /\
    contents m3 l = contents (pmem t) l.
Proof.
  intros Hh Hp Hc Ha Hl Ht Hd Hs.
  destruct (store_held t P U p b l (payload b + 12) ty Hh Hp Hc) as (m1 & W1 & Hh1 & Hk1 & Hc1); [lia|lia|].
  destruct (store_held _ P U p b l (payload b) dst Hh1 Hp Hc) as (m2 & W2 & Hh2 & Hk2 & Hc2); [lia|lia|].
  destruct (store_held _ P U p b l (payload b + 6) src Hh2 Hp Hc) as (m3 & W3 & Hh3 & Hk3 & Hc3); [lia|lia|].
  cbn [pmem set_pmem] in *. exists m1, m2, m3. do 4 (split; [done|]). split; [|congruence].
  eapply keeps_trans; [exact Hk1|]. eapply keeps_trans; [exact Hk2|exact Hk3].
Qed.

Lemma ethernet_output_held s P U n p src dst ty b l ni c : holds (ps s) P U -> P !! p = Some ((p, b) :: l) ->
  netifs s !! n = Some ni -> hwaddr_len ni = 6 -> length src = 6%nat -> length dst = 6%nat -> link_ok (dev s) ->
  contents (pmem (ps s)) ((p, b) :: l) = Some c ->
  if has_room SIZEOF_ETH_HDR p b then exists err s' segs, ethernet_output n p src dst ty s = Done (err, s') /\
    netifs s' = netifs s /\ link_ok (dev s') /\ keeps P p (ps s) (ps s') /\
    holds (ps s') (<[p := (p, grown SIZEOF_ETH_HDR b) :: l]> P) U /\
    concat segs = frame_of dst src ty c /\ linkoutput (tot_len b + SIZEOF_ETH_HDR) segs (dev s) = Done (err, dev s')
  else ethernet_output n p src dst ty s = Done (ERR_BUF, s).
Proof.
  intros Hh Hp Hn Hlen Hsrc Hdst Hd Hcon.
  destruct (add_header_held _ _ _ _ _ _ SIZEOF_ETH_HDR Hh Hp ltac:(done)) as (r & Hr & Hadd). unfold ethernet_output.
  destruct (has_room SIZEOF_ETH_HDR p b) eqn:E.
  2:{ erewrite bind_done by (by apply on_ps_run). destruct (Z.eqb_spec r 0) as [|_]; [done|]. by destruct s. }
  destruct Hadd as [Hadd Hh1]. set (b1 := grown SIZEOF_ETH_HDR b) in *. set (t1 := set_pbufs _ (ps s)) in *.
  set (P1 := <[p := (p, b1) :: l]> P) in *. assert (Hp1 : P1 !! p = Some ((p, b1) :: l)) by apply lookup_insert_eq.
  destruct (holds_packet _ _ _ _ _ Hh Hp) as (b0 & l0 & [= <- <-] & Hp0 & Hb & _ & Hpk & _).
  destruct (packet_head _ _ _ Hpk) as (Ht & Hl & _). unfold is_u16 in Ht, Hl.
  unfold has_room in E. apply andb_true_iff in E as [[Hct Hro%Z.leb_le]%andb_true_iff Hsm%Z.ltb_lt].
  destruct (header_held t1 P1 U p b1 l (le16 (lwip_htons ty)) dst src Hh1 Hp1) as
    (m1 & m2 & m3 & S1 & S2 & S3 & Hh3 & Hk3 & Hc3); [done|cbn; lia|cbn; unfold SIZEOF_ETH_HDR; lia|done..|].
  destruct (header_bytes _ _ _ _ _ _ _ _ (eq_refl : length (le16 _) = 2%nat) Hdst Hsrc S1 S2 S3) as [Hhdr Hrest].
  set (s3 := set_ps (set_pmem m3 t1) s).
  assert (Hcon3 : contents m3 ((p, b1) :: l) = Some (frame_of dst src ty c)).
  { apply contents_cons in Hcon as (c1 & c2 & -> & Hc1 & Hc2 & _). cbn [snd] in Hc1. cbn [contents snd].
    rewrite Hc3. change (pmem t1) with (pmem (ps s)). rewrite Hc2. cbn [b1 grown len payload set_lens set_payload].
    replace (Z.to_nat (len b + SIZEOF_ETH_HDR)) with (14 + Z.to_nat (len b))%nat by (unfold SIZEOF_ETH_HDR; lia).
    rewrite load_bytes_app. cbn [b1 grown payload set_lens set_payload] in Hhdr, Hrest. rewrite Hhdr. cbn [mbind option_bind].
    rewrite Hrest by lia. replace (payload b - SIZEOF_ETH_HDR + Z.of_nat 14) with (payload b) by (unfold SIZEOF_ETH_HDR; lia).
    change (pmem t1) with (pmem (ps s)). rewrite Hc1. cbn. unfold frame_of. by rewrite <- !app_assoc. }
  destruct (holds_packet _ _ _ _ _ Hh3 Hp1) as (b0 & l0 & [= <- <-] & _ & Hb3 & Hch3 & Hpk3 & _).
  destruct (link_output_run s3 p _ b1 l _ Hch3 eq_refl Hpk3 Hcon3 Hd) as (err & d' & segs & Hrun & Hd' & Hcat & Hlink).
  exists err, (set_dev d' s3), segs. split; [|split; [done|split; [done|split; [|split; [exact Hh3|split; [done|exact Hlink]]]]]].
  - erewrite bind_done by (by apply on_ps_run). cbn [negb Z.eqb].
    erewrite bind_done by (apply on_ps_run, rd_run, lookup_insert_eq).
    erewrite bind_done by (apply on_ps_run, STORE_run; exact S1).
    erewrite bind_done by (apply on_ps_run, STORE_run; exact S2).
    erewrite bind_done by (apply on_ps_run, STORE_run; exact S3).
    unfold netif_at. erewrite bind_done by (mred; cbn [netifs set_ps]; by rewrite Hn).
    erewrite bind_done by (unfold assert_; by rewrite Hlen). exact Hrun.
  - intros q l' Hne Hq. apply (Hk3 q l' Hne). unfold P1. by rewrite lookup_insert_ne.
Qed.
End Ethernet.
