(* ===== verification/Etharp.v ===== *)
(** LWIP/src/core/ipv4/etharp.c: address resolution.  The table of ten entries,
    the queue elements of the packets that wait for an answer (MEMP_ARP_QUEUE)
    and the index of the entry used last, on top of the packets and interfaces
    of Ethernet.v.  Static entries, address hints and AUTOIP are compiled out;
    LWIP_DEBUG is defined (as 0), so a freed entry is cleared completely.
    The loops over a queue have as many iterations as there are queue elements,
    plus one. *)
From S2P Require Import Prelude CMem Memp Pbuf IpAddr Packets Ethernet.

Definition ARP_TABLE_SIZE : Z := 10.
Definition ARP_QUEUE_LEN : Z := 3.
Definition ARP_MAXAGE : Z := 300.
Definition ARP_MAXPENDING : Z := 5.
Definition ARP_AGE_REREQUEST_USED_UNICAST : Z := ARP_MAXAGE - 30.
Definition ARP_AGE_REREQUEST_USED_BROADCAST : Z := ARP_MAXAGE - 15.
Definition ETHARP_FLAG_TRY_HARD : Z := 1.
Definition ETHARP_FLAG_FIND_ONLY : Z := 2.
Definition SIZEOF_ETHARP_HDR : Z := 28.
Definition LWIP_IANA_HWTYPE_ETHERNET : Z := 1.
Definition ARP_REQUEST : Z := 1.
Definition ARP_REPLY : Z := 2.
Definition DHCP_STATE_CHECKING : Z := 8.

Inductive etharp_state :=
  | ETHARP_STATE_EMPTY
  | ETHARP_STATE_PENDING
  | ETHARP_STATE_STABLE
  | ETHARP_STATE_STABLE_REREQUESTING_1
  | ETHARP_STATE_STABLE_REREQUESTING_2.
#[export] Instance etharp_state_eq_dec : EqDecision etharp_state.
Proof. solve_decision. Defined.
(** [state >= ETHARP_STATE_STABLE] *)
Definition stable (st : etharp_state) : bool :=
  match st with ETHARP_STATE_EMPTY | ETHARP_STATE_PENDING => false | _ => true end.

Record etharp_q_entry := mkQ { q_next : Z; q_p : Z }.

Record etharp_entry := mkEntry {
  q : Z;
  ipaddr : Z;
  enetif : Z;
  ethaddr : list Z;
  ctime : Z;
  state : etharp_state
}.
Definition set_q (v : Z) (e : etharp_entry) := mkEntry v (ipaddr e) (enetif e) (ethaddr e) (ctime e) (state e).
Definition set_ipaddr (v : Z) (e : etharp_entry) := mkEntry (q e) v (enetif e) (ethaddr e) (ctime e) (state e).
Definition set_enetif (v : Z) (e : etharp_entry) := mkEntry (q e) (ipaddr e) v (ethaddr e) (ctime e) (state e).
Definition set_ethaddr (v : list Z) (e : etharp_entry) := mkEntry (q e) (ipaddr e) (enetif e) v (ctime e) (state e).
Definition set_ctime (v : Z) (e : etharp_entry) := mkEntry (q e) (ipaddr e) (enetif e) (ethaddr e) v (state e).
Definition set_state (v : etharp_state) (e : etharp_entry) := mkEntry (q e) (ipaddr e) (enetif e) (ethaddr e) (ctime e) v.

Record arp (A D : Type) := mkArp {
  arp_table : list etharp_entry;
  etharp_cached_entry : Z;
  arp_queues : gmap Z etharp_q_entry;
  anet : net A D
}.
Arguments mkArp {_ _}.
Arguments arp_table {_ _}.
Arguments etharp_cached_entry {_ _}.
Arguments arp_queues {_ _}.
Arguments anet {_ _}.

Definition le32 (v : Z) : list Z := [v mod 256; v / 256 mod 256; v / 65536 mod 256; v / 16777216 mod 256].
Definition get16 (l : list Z) (k : nat) : Z := l !!! k + 256 * l !!! S k.
Definition get32 (l : list Z) (k : nat) : Z := get16 l k + 65536 * get16 l (S (S k)).
Definition get_bytes (l : list Z) (k n : nat) : list Z := take n (drop k l).

Definition ip4_addr_isany (a : Z) : bool := a =? IPADDR_ANY.
Definition ip4_addr_ismulticast (a : Z) : bool := Z.land a (lwip_htonl 4026531840) =? lwip_htonl 3758096384.
Definition ip4_addr_islinklocal (a : Z) : bool := Z.land a (lwip_htonl 4294901760) =? lwip_htonl 2851995648.

(** The candidates the search through the table remembers; the table size is "none". *)
Record candidates := mkCand {
  c_empty : Z;
  old_pending : Z; age_pending : Z;
  old_stable : Z; age_stable : Z;
  old_queue : Z; age_queue : Z
}.
Definition no_candidates : candidates := mkCand ARP_TABLE_SIZE ARP_TABLE_SIZE 0 ARP_TABLE_SIZE 0 ARP_TABLE_SIZE 0.

(** The sweep over the table: the index of the entry that matches, or the candidates. *)
Fixpoint search (i : Z) (es : list etharp_entry) (ip : option Z) (n : Z) (c : candidates) : Z + candidates :=
  match es with
  | [] => inr c
  | e :: es =>
      if (c_empty c =? ARP_TABLE_SIZE) && bool_decide (state e = ETHARP_STATE_EMPTY) then
        search (i + 1) es ip n
          (mkCand i (old_pending c) (age_pending c) (old_stable c) (age_stable c) (old_queue c) (age_queue c))
      else if bool_decide (state e <> ETHARP_STATE_EMPTY) then
        if match ip with Some a => (a =? ipaddr e) && ((n =? 0) || (n =? enetif e)) | None => false end then inl i
        else if bool_decide (state e = ETHARP_STATE_PENDING) then
          if negb (q e =? 0) then
            if age_queue c <=? ctime e then
              search (i + 1) es ip n
                (mkCand (c_empty c) (old_pending c) (age_pending c) (old_stable c) (age_stable c) i (ctime e))
            else search (i + 1) es ip n c
          else if age_pending c <=? ctime e then
            search (i + 1) es ip n
              (mkCand (c_empty c) i (ctime e) (old_stable c) (age_stable c) (old_queue c) (age_queue c))
          else search (i + 1) es ip n c
        else if age_stable c <=? ctime e then
          search (i + 1) es ip n
            (mkCand (c_empty c) (old_pending c) (age_pending c) i (ctime e) (old_queue c) (age_queue c))
        else search (i + 1) es ip n c
      else search (i + 1) es ip n c
  end.

(** The sweep of [etharp_output] for a stable entry. *)
Fixpoint find_stable (i : Z) (es : list etharp_entry) (n a : Z) : option Z :=
  match es with
  | [] => None
  | e :: es =>
      if stable (state e) && (enetif e =? n) && (a =? ipaddr e) then Some i else find_stable (i + 1) es n a
  end.

Section Etharp.
Context {A D : Type} `{PbufAlloc A} `{Link D}.
Abbreviation Arp := (arp A D).
(** [dhcp_decline] of dhcp.c *)
Context (dhcp_decline : Z -> M Arp unit).

Definition set_table (t : list etharp_entry) (s : Arp) : Arp := mkArp t (etharp_cached_entry s) (arp_queues s) (anet s).
Definition set_cached (i : Z) (s : Arp) : Arp := mkArp (arp_table s) i (arp_queues s) (anet s).
Definition set_queues (m : gmap Z etharp_q_entry) (s : Arp) : Arp := mkArp (arp_table s) (etharp_cached_entry s) m (anet s).
Definition set_anet (n : net A D) (s : Arp) : Arp := mkArp (arp_table s) (etharp_cached_entry s) (arp_queues s) n.
Definition on_net {X} (m : M (net A D) X) : M Arp X := zoom anet set_anet m.
Definition on_pbuf {X} (m : M (pst A) X) : M Arp X := on_net (on_ps m).
Definition entry_at (i : Z) : M Arp etharp_entry :=
  s ← get; assert_ (0 <=? i);; of_option (arp_table s !! Z.to_nat i).
Definition upd_entry (i : Z) (f : etharp_entry -> etharp_entry) : M Arp unit :=
  e ← entry_at i; modify (fun s => set_table (<[Z.to_nat i := f e]> (arp_table s)) s).
Definition queue_at (r : Z) : M Arp etharp_q_entry := s ← get; of_option (arp_queues s !! r).
Definition queue_fuel : M Arp nat := gets (fun s => S (base.size (arp_queues s))).
(** The element is given back to its pool. *)
Definition free_element (r : Z) : M Arp unit :=
  on_pbuf (release (memp_free MEMP_ARP_QUEUE r));; modify (fun s => set_queues (delete r (arp_queues s)) s).

(** ** Requests and replies *)

(** The assignments to the fields of a header at [a]. *)
Fixpoint write_fields (a : Z) (fields : list (Z * list Z)) : M (pst A) unit :=
  match fields with
  | [] => mret tt
  | (off, bs) :: fields => STORE (a + off) bs;; write_fields a fields
  end.

Definition etharp_raw (n : Z) (ethsrc_addr ethdst_addr hwsrc_addr : list Z) (ipsrc_addr : Z)
    (hwdst_addr : list Z) (ipdst_addr opcode : Z) : M Arp Z :=
  assert_ (negb (n =? 0));;
  p ← on_pbuf (pbuf_alloc PBUF_LINK SIZEOF_ETHARP_HDR PBUF_RAM);
  if p =? 0 then mret ERR_MEM
  else
    b ← on_pbuf (rd p);
    assert_ (SIZEOF_ETHARP_HDR <=? len b);;
    on_pbuf (write_fields (payload b) [(6, le16 (lwip_htons opcode))]);;
    ni ← on_net (netif_at n);
    assert_ (hwaddr_len ni =? ETH_HWADDR_LEN);;
    on_pbuf (write_fields (payload b)
      [(8, hwsrc_addr); (18, hwdst_addr); (14, le32 ipsrc_addr); (24, le32 ipdst_addr);
       (0, le16 (lwip_htons LWIP_IANA_HWTYPE_ETHERNET)); (2, le16 (lwip_htons ETHTYPE_IP)); (4, [6]); (5, [4])]);;
    on_net (ethernet_output n p ethsrc_addr ethdst_addr ETHTYPE_ARP);;
    on_pbuf (pbuf_free p);;
    mret ERR_OK.

Definition etharp_request_dst (n ip : Z) (hw_dst_addr : list Z) : M Arp Z :=
  ni ← on_net (netif_at n);
  etharp_raw n (hwaddr ni) hw_dst_addr (hwaddr ni) (ip_addr (inet ni)) ethzero ip ARP_REQUEST.
Definition etharp_request (n ip : Z) : M Arp Z := etharp_request_dst n ip ethbroadcast.

(** ** The table *)

Fixpoint free_q_loop (fuel : nat) (r : Z) : M Arp unit :=
  match fuel with
  | O => stop_ NoFuel
  | S fuel =>
      if r =? 0 then mret tt
      else
        e ← queue_at r;
        assert_ (negb (q_p e =? 0));;
        on_pbuf (pbuf_free (q_p e));;
        free_element r;;
        free_q_loop fuel (q_next e)
  end.
Definition free_etharp_q (r : Z) : M Arp unit :=
  assert_ (negb (r =? 0));;
  n ← queue_fuel;
  free_q_loop n r.

Definition etharp_free_entry (i : Z) : M Arp unit :=
  e ← entry_at i;
  (if negb (q e =? 0) then free_etharp_q (q e);; upd_entry i (set_q 0) else mret tt);;
  upd_entry i (set_state ETHARP_STATE_EMPTY);;
  upd_entry i (set_ctime 0);;
  upd_entry i (set_enetif 0);;
  upd_entry i (set_ipaddr 0);;
  upd_entry i (set_ethaddr ethzero).

Definition etharp_find_entry (ip : option Z) (flags n : Z) : M Arp Z :=
  s ← get;
  match search 0 (arp_table s) ip n no_candidates with
  | inl i => mret i
  | inr c =>
      if nz (Z.land flags ETHARP_FLAG_FIND_ONLY)
         || ((c_empty c =? ARP_TABLE_SIZE) && (Z.land flags ETHARP_FLAG_TRY_HARD =? 0)) then mret ERR_MEM
      else
        i ← (if c_empty c <? ARP_TABLE_SIZE then mret (c_empty c)
             else
               i ← (if old_stable c <? ARP_TABLE_SIZE then
                      e ← entry_at (old_stable c);
                      assert_ (q e =? 0);;
                      mret (old_stable c)
                    else if old_pending c <? ARP_TABLE_SIZE then mret (old_pending c)
                    else if old_queue c <? ARP_TABLE_SIZE then mret (old_queue c)
                    else mret ERR_MEM);
               (if i <? 0 then mret tt else assert_ (i <? ARP_TABLE_SIZE);; etharp_free_entry i);;
               mret i);
        if i <? 0 then mret i
        else
          assert_ (i <? ARP_TABLE_SIZE);;
          e ← entry_at i;
          assert_ (bool_decide (state e = ETHARP_STATE_EMPTY));;
          (match ip with Some a => upd_entry i (set_ipaddr a) | None => mret tt end);;
          upd_entry i (set_ctime 0);;
          upd_entry i (set_enetif n);;
          mret i
  end.

(** The packets queued on entry [i] are sent. *)
Fixpoint send_queue (fuel : nat) (i n : Z) (src dst : list Z) : M Arp unit :=
  match fuel with
  | O => stop_ NoFuel
  | S fuel =>
      e ← entry_at i;
      if q e =? 0 then mret tt
      else
        qe ← queue_at (q e);
        upd_entry i (set_q (q_next qe));;
        free_element (q e);;
        on_net (ethernet_output n (q_p qe) src dst ETHTYPE_IP);;
        on_pbuf (pbuf_free (q_p qe));;
        send_queue fuel i n src dst
  end.

Definition etharp_update_arp_entry (n ip : Z) (eth : list Z) (flags : Z) : M Arp Z :=
  ni ← on_net (netif_at n);
  assert_ (hwaddr_len ni =? ETH_HWADDR_LEN);;
  if ip4_addr_isany ip || ip4_addr_isbroadcast_u32 ip (inet ni) || ip4_addr_ismulticast ip then mret ERR_ARG
  else
    i ← etharp_find_entry (Some ip) flags n;
    if i <? 0 then mret i
    else
      upd_entry i (set_state ETHARP_STATE_STABLE);;
      upd_entry i (set_enetif n);;
      upd_entry i (set_ethaddr eth);;
      upd_entry i (set_ctime 0);;
      fuel ← queue_fuel;
      send_queue fuel i n (hwaddr ni) eth;;
      mret ERR_OK.

Definition tmr_entry (i : Z) : M Arp unit :=
  e ← entry_at i;
  if bool_decide (state e <> ETHARP_STATE_EMPTY) then
    upd_entry i (set_ctime (u16 (ctime e + 1)));;
    e ← entry_at i;
    if (ARP_MAXAGE <=? ctime e) || (bool_decide (state e = ETHARP_STATE_PENDING) && (ARP_MAXPENDING <=? ctime e))
    then etharp_free_entry i
    else match state e with
         | ETHARP_STATE_STABLE_REREQUESTING_1 => upd_entry i (set_state ETHARP_STATE_STABLE_REREQUESTING_2)
         | ETHARP_STATE_STABLE_REREQUESTING_2 => upd_entry i (set_state ETHARP_STATE_STABLE)
         | ETHARP_STATE_PENDING => etharp_request (enetif e) (ipaddr e);; mret tt
         | _ => mret tt
         end
  else mret tt.
Fixpoint tmr_loop (todo : nat) (i : Z) : M Arp unit :=
  match todo with
  | O => mret tt
  | S todo => tmr_entry i;; tmr_loop todo (i + 1)
  end.
Definition etharp_tmr : M Arp unit := tmr_loop 10 0.

Fixpoint cleanup_loop (todo : nat) (i n : Z) : M Arp unit :=
  match todo with
  | O => mret tt
  | S todo =>
      e ← entry_at i;
      (if bool_decide (state e <> ETHARP_STATE_EMPTY) && (enetif e =? n) then etharp_free_entry i else mret tt);;
      cleanup_loop todo (i + 1) n
  end.
Definition etharp_cleanup_netif (n : Z) : M Arp unit := cleanup_loop 10 0 n.

(** The index, and the entry the two pointers lead to. *)
Definition etharp_find_addr (n ip : Z) : M Arp (Z * option etharp_entry) :=
  i ← etharp_find_entry (Some ip) ETHARP_FLAG_FIND_ONLY n;
  if i <? 0 then mret (-1, None)
  else
    e ← entry_at i;
    mret (if stable (state e) then (i, Some e) else (-1, None)).
Definition etharp_get_entry (i : Z) : M Arp (Z * option etharp_entry) :=
  if i <? ARP_TABLE_SIZE then
    e ← entry_at i;
    mret (if stable (state e) then (1, Some e) else (0, None))
  else mret (0, None).

(** ** Output *)

Definition etharp_output_to_arp_index (n p i : Z) : M Arp Z :=
  e ← entry_at i;
  assert_ (stable (state e));;
  (if bool_decide (state e = ETHARP_STATE_STABLE) then
     if ARP_AGE_REREQUEST_USED_BROADCAST <=? ctime e then
       r ← etharp_request n (ipaddr e);
       if r =? ERR_OK then upd_entry i (set_state ETHARP_STATE_STABLE_REREQUESTING_1) else mret tt
     else if ARP_AGE_REREQUEST_USED_UNICAST <=? ctime e then
       r ← etharp_request_dst n (ipaddr e) (ethaddr e);
       if r =? ERR_OK then upd_entry i (set_state ETHARP_STATE_STABLE_REREQUESTING_1) else mret tt
     else mret tt
   else mret tt);;
  ni ← on_net (netif_at n);
  e ← entry_at i;
  on_net (ethernet_output n p (hwaddr ni) (ethaddr e) ETHTYPE_IP).

(** Does the chain hold a pbuf whose data may change? *)
Fixpoint needs_copy (fuel : nat) (p : Z) : M (pst A) bool :=
  match fuel with
  | O => stop_ NoFuel
  | S fuel =>
      if p =? 0 then mret false
      else
        b ← rd p;
        assert_ (negb (len b =? tot_len b) || (next b =? 0));;
        if nz (Z.land (type_internal b) PBUF_TYPE_FLAG_DATA_VOLATILE) then mret true else needs_copy fuel (next b)
  end.

(** The last element of a queue and the number of the elements. *)
Fixpoint last_element (fuel : nat) (r qlen : Z) : M Arp (Z * Z) :=
  match fuel with
  | O => stop_ NoFuel
  | S fuel =>
      e ← queue_at r;
      if negb (q_next e =? 0) then last_element fuel (q_next e) (u32 (qlen + 1)) else mret (r, qlen)
  end.

(** The new element goes to the end of the queue of entry [i]; the result is the
    number of elements before. *)
Definition append_entry (i new_entry p : Z) : M Arp Z :=
  modify (fun s => set_queues (<[new_entry := mkQ 0 p]> (arp_queues s)) s);;
  e ← entry_at i;
  if negb (q e =? 0) then
    fuel ← queue_fuel;
    '(r, qlen) ← last_element fuel (q e) 1;
    re ← queue_at r;
    modify (fun s => set_queues (<[r := mkQ new_entry (q_p re)]> (arp_queues s)) s);;
    mret qlen
  else upd_entry i (set_q new_entry);; mret 0.

Definition drop_oldest (i : Z) : M Arp unit :=
  e ← entry_at i;
  old ← queue_at (q e);
  upd_entry i (set_q (q_next old));;
  on_pbuf (pbuf_free (q_p old));;
  free_element (q e).

Definition enqueue (i p : Z) : M Arp Z :=
  new_entry ← on_pbuf (on_alloc (memp_malloc MEMP_ARP_QUEUE));
  if negb (new_entry =? 0) then
    qlen ← append_entry i new_entry p;
    (if ARP_QUEUE_LEN <=? qlen then drop_oldest i else mret tt);;
    mret ERR_OK
  else
    on_pbuf (pbuf_free p);;
    mret ERR_MEM.

(** A reference to the packet, or a copy of it. *)
Definition take_over (p : Z) : M Arp Z :=
  copy_needed ← on_pbuf (f ← chain_fuel; needs_copy f p);
  if (copy_needed : bool) then on_pbuf (pbuf_clone PBUF_LINK PBUF_RAM p) else on_pbuf (pbuf_ref p);; mret p.

(** The packet waits on entry [i]. *)
Definition keep_packet (i p : Z) : M Arp Z :=
  p ← take_over p;
  if negb (p =? 0) then enqueue i p else mret ERR_MEM.

Definition mark_pending (i n : Z) : M Arp bool :=
  e ← entry_at i;
  if bool_decide (state e = ETHARP_STATE_EMPTY) then
    upd_entry i (set_state ETHARP_STATE_PENDING);;
    upd_entry i (set_enetif n);;
    mret true
  else mret false.

Definition query_request (i n ip : Z) (is_new_entry : bool) : M Arp Z :=
  result ← etharp_request n ip;
  e ← entry_at i;
  (if (result =? ERR_OK) && bool_decide (state e = ETHARP_STATE_PENDING) && negb is_new_entry
   then upd_entry i (set_ctime 0) else mret tt);;
  mret result.

(** The query once the entry is there; [packet] is [None] for no packet. *)
Definition query_entry (i n ip : Z) (ni : netif) (packet : option Z) : M Arp Z :=
  is_new_entry ← mark_pending i n;
  result ← (if is_new_entry || match packet with None => true | Some _ => false end
            then query_request i n ip is_new_entry else mret ERR_MEM);
  match packet with
  | None => mret result
  | Some p =>
      e ← entry_at i;
      if stable (state e) then
        modify (set_cached i);;
        on_net (ethernet_output n p (hwaddr ni) (ethaddr e) ETHTYPE_IP)
      else if bool_decide (state e = ETHARP_STATE_PENDING) then keep_packet i p
      else mret result
  end.

Definition etharp_query (n ip : Z) (packet : option Z) : M Arp Z :=
  ni ← on_net (netif_at n);
  if ip4_addr_isbroadcast_u32 ip (inet ni) || ip4_addr_ismulticast ip || ip4_addr_isany ip then mret ERR_ARG
  else
    i ← etharp_find_entry (Some ip) ETHARP_FLAG_TRY_HARD n;
    if i <? 0 then mret i else query_entry i n ip ni packet.

Definition mcastaddr (a : Z) : list Z :=
  [1; 0; 94; Z.land (ip4_addr_get_byte a 1) 127; ip4_addr_get_byte a 2; ip4_addr_get_byte a 3].

Definition etharp_output (n p ip : Z) : M Arp Z :=
  ni ← on_net (netif_at n);
  let send dest := on_net (ethernet_output n p (hwaddr ni) dest ETHTYPE_IP) in
  if ip4_addr_isbroadcast_u32 ip (inet ni) then send ethbroadcast
  else if ip4_addr_ismulticast ip then send (mcastaddr ip)
  else
    let outside := negb (ip4_addr_netcmp ip (ip_addr (inet ni)) (netmask (inet ni))) && negb (ip4_addr_islinklocal ip) in
    if outside && ip4_addr_isany (gw ni) then mret ERR_RTE
    else
      let dst_addr := if outside then gw ni else ip in
      s ← get;
      e ← entry_at (etharp_cached_entry s);
      if stable (state e) && (enetif e =? n) && (dst_addr =? ipaddr e) then
        etharp_output_to_arp_index n p (etharp_cached_entry s)
      else match find_stable 0 (arp_table s) n dst_addr with
           | Some i => modify (set_cached i);; etharp_output_to_arp_index n p i
           | None => etharp_query n dst_addr (Some p)
           end.

(** ** Input *)

Definition dhcp_arp_reply (n addr : Z) : M Arp unit :=
  if n =? 0 then mret tt
  else
    ni ← on_net (netif_at n);
    match dhcp ni with
    | Some (state, offered_ip_addr) =>
        if (state =? DHCP_STATE_CHECKING) && (addr =? offered_ip_addr) then dhcp_decline n else mret tt
    | None => mret tt
    end.

Definition etharp_input (p n : Z) : M Arp unit :=
  if n =? 0 then mret tt
  else
    b ← on_pbuf (rd p);
    hdr ← on_pbuf (LOAD (payload b) 6);
    if negb (get16 hdr 0 =? lwip_htons LWIP_IANA_HWTYPE_ETHERNET) || negb (hdr !!! 4%nat =? ETH_HWADDR_LEN)
       || negb (hdr !!! 5%nat =? 4) || negb (get16 hdr 2 =? lwip_htons ETHTYPE_IP) then
      on_pbuf (pbuf_free p);; mret tt
    else
      hdr ← on_pbuf (LOAD (payload b) 28);
      let opcode := get16 hdr 6 in
      let shwaddr := get_bytes hdr 8 6 in
      let sipaddr := get32 hdr 14 in
      let dipaddr := get32 hdr 24 in
      ni ← on_net (netif_at n);
      let for_us := negb (ip4_addr_isany (ip_addr (inet ni))) && (dipaddr =? ip_addr (inet ni)) in
      etharp_update_arp_entry n sipaddr shwaddr (if for_us then ETHARP_FLAG_TRY_HARD else ETHARP_FLAG_FIND_ONLY);;
      (if opcode =? lwip_htons ARP_REQUEST then
         if for_us then
           etharp_raw n (hwaddr ni) shwaddr (hwaddr ni) (ip_addr (inet ni)) shwaddr sipaddr ARP_REPLY;; mret tt
         else mret tt
       else if opcode =? lwip_htons ARP_REPLY then dhcp_arp_reply n sipaddr
       else mret tt);;
      on_pbuf (pbuf_free p);;
      mret tt.
End Etharp.
