(* ===== verification/EtharpInv.v ===== *)
(** Address resolution keeps its table: the invariant of etharp.c, that every
    operation preserves it and none of its assertions fails, and what the
    operations send.  [Q] lists the packets that wait on each entry, with their
    queue elements; [P] the packets the state holds; [Own] the packets the
    callers hold a reference to. *)
From S2P Require Import Prelude CMem Memp Pbuf IpAddr Packets Ethernet Etharp.


Lemma ne_single (x y : Z) : x <> y <-> ~ (x ∈ [y]).
Proof. rewrite list_elem_of_singleton. done. Qed.

(** ** The queues, as lists of (element, packet) *)

Fixpoint qchain (m : gmap Z etharp_q_entry) (r : Z) (l : list (Z * Z)) : Prop :=
  match l with
  | [] => r = 0
  | (a, p) :: l => r = a /\ a <> 0 /\ p <> 0 /\ exists nxt, m !! a = Some (mkQ nxt p) /\ qchain m nxt l
  end.
Definition elems (Q : list (list (Z * Z))) : list Z := (concat Q).*1.
Definition pkts (Q : list (list (Z * Z))) : list Z := (concat Q).*2.

Lemma qchain_frame m m' r l : (forall a, a ∈ l.*1 -> m' !! a = m !! a) -> qchain m r l -> qchain m' r l.
Proof.
  revert r. induction l as [|[a p] l IH]; intros r Hf; [done|].
  intros (-> & Ha & Hp & nxt & Hm & Hl). split; [done|]. split; [done|]. split; [done|]. exists nxt.
  rewrite Hf by left. split; [done|]. apply IH; [|done]. intros x Hx. apply Hf. by right.
Qed.

Lemma concat_split (Q : list (list (Z * Z))) j l : Q !! j = Some l ->
  exists R, concat Q ≡ₚ l ++ R /\ forall l', concat (<[j := l']> Q) ≡ₚ l' ++ R.
Proof.
  intros Hj. exists (concat (take j Q ++ drop (S j) Q)).
  assert (Hins : forall l', concat (<[j := l']> Q) ≡ₚ l' ++ concat (take j Q ++ drop (S j) Q)).
  { intros l'. rewrite insert_take_drop by (by eapply lookup_lt_Some). rewrite !concat_app. cbn.
    by rewrite Permutation_app_swap_app. }
  split; [|done]. rewrite <- (Hins l). by rewrite list_insert_id.
Qed.

Lemma queue_in (Q : list (list (Z * Z))) j l x : Q !! j = Some l -> x ∈ l -> x ∈ concat Q.
Proof.
  intros Hj Hx. destruct (concat_split _ _ _ Hj) as (R & HR & _). rewrite HR. apply elem_of_app. by left.
Qed.

(** ** The search through the table *)

Definition matches (ip : option Z) (n : Z) (e : etharp_entry) : bool :=
  bool_decide (state e <> ETHARP_STATE_EMPTY) &&
  match ip with Some a => (a =? ipaddr e) && ((n =? 0) || (n =? enetif e)) | None => false end.
Definition is_empty (e : etharp_entry) : bool := bool_decide (state e = ETHARP_STATE_EMPTY).
Definition is_stable (e : etharp_entry) : bool := stable (state e).
Definition waits (e : etharp_entry) : bool := bool_decide (state e = ETHARP_STATE_PENDING) && (q e =? 0).
Definition waits_queued (e : etharp_entry) : bool := bool_decide (state e = ETHARP_STATE_PENDING) && negb (q e =? 0).

(** The candidate of a class is its oldest entry. *)
Definition oldest (t : list etharp_entry) (cl : etharp_entry -> bool) (old age : Z) : Prop :=
  (old = ARP_TABLE_SIZE /\ age = 0 /\ forall e, e ∈ t -> cl e = false) \/
  (exists k e, old = Z.of_nat k /\ t !! k = Some e /\ cl e = true /\ ctime e = age /\
     forall e', e' ∈ t -> cl e' = true -> ctime e' <= age).
Definition newer (cl : etharp_entry -> bool) (e : etharp_entry) (i : Z) (old age : Z) : Z * Z :=
  if cl e && (age <=? ctime e) then (i, ctime e) else (old, age).

Lemma oldest_snoc t cl old age e : oldest t cl old age -> 0 <= ctime e ->
  let '(old', age') := newer cl e (Z.of_nat (length t)) old age in oldest (t ++ [e]) cl old' age'.
Proof.
  intros Ho He. unfold newer. destruct (cl e) eqn:Ecl; cbn [andb].
  - destruct (Z.leb_spec age (ctime e)) as [Hle|Hgt].
    + right. exists (length t), e. split; [done|]. split; [by apply list_lookup_middle|]. do 2 (split; [done|]).
      intros e' [Hin|E%list_elem_of_singleton]%elem_of_app Hcl; [|subst; lia].
      destruct Ho as [(_ & _ & Hno)|(k & e2 & _ & _ & _ & _ & Hmax)]; [|specialize (Hmax e' Hin Hcl); lia].
      by rewrite Hno in Hcl.
    + destruct Ho as [(_ & -> & _)|(k & e2 & -> & Hk & Hc & Ha & Hmax)]; [lia|]. right. exists k, e2.
      split; [done|]. split; [by apply lookup_app_l_Some|]. do 2 (split; [done|]).
      intros e' [Hin|E%list_elem_of_singleton]%elem_of_app Hcl; [by apply Hmax|subst e'; lia].
  - destruct Ho as [(-> & -> & Hno)|(k & e2 & -> & Hk & Hc & Ha & Hmax)]; [left|right; exists k, e2].
    + do 2 (split; [done|]). intros e' [Hin|E%list_elem_of_singleton]%elem_of_app; [by apply Hno|by subst].
    + split; [done|]. split; [by apply lookup_app_l_Some|]. do 2 (split; [done|]).
      intros e' [Hin|E%list_elem_of_singleton]%elem_of_app Hcl; [by apply Hmax|subst; congruence].
Qed.

Record cand_ok (t : list etharp_entry) (c : candidates) : Prop := {
  cand_empty : (c_empty c = ARP_TABLE_SIZE /\ forall e, e ∈ t -> is_empty e = false) \/
    (exists k e, c_empty c = Z.of_nat k /\ t !! k = Some e /\ is_empty e = true);
  cand_pending : oldest t waits (old_pending c) (age_pending c);
  cand_stable : oldest t is_stable (old_stable c) (age_stable c);
  cand_queue : oldest t waits_queued (old_queue c) (age_queue c)
}.

(** One turn of the sweep for an entry that does not match. *)
Definition step (i : Z) (e : etharp_entry) (c : candidates) : candidates :=
  let '(p, ap) := newer waits e i (old_pending c) (age_pending c) in
  let '(st, ast) := newer is_stable e i (old_stable c) (age_stable c) in
  let '(qu, aq) := newer waits_queued e i (old_queue c) (age_queue c) in
  mkCand (if (c_empty c =? ARP_TABLE_SIZE) && is_empty e then i else c_empty c) p ap st ast qu aq.

Lemma search_cons i e es ip n c :
  search i (e :: es) ip n c = if matches ip n e then inl i else search (i + 1) es ip n (step i e c).
Proof.
  cbn [search]. unfold matches, step, newer, waits, waits_queued, is_stable, is_empty. destruct c as [ce p ap st ast qu aq].
  cbn [c_empty old_pending age_pending old_stable age_stable old_queue age_queue].
  set (mt := match ip with Some _ => _ | None => _ end). destruct mt, (ce =? ARP_TABLE_SIZE), (q e =? 0), (ap <=? ctime e),
    (ast <=? ctime e), (aq <=? ctime e), (state e); reflexivity.
Qed.

Lemma step_ok t e c : cand_ok t c -> 0 <= ctime e -> (length t < 10)%nat -> cand_ok (t ++ [e]) (step (Z.of_nat (length t)) e c).
Proof.
  intros [Hem Hp Hs Hq] He Ht. unfold step.
  pose proof (oldest_snoc t waits _ _ e Hp He) as Hp'. pose proof (oldest_snoc t is_stable _ _ e Hs He) as Hs'.
  pose proof (oldest_snoc t waits_queued _ _ e Hq He) as Hq'.
  do 3 destruct (newer _ _ _ _ _). constructor; cbn [c_empty old_pending age_pending old_stable age_stable old_queue age_queue]; try done.
  destruct (is_empty e) eqn:Ee.
  - right. destruct Hem as [(-> & _)|(k & e2 & -> & Hk & He2)].
    + exists (length t), e. rewrite Z.eqb_refl. split; [done|]. split; [by apply list_lookup_middle|done].
    + exists k, e2. destruct (Z.eqb_spec (Z.of_nat k) ARP_TABLE_SIZE) as [E|_].
      { apply lookup_lt_Some in Hk. unfold ARP_TABLE_SIZE in E. lia. }
      split; [done|]. split; [by apply lookup_app_l_Some|done].
  - rewrite andb_false_r. destruct Hem as [(-> & Hno)|(k & e2 & -> & Hk & He2)]; [left|right].
    + split; [done|]. intros e' [Hin|E%list_elem_of_singleton]%elem_of_app; [by apply Hno|by subst].
    + exists k, e2. split; [done|]. split; [by apply lookup_app_l_Some|done].
Qed.

Lemma search_ok es t ip n c : cand_ok t c -> Forall (fun e => 0 <= ctime e) es -> (length t + length es <= 10)%nat ->
  match search (Z.of_nat (length t)) es ip n c with
  | inl i => exists k e, i = Z.of_nat k /\ (t ++ es) !! k = Some e /\ matches ip n e = true
  | inr c' => cand_ok (t ++ es) c' /\ forall e, e ∈ es -> matches ip n e = false
  end.
Proof.
  revert t c. induction es as [|e es IH]; intros t c Hc Hes Hl.
  - cbn. rewrite app_nil_r. split; [done|]. by intros e ?%elem_of_nil.
  - rewrite search_cons. apply Forall_cons in Hes as [He Hes]. cbn [length] in Hl. destruct (matches ip n e) eqn:Em.
    + exists (length t), e. split; [done|]. split; [by apply list_lookup_middle|done].
    + specialize (IH (t ++ [e]) (step (Z.of_nat (length t)) e c)). rewrite length_app, Nat2Z.inj_add, <- app_assoc in IH.
      cbn [length app] in IH. change (Z.of_nat 1) with 1 in IH. 
      assert (H1 : cand_ok (t ++ [e]) (step (Z.of_nat (length t)) e c)) by (apply step_ok; [done|done|lia]).
      specialize (IH H1 Hes ltac:(lia)). destruct (search _ es ip n _); [done|]. destruct IH as [IH1 IH2].
      split; [done|]. intros e' [->|Hin]%elem_of_cons; [done|by apply IH2].
Qed.

(** The classes of entries, the least important first, and the entry to give up:
    the oldest of the least important. *)
Definition rank (e : etharp_entry) : nat :=
  if is_empty e then 0 else if is_stable e then 1 else if waits e then 2 else 3.
Definition victim (t : list etharp_entry) (e : etharp_entry) : Prop :=
  forall e', e' ∈ t -> (rank e < rank e')%nat \/ rank e = rank e' /\ (rank e = 0%nat \/ ctime e' <= ctime e).

Lemma oldest_some t cl old age : oldest t cl old age -> (length t <= 10)%nat -> old < ARP_TABLE_SIZE ->
  exists k e, old = Z.of_nat k /\ t !! k = Some e /\ cl e = true /\ forall e', e' ∈ t -> cl e' = true -> ctime e' <= ctime e.
Proof.
  intros [(-> & _ & _)|(k & e & -> & Hk & Hc & <- & Hm)] Ht Hlt; [unfold ARP_TABLE_SIZE in Hlt; lia|].
  by exists k, e.
Qed.
Lemma oldest_none t cl old age : oldest t cl old age -> (length t <= 10)%nat -> ARP_TABLE_SIZE <= old ->
  forall e, e ∈ t -> cl e = false.
Proof.
  intros [(_ & _ & Hno)|(k & e & -> & Hk & _)] Ht Hle; [done|].
  apply lookup_lt_Some in Hk. unfold ARP_TABLE_SIZE in Hle. lia.
Qed.

Lemma rank_cases e : is_empty e = true \/ is_stable e = true \/ waits e = true \/ waits_queued e = true.
Proof.
  unfold is_empty, is_stable, waits, waits_queued. destruct (state e); cbn; auto. destruct (q e =? 0); cbn; auto.
Qed.
Lemma rank_class e : (is_empty e = true -> rank e = 0%nat) /\ (is_stable e = true -> rank e = 1%nat) /\
  (waits e = true -> rank e = 2%nat) /\ (waits_queued e = true -> rank e = 3%nat).
Proof.
  unfold rank, is_empty, is_stable, waits, waits_queued. destruct (state e), (q e =? 0); cbn; repeat split; done.
Qed.

Lemma victim_class t e cl : e ∈ t -> cl e = true ->
  (forall e', e' ∈ t -> cl e' = true -> ctime e' <= ctime e) ->
  (forall e', e' ∈ t -> (rank e <= rank e')%nat /\ (rank e = rank e' -> cl e' = true)) -> victim t e.
Proof.
  intros He Hcl Hmax Hr e' He'. destruct (Hr e' He') as [Hle Heq]. destruct (decide (rank e = rank e')); [|left; lia].
  right. split; [done|]. right. by apply Hmax, Heq.
Qed.

(** The candidate the function settles for. *)
Definition choice (c : candidates) : Z :=
  if c_empty c <? ARP_TABLE_SIZE then c_empty c
  else if old_stable c <? ARP_TABLE_SIZE then old_stable c
  else if old_pending c <? ARP_TABLE_SIZE then old_pending c
  else old_queue c.

Lemma none_empty t c e : cand_ok t c -> (length t <= 10)%nat -> ARP_TABLE_SIZE <= c_empty c -> e ∈ t -> is_empty e = false.
Proof.
  intros [[(_ & Hno)|(k & e' & E & Hk & _)] _ _ _] Ht Ge He; [by apply Hno|]. apply lookup_lt_Some in Hk.
  unfold ARP_TABLE_SIZE in *. lia.
Qed.

Lemma choice_ok t c : cand_ok t c -> (length t <= 10)%nat -> t <> [] ->
  exists k e, choice c = Z.of_nat k /\ t !! k = Some e /\ victim t e /\ old_queue c <= ARP_TABLE_SIZE /\
    (c_empty c < ARP_TABLE_SIZE -> is_empty e = true) /\
    (ARP_TABLE_SIZE <= c_empty c -> old_stable c < ARP_TABLE_SIZE -> is_stable e = true) /\
    (ARP_TABLE_SIZE <= c_empty c -> ARP_TABLE_SIZE <= old_stable c -> ARP_TABLE_SIZE <= old_pending c -> old_queue c < ARP_TABLE_SIZE).
Proof.
  intros Hca Ht Hne. pose proof Hca as [Hem Hp Hs Hq]. unfold choice.
  assert (Hqb : old_queue c <= ARP_TABLE_SIZE).
  { destruct Hq as [(-> & _)|(k & e & -> & Hk & _)]; [done|]. apply lookup_lt_Some in Hk. unfold ARP_TABLE_SIZE. lia. }
  destruct (Z.ltb_spec (c_empty c) ARP_TABLE_SIZE) as [Lt|Ge].
  { destruct Hem as [(E & _)|(k & e & E & Hk & He)]; [lia|]. exists k, e. repeat (split; [done || lia|]); try lia.
    split; [|split; [done|]; repeat split; intros; first [done|lia]]. intros e' _. pose proof (rank_class e) as (-> & _); [|done]. destruct (decide (0 < rank e')%nat); [by left|right; lia]. }
  assert (Hne0 : forall e, e ∈ t -> is_empty e = false) by (intros e; by eapply none_empty).
  assert (Hin : forall (k : nat) (e : etharp_entry), t !! k = Some e -> e ∈ t) by (intros k e; apply list_elem_of_lookup_2).
  destruct (Z.ltb_spec (old_stable c) ARP_TABLE_SIZE) as [Lt|Ge2].
  { destruct (oldest_some _ _ _ _ Hs Ht Lt) as (k & e & E & Hk & Hc & Hm). exists k, e. repeat (split; [done|]).
    split; [|split; [done|]; repeat split; intros; first [done|lia]]. apply (victim_class t e is_stable); [by eapply Hin|done|done|].
    intros e' He'. pose proof (Hne0 e' He'). destruct (rank_class e) as (_ & -> & _); [|done].
    destruct (rank_cases e') as [?|[?|[?|?]]], (rank_class e') as (R1 & R2 & R3 & R4); [congruence|..];
      [rewrite R2 by done|rewrite R3 by done|rewrite R4 by done]; split; (lia || done). }
  pose proof (oldest_none _ _ _ _ Hs Ht Ge2) as Hns.
  destruct (Z.ltb_spec (old_pending c) ARP_TABLE_SIZE) as [Lt|Ge3].
  { destruct (oldest_some _ _ _ _ Hp Ht Lt) as (k & e & E & Hk & Hc & Hm). exists k, e. repeat (split; [done|]).
    split; [|split; [done|]; repeat split; intros; first [done|lia]]. apply (victim_class t e waits); [by eapply Hin|done|done|].
    intros e' He'. pose proof (Hne0 e' He'). pose proof (Hns e' He'). destruct (rank_class e) as (_ & _ & -> & _); [|done].
    destruct (rank_cases e') as [?|[?|[?|?]]], (rank_class e') as (R1 & R2 & R3 & R4); [congruence|congruence|..];
      [rewrite R3 by done|rewrite R4 by done]; split; (lia || done). }
  pose proof (oldest_none _ _ _ _ Hp Ht Ge3) as Hnp.
  assert (Lt : old_queue c < ARP_TABLE_SIZE).
  { destruct (Z.lt_ge_cases (old_queue c) ARP_TABLE_SIZE) as [|Ge4]; [done|]. exfalso.
    pose proof (oldest_none _ _ _ _ Hq Ht Ge4) as Hnq. destruct t as [|e t]; [done|].
    destruct (rank_cases e) as [E|[E|[E|E]]]; rewrite ?Hne0, ?Hns, ?Hnp, ?Hnq in E by left; done. }
  destruct (oldest_some _ _ _ _ Hq Ht Lt) as (k & e & E & Hk & Hc & Hm). exists k, e. repeat (split; [done|]).
  split; [|split; [done|]; repeat split; intros; first [done|lia]]. apply (victim_class t e waits_queued); [by eapply Hin|done|done|].
  intros e' He'. pose proof (Hne0 e' He'). pose proof (Hns e' He'). pose proof (Hnp e' He').
  destruct (rank_class e) as (_ & _ & _ & ->); [|done].
  destruct (rank_cases e') as [?|[?|[?|?]]], (rank_class e') as (R1 & R2 & R3 & R4); [congruence..|].
  rewrite R4 by done. split; [lia|done].
Qed.

Section NetOk.
Context {A D : Type} `{PbufHeap A} `{LinkOk D}.
Abbreviation Net := (net A D).
Abbreviation packets := (gmap Z (list (Z * pbuf))).

Definition netif_ok (n : Z) (ni : netif) : Prop := n <> 0 /\ hwaddr_len ni = 6 /\ length (hwaddr ni) = 6%nat.

Record net_ok (t : Net) (P : packets) (U : gset Z) : Prop := {
  net_held : holds (ps t) P U;
  net_netifs n ni : netifs t !! n = Some ni -> netif_ok n ni;
  net_link : link_ok (dev t)
}.

(** The packets outside [X] are held as before and have the contents they had. *)
Definition stays (X : list Z) (P : packets) (t : Net) (P' : packets) (t' : Net) : Prop :=
  forall p l, ~ (p ∈ X) -> P !! p = Some l -> P' !! p = Some l /\ contents (pmem (ps t')) l = contents (pmem (ps t)) l.

Lemma stays_refl X P t : stays X P t P t.
Proof. done. Qed.
Lemma stays_trans X Y P1 t1 P2 t2 P3 t3 : stays X P1 t1 P2 t2 -> stays Y P2 t2 P3 t3 -> stays (X ++ Y) P1 t1 P3 t3.
Proof.
  intros S1 S2 p l [HX HY]%not_elem_of_app Hp. destruct (S1 p l HX Hp) as [Hp2 E2].
  destruct (S2 p l HY Hp2) as [Hp3 E3]. split; [done|congruence].
Qed.
Lemma stays_weaken X Y P t P' t' : (forall p, p ∈ X -> p ∈ Y) -> stays X P t P' t' -> stays Y P t P' t'.
Proof. intros HXY Hs p l Hn. apply Hs. auto. Qed.

(** The frames the driver was given, in order. *)
Fixpoint sends (d : D) (fs : list (list Z)) (d' : D) : Prop :=
  match fs with
  | [] => d' = d
  | f :: fs => exists segs err d1, concat segs = f /\ linkoutput (Z.of_nat (length f)) segs d = Done (err, d1) /\ sends d1 fs d'
  end.
Lemma sends_app d1 fs d2 gs d3 : sends d1 fs d2 -> sends d2 gs d3 -> sends d1 (fs ++ gs) d3.
Proof.
  revert d1. induction fs as [|f fs IH]; intros d1; cbn; [by intros ->|].
  intros (segs & err & d4 & ? & ? & ?) ?. exists segs, err, d4. split; [done|]. split; [done|]. by apply IH.
Qed.

Lemma frame_length dst src ty c : length dst = 6%nat -> length src = 6%nat ->
  Z.of_nat (length (frame_of dst src ty c)) = Z.of_nat (length c) + SIZEOF_ETH_HDR.
Proof. intros Hd Hs. unfold frame_of, SIZEOF_ETH_HDR. rewrite !length_app, Hd, Hs. cbn. lia. Qed.

(** The frame of a held packet that has room for its header. *)
Definition frames (dst src : list Z) (ty p : Z) (b : pbuf) (c : list Z) : list (list Z) :=
  if has_room SIZEOF_ETH_HDR p b then [frame_of dst src ty c] else [].

Lemma output_ok t P U n p src dst ty b l ni c : net_ok t P U -> P !! p = Some ((p, b) :: l) ->
  netifs t !! n = Some ni -> length src = 6%nat -> length dst = 6%nat -> contents (pmem (ps t)) ((p, b) :: l) = Some c ->
  wp (ethernet_output n p src dst ty) t (fun _ t' => exists b', ref b' = ref b /\
    net_ok t' (<[p := (p, b') :: l]> P) U /\ netifs t' = netifs t /\ stays [p] P t (<[p := (p, b') :: l]> P) t' /\
    sends (dev t) (frames dst src ty p b c) (dev t')).
Proof.
  intros [Hh Hn Hd] Hp Hni Hs Hds Hc. destruct (Hn _ _ Hni) as (_ & Hlen & _).
  pose proof (ethernet_output_held t P U n p src dst ty b l ni c Hh Hp Hni Hlen Hs Hds Hd Hc) as Hout. unfold frames.
  destruct (has_room SIZEOF_ETH_HDR p b).
  - destruct Hout as (err & t' & segs & Hrun & Hni' & Hd' & Hk & Hh' & Hcat & Hlink).
    eapply wp_use; [exact Hrun|]. exists (grown SIZEOF_ETH_HDR b). split; [done|]. split; [|split; [done|split]].
    + constructor; [done|by rewrite Hni'|done].
    + intros p' l' Hne Hp'. assert (p' <> p) as Hne' by (by apply ne_single). rewrite lookup_insert_ne by done. split; [done|].
      exact (Hk p' l' Hne' Hp').
    + exists segs, err, (dev t'). split; [done|]. split; [|done]. rewrite frame_length by done.
      destruct (holds_packet _ _ _ _ _ Hh Hp) as (b0 & l0 & [= <- <-] & _ & _ & _ & Hpk & _).
      rewrite (contents_total _ _ _ (packet_lens _ Hpk) Hc). destruct (packet_head _ _ _ Hpk) as (_ & _ & Ht & _).
      rewrite total_cons. cbn [snd]. by rewrite <- Ht.
  - eapply wp_use; [exact Hout|]. exists b. rewrite insert_id by done. split; [done|]. split; [by constructor|]. done.
Qed.

Lemma free_ok t P U p b l : net_ok t P U -> P !! p = Some ((p, b) :: l) ->
  wp (on_ps (pbuf_free p)) t (fun _ t' => net_ok t' (dropped p b l P) U /\ netifs t' = netifs t /\
    stays [p] P t (dropped p b l P) t' /\ dev t' = dev t).
Proof.
  intros [Hh Hn Hd] Hp. destruct (free_held _ _ _ _ _ _ Hh Hp) as (r & s' & Hrun & Hm & Hh').
  eapply wp_use; [by apply on_ps_run|]. split; [by constructor|]. split; [done|]. split; [|done].
  intros p' l' Hne Hp'. assert (p <> p') as Hne' by (apply ne_single in Hne; congruence). split; [|cbn; by rewrite Hm].
  unfold dropped. case_match; [by rewrite lookup_delete_ne|by rewrite lookup_insert_ne].
Qed.

(** ** The packets of the protocol *)

Definition patch_all (c : list Z) (fs : list (Z * list Z)) : list Z :=
  foldl (fun c f => patch (Z.to_nat f.1) f.2 c) c fs.

Lemma contents_one m p b c : contents m [(p, b)] = Some c <-> load_bytes m (payload b) (Z.to_nat (len b)) = Some c.
Proof.
  cbn. split; [|intros ->; cbn; by rewrite app_nil_r].
  intros (c1 & -> & E)%bind_Some. cbn in E. by rewrite app_nil_r in E.
Qed.

Lemma fields_ok fs (s : pst A) P U p b c : holds s P U -> P !! p = Some [(p, b)] -> contiguous b = true ->
  p + SIZEOF_STRUCT_PBUF <= payload b -> Forall (fun f => 0 <= f.1 /\ f.1 + Z.of_nat (length f.2) <= len b) fs ->
  contents (pmem s) [(p, b)] = Some c ->
  exists m', write_fields (payload b) fs s = Done (tt, set_pmem m' s) /\ holds (set_pmem m' s) P U /\
    keeps P p s (set_pmem m' s) /\ contents m' [(p, b)] = Some (patch_all c fs).
Proof.
  intros Hh Hp Hct Hro. revert s Hh c. induction fs as [|[off bs] fs IH]; intros s Hh c Hfs Hc; cbn [write_fields].
  { exists (pmem s). split; [by destruct s|]. split; [by destruct s|]. done. }
  apply Forall_cons in Hfs as [[Ho Hl] Hfs]. cbn [fst snd] in *.
  destruct (store_held s P U p b [] (payload b + off) bs Hh Hp Hct) as (m1 & Hm1 & Hh1 & Hk1 & _); [lia|lia|].
  apply contents_one in Hc. rewrite <- (Z2Nat.id off Ho) in Hm1.
  pose proof (load_store_patch _ _ _ _ _ _ _ Hm1 Hc ltac:(lia)) as Hc1. apply (contents_one _ p) in Hc1.
  destruct (IH _ Hh1 _ Hfs Hc1) as (m' & Hrun & Hh' & Hk' & Hc').
  exists m'. rewrite (Z2Nat.id off Ho) in Hm1. erewrite bind_done by (by apply STORE_run). rewrite Hrun. split; [done|].
  split; [done|]. split; [|done]. eapply keeps_trans; [exact Hk1|exact Hk'].
Qed.

(** A message of the protocol. *)
Definition arp_packet (opcode : Z) (hwsrc : list Z) (ipsrc : Z) (hwdst : list Z) (ipdst : Z) : list Z :=
  le16 (lwip_htons LWIP_IANA_HWTYPE_ETHERNET) ++ le16 (lwip_htons ETHTYPE_IP) ++ [6; 4] ++ le16 (lwip_htons opcode) ++
  hwsrc ++ le32 ipsrc ++ hwdst ++ le32 ipdst.

Lemma arp_packet_fields c opcode hwsrc ipsrc hwdst ipdst : length c = 28%nat -> length hwsrc = 6%nat -> length hwdst = 6%nat ->
  patch_all (patch_all c [(6, le16 (lwip_htons opcode))])
    [(8, hwsrc); (18, hwdst); (14, le32 ipsrc); (24, le32 ipdst);
     (0, le16 (lwip_htons LWIP_IANA_HWTYPE_ETHERNET)); (2, le16 (lwip_htons ETHTYPE_IP)); (4, [6]); (5, [4])] =
  arp_packet opcode hwsrc ipsrc hwdst ipdst.
Proof.
  intros Hc Hs Hd. unfold le16, le32, arp_packet. 
  do 28 (destruct c as [|? c]; [done|]). destruct c; [|done].
  do 6 (destruct hwsrc as [|? hwsrc]; [done|]). destruct hwsrc; [|done].
  do 6 (destruct hwdst as [|? hwdst]; [done|]). destruct hwdst; [|done]. reflexivity.
Qed.
End NetOk.

Section ArpOk.
Context {A D : Type} `{PbufHeap A} `{LinkOk D}.
Abbreviation Arp := (arp A D).
Abbreviation packets := (gmap Z (list (Z * pbuf))).

Lemma wp_on_net {X} (m : M (net A D) X) s (Q : X -> Arp -> Prop) :
  wp m (anet s) (fun x t => Q x (set_anet t s)) -> wp (on_net m) s Q.
Proof. apply wp_zoom. Qed.
Lemma wp_on_pbuf {X} (m : M (pst A) X) s (Q : X -> Arp -> Prop) :
  wp (on_ps m) (anet s) (fun x t => Q x (set_anet t s)) -> wp (on_pbuf m) s Q.
Proof. apply wp_zoom. Qed.
Lemma wp_pbuf_use {X} (m : M (pst A) X) (s : Arp) x t (Q : X -> Arp -> Prop) :
  m (ps (anet s)) = Done (x, t) -> Q x (set_anet (set_ps t (anet s)) s) -> wp (on_pbuf m) s Q.
Proof. intros Hm HQ. apply wp_on_pbuf. eapply wp_use; [by apply on_ps_run|done]. Qed.
Lemma wp_netif (s : Arp) n ni (Q : netif -> Arp -> Prop) :
  netifs (anet s) !! n = Some ni -> Q ni s -> wp (on_net (netif_at n)) s Q.
Proof.
  intros Hn HQ. apply wp_on_net. unfold netif_at. wps.
  by destruct s as [? ? ? []].
Qed.

Lemma fresh_room r : has_room SIZEOF_ETH_HDR r (fresh_ram r SIZEOF_ETHARP_HDR) = true.
Proof.
  unfold has_room. change (contiguous (fresh_ram _ _)) with true. cbn [andb]. apply andb_true_iff. split; [|done].
  apply Z.leb_le. cbn. unfold SIZEOF_STRUCT_PBUF, SIZEOF_ETH_HDR. lia.
Qed.

Lemma raw_ok (s : Arp) P U n ni ethsrc ethdst hwsrc ipsrc hwdst ipdst opcode : net_ok (anet s) P U ->
  netifs (anet s) !! n = Some ni ->
  length ethsrc = 6%nat -> length ethdst = 6%nat -> length hwsrc = 6%nat -> length hwdst = 6%nat ->
  wp (etharp_raw n ethsrc ethdst hwsrc ipsrc hwdst ipdst opcode) s (fun r s' => exists t', s' = set_anet t' s /\
    net_ok t' P U /\ netifs t' = netifs (anet s) /\ stays [] P (anet s) P t' /\
    (r = ERR_MEM /\ dev t' = dev (anet s) \/
     r = ERR_OK /\ sends (dev (anet s)) [frame_of ethdst ethsrc ETHTYPE_ARP (arp_packet opcode hwsrc ipsrc hwdst ipdst)] (dev t'))).
Proof.
  intros [Hh Hn Hd] Hni L1 L2 L3 L4. destruct (Hn _ _ Hni) as (Hn0 & Hlen & _). unfold etharp_raw.
  apply wp_bind. apply wp_assert; [by destruct (Z.eqb_spec n 0)|]. apply wp_bind.
  destruct (alloc_ram_held _ _ _ SIZEOF_ETHARP_HDR Hh ltac:(done)) as (r & t1 & Hal & Hm1 & Hcase).
  eapply wp_pbuf_use; [exact Hal|]. destruct Hcase as [[-> Hh1]|(Hr & HPr & Hh1)].
  { apply wp_ret. eexists. split; [reflexivity|]. split; [by constructor|]. split; [done|]. split; [|by left].
    intros p l _ Hp. split; [done|]. cbn. by rewrite Hm1. }
  destruct (Z.eqb_spec r 0) as [|_]; [done|]. set (b := fresh_ram r SIZEOF_ETHARP_HDR) in *. set (P1 := <[r := _]> P) in *.
  assert (Hr1 : P1 !! r = Some [(r, b)]) by apply lookup_insert_eq.
  destruct (holds_packet _ _ _ _ _ Hh1 Hr1) as (? & ? & [= <- <-] & _ & Hb & _).
  destruct (holds_contents _ _ _ _ _ Hh1 Hr1) as [c0 Hc0].
  apply wp_bind. eapply wp_pbuf_use; [by apply rd_run|]. apply wp_bind. apply wp_assert; [done|].
  assert (Hro : r + SIZEOF_STRUCT_PBUF <= payload b) by (cbn; unfold SIZEOF_STRUCT_PBUF; lia).
  destruct (fields_ok [(6, le16 (lwip_htons opcode))] t1 P1 U r b c0 Hh1 Hr1 ltac:(done) Hro) as (m2 & Hw2 & Hh2 & Hk2 & Hc2);
    [by repeat constructor|done|].
  apply wp_bind. eapply wp_pbuf_use; [exact Hw2|]. apply wp_bind. eapply wp_netif; [exact Hni|].
  apply wp_bind. apply wp_assert; [by rewrite Hlen|].
  set (c1 := patch_all c0 _) in Hc2. match goal with |- context [write_fields _ ?fs] =>
    edestruct (fields_ok fs _ P1 U r b c1 Hh2 Hr1 eq_refl Hro) as (m3 & Hw3 & Hh3 & Hk3 & Hc3); [|exact Hc2|] end.
  { repeat (constructor; [cbn; rewrite ?L3, ?L4; done || lia|]). constructor. }
  apply wp_bind. eapply wp_pbuf_use; [exact Hw3|].
  unfold c1 in Hc3. rewrite arp_packet_fields in Hc3 by (done || by (apply contents_one, load_bytes_length in Hc0)).
  match goal with |- wp _ ?s3 _ => set (t3 := anet s3) in * end.
  apply wp_bind, wp_on_net. eapply wp_mono.
  { eapply (output_ok t3 P1 U n r ethsrc ethdst ETHTYPE_ARP b []); [by constructor|done|exact Hni|done|done|exact Hc3]. }
  intros _ t4 (b' & Href & Hok4 & Hni4 & Hs4 & Hsend). unfold frames in Hsend. rewrite fresh_room in Hsend. apply wp_bind, wp_on_pbuf.
  eapply wp_mono; [eapply free_ok; [exact Hok4|apply lookup_insert_eq]|].
  intros _ t5 (Hok5 & Hni5 & Hs5 & Hdev5). apply wp_ret. unfold dropped in *. rewrite Href in *. cbn [b fresh_ram ref Z.eqb Pos.eqb] in *.
  assert (EP : delete r (<[r := [(r, b')]]> P1) = P).
  { unfold P1. by rewrite !delete_insert_eq, delete_id. }
  rewrite EP in *. exists t5. split; [done|]. split; [done|]. split; [by etransitivity; [exact Hni5|exact Hni4]|].
  split; [|right; split; [done|rewrite Hdev5; exact Hsend]].
  intros p l _ Hp. split; [done|]. assert (Hpr : p <> r) by congruence.
  assert (Hp1 : P1 !! p = Some l) by (unfold P1; by rewrite lookup_insert_ne).
  destruct (Hs4 p l) as [Hp4 E4]; [by apply ne_single|exact Hp1|].
  destruct (Hs5 p l) as [_ E5]; [by apply ne_single|exact Hp4|].
  etransitivity; [exact E5|]. etransitivity; [exact E4|]. etransitivity; [exact (Hk3 p l Hpr Hp1)|].
  etransitivity; [exact (Hk2 p l Hpr Hp1)|]. exact (f_equal (fun m => contents m l) Hm1).
Qed.

(** What the operations keep of the queues and packets; [heads] are the pointers to
    the queues, and the elements of the queues are among the elements [U] in use. *)
Record core (heads : list Z) (s : Arp) (Q : list (list (Z * Z))) (P : packets) (Own U : gset Z) : Prop := {
  core_queues : Forall2 (qchain (arp_queues s)) heads Q;
  core_elems : NoDup (elems Q);
  core_used a : a ∈ elems Q -> a ∈ U;
  core_pkts : NoDup (pkts Q);
  core_pinned p : p ∈ pkts Q -> is_Some (P !! p);
  core_own p : p ∈ Own -> exists b l, P !! p = Some ((p, b) :: l) /\ (p ∈ pkts Q -> 2 <= ref b);
  core_net : net_ok (anet s) P U
}.

(** What an operation on queues and packets leaves alone. *)
Definition aside (s s' : Arp) : Prop :=
  arp_table s' = arp_table s /\ etharp_cached_entry s' = etharp_cached_entry s /\ netifs (anet s') = netifs (anet s).
Lemma aside_refl s : aside s s.
Proof. done. Qed.
Lemma aside_trans s1 s2 s3 : aside s1 s2 -> aside s2 s3 -> aside s1 s3.
Proof. intros (? & ? & ?) (? & ? & ?). repeat split; congruence. Qed.

Lemma core_same heads s s' Q P Own U : arp_queues s' = arp_queues s -> anet s' = anet s ->
  core heads s Q P Own U -> core heads s' Q P Own U.
Proof. intros Eq En [? ? ? ? ? ? ?]. constructor; rewrite ?Eq, ?En; done. Qed.

Lemma core_head heads s Q P Own U p : core heads s Q P Own U -> p ∈ pkts Q \/ p ∈ Own ->
  exists b l, P !! p = Some ((p, b) :: l).
Proof.
  intros Hc [Hp|Hp]; [|destruct (core_own _ _ _ _ _ _ Hc p Hp) as (b & l & Hpl & _); by exists b, l].
  destruct (core_pinned _ _ _ _ _ _ Hc p Hp) as [l Hl].
  destruct (holds_packet _ _ _ _ _ (net_held _ _ _ (core_net _ _ _ _ _ _ Hc)) Hl) as (b & l' & -> & _). by exists b, l'.
Qed.

(** The packet at the head of a queue, taken out of the ghost lists. *)
Lemma core_pop heads s Q P Own U j r a p l : core heads s Q P Own U -> heads !! j = Some r -> Q !! j = Some ((a, p) :: l) ->
  exists nxt b tl, r = a /\ a <> 0 /\ p <> 0 /\ arp_queues s !! a = Some (mkQ nxt p) /\
    core (<[j := nxt]> heads) s (<[j := l]> Q) P Own U /\ ~ (p ∈ pkts (<[j := l]> Q)) /\
    ~ (a ∈ elems (<[j := l]> Q)) /\ a ∈ U /\ P !! p = Some ((p, b) :: tl) /\ (p ∈ Own -> 2 <= ref b).
Proof.
  intros Hc Hr Hl. pose proof Hc as [H1' H2' H3' H4' H5' H6' H7'].
  pose proof (Forall2_lookup_lr _ _ _ _ _ _ H1' Hr Hl) as (-> & Ha & Hp & nxt & Hm & Hq).
  destruct (concat_split _ _ _ Hl) as (R & HR & HR'). specialize (HR' l).
  assert (He : elems Q ≡ₚ a :: elems (<[j := l]> Q)) by (unfold elems; by rewrite HR, HR').
  assert (Hk : pkts Q ≡ₚ p :: pkts (<[j := l]> Q)) by (unfold pkts; by rewrite HR, HR').
  assert (Hin : p ∈ pkts Q) by (rewrite Hk; left).
  destruct (core_head _ _ _ _ _ _ p Hc (or_introl Hin)) as (b & tl & Hpl).
  rewrite He in H2'. rewrite Hk in H4'. apply NoDup_cons in H2' as [Ha' H2']. apply NoDup_cons in H4' as [Hp' H4'].
  exists nxt, b, tl. do 4 (split; [done|]). split.
  - constructor; try done.
    + apply Forall2_insert; done.
    + intros x Hx. apply H3'. rewrite He. by right.
    + intros x Hx. apply H5'. rewrite Hk. by right.
    + intros x Hx. destruct (H6' x Hx) as (b' & l' & Hx' & Hrf). exists b', l'. split; [done|]. intros Hin'.
      apply Hrf. rewrite Hk. by right.
  - do 2 (split; [done|]). split; [apply H3'; rewrite He; left|]. split; [done|]. intros Ho.
    destruct (H6' p Ho) as (b' & l' & Hx' & Hrf). assert (b' = b) as -> by congruence. by apply Hrf.
Qed.

(** A packet that is not queued may change, as long as the callers' references remain. *)
Lemma core_repack heads s t Q P Own U p P' : core heads s Q P Own U -> ~ (p ∈ pkts Q) ->
  (forall p', p' <> p -> P' !! p' = P !! p') -> (p ∈ Own -> exists b l, P' !! p = Some ((p, b) :: l)) ->
  net_ok t P' U -> core heads (set_anet t s) Q P' Own U.
Proof.
  intros [H1' H2' H3' H4' H5' H6' _] Hp HP Ho Ht. constructor; try done.
  - intros x Hx. rewrite HP; [by apply H5'|]. by intros ->.
  - intros x Hx. destruct (decide (x = p)) as [->|Hne].
    + destruct (Ho Hx) as (b & l & Hb). exists b, l. split; [done|]. intros Hq. by destruct Hp.
    + rewrite HP by done. by apply H6'.
Qed.

Lemma core_free heads s Q P Own U p b l : core heads s Q P Own U -> ~ (p ∈ pkts Q) -> P !! p = Some ((p, b) :: l) ->
  (p ∈ Own -> 2 <= ref b) ->
  wp (on_pbuf (pbuf_free p)) s (fun _ s' => core heads s' Q (dropped p b l P) Own U /\ aside s s' /\
    stays [p] P (anet s) (dropped p b l P) (anet s') /\ dev (anet s') = dev (anet s) /\ arp_queues s' = arp_queues s).
Proof.
  intros Hc Hp Hb Ho. apply wp_on_pbuf. eapply wp_mono; [by apply free_ok; [apply (core_net _ _ _ _ _ _ Hc)|]|].
  intros _ t (Hok & Hni & Hst & Hdev). split; [|done]. eapply core_repack; [done|done| | |done].
  - intros p' Hne. unfold dropped. case_match; [by rewrite lookup_delete_ne|by rewrite lookup_insert_ne].
  - intros Hin. specialize (Ho Hin). unfold dropped. destruct (Z.eqb_spec (ref b) 1); [lia|].
    rewrite lookup_insert_eq. eauto.
Qed.

Lemma core_output heads s Q P Own U n ni p b l src dst ty c : core heads s Q P Own U -> ~ (p ∈ pkts Q) ->
  P !! p = Some ((p, b) :: l) -> netifs (anet s) !! n = Some ni -> length src = 6%nat -> length dst = 6%nat ->
  contents (pmem (ps (anet s))) ((p, b) :: l) = Some c ->
  wp (on_net (ethernet_output n p src dst ty)) s (fun _ s' => exists b', ref b' = ref b /\
    core heads s' Q (<[p := (p, b') :: l]> P) Own U /\ aside s s' /\
    stays [p] P (anet s) (<[p := (p, b') :: l]> P) (anet s') /\
    sends (dev (anet s)) (frames dst src ty p b c) (dev (anet s')) /\ arp_queues s' = arp_queues s).
Proof.
  intros Hc Hp Hb Hn Hs Hd Hcon. apply wp_on_net.
  eapply wp_mono; [by eapply output_ok; [apply (core_net _ _ _ _ _ _ Hc)|..]|].
  intros _ t (b' & Href & Hok & Hni & Hst & Hsend). exists b'. split; [done|]. split; [|done].
  eapply core_repack; [done|done| | |done].
  - intros p' Hne. by rewrite lookup_insert_ne.
  - intros _. rewrite lookup_insert_eq. eauto.
Qed.

Lemma free_element_ok heads s Q P Own U a : core heads s Q P Own U -> a ∈ U -> ~ (a ∈ elems Q) ->
  wp (free_element a) s (fun _ s' => core heads s' Q P Own (U ∖ {[a]}) /\ aside s s' /\
    stays [] P (anet s) P (anet s') /\ dev (anet s') = dev (anet s)).
Proof.
  intros [H1' H2' H3' H4' H5' H6' [Hh Hn Hd]] Ha Hna. unfold free_element. apply wp_bind.
  eapply wp_pbuf_use; [reflexivity|]. apply wp_modify. split; [|done]. constructor; try done.
  - clear - H1' Hna. unfold elems in Hna. cbn [arp_queues set_queues set_anet].
    induction H1' as [|r l hs ls Hr _ IH]; [constructor|]. cbn in Hna. rewrite fmap_app in Hna.
    apply not_elem_of_app in Hna as [Hl Hls]. constructor; [|by apply IH].
    eapply qchain_frame; [|exact Hr]. intros x Hx. apply lookup_delete_ne. by intros <-.
  - intros x Hx. apply elem_of_difference. split; [by apply H3'|]. rewrite elem_of_singleton. by intros ->.
  - constructor; [|done|done]. destruct Hh as [B [O1 O2 O3 O4]]. exists B. constructor; try done. by apply queue_give.
Qed.

Lemma wp_queue_at (s : Arp) r e (Q : etharp_q_entry -> Arp -> Prop) :
  arp_queues s !! r = Some e -> Q e s -> wp (queue_at r) s Q.
Proof. intros He HQ. unfold queue_at. by wps. Qed.

Lemma free_q_loop_ok fuel heads s Q P Own U j r l : core heads s Q P Own U -> heads !! j = Some r -> Q !! j = Some l ->
  (length l < fuel)%nat ->
  wp (free_q_loop fuel r) s (fun _ s' => exists P', core (<[j := 0]> heads) s' (<[j := []]> Q) P' Own (U ∖ list_to_set l.*1) /\
    aside s s' /\ stays l.*2 P (anet s) P' (anet s') /\ dev (anet s') = dev (anet s)).
Proof.
  revert fuel heads s Q P U r. induction l as [|[a p] l IH]; intros fuel heads s Q P U r Hc Hr Hl Hf;
    (destruct fuel as [|fuel]; [cbn in Hf; lia|]); cbn [free_q_loop].
  - pose proof (Forall2_lookup_lr _ _ _ _ _ _ (core_queues _ _ _ _ _ _ Hc) Hr Hl) as Hq. cbn in Hq. subst r.
    rewrite Z.eqb_refl. apply wp_ret. exists P. rewrite !list_insert_id by done. cbn.
    rewrite difference_empty_L. done.
  - destruct (core_pop _ _ _ _ _ _ _ _ _ _ _ Hc Hr Hl) as (nxt & b & tl & -> & Ha & Hp & Hqa & Hc1 & Hnp & Hna & HaU & Hb & Ho).
    destruct (Z.eqb_spec a 0) as [|_]; [done|]. apply wp_bind. eapply wp_queue_at; [exact Hqa|].
    apply wp_bind. apply wp_assert; [cbn; by destruct (Z.eqb_spec p 0)|]. cbn [q_p q_next].
    apply wp_bind. eapply wp_mono; [by eapply core_free|]. intros _ s2 (Hc2 & As2 & St2 & Dv2 & _).
    apply wp_bind. eapply wp_mono; [by eapply free_element_ok|]. intros _ s3 (Hc3 & As3 & St3 & Dv3).
    eapply wp_mono; [eapply (IH fuel _ _ _ _ _ nxt Hc3)|].
    + apply list_lookup_insert_eq. by eapply lookup_lt_Some.
    + apply list_lookup_insert_eq. by eapply lookup_lt_Some.
    + cbn in Hf. lia.
    + intros _ s4 (P' & Hc4 & As4 & St4 & Dv4). exists P'. rewrite !list_insert_insert_eq in Hc4. split; [|split; [|split]].
      * replace (U ∖ list_to_set ((a, p) :: l).*1) with (U ∖ {[a]} ∖ list_to_set l.*1); [done|].
        cbn. by rewrite difference_difference_l_L.
      * eapply aside_trans; [exact As2|]. by eapply aside_trans.
      * exact (stays_trans [p] l.*2 _ _ _ _ _ _ St2 (stays_trans [] l.*2 _ _ _ _ _ _ St3 St4)).
      * congruence.
Qed.

Lemma queue_size heads s Q P Own U j l : core heads s Q P Own U -> Q !! j = Some l ->
  (length l < S (base.size (arp_queues s)))%nat.
Proof.
  intros [H1' H2' _ _ _ _ _] Hl. destruct (concat_split _ _ _ Hl) as (R & HR & _). unfold elems in H2'.
  rewrite HR, fmap_app in H2'. apply NoDup_app in H2' as (Hn & _).
  assert (exists r, qchain (arp_queues s) r l) as [r Hr].
  { destruct (Forall2_lookup_r _ _ _ _ _ H1' Hl) as (r & _ & Hr). by exists r. }
  apply Nat.lt_succ_r. rewrite <- (length_fmap fst l), <- (size_list_to_set (C := gset Z) l.*1) by done.
  rewrite <- size_dom. apply subseteq_size. intros x Hx%elem_of_list_to_set. apply elem_of_dom.
  clear - Hr Hx. revert r Hr. induction l as [|[a p] l IH]; intros r; [by apply elem_of_nil in Hx|].
  intros (_ & _ & _ & nxt & Hm & Hq). apply elem_of_cons in Hx as [->|Hx]; [by eexists|by eapply IH].
Qed.

(** ** One entry of the table *)

Lemma wp_entry (s : Arp) (i : nat) e (Q : etharp_entry -> Arp -> Prop) :
  arp_table s !! i = Some e -> Q e s -> wp (entry_at (Z.of_nat i)) s Q.
Proof.
  intros He HQ. unfold entry_at. apply wp_bind, wp_get, wp_bind, wp_assert; [by apply Z.leb_le; lia|].
  eapply wp_of_option; [by rewrite Nat2Z.id|done].
Qed.
Lemma wp_upd (s : Arp) (i : nat) e f (Q : unit -> Arp -> Prop) :
  arp_table s !! i = Some e -> Q tt (set_table (<[i := f e]> (arp_table s)) s) -> wp (upd_entry (Z.of_nat i) f) s Q.
Proof.
  intros He HQ. unfold upd_entry. apply wp_bind. eapply wp_entry; [exact He|]. apply wp_modify. by rewrite Nat2Z.id.
Qed.

(** The queues of the table. *)
Definition tcore (s : Arp) := core (q <$> arp_table s) s.

Lemma tcore_upd s Q P Own U i e f : tcore s Q P Own U -> arp_table s !! i = Some e -> q (f e) = q e ->
  tcore (set_table (<[i := f e]> (arp_table s)) s) Q P Own U.
Proof.
  intros Hc He Hf. apply (core_same _ s); [done|done|]. cbn [arp_table set_table]. rewrite list_fmap_insert, Hf.
  rewrite list_insert_id; [exact Hc|]. by rewrite list_lookup_fmap, He.
Qed.

Definition free_slot : etharp_entry := mkEntry 0 0 0 ethzero 0 ETHARP_STATE_EMPTY.

Lemma clear_entry_ok (s : Arp) i e (Post : unit -> Arp -> Prop) : arp_table s !! i = Some e -> q e = 0 ->
  Post tt (set_table (<[i := free_slot]> (arp_table s)) s) ->
  wp (upd_entry (Z.of_nat i) (set_state ETHARP_STATE_EMPTY);;
      upd_entry (Z.of_nat i) (set_ctime 0);;
      upd_entry (Z.of_nat i) (set_enetif 0);;
      upd_entry (Z.of_nat i) (set_ipaddr 0);;
      upd_entry (Z.of_nat i) (set_ethaddr ethzero)) s Post.
Proof.
  intros He Hq HP. assert (Hlt : (i < length (arp_table s))%nat) by (by eapply lookup_lt_Some).
  assert (Hget : forall x, <[i := x]> (arp_table s) !! i = Some x) by (intros; by apply list_lookup_insert_eq).
  do 4 (apply wp_bind; eapply wp_upd; [cbn [arp_table set_table]; rewrite ?list_insert_insert_eq; first [exact He|apply Hget]|]).
  eapply wp_upd; [cbn [arp_table set_table]; rewrite ?list_insert_insert_eq; apply Hget|].
  cbn [arp_table set_table]. rewrite !list_insert_insert_eq. replace (set_ethaddr _ _) with free_slot; [exact HP|].
  destruct e; cbn in *. by subst.
Qed.

Lemma free_entry_ok s Q P Own U i e l : tcore s Q P Own U -> arp_table s !! i = Some e -> Q !! i = Some l ->
  wp (etharp_free_entry (Z.of_nat i)) s (fun _ s' => exists P',
    arp_table s' = <[i := free_slot]> (arp_table s) /\
    tcore s' (<[i := []]> Q) P' Own (U ∖ list_to_set l.*1) /\ etharp_cached_entry s' = etharp_cached_entry s /\
    netifs (anet s') = netifs (anet s) /\ stays l.*2 P (anet s) P' (anet s') /\ dev (anet s') = dev (anet s)).
Proof.
  intros Hc He Hl. unfold etharp_free_entry. apply wp_bind. eapply wp_entry; [exact He|].
  assert (Hh : (q <$> arp_table s) !! i = Some (q e)) by (by rewrite list_lookup_fmap, He).
  assert (Hlt : (i < length (arp_table s))%nat) by (by eapply lookup_lt_Some).
  apply wp_bind. destruct (Z.eqb_spec (q e) 0) as [E|N]; cbn [negb].
  - apply wp_ret. eapply clear_entry_ok; [exact He|exact E|]. exists P.
    pose proof (Forall2_lookup_lr _ _ _ _ _ _ (core_queues _ _ _ _ _ _ Hc) Hh Hl) as Hq. rewrite E in Hq.
    destruct l as [|[a p] l]; [|by destruct Hq as (-> & ? & _)]. cbn [fmap list_fmap list_to_set].
    rewrite difference_empty_L, (list_insert_id Q) by done.
    split; [done|]. split; [by apply (tcore_upd _ _ _ _ _ _ _ (fun _ => free_slot) Hc He)|]. done.
  - unfold free_etharp_q. apply wp_bind, wp_bind, wp_assert; [by destruct (Z.eqb_spec (q e) 0)|].
    apply wp_bind, wp_gets. eapply wp_mono; [eapply free_q_loop_ok; [exact Hc|done|exact Hl|by eapply queue_size]|].
    intros _ s2 (P' & Hc2 & (As1 & As2 & As3) & St & Dv). eapply wp_upd; [by rewrite As1|].
    eapply (clear_entry_ok _ _ (set_q 0 e)); [cbn; apply list_lookup_insert_eq; by rewrite As1|done|]. exists P'. cbn [arp_table set_table].
    rewrite list_insert_insert_eq, As1. split; [done|]. split; [|done]. unfold tcore.
    cbn [arp_table set_table]. rewrite list_fmap_insert. by apply (core_same _ s2).
Qed.

(** ** The invariant of the table *)

Record table_ok (ns : gmap Z netif) (t : list etharp_entry) (Q : list (list (Z * Z))) : Prop := {
  tab_size : length t = 10%nat;
  tab_queue i e l : t !! i = Some e -> Q !! i = Some l ->
    (length l <= Z.to_nat ARP_QUEUE_LEN)%nat /\ (state e <> ETHARP_STATE_PENDING -> l = []);
  tab_age e : e ∈ t -> is_u16 (ctime e) /\ (is_empty e = false -> ctime e < ARP_MAXAGE) /\
    (state e = ETHARP_STATE_PENDING -> ctime e < ARP_MAXPENDING);
  tab_link e : e ∈ t -> is_empty e = false -> is_Some (ns !! enetif e) /\ (is_stable e = true -> length (ethaddr e) = 6%nat);
  tab_unique i j e f : t !! i = Some e -> t !! j = Some f -> is_empty e = false -> is_empty f = false ->
    ipaddr e = ipaddr f -> enetif e = enetif f -> i = j
}.

Lemma tab_ages ns t Q : table_ok ns t Q -> Forall (fun e => 0 <= ctime e) t.
Proof. intros Ht. apply Forall_forall. intros e He. apply (tab_age _ _ _ Ht e He). Qed.

Lemma tcore_queue s Q P Own U i e : tcore s Q P Own U -> arp_table s !! i = Some e ->
  exists l, Q !! i = Some l /\ qchain (arp_queues s) (q e) l.
Proof.
  intros Hc He. destruct (Forall2_lookup_l _ _ _ i (q e) (core_queues _ _ _ _ _ _ Hc)) as (l & Hl & Hq); [|by exists l].
  by rewrite list_lookup_fmap, He.
Qed.

(** The entry chosen, once it is free: an entry in use was cleared. *)
Definition cleared (e : etharp_entry) : etharp_entry := if is_empty e then set_q 0 e else free_slot.
Lemma cleared_fields e : q (cleared e) = 0 /\ state (cleared e) = ETHARP_STATE_EMPTY.
Proof. unfold cleared. destruct (is_empty e) eqn:E; [|done]. by apply bool_decide_eq_true in E. Qed.

(** The table after a new entry was made in place of the victim. *)
Definition new_entry (a n : Z) (e : etharp_entry) : etharp_entry := mkEntry 0 a n (ethaddr (cleared e)) 0 ETHARP_STATE_EMPTY.

Record made (s s' : Arp) (Q : list (list (Z * Z))) (P P' : packets) (Own U : gset Z) (a n : Z) (k : nat)
    (e : etharp_entry) (l : list (Z * Z)) : Prop := {
  made_entry : arp_table s !! k = Some e;
  made_queue : Q !! k = Some l;
  made_victim : victim (arp_table s) e;
  made_table : arp_table s' = <[k := new_entry a n e]> (arp_table s);
  made_core : tcore s' (<[k := []]> Q) P' Own (U ∖ list_to_set l.*1);
  made_cached : etharp_cached_entry s' = etharp_cached_entry s;
  made_netifs : netifs (anet s') = netifs (anet s);
  made_stays : stays l.*2 P (anet s) P' (anet s');
  made_dev : dev (anet s') = dev (anet s)
}.

(** Filling in the entry that was emptied. *)
Lemma fill_entry s s1 Q P P' Own U a n k e l : arp_table s !! k = Some e -> Q !! k = Some l -> victim (arp_table s) e ->
  (k < 10)%nat ->
  arp_table s1 = <[k := cleared e]> (arp_table s) ->
  tcore s1 (<[k := []]> Q) P' Own (U ∖ list_to_set l.*1) -> etharp_cached_entry s1 = etharp_cached_entry s ->
  netifs (anet s1) = netifs (anet s) -> stays l.*2 P (anet s) P' (anet s1) -> dev (anet s1) = dev (anet s) ->
  wp (assert_ (Z.of_nat k <? ARP_TABLE_SIZE);;
      e ← entry_at (Z.of_nat k);
      assert_ (bool_decide (state e = ETHARP_STATE_EMPTY));;
      upd_entry (Z.of_nat k) (set_ipaddr a);;
      upd_entry (Z.of_nat k) (set_ctime 0);;
      upd_entry (Z.of_nat k) (set_enetif n);;
      mret (Z.of_nat k)) s1
    (fun r s' => r = Z.of_nat k /\ made s s' Q P P' Own U a n k e l).
Proof.
  intros He Hl Hv Hk Ht Hc Hca Hni Hst Hdv. assert (Hlt : (k < length (arp_table s))%nat) by (by eapply lookup_lt_Some).
  apply wp_bind, wp_assert; [apply Z.ltb_lt; unfold ARP_TABLE_SIZE; lia|]. destruct (cleared_fields e) as [Hq0 Hst0].
  set (e1 := cleared e) in *.
  assert (He1 : arp_table s1 !! k = Some e1) by (rewrite Ht; by apply list_lookup_insert_eq).
  assert (Hlt1 : (k < length (arp_table s1))%nat) by (by eapply lookup_lt_Some).
  apply wp_bind. eapply wp_entry; [exact He1|]. apply wp_bind, wp_assert; [by rewrite bool_decide_eq_true_2|].
  apply wp_bind. eapply wp_upd; [exact He1|].
  apply wp_bind. eapply (wp_upd _ _ (set_ipaddr a e1)); [by apply list_lookup_insert_eq|].
  apply wp_bind. eapply (wp_upd _ _ (set_ctime 0 (set_ipaddr a e1))); [cbn; rewrite list_insert_insert_eq; by apply list_lookup_insert_eq|].
  apply wp_ret. split; [done|]. assert (Enew : set_enetif n (set_ctime 0 (set_ipaddr a e1)) = new_entry a n e).
  { unfold new_entry. fold e1. clearbody e1. destruct e1. cbn in *. by subst. }
  constructor; try done; cbn [arp_table set_table]; rewrite ?list_insert_insert_eq, ?Enew.
  - by rewrite Ht, list_insert_insert_eq.
  - pose proof (tcore_upd _ _ _ _ _ _ _ (fun _ => new_entry a n e) Hc He1 (eq_sym Hq0)) as Hc1. eapply core_same in Hc1; [|done|done].
    unfold tcore. cbn [arp_table set_table] in *. rewrite ?list_insert_insert_eq in Hc1. exact Hc1.
Qed.

Lemma cand_none : cand_ok [] no_candidates.
Proof.
  constructor; left; (split; [done|]); [|split; [done|]..]; by intros e ?%elem_of_nil.
Qed.

Lemma nat_index k : (Z.of_nat k <? 0) = false.
Proof. apply Z.ltb_ge. lia. Qed.

Lemma cleared_empty e : q e = 0 -> is_empty e = true -> cleared e = e.
Proof. unfold cleared. intros Hq ->. destruct e. cbn in *. by subst. Qed.
Lemma cleared_used e : is_empty e = false -> cleared e = free_slot.
Proof. unfold cleared. by intros ->. Qed.

(** Clearing the chosen entry: the index comes back with the entry free. *)
Lemma recycle_ok s Q P Own U c : tcore s Q P Own U -> table_ok (netifs (anet s)) (arp_table s) Q -> cand_ok (arp_table s) c ->
  wp (if c_empty c <? ARP_TABLE_SIZE then mret (c_empty c)
      else
        i ← (if old_stable c <? ARP_TABLE_SIZE then
               e ← entry_at (old_stable c);
               assert_ (q e =? 0);;
               mret (old_stable c)
             else if old_pending c <? ARP_TABLE_SIZE then mret (old_pending c)
             else if old_queue c <? ARP_TABLE_SIZE then mret (old_queue c)
             else mret ERR_MEM);
        (if i <? 0 then mret tt else assert_ (i <? ARP_TABLE_SIZE);; etharp_free_entry i);;
        mret i) s (fun i s' => exists k e l P', i = Z.of_nat k /\ arp_table s !! k = Some e /\ Q !! k = Some l /\
    victim (arp_table s) e /\ (k < 10)%nat /\ arp_table s' = <[k := cleared e]> (arp_table s) /\
    tcore s' (<[k := []]> Q) P' Own (U ∖ list_to_set l.*1) /\ etharp_cached_entry s' = etharp_cached_entry s /\
    netifs (anet s') = netifs (anet s) /\ stays l.*2 P (anet s) P' (anet s') /\ dev (anet s') = dev (anet s)).
Proof.
  intros Hc Ht Hca. pose proof (tab_size _ _ _ Ht) as Hsz.
  destruct (choice_ok _ _ Hca) as (k & e & Hch & Hk & Hv & _ & Hem & Hst & Hqu); [lia|by intros E; rewrite E in Hsz|].
  destruct (tcore_queue _ _ _ _ _ _ _ Hc Hk) as (l & Hl & Hq). destruct (tab_queue _ _ _ Ht _ _ _ Hk Hl) as [Hlen Hpend].
  assert (Hk10 : (k < 10)%nat) by (apply lookup_lt_Some in Hk; lia).
  unfold choice in Hch. destruct (Z.ltb_spec (c_empty c) ARP_TABLE_SIZE) as [Lt|Ge].
  - apply wp_ret. rewrite Hch. specialize (Hem Lt). unfold is_empty in Hem. apply bool_decide_eq_true in Hem.
    assert (l = []) as -> by (apply Hpend; congruence). cbn in Hq.
    exists k, e, [], P. rewrite cleared_empty by (done || by apply bool_decide_eq_true). cbn [fmap list_fmap list_to_set].
    rewrite difference_empty_L, !list_insert_id by done. done.
  - apply wp_bind. eapply (wp_mono _ _ (fun i s' => i = Z.of_nat k /\ s' = s)).
    + destruct (Z.ltb_spec (old_stable c) ARP_TABLE_SIZE) as [Lt2|Ge2].
      * rewrite Hch. apply wp_bind. eapply wp_entry; [exact Hk|]. apply wp_bind, wp_assert; [|by apply wp_ret].
        specialize (Hst Ge Lt2). assert (l = []) as -> by (apply Hpend; intros E; unfold is_stable in Hst; by rewrite E in Hst).
        cbn in Hq. by rewrite Hq.
      * destruct (Z.ltb_spec (old_pending c) ARP_TABLE_SIZE) as [|Ge3]; [by apply wp_ret|].
        specialize (Hqu Ge Ge2 Ge3). destruct (Z.ltb_spec (old_queue c) ARP_TABLE_SIZE); [by apply wp_ret|lia].
    + intros i s1 [-> ->]. rewrite nat_index. apply wp_bind, wp_bind, wp_assert; [apply Z.ltb_lt; unfold ARP_TABLE_SIZE; lia|].
      eapply wp_mono; [by eapply free_entry_ok|]. intros _ s2 (P' & Ht2 & Hc2 & Hca2 & Hni2 & Hst2 & Hdv2).
      apply wp_ret. exists k, e, l, P'. rewrite cleared_used; [done|].
      eapply none_empty; [exact Hca|lia|exact Ge|by eapply list_elem_of_lookup_2].
Qed.

Lemma find_entry_ok s Q P Own U a flags n : tcore s Q P Own U -> table_ok (netifs (anet s)) (arp_table s) Q ->
  flags = ETHARP_FLAG_TRY_HARD \/ flags = ETHARP_FLAG_FIND_ONLY ->
  wp (etharp_find_entry (Some a) flags n) s (fun r s' =>
    (exists k e, r = Z.of_nat k /\ s' = s /\ arp_table s !! k = Some e /\ matches (Some a) n e = true) \/
    (forall e, e ∈ arp_table s -> matches (Some a) n e = false) /\
    (flags = ETHARP_FLAG_FIND_ONLY /\ r = ERR_MEM /\ s' = s \/
     flags = ETHARP_FLAG_TRY_HARD /\ exists k e l P', r = Z.of_nat k /\ made s s' Q P P' Own U a n k e l)).
Proof.
  intros Hc Ht Hfl. unfold etharp_find_entry. apply wp_bind, wp_get.
  pose proof (search_ok (arp_table s) [] (Some a) n no_candidates cand_none (tab_ages _ _ _ Ht)) as Hs.
  cbn [length app Nat.add] in Hs. change (Z.of_nat 0) with 0 in Hs. specialize (Hs ltac:(rewrite (tab_size _ _ _ Ht); lia)).
  destruct (search 0 (arp_table s) (Some a) n no_candidates) as [i|c].
  { destruct Hs as (k & e & -> & Hk & Hm). apply wp_ret. left. by exists k, e. }
  destruct Hs as [Hca Hno]. destruct Hfl as [->| ->].
  2:{ apply wp_ret. right. split; [done|]. by left. }
  change (nz (Z.land ETHARP_FLAG_TRY_HARD ETHARP_FLAG_FIND_ONLY)) with false.
  change (Z.land ETHARP_FLAG_TRY_HARD ETHARP_FLAG_TRY_HARD =? 0) with false. rewrite andb_false_r. cbn [orb].
  apply wp_bind. eapply wp_mono; [by eapply recycle_ok|].
  intros i s1 (k & e & l & P' & -> & Hk & Hl & Hv & Hk10 & Ht1 & Hc1 & Hca1 & Hni1 & Hst1 & Hdv1). rewrite nat_index.
  eapply wp_mono; [by eapply (fill_entry s s1 Q P P' Own U a n k e l)|].
  intros r s2 [-> Hm]. right. split; [done|]. right. split; [done|]. by exists k, e, l, P'.
Qed.

(** ** Sending what waits on an entry *)

Definition packet_frames (P : packets) (m : mem) (dst src : list Z) (p : Z) : list (list Z) :=
  match P !! p with
  | Some ((a, b) :: l) => match contents m ((a, b) :: l) with Some c => frames dst src ETHTYPE_IP a b c | None => [] end
  | _ => []
  end.
Definition queue_frames (P : packets) (m : mem) (dst src : list Z) (l : list (Z * Z)) : list (list Z) :=
  l.*2 ≫= packet_frames P m dst src.

Lemma queue_frames_stays X P (t : net A D) P' (t' : net A D) dst src l : stays X P t P' t' ->
  (forall p, p ∈ l.*2 -> ~ (p ∈ X) /\ is_Some (P !! p)) ->
  queue_frames P' (pmem (ps t')) dst src l = queue_frames P (pmem (ps t)) dst src l.
Proof.
  intros Hs Hl. unfold queue_frames. induction l as [|[a p] l IH]; [done|]. cbn.
  rewrite IH by (intros; apply Hl; by right). f_equal. unfold packet_frames.
  destruct (Hl p) as [Hn [lp Hp]]; [left|]. destruct (Hs p lp Hn Hp) as [-> E]. rewrite Hp. destruct lp as [|[x b] lp]; [done|].
  by rewrite E.
Qed.

Lemma tcore_heads (s s' : Arp) Q P Own U : arp_table s' = arp_table s -> core (q <$> arp_table s) s' Q P Own U -> tcore s' Q P Own U.
Proof. intros E Hc. unfold tcore. by rewrite E. Qed.

(** One packet: taken off the queue, sent and given up. *)
Lemma send_head s Q P Own U i e a p l n ni dst : tcore s Q P Own U -> arp_table s !! i = Some e ->
  Q !! i = Some ((a, p) :: l) -> netifs (anet s) !! n = Some ni -> length dst = 6%nat ->
  exists nxt, arp_queues s !! q e = Some (mkQ nxt p) /\ q e = a /\ a <> 0 /\
  forall (R : M Arp unit) (Post : unit -> Arp -> Prop),
  (forall s' P', arp_table s' = <[i := set_q nxt e]> (arp_table s) -> tcore s' (<[i := l]> Q) P' Own (U ∖ {[a]}) ->
    etharp_cached_entry s' = etharp_cached_entry s -> netifs (anet s') = netifs (anet s) ->
    stays [p] P (anet s) P' (anet s') -> ~ (p ∈ l.*2) ->
    sends (dev (anet s)) (packet_frames P (pmem (ps (anet s))) dst (hwaddr ni) p) (dev (anet s')) -> wp R s' Post) ->
  wp (upd_entry (Z.of_nat i) (set_q nxt);;
      free_element (q e);;
      on_net (ethernet_output n p (hwaddr ni) dst ETHTYPE_IP);;
      on_pbuf (pbuf_free p);;
      R) s Post.
Proof.
  intros Hc He Hl Hn Hd. assert (Hh : (q <$> arp_table s) !! i = Some (q e)) by (by rewrite list_lookup_fmap, He).
  assert (Hi : (i < length Q)%nat) by (by eapply lookup_lt_Some).
  destruct (core_pop _ _ _ _ _ _ _ _ _ _ _ Hc Hh Hl) as (nxt & b & tl & Hqe & Ha & Hp & Hqa & Hc1 & Hnp & Hna & HaU & Hb & Ho).
  exists nxt. rewrite Hqe. split; [done|]. split; [done|]. split; [done|]. intros R Post HR.
  destruct (net_netifs _ _ _ (core_net _ _ _ _ _ _ Hc) _ _ Hn) as (_ & _ & Hhw).
  destruct (holds_contents _ _ _ _ _ (net_held _ _ _ (core_net _ _ _ _ _ _ Hc)) Hb) as [c Hcon].
  apply wp_bind. eapply wp_upd; [exact He|]. set (s1 := set_table _ s).
  assert (Hc2 : tcore s1 (<[i := l]> Q) P Own U).
  { unfold tcore. cbn [arp_table set_table s1]. rewrite list_fmap_insert. by apply (core_same _ s). }
  apply wp_bind. eapply wp_mono; [by apply (free_element_ok _ _ _ _ _ _ a Hc2)|]. intros _ s2 (Hc3 & As2 & St2 & Dv2).
  assert (Hn2 : netifs (anet s2) !! n = Some ni) by (destruct As2 as (_ & _ & ->); exact Hn).
  destruct (St2 p _ ltac:(by intros ?%elem_of_nil) Hb) as [_ Ec]. cbn [s1 anet set_table] in Ec.
  apply wp_bind. eapply wp_mono; [eapply (core_output _ _ _ _ _ _ n ni p b tl _ dst ETHTYPE_IP c Hc3 Hnp Hb Hn2 Hhw Hd); by rewrite Ec|].
  intros _ s3 (b' & Href & Hc4 & As3 & St3 & Sn3 & _).
  apply wp_bind. eapply wp_mono; [eapply (core_free _ _ _ _ _ _ p b' tl Hc4 Hnp); [apply lookup_insert_eq|by rewrite Href]|].
  intros _ s4 (Hc5 & As4 & St4 & Dv4 & _).
  destruct (aside_trans _ _ _ As2 (aside_trans _ _ _ As3 As4)) as (T1 & T2 & T3).
  apply (HR s4 (dropped p b' tl (<[p := (p, b') :: tl]> P))); [exact T1|by eapply tcore_heads|exact T2|exact T3|..].
  - eapply (stays_weaken (([] ++ [p]) ++ [p])); [set_solver|].
    eapply stays_trans; [eapply stays_trans|exact St4]; [exact St2|exact St3].
  - intros Hin. apply Hnp. unfold pkts. apply list_elem_of_fmap in Hin as (x & -> & Hx). apply list_elem_of_fmap. exists x.
    split; [done|]. eapply queue_in; [|exact Hx]. by apply list_lookup_insert_eq.
  - unfold packet_frames. rewrite Hb, Hcon, Dv4. rewrite Dv2 in Sn3. exact Sn3.
Qed.

Lemma send_queue_ok fuel s Q P Own U i e l n ni dst : tcore s Q P Own U -> arp_table s !! i = Some e ->
  Q !! i = Some l -> netifs (anet s) !! n = Some ni -> length dst = 6%nat -> (length l < fuel)%nat ->
  wp (send_queue fuel (Z.of_nat i) n (hwaddr ni) dst) s (fun _ s' => exists P',
    arp_table s' = <[i := set_q 0 e]> (arp_table s) /\ tcore s' (<[i := []]> Q) P' Own (U ∖ list_to_set l.*1) /\
    etharp_cached_entry s' = etharp_cached_entry s /\ netifs (anet s') = netifs (anet s) /\
    stays l.*2 P (anet s) P' (anet s') /\
    sends (dev (anet s)) (queue_frames P (pmem (ps (anet s))) dst (hwaddr ni) l) (dev (anet s'))).
Proof.
  revert fuel s Q P U e. induction l as [|[a p] l IH]; intros fuel s Q P U e Hc He Hl Hn Hd Hf;
    (destruct fuel as [|fuel]; [cbn in Hf; lia|]); cbn [send_queue]; apply wp_bind; (eapply wp_entry; [exact He|]).
  - pose proof (tcore_queue _ _ _ _ _ _ _ Hc He) as (l & Hl' & Hq). assert (l = []) as -> by congruence. cbn in Hq.
    rewrite Hq, Z.eqb_refl. apply wp_ret. exists P. cbn [fmap list_fmap list_to_set]. rewrite difference_empty_L, !list_insert_id; try done.
    by destruct e; cbn in *; subst.
  - destruct (send_head _ _ _ _ _ _ _ _ _ _ n ni dst Hc He Hl Hn Hd) as (nxt & Hqa & Hqe & Ha & Hrun).
    destruct (Z.eqb_spec (q e) 0) as [|_]; [congruence|]. apply wp_bind. eapply wp_queue_at; [exact Hqa|]. cbn [q_next q_p].
    apply Hrun. intros s1 P1 Ht1 Hc1 Hca1 Hni1 Hst1 Hnp Hse1.
    assert (Hlt : (i < length (arp_table s))%nat) by (by eapply lookup_lt_Some).
    assert (HltQ : (i < length Q)%nat) by (by eapply lookup_lt_Some).
    assert (Hpin : forall p', p' ∈ l.*2 -> ~ (p' ∈ [p]) /\ is_Some (P !! p')).
    { intros p' Hin. split; [apply ne_single; by intros ->|]. apply (core_pinned _ _ _ _ _ _ Hc). unfold pkts.
      apply list_elem_of_fmap in Hin as (x & -> & Hx). apply list_elem_of_fmap. exists x. split; [done|].
      eapply queue_in; [exact Hl|by right]. }
    eapply wp_mono; [eapply (IH fuel s1 _ P1 _ (set_q nxt e) Hc1)|].
    + rewrite Ht1. by apply list_lookup_insert_eq.
    + by apply list_lookup_insert_eq.
    + by rewrite Hni1.
    + done.
    + cbn in Hf. lia.
    + intros _ s2 (P2 & Ht2 & Hc2 & Hca2 & Hni2 & Hst2 & Hse2). exists P2.
      rewrite Ht2, Ht1, !list_insert_insert_eq in *. split; [done|]. split.
      { cbn [fmap list_fmap list_to_set]. by rewrite <- difference_difference_l_L. }
      split; [congruence|]. split; [congruence|]. split; [exact (stays_trans [p] l.*2 _ _ _ _ _ _ Hst1 Hst2)|].
      unfold queue_frames. cbn [fmap list_fmap mbind list_bind]. eapply sends_app; [exact Hse1|].
      rewrite (queue_frames_stays _ _ _ _ _ _ _ _ Hst1 Hpin) in Hse2. exact Hse2.
Qed.
End ArpOk.
