(* ===== verification/EtharpOk.v ===== *)
(** The operations of etharp.c preserve the invariant of the table, and what
    they do for the packets that wait. *)
From S2P Require Import Prelude CMem Memp Pbuf IpAddr Packets Ethernet Etharp EtharpInv.

Section Table.

Lemma lookup_set {X} (t : list X) k x j y : (<[k := x]> t) !! j = Some y ->
  (j = k /\ y = x /\ (k < length t)%nat) \/ (j <> k /\ t !! j = Some y).
Proof.
  destruct (decide (j = k)) as [->|Hne]; intros Hj.
  - left. pose proof Hj as Hl. apply lookup_lt_Some in Hl. rewrite length_insert in Hl.
    rewrite list_lookup_insert_eq in Hj by done. by injection Hj as <-.
  - right. by rewrite list_lookup_insert_ne in Hj by done.
Qed.

(** Writing one entry and its queue. *)
Lemma table_ok_set ns t Q k e' l' : table_ok ns t Q ->
  (length l' <= Z.to_nat ARP_QUEUE_LEN)%nat /\ (state e' <> ETHARP_STATE_PENDING -> l' = []) ->
  is_u16 (ctime e') /\ (is_empty e' = false -> ctime e' < ARP_MAXAGE) /\
    (state e' = ETHARP_STATE_PENDING -> ctime e' < ARP_MAXPENDING) ->
  (is_empty e' = false -> is_Some (ns !! enetif e') /\ (is_stable e' = true -> length (ethaddr e') = 6%nat)) ->
  (is_empty e' = false -> forall j f, j <> k -> t !! j = Some f -> is_empty f = false ->
     ipaddr f = ipaddr e' -> enetif f = enetif e' -> False) ->
  table_ok ns (<[k := e']> t) (<[k := l']> Q).
Proof.
  intros [T1 T2 T3 T4 T5] Hq Ha Hl Hu.
  assert (Hin : forall e, e ∈ <[k := e']> t -> e = e' \/ e ∈ t).
  { intros e (j & Hj)%list_elem_of_lookup. apply lookup_set in Hj as [(_ & -> & _)|[_ Hj]]; [by left|].
    right. by eapply list_elem_of_lookup_2. }
  constructor.
  - by rewrite length_insert.
  - intros i e l He Hl'. apply lookup_set in He as [(-> & -> & _)|[Hne He]];
      apply lookup_set in Hl' as [(E & -> & _)|[Hne' Hl']]; try done. by eapply T2.
  - intros e [->|He]%Hin; [done|by apply T3].
  - intros e [->|He]%Hin; [done|by apply T4].
  - intros i j e f He Hf Ee Ef Hip Hn. apply lookup_set in He as [(-> & -> & _)|[Hne He]];
      apply lookup_set in Hf as [(-> & -> & _)|[Hne' Hf]]; try done.
    + exfalso. by eapply (Hu Ee j f).
    + exfalso. by eapply (Hu Ef i e).
    + by eapply T5.
Qed.

(** Changing state, age or address of an entry that keeps its key. *)
Lemma table_ok_touch ns t Q k e e' l l' : table_ok ns t Q -> t !! k = Some e -> Q !! k = Some l ->
  is_empty e = false -> ipaddr e' = ipaddr e -> enetif e' = enetif e ->
  (length l' <= Z.to_nat ARP_QUEUE_LEN)%nat /\ (state e' <> ETHARP_STATE_PENDING -> l' = []) ->
  is_u16 (ctime e') /\ ctime e' < ARP_MAXAGE /\ (state e' = ETHARP_STATE_PENDING -> ctime e' < ARP_MAXPENDING) ->
  (is_stable e' = true -> length (ethaddr e') = 6%nat) ->
  table_ok ns (<[k := e']> t) (<[k := l']> Q).
Proof.
  intros Ht Hk Hl He Ei En Hq (Ha1 & Ha2 & Ha3) Hs. apply table_ok_set; [done|done|exact (conj Ha1 (conj (fun _ => Ha2) Ha3))|..].
  - intros _. rewrite En. split; [|done]. apply (tab_link _ _ _ Ht e); [by eapply list_elem_of_lookup_2|done].
  - intros _ j f Hne Hj Hf Eq1 Eq2. apply Hne. apply (tab_unique _ _ _ Ht j k f e Hj Hk Hf He); congruence.
Qed.

(** An entry becomes free. *)
Lemma table_ok_free ns t Q k : table_ok ns t Q -> table_ok ns (<[k := free_slot]> t) (<[k := []]> Q).
Proof.
  intros Ht. apply table_ok_set; [done|..]; cbn; try done.
  split; [lia|done].
Qed.

Lemma table_ok_netifs ns ns' t Q : ns' = ns -> table_ok ns t Q -> table_ok ns' t Q.
Proof. by intros ->. Qed.

Lemma elems_clear Q j l : NoDup (elems Q) -> Q !! j = Some l ->
  list_to_set (elems Q) ∖ list_to_set l.*1 =@{gset Z} list_to_set (elems (<[j := []]> Q)).
Proof.
  intros Hn Hl. destruct (concat_split _ _ _ Hl) as (R & HR & HR'). specialize (HR' []).
  unfold elems in *. rewrite HR, fmap_app in Hn. apply NoDup_app in Hn as (_ & Hd & _).
  apply set_eq. intros x. rewrite elem_of_difference, !elem_of_list_to_set. rewrite HR, HR', fmap_app, elem_of_app.
  cbn [app]. split; [tauto|]. intros Hx. split; [by right|]. intros Hx'. by apply (Hd x).
Qed.
End Table.

Section Queues.

Lemma qchain_snoc m h l a pa r p : qchain m h (l ++ [(a, pa)]) -> NoDup (l ++ [(a, pa)]).*1 -> ~ (r ∈ (l ++ [(a, pa)]).*1) ->
  r <> 0 -> p <> 0 -> qchain (<[a := mkQ r pa]> (<[r := mkQ 0 p]> m)) h ((l ++ [(a, pa)]) ++ [(r, p)]).
Proof.
  revert h. induction l as [|[x px] l IH]; intros h Hq Hn Hr Hr0 Hp0.
  - destruct Hq as (-> & Ha & Hpa & nxt & _ & _). cbn in *. rewrite list_elem_of_singleton in Hr.
    repeat (split; [done|]). exists r. rewrite lookup_insert_eq. split; [done|]. repeat (split; [done|]). exists 0.
    rewrite lookup_insert_ne by (by intros ->). by rewrite lookup_insert_eq.
  - destruct Hq as (-> & Hx & Hpx & nxt & Hm & Hq). cbn [app fmap list_fmap fst] in Hn, Hr.
    apply NoDup_cons in Hn as [Hxn Hn]. apply not_elem_of_cons in Hr as [Hrx Hr]. cbn [app].
    repeat (split; [done|]). exists nxt. split; [|by apply IH].
    rewrite !lookup_insert_ne; [done|done|]. intros ->. apply Hxn. rewrite fmap_app. apply elem_of_app. right. left.
Qed.

(** The store after a new element [r] was put at the end of a queue. *)
Definition pushed (m : gmap Z etharp_q_entry) (l : list (Z * Z)) (r p : Z) : gmap Z etharp_q_entry :=
  match last l with
  | Some (a, pa) => <[a := mkQ r pa]> (<[r := mkQ 0 p]> m)
  | None => <[r := mkQ 0 p]> m
  end.
Lemma qchain_push m h l r p : qchain m h l -> NoDup l.*1 -> ~ (r ∈ l.*1) -> r <> 0 -> p <> 0 ->
  qchain (pushed m l r p) (if h =? 0 then r else h) (l ++ [(r, p)]).
Proof.
  intros Hq Hn Hr Hr0 Hp0. unfold pushed. induction l as [|[a pa] l _] using rev_ind.
  - cbn in Hq. subst h. cbn. repeat (split; [done|]). exists 0. by rewrite lookup_insert_eq.
  - rewrite last_snoc. destruct (Z.eqb_spec h 0) as [->|_]; [|by apply qchain_snoc].
    by destruct l as [|[x px] l]; destruct Hq as (<- & ? & _).
Qed.
Lemma pushed_other m l r p x : ~ (x ∈ l.*1) -> x <> r -> pushed m l r p !! x = m !! x.
Proof.
  intros Hx Hr. unfold pushed. destruct (last l) as [[a pa]|] eqn:E; [|by apply lookup_insert_ne].
  rewrite lookup_insert_ne; [by apply lookup_insert_ne|]. intros ->. apply Hx.
  apply last_Some in E as [l' ->]. rewrite fmap_app. apply elem_of_app. right. left.
Qed.
Lemma queues_apart Q (i j : nat) l y a : NoDup (elems Q) -> Q !! i = Some l -> Q !! j = Some y -> j <> i -> a ∈ y.*1 -> ~ (a ∈ l.*1).
Proof.
  intros Hn Hl Hy Hne Ha Hal. destruct (concat_split _ _ _ Hl) as (R & HR & HR'). specialize (HR' []). cbn [app] in HR'.
  unfold elems in Hn. rewrite HR, fmap_app in Hn. apply NoDup_app in Hn as (_ & Hd & _). apply (Hd a Hal).
  apply list_elem_of_fmap in Ha as (x & -> & Hx). apply list_elem_of_fmap. exists x. split; [done|]. rewrite <- HR'.
  eapply queue_in; [|exact Hx]. by rewrite list_lookup_insert_ne.
Qed.
Lemma qchain_last m h l a pa : qchain m h (l ++ [(a, pa)]) -> m !! a = Some (mkQ 0 pa).
Proof.
  revert h. induction l as [|[x px] l IH]; intros h; [|intros (_ & _ & _ & nxt & _ & Hq); by eapply IH].
  intros (_ & _ & _ & nxt & Hm & Hq). cbn in Hq. by subst.
Qed.
End Queues.

Section Ok.
Context {A D : Type} `{PbufHeap A} `{LinkOk D}.
Abbreviation Arp := (arp A D).
Abbreviation packets := (gmap Z (list (Z * pbuf))).

(** The state of the module: the queues hold exactly the queue elements in use. *)
Record arp_ok (s : Arp) (Q : list (list (Z * Z))) (P : packets) (Own : gset Z) : Prop := {
  ok_core : tcore s Q P Own (list_to_set (elems Q));
  ok_table : table_ok (netifs (anet s)) (arp_table s) Q;
  ok_cached : 0 <= etharp_cached_entry s < ARP_TABLE_SIZE
}.

Lemma ok_netif s Q P Own n ni : arp_ok s Q P Own -> netifs (anet s) !! n = Some ni -> netif_ok n ni.
Proof. intros Hok. apply (net_netifs _ _ _ (core_net _ _ _ _ _ _ (ok_core _ _ _ _ Hok))). Qed.

Lemma ok_queue s Q P Own i e : arp_ok s Q P Own -> arp_table s !! i = Some e ->
  exists l, Q !! i = Some l /\ qchain (arp_queues s) (q e) l /\ (length l <= Z.to_nat ARP_QUEUE_LEN)%nat /\
    (state e <> ETHARP_STATE_PENDING -> l = []).
Proof.
  intros Hok He. destruct (tcore_queue _ _ _ _ _ _ _ (ok_core _ _ _ _ Hok) He) as (l & Hl & Hq).
  exists l. split; [done|]. split; [done|]. by apply (tab_queue _ _ _ (ok_table _ _ _ _ Hok) i e l).
Qed.

(** ** Freeing entries *)

Lemma free_entry_keeps s Q P Own i e : arp_ok s Q P Own -> arp_table s !! i = Some e ->
  wp (etharp_free_entry (Z.of_nat i)) s (fun _ s' => exists Q' P', arp_ok s' Q' P' Own /\
    netifs (anet s') = netifs (anet s) /\ dev (anet s') = dev (anet s) /\
    length (arp_table s') = length (arp_table s)).
Proof.
  intros Hok He. destruct (ok_queue _ _ _ _ _ _ Hok He) as (l & Hl & _). pose proof Hok as [Hc Ht Hca].
  eapply wp_mono; [by eapply free_entry_ok|]. intros _ s' (P' & Ht' & Hc' & Hca' & Hni' & _ & Hdv').
  exists (<[i := []]> Q), P'. split; [|split; [done|split; [done|by rewrite Ht', length_insert]]]. constructor.
  - rewrite (elems_clear _ _ _ (core_elems _ _ _ _ _ _ Hc) Hl) in Hc'. done.
  - rewrite Ht', Hni'. by apply table_ok_free.
  - by rewrite Hca'.
Qed.

Lemma cleanup_loop_ok todo i s Q P Own n : arp_ok s Q P Own -> (i + todo <= 10)%nat ->
  wp (cleanup_loop todo (Z.of_nat i) n) s (fun _ s' => exists Q' P', arp_ok s' Q' P' Own /\
    netifs (anet s') = netifs (anet s) /\ dev (anet s') = dev (anet s)).
Proof.
  revert i s Q P. induction todo as [|todo IH]; intros i s Q P Hok Hi; cbn [cleanup_loop].
  - apply wp_ret. by exists Q, P.
  - pose proof (tab_size _ _ _ (ok_table _ _ _ _ Hok)) as Hsz.
    destruct (lookup_lt_is_Some_2 (arp_table s) i) as [e He]; [lia|].
    apply wp_bind. eapply wp_entry; [exact He|]. apply wp_bind.
    replace (Z.of_nat i + 1) with (Z.of_nat (S i)) by lia. destruct (_ && _).
    + eapply wp_mono; [by eapply free_entry_keeps|]. intros _ s1 (Q1 & P1 & Hok1 & Hn1 & Hd1 & _).
      eapply wp_mono; [eapply (IH (S i) s1 Q1 P1 Hok1); lia|]. intros _ s2 (Q2 & P2 & Hok2 & Hn2 & Hd2).
      exists Q2, P2. split; [done|]. split; congruence.
    + apply wp_ret. eapply (IH (S i) s Q P Hok). lia.
Qed.

(** ** Requests *)

Lemma core_set_net heads (s : Arp) t Q P Own U : core heads s Q P Own U -> net_ok t P U -> core heads (set_anet t s) Q P Own U.
Proof. intros [? ? ? ? ? ? ?] Ht. by constructor. Qed.

Lemma ok_set_net s t Q P Own : arp_ok s Q P Own -> net_ok t P (list_to_set (elems Q)) -> netifs t = netifs (anet s) ->
  arp_ok (set_anet t s) Q P Own.
Proof.
  intros [Hc Ht Hca] Hn Hni. constructor; [|by apply (table_ok_netifs (netifs (anet s)))|done].
  by apply (core_set_net _ s).
Qed.

Definition request_frame (ni : netif) (hw : list Z) (ip : Z) : list Z :=
  frame_of hw (hwaddr ni) ETHTYPE_ARP (arp_packet ARP_REQUEST (hwaddr ni) (ip_addr (inet ni)) ethzero ip).

Lemma raw_keeps s Q P Own n ni hw hwdst ipdst opcode : arp_ok s Q P Own -> netifs (anet s) !! n = Some ni ->
  length hw = 6%nat -> length hwdst = 6%nat ->
  wp (etharp_raw n (hwaddr ni) hw (hwaddr ni) (ip_addr (inet ni)) hwdst ipdst opcode) s (fun r s' => exists t', s' = set_anet t' s /\
    arp_ok s' Q P Own /\ netifs t' = netifs (anet s) /\ stays [] P (anet s) P t' /\
    (r = ERR_MEM /\ dev t' = dev (anet s) \/
     r = ERR_OK /\ sends (dev (anet s)) [frame_of hw (hwaddr ni) ETHTYPE_ARP
       (arp_packet opcode (hwaddr ni) (ip_addr (inet ni)) hwdst ipdst)] (dev t'))).
Proof.
  intros Hok Hn Hhw Hdst. destruct (ok_netif _ _ _ _ _ _ Hok Hn) as (_ & _ & Hlen).
  eapply wp_mono; [eapply raw_ok; [apply (core_net _ _ _ _ _ _ (ok_core _ _ _ _ Hok))|exact Hn|done..]|].
  intros r s' (t' & -> & Hnet & Hni & Hst & Hr). exists t'. split; [done|]. split; [by apply ok_set_net|]. done.
Qed.

Lemma request_keeps s Q P Own n ni hw ip : arp_ok s Q P Own -> netifs (anet s) !! n = Some ni -> length hw = 6%nat ->
  wp (etharp_request_dst n ip hw) s (fun r s' => exists t', s' = set_anet t' s /\
    arp_ok s' Q P Own /\ netifs t' = netifs (anet s) /\ stays [] P (anet s) P t' /\
    (r = ERR_MEM /\ dev t' = dev (anet s) \/ r = ERR_OK /\ sends (dev (anet s)) [request_frame ni hw ip] (dev t'))).
Proof.
  intros Hok Hn Hhw. unfold etharp_request_dst. apply wp_bind. eapply wp_netif; [exact Hn|].
  by apply raw_keeps.
Qed.

(** ** The timer *)

(** What a tick does to an entry. *)
Definition expires (e : etharp_entry) : bool :=
  (ARP_MAXAGE <=? ctime e) || bool_decide (state e = ETHARP_STATE_PENDING) && (ARP_MAXPENDING <=? ctime e).
Definition next_state (st : etharp_state) : etharp_state :=
  match st with
  | ETHARP_STATE_STABLE_REREQUESTING_1 => ETHARP_STATE_STABLE_REREQUESTING_2
  | ETHARP_STATE_STABLE_REREQUESTING_2 => ETHARP_STATE_STABLE
  | _ => st
  end.
Definition aged (e : etharp_entry) : etharp_entry :=
  if is_empty e then e
  else
    let e := set_ctime (ctime e + 1) e in
    if expires e then free_slot else set_state (next_state (state e)) e.
Definition ticked (t : list etharp_entry) (i : nat) : list etharp_entry :=
  match t !! i with Some e => <[i := aged e]> t | None => t end.
Lemma ticked_at t i e : t !! i = Some e -> ticked t i = <[i := aged e]> t.
Proof. intros He. unfold ticked. by rewrite He. Qed.

Lemma tmr_free s Q P Own i e c : arp_ok s Q P Own -> arp_table s !! i = Some e ->
  wp (etharp_free_entry (Z.of_nat i)) (set_table (<[i := set_ctime c e]> (arp_table s)) s) (fun _ s' => exists Q' P',
    arp_ok s' Q' P' Own /\ netifs (anet s') = netifs (anet s) /\ arp_table s' = <[i := free_slot]> (arp_table s)).
Proof.
  intros Hok He. destruct (ok_queue _ _ _ _ _ _ Hok He) as (l & Hl & _). pose proof Hok as [Hc Ht Hca].
  assert (Hlt : (i < length (arp_table s))%nat) by (by eapply lookup_lt_Some).
  eapply wp_mono.
  { eapply (free_entry_ok _ Q P Own _ i (set_ctime c e) l); [by apply tcore_upd|cbn; by apply list_lookup_insert_eq|done]. }
  intros _ s' (P' & Ht' & Hc' & Hca' & Hni' & _ & _). cbn [arp_table set_table] in Ht'. rewrite list_insert_insert_eq in Ht'.
  exists (<[i := []]> Q), P'. split; [|by split]. constructor.
  - by rewrite (elems_clear _ _ _ (core_elems _ _ _ _ _ _ Hc) Hl) in Hc'.
  - rewrite Ht', Hni'. by apply table_ok_free.
  - by rewrite Hca'.
Qed.

Lemma ok_touch s Q P Own i e e' l : arp_ok s Q P Own -> arp_table s !! i = Some e -> Q !! i = Some l ->
  is_empty e = false -> q e' = q e -> ipaddr e' = ipaddr e -> enetif e' = enetif e ->
  (state e' <> ETHARP_STATE_PENDING -> l = []) ->
  is_u16 (ctime e') /\ ctime e' < ARP_MAXAGE /\ (state e' = ETHARP_STATE_PENDING -> ctime e' < ARP_MAXPENDING) ->
  (is_stable e' = true -> length (ethaddr e') = 6%nat) ->
  arp_ok (set_table (<[i := e']> (arp_table s)) s) Q P Own.
Proof.
  intros [Hc Ht Hca] He Hl Hne Hq Hi Hn Hp Ha Hs. constructor; [|cbn|done].
  - by apply (tcore_upd _ _ _ _ _ _ _ (fun _ => e') Hc He).
  - rewrite <- (list_insert_id Q i l Hl). eapply table_ok_touch; try done.
    split; [|done]. by apply (tab_queue _ _ _ Ht i e l).
Qed.

(** The entry grew older and did not expire. *)
Lemma tmr_older s Q P Own i e : arp_ok s Q P Own -> arp_table s !! i = Some e -> is_empty e = false ->
  expires (set_ctime (ctime e + 1) e) = false ->
  arp_ok (set_table (<[i := set_ctime (ctime e + 1) e]> (arp_table s)) s) Q P Own.
Proof.
  intros Hok He He0 Hx. pose proof (ok_table _ _ _ _ Hok) as Ht.
  destruct (ok_queue _ _ _ _ _ _ Hok He) as (l & Hl & _ & _ & Hp).
  assert (Hin : e ∈ arp_table s) by (by eapply list_elem_of_lookup_2).
  destruct (tab_age _ _ _ Ht e Hin) as (Ha1 & Ha2 & _). destruct (tab_link _ _ _ Ht e Hin He0) as [_ Heth].
  unfold is_u16, ARP_MAXAGE in *. specialize (Ha2 He0). unfold expires in Hx. cbn [ctime state set_ctime] in Hx.
  apply orb_false_iff in Hx as [Hx1%Z.leb_gt Hx2].
  eapply ok_touch; [exact Hok|done..| |done]. split; [unfold is_u16; cbn; lia|]. split; [done|]. cbn. intros E.
  rewrite bool_decide_eq_true_2 in Hx2 by done. by apply Z.leb_gt in Hx2.
Qed.

(** A state that goes on after a tick. *)
Lemma tmr_state s Q P Own i e st : arp_ok s Q P Own -> arp_table s !! i = Some e -> is_stable e = true -> stable st = true ->
  wp (upd_entry (Z.of_nat i) (set_state st)) s (fun _ s' => exists Q' P', arp_ok s' Q' P' Own /\
    netifs (anet s') = netifs (anet s) /\ arp_table s' = <[i := set_state st e]> (arp_table s)).
Proof.
  intros Hok He Hse Hst. pose proof (ok_table _ _ _ _ Hok) as Ht.
  destruct (ok_queue _ _ _ _ _ _ Hok He) as (l & Hl & _ & _ & Hp).
  assert (Hin : e ∈ arp_table s) by (by eapply list_elem_of_lookup_2).
  assert (He0 : is_empty e = false) by (unfold is_empty, is_stable in *; by destruct (state e)).
  destruct (tab_age _ _ _ Ht e Hin) as (Ha1 & Ha2 & _). destruct (tab_link _ _ _ Ht e Hin He0) as [_ Heth].
  eapply wp_upd; [exact He|]. exists Q, P. split; [|done].
  eapply (ok_touch s Q P Own i e (set_state st e) l Hok He Hl He0); try done.
  - intros _. apply Hp. intros E. unfold is_stable in Hse. by rewrite E in Hse.
  - split; [done|]. split; [by apply Ha2|]. cbn. intros E. by rewrite E in Hst.
  - intros _. by apply Heth.
Qed.

Lemma tmr_entry_ok i s Q P Own : arp_ok s Q P Own -> (i < 10)%nat ->
  wp (tmr_entry (Z.of_nat i)) s (fun _ s' => exists Q' P', arp_ok s' Q' P' Own /\ netifs (anet s') = netifs (anet s) /\
    arp_table s' = ticked (arp_table s) i).
Proof.
  intros Hok Hi. pose proof (ok_table _ _ _ _ Hok) as Ht. pose proof (tab_size _ _ _ Ht) as Hsz.
  destruct (lookup_lt_is_Some_2 (arp_table s) i) as [e He]; [lia|]. rewrite (ticked_at _ _ _ He).
  assert (Hin : e ∈ arp_table s) by (by eapply list_elem_of_lookup_2). destruct (tab_age _ _ _ Ht e Hin) as (Ha1 & Ha2 & _).
  unfold tmr_entry, aged. apply wp_bind. eapply wp_entry; [exact He|].
  destruct (is_empty e) eqn:He0; unfold is_empty in He0.
  { apply bool_decide_eq_true in He0. rewrite bool_decide_eq_false_2 by (intros []; done). apply wp_ret. exists Q, P.
    by rewrite list_insert_id. }
  apply bool_decide_eq_false in He0 as Hne. rewrite bool_decide_eq_true_2 by done. specialize (Ha2 eq_refl).
  unfold is_u16, ARP_MAXAGE in Ha1, Ha2. rewrite u16_small by (unfold is_u16; lia).
  apply wp_bind. eapply wp_upd; [exact He|]. set (e1 := set_ctime (ctime e + 1) e). set (s1 := set_table _ s).
  assert (He1 : arp_table s1 !! i = Some e1) by (apply list_lookup_insert_eq; lia).
  apply wp_bind. eapply wp_entry; [exact He1|]. fold (expires e1). destruct (expires e1) eqn:Hx.
  { by apply (tmr_free _ _ _ _ _ _ _ Hok He). }
  pose proof (tmr_older _ _ _ _ _ _ Hok He He0 Hx) as Hok1. fold e1 s1 in Hok1.
  assert (Eins : forall x, <[i := x]> (arp_table s1) = <[i := x]> (arp_table s)) by (intros x; apply list_insert_insert_eq).
  assert (Hid : set_state (state e1) e1 = e1) by (by destruct e).
  destruct (state e1) eqn:Es; cbn [next_state]; try done.
  - destruct (tab_link _ _ _ Ht e Hin He0) as [[ni Hni] _].
    apply wp_bind. eapply wp_mono; [by apply (request_keeps s1 Q P Own _ ni ethbroadcast _ Hok1 Hni)|].
    intros r s2 (t' & -> & Hok2 & Hni2 & _). apply wp_ret. exists Q, P. split; [done|]. split; [done|]. by rewrite Hid.
  - apply wp_ret. exists Q, P. split; [done|]. split; [done|]. by rewrite Hid.
  - rewrite <- Eins. apply (tmr_state s1 Q P Own i e1 _ Hok1 He1); [unfold is_stable; by rewrite Es|done].
  - rewrite <- Eins. apply (tmr_state s1 Q P Own i e1 _ Hok1 He1); [unfold is_stable; by rewrite Es|done].
Qed.

Lemma tmr_loop_ok todo i s Q P Own : arp_ok s Q P Own -> (i + todo <= 10)%nat ->
  wp (tmr_loop todo (Z.of_nat i)) s (fun _ s' => exists Q' P', arp_ok s' Q' P' Own /\ netifs (anet s') = netifs (anet s) /\
    arp_table s' = foldl ticked (arp_table s) (seq i todo)).
Proof.
  revert i s Q P. induction todo as [|todo IH]; intros i s Q P Hok Hi; cbn [tmr_loop seq foldl].
  - apply wp_ret. by exists Q, P.
  - apply wp_bind. eapply wp_mono; [eapply tmr_entry_ok; [exact Hok|lia]|]. intros _ s1 (Q1 & P1 & Hok1 & Hn1 & Ht1).
    replace (Z.of_nat i + 1) with (Z.of_nat (S i)) by lia.
    eapply wp_mono; [eapply (IH (S i) s1 Q1 P1 Hok1); lia|]. intros _ s2 (Q2 & P2 & Hok2 & Hn2 & Ht2).
    exists Q2, P2. split; [done|]. split; [congruence|]. by rewrite Ht2, Ht1.
Qed.

Lemma ticked_all (t : list etharp_entry) : foldl ticked t (seq 0 (length t)) = aged <$> t.
Proof.
  cut (forall t pre : list etharp_entry, foldl ticked (pre ++ t) (seq (length pre) (length t)) = pre ++ (aged <$> t)); [intros H'; apply (H' t [])|].
  clear t. induction t as [|e t IH]; intros pre; [done|]. cbn [length seq foldl].
  assert (E : ticked (pre ++ e :: t) (length pre) = (pre ++ [aged e]) ++ t).
  { erewrite ticked_at by (by rewrite list_lookup_middle). rewrite insert_app_r_alt, Nat.sub_diag by lia. by rewrite <- app_assoc. }
  rewrite E. specialize (IH (pre ++ [aged e])). rewrite length_app, Nat.add_1_r in IH. rewrite IH. by rewrite <- app_assoc.
Qed.

Lemma tmr_ok s Q P Own : arp_ok s Q P Own ->
  wp etharp_tmr s (fun _ s' => exists Q' P', arp_ok s' Q' P' Own /\ netifs (anet s') = netifs (anet s) /\
    arp_table s' = aged <$> arp_table s).
Proof.
  intros Hok. rewrite <- ticked_all, (tab_size _ _ _ (ok_table _ _ _ _ Hok)).
  apply (tmr_loop_ok 10 0 s Q P Own Hok). lia.
Qed.

(** ** An address is learned *)

Definition unicast (ip : Z) (ni : netif) : bool :=
  negb (ip4_addr_isany ip || ip4_addr_isbroadcast_u32 ip (inet ni) || ip4_addr_ismulticast ip).
Definition learned (ip n : Z) (eth : list Z) : etharp_entry := mkEntry 0 ip n eth 0 ETHARP_STATE_STABLE.

Lemma set_fields_ok s Q P Own U k e l n ni eth : tcore s Q P Own U -> arp_table s !! k = Some e -> Q !! k = Some l ->
  netifs (anet s) !! n = Some ni -> length eth = 6%nat ->
  wp (upd_entry (Z.of_nat k) (set_state ETHARP_STATE_STABLE);;
      upd_entry (Z.of_nat k) (set_enetif n);;
      upd_entry (Z.of_nat k) (set_ethaddr eth);;
      upd_entry (Z.of_nat k) (set_ctime 0);;
      fuel ← queue_fuel;
      send_queue fuel (Z.of_nat k) n (hwaddr ni) eth;;
      mret ERR_OK) s (fun r s' => r = ERR_OK /\ exists P',
    arp_table s' = <[k := learned (ipaddr e) n eth]> (arp_table s) /\ tcore s' (<[k := []]> Q) P' Own (U ∖ list_to_set l.*1) /\
    etharp_cached_entry s' = etharp_cached_entry s /\ netifs (anet s') = netifs (anet s) /\
    stays l.*2 P (anet s) P' (anet s') /\
    sends (dev (anet s)) (queue_frames P (pmem (ps (anet s))) eth (hwaddr ni) l) (dev (anet s'))).
Proof.
  intros Hc He Hl Hn Heth. assert (Hlt : (k < length (arp_table s))%nat) by (by eapply lookup_lt_Some).
  assert (Hget : forall x, <[k := x]> (arp_table s) !! k = Some x) by (intros; by apply list_lookup_insert_eq).
  do 4 (apply wp_bind; eapply wp_upd; [cbn [arp_table set_table]; rewrite ?list_insert_insert_eq; first [exact He|apply Hget]|]).
  apply wp_bind, wp_gets. match goal with |- wp _ ?x _ => set (s4 := x) end.
  assert (E4 : arp_table s4 = <[k := mkEntry (q e) (ipaddr e) n eth 0 ETHARP_STATE_STABLE]> (arp_table s)).
  { cbn [s4 arp_table set_table]. by rewrite !list_insert_insert_eq. }
  assert (Hc4 : tcore s4 Q P Own U).
  { unfold tcore. rewrite E4, list_fmap_insert. cbn [q]. rewrite list_insert_id by (by rewrite list_lookup_fmap, He).
    by apply (core_same _ s). }
  apply wp_bind. eapply wp_mono.
  { eapply (send_queue_ok _ s4 Q P Own U k _ l n ni eth Hc4); [by rewrite E4|done|exact Hn|done|].
    apply (queue_size _ _ _ _ _ _ _ _ Hc Hl). }
  intros _ s' (P' & Ht' & Hc' & Hca' & Hni' & Hst' & Hse'). apply wp_ret. split; [done|]. exists P'.
  rewrite Ht', E4, list_insert_insert_eq. done.
Qed.

(** How the table answers for a key: the entry found, or the one made for it. *)
Definition found_or_made (s : Arp) (ip n : Z) (k : nat) (l : list (Z * Z)) (fs : list (list Z)) (sent : list (list Z)) : Prop :=
  exists e, arp_table s !! k = Some e /\
    (matches (Some ip) n e = true /\ sent = fs \/
     (forall e', e' ∈ arp_table s -> matches (Some ip) n e' = false) /\ victim (arp_table s) e /\ sent = []).

Lemma matches_key ip n e : n <> 0 -> matches (Some ip) n e = true -> is_empty e = false /\ ipaddr e = ip /\ enetif e = n.
Proof.
  unfold matches, is_empty. intros Hn. rewrite andb_true_iff, bool_decide_eq_true, bool_decide_eq_false.
  intros [He [Hi%Z.eqb_eq Hk]%andb_true_iff]. split; [done|]. split; [done|].
  destruct (Z.eqb_spec n 0) as [|_]; [done|]. cbn in Hk. by apply Z.eqb_eq in Hk.
Qed.
Lemma no_match_key (t : list etharp_entry) ip n e : n <> 0 -> (forall e', e' ∈ t -> matches (Some ip) n e' = false) ->
  e ∈ t -> is_empty e = false -> ipaddr e = ip -> enetif e = n -> False.
Proof.
  intros Hn Hno Hin He <- <-. specialize (Hno e Hin). unfold matches in Hno. unfold is_empty in He.
  apply bool_decide_eq_false in He. rewrite bool_decide_eq_true_2 in Hno by done.
  rewrite !Z.eqb_refl, orb_true_r in Hno. done.
Qed.

(** Putting a learned entry in the table. *)
Lemma learned_table ns t Q k ip n eth : table_ok ns t Q -> is_Some (ns !! n) -> length eth = 6%nat ->
  (forall j f, j <> k -> t !! j = Some f -> is_empty f = false -> ipaddr f = ip -> enetif f = n -> False) ->
  table_ok ns (<[k := learned ip n eth]> t) (<[k := []]> Q).
Proof. intros Ht Hn He Hu. apply table_ok_set; cbn; try done. split; [lia|done]. Qed.

Lemma update_ok s Q P Own n ni ip eth flags : arp_ok s Q P Own -> netifs (anet s) !! n = Some ni -> length eth = 6%nat ->
  flags = ETHARP_FLAG_TRY_HARD \/ flags = ETHARP_FLAG_FIND_ONLY ->
  wp (etharp_update_arp_entry n ip eth flags) s (fun r s' => exists Q' P', arp_ok s' Q' P' Own /\
    netifs (anet s') = netifs (anet s) /\
    ((unicast ip ni = false /\ r = ERR_ARG \/
      flags = ETHARP_FLAG_FIND_ONLY /\ r = ERR_MEM /\ forall e, e ∈ arp_table s -> matches (Some ip) n e = false) /\
       s' = s /\ Q' = Q /\ P' = P \/
     unicast ip ni = true /\ r = ERR_OK /\
       (flags = ETHARP_FLAG_FIND_ONLY -> exists e, e ∈ arp_table s /\ matches (Some ip) n e = true) /\ exists k l sent,
       found_or_made s ip n k l (queue_frames P (pmem (ps (anet s))) eth (hwaddr ni) l) sent /\
       Q !! k = Some l /\ Q' = <[k := []]> Q /\ arp_table s' = <[k := learned ip n eth]> (arp_table s) /\
       stays l.*2 P (anet s) P' (anet s') /\ sends (dev (anet s)) sent (dev (anet s')))).
Proof.
  intros Hok Hn Heth Hfl. pose proof Hok as [Hc Ht Hca]. destruct (ok_netif _ _ _ _ _ _ Hok Hn) as (Hn0 & Hhw & _).
  unfold etharp_update_arp_entry. apply wp_bind. eapply wp_netif; [exact Hn|]. apply wp_bind, wp_assert; [by rewrite Hhw|].
  unfold unicast. destruct (_ || _ || _) eqn:Eu; cbn [negb].
  { apply wp_ret. exists Q, P. split; [done|]. split; [done|]. left. by repeat split; [left|..]. }
  apply wp_bind. eapply wp_mono; [by eapply (find_entry_ok s Q P Own _ ip flags n)|].
  assert (Hsome : is_Some (netifs (anet s) !! n)) by eauto.
  intros r s1 [(k & e & -> & -> & He & Hm)|[Hno [(-> & -> & ->)|(-> & k & e & l & P1 & -> & Hmade)]]].
  - destruct (ok_queue _ _ _ _ _ _ Hok He) as (l & Hl & _). destruct (matches_key _ _ _ Hn0 Hm) as (He0 & Hip & Hen).
    rewrite nat_index. eapply wp_mono; [by eapply (set_fields_ok s Q P Own _ k e l n ni eth)|].
    intros r s2 (-> & P' & Ht2 & Hc2 & Hca2 & Hni2 & Hst2 & Hse2). rewrite Hip in Ht2.
    exists (<[k := []]> Q), P'. split; [constructor|split; [done|right]].
    + by rewrite (elems_clear _ _ _ (core_elems _ _ _ _ _ _ Hc) Hl) in Hc2.
    + rewrite Ht2, Hni2. apply learned_table; try done. intros j f Hne Hj Hf E1 E2. apply Hne.
      apply (tab_unique _ _ _ Ht j k f e Hj He Hf He0); congruence.
    + by rewrite Hca2.
    + do 2 (split; [done|]). split; [intros _; exists e; split; [by eapply list_elem_of_lookup_2|done]|].
      exists k, l, (queue_frames P (pmem (ps (anet s))) eth (hwaddr ni) l).
      split; [|done]. exists e. split; [done|]. by left.
  - apply wp_ret. exists Q, P. split; [done|]. split; [done|]. left. by repeat split; [right|..].
  - rewrite nat_index. destruct Hmade as [He Hl Hv Ht1 Hc1 Hca1 Hni1 Hst1 Hdv1].
    assert (Hlt : (k < length (arp_table s))%nat) by (by eapply lookup_lt_Some).
    assert (HltQ : (k < length Q)%nat) by (by eapply lookup_lt_Some).
    eapply wp_mono; [eapply (set_fields_ok s1 _ P1 Own _ k (new_entry ip n e) [] n ni eth Hc1)|].
    { rewrite Ht1. by apply list_lookup_insert_eq. } { by apply list_lookup_insert_eq. } { by rewrite Hni1. } { done. }
    intros r s2 (-> & P' & Ht2 & Hc2 & Hca2 & Hni2 & Hst2 & Hse2). rewrite Ht1, list_insert_insert_eq in Ht2.
    cbn [new_entry ipaddr] in Ht2. rewrite list_insert_insert_eq in Hc2. cbn [fmap list_fmap list_to_set] in Hc2.
    rewrite difference_empty_L, (elems_clear _ _ _ (core_elems _ _ _ _ _ _ Hc) Hl) in Hc2.
    exists (<[k := []]> Q), P'. split; [constructor|split; [congruence|right]].
    + done.
    + rewrite Ht2, Hni2, Hni1. apply learned_table; try done. intros j f _ Hj Hf E1 E2.
      eapply no_match_key; [exact Hn0|exact Hno|by eapply list_elem_of_lookup_2|done..].
    + by rewrite Hca2, Hca1.
    + do 3 (split; [done|]). exists k, l, []. split; [exists e; split; [done|by right]|].
      do 3 (split; [done|]). split; [|by rewrite <- Hdv1].
      rewrite <- (app_nil_r l.*2). exact (stays_trans _ _ _ _ _ _ _ _ Hst1 Hst2).
Qed.

(** ** A packet is queued *)

Lemma needs_copy_ok fuel p (t : pst A) l : chain (pbufs t) p l -> one_packet l -> (length l < fuel)%nat ->
  exists c, needs_copy fuel p t = Done (c, t).
Proof.
  revert fuel p. induction l as [|[a b] l IH]; intros fuel p Hc H1' Hf; (destruct fuel as [|fuel]; [cbn in Hf; lia|]); cbn [needs_copy].
  - cbn in Hc. subst p. by exists false.
  - destruct Hc as (-> & Ha & Hb & Hc). apply Forall_cons in H1' as [Hone H1']. cbn [snd] in Hone.
    destruct (Z.eqb_spec a 0) as [|_]; [done|]. erewrite bind_done by (by apply rd_run).
    erewrite bind_done.
    2:{ unfold assert_. destruct (Z.eqb_spec (len b) (tot_len b)), (Z.eqb_spec (next b) 0); cbn; done || naive_solver. }
    destruct (nz _); [by exists true|]. apply IH; [done|done|cbn in Hf; lia].
Qed.

Lemma last_element_ok fuel h l a pa qlen (s : Arp) : qchain (arp_queues s) h (l ++ [(a, pa)]) -> (length l < fuel)%nat ->
  0 <= qlen -> qlen + Z.of_nat (length l) < 65536 ->
  last_element fuel h qlen s = Done ((a, qlen + Z.of_nat (length l)), s).
Proof.
  revert fuel h qlen. induction l as [|[x px] l IH]; intros fuel h qlen Hq Hf H0' Hl; (destruct fuel as [|fuel]; [cbn in Hf; lia|]);
    cbn [last_element app] in *; destruct Hq as (-> & _ & _ & nxt & Hm & Hq).
  - cbn in Hq. subst nxt. erewrite bind_done by (unfold queue_at; mred; by rewrite Hm). cbn. by rewrite Z.add_0_r.
  - erewrite bind_done by (unfold queue_at; mred; by rewrite Hm). cbn [q_next].
    assert (nxt <> 0) by (by destruct l as [|[y py] l]; destruct Hq as (-> & ? & _)).
    destruct (Z.eqb_spec nxt 0) as [|_]; [done|]. cbn [negb length] in *.
    rewrite u32_small by (unfold is_u32; lia). rewrite (IH fuel nxt (qlen + 1)); [do 2 f_equal; f_equal; lia|done|lia|lia|lia].
Qed.

Lemma core_push heads s s' Q P Own U i h l r p b tl : core heads s Q P Own U -> heads !! i = Some h -> Q !! i = Some l ->
  r <> 0 -> ~ (r ∈ U) -> p <> 0 -> ~ (p ∈ pkts Q) -> P !! p = Some ((p, b) :: tl) -> (p ∈ Own -> 2 <= ref b) ->
  arp_queues s' = pushed (arp_queues s) l r p -> net_ok (anet s') P ({[r]} ∪ U) ->
  core (<[i := if h =? 0 then r else h]> heads) s' (<[i := l ++ [(r, p)]]> Q) P Own ({[r]} ∪ U).
Proof.
  intros Hc Hh Hl Hr HrU Hp Hpn Hb Ho Hq' Hnet. destruct Hc as [C1 C2 C3 C4 C5 C6 C7].
  destruct (concat_split _ _ _ Hl) as (R & HR & HR'). specialize (HR' (l ++ [(r, p)])).
  assert (He : elems (<[i := l ++ [(r, p)]]> Q) ≡ₚ r :: elems Q).
  { unfold elems. rewrite HR, HR', !fmap_app, <- app_assoc. cbn. by rewrite <- Permutation_middle. }
  assert (Hk : pkts (<[i := l ++ [(r, p)]]> Q) ≡ₚ p :: pkts Q).
  { unfold pkts. rewrite HR, HR', !fmap_app, <- app_assoc. cbn. by rewrite <- Permutation_middle. }
  assert (Hre : ~ (r ∈ elems Q)) by (intros Hin; by apply HrU, C3).
  assert (Hnd : NoDup l.*1).
  { unfold elems in C2. rewrite HR, fmap_app in C2. by apply NoDup_app in C2 as (? & _). }
  assert (Hin : forall j x, Q !! j = Some x -> forall y, y ∈ x.*1 -> y ∈ elems Q).
  { intros j x Hj y (z & -> & Hz)%list_elem_of_fmap. unfold elems. apply list_elem_of_fmap. exists z. split; [done|].
    by eapply queue_in. }
  constructor.
  - rewrite Hq'. apply Forall2_lookup. intros j. destruct (decide (j = i)) as [->|Hne].
    + pose proof (Forall2_lookup_lr _ _ _ _ _ _ C1 Hh Hl) as Hq.
      rewrite !list_lookup_insert_eq by (by eapply lookup_lt_Some). constructor. apply qchain_push; try done.
      intros Hx. apply Hre. by eapply Hin.
    + rewrite !list_lookup_insert_ne by done. pose proof (proj1 (Forall2_lookup _ _ _) C1 j) as Hj.
      destruct (heads !! j) as [x|], (Q !! j) as [y|] eqn:Ey; inversion Hj as [? ? Hxy|]; subst; constructor.
      eapply qchain_frame; [|exact Hxy]. intros a Ha. apply pushed_other; [|intros ->; apply Hre; by eapply Hin].
      by apply (queues_apart Q i j l y a C2 Hl Ey).
  - rewrite He. by constructor.
  - intros a. rewrite He, elem_of_cons, elem_of_union, elem_of_singleton. intros [->|Ha]; [by left|right; by apply C3].
  - rewrite Hk. by constructor.
  - intros x. rewrite Hk, elem_of_cons. intros [->|Hx]; [eauto|by apply C5].
  - intros x Hx. destruct (C6 x Hx) as (b' & l' & Hb' & Hrf). exists b', l'. split; [done|]. rewrite Hk, elem_of_cons.
    intros [->|Hin']; [|by apply Hrf]. assert (b' = b) as -> by congruence. by apply Ho.
  - done.
Qed.

Lemma append_entry_ok s t Q P Own U i e l r p b tl : tcore s Q P Own U -> arp_table s !! i = Some e -> Q !! i = Some l ->
  (length l <= 3)%nat -> r <> 0 -> ~ (r ∈ U) -> p <> 0 -> ~ (p ∈ pkts Q) -> P !! p = Some ((p, b) :: tl) ->
  (p ∈ Own -> 2 <= ref b) -> net_ok t P ({[r]} ∪ U) ->
  wp (append_entry (Z.of_nat i) r p) (set_anet t s) (fun qlen s' => qlen = Z.of_nat (length l) /\
    arp_table s' = <[i := set_q (if q e =? 0 then r else q e) e]> (arp_table s) /\
    tcore s' (<[i := l ++ [(r, p)]]> Q) P Own ({[r]} ∪ U) /\ etharp_cached_entry s' = etharp_cached_entry s /\
    anet s' = t).
Proof.
  intros Hc He Hl Hlen Hr HrU Hp Hpn Hb Ho Hnet. assert (Hh : (q <$> arp_table s) !! i = Some (q e)) by (by rewrite list_lookup_fmap, He).
  pose proof (Forall2_lookup_lr _ _ _ _ _ _ (core_queues _ _ _ _ _ _ Hc) Hh Hl) as Hq.
  assert (Hre : ~ (r ∈ l.*1)).
  { intros Hin. apply HrU, (core_used _ _ _ _ _ _ Hc). apply list_elem_of_fmap in Hin as (x & -> & Hx).
    apply list_elem_of_fmap. exists x. split; [done|]. by eapply queue_in. }
  assert (Hpush : forall s', arp_queues s' = pushed (arp_queues s) l r p -> anet s' = t ->
    arp_table s' = <[i := set_q (if q e =? 0 then r else q e) e]> (arp_table s) -> tcore s' (<[i := l ++ [(r, p)]]> Q) P Own ({[r]} ∪ U)).
  { intros s' Eq En Et. unfold tcore. rewrite Et, list_fmap_insert. cbn [q set_q].
    eapply core_push; try done. by rewrite En. }
  unfold append_entry. apply wp_bind, wp_modify. apply wp_bind. eapply wp_entry; [exact He|].
  destruct (Z.eqb_spec (q e) 0) as [E|N]; cbn [negb].
  - assert (l = []) as -> by (destruct l as [|[a pa] l]; [done|by destruct Hq as (? & ? & _); congruence]).
    apply wp_bind. eapply wp_upd; [exact He|]. apply wp_ret. cbn [arp_table set_table].
    split; [done|]. split; [done|]. split; [by apply Hpush|done].
  - induction l as [|[a pa] l _] using rev_ind; [done|]. apply wp_bind, wp_gets, wp_bind. rewrite length_app in Hlen |- *. cbn [length] in *.
    assert (Hne : a <> r) by (intros ->; apply Hre; rewrite fmap_app; apply elem_of_app; right; left).
    eapply wp_use.
    { apply (last_element_ok _ _ l a pa); [|cbn [arp_queues set_queues set_anet]|lia|lia].
      - eapply qchain_frame; [|exact Hq]. intros x Hx. apply lookup_insert_ne. by intros <-.
      - pose proof (queue_size _ _ _ _ _ _ _ _ Hc Hl) as Hsz. rewrite length_app in Hsz. cbn in Hsz.
        rewrite map_size_insert. case_match; unfold id; lia. }
    cbv beta iota. apply wp_bind. eapply (wp_queue_at _ _ (mkQ 0 pa)).
    { cbn. rewrite lookup_insert_ne by done. by eapply qchain_last. }
    apply wp_bind, wp_modify, wp_ret. split; [lia|]. split.
    { cbn. rewrite list_insert_id; [done|]. by destruct e. }
    split; [|done]. apply Hpush; [|done|].
    + unfold pushed. by rewrite last_snoc.
    + cbn. rewrite list_insert_id; [done|]. by destruct e.
Qed.

Lemma drop_oldest_ok s Q P Own U i e a p l : tcore s Q P Own U -> arp_table s !! i = Some e -> Q !! i = Some ((a, p) :: l) ->
  wp (drop_oldest (Z.of_nat i)) s (fun _ s' => exists nxt P', arp_table s' = <[i := set_q nxt e]> (arp_table s) /\
    tcore s' (<[i := l]> Q) P' Own (U ∖ {[a]}) /\ etharp_cached_entry s' = etharp_cached_entry s /\
    netifs (anet s') = netifs (anet s) /\ stays [p] P (anet s) P' (anet s') /\ dev (anet s') = dev (anet s)).
Proof.
  intros Hc He Hl. assert (Hh : (q <$> arp_table s) !! i = Some (q e)) by (by rewrite list_lookup_fmap, He).
  destruct (core_pop _ _ _ _ _ _ _ _ _ _ _ Hc Hh Hl) as (nxt & b & tl & Hqe & Ha & Hp & Hqa & Hc1 & Hnp & Hna & HaU & Hb & Ho).
  unfold drop_oldest. apply wp_bind. eapply wp_entry; [exact He|]. apply wp_bind. eapply wp_queue_at; [by rewrite Hqe|].
  apply wp_bind. eapply wp_upd; [exact He|]. set (s1 := set_table _ s). cbn [q_next q_p].
  assert (Hc2 : tcore s1 (<[i := l]> Q) P Own U).
  { unfold tcore. cbn [arp_table set_table s1]. rewrite list_fmap_insert. by apply (core_same _ s). }
  apply wp_bind. eapply wp_mono; [by apply (core_free _ _ _ _ _ _ p b tl Hc2)|]. intros _ s2 (Hc3 & As2 & St2 & Dv2 & _).
  rewrite Hqe. eapply wp_mono; [by apply (free_element_ok _ _ _ _ _ _ a Hc3)|]. intros _ s3 (Hc4 & As3 & St3 & Dv3).
  destruct (aside_trans _ _ _ As2 As3) as (T1 & T2 & T3). exists nxt, (dropped p b tl P).
  split; [exact T1|]. split; [by eapply tcore_heads|]. split; [exact T2|]. split; [exact T3|]. split.
  - rewrite <- (app_nil_r [p]). exact (stays_trans _ _ _ _ _ _ _ _ St2 St3).
  - by rewrite Dv3, Dv2.
Qed.

Lemma queue_alloc_ok s P U : net_ok (anet s) P U ->
  wp (on_pbuf (on_alloc (memp_malloc MEMP_ARP_QUEUE))) s (fun r s' => exists t', s' = set_anet t' s /\
    netifs t' = netifs (anet s) /\ dev t' = dev (anet s) /\ stays [] P (anet s) P t' /\
    (r = 0 /\ net_ok t' P U \/ r <> 0 /\ ~ (r ∈ U) /\ net_ok t' P ({[r]} ∪ U))).
Proof.
  intros [[B Ho] Hn Hd]. destruct (queue_take _ _ _ (own_heap _ _ _ _ Ho)) as (r & a' & Hrun & Hcase).
  assert (Hown : forall U', heap_is a' B U' -> owns B (set_palloc a' (ps (anet s))) P U') by (intros U' HU; destruct Ho; by constructor).
  assert (Hon : on_alloc (memp_malloc MEMP_ARP_QUEUE) (ps (anet s)) = Done (r, set_palloc a' (ps (anet s)))).
  { unfold on_alloc. mred. by rewrite Hrun. }
  eapply wp_pbuf_use; [exact Hon|]. eexists. split; [reflexivity|]. do 3 (split; [done|]).
  destruct Hcase as [[-> HU]|(Hr & HrU & HU)]; [left|right].
  - split; [done|]. constructor; [exists B; by apply Hown|done|done].
  - do 2 (split; [done|]). constructor; [exists B; by apply Hown|done|done].
Qed.

(** The queue of an entry after a packet came: the last three. *)
Definition keep_last (l : list Z) : list Z := drop (length l - Z.to_nat ARP_QUEUE_LEN) l.

Lemma elems_push Q i l r p : Q !! i = Some l ->
  list_to_set (elems (<[i := l ++ [(r, p)]]> Q)) =@{gset Z} {[r]} ∪ list_to_set (elems Q).
Proof.
  intros Hl. destruct (concat_split _ _ _ Hl) as (R & HR & HR'). specialize (HR' (l ++ [(r, p)])).
  apply set_eq. intros x. unfold elems. rewrite elem_of_union, elem_of_singleton, !elem_of_list_to_set, HR, HR', !fmap_app, !elem_of_app.
  cbn. rewrite list_elem_of_singleton. tauto.
Qed.
Lemma elems_pop Q i a p l : NoDup (elems Q) -> Q !! i = Some ((a, p) :: l) ->
  list_to_set (elems Q) ∖ {[a]} =@{gset Z} list_to_set (elems (<[i := l]> Q)).
Proof.
  intros Hn Hl. destruct (concat_split _ _ _ Hl) as (R & HR & HR'). specialize (HR' l). unfold elems in *.
  rewrite HR in Hn. cbn [app fmap list_fmap] in Hn. apply NoDup_cons in Hn as [Ha _].
  apply set_eq. intros x. rewrite elem_of_difference, elem_of_singleton, !elem_of_list_to_set, HR, HR'.
  cbn [app fmap list_fmap fst]. rewrite elem_of_cons. split; [tauto|]. intros Hx. split; [by right|]. by intros ->.
Qed.

Lemma ok_requeue s s' Q P P' Own i e v l' : arp_ok s Q P Own -> arp_table s !! i = Some e -> state e = ETHARP_STATE_PENDING ->
  arp_table s' = <[i := set_q v e]> (arp_table s) -> tcore s' (<[i := l']> Q) P' Own (list_to_set (elems (<[i := l']> Q))) ->
  (length l' <= Z.to_nat ARP_QUEUE_LEN)%nat -> etharp_cached_entry s' = etharp_cached_entry s ->
  netifs (anet s') = netifs (anet s) -> arp_ok s' (<[i := l']> Q) P' Own.
Proof.
  intros Hok He Hs Ht' Hc' Hlen Hca Hni. destruct (ok_queue _ _ _ _ _ _ Hok He) as (l & Hl & _).
  destruct Hok as [Hc Ht Hcach]. constructor; [done| |by rewrite Hca].
  assert (Hin : e ∈ arp_table s) by (by eapply list_elem_of_lookup_2).
  assert (He0 : is_empty e = false) by (unfold is_empty; by rewrite Hs).
  destruct (tab_age _ _ _ Ht e Hin) as (H1' & H2' & H3'). destruct (tab_link _ _ _ Ht e Hin He0) as [_ H4'].
  rewrite Hni, Ht'. eapply (table_ok_touch _ _ _ _ e (set_q v e) l l'); try done.
  split; [done|]. split; [by apply H2'|done].
Qed.

Lemma enqueue_ok s Q P Own i e l p b tl : arp_ok s Q P Own -> arp_table s !! i = Some e -> Q !! i = Some l ->
  state e = ETHARP_STATE_PENDING -> ~ (p ∈ pkts Q) -> P !! p = Some ((p, b) :: tl) -> (p ∈ Own -> 2 <= ref b) ->
  wp (enqueue (Z.of_nat i) p) s (fun r s' => exists Q' P', arp_ok s' Q' P' Own /\ netifs (anet s') = netifs (anet s) /\
    dev (anet s') = dev (anet s) /\ (exists v, arp_table s' = <[i := set_q v e]> (arp_table s)) /\
    (r = ERR_OK /\ stays (take 1 l.*2) P (anet s) P' (anet s') /\
     (exists l', Q' = <[i := l']> Q /\ l'.*2 = keep_last (l.*2 ++ [p])) \/
     r = ERR_MEM /\ Q' = Q /\ stays [p] P (anet s) P' (anet s'))).
Proof.
  intros Hok He Hl Hs Hpn Hb Ho. pose proof Hok as [Hc Ht Hca]. pose proof (core_net _ _ _ _ _ _ Hc) as Hnet.
  destruct (tab_queue _ _ _ Ht _ _ _ He Hl) as [Hlen _]. unfold ARP_QUEUE_LEN in Hlen.
  destruct (holds_packet _ _ _ _ _ (net_held _ _ _ Hnet) Hb) as (_ & _ & _ & Hp0 & _).
  unfold enqueue. apply wp_bind. eapply wp_mono; [by apply queue_alloc_ok|].
  intros r s1 (t1 & -> & Hni1 & Hdv1 & Hst1 & [[-> Hnet1]|(Hr & HrU & Hnet1)]).
  { cbn [negb Z.eqb]. assert (Hok1 : arp_ok (set_anet t1 s) Q P Own) by (by apply ok_set_net).
    apply wp_bind. eapply wp_mono; [by apply (core_free _ _ _ _ _ _ p b tl (ok_core _ _ _ _ Hok1))|].
    intros _ s2 (Hc2 & (T1 & T2 & T3) & St2 & Dv2 & _). apply wp_ret. exists Q, (dropped p b tl P).
    split; [constructor|].
    - by eapply tcore_heads.
    - rewrite T3, T1. apply (ok_table _ _ _ _ Hok1).
    - by rewrite T2.
    - split; [by rewrite T3|]. split; [by rewrite Dv2|]. split; [exists (q e); rewrite T1, list_insert_id; [done|by destruct e]|]. right. split; [done|]. split; [done|].
      exact (stays_trans [] [p] _ _ _ _ _ _ Hst1 St2). }
  destruct (Z.eqb_spec r 0) as [|_]; [done|]. cbn [negb]. 
  apply wp_bind. eapply wp_mono; [by eapply (append_entry_ok s t1 Q P Own _ i e l r p b tl Hc He Hl Hlen Hr HrU Hp0 Hpn Hb Ho)|].
  intros qlen s2 (-> & Ht2 & Hc2 & Hca2 & En2). rewrite <- (elems_push _ _ _ r p Hl) in Hc2.
  assert (Hlt : (i < length (arp_table s))%nat) by (by eapply lookup_lt_Some).
  assert (HltQ : (i < length Q)%nat) by (by eapply lookup_lt_Some).
  assert (Hl2 : <[i := l ++ [(r, p)]]> Q !! i = Some (l ++ [(r, p)])) by (by apply list_lookup_insert_eq).
  apply wp_bind. destruct (Z.leb_spec ARP_QUEUE_LEN (Z.of_nat (length l))) as [Hfull|Hfree]; unfold ARP_QUEUE_LEN in *.
  - destruct l as [|[a p0] l]; [cbn in Hfull; lia|]. cbn [app length] in *.
    eapply wp_mono; [eapply (drop_oldest_ok _ _ _ _ _ i _ a p0 (l ++ [(r, p)]) Hc2); [rewrite Ht2; by apply list_lookup_insert_eq|exact Hl2]|].
    intros _ s3 (nxt & P' & Ht3 & Hc3 & Hca3 & Hni3 & Hst3 & Hdv3). apply wp_ret.
    rewrite (elems_pop _ _ _ _ _ (core_elems _ _ _ _ _ _ Hc2) Hl2) in Hc3. rewrite list_insert_insert_eq in Hc3.
    exists (<[i := l ++ [(r, p)]]> Q), P'. split; [|split; [|split; [|split]]].
    + eapply (ok_requeue s s3 Q P P' Own i e nxt); try done.
      * by rewrite Ht3, Ht2, list_insert_insert_eq.
      * rewrite length_app. cbn. unfold ARP_QUEUE_LEN. lia.
      * by rewrite Hca3.
      * by rewrite Hni3, En2.
    + by rewrite Hni3, En2.
    + by rewrite Hdv3, En2.
    + exists nxt. by rewrite Ht3, Ht2, list_insert_insert_eq.
    + left. split; [done|]. split; [rewrite En2 in Hst3; exact (stays_trans [] [p0] _ _ _ _ _ _ Hst1 Hst3)|].
      exists (l ++ [(r, p)]). split; [done|]. unfold keep_last. rewrite !length_app, length_fmap, fmap_app. cbn [fmap list_fmap length snd].
      by replace (S (length l) + 1 - Z.to_nat ARP_QUEUE_LEN)%nat with 1%nat by (unfold ARP_QUEUE_LEN; lia).
  - apply wp_ret, wp_ret. exists (<[i := l ++ [(r, p)]]> Q), P. split; [|split; [by rewrite En2|split; [by rewrite En2|split; [by eexists|]]]].
    + eapply (ok_requeue s s2 Q P P Own i e); try done; [|by rewrite En2]. rewrite length_app. cbn. unfold ARP_QUEUE_LEN. lia.
    + left. split; [done|]. split; [rewrite En2; eapply stays_weaken; [|exact Hst1]; by intros ? ?%elem_of_nil|].
      exists (l ++ [(r, p)]). split; [done|]. unfold keep_last. rewrite fmap_app, length_app, length_fmap. cbn [fmap list_fmap length snd].
      by replace (length l + 1 - Z.to_nat ARP_QUEUE_LEN)%nat with 0%nat by (unfold ARP_QUEUE_LEN; lia).
Qed.

Lemma ok_repack s t Q P P' Own p : arp_ok s Q P Own -> ~ (p ∈ pkts Q) ->
  (forall p', p' <> p -> P' !! p' = P !! p') -> (p ∈ Own -> exists b l, P' !! p = Some ((p, b) :: l)) ->
  net_ok t P' (list_to_set (elems Q)) -> netifs t = netifs (anet s) -> arp_ok (set_anet t s) Q P' Own.
Proof.
  intros [Hc Ht Hca] Hp HP Ho Hnet Hni. constructor; [|by apply (table_ok_netifs (netifs (anet s)))|done].
  by apply (core_repack _ _ _ _ P Own _ p).
Qed.

Lemma take_over_ok s Q P Own p b tl : arp_ok s Q P Own -> ~ (p ∈ pkts Q) -> P !! p = Some ((p, b) :: tl) -> ref b < 255 ->
  wp (take_over p) s
    (fun r s' => netifs (anet s') = netifs (anet s) /\ dev (anet s') = dev (anet s) /\ arp_table s' = arp_table s /\
      (r = 0 /\ arp_ok s' Q P Own /\ stays [] P (anet s) P (anet s') \/
       exists P' b' tl', arp_ok s' Q P' Own /\ stays [p] P (anet s) P' (anet s') /\ r <> 0 /\ ~ (r ∈ pkts Q) /\
         P' !! r = Some ((r, b') :: tl') /\ (r ∈ Own -> 2 <= ref b') /\ (r = p \/ P !! r = None) /\
         contents (pmem (ps (anet s'))) ((r, b') :: tl') = contents (pmem (ps (anet s))) ((p, b) :: tl))).
Proof.
  intros Hok Hpn Hb Hr. pose proof (core_net _ _ _ _ _ _ (ok_core _ _ _ _ Hok)) as [Hh Hn Hd].
  destruct (holds_packet _ _ _ _ _ Hh Hb) as (b0 & l0 & [= <- <-] & Hp0 & Hm & Hch & _ & Hone & Hpk).
  apply Forall_cons in Hpk as [[Hr1 _] _]. cbn [snd] in Hr1.
  destruct (needs_copy_ok (S (base.size (pbufs (ps (anet s))))) p (ps (anet s)) _ Hch Hone) as [c Hcopy].
  { pose proof (chain_size _ _ _ Hch). lia. }
  unfold take_over. apply wp_bind. eapply wp_pbuf_use; [unfold chain_fuel; erewrite bind_done by reflexivity; exact Hcopy|].
  assert (Es : set_anet (set_ps (ps (anet s)) (anet s)) s = s) by (by destruct s as [? ? ? []]). rewrite Es. destruct c.
  - destruct (clone_held _ _ _ _ _ _ Hh Hb) as (r & s1 & Hrun & Hk & Hcase). eapply wp_pbuf_use; [exact Hrun|].
    do 3 (split; [done|]). destruct Hcase as [[-> Hh1]|(Hr0 & HPr & Hh1 & Hcon)].
    + left. split; [done|]. split; [apply ok_set_net; [done|by constructor|done]|].
      intros p' l' _ Hp'. split; [done|]. apply (Hk p' l'); [|done]. intros ->.
      destruct (holds_packet _ _ _ _ _ Hh Hp') as (? & ? & _ & ? & _). done.
    + right. set (br := fresh_ram r (tot_len b)) in *. exists (<[r := [(r, br)]]> P), br, [].
      assert (Hrn : ~ (r ∈ pkts Q)).
      { intros Hin. destruct (core_pinned _ _ _ _ _ _ (ok_core _ _ _ _ Hok) r Hin) as [? ?]. congruence. }
      assert (HrO : ~ (r ∈ Own)).
      { intros Hin. destruct (core_own _ _ _ _ _ _ (ok_core _ _ _ _ Hok) r Hin) as (? & ? & ? & _). congruence. }
      split; [|split; [|repeat split; try done; [by rewrite lookup_insert_eq|by right]]].
      * apply (ok_repack s _ Q P _ Own r Hok Hrn); [|by intros ?%HrO|by constructor|done].
        intros p' Hne. by rewrite lookup_insert_ne.
      * intros p' l' _ Hp'. assert (p' <> r) by congruence. rewrite lookup_insert_ne by done. split; [done|]. by apply (Hk p' l').
  - destruct (ref_held _ _ _ _ _ _ Hh Hb Hr) as (s1 & Hrun & Hm1 & Hh1).
    apply wp_bind. eapply wp_pbuf_use; [exact Hrun|]. apply wp_ret. do 3 (split; [done|]). right.
    set (b1 := set_ref (ref b + 1) b) in *. exists (<[p := (p, b1) :: tl]> P), b1, tl.
    split; [|split; [|repeat split; try done]].
    + apply (ok_repack s _ Q P _ Own p Hok Hpn); [|intros _; rewrite lookup_insert_eq; eauto|by constructor|done].
      intros p' Hne. by rewrite lookup_insert_ne.
    + intros p' l' Hne%ne_single Hp'. rewrite lookup_insert_ne by done. split; [done|]. cbn. by rewrite Hm1.
    + by rewrite lookup_insert_eq.
    + intros _. cbn. lia.
    + by left.
    + cbn [anet set_anet ps set_ps]. by rewrite Hm1.
Qed.

Lemma pkts_take l (i : nat) Q p k : Q !! i = Some l -> p ∈ take k l.*2 -> p ∈ pkts Q.
Proof.
  intros Hl Hp. apply elem_of_take in Hp as (j & Hj & _). apply list_elem_of_lookup_2 in Hj.
  apply list_elem_of_fmap in Hj as (x & -> & Hx). apply list_elem_of_fmap. exists x. split; [done|]. by eapply queue_in.
Qed.

(** The packet that waits: its contents are those of the packet given. *)
Definition waits_as (s s' : Arp) (P P' : packets) (p r : Z) : Prop :=
  exists l l', P !! p = Some l /\ P' !! r = Some l' /\
    contents (pmem (ps (anet s'))) l' = contents (pmem (ps (anet s))) l.

Lemma keep_packet_ok s Q P Own i e l p b tl : arp_ok s Q P Own -> arp_table s !! i = Some e -> Q !! i = Some l ->
  state e = ETHARP_STATE_PENDING -> ~ (p ∈ pkts Q) -> P !! p = Some ((p, b) :: tl) -> ref b < 255 ->
  wp (keep_packet (Z.of_nat i) p) s (fun r s' => exists Q' P', arp_ok s' Q' P' Own /\ netifs (anet s') = netifs (anet s) /\
    dev (anet s') = dev (anet s) /\ (exists v, arp_table s' = <[i := set_q v e]> (arp_table s)) /\
    (r = ERR_OK /\ (exists l' w, Q' = <[i := l']> Q /\ l'.*2 = keep_last (l.*2 ++ [w]) /\ waits_as s s' P P' p w) \/
     r = ERR_MEM /\ Q' = Q)).
Proof.
  intros Hok He Hl Hs Hpn Hb Hr. unfold keep_packet.
  apply wp_bind. eapply wp_mono; [by apply (take_over_ok _ _ _ _ _ _ _ Hok Hpn Hb Hr)|].
  intros r s1 (Hni1 & Hdv1 & Ht1 & [(-> & Hok1 & _)|(P1 & b1 & tl1 & Hok1 & Hst1 & Hr0 & Hrn & Hr1 & HrO & _ & Hcon1)]).
  { cbn [negb Z.eqb]. apply wp_ret. exists Q, P. do 3 (split; [done|]). split; [|by right].
    exists (q e). rewrite Ht1, list_insert_id; [done|by destruct e]. }
  destruct (Z.eqb_spec r 0) as [|_]; [done|]. cbn [negb].
  eapply wp_mono; [eapply (enqueue_ok s1 Q P1 Own i e l r b1 tl1); try done; by rewrite Ht1|].
  intros err s2 (Q2 & P2 & Hok2 & Hni2 & Hdv2 & [v Hv] & Hcase). exists Q2, P2. split; [done|].
  split; [congruence|]. split; [congruence|]. split; [exists v; by rewrite Hv, Ht1|].
  destruct Hcase as [(-> & Hst2 & l' & -> & Hl')|(-> & -> & _)]; [left|by right]. split; [done|]. exists l', r.
  split; [done|]. split; [done|]. exists ((p, b) :: tl), ((r, b1) :: tl1). split; [done|].
  destruct (Hst2 r ((r, b1) :: tl1)) as [Hr2 Hcon2]; [|done|].
  - intros Hin. apply Hrn. by eapply pkts_take.
  - split; [done|]. by rewrite Hcon2.
Qed.

(** ** The entry of a query *)

Lemma made_ok s s' Q P P' Own a n k e l : arp_ok s Q P Own -> made s s' Q P P' Own (list_to_set (elems Q)) a n k e l ->
  arp_ok s' (<[k := []]> Q) P' Own.
Proof.
  intros [Hc Ht Hca] [M1 M2 M3 M4 M5 M6 M7 M8 M9]. constructor.
  - by rewrite (elems_clear _ _ _ (core_elems _ _ _ _ _ _ Hc) M2) in M5.
  - rewrite M7, M4. apply table_ok_set; cbn; try done. split; [lia|done].
  - by rewrite M6.
Qed.

Lemma mark_pending_ok s Q P Own i e n : arp_ok s Q P Own -> arp_table s !! i = Some e -> is_Some (netifs (anet s) !! n) ->
  (is_empty e = true -> ctime e = 0 /\ forall f, f ∈ arp_table s -> is_empty f = false -> ipaddr f = ipaddr e -> enetif f = n -> False) ->
  wp (mark_pending (Z.of_nat i) n) s (fun b s' => b = is_empty e /\ arp_ok s' Q P Own /\ anet s' = anet s /\
    arp_table s' = <[i := if is_empty e then set_enetif n (set_state ETHARP_STATE_PENDING e) else e]> (arp_table s)).
Proof.
  intros Hok He Hn Hnew. unfold mark_pending. apply wp_bind. eapply wp_entry; [exact He|].
  fold (is_empty e). destruct (is_empty e) eqn:Ee.
  2:{ apply wp_ret. rewrite list_insert_id by done. done. }
  destruct (Hnew eq_refl) as [Hct Hu]. destruct (ok_queue _ _ _ _ _ _ Hok He) as (l & Hl & Hq & _ & Hemp).
  assert (l = []) as -> by (apply Hemp; unfold is_empty in Ee; apply bool_decide_eq_true in Ee; congruence).
  apply wp_bind. eapply wp_upd; [exact He|]. assert (Hlt : (i < length (arp_table s))%nat) by (by eapply lookup_lt_Some).
  apply wp_bind. eapply wp_upd; [by apply list_lookup_insert_eq|]. apply wp_ret. cbn [arp_table set_table].
  rewrite list_insert_insert_eq. split; [done|]. split; [|done]. set (e' := set_enetif n (set_state ETHARP_STATE_PENDING e)).
  destruct Hok as [Hc Ht Hca]. constructor; [|cbn [arp_table set_table]|done].
  - pose proof (tcore_upd _ _ _ _ _ _ _ (fun _ => e') Hc He eq_refl) as Hc'. exact Hc'.
  - rewrite <- (list_insert_id Q i [] Hl). apply table_ok_set; [done| | |done|].
    + split; [cbn; lia|done].
    + cbn. rewrite Hct. done.
    + intros _ j f Hne Hj Hf Ei En. eapply Hu; [by eapply list_elem_of_lookup_2|done|exact Ei|exact En].
Qed.

Definition asked (d d' : D) (ni : netif) (ip : Z) : Prop :=
  d' = d \/ sends d [request_frame ni ethbroadcast ip] d'.

Lemma query_request_ok s Q P Own i e n ni ip b : arp_ok s Q P Own -> arp_table s !! i = Some e -> is_empty e = false ->
  netifs (anet s) !! n = Some ni ->
  wp (query_request (Z.of_nat i) n ip b) s (fun _ s' => arp_ok s' Q P Own /\ netifs (anet s') = netifs (anet s) /\
    stays [] P (anet s) P (anet s') /\ asked (dev (anet s)) (dev (anet s')) ni ip /\
    exists c, arp_table s' = <[i := set_ctime c e]> (arp_table s)).
Proof.
  intros Hok He He0 Hn. destruct (ok_queue _ _ _ _ _ _ Hok He) as (l & Hl & _).
  unfold query_request. apply wp_bind. eapply wp_mono; [by apply (request_keeps s Q P Own n ni ethbroadcast ip Hok Hn)|].
  intros r s1 (t & -> & Hok1 & Hni1 & Hst1 & Hr). apply wp_bind. eapply wp_entry; [exact He|].
  assert (Hask : asked (dev (anet s)) (dev t) ni ip) by (destruct Hr as [[_ ->]|[_ Hse]]; [by left|by right]).
  destruct (_ && _ && _) eqn:Eb; apply wp_bind.
  - eapply wp_upd; [exact He|]. apply wp_ret. cbn [anet set_table arp_table set_anet].
    split; [|do 3 (split; [done|]); by exists 0].
    assert (Hin : e ∈ arp_table s) by (by eapply list_elem_of_lookup_2).
    apply andb_true_iff in Eb as [[_ Hp%bool_decide_eq_true]%andb_true_iff _].
    apply (ok_touch (set_anet t s) Q P Own i e (set_ctime 0 e) l); try done.
    all: cbn; try (split; [lia|done]). all: rewrite ?Hp; try done.
    all: unfold is_stable; cbn; rewrite Hp; done.
  - apply wp_ret, wp_ret. split; [done|]. do 3 (split; [done|]). exists (ctime e). rewrite list_insert_id; [done|].
    by destruct e.
Qed.

(** A packet a caller may hand over: it has a reference to it, and the packet does not wait already. *)
Definition caller_packet (Q : list (list (Z * Z))) (P : packets) (Own : gset Z) (p : Z) : Prop :=
  p ∈ Own /\ ~ (p ∈ pkts Q) /\ exists b tl, P !! p = Some ((p, b) :: tl) /\ ref b < 255.

(** What becomes of packet [p] at entry [k]: it is sent if the address is known,
    and waits, behind those that wait, if it is not. *)
Definition answered (s s' : Arp) (Q Q' : list (list (Z * Z))) (P P' : packets) (n : Z) (ni : netif) (ip p r : Z) (k : nat) : Prop :=
  exists e, arp_table s' !! k = Some e /\ ipaddr e = ip /\ enetif e = n /\
    (is_stable e = true /\ Q' = Q /\
       sends (dev (anet s)) (packet_frames P (pmem (ps (anet s))) (ethaddr e) (hwaddr ni) p) (dev (anet s')) \/
     state e = ETHARP_STATE_PENDING /\ asked (dev (anet s)) (dev (anet s')) ni ip /\
       (r = ERR_MEM /\ Q' = Q \/
        r = ERR_OK /\ exists l l' w, Q !! k = Some l /\ Q' = <[k := l']> Q /\ l'.*2 = keep_last (l.*2 ++ [w]) /\
          waits_as s s' P P' p w)).

Lemma send_ok s Q P Own n ni p b tl dst : arp_ok s Q P Own -> netifs (anet s) !! n = Some ni -> length dst = 6%nat ->
  ~ (p ∈ pkts Q) -> P !! p = Some ((p, b) :: tl) ->
  wp (on_net (ethernet_output n p (hwaddr ni) dst ETHTYPE_IP)) s (fun _ s' => exists P', arp_ok s' Q P' Own /\
    netifs (anet s') = netifs (anet s) /\ arp_table s' = arp_table s /\
    sends (dev (anet s)) (packet_frames P (pmem (ps (anet s))) dst (hwaddr ni) p) (dev (anet s'))).
Proof.
  intros Hok Hn Hd Hpn Hb. pose proof Hok as [Hc Ht Hca]. destruct (ok_netif _ _ _ _ _ _ Hok Hn) as (_ & _ & Hhw).
  destruct (holds_contents _ _ _ _ _ (net_held _ _ _ (core_net _ _ _ _ _ _ Hc)) Hb) as [c Hcon].
  eapply wp_mono; [by eapply (core_output _ _ _ _ _ _ n ni p b tl _ dst ETHTYPE_IP c Hc Hpn Hb Hn Hhw Hd)|].
  intros _ s1 (b' & _ & Hc1 & (T1 & T2 & T3) & _ & Hse & _). exists (<[p := (p, b') :: tl]> P).
  split; [constructor|].
  - by eapply tcore_heads.
  - by rewrite T3, T1.
  - by rewrite T2.
  - do 2 (split; [done|]). unfold packet_frames. by rewrite Hb, Hcon.
Qed.

Lemma send_to_entry s Q P Own k e n ni p b tl : arp_ok s Q P Own -> arp_table s !! k = Some e -> is_stable e = true ->
  netifs (anet s) !! n = Some ni -> ~ (p ∈ pkts Q) -> P !! p = Some ((p, b) :: tl) ->
  wp (on_net (ethernet_output n p (hwaddr ni) (ethaddr e) ETHTYPE_IP)) s (fun _ s' => exists P', arp_ok s' Q P' Own /\
    netifs (anet s') = netifs (anet s) /\ arp_table s' = arp_table s /\
    sends (dev (anet s)) (packet_frames P (pmem (ps (anet s))) (ethaddr e) (hwaddr ni) p) (dev (anet s'))).
Proof.
  intros Hok He Hs Hn. apply send_ok; [done|done|].
  apply (tab_link _ _ _ (ok_table _ _ _ _ Hok) e); [by eapply list_elem_of_lookup_2| |done].
  unfold is_empty, is_stable in *. by destruct (state e).
Qed.

Lemma query_entry_ok s Q P Own k e n ni ip packet : arp_ok s Q P Own -> arp_table s !! k = Some e -> ipaddr e = ip ->
  netifs (anet s) !! n = Some ni -> (is_empty e = false -> enetif e = n) ->
  (is_empty e = true -> ctime e = 0 /\ forall f, f ∈ arp_table s -> is_empty f = false -> ipaddr f = ipaddr e -> enetif f = n -> False) ->
  (forall p, packet = Some p -> caller_packet Q P Own p) ->
  wp (query_entry (Z.of_nat k) n ip ni packet) s (fun r s' => exists Q' P', arp_ok s' Q' P' Own /\
    netifs (anet s') = netifs (anet s) /\ forall p, packet = Some p -> answered s s' Q Q' P P' n ni ip p r k).
Proof.
  intros Hok He Hip Hn Hen Hnew Hpk. assert (Hlt : (k < length (arp_table s))%nat) by (by eapply lookup_lt_Some).
  unfold query_entry. apply wp_bind. eapply wp_mono; [by apply (mark_pending_ok s Q P Own k e n Hok He)|].
  intros b s1 (-> & Hok1 & En1 & Ht1). set (e1 := if is_empty e then _ else e) in Ht1.
  assert (He1 : arp_table s1 !! k = Some e1) by (rewrite Ht1; by apply list_lookup_insert_eq).
  assert (Hk1 : is_empty e1 = false /\ ipaddr e1 = ip /\ enetif e1 = n).
  { unfold e1. destruct (is_empty e) eqn:Ee; [done|]. split; [done|]. split; [done|by apply Hen]. }
  destruct Hk1 as (He10 & Hip1 & Hen1).
  assert (Hn1 : netifs (anet s1) !! n = Some ni) by (by rewrite En1).
  apply wp_bind. eapply (wp_mono _ _ (fun _ s2 => arp_ok s2 Q P Own /\ netifs (anet s2) = netifs (anet s) /\
    stays [] P (anet s) P (anet s2) /\ asked (dev (anet s)) (dev (anet s2)) ni ip /\
    (is_empty e = false /\ packet <> None -> dev (anet s2) = dev (anet s)) /\
    exists c, arp_table s2 !! k = Some (set_ctime c e1))).
  { destruct (is_empty e || _) eqn:Eb.
    - eapply wp_mono; [by apply (query_request_ok s1 Q P Own k e1 n ni ip (is_empty e))|].
      intros _ s2 (Hok2 & Hni2 & Hst2 & Hask & c & Ht2). rewrite En1 in *. do 4 (split; [done|]). split.
      + intros [Ee Hp]. rewrite Ee in Eb. by destruct packet.
      + exists c. rewrite Ht2. apply list_lookup_insert_eq. by eapply lookup_lt_Some.
    - apply wp_ret. rewrite En1. do 3 (split; [done|]). split; [by left|]. split; [done|]. exists (ctime e1).
      rewrite He1. by destruct e1. }
  intros res s2 (Hok2 & Hni2 & Hst2 & Hask & Hdv2 & c & He2). destruct packet as [p|].
  2:{ apply wp_ret. exists Q, P. by do 2 (split; [done|]). }
  destruct (Hpk p eq_refl) as (HpO & Hpn & bp & tl & Hb & Hr). destruct (Hst2 p _ ltac:(by intros ?%elem_of_nil) Hb) as [_ Hcon2].
  apply wp_bind. eapply wp_entry; [exact He2|]. cbn [state set_ctime ethaddr].
  destruct (stable (state e1)) eqn:Est.
  - assert (Ee : is_empty e = false).
    { destruct (is_empty e) eqn:Ee; [|done]. unfold e1 in Est. done. }
    assert (E1 : e1 = e) by (unfold e1; by rewrite Ee).
    apply wp_bind, wp_modify.
    eapply wp_mono.
    { eapply (send_to_entry (set_cached (Z.of_nat k) s2) Q P Own k (set_ctime c e1) n ni p bp tl); try done.
      - destruct Hok2 as [C T _]. constructor; [by apply (core_same _ s2)|done|]. cbn [etharp_cached_entry set_cached].
        pose proof (tab_size _ _ _ T). apply lookup_lt_Some in He2. unfold ARP_TABLE_SIZE. lia.
      - cbn. by rewrite Hni2. }
    intros r s3 (P' & Hok3 & Hni3 & Ht3 & Hse). exists Q, P'. split; [done|]. split; [by rewrite Hni3|].
    intros ? [= <-]. exists (set_ctime c e1). split; [by rewrite Ht3|]. split; [done|]. split; [done|]. left.
    do 2 (split; [done|]). cbn [anet set_cached] in Hse. rewrite Hdv2 in Hse by done.
    unfold packet_frames in *. rewrite Hb in *. by rewrite <- Hcon2.
  - assert (Hp1 : state e1 = ETHARP_STATE_PENDING).
    { unfold is_empty in He10. apply bool_decide_eq_false in He10. by destruct (state e1). }
    rewrite bool_decide_eq_true_2 by done. destruct (ok_queue _ _ _ _ _ _ Hok2 He2) as (l & Hl & _).
    eapply wp_mono; [by eapply (keep_packet_ok s2 Q P Own k (set_ctime c e1) l p bp tl)|].
    intros r s3 (Q' & P' & Hok3 & Hni3 & Hdv3 & [v Ht3] & Hcase). exists Q', P'. split; [done|]. split; [by rewrite Hni3|].
    intros ? [= <-]. exists (set_q v (set_ctime c e1)).
    split; [rewrite Ht3; apply list_lookup_insert_eq; by eapply lookup_lt_Some|]. split; [done|]. split; [done|]. right.
    split; [done|]. split; [by rewrite Hdv3|].
    destruct Hcase as [(-> & l' & w & -> & Hl' & lp & lw & Hlp & Hlw & Hcw)|[-> ->]]; [right|by left].
    split; [done|]. exists l, l', w. do 3 (split; [done|]). exists lp, lw. split; [done|]. split; [done|].
    assert (lp = (p, bp) :: tl) as -> by congruence. by rewrite Hcw.
Qed.

(** The packets that waited for address [ip] of interface [n], on entry [k]. *)
Definition waited (s : Arp) (Q : list (list (Z * Z))) (ip n : Z) (k : nat) (l : list (Z * Z)) : Prop :=
  (exists e, arp_table s !! k = Some e /\ matches (Some ip) n e = true /\ Q !! k = Some l) \/
  ((forall e, e ∈ arp_table s -> matches (Some ip) n e = false) /\ l = []).

Definition resolved (s s' : Arp) (Q Q' : list (list (Z * Z))) (P P' : packets) (n : Z) (ni : netif) (ip p r : Z) : Prop :=
  exists k e l, arp_table s' !! k = Some e /\ ipaddr e = ip /\ enetif e = n /\ waited s Q ip n k l /\
    (is_stable e = true /\
       sends (dev (anet s)) (packet_frames P (pmem (ps (anet s))) (ethaddr e) (hwaddr ni) p) (dev (anet s')) \/
     state e = ETHARP_STATE_PENDING /\ asked (dev (anet s)) (dev (anet s')) ni ip /\
       (r = ERR_MEM \/ r = ERR_OK /\ exists l' w, Q' !! k = Some l' /\ l'.*2 = keep_last (l.*2 ++ [w]) /\
          waits_as s s' P P' p w)).

Lemma answered_resolved s s1 s' Q Q1 Q' P P1 P' n ni ip p r k l : answered s1 s' Q1 Q' P1 P' n ni ip p r k ->
  waited s Q ip n k l -> Q1 !! k = Some l -> dev (anet s1) = dev (anet s) -> P !! p <> None ->
  stays [] (filter (fun x => x.1 = p) P) (anet s) P1 (anet s1) -> resolved s s' Q Q' P P' n ni ip p r.
Proof.
  intros (e & He & Hip & Hen & Hcase) Hw Hl Hdv Hp Hst. exists k, e, l. do 4 (split; [done|]). rewrite Hdv in Hcase.
  destruct (P !! p) as [lp|] eqn:Ep; [|done].
  destruct (Hst p lp) as [Hp1 Hcon]; [by intros ?%elem_of_nil|by apply map_lookup_filter_Some|].
  destruct Hcase as [(Hs & _ & Hse)|(Hs & Hask & Hcase)]; [left|right].
  - split; [done|]. unfold packet_frames in *. rewrite Ep. rewrite Hp1 in Hse. destruct lp as [|[a b] lp]; [done|]. by rewrite <- Hcon.
  - split; [done|]. split; [done|]. destruct Hcase as [(-> & _)|(-> & l0 & l' & w & Hl0 & -> & Hl' & l1 & l2 & H1' & H2' & H3')]; [by left|right].
    split; [done|]. assert (l0 = l) as -> by congruence. exists l', w.
    split; [apply list_lookup_insert_eq; by eapply lookup_lt_Some|]. split; [done|]. exists lp, l2.
    assert (l1 = lp) as -> by congruence. split; [done|]. split; [done|]. by rewrite H3'.
Qed.

Lemma caller_keeps Q P Own p (i : nat) l P1 (t t1 : net A D) : caller_packet Q P Own p -> Q !! i = Some l -> stays l.*2 P t P1 t1 ->
  caller_packet (<[i := []]> Q) P1 Own p /\ stays [] (filter (fun x => x.1 = p) P) t P1 t1.
Proof.
  intros (HO & Hn & b & tl & Hb & Hr) Hl Hst. assert (Hpl : ~ (p ∈ l.*2)).
  { intros Hin. apply Hn. apply (pkts_take l i Q p (length l.*2) Hl). by rewrite firstn_all. }
  destruct (Hst p _ Hpl Hb) as [Hb1 _]. split.
  - split; [done|]. split; [|by exists b, tl]. intros Hin. apply Hn. unfold pkts in *.
    destruct (concat_split _ _ _ Hl) as (R & HR & HR'). specialize (HR' []). cbn [app] in HR'. rewrite HR' in Hin.
    rewrite HR, fmap_app. apply elem_of_app. by right.
  - intros p' l' _ [Hp' E]%map_lookup_filter_Some. cbn in E. subst p'. by apply Hst.
Qed.

Lemma caller_held Q P Own p : caller_packet Q P Own p -> P !! p <> None.
Proof. intros (_ & _ & b & tl & Hb & _) E. congruence. Qed.

Lemma query_ok s Q P Own n ni ip packet : arp_ok s Q P Own -> netifs (anet s) !! n = Some ni ->
  (forall p, packet = Some p -> caller_packet Q P Own p) ->
  wp (etharp_query n ip packet) s (fun r s' => exists Q' P', arp_ok s' Q' P' Own /\
    netifs (anet s') = netifs (anet s) /\
    (unicast ip ni = false /\ r = ERR_ARG /\ s' = s \/
     unicast ip ni = true /\ forall p, packet = Some p -> resolved s s' Q Q' P P' n ni ip p r)).
Proof.
  intros Hok Hn Hpk. pose proof Hok as [Hc Ht Hca]. destruct (ok_netif _ _ _ _ _ _ Hok Hn) as (Hn0 & _ & _).
  unfold etharp_query, unicast. apply wp_bind. eapply wp_netif; [exact Hn|].
  replace (ip4_addr_isbroadcast_u32 ip (inet ni) || ip4_addr_ismulticast ip || ip4_addr_isany ip)
    with (ip4_addr_isany ip || ip4_addr_isbroadcast_u32 ip (inet ni) || ip4_addr_ismulticast ip)
    by (by destruct (ip4_addr_isany ip), (ip4_addr_isbroadcast_u32 ip (inet ni)), (ip4_addr_ismulticast ip)).
  destruct (_ || _ || _); cbn [negb].
  { apply wp_ret. exists Q, P. split; [done|]. split; [done|]. by left. }
  apply wp_bind. eapply wp_mono; [by eapply (find_entry_ok s Q P Own _ ip ETHARP_FLAG_TRY_HARD n Hc Ht); left|].
  intros i s1 [(k & e & -> & -> & He & Hm)|[Hno [(? & _)|(_ & k & e & l & P1 & -> & Hmade)]]]; [| done |]; rewrite nat_index.
  - destruct (matches_key _ _ _ Hn0 Hm) as (He0 & Hip & Hen). destruct (ok_queue _ _ _ _ _ _ Hok He) as (l & Hl & _).
    eapply wp_mono; [by eapply (query_entry_ok s Q P Own k e n ni ip packet Hok He Hip Hn); [|congruence|]|].
    intros r s2 (Q' & P' & Hok2 & Hni2 & Hans). exists Q', P'. split; [done|]. split; [done|]. right. split; [done|].
    intros p Hp. eapply (answered_resolved s s s2); [by apply Hans| |exact Hl|done| |].
    + left. by exists e.
    + eapply caller_held. by apply Hpk.
    + intros p' l' _ [Hp' _]%map_lookup_filter_Some. done.
  - pose proof (made_ok _ _ _ _ _ _ _ _ _ _ _ Hok Hmade) as Hok1. destruct Hmade as [He Hl Hv Ht1 Hc1 Hca1 Hni1 Hst1 Hdv1].
    assert (Hlt : (k < length (arp_table s))%nat) by (by eapply lookup_lt_Some).
    eapply wp_mono; [eapply (query_entry_ok s1 _ P1 Own k (new_entry ip n e) n ni ip packet Hok1)|].
    + rewrite Ht1. by apply list_lookup_insert_eq.
    + done.
    + by rewrite Hni1.
    + done.
    + intros _. split; [done|]. intros f (j & Hj)%list_elem_of_lookup Hf Hif Hnf. rewrite Ht1 in Hj.
      apply lookup_set in Hj as [(_ & -> & _)|[_ Hj]]; [done|].
      eapply no_match_key; [exact Hn0|exact Hno|by eapply list_elem_of_lookup_2|done..].
    + intros p Hp. by apply (caller_keeps Q P Own p k l P1 _ _ (Hpk p Hp) Hl Hst1).
    + intros r s2 (Q' & P' & Hok2 & Hni2 & Hans). exists Q', P'. split; [done|]. split; [congruence|]. right. split; [done|].
      intros p Hp. eapply (answered_resolved s s1 s2 _ _ _ _ _ _ _ _ _ _ _ k []); [by apply Hans| | |done| |].
      * by right.
      * apply list_lookup_insert_eq. by eapply lookup_lt_Some.
      * eapply caller_held. by apply Hpk.
      * by apply (caller_keeps Q P Own p k l P1 _ _ (Hpk p Hp) Hl Hst1).
Qed.

(** ** Output *)

Lemma caller_stays X Q P Own p (t t' : net A D) P' : caller_packet Q P Own p -> stays X P t P' t' -> ~ (p ∈ X) ->
  exists b tl, P !! p = Some ((p, b) :: tl) /\ P' !! p = Some ((p, b) :: tl) /\ ~ (p ∈ pkts Q) /\
    contents (pmem (ps t')) ((p, b) :: tl) = contents (pmem (ps t)) ((p, b) :: tl).
Proof.
  intros (HO & Hn & b & tl & Hb & Hr) Hst Hx. destruct (Hst p _ Hx Hb) as [Hb' Hc]. by exists b, tl.
Qed.

(** Sending to a known address, perhaps with a request to refresh it first. *)
Definition refreshed (s s' : Arp) (P : packets) (ni : netif) (e : etharp_entry) (p : Z) : Prop :=
  exists pre hw, (pre = [] \/ pre = [request_frame ni hw (ipaddr e)]) /\ is_stable e = true /\
    sends (dev (anet s)) (pre ++ packet_frames P (pmem (ps (anet s))) (ethaddr e) (hwaddr ni) p) (dev (anet s')).

(** The entry may be asked for again before it is used. *)
Definition reasked (s s' : Arp) (Q : list (list (Z * Z))) (P : packets) (Own : gset Z) (ni : netif) (k : nat) (e : etharp_entry) : Prop :=
  arp_ok s' Q P Own /\ netifs (anet s') = netifs (anet s) /\ stays [] P (anet s) P (anet s') /\
  (exists st, arp_table s' !! k = Some (set_state st e) /\ stable st = true) /\
  exists pre hw, (pre = [] \/ pre = [request_frame ni hw (ipaddr e)]) /\ sends (dev (anet s)) pre (dev (anet s')).
Lemma reasked_not s Q P Own ni k e : arp_ok s Q P Own -> arp_table s !! k = Some e -> is_stable e = true ->
  reasked s s Q P Own ni k e.
Proof.
  intros Hok He Hs. do 3 (split; [done|]). split; [exists (state e); split; [rewrite He; by destruct e|done]|].
  exists [], []. split; [by left|done].
Qed.

Lemma refresh_ok s Q P Own k e n ni hw : arp_ok s Q P Own -> arp_table s !! k = Some e -> state e = ETHARP_STATE_STABLE ->
  netifs (anet s) !! n = Some ni -> length hw = 6%nat ->
  wp (r ← etharp_request_dst n (ipaddr e) hw;
      if r =? ERR_OK then upd_entry (Z.of_nat k) (set_state ETHARP_STATE_STABLE_REREQUESTING_1) else mret tt) s
    (fun _ s' => reasked s s' Q P Own ni k e).
Proof.
  intros Hok He Hs Hn Hhw. destruct (ok_queue _ _ _ _ _ _ Hok He) as (l & Hl & _ & _ & Hemp).
  assert (Hin : e ∈ arp_table s) by (by eapply list_elem_of_lookup_2).
  assert (He0 : is_empty e = false) by (unfold is_empty; by rewrite Hs).
  destruct (tab_age _ _ _ (ok_table _ _ _ _ Hok) e Hin) as (H1' & H2' & _).
  destruct (tab_link _ _ _ (ok_table _ _ _ _ Hok) e Hin He0) as [_ H4'].
  apply wp_bind. eapply wp_mono; [by apply (request_keeps s Q P Own n ni hw (ipaddr e) Hok Hn)|].
  intros r s1 (t & -> & Hok1 & Hni1 & Hst1 & Hr).
  assert (Hpre : exists pre hw, (pre = [] \/ pre = [request_frame ni hw (ipaddr e)]) /\ sends (dev (anet s)) pre (dev t)).
  { destruct Hr as [[_ ->]|[_ Hse]]; [exists [], hw; split; [by left|done]|eexists _, hw; split; [by right|exact Hse]]. }
  destruct (r =? ERR_OK).
  - eapply wp_upd; [exact He|]. split; [|do 2 (split; [done|]); split; [|done]].
    + apply (ok_touch (set_anet t s) Q P Own k e _ l Hok1 He Hl He0); try done.
      * intros _. apply Hemp. congruence.
      * split; [done|]. split; [by apply H2'|done].
      * intros _. apply H4'. unfold is_stable. by rewrite Hs.
    + eexists. split; [cbn; apply list_lookup_insert_eq; by eapply lookup_lt_Some|done].
  - apply wp_ret. do 3 (split; [done|]). split; [|done]. exists ETHARP_STATE_STABLE. split; [|done].
    etransitivity; [exact He|]. destruct e; cbn in *. by subst.
Qed.

Lemma to_index_ok s Q P Own k e n ni p : arp_ok s Q P Own -> arp_table s !! k = Some e -> is_stable e = true ->
  netifs (anet s) !! n = Some ni -> caller_packet Q P Own p ->
  wp (etharp_output_to_arp_index n p (Z.of_nat k)) s (fun _ s' => exists P', arp_ok s' Q P' Own /\
    netifs (anet s') = netifs (anet s) /\ refreshed s s' P ni e p).
Proof.
  intros Hok He Hs Hn Hpk. assert (Hin : e ∈ arp_table s) by (by eapply list_elem_of_lookup_2).
  assert (He0 : is_empty e = false) by (unfold is_empty, is_stable in *; by destruct (state e)).
  destruct (tab_link _ _ _ (ok_table _ _ _ _ Hok) e Hin He0) as [_ Heth].
  unfold etharp_output_to_arp_index. apply wp_bind. eapply wp_entry; [exact He|]. apply wp_bind, wp_assert; [done|].
  apply wp_bind. eapply (wp_mono _ _ (fun _ s' => reasked s s' Q P Own ni k e)).
  { case_bool_decide as Est; [|apply wp_ret; by apply reasked_not].
    destruct (_ <=? _); [by apply (refresh_ok s Q P Own k e n ni)|].
    destruct (_ <=? _); [apply (refresh_ok s Q P Own k e n ni); auto|apply wp_ret; by apply reasked_not]. }
  intros _ s1 (Hok1 & Hni1 & Hst1 & (st & He1 & Hst) & pre & hw & Hpre & Hse1).
  destruct (caller_stays _ _ _ _ _ _ _ _ Hpk Hst1) as (b & tl & Hb & Hb1 & Hpn & Hcon); [by intros ?%elem_of_nil|].
  assert (Hn1 : netifs (anet s1) !! n = Some ni) by (by rewrite Hni1).
  apply wp_bind. eapply wp_netif; [exact Hn1|]. apply wp_bind. eapply wp_entry; [exact He1|].
  eapply wp_mono; [by apply (send_to_entry s1 Q P Own k (set_state st e) n ni p b tl Hok1 He1 Hst Hn1 Hpn Hb1)|].
  intros _ s2 (P' & Hok2 & Hni2 & _ & Hse2). exists P'. split; [done|]. split; [congruence|]. exists pre, hw.
  split; [done|]. split; [done|]. eapply sends_app; [exact Hse1|]. cbn [ethaddr set_state] in Hse2.
  unfold packet_frames in *. rewrite Hb in *. by rewrite <- Hcon.
Qed.
End Ok.
