(* ===== verification/EtharpIo.v ===== *)
(** Whole calls of etharp.c: what [etharp_output] does with a packet and what
    [etharp_input] does with a received ARP packet, and the theorems about the
    module's entry points. *)
From S2P Require Import Prelude CMem Memp Pbuf IpAddr Packets Ethernet Etharp EtharpInv EtharpOk.

Section Io.
Context {A D : Type} `{PbufHeap A} `{LinkOk D}.
Context (dhcp_decline : Z -> M (arp A D) unit).
Abbreviation Arp := (arp A D).
Abbreviation packets := (gmap Z (list (Z * pbuf))).

(** ** Output *)

(** A stable entry for address [a] on interface [n]. *)
Definition answers (n a : Z) (e : etharp_entry) : bool := is_stable e && (enetif e =? n) && (a =? ipaddr e).
Lemma answers_key n a e : answers n a e = true -> is_stable e = true /\ enetif e = n /\ ipaddr e = a.
Proof. unfold answers. rewrite !andb_true_iff, !Z.eqb_eq. by intros [[? ?] ->]. Qed.

Lemma find_stable_spec es : forall i n a,
  match find_stable i es n a with
  | Some j => exists k e, j = i + Z.of_nat k /\ es !! k = Some e /\ answers n a e = true
  | None => forall e, e ∈ es -> answers n a e = false
  end.
Proof.
  induction es as [|e es IH]; intros i n a; cbn [find_stable]; [by intros ? ?%elem_of_nil|].
  fold (is_stable e). fold (answers n a e). destruct (answers n a e) eqn:E.
  - exists 0%nat, e. split; [lia|done].
  - specialize (IH (i + 1) n a). destruct (find_stable (i + 1) es n a) as [j|].
    + destruct IH as (k & e' & -> & Hk & Ha). exists (S k), e'. split; [lia|done].
    + intros e' [->|Hin]%elem_of_cons; [done|by apply IH].
Qed.

(** The address the packet is sent to: its own on the same network, else the gateway's. *)
Definition next_hop (ip : Z) (ni : netif) : option Z :=
  if ip4_addr_netcmp ip (ip_addr (inet ni)) (netmask (inet ni)) || ip4_addr_islinklocal ip then Some ip
  else if ip4_addr_isany (gw ni) then None else Some (gw ni).

Definition delivered (s s' : Arp) (Q Q' : list (list (Z * Z))) (P P' : packets) (n : Z) (ni : netif) (p ip r : Z) : Prop :=
  let send dest := Q' = Q /\ sends (dev (anet s)) (packet_frames P (pmem (ps (anet s))) dest (hwaddr ni) p) (dev (anet s')) in
  if ip4_addr_isbroadcast_u32 ip (inet ni) then send ethbroadcast
  else if ip4_addr_ismulticast ip then send (mcastaddr ip)
  else match next_hop ip ni with
       | None => r = ERR_RTE /\ s' = s
       | Some a =>
           (exists e, e ∈ arp_table s /\ answers n a e = true /\ Q' = Q /\ refreshed s s' P ni e p) \/
           ((forall e, e ∈ arp_table s -> answers n a e = false) /\
            (unicast a ni = false /\ r = ERR_ARG /\ s' = s \/
             unicast a ni = true /\ resolved s s' Q Q' P P' n ni a p r))
       end.

Lemma ok_set_cached s Q P Own i : arp_ok s Q P Own -> 0 <= i < ARP_TABLE_SIZE -> arp_ok (set_cached i s) Q P Own.
Proof. intros [C T _] Hi. constructor; [by apply (core_same _ s)|done|done]. Qed.

Lemma output_known s Q P Own k e n ni p a : arp_ok s Q P Own -> arp_table s !! k = Some e -> answers n a e = true ->
  netifs (anet s) !! n = Some ni -> caller_packet Q P Own p ->
  wp (etharp_output_to_arp_index n p (Z.of_nat k)) s (fun r s' => exists Q' P', arp_ok s' Q' P' Own /\
    netifs (anet s') = netifs (anet s) /\
    exists e, e ∈ arp_table s /\ answers n a e = true /\ Q' = Q /\ refreshed s s' P ni e p).
Proof.
  intros Hok He Ha Hn Hp. destruct (answers_key _ _ _ Ha) as (Hs & _).
  eapply wp_mono; [by apply (to_index_ok s Q P Own k e n ni p)|].
  intros r s' (P' & Hok' & Hni' & Href). exists Q, P'. split; [done|]. split; [done|]. exists e.
  split; [by eapply list_elem_of_lookup_2|done].
Qed.

(** The next hop is looked up in the cached entry, then in the table, then asked for. *)
Lemma output_unicast s Q P Own n ni p a : arp_ok s Q P Own -> netifs (anet s) !! n = Some ni -> caller_packet Q P Own p ->
  wp (s ← get;
      e ← entry_at (etharp_cached_entry s);
      if stable (state e) && (enetif e =? n) && (a =? ipaddr e) then
        etharp_output_to_arp_index n p (etharp_cached_entry s)
      else match find_stable 0 (arp_table s) n a with
           | Some i => modify (set_cached i);; etharp_output_to_arp_index n p i
           | None => etharp_query n a (Some p)
           end) s (fun r s' => exists Q' P', arp_ok s' Q' P' Own /\ netifs (anet s') = netifs (anet s) /\
    ((exists e, e ∈ arp_table s /\ answers n a e = true /\ Q' = Q /\ refreshed s s' P ni e p) \/
     ((forall e, e ∈ arp_table s -> answers n a e = false) /\
      (unicast a ni = false /\ r = ERR_ARG /\ s' = s \/
       unicast a ni = true /\ resolved s s' Q Q' P P' n ni a p r)))).
Proof.
  intros Hok Hn Hp. pose proof (ok_cached _ _ _ _ Hok) as Hca. pose proof (tab_size _ _ _ (ok_table _ _ _ _ Hok)) as Hsz.
  apply wp_bind, wp_get. destruct (lookup_lt_is_Some_2 (arp_table s) (Z.to_nat (etharp_cached_entry s))) as [e He].
  { unfold ARP_TABLE_SIZE in Hca. lia. }
  rewrite <- (Z2Nat.id (etharp_cached_entry s)) by lia. apply wp_bind. eapply wp_entry; [exact He|].
  fold (is_stable e). fold (answers n a e). destruct (answers n a e) eqn:Ea.
  { eapply wp_mono; [by apply (output_known s Q P Own _ e n ni p a)|]. intros r s' (Q' & P' & ? & ? & ?). exists Q', P'. eauto. }
  pose proof (find_stable_spec (arp_table s) 0 n a) as Hf. destruct (find_stable 0 (arp_table s) n a) as [i|].
  - destruct Hf as (k & e' & -> & Hk & Ha). rewrite Z.add_0_l in *. apply wp_bind, wp_modify.
    pose proof (lookup_lt_Some _ _ _ Hk) as Hlt.
    eapply wp_mono; [eapply (output_known (set_cached (Z.of_nat k) s) Q P Own k e' n ni p a); try done|].
    { apply ok_set_cached; [done|unfold ARP_TABLE_SIZE; lia]. }
    intros r s' (Q' & P' & ? & ? & ?). exists Q', P'. eauto.
  - eapply wp_mono; [by apply (query_ok s Q P Own n ni a (Some p)); [..|intros ? [= <-]]|].
    intros r s' (Q' & P' & Hok' & Hni' & Hcase). exists Q', P'. split; [done|]. split; [done|]. right. split; [done|].
    destruct Hcase as [?|[? Hr]]; [by left|]. right. split; [done|]. by apply Hr.
Qed.

Lemma output_call_ok s Q P Own n ni p ip : arp_ok s Q P Own -> netifs (anet s) !! n = Some ni -> caller_packet Q P Own p ->
  wp (etharp_output n p ip) s (fun r s' => exists Q' P', arp_ok s' Q' P' Own /\ netifs (anet s') = netifs (anet s) /\
    delivered s s' Q Q' P P' n ni p ip r).
Proof.
  intros Hok Hn Hp. pose proof Hp as (_ & Hpn & b & tl & Hb & _). unfold etharp_output, delivered, next_hop.
  apply wp_bind. eapply wp_netif; [exact Hn|].
  assert (Hsend : forall dest, length dest = 6%nat ->
    wp (on_net (ethernet_output n p (hwaddr ni) dest ETHTYPE_IP)) s (fun r s' => exists Q' P', arp_ok s' Q' P' Own /\
      netifs (anet s') = netifs (anet s) /\
      Q' = Q /\ sends (dev (anet s)) (packet_frames P (pmem (ps (anet s))) dest (hwaddr ni) p) (dev (anet s')))).
  { intros dest Hd. eapply wp_mono; [by apply (send_ok s Q P Own n ni p b tl dest)|].
    intros r s' (P' & ? & ? & _ & ?). by exists Q, P'. }
  destruct (ip4_addr_isbroadcast_u32 ip (inet ni)); [by apply Hsend|].
  destruct (ip4_addr_ismulticast ip); [by apply Hsend|].
  destruct (ip4_addr_netcmp ip (ip_addr (inet ni)) (netmask (inet ni))), (ip4_addr_islinklocal ip); cbn [negb andb orb];
    try by apply output_unicast.
  destruct (ip4_addr_isany (gw ni)); [|by apply output_unicast].
  apply wp_ret. by exists Q, P.
Qed.
(** ** Input *)

Definition well_formed (hdr : list Z) : bool :=
  (get16 hdr 0 =? lwip_htons LWIP_IANA_HWTYPE_ETHERNET) && (hdr !!! 4%nat =? ETH_HWADDR_LEN)
  && (hdr !!! 5%nat =? 4) && (get16 hdr 2 =? lwip_htons ETHTYPE_IP).
Definition is_request (hdr : list Z) : bool := get16 hdr 6 =? lwip_htons ARP_REQUEST.
Definition sender_hw (hdr : list Z) : list Z := get_bytes hdr 8 6.
Definition sender_ip (hdr : list Z) : Z := get32 hdr 14.
Definition for_us (hdr : list Z) (ni : netif) : bool :=
  negb (ip4_addr_isany (ip_addr (inet ni))) && (get32 hdr 24 =? ip_addr (inet ni)).
(** DHCP does not see its offered address answered for. *)
Definition no_conflict (ni : netif) (addr : Z) : bool :=
  match dhcp ni with
  | Some (st, offered) => negb ((st =? DHCP_STATE_CHECKING) && (addr =? offered))
  | None => true
  end.
Definition reply_frame (hdr : list Z) (ni : netif) : list Z :=
  frame_of (sender_hw hdr) (hwaddr ni) ETHTYPE_ARP
    (arp_packet ARP_REPLY (hwaddr ni) (ip_addr (inet ni)) (sender_hw hdr) (sender_ip hdr)).
(** The answer to a request for us, unless there is no memory for it; nothing otherwise. *)
Definition reply (hdr : list Z) (ni : netif) (fs : list (list Z)) : Prop :=
  fs = [] \/ is_request hdr = true /\ for_us hdr ni = true /\ fs = [reply_frame hdr ni].

(** What an ARP packet changes: the sender is learned if its address is one host's and the
    packet is for us or the table knows the sender already. *)
Definition heard (s s' : Arp) (Q Q' : list (list (Z * Z))) (P : packets) (n : Z) (ni : netif) (hdr : list Z) : Prop :=
  exists sent fs, sends (dev (anet s)) (sent ++ fs) (dev (anet s')) /\ reply hdr ni fs /\
    if unicast (sender_ip hdr) ni && (for_us hdr ni || existsb (matches (Some (sender_ip hdr)) n) (arp_table s)) then
      exists k l, found_or_made s (sender_ip hdr) n k l (queue_frames P (pmem (ps (anet s))) (sender_hw hdr) (hwaddr ni) l) sent /\
        Q !! k = Some l /\ Q' = <[k := []]> Q /\
        arp_table s' = <[k := learned (sender_ip hdr) n (sender_hw hdr)]> (arp_table s)
    else sent = [] /\ Q' = Q /\ arp_table s' = arp_table s.

Lemma core_own_less heads s Q P Own Own' U : Own' ⊆ Own -> core heads s Q P Own U -> core heads s Q P Own' U.
Proof. intros Hsub [? ? ? ? ? Ho ?]. constructor; try done. intros p Hp. apply Ho. by apply Hsub. Qed.

(** The caller's reference is given up. *)
Lemma consume_ok s Q P Own p b l : arp_ok s Q P Own -> ~ (p ∈ pkts Q) -> P !! p = Some ((p, b) :: l) ->
  wp (on_pbuf (pbuf_free p);; mret tt) s (fun _ s' => exists P', arp_ok s' Q P' (Own ∖ {[p]}) /\ netifs (anet s') = netifs (anet s) /\
    dev (anet s') = dev (anet s) /\ arp_table s' = arp_table s).
Proof.
  intros [C T Hca] Hp Hb. apply (core_own_less _ _ _ _ _ (Own ∖ {[p]})) in C; [|set_solver].
  apply wp_bind. eapply wp_mono; [eapply (core_free _ _ _ _ _ _ p b l C Hp Hb); set_solver|].
  intros _ s' (Hc' & (T1 & T2 & T3) & _ & Hdv & _). apply wp_ret. exists (dropped p b l P). split; [|done]. constructor.
  - by eapply tcore_heads.
  - by rewrite T1, T3.
  - by rewrite T2.
Qed.

Lemma answer_ok s Q P Own n ni hdr : arp_ok s Q P Own -> netifs (anet s) !! n = Some ni -> length (sender_hw hdr) = 6%nat ->
  no_conflict ni (sender_ip hdr) = true ->
  wp (if get16 hdr 6 =? lwip_htons ARP_REQUEST then
        if for_us hdr ni then
          etharp_raw n (hwaddr ni) (sender_hw hdr) (hwaddr ni) (ip_addr (inet ni)) (sender_hw hdr) (sender_ip hdr) ARP_REPLY;;
          mret tt
        else mret tt
      else if get16 hdr 6 =? lwip_htons ARP_REPLY then dhcp_arp_reply dhcp_decline n (sender_ip hdr)
      else mret tt) s (fun _ s' => arp_ok s' Q P Own /\ netifs (anet s') = netifs (anet s) /\ arp_table s' = arp_table s /\
    stays [] P (anet s) P (anet s') /\ exists fs, reply hdr ni fs /\ sends (dev (anet s)) fs (dev (anet s'))).
Proof.
  intros Hok Hn Hhw Hdh.
  assert (Hquiet : wp (mret tt) s (fun _ s' => arp_ok s' Q P Own /\ netifs (anet s') = netifs (anet s) /\ arp_table s' = arp_table s /\
    stays [] P (anet s) P (anet s') /\ exists fs, reply hdr ni fs /\ sends (dev (anet s)) fs (dev (anet s')))).
  { apply wp_ret. do 4 (split; [done|]). exists []. split; [by left|done]. }
  fold (is_request hdr). destruct (is_request hdr) eqn:Er.
  - destruct (for_us hdr ni) eqn:Ef; [|done]. apply wp_bind. eapply wp_mono; [by apply (raw_keeps s Q P Own n ni)|].
    intros r s' (t & -> & Hok' & Hni' & Hst' & Hr). apply wp_ret. do 4 (split; [done|]).
    destruct Hr as [[_ Hd]|[_ Hs]]; [exists []; split; [by left|done]|]. exists [reply_frame hdr ni].
    split; [by right|done].
  - destruct (_ =? lwip_htons ARP_REPLY); [|done]. unfold dhcp_arp_reply. destruct (n =? 0); [done|].
    apply wp_bind. eapply wp_netif; [exact Hn|]. unfold no_conflict in Hdh. destruct (dhcp ni) as [[st off]|]; [|done].
    by destruct (_ && _).
Qed.

(** The update leaves the packet that brought it to its caller. *)
Lemma learn_ok s Q P Own n ni p hdr : arp_ok s Q P Own -> netifs (anet s) !! n = Some ni -> caller_packet Q P Own p ->
  length (sender_hw hdr) = 6%nat ->
  wp (etharp_update_arp_entry n (sender_ip hdr) (sender_hw hdr)
        (if for_us hdr ni then ETHARP_FLAG_TRY_HARD else ETHARP_FLAG_FIND_ONLY)) s
    (fun _ s' => exists Q' P', arp_ok s' Q' P' Own /\ netifs (anet s') = netifs (anet s) /\ ~ (p ∈ pkts Q') /\
      (exists b tl, P' !! p = Some ((p, b) :: tl)) /\
      forall s2 fs, arp_table s2 = arp_table s' -> sends (dev (anet s')) fs (dev (anet s2)) -> reply hdr ni fs ->
        heard s s2 Q Q' P n ni hdr).
Proof.
  intros Hok Hn Hp Hhw. pose proof Hp as (_ & Hpn & b & tl & Hb & _).
  eapply wp_mono; [apply (update_ok s Q P Own n ni _ _ _ Hok Hn Hhw); destruct (for_us hdr ni); eauto|].
  intros r s' (Q' & P' & Hok' & Hni' & Hcase). exists Q', P'. split; [done|]. split; [done|].
  destruct Hcase as [(Hno & -> & -> & ->)|(Hu & _ & Hfo & k & l & sent & Hfm & Hl & -> & Ht & Hst & Hse)].
  - split; [done|]. split; [by exists b, tl|]. intros s2 fs Et Hs Hr. exists [], fs. do 2 (split; [done|]).
    assert (unicast (sender_ip hdr) ni && (for_us hdr ni || existsb (matches (Some (sender_ip hdr)) n) (arp_table s)) = false) as ->;
      [|done].
    destruct Hno as [[-> _]|(Hf & _ & Hno)]; [done|]. destruct (for_us hdr ni); [done|].
    rewrite andb_false_iff. right. apply not_true_iff_false. cbn [orb].
    intros (e & Hin%list_elem_of_In & Hm)%existsb_exists. by rewrite Hno in Hm.
  - destruct (caller_keeps Q P Own p k l P' _ _ Hp Hl Hst) as [(_ & Hpn' & b' & tl' & Hb' & _) _].
    split; [done|]. split; [by exists b', tl'|]. intros s2 fs Et Hs Hr. exists sent, fs.
    split; [by eapply sends_app|]. split; [done|].
    assert (unicast (sender_ip hdr) ni && (for_us hdr ni || existsb (matches (Some (sender_ip hdr)) n) (arp_table s)) = true) as ->.
    { rewrite Hu. destruct (for_us hdr ni); [done|]. destruct (Hfo eq_refl) as (e & Hin%list_elem_of_In & Hm). cbn [orb andb].
      apply existsb_exists. by exists e. }
    exists k, l. by rewrite Et.
Qed.

Lemma take_total {X} `{!Inhabited X} (c : list X) (k n m : nat) : (k < n)%nat -> (k < m)%nat -> take n c !!! k = take m c !!! k.
Proof. intros Hn Hm. rewrite !list_lookup_total_alt, !lookup_take_lt by done. done. Qed.

Lemma input_call_ok s Q P Own n ni p b tl c : arp_ok s Q P Own -> netifs (anet s) !! n = Some ni -> caller_packet Q P Own p ->
  P !! p = Some ((p, b) :: tl) -> SIZEOF_ETHARP_HDR <= len b -> contents (pmem (ps (anet s))) ((p, b) :: tl) = Some c ->
  no_conflict ni (sender_ip (take 28 c)) = true ->
  wp (etharp_input dhcp_decline p n) s (fun _ s' => exists Q' P', arp_ok s' Q' P' (Own ∖ {[p]}) /\
    netifs (anet s') = netifs (anet s) /\
    if well_formed (take 28 c) then heard s s' Q Q' P n ni (take 28 c)
    else Q' = Q /\ arp_table s' = arp_table s /\ dev (anet s') = dev (anet s)).
Proof.
  intros Hok Hn Hp Hb Hlen Hc Hdh. pose proof Hp as (_ & Hpn & _). destruct (ok_netif _ _ _ _ _ _ Hok Hn) as (Hn0 & _ & _).
  pose proof (net_held _ _ _ (core_net _ _ _ _ _ _ (ok_core _ _ _ _ Hok))) as Hh.
  destruct (holds_packet _ _ _ _ _ Hh Hb) as (b0 & l0 & [= <- <-] & _ & Hpb & _).
  apply contents_cons in Hc as (c1 & c2 & -> & Hc1 & _ & _). cbn [snd] in Hc1. unfold SIZEOF_ETHARP_HDR in Hlen.
  pose proof (load_bytes_length _ _ _ _ Hc1) as Hl1. set (hdr := take 28 (c1 ++ c2)) in *.
  assert (Hload : forall k, (k <= 28)%nat -> load_bytes (pmem (ps (anet s))) (payload b) k = Some (take k (c1 ++ c2))).
  { intros k Hk. rewrite take_app_le by lia. eapply load_bytes_take; [exact Hc1|lia]. }
  assert (Hhw : length (sender_hw hdr) = 6%nat).
  { unfold sender_hw, get_bytes, hdr. rewrite length_take, length_drop, length_take, length_app. lia. }
  unfold etharp_input. destruct (Z.eqb_spec n 0) as [|_]; [done|].
  assert (Es : set_anet (set_ps (ps (anet s)) (anet s)) s = s) by (by destruct s as [? ? ? []]).
  assert (HLOAD : forall k, (k <= 28)%nat -> LOAD (payload b) k (ps (anet s)) = Done (take k (c1 ++ c2), ps (anet s))).
  { intros k Hk. unfold LOAD. mred. by rewrite Hload. }
  apply wp_bind. eapply wp_pbuf_use; [by apply rd_run|]. rewrite Es.
  apply wp_bind. eapply wp_pbuf_use; [by apply (HLOAD 6%nat); lia|]. rewrite Es.
  assert (Ewf : negb (get16 (take 6 (c1 ++ c2)) 0 =? lwip_htons LWIP_IANA_HWTYPE_ETHERNET)
      || negb (take 6 (c1 ++ c2) !!! 4%nat =? ETH_HWADDR_LEN) || negb (take 6 (c1 ++ c2) !!! 5%nat =? 4)
      || negb (get16 (take 6 (c1 ++ c2)) 2 =? lwip_htons ETHTYPE_IP) = negb (well_formed hdr)).
  { unfold well_formed, hdr, get16. rewrite !negb_andb. by rewrite !(take_total (c1 ++ c2) _ 6 28) by lia. }
  rewrite Ewf. destruct (well_formed hdr); cbn [negb].
  2:{ eapply wp_mono; [by apply (consume_ok s Q P Own p b tl)|]. intros _ s' (P' & ? & ? & ? & ?). by exists Q, P'. }
  apply wp_bind. eapply wp_pbuf_use; [by apply (HLOAD 28%nat)|]. rewrite Es. apply wp_bind. eapply wp_netif; [exact Hn|].
  apply wp_bind. eapply wp_mono; [by apply (learn_ok s Q P Own n ni p hdr)|].
  intros _ s1 (Q1 & P1 & Hok1 & Hni1 & Hpn1 & (b1 & tl1 & Hb1) & Hheard).
  apply wp_bind. eapply wp_mono; [by apply (answer_ok s1 Q1 P1 Own n ni hdr); [|rewrite Hni1|..]|].
  intros _ s2 (Hok2 & Hni2 & Ht2 & _ & fs & Hr & Hs2).
  eapply wp_mono; [by apply (consume_ok s2 Q1 P1 Own p b1 tl1)|]. intros _ s3 (P3 & Hok3 & Hni3 & Hdv3 & Ht3).
  exists Q1, P3. split; [done|]. split; [congruence|]. apply (Hheard s3 fs); [congruence|by rewrite Hdv3|done].
Qed.
(** ** Look-ups *)

Lemma find_addr_ok s Q P Own n ip : arp_ok s Q P Own ->
  wp (etharp_find_addr n ip) s (fun r s' => s' = s /\
    match r.2 with
    | Some e => exists k, r.1 = Z.of_nat k /\ arp_table s !! k = Some e /\ is_stable e = true /\ matches (Some ip) n e = true
    | None => r.1 = -1
    end).
Proof.
  intros [C T Hca]. unfold etharp_find_addr. apply wp_bind.
  eapply wp_mono; [by apply (find_entry_ok s Q P Own _ ip ETHARP_FLAG_FIND_ONLY n C T); right|].
  intros i s1 [(k & e & -> & -> & He & Hm)|[_ [(_ & -> & ->)|(? & _)]]]; [| |done].
  - rewrite nat_index. apply wp_bind. eapply wp_entry; [exact He|]. apply wp_ret. split; [done|].
    fold (is_stable e). destruct (is_stable e) eqn:Es; [|done]. by exists k.
  - apply wp_ret. done.
Qed.

Lemma get_entry_ok s Q P Own i : arp_ok s Q P Own -> 0 <= i ->
  wp (etharp_get_entry i) s (fun r s' => s' = s /\
    match r.2 with
    | Some e => r.1 = 1 /\ arp_table s !! Z.to_nat i = Some e /\ is_stable e = true
    | None => r.1 = 0
    end).
Proof.
  intros [_ T _] Hi. pose proof (tab_size _ _ _ T) as Hsz. unfold etharp_get_entry. destruct (Z.ltb_spec i ARP_TABLE_SIZE) as [Hlt|_].
  - unfold ARP_TABLE_SIZE in Hlt. destruct (lookup_lt_is_Some_2 (arp_table s) (Z.to_nat i)) as [e He]; [lia|].
    rewrite <- (Z2Nat.id i) at 1 by lia. apply wp_bind. eapply wp_entry; [exact He|]. apply wp_ret. split; [done|].
    fold (is_stable e). by destruct (is_stable e) eqn:Es.
  - by apply wp_ret.
Qed.

(** ** The calls of the module *)

Inductive arp_call :=
  | CallTmr
  | CallCleanup (n : Z)
  | CallRequest (n ip : Z)
  | CallQuery (n ip : Z) (packet : option Z)
  | CallOutput (n p ip : Z)
  | CallInput (p n : Z)
  | CallFindAddr (n ip : Z)
  | CallGetEntry (i : Z).
Definition run (c : arp_call) : M Arp unit :=
  match c with
  | CallTmr => etharp_tmr
  | CallCleanup n => etharp_cleanup_netif n
  | CallRequest n ip => etharp_request n ip;; mret tt
  | CallQuery n ip packet => etharp_query n ip packet;; mret tt
  | CallOutput n p ip => etharp_output n p ip;; mret tt
  | CallInput p n => etharp_input dhcp_decline p n
  | CallFindAddr n ip => etharp_find_addr n ip;; mret tt
  | CallGetEntry i => etharp_get_entry i;; mret tt
  end.
(** A received packet: its first pbuf holds the whole header. *)
Definition arp_frame (s : Arp) (P : packets) (ni : netif) (p : Z) : Prop :=
  exists b tl c, P !! p = Some ((p, b) :: tl) /\ SIZEOF_ETHARP_HDR <= len b /\
    contents (pmem (ps (anet s))) ((p, b) :: tl) = Some c /\ no_conflict ni (sender_ip (take 28 c)) = true.
(** What the callers see to: interfaces that exist, packets they own, and a
    received packet that was not found too short by the link layer. *)
Definition ready (s : Arp) (Q : list (list (Z * Z))) (P : packets) (Own : gset Z) (c : arp_call) : Prop :=
  match c with
  | CallTmr | CallCleanup _ | CallFindAddr _ _ => True
  | CallGetEntry i => 0 <= i
  | CallRequest n _ | CallQuery n _ None => is_Some (netifs (anet s) !! n)
  | CallQuery n _ (Some p) | CallOutput n p _ => is_Some (netifs (anet s) !! n) /\ caller_packet Q P Own p
  | CallInput p n => exists ni, netifs (anet s) !! n = Some ni /\ caller_packet Q P Own p /\ arp_frame s P ni p
  end.
(** The packets the callers still own after the call. *)
Definition left_to_callers (Own : gset Z) (c : arp_call) : gset Z :=
  match c with CallInput p _ => Own ∖ {[p]} | _ => Own end.

Lemma query_keeps s Q P Own n ip packet : arp_ok s Q P Own -> is_Some (netifs (anet s) !! n) ->
  (forall p, packet = Some p -> caller_packet Q P Own p) ->
  wp (etharp_query n ip packet;; mret tt) s (fun _ s' => exists Q' P', arp_ok s' Q' P' Own /\ netifs (anet s') = netifs (anet s)).
Proof.
  intros Hok [ni Hn] Hp. apply wp_bind. eapply wp_mono; [by apply (query_ok s Q P Own n ni ip packet)|].
  intros r s' (Q' & P' & ? & ? & _). apply wp_ret. by exists Q', P'.
Qed.

Lemma calls_run s Q P Own c : arp_ok s Q P Own -> ready s Q P Own c ->
  wp (run c) s (fun _ s' => exists Q' P', arp_ok s' Q' P' (left_to_callers Own c) /\ netifs (anet s') = netifs (anet s)).
Proof.
  intros Hok Hr. destruct c as [|n|n ip|n ip packet|n p ip|p n|n ip|i]; cbn [run left_to_callers].
  - eapply wp_mono; [by apply (tmr_ok s Q P Own)|]. intros _ s' (Q' & P' & ? & ? & _). by exists Q', P'.
  - eapply wp_mono; [apply (cleanup_loop_ok 10 0 s Q P Own n Hok); lia|]. intros _ s' (Q' & P' & ? & ? & _). by exists Q', P'.
  - destruct Hr as [ni Hn]. apply wp_bind. eapply wp_mono; [by apply (request_keeps s Q P Own n ni ethbroadcast ip Hok Hn)|].
    intros r s' (t & -> & ? & ? & _). apply wp_ret. by exists Q, P.
  - destruct packet as [p|]; [destruct Hr as [Hn Hp]|rename Hr into Hn]; apply (query_keeps s Q P Own n ip); try done.
    by intros ? [= <-].
  - destruct Hr as [[ni Hn] Hp]. apply wp_bind. eapply wp_mono; [by apply (output_call_ok s Q P Own n ni p ip)|].
    intros r s' (Q' & P' & ? & ? & _). apply wp_ret. by exists Q', P'.
  - destruct Hr as (ni & Hn & Hp & b & tl & c & Hb & Hl & Hc & Hd).
    eapply wp_mono; [by apply (input_call_ok s Q P Own n ni p b tl c)|]. intros _ s' (Q' & P' & ? & ? & _). by exists Q', P'.
  - apply wp_bind. eapply wp_mono; [by apply (find_addr_ok s Q P Own n ip)|]. intros r s' [-> _]. apply wp_ret. by exists Q, P.
  - apply wp_bind. eapply wp_mono; [by apply (get_entry_ok s Q P Own i)|]. intros r s' [-> _]. apply wp_ret. by exists Q, P.
Qed.

(** C28: Every entry point of the module (timer, clean-up, request, query, output, input and the look-ups), called as
    its contract asks, ends without a fault, a failed assertion or a loop that does not stop, and keeps the module's
    invariant: the queues of the entries are disjoint and acyclic, hold at most three packets each and exactly the queue
    elements that are in use; only pending entries have one; no two entries in use have the same key; ages stay below
    their limits; every packet that waits is held and every packet the callers own is still theirs, except the packet
    given to etharp_input, whose reference the call gives up. *)
Theorem etharp_calls_keep_invariant s Q P Own c : arp_ok s Q P Own -> ready s Q P Own c ->
  wp (run c) s (fun _ s' => exists Q' P', arp_ok s' Q' P' (left_to_callers Own c) /\ netifs (anet s') = netifs (anet s)).
Proof. apply calls_run. Qed.



(** ** Ageing *)

(** Calls of the timer with nothing in between. *)
Fixpoint ticks (n : nat) : M Arp unit :=
  match n with
  | O => mret tt
  | S n => etharp_tmr;; ticks n
  end.

Lemma ticks_ok n : forall s Q P Own, arp_ok s Q P Own ->
  wp (ticks n) s (fun _ s' => exists Q' P', arp_ok s' Q' P' Own /\ netifs (anet s') = netifs (anet s) /\
    arp_table s' = Nat.iter n aged <$> arp_table s).
Proof.
  induction n as [|n IH]; intros s Q P Own Hok; cbn [ticks].
  - apply wp_ret. exists Q, P. split; [done|]. split; [done|]. by rewrite list_fmap_id.
  - apply wp_bind. eapply wp_mono; [by apply (tmr_ok s Q P Own)|]. intros _ s1 (Q1 & P1 & Hok1 & Hni1 & Ht1).
    eapply wp_mono; [by apply (IH s1 Q1 P1 Own)|]. intros _ s2 (Q2 & P2 & Hok2 & Hni2 & Ht2). exists Q2, P2.
    split; [done|]. split; [congruence|]. rewrite Ht2, Ht1, <- list_fmap_compose. apply list_fmap_ext. intros i e _. cbn.
    by rewrite <- Nat.iter_succ_r.
Qed.

Lemma aged_iter k e : is_empty (Nat.iter k aged e) = true \/ ctime (Nat.iter k aged e) = ctime e + Z.of_nat k.
Proof.
  induction k as [|k IH]; [right; cbn; lia|]. cbn [Nat.iter nat_rect]. fold (Nat.iter k aged e). set (x := Nat.iter k aged e) in *.
  unfold aged. destruct (is_empty x) eqn:Ex; [by left|]. destruct IH as [?|IH]; [congruence|].
  destruct (expires _); [by left|]. right. cbn. lia.
Qed.

(** C31: When no packet arrives and none is sent, address resolution gives up: after five calls of the timer no packet
    waits for an answer any more and every queue element is back in its pool, and after three hundred calls every entry
    of the table is free. *)
Theorem etharp_tmr_expires_all s Q P Own n : arp_ok s Q P Own -> ARP_MAXPENDING <= Z.of_nat n ->
  wp (ticks n) s (fun _ s' => exists P', arp_ok s' (replicate 10 []) P' Own /\
    Forall (fun e => state e <> ETHARP_STATE_PENDING) (arp_table s') /\
    (ARP_MAXAGE <= Z.of_nat n -> Forall (fun e => state e = ETHARP_STATE_EMPTY) (arp_table s'))).
Proof.
  intros Hok Hn. eapply wp_mono; [by apply (ticks_ok n s Q P Own)|]. intros _ s' (Q' & P' & Hok' & _ & Ht).
  pose proof (ok_table _ _ _ _ Hok') as T. assert (Hage : forall e, e ∈ arp_table s' -> is_empty e = true \/ Z.of_nat n <= ctime e).
  { intros e He. rewrite Ht in He. apply list_elem_of_fmap in He as (x & -> & Hx).
    destruct (tab_age _ _ _ (ok_table _ _ _ _ Hok) x Hx) as ([Hx0 _] & _). destruct (aged_iter n x) as [?|E]; [by left|right].
    rewrite E. lia. }
  assert (Hnp : forall e, e ∈ arp_table s' -> state e <> ETHARP_STATE_PENDING).
  { intros e He Hp. destruct (tab_age _ _ _ T e He) as (_ & _ & H3). specialize (H3 Hp).
    destruct (Hage e He) as [E|?]; [|lia]. unfold is_empty in E. apply bool_decide_eq_true in E. congruence. }
  exists P'. split; [|split; [by apply Forall_forall|]].
  - assert (EQ : Q' = replicate 10 []); [|by rewrite <- EQ].
    pose proof (Forall2_length _ _ _ (core_queues _ _ _ _ _ _ (ok_core _ _ _ _ Hok'))) as Hlen.
    rewrite length_fmap, (tab_size _ _ _ T) in Hlen. rewrite Hlen. symmetry. apply replicate_as_elem_of. split; [done|].
    intros l (i & Hi)%list_elem_of_lookup. destruct (lookup_lt_is_Some_2 (arp_table s') i) as [e He].
    { rewrite (tab_size _ _ _ T), Hlen. by eapply lookup_lt_Some. }
    apply (tab_queue _ _ _ T i e l He Hi). apply Hnp. by eapply list_elem_of_lookup_2.
  - intros H300. apply Forall_forall. intros e He. destruct (tab_age _ _ _ T e He) as (_ & Hlim & _).
    destruct (Hage e He) as [E|Hge]; [by apply bool_decide_eq_true in E|]. destruct (is_empty e) eqn:E; [by apply bool_decide_eq_true in E|].
    specialize (Hlim eq_refl). lia.
Qed.
End Io.

(** ** The properties on a concrete interface *)

Section Witnesses.

(** Blocks one after the other from an arena, queue elements counted up, frames listed. *)
Record bump_alloc := mkBump { brk : Z; next_element : Z }.
Definition arena_end : Z := 5120.
#[local] Instance bump_pbuf_alloc : PbufAlloc bump_alloc := {
  memp_malloc t a :=
    match t with
    | MEMP_ARP_QUEUE => (next_element a, mkBump (brk a) (next_element a + 1))
    | _ => (0, a)
    end;
  memp_free _ _ a := a;
  mem_malloc n a :=
    let size := LWIP_MEM_ALIGN_SIZE n in
    if brk a + size <=? arena_end then (brk a, mkBump (brk a + size) (next_element a)) else (0, a);
  mem_free _ a := a;
  mem_trim p _ a := (p, a);
  tcpip_try_callback a := (ERR_OK, a)
}.
Record bump_is (a : bump_alloc) (B : gmap Z (Z * Z)) (U : gset Z) : Prop := {
  bump_brk : 4096 <= brk a <= arena_end /\ brk a mod 4 = 0;
  bump_in x n k : B !! x = Some (n, k) -> 4096 <= x /\ x + n <= brk a;
  bump_apart x y n m k j : B !! x = Some (n, k) -> B !! y = Some (m, j) -> x <> y -> x + n <= y \/ y + m <= x;
  bump_sizes x n k : B !! x = Some (n, k) -> 0 < n;
  bump_elements r : r ∈ U -> r < next_element a;
  bump_next : 0 < next_element a
}.

Lemma bump_delete a B U x : bump_is a B U -> bump_is a (delete x B) U.
Proof.
  intros [H1 H2 H3 H4 H5 H6]. constructor; [done|..|done|done].
  - intros y n k [_ Hy]%lookup_delete_Some. by eapply H2.
  - intros y z n m k j [_ Hy]%lookup_delete_Some [_ Hz]%lookup_delete_Some. by eapply H3.
  - intros y n k [_ Hy]%lookup_delete_Some. by eapply H4.
Qed.
Lemma bump_take a B U n : bump_is a B U -> 0 < n -> exists r a', mem_malloc n a = (r, a') /\
  (r = 0 /\ bump_is a' B U \/
   r mod MEM_ALIGNMENT = 0 /\ B !! r = None /\ bump_is a' (<[r := (n, PBUF_TYPE_ALLOC_SRC_MASK_STD_HEAP)]> B) U).
Proof.
  intros Hb Hn. pose proof Hb as [[Hk Hm] H2 H3 H4 H5 H6]. unfold mem_malloc, bump_pbuf_alloc.
  destruct (Z.leb_spec (brk a + LWIP_MEM_ALIGN_SIZE n) arena_end); [|do 2 eexists; split; [done|by left]].
  do 2 eexists. split; [done|]. right. split; [done|].
  assert (Ha : n <= LWIP_MEM_ALIGN_SIZE n) by (apply align_size_le; lia).
  assert (Hal : LWIP_MEM_ALIGN_SIZE n mod 4 = 0) by (rewrite align_size_eq; apply Z.mod_mul; done).
  split.
  - destruct (B !! brk a) as [[m k]|] eqn:E; [|done]. destruct (H2 _ _ _ E). pose proof (H4 _ _ _ E). lia.
  - constructor; cbn [brk next_element]; [|..|done|done].
    + split; [lia|]. rewrite Z.add_mod, Hm, Hal by lia. done.
    + intros x m k [[<- [= <- <-]]|[_ Hx]]%lookup_insert_Some; [lia|]. destruct (H2 _ _ _ Hx). lia.
    + intros x y m1 m2 k j Hx Hy Hne. apply lookup_insert_Some in Hx as [[<- [= <- <-]]|[_ Hx]];
        apply lookup_insert_Some in Hy as [[<- [= <- <-]]|[_ Hy]]; [done|..|by eapply H3].
      * right. apply (H2 _ _ _ Hy).
      * left. apply (H2 _ _ _ Hx).
    + intros x m k [[<- [= <- <-]]|[_ Hx]]%lookup_insert_Some; [done|by eapply H4].
Qed.
#[local] Program Instance bump_heap : PbufHeap bump_alloc := {
  arena_lo := 4096; arena_hi := arena_end; heap_is := bump_is
}.
Next Obligation. intros a B U x n k [[? ?] Hin _ _ _ _] Hx. destruct (Hin _ _ _ Hx). lia. Qed.
Next Obligation. intros a B U x y n m k j [_ _ Hap _ _ _]. apply Hap. Qed.
Next Obligation. intros n a B U. apply bump_take. Qed.
Next Obligation. intros. by apply bump_delete. Qed.
Next Obligation. intros. by apply bump_delete. Qed.
Next Obligation. intros. by apply bump_delete. Qed.
Next Obligation.
  intros a B U [Hb1 Hb2 Hb3 Hb4 Hb5 Hb6]. do 2 eexists. split; [reflexivity|]. right. split; [lia|].
  split; [intros ?%Hb5; lia|]. constructor; [done..| |cbn; lia].
  intros r [->%elem_of_singleton|?%Hb5]%elem_of_union; cbn; lia.
Qed.
Next Obligation.
  intros a B U r [Hb1 Hb2 Hb3 Hb4 Hb5 Hb6] _. constructor; try done. intros x [? _]%elem_of_difference. by apply Hb5.
Qed.

#[local] Instance wire : Link (list (list Z)) := { linkoutput _ segs d := Done (ERR_OK, d ++ [concat segs]) }.
#[local] Program Instance wire_ok : LinkOk := { link_ok _ := True }.
Next Obligation. intros segs d _ _. by do 2 eexists. Qed.

(** Interface 1 has the address 169.254.231.1; a host 169.254.231.7 asks for it. *)
Definition demo_ip (k : Z) : Z := 169 + 256 * 254 + 65536 * 231 + 16777216 * k.
Definition demo_netif : netif :=
  mkNetif (mkIp4Netif (NETIF_FLAG_BROADCAST + 8) (demo_ip 1) 65535) 0 [2; 0; 0; 0; 0; 1] 6 0 None.
Definition demo_request : list Z :=
  [0; 1; 8; 0; 6; 4; 0; 1] ++ [2; 0; 0; 0; 0; 7] ++ le32 (demo_ip 7) ++ ethzero ++ le32 (demo_ip 1).
(** The packet with the bytes [c] is held, in a block of 512 bytes. *)
Section Demo.
Context (c : list Z).
Definition demo_pbuf : pbuf := fresh_ram 4096 (Z.of_nat (length c)).
Definition demo_mem : mem :=
  match store_bytes (map_block ∅ 4096 1024) (payload demo_pbuf) c with Some m => m | None => ∅ end.
Definition demo_packets : gmap Z (list (Z * pbuf)) := {[4096 := [(4096, demo_pbuf)]]}.
Definition demo_net : net bump_alloc (list (list Z)) :=
  mkNet (mkPst {[4096 := demo_pbuf]} demo_mem (mkBump 4608 1) 0) [] {[1 := demo_netif]}.
Definition demo_arp : arp bump_alloc (list (list Z)) :=
  mkArp (replicate 10 (mkEntry 0 0 0 ethzero 0 ETHARP_STATE_EMPTY)) 0 ∅ demo_net.
Context (Hc : (length c <= 480)%nat).

Lemma demo_stored : store_bytes (map_block ∅ 4096 1024) (payload demo_pbuf) c = Some demo_mem /\
  mapped demo_mem 4096 1024.
Proof.
  destruct (store_bytes_mapped (map_block ∅ 4096 1024) (payload demo_pbuf) c) as (m & Hm & Hd).
  { apply map_block_mapped; cbn; lia. }
  unfold demo_mem. rewrite Hm. split; [done|]. intros x Hx. apply Hd. apply (map_block_mapped _ 4096 1024 4096 1024); lia.
Qed.
Lemma demo_contents : contents demo_mem [(4096, demo_pbuf)] = Some c.
Proof. apply contents_one. cbn [len demo_pbuf fresh_ram]. rewrite Nat2Z.id. exact (store_load _ _ _ _ (proj1 demo_stored)). Qed.
Lemma demo_holds : holds (ps demo_net) demo_packets ∅.
Proof.
  exists {[4096 := (512, PBUF_TYPE_ALLOC_SRC_MASK_STD_HEAP)]}. constructor.
  - constructor; cbn; [split; [unfold arena_end; lia|done]|..|by intros ? ?%elem_of_empty|lia].
    + intros x n k [<- [= <- <-]]%lookup_singleton_Some. lia.
    + intros x y n m k j [<- _]%lookup_singleton_Some [<- _]%lookup_singleton_Some. done.
    + intros x n k [<- [= <- <-]]%lookup_singleton_Some. lia.
  - exact (proj2 demo_stored).
  - unfold demo_packets. intros p l [<- <-]%lookup_singleton_Some. constructor; [by repeat split|done|..].
    + split; [unfold is_u16; cbn; lia|]. split; [unfold is_u16; cbn; lia|]. split; [cbn; lia|done].
    + constructor; [by right|constructor].
    + constructor; [|constructor]. split; [cbn; lia|by_decision].
    + constructor; [|constructor]. exists 512. split; [done|]. unfold SIZEOF_STRUCT_PBUF; cbn [fst snd demo_pbuf fresh_ram payload len]; replace (contiguous demo_pbuf) with true by done; lia.
  - unfold demo_packets. intros p p' l l' x [<- _]%lookup_singleton_Some [<- _]%lookup_singleton_Some. done.
Qed.
Lemma demo_ok : arp_ok demo_arp (replicate 10 []) demo_packets {[4096]}.
Proof.
  constructor; [constructor|constructor|done].
  - by repeat constructor.
  - constructor.
  - by intros ? ?%elem_of_nil.
  - constructor.
  - by intros ? ?%elem_of_nil.
  - intros p ->%elem_of_singleton. exists demo_pbuf, []. split; [done|]. by intros ?%elem_of_nil.
  - constructor; [exact demo_holds| |done]. cbn [netifs demo_net demo_arp anet]. intros n ni [<- <-]%lookup_singleton_Some. done.
  - done.
  - intros i e l [-> _]%lookup_replicate [-> _]%lookup_replicate. split; [|done]. unfold ARP_QUEUE_LEN. cbn. lia.
  - intros e [-> _]%elem_of_replicate. split; [done|]. done.
  - intros e [-> _]%elem_of_replicate. done.
  - intros i j e f [-> _]%lookup_replicate. done.
Qed.
Lemma demo_caller : caller_packet (replicate 10 []) demo_packets {[4096]} 4096.
Proof. split; [set_solver|]. split; [by intros ?%elem_of_nil|]. by exists demo_pbuf, []. Qed.
End Demo.
Definition no_decline (n : Z) : M (arp bump_alloc (list (list Z))) unit := mret tt.

Lemma etharp_calls_keep_invariant_witness :
  wp (run no_decline (CallInput 4096 1)) (demo_arp demo_request) (fun _ s' => exists Q' P', arp_ok s' Q' P' ({[4096]} ∖ {[4096]})) /\
  wp (run no_decline (CallQuery 1 (demo_ip 7) (Some 4096))) (demo_arp demo_request) (fun _ s' => exists Q' P', arp_ok s' Q' P' {[4096]}).
Proof.
  split; (eapply wp_mono; [apply (etharp_calls_keep_invariant no_decline _ _ _ _ _ (demo_ok demo_request ltac:(by_decision)))|by intros _ s' (Q' & P' & ? & _); exists Q', P']).
  - exists demo_netif. split; [done|]. split; [exact (demo_caller demo_request)|]. exists (demo_pbuf demo_request), [], demo_request.
    split; [done|]. split; [done|]. split; [exact (demo_contents demo_request ltac:(by_decision))|done].
  - split; [by exists demo_netif|exact (demo_caller demo_request)].
Defined.



Lemma etharp_tmr_expires_all_witness :
  wp (ticks 300) (demo_arp demo_request) (fun _ s' => Forall (fun e => state e = ETHARP_STATE_EMPTY) (arp_table s')).
Proof.
  eapply wp_mono; [apply (etharp_tmr_expires_all _ _ _ _ 300 (demo_ok demo_request ltac:(by_decision))); done|].
  intros _ s' (P' & _ & _ & Hall). by apply Hall.
Defined.
End Witnesses.
