(* ===== verification/EthInput.v ===== *)
(** LWIP/src/netif/ethernet.c, input: what becomes of a received frame.  The
    layers above are etharp.c, as modelled, and the IPv4 layer, which is the
    interface [IpInput].  VLAN tags, PPPoE, IPv6 and the hooks are compiled out. *)
From S2P Require Import Prelude CMem Memp Pbuf IpAddr Packets Ethernet Etharp EtharpInv EtharpOk EtharpIo.

Definition PBUF_FLAG_LLBCAST : Z := 8.
Definition PBUF_FLAG_LLMCAST : Z := 16.
Definition NETIF_FLAG_ETHARP : Z := 8.
Definition LL_IP4_MULTICAST_ADDR_0 : Z := 1.
Definition LL_IP4_MULTICAST_ADDR_1 : Z := 0.
Definition LL_IP4_MULTICAST_ADDR_2 : Z := 94.

Definition set_flags (v : Z) (b : pbuf) :=
  mkPbuf (next b) (payload b) (tot_len b) (len b) (type_internal b) v (ref b) (if_idx b).
Definition set_if_idx (v : Z) (b : pbuf) :=
  mkPbuf (next b) (payload b) (tot_len b) (len b) (type_internal b) (flags b) (ref b) v.
Definition netif_get_index (ni : netif) : Z := u8 (num ni + 1).

(** The IPv4 layer. *)
Class IpInput (A D : Type) := { ip4_input : Z -> Z -> M (arp A D) unit }.

Section Input.
Context {A D : Type} `{PbufHeap A} `{LinkOk D} `{!IpInput A D}.
Context (dhcp_decline : Z -> M (arp A D) unit).
Abbreviation Arp := (arp A D).
Abbreviation packets := (gmap Z (list (Z * pbuf))).

(** Frames to many are marked. *)
Definition mark_frame (p : Z) (dest : list Z) : M Arp unit :=
  if nz (Z.land (dest !!! 0%nat) 1) then
    if dest !!! 0%nat =? LL_IP4_MULTICAST_ADDR_0 then
      if (dest !!! 1%nat =? LL_IP4_MULTICAST_ADDR_1) && (dest !!! 2%nat =? LL_IP4_MULTICAST_ADDR_2) then
        on_pbuf (wr p (fun b => set_flags (Z.lor (flags b) PBUF_FLAG_LLMCAST) b))
      else mret tt
    else if bool_decide (dest = ethbroadcast) then
      on_pbuf (wr p (fun b => set_flags (Z.lor (flags b) PBUF_FLAG_LLBCAST) b))
    else mret tt
  else mret tt.

(** The case of the two protocols: the packet without its Ethernet header goes to [input]. *)
Definition pass_up (p n : Z) (input : M Arp unit) : M Arp Z :=
  ni ← on_net (netif_at n);
  if Z.land (nflags (inet ni)) NETIF_FLAG_ETHARP =? 0 then on_pbuf (pbuf_free p);; mret ERR_OK
  else
    err ← on_pbuf (pbuf_remove_header p SIZEOF_ETH_HDR);
    if nz err then on_pbuf (pbuf_free p);; mret ERR_OK
    else input;; mret ERR_OK.

Definition ethernet_input (p n : Z) : M Arp Z :=
  b ← on_pbuf (rd p);
  if len b <=? SIZEOF_ETH_HDR then on_pbuf (pbuf_free p);; mret ERR_OK
  else
    (if if_idx b =? NETIF_NO_INDEX then
       ni ← on_net (netif_at n);
       on_pbuf (wr p (set_if_idx (netif_get_index ni)))
     else mret tt);;
    ethhdr ← on_pbuf (LOAD (payload b) 14);
    let type := get16 ethhdr 12 in
    mark_frame p (take 6 ethhdr);;
    if type =? lwip_htons ETHTYPE_IP then pass_up p n (ip4_input p n)
    else if type =? lwip_htons ETHTYPE_ARP then pass_up p n (etharp_input dhcp_decline p n)
    else on_pbuf (pbuf_free p);; mret ERR_OK.

(** ** What becomes of a frame *)

Inductive fate := Dropped | ToArp | ToIp.
#[export] Instance fate_eq_dec : EqDecision fate.
Proof. solve_decision. Defined.
Definition fate_of (ni : netif) (b : pbuf) (c : list Z) : fate :=
  if len b <=? SIZEOF_ETH_HDR then Dropped
  else if Z.land (nflags (inet ni)) NETIF_FLAG_ETHARP =? 0 then Dropped
  else if get16 c 12 =? lwip_htons ETHTYPE_IP then ToIp
  else if get16 c 12 =? lwip_htons ETHTYPE_ARP then ToArp
  else Dropped.
Definition link_flags (dest : list Z) (fl : Z) : Z :=
  if nz (Z.land (dest !!! 0%nat) 1) then
    if dest !!! 0%nat =? LL_IP4_MULTICAST_ADDR_0 then
      if (dest !!! 1%nat =? LL_IP4_MULTICAST_ADDR_1) && (dest !!! 2%nat =? LL_IP4_MULTICAST_ADDR_2) then Z.lor fl PBUF_FLAG_LLMCAST else fl
    else if bool_decide (dest = ethbroadcast) then Z.lor fl PBUF_FLAG_LLBCAST else fl
  else fl.

(** A packet without its first [k] bytes. *)
Definition cut (k fl ix : Z) (b : pbuf) : pbuf :=
  mkPbuf (next b) (payload b + k) (tot_len b - k) (len b - k) (type_internal b) fl (ref b) ix.
(** The packet that goes up: the frame without its header, marked, with the number of its interface. *)
Definition index_of (ni : netif) (b : pbuf) : Z := if if_idx b =? NETIF_NO_INDEX then netif_get_index ni else if_idx b.
Definition unwrapped (ni : netif) (b : pbuf) (c : list Z) : pbuf :=
  cut SIZEOF_ETH_HDR (link_flags (take 6 c) (flags b)) (index_of ni b) b.
(** The state in which it does. *)
Definition handed (s s1 : Arp) (Q : list (list (Z * Z))) (P P1 : packets) (Own : gset Z) (ni : netif) (p : Z) (b : pbuf) (tl : list (Z * pbuf)) (c : list Z) : Prop :=
  arp_ok s1 Q P1 Own /\ caller_packet Q P1 Own p /\ P1 = <[p := (p, unwrapped ni b c) :: tl]> P /\ contents (pmem (ps (anet s1))) ((p, unwrapped ni b c) :: tl) = Some (drop 14 c) /\
  arp_table s1 = arp_table s /\ dev (anet s1) = dev (anet s) /\ netifs (anet s1) = netifs (anet s) /\
  stays [p] P (anet s) P1 (anet s1).

(** ** The header of a packet changes *)

Definition reheaded (s : Arp) (p : Z) (b' : pbuf) : Arp :=
  set_anet (set_ps (set_pbufs (<[p := b']> (pbufs (ps (anet s)))) (ps (anet s))) (anet s)) s.

Lemma rehead_ok s Q P Own p b b' tl : arp_ok s Q P Own -> caller_packet Q P Own p -> P !! p = Some ((p, b) :: tl) ->
  same_place b b' p -> packet ((p, b') :: tl) -> one_packet ((p, b') :: tl) -> pbuf_ok (p, b') -> ref b' = ref b ->
  arp_ok (reheaded s p b') Q (<[p := (p, b') :: tl]> P) Own /\ caller_packet Q (<[p := (p, b') :: tl]> P) Own p.
Proof.
  intros Hok (Ho & Hpk & b0 & tl0 & Hb0 & Hr) Hb Hsp H1' H2' H3' Href. rewrite Hb in Hb0. injection Hb0 as <- <-.
  pose proof (core_net _ _ _ _ _ _ (ok_core _ _ _ _ Hok)) as [Hh Hn Hd]. split.
  - apply (ok_repack s _ Q P _ Own p Hok Hpk); [by intros; rewrite lookup_insert_ne|intros _; rewrite lookup_insert_eq; eauto| |done].
    constructor; [|done|done]. by apply (head_held _ _ _ _ b).
  - split; [done|]. split; [done|]. exists b', tl. rewrite lookup_insert_eq, Href. done.
Qed.

Lemma same_place_keep s P U p b b' tl : holds s P U -> P !! p = Some ((p, b) :: tl) -> type_internal b' = type_internal b ->
  next b' = next b -> payload b <= payload b' -> payload b' + len b' = payload b + len b -> same_place b b' p.
Proof.
  intros [B Ho] Hp Ht Hn Hlo Hhi. pose proof (pk_placed _ _ _ _ _ (own_packets _ _ _ _ Ho _ _ Hp)) as [(n & HB & Hpos) _]%Forall_cons.
  split; [unfold alloc_src; by rewrite Ht|]. split; [unfold contiguous; by rewrite Ht|]. split; [done|]. cbn [fst snd] in *.
  destruct (contiguous b); lia.
Qed.

Lemma reheaded_id s p b : pbufs (ps (anet s)) !! p = Some b -> reheaded s p b = s.
Proof. intros Hb. unfold reheaded. rewrite insert_id by done. by destruct s as [? ? ? [[] ? ?]]. Qed.
Lemma reheaded_twice s p b1 b2 : reheaded (reheaded s p b1) p b2 = reheaded s p b2.
Proof. unfold reheaded. cbn. by rewrite insert_insert_eq. Qed.
Lemma reheaded_at s p b : pbufs (ps (anet (reheaded s p b))) !! p = Some b.
Proof. apply lookup_insert_eq. Qed.

Lemma wp_wr s p b f (Q : unit -> Arp -> Prop) : pbufs (ps (anet s)) !! p = Some b -> Q tt (reheaded s p (f b)) ->
  wp (on_pbuf (wr p f)) s Q.
Proof. intros Hb HQ. eapply wp_pbuf_use; [by apply wr_run|done]. Qed.
Lemma wp_rd s p b (Q : pbuf -> Arp -> Prop) : pbufs (ps (anet s)) !! p = Some b -> Q b s -> wp (on_pbuf (rd p)) s Q.
Proof. intros Hb HQ. eapply wp_pbuf_use; [by apply rd_run|]. by destruct s as [? ? ? []]. Qed.

Lemma cut_ok s Q P Own p b tl k fl ix : arp_ok s Q P Own -> caller_packet Q P Own p -> P !! p = Some ((p, b) :: tl) ->
  0 <= k <= len b ->
  let P' := <[p := (p, cut k fl ix b) :: tl]> P in
  arp_ok (reheaded s p (cut k fl ix b)) Q P' Own /\ caller_packet Q P' Own p /\
  stays [p] P (anet s) P' (anet (reheaded s p (cut k fl ix b))).
Proof.
  intros Hok Hcp Hb Hk. pose proof (net_held _ _ _ (core_net _ _ _ _ _ _ (ok_core _ _ _ _ Hok))) as Hh.
  destruct (holds_packet _ _ _ _ _ Hh Hb) as (b0 & l0 & [= <- <-] & _ & _ & _ & Hpk & [H11 H12]%Forall_cons & [Hp1 _]%Forall_cons).
  destruct (packet_head _ _ _ Hpk) as (Ht & Hl & Htl & Hpos & Hpl). unfold is_u16 in *. cbn [snd] in *.
  destruct (rehead_ok s Q P Own p b (cut k fl ix b) tl) as [Ha Hc']; try done.
  - eapply same_place_keep; try done; cbn; lia.
  - split; [unfold is_u16; cbn; lia|]. split; [unfold is_u16; cbn; lia|]. split; [|done]. rewrite total_cons. cbn. lia.
  - constructor; [cbn in *; lia|done].
  - split; [done|]. split; [done|]. intros q l Hq Hql. apply ne_single in Hq. by rewrite lookup_insert_ne.
Qed.

Lemma index_ok s n ni p b : pbufs (ps (anet s)) !! p = Some b -> netifs (anet s) !! n = Some ni ->
  wp (if if_idx b =? NETIF_NO_INDEX then ni ← on_net (netif_at n); on_pbuf (wr p (set_if_idx (netif_get_index ni))) else mret tt) s
    (fun _ s' => s' = reheaded s p (set_if_idx (index_of ni b) b)).
Proof.
  intros Hb Hn. unfold index_of. destruct (if_idx b =? NETIF_NO_INDEX).
  - apply wp_bind. eapply wp_netif; [exact Hn|]. by eapply wp_wr.
  - apply wp_ret. symmetry. replace (set_if_idx (if_idx b) b) with b by (by destruct b). by apply reheaded_id.
Qed.

Lemma mark_frame_ok s p b dest : pbufs (ps (anet s)) !! p = Some b ->
  wp (mark_frame p dest) s (fun _ s' => s' = reheaded s p (set_flags (link_flags dest (flags b)) b)).
Proof.
  intros Hb. assert (Hid : wp (mret tt) s (fun _ s' => s' = reheaded s p (set_flags (flags b) b))).
  { apply wp_ret. symmetry. replace (set_flags (flags b) b) with b by (by destruct b). by apply reheaded_id. }
  unfold mark_frame, link_flags. destruct (nz _); [|done].
  destruct (_ =? LL_IP4_MULTICAST_ADDR_0); [destruct (_ && _)|destruct (bool_decide _)]; try exact Hid; by eapply wp_wr.
Qed.

Lemma free_then s p (Q : Z -> Arp -> Prop) : wp (on_pbuf (pbuf_free p);; mret tt) s (fun _ s' => Q ERR_OK s') ->
  wp (on_pbuf (pbuf_free p);; mret ERR_OK) s Q.
Proof. unfold wp, mbind, M_bind. by destruct (on_pbuf (pbuf_free p) s) as [[r s']|]. Qed.

Lemma pass_up_ok s n ni p b input (Q : Z -> Arp -> Prop) : pbufs (ps (anet s)) !! p = Some b -> netifs (anet s) !! n = Some ni ->
  p <> 0 -> SIZEOF_ETH_HDR < len b -> is_u16 (len b) -> is_u16 (tot_len b) -> len b <= tot_len b ->
  (if Z.land (nflags (inet ni)) NETIF_FLAG_ETHARP =? 0 then wp (on_pbuf (pbuf_free p);; mret ERR_OK) s Q
   else wp input (reheaded s p (cut SIZEOF_ETH_HDR (flags b) (if_idx b) b)) (fun _ s' => Q ERR_OK s')) -> wp (pass_up p n input) s Q.
Proof.
  intros Hb Hn Hp Hl Hl16 Ht16 Hlt HQ. unfold pass_up, SIZEOF_ETH_HDR, is_u16 in *. apply wp_bind. eapply wp_netif; [exact Hn|].
  destruct (_ =? 0).
  - exact HQ.
  - apply wp_bind. eapply wp_pbuf_use.
    { unfold pbuf_remove_header. erewrite bind_done by (unfold assert_; by rewrite (proj2 (Z.eqb_neq p 0))).
      change (65535 <? 14) with false. change (14 =? 0) with false. cbv iota. erewrite bind_done by (by apply rd_run).
      rewrite (u16_small 14) by done. rewrite (proj2 (Z.leb_le 14 _)) by lia. cbn [negb].
      erewrite bind_done by (by apply wr_run). reflexivity. }
    change (nz 0) with false. cbv iota. apply wp_bind.
    rewrite !u16_small by (unfold is_u16; lia). eapply wp_mono; [exact HQ|]. intros r s' HQ'. by apply wp_ret.
Qed.

(** What the IPv4 layer promises: it takes over the packet it is given, if the packet
    is fit for it. *)
Class IpInputOk := {
  ip_ready : gmap Z netif -> list (Z * pbuf) -> list Z -> Prop;
  ip4_input_takes s Q P Own p n b tl c : arp_ok s Q P Own -> is_Some (netifs (anet s) !! n) -> caller_packet Q P Own p ->
    P !! p = Some ((p, b) :: tl) -> contents (pmem (ps (anet s))) ((p, b) :: tl) = Some c -> ip_ready (netifs (anet s)) ((p, b) :: tl) c ->
    wp (ip4_input p n) s (fun _ s' => exists Q' P', arp_ok s' Q' P' (Own ∖ {[p]}) /\ netifs (anet s') = netifs (anet s))
}.
Context `{!IpInputOk}.

(** What is left of a frame. *)
Definition settled (s s' : Arp) (Q Q' : list (list (Z * Z))) (P : packets) (Own : gset Z) (n p : Z) (ni : netif) (b : pbuf)
    (tl : list (Z * pbuf)) (c : list Z) : Prop :=
  let unchanged := Q' = Q /\ arp_table s' = arp_table s /\ dev (anet s') = dev (anet s) in
  match fate_of ni b c with
  | Dropped => unchanged
  | ToArp => exists s1 P1, handed s s1 Q P P1 Own ni p b tl c /\
      if well_formed (take 28 (drop 14 c)) then heard s1 s' Q Q' P1 n ni (take 28 (drop 14 c)) else unchanged
  | ToIp => exists s1 P1, handed s s1 Q P P1 Own ni p b tl c /\ ip4_input p n s1 = Done (tt, s')
  end.

Lemma cut_contents m p b tl k fl ix c : contents m ((p, b) :: tl) = Some c -> 0 <= k <= len b ->
  contents m ((p, cut k fl ix b) :: tl) = Some (drop (Z.to_nat k) c).
Proof.
  intros (c1 & c2 & -> & Hc1 & Hc2 & Hl)%contents_cons Hk. cbn [snd] in *.
  replace (Z.to_nat (len b)) with (Z.to_nat k + Z.to_nat (len b - k))%nat in Hc1 by lia. rewrite load_bytes_app in Hc1.
  apply bind_Some in Hc1 as (x & Hx & (y & Hy & [= <-])%bind_Some). rewrite Z2Nat.id in Hy by lia.
  apply load_bytes_length in Hx as Hlx. rewrite <- app_assoc, drop_app_length' by done. cbn. rewrite Hy. cbn. by rewrite Hc2.
Qed.

Lemma drop_frame s Q P Own n p b tl b1 tl1 P1 ni c s1 : arp_ok s1 Q P1 Own -> caller_packet Q P1 Own p -> P1 !! p = Some ((p, b1) :: tl1) ->
  arp_table s1 = arp_table s -> dev (anet s1) = dev (anet s) -> netifs (anet s1) = netifs (anet s) -> fate_of ni b c = Dropped ->
  wp (on_pbuf (pbuf_free p);; mret ERR_OK) s1 (fun r s' => r = ERR_OK /\ exists Q' P', arp_ok s' Q' P' (Own ∖ {[p]}) /\
    netifs (anet s') = netifs (anet s) /\ settled s s' Q Q' P Own n p ni b tl c).
Proof.
  intros Hok (_ & Hpk & _) Hb Ht Hd Hn Hf. apply free_then. eapply wp_mono; [by apply (consume_ok dhcp_decline s1 Q P1 Own p b1 tl1)|].
  intros _ s' (P' & Hok' & Hn' & Hd' & Ht'). split; [done|]. exists Q, P'. split; [done|]. split; [congruence|]. unfold settled. rewrite Hf.
  split; [done|]. split; congruence.
Qed.

(** The protocol whose packet it is takes it. *)
Lemma take_up_ok s Q P Own n ni p b tl c : arp_ok s Q P Own -> netifs (anet s) !! n = Some ni -> caller_packet Q P Own p ->
  P !! p = Some ((p, b) :: tl) -> contents (pmem (ps (anet s))) ((p, b) :: tl) = Some c -> SIZEOF_ETH_HDR <= len b ->
  (fate_of ni b c = ToArp -> SIZEOF_ETH_HDR + SIZEOF_ETHARP_HDR <= len b /\ no_conflict ni (sender_ip (take 28 (drop 14 c))) = true) ->
  (fate_of ni b c = ToIp -> ip_ready (netifs (anet s)) ((p, unwrapped ni b c) :: tl) (drop 14 c)) ->
  fate_of ni b c <> Dropped ->
  wp (if bool_decide (fate_of ni b c = ToIp) then ip4_input p n else etharp_input dhcp_decline p n)
    (reheaded s p (unwrapped ni b c)) (fun _ s' => exists Q' P', arp_ok s' Q' P' (Own ∖ {[p]}) /\
    netifs (anet s') = netifs (anet s) /\ settled s s' Q Q' P Own n p ni b tl c).
Proof.
  intros Hok Hn Hcp Hb Hc Hlen Harp Hip Hf. unfold SIZEOF_ETH_HDR in *.
  destruct (cut_ok s Q P Own p b tl 14 (link_flags (take 6 c) (flags b)) (index_of ni b) Hok Hcp Hb ltac:(lia)) as (Hok1 & Hcp1 & Hst1).
  fold (unwrapped ni b c) in *. set (s1 := reheaded s p (unwrapped ni b c)) in *. set (P1 := <[p := _]> P) in *.
  assert (Hc1 : contents (pmem (ps (anet s1))) ((p, unwrapped ni b c) :: tl) = Some (drop 14 c)) by (apply (cut_contents _ p b tl 14); [exact Hc|lia]).
  assert (Hh : handed s s1 Q P P1 Own ni p b tl c) by (split; [exact Hok1|]; split; [exact Hcp1|]; split; [done|]; split; [exact Hc1|done]).
  assert (HP1 : P1 !! p = Some ((p, unwrapped ni b c) :: tl)) by apply lookup_insert_eq.
  unfold settled. destruct (fate_of ni b c); [done|rewrite bool_decide_false by done|rewrite bool_decide_true by done].
  - destruct (Harp eq_refl) as [Hl28 Hnc].
    eapply wp_mono; [apply (input_call_ok dhcp_decline s1 Q P1 Own n ni p (unwrapped ni b c) tl (drop 14 c));
      [exact Hok1|exact Hn|exact Hcp1|exact HP1|unfold SIZEOF_ETHARP_HDR in *; cbn; unfold SIZEOF_ETH_HDR; lia|exact Hc1|exact Hnc]|].
    intros _ s' (Q' & P' & Hok' & Hn' & Hheard). exists Q', P'. split; [done|]. split; [done|]. exists s1, P1. split; [done|exact Hheard].
  - destruct (proj1 (wp_done _ _ _) (ip4_input_takes s1 Q P1 Own p n _ tl (drop 14 c) Hok1 (ltac:(by exists ni)) Hcp1 HP1 Hc1 (Hip eq_refl))) as ([] & s' & Hrun & Q' & P' & Hok' & Hn').
    eapply wp_use; [exact Hrun|]. exists Q', P'. split; [done|]. split; [done|]. by exists s1, P1.
Qed.

Lemma ethernet_input_ok s Q P Own n ni p b tl c : arp_ok s Q P Own -> netifs (anet s) !! n = Some ni -> caller_packet Q P Own p ->
  P !! p = Some ((p, b) :: tl) -> contents (pmem (ps (anet s))) ((p, b) :: tl) = Some c ->
  (fate_of ni b c = ToArp -> SIZEOF_ETH_HDR + SIZEOF_ETHARP_HDR <= len b /\ no_conflict ni (sender_ip (take 28 (drop 14 c))) = true) ->
  (fate_of ni b c = ToIp -> ip_ready (netifs (anet s)) ((p, unwrapped ni b c) :: tl) (drop 14 c)) ->
  wp (ethernet_input p n) s (fun r s' => r = ERR_OK /\ exists Q' P', arp_ok s' Q' P' (Own ∖ {[p]}) /\
    netifs (anet s') = netifs (anet s) /\ settled s s' Q Q' P Own n p ni b tl c).
Proof.
  intros Hok Hn Hcp Hb Hc Harp Hip. pose proof (net_held _ _ _ (core_net _ _ _ _ _ _ (ok_core _ _ _ _ Hok))) as Hh.
  destruct (holds_packet _ _ _ _ _ Hh Hb) as (b0 & l0 & [= <- <-] & Hp0 & Hpb & _ & Hpk & _).
  destruct (packet_head _ _ _ Hpk) as (Ht & Hl & Htl & Hpos & _).
  pose proof Hc as (c1 & c2 & Ec & Hc1 & _ & Hlc)%contents_cons. cbn [snd] in *.
  unfold ethernet_input. apply wp_bind. eapply wp_rd; [exact Hpb|].
  destruct (Z.leb_spec (len b) SIZEOF_ETH_HDR) as [Hshort|Hlong]; unfold SIZEOF_ETH_HDR in *.
  { eapply drop_frame; try done. unfold fate_of. by rewrite (proj2 (Z.leb_le _ _)) by done. }
  apply wp_bind. eapply wp_mono; [by apply index_ok|]. intros _ ? ->. set (b1 := set_if_idx _ b).
  apply wp_bind. apply (wp_pbuf_use _ _ (take 14 c1) (ps (anet (reheaded s p b1)))).
  { unfold LOAD. mred. change (pmem (ps (anet (reheaded s p b1)))) with (pmem (ps (anet s))).
    by rewrite (load_bytes_take _ _ _ 14 _ Hc1) by lia. }
  replace (set_anet _ _) with (reheaded s p b1) by done.
  assert (Etype : get16 (take 14 c1) 12 = get16 c 12).
  { rewrite Ec. unfold get16. rewrite !list_lookup_total_alt, !lookup_take_lt, !lookup_app_l by lia. done. }
  assert (Edest : take 6 (take 14 c1) = take 6 c) by (rewrite Ec, take_take, take_app_le by lia; done).
  cbv zeta. rewrite Etype, Edest. apply wp_bind. eapply wp_mono; [apply (mark_frame_ok _ p b1), reheaded_at|]. intros _ ? ->.
  rewrite reheaded_twice. set (b2 := set_flags _ b1).
  destruct (cut_ok s Q P Own p b tl 0 (link_flags (take 6 c) (flags b)) (index_of ni b) Hok Hcp Hb ltac:(lia)) as (Hok2 & Hcp2 & Hst2).
  assert (Eb : cut 0 (link_flags (take 6 c) (flags b)) (index_of ni b) b = b2) by (unfold cut; by rewrite Z.add_0_r, !Z.sub_0_r).
  rewrite Eb in Hok2, Hcp2, Hst2.
  assert (Hdrop : fate_of ni b c = Dropped -> wp (on_pbuf (pbuf_free p);; mret ERR_OK) (reheaded s p b2) (fun r s' =>
    r = ERR_OK /\ exists Q' P', arp_ok s' Q' P' (Own ∖ {[p]}) /\ netifs (anet s') = netifs (anet s) /\ settled s s' Q Q' P Own n p ni b tl c)).
  { intros Hf. apply (drop_frame s Q P Own n p b tl b2 tl _ ni c _ Hok2 Hcp2); try done; apply lookup_insert_eq. }
  assert (Hup : fate_of ni b c <> Dropped -> wp (if bool_decide (fate_of ni b c = ToIp) then ip4_input p n else etharp_input dhcp_decline p n)
    (reheaded (reheaded s p b2) p (cut 14 (flags b2) (if_idx b2) b2)) (fun _ s' =>
    ERR_OK = ERR_OK /\ exists Q' P', arp_ok s' Q' P' (Own ∖ {[p]}) /\ netifs (anet s') = netifs (anet s) /\ settled s s' Q Q' P Own n p ni b tl c)).
  { intros Hf. rewrite reheaded_twice. eapply wp_mono; [by apply (take_up_ok s Q P Own n ni p b tl c); [..|unfold SIZEOF_ETH_HDR; lia| | |]|].
    intros ? s' Hs'. by split. }
  unfold fate_of, SIZEOF_ETH_HDR in Hdrop, Hup. rewrite (proj2 (Z.leb_gt (len b) 14)) in Hdrop, Hup by lia.
  destruct (get16 c 12 =? lwip_htons ETHTYPE_IP); [|destruct (get16 c 12 =? lwip_htons ETHTYPE_ARP)].
  - eapply pass_up_ok; [apply reheaded_at|exact Hn|done|unfold SIZEOF_ETH_HDR; cbn; lia|exact Hl|exact Ht|cbn; lia|].
    destruct (_ =? 0); [by apply Hdrop|]. rewrite bool_decide_true in Hup by done. by apply Hup.
  - eapply pass_up_ok; [apply reheaded_at|exact Hn|done|unfold SIZEOF_ETH_HDR; cbn; lia|exact Hl|exact Ht|cbn; lia|].
    destruct (_ =? 0); [by apply Hdrop|]. rewrite bool_decide_false in Hup by done. by apply Hup.
  - apply Hdrop. by destruct (_ =? 0).
Qed.

End Input.

(** ** The property on a received request *)

Section Witnesses.
#[local] Existing Instances bump_pbuf_alloc bump_heap wire wire_ok.
(** No protocol above IPv4: every packet is freed. *)
#[local] Instance no_ip : IpInput bump_alloc (list (list Z)) := { ip4_input p n := on_pbuf (pbuf_free p);; mret tt }.
#[local] Program Instance no_ip_ok : IpInputOk := { ip_ready _ _ _ := True }.
Next Obligation.
  intros s Q P Own p n b tl c Hok _ (_ & Hp & _) Hb _ _. eapply wp_mono; [by apply (consume_ok no_decline s Q P Own p b tl)|].
  intros _ s' (P' & ? & ? & _). by exists Q, P'.
Qed.

Definition demo_frame : list Z := frame_of ethbroadcast [2; 0; 0; 0; 0; 7] ETHTYPE_ARP demo_request.

End Witnesses.
