(* ===== verification/Checksum.v ===== *)
(** LWIP/src/core/inet_chksum.c with LWIP_CHKSUM_ALGORITHM 2: the Internet
    checksum over memory, over pbuf chains and with the IPv4 pseudo header.  A pbuf
    is its payload address and the bytes there; the chain is a list.  Words are
    little-endian, as the machine loads them. *)
From S2P Require Import Prelude IpAddr.

Definition FOLD_U32T (u : Z) : Z := u32 (Z.shiftr u 16 + Z.land u 65535).
Definition SWAP_BYTES_IN_WORD (w : Z) : Z :=
  Z.lor (Z.shiftl (Z.land w 255) 8) (Z.shiftr (Z.land w 65280) 8).

(** [*ps++] while two bytes are left. *)
Fixpoint sum_words (sum : Z) (bs : list Z) : Z * list Z :=
  match bs with
  | b0 :: b1 :: r => sum_words (u32 (sum + (b0 + 256 * b1))) r
  | _ => (sum, bs)
  end.

Definition lwip_standard_chksum (dataptr : Z) (bs : list Z) : Z :=
  let odd := nz (Z.land dataptr 1) in
  let '(t, bs) := match bs with
                  | b :: r => if odd then (Z.shiftl b 8, r) else (0, bs)
                  | [] => (0, [])
                  end in
  let '(sum, rest) := sum_words 0 bs in
  let t := match rest with
           | b :: _ => Z.lor (Z.land t 65280) b
           | [] => t
           end in
  let sum := u32 (sum + t) in
  let sum := FOLD_U32T sum in
  let sum := FOLD_U32T sum in
  u16 (if odd then SWAP_BYTES_IN_WORD sum else sum).

(** A pbuf of a chain: where its payload is, and its bytes. *)
Abbreviation seg := (Z * list Z)%type.

(** The loop over the chain; returns [acc] and [swapped]. *)
Fixpoint chain_sum (segs : list seg) (acc : Z) (swapped : bool) : Z * bool :=
  match segs with
  | [] => (acc, swapped)
  | q :: segs =>
      let acc := FOLD_U32T (u32 (acc + lwip_standard_chksum q.1 q.2)) in
      if nz (Z.of_nat (length q.2) mod 2) then
        chain_sum segs (SWAP_BYTES_IN_WORD acc) (negb swapped)
      else chain_sum segs acc swapped
  end.

(** The same loop bounded by [chksum_len] bytes. *)
Fixpoint chain_sum_partial (segs : list seg) (chksum_len acc : Z) (swapped : bool) : option (Z * bool) :=
  match segs with
  | [] => Some (acc, swapped)
  | q :: segs =>
      if 0 <? chksum_len then
        let chklen := if chksum_len <? Z.of_nat (length q.2) then chksum_len
                      else Z.of_nat (length q.2) in
        let acc := u32 (acc + lwip_standard_chksum q.1 (take (Z.to_nat chklen) q.2)) in
        let chksum_len := u16 (chksum_len - chklen) in
        if chksum_len <? 32767 then
          let acc := FOLD_U32T acc in
          if nz (Z.of_nat (length q.2) mod 2) then
            chain_sum_partial segs chksum_len (SWAP_BYTES_IN_WORD acc) (negb swapped)
          else chain_sum_partial segs chksum_len acc swapped
        else None
      else Some (acc, swapped)
  end.

(** [(u16_t)~x] *)
Definition not16 (x : Z) : Z := u16 (Z.lnot x).

Definition pseudo_finish (acc : Z) (swapped : bool) (proto proto_len : Z) : Z :=
  let acc := if swapped then SWAP_BYTES_IN_WORD acc else acc in
  let acc := u32 (acc + lwip_htons proto) in
  let acc := u32 (acc + lwip_htons proto_len) in
  let acc := FOLD_U32T acc in
  let acc := FOLD_U32T acc in
  not16 (Z.land acc 65535).

Definition inet_cksum_pseudo_base (p : list seg) (proto proto_len acc : Z) : Z :=
  let '(acc, swapped) := chain_sum p acc false in pseudo_finish acc swapped proto proto_len.

(** [None] when the assertion in the loop fails. *)
Definition inet_cksum_pseudo_partial_base (p : list seg) (proto proto_len chksum_len acc : Z) : option Z :=
  match chain_sum_partial p chksum_len acc false with
  | Some (acc, swapped) => Some (pseudo_finish acc swapped proto proto_len)
  | None => None
  end.

(** The addresses, folded. *)
Definition pseudo_addrs (src dest : Z) : Z :=
  let acc := Z.land src 65535 in
  let acc := u32 (acc + Z.land (Z.shiftr src 16) 65535) in
  let acc := u32 (acc + Z.land dest 65535) in
  let acc := u32 (acc + Z.land (Z.shiftr dest 16) 65535) in
  FOLD_U32T (FOLD_U32T acc).

Definition inet_chksum_pseudo (p : list seg) (proto proto_len src dest : Z) : Z :=
  inet_cksum_pseudo_base p proto proto_len (pseudo_addrs src dest).
Definition ip_chksum_pseudo := inet_chksum_pseudo.

Definition inet_chksum_pseudo_partial (p : list seg) (proto proto_len chksum_len src dest : Z) : option Z :=
  inet_cksum_pseudo_partial_base p proto proto_len chksum_len (pseudo_addrs src dest).
Definition ip_chksum_pseudo_partial := inet_chksum_pseudo_partial.

Definition inet_chksum (dataptr : Z) (bs : list Z) : Z := not16 (lwip_standard_chksum dataptr bs).

Definition inet_chksum_pbuf (p : list seg) : Z :=
  let '(acc, swapped) := chain_sum p 0 false in
  let acc := if swapped then SWAP_BYTES_IN_WORD acc else acc in
  not16 (Z.land acc 65535).

(** ** The specification: a one's complement sum of 16-bit words *)

(** The sum of the words of a byte string, an odd last byte padded with zero. *)
Fixpoint word_sum (bs : list Z) : Z :=
  match bs with
  | b0 :: b1 :: r => b0 + 256 * b1 + word_sum r
  | [b] => b
  | [] => 0
  end.
(** The 16-bit one's complement value of a sum: zero only for zero. *)
Definition oc (x : Z) : Z := if x =? 0 then 0 else (x - 1) mod 65535 + 1.
(** The checksum field of a byte string. *)
Definition checksum (bs : list Z) : Z := 65535 - oc (word_sum bs).

Abbreviation bytes bs := (Forall is_u8 bs).

Lemma fold_eq x : is_u32 x -> FOLD_U32T x = x / 65536 + x mod 65536.
Proof. intros Hx. unfold FOLD_U32T. rewrite shiftr_16, land_65535. zlia. Qed.

Lemma oc_fold x : is_u32 x -> 0 <= FOLD_U32T x <= 131070 /\ oc (FOLD_U32T x) = oc x /\
  (x <= 131070 -> FOLD_U32T x <= 65535).
Proof.
  intros Hx. rewrite (fold_eq x Hx). unfold oc.
  split; [zlia|]. split; [|zlia].
  repeat zcase; zlia.
Qed.

Lemma oc_small x : 0 <= x <= 65535 -> oc x = x.
Proof. unfold oc. intros. zcase. zlia. Qed.

Lemma swap_eq w : SWAP_BYTES_IN_WORD w = w mod 256 * 256 + w / 256 mod 256.
Proof.
  unfold SWAP_BYTES_IN_WORD. change 65280 with (Z.shiftl 255 8). rewrite land_mask_hi by lia.
  rewrite Z.shiftr_shiftl_l, Z.shiftl_0_r by lia. autorewrite with cbits.
  change 256 with (2 ^ 8) at 2. by rewrite lor_disjoint_add by zlia.
Qed.

(** Two sums of words that fold to the same value: a partial equivalence on
    the natural numbers among [Z], compatible with sums and multiples. *)
Definition sim (x y : Z) : Prop := 0 <= x /\ 0 <= y /\ (x = 0 <-> y = 0) /\ exists k, x = y + 65535 * k.

Lemma oc_sim x y : sim x y <-> 0 <= x /\ 0 <= y /\ oc x = oc y.
Proof.
  unfold sim, oc. split.
  - intros (Hx & Hy & H0 & k & ->). split; [done|]. split; [done|]. repeat zcase.
    replace (y + 65535 * k - 1) with (y - 1 + k * 65535) by lia. by rewrite Z_mod_plus_full.
  - intros (Hx & Hy & H). split; [done|]. split; [done|]. revert H. repeat zcase; intros H.
    + split; [done|]. exists 0. lia.
    + zlia.
    + zlia.
    + split; [lia|]. exists ((x - 1) / 65535 - (y - 1) / 65535). zlia.
Qed.

#[export] Instance sim_per : RelationClasses.PER sim.
Proof.
  split.
  - intros x y (Hx & Hy & H0 & k & E). repeat split; try tauto. exists (- k). lia.
  - intros x y z (Hx & Hy & H0 & k & E) (_ & Hz & H1 & k' & E'). repeat split; try tauto.
    exists (k + k'). lia.
Qed.
Lemma sim_refl x : 0 <= x -> sim x x.
Proof. intros Hx. repeat split; try done. exists 0. lia. Qed.
#[export] Instance sim_add : Proper (sim ==> sim ==> sim) Z.add.
Proof.
  intros x x' (Hx & Hx' & H0 & k & E) y y' (Hy & Hy' & H1 & k' & E').
  split; [lia|]. split; [lia|]. split; [lia|]. exists (k + k'). lia.
Qed.
Lemma sim_mul c x y : 0 <= c -> sim x y -> sim (c * x) (c * y).
Proof.
  intros Hc (Hx & Hy & H0 & k & E). split; [nia|]. split; [nia|]. split; [nia|]. exists (c * k). nia.
Qed.
Lemma sim_wrap x : 0 <= x -> sim (65536 * x) x.
Proof. intros Hx. repeat split; try lia. exists x. lia. Qed.

Lemma word_sum_ind (P : list Z -> Prop) :
  P [] -> (forall b, P [b]) -> (forall b0 b1 r, P r -> P (b0 :: b1 :: r)) -> forall bs, P bs.
Proof.
  intros H0 H1 H2. assert (forall bs, P bs /\ forall b, P (b :: bs)) as H; [|intros bs; apply H].
  induction bs as [|b bs [IH1 IH2]]; split; auto.
Qed.

Lemma word_sum_pos bs : bytes bs -> 0 <= word_sum bs.
Proof.
  induction bs as [|b|b0 b1 r IH] using word_sum_ind; cbn [word_sum]; [lia| |];
    rewrite ?Forall_cons; unfold is_u8; [lia|]. intros (? & ? & ?). specialize (IH ltac:(done)). lia.
Qed.

Lemma word_sum_cons b r : is_u8 b -> bytes r -> sim (word_sum (b :: r)) (b + 256 * word_sum r).
Proof.
  revert b. induction r as [|c r IH]; intros b Hb Hr.
  - cbn. unfold is_u8 in Hb. rewrite Z.mul_0_r, Z.add_0_r. apply sim_refl. lia.
  - apply Forall_cons in Hr as [Hc Hr]. pose proof (word_sum_pos r Hr).
    pose proof (sim_mul 256 _ _ ltac:(lia) (IH c Hc Hr)) as E. unfold is_u8 in *.
    transitivity (b + 256 * (c + 256 * word_sum r)); [|apply sim_add; [apply sim_refl; lia|by symmetry]].
    cbn [word_sum]. replace (b + 256 * (c + 256 * word_sum r)) with (b + 256 * c + 65536 * word_sum r) by lia.
    apply sim_add; [apply sim_refl; lia|]. symmetry. by apply sim_wrap.
Qed.

(** Appending shifts the second part by a byte when the first has odd length. *)
Definition odd_shift (n : nat) : Z := if Nat.even n then 1 else 256.
Lemma odd_shift_pos n : 0 <= odd_shift n.
Proof. unfold odd_shift. by destruct (Nat.even n). Qed.

Lemma word_sum_app a b : bytes a -> bytes b ->
  sim (word_sum (a ++ b)) (word_sum a + odd_shift (length a) * word_sum b).
Proof.
  intros Ha Hb. pose proof (word_sum_pos b Hb) as Pb. induction a as [|x a IH]; cbn [app length].
  - cbn. rewrite Z.mul_1_l, Z.add_0_l. apply sim_refl. lia.
  - apply Forall_cons in Ha as [Hx Ha]. specialize (IH Ha). pose proof (word_sum_pos a Ha) as Pa.
    assert (Hab : bytes (a ++ b)) by (by apply Forall_app).
    pose proof (odd_shift_pos (length a)) as Po. pose proof Hx as [Hx0 _].
    rewrite (word_sum_cons x (a ++ b) Hx Hab).
    assert (E : sim (256 * word_sum (a ++ b)) (256 * word_sum a + 256 * odd_shift (length a) * word_sum b)).
    { transitivity (256 * (word_sum a + odd_shift (length a) * word_sum b)); [by apply sim_mul|].
      rewrite Z.mul_add_distr_l, Z.mul_assoc. apply sim_refl. nia. }
    assert (F : sim (256 * odd_shift (length a) * word_sum b) (odd_shift (S (length a)) * word_sum b)).
    { unfold odd_shift. rewrite Nat.even_succ, <- Nat.negb_even. destruct (Nat.even (length a)); cbn [negb].
      - apply sim_refl. lia.
      - change (256 * 256) with 65536. rewrite Z.mul_1_l. by apply sim_wrap. }
    transitivity (x + (256 * word_sum a + 256 * odd_shift (length a) * word_sum b));
      [apply sim_add; [by apply sim_refl|done]|].
    rewrite Z.add_assoc. apply sim_add; [|done]. symmetry. by apply word_sum_cons.
Qed.

(** ** The memory checksum *)

Lemma fold2 x : is_u32 x -> FOLD_U32T (FOLD_U32T x) = oc x.
Proof.
  intros Hx. destruct (oc_fold x Hx) as (H1 & <- & _).
  destruct (oc_fold (FOLD_U32T x)) as (H3 & <- & H5); [unfold is_u32; lia|].
  symmetry. apply oc_small. lia.
Qed.

Lemma oc_range x : 0 <= x -> 0 <= oc x <= 65535.
Proof. unfold oc. intros. zcase. zlia. Qed.
Lemma sim_oc x : 0 <= x -> sim (oc x) x.
Proof.
  intros Hx. pose proof (oc_range x Hx). apply oc_sim. split; [lia|]. split; [done|]. by apply oc_small.
Qed.

Lemma swap_oc x : 0 <= x <= 65535 -> SWAP_BYTES_IN_WORD x = oc (256 * x).
Proof. intros Hx. rewrite swap_eq. unfold oc. zcase; zlia. Qed.
Lemma swap_sim x y : 0 <= x <= 65535 -> sim x y -> sim (SWAP_BYTES_IN_WORD x) (256 * y).
Proof.
  intros Hx E. rewrite swap_oc by done. transitivity (256 * x); [apply sim_oc; lia|]. by apply sim_mul.
Qed.
Lemma swap_range x : 0 <= SWAP_BYTES_IN_WORD x <= 65535.
Proof. rewrite swap_eq. zlia. Qed.

Lemma word_sum_bound bs : bytes bs ->
  2 * word_sum bs <= 65535 * Z.of_nat (length bs) /\
  (Nat.odd (length bs) = true -> 2 * word_sum bs <= 65535 * (Z.of_nat (length bs) - 1) + 510).
Proof.
  induction bs as [|b|b0 b1 r IH] using word_sum_ind; cbn [word_sum length]; [by cbn| |];
    rewrite ?Forall_cons; unfold is_u8; [split; [|intros _]; lia|].
  intros (? & ? & Hr). destruct (IH Hr) as [I1 I2]. cbn [Nat.odd Nat.even].
  change (Nat.odd (S (S (length r)))) with (Nat.odd (length r)). split; [lia|].
  intros Ho. specialize (I2 Ho). lia.
Qed.

Lemma sum_words_run sum bs : bytes bs -> 0 <= sum -> sum + word_sum bs < 4294967296 ->
  exists rest, sum_words sum bs = (sum + word_sum bs - word_sum rest, rest) /\ bytes rest /\
    (length rest <= 1)%nat /\ word_sum rest <= word_sum bs.
Proof.
  revert sum. induction bs as [|b|b0 b1 r IH] using word_sum_ind; intros sum; cbn [sum_words word_sum].
  - intros. exists []. cbn. split; [f_equal; lia|]. split; [done|]. lia.
  - intros. exists [b]. cbn. split; [f_equal; lia|]. split; [done|]. lia.
  - rewrite !Forall_cons. intros (H0 & H1 & Hr) Hs Hb. pose proof (word_sum_pos r Hr).
    unfold is_u8 in *. rewrite (u32_small (sum + _)) by zlia.
    destruct (IH (sum + (b0 + 256 * b1)) Hr ltac:(lia) ltac:(lia)) as (rest & -> & Hrest & Hl & Hw).
    exists rest. split; [f_equal; lia|]. split; [done|]. lia.
Qed.

(** The last byte goes to the low half of [t]. *)
Lemma add_tail t rest : is_u8 t -> bytes rest -> (length rest <= 1)%nat ->
  match rest with b :: _ => Z.lor (Z.land (Z.shiftl t 8) 65280) b | [] => Z.shiftl t 8 end =
  256 * t + word_sum rest.
Proof.
  intros Ht Hr Hl. destruct rest as [|b [|]]; cbn [length word_sum] in *; [rewrite shiftl_8; lia| |lia].
  apply Forall_cons in Hr as [Hb _]. change 65280 with (Z.shiftl 255 8). rewrite land_mask_hi by lia.
  rewrite Z.shiftr_shiftl_l, Z.shiftl_0_r by lia. autorewrite with cbits.
  change 256 with (2 ^ 8) at 2. rewrite lor_disjoint_add by zlia. change (2 ^ 8) with 256. zlia.
Qed.

Lemma lwip_standard_chksum_run p bs : bytes bs -> (length bs <= Z.to_nat 131072)%nat ->
  lwip_standard_chksum p bs = oc (word_sum bs).
Proof.
  intros Hb Hl. destruct (word_sum_bound bs Hb) as [Hm _]. unfold lwip_standard_chksum.
  pose proof (word_sum_pos bs Hb) as Hp0.
  assert (Hoc : forall x, 0 <= x -> u16 (oc x) = oc x)
    by (intros x Hx; apply u16_small; pose proof (oc_range x Hx); unfold is_u16; lia).
  destruct bs as [|b r]; [by destruct (nz (Z.land p 1))|]. destruct (nz (Z.land p 1)).
  - apply Forall_cons in Hb as [Hb Hr]. destruct (word_sum_bound r Hr) as [Hm1 Hm2].
    pose proof (word_sum_pos r Hr) as Hp. cbn [length] in *.
    destruct (sum_words_run 0 r Hr) as (rest & -> & Hrest & Hlr & Hwr); [lia|lia|].
    rewrite (add_tail b rest Hb Hrest Hlr).
    assert (Hx : is_u32 (256 * b + word_sum r)).
    { unfold is_u8, is_u32 in *. split; [lia|]. destruct (Nat.odd (length r)) eqn:Ho; [specialize (Hm2 eq_refl); lia|].
      apply negb_true_iff in Ho. rewrite Nat.negb_odd in Ho. apply Nat.even_spec in Ho as [k Hk]. lia. }
    replace (0 + word_sum r - word_sum rest + (256 * b + word_sum rest)) with (256 * b + word_sum r) by lia.
    rewrite (u32_small _ Hx), fold2 by done. unfold is_u8, is_u32 in *.
    rewrite swap_oc by (apply oc_range; lia). rewrite Hoc by (pose proof (oc_range (256 * b + word_sum r)); lia).
    apply oc_sim. transitivity (256 * (256 * b + word_sum r)); [apply sim_mul; [lia|apply sim_oc; lia]|].
    transitivity (b + 256 * word_sum r); [|by symmetry; apply word_sum_cons].
    replace (256 * (256 * b + word_sum r)) with (65536 * b + 256 * word_sum r) by lia.
    apply sim_add; [apply sim_wrap; lia|apply sim_refl; lia].
  - set (l := b :: r) in *.
    destruct (sum_words_run 0 l Hb) as (rest & -> & Hrest & Hlr & Hwr); [lia|lia|].
    assert (E : match rest with b :: _ => Z.lor (Z.land 0 65280) b | [] => 0 end = word_sum rest).
    { by destruct rest as [|c [|]]; cbn [length] in Hlr; [| |lia]. }
    rewrite E. replace (0 + word_sum l - word_sum rest + word_sum rest) with (word_sum l) by lia.
    rewrite u32_small by (unfold is_u32; lia). rewrite fold2 by (unfold is_u32; lia). by apply Hoc.
Qed.

(** ** Chains *)

Definition segs_ok (p : list seg) : Prop := Forall (fun q => bytes q.2 /\ is_u16 (Z.of_nat (length q.2))) p.
Definition flat (p : list seg) : list Z := concat (map snd p).

Definition unswap (swapped : bool) : Z := if swapped then 256 else 1.
Lemma unswap_pos b : 0 <= unswap b.
Proof. by destruct b. Qed.
Lemma unswap_negb b x : 0 <= x -> sim (unswap (negb b) * (256 * x)) (unswap b * x).
Proof.
  intros Hx. destruct b; cbn [negb unswap].
  - rewrite Z.mul_1_l. apply sim_refl. lia.
  - rewrite Z.mul_assoc, Z.mul_1_l. by apply sim_wrap.
Qed.

Lemma flat_bytes p : segs_ok p -> bytes (flat p).
Proof.
  unfold flat. induction 1 as [|q p [Hq _] _ IH]; cbn; [constructor|]. by apply Forall_app.
Qed.

Lemma odd_len (n : nat) : nz (Z.of_nat n mod 2) = Nat.odd n.
Proof.
  unfold nz. rewrite <- Nat.negb_even. f_equal. destruct (Nat.even n) eqn:E.
  - apply Nat.even_spec in E as [k ->]. apply Z.eqb_eq. zlia.
  - apply Z.eqb_neq. assert (Ho : Nat.odd n = true) by (by rewrite <- Nat.negb_even, E).
    apply Nat.odd_spec in Ho as [k ->]. zlia.
Qed.

(** One segment added to a folded accumulator. *)
Lemma add_seg acc q : 0 <= acc <= 65535 -> bytes q.2 -> is_u16 (Z.of_nat (length q.2)) ->
  let a := FOLD_U32T (u32 (acc + lwip_standard_chksum q.1 q.2)) in
  0 <= a <= 65535 /\ sim a (acc + word_sum q.2).
Proof.
  intros Ha Hq Hl. rewrite lwip_standard_chksum_run by (try done; unfold is_u16 in Hl; lia).
  pose proof (word_sum_pos _ Hq) as Hp. pose proof (oc_range _ Hp) as Ho.
  rewrite u32_small by (unfold is_u32; lia). cbv zeta.
  destruct (oc_fold (acc + oc (word_sum q.2))) as (H1 & H2 & H3); [unfold is_u32; lia|].
  split; [lia|]. transitivity (acc + oc (word_sum q.2)); [apply oc_sim; lia|].
  apply sim_add; [apply sim_refl; lia|]. by apply sim_oc.
Qed.

Lemma chain_sum_run p acc sw : segs_ok p -> 0 <= acc <= 65535 ->
  let '(acc', sw') := chain_sum p acc sw in
  0 <= acc' <= 65535 /\ sim (unswap sw' * acc') (unswap sw * (acc + word_sum (flat p))).
Proof.
  intros Hp. revert acc sw. induction Hp as [|q p [Hq Hl] Hp IH]; intros acc sw Ha; cbn [chain_sum].
  - split; [done|]. cbn. rewrite Z.add_0_r. apply sim_refl. pose proof (unswap_pos sw). nia.
  - destruct (add_seg acc q Ha Hq Hl) as [Hr Hs]. set (a := FOLD_U32T _) in *.
    pose proof (flat_bytes p Hp) as Hf. pose proof (word_sum_pos _ Hf) as Pf. pose proof (word_sum_pos _ Hq) as Pq.
    pose proof (word_sum_app _ _ Hq Hf) as Happ. change (flat (q :: p)) with (q.2 ++ flat p).
    unfold odd_shift in Happ. rewrite odd_len, <- Nat.negb_even. destruct (Nat.even (length q.2)); cbn [negb].
    + specialize (IH a sw Hr). destruct (chain_sum p a sw) as [acc' sw']. destruct IH as [I1 I2].
      split; [done|]. rewrite I2. apply sim_mul; [apply unswap_pos|].
      transitivity (acc + word_sum q.2 + word_sum (flat p)); [apply sim_add; [done|by apply sim_refl]|].
      rewrite <- Z.add_assoc. apply sim_add; [apply sim_refl; lia|].
      rewrite Z.mul_1_l in Happ. by symmetry.
    + specialize (IH (SWAP_BYTES_IN_WORD a) (negb sw) (swap_range a)).
      destruct (chain_sum p _ _) as [acc' sw']. destruct IH as [I1 I2]. split; [done|]. rewrite I2.
      transitivity (unswap (negb sw) * (256 * (acc + (word_sum q.2 + 256 * word_sum (flat p))))).
      * apply sim_mul; [apply unswap_pos|]. transitivity (256 * (acc + word_sum q.2) + word_sum (flat p));
          [apply sim_add; [by apply swap_sim|by apply sim_refl]|].
        replace (256 * (acc + (word_sum q.2 + 256 * word_sum (flat p))))
          with (256 * (acc + word_sum q.2) + 65536 * word_sum (flat p)) by lia.
        apply sim_add; [apply sim_refl; lia|]. symmetry. by apply sim_wrap.
      * rewrite unswap_negb by lia. apply sim_mul; [apply unswap_pos|].
        apply sim_add; [apply sim_refl; lia|by symmetry].
Qed.

(** The final swap. *)
Lemma final_swap acc sw x : 0 <= acc <= 65535 -> sim (unswap sw * acc) x ->
  let a := if sw then SWAP_BYTES_IN_WORD acc else acc in 0 <= a <= 65535 /\ sim a x.
Proof.
  intros Ha Hs. destruct sw; cbn [unswap] in Hs.
  - split; [apply swap_range|]. rewrite <- Hs. apply swap_sim; [done|]. apply sim_refl. lia.
  - by rewrite Z.mul_1_l in Hs.
Qed.

Lemma not16_eq x : 0 <= x <= 65535 -> not16 (Z.land x 65535) = 65535 - x.
Proof. intros Hx. unfold not16. rewrite land_65535. unfold Z.lnot. zlia. Qed.

Lemma sim_small_oc a x : 0 <= a <= 65535 -> sim a x -> a = oc x.
Proof. intros Ha Hs. apply oc_sim in Hs as (_ & _ & <-). by rewrite oc_small. Qed.

Lemma inet_chksum_pbuf_run p : segs_ok p -> inet_chksum_pbuf p = checksum (flat p).
Proof.
  intros Hp. unfold inet_chksum_pbuf, checksum. pose proof (chain_sum_run p 0 false Hp ltac:(lia)) as H.
  destruct (chain_sum p 0 false) as [acc sw]. destruct H as [H1 H2].
  rewrite Z.add_0_l, Z.mul_1_l in H2. destruct (final_swap acc sw _ H1 H2) as [H3 H4].
  rewrite not16_eq by done. f_equal. by apply sim_small_oc.
Qed.

(** The pseudo header of a TCP or UDP packet, as it lies in memory. *)
Definition pseudo_header (src dest proto proto_len : Z) : list Z :=
  map (byte_of src) [0; 1; 2; 3] ++ map (byte_of dest) [0; 1; 2; 3] ++
  [0; proto; byte_of proto_len 1; byte_of proto_len 0].

Lemma pseudo_addrs_run src dest : is_u32 src -> is_u32 dest ->
  0 <= pseudo_addrs src dest <= 65535 /\
  sim (pseudo_addrs src dest) (src mod 65536 + src / 65536 + dest mod 65536 + dest / 65536).
Proof.
  intros Hs Hd. unfold pseudo_addrs. rewrite !shiftr_16, !land_65535.
  rewrite !(Z.mod_small (_ / 65536)) by zlia. rewrite !u32_small by zlia.
  set (x := _ + _ + _ + _). assert (Hx : is_u32 x) by (unfold x; zlia). rewrite fold2 by done.
  unfold is_u32 in Hx. split; [apply oc_range|apply sim_oc]; lia.
Qed.

Lemma pseudo_header_sum src dest proto proto_len :
  is_u32 src -> is_u32 dest -> is_u8 proto -> is_u16 proto_len ->
  word_sum (pseudo_header src dest proto proto_len) =
  (src mod 65536 + src / 65536 + dest mod 65536 + dest / 65536) + lwip_htons proto + lwip_htons proto_len.
Proof.
  intros Hs Hd Hp Hl. rewrite !lwip_htons_spec. unfold pseudo_header, byte_of. cbn [map app word_sum].
  change (8 * 0) with 0. change (8 * 1) with 8. change (8 * 2) with 16. change (8 * 3) with 24.
  change (2 ^ 0) with 1. change (2 ^ 8) with 256. change (2 ^ 16) with 65536. change (2 ^ 24) with 16777216.
  rewrite !Z.div_1_r.
  assert (E : forall x, is_u32 x -> x mod 256 + 256 * (x / 256 mod 256) + (x / 65536 mod 256 + 256 * (x / 16777216 mod 256))
    = x mod 65536 + x / 65536) by (clear; intros x Hx; zlia).
  pose proof (E _ Hs). pose proof (E _ Hd). clear E.
  assert (E1 : proto mod 256 * 256 + proto / 256 mod 256 = 256 * proto) by (clear - Hp; zlia).
  rewrite E1. lia.
Qed.

Lemma pseudo_header_bytes src dest proto proto_len : is_u8 proto ->
  bytes (pseudo_header src dest proto proto_len).
Proof.
  intros Hp. unfold pseudo_header, byte_of. cbn [map app].
  repeat (constructor; [first [exact Hp|apply u8_range|by_decision]|]). constructor.
Qed.

Lemma htons_range x : 0 <= lwip_htons x <= 65535.
Proof. rewrite lwip_htons_spec. zlia. Qed.

Lemma pseudo_finish_run acc sw proto proto_len x :
  0 <= acc <= 65535 -> sim (unswap sw * acc) x ->
  pseudo_finish acc sw proto proto_len = 65535 - oc (x + lwip_htons proto + lwip_htons proto_len).
Proof.
  intros Ha Hs. destruct (final_swap acc sw x Ha Hs) as [Hr Hx]. unfold pseudo_finish.
  set (a := if sw then _ else _) in *. clearbody a.
  pose proof (htons_range proto). pose proof (htons_range proto_len).
  rewrite (u32_small (a + _)) by (unfold is_u32; lia). rewrite u32_small by (unfold is_u32; lia).
  rewrite fold2 by (unfold is_u32; lia).
  assert (E : sim (a + lwip_htons proto + lwip_htons proto_len) (x + lwip_htons proto + lwip_htons proto_len))
    by (repeat apply sim_add; [done|apply sim_refl; lia..]).
  apply oc_sim in E as (P1 & P2 & ->). apply not16_eq. by apply oc_range.
Qed.

Lemma inet_chksum_pseudo_run p proto proto_len src dest :
  segs_ok p -> is_u32 src -> is_u32 dest -> is_u8 proto -> is_u16 proto_len ->
  inet_chksum_pseudo p proto proto_len src dest =
  checksum (pseudo_header src dest proto proto_len ++ flat p).
Proof.
  intros Hp Hs Hd Hpr Hl. unfold inet_chksum_pseudo, inet_cksum_pseudo_base.
  destruct (pseudo_addrs_run src dest Hs Hd) as [Ha1 Ha2].
  pose proof (chain_sum_run p _ false Hp Ha1) as H. destruct (chain_sum p _ false) as [acc sw].
  destruct H as [H1 H2]. rewrite (pseudo_finish_run _ _ _ _ _ H1 H2). unfold checksum. f_equal.
  pose proof (flat_bytes p Hp) as Hf. pose proof (word_sum_pos _ Hf) as Pf.
  pose proof (pseudo_header_bytes src dest proto proto_len Hpr) as Hh.
  pose proof (word_sum_app _ _ Hh Hf) as Happ. change (odd_shift (length (pseudo_header _ _ _ _))) with 1 in Happ.
  rewrite pseudo_header_sum, Z.mul_1_l in Happ by done.
  pose proof (htons_range proto). pose proof (htons_range proto_len).
  apply oc_sim. rewrite Happ. cbn [unswap]. rewrite Z.mul_1_l.
  set (A := src mod 65536 + _ + _ + _) in *.
  replace (A + lwip_htons proto + lwip_htons proto_len + word_sum (flat p))
    with (A + word_sum (flat p) + lwip_htons proto + lwip_htons proto_len) by lia.
  repeat apply sim_add; first [done|apply sim_refl; lia].
Qed.

Lemma inet_chksum_run p bs : bytes bs -> is_u16 (Z.of_nat (length bs)) -> inet_chksum p bs = checksum bs.
Proof.
  intros Hb Hl. unfold inet_chksum, checksum. rewrite lwip_standard_chksum_run by (try done; unfold is_u16 in Hl; lia).
  pose proof (oc_range _ (word_sum_pos _ Hb)) as Ho. rewrite <- not16_eq by done.
  unfold not16. rewrite land_65535. f_equal. by rewrite Z.mod_small by lia.
Qed.

Lemma bytes_field a x y b : bytes a -> is_u8 x -> is_u8 y -> bytes b -> bytes (a ++ [x; y] ++ b).
Proof. intros. rewrite !Forall_app. split; [done|]. split; [|done]. constructor; [done|]. by constructor; [|constructor]. Qed.

(** Filling in the complement at an even offset makes the sum all ones. *)
Lemma word_sum_fill a c b : bytes a -> bytes b -> Nat.even (length a) = true -> is_u16 c ->
  sim (word_sum (a ++ [c mod 256; c / 256] ++ b)) (word_sum (a ++ [0; 0] ++ b) + c).
Proof.
  intros Ha Hb He Hc. assert (Hcb : forall x y, is_u8 x -> is_u8 y -> bytes ([x; y] ++ b)) by (intros; by apply (bytes_field [] x y b)).
  pose proof (word_sum_pos _ Ha). pose proof (word_sum_pos _ Hb).
  assert (E : forall x y, is_u8 x -> is_u8 y -> sim (word_sum (a ++ [x; y] ++ b)) (word_sum a + (x + 256 * y + word_sum b))).
  { intros x y Hx Hy. rewrite (word_sum_app _ _ Ha (Hcb x y Hx Hy)). unfold odd_shift. rewrite He, Z.mul_1_l.
    cbn [app word_sum]. apply sim_refl. unfold is_u8 in *. lia. }
  assert (H1 : is_u8 (c mod 256)) by zlia. assert (H2 : is_u8 (c / 256)) by zlia.
  assert (Hz : is_u8 0) by by_decision. rewrite (E _ _ H1 H2).
  transitivity (word_sum a + (0 + 256 * 0 + word_sum b) + c).
  - assert (Ec : c = c mod 256 + 256 * (c / 256)) by zlia.
    replace (word_sum a + (0 + 256 * 0 + word_sum b) + c) with (word_sum a + (c mod 256 + 256 * (c / 256) + word_sum b)) by lia.
    apply sim_refl. zlia.
  - apply sim_add; [symmetry; by apply E|apply sim_refl; unfold is_u16 in Hc; lia].
Qed.

Lemma checksum_fill a b : bytes a -> bytes b -> Nat.even (length a) = true ->
  let c := checksum (a ++ [0; 0] ++ b) in checksum (a ++ [c mod 256; c / 256] ++ b) = 0.
Proof.
  intros Ha Hb He. set (S := word_sum (a ++ [0; 0] ++ b)).
  assert (HS : 0 <= S) by (apply word_sum_pos, bytes_field; by_decision || done).
  pose proof (oc_range S HS) as Ho. unfold checksum. fold S.
  assert (Hc : is_u16 (65535 - oc S)) by (unfold is_u16; lia).
  pose proof (word_sum_fill a _ b Ha Hb He Hc) as E. fold S in E.
  assert (F : sim (S + (65535 - oc S)) 65535).
  { transitivity (oc S + (65535 - oc S)); [apply sim_add; [symmetry; by apply sim_oc|apply sim_refl; lia]|].
    replace (oc S + (65535 - oc S)) with 65535 by lia. apply sim_refl. lia. }
  pose proof (sim_small_oc 65535 _ ltac:(lia) (symmetry (transitivity E F))). lia.
Qed.

(** *** Properties *)

(** [lwip_standard_chksum] is the one's complement sum of the 16-bit words of
    the data, for data at odd and at even addresses and of every length up to the
    documented 0x20000 bytes, at which the 32-bit accumulator is just large enough. *)
Theorem lwip_standard_chksum_correct p bs : bytes bs -> (length bs <= Z.to_nat 131072)%nat ->
  lwip_standard_chksum p bs = oc (word_sum bs).
Proof. apply lwip_standard_chksum_run. Qed.

(** C23: the checksum of a chain, with or without the pseudo header, is that of
    the concatenated bytes: it depends neither on how the data is split into
    pbufs nor on where their payloads lie. *)
Theorem inet_chksum_chain_flat p proto proto_len src dest :
  segs_ok p -> is_u32 src -> is_u32 dest -> is_u8 proto -> is_u16 proto_len ->
  inet_chksum_pbuf p = checksum (flat p) /\
  ip_chksum_pseudo p proto proto_len src dest =
    checksum (pseudo_header src dest proto proto_len ++ flat p).
Proof. intros. split; [by apply inet_chksum_pbuf_run|by apply inet_chksum_pseudo_run]. Qed.

(** a sender that computes the checksum over a zero field at an even offset
    and stores it there makes the receiver's check give zero. *)
Theorem inet_chksum_verifies p q a b :
  bytes a -> bytes b -> Nat.even (length a) = true -> Z.of_nat (length a) + 2 + Z.of_nat (length b) < 65536 ->
  let c := inet_chksum p (a ++ [0; 0] ++ b) in inet_chksum q (a ++ [c mod 256; c / 256] ++ b) = 0.
Proof.
  intros Ha Hb He Hl. cbv zeta.
  assert (Hz : bytes (a ++ [0; 0] ++ b)) by (apply bytes_field; by_decision || done).
  rewrite (inet_chksum_run p) by (try done; unfold is_u16; rewrite !length_app; cbn [length]; lia).
  pose proof (oc_range _ (word_sum_pos _ Hz)) as Ho.
  rewrite inet_chksum_run; [by apply checksum_fill| |unfold is_u16; rewrite !length_app; cbn [length]; lia].
  unfold checksum. apply bytes_field; try done; zlia.
Qed.

(** *** Witnesses *)
Lemma lwip_standard_chksum_correct_witness : lwip_standard_chksum 3 [69; 0; 0; 61; 18] = 15703.
Proof. rewrite (lwip_standard_chksum_correct 3); [reflexivity|by repeat constructor|by_decision]. Defined.

Lemma inet_chksum_chain_flat_witness :
  inet_chksum_pbuf [(4, [69; 0; 1]); (7, [2; 3])] = checksum [69; 0; 1; 2; 3].
Proof.
  apply (inet_chksum_chain_flat [(4, [69; 0; 1]); (7, [2; 3])] 17 5 1 2); try by_decision.
Defined.

Lemma inet_chksum_verifies_witness :
  inet_chksum 8 ([69; 0; 0; 28] ++ [inet_chksum 4 [69; 0; 0; 28; 0; 0; 9] mod 256;
    inet_chksum 4 [69; 0; 0; 28; 0; 0; 9] / 256] ++ [9]) = 0.
Proof. apply (inet_chksum_verifies 4 8 [69; 0; 0; 28] [9]); [by repeat constructor..|by_decision]. Defined.
