(* ===== verification/Ip4.v ===== *)
(** LWIP/src/core/ipv4/ip4.c and icmp.c: routing, output and input of IPv4
    packets, echo replies and "destination unreachable".  The globals of ip.c,
    ip4.c and netif.c are part of the device of the network state; UDP and TCP are
    the interface [Transport].  [netif->output] is [etharp_output], as ethernetif.c
    sets it; [ip4_input], which returns ERR_OK on every path, returns nothing here.  Forwarding, fragments, raw sockets, IGMP, loopback,
    hooks, statistics and debug output are compiled out. *)
From S2P Require Import Prelude CMem Memp Pbuf IpAddr Packets Ethernet Etharp Checksum.

Definition IP_HLEN : Z := 20.
Definition IP_PROTO_ICMP : Z := 1.
Definition IP_PROTO_TCP : Z := 6.
Definition IP_PROTO_UDP : Z := 17.
Definition IP_MF : Z := 8192.
Definition IP_OFFMASK : Z := 8191.
Definition LWIP_IANA_PORT_DHCP_CLIENT : Z := 68.
Definition NETIF_FLAG_UP : Z := 1.
Definition NETIF_FLAG_LINK_UP : Z := 4.
Definition NETIF_CHECKSUM_GEN_IP : Z := 1.
Definition NETIF_CHECKSUM_GEN_ICMP : Z := 8.
Definition NETIF_CHECKSUM_CHECK_IP : Z := 256.
Definition NETIF_CHECKSUM_CHECK_ICMP : Z := 2048.
Definition ICMP_ER : Z := 0.
Definition ICMP_DUR : Z := 3.
Definition ICMP_ECHO : Z := 8.
Definition ICMP_TTL : Z := 255.
Definition ICMP_DUR_PROTO : Z := 2.
Definition ICMP_DEST_UNREACH_DATASIZE : Z := 8.
Definition SIZEOF_ICMP_ECHO_HDR : Z := 8.
Definition PBUF_LINK_HLEN : Z := 14.

Definition IPH_V (hdr : list Z) : Z := Z.shiftr (hdr !!! 0%nat) 4.
Definition IPH_HL_BYTES (hdr : list Z) : Z := Z.land (hdr !!! 0%nat) 15 * 4.
Definition IPH_LEN (hdr : list Z) : Z := get16 hdr 2.
Definition IPH_OFFSET (hdr : list Z) : Z := get16 hdr 6.
Definition IPH_PROTO (hdr : list Z) : Z := hdr !!! 9%nat.
Definition iph_src (hdr : list Z) : Z := get32 hdr 12.
Definition iph_dest (hdr : list Z) : Z := get32 hdr 16.
Definition ip4_addr_isloopback (a : Z) : bool := Z.land a (lwip_htonl 4278190080) =? lwip_htonl 2130706432.
Definition netif_is_up (ni : netif) : bool := negb (Z.land (nflags (inet ni)) NETIF_FLAG_UP =? 0).
Definition netif_is_link_up (ni : netif) : bool := negb (Z.land (nflags (inet ni)) NETIF_FLAG_LINK_UP =? 0).

Record ip_globals := mkIpGlobals {
  current_netif : Z;
  current_input_netif : Z;
  current_ip4_header : Z;
  current_ip_header_tot_len : Z;
  current_iphdr_src : Z;
  current_iphdr_dest : Z
}.
(** The globals [ip_data] and [ip_id], the list of interfaces in its order, the
    default interface, which checksums each interface computes, and the device. *)
Record ip_state (D : Type) := mkIpState {
  ip_data : ip_globals;
  ip_id : Z;
  netif_list : list Z;
  netif_default : Z;
  chksum_flags : Z -> Z;
  idev : D
}.
Arguments mkIpState {D}.
Arguments ip_data {D} _.
Arguments ip_id {D} _.
Arguments netif_list {D} _.
Arguments netif_default {D} _.
Arguments chksum_flags {D} _ _.
Arguments idev {D} _.

Section Device.
Context {D : Type}.
Definition set_ip_data (v : ip_globals) (s : ip_state D) : ip_state D := mkIpState v (ip_id s) (netif_list s) (netif_default s) (chksum_flags s) (idev s).
Definition set_ip_id (v : Z) (s : ip_state D) : ip_state D := mkIpState (ip_data s) v (netif_list s) (netif_default s) (chksum_flags s) (idev s).
Definition set_idev (v : D) (s : ip_state D) : ip_state D := mkIpState (ip_data s) (ip_id s) (netif_list s) (netif_default s) (chksum_flags s) v.
End Device.
(** The device still sends the frames. *)
#[export] Instance ip_link {D} `{Link D} : Link (ip_state D) := { linkoutput n segs := zoom idev set_idev (linkoutput n segs) }.

(** UDP and TCP take the packets for them. *)
Class Transport (A D : Type) := {
  udp_input : Z -> Z -> M (arp A (ip_state D)) unit;
  tcp_input : Z -> Z -> M (arp A (ip_state D)) unit
}.

Section Ip4.
Context {A D : Type} `{PbufAlloc A} `{Link D}.
Abbreviation Ip := (arp A (ip_state D)).

Definition on_ip {X} (m : M (ip_state D) X) : M Ip X := on_net (zoom dev set_dev m).
Definition ip_get {X} (f : ip_state D -> X) : M Ip X := on_ip (gets f).
Definition set_src_dest (src dest : Z) (g : ip_globals) : ip_globals :=
  mkIpGlobals (current_netif g) (current_input_netif g) (current_ip4_header g) (current_ip_header_tot_len g) src dest.
Definition set_current (n inp hdr hlen : Z) (g : ip_globals) : ip_globals :=
  mkIpGlobals n inp hdr hlen (current_iphdr_src g) (current_iphdr_dest g).
Definition upd_ip_data (f : ip_globals -> ip_globals) : M Ip unit := on_ip (modify (fun d => set_ip_data (f (ip_data d)) d)).
(** [IF__NETIF_CHECKSUM_ENABLED] *)
Definition checksum_enabled (n flag : Z) : M Ip bool :=
  d ← ip_get id; mret ((n =? 0) || negb (Z.land (chksum_flags d n) flag =? 0)).

(** ** Routing *)

Fixpoint route_loop (ns : list Z) (dest : Z) : M Ip Z :=
  match ns with
  | [] => mret 0
  | n :: ns =>
      ni ← on_net (netif_at n);
      if netif_is_up ni && netif_is_link_up ni && negb (ip4_addr_isany (ip_addr (inet ni))) then
        if ip4_addr_netcmp dest (ip_addr (inet ni)) (netmask (inet ni)) then mret n
        else if (Z.land (nflags (inet ni)) NETIF_FLAG_BROADCAST =? 0) && (dest =? gw ni) then mret n
        else route_loop ns dest
      else route_loop ns dest
  end.
Definition ip4_route (dest : Z) : M Ip Z :=
  ns ← ip_get netif_list;
  n ← route_loop ns dest;
  if negb (n =? 0) then mret n
  else
    d ← ip_get netif_default;
    if d =? 0 then mret 0
    else
      ni ← on_net (netif_at d);
      if negb (netif_is_up ni) || negb (netif_is_link_up ni) || ip4_addr_isany (ip_addr (inet ni)) || ip4_addr_isloopback dest
      then mret 0 else mret d.

(** ** Output *)

(** [src] is 0 for a null pointer too; [dest] is [None] for [LWIP_IP_HDRINCL]. *)
Definition ip4_output_if_src (p src : Z) (dest : option Z) (ttl tos proto n : Z) : M Ip Z :=
  b ← on_pbuf (rd p);
  assert_ (ref b =? 1);;
  match dest with
  | Some dest =>
      failed ← on_pbuf (pbuf_add_header p IP_HLEN);
      if nz failed then mret ERR_BUF
      else
        b ← on_pbuf (rd p);
        let iphdr := payload b in
        assert_ (IP_HLEN <=? len b);;
        id ← ip_get ip_id;
        on_pbuf (write_fields iphdr [(8, [u8 ttl]); (9, [u8 proto]); (16, le32 dest); (0, [u8 (Z.lor (Z.shiftl 4 4) (IP_HLEN / 4))]); (1, [tos]);
          (2, le16 (lwip_htons (tot_len b))); (6, le16 0); (4, le16 (lwip_htons id))]);;
        on_ip (modify (fun d => set_ip_id (u16 (ip_id d + 1)) d));;
        on_pbuf (write_fields iphdr [(12, le32 src); (10, le16 0)]);;
        gen ← checksum_enabled n NETIF_CHECKSUM_GEN_IP;
        (if gen : bool then
           hdr ← on_pbuf (LOAD iphdr (Z.to_nat IP_HLEN));
           on_pbuf (STORE (iphdr + 10) (le16 (inet_chksum iphdr hdr)))
         else mret tt);;
        etharp_output n p dest
  | None =>
      if len b <? IP_HLEN then mret ERR_BUF
      else dest ← on_pbuf (LOAD (payload b + 16) 4); etharp_output n p (get32 dest 0)
  end.
Definition ip4_output_if (p src : Z) (dest : option Z) (ttl tos proto n : Z) : M Ip Z :=
  match dest with
  | Some _ =>
      if ip4_addr_isany src then
        ni ← on_net (netif_at n);
        ip4_output_if_src p (ip_addr (inet ni)) dest ttl tos proto n
      else ip4_output_if_src p src dest ttl tos proto n
  | None => ip4_output_if_src p src dest ttl tos proto n
  end.
Definition ip4_output (p src dest ttl tos proto : Z) : M Ip Z :=
  b ← on_pbuf (rd p);
  assert_ (ref b =? 1);;
  n ← ip4_route dest;
  if n =? 0 then mret ERR_RTE else ip4_output_if p src (Some dest) ttl tos proto n.

(** ** ICMP *)

Definition icmp_send_response (p type code : Z) : M Ip unit :=
  b ← on_pbuf (rd p);
  let response_pkt_len := if tot_len b <? IP_HLEN + ICMP_DEST_UNREACH_DATASIZE then tot_len b else IP_HLEN + ICMP_DEST_UNREACH_DATASIZE in
  q ← on_pbuf (pbuf_alloc PBUF_IP (SIZEOF_ICMP_ECHO_HDR + response_pkt_len) PBUF_RAM);
  if q =? 0 then mret tt
  else
    bq ← on_pbuf (rd q);
    assert_ (SIZEOF_ICMP_ECHO_HDR + response_pkt_len <=? len bq);;
    let icmphdr := payload bq in
    on_pbuf (write_fields icmphdr [(0, [type]); (1, [code]); (4, le16 0); (6, le16 0)]);;
    on_pbuf (MEMCPY (icmphdr + SIZEOF_ICMP_ECHO_HDR) (payload b) response_pkt_len);;
    src ← on_pbuf (LOAD (payload b + 12) 4);
    let iphdr_src := get32 src 0 in
    n ← ip4_route iphdr_src;
    (if negb (n =? 0) then
       on_pbuf (STORE (icmphdr + 2) (le16 0));;
       gen ← checksum_enabled n NETIF_CHECKSUM_GEN_ICMP;
       (if gen : bool then
          bs ← on_pbuf (LOAD icmphdr (Z.to_nat (len bq)));
          on_pbuf (STORE (icmphdr + 2) (le16 (inet_chksum icmphdr bs)))
        else mret tt);;
       ip4_output_if q 0 (Some iphdr_src) ICMP_TTL 0 IP_PROTO_ICMP n;;
       mret tt
     else mret tt);;
    on_pbuf (pbuf_free q);;
    mret tt.
Definition icmp_dest_unreach (p t : Z) : M Ip unit := icmp_send_response p ICMP_DUR t.

(** The payloads of a chain, as [inet_chksum_pbuf] walks over them. *)
Fixpoint segments (fuel : nat) (p : Z) : M (pst A) (list (Z * list Z)) :=
  match fuel with
  | O => stop_ NoFuel
  | S fuel =>
      if p =? 0 then mret []
      else
        b ← rd p;
        bs ← LOAD (payload b) (Z.to_nat (len b));
        r ← segments fuel (next b);
        mret ((payload b, bs) :: r)
  end.
Definition chain_checksum (p : Z) : M (pst A) Z := n ← chain_fuel; segs ← segments n p; mret (inet_chksum_pbuf segs).

(** A copy with room for the headers in front: the packet to go on with, or none. *)
Definition echo_copy (p hlen iphdr_in : Z) : M (pst A) (option Z) :=
  b ← rd p;
  let alloc_len := u16 (tot_len b + hlen) in
  if alloc_len <? tot_len b then mret None
  else
    r ← pbuf_alloc PBUF_LINK alloc_len PBUF_RAM;
    if r =? 0 then mret None
    else
      br ← rd r;
      if len br <? hlen + SIZEOF_ICMP_ECHO_HDR then pbuf_free r;; mret None
      else
        MEMCPY (payload br) iphdr_in hlen;;
        err ← pbuf_remove_header r hlen;
        if nz err then stop_ Asserted
        else
          err ← pbuf_copy r p;
          if negb (err =? ERR_OK) then pbuf_free r;; mret None
          else pbuf_free p;; mret (Some r).
Definition echo_room (p hlen iphdr_in : Z) : M (pst A) (option Z) :=
  failed ← pbuf_add_header p (hlen + PBUF_LINK_HLEN);
  if nz failed then echo_copy p hlen iphdr_in
  else
    err ← pbuf_remove_header p (hlen + PBUF_LINK_HLEN);
    if nz err then stop_ Asserted else mret (Some p).

(** The checksum of an echo message whose type goes from 8 to 0. *)
Definition adjusted (chksum : Z) : Z :=
  if lwip_htons (65535 - ICMP_ECHO * 256) <? chksum then u16 (chksum + lwip_htons (ICMP_ECHO * 256) + 1)
  else u16 (chksum + lwip_htons (ICMP_ECHO * 256)).

Definition echo_reply (p hlen src inp : Z) : M Ip unit :=
  b ← on_pbuf (rd p);
  let iecho := payload b in
  failed ← on_pbuf (pbuf_add_header p hlen);
  if nz failed then mret tt
  else
    b ← on_pbuf (rd p);
    let iphdr := payload b in
    g ← ip_get ip_data;
    on_pbuf (write_fields iphdr [(12, le32 src); (16, le32 (current_iphdr_src g))]);;
    on_pbuf (STORE iecho [ICMP_ER]);;
    gen ← checksum_enabled inp NETIF_CHECKSUM_GEN_ICMP;
    (if gen : bool then
       c ← on_pbuf (LOAD (iecho + 2) 2);
       on_pbuf (STORE (iecho + 2) (le16 (adjusted (get16 c 0))))
     else on_pbuf (STORE (iecho + 2) (le16 0)));;
    on_pbuf (write_fields iphdr [(8, [ICMP_TTL]); (10, le16 0)]);;
    gen ← checksum_enabled inp NETIF_CHECKSUM_GEN_IP;
    (if gen : bool then
       hdr ← on_pbuf (LOAD iphdr (Z.to_nat hlen));
       on_pbuf (STORE (iphdr + 10) (le16 (inet_chksum iphdr hdr)))
     else mret tt);;
    ip4_output_if p src None ICMP_TTL 0 IP_PROTO_ICMP inp;;
    mret tt.

(** The packet that is left to be freed. *)
Definition icmp_echo (p hlen inp : Z) : M Ip Z :=
  g ← ip_get ip_data;
  let src := current_iphdr_dest g in
  if ip4_addr_ismulticast src then mret p
  else
    ni ← on_net (netif_at (current_netif g));
    if ip4_addr_isbroadcast_u32 src (inet ni) then mret p
    else
      b ← on_pbuf (rd p);
      if tot_len b <? SIZEOF_ICMP_ECHO_HDR then mret p
      else
        check ← checksum_enabled inp NETIF_CHECKSUM_CHECK_ICMP;
        sum ← (if check : bool then on_pbuf (chain_checksum p) else mret 0);
        if nz sum then mret p
        else
          r ← on_pbuf (echo_room p hlen (current_ip4_header g));
          match r with
          | None => mret p
          | Some p => echo_reply p hlen src inp;; mret p
          end.
Definition icmp_input (p inp : Z) : M Ip unit :=
  g ← ip_get ip_data;
  hdr ← on_pbuf (LOAD (current_ip4_header g) 1);
  let hlen := IPH_HL_BYTES hdr in
  b ← on_pbuf (rd p);
  p ← (if (hlen <? IP_HLEN) || (len b <? 4) then mret p
       else
         type ← on_pbuf (LOAD (payload b) 2);
         if type !!! 0%nat =? ICMP_ECHO then icmp_echo p hlen inp else mret p);
  on_pbuf (pbuf_free p);;
  mret tt.

(** ** Input *)

Definition ip4_input_accept (n : Z) : M Ip bool :=
  ni ← on_net (netif_at n);
  g ← ip_get ip_data;
  mret (netif_is_up ni && negb (ip4_addr_isany (ip_addr (inet ni)))
        && ((current_iphdr_dest g =? ip_addr (inet ni)) || ip4_addr_isbroadcast_u32 (current_iphdr_dest g) (inet ni))).
Fixpoint accept_loop (ns : list Z) (inp : Z) : M Ip Z :=
  match ns with
  | [] => mret 0
  | n :: ns => if n =? inp then accept_loop ns inp else ok ← ip4_input_accept n; if ok : bool then mret n else accept_loop ns inp
  end.
(** The interface the packet is for, 0 if there is none. *)
Definition input_netif (inp : Z) : M Ip Z :=
  g ← ip_get ip_data;
  let dest := current_iphdr_dest g in
  if ip4_addr_ismulticast dest then
    ni ← on_net (netif_at inp);
    mret (if netif_is_up ni && negb (ip4_addr_isany (ip_addr (inet ni))) then inp else 0)
  else
    ok ← ip4_input_accept inp;
    if ok : bool then mret inp
    else if negb (ip4_addr_isloopback dest) then ns ← ip_get netif_list; accept_loop ns inp
    else mret 0.
(** DHCP messages pass whatever their address: the interface, and whether the source is checked. *)
Definition dhcp_pass (n inp iphdr hlen proto : Z) : M Ip (Z * bool) :=
  if (n =? 0) && (proto =? IP_PROTO_UDP) then
    port ← on_pbuf (LOAD (iphdr + hlen + 2) 2);
    if get16 port 0 =? lwip_htons LWIP_IANA_PORT_DHCP_CLIENT then mret (inp, false) else mret (n, true)
  else mret (n, true).
Definition bad_source (inp : Z) (check : bool) : M Ip bool :=
  g ← ip_get ip_data;
  let src := current_iphdr_src g in
  if check && negb (ip4_addr_isany src) then
    ni ← on_net (netif_at inp);
    mret (ip4_addr_isbroadcast_u32 src (inet ni) || ip4_addr_ismulticast src)
  else mret false.

Definition discard (p : Z) : M Ip unit := on_pbuf (pbuf_free p);; mret tt.

Context `{!Transport A D}.

Definition unknown_protocol (p n hlen : Z) : M Ip unit :=
  g ← ip_get ip_data;
  ni ← on_net (netif_at n);
  (if negb (ip4_addr_isbroadcast_u32 (current_iphdr_dest g) (inet ni)) && negb (ip4_addr_ismulticast (current_iphdr_dest g)) then
     on_pbuf (pbuf_header_force p hlen);;
     icmp_dest_unreach p ICMP_DUR_PROTO
   else mret tt);;
  discard p.
(** The switch over the protocol. *)
Definition protocol_input (p n inp hlen proto : Z) : M Ip unit :=
  if proto =? IP_PROTO_UDP then udp_input p inp
  else if proto =? IP_PROTO_TCP then tcp_input p inp
  else if proto =? IP_PROTO_ICMP then icmp_input p inp
  else unknown_protocol p n hlen.
Definition deliver (p n inp iphdr hlen proto : Z) : M Ip unit :=
  upd_ip_data (set_current n inp iphdr hlen);;
  on_pbuf (pbuf_remove_header p hlen);;
  protocol_input p n inp hlen proto;;
  upd_ip_data (fun _ => mkIpGlobals 0 0 0 0 0 0).
(** The header has been checked. *)
Definition ip4_dispatch (p inp iphdr hlen : Z) (hdr : list Z) : M Ip unit :=
  upd_ip_data (set_src_dest (iph_src hdr) (iph_dest hdr));;
  n ← input_netif inp;
  '(n, check) ← dhcp_pass n inp iphdr hlen (IPH_PROTO hdr);
  bad ← bad_source inp check;
  if bad : bool then discard p
  else if n =? 0 then discard p
  else if negb (Z.land (IPH_OFFSET hdr) (lwip_htons (Z.lor IP_OFFMASK IP_MF)) =? 0) then discard p
  else deliver p n inp iphdr hlen (IPH_PROTO hdr).
Definition ip4_input (p inp : Z) : M Ip unit :=
  b ← on_pbuf (rd p);
  let iphdr := payload b in
  v ← on_pbuf (LOAD iphdr 1);
  if negb (IPH_V v =? 4) then discard p
  else
    hdr ← on_pbuf (LOAD iphdr 4);
    let iphdr_hlen := IPH_HL_BYTES hdr in
    let iphdr_len := lwip_htons (IPH_LEN hdr) in
    (if iphdr_len <? tot_len b then on_pbuf (pbuf_realloc p iphdr_len) else mret tt);;
    b ← on_pbuf (rd p);
    if (len b <? iphdr_hlen) || (tot_len b <? iphdr_len) || (iphdr_hlen <? IP_HLEN) then discard p
    else
      check ← checksum_enabled inp NETIF_CHECKSUM_CHECK_IP;
      sum ← (if check : bool then bs ← on_pbuf (LOAD iphdr (Z.to_nat iphdr_hlen)); mret (inet_chksum iphdr bs) else mret 0);
      if nz sum then discard p
      else
        hdr ← on_pbuf (LOAD iphdr 20);
        ip4_dispatch p inp iphdr iphdr_hlen hdr.
End Ip4.
