(* ===== verification/PacketsIp.v ===== *)
(** What the IPv4 layer does with a packet in memory: it trims the packet, moves
    its header in and out of view and writes into the header. *)
From S2P Require Import Prelude CMem Memp Pbuf IpAddr Packets Ethernet Etharp EtharpInv Checksum Ip4.

Section Trim.
Context {A : Type} `{PbufHeap A}.
Abbreviation St := (pst A).

(** ** [pbuf_realloc] *)

Lemma chain_suffix m p l1 a b l2 : chain m p (l1 ++ (a, b) :: l2) -> chain m (next b) l2.
Proof.
  revert p. induction l1 as [|[c d] l1 IH]; intros p; cbn [app chain]; [by intros (_ & _ & _ & ?)|]. intros (_ & _ & _ & Hq). by eapply IH.
Qed.

Lemma realloc_loop_run fuel p (s : St) l rem : chain (pbufs s) p l -> packet l -> 0 <= rem < total l -> (length l < fuel)%nat ->
  exists l1 a b l2 m', l = l1 ++ (a, b) :: l2 /\ 0 <= rem - total l1 <= len b /\ (l1 <> [] -> 0 < rem - total l1) /\
    realloc_loop fuel p rem (total l - rem) s = Done ((a, rem - total l1), set_pbufs m' s) /\
    chain m' p (bump (rem - total l) l1 ++ (a, b) :: l2) /\ (forall y, ~ (y ∈ l1.*1) -> m' !! y = pbufs s !! y).
Proof.
  revert p s rem fuel. induction l as [|[a b] l IH]; intros p s rem fuel Hc Hpk Hrem Hf; [cbn in Hrem; lia|].
  destruct fuel as [|fuel]; [cbn in Hf; lia|]. pose proof (chain_nodup _ _ _ Hc) as Hnd.
  pose proof Hc as (-> & Ha & Hm & Hc'). destruct (packet_head _ _ _ Hpk) as (Ht & Hl & Htl & Hpos & Hpk'). unfold is_u16 in *.
  rewrite total_cons in *. cbn [snd] in *. cbn [realloc_loop]. erewrite bind_done by (by apply rd_run).
  destruct (Z.ltb_spec (len b) rem) as [Hlt|Hge].
  - erewrite bind_done by (by apply wr_run). rewrite !u16_small by (unfold is_u16; lia). set (b' := set_tot_len _ b). set (s1 := set_pbufs _ s).
    assert (Hnx : next b <> 0). { destruct l as [|[c d] l]; [cbn in Hrem; lia|]. by destruct Hc' as (-> & ? & _). }
    erewrite bind_done by (unfold assert_; by rewrite (proj2 (Z.eqb_neq _ _) Hnx)).
    cbn in Hnd. apply NoDup_cons in Hnd as [Hx Hnd].
    destruct (IH (next b) s1 (rem - len b) fuel) as (l1 & a2 & b2 & l2 & m' & -> & Hr & Hr0 & Hrun & Hch & Hfr); [by apply chain_insert|done|lia|cbn in Hf; lia|].
    exists ((a, b) :: l1), a2, b2, l2, m'. rewrite total_cons. cbn [snd]. split; [done|]. split; [lia|]. split.
    { intros _. destruct l1; [cbn; lia|]. specialize (Hr0 ltac:(done)). lia. }
    replace (total (l1 ++ (a2, b2) :: l2) - (rem - len b)) with (len b + total (l1 ++ (a2, b2) :: l2) - rem) in Hrun by lia.
    split; [rewrite Hrun; do 3 f_equal; lia|]. replace (rem - len b - total (l1 ++ (a2, b2) :: l2)) with (rem - (len b + total (l1 ++ (a2, b2) :: l2))) in Hch by lia.
    split.
    + assert (Hout : ~ (a ∈ l1.*1)) by (intros Hin; apply Hx; rewrite fmap_app; apply elem_of_app; by left).
      cbn [bump map app chain fst snd]. split; [done|]. split; [done|]. split; [|exact Hch].
      rewrite (Hfr a Hout). cbn. rewrite lookup_insert_eq. f_equal. unfold b'. f_equal. lia.
    + intros y Hy. cbn in Hy. apply not_elem_of_cons in Hy as [Hy1 Hy2]. rewrite Hfr by done. cbn. by rewrite lookup_insert_ne.
  - exists [], a, b, l, (pbufs s). cbn [app bump map total foldr]. rewrite Z.sub_0_r. split; [done|]. split; [lia|]. split; [done|].
    split; [by destruct s|]. by split.
Qed.

(** The packet that is left. *)
Definition last_of (n : Z) (b : pbuf) : pbuf := set_next 0 (set_lens n n b).

Lemma trim_run p (s : St) l n : chain (pbufs s) p l -> packet l -> Forall pool_pbuf l -> Forall pbuf_ok l -> 0 <= n < total l ->
  exists l1 a b l2 m', l = l1 ++ (a, b) :: l2 /\ 0 <= n - total l1 <= len b /\ (l1 <> [] -> 0 < n - total l1) /\
    pbuf_realloc p n s = Done (tt, mkPst m' (pmem s) (foldl (fun a x => give_back x a) (palloc s) l2) (pbuf_free_ooseq_pending s)) /\
    chain m' p (bump (n - total l) l1 ++ [(a, last_of (n - total l1) b)]) /\ (forall y, ~ (y ∈ l.*1) -> m' !! y = pbufs s !! y).
Proof.
  intros Hc Hpk Hpool Hok Hn.
  destruct (realloc_loop_run (S (base.size (pbufs s))) p s l n Hc Hpk Hn) as (l1 & a & b & l2 & m1 & El & Hr & Hr0 & Hrun & Hch & Hfr).
  { pose proof (chain_size _ _ _ Hc). lia. }
  exists l1, a, b, l2. set (r := n - total l1) in *. pose proof (chain_nodup _ _ _ Hch) as Hnd.
  destruct l as [|[p' b0] l0]; [cbn in Hn; lia|]. pose proof Hc as (-> & Hp & Hb0 & _).
  assert (Htot : tot_len b0 = total ((p', b0) :: l0)) by (destruct Hpk as (_ & _ & E & _); exact E).
  assert (Ht16 : is_u16 (tot_len b0)) by apply Hpk. unfold is_u16 in Ht16.
  assert (Hab : m1 !! a = Some b) by (eapply chain_lookup; [exact Hch|apply elem_of_app; right; left]).
  assert (Hpab : pool_pbuf (a, b)) by (rewrite El in Hpool; apply Forall_app in Hpool as [_ [? _]%Forall_cons]; done).
  rewrite El in Hpool, Hok. apply Forall_app in Hpool as [_ [_ Hpool]%Forall_cons]. apply Forall_app in Hok as [_ [_ Hok]%Forall_cons].
  assert (Hcl2 : chain m1 (next b) l2).
  { by eapply chain_suffix. }
  rewrite fmap_app, bump_addrs in Hnd. cbn in Hnd. apply NoDup_app in Hnd as (Hnd1 & Hnd12 & Hnd2). apply NoDup_cons in Hnd2 as [Ha2 Hnd2].
  set (m2 := <[a := set_lens r r b]> m1).
  assert (Hcl2' : chain m2 (next b) l2) by (by apply chain_insert).
  set (m3 := without l2 m2). set (m4 := <[a := last_of r b]> m3). exists m4. split; [done|]. split; [done|]. split; [done|].
  assert (Ha3 : m3 !! a = Some (set_lens r r b)).
  { unfold m3. rewrite lookup_without, bool_decide_eq_false_2 by done. apply lookup_insert_eq. }
  set (al := foldl (fun a x => give_back x a) (palloc s) l2).
  assert (Hfree : (if negb (next b =? 0) then pbuf_free (next b);; mret tt else mret tt) (set_pbufs m2 s) =
    Done (tt, mkPst m3 (pmem s) al (pbuf_free_ooseq_pending s))).
  { destruct (Z.eqb_spec (next b) 0) as [E|N]; cbn [negb].
    - destruct l2 as [|[c d] l2]; [done|]. destruct Hcl2 as (E2 & ? & _). congruence.
    - erewrite bind_done; [|by apply (pbuf_free_run _ _ l2)]. rewrite (unshared_all l2 Hpool).
      rewrite take_ge, drop_ge by done. done. }
  split.
  - unfold pbuf_realloc, chain_fuel. rewrite (proj2 (Z.eqb_neq p' 0) Hp). erewrite bind_done by reflexivity.
    erewrite bind_done by (by apply rd_run). rewrite (proj2 (Z.leb_gt (tot_len b0) n)) by lia. erewrite bind_done by reflexivity.
    rewrite Htot, u16_small by (unfold is_u16; lia). erewrite bind_done by exact Hrun. cbv beta iota.
    erewrite bind_done by (by apply rd_run). fold (alloc_src b). rewrite (proj2 Hpab : alloc_src b = _). cbn [Z.eqb andb].
    erewrite bind_done by reflexivity. erewrite bind_done by (by apply wr_run). cbn [pbufs set_pbufs]. fold m2.
    erewrite bind_done by (apply rd_run; apply lookup_insert_eq). change (next (set_lens r r b)) with (next b).
    erewrite bind_done by exact Hfree. erewrite wr_run by exact Ha3. done.
  - assert (Hout : forall y, y ∈ l1.*1 -> ~ (y ∈ l2.*1) /\ y <> a).
    { intros y Hy. specialize (Hnd12 y Hy). apply not_elem_of_cons in Hnd12 as [? ?]. by split. }
    split.
    + eapply (chain_relink m1 p' (bump (n - total ((p', b0) :: l0)) l1) a b l2 (last_of r b) []); [exact Hch|apply lookup_insert_eq|done|].
      intros y Hy. rewrite bump_addrs in Hy. destruct (Hout y Hy). unfold m4. rewrite lookup_insert_ne by done.
      unfold m3. rewrite lookup_without, bool_decide_eq_false_2 by done. unfold m2. by rewrite lookup_insert_ne.
    + intros y Hy. rewrite El, fmap_app in Hy. apply not_elem_of_app in Hy as [Hy1 Hy2]. cbn in Hy2. apply not_elem_of_cons in Hy2 as [Hya Hy2].
      unfold m4. rewrite lookup_insert_ne by done. unfold m3. rewrite lookup_without, bool_decide_eq_false_2 by done.
      unfold m2. rewrite lookup_insert_ne by done. by apply Hfr.
Qed.

Lemma one_before l a b : packet (l ++ [(a, b)]) -> (l <> [] -> 0 < len b) -> next b = 0 -> one_packet (l ++ [(a, b)]).
Proof.
  intros Hpk Hl Hn. apply Forall_app. split; [|constructor; [by right|constructor]]. destruct l as [|x l]; [constructor|].
  specialize (Hl ltac:(done)). revert Hpk. generalize (x :: l). clear x l. intros l. induction l as [|x l IH]; intros Hpk; [constructor|].
  destruct Hpk as (H1 & H2 & H3 & H4). constructor; [|by apply IH]. left. cbn [app] in H3. rewrite H3, total_cons, total_app, total_single.
  pose proof (packet_lens _ H4) as Hlen. apply Forall_app in Hlen as [Hlen _]. pose proof (total_pos _ Hlen). cbn [snd] in *. lia.
Qed.

Lemma total_suffix l1 a b l2 : packet (l1 ++ (a, b) :: l2) -> 0 <= total l1 /\ 0 <= len b /\ 0 <= total l2.
Proof.
  intros Hpk%packet_lens. apply Forall_app in Hpk as [H1 [H2 H3]%Forall_cons]. unfold is_u16 in H2. cbn [snd] in H2.
  pose proof (total_pos _ H1). pose proof (total_pos _ H3). lia.
Qed.

Lemma load_front m a n k bs : load_bytes m a n = Some bs -> (k <= n)%nat -> load_bytes m a k = Some (take k bs).
Proof. intros Hl Hk. by apply (load_bytes_take _ _ n). Qed.

Lemma trim_contents m l1 a b l2 r c d : contents m (l1 ++ (a, b) :: l2) = Some c -> lens_ok (l1 ++ (a, b) :: l2) -> 0 <= r <= len b ->
  contents m (bump d l1 ++ [(a, last_of r b)]) = Some (take (Z.to_nat (total l1 + r)) c).
Proof.
  intros (c1 & c2 & -> & H1 & H2)%contents_app_inv Hl Hr. apply Forall_app in Hl as [Hl1 _].
  pose proof (contents_total _ _ _ Hl1 H1) as E1. apply contents_cons in H2 as (d1 & d2 & -> & Hd1 & _ & Hdl). cbn [snd] in *.
  rewrite (contents_app m _ [(a, last_of r b)] c1 (take (Z.to_nat r) d1)); [|by rewrite bump_contents|].
  - pose proof (total_pos _ Hl1). f_equal. rewrite Z2Nat.inj_add, <- E1, Nat2Z.id by lia. rewrite take_app_add. f_equal. rewrite take_app_le by lia. done.
  - apply contents_single. cbn [payload len last_of set_next set_lens]. apply (load_front _ _ (Z.to_nat (len b))); [exact Hd1|lia].
Qed.

Lemma placed_trimmed m B a b r : placed m B (a, b) -> 0 <= r <= len b -> placed m B (a, last_of r b).
Proof.
  intros (n & HB & Hpos) Hr. exists n. split; [exact HB|]. cbn [fst snd payload len last_of set_next set_lens] in *.
  change (contiguous (last_of r b)) with (contiguous b). destruct (contiguous b); [lia|].
  destruct Hpos as [Hm Hout]. split; [eapply mapped_sub; [exact Hm|lia|lia]|lia].
Qed.

Lemma realloc_held s P U p b tl n : holds s P U -> P !! p = Some ((p, b) :: tl) -> Forall pool_pbuf ((p, b) :: tl) -> 0 <= n < tot_len b ->
  exists b' tl' s', pbuf_realloc p n s = Done (tt, s') /\ pmem s' = pmem s /\ holds s' (<[p := (p, b') :: tl']> P) U /\
    Forall pool_pbuf ((p, b') :: tl') /\ payload b' = payload b /\ type_internal b' = type_internal b /\ tot_len b' = n /\ len b' = Z.min (len b) n /\
    forall c, contents (pmem s) ((p, b) :: tl) = Some c -> contents (pmem s) ((p, b') :: tl') = Some (take (Z.to_nat n) c).
Proof.
  intros [B Ho] Hp Hpool Hn. pose proof (own_packets _ _ _ _ Ho _ _ Hp) as Hpk. destruct Hpk as [Hc _ Hlens H1 Hok Hpl]. set (L := (p, b) :: tl) in *.
  assert (Et : tot_len b = total L) by apply Hlens. rewrite Et in Hn.
  destruct (trim_run p s L n Hc Hlens Hpool Hok Hn) as (l1 & a & ba & l2 & m' & EL & Hr & Hr0 & Hrun & Hch & Hfr). set (r := n - total l1) in *.
  set (L' := bump (n - total L) l1 ++ [(a, last_of r ba)]) in *. pose proof Hlens as Hlens2. rewrite EL in Hlens2.
  destruct (total_suffix _ _ _ _ Hlens2) as (Hp1 & Hp2 & Hp3).
  assert (Hrn : r <= n) by (unfold r; lia).
  assert (Etot : total L' = n). { unfold L'. rewrite total_app, bump_total, total_single. cbn. unfold r. lia. }
  assert (Hsub : forall x, x ∈ L'.*1 -> x ∈ L.*1).
  { intros x. unfold L'. rewrite EL, !fmap_app, bump_addrs, !elem_of_app. cbn. rewrite !elem_of_cons. intros [?|[?|?%elem_of_nil]]; tauto. }
  assert (Hpk' : packet L').
  { unfold L'. replace (n - total L) with (total [(a, last_of r ba)] - total ((a, ba) :: l2)) by (rewrite EL, total_app, total_single; cbn; unfold r; lia).
    assert (Hu16 : is_u16 (tot_len b)) by apply Hlens. unfold is_u16 in *.
    apply packet_bump; [done| |rewrite total_app, total_single; cbn; unfold r; lia].
    split; [unfold is_u16; cbn; lia|]. split; [unfold is_u16; cbn; lia|]. split; [by rewrite total_single|done]. }
  assert (HokL : Forall pbuf_ok L' /\ Forall pool_pbuf L' /\ Forall (placed (pmem s) B) L').
  { unfold L'. rewrite EL in Hok, Hpool, Hpl. apply Forall_app in Hok as [Hok1 [Hok2 _]%Forall_cons]. apply Forall_app in Hpool as [Hpo1 [Hpo2 _]%Forall_cons].
    apply Forall_app in Hpl as [Hpl1 [Hpl2 _]%Forall_cons].
    assert (Hb : forall (R : Z * pbuf -> Prop) d, (forall x, R x -> R (x.1, set_tot_len (tot_len x.2 + d) x.2)) -> Forall R l1 -> Forall R (bump d l1)).
    { intros R d HR HF. apply Forall_map. eapply Forall_impl; [exact HF|exact HR]. }
    split; [|split]; apply Forall_app; (split; [apply Hb; done|constructor; [|constructor]]); try done.
    apply placed_trimmed; [exact Hpl2|lia]. }
  destruct HokL as (HokL & HpoolL & HplL).
  destruct (give_back_list (palloc s) B U (pmem s) l2 (own_heap _ _ _ _ Ho)) as (B' & HB' & HBf).
  { pose proof (chain_nodup _ _ _ Hc) as Hnd. rewrite EL, fmap_app in Hnd. apply NoDup_app in Hnd as (_ & _ & Hnd). by apply NoDup_cons in Hnd as [_ ?]. }
  { rewrite EL in Hok. by apply Forall_app in Hok as [_ [_ ?]%Forall_cons]. } { rewrite EL in Hpl. by apply Forall_app in Hpl as [_ [_ ?]%Forall_cons]. }
  assert (Hl2 : forall y, y ∈ L'.*1 -> ~ (y ∈ l2.*1)).
  { intros y Hy Hy2. pose proof (chain_nodup _ _ _ Hc) as Hnd. rewrite EL, fmap_app in Hnd. apply NoDup_app in Hnd as (_ & Hnd & Hnd2). cbn in Hnd2.
    apply NoDup_cons in Hnd2 as [Ha _]. unfold L' in Hy. rewrite fmap_app, bump_addrs in Hy. apply elem_of_app in Hy as [Hy|Hy].
    - apply (Hnd y Hy). cbn. by right.
    - apply list_elem_of_singleton in Hy as ->. done. }
  assert (EL' : exists b' tl', L' = (p, b') :: tl' /\ payload b' = payload b /\ type_internal b' = type_internal b /\ len b' = Z.min (len b) n).
  { unfold L', L in *. destruct l1 as [|[q bq] l1]; cbn [app] in EL; injection EL as <- <- El.
    - exists (last_of r b), []. split; [done|]. unfold r in *. cbn in *. split; [done|]. split; [done|]. lia.
    - eexists (set_tot_len _ b), _. split; [reflexivity|]. split; [done|]. split; [done|]. cbn. specialize (Hr0 ltac:(done)).
      unfold r in Hr0. rewrite total_cons in *. cbn [snd] in *. assert (0 <= total l1); [|lia]. apply packet_lens in Hlens2.
      apply Forall_app in Hlens2 as [[_ Hl1]%Forall_cons _]. by apply total_pos. }
  destruct EL' as (b' & tl' & EL' & E1 & E2 & E3). exists b', tl'. eexists. split; [exact Hrun|]. split; [done|]. rewrite <- EL'. split.
  - exists B'. constructor; cbn [palloc pmem pbufs]; [done|apply (own_arena _ _ _ _ Ho)| |].
    + intros q l [[<- <-]|[Hne Hq]]%lookup_insert_Some.
      * constructor; [exact Hch|by rewrite EL'|exact Hpk'|apply one_before; [exact Hpk'|intros HN; apply Hr0; by destruct l1|done]|done|]. rewrite Forall_forall in HplL |- *.
        intros x Hx. destruct (HplL x Hx) as (k & Hk & Hpos). exists k. split; [|done]. rewrite HBf; [done|]. apply Hl2, fst_in, Hx.
      * pose proof (own_packets _ _ _ _ Ho _ _ Hq) as Hqk. assert (Hout : forall y, y ∈ l.*1 -> ~ (y ∈ L.*1)).
        { intros y Hy Hy'. apply Hne. by eapply (own_apart _ _ _ _ Ho p q). }
        eapply (packet_at_frame _ _ (pbufs s)); [intros x Hx; by apply Hfr, Hout|]. destruct Hqk as [Q1 Q2 Q3 Q4 Q5 Q6]. constructor; try done.
        rewrite Forall_forall in Q6 |- *. intros x Hx. destruct (Q6 x Hx) as (k & Hk & Hpos). exists k. split; [|done].
        rewrite HBf; [done|]. intros Hin. apply (Hout x.1); [by apply fst_in|]. rewrite EL, fmap_app. apply elem_of_app. right. cbn. by right.
    + intros q q' l l' x [[<- <-]|[Hne Hq]]%lookup_insert_Some [[<- <-]|[Hne' Hq']]%lookup_insert_Some Hx Hx'; [done|..].
      * by eapply (own_apart _ _ _ _ Ho p q' L l' x Hp Hq'); [apply Hsub|].
      * by eapply (own_apart _ _ _ _ Ho q p l L x Hq Hp); [|apply Hsub].
      * by eapply (own_apart _ _ _ _ Ho).
  - split; [done|]. split; [done|]. split; [done|]. split; [rewrite EL' in Hpk', Etot; destruct Hpk' as (_ & _ & E & _); cbn [snd] in E; congruence|]. split; [done|].
    intros c Hcc. unfold L'. rewrite EL in Hcc. rewrite (trim_contents (pmem s) l1 a ba l2 r c _ Hcc); [|by apply packet_lens|done].
    do 2 f_equal. unfold r. lia.
Qed.

(** ** The header of a packet *)

Lemma patch_app off xs c1 c2 : (off + length xs <= length c1)%nat -> patch off xs (c1 ++ c2) = patch off xs c1 ++ c2.
Proof.
  intros Hl. unfold patch. rewrite take_app_le, drop_app_le by lia. by rewrite !app_assoc.
Qed.

(** The bytes of the first pbuf. *)
Lemma load_head m p b tl c off k : contents m ((p, b) :: tl) = Some c -> 0 <= off -> off + Z.of_nat k <= len b ->
  load_bytes m (payload b + off) k = Some (take k (drop (Z.to_nat off) c)).
Proof.
  intros (c1 & c2 & -> & Hc1 & _ & Hl)%contents_cons Ho Hk. cbn [snd] in *.
  pose proof (load_bytes_slice _ _ _ _ (Z.to_nat off) k Hc1 ltac:(lia)) as Hs. rewrite Z2Nat.id in Hs by lia. rewrite Hs. f_equal.
  rewrite drop_app_le by lia. rewrite take_app_le; [done|]. rewrite length_drop. lia.
Qed.

Lemma store_head s P U p b tl off bs c : holds s P U -> P !! p = Some ((p, b) :: tl) -> contiguous b = true -> p + SIZEOF_STRUCT_PBUF <= payload b ->
  0 <= off -> off + Z.of_nat (length bs) <= len b -> contents (pmem s) ((p, b) :: tl) = Some c ->
  exists m', store_bytes (pmem s) (payload b + off) bs = Some m' /\ holds (set_pmem m' s) P U /\ keeps P p s (set_pmem m' s) /\
    contents m' ((p, b) :: tl) = Some (patch (Z.to_nat off) bs c).
Proof.
  intros Hh Hp Hct Hro Ho Hl (c1 & c2 & -> & Hc1 & Hc2 & Hlc)%contents_cons. cbn [snd] in *.
  destruct (store_held s P U p b tl (payload b + off) bs Hh Hp Hct) as (m1 & Hm1 & Hh1 & Hk1 & Ht1); [lia|lia|].
  exists m1. split; [done|]. split; [done|]. split; [done|]. pose proof Hm1 as Hm2. rewrite <- (Z2Nat.id off Ho) in Hm2.
  pose proof (load_store_patch _ _ _ _ _ _ _ Hm2 Hc1 ltac:(lia)) as Hl1. cbn. rewrite Hl1. cbn. rewrite Ht1, Hc2. cbn.
  rewrite patch_app by lia. done.
Qed.

Lemma head_fields_ok fs (s : St) P U p b tl c : holds s P U -> P !! p = Some ((p, b) :: tl) -> contiguous b = true ->
  p + SIZEOF_STRUCT_PBUF <= payload b -> Forall (fun f => 0 <= f.1 /\ f.1 + Z.of_nat (length f.2) <= len b) fs ->
  contents (pmem s) ((p, b) :: tl) = Some c ->
  exists m', write_fields (payload b) fs s = Done (tt, set_pmem m' s) /\ holds (set_pmem m' s) P U /\
    keeps P p s (set_pmem m' s) /\ contents m' ((p, b) :: tl) = Some (patch_all c fs).
Proof.
  intros Hh Hp Hct Hro. revert s Hh c. induction fs as [|[off bs] fs IH]; intros s Hh c Hfs Hc; cbn [write_fields].
  { exists (pmem s). split; [by destruct s|]. split; [by destruct s|]. done. }
  apply Forall_cons in Hfs as [[Ho Hl] Hfs]. cbn [fst snd] in *.
  destruct (store_head s P U p b tl off bs c Hh Hp Hct Hro Ho Hl Hc) as (m1 & Hm1 & Hh1 & Hk1 & Hc1).
  destruct (IH _ Hh1 _ Hfs Hc1) as (m' & Hrun & Hh' & Hk' & Hc').
  exists m'. erewrite bind_done by (by apply STORE_run). rewrite Hrun. split; [done|].
  split; [done|]. split; [|done]. eapply keeps_trans; [exact Hk1|exact Hk'].
Qed.

(** ** The checksum of a packet *)

Lemma segments_run fuel p (s : St) l c : chain (pbufs s) p l -> contents (pmem s) l = Some c -> (length l < fuel)%nat ->
  Forall is_u8 c -> lens_ok l -> exists segs, segments fuel p s = Done (segs, s) /\ segs_ok segs /\ flat segs = c.
Proof.
  revert fuel p c. induction l as [|[a b] l IH]; intros fuel p c Hc Hcon Hf Hu Hl;
    (destruct fuel as [|fuel]; [cbn in Hf; lia|]); cbn [segments].
  - cbn in Hc. subst p. injection Hcon as <-. exists []. split; [done|]. split; [constructor|done].
  - pose proof Hc as (-> & Ha & Hb & Hc'). apply contents_cons in Hcon as (c1 & c2 & -> & Hc1 & Hc2 & Hlc). cbn [snd] in *.
    apply Forall_app in Hu as [Hu1 Hu2]. apply Forall_cons in Hl as [Hl1 Hl]. cbn [snd] in Hl1.
    destruct (IH fuel (next b) c2 Hc' Hc2) as (segs & Hrun & Hok & <-); [cbn in Hf; lia|done|done|].
    exists ((payload b, c1) :: segs). split; [|split; [|done]].
    + destruct (Z.eqb_spec a 0) as [|_]; [done|]. erewrite bind_done by (by apply rd_run).
      erewrite (bind_done _ _ _ c1 s) by (unfold LOAD; mred; by rewrite Hc1). by erewrite bind_done by exact Hrun.
    + constructor; [|done]. cbn [snd]. split; [done|]. rewrite Hlc. unfold is_u16 in *. lia.
Qed.

Lemma chain_checksum_run p (s : St) l c : chain (pbufs s) p l -> contents (pmem s) l = Some c -> Forall is_u8 c -> lens_ok l ->
  chain_checksum p s = Done (checksum c, s).
Proof.
  intros Hc Hcon Hu Hl. destruct (segments_run (S (base.size (pbufs s))) p s l c Hc Hcon) as (segs & Hrun & Hok & <-); try done.
  { pose proof (chain_size _ _ _ Hc). lia. }
  unfold chain_checksum. erewrite bind_done by reflexivity. erewrite bind_done by exact Hrun. by rewrite <- inet_chksum_pbuf_run.
Qed.

(** Whatever the bytes, the walk ends. *)
Lemma segments_end fuel p (s : St) l c : chain (pbufs s) p l -> contents (pmem s) l = Some c -> (length l < fuel)%nat ->
  exists segs, segments fuel p s = Done (segs, s).
Proof.
  revert fuel p c. induction l as [|[a b] l IH]; intros fuel p c Hc Hcon Hf;
    (destruct fuel as [|fuel]; [cbn in Hf; lia|]); cbn [segments].
  - cbn in Hc. subst p. by exists [].
  - pose proof Hc as (-> & Ha & Hb & Hc'). apply contents_cons in Hcon as (c1 & c2 & -> & Hc1 & Hc2 & _). cbn [snd] in *.
    destruct (IH fuel (next b) c2 Hc' Hc2) as (segs & Hrun); [cbn in Hf; lia|]. exists ((payload b, c1) :: segs).
    destruct (Z.eqb_spec a 0) as [|_]; [done|]. erewrite bind_done by (by apply rd_run).
    erewrite (bind_done _ _ _ c1 s) by (unfold LOAD; mred; by rewrite Hc1). by erewrite bind_done by exact Hrun.
Qed.

Lemma checksum_ends p (s : St) l c : chain (pbufs s) p l -> contents (pmem s) l = Some c -> exists x, chain_checksum p s = Done (x, s).
Proof.
  intros Hc Hcon. destruct (segments_end (S (base.size (pbufs s))) p s l c Hc Hcon) as (segs & Hrun).
  { pose proof (chain_size _ _ _ Hc). lia. }
  exists (inet_chksum_pbuf segs). unfold chain_checksum. erewrite bind_done by reflexivity. by erewrite bind_done by exact Hrun.
Qed.
End Trim.
