(* ===== verification/Ip4Ok.v ===== *)
(** A packet on its way through the IPv4 layer: what the steps of ip4.c and icmp.c
    keep of the network state and of the packet they work on, and that the caller's
    packet is given up in the end. *)
From S2P Require Import Prelude CMem Memp Pbuf IpAddr Packets Ethernet Etharp EtharpInv EtharpOk EtharpIo EthInput Checksum Ip4 PacketsIp.

(** The interfaces in their order, the default one, and the checksums each computes. *)
Record ip_config := mkConfig { cfg_netifs : list Z; cfg_default : Z; cfg_chksum : Z -> Z }.
Definition config_of {D} (d : ip_state D) : ip_config := mkConfig (netif_list d) (netif_default d) (chksum_flags d).

(** The driver below still keeps its promise, and no operation changes the configuration. *)
Section Config.
Context {D : Type} `{LinkOk D} (cfg : ip_config).
#[local] Program Instance ip_link_ok : LinkOk (D := ip_state D) := { link_ok d := link_ok (idev d) /\ config_of d = cfg }.
Next Obligation.
  intros segs d [Hd Hc] Hl. destruct (link_total segs (idev d) Hd Hl) as (err & d' & Hrun & Hd').
  exists err, (set_idev d' d). cbn. unfold zoom. by rewrite Hrun.
Qed.
End Config.

Section Steps.
Context {A D : Type} `{PbufHeap A} `{LinkOk D} (cfg : ip_config).
#[local] Hint Extern 0 (@LinkOk (ip_state D) _) => exact (ip_link_ok (D := D) cfg) : typeclass_instances.
Abbreviation Ip := (arp A (ip_state D)).
Abbreviation packets := (gmap Z (list (Z * pbuf))).

(** ** The globals of the layer *)

Definition idata (s : Ip) : ip_state D := dev (anet s).
Definition with_data (f : ip_globals -> ip_globals) (s : Ip) : Ip :=
  set_anet (set_dev (set_ip_data (f (ip_data (idata s))) (idata s)) (anet s)) s.
Definition with_id (v : Z) (s : Ip) : Ip := set_anet (set_dev (set_ip_id v (idata s)) (anet s)) s.

Lemma wp_ip_get {X} (f : ip_state D -> X) (s : Ip) (Q : X -> Ip -> Prop) : Q (f (idata s)) s -> wp (ip_get f) s Q.
Proof. intros HQ. unfold ip_get, on_ip. apply wp_on_net, wp_zoom, wp_gets. by destruct s as [? ? ? []]. Qed.
Lemma wp_upd_data f (s : Ip) (Q : unit -> Ip -> Prop) : Q tt (with_data f s) -> wp (upd_ip_data f) s Q.
Proof. intros HQ. apply wp_on_net, wp_zoom, wp_modify. exact HQ. Qed.
Lemma wp_next_id (s : Ip) (Q : unit -> Ip -> Prop) : Q tt (with_id (u16 (ip_id (idata s) + 1)) s) ->
  wp (on_ip (modify (fun d => set_ip_id (u16 (ip_id d + 1)) d))) s Q.
Proof. intros HQ. apply wp_on_net, wp_zoom, wp_modify. exact HQ. Qed.
Definition enabled (n flag : Z) : bool := (n =? 0) || negb (Z.land (cfg_chksum cfg n) flag =? 0).

Lemma ok_config (s : Ip) Q P Own : arp_ok s Q P Own -> config_of (idata s) = cfg.
Proof. intros Hok. apply (net_link _ _ _ (core_net _ _ _ _ _ _ (ok_core _ _ _ _ Hok))). Qed.
Lemma wp_enabled (s : Ip) Q P Own n flag (R : bool -> Ip -> Prop) : arp_ok s Q P Own -> R (enabled n flag) s -> wp (checksum_enabled n flag) s R.
Proof.
  intros Hok HR. unfold checksum_enabled. apply wp_bind, wp_ip_get, wp_ret. unfold enabled in HR.
  by rewrite <- (ok_config _ _ _ _ Hok) in HR.
Qed.

Lemma ok_device (s : Ip) d Q P Own : arp_ok s Q P Own -> idev d = idev (idata s) -> config_of d = config_of (idata s) ->
  arp_ok (set_anet (set_dev d (anet s)) s) Q P Own.
Proof.
  intros Hok Hd Hc. pose proof (core_net _ _ _ _ _ _ (ok_core _ _ _ _ Hok)) as [H1' H2' [H3' H4']].
  apply ok_set_net; [done| |done]. constructor; [done|done|]. unfold idata in *. split; cbn [dev set_dev]; [by rewrite Hd|by rewrite Hc].
Qed.

(** ** A packet at work *)

(** The packet [p] is in the hands of one caller alone. *)
Record holding (s : Ip) (Q : list (list (Z * Z))) (P : packets) (Own : gset Z) (p : Z) (b : pbuf) (tl : list (Z * pbuf)) : Prop := {
  hd_ok : arp_ok s Q P Own;
  hd_own : p ∈ Own;
  hd_free : ~ (p ∈ pkts Q);
  hd_at : P !! p = Some ((p, b) :: tl);
  hd_ref : ref b = 1;
  hd_block : contiguous b = true
}.

Lemma hd_caller s Q P Own p b tl : holding s Q P Own p b tl -> caller_packet Q P Own p.
Proof.
  intros [H1' H2' H3' H4' H5' _]. split; [done|]. split; [done|]. exists b, tl. split; [done|]. lia.
Qed.
Lemma hd_holds s Q P Own p b tl : holding s Q P Own p b tl -> holds (ps (anet s)) P (list_to_set (elems Q)).
Proof. intros Hh. apply (net_held _ _ _ (core_net _ _ _ _ _ _ (ok_core _ _ _ _ (hd_ok _ _ _ _ _ _ _ Hh)))). Qed.

(** What is known of it. *)
Record head_facts (s : Ip) (p : Z) (b : pbuf) (tl : list (Z * pbuf)) : Prop := {
  hf_nonzero : p <> 0;
  hf_pbuf : pbufs (ps (anet s)) !! p = Some b;
  hf_ref : ref b = 1;
  hf_contiguous : contiguous b = true;
  hf_place : p + SIZEOF_STRUCT_PBUF <= payload b;
  hf_arena : arena_lo <= payload b /\ payload b + len b <= arena_hi /\ mapped (pmem (ps (anet s))) arena_lo (arena_hi - arena_lo);
  hf_lens : is_u16 (tot_len b) /\ is_u16 (len b) /\ tot_len b = len b + total tl /\ 0 <= total tl;
  hf_chain : chain (pbufs (ps (anet s))) p ((p, b) :: tl);
  hf_lens_ok : lens_ok ((p, b) :: tl);
  hf_contents : is_Some (contents (pmem (ps (anet s))) ((p, b) :: tl))
}.

Lemma hd_facts s Q P Own p b tl : holding s Q P Own p b tl -> head_facts s p b tl.
Proof.
  intros Hd. pose proof (hd_holds _ _ _ _ _ _ _ Hd) as Hh. pose proof (hd_at _ _ _ _ _ _ _ Hd) as Hp.
  pose proof (hd_ref _ _ _ _ _ _ _ Hd) as Hr.
  destruct (holds_packet _ _ _ _ _ Hh Hp) as (b0 & l0 & [= <- <-] & Hp0 & Hb & Hc & Hpk & _).
  destruct (holds_contents _ _ _ _ _ Hh Hp) as [c Hcon]. destruct (packet_head _ _ _ Hpk) as (Ht & Hl & Htl & Hpos & _).
  destruct Hh as [B Ho]. pose proof (pk_placed _ _ _ _ _ (own_packets _ _ _ _ Ho _ _ Hp)) as [(n & HB & Hpos') _]%Forall_cons.
  cbn [fst snd] in *. pose proof (hd_block _ _ _ _ _ _ _ Hd) as Hct. rewrite Hct in Hpos'. destruct Hpos' as [Hlo Hhi].
  destruct (block_in _ _ _ _ _ _ (own_heap _ _ _ _ Ho) HB). unfold SIZEOF_STRUCT_PBUF in *.
  constructor; try done; [|by apply packet_lens]. split; [lia|]. split; [lia|]. apply (own_arena _ _ _ _ Ho).
Qed.

(** A step on the packet that keeps its hold. *)
Lemma hd_reload s Q P Own p b tl s' b' tl' P' : holding s Q P Own p b tl -> arp_ok s' Q P' Own -> P' !! p = Some ((p, b') :: tl') ->
  ref b' = ref b -> contiguous b' = contiguous b -> holding s' Q P' Own p b' tl'.
Proof. intros [H1' H2' H3' _ H5' H6'] Hok Hp Hr Hct. constructor; congruence. Qed.

Lemma hd_cut s Q P Own p b tl k fl ix : holding s Q P Own p b tl -> 0 <= k <= len b ->
  let P' := <[p := (p, cut k fl ix b) :: tl]> P in
  holding (reheaded s p (cut k fl ix b)) Q P' Own p (cut k fl ix b) tl /\
  stays [p] P (anet s) P' (anet (reheaded s p (cut k fl ix b))).
Proof.
  intros Hd Hk. destruct (cut_ok s Q P Own p b tl k fl ix) as (Hok & _ & Hst); [by apply Hd|by eapply hd_caller|by apply Hd|done|].
  split; [|exact Hst]. by eapply hd_reload; [exact Hd|exact Hok|apply lookup_insert_eq|..].
Qed.

Definition trimmed (k : Z) (b : pbuf) : pbuf := cut k (flags b) (if_idx b) b.
Lemma trimmed_0 b : trimmed 0 b = b.
Proof. unfold trimmed, cut. rewrite !Z.sub_0_r, Z.add_0_r. by destruct b. Qed.
Lemma grown_trimmed k b : grown k (trimmed k b) = b.
Proof. unfold grown, trimmed, cut, set_lens, set_payload. cbn. rewrite !Z.sub_add, Z.add_simpl_r. by destruct b. Qed.
Lemma trimmed_grown k b : trimmed k (grown k b) = b.
Proof. unfold grown, trimmed, cut, set_lens, set_payload. cbn. rewrite !Z.add_simpl_r, Z.sub_add. by destruct b. Qed.

(** [pbuf_remove_header] and [pbuf_add_header] *)
Lemma remove_header_run (t : pst A) p b k : pbufs t !! p = Some b -> p <> 0 -> is_u16 (tot_len b) -> is_u16 (len b) ->
  len b <= tot_len b -> 0 <= k <= len b ->
  pbuf_remove_header p k t = Done (0, set_pbufs (<[p := trimmed k b]> (pbufs t)) t).
Proof.
  intros Hb Hp Ht Hl Hlt Hk. unfold is_u16 in *. unfold pbuf_remove_header.
  erewrite bind_done by (unfold assert_; by rewrite (proj2 (Z.eqb_neq p 0))). rewrite (proj2 (Z.ltb_ge 65535 k)) by lia.
  destruct (Z.eqb_spec k 0) as [->|N]; [rewrite trimmed_0, insert_id by done; by destruct t|].
  erewrite bind_done by (by apply rd_run). rewrite (u16_small k) by (unfold is_u16; lia).
  rewrite (proj2 (Z.leb_le k (len b))) by lia. cbn [negb]. erewrite bind_done by (by apply wr_run).
  cbv beta. rewrite !u16_small by (unfold is_u16; lia). done.
Qed.
Lemma wp_remove s Q P Own p b tl k (R : Z -> Ip -> Prop) : holding s Q P Own p b tl -> 0 <= k <= len b ->
  R 0 (reheaded s p (trimmed k b)) -> wp (on_pbuf (pbuf_remove_header p k)) s R.
Proof.
  intros Hd Hk HR. destruct (hd_facts _ _ _ _ _ _ _ Hd) as [Hp Hb _ _ _ _ (Ht & Hl & Htl & Hpos) _ _ _].
  eapply wp_pbuf_use; [apply remove_header_run; [exact Hb|done|done|done|lia|done]|done].
Qed.

Definition room (k p : Z) (b : pbuf) : Prop := p + SIZEOF_STRUCT_PBUF <= payload b - k /\ tot_len b + k < 65536.
Lemma wp_add s Q P Own p b tl k (R : Z -> Ip -> Prop) : holding s Q P Own p b tl -> 0 < k < 65536 -> room k p b ->
  R 0 (reheaded s p (grown k b)) -> wp (on_pbuf (pbuf_add_header p k)) s R.
Proof.
  intros Hd Hk [Hr1 Hr2] HR. destruct (hd_facts _ _ _ _ _ _ _ Hd) as [Hp Hb _ Hct _ _ (Ht & Hl & Htl & Hpos) _ _ _].
  destruct (add_header_run (ps (anet s)) p b k Hb Hp Hk Ht) as (r & _ & Hrun); [unfold is_u16 in *; lia|].
  unfold has_room in Hrun. rewrite Hct, (proj2 (Z.leb_le _ _) Hr1), (proj2 (Z.ltb_lt _ _) Hr2) in Hrun.
  eapply wp_pbuf_use; [exact Hrun|done].
Qed.
Lemma hd_grow s Q P Own p b tl k : holding s Q P Own p b tl -> 0 < k < 65536 -> room k p b ->
  holding (reheaded s p (grown k b)) Q (<[p := (p, grown k b) :: tl]> P) Own p (grown k b) tl /\
  stays [p] P (anet s) (<[p := (p, grown k b) :: tl]> P) (anet (reheaded s p (grown k b))).
Proof.
  intros Hd Hk [Hr1 Hr2]. destruct (hd_facts _ _ _ _ _ _ _ Hd) as [Hp Hb _ Hct _ _ (Ht & Hl & Htl & Hpos) _ _ _]. unfold is_u16 in *.
  destruct (holds_packet _ _ _ _ _ (hd_holds _ _ _ _ _ _ _ Hd) (hd_at _ _ _ _ _ _ _ Hd)) as (b0 & l0 & [= <- <-] & _ & _ & _ & Hpk & [H11 H12]%Forall_cons & [Hp1 _]%Forall_cons).
  destruct (rehead_ok s Q P Own p b (grown k b) tl) as [Hok Hc]; [by apply Hd|by eapply hd_caller|by apply Hd|..].
  - do 3 (split; [done|]). rewrite Hct. cbn. lia.
  - split; [unfold is_u16; cbn; lia|]. split; [unfold is_u16; cbn; lia|]. split; [rewrite total_cons; cbn; lia|apply Hpk].
  - constructor; [cbn in *; lia|done].
  - done.
  - done.
  - split; [by eapply hd_reload; [exact Hd|exact Hok|apply lookup_insert_eq|..]|].
    intros q l Hq Hql. apply ne_single in Hq. by rewrite lookup_insert_ne.
Qed.

(** A step on the packet and the memory. *)
Lemma ok_pbuf (s : Ip) Q P P' Own p b' tl' t : arp_ok s Q P Own -> ~ (p ∈ pkts Q) -> holds t P' (list_to_set (elems Q)) ->
  P' !! p = Some ((p, b') :: tl') -> (forall q, q <> p -> P' !! q = P !! q) ->
  arp_ok (set_anet (set_ps t (anet s)) s) Q P' Own.
Proof.
  intros Hok Hp Ht Hb HP. pose proof (core_net _ _ _ _ _ _ (ok_core _ _ _ _ Hok)) as [_ Hn Hdv].
  apply (ok_repack s _ Q P P' Own p Hok Hp HP); [by intros _; exists b', tl'| |done]. by constructor.
Qed.
Lemma hd_pbuf s Q P Own p b tl b' tl' t P' : holding s Q P Own p b tl -> holds t P' (list_to_set (elems Q)) ->
  P' !! p = Some ((p, b') :: tl') -> (forall q, q <> p -> P' !! q = P !! q) -> ref b' = ref b -> contiguous b' = contiguous b ->
  holding (set_anet (set_ps t (anet s)) s) Q P' Own p b' tl'.
Proof.
  intros Hd Ht Hp HP Hr Hct. eapply hd_reload; [exact Hd| |done..]. by eapply ok_pbuf; [apply Hd|apply Hd|..].
Qed.

(** The references of the callers are given up; a packet that waits for an address stays. *)
Lemma give_up_ok (s : Ip) Q P Own p : arp_ok s Q P Own -> p ∈ Own ->
  wp (on_pbuf (pbuf_free p)) s (fun _ s' => exists P', arp_ok s' Q P' (Own ∖ {[p]}) /\ netifs (anet s') = netifs (anet s) /\
    dev (anet s') = dev (anet s) /\ arp_table s' = arp_table s /\ stays [p] P (anet s) P' (anet s')).
Proof.
  intros [C T Hca] Hp. destruct (core_own _ _ _ _ _ _ C p Hp) as (b & l & Hb & Hr).
  apply (core_own_less _ _ _ _ _ (Own ∖ {[p]})) in C; [|set_solver].
  apply wp_on_pbuf. eapply wp_mono; [by apply free_ok; [apply (core_net _ _ _ _ _ _ C)|]|].
  intros _ t (Hok & Hni & Hst & Hdev). exists (dropped p b l P). split; [|done]. constructor; [|by rewrite <- Hni in T|done].
  destruct C as [C1 C2 C3 C4 C5 C6 C7]. constructor; try done.
  - intros q Hq. unfold dropped. destruct (decide (q = p)) as [->|Hne].
    + specialize (Hr Hq). destruct (Z.eqb_spec (ref b) 1); [lia|]. rewrite lookup_insert_eq. by eexists.
    + case_match; [rewrite lookup_delete_ne by done|rewrite lookup_insert_ne by done]; by apply C5.
  - intros q Hq. pose proof Hq as [_ Hne]%elem_of_difference. apply not_elem_of_singleton in Hne.
    unfold dropped. case_match; [rewrite lookup_delete_ne by done|rewrite lookup_insert_ne by done]; by apply C6.
Qed.

(** ** Reading and writing the packet *)

(** Between the two states only the packet [p] changed. *)
Record only (p : Z) (s : Ip) (P : packets) (s' : Ip) (P' : packets) : Prop := {
  on_table : arp_table s' = arp_table s;
  on_netifs : netifs (anet s') = netifs (anet s);
  on_dev : dev (anet s') = dev (anet s);
  on_stays : stays [p] P (anet s) P' (anet s')
}.
Lemma only_refl p s P : only p s P s P.
Proof. by constructor. Qed.
Lemma only_trans p s1 P1 s2 P2 s3 P3 : only p s1 P1 s2 P2 -> only p s2 P2 s3 P3 -> only p s1 P1 s3 P3.
Proof.
  intros [T1 N1 D1 S1] [T2 N2 D2 S2]. constructor; [congruence..|].
  eapply stays_weaken; [|by eapply stays_trans]. intros q. rewrite elem_of_app. tauto.
Qed.
Lemma only_reheaded p s P b' l' : only p s P (reheaded s p b') (<[p := l']> P).
Proof. constructor; [done..|]. intros q l Hq Hql. apply ne_single in Hq. by rewrite lookup_insert_ne. Qed.

Lemma wp_load s Q P Own p b tl c off k (R : list Z -> Ip -> Prop) : holding s Q P Own p b tl ->
  contents (pmem (ps (anet s))) ((p, b) :: tl) = Some c -> 0 <= off -> off + Z.of_nat k <= len b ->
  R (take k (drop (Z.to_nat off) c)) s -> wp (on_pbuf (LOAD (payload b + off) k)) s R.
Proof.
  intros Hd Hc Ho Hk HR. eapply wp_pbuf_use.
  { unfold LOAD. mred. by rewrite (load_head _ _ _ _ _ _ _ Hc Ho Hk). }
  by destruct s as [? ? ? []].
Qed.
Lemma wp_load_front s Q P Own p b tl c k (R : list Z -> Ip -> Prop) : holding s Q P Own p b tl ->
  contents (pmem (ps (anet s))) ((p, b) :: tl) = Some c -> Z.of_nat k <= len b ->
  R (take k c) s -> wp (on_pbuf (LOAD (payload b) k)) s R.
Proof. intros Hd Hc Hk HR. rewrite <- (Z.add_0_r (payload b)). by eapply wp_load. Qed.

(** Bytes that lie in the packet, and what lies behind it otherwise. *)
Lemma peek s Q P Own p b tl off k : holding s Q P Own p b tl -> 0 <= off -> payload b + off + Z.of_nat k <= arena_hi ->
  exists bs, load_bytes (pmem (ps (anet s))) (payload b + off) k = Some bs /\
    forall c, contents (pmem (ps (anet s))) ((p, b) :: tl) = Some c -> off + Z.of_nat k <= len b -> bs = take k (drop (Z.to_nat off) c).
Proof.
  intros Hd Ho Hk. destruct (hf_arena _ _ _ _ (hd_facts _ _ _ _ _ _ _ Hd)) as (Hlo & _ & Hm).
  destruct (load_bytes_mapped (pmem (ps (anet s))) (payload b + off) k) as [bs Hbs]; [eapply mapped_sub; [exact Hm|lia|lia]|].
  exists bs. split; [done|]. intros c Hc Hl. pose proof (load_head _ _ _ _ _ _ k Hc Ho Hl). congruence.
Qed.
Lemma wp_peek s Q P Own p b tl off k (R : list Z -> Ip -> Prop) : holding s Q P Own p b tl -> 0 <= off ->
  payload b + off + Z.of_nat k <= arena_hi ->
  (forall bs, length bs = k -> (forall c, contents (pmem (ps (anet s))) ((p, b) :: tl) = Some c -> off + Z.of_nat k <= len b ->
     bs = take k (drop (Z.to_nat off) c)) -> R bs s) -> wp (on_pbuf (LOAD (payload b + off) k)) s R.
Proof.
  intros Hd Ho Hk HR. destruct (peek _ _ _ _ _ _ _ _ _ Hd Ho Hk) as (bs & Hbs & Hkn).
  eapply wp_pbuf_use; [unfold LOAD; mred; by rewrite Hbs|]. apply load_bytes_length in Hbs.
  replace (set_anet _ _) with s by (by destruct s as [? ? ? []]). by apply HR.
Qed.

(** The packet after the writes. *)
Definition written (s s' : Ip) (Q : list (list (Z * Z))) (P : packets) (Own : gset Z) (p : Z) (b : pbuf) (tl : list (Z * pbuf)) (c : list Z) : Prop :=
  holding s' Q P Own p b tl /\ contents (pmem (ps (anet s'))) ((p, b) :: tl) = Some c /\ only p s P s' P.

Lemma wp_fields s Q P Own p b tl c fs : holding s Q P Own p b tl -> contents (pmem (ps (anet s))) ((p, b) :: tl) = Some c ->
  Forall (fun f => 0 <= f.1 /\ f.1 + Z.of_nat (length f.2) <= len b) fs ->
  wp (on_pbuf (write_fields (payload b) fs)) s (fun _ s' => written s s' Q P Own p b tl (patch_all c fs)).
Proof.
  intros Hd Hc Hfs. pose proof (hd_facts _ _ _ _ _ _ _ Hd) as Hf.
  destruct (head_fields_ok fs (ps (anet s)) P _ p b tl c (hd_holds _ _ _ _ _ _ _ Hd) (hd_at _ _ _ _ _ _ _ Hd)
    (hf_contiguous _ _ _ _ Hf) (hf_place _ _ _ _ Hf) Hfs Hc) as (m' & Hrun & Hh' & Hk' & Hc').
  eapply wp_pbuf_use; [exact Hrun|]. split; [|split; [exact Hc'|]].
  - eapply (hd_pbuf s Q P Own p b tl b tl _ P); try done. apply Hd.
  - constructor; [done..|]. intros q l Hq Hql. split; [done|]. apply ne_single in Hq. by apply (Hk' q l).
Qed.
Lemma wp_store s Q P Own p b tl c off bs : holding s Q P Own p b tl -> contents (pmem (ps (anet s))) ((p, b) :: tl) = Some c ->
  0 <= off -> off + Z.of_nat (length bs) <= len b ->
  wp (on_pbuf (STORE (payload b + off) bs)) s (fun _ s' => written s s' Q P Own p b tl (patch (Z.to_nat off) bs c)).
Proof.
  intros Hd Hc Ho Hl. pose proof (hd_facts _ _ _ _ _ _ _ Hd) as Hf.
  destruct (store_head (ps (anet s)) P _ p b tl off bs c (hd_holds _ _ _ _ _ _ _ Hd) (hd_at _ _ _ _ _ _ _ Hd)
    (hf_contiguous _ _ _ _ Hf) (hf_place _ _ _ _ Hf) Ho Hl Hc) as (m' & Hm' & Hh' & Hk' & Hc').
  eapply wp_pbuf_use; [by apply STORE_run|]. split; [|split; [exact Hc'|]].
  - eapply (hd_pbuf s Q P Own p b tl b tl _ P); try done. apply Hd.
  - constructor; [done..|]. intros q l Hq Hql. split; [done|]. apply ne_single in Hq. by apply (Hk' q l).
Qed.
Lemma wp_copy s Q P Own p b tl c off src bs : holding s Q P Own p b tl -> contents (pmem (ps (anet s))) ((p, b) :: tl) = Some c ->
  load_bytes (pmem (ps (anet s))) src (length bs) = Some bs -> 0 <= off -> off + Z.of_nat (length bs) <= len b ->
  wp (on_pbuf (MEMCPY (payload b + off) src (Z.of_nat (length bs)))) s (fun _ s' => written s s' Q P Own p b tl (patch (Z.to_nat off) bs c)).
Proof.
  intros Hd Hc Hs Ho Hl. destruct (proj1 (wp_done _ _ _) (wp_store s Q P Own p b tl c off bs Hd Hc Ho Hl)) as ([] & s' & Hrun & Hw).
  eapply wp_use; [|exact Hw]. rewrite <- Hrun. unfold on_pbuf, on_net, on_ps, zoom, STORE, MEMCPY, copy_bytes. mred. rewrite Nat2Z.id, Hs. done.
Qed.
Lemma wp_read s Q P Own p b tl (R : pbuf -> Ip -> Prop) : holding s Q P Own p b tl -> R b s -> wp (on_pbuf (rd p)) s R.
Proof. intros Hd. apply wp_rd, (hd_facts _ _ _ _ _ _ _ Hd). Qed.
End Steps.
