(* ===== verification/Ip4Out.v ===== *)
(** IPv4 output: the route a packet takes, the header it is given and its way to
    address resolution; the "destination unreachable" messages. *)
From S2P Require Import Prelude CMem Memp Pbuf IpAddr Packets Ethernet Etharp EtharpInv EtharpOk EtharpIo EthInput Checksum Ip4 PacketsIp Ip4Ok.

(** ** The header *)

Definition ip_header (tos total id ttl proto src dest chk : Z) : list Z :=
  [69; tos] ++ le16 (lwip_htons total) ++ le16 (lwip_htons id) ++ [0; 0; u8 ttl; u8 proto] ++ le16 chk ++ le32 src ++ le32 dest.
Definition sealed_header (seal : bool) (tos total id ttl proto src dest : Z) : list Z :=
  ip_header tos total id ttl proto src dest (if seal then checksum (ip_header tos total id ttl proto src dest 0) else 0).

Lemma patch_all_app fs : forall a c, Forall (fun f => 0 <= f.1 /\ (Z.to_nat f.1 + length f.2 <= length a)%nat) fs ->
  patch_all (a ++ c) fs = patch_all a fs ++ c.
Proof.
  unfold patch_all. induction fs as [|[off bs] fs IH]; intros a c Hfs; [done|]. apply Forall_cons in Hfs as [[_ Hl] Hfs]. cbn [fst snd] in *.
  cbn [foldl fst snd]. rewrite patch_app by lia. apply IH. eapply Forall_impl; [exact Hfs|]. intros f [? ?]. rewrite patch_length by lia. done.
Qed.

Lemma ip_header_fields h tos total id ttl proto src dest : length h = 20%nat ->
  patch_all (patch_all h [(8, [u8 ttl]); (9, [u8 proto]); (16, le32 dest); (0, [u8 (Z.lor (Z.shiftl 4 4) (IP_HLEN / 4))]); (1, [tos]);
    (2, le16 (lwip_htons total)); (6, le16 0); (4, le16 (lwip_htons id))]) [(12, le32 src); (10, le16 0)] =
  ip_header tos total id ttl proto src dest 0.
Proof.
  intros Hh. change (u8 (Z.lor (Z.shiftl 4 4) (IP_HLEN / 4))) with 69. unfold le16, le32, ip_header.
  do 20 (destruct h as [|? h]; [done|]). destruct h; [|done]. reflexivity.
Qed.
Lemma ip_header_seal tos total id ttl proto src dest chk c :
  patch 10 (le16 chk) (ip_header tos total id ttl proto src dest 0 ++ c) = ip_header tos total id ttl proto src dest chk ++ c.
Proof. reflexivity. Qed.
Lemma ip_header_length tos total id ttl proto src dest chk : length (ip_header tos total id ttl proto src dest chk) = 20%nat.
Proof. reflexivity. Qed.

Lemma le16_bytes v : bytes (le16 v).
Proof. unfold le16. constructor; [zlia|]. constructor; [zlia|constructor]. Qed.
Lemma le32_bytes v : bytes (le32 v).
Proof. unfold le32. repeat (constructor; [zlia|]). constructor. Qed.
Lemma ip_header_bytes tos total id ttl proto src dest chk : is_u8 tos -> bytes (ip_header tos total id ttl proto src dest chk).
Proof.
  intros Ht. unfold ip_header. rewrite !Forall_app. split; [by constructor; [|constructor; [|constructor]]|]. do 2 (split; [apply le16_bytes|]).
  split; [by do 2 (constructor; [by_decision|]); constructor; [apply u8_range|]; constructor; [apply u8_range|constructor]|].
  split; [apply le16_bytes|]. split; apply le32_bytes.
Qed.

Lemma checksum_range bs : bytes bs -> is_u16 (checksum bs).
Proof. intros Hb. pose proof (oc_range _ (word_sum_pos _ Hb)). unfold checksum, is_u16. lia. Qed.
Lemma le16_u16 v : is_u16 v -> le16 v = [v mod 256; v / 256].
Proof. intros Hv. unfold le16. do 2 f_equal. zlia. Qed.

Lemma patch_bytes off xs h : bytes xs -> bytes h -> bytes (patch off xs h).
Proof. intros Hx Hh. unfold patch. rewrite !Forall_app. split; [by apply Forall_take|]. split; [done|by apply Forall_drop]. Qed.
Lemma patch_twice off xs ys h : length xs = length ys -> (off + length xs <= length h)%nat -> patch off xs (patch off ys h) = patch off xs h.
Proof.
  intros Hl Hh. unfold patch at 1 3. f_equal; [|f_equal].
  - unfold patch. rewrite take_app_le by (rewrite length_take; lia). by rewrite take_take, Nat.min_id.
  - unfold patch. rewrite app_assoc, drop_app_length'; [by rewrite Hl|]. rewrite length_app, length_take. lia.
Qed.

(** A receiver's check of bytes with their checksum at an even offset gives zero. *)
Lemma patched_checks h off : bytes h -> Nat.even off = true -> (off + 2 <= length h)%nat ->
  checksum (patch off (le16 (checksum (patch off [0; 0] h))) h) = 0.
Proof.
  intros Hh He Hl. assert (Hlt : length (take off h) = off) by (rewrite length_take; lia).
  pose proof (checksum_fill (take off h) (drop (off + 2) h) ltac:(by apply Forall_take) ltac:(by apply Forall_drop)) as Hfill.
  rewrite Hlt in Hfill. specialize (Hfill He). cbv zeta in Hfill. rewrite le16_u16; [exact Hfill|].
  apply checksum_range, patch_bytes; [by do 2 constructor|done].
Qed.
Lemma sealed_header_checks tos total id ttl proto src dest : is_u8 tos ->
  checksum (sealed_header true tos total id ttl proto src dest) = 0.
Proof.
  intros Ht. pose proof (patched_checks (ip_header tos total id ttl proto src dest 0) 10 ltac:(by apply ip_header_bytes) eq_refl) as Hp.
  rewrite <- (app_nil_r (ip_header _ _ _ _ _ _ _ 0)), !(ip_header_seal _ _ _ _ _ _ _ _ []), !app_nil_r in Hp. apply Hp.
  rewrite ip_header_length. lia.
Qed.

Section Output.
Context {A D : Type} `{PbufHeap A} `{LinkOk D} (cfg : ip_config).
#[local] Hint Extern 0 (@LinkOk (ip_state D) _) => exact (ip_link_ok (D := D) cfg) : typeclass_instances.
Abbreviation Ip := (arp A (ip_state D)).
Abbreviation packets := (gmap Z (list (Z * pbuf))).
Abbreviation ifs := (gmap Z netif).

(** ** Routing *)

Definition usable (ni : netif) : bool := netif_is_up ni && netif_is_link_up ni && negb (ip4_addr_isany (ip_addr (inet ni))).
(** The destination is on the network of the interface, or is its gateway on a link without broadcast. *)
Definition on_link (dest : Z) (ni : netif) : bool :=
  ip4_addr_netcmp dest (ip_addr (inet ni)) (netmask (inet ni))
  || (Z.land (nflags (inet ni)) NETIF_FLAG_BROADCAST =? 0) && (dest =? gw ni).
Definition holds_at (f : netif -> bool) (ns : ifs) (n : Z) : bool := match ns !! n with Some ni => f ni | None => false end.
(** The first usable interface that reaches the destination, else the default one. *)
Definition route (ns : ifs) (dest : Z) : Z :=
  match List.find (holds_at (fun ni => usable ni && on_link dest ni) ns) (cfg_netifs cfg) with
  | Some n => n
  | None => if holds_at usable ns (cfg_default cfg) && negb (ip4_addr_isloopback dest) then cfg_default cfg else 0
  end.
(** The lists name interfaces. *)
Definition config_ok (ns : ifs) : Prop :=
  Forall (fun n => is_Some (ns !! n)) (cfg_netifs cfg) /\ (cfg_default cfg = 0 \/ is_Some (ns !! cfg_default cfg)) /\ ns !! 0 = None.

Lemma route_loop_ok l (s : Ip) dest : Forall (fun n => is_Some (netifs (anet s) !! n)) l ->
  wp (route_loop l dest) s (fun r s' => s' = s /\
    r = default 0 (List.find (holds_at (fun ni => usable ni && on_link dest ni) (netifs (anet s))) l)).
Proof.
  induction l as [|n l IH]; cbn [route_loop]; [intros _; by apply wp_ret|]. intros [[ni Hn] Hl]%Forall_cons.
  apply wp_bind. eapply wp_netif; [exact Hn|]. cbn [List.find]. unfold holds_at at 1. rewrite Hn. fold (usable ni).
  specialize (IH Hl). destruct (usable ni); cbn [andb]; [|exact IH]. unfold on_link.
  destruct (ip4_addr_netcmp _ _ _); cbn [orb]; [by apply wp_ret|].
  destruct (_ && _); [by apply wp_ret|exact IH].
Qed.

Lemma find_in (f : Z -> bool) l n : List.find f l = Some n -> n ∈ l /\ f n = true.
Proof. intros Hf. apply List.find_some in Hf as [? ?]. by rewrite list_elem_of_In. Qed.

Lemma route_ok (s : Ip) Q P Own dest : arp_ok s Q P Own -> config_ok (netifs (anet s)) ->
  wp (ip4_route dest) s (fun r s' => s' = s /\ r = route (netifs (anet s)) dest).
Proof.
  intros Hok (Hns & Hdf & Hz). pose proof (ok_config cfg _ _ _ _ Hok) as Hc. unfold ip4_route. apply wp_bind, wp_ip_get.
  replace (netif_list (idata s)) with (cfg_netifs cfg) by (by rewrite <- Hc).
  apply wp_bind. eapply wp_mono; [by apply route_loop_ok|]. intros r s' [-> ->]. unfold route.
  destruct (List.find _ _) as [n|] eqn:E; cbn [default from_option id].
  { apply find_in in E as [Hin _]. rewrite Forall_forall in Hns. destruct (Hns n Hin) as [ni Hn].
    destruct (Z.eqb_spec n 0) as [->|_]; [congruence|]. by apply wp_ret. }
  cbn [Z.eqb negb]. apply wp_bind, wp_ip_get. replace (netif_default (idata s)) with (cfg_default cfg) by (by rewrite <- Hc).
  unfold holds_at. destruct Hdf as [->|[ni Hn]].
  - rewrite Hz. by apply wp_ret.
  - destruct (Z.eqb_spec (cfg_default cfg) 0) as [E0|_]; [congruence|]. apply wp_bind. eapply wp_netif; [exact Hn|].
    rewrite Hn. unfold usable. destruct (netif_is_up ni), (netif_is_link_up ni), (ip4_addr_isany _), (ip4_addr_isloopback dest); by apply wp_ret.
Qed.

(** A route leads over an interface that is up. *)
Lemma route_usable ns dest : config_ok ns -> route ns dest <> 0 -> exists ni, ns !! route ns dest = Some ni /\ usable ni = true.
Proof.
  intros (Hns & Hdf & Hz) Hr. unfold route in *. destruct (List.find _ _) as [n|] eqn:E.
  - apply find_in in E as [_ E]. unfold holds_at in E. destruct (ns !! n) as [ni|] eqn:En; [|done].
    exists ni. by apply andb_true_iff in E as [? _].
  - unfold holds_at in *. destruct (ns !! cfg_default cfg) as [ni|] eqn:En; [|done]. destruct (usable ni) eqn:Eu; [|done].
    destruct (negb _); cbn in *; [|done]. by exists ni.
Qed.

(** ** [ip4_output_if] *)

Lemma grown_contents m p b tl k c c0 : contents m ((p, b) :: tl) = Some c -> contents m ((p, grown k b) :: tl) = Some c0 -> 0 <= k -> 0 <= len b ->
  exists h, length h = Z.to_nat k /\ c0 = h ++ c.
Proof.
  intros (c1 & c2 & -> & Hc1 & Hc2 & _)%contents_cons (d1 & d2 & -> & Hd1 & Hd2 & _)%contents_cons Hk Hl. cbn [snd] in *.
  assert (c2 = d2) as <- by congruence. cbn [grown len payload set_lens set_payload] in Hd1.
  replace (Z.to_nat (len b + k)) with (Z.to_nat k + Z.to_nat (len b))%nat in Hd1 by lia. rewrite load_bytes_app in Hd1.
  apply bind_Some in Hd1 as (h & Hh & (y & Hy & [= <-])%bind_Some). rewrite Z2Nat.id, Z.sub_add, Hc1 in Hy by lia. injection Hy as <-.
  exists h. split; [by apply load_bytes_length in Hh|by rewrite app_assoc].
Qed.

(** The packet with its header, and the number of the next one. *)
Definition datagram (s s1 : Ip) (Q : list (list (Z * Z))) (P : packets) (Own : gset Z) (n p : Z) (b : pbuf) (tl : list (Z * pbuf)) (h c : list Z) : Prop :=
  let P1 := <[p := (p, grown IP_HLEN b) :: tl]> P in
  holding cfg s1 Q P1 Own p (grown IP_HLEN b) tl /\
  contents (pmem (ps (anet s1))) ((p, grown IP_HLEN b) :: tl) = Some (h ++ c) /\
  idata s1 = set_ip_id (u16 (ip_id (idata s) + 1)) (idata s) /\ arp_table s1 = arp_table s /\ netifs (anet s1) = netifs (anet s) /\
  stays [p] P (anet s) P1 (anet s1).
Definition handed_over (s s' : Ip) (Q : list (list (Z * Z))) (P : packets) (Own : gset Z) (n : Z) (ni : netif) (p dest r : Z) : Prop :=
  exists Q' P', arp_ok s' Q' P' Own /\ netifs (anet s') = netifs (anet s) /\ delivered s s' Q Q' P P' n ni p dest r.

Lemma hand_over s Q P Own p b tl n ni dest : holding cfg s Q P Own p b tl -> netifs (anet s) !! n = Some ni ->
  wp (etharp_output n p dest) s (fun r s' => handed_over s s' Q P Own n ni p dest r).
Proof.
  intros Hd Hn. eapply wp_mono; [apply (output_call_ok s Q P Own n ni p dest); [apply Hd|exact Hn|by eapply hd_caller]|].
  intros r s' (Q' & P' & ? & ? & ?). by exists Q', P'.
Qed.

Lemma has_room_iff k p b : contiguous b = true -> has_room k p b = true <-> room k p b.
Proof. intros Hc. unfold has_room, room. rewrite Hc, !andb_true_iff, Z.leb_le, Z.ltb_lt. tauto. Qed.

Lemma with_id_written s Q P Own p b tl c v : holding cfg s Q P Own p b tl -> contents (pmem (ps (anet s))) ((p, b) :: tl) = Some c ->
  holding cfg (with_id v s) Q P Own p b tl /\ contents (pmem (ps (anet (with_id v s)))) ((p, b) :: tl) = Some c.
Proof.
  intros Hd Hc. split; [|done]. eapply hd_reload; [exact Hd|by apply ok_device; [apply Hd|..]|apply Hd|done..].
Qed.

Lemma patch_all_length fs : forall a, Forall (fun f => 0 <= f.1 /\ (Z.to_nat f.1 + length f.2 <= length a)%nat) fs -> length (patch_all a fs) = length a.
Proof.
  unfold patch_all. induction fs as [|[off bs] fs IH]; intros a Hfs; [done|]. apply Forall_cons in Hfs as [[_ Hl] Hfs]. cbn [fst snd foldl] in *.
  rewrite IH; [by apply patch_length|]. eapply Forall_impl; [exact Hfs|]. intros f [? ?]. by rewrite patch_length.
Qed.

(** The stores that make the header of a packet with 20 bytes in front. *)
Lemma header_ok s Q P Own p b tl h c src dest ttl tos proto n (m : M Ip Z) Post : holding cfg s Q P Own p b tl ->
  contents (pmem (ps (anet s))) ((p, b) :: tl) = Some (h ++ c) -> length h = 20%nat -> IP_HLEN <= len b -> is_u8 tos ->
  (forall s', holding cfg s' Q P Own p b tl ->
    contents (pmem (ps (anet s'))) ((p, b) :: tl) =
      Some (sealed_header (enabled cfg n NETIF_CHECKSUM_GEN_IP) tos (tot_len b) (ip_id (idata s)) ttl proto src dest ++ c) ->
    only p (with_id (u16 (ip_id (idata s) + 1)) s) P s' P -> wp m s' Post) ->
  wp (on_pbuf (write_fields (payload b) [(8, [u8 ttl]); (9, [u8 proto]); (16, le32 dest); (0, [u8 (Z.lor (Z.shiftl 4 4) (IP_HLEN / 4))]); (1, [tos]);
        (2, le16 (lwip_htons (tot_len b))); (6, le16 0); (4, le16 (lwip_htons (ip_id (idata s))))]);;
      on_ip (modify (fun d => set_ip_id (u16 (ip_id d + 1)) d));;
      on_pbuf (write_fields (payload b) [(12, le32 src); (10, le16 0)]);;
      gen ← checksum_enabled n NETIF_CHECKSUM_GEN_IP;
      (if gen : bool then
         hdr ← on_pbuf (LOAD (payload b) (Z.to_nat IP_HLEN));
         on_pbuf (STORE (payload b + 10) (le16 (inet_chksum (payload b) hdr)))
       else mret tt);;
      m) s Post.
Proof.
  intros Hd Hc Hh Hl Ht Hm. unfold IP_HLEN in Hl.
  apply wp_bind. eapply wp_mono; [eapply (wp_fields cfg s Q P Own p b tl _ _ Hd Hc)|].
  { repeat (constructor; [cbn; lia|]). constructor. }
  intros _ s1 (Hd1 & Hc1 & On1). assert (Eid : idata s1 = idata s) by apply On1.
  rewrite patch_all_app in Hc1; [|rewrite Hh; repeat (constructor; [cbn; lia|]); constructor]. set (h1 := patch_all h _) in *.
  assert (Hh1 : length h1 = 20%nat) by (unfold h1; rewrite patch_all_length; rewrite Hh; [done|repeat (constructor; [cbn; lia|]); constructor]).
  apply wp_bind, wp_next_id. destruct (with_id_written s1 Q P Own p b tl _ (u16 (ip_id (idata s1) + 1)) Hd1 Hc1) as [Hd2 Hc2].
  set (s2 := with_id _ s1) in *.
  apply wp_bind. eapply wp_mono; [eapply (wp_fields cfg s2 Q P Own p b tl _ _ Hd2 Hc2)|].
  { repeat (constructor; [cbn; lia|]). constructor. }
  intros _ s3 (Hd3 & Hc3 & On3). rewrite patch_all_app in Hc3; [|rewrite Hh1; repeat (constructor; [cbn; lia|]); constructor].
  unfold h1 in Hc3. rewrite ip_header_fields in Hc3 by done.
  assert (On3' : only p (with_id (u16 (ip_id (idata s) + 1)) s) P s3 P).
  { destruct On1 as [T1 N1 D1 S1], On3 as [T3 N3 D3 S3]. constructor; [by rewrite T3|by rewrite N3|rewrite D3; unfold s2, with_id; cbn; by rewrite Eid|].
    intros q l Hq Hql. destruct (S1 q l Hq Hql) as [_ E1]. destruct (S3 q l Hq Hql) as [_ E3]. split; [done|]. by rewrite E3. }
  apply wp_bind. eapply wp_enabled; [apply Hd3|]. unfold sealed_header in Hm. destruct (enabled cfg n NETIF_CHECKSUM_GEN_IP).
  2:{ apply wp_bind, wp_ret. by apply Hm. }
  set (h3 := ip_header tos (tot_len b) (ip_id (idata s)) ttl proto src dest 0) in *.
  apply wp_bind, wp_bind. eapply wp_load_front; [exact Hd3|exact Hc3|unfold IP_HLEN; lia|].
  change (Z.to_nat IP_HLEN) with 20%nat. rewrite (take_app_length' h3) by done.
  rewrite inet_chksum_run; [|by apply ip_header_bytes|done].
  eapply wp_mono; [eapply (wp_store cfg s3 Q P Own p b tl _ 10 _ Hd3 Hc3); cbn; lia|]. intros _ s4 (Hd4 & Hc4 & On4).
  change (Z.to_nat 10) with 10%nat in Hc4. unfold h3 in Hc4. rewrite ip_header_seal in Hc4. apply Hm; [done|exact Hc4|by eapply only_trans].
Qed.

(** What [ip4_output_if] does with a packet: the packet of the upper layer behind a new header,
    over the given interface; nothing if there is no room for the header. *)
Definition sent_as_datagram (s s' : Ip) (Q : list (list (Z * Z))) (P : packets) (Own : gset Z) (n : Z) (ni : netif) (p : Z) (b : pbuf)
    (tl : list (Z * pbuf)) (c : list Z) (src dest ttl tos proto r : Z) : Prop :=
  if has_room IP_HLEN p b then
    let h := sealed_header (enabled cfg n NETIF_CHECKSUM_GEN_IP) tos (tot_len b + IP_HLEN) (ip_id (idata s)) ttl proto src dest in
    exists s1, datagram s s1 Q P Own n p b tl h c /\
      handed_over s1 s' Q (<[p := (p, grown IP_HLEN b) :: tl]> P) Own n ni p dest r
  else r = ERR_BUF /\ s' = s.

Lemma output_src_ok s Q P Own p b tl c src dest ttl tos proto n ni : holding cfg s Q P Own p b tl ->
  contents (pmem (ps (anet s))) ((p, b) :: tl) = Some c -> netifs (anet s) !! n = Some ni -> is_u8 tos ->
  wp (ip4_output_if_src p src (Some dest) ttl tos proto n) s (fun r s' => sent_as_datagram s s' Q P Own n ni p b tl c src dest ttl tos proto r).
Proof.
  intros Hd Hc Hn Ht. pose proof (hd_facts _ _ _ _ _ _ _ _ Hd) as [Hp Hb Hr Hct _ _ (Hu & Hl & Htl & Hpos) _ _ _]. unfold is_u16 in *.
  unfold ip4_output_if_src, sent_as_datagram. apply wp_bind. eapply wp_read; [exact Hd|]. apply wp_bind, wp_assert; [by rewrite Hr|].
  destruct (has_room IP_HLEN p b) eqn:E.
  2:{ apply wp_bind. destruct (add_header_run (ps (anet s)) p b IP_HLEN Hb Hp ltac:(done) Hu) as (r & Hr0 & Hrun); [lia|]. rewrite E in Hrun.
    eapply wp_pbuf_use; [exact Hrun|]. unfold nz. rewrite (proj2 (Z.eqb_neq r 0)) by done. apply wp_ret. split; [done|]. by destruct s as [? ? ? []]. }
  pose proof (proj1 (has_room_iff _ _ _ Hct) E) as Hroom. apply wp_bind. eapply wp_add; [exact Hd|done|done|].
  change (nz 0) with false. cbv iota. destruct (hd_grow _ _ _ _ _ _ _ _ _ Hd (conj eq_refl eq_refl : 0 < IP_HLEN < 65536) Hroom) as [Hd1 Hst1].
  set (s1 := reheaded s p _) in *. set (P1 := <[p := _]> P) in *. destruct (hf_contents _ _ _ _ (hd_facts _ _ _ _ _ _ _ _ Hd1)) as [c0 Hc0].
  destruct (grown_contents _ _ _ _ _ _ _ Hc Hc0 ltac:(done) ltac:(lia)) as (h & Hh & ->).
  apply wp_bind. eapply wp_read; [exact Hd1|]. cbv zeta.
  apply wp_bind, wp_assert; [cbn; apply Z.leb_le; unfold IP_HLEN; lia|].
  apply wp_bind, wp_ip_get. apply (header_ok s1 Q P1 Own p (grown IP_HLEN b) tl h c); [done|done|by rewrite Hh|cbn; unfold IP_HLEN; lia|done|].
  intros s2 Hd2 Hc2 On2. eapply wp_mono; [eapply hand_over; [exact Hd2|]|].
  { rewrite (on_netifs _ _ _ _ _ On2). exact Hn. }
  intros r s' Hr'. exists s2. split; [|exact Hr']. split; [exact Hd2|]. split; [exact Hc2|].
  split; [by rewrite (on_dev _ _ _ _ _ On2 : idata s2 = _)|]. split; [exact (on_table _ _ _ _ _ On2)|]. split; [exact (on_netifs _ _ _ _ _ On2)|].
  eapply stays_weaken; [|eapply stays_trans; [exact Hst1|exact (on_stays _ _ _ _ _ On2)]]. intros q. rewrite elem_of_app. tauto.
Qed.

(** The packet that has its header already. *)
Lemma output_hdrincl_ok s Q P Own p b tl c src ttl tos proto n ni : holding cfg s Q P Own p b tl ->
  contents (pmem (ps (anet s))) ((p, b) :: tl) = Some c -> netifs (anet s) !! n = Some ni -> IP_HLEN <= len b ->
  wp (ip4_output_if_src p src None ttl tos proto n) s (fun r s' => handed_over s s' Q P Own n ni p (get32 c 16) r).
Proof.
  intros Hd Hc Hn Hl. unfold IP_HLEN in *. pose proof (hd_ref _ _ _ _ _ _ _ _ Hd) as Hr. unfold ip4_output_if_src.
  apply wp_bind. eapply wp_read; [exact Hd|]. apply wp_bind, wp_assert; [by rewrite Hr|].
  unfold IP_HLEN. rewrite (proj2 (Z.ltb_ge (len b) 20)) by lia. apply wp_bind. eapply wp_load; [exact Hd|exact Hc|lia|lia|].
  replace (get32 (take 4 (drop (Z.to_nat 16) c)) 0) with (get32 c 16); [by eapply hand_over|].
  unfold get32, get16. rewrite !list_lookup_total_alt. change (Z.to_nat 16) with 16%nat. rewrite !lookup_take_lt, !lookup_drop by lia. done.
Qed.

Definition source (ni : netif) (src : Z) : Z := if ip4_addr_isany src then ip_addr (inet ni) else src.
Lemma output_if_ok s Q P Own p b tl c src dest ttl tos proto n ni : holding cfg s Q P Own p b tl ->
  contents (pmem (ps (anet s))) ((p, b) :: tl) = Some c -> netifs (anet s) !! n = Some ni -> is_u8 tos ->
  wp (ip4_output_if p src (Some dest) ttl tos proto n) s (fun r s' =>
    sent_as_datagram s s' Q P Own n ni p b tl c (source ni src) dest ttl tos proto r).
Proof.
  intros Hd Hc Hn Ht. unfold ip4_output_if, source. destruct (ip4_addr_isany src); [|by apply output_src_ok].
  apply wp_bind. eapply wp_netif; [exact Hn|]. by apply output_src_ok.
Qed.

Lemma datagram_ok s s' Q P Own n ni p b tl c src dest ttl tos proto r : holding cfg s Q P Own p b tl ->
  sent_as_datagram s s' Q P Own n ni p b tl c src dest ttl tos proto r ->
  exists Q' P', arp_ok s' Q' P' Own /\ netifs (anet s') = netifs (anet s).
Proof.
  intros Hd. unfold sent_as_datagram. destruct (has_room _ _ _).
  - intros (s1 & (_ & _ & _ & _ & Hn & _) & Q' & P' & Hok & Hn' & _). exists Q', P'. split; [done|congruence].
  - intros [_ ->]. exists Q, P. split; [apply Hd|done].
Qed.
Lemma ip_output_ok s Q P Own p b tl c src dest ttl tos proto : holding cfg s Q P Own p b tl ->
  contents (pmem (ps (anet s))) ((p, b) :: tl) = Some c -> config_ok (netifs (anet s)) -> is_u8 tos ->
  wp (ip4_output p src dest ttl tos proto) s (fun r s' =>
    let n := route (netifs (anet s)) dest in
    if n =? 0 then r = ERR_RTE /\ s' = s
    else exists ni, netifs (anet s) !! n = Some ni /\ usable ni = true /\
      sent_as_datagram s s' Q P Own n ni p b tl c (source ni src) dest ttl tos proto r).
Proof.
  intros Hd Hc Hcf Ht. unfold ip4_output. apply wp_bind. eapply wp_read; [exact Hd|].
  apply wp_bind, wp_assert; [by rewrite (hd_ref _ _ _ _ _ _ _ _ Hd)|].
  apply wp_bind. eapply wp_mono; [apply (route_ok s Q P Own dest (hd_ok _ _ _ _ _ _ _ _ Hd) Hcf)|]. intros n s1 [-> ->].
  cbv zeta. destruct (Z.eqb_spec (route (netifs (anet s)) dest) 0) as [_|Hn]; [by apply wp_ret|].
  destruct (route_usable _ _ Hcf Hn) as (ni & Hni & Hu).
  eapply wp_mono; [by eapply output_if_ok|]. intros r s' Hs'. exists ni. split; [exact Hni|]. split; [exact Hu|exact Hs'].
Qed.

(** ** A packet of our own *)

Lemma own_more (s : Ip) Q P Own q b l : arp_ok s Q P Own -> ~ (q ∈ pkts Q) -> P !! q = Some ((q, b) :: l) -> arp_ok s Q P ({[q]} ∪ Own).
Proof.
  intros [[C1 C2 C3 C4 C5 C6 C7] T Hca] Hq Hb. constructor; [|done|done]. constructor; try done.
  intros x [->%elem_of_singleton|Hx]%elem_of_union; [|by apply C6]. exists b, l. split; [done|]. by intros ?%Hq.
Qed.

Lemma alloc_ok (s : Ip) Q P Own layer n : arp_ok s Q P Own -> is_u16 n -> 0 <= layer <= 100 ->
  wp (on_pbuf (pbuf_alloc layer n PBUF_RAM)) s (fun r s' => exists t, s' = set_anet (set_ps t (anet s)) s /\ pmem t = pmem (ps (anet s)) /\
    (r = 0 /\ arp_ok s' Q P Own \/
     r <> 0 /\ P !! r = None /\ ~ (r ∈ Own) /\
     let b := fresh_at (LWIP_MEM_ALIGN_SIZE layer) r n in holding cfg s' Q (<[r := [(r, b)]]> P) ({[r]} ∪ Own) r b [])).
Proof.
  intros Hok Hn Hl. pose proof (core_net _ _ _ _ _ _ (ok_core _ _ _ _ Hok)) as [Hh Hni Hdv].
  destruct (alloc_at_held _ _ _ layer n Hh Hn Hl) as (r & t & Hrun & Hm & Hcase).
  eapply wp_pbuf_use; [exact Hrun|]. exists t. split; [done|]. split; [done|]. destruct Hcase as [[-> Ht]|(Hr & HPr & Ht)]; [left|right].
  - split; [done|]. apply ok_set_net; [done|by constructor|done].
  - assert (Hq : ~ (r ∈ pkts Q)).
    { intros Hin. destruct (core_pinned _ _ _ _ _ _ (ok_core _ _ _ _ Hok) r Hin) as [l Hl']. congruence. }
    assert (Hno : ~ (r ∈ Own)).
    { intros Hin. destruct (core_own _ _ _ _ _ _ (ok_core _ _ _ _ Hok) r Hin) as (b & l & Hb & _). congruence. }
    do 3 (split; [done|]). cbv zeta. set (b := fresh_at _ r n) in *. 
    assert (Hok' : arp_ok (set_anet (set_ps t (anet s)) s) Q (<[r := [(r, b)]]> P) Own).
    { eapply (ok_pbuf cfg s Q P _ Own r b []); [done|done|exact Ht|apply lookup_insert_eq|]. intros q Hne. by rewrite lookup_insert_ne. }
    constructor; [eapply own_more; [exact Hok'|done|apply lookup_insert_eq]|set_solver|done|apply lookup_insert_eq|done|done].
Qed.
End Output.
