(* ===== verification/IcmpOk.v ===== *)
(** LWIP/src/core/ipv4/icmp.c: what becomes of an ICMP message, the reply to an echo
    request and the messages of our own. *)
From S2P Require Import Prelude CMem Memp Pbuf IpAddr Packets Ethernet Etharp EtharpInv EtharpOk EtharpIo EthInput Checksum Ip4 PacketsIp Ip4Ok Ip4Out.

(** A message with no fields of its own and the start of the packet it is about. *)
Definition icmp_error (chk type code : Z) (data : list Z) : list Z := [type; code] ++ le16 chk ++ [0; 0; 0; 0] ++ data.
Definition error_sum (type code : Z) (data : list Z) : Z := checksum (icmp_error 0 type code data).

Lemma patch_tail h d xs : length d = length xs -> patch (length h) xs (h ++ d) = h ++ xs.
Proof. intros Hd. unfold patch. rewrite take_app_length, drop_ge by (rewrite length_app; lia). by rewrite app_nil_r. Qed.
Lemma icmp_error_fields h type code d data : length h = 8%nat -> length d = length data ->
  patch 2 (le16 0) (patch 8 data (patch_all (h ++ d) [(0, [type]); (1, [code]); (4, le16 0); (6, le16 0)])) = icmp_error 0 type code data.
Proof.
  intros Hh Hd. rewrite patch_all_app; [|rewrite Hh; repeat (constructor; [cbn; lia|]); constructor].
  do 8 (destruct h as [|? h]; [done|]). destruct h; [|done]. 
  set (h' := patch_all _ _). change 8%nat with (length h'). by rewrite patch_tail.
Qed.
Lemma icmp_error_seal type code data chk : patch 2 (le16 chk) (icmp_error 0 type code data) = icmp_error chk type code data.
Proof. reflexivity. Qed.

(** The reply to an echo request [c] with a header of [hl] bytes. *)
Definition pong (gen_ip gen_icmp : bool) (hl : Z) (src dest : Z) (c : list Z) : list Z :=
  let r := patch_all c [(12, le32 src); (16, le32 dest); (hl, [ICMP_ER]);
    (hl + 2, if gen_icmp then le16 (adjusted (get16 c (Z.to_nat (hl + 2)))) else le16 0); (8, [ICMP_TTL]); (10, le16 0)] in
  if gen_ip then patch 10 (le16 (checksum (take (Z.to_nat hl) r))) r else r.

Lemma patch_behind n h m off xs : length h = n -> patch (n + off) xs (h ++ m) = h ++ patch off xs m.
Proof.
  intros <-. unfold patch. rewrite take_app_add. rewrite <- !app_assoc. do 3 f_equal.
  replace (length h + off + length xs)%nat with (length h + (off + length xs))%nat by lia. apply drop_app_add.
Qed.

(** The header and the message of the reply. *)
Definition pong_header (gen_ip : bool) (src dest : Z) (h : list Z) : list Z :=
  let h := patch_all h [(12, le32 src); (16, le32 dest); (8, [ICMP_TTL]); (10, le16 0)] in
  if gen_ip then patch 10 (le16 (checksum h)) h else h.
Definition pong_message (gen_icmp : bool) (m : list Z) : list Z :=
  patch 2 (if gen_icmp then le16 (adjusted (get16 m 2)) else le16 0) (patch 0 [ICMP_ER] m).

Lemma pong_parts gi gm src dest h m : (20 <= length h)%nat -> (4 <= length m)%nat ->
  pong gi gm (Z.of_nat (length h)) src dest (h ++ m) = pong_header gi src dest h ++ pong_message gm m.
Proof.
  intros Hh Hm. unfold pong, pong_header, pong_message, patch_all. cbn [foldl fst snd]. set (n := length h) in *. rewrite Nat2Z.id.
  replace (Z.to_nat (Z.of_nat n + 2)) with (n + 2)%nat by lia.
  assert (E : get16 (h ++ m) (n + 2) = get16 m 2).
  { unfold get16. rewrite !list_lookup_total_alt, !lookup_app_r by lia. fold n.
    replace (n + 2 - n)%nat with 2%nat by lia. by replace (S (n + 2) - n)%nat with 3%nat by lia. }
  rewrite E. set (v := if gm then _ else _). clearbody v.
  change (Z.to_nat 12) with 12%nat. change (Z.to_nat 16) with 16%nat. change (Z.to_nat 8) with 8%nat. change (Z.to_nat 10) with 10%nat.
  assert (L : forall off xs a, (off + length xs <= 20)%nat -> length a = n -> length (patch off xs a) = n).
  { intros off xs a Ho Ha. rewrite patch_length; [done|lia]. }
  assert (L1 := L 12%nat (le32 src) h ltac:(cbn; lia) eq_refl). rewrite (patch_app 12) by (cbn; lia).
  assert (L2 := L 16%nat (le32 dest) _ ltac:(cbn; lia) L1). rewrite (patch_app 16) by (rewrite L1; cbn; lia).
  set (h2 := patch 16 _ _) in *. pose proof (patch_behind n h2 m 0 [ICMP_ER] L2) as E0. rewrite Nat.add_0_r in E0. rewrite E0.
  rewrite (patch_behind n h2 _ 2 v L2).
  assert (L3 := L 8%nat [ICMP_TTL] h2 ltac:(cbn; lia) L2). rewrite (patch_app 8) by (rewrite L2; cbn; lia).
  assert (L4 := L 10%nat (le16 0) _ ltac:(cbn; lia) L3). rewrite (patch_app 10) by (rewrite L3; cbn; lia).
  set (h4 := patch 10 _ _) in *. destruct gi; [|done]. rewrite (take_app_length' h4) by lia. apply patch_app. rewrite L4. cbn. lia.
Qed.

(** The reply verifies: its header and, if the request did, its message. *)
Lemma pong_header_checks src dest h : bytes h -> (20 <= length h)%nat -> checksum (pong_header true src dest h) = 0.
Proof.
  intros Hb Hh. unfold pong_header, patch_all. cbn [foldl fst snd].
  change (Z.to_nat 12) with 12%nat. change (Z.to_nat 16) with 16%nat. change (Z.to_nat 8) with 8%nat. change (Z.to_nat 10) with 10%nat.
  set (h3 := patch 8 _ _). assert (L3 : length h3 = length h) by (unfold h3; rewrite !patch_length; cbn; rewrite ?patch_length; cbn; rewrite ?patch_length; cbn; lia).
  assert (Hb3 : bytes h3) by (unfold h3; repeat apply patch_bytes; try apply le32_bytes; [by repeat constructor|done]).
  change (le16 0) with [0; 0]. rewrite patch_twice by (cbn; lia). apply patched_checks; [done|done|lia].
Qed.

Lemma adjusted_sum code k R : is_u16 k -> 0 <= code -> 0 <= R -> oc (ICMP_ECHO + 256 * code + (k + R)) = 65535 ->
  is_u16 (adjusted k) /\ oc (0 + 256 * code + (adjusted k + R)) = 65535.
Proof.
  intros Hk Hc HR Ho. unfold adjusted. change (lwip_htons (65535 - ICMP_ECHO * 256)) with 65527. change (lwip_htons (ICMP_ECHO * 256)) with 8.
  unfold ICMP_ECHO, is_u16 in *. destruct (Z.ltb_spec 65527 k).
  - assert (Ea : u16 (k + 8 + 1) = k - 65527) by zlia. rewrite Ea. split; [lia|]. revert Ho. unfold oc.
    destruct (Z.eqb_spec (8 + 256 * code + (k + R)) 0), (Z.eqb_spec (0 + 256 * code + (k - 65527 + R)) 0); [lia..|].
    replace (0 + 256 * code + (k - 65527 + R) - 1) with (8 + 256 * code + (k + R) - 1 + (-1) * 65535) by lia. by rewrite Z.mod_add.
  - rewrite u16_small by (unfold is_u16; lia). split; [lia|]. rewrite <- Ho. f_equal. lia.
Qed.

Lemma pong_message_checks m : bytes m -> (4 <= length m)%nat -> m !!! 0%nat = ICMP_ECHO -> checksum m = 0 -> checksum (pong_message true m) = 0.
Proof.
  intros Hb Hl H8 Hc. do 4 (destruct m as [|? m]; [cbn in Hl; lia|]). cbn in H8. subst. rename z0 into code, z1 into k0, z2 into k1.
  do 4 (apply Forall_cons in Hb as [? Hb]). pose proof (word_sum_pos _ Hb) as HR. unfold checksum in *. cbn [word_sum] in Hc.
  unfold pong_message. change (get16 (ICMP_ECHO :: code :: k0 :: k1 :: m) 2) with (k0 + 256 * k1).
  set (a := adjusted _). change (patch 2 (le16 a) _) with (ICMP_ER :: code :: a mod 256 :: a / 256 mod 256 :: drop 0 m). rewrite drop_0. cbn [word_sum].
  destruct (adjusted_sum code (k0 + 256 * k1) (word_sum m)) as [Ha Ho]; unfold is_u8, is_u16 in *; [lia|lia|lia| |].
  { pose proof Hc as Hc'. rewrite <- Z.add_assoc in Hc'. lia. }
  fold a in Ha, Ho. unfold ICMP_ER. replace (a mod 256 + 256 * (a / 256 mod 256)) with a by zlia. rewrite <- Z.add_assoc in Ho |- *. lia.
Qed.

Section Icmp.
Context {A D : Type} `{PbufHeap A} `{LinkOk D} (cfg : ip_config).
#[local] Hint Extern 0 (@LinkOk (ip_state D) _) => exact (ip_link_ok (D := D) cfg) : typeclass_instances.
Abbreviation Ip := (arp A (ip_state D)).
Abbreviation packets := (gmap Z (list (Z * pbuf))).

(** What a call does that takes over the packet it is given. *)
Definition takes {X} (m : M Ip X) (s : Ip) (Own : gset Z) (p : Z) : Prop :=
  wp m s (fun _ s' => exists Q' P', arp_ok s' Q' P' (Own ∖ {[p]}) /\ netifs (anet s') = netifs (anet s)).

Lemma give_up_all s Q P Own p : arp_ok s Q P Own -> p ∈ Own -> takes (on_pbuf (pbuf_free p);; mret tt) s Own p.
Proof.
  intros Hok Hp. apply wp_bind. eapply wp_mono; [by apply (give_up_ok cfg s Q P Own p)|].
  intros _ s' (P' & ? & ? & _). apply wp_ret. by exists Q, P'.
Qed.

(** ** "Destination unreachable" *)

Lemma packet_length s Q P Own p b c : holding cfg s Q P Own p b [] -> contents (pmem (ps (anet s))) [(p, b)] = Some c -> length c = Z.to_nat (len b).
Proof.
  intros Hd Hc. pose proof (hf_lens_ok _ _ _ _ (hd_facts _ _ _ _ _ _ _ _ Hd)) as Hl. pose proof (contents_total _ _ _ Hl Hc) as Ht.
  rewrite total_single in Ht. cbn [snd] in Ht. lia.
Qed.

(** The message is put together in the new packet, from [k] bytes that lie at [src]. *)
Lemma error_body_ok s Q P Own q bq type code src k (good : list Z -> Prop) (m : M Ip unit) Post : holding cfg s Q P Own q bq [] ->
  0 <= k -> len bq = 8 + k ->
  (forall s1, holding cfg s1 Q P Own q bq [] -> only q s P s1 P ->
     exists data, load_bytes (pmem (ps (anet s1))) src (Z.to_nat k) = Some data /\ good data) ->
  (forall s' h d data, holding cfg s' Q P Own q bq [] -> only q s P s' P -> Z.of_nat (length data) = k -> good data -> length h = 8%nat -> length d = length data ->
     contents (pmem (ps (anet s'))) [(q, bq)] =
       Some (patch 8 data (patch_all (h ++ d) [(0, [type]); (1, [code]); (4, le16 0); (6, le16 0)])) -> wp m s' Post) ->
  wp (on_pbuf (write_fields (payload bq) [(0, [type]); (1, [code]); (4, le16 0); (6, le16 0)]);;
      on_pbuf (MEMCPY (payload bq + SIZEOF_ICMP_ECHO_HDR) src k);; m) s Post.
Proof.
  intros Hd Hk Hl Hs Hm. destruct (hf_contents _ _ _ _ (hd_facts _ _ _ _ _ _ _ _ Hd)) as [c0 Hc0].
  pose proof (packet_length _ _ _ _ _ _ _ Hd Hc0) as Hlen. pose proof (take_drop 8 c0) as Ec.
  assert (Hh : length (take 8 c0) = 8%nat) by (rewrite length_take; lia). assert (Hdl : length (drop 8 c0) = Z.to_nat k) by (rewrite length_drop; lia).
  rewrite <- Ec in Hc0. unfold SIZEOF_ICMP_ECHO_HDR.
  apply wp_bind. eapply wp_mono; [eapply (wp_fields cfg s Q P Own q bq [] _ _ Hd Hc0)|].
  { repeat (constructor; [cbn; lia|]). constructor. }
  intros _ s1 (Hd1 & Hc1 & On1). destruct (Hs s1 Hd1 On1) as (data & Hld & Hg). pose proof (load_bytes_length _ _ _ _ Hld) as Hdata.
  replace k with (Z.of_nat (length data)) by lia. rewrite <- Hdata in Hld. apply wp_bind.
  eapply wp_mono; [eapply (wp_copy cfg s1 Q P Own q bq [] _ 8 src data Hd1 Hc1 Hld); lia|].
  intros _ s2 (Hd2 & Hc2 & On2). apply (Hm s2 (take 8 c0) (drop 8 c0) data); [done|by eapply only_trans|lia|done|done|congruence|exact Hc2].
Qed.

(** The quoted bytes, and the address they come from. *)
Definition quoted (s : Ip) (b : pbuf) (tl : list (Z * pbuf)) (p : Z) (k : Z) (data : list Z) : Prop :=
  forall c, contents (pmem (ps (anet s))) ((p, b) :: tl) = Some c -> k <= len b -> data = take (Z.to_nat k) c.
Definition quote_len (b : pbuf) : Z :=
  if tot_len b <? IP_HLEN + ICMP_DEST_UNREACH_DATASIZE then tot_len b else IP_HLEN + ICMP_DEST_UNREACH_DATASIZE.

(** The message is sent to the source of the packet it is about, if there is memory and a route. *)
Definition error_sent (s s' : Ip) (p : Z) (b : pbuf) (tl : list (Z * pbuf)) (type code : Z) : Prop :=
  dev (anet s') = dev (anet s) \/
  exists s1 s2 Q P Own q bq data chk dest ni r, let n := route cfg (netifs (anet s)) dest in
    quoted s b tl p (quote_len b) data /\ netifs (anet s) !! n = Some ni /\ usable ni = true /\
    (forall c, contents (pmem (ps (anet s))) ((p, b) :: tl) = Some c -> 16 <= len b -> dest = get32 c 12) /\
    (bytes data -> is_u8 type -> is_u8 code -> chk = if enabled cfg n NETIF_CHECKSUM_GEN_ICMP then error_sum type code data else 0) /\
    sent_as_datagram cfg s1 s2 Q P Own n ni q bq [] (icmp_error chk type code data) (ip_addr (inet ni)) dest ICMP_TTL 0 IP_PROTO_ICMP r /\
    idata s1 = idata s /\ dev (anet s') = dev (anet s2).

(** Another packet that is held stays held. *)
Lemma hd_other s s' Q P P' Own Own' p b tl : holding cfg s Q P Own p b tl -> arp_ok s' Q P' Own' -> Own ⊆ Own' ->
  P' !! p = P !! p -> holding cfg s' Q P' Own' p b tl.
Proof. intros [H1' H2' H3' H4' H5' H6'] Hok Hsub HP. constructor; [done|by apply Hsub|done|congruence|done|done]. Qed.

(** The checksum is filled in. *)
Lemma seal_error s Q P Own q bq n type code data (m : M Ip unit) Post : holding cfg s Q P Own q bq [] ->
  contents (pmem (ps (anet s))) [(q, bq)] = Some (icmp_error 0 type code data) -> is_u16 (len bq) ->
  (forall s' chk, holding cfg s' Q P Own q bq [] -> only q s P s' P -> contents (pmem (ps (anet s'))) [(q, bq)] = Some (icmp_error chk type code data) ->
     (bytes data -> is_u8 type -> is_u8 code -> chk = if enabled cfg n NETIF_CHECKSUM_GEN_ICMP then error_sum type code data else 0) -> wp m s' Post) ->
  wp (gen ← checksum_enabled n NETIF_CHECKSUM_GEN_ICMP;
      (if gen : bool then
         bs ← on_pbuf (LOAD (payload bq) (Z.to_nat (len bq)));
         on_pbuf (STORE (payload bq + 2) (le16 (inet_chksum (payload bq) bs)))
       else mret tt);; m) s Post.
Proof.
  intros Hd Hc Hl Hm. pose proof (packet_length _ _ _ _ _ _ _ Hd Hc) as Hlen. unfold is_u16 in Hl.
  assert (H8 : (8 <= length (icmp_error 0 type code data))%nat) by (cbn; lia).
  apply wp_bind. eapply wp_enabled; [apply Hd|]. destruct (enabled cfg n NETIF_CHECKSUM_GEN_ICMP).
  2:{ apply wp_bind, wp_ret. apply (Hm s 0); [done|apply only_refl|done|done]. }
  apply wp_bind, wp_bind. eapply wp_load_front; [exact Hd|exact Hc|lia|]. rewrite take_ge by lia.
  eapply wp_mono; [eapply (wp_store cfg s Q P Own q bq [] _ 2 _ Hd Hc); cbn; lia|]. intros _ s1 (Hd1 & Hc1 & On1).
  change (Z.to_nat 2) with 2%nat in Hc1. rewrite icmp_error_seal in Hc1. eapply Hm; [done|done|exact Hc1|].
  intros Hb Ht Hcd. apply inet_chksum_run; [|rewrite Hlen; unfold is_u16; lia].
  unfold icmp_error. rewrite !Forall_app. split; [by do 2 (constructor; [done|])|]. split; [apply le16_bytes|]. split; [by repeat constructor|done].
Qed.

Lemma response_ok s Q P Own p b tl type code : holding cfg s Q P Own p b tl -> config_ok cfg (netifs (anet s)) ->
  payload b + 28 <= arena_hi ->
  wp (icmp_send_response p type code) s (fun _ s' => exists Q' P', arp_ok s' Q' P' Own /\ netifs (anet s') = netifs (anet s) /\
    error_sent s s' p b tl type code).
Proof.
  intros Hd Hcf Har. destruct (hd_facts _ _ _ _ _ _ _ _ Hd) as [Hp _ _ _ _ _ (Ht & Hl & Htl & Hpos) _ _ _]. unfold is_u16 in *.
  unfold icmp_send_response. apply wp_bind. eapply wp_read; [exact Hd|]. fold (quote_len b). cbv zeta.
  assert (Hk : 0 <= quote_len b <= 28).
  { unfold quote_len, IP_HLEN, ICMP_DEST_UNREACH_DATASIZE. destruct (Z.ltb_spec (tot_len b) (20 + 8)); lia. }
  set (k := quote_len b) in *. unfold SIZEOF_ICMP_ECHO_HDR at 1.
  apply wp_bind. eapply wp_mono; [apply (alloc_ok cfg s Q P Own PBUF_IP (8 + k)); [apply Hd|unfold is_u16; lia|by unfold PBUF_IP]|].
  intros q ? (t & -> & Hm & [[-> Hok]|(Hq & HPq & HqO & Hdq)]).
  { apply wp_ret. exists Q, P. split; [done|]. split; [done|]. by left. }
  destruct (Z.eqb_spec q 0) as [|_]; [done|]. set (s1 := set_anet _ s) in *. cbv zeta in Hdq. set (bq := fresh_at _ q (8 + k)) in *.
  set (P1 := <[q := _]> P) in *. assert (Hpq : p <> q) by (intros ->; pose proof (hd_at _ _ _ _ _ _ _ _ Hd); congruence).
  assert (HP1 : P1 !! p = P !! p) by (unfold P1; by rewrite lookup_insert_ne).
  assert (Hother : forall s', holding cfg s' Q P1 ({[q]} ∪ Own) q bq [] -> holding cfg s' Q P1 ({[q]} ∪ Own) p b tl).
  { intros s' Hd'. eapply hd_other; [exact Hd|apply Hd'|set_solver|done]. }
  assert (Hkeep : forall s' c, only q s1 P1 s' P1 -> contents (pmem (ps (anet s))) ((p, b) :: tl) = Some c -> contents (pmem (ps (anet s'))) ((p, b) :: tl) = Some c).
  { intros s' c On Hc. destruct (on_stays _ _ _ _ _ On p ((p, b) :: tl)) as [_ E]; [by apply ne_single|rewrite HP1; apply Hd|].
    rewrite E. cbn. by rewrite Hm. }
  apply wp_bind. eapply wp_read; [exact Hdq|].
  apply wp_bind, wp_assert; [apply Z.leb_le; change (len bq) with (8 + k); unfold SIZEOF_ICMP_ECHO_HDR; lia|].
  eapply (error_body_ok s1 Q P1 _ q bq type code (payload b) k (quoted s b tl p k)); [exact Hdq|lia|done|..].
  { intros s2 Hd2 On2. destruct (peek cfg s2 _ _ _ p b tl 0 (Z.to_nat k) (Hother _ Hd2)) as (data & Hld & Hkn); [done|lia|].
    rewrite Z.add_0_r in Hld. exists data. split; [done|]. intros c Hc Hkl. apply (Hkn c); [by apply Hkeep|lia]. }
  intros s2 h d data Hd2 On2 Hdata Hgood Hh Hdl Hc2.
  apply wp_bind. eapply (wp_peek cfg s2 _ _ _ p b tl 12); [by apply Hother|done|lia|]. intros bs Hbs Hkn. set (dest := get32 bs 0).
  assert (Hcf2 : config_ok cfg (netifs (anet s2))) by (by rewrite (on_netifs _ _ _ _ _ On2)).
  apply wp_bind. eapply wp_mono; [apply (route_ok cfg s2 Q P1 _ dest (hd_ok _ _ _ _ _ _ _ _ Hd2) Hcf2)|]. intros n ? [-> ->].
  set (n := route cfg (netifs (anet s2)) dest) in *.
  (* the reference to the message is given up in the end *)
  assert (Hend : forall s3 Q3 P3, arp_ok s3 Q3 P3 ({[q]} ∪ Own) -> netifs (anet s3) = netifs (anet s) ->
    (dev (anet s3) = dev (anet s) \/ (forall s', dev (anet s') = dev (anet s3) -> error_sent s s' p b tl type code)) ->
    wp (on_pbuf (pbuf_free q);; mret tt) s3 (fun _ s' => exists Q' P', arp_ok s' Q' P' Own /\ netifs (anet s') = netifs (anet s) /\
      error_sent s s' p b tl type code)).
  { intros s3 Q3 P3 Hok3 Hn3 Hs3. apply wp_bind. eapply wp_mono; [apply (give_up_ok cfg s3 Q3 P3 _ q Hok3); set_solver|].
    intros _ s4 (P4 & Hok4 & Hn4 & Hd4 & _). apply wp_ret. exists Q3, P4.
    replace (({[q]} ∪ Own) ∖ {[q]}) with Own in Hok4 by set_solver. split; [done|]. split; [congruence|].
    destruct Hs3 as [E|Hs3]; [left; congruence|by apply Hs3]. }
  destruct (Z.eqb_spec n 0) as [_|Hn0]; cbn [negb].
  { apply wp_bind, wp_ret. apply (Hend s2 Q P1); [apply Hd2|apply (on_netifs _ _ _ _ _ On2)|left; apply (on_dev _ _ _ _ _ On2)]. }
  apply wp_bind. eapply (wp_mono _ _ (fun _ s' => exists Q3 P3, arp_ok s' Q3 P3 ({[q]} ∪ Own) /\ netifs (anet s') = netifs (anet s) /\
    forall s6, dev (anet s6) = dev (anet s') -> error_sent s s6 p b tl type code)).
  2:{ intros _ s' (Q3 & P3 & Hok3 & Hn3 & Hs3). apply (Hend s' Q3 P3); [done|done|by right]. }
  apply wp_bind. eapply wp_mono; [eapply (wp_store cfg s2 Q P1 _ q bq [] _ 2 _ Hd2 Hc2); [done|cbn; lia]|].
  intros _ s3 (Hd3 & Hc3 & On3). change (Z.to_nat 2) with 2%nat in Hc3. rewrite icmp_error_fields in Hc3 by done.
  eapply (seal_error s3 Q P1 _ q bq n type code data); [exact Hd3|exact Hc3|unfold is_u16; cbn; lia|].
  intros s4 chk Hd4 On4 Hc4 Hchk.
  assert (On : only q s1 P1 s4 P1) by (eapply only_trans; [exact On2|]; by eapply only_trans).
  destruct (route_usable cfg _ dest Hcf2 Hn0) as (ni & Hni & Hus). fold n in Hni. rewrite (on_netifs _ _ _ _ _ On2) in Hni.
  apply wp_bind. eapply wp_mono; [eapply (output_if_ok cfg s4 Q P1 _ q bq []); [exact Hd4|exact Hc4| |done]|].
  { rewrite (on_netifs _ _ _ _ _ On). exact Hni. }
  intros r s5 Hs5. cbv beta in Hs5. change (source ni 0) with (ip_addr (inet ni)) in Hs5.
  destruct (datagram_ok _ _ _ _ _ _ _ _ _ _ _ _ _ _ _ _ _ _ Hd4 Hs5) as (Q5 & P5 & Hok5 & Hn5). apply wp_ret. exists Q5, P5. split; [done|].
  split; [rewrite Hn5; exact (on_netifs _ _ _ _ _ On)|]. intros s6 E6. right.
  exists s4, s5, Q, P1, ({[q]} ∪ Own), q, bq, data, chk, dest, ni, r.
  assert (En : route cfg (netifs (anet s)) dest = n) by (unfold n; by rewrite (on_netifs _ _ _ _ _ On2)).
  cbv zeta. rewrite En. split; [exact Hgood|]. split; [exact Hni|]. split; [exact Hus|]. split.
  { intros c Hc Hlc. specialize (Hkn c (Hkeep _ _ On2 Hc) ltac:(lia)). unfold dest. rewrite Hkn. unfold get32, get16.
    rewrite !list_lookup_total_alt. change (Z.to_nat 12) with 12%nat. by rewrite !lookup_take_lt, !lookup_drop by lia. }
  split; [exact Hchk|]. split; [exact Hs5|]. split; [exact (on_dev _ _ _ _ _ On)|exact E6].
Qed.

(** ** Echo *)

(** A packet that the layer passes up: its header lies in front of it, with room for a link header. *)
Record upper (s : Ip) (p inp : Z) (b : pbuf) (tl : list (Z * pbuf)) (hl : Z) (c : list Z) : Prop := {
  up_inp : is_Some (netifs (anet s) !! inp);
  up_current : is_Some (netifs (anet s) !! current_netif (ip_data (idata s)));
  up_hlen : 20 <= hl <= 60 /\ IPH_HL_BYTES c = hl;
  up_header : current_ip4_header (ip_data (idata s)) = payload b - hl;
  up_room : room (hl + PBUF_LINK_HLEN) p b;
  up_arena : payload b + len b + 8 <= arena_hi;
  up_contents : contents (pmem (ps (anet s))) ((p, grown hl b) :: tl) = Some c
}.

Lemma patch_all_snoc c fs f : patch_all c (fs ++ [f]) = patch (Z.to_nat f.1) f.2 (patch_all c fs).
Proof. unfold patch_all. by rewrite foldl_app. Qed.
Lemma patch_all_more c fs gs : patch_all (patch_all c fs) gs = patch_all c (fs ++ gs).
Proof. unfold patch_all. by rewrite foldl_app. Qed.

(** The bytes of [c] that no write reached are read as they were. *)
Lemma bytes_patched fs c : Forall (fun f => bytes f.2) fs -> bytes c -> bytes (patch_all c fs).
Proof.
  revert c. unfold patch_all. induction fs as [|f fs IH]; intros c Hfs Hc; [done|]. apply Forall_cons in Hfs as [Hf Hfs].
  apply IH; [done|by apply patch_bytes].
Qed.
Lemma get_patched_before c off xs k : (S k < off)%nat -> (off + length xs <= length c)%nat -> get16 (patch off xs c) k = get16 c k.
Proof.
  intros Hk Hl. unfold get16, patch. rewrite !list_lookup_total_alt, !lookup_app_l by (rewrite length_take; lia). by rewrite !lookup_take_lt by lia.
Qed.
Lemma get_patched_after c off xs k : (off + length xs <= k)%nat -> (off + length xs <= length c)%nat -> get16 (patch off xs c) k = get16 c k.
Proof.
  intros Hk Hl. unfold get16, patch. rewrite !list_lookup_total_alt.
  assert (E : forall j, (off + length xs <= j)%nat -> (take off c ++ xs ++ drop (off + length xs) c) !! j = c !! j).
  { intros j Hj. rewrite app_assoc, lookup_app_r by (rewrite length_app, length_take; lia). rewrite length_app, length_take, lookup_drop. f_equal. lia. }
  by rewrite !E by lia.
Qed.

Lemma echo_reply_ok s Q P Own p b tl hl c src inp ni : holding cfg s Q P Own p b tl -> upper s p inp b tl hl c ->
  netifs (anet s) !! inp = Some ni -> 4 <= len b -> bytes c ->
  wp (echo_reply p hl src inp) s (fun _ s' => exists s1 s2 r, let P1 := <[p := (p, grown hl b) :: tl]> P in
    let c' := pong (enabled cfg inp NETIF_CHECKSUM_GEN_IP) (enabled cfg inp NETIF_CHECKSUM_GEN_ICMP) hl src (current_iphdr_src (ip_data (idata s))) c in
    holding cfg s1 Q P1 Own p (grown hl b) tl /\ contents (pmem (ps (anet s1))) ((p, grown hl b) :: tl) = Some c' /\
    only p s P s1 P1 /\ handed_over cfg s1 s2 Q P1 Own inp ni p (get32 c' 16) r /\ s' = s2).
Proof.
  intros Hd [Hin Hcu [Hhl _] Hhdr [Hr1 Hr2] Har Hc] Hn Hl Hby. unfold PBUF_LINK_HLEN, echo_reply in *.
  assert (Hroom : room hl p b) by (split; lia). destruct (hd_grow _ _ _ _ _ _ _ _ hl Hd ltac:(lia) Hroom) as [Hd1 Hst1].
  apply wp_bind. eapply wp_read; [exact Hd|]. cbv zeta. apply wp_bind. eapply wp_add; [exact Hd|lia|exact Hroom|].
  change (nz 0) with false. cbv iota. set (s1 := reheaded s p _) in *. set (P1 := <[p := _]> P) in *. set (b1 := grown hl b) in *.
  assert (Hl1 : len b1 = len b + hl) by done. assert (Hp1 : payload b1 + hl = payload b) by (cbn; lia).
  assert (On1 : only p s P s1 P1) by apply only_reheaded.
  pose proof (contents_total _ _ _ (hf_lens_ok _ _ _ _ (hd_facts _ _ _ _ _ _ _ _ Hd1)) Hc) as Hlen.
  assert (Hlc : len b1 <= Z.of_nat (length c)).
  { rewrite Hlen, total_cons. cbn [snd]. pose proof (hf_lens _ _ _ _ (hd_facts _ _ _ _ _ _ _ _ Hd1)). lia. }
  apply wp_bind. eapply wp_read; [exact Hd1|]. apply wp_bind, wp_ip_get.
  apply wp_bind. eapply wp_mono; [eapply (wp_fields cfg s1 Q P1 Own p b1 tl _ _ Hd1 Hc)|].
  { repeat (constructor; [cbn -[b1]; lia|]). constructor. }
  intros _ s2 (Hd2 & Hc2 & On2). change (idata s1) with (idata s) in Hc2.
  apply wp_bind. rewrite <- Hp1. eapply wp_mono; [eapply (wp_store cfg s2 Q P1 Own p b1 tl _ hl _ Hd2 Hc2); cbn -[b1]; lia|].
  intros _ s3 (Hd3 & Hc3 & On3). rewrite <- (patch_all_snoc _ _ (hl, [ICMP_ER])) in Hc3. cbn [app] in Hc3.
  set (fs3 := [(12, le32 src); _; _]) in Hc3.
  assert (Hlen3 : length (patch_all c fs3) = length c).
  { apply patch_all_length. unfold fs3. repeat (constructor; [cbn; lia|]). constructor. }
  set (v := if enabled cfg inp NETIF_CHECKSUM_GEN_ICMP then le16 (adjusted (get16 c (Z.to_nat (hl + 2)))) else le16 0).
  apply wp_bind. eapply wp_enabled; [apply Hd3|]. apply wp_bind.
  eapply (wp_mono _ _ (fun _ s' => written cfg s3 s' Q P1 Own p b1 tl (patch (Z.to_nat (hl + 2)) v (patch_all c fs3)))).
  { rewrite <- Z.add_assoc. unfold v. destruct (enabled cfg inp NETIF_CHECKSUM_GEN_ICMP).
    - apply wp_bind. eapply wp_load; [exact Hd3|exact Hc3|lia|lia|].
      replace (get16 (take 2 (drop (Z.to_nat (hl + 2)) (patch_all c fs3))) 0) with (get16 c (Z.to_nat (hl + 2))).
      { eapply wp_store; [exact Hd3|exact Hc3|lia|cbn -[b1]; lia]. }
      unfold get16 at 2. rewrite !list_lookup_total_alt, !lookup_take_lt, !lookup_drop by lia. rewrite Nat.add_0_r, <- !list_lookup_total_alt, Nat.add_1_r.
      fold (get16 (patch_all c fs3) (Z.to_nat (hl + 2))). unfold patch_all, fs3. cbn [foldl fst snd].
      rewrite !get_patched_after; [done|rewrite ?patch_length; cbn; rewrite ?patch_length; cbn; lia..].
    - eapply wp_store; [exact Hd3|exact Hc3|lia|cbn -[b1]; lia]. }
  intros _ s4 (Hd4 & Hc4 & On4). rewrite <- (patch_all_snoc _ _ (hl + 2, v)) in Hc4. cbn [app fs3] in Hc4.
  apply wp_bind. eapply wp_mono; [eapply (wp_fields cfg s4 Q P1 Own p b1 tl _ _ Hd4 Hc4)|].
  { repeat (constructor; [cbn -[b1]; lia|]). constructor. }
  intros _ s5 (Hd5 & Hc5 & On5). rewrite patch_all_more in Hc5. cbn [app] in Hc5. set (r := patch_all c _) in Hc5.
  assert (Hlenr : length r = length c).
  { apply patch_all_length. unfold v. repeat (constructor; [destruct (enabled _ _ _); cbn; lia|]). constructor. }
  assert (Hbr : bytes r).
  { apply bytes_patched; [|done]. unfold v. repeat (constructor; [destruct (enabled _ _ _); cbn [snd]; first [apply le32_bytes|apply le16_bytes|by repeat constructor]|]). constructor. }
  set (c' := pong _ _ hl src _ c). assert (Ec' : c' = if enabled cfg inp NETIF_CHECKSUM_GEN_IP then patch 10 (le16 (checksum (take (Z.to_nat hl) r))) r else r) by done.
  apply wp_bind. eapply wp_enabled; [apply Hd5|]. apply wp_bind.
  eapply (wp_mono _ _ (fun _ s' => written cfg s5 s' Q P1 Own p b1 tl c')).
  { rewrite Ec'. destruct (enabled cfg inp NETIF_CHECKSUM_GEN_IP).
    - apply wp_bind. eapply wp_load_front; [exact Hd5|exact Hc5|lia|].
      rewrite inet_chksum_run; [|by apply Forall_take|unfold is_u16; rewrite length_take; lia].
      eapply (wp_store cfg s5 Q P1 Own p b1 tl _ 10); [exact Hd5|exact Hc5|lia|cbn -[b1]; lia].
    - apply wp_ret. split; [exact Hd5|]. split; [exact Hc5|apply only_refl]. }
  intros _ s6 (Hd6 & Hc6 & On6).
  assert (On : only p s P s6 P1).
  { eapply only_trans; [exact On1|]. eapply only_trans; [exact On2|]. eapply only_trans; [exact On3|]. eapply only_trans; [exact On4|].
    by eapply only_trans. }
  apply wp_bind. unfold ip4_output_if. eapply wp_mono; [eapply (output_hdrincl_ok cfg s6 Q P1 Own p b1 tl c' src ICMP_TTL 0 IP_PROTO_ICMP inp ni)|].
  { exact Hd6. } { exact Hc6. } { by rewrite (on_netifs _ _ _ _ _ On). } { unfold IP_HLEN. lia. }
  intros r' s7 Hs7. apply wp_ret. exists s6, s7, r'. cbv zeta. by repeat (split; [done|]).
Qed.

(** The requests that are answered: for one of our own addresses, whole, and intact. *)
Definition answerable (g : ip_globals) (ni : netif) (check : bool) (b : pbuf) (hl : Z) (c : list Z) : bool :=
  negb (ip4_addr_ismulticast (current_iphdr_dest g)) && negb (ip4_addr_isbroadcast_u32 (current_iphdr_dest g) (inet ni))
  && (SIZEOF_ICMP_ECHO_HDR <=? tot_len b) && (negb check || (checksum (drop (Z.to_nat hl) c) =? 0)).
Definition echo_request (g : ip_globals) (ni : netif) (check : bool) (b : pbuf) (hl : Z) (c : list Z) : bool :=
  (4 <=? len b) && (c !!! Z.to_nat hl =? ICMP_ECHO) && answerable g ni check b hl c.
(** The reply goes to the sender of the request, from the address it was sent to. *)
Definition ponged (s s' : Ip) (Q : list (list (Z * Z))) (P : packets) (Own : gset Z) (p inp : Z) (b : pbuf) (tl : list (Z * pbuf)) (hl : Z) (c : list Z) : Prop :=
  let g := ip_data (idata s) in let P1 := <[p := (p, grown hl b) :: tl]> P in
  let c' := pong (enabled cfg inp NETIF_CHECKSUM_GEN_IP) (enabled cfg inp NETIF_CHECKSUM_GEN_ICMP) hl (current_iphdr_dest g) (current_iphdr_src g) c in
  exists s1 s2 ni r, netifs (anet s) !! inp = Some ni /\ contents (pmem (ps (anet s1))) ((p, grown hl b) :: tl) = Some c' /\
    only p s P s1 P1 /\ handed_over cfg s1 s2 Q P1 Own inp ni p (get32 c' 16) r /\ dev (anet s') = dev (anet s2).
Definition icmp_done (s s' : Ip) (Q : list (list (Z * Z))) (P : packets) (Own : gset Z) (p inp : Z) (b : pbuf) (tl : list (Z * pbuf)) (hl : Z) (c : list Z) : Prop :=
  exists ni, netifs (anet s) !! current_netif (ip_data (idata s)) = Some ni /\
    if echo_request (ip_data (idata s)) ni (enabled cfg inp NETIF_CHECKSUM_CHECK_ICMP) b hl c
    then ponged s s' Q P Own p inp b tl hl c
    else dev (anet s') = dev (anet s) /\ arp_table s' = arp_table s.

(** The packet has room in front: no copy is made. *)
Lemma echo_room_ok s Q P Own p b tl hl iphdr (R : option Z -> Ip -> Prop) : holding cfg s Q P Own p b tl -> 0 <= hl <= 60 ->
  room (hl + PBUF_LINK_HLEN) p b -> R (Some p) s -> wp (on_pbuf (echo_room p hl iphdr)) s R.
Proof.
  intros Hd Hhl Hr HR. unfold PBUF_LINK_HLEN in *. pose proof (hd_facts _ _ _ _ _ _ _ _ Hd) as [Hp Hb _ Hct _ _ (Ht & Hl & Htl & Hpos) _ _ _]. unfold is_u16 in *.
  destruct (add_header_run (ps (anet s)) p b (hl + 14) Hb Hp ltac:(lia) Ht) as (r & _ & Hrun); [lia|].
  rewrite (proj2 (has_room_iff (hl + 14) p b Hct) Hr) in Hrun. pose proof (proj2 Hr) as Hr2.
  assert (Hrm : pbuf_remove_header p (hl + 14) (set_pbufs (<[p := grown (hl + 14) b]> (pbufs (ps (anet s)))) (ps (anet s))) = Done (0, ps (anet s))).
  { rewrite (remove_header_run _ p (grown (hl + 14) b)); [|apply lookup_insert_eq|done|unfold is_u16; cbn; lia|unfold is_u16; cbn; lia|cbn; lia|cbn; lia].
    rewrite trimmed_grown. cbn [pbufs set_pbufs]. rewrite insert_insert_eq, insert_id by done. by destruct (ps (anet s)). }
  eapply wp_pbuf_use.
  { unfold echo_room, PBUF_LINK_HLEN. erewrite bind_done by exact Hrun. change (nz 0) with false. cbv iota. erewrite bind_done by exact Hrm. reflexivity. }
  by replace (set_anet _ _) with s by (by destruct s as [? ? ? []]).
Qed.

Lemma icmp_echo_ok s Q P Own p inp b tl hl c ni : holding cfg s Q P Own p b tl -> upper s p inp b tl hl c -> bytes c ->
  contents (pmem (ps (anet s))) ((p, b) :: tl) = Some (drop (Z.to_nat hl) c) -> 4 <= len b ->
  netifs (anet s) !! current_netif (ip_data (idata s)) = Some ni ->
  wp (icmp_echo p hl inp) s (fun r s' => r = p /\
    if answerable (ip_data (idata s)) ni (enabled cfg inp NETIF_CHECKSUM_CHECK_ICMP) b hl c
    then (exists Q' P', arp_ok s' Q' P' Own /\ netifs (anet s') = netifs (anet s)) /\ ponged s s' Q P Own p inp b tl hl c
    else s' = s).
Proof.
  intros Hd Hup Hby Hc Hl Hn. pose proof Hup as [[nin Hin] _ [Hhl _] _ Hr _ _].
  pose proof (hd_facts _ _ _ _ _ _ _ _ Hd) as [Hp Hb _ _ _ _ _ Hch Hlok _].
  unfold icmp_echo, answerable. apply wp_bind, wp_ip_get. cbv zeta. set (g := ip_data (idata s)) in *.
  destruct (ip4_addr_ismulticast (current_iphdr_dest g)); [by apply wp_ret|]. apply wp_bind. eapply wp_netif; [exact Hn|].
  destruct (ip4_addr_isbroadcast_u32 _ _); [by apply wp_ret|]. apply wp_bind. eapply wp_read; [exact Hd|].
  destruct (Z.ltb_spec (tot_len b) SIZEOF_ICMP_ECHO_HDR) as [Hs|Hs]; [rewrite (proj2 (Z.leb_gt _ _)) by done; by apply wp_ret|].
  rewrite (proj2 (Z.leb_le _ _)) by done. cbn [negb andb]. apply wp_bind. eapply wp_enabled; [apply Hd|].
  apply wp_bind. set (ck := enabled cfg inp _).
  eapply (wp_mono _ _ (fun v s' => s' = s /\ nz v = negb (negb ck || (checksum (drop (Z.to_nat hl) c) =? 0)))).
  { destruct ck; [|by apply wp_ret]. eapply wp_pbuf_use; [eapply chain_checksum_run; [exact Hch|exact Hc|by apply Forall_drop|exact Hlok]|].
    split; [by destruct s as [? ? ? []]|done]. }
  intros v ? [-> ->]. destruct (negb ck || _); cbn [negb]; [|by apply wp_ret].
  apply wp_bind. eapply echo_room_ok; [exact Hd|lia|exact Hr|]. apply wp_bind.
  eapply wp_mono; [by eapply echo_reply_ok|]. intros _ s' (s1 & s2 & r & Hd1 & Hc1 & On1 & Ho & ->). apply wp_ret. split; [done|]. split.
  - destruct Ho as (Q' & P' & Hok & Hni & _). exists Q', P'. split; [done|]. by rewrite Hni, (on_netifs _ _ _ _ _ On1).
  - exists s1, s2, nin, r. by repeat (split; [done|]).
Qed.

Lemma icmp_drop s Q P Own p inp b tl hl c ni : holding cfg s Q P Own p b tl -> netifs (anet s) !! current_netif (ip_data (idata s)) = Some ni ->
  echo_request (ip_data (idata s)) ni (enabled cfg inp NETIF_CHECKSUM_CHECK_ICMP) b hl c = false ->
  wp (on_pbuf (pbuf_free p);; mret tt) s (fun _ s' => exists Q' P', arp_ok s' Q' P' (Own ∖ {[p]}) /\ netifs (anet s') = netifs (anet s) /\
    icmp_done s s' Q P Own p inp b tl hl c).
Proof.
  intros Hd Hn He. apply wp_bind. eapply wp_mono; [by apply (give_up_ok cfg s Q P Own p); apply Hd|].
  intros _ s' (P' & Hok & Hni & Hdv & Ht & _). apply wp_ret. exists Q, P'. split; [done|]. split; [done|]. exists ni. split; [done|]. by rewrite He.
Qed.

Lemma icmp_input_ok s Q P Own p inp b tl hl c : holding cfg s Q P Own p b tl -> upper s p inp b tl hl c -> bytes c ->
  wp (icmp_input p inp) s (fun _ s' => exists Q' P', arp_ok s' Q' P' (Own ∖ {[p]}) /\ netifs (anet s') = netifs (anet s) /\
    icmp_done s s' Q P Own p inp b tl hl c).
Proof.
  intros Hd Hup Hby. pose proof Hup as [[ni Hn] [nc Hnc] [Hhl Hhc] Hhdr [Hr1 Hr2] Har Hc]. unfold PBUF_LINK_HLEN in *.
  assert (Hroom : room hl p b) by (split; lia). destruct (hd_grow _ _ _ _ _ _ _ _ hl Hd ltac:(lia) Hroom) as [Hd1 _].
  pose proof (hd_facts _ _ _ _ _ _ _ _ Hd) as [Hp Hb _ _ _ _ (Ht & Hl & Htl & Hpos) Hch Hlok _]. unfold is_u16 in *.
  pose proof Hc as (c1 & c2 & Ec & Hc1 & Hc2 & Hlc1)%contents_cons. cbn [snd] in *. change (payload (grown hl b)) with (payload b - hl) in Hc1. change (len (grown hl b)) with (len b + hl) in *.
  assert (Hcd : contents (pmem (ps (anet s))) ((p, b) :: tl) = Some (drop (Z.to_nat hl) c)).
  { destruct (hf_contents _ _ _ _ (hd_facts _ _ _ _ _ _ _ _ Hd)) as [cb Hcb]. destruct (grown_contents _ _ _ _ hl _ _ Hcb Hc) as (h & Hh & ->); [lia|lia|].
    by rewrite Hcb, drop_app_length'. }
  unfold icmp_input. apply wp_bind, wp_ip_get. rewrite Hhdr.
  apply wp_bind. eapply wp_pbuf_use.
  { unfold LOAD. mred. by rewrite (load_bytes_take _ _ _ 1 _ Hc1) by lia. }
  replace (set_anet _ _) with s by (by destruct s as [? ? ? []]).
  assert (Eh : IPH_HL_BYTES (take 1 c1) = hl).
  { rewrite <- Hhc, Ec. unfold IPH_HL_BYTES. rewrite !list_lookup_total_alt, lookup_take_lt, lookup_app_l by lia. done. }
  cbv zeta. rewrite Eh. apply wp_bind. eapply wp_read; [exact Hd|].
  set (g := ip_data (idata s)) in *.
  set (ck := enabled cfg inp NETIF_CHECKSUM_CHECK_ICMP).
  assert (Hno : echo_request g nc ck b hl c = false -> wp (on_pbuf (pbuf_free p);; mret tt) s (fun _ s' =>
    exists Q' P', arp_ok s' Q' P' (Own ∖ {[p]}) /\ netifs (anet s') = netifs (anet s) /\ icmp_done s s' Q P Own p inp b tl hl c)).
  { intros He. by eapply icmp_drop. }
  unfold IP_HLEN. rewrite (proj2 (Z.ltb_ge hl 20)) by lia. cbn [orb]. unfold echo_request in Hno.
  destruct (Z.ltb_spec (len b) 4) as [Hs|Hs]; [apply wp_bind, wp_ret, Hno; by rewrite (proj2 (Z.leb_gt 4 (len b)))|].
  rewrite (proj2 (Z.leb_le 4 (len b))) in Hno by lia. cbn [andb] in Hno.
  apply wp_bind, wp_bind. eapply wp_load_front; [exact Hd|exact Hcd|lia|].
  assert (Et : take 2 (drop (Z.to_nat hl) c) !!! 0%nat = c !!! Z.to_nat hl).
  { rewrite !list_lookup_total_alt, lookup_take_lt, lookup_drop by lia. do 2 f_equal. lia. }
  rewrite Et. destruct (c !!! Z.to_nat hl =? ICMP_ECHO) eqn:Ee; [|by apply wp_ret, Hno].
  eapply wp_mono; [by eapply icmp_echo_ok|]. fold g ck. intros r s' [-> Hs']. cbn [andb] in Hno.
  destruct (answerable g nc ck b hl c) eqn:Ea.
  2:{ subst s'. by specialize (Hno eq_refl). }
  destruct Hs' as ((Q1 & P1 & Hok1 & Hn1) & Hpong). apply wp_bind.
  eapply wp_mono; [by apply (give_up_ok cfg s' Q1 P1 Own p Hok1); apply Hd|]. intros _ s2 (P2 & Hok2 & Hn2 & Hd2 & _). apply wp_ret.
  exists Q1, P2. split; [done|]. split; [congruence|]. exists nc. split; [done|]. unfold echo_request. fold g ck. rewrite (proj2 (Z.leb_le 4 _)), Ee, Ea by lia. cbn [andb].
  destruct Hpong as (s3 & s4 & nin & r & E1 & E2 & E3 & E4 & E5). exists s3, s4, nin, r. do 4 (split; [done|]). congruence.
Qed.
End Icmp.
