(* ===== verification/Ip4In.v ===== *)
(** IPv4 input: which packets are taken, for which interface, and in what state the
    upper protocols get them. *)
From S2P Require Import Prelude CMem Memp Pbuf IpAddr Packets Ethernet Etharp EtharpInv EtharpOk EtharpIo EthInput Checksum Ip4 PacketsIp Ip4Ok Ip4Out IcmpOk.

Section Input.
Context {A D : Type} `{PbufHeap A} `{LinkOk D} (cfg : ip_config) `{!Transport A D}.
#[local] Hint Extern 0 (@LinkOk (ip_state D) _) => exact (ip_link_ok (D := D) cfg) : typeclass_instances.
Abbreviation Ip := (arp A (ip_state D)).
Abbreviation packets := (gmap Z (list (Z * pbuf))).
Abbreviation ifs := (gmap Z netif).

(** What UDP and TCP promise: they take over the packet they are given. *)
Class TransportOk : Prop := {
  udp_takes s Q P Own p inp b tl hl c : holding cfg s Q P Own p b tl -> upper s p inp b tl hl c -> bytes c -> config_ok cfg (netifs (anet s)) ->
    takes cfg (udp_input p inp) s Own p;
  tcp_takes s Q P Own p inp b tl hl c : holding cfg s Q P Own p b tl -> upper s p inp b tl hl c -> bytes c -> config_ok cfg (netifs (anet s)) ->
    takes cfg (tcp_input p inp) s Own p
}.
Context `{!TransportOk}.

(** ** An unknown protocol *)

Lemma add_force_run (t : pst A) p b k : pbufs t !! p = Some b -> contiguous b = true -> 0 <= k ->
  pbuf_header_force p k t = pbuf_add_header p k t.
Proof.
  intros Hb Hc Hk. unfold pbuf_header_force, pbuf_header_impl, pbuf_add_header. rewrite (proj2 (Z.ltb_ge k 0)) by done.
  unfold pbuf_add_header_impl. destruct (negb (p =? 0)); [|done]. unfold assert_. erewrite !bind_done by reflexivity.
  destruct (65535 <? k); [done|]. destruct (k =? 0); [done|]. erewrite !bind_done by (by apply rd_run). fold (contiguous b). by rewrite Hc.
Qed.

Lemma wp_force s Q P Own p b tl k (R : Z -> Ip -> Prop) : holding cfg s Q P Own p b tl -> 0 < k < 65536 -> room k p b ->
  R 0 (reheaded s p (grown k b)) -> wp (on_pbuf (pbuf_header_force p k)) s R.
Proof.
  intros Hd Hk Hr HR. pose proof (wp_add cfg s Q P Own p b tl k R Hd Hk Hr HR) as Hw.
  pose proof (hd_facts _ _ _ _ _ _ _ _ Hd) as [_ Hb _ Hct _ _ _ _ _ _]. unfold wp, on_pbuf, on_net, on_ps, zoom in *.
  by rewrite (add_force_run _ p b) by (done || lia).
Qed.

Lemma unknown_ok s Q P Own p inp b tl hl c n : holding cfg s Q P Own p b tl -> upper s p inp b tl hl c -> config_ok cfg (netifs (anet s)) ->
  is_Some (netifs (anet s) !! n) -> takes cfg (unknown_protocol p n hl) s Own p.
Proof.
  intros Hd [_ _ [Hhl _] _ [Hr1 Hr2] Har _] Hcf [ni Hn]. unfold takes, unknown_protocol, discard, PBUF_LINK_HLEN in *.
  pose proof (hd_facts _ _ _ _ _ _ _ _ Hd) as [_ _ _ _ _ _ (_ & Hl & _) _ _ _]. unfold is_u16 in *.
  apply wp_bind, wp_ip_get. apply wp_bind. eapply wp_netif; [exact Hn|].
  destruct (_ && _); [|by apply wp_bind, wp_ret, (give_up_all cfg s Q P); apply Hd].
  assert (Hroom : room hl p b) by (split; lia). destruct (hd_grow _ _ _ _ _ _ _ _ hl Hd ltac:(lia) Hroom) as [Hd1 _].
  apply wp_bind, wp_bind. eapply wp_force; [exact Hd|lia|exact Hroom|].
  eapply wp_mono; [eapply (response_ok cfg _ Q _ Own p (grown hl b) tl); [exact Hd1|exact Hcf|cbn; lia]|].
  intros _ s' (Q' & P' & Hok & Hni & _). eapply wp_mono; [by apply (give_up_all cfg s' Q' P' Own p Hok); apply Hd|].
  intros _ s2 (Q2 & P2 & Hok2 & Hn2). exists Q2, P2. split; [done|]. by rewrite Hn2, Hni.
Qed.

Lemma protocol_ok s Q P Own p inp b tl hl c n proto : holding cfg s Q P Own p b tl -> upper s p inp b tl hl c -> bytes c ->
  config_ok cfg (netifs (anet s)) -> is_Some (netifs (anet s) !! n) -> takes cfg (protocol_input p n inp hl proto) s Own p.
Proof.
  intros Hd Hup Hby Hcf Hn. unfold protocol_input. destruct (proto =? IP_PROTO_UDP); [by eapply udp_takes|].
  destruct (proto =? IP_PROTO_TCP); [by eapply tcp_takes|]. destruct (proto =? IP_PROTO_ICMP); [|by eapply unknown_ok].
  eapply wp_mono; [by eapply icmp_input_ok|]. intros _ s' (Q' & P' & ? & ? & _). by exists Q', P'.
Qed.

(** ** Which interface *)

Definition accepts (dest : Z) (ni : netif) : bool :=
  netif_is_up ni && negb (ip4_addr_isany (ip_addr (inet ni))) && ((dest =? ip_addr (inet ni)) || ip4_addr_isbroadcast_u32 dest (inet ni)).
(** The interface a packet is for: the one it came in on or, unless it is for the loopback
    network, another one; for a group, the one it came in on if that has an address. *)
Definition recipient (ns : ifs) (inp dest : Z) : Z :=
  if ip4_addr_ismulticast dest then
    if holds_at (fun ni => netif_is_up ni && negb (ip4_addr_isany (ip_addr (inet ni)))) ns inp then inp else 0
  else if holds_at (accepts dest) ns inp then inp
  else if ip4_addr_isloopback dest then 0
  else default 0 (List.find (fun n => negb (n =? inp) && holds_at (accepts dest) ns n) (cfg_netifs cfg)).

Lemma accept_ok (s : Ip) n ni : netifs (anet s) !! n = Some ni ->
  wp (ip4_input_accept n) s (fun r s' => s' = s /\ r = accepts (current_iphdr_dest (ip_data (idata s))) ni).
Proof.
  intros Hn. unfold ip4_input_accept. apply wp_bind. eapply wp_netif; [exact Hn|]. apply wp_bind, wp_ip_get, wp_ret.
  done.
Qed.
Lemma accept_loop_ok l (s : Ip) inp : Forall (fun n => is_Some (netifs (anet s) !! n)) l ->
  wp (accept_loop l inp) s (fun r s' => s' = s /\ r = default 0 (List.find (fun n => negb (n =? inp)
    && holds_at (accepts (current_iphdr_dest (ip_data (idata s)))) (netifs (anet s)) n) l)).
Proof.
  induction l as [|n l IH]; cbn [accept_loop]; [intros _; by apply wp_ret|]. intros [[ni Hn] Hl]%Forall_cons. cbn [List.find].
  destruct (n =? inp); cbn [negb andb]; [by apply IH|]. apply wp_bind. eapply wp_mono; [by apply accept_ok|].
  intros b s' [-> ->]. unfold holds_at at 1. rewrite Hn. destruct (accepts _ ni); [by apply wp_ret|by apply IH].
Qed.
Lemma input_netif_ok s Q P Own inp : arp_ok s Q P Own -> config_ok cfg (netifs (anet s)) -> is_Some (netifs (anet s) !! inp) ->
  wp (input_netif inp) s (fun r s' => s' = s /\ r = recipient (netifs (anet s)) inp (current_iphdr_dest (ip_data (idata s)))).
Proof.
  intros Hok (Hns & _) [ni Hn]. unfold input_netif, recipient. apply wp_bind, wp_ip_get. unfold holds_at at 1 2. rewrite Hn.
  destruct (ip4_addr_ismulticast _); [apply wp_bind; eapply wp_netif; [exact Hn|]; by apply wp_ret|].
  apply wp_bind. eapply wp_mono; [by apply accept_ok|]. intros b s' [-> ->]. destruct (accepts _ ni); [by apply wp_ret|].
  destruct (ip4_addr_isloopback _); cbn [negb]; [by apply wp_ret|]. apply wp_bind, wp_ip_get.
  replace (netif_list (idata s)) with (cfg_netifs cfg) by (by rewrite <- (ok_config cfg _ _ _ _ Hok)). by apply accept_loop_ok.
Qed.
Lemma recipient_known ns inp dest : config_ok cfg ns -> is_Some (ns !! inp) -> recipient ns inp dest <> 0 -> is_Some (ns !! recipient ns inp dest).
Proof.
  intros (Hns & _) Hi. unfold recipient. destruct (ip4_addr_ismulticast _); [by destruct (holds_at _ _ _)|].
  destruct (holds_at _ _ _); [done|]. destruct (ip4_addr_isloopback _); [done|]. destruct (List.find _ _) as [n|] eqn:E; [|done].
  apply find_in in E as [Hin _]. rewrite Forall_forall in Hns. intros _. by apply Hns.
Qed.

(** ** What becomes of a packet *)

Definition fragment (d : list Z) : bool := negb (Z.land (IPH_OFFSET d) (lwip_htons (Z.lor IP_OFFMASK IP_MF)) =? 0).
(** The interface a packet with a valid header is taken for; DHCP answers pass whatever
    their address. *)
Definition accepted (ns : ifs) (inp : Z) (ni : netif) (d : list Z) (port : Z) : option Z :=
  let n := recipient ns inp (iph_dest d) in
  let dhcp := (n =? 0) && (IPH_PROTO d =? IP_PROTO_UDP) && (port =? lwip_htons LWIP_IANA_PORT_DHCP_CLIENT) in
  if negb dhcp && negb (ip4_addr_isany (iph_src d)) && (ip4_addr_isbroadcast_u32 (iph_src d) (inet ni) || ip4_addr_ismulticast (iph_src d)) then None
  else if (n =? 0) && negb dhcp then None
  else if fragment d then None
  else Some (if dhcp then inp else n).

(** The state in which the upper protocol gets the packet. *)
Definition entered (s s1 : Ip) (Q : list (list (Z * Z))) (P : packets) (Own : gset Z) (p n inp pl : Z) (d : list Z) : Prop :=
  let hl := IPH_HL_BYTES d in
  exists b1 tl1 P1, holding cfg s1 Q P1 Own p b1 tl1 /\ upper s1 p inp b1 tl1 hl d /\
    ip_data (idata s1) = mkIpGlobals n inp pl hl (iph_src d) (iph_dest d) /\ idev (idata s1) = idev (idata s) /\
    arp_table s1 = arp_table s /\ netifs (anet s1) = netifs (anet s) /\ stays [p] P (anet s) P1 (anet s1).
Definition no_globals (g : ip_globals) : ip_globals := mkIpGlobals 0 0 0 0 0 0.
Definition outcome (s s' : Ip) (Q : list (list (Z * Z))) (P : packets) (Own : gset Z) (p inp pl : Z) (d : list Z) (to : option Z) : Prop :=
  match to with
  | None => idev (idata s') = idev (idata s) /\ arp_table s' = arp_table s
  | Some n => exists s1 s2, entered s s1 Q P Own p n inp pl d /\
      protocol_input p n inp (IPH_HL_BYTES d) (IPH_PROTO d) s1 = Done (tt, s2) /\ s' = with_data no_globals s2
  end.
Definition taken (s s' : Ip) (Own : gset Z) (p : Z) : Prop :=
  exists Q' P', arp_ok s' Q' P' (Own ∖ {[p]}) /\ netifs (anet s') = netifs (anet s).

Lemma discard_ok s Q P Own p b tl inp pl d : holding cfg s Q P Own p b tl ->
  wp (discard p) s (fun _ s' => taken s s' Own p /\ outcome s s' Q P Own p inp pl d None).
Proof.
  intros Hd. unfold discard. apply wp_bind. eapply wp_mono; [by apply (give_up_ok cfg s Q P Own p); apply Hd|].
  intros _ s' (P' & Hok & Hni & Hdv & Ht & _). apply wp_ret. split; [by exists Q, P'|]. split; [by unfold idata; rewrite Hdv|done].
Qed.

Lemma hl_bound d : 0 <= IPH_HL_BYTES d <= 60.
Proof. unfold IPH_HL_BYTES. change 15 with (Z.ones 4). rewrite Z.land_ones by lia. zlia. Qed.

Lemma hd_data s Q P Own p b tl f : holding cfg s Q P Own p b tl -> holding cfg (with_data f s) Q P Own p b tl.
Proof. intros Hd. eapply hd_reload; [exact Hd|by apply ok_device; [apply Hd|..]|apply Hd|done..]. Qed.

(** Room in front of a packet for its link header, and memory behind it. *)
Definition framed (p : Z) (b : pbuf) : Prop :=
  p + SIZEOF_STRUCT_PBUF <= payload b - PBUF_LINK_HLEN /\ tot_len b + PBUF_LINK_HLEN < 65536 /\ payload b + len b + 8 <= arena_hi.

Lemma deliver_ok s Q P Own p b tl n inp d : holding cfg s Q P Own p b tl -> framed p b ->
  contents (pmem (ps (anet s))) ((p, b) :: tl) = Some d -> bytes d -> 20 <= IPH_HL_BYTES d <= len b ->
  config_ok cfg (netifs (anet s)) -> is_Some (netifs (anet s) !! inp) -> is_Some (netifs (anet s) !! n) ->
  current_iphdr_src (ip_data (idata s)) = iph_src d -> current_iphdr_dest (ip_data (idata s)) = iph_dest d ->
  wp (deliver p n inp (payload b) (IPH_HL_BYTES d) (IPH_PROTO d)) s (fun _ s' => taken s s' Own p /\ outcome s s' Q P Own p inp (payload b) d (Some n)).
Proof.
  intros Hd (Hf1 & Hf2 & Hf3) Hc Hby Hhl Hcf Hi Hn Hsrc Hdst. pose proof (hl_bound d) as H60. set (hl := IPH_HL_BYTES d) in *.
  unfold deliver, PBUF_LINK_HLEN in *. apply wp_bind, wp_upd_data. set (s0 := with_data _ s).
  pose proof (hd_data _ _ _ _ _ _ _ (set_current n inp (payload b) hl) Hd) as Hd0. fold s0 in Hd0.
  apply wp_bind. eapply wp_remove; [exact Hd0|lia|]. destruct (hd_cut _ _ _ _ _ _ _ _ hl (flags b) (if_idx b) Hd0 ltac:(lia)) as [Hd1 Hst1].
  fold (trimmed hl b) in *. set (s1 := reheaded s0 p (trimmed hl b)) in *. set (P1 := <[p := _]> P) in *.
  assert (Hg : ip_data (idata s1) = mkIpGlobals n inp (payload b) hl (iph_src d) (iph_dest d)).
  { cbn. unfold set_current. by rewrite Hsrc, Hdst. }
  assert (Hup : upper s1 p inp (trimmed hl b) tl hl d).
  { constructor; [exact Hi|by rewrite Hg|split; [lia|done]|rewrite Hg; cbn; lia|split; cbn; unfold PBUF_LINK_HLEN; lia|cbn; lia|].
    rewrite grown_trimmed. exact Hc. }
  apply wp_bind. destruct (proj1 (wp_done _ _ _) (protocol_ok s1 Q P1 Own p inp _ tl hl d n (IPH_PROTO d) Hd1 Hup Hby Hcf Hn)) as ([] & s2 & Hrun & Q2 & P2 & Hok2 & Hn2).
  eapply wp_use; [exact Hrun|]. apply wp_upd_data. split.
  - exists Q2, P2. split; [by apply ok_device|exact Hn2].
  - exists s1, s2. split; [|by split]. exists (trimmed hl b), tl, P1. split; [exact Hd1|]. split; [exact Hup|]. split; [exact Hg|].
    split; [done|]. split; [done|]. split; [done|exact Hst1].
Qed.

(** Steps before, on the packet alone, do not matter. *)
Definition before (p : Z) (s : Ip) (P : packets) (s0 : Ip) (P0 : packets) : Prop :=
  idev (idata s0) = idev (idata s) /\ arp_table s0 = arp_table s /\ netifs (anet s0) = netifs (anet s) /\ stays [p] P (anet s) P0 (anet s0).
Lemma outcome_from s s0 s' Q P P0 Own p inp pl d to : before p s P s0 P0 -> outcome s0 s' Q P0 Own p inp pl d to -> outcome s s' Q P Own p inp pl d to.
Proof.
  intros (E1 & E2 & E3 & E4). destruct to as [n|]; cbn [outcome].
  - intros (s1 & s2 & (b1 & tl1 & P1 & Hd & Hup & Hg & F1 & F2 & F3 & F4) & Hrun & ->). exists s1, s2. split; [|done].
    exists b1, tl1, P1. split; [exact Hd|]. split; [exact Hup|]. split; [exact Hg|]. split; [congruence|]. split; [congruence|]. split; [congruence|].
    eapply stays_weaken; [|eapply stays_trans; [exact E4|exact F4]]. intros q. rewrite elem_of_app. tauto.
  - intros [F1 F2]. split; congruence.
Qed.
Lemma taken_from s s0 s' Own p : netifs (anet s0) = netifs (anet s) -> taken s0 s' Own p -> taken s s' Own p.
Proof. intros E (Q' & P' & ? & ?). exists Q', P'. split; [done|congruence]. Qed.

Lemma dhcp_pass_ok s Q P Own p b tl d n inp hl proto : holding cfg s Q P Own p b tl -> contents (pmem (ps (anet s))) ((p, b) :: tl) = Some d ->
  framed p b -> 20 <= hl <= len b ->
  wp (dhcp_pass n inp (payload b) hl proto) s (fun r s' => s' = s /\ exists port, (hl + 4 <= len b -> port = get16 d (Z.to_nat (hl + 2))) /\
    let dhcp := (n =? 0) && (proto =? IP_PROTO_UDP) && (port =? lwip_htons LWIP_IANA_PORT_DHCP_CLIENT) in r = (if dhcp then inp else n, negb dhcp)).
Proof.
  intros Hd Hc (_ & _ & Har) Hhl. unfold dhcp_pass. destruct ((n =? 0) && (proto =? IP_PROTO_UDP)); cbn [andb].
  - apply wp_bind. rewrite <- Z.add_assoc. eapply (wp_peek cfg s Q P Own p b tl (hl + 2) 2); [exact Hd|lia|lia|]. intros bs Hbs Hkn.
    assert (Hp : hl + 4 <= len b -> get16 bs 0 = get16 d (Z.to_nat (hl + 2))).
    { intros Hl. rewrite (Hkn d Hc) by lia. unfold get16. rewrite !list_lookup_total_alt, !lookup_take_lt, !lookup_drop by lia.
      by rewrite Nat.add_0_r, Nat.add_1_r. }
    destruct (_ =? lwip_htons _) eqn:E; apply wp_ret; (split; [done|]); exists (get16 bs 0); (split; [exact Hp|]); by rewrite E.
  - apply wp_ret. split; [done|]. by exists (get16 d (Z.to_nat (hl + 2))).
Qed.

Lemma dispatch_ok s Q P Own p b tl inp ni d : holding cfg s Q P Own p b tl -> framed p b ->
  contents (pmem (ps (anet s))) ((p, b) :: tl) = Some d -> bytes d -> 20 <= IPH_HL_BYTES d <= len b ->
  config_ok cfg (netifs (anet s)) -> netifs (anet s) !! inp = Some ni ->
  wp (ip4_dispatch p inp (payload b) (IPH_HL_BYTES d) (take 20 d)) s (fun _ s' => taken s s' Own p /\ exists port,
    (IPH_HL_BYTES d + 4 <= len b -> port = get16 d (Z.to_nat (IPH_HL_BYTES d + 2))) /\
    outcome s s' Q P Own p inp (payload b) d (accepted (netifs (anet s)) inp ni d port)).
Proof.
  intros Hd Hfr Hc Hby Hhl Hcf Hn.
  assert (Et : forall k, (k < 20)%nat -> take 20 d !!! k = d !!! k) by (intros k Hk; by rewrite !list_lookup_total_alt, lookup_take_lt).
  assert (Esrc : iph_src (take 20 d) = iph_src d) by (unfold iph_src, get32, get16; by rewrite !Et by lia).
  assert (Edst : iph_dest (take 20 d) = iph_dest d) by (unfold iph_dest, get32, get16; by rewrite !Et by lia).
  assert (Eoff : IPH_OFFSET (take 20 d) = IPH_OFFSET d) by (unfold IPH_OFFSET, get16; by rewrite !Et by lia).
  assert (Epr : IPH_PROTO (take 20 d) = IPH_PROTO d) by (unfold IPH_PROTO; by rewrite Et by lia).
  unfold ip4_dispatch. rewrite Esrc, Edst, Eoff, Epr. apply wp_bind, wp_upd_data. set (s0 := with_data _ s).
  pose proof (hd_data _ _ _ _ _ _ _ (set_src_dest (iph_src d) (iph_dest d)) Hd) as Hd0. fold s0 in Hd0.
  assert (Hbf : before p s P s0 P) by done.
  apply wp_bind. eapply wp_mono; [eapply (input_netif_ok s0 Q P Own inp); [apply Hd0|exact Hcf|by exists ni]|].
  intros n ? [-> ->]. change (current_iphdr_dest (ip_data (idata s0))) with (iph_dest d). change (netifs (anet s0)) with (netifs (anet s)).
  set (n := recipient _ inp _). apply wp_bind. eapply wp_mono; [by eapply (dhcp_pass_ok s0 Q P Own p b tl d)|].
  intros [n1 ck] ? [-> (port & Hport & Er)]. cbv zeta in Er. injection Er as -> ->.
  set (dhcp := (n =? 0) && _ && _). apply wp_bind.
  eapply (wp_mono _ _ (fun r s' => s' = s0 /\ r = negb dhcp && negb (ip4_addr_isany (iph_src d)) && (ip4_addr_isbroadcast_u32 (iph_src d) (inet ni) || ip4_addr_ismulticast (iph_src d)))).
  { unfold bad_source. apply wp_bind, wp_ip_get. cbv zeta. change (current_iphdr_src (ip_data (idata s0))) with (iph_src d).
    destruct (negb dhcp && negb _); [apply wp_bind; eapply wp_netif; [exact Hn|]|]; by apply wp_ret. }
  intros bad ? [-> ->].
  assert (Hend : forall to (m : M Ip unit), wp m s0 (fun _ s' => taken s0 s' Own p /\ outcome s0 s' Q P Own p inp (payload b) d to) ->
    accepted (netifs (anet s)) inp ni d port = to ->
    wp m s0 (fun _ s' => taken s s' Own p /\ exists port, (IPH_HL_BYTES d + 4 <= len b -> port = get16 d (Z.to_nat (IPH_HL_BYTES d + 2))) /\
      outcome s s' Q P Own p inp (payload b) d (accepted (netifs (anet s)) inp ni d port))).
  { intros to m Hm Hto. eapply wp_mono; [exact Hm|]. intros [] s' [Htk Ho]. split; [by eapply taken_from|]. exists port. split; [exact Hport|].
    rewrite Hto. by eapply outcome_from. }
  assert (Hac : accepted (netifs (anet s)) inp ni d port =
    if negb dhcp && negb (ip4_addr_isany (iph_src d)) && (ip4_addr_isbroadcast_u32 (iph_src d) (inet ni) || ip4_addr_ismulticast (iph_src d)) then None
    else if (n =? 0) && negb dhcp then None else if fragment d then None else Some (if dhcp then inp else n)) by done.
  assert (Hi0 : inp <> 0) by (apply (ok_netif _ _ _ _ _ _ (hd_ok _ _ _ _ _ _ _ _ Hd) Hn)).
  assert (Ez : ((if dhcp then inp else n) =? 0) = (n =? 0) && negb dhcp).
  { destruct dhcp; cbn; [rewrite andb_false_r; by apply Z.eqb_neq|by rewrite andb_true_r]. }
  rewrite Ez. fold (fragment d).
  destruct (negb dhcp && _ && _); [by eapply Hend; [eapply discard_ok|]|].
  destruct ((n =? 0) && negb dhcp) eqn:En; [by eapply Hend; [eapply discard_ok|]|].
  destruct (fragment d); [by eapply Hend; [eapply discard_ok|]|].
  eapply Hend; [|exact Hac]. eapply deliver_ok; try done.
  destruct dhcp; [by exists ni|]. rewrite andb_true_r in En. apply Z.eqb_neq in En.
  exact (recipient_known (netifs (anet s)) inp (iph_dest d) Hcf (ex_intro _ ni Hn) En).
Qed.

(** ** [ip4_input] *)

Definition datagram_len (c : list Z) : Z := lwip_htons (IPH_LEN c).
(** Version 4, a whole header in the first pbuf, all of the datagram there, the checksum right. *)
Definition header_valid (check : bool) (b : pbuf) (c : list Z) : bool :=
  (IPH_V c =? 4) && (IP_HLEN <=? IPH_HL_BYTES c) && (IPH_HL_BYTES c <=? Z.min (len b) (datagram_len c)) && (datagram_len c <=? tot_len b)
  && (negb check || (checksum (take (Z.to_nat (IPH_HL_BYTES c)) c) =? 0)).
Definition received (ns : ifs) (p : Z) (b : pbuf) (tl : list (Z * pbuf)) (c : list Z) : Prop :=
  config_ok cfg ns /\ Forall pool_pbuf ((p, b) :: tl) /\ contiguous b = true /\ framed p b /\ bytes c.
(** The end of [ip4_input]: the datagram without what came behind it, or nothing. *)
Definition ip_settled (s s' : Ip) (Q : list (list (Z * Z))) (P : packets) (Own : gset Z) (p inp : Z) (ni : netif) (b : pbuf) (c : list Z) : Prop :=
  let d := take (Z.to_nat (datagram_len c)) c in
  if header_valid (enabled cfg inp NETIF_CHECKSUM_CHECK_IP) b c then
    exists port, (IPH_HL_BYTES c + 4 <= Z.min (len b) (datagram_len c) -> port = get16 d (Z.to_nat (IPH_HL_BYTES c + 2))) /\
      outcome s s' Q P Own p inp (payload b) d (accepted (netifs (anet s)) inp ni d port)
  else outcome s s' Q P Own p inp (payload b) d None.

(** What lies behind the datagram is cut off. *)
Lemma trim_ok s Q P Own p b tl n c : holding cfg s Q P Own p b tl -> Forall pool_pbuf ((p, b) :: tl) -> framed p b ->
  contents (pmem (ps (anet s))) ((p, b) :: tl) = Some c -> 0 <= n ->
  wp (if n <? tot_len b then on_pbuf (pbuf_realloc p n) else mret tt) s (fun _ s' => exists b' tl' P', holding cfg s' Q P' Own p b' tl' /\
    before p s P s' P' /\ framed p b' /\ payload b' = payload b /\ tot_len b' = Z.min n (tot_len b) /\ len b' = Z.min (len b) n /\
    contents (pmem (ps (anet s'))) ((p, b') :: tl') = Some (take (Z.to_nat n) c) /\ dev (anet s') = dev (anet s)).
Proof.
  intros Hd Hpool (Hf1 & Hf2 & Hf3) Hc Hn. pose proof (hd_facts _ _ _ _ _ _ _ _ Hd) as [_ _ _ Hct _ _ (Ht & Hl & Htl & Hpos) _ Hlok _]. unfold is_u16 in *.
  pose proof (contents_total _ _ _ Hlok Hc) as Htot. rewrite total_cons in Htot. cbn [snd] in Htot.
  destruct (Z.ltb_spec n (tot_len b)) as [Hlt|Hge].
  - destruct (realloc_held (ps (anet s)) P _ p b tl n (hd_holds _ _ _ _ _ _ _ _ Hd) (hd_at _ _ _ _ _ _ _ _ Hd) Hpool ltac:(lia)) as
      (b' & tl' & t & Hrun & Hm & Hh & [[Hr' _] _]%Forall_cons & Hpl & Hty & Htl' & Hln & Hcon). cbn [snd] in Hr'.
    eapply wp_pbuf_use; [exact Hrun|]. exists b', tl', (<[p := (p, b') :: tl']> P).
    assert (Hst : forall q l, ~ (q ∈ [p]) -> P !! q = Some l -> <[p := (p, b') :: tl']> P !! q = Some l /\ contents (pmem t) l = contents (pmem (ps (anet s))) l).
    { intros q l Hq Hql. apply ne_single in Hq. rewrite lookup_insert_ne by done. by rewrite Hm. }
    split; [|split; [|split; [split; [lia|]; split; lia|do 3 (split; [done || lia|]); split; [|done]]]].
    + eapply hd_pbuf; [exact Hd|exact Hh|apply lookup_insert_eq|intros q Hq; by rewrite lookup_insert_ne|by rewrite Hr', (hd_ref _ _ _ _ _ _ _ _ Hd)|unfold contiguous; by rewrite Hty].
    + by repeat (split; [done|]).
    + cbn. rewrite Hm. by apply Hcon.
  - apply wp_ret. exists b, tl, P. split; [done|]. split; [done|]. split; [done|]. split; [done|]. split; [lia|]. split; [lia|]. split; [|done].
    rewrite take_ge by lia. done.
Qed.

Lemma header_valid_true check b c : header_valid check b c = true <-> IPH_V c = 4 /\ 20 <= IPH_HL_BYTES c <= len b /\ IPH_HL_BYTES c <= datagram_len c /\
  datagram_len c <= tot_len b /\ (check = true -> checksum (take (Z.to_nat (IPH_HL_BYTES c)) c) = 0).
Proof.
  unfold header_valid, IP_HLEN. rewrite !andb_true_iff, orb_true_iff, negb_true_iff, Z.leb_le, Z.leb_le, Z.leb_le, Z.eqb_eq, Z.eqb_eq, Z.min_glb_iff.
  destruct check; intuition congruence.
Qed.
Lemma take_field n c k : (k < n)%nat -> take n c !!! k = c !!! k :> Z.
Proof. intros Hk. by rewrite !list_lookup_total_alt, lookup_take_lt. Qed.

(** The fields that decide, as they are read: they are those of the packet if it has them. *)
Lemma fields_known (b : pbuf) v hdr c : (Z.of_nat 1 <= len b -> v = take 1 c) -> (Z.of_nat 4 <= len b -> hdr = take 4 c) ->
  20 <= len b -> IPH_V v = IPH_V c /\ IPH_HL_BYTES hdr = IPH_HL_BYTES c /\ lwip_htons (IPH_LEN hdr) = datagram_len c.
Proof.
  intros Hv Hh Hl. rewrite Hv, Hh by lia. unfold IPH_V, IPH_HL_BYTES, datagram_len, IPH_LEN, get16. by rewrite !take_field by lia.
Qed.

Lemma verify_ok s Q P Own p b tl d (check : bool) hl : holding cfg s Q P Own p b tl -> contents (pmem (ps (anet s))) ((p, b) :: tl) = Some d -> bytes d -> 0 <= hl <= len b -> hl <= 60 ->
  wp (if check : bool then bs ← on_pbuf (LOAD (payload b) (Z.to_nat hl)); mret (inet_chksum (payload b) bs) else mret 0) s
    (fun r s' => s' = s /\ r = if check then checksum (take (Z.to_nat hl) d) else 0).
Proof.
  intros Hd Hc Hby Hhl H60. destruct check; [|by apply wp_ret].
  apply wp_bind. eapply (wp_load_front cfg s Q P Own p b tl d); [exact Hd|exact Hc|lia|]. apply wp_ret. split; [done|].
  apply inet_chksum_run; [by apply Forall_take|unfold is_u16; rewrite length_take; lia].
Qed.

Lemma wp_peek_front s Q P Own p b tl k c (R : list Z -> Ip -> Prop) : holding cfg s Q P Own p b tl -> payload b + Z.of_nat k <= arena_hi ->
  contents (pmem (ps (anet s))) ((p, b) :: tl) = Some c -> (forall bs, (Z.of_nat k <= len b -> bs = take k c) -> R bs s) ->
  wp (on_pbuf (LOAD (payload b) k)) s R.
Proof.
  intros Hd Ha Hc HR. rewrite <- (Z.add_0_r (payload b)). eapply (wp_peek cfg s Q P Own p b tl 0 k); [exact Hd|done|lia|].
  intros bs _ Hbs. apply HR. exact (Hbs c Hc).
Qed.

Lemma settled_none s s1 s' Q P P1 Own p inp ni b c pl d : before p s P s1 P1 -> header_valid (enabled cfg inp NETIF_CHECKSUM_CHECK_IP) b c = false ->
  taken s1 s' Own p /\ outcome s1 s' Q P1 Own p inp pl d None -> taken s s' Own p /\ ip_settled s s' Q P Own p inp ni b c.
Proof.
  intros Hb Hv [Ht Ho]. split; [eapply taken_from; [apply Hb|exact Ht]|]. unfold ip_settled. rewrite Hv.
  exact (outcome_from s s1 s' Q P P1 Own p inp pl d None Hb Ho).
Qed.

Lemma input_ok s Q P Own p inp ni b tl c : holding cfg s Q P Own p b tl -> received (netifs (anet s)) p b tl c ->
  contents (pmem (ps (anet s))) ((p, b) :: tl) = Some c -> netifs (anet s) !! inp = Some ni ->
  wp (Ip4.ip4_input p inp) s (fun _ s' => taken s s' Own p /\ ip_settled s s' Q P Own p inp ni b c).
Proof.
  intros Hd (Hcf & Hpool & _ & Hfr & Hby) Hc Hn. pose proof Hfr as (_ & _ & Har).
  pose proof (hd_facts _ _ _ _ _ _ _ _ Hd) as [_ Hpb _ _ _ _ (_ & [Hlen0 _] & _) _ _ _]. set (ck := enabled cfg inp NETIF_CHECKSUM_CHECK_IP).
  assert (Hno : forall s1 P1 b1 tl1, holding cfg s1 Q P1 Own p b1 tl1 -> before p s P s1 P1 -> header_valid ck b c <> true ->
    wp (discard p) s1 (fun _ s' => taken s s' Own p /\ ip_settled s s' Q P Own p inp ni b c)).
  { intros s1 P1 b1 tl1 Hd1 Hb1 Hv%not_true_is_false. eapply wp_mono; [by eapply (discard_ok s1 Q P1 Own p b1 tl1 inp 0 c)|].
    intros [] s' Hs'. by eapply settled_none. }
  assert (Hb0 : before p s P s P) by done.
  unfold Ip4.ip4_input. apply wp_bind. eapply wp_rd; [exact Hpb|]. cbv zeta.
  apply wp_bind. eapply (wp_peek_front s Q P Own p b tl 1 c); [exact Hd|lia|exact Hc|]. intros v Hv. destruct (Z.eqb_spec (IPH_V v) 4) as [V4|V4]; cbn [negb].
  2:{ apply (Hno s P b tl Hd Hb0). intros (E & [? ?] & _)%header_valid_true. apply V4.
      rewrite (Hv ltac:(lia)) in *. unfold IPH_V in *. by rewrite take_field by lia. }
  apply wp_bind. eapply (wp_peek_front s Q P Own p b tl 4 c); [exact Hd|lia|exact Hc|]. intros hdr Hh.
  pose proof (fields_known b v hdr c Hv Hh) as Hkn. pose proof (hl_bound hdr) as H60. set (hl := IPH_HL_BYTES hdr) in *. set (n := lwip_htons (IPH_LEN hdr)) in *.
  assert (Hn0 : 0 <= n) by (unfold n; pose proof (htons_range (IPH_LEN hdr)); lia).
  apply wp_bind. eapply wp_mono; [by eapply (trim_ok s Q P Own p b tl n c)|].
  intros _ s1 (b1 & tl1 & P1 & Hd1 & Hb1 & Hfr1 & Hpl1 & Ht1 & Hl1 & Hc1 & _).
  apply wp_bind. eapply wp_rd; [apply (hd_facts _ _ _ _ _ _ _ _ Hd1)|].
  destruct (_ || _) eqn:G.
  { apply (Hno s1 P1 b1 tl1 Hd1 Hb1). intros (E & [? ?] & ? & ? & _)%header_valid_true. destruct (Hkn ltac:(lia)) as (_ & E2 & E3).
    apply orb_true_iff in G as [[G|G]%orb_true_iff|G]; apply Z.ltb_lt in G; unfold IP_HLEN in *; lia. }
  apply orb_false_iff in G as [[G1 G2]%orb_false_iff G3]. apply Z.ltb_ge in G1, G2, G3. unfold IP_HLEN in *.
  destruct (Hkn ltac:(lia)) as (E1 & E2 & E3). set (d := take (Z.to_nat n) c) in *.
  assert (Ed : IPH_HL_BYTES d = hl) by (rewrite E2; unfold IPH_HL_BYTES, d; by rewrite take_field by lia).
  assert (Hbd : bytes d) by (by apply Forall_take). rewrite <- Hpl1.
  assert (Ev : header_valid ck b c = negb ck || (checksum (take (Z.to_nat hl) d) =? 0)).
  { apply eq_true_iff_eq. rewrite header_valid_true, orb_true_iff, negb_true_iff, Z.eqb_eq. unfold d. rewrite take_take, Nat.min_l, <- E2, <- E3, <- E1 by lia.
    destruct ck; intuition (congruence || lia). }
  apply wp_bind. eapply (wp_enabled cfg s1 Q P1 Own); [apply Hd1|]. fold ck. apply wp_bind.
  eapply wp_mono; [apply (verify_ok s1 Q P1 Own p b1 tl1 d ck hl); [exact Hd1|exact Hc1|exact Hbd|lia|lia]|]. intros z ? [-> ->].
  destruct (nz _) eqn:Z0.
  { apply (Hno s1 P1 b1 tl1 Hd1 Hb1). rewrite Ev. unfold nz in Z0. destruct ck; cbn in *; [|done]. destruct (_ =? 0); done. }
  assert (Evt : header_valid ck b c = true) by (rewrite Ev; unfold nz in Z0; destruct ck; cbn in *; [by destruct (_ =? 0)|done]).
  apply wp_bind. eapply (wp_load_front cfg s1 Q P1 Own p b1 tl1 d); [exact Hd1|exact Hc1|cbn; lia|]. change (Z.to_nat 20) with 20%nat.
  rewrite <- Ed. pose proof Hb1 as (_ & _ & Eni & _).
  eapply wp_mono; [eapply (dispatch_ok s1 Q P1 Own p b1 tl1 inp ni d); [exact Hd1|exact Hfr1|exact Hc1|exact Hbd|lia|by rewrite Eni|by rewrite Eni]|].
  intros [] s' [Htk (port & Hport & Hout)]. split; [by eapply taken_from|]. unfold ip_settled. fold ck. rewrite Evt, <- E3. fold d.
  exists port. rewrite <- E2. rewrite Ed in Hport. split; [intros Hl; apply Hport; lia|]. rewrite <- Hpl1, <- Eni. by eapply outcome_from.
Qed.
End Input.
