(* ===== verification/Ip4Props.v ===== *)
(** The theorems about IPv4 and ICMP as a whole, and the layer as the [IpInput] of
    ethernet.c. *)
From S2P Require Import Prelude CMem Memp Pbuf IpAddr Packets Ethernet Etharp EtharpInv EtharpOk EtharpIo EthInput Checksum Ip4 PacketsIp Ip4Ok Ip4Out IcmpOk Ip4In.

(** ** Headers and replies, byte by byte *)

Definition field (k n : nat) (c : list Z) : list Z := take n (drop k c).

(** An echo reply [c'] to the request [c] with a header of [hl] bytes. *)
Record reply (gen_ip gen_icmp : bool) (hl : nat) (src dest : Z) (c c' : list Z) : Prop := {
  rp_length : length c' = length c;
  rp_header : IPH_V c' = IPH_V c /\ IPH_HL_BYTES c' = IPH_HL_BYTES c /\ IPH_LEN c' = IPH_LEN c /\ IPH_PROTO c' = IPH_PROTO c;
  rp_addresses : field 12 4 c' = le32 src /\ field 16 4 c' = le32 dest;
  rp_ttl : c' !!! 8%nat = ICMP_TTL;
  rp_type : c' !!! hl = ICMP_ER;
  rp_data : drop (hl + 4) c' = drop (hl + 4) c;
  rp_header_sum : gen_ip = true -> checksum (take hl c') = 0;
  rp_message_sum : gen_icmp = true -> c !!! hl = ICMP_ECHO -> checksum (drop hl c) = 0 -> checksum (drop hl c') = 0
}.

Lemma pong_header_fields gi src dest h : (20 <= length h)%nat -> let h' := pong_header gi src dest h in
  length h' = length h /\ (forall k, (k < 8)%nat -> h' !!! k = h !!! k) /\ h' !!! 9%nat = h !!! 9%nat /\
  field 12 4 h' = le32 src /\ field 16 4 h' = le32 dest /\ h' !!! 8%nat = ICMP_TTL.
Proof.
  intros Hh. do 20 (destruct h as [|? h]; [cbn in Hh; lia|]). unfold pong_header, patch_all. cbn [foldl fst snd].
  change (Z.to_nat 12) with 12%nat. change (Z.to_nat 16) with 16%nat. change (Z.to_nat 8) with 8%nat. change (Z.to_nat 10) with 10%nat.
  set (h4 := patch 10 (le16 0) _).
  assert (E : exists x y, (if gi then patch 10 (le16 (checksum h4)) h4 else h4) = [z; z0; z1; z2; z3; z4; z5; z6; ICMP_TTL; z8; x; y] ++ le32 src ++ le32 dest ++ h).
  { destruct gi; do 2 eexists; unfold h4, patch, le32, le16; cbn -[Z.modulo Z.div checksum]; rewrite ?drop_0; reflexivity. }
  destruct E as (x & y & ->). split; [done|]. split; [|done]. intros k Hk. do 8 (destruct k as [|k]; [done|]). lia.
Qed.

Lemma pong_reply gi gm src dest hl c : bytes c -> (20 <= hl)%nat -> (hl + 4 <= length c)%nat ->
  reply gi gm hl src dest c (pong gi gm (Z.of_nat hl) src dest c).
Proof.
  intros Hb Hhl Hc. assert (Lh : length (take hl c) = hl) by (rewrite length_take; lia).
  assert (Lm : (4 <= length (drop hl c))%nat) by (rewrite length_drop; lia).
  pose proof (pong_parts gi gm src dest (take hl c) (drop hl c) ltac:(lia) Lm) as Hp. rewrite Lh, take_drop in Hp. rewrite Hp. clear Hp.
  destruct (pong_header_fields gi src dest (take hl c) ltac:(lia)) as (E1 & E2 & E3 & E4 & E5 & E6).
  assert (Hsum : gi = true -> checksum (pong_header gi src dest (take hl c)) = 0) by (intros ->; apply pong_header_checks; [by apply Forall_take|lia]).
  set (h' := pong_header gi src dest _) in *. rewrite Lh in E1.
  assert (At : forall k m, (k < 20)%nat -> (h' ++ m) !!! k = h' !!! k) by (intros k m Hk; rewrite !list_lookup_total_alt, lookup_app_l by lia; done).
  assert (Eq : forall k, (k < 8)%nat -> h' !!! k = c !!! k) by (intros k Hk; rewrite E2 by done; by apply take_field; lia).
  assert (Em : length (pong_message gm (drop hl c)) = length (drop hl c)).
  { unfold pong_message. destruct gm; rewrite !patch_length; rewrite ?patch_length; cbn; lia. }
  constructor.
  - rewrite length_app, Em, E1, length_drop. lia.
  - unfold IPH_V, IPH_HL_BYTES, IPH_LEN, get16, IPH_PROTO. rewrite !At, !Eq by lia. rewrite E3. repeat split. apply take_field. lia.
  - unfold field in *. rewrite !drop_app_le by lia. rewrite !take_app_le by (rewrite length_drop; lia). done.
  - rewrite At by lia. exact E6.
  - rewrite list_lookup_total_alt, lookup_app_r by lia. rewrite E1, Nat.sub_diag.
    unfold pong_message. destruct (drop hl c) as [|a [|a2 [|a3 [|a4 l]]]]; try (cbn in Lm; lia). done.
  - rewrite <- E1 at 1. rewrite drop_app_add. unfold pong_message. rewrite <- drop_drop.
    destruct (drop hl c) as [|a [|a2 [|a3 [|a4 l]]]]; try (cbn in Lm; lia). destruct gm; cbn; by rewrite !drop_0.
  - intros Hg. rewrite take_app_length' by done. by apply Hsum.
  - intros -> He Hm. rewrite drop_app_length' by done. apply pong_message_checks; [by apply Forall_drop|done| |done].
    rewrite list_lookup_total_alt, lookup_drop, Nat.add_0_r, <- list_lookup_total_alt. exact He.
Qed.

(** The header of a datagram of our own, as a receiver reads it. *)
Record own_header (check : bool) (b : pbuf) (id ttl proto src dest : Z) (c : list Z) : Prop := {
  oh_valid : header_valid check b c = true;
  oh_plain : IPH_HL_BYTES c = IP_HLEN /\ fragment c = false;
  oh_length : datagram_len c = tot_len b;
  oh_id : field 4 2 c = le16 (lwip_htons id);
  oh_ttl : c !!! 8%nat = u8 ttl;
  oh_proto : IPH_PROTO c = u8 proto;
  oh_addresses : field 12 4 c = le32 src /\ field 16 4 c = le32 dest
}.

Lemma get16_le16 v l : is_u16 v -> get16 (le16 v ++ l) 0 = v.
Proof. intros Hv. unfold is_u16 in Hv. change (v mod 256 + 256 * (v / 256 mod 256) = v). zlia. Qed.

Lemma own_header_ok check b id ttl proto src dest tos c : 20 <= len b <= tot_len b -> tot_len b < 65536 -> is_u8 tos ->
  own_header check b id ttl proto src dest (sealed_header check tos (tot_len b) id ttl proto src dest ++ c).
Proof.
  intros Hl Ht Htos. set (h := sealed_header _ _ _ _ _ _ _ _).
  assert (Hh : exists x y, h = [69; tos] ++ le16 (lwip_htons (tot_len b)) ++ le16 (lwip_htons id) ++ [0; 0; u8 ttl; u8 proto] ++ [x; y] ++ le32 src ++ le32 dest) by (by do 2 eexists).
  assert (Hs : check = true -> checksum h = 0) by (intros Hck; unfold h; rewrite Hck; by apply sealed_header_checks).
  assert (L : length h = 20%nat) by done. destruct Hh as (x & y & E). clearbody h.
  assert (Ed : datagram_len (h ++ c) = tot_len b).
  { subst h. unfold datagram_len, IPH_LEN. change (get16 _ 2) with (get16 (le16 (lwip_htons (tot_len b)) ++ []) 0).
    rewrite get16_le16; [apply lwip_htons_involutive; unfold is_u16; lia|]. pose proof (htons_range (tot_len b)). unfold is_u16. lia. }
  assert (Ehl : IPH_HL_BYTES (h ++ c) = 20) by (by subst h).
  constructor; [|split; [done|by subst h]|exact Ed|by subst h..].
  apply header_valid_true. rewrite Ed, Ehl. split; [by subst h|]. do 3 (split; [lia|]). intros Hck.
  change (Z.to_nat 20) with 20%nat. rewrite take_app_length' by done. by apply Hs.
Qed.

Section Props.
Context {A D : Type} `{PbufHeap A} `{LinkOk D} (cfg : ip_config) `{!Transport A D}.
#[local] Hint Extern 0 (@LinkOk (ip_state D) _) => exact (ip_link_ok (D := D) cfg) : typeclass_instances.
Abbreviation Ip := (arp A (ip_state D)).
Abbreviation packets := (gmap Z (list (Z * pbuf))).

(** C39: [ip4_output] picks the first usable interface whose network (or gateway, on a link
    without broadcast) the destination is on, else the default interface; without one it
    returns ERR_RTE and changes nothing, and likewise ERR_BUF if the packet has no room for a
    header.  Otherwise the packet goes to address resolution for the destination with its
    bytes behind a header of 20 bytes that a receiver accepts: version, lengths and checksum
    (if the interface computes it) are right, it is no fragment, and it carries the next
    identification, the given protocol and time to live, the given source address (the
    interface's own for none) and the destination. *)
Theorem ip4_output_sends_valid s Q P Own p b tl c src dest ttl tos proto : holding cfg s Q P Own p b tl ->
  contents (pmem (ps (anet s))) ((p, b) :: tl) = Some c -> config_ok cfg (netifs (anet s)) -> is_u8 tos ->
  wp (ip4_output p src dest ttl tos proto) s (fun r s' =>
    let n := route cfg (netifs (anet s)) dest in
    if n =? 0 then r = ERR_RTE /\ s' = s
    else exists ni, netifs (anet s) !! n = Some ni /\ usable ni = true /\
      if has_room IP_HLEN p b then
        exists s1 h, datagram cfg s s1 Q P Own n p b tl h c /\
          own_header (enabled cfg n NETIF_CHECKSUM_GEN_IP) (grown IP_HLEN b) (ip_id (idata s)) ttl proto (source ni src) dest (h ++ c) /\
          handed_over cfg s1 s' Q (<[p := (p, grown IP_HLEN b) :: tl]> P) Own n ni p dest r
      else r = ERR_BUF /\ s' = s).
Proof.
  intros Hd Hc Hcf Ht. eapply wp_mono; [by eapply ip_output_ok|]. intros r s'. cbv zeta. destruct (_ =? 0); [done|].
  intros (ni & Hni & Hu & Hs). exists ni. split; [done|]. split; [done|]. unfold sent_as_datagram in Hs.
  destruct (has_room IP_HLEN p b) eqn:E; [|exact Hs]. destruct Hs as (s1 & Hdg & Ho). eexists s1, _. split; [exact Hdg|]. split; [|exact Ho].
  pose proof (hd_facts _ _ _ _ _ _ _ _ Hd) as [_ _ _ Hct _ _ (_ & [Hl _] & Htl & Hpos) _ _ _].
  apply (has_room_iff _ _ _ Hct) in E as [_ E]. unfold IP_HLEN in *.
  apply (own_header_ok _ (grown 20 b)); [cbn; lia|cbn; lia|done].
Qed.

(** C38: An echo request for one of our own addresses (no group, no broadcast), whole and with a
    right checksum where the interface checks it, is answered: the packet itself is turned
    round and goes to address resolution of the interface it came in on, from the address
    it was sent to and to the one it came from, as an echo reply with the same length, identifier, sequence
    number and data and a full time to live.  Its header verifies where the interface computes
    checksums, and so does its message, by the checksum that was only adjusted, if the request's did.
    The packet is then given up. *)
Theorem ping_answered s Q P Own p inp b tl hl c ni : holding cfg s Q P Own p b tl -> upper s p inp b tl hl c -> bytes c ->
  netifs (anet s) !! current_netif (ip_data (idata s)) = Some ni ->
  echo_request (ip_data (idata s)) ni (enabled cfg inp NETIF_CHECKSUM_CHECK_ICMP) b hl c = true ->
  wp (icmp_input p inp) s (fun _ s' => exists Q' P', arp_ok s' Q' P' (Own ∖ {[p]}) /\ netifs (anet s') = netifs (anet s) /\
    exists s1 s2 out r c', netifs (anet s) !! inp = Some out /\ contents (pmem (ps (anet s1))) ((p, grown hl b) :: tl) = Some c' /\
      reply (enabled cfg inp NETIF_CHECKSUM_GEN_IP) (enabled cfg inp NETIF_CHECKSUM_GEN_ICMP) (Z.to_nat hl)
        (current_iphdr_dest (ip_data (idata s))) (current_iphdr_src (ip_data (idata s))) c c' /\
      only p s P s1 (<[p := (p, grown hl b) :: tl]> P) /\
      handed_over cfg s1 s2 Q (<[p := (p, grown hl b) :: tl]> P) Own inp out p (get32 c' 16) r /\ dev (anet s') = dev (anet s2)).
Proof.
  intros Hd Hup Hby Hni He. eapply wp_mono; [by eapply icmp_input_ok|]. intros _ s' (Q' & P' & Hok & Hn & nc & Hnc & Hdone).
  assert (nc = ni) as -> by congruence. rewrite He in Hdone. exists Q', P'. split; [done|]. split; [done|].
  destruct Hdone as (s1 & s2 & out & r & Hout & Hc' & On & Ho & Hdv). do 4 eexists. eexists. split; [exact Hout|]. split; [exact Hc'|].
  split; [|done]. pose proof (up_contents _ _ _ _ _ _ _ Hup) as (c1 & c2 & -> & _ & _ & Hl)%contents_cons. cbn in Hl.
  destruct (up_hlen _ _ _ _ _ _ _ Hup) as [Hhl _]. unfold echo_request in He. apply andb_true_iff in He as [[Hlb _]%andb_true_iff _].
  apply Z.leb_le in Hlb. rewrite <- (Z2Nat.id hl) at 2 by lia. apply pong_reply; [done|lia|]. rewrite length_app. lia.
Qed.

Context `{!TransportOk cfg}.


(** ** The layer that ethernet.c calls *)

Lemma holding_of (s : Ip) Q P Own p b tl : arp_ok s Q P Own -> caller_packet Q P Own p -> P !! p = Some ((p, b) :: tl) -> ref b = 1 ->
  contiguous b = true -> holding cfg s Q P Own p b tl.
Proof. intros Hok (Hown & Hfree & _) Hp Hr Hct. by constructor. Qed.
Lemma received_block ns p b tl c : received cfg ns p b tl c -> contiguous b = true.
Proof. intros Hr. apply Hr. Qed.

#[local] Instance ip4_layer : IpInput A (ip_state D) := { EthInput.ip4_input := Ip4.ip4_input }.
#[local] Program Instance ip4_layer_ok : IpInputOk (D := ip_state D) := {
  ip_ready ns l c := match l with (p, b) :: tl => ref b = 1 /\ received cfg ns p b tl c | [] => False end
}.
Next Obligation.
  intros s Q P Own p n b tl c Hok [ni Hn] Hcp Hp Hc [Hr Hrc].
  pose proof (input_ok cfg s Q P Own p n ni b tl c (holding_of s Q P Own p b tl Hok Hcp Hp Hr (received_block _ _ _ _ _ Hrc)) Hrc Hc Hn) as Hw.
  refine (wp_mono _ _ _ _ Hw _). intros _ s' [(Q' & P' & Hok' & Hn') _]. exists Q', P'. split; [exact Hok'|exact Hn'].
Qed.

End Props.

(** ** A board that is pinged *)

Section Witnesses.
#[local] Existing Instances bump_pbuf_alloc bump_heap wire wire_ok ip4_layer ip4_layer_ok.
(** UDP and TCP without any connection free every packet. *)
#[local] Instance no_transport : Transport bump_alloc (list (list Z)) := { udp_input p _ := discard p; tcp_input p _ := discard p }.
Definition demo_config : ip_config := mkConfig [1] 1 (fun _ => 65535).
#[local] Hint Extern 0 (@LinkOk (ip_state _) _) => exact (ip_link_ok (D := list (list Z)) demo_config) : typeclass_instances.
#[local] Program Instance no_transport_ok : TransportOk demo_config.
Next Obligation. intros s Q P Own p inp b tl hl c Hd _ _ _. apply (give_up_all demo_config s Q P); apply Hd. Qed.
Next Obligation. intros s Q P Own p inp b tl hl c Hd _ _ _. apply (give_up_all demo_config s Q P); apply Hd. Qed.

(** The interface of [EtharpIo.v], up, which knows the host 169.254.231.7. *)
Definition up_netif : netif := mkNetif (mkIp4Netif 15 (demo_ip 1) 65535) 0 [2; 0; 0; 0; 0; 1] 6 0 None.
Definition known_host : etharp_entry := mkEntry 0 (demo_ip 7) 1 [2; 0; 0; 0; 0; 7] 0 ETHARP_STATE_STABLE.

(** A pool pbuf whose payload is what follows the first [k] bytes of [c], which lie [o] bytes behind its header. *)
Section Demo.
Context (o k : Z) (c : list Z) (g : ip_globals).
Definition whole_pbuf : pbuf := mkPbuf 0 (4112 + o) (Z.of_nat (length c)) (Z.of_nat (length c)) (u8 PBUF_POOL) 0 1 0.
Definition ip_pbuf : pbuf := trimmed k whole_pbuf.
Definition ip_mem : mem := match store_bytes (map_block ∅ 4096 1024) (payload whole_pbuf) c with Some m => m | None => ∅ end.
Definition ip_packets : gmap Z (list (Z * pbuf)) := {[4096 := [(4096, ip_pbuf)]]}.
Definition ip_net : net bump_alloc (ip_state (list (list Z))) :=
  mkNet (mkPst {[4096 := ip_pbuf]} ip_mem (mkBump 4608 1) 0) (mkIpState g 41 [1] 1 (fun _ => 65535) []) {[1 := up_netif]}.
Definition ip_demo : arp bump_alloc (ip_state (list (list Z))) :=
  mkArp (known_host :: replicate 9 (mkEntry 0 0 0 ethzero 0 ETHARP_STATE_EMPTY)) 0 ∅ ip_net.
Context (Ho : 0 <= o <= 80) (Hc : (length c <= 400)%nat) (Hk : 0 <= k <= Z.of_nat (length c)).

Lemma ip_demo_stored : store_bytes (map_block ∅ 4096 1024) (payload whole_pbuf) c = Some ip_mem /\ mapped ip_mem 4096 1024.
Proof.
  destruct (store_bytes_mapped (map_block ∅ 4096 1024) (payload whole_pbuf) c) as (m & Hm & Hd).
  { apply map_block_mapped; cbn; lia. }
  unfold ip_mem. rewrite Hm. split; [done|]. intros x Hx. apply Hd. apply (map_block_mapped _ 4096 1024 4096 1024); lia.
Qed.
Lemma whole_contents : contents ip_mem [(4096, whole_pbuf)] = Some c.
Proof. apply contents_one. cbn [len whole_pbuf]. rewrite Nat2Z.id. exact (store_load _ _ _ _ (proj1 ip_demo_stored)). Qed.
Lemma ip_contents : contents ip_mem [(4096, ip_pbuf)] = Some (drop (Z.to_nat k) c).
Proof. apply (cut_contents _ 4096 whole_pbuf [] k); [exact whole_contents|exact Hk]. Qed.
Lemma ip_demo_holds : holds (ps ip_net) ip_packets ∅.
Proof.
  exists {[4096 := (512, PBUF_TYPE_ALLOC_SRC_MASK_STD_MEMP_PBUF_POOL)]}. constructor.
  - constructor; cbn; [split; [unfold arena_end; lia|done]|..|by intros ? ?%elem_of_empty|lia].
    + intros x n j [<- [= <- <-]]%lookup_singleton_Some. lia.
    + intros x y n m j i [<- _]%lookup_singleton_Some [<- _]%lookup_singleton_Some. done.
    + intros x n j [<- [= <- <-]]%lookup_singleton_Some. lia.
  - exact (proj2 ip_demo_stored).
  - unfold ip_packets. intros p l [<- <-]%lookup_singleton_Some. constructor; [by repeat split|done|..].
    + split; [unfold is_u16; cbn; lia|]. split; [unfold is_u16; cbn; lia|]. split; [cbn; lia|done].
    + constructor; [by right|constructor].
    + constructor; [|constructor]. split; [cbn; lia|by_decision].
    + constructor; [|constructor]. exists 512. split; [done|]. unfold SIZEOF_STRUCT_PBUF. cbn [fst snd]. replace (contiguous ip_pbuf) with true by done. cbn. lia.
  - unfold ip_packets. intros p p' l l' x [<- _]%lookup_singleton_Some [<- _]%lookup_singleton_Some. done.
Qed.
Lemma demo_entry e : e ∈ arp_table ip_demo -> e = known_host \/ is_empty e = true /\ ctime e = 0.
Proof. intros [->|[-> _]%elem_of_replicate]%elem_of_cons; [by left|by right]. Qed.
Lemma entry_at i e : arp_table ip_demo !! i = Some e -> i = 0%nat \/ is_empty e = true.
Proof. destruct i as [|i]; [by left|]. intros [-> _]%(lookup_replicate 9 (mkEntry 0 0 0 ethzero 0 ETHARP_STATE_EMPTY)). by right. Qed.
Lemma ip_demo_ok : arp_ok ip_demo (replicate 10 []) ip_packets {[4096]}.
Proof.
  constructor; [constructor|constructor|done].
  - by repeat constructor.
  - constructor.
  - by intros ? ?%elem_of_nil.
  - constructor.
  - by intros ? ?%elem_of_nil.
  - intros p ->%elem_of_singleton. exists ip_pbuf, []. split; [done|]. by intros ?%elem_of_nil.
  - constructor; [exact ip_demo_holds| |done]. cbn [netifs ip_net ip_demo anet]. intros n ni [<- <-]%lookup_singleton_Some. done.
  - done.
  - intros i e l He [-> _]%lookup_replicate. split; [|done]. unfold ARP_QUEUE_LEN. cbn. lia.
  - intros e [->|[_ ->]]%demo_entry; (split; [done|]; split; done).
  - intros e [->|[-> _]]%demo_entry; [|done]. intros _. split; [by exists up_netif|done].
  - intros i j e f [->|He]%entry_at [->|Hf]%entry_at Hne Hnf _ _; congruence.
Qed.
Lemma ip_demo_holding : holding demo_config ip_demo (replicate 10 []) ip_packets {[4096]} 4096 ip_pbuf [].
Proof. constructor; [exact ip_demo_ok|set_solver|by intros ?%elem_of_nil|done|done|done]. Qed.
Lemma demo_config_ok : config_ok demo_config (netifs (anet ip_demo)).
Proof. split; [|split; [right|done]]; [constructor; [|constructor]|]; by exists up_netif. Qed.
End Demo.

(** The host pings: identifier 513, sequence number 1027, four bytes of data. *)
Definition ping_message (chk : Z) : list Z := [ICMP_ECHO; 0] ++ le16 chk ++ [1; 2; 3; 4; 10; 11; 12; 13].
Definition ping : list Z :=
  sealed_header true 0 32 99 64 IP_PROTO_ICMP (demo_ip 7) (demo_ip 1) ++ ping_message (checksum (ping_message 0)).
Definition ping_frame : list Z := frame_of [2; 0; 0; 0; 0; 1] [2; 0; 0; 0; 0; 7] ETHTYPE_IP ping.
Definition idle_globals : ip_globals := mkIpGlobals 0 0 0 0 0 0.
Definition ping_globals : ip_globals := mkIpGlobals 1 1 4126 20 (demo_ip 7) (demo_ip 1).

Lemma ping_bytes : bytes ping.
Proof. by_decision. Qed.
Lemma ip_reads o k c g n : demo_config = config_of (idata (ip_demo o k c g)) /\ enabled demo_config 1 n = negb (Z.land 65535 n =? 0).
Proof. done. Qed.


Lemma ping_answered_witness :
  wp (icmp_input 4096 1) (ip_demo 14 20 ping ping_globals) (fun _ s' => exists s1 s2 r c',
    reply true true 20 (demo_ip 1) (demo_ip 7) ping c' /\
    handed_over demo_config s1 s2 (replicate 10 []) (<[4096 := [(4096, whole_pbuf 14 ping)]]> (ip_packets 14 20 ping)) {[4096]} 1 up_netif 4096 (get32 c' 16) r /\
    dev (anet s') = dev (anet s2)).
Proof.
  assert (Eg : grown 20 (ip_pbuf 14 20 ping) = whole_pbuf 14 ping) by apply grown_trimmed.
  eapply wp_mono; [apply (ping_answered demo_config _ _ _ _ 4096 1 (ip_pbuf 14 20 ping) [] 20 ping up_netif
    (ip_demo_holding 14 20 ping ping_globals ltac:(lia) ltac:(by_decision) ltac:(by_decision)))|].
  - constructor; [by exists up_netif|by exists up_netif|by_decision|done|by_decision|by_decision|rewrite Eg; exact (whole_contents 14 ping ltac:(lia) ltac:(by_decision))].
  - exact ping_bytes.
  - done.
  - by vm_compute.
  - intros _ s' (Q' & P' & _ & _ & s1 & s2 & out & r & c' & Hout & _ & Hr & _ & Hh & Hdv). injection Hout as <-. rewrite Eg in Hh.
    exists s1, s2, r, c'. split; [exact Hr|]. split; [exact Hh|exact Hdv].
Defined.

Lemma ip4_output_sends_valid_witness :
  wp (ip4_output 4096 0 (demo_ip 7) ICMP_TTL 0 IP_PROTO_ICMP) (ip_demo 14 20 ping idle_globals) (fun r s' => exists s1 h,
    own_header true (whole_pbuf 14 ping) 41 ICMP_TTL IP_PROTO_ICMP (demo_ip 1) (demo_ip 7) (h ++ drop 20 ping) /\
    handed_over demo_config s1 s' (replicate 10 []) (<[4096 := [(4096, whole_pbuf 14 ping)]]> (ip_packets 14 20 ping)) {[4096]} 1 up_netif 4096 (demo_ip 7) r).
Proof.
  assert (Eg : grown IP_HLEN (ip_pbuf 14 20 ping) = whole_pbuf 14 ping) by apply grown_trimmed.
  eapply wp_mono; [apply (ip4_output_sends_valid demo_config _ _ _ _ 4096 (ip_pbuf 14 20 ping) [] (drop 20 ping) 0 (demo_ip 7) ICMP_TTL 0 IP_PROTO_ICMP
    (ip_demo_holding 14 20 ping idle_globals ltac:(lia) ltac:(by_decision) ltac:(by_decision)))|].
  - exact (ip_contents 14 20 ping ltac:(lia) ltac:(by_decision) ltac:(by_decision)).
  - apply demo_config_ok.
  - done.
  - intros r s' (ni & Hni & _ & (s1 & h & _ & Hh & Ho)). injection Hni as <-. rewrite Eg in Hh, Ho. exists s1, h. split; [exact Hh|exact Ho].
Defined.


(** From wire to wire: the frame with the request comes in, the frame with the reply goes out. *)
Example ping_pong :
  match ethernet_input (fun _ => mret tt) 4096 1 (ip_demo 0 0 ping_frame idle_globals) with
  | Done (r, s') => (r, idev (idata s')) = (ERR_OK, [frame_of [2; 0; 0; 0; 0; 7] [2; 0; 0; 0; 0; 1] ETHTYPE_IP (pong true true 20 (demo_ip 1) (demo_ip 7) ping)])
  | Stop _ => False
  end.
Proof. by vm_compute. Qed.
End Witnesses.
