(* ===== verification/NetHeap.v ===== *)
(** The memory the packets of the stack live in: the pools of memp.c for the
    headers, the pool buffers and the queues of ARP, and the heap of mem.c for
    everything else, side by side.  Together they keep the promises of
    [PbufHeap], on which the theorems about packets rest. *)
From S2P Require Import Mem Prelude CMem Memp Pbuf IpAddr Packets Ethernet Etharp EtharpInv EtharpOk EtharpIo.

Section NetHeap.
(** The mailbox of the thread of the stack. *)
Context {X : Type} (post_callback : X -> Z * X).
Context (tbl : list memp_desc) (Hok : pools_ok tbl).
Context (pbuf_ty pool_ty queue_ty : nat) (dp db dq : memp_desc).
Context (Hp : tbl !! pbuf_ty = Some dp) (Hb : tbl !! pool_ty = Some db) (Hq : tbl !! queue_ty = Some dq).
Context (Hpb : pbuf_ty <> pool_ty) (Hpq : pbuf_ty <> queue_ty) (Hbq : pool_ty <> queue_ty).

Abbreviation store := (pools * (mem_heap * X))%type.
Definition run_or {A} (d : A) (m : M mem_heap A) (h : mem_heap) : A * mem_heap :=
  match m h with Done (a, h') => (a, h') | Stop _ => (d, h) end.
Definition heap_of {A} (f : mem_heap -> A * mem_heap) (b : mem_heap * X) : A * (mem_heap * X) :=
  let '(a, h) := f b.1 in (a, (h, b.2)).
#[local] Instance store_alloc : PbufAlloc store :=
  memp_alloc tbl pbuf_ty pool_ty queue_ty (fun n => heap_of (run_or 0 (Mem.mem_malloc n)))
    (fun p b => (exec (Mem.mem_free p) b.1, b.2)) (fun p n => heap_of (run_or 0 (Mem.mem_trim p n)))
    (fun b => let '(e, x) := post_callback b.2 in (e, (b.1, x))).

(** Where the pools of headers and of buffers and the heap lie. *)
Context (R lo hi : Z).
Definition first (d : memp_desc) : Z := LWIP_MEM_ALIGN (base d).
Definition beyond (d : memp_desc) : Z := first d + size d * Z.of_nat (Memp.num d).
Definition clear_of (a b c d : Z) : Prop := b <= c \/ d <= a.
Record layout : Prop := {
  lay_lo : 0 < lo;
  lay_heap : lo <= R /\ R + MEM_SIZE_ALIGNED <= hi;
  lay_pbufs : lo <= first dp /\ beyond dp <= hi;
  lay_bufs : lo <= first db /\ beyond db <= hi;
  lay_pbufs_bufs : clear_of (first dp) (beyond dp) (first db) (beyond db);
  lay_pbufs_heap : clear_of (first dp) (beyond dp) R (R + MEM_SIZE_ALIGNED);
  lay_bufs_heap : clear_of (first db) (beyond db) R (R + MEM_SIZE_ALIGNED)
}.
Context (Hlay : layout).

(** A block of [n] bytes at [x] that is out, by the allocator it came from. *)
Definition out (free : nat -> list Z) (bs : blocks) (x n k : Z) : Prop :=
  k = PBUF_TYPE_ALLOC_SRC_MASK_STD_HEAP /\ (exists j, n <= j /\ (x - R, j) ∈ in_use 0 bs) \/
  k = PBUF_TYPE_ALLOC_SRC_MASK_STD_MEMP_PBUF /\ x ∈ elements dp /\ ~ (x ∈ free pbuf_ty) /\ n <= size dp \/
  k = PBUF_TYPE_ALLOC_SRC_MASK_STD_MEMP_PBUF_POOL /\ x ∈ elements db /\ ~ (x ∈ free pool_ty) /\ n <= size db.

Record store_rep (a : store) (B : gmap Z (Z * Z)) (U : gset Z) (free : nat -> list Z) (bs : blocks) : Prop := {
  sr_pools : pools_rep tbl a.1 free;
  sr_heap : Mem.heap_is a.2.1 bs;
  sr_ram : ram a.2.1 = R;
  sr_out x n k : B !! x = Some (n, k) -> out free bs x n k;
  sr_queue r : r ∈ U -> r ∈ elements dq /\ ~ (r ∈ free queue_ty)
}.
Definition store_is (a : store) (B : gmap Z (Z * Z)) (U : gset Z) : Prop := exists free bs, store_rep a B U free bs.

(** ** Blocks lie apart *)

Lemma element_at ty d x : tbl !! ty = Some d -> x ∈ elements d -> exists i, 0 <= i < Z.of_nat (Memp.num d) /\ x = first d + size d * i.
Proof.
  intros Hd (i & -> & Hi)%list_elem_of_fmap. apply elem_of_seq in Hi. exists (Z.of_nat i). split; [lia|done].
Qed.
Lemma element_inside ty d x n : tbl !! ty = Some d -> x ∈ elements d -> n <= size d -> first d <= x /\ x + n <= beyond d.
Proof.
  intros Hd Hx Hn. destruct (element_at ty d x Hd Hx) as (i & Hi & ->). destruct (ok_elems _ Hok _ _ Hd) as (Hs & _).
  unfold beyond. split; nia.
Qed.
Lemma elements_apart ty d x y n m : tbl !! ty = Some d -> x ∈ elements d -> y ∈ elements d -> x <> y -> n <= size d -> m <= size d ->
  x + n <= y \/ y + m <= x.
Proof.
  intros Hd Hx Hy Hne Hn Hm. destruct (element_at ty d x Hd Hx) as (i & Hi & ->), (element_at ty d y Hd Hy) as (j & Hj & ->).
  destruct (ok_elems _ Hok _ _ Hd) as (Hs & _). destruct (Z.lt_trichotomy i j) as [?|[->|?]]; [left; nia|done|right; nia].
Qed.
Lemma heap_inside a B U free bs x n j : store_rep a B U free bs -> n <= j -> (x - R, j) ∈ in_use 0 bs ->
  R <= x /\ x + n <= R + MEM_SIZE_ALIGNED.
Proof.
  intros [_ [Ht _] _ _ _] Hn Hin. pose proof (in_use_bounds 0 bs _ _ (tl_ok _ _ Ht) Hin) as (H1 & _ & H2 & _).
  rewrite (tiles_extent _ _ Ht) in H2. unfold SIZEOF_STRUCT_MEM in *. lia.
Qed.

Lemma out_inside a B U free bs x n k : store_rep a B U free bs -> B !! x = Some (n, k) -> 0 < lo <= x /\ x + n <= hi.
Proof.
  intros Hr Hx. destruct Hlay as [H1 H2 H3 H4 _ _ _].
  destruct (sr_out _ _ _ _ _ Hr _ _ _ Hx) as [(_ & j & Hj & Hin)|[(_ & Hin & _ & Hn)|(_ & Hin & _ & Hn)]].
  - pose proof (heap_inside _ _ _ _ _ x n j Hr Hj Hin). lia.
  - pose proof (element_inside _ _ x n Hp Hin Hn). lia.
  - pose proof (element_inside _ _ x n Hb Hin Hn). lia.
Qed.
Lemma out_apart a B U free bs x y n m k j : store_rep a B U free bs -> B !! x = Some (n, k) -> B !! y = Some (m, j) -> x <> y ->
  x + n <= y \/ y + m <= x.
Proof.
  intros Hr Hx Hy Hne. destruct Hlay as [_ _ _ _ H5 H6 H7]. unfold clear_of in *.
  destruct (sr_out _ _ _ _ _ Hr _ _ _ Hx) as [(_ & jx & Hjx & Hix)|[(_ & Hix & _ & Hnx)|(_ & Hix & _ & Hnx)]],
    (sr_out _ _ _ _ _ Hr _ _ _ Hy) as [(_ & jy & Hjy & Hiy)|[(_ & Hiy & _ & Hny)|(_ & Hiy & _ & Hny)]].
  all: try pose proof (heap_inside _ _ _ _ _ x n jx Hr Hjx Hix) as Ex; try pose proof (heap_inside _ _ _ _ _ y m jy Hr Hjy Hiy) as Ey.
  all: try pose proof (element_inside _ _ x n Hp Hix Hnx) as Ex; try pose proof (element_inside _ _ y m Hp Hiy Hny) as Ey.
  all: try pose proof (element_inside _ _ x n Hb Hix Hnx) as Ex; try pose proof (element_inside _ _ y m Hb Hiy Hny) as Ey.
  all: try lia.
  - destruct (in_use_apart 0 bs _ _ _ _ (tl_ok _ _ (proj1 (sr_heap _ _ _ _ _ Hr))) Hix Hiy); lia.
  - by apply (elements_apart _ _ x y n m Hp).
  - by apply (elements_apart _ _ x y n m Hb).
Qed.

(** ** The allocators keep it *)

Lemma out_mono free free' bs bs' x n k : out free bs x n k ->
  (forall j, (x - R, j) ∈ in_use 0 bs -> (x - R, j) ∈ in_use 0 bs') ->
  (k = PBUF_TYPE_ALLOC_SRC_MASK_STD_MEMP_PBUF -> x ∈ free' pbuf_ty -> x ∈ free pbuf_ty) ->
  (k = PBUF_TYPE_ALLOC_SRC_MASK_STD_MEMP_PBUF_POOL -> x ∈ free' pool_ty -> x ∈ free pool_ty) -> out free' bs' x n k.
Proof.
  intros [(-> & j & Hj & Hin)|[(-> & ? & Hn & ?)|(-> & ? & Hn & ?)]] H1 H2 H3; [left; eauto|right; left|right; right].
  - split; [done|]. split; [done|]. split; [by intros ?%H2|done].
  - split; [done|]. split; [done|]. split; [by intros ?%H3|done].
Qed.

(** An element of a pool of headers or of buffers comes back. *)
Lemma give_element a B U free bs ty d x n k : store_rep a B U free bs -> tbl !! ty = Some d -> x ∈ elements d -> ~ (x ∈ free ty) ->
  ty <> queue_ty -> B !! x = Some (n, k) ->
  store_rep (exec (Memp.memp_free tbl ty x) a.1, a.2) (delete x B) U (upd free ty (x :: free ty)) bs.
Proof.
  intros [H1 H2 H3 H4 H5] Hd Hin Hnf Hty Hx.
  destruct (proj1 (wp_done _ _ _) (memp_free_run tbl Hok a.1 free ty d x H1 Hd Hin Hnf)) as ([] & s' & Hrun & Hr').
  unfold exec. rewrite Hrun. constructor; cbn [fst snd]; [done..| |].
  - intros y m j [Hne Hy]%lookup_delete_Some.
    assert (Hkeep : forall t, y ∈ upd free ty (x :: free ty) t -> y ∈ free t).
    { intros t. unfold upd. destruct (decide (t = ty)) as [->|]; [|done]. intros [->|?]%elem_of_cons; done. }
    apply (out_mono free _ bs bs); [by apply H4|done|..]; intros _; apply Hkeep.
  - intros r Hr. rewrite upd_ne by congruence. by apply H5.
Qed.

Lemma take_heap a B U n : store_is a B U -> 0 < n -> exists r a', mem_malloc n a = (r, a') /\
  (r = 0 /\ store_is a' B U \/ r mod MEM_ALIGNMENT = 0 /\ B !! r = None /\
   store_is a' (<[r := (n, PBUF_TYPE_ALLOC_SRC_MASK_STD_HEAP)]> B) U).
Proof.
  intros (free & bs & Hr) _. pose proof Hr as [H1 H2 H3 H4 H5]. destruct a as [pl [h x]]. cbn [fst snd] in *.
  destruct (proj1 (wp_done _ _ _) (mem_malloc_ok h bs n H2)) as (r & h' & Hrun & Hram & Hc).
  exists r, (pl, (h', x)). split.
  { cbn [mem_malloc store_alloc memp_alloc]. unfold on_heap, heap_of, run_or. cbn [fst snd]. by rewrite Hrun. }
  destruct (request n) as [size|] eqn:Er; cbn [mbind option_bind] in Hc.
  2:{ destruct Hc as [-> ->]. left. split; [done|]. by exists free, bs. }
  destruct (place size 0 bs) as [[o bs']|] eqn:Ep.
  2:{ destruct Hc as [-> ->]. left. split; [done|]. by exists free, bs. }
  destruct Hc as [-> Hh']. right. destruct (in_use_place _ _ _ _ _ Ep) as (k & Hk & Hperm).
  pose proof (tl_ok _ _ (proj1 Hh')) as Hok'. pose proof (in_use_nodup 0 _ Hok') as Hnd. rewrite Hperm in Hnd.
  assert (Hnew : (o + SIZEOF_STRUCT_MEM, k) ∈ in_use 0 bs') by (rewrite Hperm; left).
  pose proof (in_use_bounds 0 _ _ _ Hok' Hnew) as (Hlo & Hmin & Hhi & Hal). rewrite (tiles_extent _ _ (proj1 Hh')) in Hhi.
  apply request_some in Er as (Hn & _). rewrite H3 in *. set (r := R + o + SIZEOF_STRUCT_MEM).
  assert (Hor : r - R = o + SIZEOF_STRUCT_MEM) by (unfold r; lia).
  split; [|split].
  - destruct (tl_ram _ _ (proj1 H2)) as [_ HR]. rewrite H3 in HR. unfold MEM_ALIGNMENT in *.
    rewrite Z.sub_0_r in Hal. replace r with (o + SIZEOF_STRUCT_MEM + R) by (unfold r; lia). by rewrite Z.add_mod, Hal, HR by lia.
  - destruct (B !! r) as [[m j]|] eqn:E; [|done]. destruct Hlay as [_ _ _ _ _ H6 H7]. unfold clear_of, MIN_SIZE_ALIGNED in *.
    destruct (ok_elems _ Hok _ _ Hp) as (Hsp & _), (ok_elems _ Hok _ _ Hb) as (Hsb & _).
    destruct (H4 _ _ _ E) as [(_ & j' & _ & Hin)|[(_ & Hin & _)|(_ & Hin & _)]].
    + exfalso. rewrite Hor in Hin. apply NoDup_cons in Hnd as [Hni _]. apply Hni, list_elem_of_fmap. by exists (o + SIZEOF_STRUCT_MEM, j').
    + pose proof (element_inside _ _ r 1 Hp Hin ltac:(lia)). unfold SIZEOF_STRUCT_MEM in *. lia.
    + pose proof (element_inside _ _ r 1 Hb Hin ltac:(lia)). unfold SIZEOF_STRUCT_MEM in *. lia.
  - exists free, bs'. constructor; cbn [fst snd]; [done|done|congruence| |done].
    intros y m j [[<- [= <- <-]]|[Hne Hy]]%lookup_insert_Some.
    + left. split; [done|]. exists k. split; [lia|]. by rewrite Hor.
    + apply (out_mono free free bs bs'); [by apply H4| |done..]. intros j' Hin. rewrite Hperm. by right.
Qed.

Lemma give_heap a B U r n : store_is a B U -> B !! r = Some (n, PBUF_TYPE_ALLOC_SRC_MASK_STD_HEAP) ->
  store_is (mem_free r a) (delete r B) U.
Proof.
  intros (free & bs & Hr) Hx. pose proof Hr as [H1 H2 H3 H4 H5]. destruct a as [pl [h x]]. cbn [fst snd] in *.
  destruct (H4 _ _ _ Hx) as [(_ & j & Hj & Hin)|[([=] & _)|([=] & _)]].
  destruct (in_use_block _ _ _ _ Hin) as (l1 & l2 & -> & E).
  destruct (proj1 (wp_done _ _ _) (mem_free_ok h l1 (j + SIZEOF_STRUCT_MEM) l2 H2)) as ([] & h' & Hrun & Hram & Hh').
  exists free. eexists. cbn [mem_free store_alloc memp_alloc fst snd]. unfold exec.
  replace r with (ram h + extent l1 + SIZEOF_STRUCT_MEM) at 1 by lia. rewrite Hrun.
  constructor; cbn [fst snd]; [done|exact Hh'|congruence| |done].
  intros y m k [Hne Hy]%lookup_delete_Some. eapply out_mono; [by apply H4| |done..]. intros i Hi.
  rewrite in_use_free in Hi. apply elem_of_cons in Hi as [[= Ey _]|Hi]; [lia|done].
Qed.

Lemma take_queue a B U : store_is a B U -> exists r a', memp_malloc MEMP_ARP_QUEUE a = (r, a') /\
  (r = 0 /\ store_is a' B U \/ r <> 0 /\ ~ (r ∈ U) /\ store_is a' B ({[r]} ∪ U)).
Proof.
  intros (free & bs & Hr). pose proof Hr as [H1 H2 H3 H4 H5]. cbn [memp_malloc store_alloc memp_alloc ty_of].
  destruct (free queue_ty) as [|r l] eqn:Ef.
  { rewrite (memp_malloc_empty tbl a.1 free queue_ty dq H1 Hq Ef). do 2 eexists. split; [reflexivity|]. left.
    split; [done|]. exists free, bs. by destruct a. }
  destruct (proj1 (wp_done _ _ _) (memp_malloc_some tbl Hok a.1 free queue_ty dq r l H1 Hq Ef)) as (? & s' & -> & -> & Hr').
  do 2 eexists. split; [reflexivity|]. right.
  assert (Hin : r ∈ elements dq) by (apply (rep_free _ _ _ H1 queue_ty dq Hq); rewrite Ef; left).
  split; [by apply (element_aligned tbl Hok queue_ty dq r Hq Hin)|]. split; [intros [_ Hn]%H5; apply Hn; left|].
  pose proof (rep_nodup _ _ _ H1 queue_ty dq Hq) as Hnd. rewrite Ef in Hnd. apply NoDup_cons in Hnd as [Hnl _].
  exists (upd free queue_ty l), bs. constructor; cbn [fst snd]; [done..| |].
  - intros y m k Hy. apply (out_mono free _ bs bs); [by apply H4|done|..]; intros _; by rewrite upd_ne.
  - intros y [->%elem_of_singleton|[H6 H7]%H5]%elem_of_union; rewrite upd_eq; [done|].
    split; [done|]. intros Hy. apply H7. by right.
Qed.

Lemma give_queue a B U r : store_is a B U -> r ∈ U -> store_is (memp_free MEMP_ARP_QUEUE r a) B (U ∖ {[r]}).
Proof.
  intros (free & bs & Hr) Hin. pose proof Hr as [H1 H2 H3 H4 H5]. destruct (H5 r Hin) as [He Hn].
  destruct (proj1 (wp_done _ _ _) (memp_free_run tbl Hok a.1 free queue_ty dq r H1 Hq He Hn)) as ([] & s' & Hrun & Hr').
  exists (upd free queue_ty (r :: free queue_ty)), bs. cbn [memp_free store_alloc memp_alloc ty_of]. unfold exec. rewrite Hrun.
  constructor; cbn [fst snd]; [done..| |].
  - intros y m k Hy. apply (out_mono free _ bs bs); [by apply H4|done|..]; intros _; by rewrite upd_ne.
  - intros y [[H6 H7]%H5 H8]%elem_of_difference. rewrite upd_eq. split; [done|]. rewrite elem_of_cons.
    intros [->|?]; [by apply H8, elem_of_singleton|done].
Qed.

#[local] Program Instance store_heap : PbufHeap store := { arena_lo := lo; arena_hi := hi; heap_is := store_is }.
Next Obligation. intros a B U x n k (free & bs & Hr). by apply (out_inside a B U free bs x n k). Qed.
Next Obligation. intros a B U x y n m k j (free & bs & Hr). by apply (out_apart a B U free bs). Qed.
Next Obligation. intros n a B U. apply take_heap. Qed.
Next Obligation. intros a B U r n. apply give_heap. Qed.
Next Obligation.
  intros a B U r n (free & bs & Hr) Hx. destruct (sr_out _ _ _ _ _ Hr _ _ _ Hx) as [([=] & _)|[(_ & Hin & Hn & _)|([=] & _)]].
  do 2 eexists. by apply (give_element a B U free bs pbuf_ty dp r n _ Hr Hp Hin Hn Hpq Hx).
Qed.
Next Obligation.
  intros a B U r n (free & bs & Hr) Hx. destruct (sr_out _ _ _ _ _ Hr _ _ _ Hx) as [([=] & _)|[([=] & _)|(_ & Hin & Hn & _)]].
  do 2 eexists. by apply (give_element a B U free bs pool_ty db r n _ Hr Hb Hin Hn Hbq Hx).
Qed.
Next Obligation. intros a B U. apply take_queue. Qed.
Next Obligation. intros a B U r. apply give_queue. Qed.

(** ** The stack starts on this memory *)

Lemma start_is ram_heap h0 h x : 0 < ram_heap -> R = LWIP_MEM_ALIGN ram_heap -> Mem.mem_init ram_heap ERR_OK h0 = Done (tt, h) ->
  store_is (memp_init tbl (mkPools ∅ ∅), (h, x)) ∅ ∅.
Proof.
  intros Hr HR Hi. pose proof (mem_init_ok ram_heap h0 Hr) as Hw. unfold wp in Hw. rewrite Hi in Hw. destruct Hw as [E Hh].
  exists (all_free tbl), [(MEM_SIZE_ALIGNED, false)]. constructor; cbn [fst snd]; [by apply memp_init_run|done|congruence|done|].
  by intros r ?%elem_of_empty.
Qed.

Section Arp.
Context {D : Type} `{LinkOk D}.
Context (dhcp_decline : Z -> M (arp store D) unit).

(** The state before the first call: an empty table and no packets. *)
Definition arp_start (a : store) (m : mem) (d : D) (ifs : gmap Z netif) : arp store D :=
  mkArp (replicate 10 free_slot) 0 ∅ (mkNet (mkPst ∅ m a 0) d ifs).
Lemma arp_start_ok a m d ifs : store_is a ∅ ∅ -> mapped m lo (hi - lo) -> link_ok d ->
  (forall n ni, ifs !! n = Some ni -> netif_ok n ni) -> arp_ok (arp_start a m d ifs) (replicate 10 []) ∅ ∅.
Proof.
  intros Ha Hm Hd Hn. constructor; [constructor|constructor|done].
  - by repeat constructor.
  - constructor.
  - by intros ? ?%elem_of_nil.
  - constructor.
  - by intros ? ?%elem_of_nil.
  - by intros p ?%elem_of_empty.
  - constructor; [|done|done]. exists ∅. by constructor.
  - done.
  - intros i e l [-> _]%lookup_replicate [-> _]%lookup_replicate. split; [|done]. unfold ARP_QUEUE_LEN. cbn. lia.
  - intros e [-> _]%elem_of_replicate. split; [done|]. done.
  - intros e [-> _]%elem_of_replicate. done.
  - intros i j e f [-> _]%lookup_replicate. done.
Qed.

(** The calls that bring no packet of their own. *)
Definition own_call (ifs : gmap Z netif) (c : arp_call) : Prop :=
  match c with
  | CallTmr | CallCleanup _ | CallFindAddr _ _ => True
  | CallGetEntry i => 0 <= i
  | CallRequest n _ | CallQuery n _ None => is_Some (ifs !! n)
  | _ => False
  end.
Definition runs (cs : list arp_call) : M (arp store D) unit :=
  foldr (fun c m => EtharpIo.run dhcp_decline c;; m) (mret tt) cs.

Lemma runs_ok cs s Q P : arp_ok s Q P ∅ -> Forall (own_call (netifs (anet s))) cs ->
  wp (runs cs) s (fun _ s' => exists Q' P', arp_ok s' Q' P' ∅ /\ netifs (anet s') = netifs (anet s)).
Proof.
  revert s Q P. induction cs as [|c cs IH]; intros s Q P Hs Hcs; [apply wp_ret; by exists Q, P|].
  apply Forall_cons in Hcs as [Hc Hcs]. cbn [runs foldr]. apply wp_bind.
  eapply wp_mono; [apply (calls_run dhcp_decline s Q P ∅ c Hs)|].
  { destruct c as [|n|n ip|n ip [p|]|n p ip|p n|n ip|i]; done. }
  intros _ s1 (Q1 & P1 & Hok1 & Hn1).
  assert (left_to_callers ∅ c = ∅) as E by (by destruct c as [|n|n ip|n ip [p|]|n p ip|p n|n ip|i]). rewrite E in Hok1.
  eapply wp_mono; [apply (IH s1 Q1 P1 Hok1); by rewrite Hn1|]. intros _ s2 (Q2 & P2 & Hok2 & Hn2). exists Q2, P2. split; [done|congruence].
Qed.

End Arp.
End NetHeap.

(** ** The property on a small memory *)

Section Witnesses.
#[local] Existing Instances wire wire_ok.
(** Two headers, two buffers and two queue elements, and the heap behind them. *)
Definition small_pools : list memp_desc := [mkMempDesc 16 2 1000; mkMempDesc 528 2 1100; mkMempDesc 8 2 2400].
Lemma small_pools_ok : pools_ok small_pools.
Proof.
  constructor.
  - intros [|[|[|i]]] [|[|[|j]]] d e; cbn; intros [= <-] [= <-] N a; try done;
      vm_compute (elements _); rewrite !elem_of_cons, !elem_of_nil; lia.
  - intros [|[|[|i]]] d; cbn; intros [= <-]; by_decision.
Qed.
Lemma small_layout : layout (mkMempDesc 16 2 1000) (mkMempDesc 528 2 1100) 3000 1000 9144.
Proof. constructor; unfold clear_of, beyond, first; vm_compute; intuition discriminate. Qed.

Definition small_heap : mem_heap := exec (Mem.mem_init 3000 ERR_OK) (mkHeap 0 0 0 ∅).
Lemma small_run : Mem.mem_init 3000 ERR_OK (mkHeap 0 0 0 ∅) = Done (tt, small_heap).
Proof. by vm_compute. Qed.
Definition small_memory : mem := map_block ∅ 1000 (Z.to_nat 8144).
Lemma small_mapped : mapped small_memory 1000 (9144 - 1000).
Proof. apply (map_block_mapped _ 1000 (Z.to_nat 8144) 1000 8144); lia. Qed.
Definition small_netif : netif := mkNetif (mkIp4Netif (NETIF_FLAG_BROADCAST + 8) (demo_ip 1) 65535) 0 [2; 0; 0; 0; 0; 1] 6 0 None.
Definition no_callback (x : unit) : Z * unit := (ERR_OK, x).
Definition quiet (n : Z) : M (arp (pools * (mem_heap * unit)) (list (list Z))) unit := mret tt.

End Witnesses.
