(* ===== verification/Queue.v ===== *)
(** FreeRTOS/queue.c: queues, semaphores and mutexes.  The queues are a store
    indexed by handle, their items lie in byte memory, a list of waiting tasks
    is the list of its items in order, each with its value.  What queues ask of
    tasks.c and of the heap is an interface, [Kernel]; the two time-out functions
    of tasks.c are modelled here, over the tick counter.  A critical section is
    atomic: other tasks ([others]) and interrupts ([isr]) run where the code has
    left it.  Queue sets, static allocation, the trace facility and co-routines
    are compiled out. *)
From S2P Require Import Prelude CMem.

Definition pdFALSE : Z := 0.
Definition pdTRUE : Z := 1.
Definition pdPASS : Z := 1.
Definition pdFAIL : Z := 0.
Definition errQUEUE_EMPTY : Z := 0.
Definition errQUEUE_FULL : Z := 0.
Definition portMAX_DELAY : Z := 0xffffffff.
Definition SIZE_MAX : Z := 0xffffffff.
Definition queueUNLOCKED : Z := -1.
Definition queueLOCKED_UNMODIFIED : Z := 0.
Definition queueINT8_MAX : Z := 127.
Definition queueQUEUE_IS_MUTEX : Z := 0.
Definition queueSEMAPHORE_QUEUE_ITEM_LENGTH : Z := 0.
Definition queueMUTEX_GIVE_BLOCK_TIME : Z := 0.
Definition queueSEND_TO_BACK : Z := 0.
Definition queueSEND_TO_FRONT : Z := 1.
Definition queueOVERWRITE : Z := 2.
Definition configMAX_PRIORITIES : Z := 15.
Definition configQUEUE_REGISTRY_SIZE : nat := 8.
Definition tskIDLE_PRIORITY : Z := 0.
Definition SIZEOF_QUEUE : Z := 72.

(** The value and the task of an item of an event list. *)
Abbreviation event := (Z * Z)%type.

(** The union [u] overlays [pcTail] with [xMutexHolder] and [pcReadFrom] with
    [uxRecursiveCallCount]; [uxQueueType] is another name of [pcHead]. *)
Record Queue_t := mkQueue {
  pcHead : Z;
  pcWriteTo : Z;
  pcTail : Z;
  pcReadFrom : Z;
  xTasksWaitingToSend : list event;
  xTasksWaitingToReceive : list event;
  uxMessagesWaiting : Z;
  uxLength : Z;
  uxItemSize : Z;
  cRxLock : Z;
  cTxLock : Z
}.
Abbreviation xMutexHolder := pcTail (only parsing).
Abbreviation uxRecursiveCallCount := pcReadFrom (only parsing).
Abbreviation uxQueueType := pcHead (only parsing).

Definition set_pcHead v (q : Queue_t) := mkQueue v (pcWriteTo q) (pcTail q) (pcReadFrom q) (xTasksWaitingToSend q)
  (xTasksWaitingToReceive q) (uxMessagesWaiting q) (uxLength q) (uxItemSize q) (cRxLock q) (cTxLock q).
Definition set_pcWriteTo v (q : Queue_t) := mkQueue (pcHead q) v (pcTail q) (pcReadFrom q) (xTasksWaitingToSend q)
  (xTasksWaitingToReceive q) (uxMessagesWaiting q) (uxLength q) (uxItemSize q) (cRxLock q) (cTxLock q).
Definition set_u v w (q : Queue_t) := mkQueue (pcHead q) (pcWriteTo q) v w (xTasksWaitingToSend q)
  (xTasksWaitingToReceive q) (uxMessagesWaiting q) (uxLength q) (uxItemSize q) (cRxLock q) (cTxLock q).
Definition set_pcTail v (q : Queue_t) := set_u v (pcReadFrom q) q.
Definition set_pcReadFrom v (q : Queue_t) := set_u (pcTail q) v q.
Definition set_waiting ws wr (q : Queue_t) := mkQueue (pcHead q) (pcWriteTo q) (pcTail q) (pcReadFrom q) ws wr
  (uxMessagesWaiting q) (uxLength q) (uxItemSize q) (cRxLock q) (cTxLock q).
Definition set_messages v (q : Queue_t) := mkQueue (pcHead q) (pcWriteTo q) (pcTail q) (pcReadFrom q)
  (xTasksWaitingToSend q) (xTasksWaitingToReceive q) v (uxLength q) (uxItemSize q) (cRxLock q) (cTxLock q).
Definition set_locks rx tx (q : Queue_t) := mkQueue (pcHead q) (pcWriteTo q) (pcTail q) (pcReadFrom q)
  (xTasksWaitingToSend q) (xTasksWaitingToReceive q) (uxMessagesWaiting q) (uxLength q) (uxItemSize q) rx tx.

(** The two event lists of a queue. *)
Inductive side := ToSend | ToReceive.
#[export] Instance side_eq_dec : EqDecision side.
Proof. solve_decision. Defined.
Definition waiting (d : side) (q : Queue_t) : list event :=
  match d with ToSend => xTasksWaitingToSend q | ToReceive => xTasksWaitingToReceive q end.
Definition set_side (d : side) (l : list event) (q : Queue_t) : Queue_t :=
  match d with
  | ToSend => set_waiting l (xTasksWaitingToReceive q) q
  | ToReceive => set_waiting (xTasksWaitingToSend q) l q
  end.

Definition listLIST_IS_EMPTY (l : list event) : bool := match l with [] => true | _ => false end.

(** What queues ask of the scheduler and the heap (0 is NULL). *)
Class Kernel (A : Type) := {
  pvPortMalloc : Z -> A -> Z * A;
  vPortFree : Z -> A -> A;
  xTaskGetCurrentTaskHandle : A -> Z;
  scheduler_suspended : A -> bool;
  vTaskSuspendAll : A -> A;
  xTaskResumeAll : A -> bool * A;
  portYIELD_WITHIN_API : A -> A;
  vTaskMissedYield : A -> A;
  (** Make a task ready; whether its priority is above that of the current task. *)
  make_ready : Z -> A -> bool * A;
  (** The value of the event item of the current task. *)
  event_value : A -> Z;
  (** The current task waits, for so many ticks or indefinitely. *)
  prvAddCurrentTaskToDelayedList : Z -> bool -> A -> A;
  pvTaskIncrementMutexHeldCount : A -> Z * A;
  xTaskPriorityInherit : Z -> A -> bool * A;
  xTaskPriorityDisinherit : Z -> A -> bool * A;
  vTaskPriorityDisinheritAfterTimeout : Z -> Z -> A -> A;
  xTickCount : A -> Z;
  xNumOfOverflows : A -> Z;
  ucDelayAborted : A -> bool;
  clear_ucDelayAborted : A -> A
}.

Record kst (A : Type) := mkKst {
  queues : gmap Z Queue_t;
  kmem : mem;
  kern : A;
  xQueueRegistry : list (Z * Z)
}.
Arguments mkKst {_}.
Arguments queues {_}.
Arguments kmem {_}.
Arguments kern {_}.
Arguments xQueueRegistry {_}.

Record TimeOut_t := mkTimeOut {
  xOverflowCount : Z;
  xTimeOnEntering : Z
}.

(** [vListInsert] on an event list, whose index stays at the end marker: behind the items whose value is not greater. *)
Fixpoint insert_event (e : event) (l : list event) : list event :=
  match l with
  | [] => [e]
  | x :: r => if x.1 <=? e.1 then x :: insert_event e r else e :: l
  end.

(** Positions in a ring of [L] slots of [sz] bytes. *)
Lemma slot_next hd L sz j : 0 <= j < L -> 0 < sz ->
  (if hd + L * sz <=? hd + j * sz + sz then hd else hd + j * sz + sz) = hd + (j + 1) mod L * sz.
Proof.
  intros Hj Hs. destruct (Z.leb_spec (hd + L * sz) (hd + j * sz + sz)).
  - assert (j + 1 = L) as -> by nia. rewrite Z.mod_same by lia. lia.
  - rewrite Z.mod_small by nia. lia.
Qed.
Lemma slot_prev hd L sz j : 0 <= j < L -> 0 < sz ->
  (if hd + j * sz - sz <? hd then hd + L * sz - sz else hd + j * sz - sz) = hd + (j - 1) mod L * sz.
Proof.
  intros Hj Hs. destruct (Z.ltb_spec (hd + j * sz - sz) hd).
  - assert (j = 0) as -> by nia. replace (0 - 1) with (L - 1 + -1 * L) by lia.
    rewrite Z.mod_add, Z.mod_small by lia. lia.
  - rewrite Z.mod_small by nia. lia.
Qed.
Lemma slots_apart hd L sz i j : 0 < sz -> i mod L <> j mod L ->
  hd + i mod L * sz + sz <= hd + j mod L * sz \/ hd + j mod L * sz + sz <= hd + i mod L * sz.
Proof. intros Hs Hn. assert (i mod L < j mod L \/ j mod L < i mod L) as [?|?] by lia; [left|right]; nia. Qed.
Lemma slot_inside L sz i : 0 < L -> 0 < sz -> 0 <= i mod L * sz /\ i mod L * sz + sz <= L * sz.
Proof. intros HL Hs. pose proof (Z.mod_pos_bound i L HL). nia. Qed.
Lemma mod_distinct L b i j : 0 <= i < L -> 0 <= j < L -> i <> j -> (b + i) mod L <> (b + j) mod L.
Proof.
  intros Hi Hj Hn E. apply Hn. assert (Hd : (i - j) mod L = 0).
  { replace (i - j) with ((b + i) - (b + j)) by lia. rewrite Zminus_mod, E, Z.sub_diag. apply Z.mod_0_l. lia. }
  apply Z.mod_divide in Hd as [c Hc]; [|lia].
  destruct (Z.lt_trichotomy c 0) as [Hc0|[->|Hc0]]; [nia|lia|nia].
Qed.

Lemma slot_shift L r c d : 0 < L -> d = c - 1 -> ((r - 1) mod L + 1 + c) mod L = (r + 1 + d) mod L.
Proof. intros HL ->. rewrite <- Z.add_assoc, Zplus_mod_idemp_l. f_equal. lia. Qed.

Lemma drop_min {X} n (l : list X) : drop (n `min` length l) l = drop n l.
Proof.
  destruct (decide (n <= length l)%nat); [by rewrite Nat.min_l|]. by rewrite Nat.min_r, !drop_ge by lia.
Qed.

Section Queue.
Context {A : Type} `{Kernel A}.
Abbreviation K := (kst A).

Definition set_queues m (k : K) : K := mkKst m (kmem k) (kern k) (xQueueRegistry k).
Definition set_kmem m (k : K) : K := mkKst (queues k) m (kern k) (xQueueRegistry k).
Definition set_kern a (k : K) : K := mkKst (queues k) (kmem k) a (xQueueRegistry k).
Definition set_registry r (k : K) : K := mkKst (queues k) (kmem k) (kern k) r.

Definition rdq (h : Z) : M K Queue_t := k ← get; of_option (queues k !! h).
Definition wrq (h : Z) (f : Queue_t -> Queue_t) : M K unit :=
  q ← rdq h; modify (fun k => set_queues (<[h := f q]> (queues k)) k).
Definition ask {X} (f : A -> X) : M K X := gets (fun k => f (kern k)).
Definition tell (f : A -> A) : M K unit := modify (fun k => set_kern (f (kern k)) k).
Definition call {X} (f : A -> X * A) : M K X :=
  k ← get; let '(x, a) := f (kern k) in put (set_kern a k);; mret x.
Definition memcpy (dst src n : Z) : M K unit :=
  k ← get; m ← of_option (copy_bytes (kmem k) dst src (Z.to_nat n)); put (set_kmem m k).

(** ** tasks.c: time-outs and event lists *)

Definition vTaskInternalSetTimeOutState : M K TimeOut_t :=
  o ← ask xNumOfOverflows; t ← ask xTickCount; mret (mkTimeOut o t).

(** Whether the time is over, the ticks left and the new reference time. *)
Definition xTaskCheckForTimeOut (t : TimeOut_t) (xTicksToWait : Z) : M K (bool * Z * TimeOut_t) :=
  xConstTickCount ← ask xTickCount;
  let xElapsedTime := u32 (xConstTickCount - xTimeOnEntering t) in
  aborted ← ask ucDelayAborted;
  if (aborted : bool) then tell clear_ucDelayAborted;; mret (true, xTicksToWait, t)
  else if xTicksToWait =? portMAX_DELAY then mret (false, xTicksToWait, t)
  else
    o ← ask xNumOfOverflows;
    if negb (o =? xOverflowCount t) && (xTimeOnEntering t <=? xConstTickCount) then mret (true, 0, t)
    else if xElapsedTime <? xTicksToWait then
      t' ← vTaskInternalSetTimeOutState;
      mret (false, u32 (xTicksToWait - xElapsedTime), t')
    else mret (true, 0, t).

Definition xTaskRemoveFromEventList (h : Z) (d : side) : M K bool :=
  q ← rdq h;
  match waiting d q with
  | [] => stop_ Fault
  | (_, task) :: r =>
      assert_ (negb (task =? 0));;
      wrq h (set_side d r);;
      call (make_ready task)
  end.

Definition vTaskPlaceOnEventList (h : Z) (d : side) (xTicksToWait : Z) : M K unit :=
  v ← ask event_value;
  t ← ask xTaskGetCurrentTaskHandle;
  wrq h (fun q => set_side d (insert_event (v, t) (waiting d q)) q);;
  tell (prvAddCurrentTaskToDelayedList xTicksToWait true).
Definition vTaskPlaceOnEventListRestricted (h : Z) (d : side) (xTicksToWait : Z) (xWaitIndefinitely : bool) : M K unit :=
  v ← ask event_value;
  t ← ask xTaskGetCurrentTaskHandle;
  wrq h (fun q => set_side d (waiting d q ++ [(v, t)]) q);;
  tell (prvAddCurrentTaskToDelayedList (if xWaitIndefinitely then portMAX_DELAY else xTicksToWait) xWaitIndefinitely).

(** Unblock the first task of an event list, if there is one, and yield to it if
    it is more urgent. *)
Definition wake (h : Z) (d : side) : M K unit :=
  q ← rdq h;
  if negb (listLIST_IS_EMPTY (waiting d q)) then
    urgent ← xTaskRemoveFromEventList h d;
    if (urgent : bool) then tell portYIELD_WITHIN_API else mret tt
  else mret tt.

(** ** Creation *)

Definition xQueueGenericReset (h : Z) (xNewQueue : bool) : M K Z :=
  assert_ (negb (h =? 0));;
  q ← rdq h;
  xReturn ← (if (1 <=? uxLength q) && (uxItemSize q <=? SIZE_MAX / uxLength q) then
     wrq h (fun q => set_locks queueUNLOCKED queueUNLOCKED
       (set_pcReadFrom (pcHead q + (uxLength q - 1) * uxItemSize q)
       (set_pcWriteTo (pcHead q) (set_messages 0 (set_pcTail (pcHead q + uxLength q * uxItemSize q) q)))));;
     (if negb xNewQueue then wake h ToSend else wrq h (set_waiting [] []));;
     mret pdPASS
   else mret pdFAIL);
  assert_ (negb (xReturn =? pdFAIL));;
  mret xReturn.

Definition prvInitialiseNewQueue (uxQueueLength uxItemSz pucQueueStorage h : Z) : M K unit :=
  wrq h (set_pcHead (if uxItemSz =? 0 then h else pucQueueStorage));;
  wrq h (fun q => mkQueue (pcHead q) (pcWriteTo q) (pcTail q) (pcReadFrom q) (xTasksWaitingToSend q)
    (xTasksWaitingToReceive q) (uxMessagesWaiting q) uxQueueLength uxItemSz (cRxLock q) (cTxLock q));;
  xQueueGenericReset h true;; mret tt.

(** The allocated block gets a header with unspecified contents, [junk]. *)
Definition xQueueGenericCreate (junk : Queue_t) (uxQueueLength uxItemSz : Z) : M K Z :=
  if (0 <? uxQueueLength) && (uxItemSz <=? SIZE_MAX / uxQueueLength)
     && (uxQueueLength * uxItemSz <=? SIZE_MAX - SIZEOF_QUEUE)
  then
    h ← call (pvPortMalloc (SIZEOF_QUEUE + uxQueueLength * uxItemSz));
    if negb (h =? 0) then
      modify (fun k => set_queues (<[h := junk]> (queues k)) k);;
      prvInitialiseNewQueue uxQueueLength uxItemSz (h + SIZEOF_QUEUE) h;;
      mret h
    else mret 0
  else stop_ Asserted.

(** ** Items *)

(** The result is whether giving a mutex back asks for a yield. *)
Definition prvCopyDataToQueue (h pvItemToQueue xPosition : Z) : M K bool :=
  q ← rdq h;
  let n := uxMessagesWaiting q in
  let sz := uxItemSize q in
  '(xReturn, n) ← (if sz =? 0 then
      if uxQueueType q =? queueQUEUE_IS_MUTEX then
        r ← call (xTaskPriorityDisinherit (xMutexHolder q));
        wrq h (set_pcTail 0);;
        mret (r, n)
      else mret (false, n)
    else if xPosition =? queueSEND_TO_BACK then
      memcpy (pcWriteTo q) pvItemToQueue sz;;
      wrq h (set_pcWriteTo (if pcTail q <=? pcWriteTo q + sz then pcHead q else pcWriteTo q + sz));;
      mret (false, n)
    else
      memcpy (pcReadFrom q) pvItemToQueue sz;;
      wrq h (set_pcReadFrom (if pcReadFrom q - sz <? pcHead q then pcTail q - sz else pcReadFrom q - sz));;
      mret (false, if xPosition =? queueOVERWRITE then if 0 <? n then u32 (n - 1) else n else n));
  wrq h (set_messages (u32 (n + 1)));;
  mret xReturn.

Definition prvCopyDataFromQueue (h pvBuffer : Z) : M K unit :=
  q ← rdq h;
  let sz := uxItemSize q in
  if negb (sz =? 0) then
    let r := if pcTail q <=? pcReadFrom q + sz then pcHead q else pcReadFrom q + sz in
    wrq h (set_pcReadFrom r);;
    memcpy pvBuffer r sz
  else mret tt.

Definition prvIsQueueEmpty (h : Z) : M K bool := q ← rdq h; mret (uxMessagesWaiting q =? 0).
Definition prvIsQueueFull (h : Z) : M K bool := q ← rdq h; mret (uxMessagesWaiting q =? uxLength q).

(** ** Locking *)

Definition prvLockQueue (h : Z) : M K unit :=
  wrq h (fun q => set_locks (if cRxLock q =? queueUNLOCKED then queueLOCKED_UNMODIFIED else cRxLock q)
                            (if cTxLock q =? queueUNLOCKED then queueLOCKED_UNMODIFIED else cTxLock q) q).

(** One task is unblocked for each item that came or went while the queue was locked. *)
Fixpoint unlock_side (todo : nat) (h : Z) (d : side) : M K unit :=
  match todo with
  | O => mret tt
  | S todo =>
      q ← rdq h;
      if negb (listLIST_IS_EMPTY (waiting d q)) then
        urgent ← xTaskRemoveFromEventList h d;
        (if (urgent : bool) then tell vTaskMissedYield else mret tt);;
        unlock_side todo h d
      else mret tt
  end.
Definition prvUnlockQueue (h : Z) : M K unit :=
  q ← rdq h;
  unlock_side (Z.to_nat (cTxLock q)) h ToReceive;;
  wrq h (fun q => set_locks (cRxLock q) queueUNLOCKED q);;
  q ← rdq h;
  unlock_side (Z.to_nat (cRxLock q)) h ToSend;;
  wrq h (fun q => set_locks queueUNLOCKED (cTxLock q) q).

(** ** Operations that do not wait *)

(** The result is [xReturn], and whether [*pxHigherPriorityTaskWoken] is set. *)
Definition signal_from_isr (h : Z) (d : side) (lock : Z) (count : Queue_t -> Queue_t) : M K (Z * bool) :=
  if lock =? queueUNLOCKED then
    q ← rdq h;
    if negb (listLIST_IS_EMPTY (waiting d q)) then
      urgent ← xTaskRemoveFromEventList h d; mret (pdPASS, urgent)
    else mret (pdPASS, false)
  else
    assert_ (negb (lock =? queueINT8_MAX));;
    wrq h count;;
    mret (pdPASS, false).

Definition xQueueGenericSendFromISR (h pvItemToQueue xCopyPosition : Z) : M K (Z * bool) :=
  assert_ (negb (h =? 0));;
  q ← rdq h;
  assert_ (negb ((pvItemToQueue =? 0) && negb (uxItemSize q =? 0)));;
  assert_ (negb ((xCopyPosition =? queueOVERWRITE) && negb (uxLength q =? 1)));;
  if (uxMessagesWaiting q <? uxLength q) || (xCopyPosition =? queueOVERWRITE) then
    prvCopyDataToQueue h pvItemToQueue xCopyPosition;;
    signal_from_isr h ToReceive (cTxLock q) (fun q' => set_locks (cRxLock q') (cTxLock q + 1) q')
  else mret (errQUEUE_FULL, false).

Definition xQueueGiveFromISR (h : Z) : M K (Z * bool) :=
  assert_ (negb (h =? 0));;
  q ← rdq h;
  assert_ (uxItemSize q =? 0);;
  assert_ (negb ((uxQueueType q =? queueQUEUE_IS_MUTEX) && negb (xMutexHolder q =? 0)));;
  if uxMessagesWaiting q <? uxLength q then
    wrq h (set_messages (u32 (uxMessagesWaiting q + 1)));;
    signal_from_isr h ToReceive (cTxLock q) (fun q' => set_locks (cRxLock q') (cTxLock q + 1) q')
  else mret (errQUEUE_FULL, false).

Definition xQueueReceiveFromISR (h pvBuffer : Z) : M K (Z * bool) :=
  assert_ (negb (h =? 0));;
  q ← rdq h;
  assert_ (negb ((pvBuffer =? 0) && negb (uxItemSize q =? 0)));;
  if 0 <? uxMessagesWaiting q then
    prvCopyDataFromQueue h pvBuffer;;
    wrq h (set_messages (u32 (uxMessagesWaiting q - 1)));;
    signal_from_isr h ToSend (cRxLock q) (fun q' => set_locks (cRxLock q + 1) (cTxLock q') q')
  else mret (pdFAIL, false).

Definition xQueuePeekFromISR (h pvBuffer : Z) : M K Z :=
  assert_ (negb (h =? 0));;
  q ← rdq h;
  assert_ (negb ((pvBuffer =? 0) && negb (uxItemSize q =? 0)));;
  assert_ (negb (uxItemSize q =? 0));;
  if 0 <? uxMessagesWaiting q then
    prvCopyDataFromQueue h pvBuffer;;
    wrq h (set_pcReadFrom (pcReadFrom q));;
    mret pdPASS
  else mret pdFAIL.

Definition uxQueueMessagesWaiting (h : Z) : M K Z := assert_ (negb (h =? 0));; q ← rdq h; mret (uxMessagesWaiting q).
Definition uxQueueMessagesWaitingFromISR (h : Z) : M K Z :=
  assert_ (negb (h =? 0));; q ← rdq h; mret (uxMessagesWaiting q).
Definition uxQueueSpacesAvailable (h : Z) : M K Z :=
  assert_ (negb (h =? 0));; q ← rdq h; mret (u32 (uxLength q - uxMessagesWaiting q)).
Definition xQueueIsQueueEmptyFromISR (h : Z) : M K bool :=
  assert_ (negb (h =? 0));; q ← rdq h; mret (uxMessagesWaiting q =? 0).
Definition xQueueIsQueueFullFromISR (h : Z) : M K bool :=
  assert_ (negb (h =? 0));; q ← rdq h; mret (uxMessagesWaiting q =? uxLength q).

(** ** The registry of named queues *)

(** The index of the entry of a queue, or else of the first free one. *)
Fixpoint find_entry (h : Z) (i : nat) (free : option nat) (r : list (Z * Z)) : option nat :=
  match r with
  | [] => free
  | (name, handle) :: r =>
      if h =? handle then Some i
      else find_entry h (S i) (match free with None => if name =? 0 then Some i else None | _ => free end) r
  end.
Definition vQueueAddToRegistry (h pcQueueName : Z) : M K unit :=
  assert_ (negb (h =? 0));;
  k ← get;
  if negb (pcQueueName =? 0) then
    match find_entry h 0 None (xQueueRegistry k) with
    | Some i => put (set_registry (<[i := (pcQueueName, h)]> (xQueueRegistry k)) k)
    | None => mret tt
    end
  else mret tt.
Definition pcQueueGetName (h : Z) : M K Z :=
  assert_ (negb (h =? 0));;
  k ← get;
  mret (match list_find (fun e => e.2 = h) (xQueueRegistry k) with Some (_, e) => e.1 | None => 0 end).
Definition vQueueUnregisterQueue (h : Z) : M K unit :=
  assert_ (negb (h =? 0));;
  k ← get;
  match list_find (fun e => e.2 = h) (xQueueRegistry k) with
  | Some (i, _) => put (set_registry (<[i := (0, 0)]> (xQueueRegistry k)) k)
  | None => mret tt
  end.

Definition vQueueDelete (h : Z) : M K unit :=
  assert_ (negb (h =? 0));;
  vQueueUnregisterQueue h;;
  tell (vPortFree h);;
  modify (fun k => set_queues (delete h (queues k)) k).

Definition vQueueWaitForMessageRestricted (h xTicksToWait : Z) (xWaitIndefinitely : bool) : M K unit :=
  prvLockQueue h;;
  q ← rdq h;
  (if uxMessagesWaiting q =? 0 then vTaskPlaceOnEventListRestricted h ToReceive xTicksToWait xWaitIndefinitely
   else mret tt);;
  prvUnlockQueue h.

(** ** Operations that may wait *)

(** What other tasks and interrupts do while the caller is outside of its critical
    sections, and how often a call waits again. *)
Section Waiting.
Context (others isr : K -> K) (rounds : nat).

Definition cannot_wait (xTicksToWait : Z) : M K unit :=
  suspended ← ask scheduler_suspended;
  assert_ (negb (suspended && negb (xTicksToWait =? 0))).
Definition entry_time (entry : option TimeOut_t) : M K TimeOut_t :=
  match entry with Some t => mret t | None => vTaskInternalSetTimeOutState end.

(** One turn of waiting on an event list, with what precedes the wait when the
    queue still is [blocked]: whether the time is over, the ticks left, the new
    reference time and the result of [prepare]. *)
Definition wait_on (h : Z) (d : side) (blocked : Z -> M K bool) (prepare : bool -> M K bool) (t : TimeOut_t)
    (xTicksToWait : Z) (flag : bool) : M K (bool * Z * TimeOut_t * bool) :=
  modify others;;
  tell vTaskSuspendAll;;
  prvLockQueue h;;
  modify isr;;
  '(expired, xTicksToWait, t) ← xTaskCheckForTimeOut t xTicksToWait;
  if (expired : bool) then
    prvUnlockQueue h;;
    call xTaskResumeAll;;
    modify others;;
    mret (true, xTicksToWait, t, flag)
  else
    b ← blocked h;
    if (b : bool) then
      modify isr;;
      flag ← prepare flag;
      vTaskPlaceOnEventList h d xTicksToWait;;
      prvUnlockQueue h;;
      resumed ← call xTaskResumeAll;
      (if (resumed : bool) then mret tt else tell portYIELD_WITHIN_API);;
      modify others;;
      mret (false, xTicksToWait, t, flag)
    else
      prvUnlockQueue h;;
      call xTaskResumeAll;;
      modify others;;
      mret (false, xTicksToWait, t, flag).
Definition nothing (flag : bool) : M K bool := mret flag.

Fixpoint send_loop (fuel : nat) (h pv ticks pos : Z) (entry : option TimeOut_t) : M K Z :=
  match fuel with
  | O => stop_ NoFuel
  | S fuel =>
      q ← rdq h;
      if (uxMessagesWaiting q <? uxLength q) || (pos =? queueOVERWRITE) then
        yield ← prvCopyDataToQueue h pv pos;
        q ← rdq h;
        (if negb (listLIST_IS_EMPTY (xTasksWaitingToReceive q)) then wake h ToReceive
         else if (yield : bool) then tell portYIELD_WITHIN_API else mret tt);;
        mret pdPASS
      else if ticks =? 0 then mret errQUEUE_FULL
      else
        t ← entry_time entry;
        '(expired, ticks, t, _) ← wait_on h ToSend prvIsQueueFull nothing t ticks false;
        if (expired : bool) then mret errQUEUE_FULL else send_loop fuel h pv ticks pos (Some t)
  end.
Definition xQueueGenericSend (h pvItemToQueue xTicksToWait xCopyPosition : Z) : M K Z :=
  assert_ (negb (h =? 0));;
  q ← rdq h;
  assert_ (negb ((pvItemToQueue =? 0) && negb (uxItemSize q =? 0)));;
  assert_ (negb ((xCopyPosition =? queueOVERWRITE) && negb (uxLength q =? 1)));;
  cannot_wait xTicksToWait;;
  send_loop (S rounds) h pvItemToQueue xTicksToWait xCopyPosition None.

Fixpoint receive_loop (fuel : nat) (h buf ticks : Z) (entry : option TimeOut_t) : M K Z :=
  match fuel with
  | O => stop_ NoFuel
  | S fuel =>
      q ← rdq h;
      let n := uxMessagesWaiting q in
      if 0 <? n then
        prvCopyDataFromQueue h buf;;
        wrq h (set_messages (u32 (n - 1)));;
        wake h ToSend;;
        mret pdPASS
      else if ticks =? 0 then mret errQUEUE_EMPTY
      else
        t ← entry_time entry;
        '(expired, ticks, t, _) ← wait_on h ToReceive prvIsQueueEmpty nothing t ticks false;
        if (expired : bool) then
          empty ← prvIsQueueEmpty h;
          if (empty : bool) then mret errQUEUE_EMPTY else modify others;; receive_loop fuel h buf ticks (Some t)
        else receive_loop fuel h buf ticks (Some t)
  end.
Definition xQueueReceive (h pvBuffer xTicksToWait : Z) : M K Z :=
  assert_ (negb (h =? 0));;
  q ← rdq h;
  assert_ (negb ((pvBuffer =? 0) && negb (uxItemSize q =? 0)));;
  cannot_wait xTicksToWait;;
  receive_loop (S rounds) h pvBuffer xTicksToWait None.

Fixpoint peek_loop (fuel : nat) (h buf ticks : Z) (entry : option TimeOut_t) : M K Z :=
  match fuel with
  | O => stop_ NoFuel
  | S fuel =>
      q ← rdq h;
      if 0 <? uxMessagesWaiting q then
        prvCopyDataFromQueue h buf;;
        wrq h (set_pcReadFrom (pcReadFrom q));;
        wake h ToReceive;;
        mret pdPASS
      else if ticks =? 0 then mret errQUEUE_EMPTY
      else
        t ← entry_time entry;
        '(expired, ticks, t, _) ← wait_on h ToReceive prvIsQueueEmpty nothing t ticks false;
        if (expired : bool) then
          empty ← prvIsQueueEmpty h;
          if (empty : bool) then mret errQUEUE_EMPTY else modify others;; peek_loop fuel h buf ticks (Some t)
        else peek_loop fuel h buf ticks (Some t)
  end.
Definition xQueuePeek (h pvBuffer xTicksToWait : Z) : M K Z :=
  assert_ (negb (h =? 0));;
  q ← rdq h;
  assert_ (negb ((pvBuffer =? 0) && negb (uxItemSize q =? 0)));;
  cannot_wait xTicksToWait;;
  peek_loop (S rounds) h pvBuffer xTicksToWait None.

Definition prvGetDisinheritPriorityAfterTimeout (h : Z) : M K Z :=
  q ← rdq h;
  mret (match xTasksWaitingToReceive q with (v, _) :: _ => u32 (configMAX_PRIORITIES - v) | [] => tskIDLE_PRIORITY end).

(** The holder of a mutex inherits the priority of the task that is about to wait. *)
Definition inherit (h : Z) (flag : bool) : M K bool :=
  q ← rdq h;
  if uxQueueType q =? queueQUEUE_IS_MUTEX then call (xTaskPriorityInherit (xMutexHolder q)) else mret flag.

Fixpoint take_loop (fuel : nat) (h ticks : Z) (entry : option TimeOut_t) (inherited : bool) : M K Z :=
  match fuel with
  | O => stop_ NoFuel
  | S fuel =>
      q ← rdq h;
      let count := uxMessagesWaiting q in
      if 0 <? count then
        wrq h (set_messages (u32 (count - 1)));;
        (if uxQueueType q =? queueQUEUE_IS_MUTEX then
           holder ← call pvTaskIncrementMutexHeldCount; wrq h (set_pcTail holder)
         else mret tt);;
        wake h ToSend;;
        mret pdPASS
      else if ticks =? 0 then
        assert_ (negb inherited);;
        mret errQUEUE_EMPTY
      else
        t ← entry_time entry;
        '(expired, ticks, t, inherited) ← wait_on h ToReceive prvIsQueueEmpty (inherit h) t ticks inherited;
        if (expired : bool) then
          empty ← prvIsQueueEmpty h;
          if (empty : bool) then
            (if (inherited : bool) then
               p ← prvGetDisinheritPriorityAfterTimeout h;
               q ← rdq h;
               tell (vTaskPriorityDisinheritAfterTimeout (xMutexHolder q) p)
             else mret tt);;
            mret errQUEUE_EMPTY
          else modify others;; take_loop fuel h ticks (Some t) inherited
        else take_loop fuel h ticks (Some t) inherited
  end.
Definition xQueueSemaphoreTake (h xTicksToWait : Z) : M K Z :=
  assert_ (negb (h =? 0));;
  q ← rdq h;
  assert_ (uxItemSize q =? 0);;
  cannot_wait xTicksToWait;;
  take_loop (S rounds) h xTicksToWait None false.

(** ** Mutexes and counting semaphores *)

Definition prvInitialiseMutex (h : Z) : M K unit :=
  if negb (h =? 0) then
    wrq h (fun q => set_pcReadFrom 0 (set_pcHead queueQUEUE_IS_MUTEX (set_pcTail 0 q)));;
    xQueueGenericSend h 0 0 queueSEND_TO_BACK;; mret tt
  else mret tt.
Definition xQueueCreateMutex (junk : Queue_t) : M K Z :=
  h ← xQueueGenericCreate junk 1 0;
  prvInitialiseMutex h;;
  mret h.

Definition xQueueGetMutexHolder (h : Z) : M K Z :=
  assert_ (negb (h =? 0));;
  q ← rdq h;
  mret (if uxQueueType q =? queueQUEUE_IS_MUTEX then xMutexHolder q else 0).
Definition xQueueGetMutexHolderFromISR (h : Z) : M K Z :=
  assert_ (negb (h =? 0));;
  q ← rdq h;
  mret (if uxQueueType q =? queueQUEUE_IS_MUTEX then xMutexHolder q else 0).

Definition xQueueGiveMutexRecursive (h : Z) : M K Z :=
  assert_ (negb (h =? 0));;
  q ← rdq h;
  me ← ask xTaskGetCurrentTaskHandle;
  if xMutexHolder q =? me then
    let count := u32 (uxRecursiveCallCount q - 1) in
    wrq h (set_pcReadFrom count);;
    (if count =? 0 then xQueueGenericSend h 0 queueMUTEX_GIVE_BLOCK_TIME queueSEND_TO_BACK;; mret tt else mret tt);;
    mret pdPASS
  else mret pdFAIL.
Definition xQueueTakeMutexRecursive (h xTicksToWait : Z) : M K Z :=
  assert_ (negb (h =? 0));;
  q ← rdq h;
  me ← ask xTaskGetCurrentTaskHandle;
  let count := wrq h (fun q => set_pcReadFrom (u32 (uxRecursiveCallCount q + 1)) q) in
  if xMutexHolder q =? me then count;; mret pdPASS
  else
    xReturn ← xQueueSemaphoreTake h xTicksToWait;
    (if negb (xReturn =? pdFAIL) then count else mret tt);;
    mret xReturn.

Definition xQueueCreateCountingSemaphore (junk : Queue_t) (uxMaxCount uxInitialCount : Z) : M K Z :=
  if negb (uxMaxCount =? 0) && (uxInitialCount <=? uxMaxCount) then
    h ← xQueueGenericCreate junk uxMaxCount queueSEMAPHORE_QUEUE_ITEM_LENGTH;
    (if negb (h =? 0) then wrq h (set_messages uxInitialCount) else mret tt);;
    mret h
  else stop_ Asserted.
End Waiting.

(** ** The contents of a queue *)

(** Queue [h] of [L] items of [sz] bytes at [hd] holds [items], the first at the
    slot behind the read position. *)
Record ring (k : K) (h : Z) (q : Queue_t) (r : Z) (items : list (list Z)) : Prop := {
  r_here : queues k !! h = Some q;
  r_len : 0 < uxLength q < 4294967296;
  r_size : 0 < uxItemSize q;
  r_tail : pcTail q = pcHead q + uxLength q * uxItemSize q;
  r_read : pcReadFrom q = pcHead q + r * uxItemSize q;
  r_pos : 0 <= r < uxLength q;
  r_count : uxMessagesWaiting q = Z.of_nat (length items);
  r_room : Z.of_nat (length items) <= uxLength q;
  r_write : pcWriteTo q = pcHead q + (r + 1 + Z.of_nat (length items)) mod uxLength q * uxItemSize q;
  r_mapped : mapped (kmem k) (pcHead q) (uxLength q * uxItemSize q);
  r_items : forall i x, items !! i = Some x ->
    load_bytes (kmem k) (pcHead q + (r + 1 + Z.of_nat i) mod uxLength q * uxItemSize q) (Z.to_nat (uxItemSize q)) = Some x
}.

(** The storage of a queue, and the addresses outside of it. *)
Definition beside (q : Queue_t) (y : Z) : Prop := y < pcHead q \/ pcHead q + uxLength q * uxItemSize q <= y.
(** Only the ring of [h] has changed. *)
Record only_ring (k k' : K) (h : Z) (q q' : Queue_t) : Prop := {
  o_kern : kern k' = kern k;
  o_registry : xQueueRegistry k' = xQueueRegistry k;
  o_others : forall g, g <> h -> queues k' !! g = queues k !! g;
  o_waiting : forall d, waiting d q' = waiting d q;
  o_locks : cRxLock q' = cRxLock q /\ cTxLock q' = cTxLock q;
  o_shape : pcHead q' = pcHead q /\ uxLength q' = uxLength q /\ uxItemSize q' = uxItemSize q;
  o_memory : forall y, beside q y -> kmem k' !! y = kmem k !! y
}.

Lemma rdq_run k h q : queues k !! h = Some q -> rdq h k = Done (q, k).
Proof. intros Hq. unfold rdq. mred. by rewrite Hq. Qed.
Lemma wrq_run k h q f : queues k !! h = Some q -> wrq h f k = Done (tt, set_queues (<[h := f q]> (queues k)) k).
Proof. intros Hq. unfold wrq. erewrite bind_done by (by apply rdq_run). done. Qed.
Lemma memcpy_run k dst src n bs m' : load_bytes (kmem k) src (Z.to_nat n) = Some bs ->
  store_bytes (kmem k) dst bs = Some m' -> memcpy dst src n k = Done (tt, set_kmem m' k).
Proof. intros H1 H2. unfold memcpy, copy_bytes. mred. rewrite H1. cbn. by rewrite H2. Qed.

(** Storing an item at a slot that holds none. *)
Lemma store_slot k h q r items j x m' :
  ring k h q r items -> store_bytes (kmem k) (pcHead q + (r + 1 + j) mod uxLength q * uxItemSize q) x = Some m' ->
  length x = Z.to_nat (uxItemSize q) -> Z.of_nat (length items) <= j < uxLength q ->
  (forall i y, items !! i = Some y ->
    load_bytes m' (pcHead q + (r + 1 + Z.of_nat i) mod uxLength q * uxItemSize q) (Z.to_nat (uxItemSize q)) = Some y) /\
  load_bytes m' (pcHead q + (r + 1 + j) mod uxLength q * uxItemSize q) (Z.to_nat (uxItemSize q)) = Some x /\
  mapped m' (pcHead q) (uxLength q * uxItemSize q) /\ (forall y, beside q y -> m' !! y = kmem k !! y).
Proof.
  intros R Hs Hx Hj. pose proof (r_len _ _ _ _ _ R) as HL. pose proof (r_size _ _ _ _ _ R) as Hsz.
  split; [|split; [|split]].
  - intros i y Hy. pose proof (lookup_lt_Some _ _ _ Hy) as Hi.
    rewrite (load_store_apart _ _ _ _ _ _ Hs); [by eapply r_items|].
    pose proof (slots_apart (pcHead q) (uxLength q) (uxItemSize q) (r + 1 + Z.of_nat i) (r + 1 + j) Hsz) as Ha.
    pose proof (mod_distinct (uxLength q) (r + 1) (Z.of_nat i) j) as Hd. destruct Ha as [Ha|Ha]; [|lia..].
    apply Hd; lia.
  - rewrite <- Hx. by eapply store_load.
  - eapply mapped_store; [exact Hs|]. by eapply r_mapped.
  - intros y Hy. eapply store_bytes_frame; [exact Hs|]. unfold beside in Hy.
    pose proof (slot_inside (uxLength q) (uxItemSize q) (r + 1 + j)). lia.
Qed.

Lemma copy_to_back_run k h q r items pv x :
  ring k h q r items -> Z.of_nat (length items) < uxLength q ->
  load_bytes (kmem k) pv (Z.to_nat (uxItemSize q)) = Some x ->
  wp (prvCopyDataToQueue h pv queueSEND_TO_BACK) k (fun y k' => y = false /\ exists q',
    ring k' h q' r (items ++ [x]) /\ only_ring k k' h q q').
Proof.
  intros R Hlt Hx. pose proof R as [Hh HL Hsz Ht Hr Hrp Hn Hroom Hw Hm Hi]. pose proof (load_bytes_length _ _ _ _ Hx) as Hxl.
  unfold prvCopyDataToQueue. apply wp_bind. eapply wp_use; [by apply rdq_run|]. cbv zeta.
  destruct (Z.eqb_spec (uxItemSize q) 0) as [|_]; [lia|]. cbn [Z.eqb queueSEND_TO_BACK].
  set (j := Z.of_nat (length items)) in *.
  destruct (store_bytes_mapped (kmem k) (pcWriteTo q) x) as (m' & Hs & _).
  { rewrite Hw. eapply mapped_sub; [exact Hm|..]; pose proof (slot_inside (uxLength q) (uxItemSize q) (r + 1 + j)); lia. }
  rewrite Hw in Hs. destruct (store_slot k h q r items j x m' R Hs Hxl) as (S1 & S2 & S3 & S4); [lia|].
  apply wp_bind, wp_bind. eapply wp_use; [apply (memcpy_run _ _ _ _ x m' Hx); by rewrite Hw|].
  apply wp_bind. eapply wp_use; [by apply wrq_run|]. wps. eapply wp_use; [apply wrq_run; apply lookup_insert_eq|]. wps.
  split; [done|]. eexists. split.
  - eapply Build_ring; [cbn; apply lookup_insert_eq|cbn; rewrite ?length_app; cbn [length]; try done..].
    + rewrite u32_small by (unfold is_u32; lia). lia.
    + lia.
    + rewrite Hw, Ht, slot_next by (try done; apply Z.mod_pos_bound; lia). f_equal. f_equal.
      rewrite Zplus_mod_idemp_l. f_equal. lia.
    + intros i y Hy. apply lookup_app_Some in Hy as [Hy|[Hge Hy]]; [by apply S1|].
      apply list_lookup_singleton_Some in Hy as [E <-]. rewrite <- S2. do 4 f_equal. lia.
  - constructor; cbn; try done.
    intros g N. by rewrite !lookup_insert_ne.
Qed.

(** What an item put in front of the queue joins: nothing if it replaces the only one. *)
Definition kept (pos : Z) (items : list (list Z)) : list (list Z) := if pos =? queueOVERWRITE then [] else items.

Lemma ring_kept k h q r items pos : ring k h q r items -> (pos = queueOVERWRITE -> uxLength q = 1) ->
  let q1 := if pos =? queueOVERWRITE then set_messages 0 q else q in
  ring (set_queues (<[h := q1]> (queues k)) k) h q1 r (kept pos items).
Proof.
  intros [Hh HL Hsz Ht Hr Hrp Hn Hroom Hw Hm Hi] H1. unfold kept. destruct (Z.eqb_spec pos queueOVERWRITE) as [E|_].
  - specialize (H1 E). constructor; cbn; try done; [apply lookup_insert_eq|lia|]. rewrite Hw, H1, !Z.mod_1_r. done.
  - constructor; cbn; try done. apply lookup_insert_eq.
Qed.

Lemma copy_to_front_run k h q r items pv x pos :
  ring k h q r items -> Z.of_nat (length (kept pos items)) < uxLength q -> pos = queueSEND_TO_FRONT \/ pos = queueOVERWRITE ->
  (pos = queueOVERWRITE -> uxLength q = 1) ->
  load_bytes (kmem k) pv (Z.to_nat (uxItemSize q)) = Some x ->
  wp (prvCopyDataToQueue h pv pos) k (fun y k' => y = false /\ exists q' r',
    ring k' h q' r' (x :: kept pos items) /\ only_ring k k' h q q').
Proof.
  intros R0 Hlt Hpos H1 Hx. pose proof (ring_kept k h q r items pos R0 H1) as R.
  pose proof (load_bytes_length _ _ _ _ Hx) as Hxl. pose proof (r_here _ _ _ _ _ R0) as Hh.
  pose proof (r_count _ _ _ _ _ R0) as Hn0. pose proof (r_room _ _ _ _ _ R0) as Hr0. pose proof (r_len _ _ _ _ _ R0) as Hl0.
  set (q1 := if pos =? queueOVERWRITE then set_messages 0 q else q) in *. set (its := kept pos items) in *.
  assert (Hq1 : pcHead q1 = pcHead q /\ pcTail q1 = pcTail q /\ pcReadFrom q1 = pcReadFrom q /\ uxItemSize q1 = uxItemSize q /\
    uxLength q1 = uxLength q /\ pcWriteTo q1 = pcWriteTo q) by (unfold q1; by case_match).
  destruct Hq1 as (E1 & E2 & E3 & E4 & E5 & E6).
  pose proof R as [_ HL Hsz Ht Hr Hrp Hn Hroom Hw Hm Hi]. rewrite E1, E2, E3, E4, ?E5, ?E6 in *.
  assert (Er : r = (r + 1 + (uxLength q - 1)) mod uxLength q).
  { replace (r + 1 + (uxLength q - 1)) with (r + 1 * uxLength q) by lia. rewrite Z.mod_add, Z.mod_small by lia. done. }
  destruct (store_bytes_mapped (kmem k) (pcReadFrom q) x) as (m' & Hs & _).
  { rewrite Hr. eapply mapped_sub; [exact Hm|nia|nia]. }
  pose proof Hs as Hs1. rewrite Hr, Er in Hs1.
  pose proof (store_slot _ h q1 r its (uxLength q - 1) x m' R) as Hst. rewrite E1, E4, E5 in Hst.
  destruct (Hst Hs1 Hxl) as (S1 & S2 & S3 & S4); [lia|]. rewrite <- Er in S2.
  unfold prvCopyDataToQueue. apply wp_bind. eapply wp_use; [by apply rdq_run|]. cbv zeta.
  destruct (Z.eqb_spec (uxItemSize q) 0) as [|_]; [lia|].
  destruct (Z.eqb_spec pos queueSEND_TO_BACK) as [->|_]; [by destruct Hpos|].
  apply wp_bind, wp_bind. eapply wp_use; [by apply (memcpy_run _ _ _ _ x m' Hx)|].
  apply wp_bind. eapply wp_use; [by apply wrq_run|]. wps. eapply wp_use; [apply wrq_run; apply lookup_insert_eq|]. wps.
  split; [done|]. set (n' := if pos =? queueOVERWRITE then _ else _).
  assert (En : n' = Z.of_nat (length its)).
  { unfold n', its, kept in *. destruct (Z.eqb_spec pos queueOVERWRITE) as [E|_]; [|by rewrite Hn0]. specialize (H1 E). cbn.
    destruct (Z.ltb_spec 0 (uxMessagesWaiting q)); [rewrite u32_small by (unfold is_u32; lia)|]; lia. }
  eexists _, ((r - 1) mod uxLength q). split.
  - eapply Build_ring; [cbn; apply lookup_insert_eq|cbn; try done..].
    + rewrite Hr, Ht. by apply slot_prev.
    + apply Z.mod_pos_bound; lia.
    + rewrite En, u32_small by (unfold is_u32; lia). lia.
    + lia.
    + rewrite Hw. do 2 f_equal. symmetry. apply slot_shift; lia.
    + intros [|i] y Hy.
      * injection Hy as <-. rewrite <- S2. do 3 f_equal. rewrite (slot_shift _ _ _ (-1)) by lia.
        replace (r + 1 + -1) with r by lia. apply Z.mod_small. lia.
      * cbn in Hy. rewrite <- (S1 i y Hy). do 3 f_equal. apply slot_shift; lia.
  - constructor; cbn; try done.
    + intros g N. by rewrite !lookup_insert_ne.
    + intros y Hy. apply S4. unfold beside. by rewrite E1, E4, E5.
Qed.

(** The fields that the ring depends on. *)
Definition same_ring (q q' : Queue_t) : Prop :=
  pcHead q' = pcHead q /\ pcTail q' = pcTail q /\ pcWriteTo q' = pcWriteTo q /\ pcReadFrom q' = pcReadFrom q /\
  uxLength q' = uxLength q /\ uxItemSize q' = uxItemSize q /\ uxMessagesWaiting q' = uxMessagesWaiting q.
Lemma ring_frame k k2 h q q2 r items : ring k h q r items -> queues k2 !! h = Some q2 -> same_ring q q2 ->
  (forall y, ~ beside q y -> kmem k2 !! y = kmem k !! y) -> ring k2 h q2 r items.
Proof.
  intros [Hh HL Hsz Ht Hr Hrp Hn Hroom Hw Hm Hi] Hq2 (E1 & E2 & E3 & E4 & E5 & E6 & E7) Hf.
  constructor; rewrite ?E1, ?E2, ?E3, ?E4, ?E5, ?E6, ?E7; try done.
  - intros y Hy. rewrite Hf; [by apply Hm|]. unfold beside. lia.
  - intros i x Hx. rewrite <- (Hi i x Hx). apply load_bytes_frame. intros y Hy. apply Hf. unfold beside.
    pose proof (slot_inside (uxLength q) (uxItemSize q) (r + 1 + Z.of_nat i)). lia.
Qed.

(** The queue without its first item. *)
Definition received (q : Queue_t) (r : Z) : Queue_t :=
  set_messages (u32 (uxMessagesWaiting q - 1)) (set_pcReadFrom (pcHead q + (r + 1) mod uxLength q * uxItemSize q) q).
Lemma ring_received k h q r x items : ring k h q r (x :: items) ->
  ring (set_queues (<[h := received q r]> (queues k)) k) h (received q r) ((r + 1) mod uxLength q) items.
Proof.
  intros [Hh HL Hsz Ht Hr Hrp Hn Hroom Hw Hm Hi]. cbn [length] in *.
  assert (Es : forall c, ((r + 1) mod uxLength q + 1 + c) mod uxLength q = (r + 1 + (c + 1)) mod uxLength q).
  { intros c. rewrite <- Z.add_assoc, Zplus_mod_idemp_l. f_equal. lia. }
  constructor; cbn; try done.
  - apply lookup_insert_eq.
  - apply Z.mod_pos_bound. lia.
  - rewrite u32_small by (unfold is_u32; lia). lia.
  - lia.
  - rewrite Hw, Es. do 4 f_equal. lia.
  - intros i y Hy. rewrite Es, <- (Hi (Datatypes.S i) y Hy). do 4 f_equal. lia.
Qed.

Lemma copy_from_run k h q r items x buf :
  ring k h q r (x :: items) -> mapped (kmem k) buf (uxItemSize q) ->
  (forall y, buf <= y < buf + uxItemSize q -> beside q y) ->
  exists m', store_bytes (kmem k) buf x = Some m' /\ length x = Z.to_nat (uxItemSize q) /\
    (forall y, ~ beside q y -> m' !! y = kmem k !! y) /\
    prvCopyDataFromQueue h buf k = Done (tt, set_kmem m' (set_queues
      (<[h := set_pcReadFrom (pcHead q + (r + 1) mod uxLength q * uxItemSize q) q]> (queues k)) k)).
Proof.
  intros R Hmap Hbes. pose proof R as [Hh HL Hsz Ht Hr Hrp Hn Hroom Hw Hm Hi].
  pose proof (Hi 0%nat x eq_refl) as Hx. rewrite Z.add_0_r in Hx. pose proof (load_bytes_length _ _ _ _ Hx) as Hxl.
  destruct (store_bytes_mapped (kmem k) buf x) as (m' & Hs & _); [by rewrite Hxl, Z2Nat.id by lia|].
  exists m'. split; [done|]. split; [done|]. split.
  - intros y Hy. eapply store_bytes_frame; [exact Hs|].
    destruct (decide (buf <= y < buf + uxItemSize q)) as [Hin|]; [by apply Hbes in Hin|]. lia.
  - unfold prvCopyDataFromQueue. erewrite bind_done by (by apply rdq_run). cbv zeta.
    destruct (Z.eqb_spec (uxItemSize q) 0) as [|_]; [lia|]. cbn [negb].
    rewrite Ht, Hr, slot_next by done. erewrite bind_done by (by apply wrq_run).
    by erewrite memcpy_run.
Qed.

Definition put_item (pos : Z) (x : list Z) (items : list (list Z)) : list (list Z) :=
  if pos =? queueSEND_TO_BACK then items ++ [x] else x :: kept pos items.
Definition has_room (pos L : Z) (items : list (list Z)) : bool :=
  (Z.of_nat (length items) <? L) || (pos =? queueOVERWRITE).
Definition position_ok (pos L : Z) : Prop :=
  pos = queueSEND_TO_BACK \/ pos = queueSEND_TO_FRONT \/ (pos = queueOVERWRITE /\ L = 1).

Lemma copy_to_run k h q r items pv x pos :
  ring k h q r items -> has_room pos (uxLength q) items = true -> position_ok pos (uxLength q) ->
  load_bytes (kmem k) pv (Z.to_nat (uxItemSize q)) = Some x ->
  wp (prvCopyDataToQueue h pv pos) k (fun y k' => y = false /\ exists q' r',
    ring k' h q' r' (put_item pos x items) /\ only_ring k k' h q q').
Proof.
  intros R Hroom Hpos Hx. unfold put_item, has_room in *. pose proof (r_len _ _ _ _ _ R).
  destruct Hpos as [->|[->|[-> HL]]]; cbn [Z.eqb queueSEND_TO_BACK queueSEND_TO_FRONT queueOVERWRITE] in *.
  - rewrite orb_false_r in Hroom. apply Z.ltb_lt in Hroom.
    eapply wp_mono; [by eapply copy_to_back_run|]. intros y k' (-> & q' & Hr' & Ho). split; [done|]. by exists q', r.
  - rewrite orb_false_r in Hroom. apply Z.ltb_lt in Hroom. apply (copy_to_front_run k h q r items); try done. by left.
  - apply (copy_to_front_run k h q r items); try done; [cbn; lia|by right].
Qed.

(** ** Waking tasks *)

Definition tasks_ok (q : Queue_t) : Prop := forall d, Forall (fun e => e.2 <> 0) (waiting d q).
(** Only the event list of [h] and the kernel have changed: [n] tasks left the list. *)
Record woken (k k' : K) (h : Z) (q q' : Queue_t) (d : side) (n : nat) : Prop := {
  w_here : queues k' !! h = Some q';
  w_ring : same_ring q q';
  w_locks : cRxLock q' = cRxLock q /\ cTxLock q' = cTxLock q;
  w_lists : forall e, waiting e q' = if decide (e = d) then drop n (waiting d q) else waiting e q;
  w_others : forall g, g <> h -> queues k' !! g = queues k !! g;
  w_memory : kmem k' = kmem k;
  w_registry : xQueueRegistry k' = xQueueRegistry k
}.
Lemma woken_refl k h q d : queues k !! h = Some q -> woken k k h q q d 0.
Proof. intros Hq. constructor; try done. intros e. case_decide; [by subst|done]. Qed.
Lemma woken_ok k k' h q q' d n : woken k k' h q q' d n -> tasks_ok q -> tasks_ok q'.
Proof. intros W Ht e. rewrite (w_lists _ _ _ _ _ _ _ W). case_decide; [by apply Forall_drop|done]. Qed.
Lemma woken_step k k1 k2 h q q1 q2 d n m : woken k k1 h q q1 d n -> woken k1 k2 h q1 q2 d m -> woken k k2 h q q2 d (n + m).
Proof.
  intros W1 W2. destruct W1 as [A1 A2 A3 A4 A5 A6 A7], W2 as [B1 B2 B3 B4 B5 B6 B7]. constructor; try congruence.
  - unfold same_ring in *. intuition congruence.
  - intuition congruence.
  - intros e. rewrite B4, !A4. repeat case_decide; try done. by rewrite drop_drop.
  - intros g N. by rewrite B5, A5.
Qed.

Lemma waiting_set_side d l q e : waiting e (set_side d l q) = if decide (e = d) then l else waiting e q.
Proof. by destruct d, e. Qed.

Lemma remove_event_run k h q d : queues k !! h = Some q -> tasks_ok q -> waiting d q <> [] ->
  wp (xTaskRemoveFromEventList h d) k (fun urgent k' => exists q' task,
    woken k k' h q q' d 1 /\ head (waiting d q) = Some task /\ (urgent, kern k') = make_ready task.2 (kern k)).
Proof.
  intros Hq Hok Hne. unfold xTaskRemoveFromEventList. apply wp_bind. eapply wp_use; [by apply rdq_run|].
  pose proof (Hok d) as Hd. destruct (waiting d q) as [|[v task] l] eqn:E; [done|]. apply Forall_cons in Hd as [Ht _]. cbn in Ht.
  apply wp_bind, wp_assert; [by destruct (Z.eqb_spec task 0)|]. apply wp_bind. eapply wp_use; [by apply wrq_run|].
  unfold call. wps. cbn [set_queues kern]. destruct (make_ready task (kern k)) as [u a] eqn:Em. wps.
  exists (set_side d l q), (v, task). split; [|by cbn; rewrite Em]. constructor; cbn; try done.
  - apply lookup_insert_eq.
  - by destruct d.
  - by destruct d.
  - intros e. rewrite waiting_set_side, E. done.
  - intros g N. by rewrite lookup_insert_ne.
Qed.

Lemma wake_run k h q d : queues k !! h = Some q -> tasks_ok q ->
  wp (wake h d) k (fun _ k' => exists q', woken k k' h q q' d 1).
Proof.
  intros Hq Hok. unfold wake. apply wp_bind. eapply wp_use; [by apply rdq_run|].
  destruct (waiting d q) as [|e l] eqn:E; cbn [listLIST_IS_EMPTY negb].
  - wps. exists q. pose proof (woken_refl k h q d Hq) as [A1 A2 A3 A4 A5 A6 A7]. constructor; try done.
    intros e'. rewrite A4. case_decide; [by rewrite E|done].
  - apply wp_bind. eapply wp_mono; [apply (remove_event_run k h q d Hq Hok); by rewrite E|].
    intros u k1 (q1 & task & W & _). destruct u; [|by wps; eauto]. unfold tell. wps. exists q1. by destruct W.
Qed.

(** ** Single operations *)

(** Queue [h] of [L] items of [sz] bytes at [hd] holds [items]; [lk] are its locks. *)
Definition holds (k : K) (h hd L sz : Z) (lk : Z * Z) (items : list (list Z)) : Prop :=
  exists q r, ring k h q r items /\ tasks_ok q /\ pcHead q = hd /\ uxLength q = L /\ uxItemSize q = sz /\
    (cRxLock q, cTxLock q) = lk.
(** Memory changes only between [a] and [a + n]. *)
Definition writes (k k' : K) (a n : Z) : Prop := forall y, y < a \/ a + n <= y -> kmem k' !! y = kmem k !! y.

Lemma writes_refl k a n : writes k k a n.
Proof. by intros y. Qed.
Lemma writes_none k k' a n : kmem k' = kmem k -> writes k k' a n.
Proof. intros E y _. by rewrite E. Qed.
Lemma writes_trans k k1 k2 a n : writes k k1 a n -> writes k1 k2 a n -> writes k k2 a n.
Proof. intros W1 W2 y Hy. by rewrite W2, W1. Qed.

Lemma woken_holds k k' h q q' d n r items : woken k k' h q q' d n -> ring k h q r items -> tasks_ok q ->
  holds k' h (pcHead q) (uxLength q) (uxItemSize q) (cRxLock q, cTxLock q) items.
Proof.
  intros W R Ht. exists q', r. split; [eapply ring_frame; [exact R|by destruct W..|]|].
  - intros y _. by rewrite (w_memory _ _ _ _ _ _ _ W).
  - split; [by eapply woken_ok|]. destruct W as [_ (E1 & _ & _ & _ & E5 & E6 & _) [-> ->] _ _ _ _]. done.
Qed.

Lemma only_ring_tasks k k' h q q' : only_ring k k' h q q' -> tasks_ok q -> tasks_ok q'.
Proof. intros O Ht d. rewrite (o_waiting _ _ _ _ _ O). apply Ht. Qed.

Section Single.
Context (others isr : K -> K) (rounds : nat).

Lemma send_loop_room fuel h pv ticks pos entry k hd L sz lk items x :
  holds k h hd L sz lk items -> has_room pos L items = true -> position_ok pos L ->
  load_bytes (kmem k) pv (Z.to_nat sz) = Some x ->
  wp (send_loop others isr (S fuel) h pv ticks pos entry) k (fun y k' => y = pdPASS /\
    holds k' h hd L sz lk (put_item pos x items) /\ writes k k' hd (L * sz)).
Proof.
  intros (q & r & R & Ht & <- & <- & <- & <-) Hroom Hpos Hx. cbn [send_loop].
  apply wp_bind. eapply wp_use; [apply rdq_run, R|]. rewrite (r_count _ _ _ _ _ R). fold (has_room pos (uxLength q) items).
  rewrite Hroom. apply wp_bind. eapply wp_mono; [by apply (copy_to_run k h q r items pv x pos)|].
  intros y k1 (-> & q1 & r1 & R1 & O1). pose proof (only_ring_tasks _ _ _ _ _ O1 Ht) as Ht1.
  pose proof (r_here _ _ _ _ _ R1) as Hq1. apply wp_bind. eapply wp_use; [by apply rdq_run|].
  apply wp_bind. destruct O1 as [O1 O2 O3 O4 [O5 O5'] (O6 & O7 & O8) O9].
  assert (Hb : writes k k1 (pcHead q) (uxLength q * uxItemSize q)) by (intros y Hy; apply O9; unfold beside; lia).
  destruct (listLIST_IS_EMPTY _); cbn [negb].
  - wps. split; [done|]. split; [|done]. exists q1, r1. rewrite <- O5, <- O5', <- O6, <- O7, <- O8. split; [done|]. by split.
  - eapply wp_mono; [by apply (wake_run k1 h q1 ToReceive)|]. intros _ k2 (q2 & W). wps. split; [done|].
    split; [|eapply writes_trans; [exact Hb|]; apply writes_none; by destruct W].
    rewrite <- O5, <- O5', <- O6, <- O7, <- O8. by eapply woken_holds.
Qed.

Lemma send_checks h pv pos ticks k hd L sz lk items Q :
  holds k h hd L sz lk items -> h <> 0 -> pv <> 0 -> position_ok pos L ->
  (scheduler_suspended (kern k) = true -> ticks = 0) ->
  wp (send_loop others isr (S rounds) h pv ticks pos None) k Q ->
  wp (xQueueGenericSend others isr rounds h pv ticks pos) k Q.
Proof.
  intros (q & r & R & _ & _ & <- & _) Hh Hpv Hpos Hsus HQ. unfold xQueueGenericSend.
  apply wp_bind, wp_assert; [by destruct (Z.eqb_spec h 0)|]. apply wp_bind. eapply wp_use; [apply rdq_run, R|].
  apply wp_bind, wp_assert; [by destruct (Z.eqb_spec pv 0)|]. apply wp_bind, wp_assert.
  { destruct Hpos as [->|[->|[-> ->]]]; done. }
  apply wp_bind. unfold cannot_wait, ask. wps. apply wp_assert; [|done].
  destruct (scheduler_suspended (kern k)); [by rewrite Hsus|done].
Qed.

Lemma xQueueGenericSend_now h pv pos k hd L sz lk items x :
  holds k h hd L sz lk items -> h <> 0 -> pv <> 0 -> position_ok pos L ->
  load_bytes (kmem k) pv (Z.to_nat sz) = Some x ->
  wp (xQueueGenericSend others isr rounds h pv 0 pos) k (fun y k' =>
    let room := has_room pos L items in
    y = (if room then pdPASS else errQUEUE_FULL) /\
    holds k' h hd L sz lk (if room then put_item pos x items else items) /\ writes k k' hd (L * sz)).
Proof.
  intros Hk Hh Hpv Hpos Hx. eapply send_checks; try done. cbv zeta.
  destruct (has_room pos L items) eqn:Hroom; [by apply send_loop_room|].
  cbn [send_loop]. pose proof Hk as (q & r & R & Ht & _ & <- & _). apply wp_bind. eapply wp_use; [apply rdq_run, R|].
  rewrite (r_count _ _ _ _ _ R). fold (has_room pos (uxLength q) items). rewrite Hroom. cbn [Z.eqb]. wps.
  by repeat split.
Qed.

(** A buffer for one item, beside the storage of the queue. *)
Definition buffer_ok (k : K) (buf hd L sz : Z) : Prop :=
  buf <> 0 /\ mapped (kmem k) buf sz /\ (buf + sz <= hd \/ hd + L * sz <= buf).

Lemma take_item k h hd L sz lk items x buf q r :
  ring k h q r (x :: items) -> tasks_ok q -> pcHead q = hd -> uxLength q = L -> uxItemSize q = sz ->
  (cRxLock q, cTxLock q) = lk -> buffer_ok k buf hd L sz ->
  exists m', prvCopyDataFromQueue h buf k = Done (tt, set_kmem m' (set_queues
      (<[h := set_pcReadFrom (hd + (r + 1) mod L * sz) q]> (queues k)) k)) /\
    load_bytes m' buf (Z.to_nat sz) = Some x /\ (forall y, y < buf \/ buf + sz <= y -> m' !! y = kmem k !! y) /\
    (forall k2 q2, queues k2 !! h = Some q2 -> same_ring (received q r) q2 -> kmem k2 = m' ->
       ring k2 h q2 ((r + 1) mod L) items) /\
    (forall k2 q2, queues k2 !! h = Some q2 -> same_ring q q2 -> kmem k2 = m' -> ring k2 h q2 r (x :: items)).
Proof.
  intros R Ht <- <- <- <- (_ & Hmap & Hap). pose proof (r_size _ _ _ _ _ R) as Hsz.
  assert (Hbes : forall y, buf <= y < buf + uxItemSize q -> beside q y) by (unfold beside; lia).
  destruct (copy_from_run k h q r items x buf R Hmap Hbes) as (m' & Hs & Hxl & Hf & Hrun).
  exists m'. split; [done|]. split; [rewrite <- Hxl; by eapply store_load|].
  split; [intros y Hy; eapply store_bytes_frame; [exact Hs|]; lia|]. split.
  - intros k2 q2 H2 Hsr Hm. eapply ring_frame; [by eapply ring_received|done|done|].
    intros y Hy. rewrite Hm. by apply Hf.
  - intros k2 q2 H2 Hsr Hm. eapply ring_frame; [exact R|done|done|]. intros y Hy. rewrite Hm. by apply Hf.
Qed.

Lemma receive_loop_some fuel h buf ticks entry k hd L sz lk items x :
  holds k h hd L sz lk (x :: items) -> buffer_ok k buf hd L sz ->
  wp (receive_loop others isr (S fuel) h buf ticks entry) k (fun y k' => y = pdPASS /\
    holds k' h hd L sz lk items /\ writes k k' buf sz /\ load_bytes (kmem k') buf (Z.to_nat sz) = Some x).
Proof.
  intros (q & r & R & Ht & E1 & E2 & E3 & E4) Hbuf. cbn [receive_loop].
  apply wp_bind. eapply wp_use; [apply rdq_run, R|]. pose proof (r_count _ _ _ _ _ R) as Hn. cbn [length] in Hn.
  destruct (Z.ltb_spec 0 (uxMessagesWaiting q)) as [_|]; [|lia].
  destruct (take_item k h hd L sz lk items x buf q r R Ht E1 E2 E3 E4 Hbuf) as (m' & Hrun & Hl & Hf & Hr & _).
  apply wp_bind. eapply wp_use; [exact Hrun|]. apply wp_bind.
  eapply wp_use; [apply wrq_run; cbn; apply lookup_insert_eq|]. cbn [set_kmem set_queues queues]. rewrite insert_insert_eq.
  set (q2 := set_messages _ _). match goal with |- wp _ ?s _ => set (k2 := s) end. assert (Hk2 : queues k2 !! h = Some q2) by apply lookup_insert_eq.
  assert (Ht2 : tasks_ok q2) by exact Ht.
  apply wp_bind. eapply wp_mono; [by apply (wake_run k2 h q2 ToSend)|]. intros _ k3 (q3 & W). wps.
  assert (R2 : ring k2 h q2 ((r + 1) mod L) items) by (apply Hr; [done| |done]; subst; done).
  split; [done|]. split; [subst; exact (woken_holds _ _ _ _ _ _ _ _ _ W R2 Ht2)|].
  pose proof (w_memory _ _ _ _ _ _ _ W) as Hm. split; [intros y Hy|]; rewrite Hm; [by apply Hf|done].
Qed.

Lemma receive_checks h buf ticks k hd L sz lk items Q :
  holds k h hd L sz lk items -> h <> 0 -> buf <> 0 -> (scheduler_suspended (kern k) = true -> ticks = 0) ->
  wp (receive_loop others isr (S rounds) h buf ticks None) k Q ->
  wp (xQueueReceive others isr rounds h buf ticks) k Q.
Proof.
  intros (q & r & R & _) Hh Hbuf Hsus HQ. unfold xQueueReceive.
  apply wp_bind, wp_assert; [by destruct (Z.eqb_spec h 0)|]. apply wp_bind. eapply wp_use; [apply rdq_run, R|].
  apply wp_bind, wp_assert; [by destruct (Z.eqb_spec buf 0)|].
  apply wp_bind. unfold cannot_wait, ask. wps. apply wp_assert; [|done].
  destruct (scheduler_suspended (kern k)); [by rewrite Hsus|done].
Qed.

(** What reading the queue gives: the first item, or the error. *)
Definition read_post (keep : bool) (h buf hd L sz : Z) (lk : Z * Z) (items : list (list Z)) (k : K) (y : Z) (k' : K) : Prop :=
  writes k k' buf sz /\
  match items with
  | [] => y = errQUEUE_EMPTY /\ k' = k
  | x :: rest => y = pdPASS /\ holds k' h hd L sz lk (if keep then items else rest) /\
      load_bytes (kmem k') buf (Z.to_nat sz) = Some x
  end.

Lemma xQueueReceive_now h buf k hd L sz lk items :
  holds k h hd L sz lk items -> h <> 0 -> buffer_ok k buf hd L sz ->
  wp (xQueueReceive others isr rounds h buf 0) k (read_post false h buf hd L sz lk items k).
Proof.
  intros Hk Hh Hbuf. eapply receive_checks; try done; [apply Hbuf|]. destruct items as [|x items].
  - cbn [receive_loop]. pose proof Hk as (q & r & R & _). apply wp_bind. eapply wp_use; [apply rdq_run, R|].
    rewrite (r_count _ _ _ _ _ R). cbn. wps. by split; [apply writes_refl|].
  - eapply wp_mono; [by apply receive_loop_some|]. intros y k' (-> & H1 & H2 & H3). by repeat split.
Qed.

Lemma peek_loop_some fuel h buf ticks entry k hd L sz lk items x :
  holds k h hd L sz lk (x :: items) -> buffer_ok k buf hd L sz ->
  wp (peek_loop others isr (S fuel) h buf ticks entry) k (read_post true h buf hd L sz lk (x :: items) k).
Proof.
  intros (q & r & R & Ht & E1 & E2 & E3 & E4) Hbuf. cbn [peek_loop].
  apply wp_bind. eapply wp_use; [apply rdq_run, R|]. pose proof (r_count _ _ _ _ _ R) as Hn. cbn [length] in Hn.
  destruct (Z.ltb_spec 0 (uxMessagesWaiting q)) as [_|]; [|lia].
  destruct (take_item k h hd L sz lk items x buf q r R Ht E1 E2 E3 E4 Hbuf) as (m' & Hrun & Hl & Hf & _ & Hr).
  apply wp_bind. eapply wp_use; [exact Hrun|]. apply wp_bind.
  eapply wp_use; [apply wrq_run; cbn; apply lookup_insert_eq|]. cbn [set_kmem set_queues queues]. rewrite insert_insert_eq.
  set (q2 := set_pcReadFrom _ _). match goal with |- wp _ ?s _ => set (k2 := s) end.
  assert (Hk2 : queues k2 !! h = Some q2) by apply lookup_insert_eq. assert (Ht2 : tasks_ok q2) by exact Ht.
  apply wp_bind. eapply wp_mono; [by apply (wake_run k2 h q2 ToReceive)|]. intros _ k3 (q3 & W). wps.
  assert (R2 : ring k2 h q2 r (x :: items)) by (by apply Hr).
  pose proof (w_memory _ _ _ _ _ _ _ W) as Hm. split; [intros y Hy; rewrite Hm; by apply Hf|].
  split; [done|]. split; [subst; exact (woken_holds _ _ _ _ _ _ _ _ _ W R2 Ht2)|]. by rewrite Hm.
Qed.

Lemma xQueuePeek_now h buf k hd L sz lk items :
  holds k h hd L sz lk items -> h <> 0 -> buffer_ok k buf hd L sz ->
  wp (xQueuePeek others isr rounds h buf 0) k (read_post true h buf hd L sz lk items k).
Proof.
  intros Hk Hh Hbuf. pose proof Hk as (q & r & R & _). unfold xQueuePeek.
  apply wp_bind, wp_assert; [by destruct (Z.eqb_spec h 0)|]. apply wp_bind. eapply wp_use; [apply rdq_run, R|].
  apply wp_bind, wp_assert; [by destruct Hbuf as [Hb _]; destruct (Z.eqb_spec buf 0)|].
  apply wp_bind. unfold cannot_wait, ask. wps. apply wp_assert; [by destruct (scheduler_suspended _)|].
  destruct items as [|x items]; [|by apply peek_loop_some]. cbn [peek_loop].
  apply wp_bind. eapply wp_use; [apply rdq_run, R|].
  rewrite (r_count _ _ _ _ _ R). cbn. wps. by split; [apply writes_refl|].
Qed.

(** *** From interrupts *)

(** Signalling from an interrupt: while the queue is unlocked a task is woken. *)
Lemma signal_run h d k q count : queues k !! h = Some q -> tasks_ok q ->
  wp (signal_from_isr h d queueUNLOCKED count) k (fun y k' => y.1 = pdPASS /\ exists q', woken k k' h q q' d 1).
Proof.
  intros Hq Hok. unfold signal_from_isr. cbn [Z.eqb queueUNLOCKED].
  apply wp_bind. eapply wp_use; [by apply rdq_run|].
  destruct (waiting d q) as [|e l] eqn:E; cbn [listLIST_IS_EMPTY negb].
  - wps. split; [done|]. exists q. pose proof (woken_refl k h q d Hq) as [A1 A2 A3 A4 A5 A6 A7]. constructor; try done.
    intros e'. rewrite A4. case_decide; [by rewrite E|done].
  - apply wp_bind. eapply wp_mono; [apply (remove_event_run k h q d Hq Hok); by rewrite E|].
    intros u k1 (q1 & task & W & _). wps. by eauto.
Qed.

Definition unlocked : Z * Z := (queueUNLOCKED, queueUNLOCKED).

Lemma xQueueGenericSendFromISR_run h pv pos k hd L sz items x :
  holds k h hd L sz unlocked items -> h <> 0 -> pv <> 0 -> position_ok pos L ->
  load_bytes (kmem k) pv (Z.to_nat sz) = Some x ->
  wp (xQueueGenericSendFromISR h pv pos) k (fun y k' =>
    let room := has_room pos L items in
    y.1 = (if room then pdPASS else errQUEUE_FULL) /\
    holds k' h hd L sz unlocked (if room then put_item pos x items else items) /\ writes k k' hd (L * sz)).
Proof.
  intros Hk Hh Hpv Hpos Hx. pose proof Hk as (q & r & R & Ht & <- & <- & <- & [= E1 E2]).
  unfold xQueueGenericSendFromISR.
  apply wp_bind, wp_assert; [by destruct (Z.eqb_spec h 0)|]. apply wp_bind. eapply wp_use; [apply rdq_run, R|].
  apply wp_bind, wp_assert; [by destruct (Z.eqb_spec pv 0)|].
  apply wp_bind, wp_assert; [destruct Hpos as [->|[->|[-> ->]]]; done|].
  rewrite (r_count _ _ _ _ _ R). fold (has_room pos (uxLength q) items). cbv zeta.
  destruct (has_room pos (uxLength q) items) eqn:Hroom; [|wps; by repeat split].
  apply wp_bind. eapply wp_mono; [by apply (copy_to_run k h q r items pv x pos)|].
  intros y k1 (-> & q1 & r1 & R1 & O1). pose proof (only_ring_tasks _ _ _ _ _ O1 Ht) as Ht1.
  destruct O1 as [O1 O2 O3 O4 [O5 O5'] (O6 & O7 & O8) O9]. rewrite E2.
  eapply wp_mono; [apply (signal_run h ToReceive k1 q1); [apply R1|done]|]. intros [y b] k2 (-> & q2 & W). split; [done|].
  split; [|eapply writes_trans; [|apply writes_none; by destruct W]; intros z Hz; apply O9; unfold beside; lia].
  pose proof (woken_holds _ _ _ _ _ _ _ _ _ W R1 Ht1) as Hw. rewrite O5, O5', O6, O7, O8, E1, E2 in Hw. exact Hw.
Qed.

Lemma xQueueReceiveFromISR_run h buf k hd L sz items :
  holds k h hd L sz unlocked items -> h <> 0 -> buffer_ok k buf hd L sz ->
  wp (xQueueReceiveFromISR h buf) k (fun y k' => read_post false h buf hd L sz unlocked items k y.1 k').
Proof.
  intros Hk Hh Hbuf. pose proof Hk as (q & r & R & Ht & E1 & E2 & E3 & E4). unfold xQueueReceiveFromISR.
  apply wp_bind, wp_assert; [by destruct (Z.eqb_spec h 0)|]. apply wp_bind. eapply wp_use; [apply rdq_run, R|].
  apply wp_bind, wp_assert; [by destruct Hbuf as [Hb _]; destruct (Z.eqb_spec buf 0)|].
  pose proof (r_count _ _ _ _ _ R) as Hn. destruct items as [|x items]; cbn [length] in Hn.
  { rewrite Hn. cbn. wps. by split; [apply writes_refl|]. }
  destruct (Z.ltb_spec 0 (uxMessagesWaiting q)) as [_|]; [|lia].
  destruct (take_item k h hd L sz _ items x buf q r R Ht E1 E2 E3 E4 Hbuf) as (m' & Hrun & Hl & Hf & Hr & _).
  apply wp_bind. eapply wp_use; [exact Hrun|]. apply wp_bind.
  eapply wp_use; [apply wrq_run; cbn; apply lookup_insert_eq|]. cbn [set_kmem set_queues queues]. rewrite insert_insert_eq.
  set (q2 := set_messages _ _). match goal with |- wp _ ?s _ => set (k2 := s) end.
  assert (Hk2 : queues k2 !! h = Some q2) by apply lookup_insert_eq. assert (Ht2 : tasks_ok q2) by exact Ht.
  assert (R2 : ring k2 h q2 ((r + 1) mod L) items) by (apply Hr; [done| |done]; subst; done).
  assert (Elk : cRxLock q = queueUNLOCKED) by (by injection E4). rewrite Elk.
  eapply wp_mono; [by apply (signal_run h ToSend k2 q2)|]. intros [y b] k3 (Hy & q3 & W). cbn in Hy. subst y.
  pose proof (w_memory _ _ _ _ _ _ _ W) as Hm. split; [intros y Hy; rewrite Hm; by apply Hf|].
  split; [done|]. split; [|by rewrite Hm]. rewrite <- E4. subst. exact (woken_holds _ _ _ _ _ _ _ _ _ W R2 Ht2).
Qed.

Lemma xQueuePeekFromISR_run h buf k hd L sz lk items :
  holds k h hd L sz lk items -> h <> 0 -> buffer_ok k buf hd L sz ->
  wp (xQueuePeekFromISR h buf) k (read_post true h buf hd L sz lk items k).
Proof.
  intros Hk Hh Hbuf. pose proof Hk as (q & r & R & Ht & E1 & E2 & E3 & E4). unfold xQueuePeekFromISR.
  apply wp_bind, wp_assert; [by destruct (Z.eqb_spec h 0)|]. apply wp_bind. eapply wp_use; [apply rdq_run, R|].
  apply wp_bind, wp_assert; [by destruct Hbuf as [Hb _]; destruct (Z.eqb_spec buf 0)|].
  pose proof (r_size _ _ _ _ _ R). apply wp_bind, wp_assert; [by destruct (Z.eqb_spec (uxItemSize q) 0); [lia|]|].
  pose proof (r_count _ _ _ _ _ R) as Hn. destruct items as [|x items]; cbn [length] in Hn.
  { rewrite Hn. cbn. wps. by split; [apply writes_refl|]. }
  destruct (Z.ltb_spec 0 (uxMessagesWaiting q)) as [_|]; [|lia].
  destruct (take_item k h hd L sz _ items x buf q r R Ht E1 E2 E3 E4 Hbuf) as (m' & Hrun & Hl & Hf & _ & Hr).
  apply wp_bind. eapply wp_use; [exact Hrun|]. apply wp_bind.
  eapply wp_use; [apply wrq_run; cbn; apply lookup_insert_eq|]. cbn [set_kmem set_queues queues]. rewrite insert_insert_eq.
  wps. split; [exact Hf|]. split; [done|]. split; [|done].
  exists (set_pcReadFrom (pcReadFrom q) (set_pcReadFrom (hd + (r + 1) mod L * sz) q)), r.
  split; [apply Hr; [apply lookup_insert_eq|done|done]|]. split; [exact Ht|]. done.
Qed.

(** *** Reset and creation *)

Definition fresh_ring (q : Queue_t) : Queue_t :=
  set_locks queueUNLOCKED queueUNLOCKED (set_pcReadFrom (pcHead q + (uxLength q - 1) * uxItemSize q)
    (set_pcWriteTo (pcHead q) (set_messages 0 (set_pcTail (pcHead q + uxLength q * uxItemSize q) q)))).
Lemma ring_fresh k h q q' : queues k !! h = Some q' -> same_ring (fresh_ring q) q' ->
  0 < uxLength q < 4294967296 -> 0 < uxItemSize q ->
  mapped (kmem k) (pcHead q) (uxLength q * uxItemSize q) -> ring k h q' (uxLength q - 1) [].
Proof.
  intros Hq' (E1 & E2 & E3 & E4 & E5 & E6 & E7) HL Hsz Hm. cbn in *.
  constructor; rewrite ?E1, ?E2, ?E3, ?E4, ?E5, ?E6, ?E7; cbn [length]; try done; try lia.
  replace (uxLength q - 1 + 1 + Z.of_nat 0) with (uxLength q) by lia. rewrite Z.mod_same by lia. lia.
Qed.
Lemma size_check L sz : 0 < L -> L * sz <= SIZE_MAX -> (1 <=? L) && (sz <=? SIZE_MAX / L) = true.
Proof.
  intros HL Hs. apply andb_true_iff. split; [apply Z.leb_le; lia|]. apply Z.leb_le, Z.div_le_lower_bound; lia.
Qed.

Lemma xQueueGenericReset_run h k hd L sz lk items :
  holds k h hd L sz lk items -> h <> 0 -> L * sz <= SIZE_MAX ->
  wp (xQueueGenericReset h false) k (fun y k' => y = pdPASS /\ holds k' h hd L sz unlocked [] /\ kmem k' = kmem k).
Proof.
  intros (q & r & R & Ht & <- & <- & <- & _) Hh Hs. unfold xQueueGenericReset.
  apply wp_bind, wp_assert; [by destruct (Z.eqb_spec h 0)|]. apply wp_bind. eapply wp_use; [apply rdq_run, R|].
  rewrite size_check by (destruct (r_len _ _ _ _ _ R); lia). apply wp_bind, wp_bind. eapply wp_use; [apply wrq_run, R|].
  fold (fresh_ring q). match goal with |- wp _ ?s _ => set (k1 := s) end.
  assert (Hk1 : queues k1 !! h = Some (fresh_ring q)) by apply lookup_insert_eq.
  assert (Ht1 : tasks_ok (fresh_ring q)) by (intros d; destruct d; [apply (Ht ToSend)|apply (Ht ToReceive)]).
  assert (R1 : ring k1 h (fresh_ring q) (uxLength q - 1) []) by (apply (ring_fresh k1 h q); by destruct R).
  cbn [negb]. apply wp_bind. eapply wp_mono; [by apply (wake_run k1 h (fresh_ring q) ToSend)|]. intros _ k2 (q2 & W). wps.
  split; [done|]. split; [exact (woken_holds _ _ _ _ _ _ _ _ _ W R1 Ht1)|by destruct W].
Qed.

(** A new queue is empty, behind its header in the block that the heap returned. *)
Lemma xQueueGenericCreate_run junk L sz k h a :
  0 < L -> 0 < sz -> L * sz <= SIZE_MAX - SIZEOF_QUEUE -> pvPortMalloc (SIZEOF_QUEUE + L * sz) (kern k) = (h, a) ->
  (h <> 0 -> mapped (kmem k) (h + SIZEOF_QUEUE) (L * sz)) ->
  wp (xQueueGenericCreate junk L sz) k (fun y k' => y = h /\ kmem k' = kmem k /\
    if h =? 0 then k' = set_kern a k else holds k' h (h + SIZEOF_QUEUE) L sz unlocked []).
Proof.
  intros HL Hsz Hs Ha Hm. unfold SIZE_MAX, SIZEOF_QUEUE in Hs. unfold xQueueGenericCreate.
  assert (Hc : (0 <? L) && (sz <=? SIZE_MAX / L) && (L * sz <=? SIZE_MAX - SIZEOF_QUEUE) = true).
  { apply andb_true_iff. split; [apply andb_true_iff; split; [by apply Z.ltb_lt|]|apply Z.leb_le; unfold SIZE_MAX, SIZEOF_QUEUE; lia].
    apply Z.leb_le, Z.div_le_lower_bound; unfold SIZE_MAX; lia. }
  rewrite Hc. apply wp_bind. eapply wp_use; [unfold call; mred; rewrite Ha; reflexivity|].
  destruct (Z.eqb_spec h 0) as [->|Hh]; cbn [negb]; [by wps|].
  apply wp_bind. eapply wp_use; [reflexivity|]. cbn [set_kern queues].
  apply wp_bind. unfold prvInitialiseNewQueue.
  apply wp_bind. eapply wp_use; [apply wrq_run; cbn; apply lookup_insert_eq|].
  apply wp_bind. eapply wp_use; [apply wrq_run; cbn; apply lookup_insert_eq|].
  destruct (Z.eqb_spec sz 0) as [|_]; [lia|].
  match goal with |- context [mkQueue ?a ?b ?c ?d ?e ?f ?g ?l ?z ?rx ?tx] => set (q := mkQueue a b c d e f g l z rx tx) end.
  unfold xQueueGenericReset. apply wp_bind, wp_bind, wp_assert; [by destruct (Z.eqb_spec h 0)|].
  apply wp_bind. eapply wp_use; [apply rdq_run; cbn; apply lookup_insert_eq|].
  rewrite size_check by (cbn; unfold SIZE_MAX; lia). apply wp_bind, wp_bind.
  eapply wp_use; [apply wrq_run; cbn; apply lookup_insert_eq|]. cbn [negb].
  apply wp_bind. eapply wp_use; [apply wrq_run; cbn; apply lookup_insert_eq|]. wps.
  split; [done|]. split; [done|]. fold (fresh_ring q). exists (set_waiting [] [] (fresh_ring q)), (L - 1).
  split; [|by repeat split; intros []].
  apply (ring_fresh _ h q); cbn; try done; [apply lookup_insert_eq|lia|by apply Hm].
Qed.

(** ** A client of a queue *)

(** What a client does, from a task or from an interrupt; a task does not wait. *)
Inductive qop :=
  | Put (irq : bool) (pos : Z) (x : list Z)
  | Get (irq : bool)
  | Look (irq : bool)
  | Count
  | Reset.

Definition put_bytes (a : Z) (bs : list Z) : M K unit :=
  k ← get; m ← of_option (store_bytes (kmem k) a bs); put (set_kmem m k).
Definition answer (buf sz r : Z) : M K (Z * list Z) :=
  if r =? pdPASS then k ← get; x ← of_option (load_bytes (kmem k) buf (Z.to_nat sz)); mret (r, x)
  else mret (r, []).
(** Items pass through a buffer at [buf]. *)
Definition do_op (h buf sz : Z) (op : qop) : M K (Z * list Z) :=
  match op with
  | Put irq pos x =>
      put_bytes buf x;;
      r ← (if irq then y ← xQueueGenericSendFromISR h buf pos; mret y.1
           else xQueueGenericSend others isr rounds h buf 0 pos);
      mret (r, [])
  | Get irq =>
      r ← (if irq then y ← xQueueReceiveFromISR h buf; mret y.1 else xQueueReceive others isr rounds h buf 0);
      answer buf sz r
  | Look irq =>
      r ← (if irq then xQueuePeekFromISR h buf else xQueuePeek others isr rounds h buf 0);
      answer buf sz r
  | Count => r ← uxQueueMessagesWaiting h; mret (r, [])
  | Reset => r ← xQueueGenericReset h false; mret (r, [])
  end.
Fixpoint run_ops (h buf sz : Z) (ops : list qop) : M K (list (Z * list Z)) :=
  match ops with
  | [] => mret []
  | op :: ops => y ← do_op h buf sz op; ys ← run_ops h buf sz ops; mret (y :: ys)
  end.

(** The same on a list of at most [L] items. *)
Definition fifo_op (L : Z) (op : qop) (items : list (list Z)) : (Z * list Z) * list (list Z) :=
  match op with
  | Put _ pos x => if has_room pos L items then ((pdPASS, []), put_item pos x items) else ((errQUEUE_FULL, []), items)
  | Get _ => match items with [] => ((errQUEUE_EMPTY, []), []) | x :: rest => ((pdPASS, x), rest) end
  | Look _ => match items with [] => ((errQUEUE_EMPTY, []), []) | x :: _ => ((pdPASS, x), items) end
  | Count => ((Z.of_nat (length items), []), items)
  | Reset => ((pdPASS, []), [])
  end.
Fixpoint fifo_ops (L : Z) (ops : list qop) (items : list (list Z)) : list (Z * list Z) * list (list Z) :=
  match ops with
  | [] => ([], items)
  | op :: ops =>
      let '(y, items) := fifo_op L op items in
      let '(ys, items) := fifo_ops L ops items in (y :: ys, items)
  end.
Definition op_ok (L sz : Z) (op : qop) : Prop :=
  match op with Put _ pos x => position_ok pos L /\ Z.of_nat (length x) = sz | _ => True end.

Lemma holds_writes k k' h hd L sz lk items a n :
  holds k h hd L sz lk items -> queues k' = queues k -> (forall y, y < a \/ a + n <= y -> kmem k' !! y = kmem k !! y) ->
  a + n <= hd \/ hd + L * sz <= a -> holds k' h hd L sz lk items.
Proof.
  intros (q & r & R & Ht & <- & <- & <- & <-) Hq Hw Hap. exists q, r. split; [|by repeat split].
  eapply ring_frame; [exact R|rewrite Hq; apply R|by repeat split|]. intros y Hy. apply Hw. unfold beside in Hy. lia.
Qed.
Lemma buffer_writes k k' buf hd L sz a n : buffer_ok k buf hd L sz -> writes k k' a n ->
  (a = buf /\ n = sz /\ is_Some (load_bytes (kmem k') buf (Z.to_nat sz))) \/ (a = hd /\ n = L * sz) ->
  0 <= sz -> buffer_ok k' buf hd L sz.
Proof.
  intros (Hb & Hm & Hap) Hw Hc Hsz. split; [done|]. split; [|done]. destruct Hc as [(-> & -> & [x Hx])|[-> ->]].
  - apply load_is_mapped in Hx. by rewrite Z2Nat.id in Hx.
  - intros y Hy. rewrite Hw by lia. by apply Hm.
Qed.

Lemma put_bytes_run k h hd L sz lk items buf x :
  holds k h hd L sz lk items -> buffer_ok k buf hd L sz -> Z.of_nat (length x) = sz ->
  wp (put_bytes buf x) k (fun _ k' => holds k' h hd L sz lk items /\ buffer_ok k' buf hd L sz /\
    kern k' = kern k /\ load_bytes (kmem k') buf (Z.to_nat sz) = Some x).
Proof.
  intros Hk Hbuf Hx. pose proof Hbuf as (Hb & Hm & Hap). destruct (store_bytes_mapped (kmem k) buf x) as (m' & Hs & _); [by rewrite Hx|].
  assert (Hl : load_bytes m' buf (Z.to_nat sz) = Some x) by (rewrite <- Hx, Nat2Z.id; by eapply store_load).
  unfold put_bytes. wps. split.
  - eapply (holds_writes _ _ _ _ _ _ _ _ buf sz); [exact Hk|done| |done]. intros y Hy. cbn. eapply store_bytes_frame; [exact Hs|]. lia.
  - split; [|done]. split; [done|]. split; [|done]. apply load_is_mapped in Hl. rewrite Z2Nat.id in Hl by lia. exact Hl.
Qed.

Lemma answer_run keep (m : M K Z) k h hd L sz items buf :
  wp m k (read_post keep h buf hd L sz unlocked items k) -> holds k h hd L sz unlocked items -> buffer_ok k buf hd L sz -> 0 <= sz ->
  wp (r ← m; answer buf sz r) k (fun y k' =>
    y = match items with [] => (errQUEUE_EMPTY, []) | x :: _ => (pdPASS, x) end /\
    holds k' h hd L sz unlocked (if keep then items else tail items) /\ buffer_ok k' buf hd L sz).
Proof.
  intros Hm Hk Hbuf Hsz. apply wp_bind. eapply wp_mono; [exact Hm|]. intros r k' [Hw Hr]. unfold answer.
  destruct items as [|x items].
  - destruct Hr as [-> ->]. cbn. wps. by destruct keep.
  - destruct Hr as (-> & Hk' & Hl). cbn. wps. split; [done|]. split; [by destruct keep|].
    eapply buffer_writes; [exact Hbuf|exact Hw|left|done]. by eauto.
Qed.

Lemma put_run irq pos x k h hd L sz items buf :
  holds k h hd L sz unlocked items -> buffer_ok k buf hd L sz -> h <> 0 -> 0 <= sz -> op_ok L sz (Put irq pos x) ->
  wp (do_op h buf sz (Put irq pos x)) k (fun y k' => y = (fifo_op L (Put irq pos x) items).1 /\
    holds k' h hd L sz unlocked (fifo_op L (Put irq pos x) items).2 /\ buffer_ok k' buf hd L sz).
Proof.
  intros Hk Hbuf Hh Hsz [Hpos Hx]. pose proof Hbuf as (Hb & _). cbn [do_op fifo_op].
  apply wp_bind. eapply wp_mono; [by apply (put_bytes_run k h hd L sz unlocked items)|].
  intros _ k1 (Hk1 & Hb1 & _ & Hl). apply wp_bind.
  assert (Hend : forall r k', (let room := has_room pos L items in
    r = (if room then pdPASS else errQUEUE_FULL) /\
    holds k' h hd L sz unlocked (if room then put_item pos x items else items) /\ writes k1 k' hd (L * sz)) ->
    wp (mret (r, []) : M K (Z * list Z)) k' (fun y k' =>
      y = (if has_room pos L items then (pdPASS, [], put_item pos x items) else (errQUEUE_FULL, [], items)).1 /\
      holds k' h hd L sz unlocked (if has_room pos L items then (pdPASS, @nil Z, put_item pos x items) else (errQUEUE_FULL, [], items)).2 /\
      buffer_ok k' buf hd L sz)).
  { cbv zeta. intros r k' (-> & H2 & H3). wps. split; [by destruct (has_room pos L items)|].
    split; [by destruct (has_room pos L items)|]. eapply buffer_writes; [exact Hb1|exact H3|by right|done]. }
  destruct irq; [apply wp_bind|]; (eapply wp_mono; [by eapply xQueueGenericSendFromISR_run || by eapply xQueueGenericSend_now|]);
    intros y k' Hy; wps; by apply Hend.
Qed.

Lemma do_op_run k h hd L sz items buf op :
  holds k h hd L sz unlocked items -> buffer_ok k buf hd L sz -> h <> 0 -> L * sz <= SIZE_MAX -> op_ok L sz op ->
  wp (do_op h buf sz op) k (fun y k' => y = (fifo_op L op items).1 /\
    holds k' h hd L sz unlocked (fifo_op L op items).2 /\ buffer_ok k' buf hd L sz).
Proof.
  intros Hk Hbuf Hh Hs Hop. assert (Hsz : 0 <= sz) by (destruct Hk as (q & r & R & _ & _ & _ & <- & _); destruct R; lia).
  destruct op as [irq pos x|irq|irq| |]; [by apply put_run|..]; cbn [do_op].
  - eapply wp_mono; [apply (answer_run false _ k h hd L sz items); try done|].
    + destruct irq; [|by apply xQueueReceive_now]. apply wp_bind.
      eapply wp_mono; [by apply xQueueReceiveFromISR_run|]. intros y k' Hr. by wps.
    + intros y k'. cbn [fifo_op]. by destruct items.
  - eapply wp_mono; [apply (answer_run true _ k h hd L sz items); try done|].
    + destruct irq; [by apply xQueuePeekFromISR_run|by apply xQueuePeek_now].
    + intros y k'. cbn [fifo_op]. by destruct items.
  - pose proof Hk as (q & r & R & _). apply wp_bind. unfold uxQueueMessagesWaiting.
    apply wp_bind, wp_assert; [by destruct (Z.eqb_spec h 0)|]. apply wp_bind. eapply wp_use; [apply rdq_run, R|]. wps.
    rewrite (r_count _ _ _ _ _ R). by split.
  - apply wp_bind. eapply wp_mono; [by eapply xQueueGenericReset_run|]. intros y k' (-> & Hk' & Hm). wps.
    split; [done|]. split; [done|]. eapply buffer_writes; [exact Hbuf|by apply writes_none|by right|done].
Qed.

Lemma run_ops_run ops : forall k h hd L sz items buf,
  holds k h hd L sz unlocked items -> buffer_ok k buf hd L sz -> h <> 0 -> L * sz <= SIZE_MAX -> Forall (op_ok L sz) ops ->
  wp (run_ops h buf sz ops) k (fun ys k' => ys = (fifo_ops L ops items).1 /\
    holds k' h hd L sz unlocked (fifo_ops L ops items).2 /\ buffer_ok k' buf hd L sz).
Proof.
  induction ops as [|op ops IH]; intros k h hd L sz items buf Hk Hbuf Hh Hs Hops; cbn [run_ops fifo_ops]; [by wps|].
  apply Forall_cons in Hops as [Hop Hops]. apply wp_bind. eapply wp_mono; [by eapply do_op_run|].
  intros y k1 (-> & Hk1 & Hb1). destruct (fifo_op L op items) as [y its]. cbn [fst snd] in *.
  apply wp_bind. eapply wp_mono; [by eapply IH|]. intros ys k2 (-> & Hk2 & Hb2). wps.
  destruct (fifo_ops L ops its) as [ys its2]. by split.
Qed.
End Single.

(** ** Unlocking *)

Definition ready_all (l : list event) (a : A) : A :=
  foldl (fun a e => let '(urgent, a) := make_ready e.2 a in if (urgent : bool) then vTaskMissedYield a else a) a l.

Lemma unlock_side_run todo h d : forall k q, queues k !! h = Some q -> tasks_ok q ->
  wp (unlock_side todo h d) k (fun _ k' => exists q', woken k k' h q q' d (min todo (length (waiting d q))) /\
    kern k' = ready_all (take todo (waiting d q)) (kern k)).
Proof.
  induction todo as [|todo IH]; intros k q Hq Hok; cbn [unlock_side].
  { wps. exists q. split; [by apply woken_refl|]. by rewrite take_0. }
  apply wp_bind. eapply wp_use; [by apply rdq_run|].
  destruct (waiting d q) as [|e l] eqn:E; cbn [listLIST_IS_EMPTY negb].
  { wps. exists q. split; [by apply woken_refl|done]. }
  apply wp_bind. eapply wp_mono; [apply (remove_event_run k h q d Hq Hok); by rewrite E|].
  intros u k1 (q1 & task & W & Hd & Hk). rewrite E in Hd. injection Hd as <-.
  pose proof (woken_ok _ _ _ _ _ _ _ W Hok) as Hok1. pose proof (w_here _ _ _ _ _ _ _ W) as Hq1.
  assert (El : waiting d q1 = l) by (rewrite (w_lists _ _ _ _ _ _ _ W), decide_True, E by done; done).
  apply wp_bind. set (a1 := if u then vTaskMissedYield (kern k1) else kern k1).
  assert (Hu : (if u then tell vTaskMissedYield else mret tt) k1 = Done (tt, set_kern a1 k1)) by (destruct u; [done|by destruct k1]).
  eapply wp_use; [exact Hu|]. assert (W1 : woken k (set_kern a1 k1) h q q1 d 1) by (by destruct W).
  eapply wp_mono; [by apply (IH (set_kern a1 k1) q1)|]. intros _ k2 (q2 & W2 & Hk2). exists q2. rewrite El in W2, Hk2. split.
  - exact (woken_step _ _ _ _ _ _ _ _ _ _ W1 W2).
  - rewrite Hk2. cbn [take ready_all foldl set_kern kern]. by rewrite <- Hk.
Qed.

(** The queue with locks [rx] and [tx], [n] receivers and [m] senders fewer. *)
Record unlocked_from (k k' : K) (h : Z) (q q' : Queue_t) (n m : nat) : Prop := {
  u_here : queues k' !! h = Some q';
  u_ring : same_ring q q';
  u_locks : cRxLock q' = queueUNLOCKED /\ cTxLock q' = queueUNLOCKED;
  u_receivers : waiting ToReceive q' = drop n (waiting ToReceive q);
  u_senders : waiting ToSend q' = drop m (waiting ToSend q);
  u_others : forall g, g <> h -> queues k' !! g = queues k !! g;
  u_memory : kmem k' = kmem k;
  u_kern : kern k' = ready_all (take m (waiting ToSend q)) (ready_all (take n (waiting ToReceive q)) (kern k))
}.

Lemma prvUnlockQueue_run h k q : queues k !! h = Some q -> tasks_ok q ->
  wp (prvUnlockQueue h) k (fun _ k' => exists q', unlocked_from k k' h q q' (Z.to_nat (cTxLock q)) (Z.to_nat (cRxLock q))).
Proof.
  intros Hq Hok. unfold prvUnlockQueue. apply wp_bind. eapply wp_use; [by apply rdq_run|].
  apply wp_bind. eapply wp_mono; [by apply unlock_side_run|]. intros _ k1 (q1 & W1 & Hk1).
  pose proof (woken_ok _ _ _ _ _ _ _ W1 Hok) as Hok1. destruct W1 as [A1 A2 [A3 A3'] A4 A5 A6 A7].
  apply wp_bind. eapply wp_use; [by apply wrq_run|]. cbv beta. set (q2 := set_locks (cRxLock q1) queueUNLOCKED q1).
  apply wp_bind. eapply wp_use; [apply rdq_run, lookup_insert_eq|].
  apply wp_bind. eapply wp_mono; [apply (unlock_side_run _ _ _ _ q2); [apply lookup_insert_eq|intros d; destruct d; [apply (Hok1 ToSend)|apply (Hok1 ToReceive)]]|].
  intros _ k3 (q3 & W3 & Hk3). destruct W3 as [B1 B2 [B3 B3'] B4 B5 B6 B7].
  eapply wp_use; [by apply wrq_run|]. exists (set_locks queueUNLOCKED (cTxLock q3) q3).
  pose proof (A4 ToReceive) as R1. pose proof (A4 ToSend) as S1. pose proof (B4 ToReceive) as R3. pose proof (B4 ToSend) as S3.
  cbn in R1, S1, R3, S3, Hk3, B3, B3'. constructor; cbn.
  - apply lookup_insert_eq.
  - unfold same_ring in *. cbn in *. intuition congruence.
  - done.
  - rewrite R3, R1. apply drop_min.
  - rewrite S3, S1, A3. apply drop_min.
  - intros g N. rewrite lookup_insert_ne by done. rewrite B5 by done. cbn. by rewrite lookup_insert_ne, A5.
  - by rewrite B6.
  - by rewrite Hk3, S1, A3, Hk1.
Qed.

(** *** Properties *)

(** C26: a queue is a bounded list.  Whatever sequence of sends to the back or
    to the front, overwrites, receives, peeks, counts and resets a client does on
    a new queue, from tasks that do not wait and from interrupts in any order, the
    results and the items are those of a list of at most [L] items: nothing is
    lost, doubled or reordered while the storage wraps around, a full queue
    refuses and an empty one has nothing. *)
Theorem queue_refines_bounded_list others isr rounds junk L sz k h a buf ops :
  0 < L -> 0 < sz -> L * sz <= SIZE_MAX - SIZEOF_QUEUE -> h <> 0 ->
  pvPortMalloc (SIZEOF_QUEUE + L * sz) (kern k) = (h, a) -> mapped (kmem k) (h + SIZEOF_QUEUE) (L * sz) ->
  buffer_ok k buf (h + SIZEOF_QUEUE) L sz -> Forall (op_ok L sz) ops ->
  wp (h' ← xQueueGenericCreate junk L sz; run_ops others isr rounds h' buf sz ops) k (fun ys k' =>
    ys = (fifo_ops L ops []).1 /\ holds k' h (h + SIZEOF_QUEUE) L sz unlocked (fifo_ops L ops []).2).
Proof.
  intros HL Hsz Hs Hh Ha Hm Hb Hops. apply wp_bind.
  eapply wp_mono; [by apply (xQueueGenericCreate_run junk L sz k h a)|]. intros y k1 (-> & Em & Hk1).
  destruct (Z.eqb_spec h 0) as [|_]; [done|].
  assert (Hs1 : L * sz <= SIZE_MAX) by (unfold SIZE_MAX, SIZEOF_QUEUE in *; lia).
  assert (Hb1 : buffer_ok k1 buf (h + SIZEOF_QUEUE) L sz) by (unfold buffer_ok in *; by rewrite Em).
  eapply wp_mono; [exact (run_ops_run others isr rounds ops k1 h _ L sz [] buf Hk1 Hb1 Hh Hs1 Hops)|].
  intros ys k' (H1 & H2 & _). by split.
Qed.

(** No wake-up is lost to a locked queue.  [prvUnlockQueue] makes ready, in
    the order of the event list, as many receivers as items came and as many
    senders as items went while the queue was locked, or all that wait; it leaves
    the queue unlocked and its items as they are. *)
Theorem prvUnlockQueue_wakes h k q : queues k !! h = Some q -> tasks_ok q ->
  let n := Z.to_nat (cTxLock q) in let m := Z.to_nat (cRxLock q) in
  exists k' q', prvUnlockQueue h k = Done (tt, k') /\ queues k' !! h = Some q' /\ same_ring q q' /\ kmem k' = kmem k /\
    cRxLock q' = queueUNLOCKED /\ cTxLock q' = queueUNLOCKED /\
    xTasksWaitingToReceive q' = drop n (xTasksWaitingToReceive q) /\ xTasksWaitingToSend q' = drop m (xTasksWaitingToSend q) /\
    kern k' = ready_all (take m (xTasksWaitingToSend q)) (ready_all (take n (xTasksWaitingToReceive q)) (kern k)).
Proof.
  intros Hq Ht. destruct (proj1 (wp_done _ _ _) (prvUnlockQueue_run h k q Hq Ht)) as ([] & k' & Hrun & q' & [U1 U2 [U3 U3'] U4 U5 U6 U7 U8]).
  by exists k', q'.
Qed.
End Queue.

(** ** The properties on a small kernel *)

(** A kernel whose heap has one block and whose state is the time. *)
Definition demo_kernel : Kernel nat := {|
  pvPortMalloc n a := (1000, a); vPortFree p a := a; xTaskGetCurrentTaskHandle a := 7; scheduler_suspended a := false;
  vTaskSuspendAll a := a; xTaskResumeAll a := (true, a); portYIELD_WITHIN_API a := a; vTaskMissedYield a := a;
  make_ready t a := (false, a); event_value a := 10; prvAddCurrentTaskToDelayedList n b a := a;
  pvTaskIncrementMutexHeldCount a := (7, a); xTaskPriorityInherit t a := (false, a);
  xTaskPriorityDisinherit t a := (false, a); vTaskPriorityDisinheritAfterTimeout t p a := a;
  xTickCount a := Z.of_nat a mod 4294967296; xNumOfOverflows a := Z.of_nat a / 4294967296;
  ucDelayAborted a := false; clear_ucDelayAborted a := a |}.

Section Witnesses.
#[local] Existing Instance demo_kernel.

Definition demo_mem : mem := map_block (map_block ∅ 1072 8) 2000 4.
Definition demo_kst : kst nat := mkKst ∅ demo_mem 0%nat [].
Definition no_queue : Queue_t := mkQueue 0 0 0 0 [] [] 0 0 0 0 0.
Definition demo_ops : list qop :=
  [Put false 0 [1; 2; 3; 4]; Put true 0 [5; 6; 7; 8]; Put false 0 [9; 9; 9; 9]; Get false; Put false 1 [0; 0; 0; 1]; Count; Get true; Get false; Look true].

Lemma queue_refines_bounded_list_witness :
  wp (h ← xQueueGenericCreate no_queue 2 4; run_ops (fun k => k) (fun k => k) 0 h 2000 4 demo_ops) demo_kst (fun ys _ =>
    ys = [(1, []); (1, []); (0, []); (1, [1; 2; 3; 4]); (1, []); (2, []); (1, [0; 0; 0; 1]); (1, [5; 6; 7; 8]); (0, [])]).
Proof.
  eapply wp_mono; [apply (queue_refines_bounded_list (fun k => k) (fun k => k) 0 no_queue 2 4 demo_kst 1000 0%nat 2000 demo_ops)|].
  - lia.
  - lia.
  - by vm_compute.
  - done.
  - reflexivity.
  - apply (map_block_under _ 2000 4 1072 8), (map_block_mapped ∅ 1072 8 1072 8); lia.
  - split; [done|]. split; [apply (map_block_mapped (map_block ∅ 1072 8) 2000 4 2000 4); lia|right; by vm_compute].
  - repeat (constructor; [by (split; [unfold position_ok, queueSEND_TO_BACK, queueSEND_TO_FRONT; lia|done]) || done|]). constructor.
  - intros ys k' (-> & _). vm_compute. reflexivity.
Defined.

(** A queue to which an interrupt has posted an item while it was locked. *)
Definition locked_queue : Queue_t := mkQueue 1072 1076 1080 1076 [] [(10, 5); (12, 6)] 1 2 4 0 1.
Lemma prvUnlockQueue_wakes_witness : exists k' q',
  prvUnlockQueue 1000 (set_queues {[1000 := locked_queue]} demo_kst) = Done (tt, k') /\ queues k' !! 1000 = Some q' /\
  xTasksWaitingToReceive q' = [(12, 6)].
Proof.
  destruct (prvUnlockQueue_wakes 1000 (set_queues {[1000 := locked_queue]} demo_kst) locked_queue) as (k' & q' & H1 & H2 & _ & _ & _ & _ & H3 & _).
  - reflexivity.
  - intros []; repeat (constructor; [done|]); constructor.
  - exists k', q'. done.
Defined.
End Witnesses.
