(* ===== verification/QueueWait.v ===== *)
(** Waiting on a queue of FreeRTOS/queue.c: time-outs over the wrapping tick
    counter, what a call that waits returns and when, and recursive mutexes. *)
From S2P Require Import Prelude CMem Queue.

(** The tick counter and the count of its overflows are the digits of a time that
    does not wrap.  Time passes while other tasks and interrupts run and when the
    scheduler is resumed, less than [slack] ticks at once. *)
Definition slack : Z := 268435456.
Class Clock (A : Type) `{Kernel A} := {
  now : A -> Z;
  now_pos a : 0 <= now a;
  now_count a : xTickCount a = now a mod 4294967296;
  now_overflows a : xNumOfOverflows a = now a / 4294967296;
  now_suspend a : now (vTaskSuspendAll a) = now a;
  now_ready t a : now (make_ready t a).2 = now a;
  now_missed a : now (vTaskMissedYield a) = now a;
  now_delay n b a : now (prvAddCurrentTaskToDelayedList n b a) = now a;
  now_resume a : now a <= now (xTaskResumeAll a).2 <= now a + slack;
  now_yield a : now a <= now (portYIELD_WITHIN_API a) <= now a + slack
}.

(** The reference time a [TimeOut_t] stands for. *)
Definition taken_at (T : Z) (t : TimeOut_t) : Prop :=
  0 <= T /\ xTimeOnEntering t = T mod 4294967296 /\ xOverflowCount t = T / 4294967296.

Lemma elapsed_eq T0 T : 0 <= T0 <= T -> T - T0 < 4294967296 ->
  u32 (T mod 4294967296 - T0 mod 4294967296) = T - T0.
Proof. intros H1 H2. unfold u32. rewrite <- Zminus_mod. apply Z.mod_small. lia. Qed.
Lemma overflow_no T0 T : 0 <= T0 <= T -> T - T0 < 4294967296 ->
  negb (T / 4294967296 =? T0 / 4294967296) && (T0 mod 4294967296 <=? T mod 4294967296) = false.
Proof.
  intros H1 H2. apply andb_false_iff. destruct (Z.eqb_spec (T / 4294967296) (T0 / 4294967296)) as [E|N]; [by left|right].
  apply Z.leb_gt. Z.div_mod_to_equations. lia.
Qed.
Lemma overflow_yes T0 T : 0 <= T0 -> T - T0 = 4294967296 ->
  negb (T / 4294967296 =? T0 / 4294967296) && (T0 mod 4294967296 <=? T mod 4294967296) = true.
Proof.
  intros H1 H2. apply andb_true_iff. split.
  - destruct (Z.eqb_spec (T / 4294967296) (T0 / 4294967296)); [|done]. Z.div_mod_to_equations. lia.
  - apply Z.leb_le. Z.div_mod_to_equations. lia.
Qed.

Section Wait.
Context {A : Type} `{Clock A}.
Abbreviation K := (kst A).

Lemma set_timeout_run k : vTaskInternalSetTimeOutState k = Done (mkTimeOut (xNumOfOverflows (kern k)) (xTickCount (kern k)), k).
Proof. done. Qed.
Lemma taken_now (k : K) : taken_at (now (kern k)) (mkTimeOut (xNumOfOverflows (kern k)) (xTickCount (kern k))).
Proof. split; [apply now_pos|]. cbn. by rewrite now_count, now_overflows. Qed.

(** Up to 2^32 ticks after the reference time the check is exact, across the
    overflow of the counter. *)
Lemma xTaskCheckForTimeOut_run k t T0 ticks : taken_at T0 t -> ucDelayAborted (kern k) = false ->
  0 <= ticks < portMAX_DELAY -> T0 <= now (kern k) <= T0 + 4294967296 ->
  let T := now (kern k) in
  exists t', xTaskCheckForTimeOut t ticks k =
    Done ((ticks <=? T - T0, if ticks <=? T - T0 then 0 else ticks - (T - T0), t'), k) /\
    if ticks <=? T - T0 then t' = t else taken_at T t'.
Proof.
  intros (HT0 & E1 & E2) Hab Ht HT. cbv zeta. unfold portMAX_DELAY in Ht. unfold xTaskCheckForTimeOut, ask, gets.
  unfold mbind, M_bind, mret, M_ret. rewrite Hab. destruct (Z.eqb_spec ticks portMAX_DELAY) as [|_]; [unfold portMAX_DELAY in *; lia|].
  rewrite now_overflows, now_count, E1, E2. destruct (decide (now (kern k) - T0 = 4294967296)) as [E|N].
  - rewrite overflow_yes by lia. destruct (Z.leb_spec ticks (now (kern k) - T0)); [|lia]. by exists t.
  - rewrite overflow_no, elapsed_eq by lia. destruct (Z.ltb_spec (now (kern k) - T0) ticks); destruct (Z.leb_spec ticks (now (kern k) - T0)); try lia.
    + rewrite set_timeout_run. eexists. rewrite u32_small by (unfold is_u32; lia). split; [done|]. apply taken_now.
    + by exists t.
Qed.

(** ** One turn of waiting *)

Section Turn.
Context (others isr : K -> K) (rounds : nat) (h hd L sz buf : Z).

(** The queue is in order, with some items, and the buffer of the caller is there. *)
Definition in_order (k : K) : Prop :=
  exists lk items, holds k h hd L sz lk items /\ buffer_ok k buf hd L sz.

(** Other tasks and interrupts leave the queue in order.  Each time other tasks
    run a tick passes; neither takes long.  Nobody aborts the wait. *)
Record Environment : Prop := {
  others_ok k : in_order k -> in_order (others k);
  others_time k : now (kern k) + 1 <= now (kern (others k)) <= now (kern k) + slack;
  isr_ok k : in_order k -> in_order (isr k);
  isr_time k : now (kern k) <= now (kern (isr k)) <= now (kern k) + slack;
  not_aborted (a : A) : ucDelayAborted a = false;
  current_task (a : A) : xTaskGetCurrentTaskHandle a <> 0
}.
Context (Env : Environment).

(** A computation that leaves the queue in order while between [lo] and [hi] ticks pass. *)
Definition yields {X} (Q : X -> Prop) (lo hi : Z) (m : M K X) : Prop := forall k, in_order k ->
  wp m k (fun x k' => Q x /\ in_order k' /\ now (kern k) + lo <= now (kern k') <= now (kern k) + hi).
Abbreviation moves := (yields (fun _ => True)).

Lemma moves_bind {X Y} (Q : Y -> Prop) lo1 hi1 lo2 hi2 (m : M K X) (f : X -> M K Y) :
  moves lo1 hi1 m -> (forall x, yields Q lo2 hi2 (f x)) -> yields Q (lo1 + lo2) (hi1 + hi2) (m ≫= f).
Proof.
  intros H1 H2 k Hk. apply wp_bind. eapply wp_mono; [by apply H1|]. intros x k1 (_ & Hk1 & Hb1).
  eapply wp_mono; [by apply H2|]. intros y k2 (Hy & Hk2 & Hb2). split; [done|]. split; [done|lia].
Qed.
Lemma moves_ret {X} (Q : X -> Prop) (x : X) : Q x -> yields Q 0 0 (mret x).
Proof. intros Hx k Hk. wps. split; [done|]. split; [done|lia]. Qed.
Lemma yields_weaken {X} (Q : X -> Prop) lo hi hi' (m : M K X) : yields Q lo hi m -> 0 <= lo -> hi <= hi' -> yields Q 0 hi' m.
Proof.
  intros Hm Hlo Hhi k Hk. eapply wp_mono; [by apply Hm|]. intros x k' (Hx & Hk' & Hb). split; [done|]. split; [done|lia].
Qed.

Lemma holds_kern (k k' : K) lk items : queues k' = queues k -> kmem k' = kmem k ->
  holds k h hd L sz lk items -> holds k' h hd L sz lk items.
Proof.
  intros E1 E2 Hk. eapply (holds_writes _ _ _ _ _ _ _ _ hd 0); [exact Hk|done|intros y _; by rewrite E2|].
  destruct Hk as (q & r & R & _ & _ & <- & <- & _). destruct R. nia.
Qed.
Lemma in_order_kern a (k : K) : in_order k -> in_order (set_kern a k).
Proof. intros (lk & items & Hk & Hb). exists lk, items. split; [|done]. by apply (holds_kern k). Qed.

Lemma tell_moves (f : A -> A) lo hi : (forall a, now a + lo <= now (f a) <= now a + hi) -> moves lo hi (tell f).
Proof. intros Hf k Hk. unfold tell. wps. split; [done|]. split; [by apply in_order_kern|]. apply Hf. Qed.
Lemma call_moves {X} (f : A -> X * A) lo hi : (forall a, now a + lo <= now (f a).2 <= now a + hi) -> moves lo hi (call f).
Proof.
  intros Hf k Hk. unfold call. wps. specialize (Hf (kern k)). destruct (f (kern k)) as [x a]. wps.
  split; [done|]. split; [by apply in_order_kern|done].
Qed.

(** A header that differs in its event lists and locks only. *)
Lemma in_order_header (k : K) q q' : in_order k -> queues k !! h = Some q -> same_ring q q' -> tasks_ok q' ->
  in_order (set_queues (<[h := q']> (queues k)) k).
Proof.
  intros (lk & items & (q0 & r & R & Ht & E1 & E2 & E3 & _) & Hb) Hq Hs Hok.
  assert (q0 = q) as -> by (pose proof (r_here _ _ _ _ _ R); congruence).
  exists (cRxLock q', cTxLock q'), items. split; [|exact Hb]. exists q', r.
  split; [eapply ring_frame; [exact R|apply lookup_insert_eq|done|done]|]. split; [done|].
  rewrite <- E1, <- E2, <- E3. by destruct Hs as (-> & _ & _ & _ & -> & -> & _).
Qed.
Lemma in_order_here (k : K) : in_order k -> exists q, queues k !! h = Some q /\ tasks_ok q.
Proof. intros (lk & items & (q & r & R & Ht & _) & _). exists q. split; [apply R|done]. Qed.

Lemma wrq_moves f : (forall q, same_ring q (f q)) -> (forall q, tasks_ok q -> tasks_ok (f q)) -> moves 0 0 (wrq h f).
Proof.
  intros H1 H2 k Hk. destruct (in_order_here k Hk) as (q & Hq & Ht). eapply wp_use; [by apply wrq_run|].
  split; [done|]. split; [by apply (in_order_header k q); auto|cbn; lia].
Qed.

Lemma lock_moves : moves 0 0 (prvLockQueue h).
Proof. apply wrq_moves; [by repeat split|]. intros q Ht d. destruct d; [apply (Ht ToSend)|apply (Ht ToReceive)]. Qed.

Lemma now_ready_all l (a : A) : now (ready_all l a) = now a.
Proof.
  revert a. induction l as [|e l IH]; intros a; [done|]. cbn [ready_all foldl].
  pose proof (now_ready e.2 a) as Hr. destruct (make_ready e.2 a) as [u a1]. cbn in Hr. fold (ready_all l).
  rewrite <- Hr. destruct u; etransitivity; try apply IH; [apply now_missed|done].
Qed.
Lemma unlock_moves : moves 0 0 (prvUnlockQueue h).
Proof.
  intros k Hk. destruct (in_order_here k Hk) as (q & Hq & Ht). eapply wp_mono; [by apply prvUnlockQueue_run|].
  intros _ k' (q' & [U1 U2 U3 U4 U5 U6 U7 U8]). split; [done|]. split; [|rewrite U8, !now_ready_all; lia].
  destruct Hk as (lk & items & (q0 & r & R & _ & E1 & E2 & E3 & _) & Hb1 & Hb2 & Hb3).
  assert (q0 = q) as -> by (pose proof (r_here _ _ _ _ _ R); congruence).
  exists (cRxLock q', cTxLock q'), items. split; [|by split; [|rewrite U7]]. exists q', r.
  split; [eapply ring_frame; [exact R|done|done|by intros; rewrite U7]|]. split.
  - intros d. destruct d; [rewrite U5|rewrite U4]; by apply Forall_drop.
  - rewrite <- E1, <- E2, <- E3. by destruct U2 as (-> & _ & _ & _ & -> & -> & _).
Qed.

Lemma insert_event_ok e l : e.2 <> 0 -> Forall (fun x : event => x.2 <> 0) l -> Forall (fun x : event => x.2 <> 0) (insert_event e l).
Proof. intros He. induction 1 as [|x l Hx Hl IH]; cbn; [by constructor|]. case_match; by repeat constructor. Qed.
Lemma place_moves d n : moves 0 0 (vTaskPlaceOnEventList h d n).
Proof.
  intros k Hk. unfold vTaskPlaceOnEventList, ask. do 2 (apply wp_bind; apply wp_gets). revert k Hk.
  intros k Hk. set (e := (event_value (kern k), xTaskGetCurrentTaskHandle (kern k))).
  refine (moves_bind _ 0 0 0 0 _ _ _ _ k Hk); [|intros _; apply tell_moves; intros a; rewrite now_delay; lia].
  apply wrq_moves.
  - intros q. by destruct d.
  - intros q Ht c. rewrite waiting_set_side. case_decide; [|apply Ht]. apply insert_event_ok; [apply (current_task Env)|apply Ht].
Qed.
Lemma others_moves : moves 1 slack (modify others).
Proof. intros k Hk. wps. split; [done|]. split; [by apply (others_ok Env)|apply (others_time Env)]. Qed.
Lemma isr_moves : moves 0 slack (modify isr).
Proof. intros k Hk. wps. split; [done|]. split; [by apply (isr_ok Env)|]. pose proof (isr_time Env k). lia. Qed.

Lemma empty_run k : in_order k -> exists lk items, holds k h hd L sz lk items /\ buffer_ok k buf hd L sz /\
  prvIsQueueEmpty h k = Done (bool_decide (items = []), k).
Proof.
  intros (lk & items & Hk & Hb). exists lk, items. split; [done|]. split; [done|].
  destruct Hk as (q & r & R & _). unfold prvIsQueueEmpty. erewrite bind_done by (apply rdq_run, R).
  rewrite (r_count _ _ _ _ _ R). mred. by destruct items.
Qed.
Lemma empty_moves : moves 0 0 (prvIsQueueEmpty h).
Proof.
  intros k Hk. destruct (empty_run k Hk) as (lk & items & _ & _ & Hrun). eapply wp_use; [exact Hrun|]. split; [done|]. split; [done|lia].
Qed.

(** What follows the check of the time-out. *)
Lemma turn_end_moves (expired : bool) (ticks : Z) (t : TimeOut_t) :
  yields (fun y : bool * Z * TimeOut_t * bool => y.1 = (expired, ticks, t)) 0 (4 * slack) (if expired then
      prvUnlockQueue h;; call xTaskResumeAll;; modify others;; mret (true, ticks, t, false)
    else
      b ← prvIsQueueEmpty h;
      if (b : bool) then
        modify isr;;
        flag ← nothing false;
        vTaskPlaceOnEventList h ToReceive ticks;;
        prvUnlockQueue h;;
        resumed ← call xTaskResumeAll;
        (if (resumed : bool) then mret tt else tell portYIELD_WITHIN_API);;
        modify others;;
        mret (false, ticks, t, flag)
      else prvUnlockQueue h;; call xTaskResumeAll;; modify others;; mret (false, ticks, t, false)).
Proof.
  set (Q := fun y : bool * Z * TimeOut_t * bool => y.1 = (expired, ticks, t)).
  assert (Hres : moves 0 slack (call xTaskResumeAll)) by (apply call_moves; intros a; pose proof (now_resume a); lia).
  assert (Hend : forall y, Q y -> yields Q 0 (4 * slack) (prvUnlockQueue h;; call xTaskResumeAll;; modify others;; mret y)).
  { intros y Hy. eapply yields_weaken; [refine (moves_bind _ _ _ _ _ _ _ unlock_moves (fun _ => moves_bind _ _ _ _ _ _ _ Hres
      (fun _ => moves_bind _ _ _ _ _ _ _ others_moves (fun _ => moves_ret Q y Hy))))|lia|unfold slack; lia]. }
  destruct expired; [by apply Hend|].
  refine (moves_bind _ 0 0 0 (4 * slack) _ _ empty_moves _). intros [|]; [|by apply Hend].
  assert (Hy : forall r : bool, moves 0 slack (if r then mret tt else tell portYIELD_WITHIN_API)).
  { intros [|]; [|apply tell_moves; intros a; pose proof (now_yield a); lia].
    apply (yields_weaken _ 0 0); [by apply moves_ret|lia|unfold slack; lia]. }
  apply (yields_weaken _ (0 + 0) (slack + 3 * slack)); [refine (moves_bind _ _ _ _ _ _ _ isr_moves (fun _ => _))|lia|].
  - cbn [nothing]. change (yields Q 0 (3 * slack) (vTaskPlaceOnEventList h ToReceive ticks;; prvUnlockQueue h;;
      resumed ← call xTaskResumeAll; (if (resumed : bool) then mret tt else tell portYIELD_WITHIN_API);;
      modify others;; mret (false, ticks, t, false))).
    eapply yields_weaken; [refine (moves_bind _ _ _ _ _ _ _ (place_moves _ _) (fun _ => moves_bind _ _ _ _ _ _ _ unlock_moves (fun _ =>
      moves_bind _ _ _ _ _ _ _ Hres (fun r => moves_bind _ _ _ _ _ _ _ (Hy r) (fun _ => moves_bind _ _ _ _ _ _ _ others_moves
      (fun _ => moves_ret Q (false, ticks, t, false) eq_refl))))))|lia|unfold slack; lia].
  - unfold slack; lia.
Qed.

Lemma wait_turn k t T0 ticks : in_order k -> taken_at T0 t -> T0 <= now (kern k) <= T0 + 4 * slack -> 0 < ticks < portMAX_DELAY ->
  wp (wait_on others isr h ToReceive prvIsQueueEmpty nothing t ticks false) k (fun y k' => in_order k' /\
    exists T, now (kern k) + 1 <= T /\ T <= now (kern k') <= T + 4 * slack /\
      if y.1.1.1 then y.1.1.2 = 0 /\ ticks <= T - T0
      else taken_at T y.1.2 /\ y.1.1.2 = ticks - (T - T0) /\ 0 < y.1.1.2).
Proof.
  intros Hk Ht HT Hticks. unfold wait_on.
  apply wp_bind. eapply wp_mono; [by apply others_moves|]. intros _ k1 (_ & Hk1 & B1).
  apply wp_bind. eapply wp_mono; [apply (tell_moves vTaskSuspendAll 0 0); [intros a; rewrite now_suspend; lia|done]|].
  intros _ k2 (_ & Hk2 & B2). apply wp_bind. eapply wp_mono; [by apply lock_moves|]. intros _ k3 (_ & Hk3 & B3).
  apply wp_bind. eapply wp_mono; [by apply isr_moves|]. intros _ k4 (_ & Hk4 & B4).
  destruct (xTaskCheckForTimeOut_run k4 t T0 ticks Ht (not_aborted Env _)) as (t' & Hrun & Ht');
    [lia|unfold slack in *; lia|]. set (T := now (kern k4)) in *.
  apply wp_bind. eapply wp_use; [exact Hrun|]. cbv beta iota.
  eapply wp_mono; [apply turn_end_moves; exact Hk4|]. intros [[[x n] t2] y] k' (E & Hk' & B5). cbn in E. injection E as -> -> ->.
  split; [done|]. exists T. cbn [fst snd]. split; [lia|]. split; [lia|].
  destruct (Z.leb_spec ticks (T - T0)); [by split|]. split; [done|lia].
Qed.

(** ** Receiving *)

(** [ticks] of the [total] ticks since [start] are left. *)
Definition time_left (k : K) (ticks : Z) (entry : option TimeOut_t) (start total : Z) : Prop :=
  match entry with
  | None => start = now (kern k) /\ ticks = total
  | Some t => (ticks = 0 /\ start + total <= now (kern k)) \/
      exists T0, taken_at T0 t /\ T0 <= now (kern k) <= T0 + 4 * slack /\ start + total = T0 + ticks
  end.
(** The first item, taken out at some moment, or nothing after the time is over. *)
Definition received_or_late (start total : Z) (r : Z) (k' : K) : Prop :=
  (r = pdPASS /\ exists km lk x items, in_order km /\ holds km h hd L sz lk (x :: items) /\
     holds k' h hd L sz lk items /\ load_bytes (kmem k') buf (Z.to_nat sz) = Some x) \/
  (r = errQUEUE_EMPTY /\ start + total <= now (kern k') /\ exists lk, holds k' h hd L sz lk []).

Lemma entry_run k ticks entry start total : time_left k ticks entry start total -> 0 < ticks ->
  exists t T0, entry_time entry k = Done (t, k) /\ taken_at T0 t /\ T0 <= now (kern k) <= T0 + 4 * slack /\
    start + total = T0 + ticks.
Proof.
  intros Ht Hp. destruct entry as [t|]; cbn in Ht.
  - destruct Ht as [[? _]|(T0 & H1 & H2 & H3)]; [lia|]. by exists t, T0.
  - destruct Ht as [-> ->]. eexists _, (now (kern k)). split; [apply set_timeout_run|]. split; [apply taken_now|].
    unfold slack. lia.
Qed.

Lemma receive_loop_run fuel : forall k ticks entry start total,
  in_order k -> 0 <= ticks < portMAX_DELAY -> (Z.to_nat ticks < fuel)%nat -> time_left k ticks entry start total ->
  wp (receive_loop others isr fuel h buf ticks entry) k (received_or_late start total).
Proof.
  induction fuel as [|fuel IH]; intros k ticks entry start total Hk Hticks Hfuel Htime; [lia|].
  pose proof Hk as (lk & items & Hh & Hb). destruct items as [|x items].
  2:{ eapply wp_mono; [by apply (receive_loop_some others isr fuel h buf ticks entry k hd L sz lk items x)|].
      intros r k' (-> & H1 & _ & H2). left. split; [done|]. by exists k, lk, x, items. }
  cbn [receive_loop]. pose proof Hh as (q & r & R & _). apply wp_bind. eapply wp_use; [apply rdq_run, R|].
  rewrite (r_count _ _ _ _ _ R). cbn [length Z.of_nat Z.ltb Z.compare].
  destruct (Z.eqb_spec ticks 0) as [->|N].
  { wps. right. split; [done|]. split; [|by eauto]. destruct entry as [t|]; cbn in Htime; [|lia].
    destruct Htime as [[_ ?]|(T0 & _ & H1 & H2)]; lia. }
  destruct (entry_run _ _ _ _ _ Htime) as (t & T0 & Hrun & Ht & HT0 & Htot); [lia|].
  apply wp_bind. eapply wp_use; [exact Hrun|].
  apply wp_bind. eapply wp_mono; [apply (wait_turn k t T0 ticks Hk Ht HT0); lia|].
  intros [[[expired ticks'] t'] y] k1 (Hk1 & T & HT1 & HT2 & Hres). cbn [fst snd] in Hres. destruct expired.
  - destruct Hres as [-> Hlate]. destruct (empty_run k1 Hk1) as (lk1 & items1 & Hh1 & _ & Hrun1).
    apply wp_bind. eapply wp_use; [exact Hrun1|]. case_bool_decide as E.
    + subst items1. wps. right. split; [done|]. split; [lia|]. by exists lk1.
    + apply wp_bind. eapply wp_mono; [by apply others_moves|]. intros _ k2 (_ & Hk2 & B2).
      apply IH; [done|unfold portMAX_DELAY; lia|lia|]. left. split; [done|lia].
  - destruct Hres as (Ht' & -> & Hp). apply IH; [done|lia|lia|]. right. exists T. split; [done|]. split; lia.
Qed.
End Turn.

(** *** Properties *)

End Wait.

(** ** Recursive mutexes *)

Section Mutex.
Context {A : Type} `{Kernel A}.
Abbreviation K := (kst A).
Context (others isr : K -> K) (rounds : nat).

(** Mutex [h] is free, or held by a task that has taken it so many times. *)
Definition mutex_owner (k : K) (h : Z) (o : option (Z * Z)) : Prop :=
  exists q, queues k !! h = Some q /\ tasks_ok q /\ uxQueueType q = queueQUEUE_IS_MUTEX /\ uxItemSize q = 0 /\ uxLength q = 1 /\
    match o with
    | None => uxMessagesWaiting q = 1 /\ xMutexHolder q = 0 /\ uxRecursiveCallCount q = 0
    | Some (t, c) => uxMessagesWaiting q = 0 /\ xMutexHolder q = t /\ t <> 0 /\ uxRecursiveCallCount q = c /\ 0 < c < 4294967295
    end.

Definition take_spec (me : Z) (o : option (Z * Z)) : Z * option (Z * Z) :=
  match o with
  | None => (pdPASS, Some (me, 1))
  | Some (t, c) => if t =? me then (pdPASS, Some (t, c + 1)) else (pdFAIL, o)
  end.
Definition give_spec (me : Z) (o : option (Z * Z)) : Z * option (Z * Z) :=
  match o with
  | None => (pdFAIL, None)
  | Some (t, c) => if t =? me then (pdPASS, if c =? 1 then None else Some (t, c - 1)) else (pdFAIL, o)
  end.

Lemma woken_mutex k k' h q q' d n o : woken k k' h q q' d n -> tasks_ok q -> uxQueueType q = queueQUEUE_IS_MUTEX ->
  uxItemSize q = 0 -> uxLength q = 1 ->
  match o with
  | None => uxMessagesWaiting q = 1 /\ xMutexHolder q = 0 /\ uxRecursiveCallCount q = 0
  | Some (t, c) => uxMessagesWaiting q = 0 /\ xMutexHolder q = t /\ t <> 0 /\ uxRecursiveCallCount q = c /\ 0 < c < 4294967295
  end -> mutex_owner k' h o.
Proof.
  intros W Ht E1 E2 E3 Ho. exists q'. pose proof (woken_ok _ _ _ _ _ _ _ W Ht) as Ht'.
  destruct W as [W1 (S1 & S2 & S3 & S4 & S5 & S6 & S7) _ _ _ _ _]. rewrite S1, S2, S4, S5, S6, S7. done.
Qed.

Lemma mutex_give_run h k q : queues k !! h = Some q -> tasks_ok q -> h <> 0 -> uxQueueType q = queueQUEUE_IS_MUTEX ->
  uxItemSize q = 0 -> uxLength q = 1 -> uxMessagesWaiting q = 0 -> uxRecursiveCallCount q = 0 ->
  wp (xQueueGenericSend others isr rounds h 0 0 queueSEND_TO_BACK) k (fun r k' => r = pdPASS /\ mutex_owner k' h None).
Proof.
  intros Hq Ht Hh E1 E2 E3 E4 E5. unfold xQueueGenericSend.
  apply wp_bind, wp_assert; [by destruct (Z.eqb_spec h 0)|]. apply wp_bind. eapply wp_use; [by apply rdq_run|].
  apply wp_bind, wp_assert; [by rewrite E2|]. apply wp_bind, wp_assert; [by rewrite E3|].
  apply wp_bind. unfold cannot_wait, ask. wps. apply wp_assert; [by destruct (scheduler_suspended _)|]. cbn [send_loop].
  apply wp_bind. eapply wp_use; [by apply rdq_run|]. rewrite E3, E4. cbn [Z.ltb Z.compare orb].
  unfold prvCopyDataToQueue. apply wp_bind, wp_bind. eapply wp_use; [by apply rdq_run|]. cbv zeta.
  rewrite E2, E1. cbn [Z.eqb queueQUEUE_IS_MUTEX]. apply wp_bind, wp_bind. unfold call. wps.
  destruct (xTaskPriorityDisinherit (pcTail q) (kern k)) as [u a]. wps. eapply wp_use; [by apply wrq_run|]. wps.
  eapply wp_use; [apply wrq_run; cbn; apply lookup_insert_eq|]. wps. cbn [set_kern set_queues queues].
  rewrite insert_insert_eq, E4. set (q1 := set_messages _ _). match goal with |- wp _ ?s _ => set (k1 := s) end.
  assert (Hq1 : queues k1 !! h = Some q1) by apply lookup_insert_eq. assert (Ht1 : tasks_ok q1) by exact Ht.
  eapply wp_use; [by apply rdq_run|]. apply wp_bind.
  eapply (wp_mono _ _ (fun _ k' => exists q2 n, woken k1 k' h q1 q2 ToReceive n)).
  - destruct (listLIST_IS_EMPTY _); cbn [negb].
    + destruct u; unfold tell; wps; exists q1, 0%nat; pose proof (woken_refl k1 h q1 ToReceive Hq1) as W; by destruct W.
    + eapply wp_mono; [by apply wake_run|]. intros _ k' (q2 & W). by eexists _, _.
  - intros _ k2 (q2 & n & W). wps. split; [done|]. by eapply (woken_mutex _ _ _ _ _ _ _ None W).
Qed.

Lemma give_recursive_run h k o me : mutex_owner k h o -> h <> 0 -> xTaskGetCurrentTaskHandle (kern k) = me -> me <> 0 ->
  wp (xQueueGiveMutexRecursive others isr rounds h) k (fun r k' =>
    r = (give_spec me o).1 /\ mutex_owner k' h (give_spec me o).2).
Proof.
  intros (q & Hq & Ht & E1 & E2 & E3 & Ho) Hh Hme Hme0. unfold xQueueGiveMutexRecursive.
  apply wp_bind, wp_assert; [by destruct (Z.eqb_spec h 0)|]. apply wp_bind. eapply wp_use; [by apply rdq_run|].
  apply wp_bind. unfold ask. wps. rewrite Hme. destruct o as [[t c]|]; cbn [give_spec].
  2:{ destruct Ho as (O1 & O2 & O3). destruct (Z.eqb_spec (pcTail q) me) as [|_]; [congruence|].
      wps. split; [done|]. by exists q. }
  destruct Ho as (O1 & O2 & O3 & O4 & O5). rewrite O2. destruct (Z.eqb_spec t me) as [->|N].
  2:{ wps. split; [done|]. exists q. rewrite O2. done. }
  cbv zeta. rewrite O4, u32_small by (unfold is_u32; lia). apply wp_bind. eapply wp_use; [by apply wrq_run|].
  destruct (Z.eqb_spec (c - 1) 0) as [E|N]; destruct (Z.eqb_spec c 1) as [E'|N']; try lia.
  - apply wp_bind, wp_bind. rewrite E. eapply wp_mono; [eapply mutex_give_run; [apply lookup_insert_eq|done..]|].
    intros r k' (-> & Hk'). wps. done.
  - wps. split; [done|]. exists (set_pcReadFrom (c - 1) q). split; [apply lookup_insert_eq|]. cbn. do 5 (split; [done|]).
    split; [done|lia].
Qed.

(** [xTaskGetCurrentTaskHandle] is whom [pvTaskIncrementMutexHeldCount] counts for. *)
Context (held : forall a : A, (pvTaskIncrementMutexHeldCount a).1 = xTaskGetCurrentTaskHandle a).

Lemma semaphore_take_checks h k q Q : queues k !! h = Some q -> h <> 0 -> uxItemSize q = 0 ->
  wp (take_loop others isr (S rounds) h 0 None false) k Q -> wp (xQueueSemaphoreTake others isr rounds h 0) k Q.
Proof.
  intros Hq Hh E HQ. unfold xQueueSemaphoreTake. apply wp_bind, wp_assert; [by destruct (Z.eqb_spec h 0)|].
  apply wp_bind. eapply wp_use; [by apply rdq_run|]. apply wp_bind, wp_assert; [by rewrite E|].
  apply wp_bind. unfold cannot_wait, ask. wps. apply wp_assert; [by destruct (scheduler_suspended _)|done].
Qed.

(** Taking a free mutex, before the first call is counted. *)
Lemma mutex_take_run h k q : queues k !! h = Some q -> tasks_ok q -> h <> 0 -> uxQueueType q = queueQUEUE_IS_MUTEX ->
  uxItemSize q = 0 -> uxLength q = 1 -> uxMessagesWaiting q = 1 -> uxRecursiveCallCount q = 0 ->
  wp (xQueueSemaphoreTake others isr rounds h 0) k (fun r k' => r = pdPASS /\ exists q', queues k' !! h = Some q' /\
    tasks_ok q' /\ uxQueueType q' = queueQUEUE_IS_MUTEX /\ uxItemSize q' = 0 /\ uxLength q' = 1 /\ uxMessagesWaiting q' = 0 /\
    xMutexHolder q' = xTaskGetCurrentTaskHandle (kern k) /\ uxRecursiveCallCount q' = 0).
Proof.
  intros Hq Ht Hh E1 E2 E3 O1 O3. eapply semaphore_take_checks; try done. cbn [take_loop].
  apply wp_bind. eapply wp_use; [by apply rdq_run|]. rewrite O1. cbn [Z.ltb Z.compare].
  apply wp_bind. eapply wp_use; [by apply wrq_run|]. cbv beta. rewrite E1. cbn [Z.eqb queueQUEUE_IS_MUTEX].
  apply wp_bind, wp_bind. unfold call. wps. cbn [set_queues kern]. pose proof (held (kern k)) as Hheld.
  destruct (pvTaskIncrementMutexHeldCount (kern k)) as [holder a]. cbn in Hheld. wps.
  eapply wp_use; [apply wrq_run; cbn; apply lookup_insert_eq|]. cbn [set_kern set_queues queues]. rewrite insert_insert_eq.
  change (u32 (1 - 1)) with 0. set (q1 := set_pcTail _ _). match goal with |- wp _ ?s _ => set (k1 := s) end.
  assert (Hq1 : queues k1 !! h = Some q1) by apply lookup_insert_eq. assert (Ht1 : tasks_ok q1) by exact Ht.
  apply wp_bind. eapply wp_mono; [by apply (wake_run k1 h q1 ToSend)|]. intros _ k2 (q2 & W). wps. split; [done|].
  pose proof (woken_ok _ _ _ _ _ _ _ W Ht1) as Ht2. destruct W as [W1 (S1 & S2 & S3 & S4 & S5 & S6 & S7) _ _ _ _ _].
  exists q2. cbn in *. rewrite S1, S2, S4, S5, S6, S7, O3, Hheld. done.
Qed.

Lemma take_recursive_run h k o me : mutex_owner k h o -> h <> 0 -> xTaskGetCurrentTaskHandle (kern k) = me -> me <> 0 ->
  (forall t c, o = Some (t, c) -> c + 1 < 4294967295) ->
  wp (xQueueTakeMutexRecursive others isr rounds h 0) k (fun r k' =>
    r = (take_spec me o).1 /\ mutex_owner k' h (take_spec me o).2).
Proof.
  intros (q & Hq & Ht & E1 & E2 & E3 & Ho) Hh Hme Hme0 Hc. unfold xQueueTakeMutexRecursive.
  apply wp_bind, wp_assert; [by destruct (Z.eqb_spec h 0)|]. apply wp_bind. eapply wp_use; [by apply rdq_run|].
  apply wp_bind. unfold ask. wps. rewrite Hme. cbv zeta. destruct o as [[t c]|]; cbn [take_spec].
  - destruct Ho as (O1 & O2 & O3 & O4 & O5). specialize (Hc t c eq_refl). rewrite O2. destruct (Z.eqb_spec t me) as [->|N].
    + apply wp_bind. eapply wp_use; [by apply wrq_run|]. wps. split; [done|].
      exists (set_pcReadFrom (u32 (pcReadFrom q + 1)) q). rewrite O4, u32_small by (unfold is_u32; lia).
      split; [apply lookup_insert_eq|]. cbn. do 6 (split; [done|]). split; [done|]. split; [done|lia].
    + apply wp_bind. eapply semaphore_take_checks; try done. cbn [take_loop].
      apply wp_bind. eapply wp_use; [by apply rdq_run|]. rewrite O1. cbn [Z.ltb Z.compare Z.eqb].
      apply wp_bind, wp_assert; [done|]. wps. cbn. wps. split; [done|]. exists q. rewrite O2. done.
  - destruct Ho as (O1 & O2 & O3). destruct (Z.eqb_spec (pcTail q) me) as [|_]; [congruence|].
    apply wp_bind. eapply wp_mono; [by apply (mutex_take_run h k q)|].
    intros _ k2 (-> & q2 & Hq2 & Ht2 & S1 & S2 & S3 & S4 & S5 & S6). cbn [Z.eqb pdPASS pdFAIL negb].
    apply wp_bind. eapply wp_use; [by apply wrq_run|]. wps. split; [done|].
    exists (set_pcReadFrom (u32 (pcReadFrom q2 + 1)) q2). split; [apply lookup_insert_eq|]. split; [exact Ht2|].
    cbn. rewrite S1, S2, S3, S4, S5, S6, Hme. done.
Qed.

(** Recursive mutexes.  [xQueueTakeMutexRecursive] gives a free mutex to the
    calling task and counts further calls of its holder; it refuses every other
    task, and changes nothing then.  [xQueueGiveMutexRecursive] is refused to a
    task that does not hold the mutex; it frees the mutex when its holder has
    given it as often as it has taken it, and only then. *)
Theorem recursive_mutex_counts h k o me : mutex_owner k h o -> h <> 0 -> xTaskGetCurrentTaskHandle (kern k) = me -> me <> 0 ->
  (forall t c, o = Some (t, c) -> c + 1 < 4294967295) ->
  wp (xQueueTakeMutexRecursive others isr rounds h 0) k (fun r k' =>
    r = (take_spec me o).1 /\ mutex_owner k' h (take_spec me o).2) /\
  wp (xQueueGiveMutexRecursive others isr rounds h) k (fun r k' =>
    r = (give_spec me o).1 /\ mutex_owner k' h (give_spec me o).2).
Proof. intros Ho Hh Hme Hme0 Hc. split; [by apply take_recursive_run|by apply give_recursive_run]. Qed.
End Mutex.

(** ** The properties on a small kernel *)

Section Witnesses.
#[local] Existing Instance demo_kernel.
#[local] Instance demo_clock : Clock nat.
Proof.
  refine {| now := Z.of_nat |}; intros; unfold slack; cbn; try done; lia.
Defined.

(** Other tasks run for a tick; interrupts leave the queue alone. *)
Definition demo_others (k : kst nat) : kst nat := set_kern (S (kern k)) k.
Lemma demo_environment h hd L sz buf : Environment demo_others (fun k => k) h hd L sz buf.
Proof.
  constructor; try done.
  - intros k Hk. by apply in_order_kern.
  - intros k. cbn. unfold slack. lia.
  - intros k. cbn. unfold slack. lia.
Qed.

Definition demo_q : Queue_t := mkQueue 1072 1072 1080 1076 [] [] 0 2 4 queueUNLOCKED queueUNLOCKED.
Definition demo_queue : kst nat := mkKst {[1000 := demo_q]} demo_mem 5%nat [].
Lemma demo_in_order : in_order 1000 1072 2 4 2000 demo_queue.
Proof.
  exists unlocked, []. split.
  - exists demo_q, 1. split; [|split; [by intros []|done]].
    constructor; try done. apply (map_block_under _ 2000 4 1072 8), (map_block_mapped ∅ 1072 8 1072 8); lia.
  - split; [done|]. split; [apply (map_block_mapped (map_block ∅ 1072 8) 2000 4 2000 4); lia|right; by vm_compute].
Qed.


Definition held_mutex : Queue_t := mkQueue 0 1000 7 2 [] [] 0 1 0 queueUNLOCKED queueUNLOCKED.
Definition demo_mutex : kst nat :=
  mkKst {[1000 := held_mutex]} ∅ 0%nat [].
Lemma demo_held (a : nat) : (pvTaskIncrementMutexHeldCount a).1 = xTaskGetCurrentTaskHandle a.
Proof. done. Qed.
(** The mutex is held by task 7, which has taken it twice. *)
Lemma recursive_mutex_counts_witness :
  wp (xQueueGiveMutexRecursive (fun k => k) (fun k => k) 0 1000) demo_mutex (fun r k' =>
    r = pdPASS /\ mutex_owner k' 1000 (Some (7, 1))).
Proof.
  destruct (recursive_mutex_counts (fun k : kst nat => k) (fun k => k) 0 demo_held 1000 demo_mutex (Some (7, 2)) 7) as [_ Hg].
  - exists held_mutex. split; [reflexivity|]. split; [by intros []|]. cbn. do 6 (split; [done|]). split; [done|]. lia.
  - done.
  - reflexivity.
  - done.
  - intros t c [= <- <-]. lia.
  - exact Hg.
Defined.
End Witnesses.
