(* ===== verification/SysArch.v ===== *)
(** LWIP_PORT/arch/sys_arch.c: the semaphores, mutexes and mailboxes of the
    network stack on the queues of FreeRTOS.  A [sys_sem_t], [sys_mutex_t] or
    [sys_mbox_t] is the handle it wraps; the pointers to these structures are
    valid.  [slot] and [dummy] are the places of the parameter [msg] and of the
    local variable [msg_dummy].  Tasks and sleeping ([sys_thread_new],
    [sys_arch_msleep]) are not modelled. *)
From S2P Require Import Prelude CMem Queue.

Definition portTICK_PERIOD_MS : Z := 2.
Definition SYS_ARCH_TIMEOUT : Z := 0xffffffff.
Definition SYS_MBOX_EMPTY : Z := SYS_ARCH_TIMEOUT.
Definition ERR_NEED_SCHED : Z := 123.

(** The bytes of a pointer. *)
Definition ptr_bytes (p : Z) : list Z :=
  [p mod 256; p / 256 mod 256; p / 65536 mod 256; p / 16777216 mod 256].
Definition bytes_ptr (l : list Z) : Z :=
  match l with [a; b; c; d] => a + 256 * b + 65536 * c + 16777216 * d | _ => 0 end.
Lemma bytes_ptr_bytes p : is_u32 p -> bytes_ptr (ptr_bytes p) = p.
Proof. intros Hp. unfold bytes_ptr, ptr_bytes, is_u32 in *. Z.div_mod_to_equations. lia. Qed.

Section SysArch.
Context {A : Type} `{Kernel A}.
Abbreviation K := (kst A).
Context (others isr : K -> K) (rounds : nat) (slot dummy : Z).

Definition sys_now : M K Z := t ← ask xTickCount; mret (u32 (t * portTICK_PERIOD_MS)).
Definition sys_jiffies : M K Z := ask xTickCount.

(** ** Mutexes *)

Definition sys_mutex_new (junk : Queue_t) : M K (Z * Z) :=
  mut ← xQueueCreateMutex others isr rounds junk;
  mret (if mut =? 0 then ERR_MEM else ERR_OK, mut).
Definition sys_mutex_lock (mut : Z) : M K unit :=
  assert_ (negb (mut =? 0));;
  ret ← xQueueTakeMutexRecursive others isr rounds mut portMAX_DELAY;
  assert_ (ret =? pdTRUE).
Definition sys_mutex_unlock (mut : Z) : M K unit :=
  assert_ (negb (mut =? 0));;
  ret ← xQueueGiveMutexRecursive others isr rounds mut;
  assert_ (ret =? pdTRUE).
(** The result is the handle afterwards. *)
Definition sys_mutex_free (mut : Z) : M K Z :=
  assert_ (negb (mut =? 0));;
  vQueueDelete mut;;
  mret 0.

(** ** Semaphores *)

Definition sys_sem_signal (sem : Z) : M K unit :=
  assert_ (negb (sem =? 0));;
  ret ← xQueueGenericSend others isr rounds sem 0 0 queueSEND_TO_BACK;
  assert_ ((ret =? pdTRUE) || (ret =? errQUEUE_FULL)).
Definition sys_sem_new (junk : Queue_t) (initial_count : Z) : M K (Z * Z) :=
  assert_ ((initial_count =? 0) || (initial_count =? 1));;
  sem ← xQueueGenericCreate junk 1 queueSEMAPHORE_QUEUE_ITEM_LENGTH;
  if sem =? 0 then mret (ERR_MEM, sem)
  else
    (if initial_count =? 1 then
       ret ← xQueueGenericSend others isr rounds sem 0 0 queueSEND_TO_BACK;
       assert_ (ret =? pdTRUE)
     else mret tt);;
    mret (ERR_OK, sem).
Definition sys_arch_sem_wait (sem timeout_ms : Z) : M K Z :=
  assert_ (negb (sem =? 0));;
  if timeout_ms =? 0 then
    ret ← xQueueSemaphoreTake others isr rounds sem portMAX_DELAY;
    assert_ (ret =? pdTRUE);;
    mret 1
  else
    let timeout_ticks := timeout_ms / portTICK_PERIOD_MS in
    ret ← xQueueSemaphoreTake others isr rounds sem timeout_ticks;
    if ret =? errQUEUE_EMPTY then mret SYS_ARCH_TIMEOUT
    else assert_ (ret =? pdTRUE);; mret 1.
Definition sys_sem_free (sem : Z) : M K Z :=
  assert_ (negb (sem =? 0));;
  vQueueDelete sem;;
  mret 0.

(** ** Mailboxes *)

Definition store_ptr (a p : Z) : M K unit := put_bytes a (ptr_bytes p).

Definition sys_mbox_new (junk : Queue_t) (size : Z) : M K (Z * Z) :=
  assert_ (0 <? size);;
  mbx ← xQueueGenericCreate junk (u32 size) 4;
  mret (if mbx =? 0 then ERR_MEM else ERR_OK, mbx).
Definition sys_mbox_post (mbx msg : Z) : M K unit :=
  assert_ (negb (mbx =? 0));;
  store_ptr slot msg;;
  ret ← xQueueGenericSend others isr rounds mbx slot portMAX_DELAY queueSEND_TO_BACK;
  assert_ (ret =? pdTRUE).
Definition sys_mbox_trypost (mbx msg : Z) : M K Z :=
  assert_ (negb (mbx =? 0));;
  store_ptr slot msg;;
  ret ← xQueueGenericSend others isr rounds mbx slot 0 queueSEND_TO_BACK;
  if ret =? pdTRUE then mret ERR_OK
  else assert_ (ret =? errQUEUE_FULL);; mret ERR_MEM.
Definition sys_mbox_trypost_fromisr (mbx msg : Z) : M K Z :=
  assert_ (negb (mbx =? 0));;
  store_ptr slot msg;;
  '(ret, xHigherPriorityTaskWoken) ← xQueueGenericSendFromISR mbx slot queueSEND_TO_BACK;
  if ret =? pdTRUE then mret (if (xHigherPriorityTaskWoken : bool) then ERR_NEED_SCHED else ERR_OK)
  else assert_ (ret =? errQUEUE_FULL);; mret ERR_MEM.
Definition sys_arch_mbox_fetch (mbx msg timeout_ms : Z) : M K Z :=
  assert_ (negb (mbx =? 0));;
  let msg := if msg =? 0 then dummy else msg in
  if timeout_ms =? 0 then
    ret ← xQueueReceive others isr rounds mbx msg portMAX_DELAY;
    assert_ (ret =? pdTRUE);;
    mret 1
  else
    let timeout_ticks := timeout_ms / portTICK_PERIOD_MS in
    ret ← xQueueReceive others isr rounds mbx msg timeout_ticks;
    if ret =? errQUEUE_EMPTY then store_ptr msg 0;; mret SYS_ARCH_TIMEOUT
    else assert_ (ret =? pdTRUE);; mret 1.
Definition sys_arch_mbox_tryfetch (mbx msg : Z) : M K Z :=
  assert_ (negb (mbx =? 0));;
  let msg := if msg =? 0 then dummy else msg in
  ret ← xQueueReceive others isr rounds mbx msg 0;
  if ret =? errQUEUE_EMPTY then store_ptr msg 0;; mret SYS_MBOX_EMPTY
  else assert_ (ret =? pdTRUE);; mret 1.
Definition sys_mbox_free (mbx : Z) : M K unit :=
  assert_ (negb (mbx =? 0));;
  vQueueDelete mbx.

(** ** Mailboxes hold pointers *)

Definition mailbox (k : K) (mbx hd size : Z) (ps : list Z) : Prop :=
  holds k mbx hd size 4 unlocked (map ptr_bytes ps) /\ Forall is_u32 ps.

Lemma ptr_bytes_length p : Z.of_nat (length (ptr_bytes p)) = 4.
Proof. done. Qed.

Lemma store_ptr_run k mbx hd size ps a p : mailbox k mbx hd size ps -> buffer_ok k a hd size 4 ->
  wp (store_ptr a p) k (fun _ k' => mailbox k' mbx hd size ps /\ load_bytes (kmem k') a 4 = Some (ptr_bytes p)).
Proof.
  intros [Hk Hp] Ha. eapply wp_mono; [by apply (put_bytes_run k mbx hd size 4 unlocked (map ptr_bytes ps) a (ptr_bytes p))|].
  intros _ k' (H1 & _ & _ & H2). done.
Qed.

Lemma tryfetch_run k mbx hd size ps msg : mailbox k mbx hd size ps -> mbx <> 0 -> buffer_ok k msg hd size 4 ->
  wp (sys_arch_mbox_tryfetch mbx msg) k (fun r k' =>
    r = (match ps with [] => SYS_MBOX_EMPTY | _ => 1 end) /\ mailbox k' mbx hd size (tail ps) /\
    exists bs, load_bytes (kmem k') msg 4 = Some bs /\ bytes_ptr bs = default 0 (head ps)).
Proof.
  intros [Hk Hp] Hm Hb. unfold sys_arch_mbox_tryfetch. apply wp_bind, wp_assert; [by destruct (Z.eqb_spec mbx 0)|].
  pose proof Hb as (Hm0 & _). destruct (Z.eqb_spec msg 0) as [|_]; [done|]. cbv zeta.
  apply wp_bind. eapply wp_mono; [by apply (xQueueReceive_now others isr rounds mbx msg k hd size 4 unlocked (map ptr_bytes ps))|].
  intros r k1 [Hw Hr]. destruct ps as [|p ps]; cbn [map] in Hr.
  - destruct Hr as [-> ->]. cbn [Z.eqb errQUEUE_EMPTY]. apply wp_bind.
    eapply wp_mono; [by apply (store_ptr_run k mbx hd size [])|]. intros _ k2 [Hk2 Hl]. wps. split; [done|].
    split; [done|]. by exists (ptr_bytes 0).
  - destruct Hr as (-> & Hk1 & Hl). cbn [Z.eqb errQUEUE_EMPTY pdPASS]. apply wp_bind, wp_assert; [done|]. wps. split; [done|].
    apply Forall_cons in Hp as [Hp Hps]. split; [by split|]. exists (ptr_bytes p). split; [exact Hl|]. by apply bytes_ptr_bytes.
Qed.

Lemma trypost_run k mbx hd size ps p : mailbox k mbx hd size ps -> mbx <> 0 -> buffer_ok k slot hd size 4 -> is_u32 p ->
  wp (sys_mbox_trypost mbx p) k (fun r k' =>
    let room := Z.of_nat (length ps) <? size in
    r = (if room then ERR_OK else ERR_MEM) /\ mailbox k' mbx hd size (if room then ps ++ [p] else ps)).
Proof.
  intros Hk Hm Hb Hp. unfold sys_mbox_trypost. apply wp_bind, wp_assert; [by destruct (Z.eqb_spec mbx 0)|].
  apply wp_bind. eapply wp_mono; [by apply (store_ptr_run k mbx hd size ps slot p)|]. intros _ k1 [[Hk1 Hps] Hl].
  apply wp_bind. pose proof Hb as (Hs0 & _).
  eapply wp_mono; [apply (xQueueGenericSend_now others isr rounds mbx slot _ k1 hd size 4 unlocked (map ptr_bytes ps) (ptr_bytes p)); try done; by left|].
  cbv zeta. unfold has_room. rewrite length_map, orb_false_r. intros r k2 (-> & Hk2 & _).
  destruct (Z.of_nat (length ps) <? size); cbn [Z.eqb pdTRUE pdPASS errQUEUE_FULL].
  - wps. split; [done|]. split; [rewrite map_app; exact Hk2|]. apply Forall_app. split; [done|by constructor].
  - apply wp_bind, wp_assert; [done|]. wps. by split.
Qed.

Lemma cannot_wait_now (k : K) : cannot_wait 0 k = Done (tt, k).
Proof. unfold cannot_wait, ask, gets, assert_, mbind, M_bind. by destruct (scheduler_suspended (kern k)). Qed.

(** An empty semaphore, asked without waiting. *)
Lemma sem_empty_now k h q : queues k !! h = Some q -> h <> 0 -> uxItemSize q = 0 -> uxMessagesWaiting q = 0 ->
  xQueueSemaphoreTake others isr rounds h 0 k = Done (errQUEUE_EMPTY, k).
Proof.
  intros Hq Hh E1 E2. unfold xQueueSemaphoreTake. destruct (Z.eqb_spec h 0) as [|_]; [done|].
  erewrite bind_done by reflexivity. erewrite bind_done by (by apply rdq_run). rewrite E1.
  erewrite bind_done by reflexivity. rewrite (bind_done _ _ k tt k) by apply cannot_wait_now.
  cbn [take_loop]. erewrite bind_done by (by apply rdq_run). rewrite E2. done.
Qed.

(** A wait of one millisecond, half a tick, does not wait. *)
Theorem sys_arch_sem_wait_1ms k sem q : queues k !! sem = Some q -> sem <> 0 -> uxItemSize q = 0 -> uxMessagesWaiting q = 0 ->
  sys_arch_sem_wait sem 1 k = Done (SYS_ARCH_TIMEOUT, k).
Proof.
  intros Hq Hs E1 E2. unfold sys_arch_sem_wait. destruct (Z.eqb_spec sem 0) as [|_]; [done|].
  erewrite bind_done by reflexivity. cbn [Z.eqb]. cbv zeta. change (1 / portTICK_PERIOD_MS) with 0.
  by erewrite bind_done by (by eapply sem_empty_now).
Qed.

(** *** Properties *)

(** A mailbox passes pointers on.  Without waiting, [sys_mbox_trypost] adds
    a pointer behind those in the mailbox, or says ERR_MEM and changes nothing
    when [size] of them are there; [sys_arch_mbox_tryfetch] stores the oldest one
    for the caller, unchanged, and takes it out, or stores NULL and says that the
    mailbox is empty. *)
Theorem sys_mbox_passes_pointers k mbx hd size ps msg p :
  mailbox k mbx hd size ps -> mbx <> 0 -> buffer_ok k slot hd size 4 -> buffer_ok k msg hd size 4 -> is_u32 p ->
  wp (sys_mbox_trypost mbx p) k (fun r k' =>
    let room := Z.of_nat (length ps) <? size in
    r = (if room then ERR_OK else ERR_MEM) /\ mailbox k' mbx hd size (if room then ps ++ [p] else ps)) /\
  wp (sys_arch_mbox_tryfetch mbx msg) k (fun r k' =>
    r = (match ps with [] => SYS_MBOX_EMPTY | _ => 1 end) /\ mailbox k' mbx hd size (tail ps) /\
    exists bs, load_bytes (kmem k') msg 4 = Some bs /\ bytes_ptr bs = default 0 (head ps)).
Proof. intros Hk Hm Hs Hb Hp. split; [by apply trypost_run|by apply tryfetch_run]. Qed.
End SysArch.

Section Witnesses.
#[local] Existing Instance demo_kernel.

(** A mailbox of two pointers that holds one. *)
Definition demo_box : Queue_t := mkQueue 1072 1076 1080 1076 [] [] 1 2 4 queueUNLOCKED queueUNLOCKED.
Definition box_mem : mem := default ∅ (store_bytes (map_block demo_mem 3000 8) 1072 (ptr_bytes 5000)).
Definition demo_box_kst : kst nat := mkKst {[1000 := demo_box]} box_mem 0%nat [].
Lemma box_mapped a n : 0 <= n -> bool_decide (Forall (fun i => is_Some (box_mem !! (a + i))) (seqZ 0 n)) = true -> mapped box_mem a n.
Proof.
  intros Hn Hb x Hx. apply bool_decide_eq_true in Hb. rewrite Forall_forall in Hb.
  replace x with (a + (x - a)) by lia. apply Hb, elem_of_seqZ. lia.
Qed.
Lemma demo_mailbox : mailbox demo_box_kst 1000 1072 2 [5000].
Proof.
  split; [|by repeat constructor]. exists demo_box, 1. split; [|split; [by intros []|done]].
  constructor; try done; [apply box_mapped; by vm_compute|].
  intros [|[|i]] x; cbn; [|done..]. intros [= <-]. by vm_compute.
Qed.

Lemma sys_mbox_passes_pointers_witness :
  wp (sys_mbox_trypost (fun k => k) (fun k => k) 0 3000 1000 6000) demo_box_kst (fun r k' =>
    r = ERR_OK /\ mailbox k' 1000 1072 2 [5000; 6000]).
Proof.
  destruct (sys_mbox_passes_pointers (fun k => k) (fun k => k) 0 3000 3000 demo_box_kst 1000 1072 2 [5000] 3004 6000) as [Hp _].
  - apply demo_mailbox.
  - done.
  - split; [done|]. split; [apply box_mapped; [lia|by vm_compute]|right; by vm_compute].
  - split; [done|]. split; [apply box_mapped; [lia|by vm_compute]|right; by vm_compute].
  - by_decision.
  - exact Hp.
Defined.
End Witnesses.
