(* ===== verification/Timeouts.v ===== *)
(** LWIP/src/core/timeouts.c: the list of pending timeouts, its insertion, removal
    and expiry, and the cyclic timers of the stack.  Times are 32-bit and wrap.  The
    pool MEMP_SYS_TIMEOUT is the number of its free elements; the handlers
    act on a world [W] that also holds the clock and the TCP connection lists. *)
From S2P Require Import Prelude.

Definition LWIP_MAX_TIMEOUT : Z := 2147483647.
Definition SYS_TIMEOUTS_SLEEPTIME_INFINITE : Z := 4294967295.
Definition TIME_LESS_THAN (t compare_to : Z) : bool := LWIP_MAX_TIMEOUT <? u32 (t - compare_to).

Definition TCP_TMR_INTERVAL : Z := 250.
Definition ARP_TMR_INTERVAL : Z := 1000.
Definition DHCP_COARSE_TIMER_MSECS : Z := 60 * 1000.
Definition DHCP_FINE_TIMER_MSECS : Z := 500.

Inductive timer_fn := tcp_tmr | etharp_tmr | dhcp_coarse_tmr | dhcp_fine_tmr.
Record cyclic_timer := mkCyclic { interval_ms : Z; handler_of : timer_fn }.
Definition lwip_cyclic_timers : list cyclic_timer :=
  [mkCyclic TCP_TMR_INTERVAL tcp_tmr; mkCyclic ARP_TMR_INTERVAL etharp_tmr;
   mkCyclic DHCP_COARSE_TIMER_MSECS dhcp_coarse_tmr; mkCyclic DHCP_FINE_TIMER_MSECS dhcp_fine_tmr].

(** The functions a timeout can call; [arg] is the index of the timer for
    [lwip_cyclic_timer]. *)
Inductive handler := H_NULL | H_lwip_cyclic_timer | H_tcpip_tcp_timer | H_callback (f : Z).
#[export] Instance handler_eq_dec : EqDecision handler.
Proof. solve_decision. Defined.

Record sys_timeo := mkTimeo { time : Z; h : handler; arg : Z }.

Record timeouts (W : Type) := mkTimeouts {
  next_timeout : list sys_timeo;
  current_timeout_due_time : Z;
  tcpip_tcp_timer_active : Z;
  pool : nat;
  world : W
}.
Arguments mkTimeouts {_}.
Arguments next_timeout {_}.
Arguments current_timeout_due_time {_}.
Arguments tcpip_tcp_timer_active {_}.
Arguments pool {_}.
Arguments world {_}.

(** The walk behind the first element of a non-empty list. *)
Fixpoint insert_behind (x : sys_timeo) (l : list sys_timeo) : list sys_timeo :=
  match l with
  | [] => []
  | t :: r =>
      match r with
      | [] => [t; x]
      | n :: _ => if TIME_LESS_THAN (time x) (time n) then t :: x :: r
                  else t :: insert_behind x r
      end
  end.
Definition insert_timeout (x : sys_timeo) (l : list sys_timeo) : list sys_timeo :=
  match l with
  | [] => [x]
  | n :: _ => if TIME_LESS_THAN (time x) (time n) then x :: l else insert_behind x l
  end.

(** Remove the first match; [None] when there is none. *)
Fixpoint unlink_timeout (f : handler) (a : Z) (l : list sys_timeo) : option (list sys_timeo) :=
  match l with
  | [] => None
  | t :: r => if bool_decide (h t = f) && (arg t =? a) then Some r
              else match unlink_timeout f a r with
                   | Some r => Some (t :: r)
                   | None => None
                   end
  end.

(** ** The list is ordered by the time since a base *)

Definition since (b t : Z) : Z := u32 (t - b).
Definition in_window (b : Z) (x : sys_timeo) : Prop := since b (time x) <= LWIP_MAX_TIMEOUT.
Definition due_le (b : Z) (x y : sys_timeo) : Prop := since b (time x) <= since b (time y).

Lemma less_than_since b t c :
  since b t <= LWIP_MAX_TIMEOUT -> since b c <= LWIP_MAX_TIMEOUT ->
  TIME_LESS_THAN t c = (since b t <? since b c).
Proof.
  unfold TIME_LESS_THAN, since, LWIP_MAX_TIMEOUT. intros H1 H2.
  destruct (Z.ltb_spec (u32 (t - b)) (u32 (c - b))), (Z.ltb_spec 2147483647 (u32 (t - c)));
    try done; zlia.
Qed.

Lemma insert_behind_split b x t l :
  in_window b x -> Forall (in_window b) (t :: l) -> due_le b t x ->
  exists l1 l2, t :: l = l1 ++ l2 /\ insert_behind x (t :: l) = l1 ++ x :: l2 /\
    Forall (fun y => due_le b y x) l1 /\ (forall y, head l2 = Some y -> since b (time x) < since b (time y)).
Proof.
  intros Hx. revert t. induction l as [|n l IH]; intros t Hw Ht; cbn [insert_behind].
  - exists [t], []. repeat split; [by constructor|done].
  - apply Forall_cons in Hw as [Htw Hw]. pose proof Hw as [Hn _]%Forall_cons.
    rewrite (less_than_since b _ _ Hx Hn). destruct (Z.ltb_spec (since b (time x)) (since b (time n))) as [L|L].
    + exists [t], (n :: l). repeat split; [by constructor|]. intros y [= <-]. done.
    + destruct (IH n Hw L) as (l1 & l2 & E1 & E2 & F1 & F2). exists (t :: l1), l2.
      rewrite E1. split; [done|]. cbn in E2. cbn. rewrite E2. split; [done|]. split; [by constructor|done].
Qed.

Lemma insert_split b x l :
  in_window b x -> Forall (in_window b) l ->
  exists l1 l2, l = l1 ++ l2 /\ insert_timeout x l = l1 ++ x :: l2 /\
    Forall (fun y => due_le b y x) l1 /\ (forall y, head l2 = Some y -> since b (time x) < since b (time y)).
Proof.
  intros Hx Hl. destruct l as [|n l]; [by exists [], []|]. cbn [insert_timeout].
  pose proof Hl as [Hn _]%Forall_cons. rewrite (less_than_since b _ _ Hx Hn).
  destruct (Z.ltb_spec (since b (time x)) (since b (time n))) as [L|L].
  - exists [], (n :: l). repeat split; [constructor|]. by intros y [= <-].
  - by apply insert_behind_split.
Qed.

#[export] Instance due_le_trans b : Transitive (due_le b).
Proof. unfold due_le. intros x y z. lia. Qed.

Lemma insert_ordered b x l :
  in_window b x -> Forall (in_window b) l -> StronglySorted (due_le b) l ->
  exists l1 l2, l = l1 ++ l2 /\ insert_timeout x l = l1 ++ x :: l2 /\
    Forall (fun y => due_le b y x) l1 /\ Forall (fun y => since b (time x) < since b (time y)) l2.
Proof.
  intros Hx Hl Hs. destruct (insert_split b x l Hx Hl) as (l1 & l2 & -> & E & F & G).
  exists l1, l2. repeat split; [done|done|]. destruct l2 as [|y l2]; [constructor|].
  specialize (G y eq_refl). apply StronglySorted_app_1_r in Hs.
  apply StronglySorted_inv in Hs as [_ Hy]. constructor; [done|].
  eapply Forall_impl; [exact Hy|]. unfold due_le. intros z Hz. cbn in Hz. lia.
Qed.

Lemma insert_sorted b x l :
  in_window b x -> Forall (in_window b) l -> StronglySorted (due_le b) l ->
  StronglySorted (due_le b) (insert_timeout x l) /\ Forall (in_window b) (insert_timeout x l) /\
  Permutation (insert_timeout x l) (x :: l).
Proof.
  intros Hx Hl Hs. destruct (insert_ordered b x l Hx Hl Hs) as (l1 & l2 & -> & -> & F & G).
  apply Forall_app in Hl as [H1 H2]. split; [|split].
  - apply StronglySorted_app in Hs as (Hc & S1 & S2). apply StronglySorted_app. split; [|split; [done|]].
    + intros y z Hy Hz. rewrite Forall_forall in F. pose proof (F y Hy) as Hyx.
      apply elem_of_cons in Hz as [->|Hz]; [done|by apply Hc].
    + constructor; [done|]. eapply Forall_impl; [exact G|]. unfold due_le. intros z Hz. cbn in Hz. lia.
  - apply Forall_app. by split; [|constructor].
  - by rewrite Permutation_middle.
Qed.

Lemma since_add b x d : 0 <= d -> since b x + d < 4294967296 -> since b (u32 (x + d)) = since b x + d.
Proof. unfold since. zlia. Qed.

Lemma since_pos b x : 0 <= since b x.
Proof. unfold since. zlia. Qed.
Lemma since_sub b x y : since b y <= since b x -> u32 (x - y) = since b x - since b y.
Proof. unfold since. zlia. Qed.

Section Timeouts.
Context {W : Type} (sys_now : W -> Z) (run_timer : timer_fn -> W -> W)
        (tcp_pcbs : W -> bool) (run_callback : Z -> Z -> W -> W).
Abbreviation St := (timeouts W).

Definition set_list (l : list sys_timeo) (n : nat) (s : St) : St :=
  mkTimeouts l (current_timeout_due_time s) (tcpip_tcp_timer_active s) n (world s).
Definition set_due (d : Z) (s : St) : St :=
  mkTimeouts (next_timeout s) d (tcpip_tcp_timer_active s) (pool s) (world s).
Definition set_active (a : Z) (s : St) : St :=
  mkTimeouts (next_timeout s) (current_timeout_due_time s) a (pool s) (world s).
Definition on_world (f : W -> W) (s : St) : St :=
  mkTimeouts (next_timeout s) (current_timeout_due_time s) (tcpip_tcp_timer_active s) (pool s)
    (f (world s)).

Definition sys_timeout_abs (abs_time : Z) (f : handler) (a : Z) : M St unit :=
  s ← get;
  match pool s with
  | O => stop_ Asserted
  | S n => put (set_list (insert_timeout (mkTimeo abs_time f a) (next_timeout s)) n s)
  end.

Definition sys_timeout (msecs : Z) (f : handler) (a : Z) : M St unit :=
  assert_ (msecs <=? 4294967295 / 4);;
  s ← get;
  sys_timeout_abs (u32 (sys_now (world s) + msecs)) f a.

Definition lwip_cyclic_timer (a : Z) : M St unit :=
  cyclic ← of_option (lwip_cyclic_timers !! Z.to_nat a);
  modify (on_world (run_timer (handler_of cyclic)));;
  s ← get;
  let now := sys_now (world s) in
  let next_timeout_time := u32 (current_timeout_due_time s + interval_ms cyclic) in
  if TIME_LESS_THAN next_timeout_time now then
    sys_timeout_abs (u32 (now + interval_ms cyclic)) H_lwip_cyclic_timer a
  else sys_timeout_abs next_timeout_time H_lwip_cyclic_timer a.

Definition tcpip_tcp_timer : M St unit :=
  modify (on_world (run_timer tcp_tmr));;
  s ← get;
  if tcp_pcbs (world s) then sys_timeout TCP_TMR_INTERVAL H_tcpip_tcp_timer 0
  else put (set_active 0 s).

Definition tcp_timer_needed : M St unit :=
  s ← get;
  if (tcpip_tcp_timer_active s =? 0) && tcp_pcbs (world s) then
    put (set_active 1 s);;
    sys_timeout TCP_TMR_INTERVAL H_tcpip_tcp_timer 0
  else mret tt.

(** The loop of [sys_timeouts_init], from timer [i] on. *)
Fixpoint init_loop (l : list cyclic_timer) (i : Z) : M St unit :=
  match l with
  | [] => mret tt
  | c :: l => sys_timeout (interval_ms c) H_lwip_cyclic_timer i;; init_loop l (i + 1)
  end.
Definition sys_timeouts_init : M St unit := init_loop (drop 1 lwip_cyclic_timers) 1.

Definition sys_untimeout (f : handler) (a : Z) : M St unit :=
  modify (fun s => match unlink_timeout f a (next_timeout s) with
                   | Some l => set_list l (S (pool s)) s
                   | None => s
                   end).

Definition call_handler (f : handler) (a : Z) : M St unit :=
  match f with
  | H_NULL => mret tt
  | H_lwip_cyclic_timer => lwip_cyclic_timer a
  | H_tcpip_tcp_timer => tcpip_tcp_timer
  | H_callback g => modify (on_world (run_callback g a))
  end.

Fixpoint check_loop (fuel : nat) (now : Z) : M St unit :=
  match fuel with
  | O => stop_ NoFuel
  | S fuel =>
      s ← get;
      match next_timeout s with
      | [] => mret tt
      | t :: r =>
          if TIME_LESS_THAN now (time t) then mret tt
          else
            put (set_due (time t) (set_list r (S (pool s)) s));;
            call_handler (h t) (arg t);;
            check_loop fuel now
      end
  end.
Definition sys_check_timeouts (fuel : nat) : M St unit :=
  s ← get; check_loop fuel (sys_now (world s)).

Definition sys_restart_timeouts : M St unit :=
  modify (fun s =>
    match next_timeout s with
    | [] => s
    | t0 :: _ => set_list (map (fun t => mkTimeo (u32 (time t - time t0 + sys_now (world s))) (h t) (arg t))
                             (next_timeout s)) (pool s) s
    end).

Definition sys_timeouts_sleeptime : M St Z :=
  s ← get;
  match next_timeout s with
  | [] => mret SYS_TIMEOUTS_SLEEPTIME_INFINITE
  | t :: _ =>
      let now := sys_now (world s) in
      if TIME_LESS_THAN (time t) now then mret 0
      else
        let ret := u32 (time t - now) in
        assert_ (ret <=? LWIP_MAX_TIMEOUT);;
        mret ret
  end.

(** The pending timeouts are in order of their due time, seen from [b]. *)
Record ordered (b : Z) (s : St) : Prop := {
  ord_window : Forall (in_window b) (next_timeout s);
  ord_sorted : StronglySorted (due_le b) (next_timeout s)
}.

Lemma sys_timeout_abs_run abs_time f a s n : pool s = S n ->
  sys_timeout_abs abs_time f a s =
  Done (tt, set_list (insert_timeout (mkTimeo abs_time f a) (next_timeout s)) n s).
Proof. intros Hp. unfold sys_timeout_abs. mred. by rewrite Hp. Qed.

Lemma sys_timeout_run b s n msecs f a :
  ordered b s -> pool s = S n -> 0 <= msecs <= 1073741823 ->
  since b (sys_now (world s)) + msecs <= LWIP_MAX_TIMEOUT ->
  exists l1 l2, next_timeout s = l1 ++ l2 /\
    let x := mkTimeo (u32 (sys_now (world s) + msecs)) f a in
    sys_timeout msecs f a s = Done (tt, set_list (l1 ++ x :: l2) n s) /\
    Forall (fun y => due_le b y x) l1 /\ Forall (fun y => since b (time x) < since b (time y)) l2 /\
    StronglySorted (due_le b) (l1 ++ x :: l2) /\ since b (time x) = since b (sys_now (world s)) + msecs.
Proof.
  intros [Hw Hs] Hp Hm Hmax. set (x := mkTimeo (u32 (sys_now (world s) + msecs)) f a).
  assert (Hx : since b (time x) = since b (sys_now (world s)) + msecs)
    by (unfold LWIP_MAX_TIMEOUT in *; apply since_add; lia).
  destruct (insert_ordered b x (next_timeout s)) as (l1 & l2 & E1 & E2 & F & G);
    [unfold in_window; by rewrite Hx|done|done|].
  destruct (insert_sorted b x (next_timeout s)) as (S & _); [unfold in_window; by rewrite Hx|done|done|].
  exists l1, l2. split; [done|]. cbv zeta. rewrite <- E2. split; [|done].
  unfold sys_timeout. mred. change (4294967295 / 4) with 1073741823. destruct (Z.leb_spec msecs 1073741823) as [_|L]; [|lia].
  by apply sys_timeout_abs_run.
Qed.

(** ** One-shot timeouts *)

Definition is_callback (t : sys_timeo) : Prop :=
  match h t with H_NULL | H_callback _ => True | _ => False end.
Definition run_one (w : W) (t : sys_timeo) : W :=
  match h t with H_callback g => run_callback g (arg t) w | _ => w end.

Lemma check_loop_callbacks fuel now b due rest s :
  (length due < fuel)%nat -> next_timeout s = due ++ rest -> Forall is_callback due ->
  since b now <= LWIP_MAX_TIMEOUT -> Forall (in_window b) (due ++ rest) ->
  Forall (fun t => since b (time t) <= since b now) due ->
  (forall t, head rest = Some t -> since b now < since b (time t)) ->
  check_loop fuel now s = Done (tt, mkTimeouts rest (List.last (map time due) (current_timeout_due_time s))
    (tcpip_tcp_timer_active s) (length due + pool s) (foldl run_one (world s) due)).
Proof.
  intros Hf Hl Hc Hn Hw Hd Hr. revert fuel s Hf Hl.
  induction due as [|t due IH]; intros fuel s Hf Hl; (destruct fuel as [|fuel]; [cbn in Hf; lia|]);
    cbn [check_loop app] in *; mred; rewrite Hl.
  - destruct s as [l d ac p w]. cbn in Hl. subst l. destruct rest as [|t r]; [done|].
    apply Forall_cons in Hw as [Ht _]. rewrite (less_than_since b _ _ Hn Ht).
    by destruct (Z.ltb_spec (since b now) (since b (time t))) as [_|L]; [|specialize (Hr t eq_refl); lia].
  - apply Forall_cons in Hw as [Ht Hw]. apply Forall_cons in Hd as [Hdt Hd]. apply Forall_cons in Hc as [Hct Hc].
    rewrite (less_than_since b _ _ Hn Ht).
    destruct (Z.ltb_spec (since b now) (since b (time t))) as [L|_]; [lia|].
    set (s1 := set_due _ _). assert (Hcall : call_handler (h t) (arg t) s1 =
      Done (tt, mkTimeouts (due ++ rest) (time t) (tcpip_tcp_timer_active s) (S (pool s)) (run_one (world s) t))).
    { unfold is_callback in Hct. unfold call_handler, run_one. by destruct (h t). }
    rewrite Hcall. rewrite (IH Hc Hw Hd); [|cbn in Hf; lia|done].
    cbn [current_timeout_due_time tcpip_tcp_timer_active pool world map length foldl].
    rewrite last_cons_default. by rewrite Nat.add_succ_r.
Qed.

(** ** The cyclic timers *)

(** The handlers may let up to [D] milliseconds pass. *)
Variable D : Z.
Hypothesis D_pos : 0 <= D.
Hypothesis timer_takes : forall c w, exists d, 0 <= d <= D /\ sys_now (run_timer c w) = u32 (sys_now w + d).
Hypothesis callback_takes : forall g a w, exists d, 0 <= d <= D /\ sys_now (run_callback g a w) = u32 (sys_now w + d).

Definition is_cyclic (t : sys_timeo) : Prop := h t = H_lwip_cyclic_timer.
#[export] Instance is_cyclic_dec t : Decision (is_cyclic t).
Proof. unfold is_cyclic. apply _. Defined.
Definition cyclic_args (l : list sys_timeo) : list Z := map arg (filter is_cyclic l).

(** How often a timeout can still fire when the check started [M30]
    milliseconds after the base. *)
Definition M30 : Z := 1073741824.
Definition weight (b : Z) (t : sys_timeo) : nat :=
  if since b (time t) <? M30 then 2 else if since b (time t) =? M30 then 1 else 0.
Definition total_weight (b : Z) (l : list sys_timeo) : nat := sum_list_with (weight b) l.

(** [p] milliseconds after the check started. *)
Record checking (b p : Z) (s : St) : Prop := {
  chk_ord : ordered b s;
  chk_args : Forall (fun t => is_cyclic t -> 0 <= arg t < 4) (next_timeout s);
  chk_now : since b (sys_now (world s)) = M30 + p;
  chk_p : 0 <= p;
  chk_budget : p + Z.of_nat (total_weight b (next_timeout s)) * D <= 1073000000
}.

Lemma total_weight_insert b x l :
  in_window b x -> Forall (in_window b) l ->
  total_weight b (insert_timeout x l) = (weight b x + total_weight b l)%nat.
Proof.
  intros Hx Hl. destruct (insert_split b x l Hx Hl) as (l1 & l2 & -> & -> & _).
  unfold total_weight. rewrite !sum_list_with_app. cbn. lia.
Qed.

Lemma cyclic_args_perm l l' : Permutation l l' -> Permutation (cyclic_args l) (cyclic_args l').
Proof. intros E. unfold cyclic_args. by rewrite E. Qed.
Lemma cyclic_args_app l l' : cyclic_args (l ++ l') = cyclic_args l ++ cyclic_args l'.
Proof. unfold cyclic_args. by rewrite filter_app, map_app. Qed.

(** A handler has run and its timeout [t] has been replaced by [x]. *)
Lemma re_add b p p' s s1 t r x :
  checking b p s -> next_timeout s = t :: r -> next_timeout s1 = r -> pool s1 = S (pool s) ->
  since b (sys_now (world s1)) = M30 + p' -> p <= p' <= p + D ->
  in_window b x -> (weight b x < weight b t)%nat -> (is_cyclic x -> 0 <= arg x < 4) ->
  exists s', sys_timeout_abs (time x) (h x) (arg x) s1 = Done (tt, s') /\ checking b p' s' /\
    (total_weight b (next_timeout s') < total_weight b (next_timeout s))%nat /\
    (length (next_timeout s') + pool s' = length (next_timeout s) + pool s)%nat /\
    Permutation (cyclic_args (next_timeout s')) (cyclic_args [x] ++ cyclic_args r).
Proof.
  intros [[Hw Hs] Ha Hn Hp Hb] Hl Hl1 Hp1 Hn1 Hpp Hx Hwt Hax.
  rewrite Hl in *. apply Forall_cons in Hw as [Ht Hw]. apply StronglySorted_inv in Hs as [Hs _].
  apply Forall_cons in Ha as [_ Ha]. rewrite (sys_timeout_abs_run _ _ _ _ _ Hp1), Hl1.
  destruct x as [tx hx ax]. cbn [time h arg]. set (x := mkTimeo tx hx ax) in *.
  eexists. split; [reflexivity|]. cbn [next_timeout set_list pool].
  destruct (insert_sorted b x r Hx Hw Hs) as (Hs' & Hw' & Hperm).
  pose proof (total_weight_insert b x r Hx Hw) as Ht'.
  assert (Htw : total_weight b (t :: r) = (weight b t + total_weight b r)%nat) by done.
  split; [|split; [lia|split; [rewrite Hperm; cbn; lia|]]]; [|rewrite (cyclic_args_perm _ _ Hperm); by rewrite <- cyclic_args_app].
  constructor; cbn [next_timeout set_list world]; [by constructor| |done|lia|nia].
  rewrite Hperm. by constructor.
Qed.

(** A handler has run and its timeout [t] is gone. *)
Lemma not_re_added b p p' s s1 t r :
  checking b p s -> next_timeout s = t :: r -> next_timeout s1 = r -> pool s1 = S (pool s) ->
  since b (sys_now (world s1)) = M30 + p' -> p <= p' <= p + D -> since b (time t) <= M30 ->
  checking b p' s1 /\
    (total_weight b (next_timeout s1) < total_weight b (next_timeout s))%nat /\
    (length (next_timeout s1) + pool s1 = length (next_timeout s) + pool s)%nat.
Proof.
  intros [[Hw Hs] Ha Hn Hp Hb] Hl Hl1 Hp1 Hn1 Hpp Hdue.
  rewrite Hl in *. apply Forall_cons in Hw as [Ht Hw]. apply StronglySorted_inv in Hs as [Hs _].
  apply Forall_cons in Ha as [_ Ha].
  assert (Htw : total_weight b (t :: r) = (weight b t + total_weight b r)%nat) by done.
  assert (Hwt : (0 < weight b t)%nat) by (unfold weight; zcase; zcase).
  rewrite Hl1, Hp1. split; [|split; [lia|cbn; lia]].
  constructor; rewrite ?Hl1; [by constructor; rewrite Hl1|done|done|lia|nia].
Qed.

Lemma clock_step b p w w' : since b (sys_now w) = M30 + p -> 0 <= p <= 1073000000 ->
  (exists d, 0 <= d <= D /\ sys_now w' = u32 (sys_now w + d)) -> p + D <= 1073000000 ->
  exists p', since b (sys_now w') = M30 + p' /\ p <= p' <= p + D.
Proof.
  intros Hn Hp (d & Hd & ->) HD. exists (p + d). split; [|lia].
  unfold since, M30 in *. zlia.
Qed.

Lemma intervals_small (a : nat) c : lwip_cyclic_timers !! a = Some c -> 1 <= interval_ms c <= 60000.
Proof. do 4 (destruct a as [|a]; [intros [= <-]; by_decision|]). done. Qed.

Lemma weight_le_2 b t : (weight b t <= 2)%nat.
Proof. unfold weight. repeat zcase. Qed.

(** A timeout that becomes later, and not before the start of the check, weighs less. *)
Lemma weight_later b x y : since b (time x) <= M30 -> M30 <= since b (time y) ->
  since b (time x) < since b (time y) -> (weight b y < weight b x)%nat.
Proof. unfold weight. intros. repeat zcase. Qed.

Definition popped (t : sys_timeo) (r : list sys_timeo) (s : St) : St :=
  set_due (time t) (set_list r (S (pool s)) s).

Definition handled (b p : Z) (s : St) (t : sys_timeo) (r : list sys_timeo) (s' : St) : Prop :=
  (exists p', checking b p' s') /\
  (total_weight b (next_timeout s') < total_weight b (next_timeout s))%nat /\
  (length (next_timeout s') + pool s' = length (next_timeout s) + pool s)%nat /\
  Permutation (cyclic_args (next_timeout s')) (cyclic_args (t :: r)).

Lemma budget b p s t r : checking b p s -> next_timeout s = t :: r -> since b (time t) <= M30 ->
  0 <= p <= 1073000000 /\ p + D <= 1073000000.
Proof.
  intros [_ _ _ Hp Hb] Hl Hdue. rewrite Hl in Hb.
  assert (Htw : total_weight b (t :: r) = (weight b t + total_weight b r)%nat) by done.
  assert (Hwt : (0 < weight b t)%nat) by (unfold weight; zcase; zcase). nia.
Qed.

Lemma cyclic_step b p s t r :
  checking b p s -> next_timeout s = t :: r -> since b (time t) <= M30 -> h t = H_lwip_cyclic_timer ->
  exists s', call_handler (h t) (arg t) (popped t r s) = Done (tt, s') /\ handled b p s t r s'.
Proof.
  intros Hc Hl Hdue Hh. destruct (budget _ _ _ _ _ Hc Hl Hdue) as [Hp HpD].
  pose proof (chk_args _ _ _ Hc) as Ha. rewrite Hl in Ha. apply Forall_cons in Ha as [Ha _]. specialize (Ha Hh).
  destruct (lookup_lt_is_Some_2 lwip_cyclic_timers (Z.to_nat (arg t))) as [c Hcy]; [cbn; lia|].
  pose proof (intervals_small _ _ Hcy) as HI.
  destruct (clock_step b p (world s) (run_timer (handler_of c) (world s)) (chk_now _ _ _ Hc) Hp
    (timer_takes _ _) HpD) as (p' & Hn' & Hp').
  set (now' := sys_now (run_timer (handler_of c) (world s))) in *.
  assert (Hnext : since b (u32 (time t + interval_ms c)) = since b (time t) + interval_ms c)
    by (unfold M30 in *; apply since_add; lia).
  assert (Hover : since b (u32 (now' + interval_ms c)) = M30 + p' + interval_ms c)
    by (rewrite <- Hn'; unfold M30 in *; apply since_add; lia).
  set (s1 := on_world (run_timer (handler_of c)) (popped t r s)).
  assert (Es1 : sys_now (world s1) = now') by done. assert (Et1 : current_timeout_due_time s1 = time t) by done.
  assert (Hadd : forall tx, since b tx <= LWIP_MAX_TIMEOUT ->
    (weight b (mkTimeo tx H_lwip_cyclic_timer (arg t)) < weight b t)%nat ->
    exists s', sys_timeout_abs tx H_lwip_cyclic_timer (arg t) s1 = Done (tt, s') /\ handled b p s t r s').
  { intros tx Hw Hwt.
    destruct (re_add b p p' s s1 t r (mkTimeo tx H_lwip_cyclic_timer (arg t))) as (s' & H1 & H2 & H3 & H4 & H5);
      [done..|]. exists s'. split; [exact H1|]. split; [by eexists|]. split; [done|]. split; [done|].
    rewrite H5. change (t :: r) with ([t] ++ r). rewrite cyclic_args_app. apply reflexive_eq. f_equal.
    unfold cyclic_args. by rewrite !filter_cons_True. }
  assert (HM : M30 + 1073000000 + 60000 <= LWIP_MAX_TIMEOUT) by by_decision.
  rewrite Hh. unfold call_handler, lwip_cyclic_timer.
  erewrite bind_done by (unfold of_option; rewrite Hcy; reflexivity).
  erewrite bind_done by reflexivity. fold s1. erewrite bind_done by reflexivity.
  clearbody s1. cbv zeta. rewrite Es1, Et1, (less_than_since b), Hnext, Hn' by lia. clear - Hadd Hover Hnext HI Hdue Hp' Hp HpD HM.
  destruct (Z.ltb_spec (since b (time t) + interval_ms c) (M30 + p')) as [L|L].
  - apply Hadd; [lia|]. apply weight_later; cbn [time]; lia.
  - apply Hadd; [lia|]. apply weight_later; cbn [time]; lia.
Qed.

Lemma popped_handled b p p' s s1 t r :
  checking b p s -> next_timeout s = t :: r -> since b (time t) <= M30 -> ~ is_cyclic t ->
  next_timeout s1 = r -> pool s1 = S (pool s) ->
  since b (sys_now (world s1)) = M30 + p' -> p <= p' <= p + D -> handled b p s t r s1.
Proof.
  intros Hc Hl Hdue Hn Hl1 Hp1 Hn1 Hp'.
  destruct (not_re_added b p p' s s1 t r) as (H2 & H3 & H4); [done..|].
  split; [by eexists|]. split; [done|]. split; [done|]. rewrite Hl1.
  unfold cyclic_args. by rewrite (filter_cons_False _ t).
Qed.

Lemma tcp_timer_step b p s t r :
  checking b p s -> next_timeout s = t :: r -> since b (time t) <= M30 -> h t = H_tcpip_tcp_timer ->
  exists s', call_handler (h t) (arg t) (popped t r s) = Done (tt, s') /\ handled b p s t r s'.
Proof.
  intros Hc Hl Hdue Hh. destruct (budget _ _ _ _ _ Hc Hl Hdue) as [Hp HpD].
  assert (Hnc : ~ is_cyclic t) by (unfold is_cyclic; by rewrite Hh).
  destruct (clock_step b p (world s) (run_timer tcp_tmr (world s)) (chk_now _ _ _ Hc) Hp
    (timer_takes _ _) HpD) as (p' & Hn' & Hp').
  set (s1 := on_world (run_timer tcp_tmr) (popped t r s)).
  rewrite Hh. unfold call_handler, tcpip_tcp_timer, sys_timeout. mred. fold s1.
  destruct (tcp_pcbs (world s1)).
  - change (TCP_TMR_INTERVAL <=? 4294967295 / 4) with true. cbv iota.
    assert (Hx : since b (u32 (sys_now (world s1) + TCP_TMR_INTERVAL)) = M30 + p' + 250)
      by (rewrite <- Hn'; unfold M30, TCP_TMR_INTERVAL in *; apply since_add; lia).
    destruct (re_add b p p' s s1 t r (mkTimeo (u32 (sys_now (world s1) + TCP_TMR_INTERVAL)) H_tcpip_tcp_timer 0))
      as (s' & H1 & H2 & H3 & H4 & H5); [done..| | |done|].
    + unfold in_window, M30, LWIP_MAX_TIMEOUT in *. cbn [time]. lia.
    + unfold weight, M30 in *. cbn [time]. rewrite Hx. repeat zcase.
    + exists s'. split; [exact H1|]. split; [by eexists|]. split; [done|]. split; [done|].
      rewrite H5. unfold cyclic_args. by rewrite !(filter_cons_False _ t).
  - exists (set_active 0 s1). split; [done|]. by apply popped_handled with p'.
Qed.

Lemma handler_step b p s t r :
  checking b p s -> next_timeout s = t :: r -> since b (time t) <= M30 ->
  exists s', call_handler (h t) (arg t) (popped t r s) = Done (tt, s') /\ handled b p s t r s'.
Proof.
  intros Hc Hl Hdue. destruct (budget _ _ _ _ _ Hc Hl Hdue) as [Hp HpD].
  destruct (h t) as [| | |g] eqn:Hh.
  - exists (popped t r s). split; [done|]. apply popped_handled with p; try done; [|apply (chk_now _ _ _ Hc)|lia].
    unfold is_cyclic. by rewrite Hh.
  - rewrite <- Hh. by apply cyclic_step.
  - rewrite <- Hh. by apply tcp_timer_step.
  - destruct (clock_step b p (world s) (run_callback g (arg t) (world s)) (chk_now _ _ _ Hc) Hp
      (callback_takes _ _ _) HpD) as (p' & Hn' & Hp').
    exists (on_world (run_callback g (arg t)) (popped t r s)). split; [done|].
    apply popped_handled with p'; try done. unfold is_cyclic. by rewrite Hh.
Qed.

Lemma check_loop_terminates fuel b p now s :
  checking b p s -> since b now = M30 -> (total_weight b (next_timeout s) < fuel)%nat ->
  exists s' p', check_loop fuel now s = Done (tt, s') /\ checking b p' s' /\
    (forall t, head (next_timeout s') = Some t -> since b now < since b (time t)) /\
    (length (next_timeout s') + pool s' = length (next_timeout s) + pool s)%nat /\
    Permutation (cyclic_args (next_timeout s')) (cyclic_args (next_timeout s)).
Proof.
  intros Hc Hn. revert p s Hc. induction fuel as [|fuel IH]; intros p s Hc Hf; [lia|]. cbn [check_loop]. mred.
  destruct (next_timeout s) as [|t r] eqn:Hl.
  - exists s, p. rewrite Hl. split; [done|]. split; [done|]. split; [by intros ? [=]|]. by split.
  - assert (Ht : since b (time t) <= LWIP_MAX_TIMEOUT).
    { destruct Hc as [[Hw _] _ _ _ _]. rewrite Hl in Hw. by apply Forall_cons in Hw as [Ht _]. }
    rewrite (less_than_since b); [|rewrite Hn; by_decision|done]. rewrite Hn.
    destruct (Z.ltb_spec M30 (since b (time t))) as [L|L].
    + exists s, p. rewrite Hl. split; [done|]. split; [done|]. split; [by intros ? [= <-]|]. by split.
    + destruct (handler_step b p s t r Hc Hl L) as (s1 & Hrun & (p1 & Hc1) & Hw1 & Hl1 & Hp1).
      fold (popped t r s). rewrite Hrun, <- Hl in *.
      destruct (IH p1 s1 Hc1 ltac:(lia)) as (s' & p' & R1 & R2 & R3 & R4 & R5).
      exists s', p'. rewrite Hn in R3. split; [done|]. split; [done|]. split; [done|]. split; [lia|].
      rewrite R5, Hp1. by rewrite Hl.
Qed.

Lemma total_weight_le b l : (total_weight b l <= 2 * length l)%nat.
Proof.
  induction l as [|t l IH]; [done|]. unfold total_weight in *. cbn [sum_list_with length].
  pose proof (weight_le_2 b t). lia.
Qed.

(** *** Properties *)

(** in a list ordered by due time, wrap-around of the clock included,
    [sys_timeout] inserts the new timeout behind every timeout due no later and
    before every one due later, so that timeouts of equal time expire in the
    order in which they were set. *)
Theorem sys_timeout_keeps_order b s n msecs f a :
  ordered b s -> pool s = S n -> 0 <= msecs <= 1073741823 ->
  since b (sys_now (world s)) + msecs <= LWIP_MAX_TIMEOUT ->
  exists l1 l2, next_timeout s = l1 ++ l2 /\
    let x := mkTimeo (u32 (sys_now (world s) + msecs)) f a in
    sys_timeout msecs f a s = Done (tt, set_list (l1 ++ x :: l2) n s) /\
    Forall (fun y => due_le b y x) l1 /\ Forall (fun y => since b (time x) < since b (time y)) l2 /\
    StronglySorted (due_le b) (l1 ++ x :: l2) /\ since b (time x) = since b (sys_now (world s)) + msecs.
Proof. apply sys_timeout_run. Qed.

(** With one-shot timeouts, [sys_check_timeouts] calls exactly those due at
    its start, earliest first, gives their elements back to the pool and leaves
    the others. *)
Theorem sys_check_timeouts_fires fuel b due rest s :
  (length due < fuel)%nat -> next_timeout s = due ++ rest -> Forall is_callback due ->
  ordered b s -> since b (sys_now (world s)) <= LWIP_MAX_TIMEOUT ->
  Forall (fun t => since b (time t) <= since b (sys_now (world s))) due ->
  (forall t, head rest = Some t -> since b (sys_now (world s)) < since b (time t)) ->
  sys_check_timeouts fuel s = Done (tt, mkTimeouts rest
    (List.last (map time due) (current_timeout_due_time s)) (tcpip_tcp_timer_active s)
    (length due + pool s) (foldl run_one (world s) due)).
Proof.
  intros Hf Hl Hc [Hw _] Hn Hd Hr. unfold sys_check_timeouts. mred. rewrite Hl in Hw.
  by apply check_loop_callbacks with b.
Qed.


(** [sys_timeouts_sleeptime] is the exact time until the earliest timeout is
    due, 0 when it already is, and its assertion holds. *)
Theorem sys_timeouts_sleeptime_exact b s t r :
  ordered b s -> next_timeout s = t :: r -> since b (sys_now (world s)) <= LWIP_MAX_TIMEOUT ->
  sys_timeouts_sleeptime s = Done (Z.max 0 (since b (time t) - since b (sys_now (world s))), s).
Proof.
  intros [Hw _] Hl Hn. rewrite Hl in Hw. apply Forall_cons in Hw as [Ht _].
  unfold sys_timeouts_sleeptime. mred. rewrite Hl, (less_than_since b _ _ Ht Hn).
  destruct (Z.ltb_spec (since b (time t)) (since b (sys_now (world s)))) as [L|L].
  - by rewrite Z.max_l by lia.
  - rewrite (since_sub b) by done. rewrite Z.max_r by lia. unfold in_window in Ht.
    pose proof (since_pos b (sys_now (world s))).
    by destruct (Z.leb_spec (since b (time t) - since b (sys_now (world s))) LWIP_MAX_TIMEOUT) as [_|L2]; [|lia].
Qed.
End Timeouts.

(** ** The properties on concrete timers: the clock is the world and every
    handler takes a millisecond *)

Definition tick_timer (_ : timer_fn) (w : Z) : Z := u32 (w + 1).
Definition tick_callback (_ _ w : Z) : Z := u32 (w + 1).
Definition late (d : Z) (s : timeouts Z) : timeouts Z := on_world (fun w => u32 (w + d)) s.
(** The initialised timers close to the wrap of the clock, with a callback. *)
Definition started : timeouts Z :=
  exec (sys_timeouts_init id;; sys_timeout id 700 (H_callback 7) 0) (mkTimeouts [] 0 0 12 4294966296).
Definition one_shots : timeouts Z :=
  exec (sys_timeout id 700 (H_callback 7) 0;; sys_timeout id 500 (H_callback 8) 0)
    (mkTimeouts [] 0 0 12 4294966296).

Lemma ordered_dec (b : Z) (s : timeouts Z) :
  bool_decide (Forall (fun x => since b (time x) <= LWIP_MAX_TIMEOUT) (next_timeout s) /\
    Sorted (fun x y => since b (time x) <= since b (time y)) (next_timeout s)) = true -> ordered b s.
Proof.
  intros [H1 H2]%bool_decide_eq_true. constructor; [done|]. apply Sorted_StronglySorted; [|done].
  intros x y z. unfold due_le. lia.
Qed.

Lemma sys_timeout_keeps_order_witness :
  exists l1 l2, next_timeout started = l1 ++ l2 /\
    sys_timeout id 700 (H_callback 9) 0 started =
      Done (tt, set_list (l1 ++ mkTimeo 4294966996 (H_callback 9) 0 :: l2) 7 started).
Proof.
  destruct (sys_timeout_keeps_order id 4294966296 started 7 700 (H_callback 9) 0) as (l1 & l2 & H1 & H2 & _).
  - apply ordered_dec. vm_compute. reflexivity.
  - reflexivity.
  - lia.
  - by_decision.
  - exists l1, l2. split; [exact H1|exact H2].
Defined.

Lemma sys_check_timeouts_fires_witness :
  exists s', sys_check_timeouts id tick_timer (fun _ => false) tick_callback 3 (late 600 one_shots) = Done (tt, s') /\
    map time (next_timeout s') = [4294966996].
Proof.
  eexists. split.
  - apply (sys_check_timeouts_fires id tick_timer (fun _ => false) tick_callback 3 4294966296
      [mkTimeo 4294966796 (H_callback 8) 0] [mkTimeo 4294966996 (H_callback 7) 0] (late 600 one_shots)).
    + cbn. lia.
    + vm_compute. reflexivity.
    + by constructor.
    + apply ordered_dec. vm_compute. reflexivity.
    + by_decision.
    + by_decision.
    + by intros t [= <-].
  - reflexivity.
Defined.


Lemma sys_timeouts_sleeptime_exact_witness : sys_timeouts_sleeptime id started = Done (500, started).
Proof.
  apply (sys_timeouts_sleeptime_exact id 4294966296 started (mkTimeo 4294966796 H_lwip_cyclic_timer 3)
    (tail (next_timeout started))).
  - apply ordered_dec. vm_compute. reflexivity.
  - vm_compute. reflexivity.
  - by_decision.
Defined.
