(* ===== verification/FList.v ===== *)
(** FreeRTOS/list.c: the circular doubly linked list with an end marker on
    which every scheduler queue (ready, delayed, event and timer lists) is
    built.  The store holds the pointer fields of every item; [rep] relates a
    store to the sequence of items a walk from the end marker meets. *)
From S2P Require Import Prelude.

Definition portMAX_DELAY : Z := 4294967295.

(** The common initial segment of [ListItem_t] and [MiniListItem_t]. *)
Record MiniListItem_t := mkMini {
  xItemValue : Z;
  pxNext : Z;
  pxPrevious : Z
}.

(** The fields that only a full [ListItem_t] has. *)
Record ItemTail := mkTail {
  pvOwner : Z;
  pxContainer : Z
}.

(** [List_t] without its embedded end marker. *)
Record List_t := mkList {
  uxNumberOfItems : Z;
  pxIndex : Z
}.

Record lstate := mkLstate {
  minis : gmap Z MiniListItem_t;
  tails : gmap Z ItemTail;
  lists : gmap Z List_t
}.

(** [&( pxList->xListEnd )]: after [uxNumberOfItems] and [pxIndex]. *)
Definition xListEnd (pxList : Z) : Z := pxList + 8.

Definition set_xItemValue (v : Z) (m : MiniListItem_t) := mkMini v (pxNext m) (pxPrevious m).
Definition set_pxNext (v : Z) (m : MiniListItem_t) := mkMini (xItemValue m) v (pxPrevious m).
Definition set_pxPrevious (v : Z) (m : MiniListItem_t) := mkMini (xItemValue m) (pxNext m) v.

Definition rd_mini (a : Z) : M lstate MiniListItem_t :=
  s ← get; of_option (minis s !! a).
Definition rd_tail (a : Z) : M lstate ItemTail :=
  s ← get; of_option (tails s !! a).
Definition rd_list (l : Z) : M lstate List_t :=
  s ← get; of_option (lists s !! l).
Definition wr_mini (a : Z) (f : MiniListItem_t -> MiniListItem_t) : M lstate unit :=
  m ← rd_mini a;
  modify (fun s => mkLstate (<[a := f m]> (minis s)) (tails s) (lists s)).
Definition wr_tail (a : Z) (f : ItemTail -> ItemTail) : M lstate unit :=
  m ← rd_tail a;
  modify (fun s => mkLstate (minis s) (<[a := f m]> (tails s)) (lists s)).
Definition wr_list (l : Z) (f : List_t -> List_t) : M lstate unit :=
  m ← rd_list l;
  modify (fun s => mkLstate (minis s) (tails s) (<[l := f m]> (lists s))).

Definition vListInitialise (pxList : Z) : M lstate unit :=
  wr_list pxList (fun l => mkList (uxNumberOfItems l) (xListEnd pxList));;
  wr_mini (xListEnd pxList) (set_xItemValue portMAX_DELAY);;
  wr_mini (xListEnd pxList) (set_pxNext (xListEnd pxList));;
  wr_mini (xListEnd pxList) (set_pxPrevious (xListEnd pxList));;
  wr_list pxList (fun l => mkList 0 (pxIndex l)).

Definition vListInitialiseItem (pxItem : Z) : M lstate unit :=
  wr_tail pxItem (fun t => mkTail (pvOwner t) 0).

Definition vListInsertEnd (pxList pxNewListItem : Z) : M lstate unit :=
  l ← rd_list pxList;
  let idx := pxIndex l in
  wr_mini pxNewListItem (set_pxNext idx);;
  im ← rd_mini idx;
  wr_mini pxNewListItem (set_pxPrevious (pxPrevious im));;
  im ← rd_mini idx;
  wr_mini (pxPrevious im) (set_pxNext pxNewListItem);;
  wr_mini idx (set_pxPrevious pxNewListItem);;
  wr_tail pxNewListItem (fun t => mkTail (pvOwner t) pxList);;
  wr_list pxList (fun l => mkList (u32 (uxNumberOfItems l + 1)) (pxIndex l)).

(** The [for] loop of [vListInsert]: walk while the next item's value is not
    greater than the inserted one. *)
Fixpoint insert_walk (fuel : nat) (v : Z) (pxIterator : Z) : M lstate Z :=
  match fuel with
  | O => stop_ NoFuel
  | S fuel =>
      it ← rd_mini pxIterator;
      nx ← rd_mini (pxNext it);
      if xItemValue nx <=? v then insert_walk fuel v (pxNext it)
      else mret pxIterator
  end.

Definition vListInsert (fuel : nat) (pxList pxNewListItem : Z) : M lstate unit :=
  new ← rd_mini pxNewListItem;
  let v := xItemValue new in
  pxIterator ← (if v =? portMAX_DELAY
                then e ← rd_mini (xListEnd pxList); mret (pxPrevious e)
                else insert_walk fuel v (xListEnd pxList));
  it ← rd_mini pxIterator;
  wr_mini pxNewListItem (set_pxNext (pxNext it));;
  new ← rd_mini pxNewListItem;
  wr_mini (pxNext new) (set_pxPrevious pxNewListItem);;
  wr_mini pxNewListItem (set_pxPrevious pxIterator);;
  wr_mini pxIterator (set_pxNext pxNewListItem);;
  wr_tail pxNewListItem (fun t => mkTail (pvOwner t) pxList);;
  wr_list pxList (fun l => mkList (u32 (uxNumberOfItems l + 1)) (pxIndex l)).

Definition uxListRemove (pxItemToRemove : Z) : M lstate Z :=
  t ← rd_tail pxItemToRemove;
  let pxList := pxContainer t in
  it ← rd_mini pxItemToRemove;
  wr_mini (pxNext it) (set_pxPrevious (pxPrevious it));;
  it ← rd_mini pxItemToRemove;
  wr_mini (pxPrevious it) (set_pxNext (pxNext it));;
  l ← rd_list pxList;
  it ← rd_mini pxItemToRemove;
  (if pxIndex l =? pxItemToRemove
   then wr_list pxList (fun l => mkList (uxNumberOfItems l) (pxPrevious it))
   else mret tt);;
  wr_tail pxItemToRemove (fun t => mkTail (pvOwner t) 0);;
  wr_list pxList (fun l => mkList (u32 (uxNumberOfItems l - 1)) (pxIndex l));;
  l ← rd_list pxList;
  mret (uxNumberOfItems l).

(** [listGET_OWNER_OF_NEXT_ENTRY]: advance [pxIndex], skipping the end marker. *)
Definition listGET_OWNER_OF_NEXT_ENTRY (pxList : Z) : M lstate Z :=
  l ← rd_list pxList;
  m ← rd_mini (pxIndex l);
  wr_list pxList (fun l => mkList (uxNumberOfItems l) (pxNext m));;
  l ← rd_list pxList;
  (if pxIndex l =? xListEnd pxList
   then m ← rd_mini (pxIndex l);
        wr_list pxList (fun l => mkList (uxNumberOfItems l) (pxNext m))
   else mret tt);;
  l ← rd_list pxList;
  t ← rd_tail (pxIndex l);
  mret (pvOwner t).

(** ** Representation *)

Definition nxt (s : lstate) (a : Z) : option Z := pxNext <$> minis s !! a.
Definition prv (s : lstate) (a : Z) : option Z := pxPrevious <$> minis s !! a.
Definition val (s : lstate) (a : Z) : option Z := xItemValue <$> minis s !! a.

Definition link (s : lstate) (a b : Z) : Prop := nxt s a = Some b /\ prv s b = Some a.

(** Every two neighbours of a path are linked both ways. *)
Fixpoint chain (s : lstate) (p : list Z) : Prop :=
  match p with
  | a :: ((b :: _) as r) => link s a b /\ chain s r
  | _ => True
  end.

Record rep (s : lstate) (l idx : Z) (xs : list Z) : Prop := {
  rep_list : lists s !! l = Some (mkList (u32 (Z.of_nat (length xs))) idx);
  rep_idx : idx ∈ xListEnd l :: xs;
  rep_end : val s (xListEnd l) = Some portMAX_DELAY;
  rep_chain : chain s (xListEnd l :: xs ++ [xListEnd l]);
  rep_nodup : NoDup (xListEnd l :: xs);
  rep_own x : x ∈ xs -> pxContainer <$> tails s !! x = Some l;
  rep_val x : x ∈ xs -> exists v, val s x = Some v /\ is_u32 v
}.

(** What list operations leave alone: item values and owners everywhere, and
    all pointers and containers outside [dom]. *)
Definition frame (s s' : lstate) (dom : list Z) (l : Z) : Prop :=
  (forall a, val s' a = val s a) /\
  (forall a, pvOwner <$> tails s' !! a = pvOwner <$> tails s !! a) /\
  (forall a, a ∉ dom -> minis s' !! a = minis s !! a /\ tails s' !! a = tails s !! a) /\
  (forall l', l' <> l -> lists s' !! l' = lists s !! l').

(** Where [vListInsert] puts an item: after the longest prefix of items whose
    value is not greater. *)
Fixpoint place (vals : Z -> option Z) (i : Z) (v : Z) (xs : list Z) : list Z :=
  match xs with
  | [] => [i]
  | x :: r => match vals x with
              | Some w => if w <=? v then x :: place vals i v r else i :: xs
              | None => i :: xs
              end
  end.

(** ** Chains *)

Lemma chain_app s p a q : chain s (p ++ a :: q) <-> chain s (p ++ [a]) /\ chain s (a :: q).
Proof.
  induction p as [|x p IH]; [cbn; tauto|].
  destruct p as [|y p]; cbn in *; tauto.
Qed.

Lemma chain_minis s s' p : minis s' = minis s -> chain s p -> chain s' p.
Proof.
  intros E. induction p as [|a p IH]; [done|]. destruct p as [|b p]; [done|].
  intros [[H1 H2] Hc]. split; [|by apply IH]. unfold link, nxt, prv in *. by rewrite E.
Qed.

Lemma chain_mid s p a b q :
  chain s (p ++ a :: b :: q) <-> chain s (p ++ [a]) /\ link s a b /\ chain s (b :: q).
Proof. rewrite chain_app. cbn. tauto. Qed.

Lemma chain_frame s s' a p b :
  chain s (a :: p ++ [b]) ->
  (forall x, x ∈ a :: p -> nxt s' x = nxt s x) ->
  (forall x, x ∈ p ++ [b] -> prv s' x = prv s x) ->
  chain s' (a :: p ++ [b]).
Proof.
  revert a. induction p as [|x p IH]; intros a Hc Hn Hp.
  - destruct Hc as [[H1 H2] _]. split; [|done]. split.
    + rewrite Hn; [done|set_solver].
    + rewrite Hp; [done|set_solver].
  - destruct Hc as [[H1 H2] Hc]. split.
    + split; [rewrite Hn|rewrite Hp]; set_solver.
    + apply IH; [done|set_solver|set_solver].
Qed.

(** A path from [a] to [b]: split at its last edge and its first edge. *)
Lemma snoc_cases {A} (a : A) (p : list A) : exists q x, a :: p = q ++ [x].
Proof.
  destruct (exists_last (l := a :: p)) as (q & x & H); [done|eauto].
Qed.

(** The state after splicing [i] between [it] and [nx]. *)
Definition spliced (s s' : lstate) (it i nx : Z) : Prop :=
  nxt s' i = Some nx /\ prv s' i = Some it /\
  nxt s' it = Some i /\ prv s' nx = Some i /\
  (forall a, a <> i -> a <> it -> nxt s' a = nxt s a) /\
  (forall a, a <> i -> a <> nx -> prv s' a = prv s a).

Lemma chain_splice s s' e xs1 xs2 i it nx q1 q2 :
  chain s (e :: (xs1 ++ xs2) ++ [e]) ->
  NoDup (e :: xs1 ++ xs2) -> i ∉ e :: xs1 ++ xs2 ->
  e :: xs1 = q1 ++ [it] -> xs2 ++ [e] = nx :: q2 ->
  spliced s s' it i nx ->
  chain s' (e :: (xs1 ++ i :: xs2) ++ [e]).
Proof.
  intros Hc Hnd Hi H1 H2 (Hni & Hpi & Hnit & Hpnx & Hn & Hp).
  assert (Hpath : e :: (xs1 ++ xs2) ++ [e] = q1 ++ it :: nx :: q2).
  { rewrite <- app_assoc, H2, app_comm_cons, H1, <- app_assoc. done. }
  assert (Hgoal : e :: (xs1 ++ i :: xs2) ++ [e] = q1 ++ it :: i :: nx :: q2).
  { rewrite <- app_assoc; cbn. rewrite H2, app_comm_cons, H1, <- app_assoc. done. }
  rewrite Hpath in Hc. rewrite Hgoal. apply chain_mid in Hc as (Hc1 & _ & Hc2).
  assert (Hnd1 : NoDup (q1 ++ [it])).
  { rewrite <- H1. rewrite app_comm_cons in Hnd. by apply NoDup_app in Hnd as [? _]. }
  assert (Hnd2 : NoDup (nx :: q2)).
  { rewrite <- H2. apply NoDup_cons in Hnd as [He Hnd]. apply NoDup_app in Hnd as (_ & _ & Hnd).
    apply NoDup_app. split; [done|]. split; [set_solver|apply NoDup_singleton]. }
  assert (Hdis : forall x, x ∈ q1 ++ [it] -> x ∈ xs2 -> False).
  { rewrite <- H1. rewrite app_comm_cons in Hnd. apply NoDup_app in Hnd as (_ & Hd & _). eauto. }
  assert (Hi1 : i ∉ q1 ++ [it]) by (rewrite <- H1; set_solver).
  assert (Hi2 : i ∉ nx :: q2) by (rewrite <- H2; set_solver).
  apply chain_mid. split; [|split].
  - destruct q1 as [|a q1]; [done|]. cbn. apply (chain_frame s); [exact Hc1| |].
    + intros x Hx. apply Hn; [set_solver|]. intros ->.
      apply NoDup_app in Hnd1 as (_ & Hd & _). eapply Hd; [exact Hx|set_solver].
    + intros x Hx. apply Hp; [set_solver|]. intros ->.
      assert (nx ∈ xs2 \/ nx = e) as [Hx2|Hx2]
        by (assert (nx ∈ xs2 ++ [e]) by (rewrite H2; set_solver); set_solver).
      * apply (Hdis nx); [set_solver|done].
      * subst nx. injection H1 as <- _. apply NoDup_cons in Hnd1 as [Hd _]. by apply Hd.
  - done.
  - enough (chain s' (nx :: q2)) by done. destruct q2 as [|b q2]; [done|].
    destruct (snoc_cases b q2) as (q & x & Hq). rewrite Hq in *.
    apply (chain_frame s); [exact Hc2| |].
    + intros y Hy. apply Hn; [set_solver|]. intros ->.
      rewrite app_comm_cons in H2. apply app_inj_tail in H2 as [-> _].
      apply (Hdis it); [set_solver|done].
    + intros y Hy. apply Hp; [set_solver|]. intros ->.
      apply NoDup_cons in Hnd2 as [? _]. done.
Qed.

(** ** The pointer surgery of both insertions *)

Lemma obs_minis s s' a : minis s' !! a = minis s !! a ->
  nxt s' a = nxt s a /\ prv s' a = prv s a /\ val s' a = val s a.
Proof. unfold nxt, prv, val. by intros ->. Qed.

Lemma nxt_Some s a b : nxt s a = Some b ->
  exists m, minis s !! a = Some m /\ pxNext m = b.
Proof. unfold nxt. intros (m & H & ->)%fmap_Some. eauto. Qed.
Lemma prv_Some s a b : prv s a = Some b ->
  exists m, minis s !! a = Some m /\ pxPrevious m = b.
Proof. unfold prv. intros (m & H & ->)%fmap_Some. eauto. Qed.
Lemma val_Some s a b : val s a = Some b ->
  exists m, minis s !! a = Some m /\ xItemValue m = b.
Proof. unfold val. intros (m & H & ->)%fmap_Some. eauto. Qed.

(** Evaluate reads and writes whose addresses are known to be mapped. *)
Ltac lstep :=
  unfold wr_mini, wr_tail, wr_list, rd_mini, rd_tail, rd_list; mred;
  repeat (progress (simplify_map_eq; mred)).

(** The two insertions end in the same store: [i] linked between [it] and [nx]. *)
Definition splice_store (m : gmap Z MiniListItem_t) (it i nx : Z) : gmap Z MiniListItem_t :=
  alter (set_pxPrevious i) nx
    (alter (set_pxNext i) it
       (alter (fun mi => mkMini (xItemValue mi) nx it) i m)).

Lemma splice_spliced s s' it i nx :
  minis s' = splice_store (minis s) it i nx ->
  i <> it -> i <> nx ->
  is_Some (minis s !! i) -> is_Some (minis s !! it) -> is_Some (minis s !! nx) ->
  spliced s s' it i nx /\ (forall a, val s' a = val s a) /\
  (forall a, a <> i -> a <> it -> a <> nx -> minis s' !! a = minis s !! a).
Proof.
  intros Hm H1 H2 [mi Hi] [mit Hit] [mnx Hnx].
  unfold spliced, nxt, prv, val. rewrite Hm. unfold splice_store.
  repeat split; intros;
    repeat (rewrite lookup_alter; case_decide; subst; try congruence);
    rewrite ?Hi, ?Hit, ?Hnx; try done;
    try (destruct (minis s !! a); done).
Qed.

Lemma walk_step (f : nat) v a s m mn :
  minis s !! a = Some m -> minis s !! (pxNext m) = Some mn ->
  insert_walk (S f) v a s =
  if xItemValue mn <=? v then insert_walk f v (pxNext m) s else Done (a, s).
Proof.
  intros H1 H2. cbn [insert_walk]. lstep. by destruct (_ <=? _).
Qed.

(** Two stores built by updates at [i], [it] and [nx] agree point by point. *)
Ltac solve_splice :=
  apply map_eq; intros ?a; unfold splice_store;
  repeat (first [rewrite lookup_alter | rewrite lookup_insert]; case_decide; subst;
          try congruence);
  simplify_map_eq; try done.

(** [vListInsertEnd] and the tail of [vListInsert] perform exactly the splice. *)
Lemma insertEnd_run l i s lst mi mit mnx ti :
  lists s !! l = Some lst -> minis s !! i = Some mi -> tails s !! i = Some ti ->
  minis s !! pxIndex lst = Some mnx -> minis s !! pxPrevious mnx = Some mit ->
  i <> pxIndex lst -> i <> pxPrevious mnx ->
  vListInsertEnd l i s =
  Done (tt, mkLstate (splice_store (minis s) (pxPrevious mnx) i (pxIndex lst))
              (<[i := mkTail (pvOwner ti) l]> (tails s))
              (<[l := mkList (u32 (uxNumberOfItems lst + 1)) (pxIndex lst)]> (lists s))).
Proof.
  intros Hl Hi Ht Hx Hp N1 N2. destruct lst as [n idx]; cbn in *.
  unfold vListInsertEnd. lstep.
  destruct (decide (pxPrevious mnx = idx)) as [E|E]; [rewrite E in *|]; lstep;
    do 3 f_equal; solve_splice.
Qed.

Lemma insert_tail_run f l i s lst v mi it mit mnx ti :
  lists s !! l = Some lst -> minis s !! i = Some mi -> tails s !! i = Some ti ->
  xItemValue mi = v ->
  (if v =? portMAX_DELAY then Done (default 0 (prv s (xListEnd l)), s)
   else insert_walk f v (xListEnd l) s) = Done (it, s) ->
  is_Some (minis s !! xListEnd l) ->
  minis s !! it = Some mit -> minis s !! pxNext mit = Some mnx ->
  i <> it -> i <> pxNext mit ->
  vListInsert f l i s =
  Done (tt, mkLstate (splice_store (minis s) it i (pxNext mit))
              (<[i := mkTail (pvOwner ti) l]> (tails s))
              (<[l := mkList (u32 (uxNumberOfItems lst + 1)) (pxIndex lst)]> (lists s))).
Proof.
  intros Hl Hi Ht Hv Hw [me He] Hit Hnx N1 N2. unfold vListInsert.
  erewrite bind_done by (unfold rd_mini; lstep; done). cbv zeta. rewrite Hv.
  erewrite bind_done.
  2: { instantiate (1 := s). instantiate (1 := it). destruct (_ =? _); [|done].
       unfold prv in Hw. rewrite He in Hw. cbn in Hw. injection Hw as <-.
       unfold rd_mini. mred. by rewrite He. }
  destruct lst as [n idx]; cbn in *.
  destruct (decide (pxNext mit = it)) as [E|E]; [rewrite E in *|]; lstep;
    do 3 f_equal; solve_splice.
Qed.

(** ** Walks *)

Lemma chain_last s a p b :
  chain s (a :: p ++ [b]) -> prv s b = Some (List.last p a) /\ nxt s (List.last p a) = Some b.
Proof.
  revert a. induction p as [|x p IH]; intros a H.
  - destruct H as [[? ?] _]. by split.
  - destruct H as [_ H]. apply IH in H. by rewrite last_cons_default.
Qed.

Lemma chain_mapped s a p b x :
  chain s (a :: p ++ [b]) -> x ∈ a :: p ++ [b] -> is_Some (minis s !! x).
Proof.
  revert a. induction p as [|y p IH]; intros a [[H1 H2] H] Hx;
    apply nxt_Some in H1 as (m1 & H1 & _); apply elem_of_cons in Hx as [->|Hx]; eauto.
  apply list_elem_of_singleton in Hx as ->. apply prv_Some in H2 as (m2 & H2 & _). eauto.
Qed.

Lemma last_app_hd {A} (p q : list A) a : List.last (p ++ q) a = List.last q (List.last p a).
Proof.
  revert a. induction p as [|x p IH]; intros a; [done|].
  cbn [app]. by rewrite !last_cons_default.
Qed.

Lemma walk_spec s v e xs1 xs2 nx a f :
  chain s (a :: (xs1 ++ xs2) ++ [e]) ->
  Forall (fun x => exists w, val s x = Some w /\ w <= v) xs1 ->
  hd_error (xs2 ++ [e]) = Some nx -> (exists w, val s nx = Some w /\ v < w) ->
  (length xs1 < f)%nat ->
  insert_walk f v a s = Done (List.last xs1 a, s).
Proof.
  revert a f. induction xs1 as [|x xs1 IH]; intros a f Hc Hle Hhd (w & Hw & Hlt) Hf;
    (destruct f as [|f]; [cbn in Hf; lia|]).
  - assert (link s a nx) as [(m & Hm & Hmn)%nxt_Some _]
      by (destruct xs2; cbn in *; simplify_eq; tauto).
    apply val_Some in Hw as (mn & Hn & Hnv). subst nx.
    rewrite (walk_step f v a s m mn) by done.
    destruct (Z.leb_spec (xItemValue mn) v); [lia|done].
  - destruct Hc as [[(m & Hm & Hmn)%nxt_Some _] Hc].
    apply Forall_cons in Hle as [(w' & (mn & Hn & Hnv)%val_Some & Hw') Hle]. subst x.
    rewrite (walk_step f v a s m mn) by done.
    destruct (Z.leb_spec (xItemValue mn) v); [|lia].
    rewrite (IH (pxNext m) f); eauto; [|cbn in Hf; lia]. by rewrite last_cons_default.
Qed.

Lemma place_split vals i v xs :
  exists xs1 xs2, xs = xs1 ++ xs2 /\ place vals i v xs = xs1 ++ i :: xs2 /\
    Forall (fun x => exists w, vals x = Some w /\ w <= v) xs1 /\
    (forall x w, hd_error xs2 = Some x -> vals x = Some w -> v < w).
Proof.
  induction xs as [|x xs IH]; cbn; [by exists [], []|].
  destruct (vals x) as [w|] eqn:E.
  - destruct (Z.leb_spec w v).
    + destruct IH as (a & b & -> & -> & H1 & H2). exists (x :: a), b.
      repeat split; eauto.
    + exists [], (x :: xs). repeat split; auto. intros ? ? [= <-] ?. by simplify_eq.
  - exists [], (x :: xs). repeat split; auto. intros ? ? [= <-] ?. by simplify_eq.
Qed.

Lemma vals_of s (xs : list Z) :
  (forall x, x ∈ xs -> exists v, val s x = Some v /\ is_u32 v) ->
  forall v, (forall x w, x ∈ xs -> val s x = Some w -> w <= v) ->
  Forall (fun x => exists w, val s x = Some w /\ w <= v) xs.
Proof. intros H v Hv. apply Forall_forall. intros x Hx. destruct (H x Hx) as (w & Hw & _). eauto. Qed.

(** ** The operations on represented lists *)

Lemma rep_splice s s' l idx xs1 xs2 i it nx q1 q2 t :
  rep s l idx (xs1 ++ xs2) -> i ∉ xListEnd l :: xs1 ++ xs2 ->
  xListEnd l :: xs1 = q1 ++ [it] -> xs2 ++ [xListEnd l] = nx :: q2 ->
  is_Some (minis s !! i) -> (exists v, val s i = Some v /\ is_u32 v) ->
  tails s !! i = Some t ->
  s' = mkLstate (splice_store (minis s) it i nx) (<[i := mkTail (pvOwner t) l]> (tails s))
         (<[l := mkList (u32 (u32 (Z.of_nat (length (xs1 ++ xs2))) + 1)) idx]> (lists s)) ->
  rep s' l idx (xs1 ++ i :: xs2) /\ frame s s' (i :: xListEnd l :: xs1 ++ xs2) l.
Proof.
  intros [Hl Hidx He Hc Hnd Hown Hval] Hi H1 H2 Hmi Hvi Ht ->.
  assert (Hit : it ∈ xListEnd l :: xs1) by (rewrite H1; set_solver).
  assert (Hnx : nx ∈ xs2 ++ [xListEnd l]) by (rewrite H2; set_solver).
  assert (Hmap : forall x, x ∈ xListEnd l :: xs1 ++ xs2 -> is_Some (minis s !! x)).
  { intros x Hx. eapply chain_mapped; [exact Hc|]. set_solver. }
  edestruct (splice_spliced s (mkLstate (splice_store (minis s) it i nx)
     (<[i:=mkTail (pvOwner t) l]> (tails s))
     (<[l:=mkList (u32 (u32 (Z.of_nat (length (xs1 ++ xs2))) + 1)) idx]> (lists s))))
    as (Hsp & Hv & Hout); [done|set_solver|set_solver|done|apply Hmap; set_solver..|].
  split; [split|split; [done|split; [|split]]]; cbn.
  - rewrite lookup_insert_eq. do 2 f_equal. rewrite !length_app. cbn. zlia.
  - set_solver.
  - by rewrite Hv.
  - by eapply chain_splice.
  - rewrite app_comm_cons, <- Permutation_middle. by apply NoDup_cons.
  - intros x Hx. destruct (decide (x = i)) as [->|]; simplify_map_eq; [done|].
    apply Hown. set_solver.
  - intros x Hx. rewrite Hv. destruct (decide (x = i)) as [->|]; [done|]. apply Hval. set_solver.
  - intros a. destruct (decide (a = i)) as [->|]; simplify_map_eq; done.
  - intros a Ha. split; [apply Hout; set_solver|]. rewrite lookup_insert_ne; set_solver.
  - intros l' Hl'. by rewrite lookup_insert_ne.
Qed.

Lemma rep_mapped s l idx xs x :
  rep s l idx xs -> x ∈ xListEnd l :: xs -> exists m, minis s !! x = Some m.
Proof.
  intros H Hx. destruct (chain_mapped _ _ _ _ x (rep_chain _ _ _ _ H)) as [m Hm]; [set_solver|eauto].
Qed.

Lemma hd_snoc {A} (p : list A) a : exists x q, p ++ [a] = x :: q /\ hd_error (p ++ [a]) = Some x.
Proof. destruct p as [|y p]; cbn; eauto. Qed.

Lemma chain_at s q1 it nx q2 a p :
  chain s (a :: p) -> a :: p = q1 ++ it :: nx :: q2 -> link s it nx.
Proof. intros H E. rewrite E in H. by apply chain_mid in H as (_ & ? & _). Qed.

(** [vListInsert] ends, and inserts after the items with a value not greater. *)
Lemma vListInsert_run s l idx xs i mi t f :
  rep s l idx xs -> minis s !! i = Some mi -> is_u32 (xItemValue mi) ->
  tails s !! i = Some t -> i ∉ xListEnd l :: xs -> (length xs < f)%nat ->
  exists s', vListInsert f l i s = Done (tt, s') /\
    rep s' l idx (place (val s) i (xItemValue mi) xs) /\
    frame s s' (i :: xListEnd l :: xs) l.
Proof.
  intros Hr Hi Hv Ht Hni Hf.
  destruct (place_split (val s) i (xItemValue mi) xs) as (xs1 & xs2 & -> & -> & Hle & Hgt).
  destruct (snoc_cases (xListEnd l) xs1) as (q1 & it & H1).
  destruct (hd_snoc xs2 (xListEnd l)) as (nx & q2 & H2 & Hhd).
  assert (Hit : List.last xs1 (xListEnd l) = it).
  { rewrite <- (last_cons_default _ (xListEnd l)), H1. apply List.last_last. }
  assert (Hpath : xListEnd l :: (xs1 ++ xs2) ++ [xListEnd l] = q1 ++ it :: nx :: q2).
  { rewrite <- app_assoc, H2, app_comm_cons, H1, <- app_assoc. done. }
  pose proof (chain_at _ _ _ _ _ _ _ (rep_chain _ _ _ _ Hr) Hpath) as [Hn Hp].
  apply nxt_Some in Hn as (mit & Hmit & Hnxt). apply prv_Some in Hp as (mnx & Hmnx & Hprv).
  assert (Hit' : it ∈ xListEnd l :: xs1) by (rewrite H1; set_solver).
  assert (Hnx' : nx ∈ xs2 ++ [xListEnd l]) by (rewrite H2; set_solver).
  assert (Hve : exists v, val s i = Some v /\ is_u32 v) by (unfold val; rewrite Hi; eauto).
  eexists. split.
  - subst nx. eapply (insert_tail_run f l i s _ _ mi it mit mnx t);
      [apply (rep_list _ _ _ _ Hr)|done|done|done| |eapply rep_mapped; [exact Hr|set_solver]
      |done|done|set_solver|set_solver].
    destruct (Z.eqb_spec (xItemValue mi) portMAX_DELAY) as [E|E].
    + do 2 f_equal. pose proof (chain_last _ _ _ _ (rep_chain _ _ _ _ Hr)) as [-> _].
      cbn. rewrite last_app_hd, Hit. destruct xs2 as [|x xs2]; [done|]. exfalso.
      destruct (rep_val _ _ _ _ Hr x) as (w & Hw & Hw'); [set_solver|].
      specialize (Hgt x w eq_refl Hw). unfold is_u32, portMAX_DELAY in *. lia.
    + rewrite <- Hit. eapply walk_spec; [apply (rep_chain _ _ _ _ Hr)|done|exact Hhd| |].
      * destruct xs2 as [|x xs2]; cbn in Hhd; injection Hhd as <-.
        -- exists portMAX_DELAY. split; [apply (rep_end _ _ _ _ Hr)|].
           unfold is_u32, portMAX_DELAY in *. lia.
        -- destruct (rep_val _ _ _ _ Hr x) as (w & Hw & Hw'); [set_solver|]. eauto.
      * rewrite length_app in Hf. lia.
  - subst nx. cbn. eapply rep_splice; eauto.
Qed.

Lemma vListInsertEnd_run s l idx xs1 xs2 i mi t :
  rep s l idx (xs1 ++ xs2) -> List.hd (xListEnd l) xs2 = idx ->
  minis s !! i = Some mi -> is_u32 (xItemValue mi) -> tails s !! i = Some t ->
  i ∉ xListEnd l :: xs1 ++ xs2 ->
  exists s', vListInsertEnd l i s = Done (tt, s') /\
    rep s' l idx (xs1 ++ i :: xs2) /\ frame s s' (i :: xListEnd l :: xs1 ++ xs2) l.
Proof.
  intros Hr Hidx Hi Hv Ht Hni.
  destruct (snoc_cases (xListEnd l) xs1) as (q1 & it & H1).
  assert (exists q2, xs2 ++ [xListEnd l] = idx :: q2) as (q2 & H2).
  { subst idx. destruct xs2; cbn; eauto. }
  assert (Hpath : xListEnd l :: (xs1 ++ xs2) ++ [xListEnd l] = q1 ++ it :: idx :: q2).
  { rewrite <- app_assoc, H2, app_comm_cons, H1, <- app_assoc. done. }
  pose proof (chain_at _ _ _ _ _ _ _ (rep_chain _ _ _ _ Hr) Hpath) as [Hn Hp].
  apply nxt_Some in Hn as (mit & Hmit & Hnxt). apply prv_Some in Hp as (mnx & Hmnx & Hprv).
  assert (Hit' : it ∈ xListEnd l :: xs1) by (rewrite H1; set_solver).
  assert (Hnx' : idx ∈ xs2 ++ [xListEnd l]) by (rewrite H2; set_solver).
  assert (Hve : exists v, val s i = Some v /\ is_u32 v) by (unfold val; rewrite Hi; eauto).
  eexists. split.
  - subst it. eapply (insertEnd_run l i s _ mi mit mnx t);
      [apply (rep_list _ _ _ _ Hr)|done|done|done|done|cbn; set_solver|set_solver].
  - subst it. cbn. eapply rep_splice; eauto.
Qed.

(** ** Removal *)

Definition unsplice_store (m : gmap Z MiniListItem_t) (it nx : Z) : gmap Z MiniListItem_t :=
  alter (set_pxNext nx) it (alter (set_pxPrevious it) nx m).

Lemma unsplice_obs s s' it nx :
  minis s' = unsplice_store (minis s) it nx ->
  is_Some (minis s !! it) -> is_Some (minis s !! nx) ->
  nxt s' it = Some nx /\ prv s' nx = Some it /\
  (forall a, a <> it -> nxt s' a = nxt s a) /\ (forall a, a <> nx -> prv s' a = prv s a) /\
  (forall a, val s' a = val s a) /\
  (forall a, a <> it -> a <> nx -> minis s' !! a = minis s !! a).
Proof.
  intros Hm [mit Hit] [mnx Hnx]. unfold nxt, prv, val. rewrite Hm. unfold unsplice_store.
  repeat split; intros;
    repeat (rewrite lookup_alter; case_decide; subst; try congruence);
    rewrite ?Hit, ?Hnx; try done; destruct (minis s !! a); done.
Qed.

Lemma chain_unsplice s s' e xs1 xs2 i it nx q1 q2 :
  chain s (e :: (xs1 ++ i :: xs2) ++ [e]) -> NoDup (e :: xs1 ++ i :: xs2) ->
  e :: xs1 = q1 ++ [it] -> xs2 ++ [e] = nx :: q2 ->
  nxt s' it = Some nx -> prv s' nx = Some it ->
  (forall a, a <> it -> nxt s' a = nxt s a) -> (forall a, a <> nx -> prv s' a = prv s a) ->
  chain s' (e :: (xs1 ++ xs2) ++ [e]).
Proof.
  intros Hc Hnd H1 H2 Hnit Hpnx Hn Hp.
  assert (Hpath : e :: (xs1 ++ i :: xs2) ++ [e] = q1 ++ it :: i :: nx :: q2).
  { rewrite <- app_assoc; cbn. rewrite H2, app_comm_cons, H1, <- app_assoc. done. }
  assert (Hgoal : e :: (xs1 ++ xs2) ++ [e] = q1 ++ it :: nx :: q2).
  { rewrite <- app_assoc, H2, app_comm_cons, H1, <- app_assoc. done. }
  rewrite Hpath in Hc. rewrite Hgoal. apply chain_mid in Hc as (Hc1 & _ & Hc2).
  assert (Hnd' : NoDup ((e :: xs1) ++ xs2)).
  { eapply sublist_NoDup; [exact Hnd|]. cbn. apply sublist_skip.
    apply sublist_app; [done|]. by apply sublist_cons. }
  apply NoDup_app in Hnd' as (Hnd1 & Hdis & Hnd2). rewrite H1 in Hnd1.
  apply chain_mid. split; [|split; [done|]].
  - destruct q1 as [|a q1]; [done|]. cbn. apply (chain_frame s); [exact Hc1| |].
    + intros x Hx. apply Hn. intros ->.
      apply NoDup_app in Hnd1 as (_ & Hd & _). eapply Hd; [exact Hx|set_solver].
    + intros x Hx. apply Hp. intros ->.
      assert (nx ∈ xs2 \/ nx = e) as [Hx2|Hx2]
        by (assert (nx ∈ xs2 ++ [e]) by (rewrite H2; set_solver); set_solver).
      * apply (Hdis nx); [rewrite H1; set_solver|done].
      * subst nx. injection H1 as <- _. apply NoDup_cons in Hnd1 as [Hd _]. by apply Hd.
  - destruct q2 as [|b q2]; [done|].
    destruct (snoc_cases b q2) as (q & x & Hq). rewrite Hq in *.
    rewrite app_comm_cons in H2. apply app_inj_tail in H2 as [-> ->].
    destruct Hc2 as [_ Hc2]. apply (chain_frame s); [exact Hc2| |].
    + intros y Hy. apply Hn. intros ->. apply (Hdis it); [rewrite H1; set_solver|done].
    + intros y Hy. apply Hp. intros ->. apply NoDup_cons in Hnd2 as [Hd _].
      apply elem_of_app in Hy as [Hy| ->%list_elem_of_singleton]; [done|].
      apply (Hdis x); [left|left].
Qed.

Lemma remove_run s l idx n i t mi mit mnx :
  tails s !! i = Some t -> pxContainer t = l -> lists s !! l = Some (mkList n idx) ->
  minis s !! i = Some mi -> minis s !! pxPrevious mi = Some mit ->
  minis s !! pxNext mi = Some mnx -> i <> pxPrevious mi -> i <> pxNext mi ->
  uxListRemove i s =
  Done (u32 (n - 1), mkLstate (unsplice_store (minis s) (pxPrevious mi) (pxNext mi))
              (<[i := mkTail (pvOwner t) 0]> (tails s))
              (<[l := mkList (u32 (n - 1)) (if idx =? i then pxPrevious mi else idx)]>
                 (lists s))).
Proof.
  intros Ht <- Hl Hi Hp Hn N1 N2. unfold uxListRemove.
  destruct mi as [vi nx it]; cbn in *. unfold unsplice_store.
  destruct (decide (it = nx)) as [->|E]; lstep;
    destruct (Z.eqb_spec idx i); lstep; do 3 f_equal;
    (solve_splice || by rewrite insert_insert_eq).
Qed.

(** The neighbours of an item in the middle of a represented list. *)
Lemma rep_neighbours s l idx xs1 i xs2 :
  rep s l idx (xs1 ++ i :: xs2) ->
  exists q1 it nx q2 mi mit mnx,
    xListEnd l :: xs1 = q1 ++ [it] /\ xs2 ++ [xListEnd l] = nx :: q2 /\
    minis s !! i = Some mi /\ pxPrevious mi = it /\ pxNext mi = nx /\
    minis s !! it = Some mit /\ minis s !! nx = Some mnx /\ i <> it /\ i <> nx.
Proof.
  intros Hr.
  destruct (snoc_cases (xListEnd l) xs1) as (q1 & it & H1).
  destruct (hd_snoc xs2 (xListEnd l)) as (nx & q2 & H2 & _).
  assert (Hpath : xListEnd l :: (xs1 ++ i :: xs2) ++ [xListEnd l] = q1 ++ it :: i :: nx :: q2).
  { rewrite <- app_assoc; cbn. rewrite H2, app_comm_cons, H1, <- app_assoc. done. }
  pose proof (rep_chain _ _ _ _ Hr) as Hc. rewrite Hpath in Hc.
  apply chain_mid in Hc as (_ & [_ Hp] & Hc). destruct Hc as [[Hn _] _].
  apply prv_Some in Hp as (mi & Hmi & Hp). apply nxt_Some in Hn as (mi' & Hmi' & Hn).
  simplify_eq.
  assert (Hit : pxPrevious mi ∈ xListEnd l :: xs1) by (rewrite H1; set_solver).
  assert (Hnx : pxNext mi ∈ xs2 ++ [xListEnd l]) by (rewrite H2; set_solver).
  destruct (rep_mapped _ _ _ _ (pxPrevious mi) Hr) as [mit ?]; [set_solver|].
  destruct (rep_mapped _ _ _ _ (pxNext mi) Hr) as [mnx ?]; [set_solver|].
  pose proof (rep_nodup _ _ _ _ Hr) as Hnd. apply NoDup_cons in Hnd as [He Hnd].
  apply NoDup_app in Hnd as (_ & Hd & Hnd). apply NoDup_cons in Hnd as [Hi2 _].
  exists q1, (pxPrevious mi), (pxNext mi), q2, mi, mit, mnx.
  repeat split; try done; intros E; rewrite <- E in *.
  - apply elem_of_cons in Hit as [->|Hit]; [set_solver|]. apply (Hd i); [done|left].
  - apply elem_of_app in Hnx as [?| ->%list_elem_of_singleton]; set_solver.
Qed.

Lemma rep_unsplice s s' l idx xs1 i xs2 t it nx q1 q2 :
  rep s l idx (xs1 ++ i :: xs2) -> tails s !! i = Some t ->
  xListEnd l :: xs1 = q1 ++ [it] -> xs2 ++ [xListEnd l] = nx :: q2 ->
  s' = mkLstate (unsplice_store (minis s) it nx) (<[i := mkTail (pvOwner t) 0]> (tails s))
         (<[l := mkList (u32 (Z.of_nat (length (xs1 ++ xs2)))) (if idx =? i then it else idx)]>
            (lists s)) ->
  rep s' l (if idx =? i then it else idx) (xs1 ++ xs2) /\
  frame s s' (xListEnd l :: xs1 ++ i :: xs2) l.
Proof.
  intros Hr Ht H1 H2 Hs'. pose proof (rep_nodup _ _ _ _ Hr) as Hnd.
  apply NoDup_cons in Hnd as [He Hnd]. apply NoDup_app in Hnd as (_ & Hd & Hnd).
  apply NoDup_cons in Hnd as [Hi2 _].
  assert (Hit : it ∈ xListEnd l :: xs1) by (rewrite H1; set_solver).
  assert (Hnx : nx ∈ xs2 ++ [xListEnd l]) by (rewrite H2; set_solver).
  destruct (unsplice_obs s s' it nx) as (A & B & C & D & Hv & Ho);
    [by subst|eapply rep_mapped; [exact Hr|set_solver]..|].
  split; [split|split; [exact Hv|split; [|split]]].
  - subst s'; cbn. by rewrite lookup_insert_eq.
  - pose proof (rep_idx _ _ _ _ Hr). destruct (Z.eqb_spec idx i); set_solver.
  - rewrite Hv. apply (rep_end _ _ _ _ Hr).
  - eapply chain_unsplice; [apply (rep_chain _ _ _ _ Hr)|apply (rep_nodup _ _ _ _ Hr)|done..].
  - eapply sublist_NoDup; [apply (rep_nodup _ _ _ _ Hr)|]. apply sublist_skip.
    apply sublist_app; [done|]. by apply sublist_cons.
  - intros x Hx. subst s'; cbn. rewrite lookup_insert_ne.
    + eapply rep_own; [exact Hr|set_solver].
    + intros <-. apply elem_of_app in Hx as [Hx|Hx]; [|done]. apply (Hd i Hx); left.
  - intros x Hx. rewrite Hv. eapply rep_val; [exact Hr|set_solver].
  - intros a. subst s'; cbn. destruct (decide (a = i)) as [->|]; simplify_map_eq; done.
  - intros a Ha. split; [|subst s'; cbn; by rewrite lookup_insert_ne; set_solver].
    apply Ho; intros ->; apply Ha; set_solver.
  - intros l' Hl'. subst s'; cbn. by rewrite lookup_insert_ne.
Qed.

Lemma uxListRemove_run s l idx xs1 i xs2 :
  rep s l idx (xs1 ++ i :: xs2) ->
  exists s', uxListRemove i s = Done (u32 (Z.of_nat (length (xs1 ++ xs2))), s') /\
    rep s' l (if idx =? i then List.last xs1 (xListEnd l) else idx) (xs1 ++ xs2) /\
    (pxContainer <$> tails s' !! i = Some 0) /\
    frame s s' (xListEnd l :: xs1 ++ i :: xs2) l.
Proof.
  intros Hr. pose proof (rep_neighbours _ _ _ _ _ _ Hr)
    as (q1 & it & nx & q2 & mi & mit & mnx & H1 & H2 & Hi & Hp & Hn & Hit & Hnx & N1 & N2).
  assert (Ht : pxContainer <$> tails s !! i = Some l) by (eapply rep_own; [exact Hr|set_solver]).
  apply fmap_Some in Ht as (t & Ht & Hc).
  assert (Hlen : u32 (u32 (Z.of_nat (length (xs1 ++ i :: xs2))) - 1) =
                 u32 (Z.of_nat (length (xs1 ++ xs2)))).
  { rewrite !length_app. cbn. zlia. }
  assert (Hlast : List.last xs1 (xListEnd l) = it).
  { rewrite <- (last_cons_default _ (xListEnd l)), H1. apply List.last_last. }
  rewrite Hlast. eexists. split.
  - erewrite remove_run; [|done|done|exact (rep_list _ _ _ _ Hr)|exact Hi|by rewrite Hp
      |by rewrite Hn|by rewrite Hp|by rewrite Hn]. rewrite Hlen, Hp, Hn. reflexivity.
  - edestruct rep_unsplice as [HA HB]; [exact Hr|exact Ht|exact H1|exact H2|reflexivity|].
    split; [exact HA|]. split; [|exact HB]. cbn. by rewrite lookup_insert_eq.
Qed.

(** ** Initialisation and the round-robin cursor *)

Lemma vListInitialise_run s l m0 l0 :
  minis s !! xListEnd l = Some m0 -> lists s !! l = Some l0 ->
  exists s', vListInitialise l s = Done (tt, s') /\ rep s' l (xListEnd l) [].
Proof.
  intros Hm Hl. eexists. split.
  - unfold vListInitialise. lstep. reflexivity.
  - split; cbn; simplify_map_eq; try done; try set_solver.
    + unfold val; cbn. by simplify_map_eq.
    + repeat split; unfold nxt, prv; cbn; by simplify_map_eq.
    + apply NoDup_singleton.
Qed.

Definition with_idx (s : lstate) (l idx : Z) : lstate :=
  mkLstate (minis s) (tails s) (alter (fun x => mkList (uxNumberOfItems x) idx) l (lists s)).

Lemma with_idx_twice s l i j : with_idx (with_idx s l i) l j = with_idx s l j.
Proof.
  unfold with_idx. cbn. f_equal. apply map_eq. intros c. rewrite !lookup_alter.
  repeat case_decide; subst; try done. by destruct (lists s !! c).
Qed.

Lemma rep_with_idx s l idx idx' xs :
  rep s l idx xs -> idx' ∈ xListEnd l :: xs -> rep (with_idx s l idx') l idx' xs.
Proof.
  intros [Hl Hi He Hc Hnd Ho Hv] Hi'. split; try done.
  - unfold with_idx; cbn [lists]. by rewrite lookup_alter_eq, Hl.
  - by apply (chain_minis s).
Qed.

Lemma owner_of s l idx xs x : rep s l idx xs -> x ∈ xs -> exists t, tails s !! x = Some t.
Proof.
  intros Hr Hx. pose proof (rep_own _ _ _ _ Hr x Hx) as H.
  apply fmap_Some in H as (t & Ht & _). eauto.
Qed.

(** The item the cursor moves to: the next one, the end marker skipped. *)
Definition cursor_to (s : lstate) (l idx x : Z) : Prop :=
  (nxt s idx = Some x /\ x <> xListEnd l) \/
  (nxt s idx = Some (xListEnd l) /\ nxt s (xListEnd l) = Some x).

Lemma next_entry_run s l n idx x t :
  lists s !! l = Some (mkList n idx) -> cursor_to s l idx x -> tails s !! x = Some t ->
  listGET_OWNER_OF_NEXT_ENTRY l s = Done (pvOwner t, with_idx s l x).
Proof.
  intros Hl Hc Ht. unfold listGET_OWNER_OF_NEXT_ENTRY, with_idx.
  destruct Hc as [[(m & Hm & Hx)%nxt_Some Hne]|[(m & Hm & Hx)%nxt_Some (m' & Hm' & Hx')%nxt_Some]];
    lstep.
  - destruct (Z.eqb_spec (pxNext m) (xListEnd l)); [done|]. lstep. do 3 f_equal.
    apply map_eq. intros c. rewrite lookup_alter, lookup_insert. case_decide; subst; by rewrite ?Hl.
  - rewrite Hx, Z.eqb_refl. lstep. do 3 f_equal.
    apply map_eq. intros c. rewrite lookup_alter, lookup_insert.
    case_decide; subst; rewrite ?Hl; [done|]. by rewrite lookup_insert_ne.
Qed.

Lemma cursor_next s l idx a x b :
  rep s l idx (a ++ x :: b) -> cursor_to s l (List.last a (xListEnd l)) x.
Proof.
  intros Hr. left. destruct (rep_neighbours _ _ _ _ _ _ Hr)
    as (q1 & it & nx & q2 & mi & mit & mnx & H1 & H2 & Hi & Hp & Hn & Hit & Hnx & N1 & N2).
  assert (Hlast : List.last a (xListEnd l) = it).
  { rewrite <- (last_cons_default _ (xListEnd l)), H1. apply List.last_last. }
  assert (Hpath : xListEnd l :: (a ++ x :: b) ++ [xListEnd l] = q1 ++ it :: x :: nx :: q2).
  { rewrite <- app_assoc; cbn. rewrite H2, app_comm_cons, H1, <- app_assoc. done. }
  pose proof (chain_at _ _ _ _ _ _ _ (rep_chain _ _ _ _ Hr) Hpath) as [Hnx' _].
  pose proof (rep_nodup _ _ _ _ Hr) as Hnd. apply NoDup_cons in Hnd as [He _].
  rewrite Hlast. split; [done|set_solver].
Qed.

Lemma cursor_wrap s l idx x b :
  rep s l idx (x :: b) -> cursor_to s l (List.last (x :: b) (xListEnd l)) x.
Proof.
  intros Hr. right. pose proof (chain_last _ _ _ _ (rep_chain _ _ _ _ Hr)) as [_ Hl].
  pose proof (rep_chain _ _ _ _ Hr) as [[Hf _] _]. done.
Qed.

(** Owners of a run of items, as the sequence of [TCB] pointers handed out. *)
Definition owners (s : lstate) (xs : list Z) : list Z :=
  omap (fun x => pvOwner <$> tails s !! x) xs.

Lemma next_entries_run s l idx x a b c :
  rep s l idx (a ++ x :: b ++ c) -> cursor_to s l idx x ->
  exists s', repeatM (length (x :: b)) (listGET_OWNER_OF_NEXT_ENTRY l) s =
    Done (owners s (x :: b), s') /\ s' = with_idx s l (List.last b x).
Proof.
  revert s idx x a. induction b as [|y b IH]; intros s idx x a Hr Hcur;
    (destruct (owner_of _ _ _ _ x Hr) as [t Ht]; [set_solver|]);
    pose proof (next_entry_run _ _ _ _ _ _ (rep_list _ _ _ _ Hr) Hcur Ht) as Hrun.
  - cbn [length repeatM]. erewrite bind_done by exact Hrun. mred. eexists. split; [|done].
    unfold owners. cbn. by rewrite Ht.
  - cbn [length repeatM] in *. erewrite bind_done by exact Hrun.
    assert (Hr' : rep (with_idx s l x) l x ((a ++ [x]) ++ y :: b ++ c)).
    { rewrite <- app_assoc. eapply rep_with_idx; [exact Hr|set_solver]. }
    edestruct (IH (with_idx s l x) x y (a ++ [x]) Hr') as (s' & Hs' & ->).
    { pose proof (cursor_next _ _ _ _ _ _ Hr') as H. by rewrite List.last_last in H. }
    erewrite bind_done by exact Hs'. mred. rewrite with_idx_twice, last_cons_default.
    eexists. split; [|done]. do 2 f_equal. unfold owners. cbn. by rewrite Ht.
Qed.

(** From an item, the cursor runs through the rest of the list and around. *)
Lemma rotation_run s l p1 p2 q :
  p1 <> [] -> rep s l (List.last (p1 ++ p2) (xListEnd l)) ((p1 ++ p2) ++ q) ->
  exists s', repeatM (length (q ++ p1)) (listGET_OWNER_OF_NEXT_ENTRY l) s =
    Done (owners s (q ++ p1), s').
Proof.
  intros Hp1 Hr. destruct p1 as [|y p1]; [done|]. unfold owners. rewrite omap_app.
  destruct q as [|x q].
  - rewrite app_nil_r in Hr. pose proof (cursor_wrap _ _ _ _ _ Hr) as Hc.
    destruct (next_entries_run s l _ y [] p1 p2 Hr Hc) as (s' & Hs' & _). eauto.
  - pose proof (cursor_next _ _ _ _ _ _ Hr) as Hc.
    assert (Hr1 : rep s l (List.last ((y :: p1) ++ p2) (xListEnd l))
                    (((y :: p1) ++ p2) ++ x :: q ++ [])) by by rewrite app_nil_r.
    destruct (next_entries_run s l _ x _ q [] Hr1 Hc) as (s' & Hs' & ->).
    assert (Hl : List.last q x = List.last (y :: (p1 ++ p2) ++ x :: q) (xListEnd l)).
    { cbn [app]. by rewrite app_comm_cons, last_app_hd, last_cons_default. }
    assert (Hin : List.last q x ∈ x :: q).
    { destruct (snoc_cases x q) as (r & z & E).
      rewrite <- (last_cons_default _ x), E, List.last_last. set_solver. }
    assert (Hr2 : rep (with_idx s l (List.last q x)) l (List.last q x)
                      (y :: (p1 ++ p2) ++ x :: q)).
    { eapply rep_with_idx; [exact Hr|]. set_solver. }
    pose proof (cursor_wrap _ _ _ _ _ Hr2) as Hc2. rewrite <- Hl in Hc2.
    destruct (next_entries_run (with_idx s l (List.last q x)) l (List.last q x) y [] p1 (p2 ++ x :: q))
      as (s'' & Hs'' & _); [by rewrite app_assoc|exact Hc2|].
    exists s''. rewrite length_app. eapply repeatM_app; [exact Hs'|exact Hs''].
Qed.

Lemma owners_frame s s' d l xs : frame s s' d l -> owners s' xs = owners s xs.
Proof.
  intros (_ & Ho & _). unfold owners. induction xs as [|x xs IH]; [done|].
  cbn. by rewrite Ho, IH.
Qed.

(** ** Ordering *)

(** Item values never decrease along the list. *)
Definition ordered (vals : Z -> option Z) (xs : list Z) : Prop :=
  StronglySorted (fun x y => forall v w, vals x = Some v -> vals y = Some w -> v <= w) xs.

Lemma place_ordered vals i v xs :
  vals i = Some v -> (forall x, x ∈ xs -> is_Some (vals x)) ->
  ordered vals xs -> ordered vals (place vals i v xs).
Proof.
  intros Hi. induction xs as [|x xs IH]; intros Hd Ho; cbn.
  - constructor; constructor.
  - inversion_clear Ho as [|? ? Ho' Hx]. destruct (Hd x) as [w Hw]; [left|]. rewrite Hw.
    destruct (Z.leb_spec w v) as [Hle|Hgt].
    + assert (Hp : Permutation (place vals i v xs) (i :: xs)).
      { clear. destruct (place_split vals i v xs) as (p & q & -> & -> & _).
        symmetry. apply Permutation_middle. }
      constructor; [apply IH; [intros; apply Hd; by right|done]|].
      rewrite Hp. constructor; [|done]. intros; simplify_eq. lia.
    + constructor; [by constructor|]. constructor; [intros; simplify_eq; lia|].
      eapply Forall_impl; [exact Hx|]. cbn. intros y Hy v' w' Hv' Hw'. simplify_eq.
      specialize (Hy _ _ Hw Hw'). lia.
Qed.

(** ** Properties *)

(** [vListInsert] ends on every well-formed list with an item that is not
    on it, and leaves a well-formed list that holds the old items in their old
    order and the new item behind the last item whose value is not greater than
    its own (so equal values stay first-in first-out).  If the list was ordered
    by value it is ordered afterwards; no item outside the list, no value, no
    owner and no other list changes. *)
Theorem vListInsert_ordered s l idx xs i mi t fuel :
  rep s l idx xs -> minis s !! i = Some mi -> is_u32 (xItemValue mi) ->
  tails s !! i = Some t -> i ∉ xListEnd l :: xs -> (length xs < fuel)%nat ->
  exists s' xs1 xs2, vListInsert fuel l i s = Done (tt, s') /\
    xs = xs1 ++ xs2 /\ rep s' l idx (xs1 ++ i :: xs2) /\
    Forall (fun x => exists w, val s x = Some w /\ w <= xItemValue mi) xs1 /\
    (forall x w, hd_error xs2 = Some x -> val s x = Some w -> xItemValue mi < w) /\
    (ordered (val s) xs -> ordered (val s') (xs1 ++ i :: xs2)) /\
    frame s s' (i :: xListEnd l :: xs) l.
Proof.
  intros Hr Hi Hv Ht Hni Hf.
  destruct (vListInsert_run _ _ _ _ _ _ _ _ Hr Hi Hv Ht Hni Hf) as (s' & Hrun & Hr' & Hfr).
  destruct (place_split (val s) i (xItemValue mi) xs) as (xs1 & xs2 & E & Ep & Hle & Hgt).
  exists s', xs1, xs2. rewrite Ep in Hr'.
  do 5 (split; [done|]). split; [|done].
  intros Ho. destruct Hfr as [Hval _]. rewrite <- Ep.
  assert (Hord : ordered (val s) (place (val s) i (xItemValue mi) xs)).
  { apply place_ordered; [unfold val; by rewrite Hi| |done].
    intros x Hx. destruct (rep_val _ _ _ _ Hr x Hx) as (w & -> & _). eauto. }
  unfold ordered in *. eapply StronglySorted_weaken; [|exact Hord].
  cbn. intros x y H v w. rewrite !Hval. apply H.
Qed.

(** Removing an item unlinks it and nothing else: the other items keep their
    order, the item's container is cleared, the returned value is the new
    length, the round-robin cursor stays on the list (it steps back when it
    pointed at the removed item), and removal undoes an insertion. *)
Theorem uxListRemove_unlinks s l idx xs1 i xs2 :
  rep s l idx (xs1 ++ i :: xs2) ->
  exists s', uxListRemove i s = Done (u32 (Z.of_nat (length (xs1 ++ xs2))), s') /\
    rep s' l (if idx =? i then List.last xs1 (xListEnd l) else idx) (xs1 ++ xs2) /\
    (pxContainer <$> tails s' !! i = Some 0) /\
    frame s s' (xListEnd l :: xs1 ++ i :: xs2) l.
Proof. apply uxListRemove_run. Qed.

(** [vListInsertEnd] with the cursor on item [c] puts the new item just
    before [c], so it is the last of the other items that
    [listGET_OWNER_OF_NEXT_ENTRY] comes to: as many calls as the list had items
    hand out the owners of the items behind [c], then those before it, then the
    new item's owner. *)
Theorem vListInsertEnd_round_robin s l a c b i mi t :
  rep s l c (a ++ c :: b) -> minis s !! i = Some mi -> is_u32 (xItemValue mi) ->
  tails s !! i = Some t -> i ∉ xListEnd l :: a ++ c :: b ->
  exists s' s'', vListInsertEnd l i s = Done (tt, s') /\
    rep s' l c (a ++ i :: c :: b) /\
    repeatM (length (a ++ c :: b)) (listGET_OWNER_OF_NEXT_ENTRY l) s' =
      Done (owners s (b ++ a) ++ [pvOwner t], s'').
Proof.
  intros Hr Hi Hv Ht Hni.
  destruct (vListInsertEnd_run s l c a (c :: b) i mi t Hr eq_refl Hi Hv Ht Hni)
    as (s' & Hrun & Hr' & Hfr).
  assert (Hr2 : rep s' l (List.last ((a ++ [i]) ++ [c]) (xListEnd l)) (((a ++ [i]) ++ [c]) ++ b)).
  { rewrite List.last_last, <- !app_assoc. exact Hr'. }
  destruct (rotation_run s' l (a ++ [i]) [c] b) as (s'' & Hs''); [by destruct a|done|].
  exists s', s''. split; [done|]. split; [done|].
  replace (length (a ++ c :: b)) with (length (b ++ a ++ [i]))
    by (rewrite !length_app; cbn; lia).
  rewrite Hs''. do 2 f_equal. rewrite (owners_frame _ _ _ _ _ Hfr).
  rewrite app_assoc. unfold owners at 1. rewrite omap_app. f_equal. cbn. by rewrite Ht.
Qed.

(** ** Witnesses *)

(** A list at 100 (its end marker at 108) with three items that were inserted
    out of order, and a fourth item at 500 that is on no list. *)
Module Sample.
Definition blank : lstate :=
  mkLstate
    (<[108 := mkMini 0 0 0]> (<[200 := mkMini 20 0 0]> (<[300 := mkMini 10 0 0]>
      (<[400 := mkMini 20 0 0]> {[500 := mkMini 15 0 0]}))))
    (<[200 := mkTail 2 0]> (<[300 := mkTail 3 0]> (<[400 := mkTail 4 0]>
      {[500 := mkTail 5 0]})))
    {[100 := mkList 0 0]}.
Definition three : lstate :=
  exec (vListInitialise 100;; vListInsert 9 100 200;; vListInsert 9 100 300;;
       vListInsert 9 100 400) blank.
Definition cursor_on_200 : lstate :=
  exec (listGET_OWNER_OF_NEXT_ENTRY 100;; listGET_OWNER_OF_NEXT_ENTRY 100) three.
End Sample.

Ltac solve_rep :=
  split; [vm_compute; reflexivity|by_decision
    |vm_compute; reflexivity|repeat split; vm_compute; reflexivity
    |by_decision
    |intros ? ?; repeat (match goal with H : _ ∈ _ |- _ => inversion H; subst; clear H end;
                         try (vm_compute; reflexivity))
    |intros ? ?; repeat (match goal with H : _ ∈ _ |- _ => inversion H; subst; clear H end;
       try (eexists; split; [vm_compute; reflexivity|by_decision]))].

Lemma three_rep : rep Sample.three 100 108 [300; 200; 400].
Proof. solve_rep. Qed.
Lemma cursor_rep : rep Sample.cursor_on_200 100 200 ([300] ++ 200 :: [400]).
Proof. solve_rep. Qed.

Lemma vListInsert_ordered_witness :
  exists s' xs1 xs2, vListInsert 9 100 500 Sample.three = Done (tt, s') /\
    [300; 200; 400] = xs1 ++ xs2 /\ rep s' 100 108 (xs1 ++ 500 :: xs2).
Proof.
  destruct (vListInsert_ordered Sample.three 100 108 [300; 200; 400] 500 (mkMini 15 0 0)
    (mkTail 5 0) 9) as (s' & xs1 & xs2 & H1 & H2 & H3 & _).
  - exact three_rep.
  - vm_compute; reflexivity.
  - unfold is_u32; cbn; lia.
  - vm_compute; reflexivity.
  - by_decision.
  - cbn; lia.
  - exists s', xs1, xs2. auto.
Defined.

Lemma uxListRemove_unlinks_witness :
  exists s', uxListRemove 200 Sample.cursor_on_200 = Done (2, s') /\
    rep s' 100 300 [300; 400].
Proof.
  destruct (uxListRemove_unlinks Sample.cursor_on_200 100 200 [300] 200 [400] cursor_rep)
    as (s' & H1 & H2 & _).
  exists s'. split; [exact H1|exact H2].
Defined.

Lemma vListInsertEnd_round_robin_witness :
  exists s' s'', vListInsertEnd 100 500 Sample.cursor_on_200 = Done (tt, s') /\
    repeatM 3 (listGET_OWNER_OF_NEXT_ENTRY 100) s' = Done ([4; 3; 5], s'').
Proof.
  destruct (vListInsertEnd_round_robin Sample.cursor_on_200 100 [300] 200 [400] 500
    (mkMini 15 0 0) (mkTail 5 0)) as (s' & s'' & H1 & _ & H2).
  - exact cursor_rep.
  - vm_compute; reflexivity.
  - unfold is_u32; cbn; lia.
  - vm_compute; reflexivity.
  - by_decision.
  - exists s', s''. auto.
Defined.
