(* ===== verification/Heap4.v ===== *)
(** FreeRTOS/portable/MemMang/heap_4.c: the kernel heap.  Free blocks form a
    singly linked list in address order, threaded through the block headers;
    freeing coalesces a block with free neighbours.  The store holds the block
    headers by address; [heap_rep] relates it to the sequence of tiles the heap
    is cut into. *)
From S2P Require Import Prelude.

Definition configTOTAL_HEAP_SIZE : Z := 16384.
Definition portBYTE_ALIGNMENT : Z := 16.
Definition portBYTE_ALIGNMENT_MASK : Z := 15.
Definition xHeapStructSize : Z := Z.land (8 + (portBYTE_ALIGNMENT - 1)) (Z.lnot portBYTE_ALIGNMENT_MASK).
Definition heapMINIMUM_BLOCK_SIZE : Z := Z.shiftl xHeapStructSize 1.

Record BlockLink_t := mkBlock {
  pxNextFreeBlock : Z;
  xBlockSize : Z
}.
#[export] Instance BlockLink_eq_dec : EqDecision BlockLink_t.
Proof. solve_decision. Defined.

Record heap_state := mkHeap {
  blocks : gmap Z BlockLink_t;
  pxEnd : Z;
  xFreeBytesRemaining : Z;
  xMinimumEverFreeBytesRemaining : Z;
  xNumberOfSuccessfulAllocations : Z;
  xNumberOfSuccessfulFrees : Z;
  xBlockAllocatedBit : Z
}.

Definition set_next (v : Z) (b : BlockLink_t) := mkBlock v (xBlockSize b).
Definition set_size (v : Z) (b : BlockLink_t) := mkBlock (pxNextFreeBlock b) v.

Definition set_blocks (m : gmap Z BlockLink_t) (s : heap_state) :=
  mkHeap m (pxEnd s) (xFreeBytesRemaining s) (xMinimumEverFreeBytesRemaining s)
    (xNumberOfSuccessfulAllocations s) (xNumberOfSuccessfulFrees s) (xBlockAllocatedBit s).
Definition set_free (v : Z) (s : heap_state) :=
  mkHeap (blocks s) (pxEnd s) v (xMinimumEverFreeBytesRemaining s)
    (xNumberOfSuccessfulAllocations s) (xNumberOfSuccessfulFrees s) (xBlockAllocatedBit s).
Definition set_min (v : Z) (s : heap_state) :=
  mkHeap (blocks s) (pxEnd s) (xFreeBytesRemaining s) v
    (xNumberOfSuccessfulAllocations s) (xNumberOfSuccessfulFrees s) (xBlockAllocatedBit s).
Definition count_alloc (s : heap_state) :=
  mkHeap (blocks s) (pxEnd s) (xFreeBytesRemaining s) (xMinimumEverFreeBytesRemaining s)
    (u32 (xNumberOfSuccessfulAllocations s + 1)) (xNumberOfSuccessfulFrees s) (xBlockAllocatedBit s).
Definition count_free (s : heap_state) :=
  mkHeap (blocks s) (pxEnd s) (xFreeBytesRemaining s) (xMinimumEverFreeBytesRemaining s)
    (xNumberOfSuccessfulAllocations s) (u32 (xNumberOfSuccessfulFrees s + 1)) (xBlockAllocatedBit s).

(** The static data before [main]: no block, [pxEnd] is NULL. *)
Definition heap_bss : heap_state := mkHeap ∅ 0 0 0 0 0 0.

(** Iterations granted to the list walks; [frees_bound] shows it is enough. *)
Definition heap_fuel : nat := 1025.

Section Code.

(** Where the linker placed [ucHeap] and [xStart]. *)
Context (ucHeap xStart : Z).

(** Header accesses must stay inside [ucHeap] or hit [xStart]. *)
Definition in_heap (a : Z) : bool :=
  (a =? xStart) || ((ucHeap <=? a) && (a + 8 <=? ucHeap + configTOTAL_HEAP_SIZE)).

Definition rd (a : Z) : M heap_state BlockLink_t :=
  s ← get; of_option (blocks s !! a).
Definition wr (a : Z) (b : BlockLink_t) : M heap_state unit :=
  if in_heap a then modify (fun s => set_blocks (<[a := b]> (blocks s)) s)
  else stop_ Fault.
Definition wr_next (a v : Z) : M heap_state unit := b ← rd a; wr a (set_next v b).
Definition wr_size (a v : Z) : M heap_state unit := b ← rd a; wr a (set_size v b).

(** A store to one field of memory that holds no header yet leaves the other
    field as it was; its content is unspecified and taken to be 0. *)
Definition wr_size_fresh (a v : Z) : M heap_state unit :=
  s ← get;
  wr a (set_size v (default (mkBlock 0 0) (blocks s !! a))).
Definition wr_next_fresh (a v : Z) : M heap_state unit :=
  s ← get;
  wr a (set_next v (default (mkBlock 0 0) (blocks s !! a))).

Definition prvHeapInit : M heap_state unit :=
  let xTotalHeapSize := configTOTAL_HEAP_SIZE in
  let uxAddress := ucHeap in
  let '(uxAddress, xTotalHeapSize) :=
    if negb (Z.land uxAddress portBYTE_ALIGNMENT_MASK =? 0) then
      let a := u32 (uxAddress + (portBYTE_ALIGNMENT - 1)) in
      let a := Z.land a (u32 (Z.lnot portBYTE_ALIGNMENT_MASK)) in
      (a, u32 (xTotalHeapSize - (a - ucHeap)))
    else (uxAddress, xTotalHeapSize) in
  let pucAlignedHeap := uxAddress in
  wr_next_fresh xStart pucAlignedHeap;;
  wr_size xStart 0;;
  let uxAddress := u32 (pucAlignedHeap + xTotalHeapSize) in
  let uxAddress := u32 (uxAddress - xHeapStructSize) in
  let uxAddress := Z.land uxAddress (u32 (Z.lnot portBYTE_ALIGNMENT_MASK)) in
  modify (fun s => mkHeap (blocks s) uxAddress (xFreeBytesRemaining s)
    (xMinimumEverFreeBytesRemaining s) (xNumberOfSuccessfulAllocations s)
    (xNumberOfSuccessfulFrees s) (xBlockAllocatedBit s));;
  wr_size_fresh uxAddress 0;;
  wr_next uxAddress 0;;
  let pxFirstFreeBlock := pucAlignedHeap in
  wr_size_fresh pxFirstFreeBlock (u32 (uxAddress - pxFirstFreeBlock));;
  wr_next pxFirstFreeBlock uxAddress;;
  b ← rd pxFirstFreeBlock;
  modify (set_min (xBlockSize b));;
  modify (set_free (xBlockSize b));;
  modify (fun s => mkHeap (blocks s) (pxEnd s) (xFreeBytesRemaining s)
    (xMinimumEverFreeBytesRemaining s) (xNumberOfSuccessfulAllocations s)
    (xNumberOfSuccessfulFrees s) (u32 (Z.shiftl 1 (4 * 8 - 1)))).

(** The [for] loop of [prvInsertBlockIntoFreeList]. *)
Fixpoint insert_find (fuel : nat) (pxIterator pxBlockToInsert : Z) : M heap_state Z :=
  match fuel with
  | O => stop_ NoFuel
  | S fuel =>
      it ← rd pxIterator;
      if pxNextFreeBlock it <? pxBlockToInsert
      then insert_find fuel (pxNextFreeBlock it) pxBlockToInsert
      else mret pxIterator
  end.

Definition prvInsertBlockIntoFreeList (pxBlockToInsert : Z) : M heap_state unit :=
  pxIterator ← insert_find heap_fuel xStart pxBlockToInsert;
  it ← rd pxIterator;
  pxBlockToInsert ←
    (if pxIterator + xBlockSize it =? pxBlockToInsert then
       b ← rd pxBlockToInsert;
       wr_size pxIterator (u32 (xBlockSize it + xBlockSize b));;
       mret pxIterator
     else mret pxBlockToInsert);
  b ← rd pxBlockToInsert;
  it ← rd pxIterator;
  s ← get;
  (if pxBlockToInsert + xBlockSize b =? pxNextFreeBlock it then
     if negb (pxNextFreeBlock it =? pxEnd s) then
       n ← rd (pxNextFreeBlock it);
       wr_size pxBlockToInsert (u32 (xBlockSize b + xBlockSize n));;
       it ← rd pxIterator;
       n ← rd (pxNextFreeBlock it);
       wr_next pxBlockToInsert (pxNextFreeBlock n)
     else wr_next pxBlockToInsert (pxEnd s)
   else wr_next pxBlockToInsert (pxNextFreeBlock it));;
  if negb (pxIterator =? pxBlockToInsert)
  then wr_next pxIterator pxBlockToInsert
  else mret tt.

(** The [while] loop of [pvPortMalloc]: first block of adequate size. *)
Fixpoint malloc_find (fuel : nat) (want prev blk : Z) : M heap_state (Z * Z) :=
  match fuel with
  | O => stop_ NoFuel
  | S fuel =>
      b ← rd blk;
      if (xBlockSize b <? want) && negb (pxNextFreeBlock b =? 0)
      then malloc_find fuel want blk (pxNextFreeBlock b)
      else mret (prev, blk)
  end.

(** The size adjustment of [pvPortMalloc]: header added, rounded up, 0 when the
    request is 0 or overflows. *)
Definition adjust_size (xWantedSize : Z) : Z :=
  if (0 <? xWantedSize) && (xWantedSize <? u32 (xWantedSize + xHeapStructSize)) then
    let w := u32 (xWantedSize + xHeapStructSize) in
    let r := Z.land w portBYTE_ALIGNMENT_MASK in
    if negb (r =? 0) then
      if w <? u32 (w + (portBYTE_ALIGNMENT - r))
      then u32 (w + (portBYTE_ALIGNMENT - r)) else 0
    else w
  else 0.

(** The part of [pvPortMalloc] that splits a block larger than required. *)
Definition malloc_split (blk want : Z) : M heap_state unit :=
  b ← rd blk;
  if heapMINIMUM_BLOCK_SIZE <? u32 (xBlockSize b - want) then
    let new := blk + want in
    assert_ (Z.land new portBYTE_ALIGNMENT_MASK =? 0);;
    wr_size_fresh new (u32 (xBlockSize b - want));;
    wr_size blk want;;
    prvInsertBlockIntoFreeList new
  else mret tt.

(** The part of [pvPortMalloc] that accounts for the block and marks it. *)
Definition malloc_take (blk : Z) : M heap_state unit :=
  b ← rd blk;
  modify (fun s => set_free (u32 (xFreeBytesRemaining s - xBlockSize b)) s);;
  modify (fun s => if xFreeBytesRemaining s <? xMinimumEverFreeBytesRemaining s
                   then set_min (xFreeBytesRemaining s) s else s);;
  s ← get;
  wr_size blk (Z.lor (xBlockSize b) (xBlockAllocatedBit s));;
  wr_next blk 0;;
  modify count_alloc.

Definition pvPortMalloc (xWantedSize : Z) : M heap_state Z :=
  s ← get;
  (if pxEnd s =? 0 then prvHeapInit else mret tt);;
  s ← get;
  pvReturn ←
    (if Z.land xWantedSize (xBlockAllocatedBit s) =? 0 then
       let want := adjust_size xWantedSize in
       (* asserted by the code after rounding up; true without it in the other branches *)
       assert_ (Z.land want portBYTE_ALIGNMENT_MASK =? 0);;
       if (0 <? want) && (want <=? xFreeBytesRemaining s) then
         st ← rd xStart;
         r ← malloc_find heap_fuel want xStart (pxNextFreeBlock st);
         let '(prev, blk) := r in
         if negb (blk =? pxEnd s) then
           p ← rd prev;
           let pvReturn := pxNextFreeBlock p + xHeapStructSize in
           b ← rd blk;
           wr_next prev (pxNextFreeBlock b);;
           malloc_split blk want;;
           malloc_take blk;;
           mret pvReturn
         else mret 0
       else mret 0
     else mret 0);
  assert_ (Z.land pvReturn portBYTE_ALIGNMENT_MASK =? 0);;
  mret pvReturn.

Definition vPortFree (pv : Z) : M heap_state unit :=
  if negb (pv =? 0) then
    let pxLink := pv - xHeapStructSize in
    b ← rd pxLink;
    s ← get;
    assert_ (negb (Z.land (xBlockSize b) (xBlockAllocatedBit s) =? 0));;
    assert_ (pxNextFreeBlock b =? 0);;
    if negb (Z.land (xBlockSize b) (xBlockAllocatedBit s) =? 0) then
      if pxNextFreeBlock b =? 0 then
        wr_size pxLink (Z.land (xBlockSize b) (u32 (Z.lnot (xBlockAllocatedBit s))));;
        b ← rd pxLink;
        modify (fun s => set_free (u32 (xFreeBytesRemaining s + xBlockSize b)) s);;
        prvInsertBlockIntoFreeList pxLink;;
        modify count_free
      else mret tt
    else mret tt
  else mret tt.

Definition xPortGetFreeHeapSize : M heap_state Z := gets xFreeBytesRemaining.
Definition xPortGetMinimumEverFreeHeapSize : M heap_state Z := gets xMinimumEverFreeBytesRemaining.

Record HeapStats_t := mkStats {
  xAvailableHeapSpaceInBytes : Z;
  xSizeOfLargestFreeBlockInBytes : Z;
  xSizeOfSmallestFreeBlockInBytes : Z;
  xNumberOfFreeBlocks : Z;
  xMinimumEverFree : Z;
  xSuccessfulAllocations : Z;
  xSuccessfulFrees : Z
}.

(** The [do] loop of [vPortGetHeapStats]. *)
Fixpoint stats_loop (fuel : nat) (pxBlock xBlocks xMaxSize xMinSize : Z)
    : M heap_state (Z * Z * Z) :=
  match fuel with
  | O => stop_ NoFuel
  | S fuel =>
      b ← rd pxBlock;
      s ← get;
      let xBlocks := u32 (xBlocks + 1) in
      let xMaxSize := if xMaxSize <? xBlockSize b then xBlockSize b else xMaxSize in
      let xMinSize := if xBlockSize b <? xMinSize then xBlockSize b else xMinSize in
      if negb (pxNextFreeBlock b =? pxEnd s)
      then stats_loop fuel (pxNextFreeBlock b) xBlocks xMaxSize xMinSize
      else mret (xBlocks, xMaxSize, xMinSize)
  end.

Definition vPortGetHeapStats : M heap_state HeapStats_t :=
  s ← get;
  (* [xStart] is zero-initialised before the first allocation *)
  let pxBlock := pxNextFreeBlock (default (mkBlock 0 0) (blocks s !! xStart)) in
  r ← (if negb (pxBlock =? 0) then stats_loop heap_fuel pxBlock 0 0 4294967295
       else mret (0, 0, 4294967295));
  let '(n, mx, mn) := r in
  mret (mkStats (xFreeBytesRemaining s) mx mn n (xMinimumEverFreeBytesRemaining s)
    (xNumberOfSuccessfulAllocations s) (xNumberOfSuccessfulFrees s)).

End Code.

(** ** The free list *)

(** The list from [p] through the blocks [F] (address and size) to [q]. *)
Fixpoint fseg (m : gmap Z BlockLink_t) (p : Z) (F : list (Z * Z)) (q : Z) : Prop :=
  match F with
  | [] => pxNextFreeBlock <$> m !! p = Some q
  | (a, sz) :: r =>
      pxNextFreeBlock <$> m !! p = Some a /\ xBlockSize <$> m !! a = Some sz /\ fseg m a r q
  end.

Definition addrs (F : list (Z * Z)) : list Z := map fst F.
Definition last_addr (p : Z) (F : list (Z * Z)) : Z := List.last (addrs F) p.

Definition merge_right (b : Z * Z) (F : list (Z * Z)) : list (Z * Z) :=
  match F with
  | (q, qs) :: r => if b.1 + b.2 =? q then (b.1, b.2 + qs) :: r else b :: F
  | [] => [b]
  end.

(** What inserting block [b] between [F1] and [F2] makes of the free list. *)
Definition coalesce (F1 : list (Z * Z)) (b : Z * Z) (F2 : list (Z * Z)) : list (Z * Z) :=
  match last F1 with
  | Some (p, ps) => if p + ps =? b.1
                    then removelast F1 ++ merge_right (p, ps + b.2) F2
                    else F1 ++ merge_right b F2
  | None => F1 ++ merge_right b F2
  end.

Lemma fseg_app m p F1 a sz F2 q :
  fseg m p (F1 ++ (a, sz) :: F2) q <->
  fseg m p F1 a /\ xBlockSize <$> m !! a = Some sz /\ fseg m a F2 q.
Proof.
  revert p. induction F1 as [|[x xs] F1 IH]; intros p; cbn; [tauto|]. rewrite IH. tauto.
Qed.

Lemma fseg_frame m m' p F q :
  (forall a, a ∈ p :: addrs F -> m' !! a = m !! a) -> fseg m p F q -> fseg m' p F q.
Proof.
  revert p. induction F as [|[a sz] F IH]; intros p Hm; cbn.
  - rewrite Hm; [done|set_solver].
  - intros (H1 & H2 & H3). rewrite !Hm by set_solver. split; [done|]. split; [done|].
    apply IH; [set_solver|done].
Qed.

(** Retarget the last link of a segment. *)
Lemma fseg_retarget m p F q q' b :
  NoDup (p :: addrs F) -> fseg m p F q -> m !! last_addr p F = Some b ->
  fseg (<[last_addr p F := set_next q' b]> m) p F q'.
Proof.
  revert p. induction F as [|[a sz] F IH]; intros p Hnd Hs Hb.
  - cbn in *. by rewrite lookup_insert_eq.
  - change (last_addr p ((a, sz) :: F)) with (List.last (a :: addrs F) p) in *.
    rewrite last_cons_default in *. fold (last_addr a F) in *.
    destruct Hs as (H1 & H2 & H3). apply NoDup_cons in Hnd as [Hp Hnd].
    assert (Hin : last_addr a F ∈ a :: addrs F).
    { apply last_default_in. }
    split; [|split].
    + rewrite lookup_insert_ne; [done|]. intros E. apply Hp. by rewrite <- E.
    + rewrite lookup_insert. case_decide as E; [|done]. by rewrite E, Hb in *.
    + by apply IH.
Qed.

Lemma fseg_mapped m p F q a : fseg m p F q -> a ∈ p :: addrs F -> is_Some (m !! a).
Proof.
  revert p. induction F as [|[x sz] F IH]; intros p; cbn.
  - intros H ->%list_elem_of_singleton. apply fmap_Some in H as (? & -> & _). eauto.
  - intros (H1 & H2 & H3) [->|Hin]%elem_of_cons.
    + apply fmap_Some in H1 as (? & -> & _). eauto.
    + by eapply IH.
Qed.

(** Move the start of a segment to another block with the same successor. *)
Lemma fseg_head m m' p p' F q :
  fseg m p F q -> pxNextFreeBlock <$> m' !! p' = pxNextFreeBlock <$> m !! p ->
  (forall a, a ∈ addrs F -> m' !! a = m !! a) -> fseg m' p' F q.
Proof.
  destruct F as [|[a sz] F]; cbn; [by intros ? ->|].
  intros (H1 & H2 & H3) E Hm. rewrite E, Hm by left. split; [done|]. split; [done|].
  eapply fseg_frame; [|exact H3]. intros x Hx. apply Hm. set_solver.
Qed.

Lemma heap_fuel_val : Z.of_nat heap_fuel = 1025.
Proof. reflexivity. Qed.
#[local] Opaque heap_fuel.
#[local] Arguments Z.lor : simpl never.
#[local] Arguments Z.land : simpl never.

(** One symbolic step of the header accesses. *)
Ltac hstep := unfold wr_next, wr_size, wr_next_fresh, wr_size_fresh, wr, rd; mred;
  repeat (progress (simplify_map_eq; mred)).

Section Lists.
Context (ucHeap xStart : Z).

Lemma insert_find_run s m p F1 b q f :
  blocks s = m -> fseg m p F1 q -> Forall (fun x => x.1 < b) F1 -> b <= q ->
  (length F1 < f)%nat ->
  insert_find f p b s = Done (last_addr p F1, s).
Proof.
  intros <-. revert p f. induction F1 as [|[a sz] F1 IH]; intros p f Hs Hlt Hq Hf;
    (destruct f as [|f]; [cbn in Hf; lia|]); cbn [insert_find] in *.
  - cbn in Hs. apply fmap_Some in Hs as (bp & Hp & ->). hstep.
    by destruct (Z.ltb_spec (pxNextFreeBlock bp) b); [lia|].
  - destruct Hs as (H1 & H2 & H3). apply fmap_Some in H1 as (bp & Hp & E).
    apply Forall_cons in Hlt as [Ha Hlt]. cbn in Ha, E, Hf. hstep.
    destruct (Z.ltb_spec (pxNextFreeBlock bp) b); [|lia].
    rewrite IH; [|done|done|done|lia]. do 2 f_equal. unfold last_addr.
    cbn [addrs map fst]. by rewrite last_cons_default.
Qed.

(** Start of the part of the free list behind the insertion point. *)
Definition hd_addr (e : Z) (F : list (Z * Z)) : Z := List.hd e (addrs F).

Lemma fseg_hd m p F e : fseg m p F e -> pxNextFreeBlock <$> m !! p = Some (hd_addr e F).
Proof. destruct F as [|[a sz] F]; cbn; tauto. Qed.

(** The walk of [pvPortMalloc] stops at the first block of adequate size, or
    at the end marker. *)
Lemma malloc_find_run s m p F1 F2 e want f :
  blocks s = m -> fseg m p (F1 ++ F2) e -> m !! e = Some (mkBlock 0 0) -> 0 < want ->
  0 < e -> Forall (fun x => 0 < x.1) (F1 ++ F2) ->
  Forall (fun x => x.2 < want) F1 -> (forall x r, F2 = x :: r -> want <= x.2) ->
  (length F1 < f)%nat ->
  malloc_find f want p (hd_addr e (F1 ++ F2)) s =
  Done (last_addr p F1, hd_addr e F2, s).
Proof.
  intros <- Hs He Hw He0 Hpos. revert p f Hs Hpos.
  induction F1 as [|[a sz] F1 IH]; intros p f Hs Hpos Hlt Hq Hf;
    (destruct f as [|f]; [cbn in Hf; lia|]); cbn [malloc_find app] in *.
  - destruct F2 as [|[a sz] r]; cbn in *.
    + hstep. cbn [pxNextFreeBlock Z.eqb negb]. by rewrite andb_false_r.
    + destruct Hs as (H1 & H2 & H3). specialize (Hq _ _ eq_refl). cbn in Hq.
      apply fmap_Some in H2 as (b & Hb & ->). hstep.
      by destruct (Z.ltb_spec (xBlockSize b) want); [lia|].
  - destruct Hs as (H1 & H2 & H3). apply Forall_cons in Hlt as [Ha Hlt].
    apply Forall_cons in Hpos as [_ Hpos]. cbn in Ha, Hf.
    pose proof (fseg_hd _ _ _ _ H3) as Hn. apply fmap_Some in H2 as (b & Hb & ->).
    rewrite Hb in Hn. cbn in Hn. injection Hn as Hn.
    change (hd_addr e ((a, xBlockSize b) :: F1 ++ F2)) with a.
    hstep. destruct (Z.ltb_spec (xBlockSize b) want); [|lia]. rewrite Hn.
    assert (0 < hd_addr e (F1 ++ F2)).
    { destruct (F1 ++ F2); [done|]. by apply Forall_cons in Hpos as [? _]. }
    zcase. cbn [negb andb]. rewrite IH; [|done|done|done|done|lia].
    do 2 f_equal. unfold last_addr. cbn [addrs map fst]. by rewrite last_cons_default.
Qed.

(** The store after inserting [b] (size [sz]) behind [it]; [q] is the next free
    block or the end marker, [merge] tells whether [b] reaches a free [q]. *)
Definition insert_store (m : gmap Z BlockLink_t) (it b its sz : Z) (q' sz' : Z) :=
  if it + its =? b then <[it := mkBlock q' (its + sz')]> m
  else <[it := mkBlock b its]> (<[b := mkBlock q' sz']> m).

Lemma prvInsert_store s F1 b nb its sz q qs qn q' sz' :
  insert_find heap_fuel xStart b s = Done (last_addr xStart F1, s) ->
  let it := last_addr xStart F1 in
  blocks s !! it = Some (mkBlock q its) -> blocks s !! b = Some (mkBlock nb sz) ->
  (q <> pxEnd s -> blocks s !! q = Some (mkBlock qn qs)) ->
  q' = (if (b + sz =? q) && negb (q =? pxEnd s) then qn else q) ->
  sz' = (if (b + sz =? q) && negb (q =? pxEnd s) then sz + qs else sz) ->
  in_heap ucHeap xStart it = true -> in_heap ucHeap xStart b = true ->
  it <> b -> q <> it -> q <> b -> is_u32 (its + sz + qs) -> 0 <= its -> 0 <= sz -> 0 <= qs ->
  prvInsertBlockIntoFreeList ucHeap xStart b s =
  Done (tt, set_blocks (insert_store (blocks s) it b its sz q' sz') s).
Proof.
  intros Hfind it Hit Hb Hq -> -> Hin Hin' N1 N2 N3 Hu Hi0 Hs0 Hq0.
  unfold prvInsertBlockIntoFreeList, insert_store. erewrite bind_done by exact Hfind.
  clear Hfind. fold it. clearbody it. destruct s as [m pe fr mn na nf bit]; cbn in *.
  unfold set_blocks; cbn.
  destruct (Z.eqb_spec (b + sz) q) as [Eq|Eq]; [destruct (Z.eqb_spec q pe) as [Ep|Ep]|];
    (destruct (Z.eqb_spec (it + its) b) as [E|E]); cbn [andb negb]; hstep;
    repeat first [progress hstep | rewrite Hq by done | rewrite Hin | rewrite Hin'
                 | progress u32_away | zcase; cbn [negb]];
    unfold set_blocks, set_next, set_size; cbn; rewrite ?insert_insert_eq;
    u32_away; repeat first [lia | f_equal].
Qed.

(** [x] is the merged block's address, [sx] its size before the right merge. *)
Lemma fseg_merge_right m m' it x sx b sz e F2 q' sz' nq :
  fseg m it F2 e -> b + sz = x + sx ->
  (forall a qs r, F2 = (a, qs) :: r -> m !! a = Some (mkBlock nq qs)) ->
  e ∉ addrs F2 -> x ∉ addrs F2 ->
  q' = (if (b + sz =? hd_addr e F2) && negb (hd_addr e F2 =? e) then nq else hd_addr e F2) ->
  sz' = (match F2 with
         | (q, qs) :: _ => if b + sz =? q then sx + qs else sx | [] => sx end) ->
  m' !! x = Some (mkBlock q' sz') -> (forall a, a ∈ addrs F2 -> m' !! a = m !! a) ->
  exists F2', merge_right (x, sx) F2 = (x, sz') :: F2' /\ fseg m' x F2' e.
Proof.
  intros Hs Hbx Hq He Hx -> -> Hm' Hfr. destruct F2 as [|[q qs] r]; cbn in *.
  - exists []. split; [done|]. cbn. rewrite Hm'. cbn. rewrite Z.eqb_refl, andb_false_r. done.
  - rewrite Hbx in *. specialize (Hq q qs r eq_refl).
    assert (q <> e) by set_solver. destruct (Z.eqb_spec q e); [done|].
    destruct Hs as (H1 & H2 & H3). destruct (Z.eqb_spec (x + sx) q) as [E|E]; cbn in *.
    + exists r. split; [done|]. eapply fseg_head; [exact H3|by rewrite Hm', Hq|].
      intros a Ha. apply Hfr. by right.
    + exists ((q, qs) :: r). split; [done|]. cbn. rewrite Hm'. split; [done|].
      rewrite Hfr by left. split; [done|]. eapply fseg_frame; [|exact H3].
      intros a Ha. by apply Hfr.
Qed.

Lemma fseg_split m p F1 F2 e :
  fseg m p (F1 ++ F2) e -> fseg m p F1 (hd_addr e F2) /\ fseg m (last_addr p F1) F2 e.
Proof.
  revert p. induction F1 as [|[a sz] F1 IH]; intros p H.
  - split; [by apply fseg_hd in H|done].
  - destruct H as (H1 & H2 & H3). apply IH in H3 as [H3 H4]. split; [done|].
    unfold last_addr. cbn [addrs map fst]. by rewrite last_cons_default.
Qed.

(** Unlink the block behind [F1]. *)
Lemma fseg_unlink m p F1 a sz F2 e b :
  NoDup (p :: addrs F1 ++ a :: addrs F2) -> fseg m p (F1 ++ (a, sz) :: F2) e ->
  m !! last_addr p F1 = Some b ->
  fseg (<[last_addr p F1 := set_next (hd_addr e F2) b]> m) p (F1 ++ F2) e.
Proof.
  revert p. induction F1 as [|[x xs] F1 IH]; intros p Hnd Hs Hb.
  - cbn in *. destruct Hs as (H1 & H2 & H3). eapply fseg_head; [exact H3| |].
    + rewrite lookup_insert_eq. cbn. symmetry. by apply fseg_hd.
    + intros y Hy. rewrite lookup_insert_ne; [done|]. intros ->.
      apply NoDup_cons in Hnd as [Hnd _]. apply Hnd. by right.
  - change (last_addr p ((x, xs) :: F1)) with (List.last (x :: addrs F1) p) in *.
    rewrite last_cons_default in *. fold (last_addr x F1) in *.
    destruct Hs as (H1 & H2 & H3). apply NoDup_cons in Hnd as [Hp Hnd].
    pose proof (last_default_in (addrs F1) x) as Hin. fold (last_addr x F1) in Hin.
    split; [|split; [|by apply IH]].
    + rewrite lookup_insert_ne; [done|]. intros E. apply Hp. rewrite <- E.
      rewrite elem_of_cons in Hin. cbn. rewrite elem_of_cons, elem_of_app. tauto.
    + rewrite lookup_insert. case_decide as E; [|done]. by rewrite E, Hb in *.
Qed.

Lemma fseg_join m p F1 x sx F2 e :
  fseg m p F1 x -> xBlockSize <$> m !! x = Some sx -> fseg m x F2 e ->
  fseg m p (F1 ++ (x, sx) :: F2) e.
Proof. intros. by apply fseg_app. Qed.

Definition last_size (F : list (Z * Z)) : Z := match last F with Some (_, ps) => ps | None => 0 end.

Lemma insert_fseg m F1 F2 b nb sz e nq q' sz' :
  let it := last_addr xStart F1 in
  let its := last_size F1 in
  let q := hd_addr e F2 in
  fseg m xStart (F1 ++ F2) e -> NoDup (xStart :: addrs F1 ++ b :: addrs F2) ->
  e ∉ addrs F2 -> m !! b = Some (mkBlock nb sz) -> m !! it = Some (mkBlock q its) ->
  (forall a qs r, F2 = (a, qs) :: r -> m !! a = Some (mkBlock nq qs)) ->
  q' = (if (b + sz =? q) && negb (q =? e) then nq else q) ->
  sz' = (match F2 with (a, qs) :: _ => if b + sz =? a then sz + qs else sz | [] => sz end) ->
  fseg (insert_store m it b its sz q' sz') xStart (coalesce F1 (b, sz) F2) e.
Proof.
  intros it its q Hs Hnd He Hb Hit Hq Hq' Hsz'.
  apply fseg_split in Hs as [Hs1 Hs2]. fold it q in Hs1, Hs2.
  rewrite app_comm_cons in Hnd. apply NoDup_app in Hnd as (Hnd1 & Hdis & Hnd2).
  apply NoDup_cons in Hnd2 as [HbF2 Hnd2].
  assert (Hit1 : it ∈ xStart :: addrs F1) by apply last_default_in.
  assert (HitF2 : it ∉ b :: addrs F2) by (by apply Hdis).
  assert (Nb : it <> b) by (intros E; apply HitF2; rewrite E; left).
  assert (Na : forall a, a ∈ addrs F2 -> it <> a /\ b <> a).
  { intros a Ha. split; intros <-; [apply HitF2; by right|done]. }
  assert (HiF2 : it ∉ addrs F2) by (intros H; apply HitF2; by right).
  unfold insert_store, coalesce. destruct (last F1) as [[p ps]|] eqn:EL.
  2: { apply last_None in EL as ->. cbn [app]. unfold its, last_size, it, last_addr in *; cbn in *.
       destruct (Z.eqb_spec (xStart + 0) b) as [E|E]; [lia|].
       match goal with |- fseg ?m' _ _ _ => edestruct (fseg_merge_right m m' xStart b sz b sz e F2 q' sz' nq) as (F2' & -> & Hr) end;
         [exact Hs2|done|exact Hq|exact He|exact HbF2|exact Hq'|exact Hsz'| | |].
       3: { cbn. rewrite lookup_insert_eq. split; [done|]. split; [|exact Hr].
            rewrite lookup_insert_ne by done. by rewrite lookup_insert_eq. }
       - rewrite lookup_insert_ne by done. by rewrite lookup_insert_eq.
       - intros a Ha. destruct (Na a Ha). by rewrite !lookup_insert_ne. }
  apply last_Some in EL as (F0 & EF).
  assert (Hits : its = ps) by (unfold its, last_size; by rewrite EF, last_snoc).
  assert (Hitp : it = p)
    by (unfold it, last_addr, addrs; rewrite EF, map_app; apply List.last_last).
  clearbody it its. subst F1 its it. rewrite removelast_last. cbn [fst snd].
  assert (HpF0 : forall a, a ∈ xStart :: addrs F0 -> a <> p /\ a <> b).
  { unfold addrs in Hnd1. rewrite map_app in Hnd1. cbn in Hnd1.
    change (NoDup ((xStart :: addrs F0) ++ [p])) in Hnd1.
    apply NoDup_app in Hnd1 as (_ & Hd & _). intros a Ha. split; intros ->.
    - apply (Hd p Ha). left.
    - apply (Hdis b); [|left]. unfold addrs. rewrite map_app. clear -Ha.
      rewrite app_comm_cons. apply elem_of_app. by left. }
  apply fseg_app in Hs1 as (Hs0 & Hps & Hpn).
  destruct (Z.eqb_spec (p + ps) b) as [E|E].
  - match goal with |- fseg ?m' _ _ _ => edestruct (fseg_merge_right m m' p p (ps + sz) b sz e F2 q' (ps + sz') nq) as (F2' & -> & Hr) end;
      [exact Hs2|lia|exact Hq|exact He|exact HiF2|exact Hq'| |by rewrite lookup_insert_eq| |].
    + rewrite Hsz'. destruct F2 as [|[a qs] r]; [done|]. destruct (_ =? _); lia.
    + intros a Ha. destruct (Na a Ha). by rewrite lookup_insert_ne.
    + apply fseg_join; [|by rewrite lookup_insert_eq|exact Hr].
      eapply fseg_frame; [|exact Hs0]. intros a Ha. destruct (HpF0 a Ha).
      by rewrite lookup_insert_ne.
  - match goal with |- fseg ?m' _ _ _ => edestruct (fseg_merge_right m m' p b sz b sz e F2 q' sz' nq) as (F2' & -> & Hr) end;
      [exact Hs2|done|exact Hq|exact He|exact HbF2|exact Hq'|exact Hsz'| | |].
    3: { rewrite <- app_assoc. cbn. apply fseg_join; [|by rewrite lookup_insert_eq|].
         - eapply fseg_frame; [|exact Hs0]. intros a Ha. destruct (HpF0 a Ha).
           by rewrite !lookup_insert_ne.
         - cbn. rewrite lookup_insert_eq. split; [done|]. split; [|exact Hr].
           rewrite lookup_insert_ne by done. by rewrite lookup_insert_eq. }
    + rewrite lookup_insert_ne by done. by rewrite lookup_insert_eq.
    + intros a Ha. destruct (Na a Ha). by rewrite !lookup_insert_ne.
Qed.

(** What is known of an address on a free list. *)
Definition block_bounds (lo hi : Z) (x : Z * Z) : Prop :=
  lo <= x.1 /\ 0 < x.2 /\ x.1 + x.2 <= hi /\ in_heap ucHeap xStart x.1 = true.

Lemma fseg_sizes m p F q a sz : fseg m p F q -> (a, sz) ∈ F -> xBlockSize <$> m !! a = Some sz.
Proof.
  revert p. induction F as [|[x xs] F IH]; intros p Hs Hin; [by apply elem_of_nil in Hin|].
  destruct Hs as (_ & H2 & H3). apply elem_of_cons in Hin as [[= -> ->]|Hin]; [done|]. by eapply IH.
Qed.

Lemma last_size_of m p F q : fseg m p F q -> xBlockSize <$> m !! p = Some 0 ->
  xBlockSize <$> m !! last_addr p F = Some (last_size F).
Proof.
  intros Hs Hp. unfold last_size. destruct (last F) as [[x xs]|] eqn:E.
  - apply last_Some in E as (F0 & ->). unfold last_addr, addrs. rewrite map_app.
    cbn. rewrite List.last_last. eapply fseg_sizes; [exact Hs|]. apply elem_of_app. right. left.
  - apply last_None in E as ->. done.
Qed.

Lemma block_eq (m : gmap Z BlockLink_t) a n z :
  pxNextFreeBlock <$> m !! a = Some n -> xBlockSize <$> m !! a = Some z ->
  m !! a = Some (mkBlock n z).
Proof. destruct (m !! a) as [[]|]; cbn; intros; by simplify_eq. Qed.

Lemma fseg_last_next m p F q : fseg m p F q -> pxNextFreeBlock <$> m !! last_addr p F = Some q.
Proof.
  revert p. induction F as [|[x xs] F IH]; intros p Hs; [done|]. destruct Hs as (_ & _ & H3).
  unfold last_addr. cbn [addrs map fst]. rewrite last_cons_default. by apply IH.
Qed.

Lemma last_size_bounds lo hi F : lo <= hi -> Forall (block_bounds lo hi) F ->
  0 <= last_size F <= hi - lo.
Proof.
  intros Hle HF. unfold last_size. destruct (last F) as [[x xs]|] eqn:E; [|lia].
  apply last_Some in E as (F0 & ->). apply Forall_app in HF as [_ HF].
  apply Forall_cons in HF as [(? & ? & ? & _) _]. cbn in *. lia.
Qed.

Lemma last_addr_in_heap lo hi F : Forall (block_bounds lo hi) F ->
  in_heap ucHeap xStart (last_addr xStart F) = true.
Proof.
  intros HF. pose proof (last_default_in (addrs F) xStart) as Hin. fold (last_addr xStart F) in Hin.
  apply elem_of_cons in Hin as [->|Hi].
  - unfold in_heap. by rewrite Z.eqb_refl.
  - apply list_elem_of_fmap in Hi as ([x xs] & -> & Hi).
    rewrite Forall_forall in HF. by apply (HF _ Hi).
Qed.

(** The header of the first block behind the insertion point, if there is one. *)
Lemma next_header lo hi m p F e : lo <= hi ->
  fseg m p F e -> Forall (block_bounds lo hi) F ->
  exists nq qs, 0 <= qs <= hi - lo /\
    (hd_addr e F <> e -> m !! hd_addr e F = Some (mkBlock nq qs)) /\
    (forall a z r, F = (a, z) :: r -> m !! a = Some (mkBlock nq z) /\ z = qs).
Proof.
  intros Hle Hs HF. destruct F as [|[q qs] r].
  - exists 0, 0. split; [lia|]. by split.
  - destruct Hs as (H1 & H2 & H3). exists (hd_addr e r), qs.
    apply Forall_cons in HF as [(? & ? & ? & _) _]. cbn in *.
    split; [lia|]. split; [intros _|intros ? ? ? [= -> -> ->]; split; [|done]];
      apply block_eq; try done; by apply fseg_hd.
Qed.

Lemma prvInsert_run s F1 F2 b nb sz lo hi :
  let e := pxEnd s in
  fseg (blocks s) xStart (F1 ++ F2) e -> NoDup (xStart :: addrs F1 ++ b :: addrs F2) ->
  e ∉ b :: xStart :: addrs (F1 ++ F2) ->
  Forall (fun x => x.1 < b) F1 -> b < hd_addr e F2 ->
  xBlockSize <$> blocks s !! xStart = Some 0 -> blocks s !! b = Some (mkBlock nb sz) ->
  in_heap ucHeap xStart b = true -> Forall (block_bounds lo hi) (F1 ++ F2) ->
  lo <= hi -> 3 * (hi - lo) < 4294967296 -> 0 <= sz <= hi - lo -> (length F1 < heap_fuel)%nat ->
  exists m', prvInsertBlockIntoFreeList ucHeap xStart b s = Done (tt, set_blocks m' s) /\
    fseg m' xStart (coalesce F1 (b, sz) F2) e /\ (xBlockSize <$> m' !! xStart = Some 0) /\
    forall a, a ∉ b :: xStart :: addrs F1 -> m' !! a = blocks s !! a.
Proof.
  intros e Hs Hnd He Hlt Hhd Hx Hb Hin HF Hlo Hhi Hsz Hf.
  pose proof (fseg_split _ _ _ _ _ Hs) as [Hs1 Hs2].
  pose proof (block_eq _ _ _ _ (fseg_last_next _ _ _ _ Hs1) (last_size_of _ _ _ _ Hs1 Hx)) as Hit.
  pose proof (last_default_in (addrs F1) xStart) as Hitin. fold (last_addr xStart F1) in Hitin.
  assert (Hnd' := Hnd). rewrite app_comm_cons in Hnd'.
  apply NoDup_app in Hnd' as (_ & Hdis & _).
  assert (Hitb : last_addr xStart F1 <> b) by (intros E; apply (Hdis b); [by rewrite <- E|left]).
  apply Forall_app in HF as [HF1 HF2].
  pose proof (last_size_bounds _ _ _ Hlo HF1) as Hits0.
  destruct (next_header _ _ _ _ _ _ Hlo Hs2 HF2) as (nq & qs & Hqs & Hq1 & Hq2).
  assert (Hqit : hd_addr e F2 <> last_addr xStart F1).
  { intros E. destruct F2 as [|[q qs'] r].
    - apply He. right. cbn in E. rewrite E. unfold addrs. rewrite app_nil_r. exact Hitin.
    - apply (Hdis (last_addr xStart F1) Hitin). rewrite <- E. right. left. }
  assert (HeF2 : e ∉ addrs F2).
  { intros H. apply He. do 2 right. unfold addrs. rewrite map_app. apply elem_of_app. by right. }
  eexists. split; [|split; [|split]].
  - eapply prvInsert_store with (F1 := F1) (q := hd_addr e F2) (qn := nq) (qs := qs);
      [eapply insert_find_run; [done|exact Hs1|done|lia|done]|exact Hit|exact Hb|exact Hq1
      |done|done|by eapply last_addr_in_heap|done|done|done|lia|unfold is_u32; lia|lia..].
  - eapply insert_fseg; try done; [intros a z r Er; by apply (Hq2 a z r)|].
    destruct F2 as [|[q z] r]; cbn; [by rewrite Z.eqb_refl, andb_false_r|].
    destruct (Hq2 q z r eq_refl) as [_ ->].
    destruct (Z.eqb_spec q (pxEnd s)) as [->|]; [exfalso; apply HeF2; left|].
    cbn. by destruct (b + sz =? q).
  - unfold insert_store. assert (b <> xStart) by (intros ->; apply (Hdis xStart); left).
    destruct (Z.eqb_spec (last_addr xStart F1 + last_size F1) b) as [E|E].
    + rewrite lookup_insert_ne; [done|]. intros Ex. rewrite Ex in *.
      rewrite Hit in Hx. cbn in Hx. injection Hx as Hx. lia.
    + rewrite lookup_insert. case_decide as Ex; [|by rewrite lookup_insert_ne].
      rewrite <- Ex, Hit in Hx. exact Hx.
  - intros a Ha. unfold insert_store. assert (last_addr xStart F1 <> a).
    { intros E. apply Ha. right. by rewrite <- E. }
    assert (b <> a) by (intros ->; apply Ha; left).
    destruct (_ =? _); by rewrite !lookup_insert_ne.
Qed.
End Lists.

(** ** Tiles *)

Record tile := mkTile { t_addr : Z; t_size : Z; t_alloc : bool }.

(** The tiles cover [a, e) without gaps, in address order. *)
Fixpoint tiled (a : Z) (ts : list tile) (e : Z) : Prop :=
  match ts with
  | [] => a = e
  | T :: r => t_addr T = a /\ 0 < t_size T /\ t_size T mod 16 = 0 /\ tiled (a + t_size T) r e
  end.

(** The free tiles, in address order: what the free list should hold. *)
Fixpoint frees (ts : list tile) : list (Z * Z) :=
  match ts with
  | [] => []
  | T :: r => if t_alloc T then frees r else (t_addr T, t_size T) :: frees r
  end.

(** No two free tiles touch: freeing has coalesced all it could. *)
Fixpoint no_adj (ts : list tile) : Prop :=
  match ts with
  | T1 :: ((T2 :: _) as r) => (t_alloc T1 || t_alloc T2 = true) /\ no_adj r
  | _ => True
  end.

Fixpoint free_sum (ts : list tile) : Z :=
  match ts with
  | [] => 0
  | T :: r => (if t_alloc T then 0 else t_size T) + free_sum r
  end.

(** Specification of [vPortFree]: the tile between [L] and [R] becomes free and
    absorbs free neighbours. *)
Definition absorb_left (L : list tile) (a : Z) : list tile * Z * Z :=
  match last L with
  | Some T => if t_alloc T then (L, a, 0) else (removelast L, t_addr T, t_size T)
  | None => (L, a, 0)
  end.
Definition absorb_right (R : list tile) : list tile * Z :=
  match R with
  | T :: R' => if t_alloc T then (R, 0) else (R', t_size T)
  | [] => (R, 0)
  end.
Definition release (L : list tile) (a sz : Z) (R : list tile) : list tile :=
  let '(L', a', s0) := absorb_left L a in
  let '(R', s1) := absorb_right R in
  L' ++ mkTile a' (s0 + sz + s1) false :: R'.

(** Specification of [pvPortMalloc] for an adjusted size: first fit, split when
    more than the minimum block is left. *)
Fixpoint first_fit (want : Z) (ts : list tile) : option (Z * list tile) :=
  match ts with
  | [] => None
  | T :: r =>
      if negb (t_alloc T) && (want <=? t_size T) then
        Some (t_addr T,
              if heapMINIMUM_BLOCK_SIZE <? t_size T - want
              then mkTile (t_addr T) want true
                     :: mkTile (t_addr T + want) (t_size T - want) false :: r
              else mkTile (t_addr T) (t_size T) true :: r)
      else '(p, r') ← first_fit want r; Some (p, T :: r')
  end.

Lemma tiled_app a L R e : tiled a (L ++ R) e <-> exists c, tiled a L c /\ tiled c R e.
Proof.
  revert a. induction L as [|T L IH]; intros a; cbn; [naive_solver|].
  rewrite IH. naive_solver.
Qed.

Lemma tiled_flag a L T b R e :
  tiled a (L ++ T :: R) e -> tiled a (L ++ mkTile (t_addr T) (t_size T) b :: R) e.
Proof. rewrite !tiled_app. cbn. naive_solver. Qed.

Lemma tiled_le a ts e : tiled a ts e -> a <= e.
Proof. revert a. induction ts as [|T ts IH]; intros a; cbn; [lia|]. intros (_ & ? & _ & H%IH). lia. Qed.

Lemma tiled_in a ts e T : tiled a ts e -> T ∈ ts ->
  a <= t_addr T /\ 0 < t_size T /\ t_size T mod 16 = 0 /\ t_addr T + t_size T <= e /\
  (a mod 16 = 0 -> t_addr T mod 16 = 0).
Proof.
  revert a. induction ts as [|U ts IH]; intros a; cbn; [by intros _ ?%elem_of_nil|].
  intros (Ha & Hs & Hm & Ht) [->|Hin]%elem_of_cons.
  - apply tiled_le in Ht. subst a. repeat split; try done; lia.
  - destruct (IH _ Ht Hin) as (? & ? & ? & ? & Hmod). repeat split; try done; try lia.
    intros. apply Hmod. rewrite Z.add_mod, Hm by lia. rewrite Z.add_0_r.
    rewrite Z.mod_mod by lia. done.
Qed.

Lemma frees_app L R : frees (L ++ R) = frees L ++ frees R.
Proof. induction L as [|T L IH]; cbn; [done|]. rewrite IH. by destruct (t_alloc T). Qed.

Lemma free_sum_app L R : free_sum (L ++ R) = free_sum L + free_sum R.
Proof. induction L as [|T L IH]; cbn; lia. Qed.

Lemma frees_elem ts x : x ∈ frees ts -> exists T, T ∈ ts /\ t_alloc T = false /\ x = (t_addr T, t_size T).
Proof.
  induction ts as [|T ts IH]; cbn; [by intros ?%elem_of_nil|].
  destruct (t_alloc T) eqn:E.
  - intros (U & ? & ?)%IH. exists U. split; [by right|done].
  - intros [->|(U & ? & ?)%IH]%elem_of_cons; [exists T|exists U]; (split; [|done]); [by left|by right].
Qed.

Lemma frees_in a ts e x : tiled a ts e -> x ∈ frees ts ->
  a <= x.1 /\ 0 < x.2 /\ x.1 + x.2 <= e /\ (a mod 16 = 0 -> x.1 mod 16 = 0).
Proof.
  intros Ht (T & HT & _ & ->)%frees_elem. destruct (tiled_in _ _ _ _ Ht HT) as (? & ? & ? & ? & ?).
  cbn. tauto.
Qed.

Lemma frees_nodup a ts e : tiled a ts e -> NoDup (addrs (frees ts)).
Proof.
  revert a. induction ts as [|T ts IH]; intros a; cbn; [constructor|].
  intros (Ha & Hs & _ & Ht). specialize (IH _ Ht). destruct (t_alloc T); [done|].
  cbn. constructor; [|done]. intros (x & Hx & Hin)%list_elem_of_fmap.
  destruct (frees_in _ _ _ _ Ht Hin) as (? & _). lia.
Qed.

Lemma frees_length a ts e : tiled a ts e -> 16 * Z.of_nat (length (frees ts)) <= e - a.
Proof.
  revert a. induction ts as [|T ts IH]; intros a; cbn -[Z.mul]; [lia|].
  intros (Ha & Hs & Hm & Ht%IH). assert (16 <= t_size T) by zlia.
  destruct (t_alloc T); cbn -[Z.mul]; lia.
Qed.

Lemma free_sum_bounds a ts e : tiled a ts e -> 0 <= free_sum ts <= e - a.
Proof.
  revert a. induction ts as [|T ts IH]; intros a; cbn; [lia|].
  intros (Ha & Hs & Hm & Ht%IH). destruct (t_alloc T); lia.
Qed.

Lemma hd_addr_frees a ts e : tiled a ts e -> a <= hd_addr e (frees ts).
Proof.
  intros Ht. destruct (frees ts) as [|[x sx] r] eqn:E; cbn; [by eapply tiled_le|].
  apply (frees_in _ _ _ (x, sx) Ht). rewrite E. left.
Qed.

(** The free list after a release is the coalesced insertion. *)
Lemma merge_right_frees c R e x sx : tiled c R e -> x + sx = c ->
  merge_right (x, sx) (frees R) =
  (x, sx + (absorb_right R).2) :: frees (absorb_right R).1.
Proof.
  intros Ht Hc. destruct R as [|T R]; [cbn; by rewrite Z.add_0_r|].
  destruct Ht as (Ha & Hs & Hm & Ht). cbn. destruct (t_alloc T) eqn:E; cbn.
  - rewrite Z.add_0_r, E. destruct (frees R) as [|[q qs] r] eqn:EF; [done|].
    assert (c + t_size T <= q).
    { apply (frees_in _ _ _ (q, qs) Ht). rewrite EF. left. }
    cbn. by destruct (Z.eqb_spec (x + sx) q); [lia|].
  - by destruct (Z.eqb_spec (x + sx) (t_addr T)); [|lia].
Qed.

Lemma frees_release base e L a sz al R :
  tiled base (L ++ mkTile a sz al :: R) e ->
  frees (release L a sz R) = coalesce (frees L) (a, sz) (frees R).
Proof.
  intros Ht. apply tiled_app in Ht as (c & HL & Ha & Hs & Hm & HR). cbn in *. subst c.
  unfold release, absorb_left. destruct (last L) as [T|] eqn:EL.
  - apply last_Some in EL as (L0 & ->). apply tiled_app in HL as (c & HL0 & HaT & HsT & HmT & Hend).
    cbn in Hend. destruct (t_alloc T) eqn:ET.
    + unfold coalesce. rewrite (frees_app L0). cbn. rewrite ET, app_nil_r.
      destruct (absorb_right R) as [R' s1] eqn:ER. rewrite !frees_app. cbn. rewrite ET, app_nil_r.
      pose proof (merge_right_frees _ _ _ a sz HR eq_refl) as Hmr. rewrite ER in Hmr. cbn in Hmr.
      rewrite Hmr. destruct (last (frees L0)) as [[p ps]|] eqn:ELF; [|done].
      apply last_Some in ELF as (F0 & EF).
      assert (p + ps <= c).
      { apply (frees_in _ _ _ (p, ps) HL0). rewrite EF. apply elem_of_app. right. left. }
      by destruct (Z.eqb_spec (p + ps) a); [lia|].
    + unfold coalesce. rewrite removelast_last, (frees_app L0). cbn. rewrite ET, last_snoc.
      cbn. destruct (Z.eqb_spec (t_addr T + t_size T) a); [|lia]. rewrite removelast_last.
      pose proof (merge_right_frees _ _ _ (t_addr T) (t_size T + sz) HR ltac:(lia)) as Hmr.
      destruct (absorb_right R) as [R' s1] eqn:ER. cbn in Hmr. rewrite Hmr, frees_app. done.
  - apply last_None in EL as ->. cbn in *.
    pose proof (merge_right_frees _ _ _ a sz HR eq_refl) as Hmr.
    destruct (absorb_right R) as [R' s1] eqn:ER. cbn in *. by rewrite Hmr.
Qed.

(** ** The allocated bit *)

Definition top_bit : Z := 2147483648.

Lemma top_bit_free z : 0 <= z < top_bit -> Z.land z top_bit = 0.
Proof.
  unfold top_bit. intros. change 2147483648 with (2 ^ 31) in *.
  rewrite land_pow2, testbit_div by lia. by rewrite Z.div_small.
Qed.
Lemma top_bit_set z : 0 <= z < top_bit -> Z.land (z + top_bit) top_bit = top_bit.
Proof.
  unfold top_bit. intros. change 2147483648 with (2 ^ 31) in *.
  rewrite land_pow2, testbit_div by lia.
  destruct (Z.eqb_spec ((z + 2 ^ 31) / 2 ^ 31 mod 2) 1); [done|]. exfalso.
  change (2 ^ 31) with 2147483648 in *. zlia.
Qed.
Lemma top_bit_clear z : 0 <= z < top_bit -> Z.land (z + top_bit) (u32 (Z.lnot top_bit)) = z.
Proof.
  unfold top_bit. intros. change (u32 (Z.lnot 2147483648)) with (Z.ones 31).
  rewrite Z.land_ones by lia. change (2 ^ 31) with 2147483648. zlia.
Qed.
Lemma top_bit_lor z : 0 <= z < top_bit -> Z.lor z top_bit = z + top_bit.
Proof.
  unfold top_bit. intros. rewrite Z.lor_comm. change 2147483648 with (1 * 2 ^ 31) at 1.
  rewrite lor_disjoint_add by lia. lia.
Qed.

Lemma land_15 x : Z.land x portBYTE_ALIGNMENT_MASK = x mod 16.
Proof. exact (Z.land_ones x 4 ltac:(lia)). Qed.

Lemma align_down x : is_u32 x -> Z.land x (u32 (Z.lnot portBYTE_ALIGNMENT_MASK)) = x - x mod 16.
Proof.
  intros Hx. change (u32 (Z.lnot portBYTE_ALIGNMENT_MASK)) with (Z.shiftl (Z.ones 28) 4).
  rewrite <- (Z.mod_small x (2 ^ 32)) at 1 by (unfold is_u32 in Hx; lia).
  rewrite <- Z.land_ones by lia. rewrite <- Z.land_assoc.
  change (Z.land (Z.ones 32) (Z.shiftl (Z.ones 28) 4)) with (Z.ldiff (Z.ones 32) (Z.ones 4)).
  rewrite Z.ldiff_land, Z.land_assoc, Z.land_ones, Z.mod_small, <- Z.ldiff_land by
    (unfold is_u32 in Hx; lia).
  rewrite Z.ldiff_ones_r, Z.shiftr_div_pow2, Z.shiftl_mul_pow2 by lia.
  change (2 ^ 4) with 16. zlia.
Qed.

(** ** How the specifications change the tiling *)

Definition between_ok (L R : list tile) : Prop :=
  match last L, head R with
  | Some T1, Some T2 => t_alloc T1 || t_alloc T2 = true
  | _, _ => True
  end.

Lemma no_adj_app L R : no_adj (L ++ R) <-> no_adj L /\ no_adj R /\ between_ok L R.
Proof.
  induction L as [|T L IH]; [unfold between_ok; cbn; tauto|].
  destruct L as [|U L].
  - unfold between_ok. cbn. destruct R; cbn; tauto.
  - change ((T :: U :: L) ++ R) with (T :: U :: (L ++ R)).
    change (no_adj (T :: U :: L ++ R)) with (t_alloc T || t_alloc U = true /\ no_adj ((U :: L) ++ R)).
    rewrite IH. unfold between_ok. cbn. tauto.
Qed.

Lemma absorb_left_spec a0 L a : tiled a0 L a -> no_adj L ->
  let '(L', a', s0) := absorb_left L a in
  tiled a0 L' a' /\ a' + s0 = a /\ 0 <= s0 /\ s0 mod 16 = 0 /\ no_adj L' /\
  free_sum L' + s0 = free_sum L /\ (forall T, T ∈ L' -> T ∈ L) /\
  (forall T, last L' = Some T -> t_alloc T = true).
Proof.
  intros Ht Hn. unfold absorb_left. destruct (last L) as [T|] eqn:EL.
  2: { apply last_None in EL as ->. repeat split; try done; lia. }
  destruct (t_alloc T) eqn:ET; [repeat split; try done; try lia; intros U HU; congruence|].
  apply last_Some in EL as (L0 & ->). rewrite removelast_last.
  apply tiled_app in Ht as (c & HL & HT & Hs & Hm & He). cbn in He. subst.
  apply no_adj_app in Hn as (Hn & _ & Hb). rewrite free_sum_app. cbn. rewrite ET.
  repeat split; try done; try lia.
  - intros U HU. apply elem_of_app. by left.
  - intros U HU. unfold between_ok in Hb. rewrite HU in Hb. cbn in Hb. rewrite ET in Hb.
    by rewrite orb_false_r in Hb.
Qed.

Lemma absorb_right_spec a R e : tiled a R e -> no_adj R ->
  let '(R', s1) := absorb_right R in
  tiled (a + s1) R' e /\ 0 <= s1 /\ s1 mod 16 = 0 /\ no_adj R' /\
  free_sum R' + s1 = free_sum R /\ (forall T, T ∈ R' -> T ∈ R) /\
  (forall T, head R' = Some T -> t_alloc T = true).
Proof.
  intros Ht Hn. unfold absorb_right. destruct R as [|T R]; [repeat split; try done; cbn in *; lia|].
  destruct (t_alloc T) eqn:ET.
  - rewrite Z.add_0_r. split; [exact Ht|]. split; [lia|]. split; [done|]. split; [exact Hn|].
    split; [lia|]. split; [done|]. cbn. intros U HU. congruence.
  - destruct Ht as (Ha & Hs & Hm & Ht). cbn. rewrite ET. change (T :: R) with ([T] ++ R) in Hn.
    apply no_adj_app in Hn as (_ & Hn & Hb).
    repeat split; try done; try lia; [by intros; right|].
    intros U HU. unfold between_ok in Hb. rewrite HU in Hb. cbn in Hb. by rewrite ET in Hb.
Qed.

Lemma release_spec base e L a sz R :
  tiled base (L ++ mkTile a sz true :: R) e -> no_adj (L ++ mkTile a sz true :: R) ->
  tiled base (release L a sz R) e /\ no_adj (release L a sz R) /\
  free_sum (release L a sz R) = free_sum (L ++ mkTile a sz true :: R) + sz /\
  (forall T, T ∈ release L a sz R -> t_alloc T = true -> T ∈ L \/ T ∈ R).
Proof.
  intros Ht Hn. apply tiled_app in Ht as (c & HL & Ha & Hs & Hm & HR). cbn in *. subst c.
  apply no_adj_app in Hn as (HnL & HnR & _).
  change (mkTile a sz true :: R) with ([mkTile a sz true] ++ R) in HnR.
  apply no_adj_app in HnR as (_ & HnR & _).
  pose proof (absorb_left_spec _ _ _ HL HnL) as HAL. pose proof (absorb_right_spec _ _ _ HR HnR) as HAR.
  unfold release. destruct (absorb_left L a) as [[L' a'] s0], (absorb_right R) as [R' s1].
  destruct HAL as (HL1 & HL2 & HL3 & HL4 & HL5 & HL6 & HL7 & HL8).
  destruct HAR as (HR1 & HR2 & HR3 & HR4 & HR5 & HR6 & HR7).
  split; [|split; [|split]].
  - apply tiled_app. exists a'. split; [done|]. cbn. split; [done|]. split; [lia|].
    split; [zlia|]. by replace (a' + (s0 + sz + s1)) with (a + sz + s1) by lia.
  - apply no_adj_app. split; [done|].
    change (?T :: R') with ([T] ++ R'). split; [apply no_adj_app; split; [done|split; [done|]]|].
    + unfold between_ok. cbn. destruct (head R') as [T|] eqn:E; [|done]. by rewrite (HR7 _ eq_refl).
    + unfold between_ok. destruct (last L') as [T|] eqn:E; [|done]. cbn. by rewrite (HL8 _ eq_refl).
  - rewrite !free_sum_app. cbn. lia.
  - intros T [HT|[->|HT]%elem_of_cons]%elem_of_app HTa; [left; by apply HL7|done|right; by apply HR6].
Qed.

Lemma tiled_addr_inj a ts e T U :
  tiled a ts e -> T ∈ ts -> U ∈ ts -> t_addr T = t_addr U -> T = U.
Proof.
  revert a. induction ts as [|V ts IH]; intros a; [by intros _ ?%elem_of_nil|].
  intros (Ha & Hs & Hm & Ht) [->|HT]%elem_of_cons [->|HU]%elem_of_cons E; [done| | |by eapply IH].
  - destruct (tiled_in _ _ _ _ Ht HU) as (? & _). lia.
  - destruct (tiled_in _ _ _ _ Ht HT) as (? & _). lia.
Qed.

Lemma alloc_not_free a ts e T :
  tiled a ts e -> T ∈ ts -> t_alloc T = true -> t_addr T ∉ addrs (frees ts).
Proof.
  intros Ht HT Hal (x & Hx & (U & HU & Hf & ->)%frees_elem)%list_elem_of_fmap. cbn in Hx.
  rewrite (tiled_addr_inj _ _ _ _ _ Ht HT HU Hx) in Hal. congruence.
Qed.

(** The tiles after [first_fit] took [T] from between [L] and [R]. *)
Definition taken (want : Z) (T : tile) : list tile :=
  if heapMINIMUM_BLOCK_SIZE <? t_size T - want
  then [mkTile (t_addr T) want true; mkTile (t_addr T + want) (t_size T - want) false]
  else [mkTile (t_addr T) (t_size T) true].

Lemma first_fit_some want ts p ts' : first_fit want ts = Some (p, ts') ->
  exists L T R, ts = L ++ T :: R /\ t_alloc T = false /\ want <= t_size T /\
    Forall (fun x => x.2 < want) (frees L) /\ p = t_addr T /\ ts' = L ++ taken want T ++ R.
Proof.
  revert p ts'. induction ts as [|T ts IH]; intros p ts'; cbn; [done|].
  destruct (t_alloc T) eqn:ET; cbn; [|destruct (Z.leb_spec want (t_size T)) as [Hle|Hlt]].
  - intros ([q r] & H1%IH & H2)%bind_Some. injection H2 as <- <-.
    destruct H1 as (L & U & R & -> & ? & ? & ? & ? & ->). exists (T :: L), U, R.
    cbn. rewrite ET. done.
  - intros [= <- <-]. exists [], T, ts. unfold taken. cbn. by destruct (_ <? _).
  - intros ([q r] & H1%IH & H2)%bind_Some. injection H2 as <- <-.
    destruct H1 as (L & U & R & -> & ? & ? & ? & ? & ->). exists (T :: L), U, R.
    cbn. rewrite ET. repeat split; try done. by constructor.
Qed.

Lemma first_fit_none want ts : first_fit want ts = None -> Forall (fun x => x.2 < want) (frees ts).
Proof.
  induction ts as [|T ts IH]; cbn; [constructor|].
  destruct (t_alloc T) eqn:ET; cbn; [|destruct (Z.leb_spec want (t_size T)) as [Hle|Hlt]]; [|done|].
  - intros H. apply IH. destruct (first_fit want ts) as [[]|]; done.
  - intros H. constructor; [done|]. apply IH. destruct (first_fit want ts) as [[]|]; done.
Qed.

(** A free tile has no free neighbour. *)
Lemma no_adj_free L T R : no_adj (L ++ T :: R) -> t_alloc T = false ->
  no_adj L /\ no_adj R /\ (forall U, last L = Some U -> t_alloc U = true) /\
  (forall U, head R = Some U -> t_alloc U = true).
Proof.
  intros Hn ET. apply no_adj_app in Hn as (HL & HTR & Hb).
  change (T :: R) with ([T] ++ R) in HTR. apply no_adj_app in HTR as (_ & HR & Hb').
  unfold between_ok in *. cbn in *. split; [done|]. split; [done|]. split; intros U HU.
  - rewrite HU, ET in Hb. by rewrite orb_false_r in Hb.
  - rewrite HU, ET in Hb'. done.
Qed.

Lemma release_alone L a sz R :
  (forall U, last L = Some U -> t_alloc U = true) ->
  (forall U, head R = Some U -> t_alloc U = true) ->
  release L a sz R = L ++ mkTile a sz false :: R.
Proof.
  intros HL HR. unfold release, absorb_left, absorb_right.
  destruct (last L) as [U|]; [rewrite (HL U eq_refl)|];
    (destruct R as [|V R]; [|rewrite (HR V eq_refl)]); cbn; by rewrite Z.add_0_r.
Qed.

Lemma release_taken want L T R :
  no_adj (L ++ T :: R) -> t_alloc T = false -> 
  exists sz R', taken want T ++ R = mkTile (t_addr T) sz true :: R' /\
    release L (t_addr T) sz R' = L ++ T :: R.
Proof.
  intros Hn ET. destruct (no_adj_free _ _ _ Hn ET) as (HL & HR & Hl & Hr).
  unfold taken. destruct T as [a sz al]; cbn in *. subst al. destruct (_ <? _).
  - do 2 eexists. split; [done|]. unfold release, absorb_left, absorb_right. cbn.
    destruct (last L) as [U|]; [rewrite (Hl U eq_refl)|]; cbn; do 3 f_equal; lia.
  - do 2 eexists. split; [done|]. by apply release_alone.
Qed.

Lemma taken_spec base e want L T R :
  tiled base (L ++ T :: R) e -> no_adj (L ++ T :: R) -> t_alloc T = false ->
  0 < want <= t_size T -> want mod 16 = 0 ->
  exists w, want <= w <= t_size T /\ tiled base (L ++ taken want T ++ R) e /\
    no_adj (L ++ taken want T ++ R) /\
    free_sum (L ++ taken want T ++ R) = free_sum (L ++ T :: R) - w /\
    head (taken want T) = Some (mkTile (t_addr T) w true) /\
    (forall U, U ∈ L ++ taken want T ++ R -> t_alloc U = true ->
       U ∈ L \/ U ∈ R \/ U = mkTile (t_addr T) w true).
Proof.
  intros Ht Hn ET Hw Hm. destruct (no_adj_free _ _ _ Hn ET) as (HL & HR & Hl & Hr).
  apply tiled_app in Ht as (c & HtL & Ha & Hs & Hms & HtR). subst c.
  assert (HbL : forall w r, between_ok L (mkTile (t_addr T) w true :: r)).
  { intros w r. unfold between_ok. destruct (last L) as [U|]; [|done]. cbn. by rewrite (Hl U eq_refl). }
  assert (HbR : forall T', between_ok [T'] R).
  { intros T'. unfold between_ok. cbn. destruct (head R) as [U|]; [|done].
    rewrite (Hr U eq_refl). apply orb_true_r. }
  unfold taken. destruct (Z.ltb_spec heapMINIMUM_BLOCK_SIZE (t_size T - want)) as [H|H].
  - change heapMINIMUM_BLOCK_SIZE with 32 in H. exists want. split; [lia|].
    split; [|split; [|split; [|split; [done|]]]].
    + apply tiled_app. exists (t_addr T). split; [done|]. cbn.
      split; [done|]. split; [lia|]. split; [done|]. split; [done|]. split; [lia|].
      split; [zlia|]. by replace (t_addr T + want + (t_size T - want)) with (t_addr T + t_size T) by lia.
    + apply no_adj_app. split; [done|]. split; [|apply HbL]. cbn [app].
      change (mkTile (t_addr T) want true :: ?x :: R) with ([mkTile (t_addr T) want true; x] ++ R).
      apply no_adj_app. split; [done|]. split; [done|]. apply HbR.
    + rewrite !free_sum_app. cbn. rewrite ET. lia.
    + intros U. cbn. rewrite elem_of_app, !elem_of_cons. intros [?|[?|[->|?]]]; auto. done.
  - exists (t_size T). split; [lia|]. split; [|split; [|split; [|split; [done|]]]].
    + apply tiled_app. exists (t_addr T). done.
    + apply no_adj_app. split; [done|]. split; [|apply HbL]. cbn [app].
      change (mkTile ?a ?z true :: R) with ([mkTile a z true] ++ R).
      apply no_adj_app. split; [done|]. split; [done|]. apply HbR.
    + rewrite !free_sum_app. cbn. rewrite ET. lia.
    + intros U. cbn. rewrite elem_of_app, !elem_of_cons. intros [?|[?|?]]; auto.
Qed.

(** Bytes a request of [w] takes: the header added, rounded up to 16. *)
Definition block_size (w : Z) : Z := (w + 31) - (w + 31) mod 16.

Lemma adjust_size_spec w : 0 <= w < top_bit ->
  adjust_size w = (if 0 <? w then block_size w else 0) /\
  Z.land (adjust_size w) portBYTE_ALIGNMENT_MASK = 0.
Proof.
  intros Hw. rewrite land_15. unfold adjust_size, block_size, top_bit in *.
  change xHeapStructSize with 16. unfold portBYTE_ALIGNMENT. rewrite land_15.
  rewrite (u32_small (w + 16)) by zlia.
  destruct (Z.ltb_spec 0 w), (Z.ltb_spec w (w + 16)); try lia; cbn [andb]; [|done].
  destruct (Z.eqb_spec ((w + 16) mod 16) 0); cbn [negb]; [split; zlia|].
  rewrite u32_small by zlia. destruct (Z.ltb_spec (w + 16) (w + 16 + (16 - (w + 16) mod 16))); [|zlia].
  split; zlia.
Qed.

(** Specification of [pvPortMalloc] on the tiles: the pointer and the tiling. *)
Definition malloc_spec (w : Z) (ts : list tile) : Z * list tile :=
  if (0 <? w) && (w <? top_bit) then
    match first_fit (block_size w) ts with
    | Some (p, ts') => (p + 16, ts')
    | None => (0, ts)
    end
  else (0, ts).

Lemma free_sum_mem ts T : (forall U, U ∈ ts -> 0 < t_size U) -> T ∈ ts -> t_alloc T = false ->
  t_size T <= free_sum ts.
Proof.
  intros Hp. revert T. induction ts as [|U ts IH]; intros T; [by intros ?%elem_of_nil|].
  assert (Hge : 0 <= free_sum ts).
  { clear IH. assert (H : forall U, U ∈ ts -> 0 < t_size U) by (intros; apply Hp; by right). clear Hp.
    induction ts as [|V ts IH]; cbn; [lia|]. specialize (IH ltac:(intros; apply H; by right)).
    pose proof (H V ltac:(left)). destruct (t_alloc V); lia. }
  pose proof (Hp U ltac:(left)). cbn.
  intros [->|HT]%elem_of_cons ET; [rewrite ET; lia|].
  specialize (IH ltac:(intros; apply Hp; by right) T HT ET). destruct (t_alloc U); lia.
Qed.

(** ** The invariant and the two operations *)

Section Heap.
Context (ucHeap xStart : Z).
(** The linker's placement: the array lies in the address space above NULL and
    [xStart] is another object. *)
Hypothesis heap_placed : 0 < ucHeap /\ ucHeap + configTOTAL_HEAP_SIZE <= 4294967296.
Hypothesis start_apart :
  0 < xStart /\ (xStart + 8 <= ucHeap \/ ucHeap + configTOTAL_HEAP_SIZE <= xStart).

(** First and last aligned header positions of the heap. *)
Definition heap_lo : Z := (ucHeap + 15) - (ucHeap + 15) mod 16.
Definition heap_hi : Z := let a := ucHeap + configTOTAL_HEAP_SIZE - 16 in a - a mod 16.

Record heap_rep (s : heap_state) (ts : list tile) : Prop := {
  hr_end : pxEnd s = heap_hi;
  hr_bit : xBlockAllocatedBit s = top_bit;
  hr_tiled : tiled heap_lo ts heap_hi;
  hr_adj : no_adj ts;
  hr_start : xBlockSize <$> blocks s !! xStart = Some 0;
  hr_free : fseg (blocks s) xStart (frees ts) heap_hi;
  hr_alloc T : T ∈ ts -> t_alloc T = true ->
    blocks s !! t_addr T = Some (mkBlock 0 (t_size T + top_bit));
  hr_endblk : blocks s !! heap_hi = Some (mkBlock 0 0);
  hr_bytes : xFreeBytesRemaining s = free_sum ts;
  hr_min : 0 <= xMinimumEverFreeBytesRemaining s <= xFreeBytesRemaining s
}.

Lemma heap_geometry :
  heap_lo mod 16 = 0 /\ heap_hi mod 16 = 0 /\ ucHeap <= heap_lo /\ heap_lo + 16352 <= heap_hi /\
  heap_hi + 16 <= ucHeap + configTOTAL_HEAP_SIZE /\ heap_hi - heap_lo <= 16368 /\
  (forall a, heap_lo <= a <= heap_hi -> in_heap ucHeap xStart a = true /\ a <> xStart).
Proof.
  destruct heap_placed as [H1 H2], start_apart as [H3 H4].
  unfold heap_lo, heap_hi, configTOTAL_HEAP_SIZE in *. repeat split; try zlia.
  - unfold in_heap, configTOTAL_HEAP_SIZE. apply orb_true_iff. right.
    apply andb_true_iff. split; apply Z.leb_le; zlia.
Qed.

(** Everything the free-list lemmas ask about a position in a tiling. *)
Lemma tile_position L T R :
  tiled heap_lo (L ++ T :: R) heap_hi ->
  heap_lo <= t_addr T /\ t_addr T + t_size T <= heap_hi /\ 16 <= t_size T /\
  t_addr T mod 16 = 0 /\ t_size T mod 16 = 0 /\
  NoDup (xStart :: addrs (frees L) ++ t_addr T :: addrs (frees R)) /\
  (heap_hi ∉ t_addr T :: xStart :: addrs (frees L ++ frees R)) /\
  Forall (fun x => x.1 < t_addr T) (frees L) /\
  t_addr T + t_size T <= hd_addr heap_hi (frees R) /\
  Forall (block_bounds ucHeap xStart heap_lo heap_hi) (frees L ++ frees R) /\
  (length (frees L) < heap_fuel)%nat.
Proof.
  intros Ht. destruct heap_geometry as (G1 & G2 & G3 & G4 & G5 & G6 & G7).
  pose proof (tiled_in _ _ _ T Ht ltac:(set_solver)) as (P1 & P2 & P3 & P4 & P5).
  apply tiled_app in Ht as (c & HL & Ha & Hs & Hm & HR). subst c.
  assert (HinL : forall x, x ∈ frees L -> heap_lo <= x.1 /\ 0 < x.2 /\ x.1 + x.2 <= t_addr T).
  { intros x Hx. by destruct (frees_in _ _ _ _ HL Hx) as (? & ? & ? & _). }
  assert (HinR : forall x, x ∈ frees R ->
    t_addr T + t_size T <= x.1 /\ 0 < x.2 /\ x.1 + x.2 <= heap_hi).
  { intros x Hx. by destruct (frees_in _ _ _ _ HR Hx) as (? & ? & ? & _). }
  assert (HaL : forall a, a ∈ addrs (frees L) -> heap_lo <= a < t_addr T).
  { intros a (x & -> & Hx)%list_elem_of_fmap. specialize (HinL x Hx). lia. }
  assert (HaR : forall a, a ∈ addrs (frees R) -> t_addr T < a < heap_hi).
  { intros a (x & -> & Hx)%list_elem_of_fmap. specialize (HinR x Hx). lia. }
  assert (Hst : xStart <> t_addr T /\ xStart <> heap_hi).
  { split; apply not_eq_sym; apply G7; lia. }
  do 5 (split; [zlia || by apply P5|]).
  split; [|split; [|split; [|split; [|split]]]].
  - constructor.
    + rewrite elem_of_app, elem_of_cons. intros [H|[H|H]].
      * apply (G7 xStart); [specialize (HaL _ H); lia|done].
      * by destruct Hst.
      * apply (G7 xStart); [specialize (HaR _ H); lia|done].
    + apply NoDup_app. split; [by eapply frees_nodup|]. split.
      * intros x Hx [->|Hx']%elem_of_cons; [specialize (HaL _ Hx); lia|].
        specialize (HaL _ Hx). specialize (HaR _ Hx'). lia.
      * constructor; [intros Hx; specialize (HaR _ Hx); lia|]. by eapply frees_nodup.
  - unfold addrs. rewrite map_app. rewrite !elem_of_cons, elem_of_app.
    intros [H|[H|[H|H]]]; [lia|by destruct Hst| |].
    + specialize (HaL _ H). lia.
    + specialize (HaR _ H). lia.
  - apply Forall_forall. intros x Hx. specialize (HinL x Hx). lia.
  - by eapply hd_addr_frees.
  - apply Forall_forall. intros x [Hx|Hx]%elem_of_app; unfold block_bounds.
    + specialize (HinL x Hx). repeat split; try lia. apply G7. lia.
    + specialize (HinR x Hx). repeat split; try lia. apply G7. lia.
  - pose proof (frees_length _ _ _ HL). pose proof heap_fuel_val. lia.
Qed.

(** An allocated tile's header is none of the headers an insertion at another
    tile touches. *)
Lemma alloc_apart T U L R :
  tiled heap_lo (L ++ U :: R) heap_hi -> T ∈ L \/ T ∈ R -> t_alloc T = true ->
  t_addr T ∉ t_addr U :: xStart :: addrs (frees L).
Proof.
  intros Ht HT Hal.
  destruct heap_geometry as (G1 & G2 & G3 & G4 & G5 & G6 & G7).
  assert (HTin : T ∈ L ++ U :: R) by set_solver.
  pose proof (tiled_in _ _ _ T Ht HTin) as (P1 & P2 & P3 & P4 & P5).
  pose proof (alloc_not_free _ _ _ T Ht HTin Hal) as Hnf.
  rewrite frees_app in Hnf. unfold addrs in *. rewrite map_app in Hnf.
  rewrite !elem_of_cons. intros [H|[H|H]].
  - apply tiled_app in Ht as (c & HL & Ha & Hs & Hm & HR). subst c. destruct HT as [HT|HT].
    + destruct (tiled_in _ _ _ T HL HT) as (? & ? & ? & ? & _). lia.
    + destruct (tiled_in _ _ _ T HR HT) as (? & ? & ? & ? & _). lia.
  - destruct (G7 (t_addr T)); [lia|done].
  - apply Hnf. apply elem_of_app. by left.
Qed.

(** Putting a block on the free list, between [L] and [R]. *)
Lemma insert_tile s L a nb sz R :
  tiled heap_lo (L ++ mkTile a sz true :: R) heap_hi -> pxEnd s = heap_hi ->
  fseg (blocks s) xStart (frees L ++ frees R) heap_hi ->
  xBlockSize <$> blocks s !! xStart = Some 0 -> blocks s !! a = Some (mkBlock nb sz) ->
  exists m', prvInsertBlockIntoFreeList ucHeap xStart a s = Done (tt, set_blocks m' s) /\
    fseg m' xStart (frees (release L a sz R)) heap_hi /\
    (xBlockSize <$> m' !! xStart = Some 0) /\
    (forall T, T ∈ L \/ T ∈ R -> t_alloc T = true -> m' !! t_addr T = blocks s !! t_addr T) /\
    m' !! heap_hi = blocks s !! heap_hi.
Proof.
  intros Ht He Hfr Hst Hb.
  pose proof (tile_position _ _ _ Ht) as
    (P1 & P2 & P3 & P4 & P5 & Hnd & Hhi & HltL & HltR & HF & Hfuel). cbn in *.
  destruct heap_geometry as (G1 & G2 & G3 & G4 & G5 & G6 & G7).
  destruct (prvInsert_run ucHeap xStart s (frees L) (frees R) a nb sz heap_lo heap_hi)
    as (m' & Hrun & Hf' & Hx' & Hout); rewrite ?He; try done; try lia; [by apply G7; lia|].
  exists m'. split; [done|]. rewrite He in Hf'.
  rewrite (frees_release _ _ _ _ _ _ _ Ht). split; [done|]. split; [done|]. split.
  - intros T HT Hal. apply Hout. by eapply (alloc_apart T (mkTile a sz true)).
  - apply Hout. intros Hin. apply Hhi. unfold addrs. rewrite map_app. clear - Hin.
    rewrite !elem_of_cons, ?elem_of_app in *. tauto.
Qed.

Lemma middle_frame (m : gmap Z BlockLink_t) L a sz al R b :
  tiled heap_lo (L ++ mkTile a sz al :: R) heap_hi ->
  (forall x, x ∈ xStart :: addrs (frees L ++ frees R) -> <[a := b]> m !! x = m !! x) /\
  (forall T, T ∈ L \/ T ∈ R -> t_addr T <> a) /\ heap_hi <> a /\ xStart <> a.
Proof.
  intros Ht. pose proof (tile_position _ _ _ Ht) as
    (P1 & P2 & P3 & P4 & P5 & Hnd & Hhi & HltL & HltR & HF & Hfuel). cbn in *.
  rewrite app_comm_cons, <- Permutation_middle in Hnd. apply NoDup_cons in Hnd as [Hna Hnd].
  split; [|split; [|split; [lia|intros ->; apply Hna; left]]].
  - intros x Hx. rewrite lookup_insert_ne; [done|]. intros <-. apply Hna.
    unfold addrs in *. by rewrite map_app in Hx.
  - intros T HT. apply tiled_app in Ht as (c & HL & Ha & Hs & Hm & HR). cbn in *. subst c.
    destruct HT as [HT|HT].
    + destruct (tiled_in _ _ _ T HL HT) as (? & ? & ? & ? & _). lia.
    + destruct (tiled_in _ _ _ T HR HT) as (? & ? & ? & ? & _). lia.
Qed.

Lemma vPortFree_run s L a sz R :
  heap_rep s (L ++ mkTile a sz true :: R) ->
  exists s', vPortFree ucHeap xStart (a + xHeapStructSize) s = Done (tt, s') /\
    heap_rep s' (release L a sz R) /\
    xFreeBytesRemaining s' = xFreeBytesRemaining s + sz /\
    xMinimumEverFreeBytesRemaining s' = xMinimumEverFreeBytesRemaining s /\
    xNumberOfSuccessfulFrees s' = u32 (xNumberOfSuccessfulFrees s + 1) /\
    xNumberOfSuccessfulAllocations s' = xNumberOfSuccessfulAllocations s.
Proof.
  intros Hr. pose proof (hr_tiled _ _ Hr) as Htl. pose proof (hr_adj _ _ Hr) as Hadj.
  destruct (tile_position _ _ _ Htl) as (P1 & P2 & P3 & P4 & P5 & _). cbn in *.
  destruct heap_geometry as (G1 & G2 & G3 & G4 & G5 & G6 & G7).
  destruct (release_spec _ _ _ _ _ _ Htl Hadj) as (Rt & Rn & Rs & Ra).
  pose proof (free_sum_bounds _ _ _ Rt) as Hsum. pose proof (free_sum_bounds _ _ _ Htl) as Hsum0.
  pose proof (hr_alloc _ _ Hr (mkTile a sz true) ltac:(set_solver) eq_refl) as Hb. cbn in Hb.
  destruct (G7 a) as [Hin Hax]; [lia|]. pose proof (hr_bytes _ _ Hr) as Hby.
  pose proof (hr_free _ _ Hr) as Hfr. rewrite frees_app in Hfr. cbn in Hfr.
  assert (Hsz : 0 <= sz < top_bit) by (unfold top_bit; lia).
  set (m1 := <[a := mkBlock 0 sz]> (blocks s)).
  destruct (middle_frame (blocks s) L a sz true R (mkBlock 0 sz) Htl) as (Hna & Hne & Hhi & _).
  fold m1 in Hna. set (s1 := set_free (xFreeBytesRemaining s + sz) (set_blocks m1 s)).
  destruct (insert_tile s1 L a 0 sz R Htl) as (m' & Hrun & Hf' & Hx' & Hal' & Hhi'); cbn;
    [apply (hr_end _ _ Hr)|by eapply fseg_frame|rewrite Hna by left; apply (hr_start _ _ Hr)
    |by apply lookup_insert_eq|].
  exists (count_free (set_blocks m' s1)). split; [|split; [|by cbn]].
  - unfold vPortFree, wr_size, wr, rd. change xHeapStructSize with 16.
    replace (a + 16 - 16) with a by lia. zcase. cbn [negb]. mred. rewrite Hb. mred.
    cbn [xBlockSize pxNextFreeBlock]. rewrite (hr_bit _ _ Hr), top_bit_set, top_bit_clear by done.
    cbn [negb Z.eqb top_bit]. mred. rewrite Hb, Hin. mred. cbn [set_blocks blocks].
    rewrite lookup_insert_eq. mred. cbn [xBlockSize set_size pxNextFreeBlock].
    fold m1. rewrite (u32_small (_ + _)) by (cbn; unfold is_u32; lia).
    change (set_free _ _) with s1. by rewrite Hrun.
  - constructor; cbn; try done; try lia; [apply (hr_end _ _ Hr)|apply (hr_bit _ _ Hr)| | |].
    + intros T HT Hal. destruct (Ra T HT Hal) as [HT'|HT']; rewrite Hal'; try tauto;
        unfold s1; cbn; unfold m1; (rewrite lookup_insert_ne by (apply not_eq_sym, Hne; tauto));
        (apply (hr_alloc _ _ Hr); [set_solver|done]).
    + rewrite Hhi'. cbn. unfold m1. rewrite lookup_insert_ne by done. apply (hr_endblk _ _ Hr).
    + pose proof (hr_min _ _ Hr). lia.
Qed.
Lemma start_in_heap : in_heap ucHeap xStart xStart = true.
Proof. unfold in_heap. by rewrite Z.eqb_refl. Qed.

(** The first allocation makes the whole aligned heap one free block. *)
Lemma prvHeapInit_run s :
  exists s', prvHeapInit ucHeap xStart s = Done (tt, s') /\
    heap_rep s' [mkTile heap_lo (heap_hi - heap_lo) false] /\
    xNumberOfSuccessfulAllocations s' = xNumberOfSuccessfulAllocations s /\
    xNumberOfSuccessfulFrees s' = xNumberOfSuccessfulFrees s.
Proof.
  destruct heap_geometry as (G1 & G2 & G3 & G4 & G5 & G6 & G7).
  destruct heap_placed as [B1 B2]. unfold prvHeapInit.
  match goal with |- context [if ?c then (?x, ?y) else (?z, ?t)] =>
    assert (Epair : (if c then (x, y) else (z, t)) = (heap_lo, ucHeap + configTOTAL_HEAP_SIZE - heap_lo)) end.
  { rewrite land_15. unfold heap_lo, configTOTAL_HEAP_SIZE in *.
    destruct (Z.eqb_spec (ucHeap mod 16) 0); cbn [negb].
    - f_equal; zlia.
    - rewrite align_down by apply u32_range. unfold portBYTE_ALIGNMENT.
      rewrite (u32_small (ucHeap + _)) by zlia. f_equal; rewrite ?u32_small; zlia. }
  rewrite Epair. clear Epair.
  match goal with |- context [Z.land (u32 ?x) ?y] => assert (Eend : Z.land (u32 x) y = heap_hi) end.
  { rewrite align_down by apply u32_range. unfold heap_hi, configTOTAL_HEAP_SIZE in *.
    change xHeapStructSize with 16. replace (heap_lo + (ucHeap + 16384 - heap_lo)) with (ucHeap + 16384) by lia.
    replace (u32 (u32 (ucHeap + 16384) - 16)) with (ucHeap + 16384 - 16) by zlia. lia. }
  rewrite Eend. clear Eend.
  destruct (G7 heap_lo) as [I1 N1]; [lia|]. destruct (G7 heap_hi) as [I2 N2]; [lia|].
  pose proof start_in_heap as I0. unfold configTOTAL_HEAP_SIZE in *.
  destruct s as [m pe fr mn na nf bit].
  unfold set_next, set_size. hstep.
  repeat first [progress hstep | rewrite I0 | rewrite I1 | rewrite I2].
  eexists. split; [reflexivity|]. split; [|done]. rewrite (u32_small (_ - _)) by (unfold is_u32; lia).
  assert (heap_lo <> heap_hi) by lia.
  constructor; cbn [pxEnd xBlockAllocatedBit blocks xFreeBytesRemaining xMinimumEverFreeBytesRemaining].
  - done.
  - done.
  - cbn. split; [done|]. split; [lia|]. split; [zlia|lia].
  - done.
  - by simplify_map_eq.
  - cbn. by simplify_map_eq.
  - intros T ->%list_elem_of_singleton. done.
  - by simplify_map_eq.
  - cbn. lia.
  - lia.
Qed.
(** The headers an allocation at another tile leaves alone. *)
Definition others_kept (m m' : gmap Z BlockLink_t) (L R : list tile) : Prop :=
  (forall T, T ∈ L \/ T ∈ R -> t_alloc T = true -> m' !! t_addr T = m !! t_addr T) /\
  m' !! heap_hi = m !! heap_hi.

Lemma malloc_take_run s L a nx w R :
  let ts := L ++ mkTile a w true :: R in
  tiled heap_lo ts heap_hi -> no_adj ts -> pxEnd s = heap_hi -> xBlockAllocatedBit s = top_bit ->
  xBlockSize <$> blocks s !! xStart = Some 0 -> fseg (blocks s) xStart (frees ts) heap_hi ->
  blocks s !! a = Some (mkBlock nx w) ->
  (forall T, T ∈ L \/ T ∈ R -> t_alloc T = true ->
     blocks s !! t_addr T = Some (mkBlock 0 (t_size T + top_bit))) ->
  blocks s !! heap_hi = Some (mkBlock 0 0) -> xFreeBytesRemaining s = free_sum ts + w ->
  0 <= xMinimumEverFreeBytesRemaining s ->
  exists s', malloc_take ucHeap xStart a s = Done (tt, s') /\ heap_rep s' ts /\
    xMinimumEverFreeBytesRemaining s' = Z.min (xMinimumEverFreeBytesRemaining s) (free_sum ts) /\
    xNumberOfSuccessfulAllocations s' = u32 (xNumberOfSuccessfulAllocations s + 1) /\
    xNumberOfSuccessfulFrees s' = xNumberOfSuccessfulFrees s.
Proof.
  intros ts Ht Hn He Hbit Hst Hfr Hb Hal Hend Hby Hmin.
  destruct (tile_position _ _ _ Ht) as (P1 & P2 & P3 & P4 & P5 & _). cbn in P1, P2, P3.
  destruct heap_geometry as (G1 & G2 & G3 & G4 & G5 & G6 & G7).
  pose proof (free_sum_bounds _ _ _ Ht) as Hs. destruct (G7 a) as [Ia _]; [lia|].
  destruct (middle_frame (blocks s) L a w true R (mkBlock 0 (w + top_bit)) Ht) as (F1 & F2 & F3 & F4).
  assert (Hw : 0 <= w < top_bit) by (unfold top_bit; lia).
  destruct s as [m pe fr mn na nf bit]. cbn in *. subst pe bit fr.
  eexists. split; [|split; [|split]].
  - unfold malloc_take. hstep. cbn. rewrite (u32_small (_ - _)) by (unfold is_u32; lia).
    replace (free_sum ts + w - w) with (free_sum ts) by lia.
    instantiate (1 := mkHeap (<[a := mkBlock 0 (w + top_bit)]> m) heap_hi (free_sum ts)
      (Z.min mn (free_sum ts)) (u32 (na + 1)) nf top_bit).
    destruct (Z.ltb_spec (free_sum ts) mn); cbn; (rewrite top_bit_lor by done);
      repeat first [rewrite Hb | rewrite Ia | progress hstep]; unfold set_blocks, set_next, set_size, count_alloc; cbn;
      rewrite insert_insert_eq; repeat first [done | lia | f_equal].
  - constructor; cbn [pxEnd xBlockAllocatedBit blocks xFreeBytesRemaining
      xMinimumEverFreeBytesRemaining]; try done; [| | | |lia].
    + rewrite F1 by left. done.
    + eapply fseg_frame; [|exact Hfr]. intros x Hx. apply F1. unfold ts in Hx.
      rewrite frees_app in Hx. exact Hx.
    + intros T HT HTa. unfold ts in HT. rewrite elem_of_app, elem_of_cons in HT.
      destruct HT as [HT|[->|HT]].
      * rewrite lookup_insert_ne; [apply Hal; tauto|]. apply not_eq_sym, F2. tauto.
      * cbn. by rewrite lookup_insert_eq.
      * rewrite lookup_insert_ne; [apply Hal; tauto|]. apply not_eq_sym, F2. tauto.
    + by rewrite lookup_insert_ne.
  - done.
  - done.
Qed.

Lemma malloc_split_run s L T nx R want :
  tiled heap_lo (L ++ T :: R) heap_hi -> no_adj (L ++ T :: R) -> t_alloc T = false ->
  0 < want <= t_size T -> want mod 16 = 0 -> pxEnd s = heap_hi ->
  fseg (blocks s) xStart (frees L ++ frees R) heap_hi ->
  xBlockSize <$> blocks s !! xStart = Some 0 ->
  blocks s !! t_addr T = Some (mkBlock nx (t_size T)) ->
  exists m' w R' nx', malloc_split ucHeap xStart (t_addr T) want s = Done (tt, set_blocks m' s) /\
    taken want T ++ R = mkTile (t_addr T) w true :: R' /\
    fseg m' xStart (frees (L ++ taken want T ++ R)) heap_hi /\
    (xBlockSize <$> m' !! xStart = Some 0) /\ m' !! t_addr T = Some (mkBlock nx' w) /\
    others_kept (blocks s) m' L R.
Proof.
  intros Ht Hn ET Hw Hm He Hfr Hst Hb. destruct (no_adj_free _ _ _ Hn ET) as (HL & HR & Hl & Hr).
  destruct (tile_position _ _ _ Ht) as (P1 & P2 & P3 & P4 & P5 & _).
  destruct heap_geometry as (G1 & G2 & G3 & G4 & G5 & G6 & G7).
  assert (Hu : u32 (t_size T - want) = t_size T - want) by (rewrite u32_small; unfold is_u32; lia).
  unfold malloc_split, taken. erewrite bind_done by (unfold rd; mred; rewrite Hb; reflexivity).
  cbn [xBlockSize]. rewrite Hu. change heapMINIMUM_BLOCK_SIZE with 32.
  destruct (Z.ltb_spec 32 (t_size T - want)) as [Hsp|Hsp].
  2: { exists (blocks s), (t_size T), R, nx. split; [by destruct s|].
       rewrite frees_app. do 5 (split; [done|]). done. }
  destruct (taken_spec _ _ want _ _ _ Ht Hn ET Hw Hm) as (w & _ & Ht' & _).
  unfold taken in Ht'. change heapMINIMUM_BLOCK_SIZE with 32 in Ht'.
  destruct (Z.ltb_spec 32 (t_size T - want)) as [_|]; [|lia].
  set (N := mkTile (t_addr T + want) (t_size T - want) false) in *.
  set (A := mkTile (t_addr T) want true) in *.
  assert (Ht2 : tiled heap_lo ((L ++ [A]) ++ mkTile (t_addr N) (t_size N) true :: R) heap_hi).
  { apply tiled_flag. rewrite <- app_assoc. exact Ht'. }
  set (nb := default (mkBlock 0 0) (blocks s !! t_addr N)).
  set (m1 := <[t_addr N := set_size (t_size N) nb]> (blocks s)).
  set (m2 := <[t_addr T := mkBlock nx want]> m1).
  destruct (middle_frame (blocks s) _ _ _ _ _ (set_size (t_size N) nb) Ht2) as (F1 & F2 & F3 & F4).
  destruct (middle_frame m1 L (t_addr T) want true (N :: R) (mkBlock nx want) Ht')
    as (K1 & K2 & K3 & K4).
  assert (Hm2 : forall x, x ∈ xStart :: addrs (frees L ++ frees R) -> m2 !! x = blocks s !! x).
  { intros x Hx. unfold m2. rewrite K1.
    - unfold m1. apply F1. rewrite frees_app. cbn. by rewrite app_nil_r.
    - cbn. unfold addrs in *. rewrite map_app in *. clear - Hx. cbn.
      rewrite elem_of_cons, elem_of_app in *. rewrite elem_of_cons. tauto. }
  destruct (insert_tile (set_blocks m2 s) (L ++ [A]) (t_addr N) (pxNextFreeBlock nb) (t_size N) R Ht2)
    as (m' & Hrun & Hf' & Hx' & Hal' & Hhi'); cbn [set_blocks blocks pxEnd].
  - done.
  - rewrite frees_app. cbn. rewrite app_nil_r. by eapply fseg_frame.
  - rewrite Hm2 by left. done.
  - unfold m2. rewrite lookup_insert_ne by (cbn; lia). apply lookup_insert_eq.
  - exists m', want, (N :: R), nx.
    assert (Hm1 : m1 !! t_addr T = Some (mkBlock nx (t_size T)))
      by (unfold m1; rewrite lookup_insert_ne by (cbn; lia); done).
    split; [|split; [done|split; [|split; [done|split]]]].
    + destruct (G7 (t_addr N)) as [IN _]; [cbn; lia|]. destruct (G7 (t_addr T)) as [IT _]; [lia|].
      rewrite land_15. destruct (Z.eqb_spec ((t_addr T + want) mod 16) 0) as [_|]; [|exfalso; zlia].
      change (t_addr T + want) with (t_addr N). change (t_size T - want) with (t_size N).
      unfold wr_size_fresh, wr_size, wr, rd. mred. rewrite IN. mred. cbn [set_blocks blocks].
      fold nb. fold m1. rewrite Hm1. mred. rewrite IT. mred. exact Hrun.
    + rewrite release_alone in Hf' by (done || intros U; rewrite last_snoc; by intros [= <-]).
      rewrite <- app_assoc in Hf'. exact Hf'.
    + change (t_addr T) with (t_addr A). rewrite Hal' by (done || (left; set_solver)).
      apply lookup_insert_eq.
    + split.
      * intros U HU HUa. rewrite Hal' by (done || set_solver). cbn. unfold m2, m1.
        rewrite !lookup_insert_ne by (apply not_eq_sym; (apply K2 || apply F2); set_solver). done.
      * rewrite Hhi'. cbn. unfold m2, m1. by rewrite !lookup_insert_ne.
Qed.
Lemma frees_pos L R e : tiled heap_lo (L ++ R) e -> Forall (fun x => 0 < x.1) (frees L ++ frees R).
Proof.
  intros Ht. apply Forall_forall. intros x Hx. rewrite <- frees_app in Hx.
  destruct (frees_in _ _ _ _ Ht Hx) as (? & _). destruct heap_geometry as (_ & _ & ? & _).
  destruct heap_placed. lia.
Qed.

Lemma hr_prev s L R : heap_rep s (L ++ R) ->
  blocks s !! last_addr xStart (frees L) = Some (mkBlock (hd_addr heap_hi (frees R)) (last_size (frees L))).
Proof.
  intros Hr. pose proof (hr_free _ _ Hr) as Hf. rewrite frees_app in Hf.
  apply fseg_split in Hf as [Hf1 Hf2].
  apply block_eq; [by apply fseg_last_next in Hf1|]. eapply last_size_of; [done|apply (hr_start _ _ Hr)].
Qed.

(** Taking a free block off the list. *)
Lemma malloc_unlink_run s L T R :
  heap_rep s (L ++ T :: R) -> t_alloc T = false ->
  exists m1, wr_next ucHeap xStart (last_addr xStart (frees L)) (hd_addr heap_hi (frees R)) s =
      Done (tt, set_blocks m1 s) /\
    fseg m1 xStart (frees L ++ frees R) heap_hi /\ (xBlockSize <$> m1 !! xStart = Some 0) /\
    m1 !! t_addr T = Some (mkBlock (hd_addr heap_hi (frees R)) (t_size T)) /\
    others_kept (blocks s) m1 L R.
Proof.
  intros Hr ET. pose proof (hr_tiled _ _ Hr) as Ht.
  pose proof (hr_prev _ _ _ Hr) as Hprev. pose proof (hr_free _ _ Hr) as Hfr.
  rewrite frees_app in Hfr. cbn in Hfr, Hprev. rewrite ET in Hfr, Hprev. cbn in Hprev.
  destruct (tile_position _ _ _ Ht) as (P1 & P2 & P3 & P4 & P5 & Hnd & Hhi & HltL & HltR & HF & Hfuel).
  set (pv := last_addr xStart (frees L)) in *.
  assert (Hpin : pv ∈ xStart :: addrs (frees L)) by apply last_default_in.
  pose proof (fseg_unlink _ _ _ _ _ _ _ _ Hnd Hfr Hprev) as Hfr1. fold pv in Hfr1.
  apply Forall_app in HF as [HFL _].
  pose proof (last_addr_in_heap _ _ _ _ _ HFL) as Hpv. fold pv in Hpv.
  eexists. split; [|split; [exact Hfr1|split; [|split; [|split]]]].
  - unfold wr_next, wr, rd. mred. rewrite Hprev. mred. by rewrite Hpv.
  - pose proof (hr_start _ _ Hr) as H. rewrite lookup_insert. case_decide as E; [|done].
    rewrite <- E, Hprev in H. done.
  - rewrite lookup_insert_ne.
    + apply fseg_app in Hfr as (_ & H2 & H3). apply block_eq; [by apply fseg_hd|done].
    + intros E. rewrite app_comm_cons in Hnd. apply NoDup_app in Hnd as (_ & Hd & _).
      apply (Hd pv Hpin). rewrite E. left.
  - intros U HU HUa. rewrite lookup_insert_ne; [done|]. intros E.
    apply (alloc_apart U T L R Ht HU HUa). rewrite <- E. by right.
  - rewrite lookup_insert_ne; [done|]. intros E. apply Hhi. rewrite <- E. right.
    unfold addrs in *. rewrite map_app. rewrite elem_of_cons in *. rewrite elem_of_app. tauto.
Qed.

(** The part of the allocation behind the search. *)
Lemma malloc_body_run s L T R want :
  heap_rep s (L ++ T :: R) -> t_alloc T = false -> 0 < want <= t_size T -> want mod 16 = 0 ->
  exists s', (wr_next ucHeap xStart (last_addr xStart (frees L)) (hd_addr heap_hi (frees R));;
     malloc_split ucHeap xStart (t_addr T) want;; malloc_take ucHeap xStart (t_addr T)) s = Done (tt, s') /\
    heap_rep s' (L ++ taken want T ++ R) /\
    xMinimumEverFreeBytesRemaining s' =
      Z.min (xMinimumEverFreeBytesRemaining s) (free_sum (L ++ taken want T ++ R)) /\
    xNumberOfSuccessfulAllocations s' = u32 (xNumberOfSuccessfulAllocations s + 1) /\
    xNumberOfSuccessfulFrees s' = xNumberOfSuccessfulFrees s.
Proof.
  intros Hr ET Hw Hm. pose proof (hr_tiled _ _ Hr) as Ht. pose proof (hr_adj _ _ Hr) as Hn.
  destruct (malloc_unlink_run _ _ _ _ Hr ET) as (m1 & Hun & Hfr1 & Hst1 & HTb & Hk1).
  destruct (malloc_split_run (set_blocks m1 s) L T _ R want Ht Hn ET Hw Hm (hr_end _ _ Hr) Hfr1 Hst1 HTb)
    as (m' & w & R' & nx' & Hrun & Etk & Hf' & Hx' & HT' & Hk).
  destruct (taken_spec _ _ want _ _ _ Ht Hn ET Hw Hm) as (w2 & Hw2 & Ht2 & Hn2 & Hs2 & Hh2 & Hin2).
  assert (w = w2) as <-.
  { destruct (taken want T); [done|]. cbn in *. by simplify_eq. }
  rewrite Etk in *. destruct Hk as [HkA HkE], Hk1 as [HkA1 HkE1]. cbn in HkA, HkE.
  destruct (middle_frame m' _ _ _ _ _ (mkBlock 0 0) Ht2) as (_ & F2 & _).
  pose proof (hr_min _ _ Hr) as Hmin.
  destruct (malloc_take_run (set_blocks m' s) L (t_addr T) nx' w R') as (s' & Htake & Hr' & Hmn & Hna & Hnf);
    cbn [blocks set_blocks pxEnd xBlockAllocatedBit xFreeBytesRemaining xMinimumEverFreeBytesRemaining]; try done.
  - apply (hr_end _ _ Hr).
  - apply (hr_bit _ _ Hr).
  - intros U HU HUa.
    assert (U ∈ L \/ U ∈ R) as HU2.
    { destruct (Hin2 U) as [|[|E]]; [set_solver|done|by left|by right|].
      exfalso. apply (F2 U HU). by rewrite E. }
    rewrite HkA, HkA1 by done. apply (hr_alloc _ _ Hr); [set_solver|done].
  - rewrite HkE, HkE1. apply (hr_endblk _ _ Hr).
  - rewrite (hr_bytes _ _ Hr). lia.
  - lia.
  - exists s'. split; [|done]. erewrite bind_done by exact Hun. by erewrite bind_done by exact Hrun.
Qed.

Lemma top_bit_big w : is_u32 w -> top_bit <= w -> Z.land w top_bit = top_bit.
Proof.
  intros Hw Hge. replace w with (w - top_bit + top_bit) by lia. apply top_bit_set.
  unfold is_u32, top_bit in *. lia.
Qed.

(** The search of [pvPortMalloc] in a represented heap. *)
Lemma malloc_search s L R want :
  heap_rep s (L ++ R) -> 0 < want -> Forall (fun x => x.2 < want) (frees L) ->
  (forall x r, frees R = x :: r -> want <= x.2) ->
  malloc_find heap_fuel want xStart (hd_addr heap_hi (frees L ++ frees R)) s =
  Done (last_addr xStart (frees L), hd_addr heap_hi (frees R), s).
Proof.
  intros Hr Hw HL HR. pose proof (hr_tiled _ _ Hr) as Ht.
  destruct heap_geometry as (G1 & G2 & G3 & G4 & G5 & G6 & G7). destruct heap_placed as [B1 _].
  eapply malloc_find_run; try done.
  - rewrite <- frees_app. apply (hr_free _ _ Hr).
  - apply (hr_endblk _ _ Hr).
  - lia.
  - by eapply frees_pos.
  - apply tiled_app in Ht as (c & HtL & HtR). pose proof (frees_length _ _ _ HtL).
    pose proof heap_fuel_val. pose proof (tiled_le _ _ _ HtR). lia.
Qed.

Lemma hr_first s ts : heap_rep s ts ->
  blocks s !! xStart = Some (mkBlock (hd_addr heap_hi (frees ts)) 0).
Proof. intros Hr. exact (hr_prev s [] ts Hr). Qed.

Lemma hr_free_header s L T R : heap_rep s (L ++ T :: R) -> t_alloc T = false ->
  blocks s !! t_addr T = Some (mkBlock (hd_addr heap_hi (frees R)) (t_size T)).
Proof.
  intros Hr ET. pose proof (hr_free _ _ Hr) as Hf. rewrite frees_app in Hf. cbn in Hf.
  rewrite ET in Hf. apply fseg_app in Hf as (_ & H2 & H3). apply block_eq; [by apply fseg_hd|done].
Qed.

Lemma pvPortMalloc_fails s ts w :
  heap_rep s ts -> is_u32 w -> w = 0 \/ top_bit <= w \/ first_fit (block_size w) ts = None ->
  pvPortMalloc ucHeap xStart w s = Done (0, s).
Proof.
  intros Hr Hw Hc. destruct heap_geometry as (_ & _ & G3 & G4 & _). destruct heap_placed as [B1 _].
  unfold pvPortMalloc. mred. rewrite (hr_end _ _ Hr). zcase. mred. rewrite (hr_bit _ _ Hr).
  destruct (decide (top_bit <= w)) as [Hb|Hb]; [rewrite top_bit_big by done; done|].
  unfold is_u32 in Hw. rewrite top_bit_free by lia. cbn [Z.eqb].
  destruct (adjust_size_spec w) as [Ea El]; [lia|]. rewrite El. cbn [Z.eqb]. mred. rewrite Ea.
  destruct (Z.ltb_spec 0 w) as [Hpos|]; [|done].
  destruct Hc as [->|[?|Hnone]]; [lia|lia|]. apply first_fit_none in Hnone.
  assert (Hbs : 0 < block_size w) by (unfold block_size; zlia).
  destruct (Z.ltb_spec 0 (block_size w)); [|lia].
  destruct (block_size w <=? xFreeBytesRemaining s); cbn [andb]; [|done].
  unfold rd. mred. rewrite (hr_first _ _ Hr). mred. cbn [pxNextFreeBlock].
  pose proof (malloc_search s ts [] (block_size w)) as Hf. cbn [frees] in Hf.
  rewrite !app_nil_r in Hf. rewrite Hf by done. mred. rewrite (hr_end _ _ Hr). cbn.
  by rewrite Z.eqb_refl.
Qed.

Lemma pvPortMalloc_succeeds s w L T R :
  heap_rep s (L ++ T :: R) -> 0 < w < top_bit -> t_alloc T = false ->
  block_size w <= t_size T -> Forall (fun x => x.2 < block_size w) (frees L) ->
  exists s', pvPortMalloc ucHeap xStart w s = Done (t_addr T + 16, s') /\
    heap_rep s' (L ++ taken (block_size w) T ++ R) /\
    xMinimumEverFreeBytesRemaining s' =
      Z.min (xMinimumEverFreeBytesRemaining s) (free_sum (L ++ taken (block_size w) T ++ R)) /\
    xNumberOfSuccessfulAllocations s' = u32 (xNumberOfSuccessfulAllocations s + 1) /\
    xNumberOfSuccessfulFrees s' = xNumberOfSuccessfulFrees s.
Proof.
  intros Hr Hw ET Hle HL. pose proof (hr_tiled _ _ Hr) as Ht.
  destruct heap_geometry as (_ & _ & G3 & G4 & _). destruct heap_placed as [B1 _].
  destruct (tile_position _ _ _ Ht) as (P1 & P2 & P3 & P4 & P5 & _).
  assert (Hbs : 0 < block_size w /\ block_size w mod 16 = 0) by (unfold block_size; zlia).
  assert (Hfs : t_size T <= free_sum (L ++ T :: R)).
  { apply free_sum_mem; [intros U HU; by apply (tiled_in _ _ _ U Ht)|set_solver|done]. }
  destruct (malloc_body_run s L T R (block_size w) Hr ET ltac:(lia) ltac:(tauto)) as (s' & Hrun & Hrest).
  exists s'. split; [|done]. clear Hrest.
  unfold pvPortMalloc. mred. rewrite (hr_end _ _ Hr). zcase. mred. rewrite (hr_bit _ _ Hr).
  rewrite top_bit_free by lia. cbn [Z.eqb].
  destruct (adjust_size_spec w) as [Ea El]; [lia|]. rewrite El. cbn [Z.eqb]. mred. rewrite Ea.
  destruct (Z.ltb_spec 0 w); [|lia]. destruct (Z.ltb_spec 0 (block_size w)); [|lia].
  rewrite (hr_bytes _ _ Hr). destruct (Z.leb_spec (block_size w) (free_sum (L ++ T :: R))); [|lia].
  cbn [andb]. unfold rd. mred. rewrite (hr_first _ _ Hr). mred. cbn [pxNextFreeBlock].
  rewrite frees_app, (malloc_search s L (T :: R) (block_size w) Hr) by
    (tauto || cbn; rewrite ET; by intros x r [= <- <-]).
  mred. rewrite (hr_end _ _ Hr). cbn [frees]. rewrite ET.
  change (hd_addr heap_hi ((t_addr T, t_size T) :: frees R)) with (t_addr T).
  zcase. cbn [negb]. mred. rewrite (hr_prev _ _ _ Hr). mred.
  cbn [frees]. rewrite ET. cbn [pxNextFreeBlock hd_addr addrs map fst List.hd].
  rewrite (hr_free_header _ _ _ _ Hr ET). mred. cbn [pxNextFreeBlock]. mred in Hrun.
  destruct (wr_next _ _ _ _ s) as [[[] s1]|]; [|done].
  destruct (malloc_split _ _ _ _ s1) as [[[] s2]|]; [|done]. rewrite Hrun.
  rewrite land_15. change xHeapStructSize with 16.
  by replace ((t_addr T + 16) mod 16) with 0 by zlia.
Qed.

Lemma pvPortMalloc_run s ts w :
  heap_rep s ts -> is_u32 w ->
  exists s', pvPortMalloc ucHeap xStart w s = Done ((malloc_spec w ts).1, s') /\
    heap_rep s' (malloc_spec w ts).2 /\
    ((malloc_spec w ts).1 = 0 -> s' = s) /\
    ((malloc_spec w ts).1 <> 0 ->
       xNumberOfSuccessfulAllocations s' = u32 (xNumberOfSuccessfulAllocations s + 1) /\
       xNumberOfSuccessfulFrees s' = xNumberOfSuccessfulFrees s /\
       xMinimumEverFreeBytesRemaining s' =
         Z.min (xMinimumEverFreeBytesRemaining s) (free_sum (malloc_spec w ts).2)).
Proof.
  intros Hr Hw. unfold malloc_spec. unfold is_u32 in Hw.
  destruct (Z.ltb_spec 0 w) as [H0|H0], (Z.ltb_spec w top_bit) as [H1|H1]; cbn [andb].
  2,3,4: exists s; (split; [eapply pvPortMalloc_fails; [done|done|lia]|done]).
  destruct (first_fit (block_size w) ts) as [[p ts']|] eqn:Hff.
  2: exists s; (split; [eapply pvPortMalloc_fails; [done|done|by auto]|done]).
  apply first_fit_some in Hff as (L & T & R & -> & ET & Hle & HL & -> & ->).
  destruct (pvPortMalloc_succeeds s w L T R) as (s' & Hrun & Hr' & Hmin & Hna & Hnf); try done.
  exists s'. split; [done|]. split; [done|]. split; [|done].
  destruct heap_geometry as (_ & _ & G3 & _). destruct heap_placed.
  destruct (tile_position _ _ _ (hr_tiled _ _ Hr)) as (P1 & _). cbn. lia.
Qed.
(** *** Live allocations *)

Definition alloc_tiles (ts : list tile) : list tile := filter (fun T => t_alloc T = true) ts.

Lemma alloc_tiles_app L R : alloc_tiles (L ++ R) = alloc_tiles L ++ alloc_tiles R.
Proof. apply filter_app. Qed.
Lemma alloc_tiles_cons T R :
  alloc_tiles (T :: R) = if t_alloc T then T :: alloc_tiles R else alloc_tiles R.
Proof. unfold alloc_tiles. rewrite filter_cons. destruct (t_alloc T); by case_decide. Qed.

Lemma alloc_tiles_release L a sz R :
  alloc_tiles (release L a sz R) = alloc_tiles L ++ alloc_tiles R.
Proof.
  assert (HL : alloc_tiles (absorb_left L a).1.1 = alloc_tiles L).
  { unfold absorb_left. destruct (last L) as [T|] eqn:EL; [|done].
    destruct (t_alloc T) eqn:ET; [done|]. apply last_Some in EL as (L0 & ->). cbn.
    rewrite removelast_last, alloc_tiles_app, alloc_tiles_cons, ET. cbn. by rewrite app_nil_r. }
  assert (HR : alloc_tiles (absorb_right R).1 = alloc_tiles R).
  { unfold absorb_right. destruct R as [|T R]; [done|].
    destruct (t_alloc T) eqn:ET; [done|]. by rewrite alloc_tiles_cons, ET. }
  unfold release. destruct (absorb_left L a) as [[L' a'] s0], (absorb_right R) as [R' s1].
  cbn [fst] in HL, HR. by rewrite alloc_tiles_app, alloc_tiles_cons, HL, HR.
Qed.

(** A live allocation: the pointer handed out and the size asked for, inside
    the tile that holds it. *)
Definition lives_in (x : Z * Z) (T : tile) : Prop :=
  x.1 = t_addr T + 16 /\ 0 < x.2 /\ x.2 + 16 <= t_size T.

Definition heap_live (s : heap_state) (live : list (Z * Z)) : Prop :=
  exists ts As, heap_rep s ts /\ As ≡ₚ alloc_tiles ts /\ Forall2 lives_in live As.

(** The states a program reaches with the two operations; [live] lists the
    allocations it has not freed. *)
Inductive reach : heap_state -> list (Z * Z) -> Prop :=
  | reach_bss : reach heap_bss []
  | reach_malloc s live w p s' :
      reach s live -> is_u32 w -> pvPortMalloc ucHeap xStart w s = Done (p, s') ->
      reach s' (if p =? 0 then live else (p, w) :: live)
  | reach_free s l1 p w l2 s' :
      reach s (l1 ++ (p, w) :: l2) -> vPortFree ucHeap xStart p s = Done (tt, s') ->
      reach s' (l1 ++ l2).

Lemma live_malloc s live w : heap_live s live -> is_u32 w ->
  exists p s', pvPortMalloc ucHeap xStart w s = Done (p, s') /\
    heap_live s' (if p =? 0 then live else (p, w) :: live).
Proof.
  intros (ts & As & Hr & HA & Hl) Hw. unfold is_u32 in Hw.
  destruct (decide (0 < w < top_bit)) as [Hw'|Hw'].
  2: { exists 0, s. split; [eapply pvPortMalloc_fails; [done|done|lia]|]. by exists ts, As. }
  destruct (first_fit (block_size w) ts) as [[p ts']|] eqn:Hff.
  2: { exists 0, s. split; [eapply pvPortMalloc_fails; [done|done|by auto]|]. by exists ts, As. }
  apply first_fit_some in Hff as (L & T & R & -> & ET & Hle & HL & -> & ->).
  destruct (pvPortMalloc_succeeds s w L T R) as (s' & Hrun & Hr' & _); try done.
  exists (t_addr T + 16), s'. split; [done|].
  destruct heap_geometry as (_ & _ & G3 & _). destruct heap_placed.
  pose proof (hr_tiled _ _ Hr) as Ht. destruct (tile_position _ _ _ Ht) as (P1 & _).
  assert (Hb : w + 16 <= block_size w /\ block_size w mod 16 = 0) by (unfold block_size; zlia).
  destruct (taken_spec _ _ (block_size w) _ _ _ Ht (hr_adj _ _ Hr) ET ltac:(lia) ltac:(tauto))
    as (v & Hv & _ & _ & _ & Hhd & _).
  destruct (Z.eqb_spec (t_addr T + 16) 0); [lia|].
  exists (L ++ taken (block_size w) T ++ R), (mkTile (t_addr T) v true :: As).
  split; [done|]. split; [|constructor; [split; [done|split; cbn; lia]|done]].
  rewrite HA, !alloc_tiles_app, alloc_tiles_cons, ET, Permutation_middle. f_equiv.
  unfold taken in *. destruct (_ <? _); cbn in Hhd; by simplify_eq.
Qed.

Lemma live_free s l1 p w l2 : heap_live s (l1 ++ (p, w) :: l2) ->
  exists s', vPortFree ucHeap xStart p s = Done (tt, s') /\ heap_live s' (l1 ++ l2).
Proof.
  intros (ts & As & Hr & HA & Hl). apply Forall2_app_inv_l in Hl as (A1 & A2 & Hl1 & Hl2 & ->).
  apply Forall2_cons_inv_l in Hl2 as (T & A3 & (Hp & Hw & Hz) & Hl3 & ->). cbn in *. subst p.
  assert (HT : T ∈ ts /\ t_alloc T = true).
  { assert (H : T ∈ alloc_tiles ts) by (rewrite <- HA; set_solver).
    by apply list_elem_of_filter in H as [? ?]. }
  destruct HT as [HT ET]. apply list_elem_of_split in HT as (L & R & ->).
  destruct T as [a sz al]. cbn in *. subst al.
  destruct (vPortFree_run s L a sz R Hr) as (s' & Hrun & Hr' & _). exists s'. split; [exact Hrun|].
  exists (release L a sz R), (A1 ++ A3). split; [done|]. split; [|by apply Forall2_app].
  rewrite alloc_tiles_release. rewrite alloc_tiles_app, alloc_tiles_cons in HA. cbn in HA.
  rewrite <- !Permutation_middle in HA. by apply Permutation_cons_inv in HA.
Qed.

Lemma live_init s w : pxEnd s = 0 -> is_u32 w ->
  exists s0, heap_live s0 [] /\ pvPortMalloc ucHeap xStart w s = pvPortMalloc ucHeap xStart w s0.
Proof.
  intros He Hw. destruct (prvHeapInit_run s) as (s0 & Hrun & Hr & _). exists s0. split.
  - exists [mkTile heap_lo (heap_hi - heap_lo) false], []. done.
  - destruct heap_geometry as (_ & _ & G3 & G4 & _). destruct heap_placed.
    unfold pvPortMalloc, mbind, M_bind, get. rewrite He, (hr_end _ _ Hr). cbn [Z.eqb].
    rewrite Hrun. destruct (Z.eqb_spec heap_hi 0); [lia|]. done.
Qed.

Lemma reach_live s live : reach s live -> (s = heap_bss /\ live = []) \/ heap_live s live.
Proof.
  induction 1 as [|s live w p s' Hre IH Hw Hrun|s l1 p w l2 s' Hre IH Hrun].
  - by left.
  - right. destruct IH as [[-> ->]|IH].
    + destruct (live_init heap_bss w eq_refl Hw) as (s0 & Hl & E). rewrite E in Hrun.
      destruct (live_malloc _ _ _ Hl Hw) as (p2 & s2 & Hrun2 & Hl2).
      rewrite Hrun in Hrun2. by injection Hrun2 as <- <-.
    + destruct (live_malloc _ _ _ IH Hw) as (p2 & s2 & Hrun2 & Hl2).
      rewrite Hrun in Hrun2. by injection Hrun2 as <- <-.
  - right. destruct IH as [[-> E]|IH]; [by destruct l1|].
    destruct (live_free _ _ _ _ _ IH) as (s2 & Hrun2 & Hl2).
    rewrite Hrun in Hrun2. by injection Hrun2 as <-.
Qed.

Definition apart (x y : Z * Z) : Prop := x.1 + x.2 <= y.1 \/ y.1 + y.2 <= x.1.
Definition tiles_apart (T U : tile) : Prop :=
  t_addr T + t_size T <= t_addr U \/ t_addr U + t_size U <= t_addr T.

Lemma tiled_apart a ts e : tiled a ts e -> ForallOrdPairs tiles_apart ts.
Proof.
  revert a. induction ts as [|T ts IH]; intros a; [constructor|]. intros (Ha & Hs & _ & Ht).
  constructor; [|by eapply IH]. apply Forall_forall. intros U HU.
  destruct (tiled_in _ _ _ _ Ht HU) as (? & _). left. lia.
Qed.

Lemma pairs_filter {A} (R : A -> A -> Prop) P `{forall x, Decision (P x)} l :
  ForallOrdPairs R l -> ForallOrdPairs R (filter P l).
Proof.
  induction 1 as [|x l Hx Hl IH]; [constructor|]. rewrite filter_cons. case_decide; [|done].
  constructor; [|done]. rewrite Forall_forall in *. intros y Hy.
  apply list_elem_of_filter in Hy as [_ Hy]. by apply Hx.
Qed.

Lemma pairs_perm {A} (R : A -> A -> Prop) `{!Symmetric R} l k :
  l ≡ₚ k -> ForallOrdPairs R l -> ForallOrdPairs R k.
Proof.
  induction 1 as [|x l k Hp IH|x y l|l k m _ IH1 _ IH2]; intros Hl; [done| | |by auto].
  - inversion Hl; subst. constructor; [by rewrite <- Hp|auto].
  - inversion_clear Hl as [|? ? Hy Hl']. inversion_clear Hl' as [|? ? Hx Hl].
    apply Forall_cons in Hy as [Hyx Hy]. constructor; [constructor; [by symmetry|done]|by constructor].
Qed.

Lemma pairs_lives live As :
  Forall2 lives_in live As -> ForallOrdPairs tiles_apart As -> ForallOrdPairs apart live.
Proof.
  induction 1 as [|x T live As Hx Hl IH]; intros Ha; [constructor|].
  inversion_clear Ha as [|? ? HT Ha']. constructor; [|by apply IH].
  apply Forall_forall. intros y Hy. apply list_elem_of_lookup in Hy as (i & Hi).
  destruct (Forall2_lookup_l _ _ _ _ _ Hl Hi) as (U & HU & Hy).
  rewrite Forall_forall in HT. destruct (HT U) as [H|H]; [by eapply list_elem_of_lookup_2|..];
    unfold lives_in, apart in *; lia.
Qed.

Lemma live_apart s live : heap_live s live -> ForallOrdPairs apart live /\
  Forall (fun x => x.1 mod 16 = 0 /\ ucHeap <= x.1 /\ x.1 + x.2 <= ucHeap + configTOTAL_HEAP_SIZE) live.
Proof.
  intros (ts & As & Hr & HA & Hl). pose proof (hr_tiled _ _ Hr) as Ht. split.
  - eapply pairs_lives; [exact Hl|]. eapply pairs_perm; [|symmetry; exact HA|].
    + intros T U [?|?]; [by right|by left].
    + apply pairs_filter. by eapply tiled_apart.
  - destruct heap_geometry as (G1 & G2 & G3 & G4 & G5 & G6 & G7).
    apply Forall_forall. intros x Hx. apply list_elem_of_lookup in Hx as (i & Hi).
    destruct (Forall2_lookup_l _ _ _ _ _ Hl Hi) as (T & HT & Hp & Hw & Hz).
    apply list_elem_of_lookup_2 in HT. rewrite HA in HT. apply list_elem_of_filter in HT as [_ HT].
    destruct (tiled_in _ _ _ _ Ht HT) as (? & ? & ? & ? & Hmod). specialize (Hmod G1).
    split; [zlia|lia].
Qed.

(** *** Statistics *)

Lemma max_if x y : (if x <? y then y else x) = Z.max x y.
Proof. zcase. Qed.
Lemma min_if x y : (if y <? x then y else x) = Z.min x y.
Proof. zcase. Qed.

Lemma stats_loop_run s F a sz p f n mx mn :
  fseg (blocks s) p ((a, sz) :: F) (pxEnd s) -> pxEnd s ∉ addrs ((a, sz) :: F) ->
  (length F < f)%nat -> 0 <= n -> n + Z.of_nat (length F) + 1 < 4294967296 ->
  stats_loop f a n mx mn s =
  Done (n + Z.of_nat (length F) + 1, foldl Z.max mx (map snd ((a, sz) :: F)),
        foldl Z.min mn (map snd ((a, sz) :: F)), s).
Proof.
  revert a sz p f n mx mn. induction F as [|[b z] F IH]; intros a sz p f n mx mn Hs He Hf Hn Hn';
    (destruct f as [|f]; [cbn in Hf; lia|]); cbn [stats_loop]; destruct Hs as (H1 & H2 & H3).
  - cbn in H3. apply fmap_Some in H3 as (blk & Hb & Hnx). rewrite Hb in H2. cbn in H2.
    injection H2 as <-. hstep. rewrite <- Hnx, Z.eqb_refl. cbn in *. u32_away.
    rewrite max_if, min_if. by rewrite Z.add_0_r.
  - destruct H3 as (Hnx & H3 & H4). apply fmap_Some in Hnx as (blk & Hb & ->). rewrite Hb in H2. cbn in H2.
    injection H2 as <-. hstep.
    destruct (Z.eqb_spec (pxNextFreeBlock blk) (pxEnd s)) as [E|E];
      [exfalso; apply He; rewrite <- E; right; left|]. cbn [negb]. cbn in Hf, Hn'.
    u32_away. erewrite (IH _ z a); [|by rewrite Hb| | | |].
    + cbn [length map snd foldl]. rewrite max_if, min_if.
      by replace (n + Z.of_nat (S (length F)) + 1) with (n + 1 + Z.of_nat (length F) + 1) by lia.
    + intros H. apply He. by right.
    + lia.
    + lia.
    + lia.
Qed.

(** What [vPortGetHeapStats] reports of the free sizes [zs]. *)
Definition stats_spec (s : heap_state) (zs : list Z) : HeapStats_t :=
  mkStats (xFreeBytesRemaining s) (foldl Z.max 0 zs) (foldl Z.min 4294967295 zs)
    (Z.of_nat (length zs)) (xMinimumEverFreeBytesRemaining s)
    (xNumberOfSuccessfulAllocations s) (xNumberOfSuccessfulFrees s).

Lemma vPortGetHeapStats_run s ts :
  heap_rep s ts -> frees ts <> [] ->
  vPortGetHeapStats xStart s = Done (stats_spec s (map snd (frees ts)), s).
Proof.
  intros Hr Hne. pose proof (hr_tiled _ _ Hr) as Ht. pose proof (hr_free _ _ Hr) as Hfr.
  pose proof (frees_length _ _ _ Ht) as Hlen. pose proof heap_fuel_val as Hfu.
  destruct heap_geometry as (_ & _ & G3 & G4 & G5 & G6 & _). destruct heap_placed.
  unfold vPortGetHeapStats. mred. rewrite (hr_first _ _ Hr).
  destruct (frees ts) as [|[a sz] F] eqn:E; [done|]. cbn [pxNextFreeBlock default id hd_addr addrs map fst List.hd].
  assert (Ha : forall x, x ∈ (a, sz) :: F -> heap_lo <= x.1 < heap_hi).
  { intros x Hx. rewrite <- E in Hx. destruct (frees_in _ _ _ _ Ht Hx) as (? & ? & ? & _). lia. }
  pose proof (Ha (a, sz) ltac:(left)) as Ha0. cbn in Ha0.
  destruct (Z.eqb_spec a 0); [lia|]. cbn [negb]. mred. rewrite <- (hr_end _ _ Hr) in Hfr. cbn [length] in Hlen.
  erewrite stats_loop_run; [|exact Hfr| |lia|lia|lia].
  - unfold stats_spec. cbn [length map]. rewrite length_map. do 3 f_equal. lia.
  - rewrite (hr_end _ _ Hr). intros (x & Hx & Hin)%list_elem_of_fmap. specialize (Ha x Hin). lia.
Qed.

(** ** Properties of the heap *)

(** C15: in every state reached from reset by calls of [pvPortMalloc] and by
    [vPortFree] of live pointers, the live blocks are aligned, lie inside
    [ucHeap] and do not overlap, and neither operation faults, asserts or loops. *)
Theorem heap_allocations_disjoint s live :
  reach s live ->
  ForallOrdPairs apart live /\
  Forall (fun x => x.1 mod 16 = 0 /\ ucHeap <= x.1 /\ x.1 + x.2 <= ucHeap + configTOTAL_HEAP_SIZE) live /\
  (forall w, is_u32 w -> exists p s', pvPortMalloc ucHeap xStart w s = Done (p, s')) /\
  (forall p w, (p, w) ∈ live -> exists s', vPortFree ucHeap xStart p s = Done (tt, s')).
Proof.
  intros Hre. destruct (reach_live _ _ Hre) as [[-> ->]|Hl].
  - split; [constructor|]. split; [constructor|]. split; [|by intros ? ? ?%elem_of_nil].
    intros w Hw. destruct (live_init heap_bss w eq_refl Hw) as (s0 & Hl & ->).
    destruct (live_malloc _ _ _ Hl Hw) as (p & s' & ? & _). eauto.
  - destruct (live_apart _ _ Hl). split; [done|]. split; [done|]. split.
    + intros w Hw. destruct (live_malloc _ _ _ Hl Hw) as (p & s' & ? & _). eauto.
    + intros p w (l1 & l2 & ->)%list_elem_of_split.
      destruct (live_free _ _ _ _ _ Hl) as (s' & ? & _). eauto.
Qed.

(** C16: [pvPortMalloc] implements first fit on the tiling: it returns the first
    free tile that holds the rounded request (split when more than 32 bytes are
    left), or NULL with the heap untouched. *)
Theorem pvPortMalloc_first_fit s ts w :
  heap_rep s ts -> is_u32 w ->
  exists s', pvPortMalloc ucHeap xStart w s = Done ((malloc_spec w ts).1, s') /\
    heap_rep s' (malloc_spec w ts).2 /\
    ((malloc_spec w ts).1 = 0 -> s' = s) /\
    ((malloc_spec w ts).1 <> 0 ->
       xNumberOfSuccessfulAllocations s' = u32 (xNumberOfSuccessfulAllocations s + 1) /\
       xNumberOfSuccessfulFrees s' = xNumberOfSuccessfulFrees s /\
       xMinimumEverFreeBytesRemaining s' =
         Z.min (xMinimumEverFreeBytesRemaining s) (free_sum (malloc_spec w ts).2)).
Proof. apply pvPortMalloc_run. Qed.

(** C17: [vPortFree] of an allocated block merges it with the free neighbours,
    so that no two free blocks ever touch, and returns its bytes. *)
Theorem vPortFree_coalesces s L a sz R :
  heap_rep s (L ++ mkTile a sz true :: R) ->
  exists s', vPortFree ucHeap xStart (a + xHeapStructSize) s = Done (tt, s') /\
    heap_rep s' (release L a sz R) /\
    xFreeBytesRemaining s' = xFreeBytesRemaining s + sz /\
    xMinimumEverFreeBytesRemaining s' = xMinimumEverFreeBytesRemaining s /\
    xNumberOfSuccessfulFrees s' = u32 (xNumberOfSuccessfulFrees s + 1) /\
    xNumberOfSuccessfulAllocations s' = xNumberOfSuccessfulAllocations s.
Proof. apply vPortFree_run. Qed.

(** freeing what [pvPortMalloc] just returned restores the tiling and the
    byte count. *)
Theorem malloc_free_restores s ts w p s1 :
  heap_rep s ts -> is_u32 w -> pvPortMalloc ucHeap xStart w s = Done (p, s1) -> p <> 0 ->
  exists s2, vPortFree ucHeap xStart p s1 = Done (tt, s2) /\ heap_rep s2 ts /\
    xFreeBytesRemaining s2 = xFreeBytesRemaining s.
Proof.
  intros Hr Hw Hrun Hp. destruct (pvPortMalloc_run _ _ _ Hr Hw) as (s' & Hrun' & Hr' & _).
  rewrite Hrun in Hrun'. injection Hrun' as Ep Es. subst s'. unfold malloc_spec in *.
  destruct ((0 <? w) && (w <? top_bit)); [|done].
  destruct (first_fit (block_size w) ts) as [[q ts']|] eqn:Hff; [|done]. cbn in Ep, Hr'. subst p.
  apply first_fit_some in Hff as (L & T & R & -> & ET & Hle & HL & -> & ->).
  destruct (release_taken (block_size w) L T R (hr_adj _ _ Hr) ET) as (sz & R' & E & Hrel).
  rewrite E in Hr'. destruct (vPortFree_run _ _ _ _ _ Hr') as (s2 & Hrun2 & Hr2 & _).
  rewrite Hrel in Hr2. exists s2. split; [exact Hrun2|]. split; [done|].
  by rewrite (hr_bytes _ _ Hr2), (hr_bytes _ _ Hr).
Qed.

(** while some block is free, [vPortGetHeapStats] reports the number, the
    largest and the smallest of the free blocks and the four counters. *)
Theorem vPortGetHeapStats_reports s ts :
  heap_rep s ts -> frees ts <> [] ->
  vPortGetHeapStats xStart s = Done (stats_spec s (map snd (frees ts)), s).
Proof. apply vPortGetHeapStats_run. Qed.

(** On an initialised heap with no free block left, [vPortGetHeapStats]
    walks past the end marker and reads through a null pointer. *)
Theorem vPortGetHeapStats_exhausted s ts :
  heap_rep s ts -> frees ts = [] -> blocks s !! 0 = None ->
  vPortGetHeapStats xStart s = Stop Fault.
Proof.
  intros Hr Hf H0. destruct heap_geometry as (_ & _ & G3 & G4 & _). destruct heap_placed.
  unfold vPortGetHeapStats. mred. rewrite (hr_first _ _ Hr), Hf.
  cbn [pxNextFreeBlock default id hd_addr addrs map List.hd]. zcase. cbn [negb].
  pose proof heap_fuel_val as Hfu. destruct heap_fuel as [|[|f]]; [lia|lia|].
  cbn [stats_loop]. unfold rd. mred. rewrite (hr_endblk _ _ Hr), (hr_end _ _ Hr).
  cbn [pxNextFreeBlock xBlockSize]. zcase. cbn [negb]. by rewrite H0.
Qed.

End Heap.

(** ** The properties at a concrete placement of the heap *)

Definition uc0 : Z := 536871180.
Definition st0 : Z := 536871168.
Definition heap1 : heap_state := exec (prvHeapInit uc0 st0) heap_bss.
Definition heap2 : heap_state := exec (pvPortMalloc uc0 st0 100) heap1.
Definition heap3 : heap_state := exec (pvPortMalloc uc0 st0 16200) heap2.
Definition tiles1 : list tile := [mkTile 536871184 16352 false].
Definition tiles2 : list tile :=
  [mkTile 536871184 128 true; mkTile 536871312 16224 false].

Lemma placed0 : 0 < uc0 /\ uc0 + configTOTAL_HEAP_SIZE <= 4294967296.
Proof. unfold uc0, configTOTAL_HEAP_SIZE. lia. Qed.
Lemma apart0 : 0 < st0 /\ (st0 + 8 <= uc0 \/ uc0 + configTOTAL_HEAP_SIZE <= st0).
Proof. unfold uc0, st0, configTOTAL_HEAP_SIZE. lia. Qed.

Lemma heap1_rep : heap_rep uc0 st0 heap1 tiles1.
Proof.
  destruct (prvHeapInit_run uc0 st0 placed0 apart0 heap_bss) as (s' & Hrun & Hr & _).
  unfold heap1, exec. rewrite Hrun. exact Hr.
Qed.

Lemma heap_alloc_rep s ts w :
  heap_rep uc0 st0 s ts -> is_u32 w ->
  heap_rep uc0 st0 (exec (pvPortMalloc uc0 st0 w) s) (malloc_spec w ts).2.
Proof.
  intros Hr Hw. destruct (pvPortMalloc_run uc0 st0 placed0 apart0 s ts w Hr Hw) as (s' & Hrun & Hr' & _).
  unfold exec. by rewrite Hrun.
Qed.

Lemma heap2_rep : heap_rep uc0 st0 heap2 tiles2.
Proof. exact (heap_alloc_rep heap1 tiles1 100 heap1_rep ltac:(by_decision)). Qed.

Lemma heap_allocations_disjoint_witness :
  exists s, reach uc0 st0 s [(536871328, 40)] /\ ForallOrdPairs apart [(536871328, 40)].
Proof.
  exists (exec (vPortFree uc0 st0 536871200) (exec (pvPortMalloc uc0 st0 40)
           (exec (pvPortMalloc uc0 st0 100) heap_bss))).
  assert (H : reach uc0 st0 (exec (vPortFree uc0 st0 536871200) (exec (pvPortMalloc uc0 st0 40)
           (exec (pvPortMalloc uc0 st0 100) heap_bss))) [(536871328, 40)]).
  { apply (reach_free uc0 st0 (exec (pvPortMalloc uc0 st0 40) (exec (pvPortMalloc uc0 st0 100) heap_bss))
      [(536871328, 40)] 536871200 100 []); [|vm_compute; reflexivity].
    apply (reach_malloc uc0 st0 (exec (pvPortMalloc uc0 st0 100) heap_bss) [(536871200, 100)] 40 536871328);
      [|by_decision|vm_compute; reflexivity].
    apply (reach_malloc uc0 st0 heap_bss [] 100 536871200); [apply reach_bss|by_decision|vm_compute; reflexivity]. }
  split; [exact H|].
  exact (proj1 (heap_allocations_disjoint uc0 st0 placed0 apart0 _ _ H)).
Defined.

Lemma pvPortMalloc_first_fit_witness :
  exists s', pvPortMalloc uc0 st0 100 heap1 = Done (536871200, s') /\ heap_rep uc0 st0 s' tiles2.
Proof.
  destruct (pvPortMalloc_first_fit uc0 st0 placed0 apart0 heap1 tiles1 100 heap1_rep ltac:(by_decision))
    as (s' & Hrun & Hr & _).
  exists s'. split; [exact Hrun|exact Hr].
Defined.

Lemma vPortFree_coalesces_witness :
  exists s', vPortFree uc0 st0 536871200 heap2 = Done (tt, s') /\ heap_rep uc0 st0 s' tiles1.
Proof.
  destruct (vPortFree_coalesces uc0 st0 placed0 apart0 heap2 [] 536871184 128
    [mkTile 536871312 16224 false] heap2_rep) as (s' & Hrun & Hr & _).
  exists s'. split; [exact Hrun|exact Hr].
Defined.

Lemma malloc_free_restores_witness :
  exists s2, vPortFree uc0 st0 536871200 heap2 = Done (tt, s2) /\ heap_rep uc0 st0 s2 tiles1.
Proof.
  destruct (malloc_free_restores uc0 st0 placed0 apart0 heap1 tiles1 100 536871200 heap2 heap1_rep
    ltac:(by_decision) ltac:(vm_compute; reflexivity) ltac:(lia)) as (s2 & Hrun & Hr & _).
  exists s2. split; [exact Hrun|exact Hr].
Defined.

Lemma vPortGetHeapStats_reports_witness :
  vPortGetHeapStats st0 heap2 = Done (mkStats 16224 16224 16224 1 16224 1 0, heap2).
Proof.
  exact (vPortGetHeapStats_reports uc0 st0 placed0 apart0 heap2 tiles2 heap2_rep ltac:(done)).
Defined.

Lemma vPortGetHeapStats_exhausted_witness : vPortGetHeapStats st0 heap3 = Stop Fault.
Proof.
  apply (vPortGetHeapStats_exhausted uc0 st0 placed0 apart0 heap3 _
    (heap_alloc_rep heap2 tiles2 16200 heap2_rep ltac:(by_decision))); vm_compute; reflexivity.
Defined.
