(* ===== verification/Klist.v ===== *)
(** The kernel's lists seen together: the accesses of list.h, and a [view] that
    gives the sequence of items on every list, the place of every round-robin
    cursor and the value, owner and container of every item.  Each operation of
    list.c and list.h is a function on views. *)
From S2P Require Import Prelude FList.

Definition listREMOVE_ITEM (pxItemToRemove : Z) : M lstate unit :=
  t ← rd_tail pxItemToRemove;
  let pxList := pxContainer t in
  it ← rd_mini pxItemToRemove;
  wr_mini (pxNext it) (set_pxPrevious (pxPrevious it));;
  it ← rd_mini pxItemToRemove;
  wr_mini (pxPrevious it) (set_pxNext (pxNext it));;
  l ← rd_list pxList;
  it ← rd_mini pxItemToRemove;
  (if pxIndex l =? pxItemToRemove
   then wr_list pxList (fun l => mkList (uxNumberOfItems l) (pxPrevious it))
   else mret tt);;
  wr_tail pxItemToRemove (fun t => mkTail (pvOwner t) 0);;
  wr_list pxList (fun l => mkList (u32 (uxNumberOfItems l - 1)) (pxIndex l)).

Definition listINSERT_END (pxList pxNewListItem : Z) : M lstate unit :=
  l ← rd_list pxList;
  let idx := pxIndex l in
  wr_mini pxNewListItem (set_pxNext idx);;
  im ← rd_mini idx;
  wr_mini pxNewListItem (set_pxPrevious (pxPrevious im));;
  im ← rd_mini idx;
  wr_mini (pxPrevious im) (set_pxNext pxNewListItem);;
  wr_mini idx (set_pxPrevious pxNewListItem);;
  wr_tail pxNewListItem (fun t => mkTail (pvOwner t) pxList);;
  wr_list pxList (fun l => mkList (u32 (uxNumberOfItems l + 1)) (pxIndex l)).

Definition listSET_LIST_ITEM_OWNER (pxListItem pxOwner : Z) : M lstate unit :=
  wr_tail pxListItem (fun t => mkTail pxOwner (pxContainer t)).
Definition listGET_LIST_ITEM_OWNER (pxListItem : Z) : M lstate Z :=
  t ← rd_tail pxListItem; mret (pvOwner t).
Definition listSET_LIST_ITEM_VALUE (pxListItem xValue : Z) : M lstate unit :=
  wr_mini pxListItem (set_xItemValue xValue).
Definition listGET_LIST_ITEM_VALUE (pxListItem : Z) : M lstate Z :=
  m ← rd_mini pxListItem; mret (xItemValue m).
Definition listGET_ITEM_VALUE_OF_HEAD_ENTRY (pxList : Z) : M lstate Z :=
  e ← rd_mini (xListEnd pxList); m ← rd_mini (pxNext e); mret (xItemValue m).
Definition listLIST_IS_EMPTY (pxList : Z) : M lstate bool :=
  l ← rd_list pxList; mret (uxNumberOfItems l =? 0).
Definition listCURRENT_LIST_LENGTH (pxList : Z) : M lstate Z :=
  l ← rd_list pxList; mret (uxNumberOfItems l).
Definition listGET_OWNER_OF_HEAD_ENTRY (pxList : Z) : M lstate Z :=
  e ← rd_mini (xListEnd pxList); t ← rd_tail (pxNext e); mret (pvOwner t).
Definition listIS_CONTAINED_WITHIN (pxList pxListItem : Z) : M lstate bool :=
  t ← rd_tail pxListItem; mret (pxContainer t =? pxList).
Definition listLIST_ITEM_CONTAINER (pxListItem : Z) : M lstate Z :=
  t ← rd_tail pxListItem; mret (pxContainer t).

(** [vListInsert] with enough fuel for every list of the store. *)
Definition insert_ordered (pxList pxNewListItem : Z) : M lstate unit :=
  n ← gets (fun s => size (minis s)); vListInsert (S n) pxList pxNewListItem.

(** ** Views *)

Definition upd {A} (f : Z -> A) (k : Z) (v : A) (x : Z) : A := if x =? k then v else f x.

Lemma upd_hit {A} (f : Z -> A) k v : upd f k v k = v.
Proof. unfold upd. by rewrite Z.eqb_refl. Qed.
Lemma upd_miss {A} (f : Z -> A) k v x : x <> k -> upd f k v x = f x.
Proof. intros N. unfold upd. by destruct (Z.eqb_spec x k). Qed.
Lemma upd_case {A} (f : Z -> A) k v x : x = k /\ upd f k v x = v \/ x <> k /\ upd f k v x = f x.
Proof. unfold upd. destruct (Z.eqb_spec x k); auto. Qed.

Record view := mkView {
  vlists : gset Z;
  vitems : gset Z;
  elems : Z -> list Z;
  cursor : Z -> Z;
  value : Z -> Z;
  owner : Z -> Z;
  cont : Z -> Z
}.

(** A store shows a view: every list is represented, every item carries its
    value, owner and container, and the container of an item is the one list
    it is on, or null. *)
Record shows (s : lstate) (V : view) : Prop := {
  sh_rep l : l ∈ vlists V -> rep s l (cursor V l) (elems V l);
  sh_mini i : i ∈ vitems V -> exists m, minis s !! i = Some m /\ xItemValue m = value V i;
  sh_tail i : i ∈ vitems V -> tails s !! i = Some (mkTail (owner V i) (cont V i));
  sh_val i : i ∈ vitems V -> is_u32 (value V i);
  sh_on l i : l ∈ vlists V -> (i ∈ elems V l <-> i ∈ vitems V /\ cont V i = l);
  sh_cont i : i ∈ vitems V -> cont V i = 0 \/ cont V i ∈ vlists V;
  sh_end l : l ∈ vlists V -> ~ (xListEnd l ∈ vitems V);
  sh_null : ~ (0 ∈ vlists V);
  sh_size : Z.of_nat (size (vitems V)) < 4294967296
}.

(** Insertion before the cursor; at the end when the cursor is on the end marker. *)
Fixpoint before (c i : Z) (xs : list Z) : list Z :=
  match xs with
  | [] => [i]
  | x :: r => if x =? c then i :: xs else x :: before c i r
  end.
Definition without (i : Z) (xs : list Z) : list Z := filter (fun x => x <> i) xs.
(** The item before [i], [d] if it is the first. *)
Fixpoint pred_of (d i : Z) (xs : list Z) : Z :=
  match xs with
  | [] => d
  | x :: r => if x =? i then d else pred_of x i r
  end.
(** The item after [c], [d] if there is none. *)
Fixpoint succ_of (d c : Z) (xs : list Z) : Z :=
  match xs with
  | [] => d
  | x :: r => if x =? c then List.hd d r else succ_of d c r
  end.

Definition v_put (l i : Z) (xs : list Z) (V : view) : view :=
  mkView (vlists V) (vitems V) (upd (elems V) l xs) (cursor V) (value V) (owner V) (upd (cont V) i l).
Definition v_insert_end (l i : Z) (V : view) : view := v_put l i (before (cursor V l) i (elems V l)) V.
Definition v_insert (l i : Z) (V : view) : view :=
  v_put l i (place (fun x => Some (value V x)) i (value V i) (elems V l)) V.
Definition v_remove (i : Z) (V : view) : view :=
  let l := cont V i in
  mkView (vlists V) (vitems V) (upd (elems V) l (without i (elems V l)))
    (upd (cursor V) l (if cursor V l =? i then pred_of (xListEnd l) i (elems V l) else cursor V l))
    (value V) (owner V) (upd (cont V) i 0).
Definition v_next (l : Z) (V : view) : view :=
  mkView (vlists V) (vitems V) (elems V)
    (upd (cursor V) l (succ_of (List.hd 0 (elems V l)) (cursor V l) (elems V l)))
    (value V) (owner V) (cont V).
Definition v_set_value (i v : Z) (V : view) : view :=
  mkView (vlists V) (vitems V) (elems V) (cursor V) (upd (value V) i v) (owner V) (cont V).

(** ** The sequence functions *)

Lemma before_out c i xs : ~ (c ∈ xs) -> before c i xs = xs ++ [i].
Proof.
  induction xs as [|x r IH]; intros N; [done|]. cbn. destruct (Z.eqb_spec x c) as [->|_]; [set_solver|].
  rewrite IH; [done|set_solver].
Qed.
Lemma before_in c i a b : ~ (c ∈ a) -> before c i (a ++ c :: b) = a ++ i :: c :: b.
Proof.
  induction a as [|x r IH]; intros N; cbn; [by rewrite Z.eqb_refl|].
  destruct (Z.eqb_spec x c) as [->|_]; [set_solver|]. rewrite IH; [done|set_solver].
Qed.
Lemma before_perm c i xs : Permutation (before c i xs) (i :: xs).
Proof.
  induction xs as [|x r IH]; cbn; [done|]. destruct (Z.eqb_spec x c); [done|]. rewrite IH. constructor.
Qed.
Lemma without_out i xs : ~ (i ∈ xs) -> without i xs = xs.
Proof.
  unfold without. induction xs as [|x r IH]; intros N; [done|].
  rewrite filter_cons_True by set_solver. rewrite IH; [done|set_solver].
Qed.
Lemma without_split i a b : NoDup (a ++ i :: b) -> without i (a ++ i :: b) = a ++ b.
Proof.
  intros Hn. apply NoDup_app in Hn as (_ & Hd & Hn). apply NoDup_cons in Hn as [Hib _].
  assert (Ha : ~ (i ∈ a)) by (intros Hx; apply (Hd i Hx); left).
  pose proof (without_out i a Ha) as Ea. pose proof (without_out i b Hib) as Eb.
  unfold without in *. rewrite filter_app, filter_cons_False by tauto. by rewrite Ea, Eb.
Qed.
Lemma without_perm i xs : NoDup xs -> i ∈ xs -> Permutation xs (i :: without i xs).
Proof.
  intros Hn Hi. apply list_elem_of_split in Hi as (a & b & ->). rewrite without_split by done.
  symmetry. apply Permutation_middle.
Qed.
Lemma without_in i x xs : x ∈ without i xs <-> x ∈ xs /\ x <> i.
Proof. unfold without. rewrite list_elem_of_filter. tauto. Qed.
Lemma pred_of_split d i a b : ~ (i ∈ a) -> pred_of d i (a ++ i :: b) = List.last a d.
Proof.
  revert d. induction a as [|x r IH]; intros d N; cbn [app pred_of].
  - by rewrite Z.eqb_refl.
  - destruct (Z.eqb_spec x i) as [->|_]; [set_solver|]. rewrite IH by set_solver. by rewrite last_cons_default.
Qed.
Lemma succ_of_out d c xs : ~ (c ∈ xs) -> succ_of d c xs = d.
Proof.
  induction xs as [|x r IH]; intros N; cbn; [done|]. destruct (Z.eqb_spec x c) as [->|_]; [set_solver|]. apply IH. set_solver.
Qed.
Lemma succ_of_split d c a b : ~ (c ∈ a) -> succ_of d c (a ++ c :: b) = List.hd d b.
Proof.
  induction a as [|x r IH]; intros N; cbn; [by rewrite Z.eqb_refl|].
  destruct (Z.eqb_spec x c) as [->|_]; [set_solver|]. apply IH. set_solver.
Qed.
Lemma place_perm f i v xs : Permutation (place f i v xs) (i :: xs).
Proof.
  destruct (place_split f i v xs) as (a & b & -> & -> & _). symmetry. apply Permutation_middle.
Qed.
Lemma place_ext f g i v xs : (forall x, x ∈ xs -> f x = g x) -> place f i v xs = place g i v xs.
Proof.
  induction xs as [|x r IH]; intros E; cbn; [done|]. rewrite (E x) by left.
  rewrite IH; [done|]. intros y Hy. apply E. by right.
Qed.

Lemma ordered_without f i xs : ordered f xs -> ordered f (without i xs).
Proof.
  unfold ordered, without. induction 1 as [|x r Hr IH Hx]; [constructor|].
  rewrite filter_cons. case_decide; [|done]. constructor; [done|].
  apply Forall_forall. intros y Hy. apply list_elem_of_filter in Hy as [_ Hy].
  by apply (proj1 (Forall_forall _ _) Hx).
Qed.

(** ** Other lists keep their representation *)

Lemma rep_frame s s' l c xs : rep s l c xs ->
  (forall x, x ∈ xListEnd l :: xs -> minis s' !! x = minis s !! x) ->
  (forall x, x ∈ xs -> pxContainer <$> tails s' !! x = pxContainer <$> tails s !! x) ->
  lists s' !! l = lists s !! l -> rep s' l c xs.
Proof.
  intros [Hl Hi He Hc Hn Ho Hv] Em Et El.
  assert (Ev : forall x, x ∈ xListEnd l :: xs -> val s' x = val s x) by (intros x Hx; unfold val; by rewrite Em).
  split; [by rewrite El|done|rewrite Ev; [done|left]| |done| |].
  - apply (chain_frame s); [done| |]; intros x Hx; unfold nxt, prv; rewrite Em; set_solver.
  - intros x Hx. rewrite Et by done. by apply Ho.
  - intros x Hx. rewrite Ev by (by right). by apply Hv.
Qed.

Section Views.
Context (s : lstate) (V : view) (HV : shows s V).

Lemma sh_in l x : l ∈ vlists V -> x ∈ elems V l -> x ∈ vitems V.
Proof. intros Hl Hx. by apply (sh_on _ _ HV l x) in Hx as [? _]. Qed.
Lemma sh_where l x : l ∈ vlists V -> x ∈ elems V l -> cont V x = l.
Proof. intros Hl Hx. by apply (sh_on _ _ HV l x) in Hx as [_ ?]. Qed.
Lemma sh_off i l : cont V i = 0 -> l ∈ vlists V -> ~ (i ∈ elems V l).
Proof. intros E Hl Hx. pose proof (sh_where _ _ Hl Hx) as E'. apply (sh_null _ _ HV). congruence. Qed.
Lemma sh_nodup l : l ∈ vlists V -> NoDup (elems V l).
Proof. intros Hl. pose proof (rep_nodup _ _ _ _ (sh_rep _ _ HV l Hl)) as Hn. by apply NoDup_cons in Hn as [_ ?]. Qed.
Lemma sh_fit l : l ∈ vlists V -> Z.of_nat (length (elems V l)) < 4294967296.
Proof.
  intros Hl. enough (length (elems V l) <= size (vitems V))%nat by (pose proof (sh_size _ _ HV); lia).
  rewrite <- (size_list_to_set (C := gset Z) (elems V l)) by (by apply sh_nodup).
  apply subseteq_size. intros x Hx. apply elem_of_list_to_set in Hx. by apply (sh_in l).
Qed.
Lemma sh_fuel l : l ∈ vlists V -> (length (elems V l) < S (size (minis s)))%nat.
Proof.
  intros Hl. apply Nat.lt_succ_r. rewrite <- (size_list_to_set (C := gset Z) (elems V l)) by (by apply sh_nodup).
  rewrite <- size_dom. apply subseteq_size. intros x Hx. apply elem_of_list_to_set in Hx.
  apply elem_of_dom. destruct (sh_mini _ _ HV x) as (m & Hm & _); [by apply (sh_in l)|eauto].
Qed.
Lemma sh_list l : l ∈ vlists V -> lists s !! l = Some (mkList (Z.of_nat (length (elems V l))) (cursor V l)).
Proof.
  intros Hl. rewrite (rep_list _ _ _ _ (sh_rep _ _ HV l Hl)). pose proof (sh_fit l Hl).
  by rewrite u32_small by (unfold is_u32; lia).
Qed.

(** What the operations on [l] with item [i] must do to show a new view. *)
Lemma shows_step s' l i c xs co :
  l ∈ vlists V -> i ∈ vitems V -> frame s s' (i :: xListEnd l :: elems V l) l ->
  (cont V i = l \/ cont V i = 0) -> (co = l \/ co = 0) ->
  rep s' l c xs -> (forall x, x ∈ xs <-> x ∈ elems V l /\ x <> i \/ x = i /\ co = l) ->
  pxContainer <$> tails s' !! i = Some co ->
  shows s' (mkView (vlists V) (vitems V) (upd (elems V) l xs) (upd (cursor V) l c)
              (value V) (owner V) (upd (cont V) i co)).
Proof.
  intros Hl Hi (Fv & Fo & Fd & Fl) Hci Hco Hr Hxs Hc.
  assert (Hl0 : l <> 0) by (intros ->; by apply (sh_null _ _ HV)).
  assert (Hend : forall x l', x ∈ vitems V -> l' ∈ vlists V -> x <> xListEnd l')
    by (intros x l' Hx Hl' ->; by apply (sh_end _ _ HV l')).
  split; cbn [vlists vitems elems cursor value owner cont].
  - intros l' Hl'. destruct (decide (l' = l)) as [->|N]; [by rewrite !upd_hit|]. rewrite !upd_miss by done.
    assert (Hout : forall x, x ∈ elems V l' -> ~ (x ∈ i :: xListEnd l :: elems V l)).
    { intros x Hx. pose proof (sh_in l' x Hl' Hx) as Hv. pose proof (sh_where l' x Hl' Hx) as Hw.
      rewrite !elem_of_cons. intros [->|[->|Hx2]].
      - destruct Hci as [E|E]; [congruence|]. by apply (sh_off i l' E Hl').
      - by apply (sh_end _ _ HV l).
      - pose proof (sh_where l x Hl Hx2). congruence. }
    apply (rep_frame s); [by apply (sh_rep _ _ HV)| | |by apply Fl].
    + intros x Hx. apply elem_of_cons in Hx as [->|Hx]; apply Fd; [|by apply Hout].
      rewrite !elem_of_cons. intros [E|[E|Hx]].
      * by apply (Hend i l').
      * unfold xListEnd in E. lia.
      * by apply (Hend (xListEnd l') l' (sh_in l _ Hl Hx)).
    + intros x Hx. by destruct (Fd x (Hout x Hx)) as [_ ->].
  - intros x Hx. destruct (sh_mini _ _ HV x Hx) as (m & Hm & E). pose proof (Fv x) as Ev.
    unfold val in Ev. rewrite Hm in Ev. apply fmap_Some in Ev as (m' & Hm' & E'). exists m'. split; [done|]. congruence.
  - intros x Hx. pose proof (Fo x) as Eo. rewrite (sh_tail _ _ HV x Hx) in Eo.
    apply fmap_Some in Eo as (t' & Ht' & E'). cbn in E'. rewrite Ht'. f_equal. destruct t' as [o' c']; cbn in *.
    subst o'. f_equal. destruct (upd_case (cont V) i co x) as [[-> ->]|[N ->]].
    + rewrite Ht' in Hc. cbn in Hc. congruence.
    + destruct (decide (x ∈ elems V l)) as [Hin|Hin].
      * pose proof (rep_own _ _ _ _ Hr x) as Ho. rewrite Ht' in Ho. cbn in Ho.
        assert (E : Some c' = Some l) by (apply Ho, Hxs; auto). rewrite (sh_where l x Hl Hin). congruence.
      * assert (Hn : ~ (x ∈ i :: xListEnd l :: elems V l)).
        { rewrite !elem_of_cons. intros [?|[?|?]]; [done|by apply (Hend x l)|done]. }
        destruct (Fd x Hn) as [_ Et]. rewrite Ht', (sh_tail _ _ HV x Hx) in Et. congruence.
  - apply (sh_val _ _ HV).
  - intros l' x Hl'. destruct (decide (l' = l)) as [->|N].
    + rewrite upd_hit, Hxs. destruct (upd_case (cont V) i co x) as [[-> ->]|[Nx ->]].
      * split; [intros [[_ ?]|[_ ?]]; done|intros [_ ?]; auto].
      * rewrite (sh_on _ _ HV l x Hl). split; [intros [[? _]|[? _]]; done|auto].
    + rewrite upd_miss by done. rewrite (sh_on _ _ HV l' x Hl').
      destruct (upd_case (cont V) i co x) as [[-> ->]|[Nx ->]]; [|done].
      assert (l' <> 0) by (intros ->; by apply (sh_null _ _ HV)).
      split; intros [_ E]; exfalso; [destruct Hci|destruct Hco]; congruence.
  - intros x Hx. destruct (upd_case (cont V) i co x) as [[-> ->]|[Nx ->]]; [|by apply (sh_cont _ _ HV)].
    destruct Hco as [->| ->]; auto.
  - apply (sh_end _ _ HV).
  - apply (sh_null _ _ HV).
  - apply (sh_size _ _ HV).
Qed.
End Views.

(** Views that agree pointwise. *)
#[export] Instance view_equiv : Equiv view := fun V W =>
  vlists V = vlists W /\ vitems V = vitems W /\
  (forall l, elems V l = elems W l) /\ (forall l, cursor V l = cursor W l) /\
  (forall i, value V i = value W i) /\ (forall i, owner V i = owner W i) /\ (forall i, cont V i = cont W i).
#[export] Instance view_equivalence : Equivalence (≡@{view}).
Proof.
  split.
  - intros V. by repeat split.
  - intros V W (A & B & C & D & E & F & G). repeat split; symmetry; auto.
  - intros U V W (A & B & C & D & E & F & G) (A' & B' & C' & D' & E' & F' & G').
    repeat split; intros; etransitivity; eauto.
Qed.
#[export] Instance shows_proper : Proper ((=) ==> (≡@{view}) ==> iff) shows.
Proof.
  assert (H : forall s V W, V ≡ W -> shows s V -> shows s W).
  { intros s [Vl Vi Ve Vc Vv Vo Vt] [Wl Wi We Wc Wv Wo Wt] (A & B & C & D & E & F & G). cbn in *. subst Wl Wi.
    intros [P1 P2 P3 P4 P5 P6 P7 P8 P9]. cbn in *.
    split; cbn; intros *; rewrite <- ?C, <- ?D, <- ?E, <- ?F, <- ?G; auto. }
  intros s ? <- V W E. split; apply H; [done|by symmetry].
Qed.

Lemma upd_same {A} (f : Z -> A) k x : upd f k (f k) x = f x.
Proof. destruct (upd_case f k (f k) x) as [[-> ->]|[_ ->]]; done. Qed.

(** ** The operations as functions on views *)

Lemma listINSERT_END_eq l i : listINSERT_END l i = vListInsertEnd l i.
Proof. done. Qed.

(** [listREMOVE_ITEM] is [uxListRemove] without its result. *)
Lemma listREMOVE_ITEM_ok i s (Q : unit -> lstate -> Prop) :
  wp (uxListRemove i) s (fun _ => Q tt) -> wp (listREMOVE_ITEM i) s Q.
Proof.
  unfold wp, uxListRemove, listREMOVE_ITEM, wr_mini, wr_tail, wr_list, rd_mini, rd_tail, rd_list. mred.
  repeat (match goal with
    | |- context [match ?o with Some _ => Done _ | None => _ end] =>
        lazymatch o with context [match _ with _ => _ end] => fail | _ => destruct o eqn:? end
    | |- context [if ?b then _ else _] => lazymatch b with context [match _ with _ => _ end] => fail | _ => destruct b eqn:? end
    end; try done).
Qed.

Section Operations.
Context (s : lstate) (V : view) (HV : shows s V).

Lemma sh_cursor l : l ∈ vlists V -> cursor V l ∈ xListEnd l :: elems V l.
Proof. intros Hl. apply (rep_idx _ _ _ _ (sh_rep _ _ HV l Hl)). Qed.

(** Where an item can be put: on a list when it is on none. *)
Lemma sh_new l i : l ∈ vlists V -> i ∈ vitems V -> cont V i = 0 -> ~ (i ∈ xListEnd l :: elems V l).
Proof.
  intros Hl Hi E. apply not_elem_of_cons. split; [|by apply (sh_off s V HV)].
  intros ->. by apply (sh_end _ _ HV l).
Qed.

Lemma put_ok s' l i xs : l ∈ vlists V -> i ∈ vitems V -> cont V i = 0 ->
  frame s s' (i :: xListEnd l :: elems V l) l -> rep s' l (cursor V l) xs -> Permutation xs (i :: elems V l) ->
  shows s' (v_put l i xs V).
Proof.
  intros Hl Hi E Hf Hr Hp.
  assert (Hs : shows s' (mkView (vlists V) (vitems V) (upd (elems V) l xs) (upd (cursor V) l (cursor V l))
              (value V) (owner V) (upd (cont V) i l))).
  { eapply (shows_step s V HV); [done|done|done|by right|by left|done| |].
    - intros x. rewrite Hp, elem_of_cons. pose proof (sh_off s V HV i l E Hl).
      split; [intros [->|Hx]; [by right|left; split; [done|by intros ->]]|intros [[Hx _]|[-> _]]; auto].
    - apply (rep_own _ _ _ _ Hr). rewrite Hp. left. }
  eapply shows_proper; [done| |exact Hs]. repeat split; cbn; try done. intros l'. symmetry. apply upd_same.
Qed.

Lemma vListInsertEnd_ok l i : l ∈ vlists V -> i ∈ vitems V -> cont V i = 0 ->
  wp (vListInsertEnd l i) s (fun _ s' => shows s' (v_insert_end l i V)).
Proof.
  intros Hl Hi E. pose proof (sh_rep _ _ HV l Hl) as Hr. pose proof (sh_new l i Hl Hi E) as Hn.
  destruct (sh_mini _ _ HV i Hi) as (m & Hm & Ev). pose proof (sh_val _ _ HV i Hi) as Hu. rewrite <- Ev in Hu.
  assert (exists xs1 xs2, elems V l = xs1 ++ xs2 /\ List.hd (xListEnd l) xs2 = cursor V l /\
            before (cursor V l) i (elems V l) = xs1 ++ i :: xs2) as (xs1 & xs2 & Ex & Eh & Eb).
  { pose proof (sh_cursor l Hl) as Hc. pose proof (rep_nodup _ _ _ _ Hr) as Hd. apply NoDup_cons in Hd as [Hend Hd].
    destruct (decide (cursor V l ∈ elems V l)) as [Hin|Hout].
    - apply list_elem_of_split in Hin as (a & b & Eab). rewrite Eab in Hd |- *.
      exists a, (cursor V l :: b). split; [done|]. split; [done|]. apply before_in.
      intros Hx. apply NoDup_app in Hd as (_ & Hd & _). apply (Hd _ Hx). left.
    - exists (elems V l), []. rewrite app_nil_r, before_out by done. split; [done|]. split; [|done].
      apply elem_of_cons in Hc as [->|Hc]; done. }
  rewrite Ex in Hr, Hn.
  destruct (vListInsertEnd_run s l _ xs1 xs2 i m _ Hr Eh Hm Hu (sh_tail _ _ HV i Hi) Hn) as (s' & Hrun & Hr' & Hf).
  eapply wp_use; [exact Hrun|]. rewrite <- Ex in Hf. unfold v_insert_end.
  apply put_ok; [done|done|done|done|by rewrite Eb|apply before_perm].
Qed.

Lemma insert_ordered_ok l i : l ∈ vlists V -> i ∈ vitems V -> cont V i = 0 ->
  wp (insert_ordered l i) s (fun _ s' => shows s' (v_insert l i V)).
Proof.
  intros Hl Hi E. pose proof (sh_rep _ _ HV l Hl) as Hr. pose proof (sh_new l i Hl Hi E) as Hn.
  destruct (sh_mini _ _ HV i Hi) as (m & Hm & Ev). pose proof (sh_val _ _ HV i Hi) as Hu. rewrite <- Ev in Hu.
  destruct (vListInsert_run s l _ _ i m _ _ Hr Hm Hu (sh_tail _ _ HV i Hi) Hn (sh_fuel s V HV l Hl))
    as (s' & Hrun & Hr' & Hf).
  unfold insert_ordered. apply wp_bind, wp_gets. eapply wp_use; [exact Hrun|]. unfold v_insert.
  apply put_ok; [done|done|done|done| |apply place_perm].
  rewrite Ev in Hr'. erewrite (place_ext _ (val s)); [exact Hr'|].
  intros x Hx. destruct (sh_mini _ _ HV x) as (mx & Hmx & Ex); [by apply (sh_in s V HV l)|].
  unfold val. rewrite Hmx. cbn. by rewrite Ex.
Qed.

Lemma uxListRemove_ok i : i ∈ vitems V -> cont V i <> 0 ->
  wp (uxListRemove i) s (fun n s' => shows s' (v_remove i V) /\
    n = Z.of_nat (length (without i (elems V (cont V i))))).
Proof.
  intros Hi Hc. destruct (sh_cont _ _ HV i Hi) as [E|Hl]; [done|]. set (l := cont V i) in *.
  pose proof (sh_rep _ _ HV l Hl) as Hr. pose proof (sh_nodup s V HV l Hl) as Hd.
  assert (Hin : i ∈ elems V l) by (by apply (sh_on _ _ HV l i Hl)).
  pose proof (sh_fit s V HV l Hl) as Hfit.
  apply list_elem_of_split in Hin as (a & b & Ex). rewrite Ex in Hr, Hd, Hfit.
  assert (Ha : ~ (i ∈ a)).
  { intros Hx. apply NoDup_app in Hd as (_ & Hd & _). apply (Hd _ Hx). left. }
  destruct (uxListRemove_run s l _ a i b Hr) as (s' & Hrun & Hr' & Ht & Hf).
  eapply wp_use; [exact Hrun|]. rewrite Ex, without_split by done.
  split; [|rewrite length_app in Hfit; cbn in Hfit; rewrite u32_small; [done|unfold is_u32; rewrite length_app; lia]].
  unfold v_remove. fold l. rewrite Ex, without_split, pred_of_split by done.
  eapply (shows_step s V HV); [done|done| |by left|by right|exact Hr'| |done].
  - rewrite <- Ex in Hf. destruct Hf as (F1 & F2 & F3 & F4). do 2 (split; [done|]). split; [|done].
    intros x Hx. apply F3. intros Hx'. apply Hx. by right.
  - intros x. rewrite Ex, !elem_of_app, elem_of_cons. apply NoDup_app in Hd as (_ & _ & Hd).
    apply NoDup_cons in Hd as [Hb _].
    assert (l <> 0) by (intros E; rewrite E in Hl; by apply (sh_null _ _ HV)).
    split; [intros [?|?]; left; (split; [auto|]); intros ->; done|].
    intros [[[?|[?|?]] ?]|[-> E]]; [auto|done|auto|by destruct H].
Qed.

Lemma listREMOVE_ok i : i ∈ vitems V -> cont V i <> 0 ->
  wp (listREMOVE_ITEM i) s (fun _ s' => shows s' (v_remove i V)).
Proof.
  intros Hi Hc. apply listREMOVE_ITEM_ok. eapply wp_mono; [by apply uxListRemove_ok|]. by intros ? ? [? _].
Qed.
End Operations.

Section Accesses.
Context (s : lstate) (V : view) (HV : shows s V).

Lemma rd_list_ok l (Q : List_t -> lstate -> Prop) : l ∈ vlists V ->
  Q (mkList (Z.of_nat (length (elems V l))) (cursor V l)) s -> wp (rd_list l) s Q.
Proof.
  intros Hl HQ. unfold rd_list. apply wp_bind, wp_get. eapply wp_of_option; [by apply (sh_list s V HV)|done].
Qed.
Lemma rd_tail_ok i (Q : ItemTail -> lstate -> Prop) : i ∈ vitems V ->
  Q (mkTail (owner V i) (cont V i)) s -> wp (rd_tail i) s Q.
Proof.
  intros Hi HQ. unfold rd_tail. apply wp_bind, wp_get. eapply wp_of_option; [by apply (sh_tail _ _ HV)|done].
Qed.

Lemma is_empty_ok l (Q : bool -> lstate -> Prop) : l ∈ vlists V ->
  Q (bool_decide (elems V l = [])) s -> wp (listLIST_IS_EMPTY l) s Q.
Proof.
  intros Hl HQ. apply wp_bind, (rd_list_ok l); [done|]. apply wp_ret. cbn.
  destruct (elems V l); exact HQ.
Qed.
Lemma length_ok l (Q : Z -> lstate -> Prop) : l ∈ vlists V ->
  Q (Z.of_nat (length (elems V l))) s -> wp (listCURRENT_LIST_LENGTH l) s Q.
Proof. intros Hl HQ. by apply wp_bind, (rd_list_ok l), wp_ret. Qed.
Lemma container_ok i (Q : Z -> lstate -> Prop) : i ∈ vitems V ->
  Q (cont V i) s -> wp (listLIST_ITEM_CONTAINER i) s Q.
Proof. intros Hi HQ. by apply wp_bind, (rd_tail_ok i), wp_ret. Qed.
Lemma contained_ok l i (Q : bool -> lstate -> Prop) : i ∈ vitems V ->
  Q (cont V i =? l) s -> wp (listIS_CONTAINED_WITHIN l i) s Q.
Proof. intros Hi HQ. by apply wp_bind, (rd_tail_ok i), wp_ret. Qed.
Lemma get_owner_ok i (Q : Z -> lstate -> Prop) : i ∈ vitems V ->
  Q (owner V i) s -> wp (listGET_LIST_ITEM_OWNER i) s Q.
Proof. intros Hi HQ. by apply wp_bind, (rd_tail_ok i), wp_ret. Qed.
Lemma get_value_ok i (Q : Z -> lstate -> Prop) : i ∈ vitems V ->
  Q (value V i) s -> wp (listGET_LIST_ITEM_VALUE i) s Q.
Proof.
  intros Hi HQ. destruct (sh_mini _ _ HV i Hi) as (m & Hm & E). unfold listGET_LIST_ITEM_VALUE, rd_mini.
  apply wp_bind, wp_bind, wp_get. eapply wp_of_option; [done|]. apply wp_ret. by rewrite E.
Qed.

(** The head of a list that is not empty. *)
Lemma head_next l x r : l ∈ vlists V -> elems V l = x :: r ->
  exists e, minis s !! xListEnd l = Some e /\ pxNext e = x.
Proof.
  intros Hl Ex. pose proof (rep_chain _ _ _ _ (sh_rep _ _ HV l Hl)) as Hc. rewrite Ex in Hc.
  destruct Hc as [[Hn _] _]. by apply nxt_Some in Hn.
Qed.
Lemma head_owner_ok l x r (Q : Z -> lstate -> Prop) : l ∈ vlists V -> elems V l = x :: r ->
  Q (owner V x) s -> wp (listGET_OWNER_OF_HEAD_ENTRY l) s Q.
Proof.
  intros Hl Ex HQ. destruct (head_next l x r Hl Ex) as (e & He & En). unfold listGET_OWNER_OF_HEAD_ENTRY, rd_mini.
  apply wp_bind, wp_bind, wp_get. eapply wp_of_option; [done|]. rewrite En.
  apply wp_bind, (rd_tail_ok x); [apply (sh_in s V HV l); [done|rewrite Ex; left]|]. by apply wp_ret.
Qed.
Lemma head_value_ok l x r (Q : Z -> lstate -> Prop) : l ∈ vlists V -> elems V l = x :: r ->
  Q (value V x) s -> wp (listGET_ITEM_VALUE_OF_HEAD_ENTRY l) s Q.
Proof.
  intros Hl Ex HQ. destruct (head_next l x r Hl Ex) as (e & He & En).
  assert (Hx : x ∈ vitems V) by (apply (sh_in s V HV l); [done|rewrite Ex; left]).
  destruct (sh_mini _ _ HV x Hx) as (m & Hm & Ev). unfold listGET_ITEM_VALUE_OF_HEAD_ENTRY, rd_mini.
  apply wp_bind, wp_bind, wp_get. eapply wp_of_option; [done|]. rewrite En.
  apply wp_bind, wp_bind, wp_get. eapply wp_of_option; [done|]. apply wp_ret. by rewrite Ev.
Qed.

Lemma set_value_ok i v : i ∈ vitems V -> is_u32 v ->
  wp (listSET_LIST_ITEM_VALUE i v) s (fun _ s' => shows s' (v_set_value i v V)).
Proof.
  intros Hi Hv. destruct (sh_mini _ _ HV i Hi) as (m & Hm & _). unfold listSET_LIST_ITEM_VALUE, wr_mini, rd_mini.
  apply wp_bind, wp_bind, wp_get. eapply wp_of_option; [done|]. apply wp_modify.
  set (s' := mkLstate _ _ _).
  assert (E : forall a, nxt s' a = nxt s a /\ prv s' a = prv s a /\ (a <> i -> val s' a = val s a)).
  { intros a. unfold nxt, prv, val, s'; cbn. destruct (decide (a = i)) as [->|N].
    - by rewrite lookup_insert_eq, Hm.
    - by rewrite lookup_insert_ne. }
  split; cbn [vlists vitems elems cursor value owner cont v_set_value]; [ | | | |apply HV..].
  - intros l Hl. destruct (sh_rep _ _ HV l Hl) as [R1 R2 R3 R4 R5 R6 R7].
    split; [done|done| | |done| |].
    + destruct (E (xListEnd l)) as (_ & _ & Ex). rewrite Ex; [done|]. intros <-. by apply (sh_end _ _ HV l).
    + apply (chain_frame s); [done| |]; intros x _; by destruct (E x) as (? & ? & _).
    + by apply R6.
    + intros x Hx. destruct (decide (x = i)) as [->|N].
      * exists v. split; [|done]. unfold val, s'; cbn. by rewrite lookup_insert_eq.
      * destruct (E x) as (_ & _ & Ex). rewrite (Ex N). by apply R7.
  - intros x Hx. destruct (upd_case (value V) i v x) as [[-> ->]|[N ->]]; unfold s'; cbn.
    + rewrite lookup_insert_eq. eauto.
    + rewrite lookup_insert_ne by done. by apply (sh_mini _ _ HV).
  - by apply (sh_tail _ _ HV).
  - intros x Hx. destruct (upd_case (value V) i v x) as [[-> ->]|[N ->]]; [done|]. by apply (sh_val _ _ HV).
Qed.

Lemma next_entry_ok l (Q : Z -> lstate -> Prop) : l ∈ vlists V -> elems V l <> [] ->
  (forall s', shows s' (v_next l V) -> Q (owner V (cursor (v_next l V) l)) s') ->
  wp (listGET_OWNER_OF_NEXT_ENTRY l) s Q.
Proof.
  intros Hl Hne HQ. pose proof (sh_rep _ _ HV l Hl) as Hr. pose proof (sh_nodup s V HV l Hl) as Hd.
  set (x := succ_of (List.hd 0 (elems V l)) (cursor V l) (elems V l)).
  assert (cursor_to s l (cursor V l) x /\ x ∈ elems V l) as [Hc Hx].
  { destruct (decide (cursor V l ∈ elems V l)) as [Hin|Hout].
    - apply list_elem_of_split in Hin as (a & b & Ex). unfold x. rewrite Ex in Hd, Hr |- *.
      assert (Ha : ~ (cursor V l ∈ a)) by (intros Hx; apply NoDup_app in Hd as (_ & Hd & _); apply (Hd _ Hx); left).
      rewrite succ_of_split by done. destruct b as [|y b]; cbn [List.hd].
      + assert (Eh : exists h t, a ++ [cursor V l] = h :: t) by (destruct a; cbn; eauto).
        destruct Eh as (h & t & Eh). rewrite Eh in Hr |- *. cbn [List.hd]. split; [|left].
        pose proof (cursor_wrap _ _ _ _ _ Hr) as Hw. by rewrite <- Eh, List.last_last in Hw.
      + replace (a ++ cursor V l :: y :: b) with ((a ++ [cursor V l]) ++ y :: b) in Hr |- * by (by rewrite <- app_assoc).
        split; [|set_solver]. pose proof (cursor_next _ _ _ _ _ _ Hr) as Hw. by rewrite List.last_last in Hw.
    - unfold x. rewrite succ_of_out by done. pose proof (sh_cursor s V HV l Hl) as Hc.
      apply elem_of_cons in Hc as [Ec|Hc]; [|done]. destruct (elems V l) as [|h t]; [done|]. cbn [List.hd].
      split; [|left]. rewrite Ec. exact (cursor_next s l _ [] h t Hr). }
  assert (Hxi : x ∈ vitems V) by (by apply (sh_in s V HV l)).
  eapply wp_use; [eapply next_entry_run; [by apply (sh_list s V HV)|exact Hc|by apply (sh_tail _ _ HV)]|].
  cbn [pvOwner]. assert (Ex : cursor (v_next l V) l = x) by (cbn; by rewrite upd_hit). rewrite <- Ex at 1. apply HQ.
  split; cbn [vlists vitems elems cursor value owner cont v_next]; [|apply HV..].
  intros l' Hl'. fold x. destruct (upd_case (cursor V) l x l') as [[-> E]|[N E]]; rewrite E; [eapply rep_with_idx; [done|by right]|].
  apply (rep_frame s); [by apply (sh_rep _ _ HV)|done|done|]. unfold with_idx; cbn. by rewrite lookup_alter_ne.
Qed.
End Accesses.
