(* ===== verification/KlistNew.v ===== *)
(** Items and lists that come and go: a view with a new item, without an item
    that is on no list, with a new empty list. *)
From S2P Require Import Prelude FList Klist.

Definition v_new (i v o : Z) (V : view) : view :=
  mkView (vlists V) ({[i]} ∪ vitems V) (elems V) (cursor V) (upd (value V) i v) (upd (owner V) i o) (upd (cont V) i 0).
Definition v_forget (i : Z) (V : view) : view :=
  mkView (vlists V) (vitems V ∖ {[i]}) (elems V) (cursor V) (value V) (owner V) (cont V).
Definition v_list (l : Z) (V : view) : view :=
  mkView ({[l]} ∪ vlists V) (vitems V) (upd (elems V) l []) (upd (cursor V) l (xListEnd l)) (value V) (owner V) (cont V).

Section New.
Context (s : lstate) (V : view) (HV : shows s V).
Implicit Types (i l : Z).

(** What lists look at, and what a fresh item leaves alone. *)
Lemma rep_item i l s' : l ∈ vlists V -> ~ (i ∈ xListEnd l :: elems V l) ->
  (forall x, x <> i -> minis s' !! x = minis s !! x /\ tails s' !! x = tails s !! x) -> lists s' = lists s ->
  rep s' l (cursor V l) (elems V l).
Proof.
  intros Hl Hi Hs El. eapply rep_frame; [by apply (sh_rep _ _ HV)| | |by rewrite El].
  - intros x Hx. apply Hs. by intros ->.
  - intros x Hx. destruct (Hs x) as [_ ->]; [|done]. intros ->. apply Hi. by right.
Qed.

Lemma shows_new i m o : ~ (i ∈ vitems V) -> (forall l, l ∈ vlists V -> i <> xListEnd l) -> is_u32 (xItemValue m) ->
  Z.of_nat (size (vitems V)) + 1 < 4294967296 ->
  shows (mkLstate (<[i := m]> (minis s)) (<[i := mkTail o 0]> (tails s)) (lists s)) (v_new i (xItemValue m) o V).
Proof.
  intros Hi He Hv Hs. assert (Hnot : forall l, l ∈ vlists V -> ~ (i ∈ xListEnd l :: elems V l)).
  { intros l Hl [Hx|Hx]%elem_of_cons; [by eapply He|]. by apply Hi, (sh_in s V HV l). }
  split; cbn.
  - intros l Hl. apply (rep_item i); [done|by apply Hnot| |done]. intros x N. cbn. by rewrite !lookup_insert_ne.
  - intros x Hx. destruct (decide (x = i)) as [->|N]; [exists m; rewrite lookup_insert_eq, upd_hit; done|].
    rewrite lookup_insert_ne, upd_miss by done. apply (sh_mini _ _ HV). set_solver.
  - intros x Hx. destruct (decide (x = i)) as [->|N]; [by rewrite lookup_insert_eq, !upd_hit|].
    rewrite lookup_insert_ne, !upd_miss by done. apply (sh_tail _ _ HV). set_solver.
  - intros x Hx. destruct (decide (x = i)) as [->|N]; [by rewrite upd_hit|]. rewrite upd_miss by done.
    apply (sh_val _ _ HV). set_solver.
  - intros l x Hl. destruct (decide (x = i)) as [->|N].
    + rewrite upd_hit. split; [intros Hx; exfalso; apply (Hnot l Hl); by right|]. intros [_ <-]. exfalso. by apply (sh_null _ _ HV).
    + rewrite upd_miss by done. rewrite (sh_on _ _ HV l x Hl). set_solver.
  - intros x Hx. destruct (decide (x = i)) as [->|N]; [rewrite upd_hit; by left|]. rewrite upd_miss by done.
    apply (sh_cont _ _ HV). set_solver.
  - intros l Hl Hx. apply elem_of_union in Hx as [Hx%elem_of_singleton|Hx]; [by apply (He l)|by apply (sh_end _ _ HV l)].
  - apply (sh_null _ _ HV).
  - rewrite size_union, size_singleton by set_solver. lia.
Qed.

Lemma shows_forget i : i ∈ vitems V -> cont V i = 0 ->
  shows (mkLstate (delete i (minis s)) (delete i (tails s)) (lists s)) (v_forget i V).
Proof.
  intros Hi Hc. split; cbn.
  - intros l Hl. apply (rep_item i); [done| | |done].
    + intros [Hx|Hx]%elem_of_cons; [apply (sh_end _ _ HV l Hl); by rewrite <- Hx|by apply (sh_off s V HV i l Hc Hl)].
    + intros x N. cbn. by rewrite !lookup_delete_ne.
  - intros x [Hx N%not_elem_of_singleton]%elem_of_difference. rewrite lookup_delete_ne by done. by apply (sh_mini _ _ HV).
  - intros x [Hx N%not_elem_of_singleton]%elem_of_difference. rewrite lookup_delete_ne by done. by apply (sh_tail _ _ HV).
  - intros x [Hx _]%elem_of_difference. by apply (sh_val _ _ HV).
  - intros l x Hl. rewrite (sh_on _ _ HV l x Hl). split; [|set_solver]. intros [Hx Hl']. split; [|done].
    apply elem_of_difference. split; [done|]. intros ->%elem_of_singleton. apply (sh_null _ _ HV). congruence.
  - intros x [Hx _]%elem_of_difference. by apply (sh_cont _ _ HV).
  - intros l Hl Hx. apply (sh_end _ _ HV l Hl). set_solver.
  - apply (sh_null _ _ HV).
  - pose proof (sh_size _ _ HV). enough (size (vitems V ∖ {[i]}) <= size (vitems V))%nat by lia. apply subseteq_size. set_solver.
Qed.

Lemma initialise_frame l (l0 : List_t) (m0 : MiniListItem_t) : lists s !! l = Some l0 -> minis s !! xListEnd l = Some m0 ->
  exists s', vListInitialise l s = Done (tt, s') /\ tails s' = tails s /\
    (forall x, x <> xListEnd l -> minis s' !! x = minis s !! x) /\ (forall x, x <> l -> lists s' !! x = lists s !! x) /\
    is_Some (minis s' !! xListEnd l) /\ is_Some (lists s' !! l).
Proof.
  intros Hl0 Hm0. eexists. split; [unfold vListInitialise; lstep; reflexivity|]. cbn [minis lists tails].
  split; [done|]. split; [intros x N; by rewrite !lookup_insert_ne|]. split; [intros x N; by rewrite !lookup_insert_ne|].
  by rewrite !lookup_insert_eq.
Qed.

(** A list that has been initialised. *)
Lemma vListInitialise_ok l (Q : unit -> lstate -> Prop) : ~ (l ∈ vlists V) -> l <> 0 -> ~ (xListEnd l ∈ vitems V) ->
  is_Some (lists s !! l) -> is_Some (minis s !! xListEnd l) ->
  (forall s', shows s' (v_list l V) -> (forall x, is_Some (lists s !! x) -> is_Some (lists s' !! x)) ->
     (forall x, is_Some (minis s !! x) -> is_Some (minis s' !! x)) -> Q tt s') -> wp (vListInitialise l) s Q.
Proof.
  intros Hl Hz He [l0 Hl0] [m0 Hm0] HQ. destruct (vListInitialise_run s l m0 l0 Hm0 Hl0) as (s1 & Hrun1 & Hr).
  destruct (initialise_frame l l0 m0 Hl0 Hm0) as (s' & Hrun & Et & Em & El & Hm & Hl').
  rewrite Hrun in Hrun1. injection Hrun1 as <-. eapply wp_use; [exact Hrun|]. apply HQ.
  2:{ intros x Hx. destruct (decide (x = l)) as [->|N]; [done|by rewrite El]. }
  2:{ intros x Hx. destruct (decide (x = xListEnd l)) as [->|N]; [done|by rewrite Em]. }
  assert (Hit : forall x, x ∈ vitems V -> x <> xListEnd l) by (intros x Hx ->; by apply He).
  split; cbn.
  - intros l' Hl1. destruct (decide (l' = l)) as [->|N]; [by rewrite !upd_hit|]. rewrite !upd_miss by done.
    assert (Hl2 : l' ∈ vlists V) by set_solver. eapply rep_frame; [by apply (sh_rep _ _ HV)| | |by apply El].
    + intros x Hx. apply Em. apply elem_of_cons in Hx as [->|Hx]; [unfold xListEnd; lia|].
      apply Hit. by apply (sh_in s V HV l').
    + intros x Hx. by rewrite Et.
  - intros x Hx. rewrite Em by auto. by apply (sh_mini _ _ HV).
  - intros x Hx. rewrite Et. by apply (sh_tail _ _ HV).
  - apply (sh_val _ _ HV).
  - intros l' x Hl1. destruct (decide (l' = l)) as [->|N].
    + rewrite upd_hit. split; [intros Hx; inversion Hx|]. intros [Hx Ec]. exfalso.
      destruct (sh_cont _ _ HV x Hx); congruence.
    + rewrite upd_miss by done. apply (sh_on _ _ HV). set_solver.
  - intros x Hx. destruct (sh_cont _ _ HV x Hx); [by left|right; set_solver].
  - intros l' [->%elem_of_singleton|Hl1]%elem_of_union; [done|by apply (sh_end _ _ HV)].
  - intros [E0%elem_of_singleton|Hx]%elem_of_union; [by apply Hz|by apply (sh_null _ _ HV)].
  - apply (sh_size _ _ HV).
Qed.
End New.
