(* ===== verification/Tasks.v ===== *)
(** FreeRTOS/tasks.c: the scheduler.  Task control blocks are records, the list
    items in them live in the store of the kernel's lists at their offsets.  A
    critical section is one run; [portYIELD] sets the software interrupt
    pending, whose handler switches tasks. *)
From S2P Require Import Prelude FList Klist.

Definition configMAX_PRIORITIES : Z := 15.
Definition configMAX_TASK_NAME_LEN : Z := 16.
Definition configINITIAL_TICK_COUNT : Z := 0.
Definition taskEVENT_LIST_ITEM_VALUE_IN_USE : Z := 0x80000000.
Definition taskNOT_WAITING_NOTIFICATION : Z := 0.
Definition taskWAITING_NOTIFICATION : Z := 1.
Definition taskNOTIFICATION_RECEIVED : Z := 2.
Definition SIZEOF_TCB : Z := 84.
Definition errCOULD_NOT_ALLOCATE_REQUIRED_MEMORY : Z := -1.

(** A task control block without its two list items. *)
Record TCB := mkTCB {
  pxTopOfStack : Z;
  uxPriority : Z;
  pxStack : Z;
  pcTaskName : list Z;
  uxBasePriority : Z;
  uxMutexesHeld : Z;
  ulNotifiedValue : Z;
  ucNotifyState : Z;
  ucDelayAborted : bool
}.

Definition set_pxTopOfStack (v : Z) (t : TCB) : TCB :=
  mkTCB v (uxPriority t) (pxStack t) (pcTaskName t) (uxBasePriority t) (uxMutexesHeld t) (ulNotifiedValue t)
  (ucNotifyState t) (ucDelayAborted t).
Definition set_uxPriority (v : Z) (t : TCB) : TCB :=
  mkTCB (pxTopOfStack t) v (pxStack t) (pcTaskName t) (uxBasePriority t) (uxMutexesHeld t)
  (ulNotifiedValue t) (ucNotifyState t) (ucDelayAborted t).
Definition set_uxBasePriority (v : Z) (t : TCB) : TCB :=
  mkTCB (pxTopOfStack t) (uxPriority t) (pxStack t) (pcTaskName t) v (uxMutexesHeld t) (ulNotifiedValue t)
  (ucNotifyState t) (ucDelayAborted t).
Definition set_uxMutexesHeld (v : Z) (t : TCB) : TCB :=
  mkTCB (pxTopOfStack t) (uxPriority t) (pxStack t) (pcTaskName t) (uxBasePriority t) v (ulNotifiedValue t)
  (ucNotifyState t) (ucDelayAborted t).
Definition set_ulNotifiedValue (v : Z) (t : TCB) : TCB :=
  mkTCB (pxTopOfStack t) (uxPriority t) (pxStack t) (pcTaskName t) (uxBasePriority t) (uxMutexesHeld t) v
  (ucNotifyState t) (ucDelayAborted t).
Definition set_ucNotifyState (v : Z) (t : TCB) : TCB :=
  mkTCB (pxTopOfStack t) (uxPriority t) (pxStack t) (pcTaskName t) (uxBasePriority t) (uxMutexesHeld t)
  (ulNotifiedValue t) v (ucDelayAborted t).
Definition set_ucDelayAborted (v : bool) (t : TCB) : TCB :=
  mkTCB (pxTopOfStack t) (uxPriority t) (pxStack t) (pcTaskName t) (uxBasePriority t) (uxMutexesHeld t)
  (ulNotifiedValue t) (ucNotifyState t) v.

Record kernel (A : Type) := mkKernel {
  tcbs : gmap Z TCB;
  kls : lstate;
  pxCurrentTCB : Z;
  pxDelayedTaskList : Z;
  pxOverflowDelayedTaskList : Z;
  uxDeletedTasksWaitingCleanUp : Z;
  uxCurrentNumberOfTasks : Z;
  xTickCount : Z;
  uxTopReadyPriority : Z;
  xSchedulerRunning : bool;
  xPendedTicks : Z;
  xYieldPending : bool;
  xNumOfOverflows : Z;
  uxTaskNumber : Z;
  xNextTaskUnblockTime : Z;
  xIdleTaskHandle : Z;
  uxSchedulerSuspended : Z;
  swi_pending : bool;
  kheap : A
}.

Arguments mkKernel {A}.
Arguments tcbs {A} _.
Arguments kls {A} _.
Arguments pxCurrentTCB {A} _.
Arguments pxDelayedTaskList {A} _.
Arguments pxOverflowDelayedTaskList {A} _.
Arguments uxDeletedTasksWaitingCleanUp {A} _.
Arguments uxCurrentNumberOfTasks {A} _.
Arguments xTickCount {A} _.
Arguments uxTopReadyPriority {A} _.
Arguments xSchedulerRunning {A} _.
Arguments xPendedTicks {A} _.
Arguments xYieldPending {A} _.
Arguments xNumOfOverflows {A} _.
Arguments uxTaskNumber {A} _.
Arguments xNextTaskUnblockTime {A} _.
Arguments xIdleTaskHandle {A} _.
Arguments uxSchedulerSuspended {A} _.
Arguments swi_pending {A} _.
Arguments kheap {A} _.

Section Setters.
Context {A : Type}.
Implicit Type k : kernel A.
Definition set_tcbs (v : gmap Z TCB) (k : kernel A) : kernel A :=
  mkKernel v (kls k) (pxCurrentTCB k) (pxDelayedTaskList k) (pxOverflowDelayedTaskList k)
  (uxDeletedTasksWaitingCleanUp k) (uxCurrentNumberOfTasks k) (xTickCount k) (uxTopReadyPriority k)
  (xSchedulerRunning k) (xPendedTicks k) (xYieldPending k) (xNumOfOverflows k) (uxTaskNumber k)
  (xNextTaskUnblockTime k) (xIdleTaskHandle k) (uxSchedulerSuspended k) (swi_pending k) (kheap k).
Definition set_kls (v : lstate) (k : kernel A) : kernel A :=
  mkKernel (tcbs k) v (pxCurrentTCB k) (pxDelayedTaskList k) (pxOverflowDelayedTaskList k)
  (uxDeletedTasksWaitingCleanUp k) (uxCurrentNumberOfTasks k) (xTickCount k) (uxTopReadyPriority k)
  (xSchedulerRunning k) (xPendedTicks k) (xYieldPending k) (xNumOfOverflows k) (uxTaskNumber k)
  (xNextTaskUnblockTime k) (xIdleTaskHandle k) (uxSchedulerSuspended k) (swi_pending k) (kheap k).
Definition set_pxCurrentTCB (v : Z) (k : kernel A) : kernel A :=
  mkKernel (tcbs k) (kls k) v (pxDelayedTaskList k) (pxOverflowDelayedTaskList k)
  (uxDeletedTasksWaitingCleanUp k) (uxCurrentNumberOfTasks k) (xTickCount k) (uxTopReadyPriority k)
  (xSchedulerRunning k) (xPendedTicks k) (xYieldPending k) (xNumOfOverflows k) (uxTaskNumber k)
  (xNextTaskUnblockTime k) (xIdleTaskHandle k) (uxSchedulerSuspended k) (swi_pending k) (kheap k).
Definition set_pxDelayedTaskList (v : Z) (k : kernel A) : kernel A :=
  mkKernel (tcbs k) (kls k) (pxCurrentTCB k) v (pxOverflowDelayedTaskList k) (uxDeletedTasksWaitingCleanUp k)
  (uxCurrentNumberOfTasks k) (xTickCount k) (uxTopReadyPriority k) (xSchedulerRunning k) (xPendedTicks k)
  (xYieldPending k) (xNumOfOverflows k) (uxTaskNumber k) (xNextTaskUnblockTime k) (xIdleTaskHandle k)
  (uxSchedulerSuspended k) (swi_pending k) (kheap k).
Definition set_pxOverflowDelayedTaskList (v : Z) (k : kernel A) : kernel A :=
  mkKernel (tcbs k) (kls k) (pxCurrentTCB k) (pxDelayedTaskList k) v (uxDeletedTasksWaitingCleanUp k)
  (uxCurrentNumberOfTasks k) (xTickCount k) (uxTopReadyPriority k) (xSchedulerRunning k) (xPendedTicks k)
  (xYieldPending k) (xNumOfOverflows k) (uxTaskNumber k) (xNextTaskUnblockTime k) (xIdleTaskHandle k)
  (uxSchedulerSuspended k) (swi_pending k) (kheap k).
Definition set_uxDeletedTasksWaitingCleanUp (v : Z) (k : kernel A) : kernel A :=
  mkKernel (tcbs k) (kls k) (pxCurrentTCB k) (pxDelayedTaskList k) (pxOverflowDelayedTaskList k) v
  (uxCurrentNumberOfTasks k) (xTickCount k) (uxTopReadyPriority k) (xSchedulerRunning k) (xPendedTicks k)
  (xYieldPending k) (xNumOfOverflows k) (uxTaskNumber k) (xNextTaskUnblockTime k) (xIdleTaskHandle k)
  (uxSchedulerSuspended k) (swi_pending k) (kheap k).
Definition set_uxCurrentNumberOfTasks (v : Z) (k : kernel A) : kernel A :=
  mkKernel (tcbs k) (kls k) (pxCurrentTCB k) (pxDelayedTaskList k) (pxOverflowDelayedTaskList k)
  (uxDeletedTasksWaitingCleanUp k) v (xTickCount k) (uxTopReadyPriority k) (xSchedulerRunning k)
  (xPendedTicks k) (xYieldPending k) (xNumOfOverflows k) (uxTaskNumber k) (xNextTaskUnblockTime k)
  (xIdleTaskHandle k) (uxSchedulerSuspended k) (swi_pending k) (kheap k).
Definition set_xTickCount (v : Z) (k : kernel A) : kernel A :=
  mkKernel (tcbs k) (kls k) (pxCurrentTCB k) (pxDelayedTaskList k) (pxOverflowDelayedTaskList k)
  (uxDeletedTasksWaitingCleanUp k) (uxCurrentNumberOfTasks k) v (uxTopReadyPriority k) (xSchedulerRunning k)
  (xPendedTicks k) (xYieldPending k) (xNumOfOverflows k) (uxTaskNumber k) (xNextTaskUnblockTime k)
  (xIdleTaskHandle k) (uxSchedulerSuspended k) (swi_pending k) (kheap k).
Definition set_uxTopReadyPriority (v : Z) (k : kernel A) : kernel A :=
  mkKernel (tcbs k) (kls k) (pxCurrentTCB k) (pxDelayedTaskList k) (pxOverflowDelayedTaskList k)
  (uxDeletedTasksWaitingCleanUp k) (uxCurrentNumberOfTasks k) (xTickCount k) v (xSchedulerRunning k)
  (xPendedTicks k) (xYieldPending k) (xNumOfOverflows k) (uxTaskNumber k) (xNextTaskUnblockTime k)
  (xIdleTaskHandle k) (uxSchedulerSuspended k) (swi_pending k) (kheap k).
Definition set_xSchedulerRunning (v : bool) (k : kernel A) : kernel A :=
  mkKernel (tcbs k) (kls k) (pxCurrentTCB k) (pxDelayedTaskList k) (pxOverflowDelayedTaskList k)
  (uxDeletedTasksWaitingCleanUp k) (uxCurrentNumberOfTasks k) (xTickCount k) (uxTopReadyPriority k) v
  (xPendedTicks k) (xYieldPending k) (xNumOfOverflows k) (uxTaskNumber k) (xNextTaskUnblockTime k)
  (xIdleTaskHandle k) (uxSchedulerSuspended k) (swi_pending k) (kheap k).
Definition set_xPendedTicks (v : Z) (k : kernel A) : kernel A :=
  mkKernel (tcbs k) (kls k) (pxCurrentTCB k) (pxDelayedTaskList k) (pxOverflowDelayedTaskList k)
  (uxDeletedTasksWaitingCleanUp k) (uxCurrentNumberOfTasks k) (xTickCount k) (uxTopReadyPriority k)
  (xSchedulerRunning k) v (xYieldPending k) (xNumOfOverflows k) (uxTaskNumber k) (xNextTaskUnblockTime k)
  (xIdleTaskHandle k) (uxSchedulerSuspended k) (swi_pending k) (kheap k).
Definition set_xYieldPending (v : bool) (k : kernel A) : kernel A :=
  mkKernel (tcbs k) (kls k) (pxCurrentTCB k) (pxDelayedTaskList k) (pxOverflowDelayedTaskList k)
  (uxDeletedTasksWaitingCleanUp k) (uxCurrentNumberOfTasks k) (xTickCount k) (uxTopReadyPriority k)
  (xSchedulerRunning k) (xPendedTicks k) v (xNumOfOverflows k) (uxTaskNumber k) (xNextTaskUnblockTime k)
  (xIdleTaskHandle k) (uxSchedulerSuspended k) (swi_pending k) (kheap k).
Definition set_xNumOfOverflows (v : Z) (k : kernel A) : kernel A :=
  mkKernel (tcbs k) (kls k) (pxCurrentTCB k) (pxDelayedTaskList k) (pxOverflowDelayedTaskList k)
  (uxDeletedTasksWaitingCleanUp k) (uxCurrentNumberOfTasks k) (xTickCount k) (uxTopReadyPriority k)
  (xSchedulerRunning k) (xPendedTicks k) (xYieldPending k) v (uxTaskNumber k) (xNextTaskUnblockTime k)
  (xIdleTaskHandle k) (uxSchedulerSuspended k) (swi_pending k) (kheap k).
Definition set_uxTaskNumber (v : Z) (k : kernel A) : kernel A :=
  mkKernel (tcbs k) (kls k) (pxCurrentTCB k) (pxDelayedTaskList k) (pxOverflowDelayedTaskList k)
  (uxDeletedTasksWaitingCleanUp k) (uxCurrentNumberOfTasks k) (xTickCount k) (uxTopReadyPriority k)
  (xSchedulerRunning k) (xPendedTicks k) (xYieldPending k) (xNumOfOverflows k) v (xNextTaskUnblockTime k)
  (xIdleTaskHandle k) (uxSchedulerSuspended k) (swi_pending k) (kheap k).
Definition set_xNextTaskUnblockTime (v : Z) (k : kernel A) : kernel A :=
  mkKernel (tcbs k) (kls k) (pxCurrentTCB k) (pxDelayedTaskList k) (pxOverflowDelayedTaskList k)
  (uxDeletedTasksWaitingCleanUp k) (uxCurrentNumberOfTasks k) (xTickCount k) (uxTopReadyPriority k)
  (xSchedulerRunning k) (xPendedTicks k) (xYieldPending k) (xNumOfOverflows k) (uxTaskNumber k) v
  (xIdleTaskHandle k) (uxSchedulerSuspended k) (swi_pending k) (kheap k).
Definition set_xIdleTaskHandle (v : Z) (k : kernel A) : kernel A :=
  mkKernel (tcbs k) (kls k) (pxCurrentTCB k) (pxDelayedTaskList k) (pxOverflowDelayedTaskList k)
  (uxDeletedTasksWaitingCleanUp k) (uxCurrentNumberOfTasks k) (xTickCount k) (uxTopReadyPriority k)
  (xSchedulerRunning k) (xPendedTicks k) (xYieldPending k) (xNumOfOverflows k) (uxTaskNumber k)
  (xNextTaskUnblockTime k) v (uxSchedulerSuspended k) (swi_pending k) (kheap k).
Definition set_uxSchedulerSuspended (v : Z) (k : kernel A) : kernel A :=
  mkKernel (tcbs k) (kls k) (pxCurrentTCB k) (pxDelayedTaskList k) (pxOverflowDelayedTaskList k)
  (uxDeletedTasksWaitingCleanUp k) (uxCurrentNumberOfTasks k) (xTickCount k) (uxTopReadyPriority k)
  (xSchedulerRunning k) (xPendedTicks k) (xYieldPending k) (xNumOfOverflows k) (uxTaskNumber k)
  (xNextTaskUnblockTime k) (xIdleTaskHandle k) v (swi_pending k) (kheap k).
Definition set_swi_pending (v : bool) (k : kernel A) : kernel A :=
  mkKernel (tcbs k) (kls k) (pxCurrentTCB k) (pxDelayedTaskList k) (pxOverflowDelayedTaskList k)
  (uxDeletedTasksWaitingCleanUp k) (uxCurrentNumberOfTasks k) (xTickCount k) (uxTopReadyPriority k)
  (xSchedulerRunning k) (xPendedTicks k) (xYieldPending k) (xNumOfOverflows k) (uxTaskNumber k)
  (xNextTaskUnblockTime k) (xIdleTaskHandle k) (uxSchedulerSuspended k) v (kheap k).
Definition set_kheap (v : A) (k : kernel A) : kernel A :=
  mkKernel (tcbs k) (kls k) (pxCurrentTCB k) (pxDelayedTaskList k) (pxOverflowDelayedTaskList k)
  (uxDeletedTasksWaitingCleanUp k) (uxCurrentNumberOfTasks k) (xTickCount k) (uxTopReadyPriority k)
  (xSchedulerRunning k) (xPendedTicks k) (xYieldPending k) (xNumOfOverflows k) (uxTaskNumber k)
  (xNextTaskUnblockTime k) (xIdleTaskHandle k) (uxSchedulerSuspended k) (swi_pending k) v.

End Setters.

(** The two list items, after [pxTopOfStack] and after [xStateListItem]. *)
Definition xStateListItem (t : Z) : Z := t + 4.
Definition xEventListItem (t : Z) : Z := t + 24.

(** Where the linker puts the lists of tasks.c. *)
Class Statics := {
  ready_base : Z;
  xDelayedTaskList1 : Z;
  xDelayedTaskList2 : Z;
  xPendingReadyList : Z;
  xTasksWaitingTermination : Z;
  xSuspendedTaskList : Z
}.
Definition pxReadyTasksLists `{Statics} (p : Z) : Z := ready_base + 20 * p.

Inductive eTaskState := eRunning | eReady | eBlocked | eSuspended | eDeleted.
#[export] Instance eTaskState_eq_dec : EqDecision eTaskState.
Proof. solve_decision. Defined.
Inductive eNotifyAction := eNoAction | eSetBits | eIncrement | eSetValueWithOverwrite | eSetValueWithoutOverwrite.

Section Tasks.
Context {A : Type} `{Statics}.
Abbreviation K := (kernel A).

Definition onl {X} (m : M lstate X) : M K X := zoom kls set_kls m.
Definition rd_tcb (t : Z) : M K TCB := k ← get; of_option (tcbs k !! t).
Definition wr_tcb (t : Z) (f : TCB -> TCB) : M K unit :=
  b ← rd_tcb t; modify (fun k => set_tcbs (<[t := f b]> (tcbs k)) k).
Definition current : M K TCB := t ← gets pxCurrentTCB; rd_tcb t.
Definition prvGetTCBFromHandle (pxHandle : Z) : M K Z :=
  c ← gets pxCurrentTCB; mret (if pxHandle =? 0 then c else pxHandle).

Definition portYIELD : M K unit := modify (set_swi_pending true).

(** ** Ready lists *)

Definition taskRECORD_READY_PRIORITY (p : Z) : M K unit :=
  top ← gets uxTopReadyPriority;
  if top <? p then modify (set_uxTopReadyPriority p) else mret tt.

Fixpoint select_top (p : nat) : M K Z :=
  e ← onl (listLIST_IS_EMPTY (pxReadyTasksLists (Z.of_nat p)));
  if e : bool then match p with O => stop_ Asserted | S p => select_top p end
  else mret (Z.of_nat p).

Definition taskSELECT_HIGHEST_PRIORITY_TASK : M K unit :=
  top ← gets uxTopReadyPriority;
  p ← select_top (Z.to_nat top);
  t ← onl (listGET_OWNER_OF_NEXT_ENTRY (pxReadyTasksLists p));
  modify (set_pxCurrentTCB t);;
  modify (set_uxTopReadyPriority p).

Definition prvAddTaskToReadyList (t : Z) : M K unit :=
  b ← rd_tcb t;
  taskRECORD_READY_PRIORITY (uxPriority b);;
  onl (listINSERT_END (pxReadyTasksLists (uxPriority b)) (xStateListItem t)).

(** ** Time *)

Definition prvResetNextTaskUnblockTime : M K unit :=
  l ← gets pxDelayedTaskList;
  e ← onl (listLIST_IS_EMPTY l);
  if e : bool then modify (set_xNextTaskUnblockTime portMAX_DELAY)
  else v ← onl (listGET_ITEM_VALUE_OF_HEAD_ENTRY l); modify (set_xNextTaskUnblockTime v).

Definition taskSWITCH_DELAYED_LISTS : M K unit :=
  l ← gets pxDelayedTaskList;
  e ← onl (listLIST_IS_EMPTY l);
  assert_ e;;
  o ← gets pxOverflowDelayedTaskList;
  modify (set_pxDelayedTaskList o);;
  modify (set_pxOverflowDelayedTaskList l);;
  modify (fun k => set_xNumOfOverflows (xNumOfOverflows k + 1) k);;
  prvResetNextTaskUnblockTime.

(** Take a task off its state list and off its event list, if it is on one. *)
Definition remove_event (t : Z) : M K unit :=
  c ← onl (listLIST_ITEM_CONTAINER (xEventListItem t));
  if c =? 0 then mret tt else onl (listREMOVE_ITEM (xEventListItem t)).

(** The loop of [xTaskIncrementTick]: ready every task whose time has come; the
    result says whether one of them should run instead of the current task. *)
Fixpoint unblock_due (fuel : nat) (xConstTickCount : Z) (xSwitchRequired : bool) : M K bool :=
  match fuel with
  | O => stop_ NoFuel
  | S fuel =>
      l ← gets pxDelayedTaskList;
      e ← onl (listLIST_IS_EMPTY l);
      if e : bool then modify (set_xNextTaskUnblockTime portMAX_DELAY);; mret xSwitchRequired
      else
        t ← onl (listGET_OWNER_OF_HEAD_ENTRY l);
        v ← onl (listGET_LIST_ITEM_VALUE (xStateListItem t));
        if xConstTickCount <? v then modify (set_xNextTaskUnblockTime v);; mret xSwitchRequired
        else
          onl (listREMOVE_ITEM (xStateListItem t));;
          remove_event t;;
          prvAddTaskToReadyList t;;
          b ← rd_tcb t;
          c ← current;
          unblock_due fuel xConstTickCount (xSwitchRequired || (uxPriority c <=? uxPriority b))
  end.

Definition xTaskIncrementTick : M K bool :=
  sus ← gets uxSchedulerSuspended;
  if sus =? 0 then
    tick ← gets (fun k => u32 (xTickCount k + 1));
    modify (set_xTickCount tick);;
    (if tick =? 0 then taskSWITCH_DELAYED_LISTS else mret tt);;
    next ← gets xNextTaskUnblockTime;
    fuel ← gets (fun k => S (size (tcbs k)));
    sw ← (if next <=? tick then unblock_due fuel tick false else mret false);
    c ← current;
    n ← onl (listCURRENT_LIST_LENGTH (pxReadyTasksLists (uxPriority c)));
    y ← gets xYieldPending;
    mret (sw || (1 <? n) || y)
  else
    modify (fun k => set_xPendedTicks (u32 (xPendedTicks k + 1)) k);; mret false.

Definition SysTick_Handler : M K unit :=
  b ← xTaskIncrementTick; if b : bool then portYIELD else mret tt.

(** ** Switching tasks *)

(** [vApplicationStackOverflowHook] prints the task's name and spins. *)
Definition taskCHECK_FOR_STACK_OVERFLOW : M K unit :=
  c ← current; if pxTopOfStack c <=? pxStack c then stop_ Asserted else mret tt.

Definition vTaskSwitchContext : M K unit :=
  sus ← gets uxSchedulerSuspended;
  if negb (sus =? 0) then modify (set_xYieldPending true)
  else
    modify (set_xYieldPending false);;
    taskCHECK_FOR_STACK_OVERFLOW;;
    taskSELECT_HIGHEST_PRIORITY_TASK.

(** The software interrupt: the stack pointer of the interrupted task is saved
    in its control block. *)
Definition SW_Handler (sp : Z) : M K unit :=
  modify (set_swi_pending false);;
  t ← gets pxCurrentTCB;
  wr_tcb t (set_pxTopOfStack sp);;
  vTaskSwitchContext.

(** ** Suspending and resuming the scheduler *)

Definition vTaskSuspendAll : M K unit :=
  modify (fun k => set_uxSchedulerSuspended (u32 (uxSchedulerSuspended k + 1)) k).

(** Move the tasks readied meanwhile; whether there was one. *)
Fixpoint ready_pended (fuel : nat) (moved : bool) : M K bool :=
  match fuel with
  | O => stop_ NoFuel
  | S fuel =>
      e ← onl (listLIST_IS_EMPTY xPendingReadyList);
      if e : bool then mret moved
      else
        t ← onl (listGET_OWNER_OF_HEAD_ENTRY xPendingReadyList);
        onl (listREMOVE_ITEM (xEventListItem t));;
        onl (listREMOVE_ITEM (xStateListItem t));;
        prvAddTaskToReadyList t;;
        b ← rd_tcb t;
        c ← current;
        (if uxPriority c <=? uxPriority b then modify (set_xYieldPending true) else mret tt);;
        ready_pended fuel true
  end.

Fixpoint run_pended (n : nat) : M K unit :=
  match n with
  | O => mret tt
  | S n =>
      b ← xTaskIncrementTick;
      (if b : bool then modify (set_xYieldPending true) else mret tt);;
      run_pended n
  end.

Definition xTaskResumeAll : M K bool :=
  sus ← gets uxSchedulerSuspended;
  assert_ (negb (sus =? 0));;
  modify (set_uxSchedulerSuspended (sus - 1));;
  n ← gets uxCurrentNumberOfTasks;
  if (sus - 1 =? 0) && (0 <? n) then
    fuel ← gets (fun k => S (size (tcbs k)));
    moved ← ready_pended fuel false;
    (if moved : bool then prvResetNextTaskUnblockTime else mret tt);;
    pended ← gets xPendedTicks;
    (if 0 <? pended then run_pended (Z.to_nat pended);; modify (set_xPendedTicks 0) else mret tt);;
    y ← gets xYieldPending;
    (if y : bool then portYIELD;; mret true else mret false)
  else mret false.

Definition xTaskCatchUpTicks (xTicksToCatchUp : Z) : M K bool :=
  sus ← gets uxSchedulerSuspended;
  assert_ (sus =? 0);;
  vTaskSuspendAll;;
  modify (fun k => set_xPendedTicks (u32 (xPendedTicks k + xTicksToCatchUp)) k);;
  xTaskResumeAll.

(** ** Blocking *)

Definition prvAddCurrentTaskToDelayedList (xTicksToWait : Z) (xCanBlockIndefinitely : bool) : M K unit :=
  xConstTickCount ← gets xTickCount;
  t ← gets pxCurrentTCB;
  wr_tcb t (set_ucDelayAborted false);;
  onl (uxListRemove (xStateListItem t));;
  if (xTicksToWait =? portMAX_DELAY) && xCanBlockIndefinitely
  then onl (listINSERT_END xSuspendedTaskList (xStateListItem t))
  else
    let xTimeToWake := u32 (xConstTickCount + xTicksToWait) in
    onl (listSET_LIST_ITEM_VALUE (xStateListItem t) xTimeToWake);;
    if xTimeToWake <? xConstTickCount then
      l ← gets pxOverflowDelayedTaskList;
      onl (insert_ordered l (xStateListItem t))
    else
      l ← gets pxDelayedTaskList;
      onl (insert_ordered l (xStateListItem t));;
      next ← gets xNextTaskUnblockTime;
      if xTimeToWake <? next then modify (set_xNextTaskUnblockTime xTimeToWake) else mret tt.

(** Reschedule unless [xTaskResumeAll] has done so. *)
Definition resume_and_yield : M K unit :=
  xAlreadyYielded ← xTaskResumeAll;
  if xAlreadyYielded : bool then mret tt else portYIELD.

(** Interrupts that arrive while the scheduler is suspended are [isrs]. *)
Definition vTaskDelay (isrs : M K unit) (xTicksToDelay : Z) : M K unit :=
  if 0 <? xTicksToDelay then
    sus ← gets uxSchedulerSuspended;
    assert_ (sus =? 0);;
    vTaskSuspendAll;;
    prvAddCurrentTaskToDelayedList xTicksToDelay false;;
    isrs;;
    resume_and_yield
  else portYIELD.

(** Whether [xTaskDelayUntil] has to wait. *)
Definition should_delay (xConstTickCount pxPreviousWakeTime xTimeToWake : Z) : bool :=
  if xConstTickCount <? pxPreviousWakeTime
  then (xTimeToWake <? pxPreviousWakeTime) && (xConstTickCount <? xTimeToWake)
  else (xTimeToWake <? pxPreviousWakeTime) || (xConstTickCount <? xTimeToWake).

(** The new [*pxPreviousWakeTime] and whether the task was delayed. *)
Definition xTaskDelayUntil (isrs : M K unit) (pxPreviousWakeTime xTimeIncrement : Z) : M K (Z * bool) :=
  assert_ (0 <? xTimeIncrement);;
  sus ← gets uxSchedulerSuspended;
  assert_ (sus =? 0);;
  vTaskSuspendAll;;
  xConstTickCount ← gets xTickCount;
  let xTimeToWake := u32 (pxPreviousWakeTime + xTimeIncrement) in
  let xShouldDelay := should_delay xConstTickCount pxPreviousWakeTime xTimeToWake in
  (if xShouldDelay
   then prvAddCurrentTaskToDelayedList (u32 (xTimeToWake - xConstTickCount)) false else mret tt);;
  isrs;;
  resume_and_yield;;
  mret (xTimeToWake, xShouldDelay).

(** ** Event lists *)

Definition vTaskPlaceOnEventList (pxEventList xTicksToWait : Z) : M K unit :=
  assert_ (negb (pxEventList =? 0));;
  t ← gets pxCurrentTCB;
  onl (insert_ordered pxEventList (xEventListItem t));;
  prvAddCurrentTaskToDelayedList xTicksToWait true.

Definition vTaskPlaceOnUnorderedEventList (pxEventList xItemValue xTicksToWait : Z) : M K unit :=
  assert_ (negb (pxEventList =? 0));;
  sus ← gets uxSchedulerSuspended;
  assert_ (negb (sus =? 0));;
  t ← gets pxCurrentTCB;
  onl (listSET_LIST_ITEM_VALUE (xEventListItem t) (Z.lor xItemValue taskEVENT_LIST_ITEM_VALUE_IN_USE));;
  onl (listINSERT_END pxEventList (xEventListItem t));;
  prvAddCurrentTaskToDelayedList xTicksToWait true.

Definition vTaskPlaceOnEventListRestricted (pxEventList xTicksToWait : Z) (xWaitIndefinitely : bool) : M K unit :=
  assert_ (negb (pxEventList =? 0));;
  t ← gets pxCurrentTCB;
  onl (listINSERT_END pxEventList (xEventListItem t));;
  prvAddCurrentTaskToDelayedList (if xWaitIndefinitely then portMAX_DELAY else xTicksToWait) xWaitIndefinitely.

Definition xTaskRemoveFromEventList (pxEventList : Z) : M K bool :=
  t ← onl (listGET_OWNER_OF_HEAD_ENTRY pxEventList);
  assert_ (negb (t =? 0));;
  onl (listREMOVE_ITEM (xEventListItem t));;
  sus ← gets uxSchedulerSuspended;
  (if sus =? 0 then
     onl (listREMOVE_ITEM (xStateListItem t));;
     prvAddTaskToReadyList t
   else onl (listINSERT_END xPendingReadyList (xEventListItem t)));;
  b ← rd_tcb t;
  c ← current;
  if uxPriority c <? uxPriority b then modify (set_xYieldPending true);; mret true
  else mret false.

Definition vTaskRemoveFromUnorderedEventList (pxEventListItem xItemValue : Z) : M K unit :=
  sus ← gets uxSchedulerSuspended;
  assert_ (negb (sus =? 0));;
  onl (listSET_LIST_ITEM_VALUE pxEventListItem (Z.lor xItemValue taskEVENT_LIST_ITEM_VALUE_IN_USE));;
  t ← onl (listGET_LIST_ITEM_OWNER pxEventListItem);
  assert_ (negb (t =? 0));;
  onl (listREMOVE_ITEM pxEventListItem);;
  onl (listREMOVE_ITEM (xStateListItem t));;
  prvAddTaskToReadyList t;;
  b ← rd_tcb t;
  c ← current;
  if uxPriority c <? uxPriority b then modify (set_xYieldPending true) else mret tt.

Definition uxTaskResetEventItemValue : M K Z :=
  t ← gets pxCurrentTCB;
  v ← onl (listGET_LIST_ITEM_VALUE (xEventListItem t));
  b ← rd_tcb t;
  onl (listSET_LIST_ITEM_VALUE (xEventListItem t) (u32 (configMAX_PRIORITIES - uxPriority b)));;
  mret v.

Definition vTaskMissedYield : M K unit := modify (set_xYieldPending true).

(** ** Queries *)

Definition uxTaskPriorityGet (xTask : Z) : M K Z :=
  t ← prvGetTCBFromHandle xTask; b ← rd_tcb t; mret (uxPriority b).
Definition uxTaskPriorityGetFromISR (xTask : Z) : M K Z :=
  t ← prvGetTCBFromHandle xTask; b ← rd_tcb t; mret (uxPriority b).
Definition xTaskGetTickCount : M K Z := gets xTickCount.
Definition xTaskGetTickCountFromISR : M K Z := gets xTickCount.
Definition uxTaskGetNumberOfTasks : M K Z := gets uxCurrentNumberOfTasks.
Definition xTaskGetCurrentTaskHandle : M K Z := gets pxCurrentTCB.
Definition taskSCHEDULER_SUSPENDED : Z := 0.
Definition taskSCHEDULER_NOT_STARTED : Z := 1.
Definition taskSCHEDULER_RUNNING : Z := 2.
Definition xTaskGetSchedulerState : M K Z :=
  run ← gets xSchedulerRunning;
  if negb run then mret taskSCHEDULER_NOT_STARTED
  else sus ← gets uxSchedulerSuspended;
       mret (if sus =? 0 then taskSCHEDULER_RUNNING else taskSCHEDULER_SUSPENDED).

Definition eTaskGetState (xTask : Z) : M K eTaskState :=
  assert_ (negb (xTask =? 0));;
  c ← gets pxCurrentTCB;
  if xTask =? c then mret eRunning
  else
    st ← onl (listLIST_ITEM_CONTAINER (xStateListItem xTask));
    del ← gets pxDelayedTaskList;
    ovf ← gets pxOverflowDelayedTaskList;
    if (st =? del) || (st =? ovf) then mret eBlocked
    else if st =? xSuspendedTaskList then
      ev ← onl (listLIST_ITEM_CONTAINER (xEventListItem xTask));
      if ev =? 0 then
        b ← rd_tcb xTask;
        mret (if ucNotifyState b =? taskWAITING_NOTIFICATION then eBlocked else eSuspended)
      else mret eBlocked
    else if (st =? xTasksWaitingTermination) || (st =? 0) then mret eDeleted
    else mret eReady.

(** ** Priorities *)

(** Set the value of the event item to the priority, unless it is in use. *)
Definition set_event_priority (t p : Z) : M K unit :=
  v ← onl (listGET_LIST_ITEM_VALUE (xEventListItem t));
  if Z.land v taskEVENT_LIST_ITEM_VALUE_IN_USE =? 0
  then onl (listSET_LIST_ITEM_VALUE (xEventListItem t) (u32 (configMAX_PRIORITIES - p)))
  else mret tt.

Definition vTaskPrioritySet (xTask uxNewPriority : Z) : M K unit :=
  assert_ (uxNewPriority <? configMAX_PRIORITIES);;
  t ← prvGetTCBFromHandle xTask;
  b ← rd_tcb t;
  if uxBasePriority b =? uxNewPriority then mret tt
  else
    cur ← gets pxCurrentTCB;
    c ← current;
    let xYieldRequired :=
      if uxBasePriority b <? uxNewPriority
      then negb (t =? cur) && (uxPriority c <=? uxNewPriority)
      else t =? cur in
    let uxPriorityUsedOnEntry := uxPriority b in
    (if uxBasePriority b =? uxPriority b then wr_tcb t (set_uxPriority uxNewPriority) else mret tt);;
    wr_tcb t (set_uxBasePriority uxNewPriority);;
    set_event_priority t uxNewPriority;;
    r ← onl (listIS_CONTAINED_WITHIN (pxReadyTasksLists uxPriorityUsedOnEntry) (xStateListItem t));
    (if r : bool
     then onl (uxListRemove (xStateListItem t));; prvAddTaskToReadyList t
     else mret tt);;
    if xYieldRequired then portYIELD else mret tt.

Definition pvTaskIncrementMutexHeldCount : M K Z :=
  c ← gets pxCurrentTCB;
  (if c =? 0 then mret tt else wr_tcb c (fun b => set_uxMutexesHeld (u32 (uxMutexesHeld b + 1)) b));;
  mret c.

Definition xTaskPriorityInherit (pxMutexHolder : Z) : M K bool :=
  if pxMutexHolder =? 0 then mret false
  else
    h ← rd_tcb pxMutexHolder;
    c ← current;
    if uxPriority h <? uxPriority c then
      set_event_priority pxMutexHolder (uxPriority c);;
      r ← onl (listIS_CONTAINED_WITHIN (pxReadyTasksLists (uxPriority h)) (xStateListItem pxMutexHolder));
      (if r : bool then
         onl (uxListRemove (xStateListItem pxMutexHolder));;
         wr_tcb pxMutexHolder (set_uxPriority (uxPriority c));;
         prvAddTaskToReadyList pxMutexHolder
       else wr_tcb pxMutexHolder (set_uxPriority (uxPriority c)));;
      mret true
    else mret (uxBasePriority h <? uxPriority c).

Definition xTaskPriorityDisinherit (pxMutexHolder : Z) : M K bool :=
  if pxMutexHolder =? 0 then mret false
  else
    cur ← gets pxCurrentTCB;
    assert_ (pxMutexHolder =? cur);;
    b ← rd_tcb pxMutexHolder;
    assert_ (negb (uxMutexesHeld b =? 0));;
    wr_tcb pxMutexHolder (set_uxMutexesHeld (uxMutexesHeld b - 1));;
    if negb (uxPriority b =? uxBasePriority b) && (uxMutexesHeld b - 1 =? 0) then
      onl (uxListRemove (xStateListItem pxMutexHolder));;
      wr_tcb pxMutexHolder (set_uxPriority (uxBasePriority b));;
      onl (listSET_LIST_ITEM_VALUE (xEventListItem pxMutexHolder) (u32 (configMAX_PRIORITIES - uxBasePriority b)));;
      prvAddTaskToReadyList pxMutexHolder;;
      mret true
    else mret false.

Definition vTaskPriorityDisinheritAfterTimeout (pxMutexHolder uxHighestPriorityWaitingTask : Z) : M K unit :=
  if pxMutexHolder =? 0 then mret tt
  else
    b ← rd_tcb pxMutexHolder;
    assert_ (negb (uxMutexesHeld b =? 0));;
    let uxPriorityToUse := if uxBasePriority b <? uxHighestPriorityWaitingTask
                           then uxHighestPriorityWaitingTask else uxBasePriority b in
    if negb (uxPriority b =? uxPriorityToUse) && (uxMutexesHeld b =? 1) then
      cur ← gets pxCurrentTCB;
      assert_ (negb (pxMutexHolder =? cur));;
      wr_tcb pxMutexHolder (set_uxPriority uxPriorityToUse);;
      set_event_priority pxMutexHolder uxPriorityToUse;;
      r ← onl (listIS_CONTAINED_WITHIN (pxReadyTasksLists (uxPriority b)) (xStateListItem pxMutexHolder));
      if r : bool
      then onl (uxListRemove (xStateListItem pxMutexHolder));; prvAddTaskToReadyList pxMutexHolder
      else mret tt
    else mret tt.

(** ** Suspending and resuming tasks *)

(** The first critical section of [vTaskSuspend]. *)
Definition suspend_section (xTaskToSuspend : Z) : M K Z :=
  t ← prvGetTCBFromHandle xTaskToSuspend;
  onl (uxListRemove (xStateListItem t));;
  remove_event t;;
  onl (vListInsertEnd xSuspendedTaskList (xStateListItem t));;
  b ← rd_tcb t;
  (if ucNotifyState b =? taskWAITING_NOTIFICATION
   then wr_tcb t (set_ucNotifyState taskNOT_WAITING_NOTIFICATION) else mret tt);;
  mret t.

(** The rest of it, after the second one. *)
Definition suspend_finish (t : Z) : M K unit :=
  cur ← gets pxCurrentTCB;
  if negb (t =? cur) then mret tt
  else
    run ← gets xSchedulerRunning;
    if run : bool then
      sus ← gets uxSchedulerSuspended;
      assert_ (sus =? 0);;
      portYIELD
    else
      n ← onl (listCURRENT_LIST_LENGTH xSuspendedTaskList);
      all ← gets uxCurrentNumberOfTasks;
      if n =? all then modify (set_pxCurrentTCB 0) else vTaskSwitchContext.

Definition vTaskSuspend (xTaskToSuspend : Z) : M K unit :=
  t ← suspend_section xTaskToSuspend;
  run ← gets xSchedulerRunning;
  (if run : bool then prvResetNextTaskUnblockTime else mret tt);;
  suspend_finish t.

Definition prvTaskIsTaskSuspended (xTask : Z) : M K bool :=
  assert_ (negb (xTask =? 0));;
  s ← onl (listIS_CONTAINED_WITHIN xSuspendedTaskList (xStateListItem xTask));
  if negb s then mret false
  else
    p ← onl (listIS_CONTAINED_WITHIN xPendingReadyList (xEventListItem xTask));
    if p : bool then mret false
    else onl (listIS_CONTAINED_WITHIN 0 (xEventListItem xTask)).

Definition vTaskResume (xTaskToResume : Z) : M K unit :=
  assert_ (negb (xTaskToResume =? 0));;
  cur ← gets pxCurrentTCB;
  if xTaskToResume =? cur then mret tt
  else
    s ← prvTaskIsTaskSuspended xTaskToResume;
    if negb s then mret tt
    else
      onl (uxListRemove (xStateListItem xTaskToResume));;
      prvAddTaskToReadyList xTaskToResume;;
      b ← rd_tcb xTaskToResume;
      c ← current;
      if uxPriority c <=? uxPriority b then portYIELD else mret tt.

Definition xTaskResumeFromISR (xTaskToResume : Z) : M K bool :=
  assert_ (negb (xTaskToResume =? 0));;
  s ← prvTaskIsTaskSuspended xTaskToResume;
  if negb s then mret false
  else
    sus ← gets uxSchedulerSuspended;
    if sus =? 0 then
      b ← rd_tcb xTaskToResume;
      c ← current;
      let xYieldRequired := uxPriority c <=? uxPriority b in
      (if xYieldRequired then modify (set_xYieldPending true) else mret tt);;
      onl (uxListRemove (xStateListItem xTaskToResume));;
      prvAddTaskToReadyList xTaskToResume;;
      mret xYieldRequired
    else
      onl (vListInsertEnd xPendingReadyList (xEventListItem xTaskToResume));;
      mret false.

(** What [xTaskAbortDelay] does while the scheduler is suspended. *)
Definition abort_section (xTask : Z) : M K bool :=
  st ← eTaskGetState xTask;
  if bool_decide (st = eBlocked) then
    onl (uxListRemove (xStateListItem xTask));;
    ev ← onl (listLIST_ITEM_CONTAINER (xEventListItem xTask));
    (if ev =? 0 then mret tt
     else onl (uxListRemove (xEventListItem xTask));; wr_tcb xTask (set_ucDelayAborted true));;
    prvAddTaskToReadyList xTask;;
    b ← rd_tcb xTask;
    c ← current;
    (if uxPriority c <? uxPriority b then modify (set_xYieldPending true) else mret tt);;
    mret true
  else mret false.

Definition xTaskAbortDelay (isrs : M K unit) (xTask : Z) : M K bool :=
  assert_ (negb (xTask =? 0));;
  vTaskSuspendAll;;
  r ← abort_section xTask;
  isrs;;
  xTaskResumeAll;;
  mret r.
End Tasks.
