(* ===== verification/TasksInv.v ===== *)
(** The scheduler's invariant: which list the items of every task are on, the
    order and the times of the delayed lists, the highest ready priority.  The
    primitive moves of a task between lists keep it. *)
From S2P Require Import Prelude FList Klist Tasks.

(** The static lists are different objects. *)
Class StaticsOk `{Statics} : Prop := {
  statics_apart : NoDup [xDelayedTaskList1; xDelayedTaskList2; xPendingReadyList; xTasksWaitingTermination;
                         xSuspendedTaskList];
  statics_ready p : 0 <= p < configMAX_PRIORITIES ->
    ~ (pxReadyTasksLists p ∈ [xDelayedTaskList1; xDelayedTaskList2; xPendingReadyList; xTasksWaitingTermination;
                            xSuspendedTaskList])
}.

Section Inv.
Context {A : Type} `{HS : StaticsOk}.
Abbreviation K := (kernel A).
Implicit Types (k : K) (V : view) (t : Z).

Definition kernel_list (l : Z) : Prop :=
  (exists p, 0 <= p < configMAX_PRIORITIES /\ l = pxReadyTasksLists p) \/
  l ∈ [xDelayedTaskList1; xDelayedTaskList2; xPendingReadyList; xTasksWaitingTermination; xSuspendedTaskList].

Lemma kernel_ready p : 0 <= p < configMAX_PRIORITIES -> kernel_list (pxReadyTasksLists p).
Proof. intros Hp. left. eauto. Qed.
Lemma kernel_delayed1 : kernel_list xDelayedTaskList1.
Proof. right. set_solver. Qed.
Lemma kernel_delayed2 : kernel_list xDelayedTaskList2.
Proof. right. set_solver. Qed.
Lemma kernel_pending : kernel_list xPendingReadyList.
Proof. right. set_solver. Qed.
Lemma kernel_termination : kernel_list xTasksWaitingTermination.
Proof. right. set_solver. Qed.
Lemma kernel_suspended : kernel_list xSuspendedTaskList.
Proof. right. set_solver. Qed.
Hint Resolve kernel_ready kernel_delayed1 kernel_delayed2 kernel_pending kernel_termination kernel_suspended : core.

(** Where the state item of a task of priority [p] can be, and its event item;
    [E] are the event lists of queues and event groups. *)
Definition state_place (p l : Z) : Prop :=
  l = pxReadyTasksLists p \/ l = 0 \/ l = xDelayedTaskList1 \/ l = xDelayedTaskList2 \/
  l = xSuspendedTaskList \/ l = xTasksWaitingTermination.
Definition event_place (E : gset Z) (l : Z) : Prop := l = 0 \/ l = xPendingReadyList \/ l ∈ E.

Record tcb_ok (b : TCB) : Prop := {
  ok_priority : 0 <= uxPriority b < configMAX_PRIORITIES;
  ok_base : 0 <= uxBasePriority b < configMAX_PRIORITIES;
  ok_held : is_u32 (uxMutexesHeld b)
}.

Record sched (E : gset Z) (k : K) (V : view) : Prop := {
  sc_shows : shows (kls k) V;
  sc_lists l : l ∈ vlists V <-> kernel_list l \/ l ∈ E;
  sc_events l : l ∈ E -> ~ kernel_list l;
  sc_items i : i ∈ vitems V <-> exists t, is_Some (tcbs k !! t) /\ (i = xStateListItem t \/ i = xEventListItem t);
  sc_owner t : is_Some (tcbs k !! t) -> owner V (xStateListItem t) = t /\ owner V (xEventListItem t) = t;
  sc_null : tcbs k !! 0 = None;
  sc_delays : pxDelayedTaskList k = xDelayedTaskList1 /\ pxOverflowDelayedTaskList k = xDelayedTaskList2 \/
              pxDelayedTaskList k = xDelayedTaskList2 /\ pxOverflowDelayedTaskList k = xDelayedTaskList1;
  sc_tcb t b : tcbs k !! t = Some b -> tcb_ok b;
  sc_state t b : tcbs k !! t = Some b -> state_place (uxPriority b) (cont V (xStateListItem t));
  sc_event t : is_Some (tcbs k !! t) -> event_place E (cont V (xEventListItem t));
  sc_top : 0 <= uxTopReadyPriority k < configMAX_PRIORITIES;
  sc_ready p : 0 <= p < configMAX_PRIORITIES -> elems V (pxReadyTasksLists p) <> [] -> p <= uxTopReadyPriority k;
  sc_sorted l : l = xDelayedTaskList1 \/ l = xDelayedTaskList2 ->
    ordered (fun x => Some (value V x)) (elems V l);
  sc_due x : x ∈ elems V (pxDelayedTaskList k) -> xNextTaskUnblockTime k <= value V x;
  sc_tick : is_u32 (xTickCount k);
  sc_unblock : is_u32 (xNextTaskUnblockTime k)
}.

(** ** Lists and items of the kernel *)

Lemma ready_inj p q : pxReadyTasksLists p = pxReadyTasksLists q -> p = q.
Proof. unfold pxReadyTasksLists. lia. Qed.

Section Facts.
Context (E : gset Z) (k : K) (V : view) (HI : sched E k V).

Lemma kl_ready p : 0 <= p < configMAX_PRIORITIES -> pxReadyTasksLists p ∈ vlists V.
Proof. intros Hp. apply (sc_lists _ _ _ HI). left. left. eauto. Qed.
Lemma kl_static l : l ∈ [xDelayedTaskList1; xDelayedTaskList2; xPendingReadyList; xTasksWaitingTermination;
                         xSuspendedTaskList] -> l ∈ vlists V.
Proof. intros Hl. apply (sc_lists _ _ _ HI). left. by right. Qed.
Lemma kl_event l : l ∈ E -> l ∈ vlists V.
Proof. intros Hl. apply (sc_lists _ _ _ HI). by right. Qed.
Lemma kl_delayed : pxDelayedTaskList k ∈ vlists V /\ pxOverflowDelayedTaskList k ∈ vlists V.
Proof. destruct (sc_delays _ _ _ HI) as [[-> ->]|[-> ->]]; split; apply kl_static; set_solver. Qed.
Lemma it_state t b : tcbs k !! t = Some b -> xStateListItem t ∈ vitems V.
Proof. intros Ht. apply (sc_items _ _ _ HI). exists t. eauto. Qed.
Lemma it_event t b : tcbs k !! t = Some b -> xEventListItem t ∈ vitems V.
Proof. intros Ht. apply (sc_items _ _ _ HI). exists t. eauto. Qed.
Lemma own_state t b : tcbs k !! t = Some b -> owner V (xStateListItem t) = t.
Proof. intros Ht. apply (sc_owner _ _ _ HI t). eauto. Qed.
Lemma own_event t b : tcbs k !! t = Some b -> owner V (xEventListItem t) = t.
Proof. intros Ht. apply (sc_owner _ _ _ HI t). eauto. Qed.
Lemma state_event t u : is_Some (tcbs k !! t) -> is_Some (tcbs k !! u) -> xStateListItem t <> xEventListItem u.
Proof.
  intros [b Ht] [c Hu] Eq. pose proof (own_state t b Ht) as Et. rewrite Eq, (own_event u c Hu) in Et. subst u.
  unfold xStateListItem, xEventListItem in Eq. lia.
Qed.

(** What is on a list. *)
Lemma on_state_list l x : l ∈ vlists V -> x ∈ elems V l -> kernel_list l -> l <> xPendingReadyList ->
  exists t b, x = xStateListItem t /\ tcbs k !! t = Some b /\ cont V x = l.
Proof.
  intros Hl Hx Hk Hp. pose proof (sh_in _ _ (sc_shows _ _ _ HI) l x Hl Hx) as Hi.
  pose proof (sh_where _ _ (sc_shows _ _ _ HI) l x Hl Hx) as Hc.
  apply (sc_items _ _ _ HI) in Hi as (t & [b Ht] & [->| ->]); [eauto 6|].
  destruct (sc_event _ _ _ HI t ltac:(eauto)) as [E0|[E0|E0]].
  - exfalso. apply (sh_null _ _ (sc_shows _ _ _ HI)). congruence.
  - congruence.
  - exfalso. apply (sc_events _ _ _ HI l); congruence.
Qed.
Lemma on_event_list l x : l ∈ vlists V -> x ∈ elems V l -> l = xPendingReadyList \/ l ∈ E ->
  exists t b, x = xEventListItem t /\ tcbs k !! t = Some b /\ cont V x = l.
Proof.
  intros Hl Hx Hk. pose proof (sh_in _ _ (sc_shows _ _ _ HI) l x Hl Hx) as Hi.
  pose proof (sh_where _ _ (sc_shows _ _ _ HI) l x Hl Hx) as Hc.
  assert (H0 : l <> 0) by (intros ->; by apply (sh_null _ _ (sc_shows _ _ _ HI))).
  apply (sc_items _ _ _ HI) in Hi as (t & [b Ht] & [->| ->]); [|eauto 6]. exfalso.
  pose proof statics_apart as Hn. pose proof (sc_state _ _ _ HI t b Ht) as Hs. rewrite Hc in Hs.
  pose proof (sc_tcb _ _ _ HI t b Ht) as [Hp _ _].
  assert (Hkl : kernel_list l -> l = xPendingReadyList) by (destruct Hk as [->|Hk]; [done|intros Hkl; exfalso; by apply (sc_events _ _ _ HI l)]).
  destruct Hs as [->|[->|Hs]]; [|done|].
  - pose proof (statics_ready _ Hp) as Hr. apply Hr. rewrite Hkl; [set_solver|]. left. eauto.
  - assert (Hl' : kernel_list l) by (right; destruct Hs as [->|[->|[->| ->]]]; set_solver).
    rewrite (Hkl Hl') in Hs. rewrite !NoDup_cons, !not_elem_of_cons in Hn. intuition congruence.
Qed.
End Facts.

(** ** What keeps the invariant *)

Lemma sched_ext E k k' V : sched E k V ->
  kls k' = kls k -> tcbs k' = tcbs k -> pxDelayedTaskList k' = pxDelayedTaskList k ->
  pxOverflowDelayedTaskList k' = pxOverflowDelayedTaskList k -> uxTopReadyPriority k' = uxTopReadyPriority k ->
  xTickCount k' = xTickCount k -> xNextTaskUnblockTime k' = xNextTaskUnblockTime k -> sched E k' V.
Proof.
  intros [I1 I2 I3 I4 I5 I6 I7 I8 I9 I10 I11 I12 I13 I14 I15 I16] E1 E2 E3 E4 E5 E6 E7.
  split; rewrite ?E1, ?E2, ?E3, ?E4, ?E5, ?E6, ?E7; done.
Qed.

Lemma sched_kls E k V s' V' : sched E k V -> shows s' V' ->
  vlists V' = vlists V -> vitems V' = vitems V -> (forall i, owner V' i = owner V i) ->
  (forall t b, tcbs k !! t = Some b ->
     state_place (uxPriority b) (cont V' (xStateListItem t)) /\ event_place E (cont V' (xEventListItem t))) ->
  (forall p, 0 <= p < configMAX_PRIORITIES -> elems V' (pxReadyTasksLists p) <> [] -> p <= uxTopReadyPriority k) ->
  (forall l, l = xDelayedTaskList1 \/ l = xDelayedTaskList2 -> ordered (fun x => Some (value V' x)) (elems V' l)) ->
  (forall x, x ∈ elems V' (pxDelayedTaskList k) -> xNextTaskUnblockTime k <= value V' x) ->
  sched E (set_kls s' k) V'.
Proof.
  intros [I1 I2 I3 I4 I5 I6 I7 I8 I9 I10 I11 I12 I13 I14 I15 I16] HV El Ei Eo Ht Hp Hs Hd.
  split; cbn; rewrite ?El, ?Ei; try done.
  - intros t Hx. rewrite !Eo. by apply I5.
  - intros t b Hb. by apply Ht.
  - intros t [b Hb]. by apply (Ht t b).
Qed.

Lemma sched_tcb E k V t b b' : sched E k V -> tcbs k !! t = Some b -> tcb_ok b' ->
  (uxPriority b' = uxPriority b \/ cont V (xStateListItem t) <> pxReadyTasksLists (uxPriority b)) ->
  sched E (set_tcbs (<[t := b']> (tcbs k)) k) V.
Proof.
  intros HI Hb Hok Hp. destruct HI as [I1 I2 I3 I4 I5 I6 I7 I8 I9 I10 I11 I12 I13 I14 I15 I16].
  assert (Hd : forall x, is_Some (<[t := b']> (tcbs k) !! x) <-> is_Some (tcbs k !! x)).
  { intros x. destruct (decide (x = t)) as [->|N]; [by rewrite lookup_insert_eq, Hb|by rewrite lookup_insert_ne]. }
  split; cbn; try done.
  - intros i. rewrite I4. by setoid_rewrite Hd.
  - intros x. rewrite Hd. apply I5.
  - rewrite lookup_insert_ne; [done|]. intros ->. congruence.
  - intros x c. destruct (decide (x = t)) as [->|N]; [rewrite lookup_insert_eq; intros [= <-]; done|].
    rewrite lookup_insert_ne by done. apply I8.
  - intros x c. destruct (decide (x = t)) as [->|N].
    + rewrite lookup_insert_eq. intros [= <-]. destruct (I9 t b Hb) as [Hr|Ho]; [|by right].
      destruct Hp as [->|Hp]; [by left|done].
    + rewrite lookup_insert_ne by done. apply I9.
  - intros x. rewrite Hd. apply I10.
Qed.

(** Removing an item from its list. *)
Lemma cont_remove V i x : cont (v_remove i V) x = 0 \/ cont (v_remove i V) x = cont V x.
Proof. cbn. destruct (upd_case (cont V) i 0 x) as [[_ ->]|[_ ->]]; auto. Qed.
Lemma elems_remove V i l x : x ∈ elems (v_remove i V) l -> x ∈ elems V l.
Proof.
  cbn. destruct (upd_case (elems V) (cont V i) (without i (elems V (cont V i))) l) as [[-> ->]|[_ ->]]; [|done].
  rewrite without_in. tauto.
Qed.

Lemma sched_remove E k V i s' : sched E k V -> shows s' (v_remove i V) -> sched E (set_kls s' k) (v_remove i V).
Proof.
  intros HI HV. apply (sched_kls E k V); [done|done|done|done|done| | | |].
  - intros t b Hb. split.
    + destruct (cont_remove V i (xStateListItem t)) as [-> | ->]; [right; by left|by apply (sc_state _ _ _ HI)].
    + destruct (cont_remove V i (xEventListItem t)) as [-> | ->]; [by left|apply (sc_event _ _ _ HI); eauto].
  - intros p Hp Hne. apply (sc_ready _ _ _ HI); [done|]. intros E0. apply Hne.
    destruct (elems (v_remove i V) (pxReadyTasksLists p)) as [|x r] eqn:Er; [done|].
    assert (x ∈ elems V (pxReadyTasksLists p)) as Hx by (apply (elems_remove V i); rewrite Er; left).
    rewrite E0 in Hx. inversion Hx.
  - intros l Hl. pose proof (sc_sorted _ _ _ HI l Hl) as Ho. cbn.
    destruct (upd_case (elems V) (cont V i) (without i (elems V (cont V i))) l) as [[-> ->]|[_ ->]]; [|done].
    by apply ordered_without.
  - intros x Hx. apply elems_remove in Hx. by apply (sc_due _ _ _ HI).
Qed.

Lemma onl_ok {X} (m : M lstate X) k (Q : X -> K -> Prop) :
  wp m (kls k) (fun x s' => Q x (set_kls s' k)) -> wp (onl m) k Q.
Proof. apply wp_zoom. Qed.

(** A list operation that leaves the store alone. *)
Lemma onl_read {X} (m : M lstate X) k (Q : X -> K -> Prop) :
  wp m (kls k) (fun x s' => s' = kls k /\ Q x k) -> wp (onl m) k Q.
Proof.
  intros Hm. apply onl_ok. eapply wp_mono; [exact Hm|]. intros x s' [-> HQ]. by destruct k.
Qed.

Lemma remove_ok E k V i (Q : unit -> K -> Prop) : sched E k V -> i ∈ vitems V -> cont V i <> 0 ->
  (forall s', sched E (set_kls s' k) (v_remove i V) -> Q tt (set_kls s' k)) -> wp (onl (listREMOVE_ITEM i)) k Q.
Proof.
  intros HI Hi Hc HQ. apply onl_ok. eapply wp_mono; [apply (listREMOVE_ok _ V); [apply (sc_shows _ _ _ HI)|done|done]|].
  intros [] s' HV. apply HQ. by apply sched_remove.
Qed.
Lemma ux_remove_ok E k V i (Q : Z -> K -> Prop) : sched E k V -> i ∈ vitems V -> cont V i <> 0 ->
  (forall n s', sched E (set_kls s' k) (v_remove i V) -> Q n (set_kls s' k)) -> wp (onl (uxListRemove i)) k Q.
Proof.
  intros HI Hi Hc HQ. apply onl_ok. eapply wp_mono; [apply (uxListRemove_ok _ V); [apply (sc_shows _ _ _ HI)|done|done]|].
  intros n s' [HV _]. apply HQ. by apply sched_remove.
Qed.

Lemma rd_tcb_ok k t b (Q : TCB -> K -> Prop) : tcbs k !! t = Some b -> Q b k -> wp (rd_tcb t) k Q.
Proof. intros Hb HQ. apply wp_bind, wp_get. by eapply wp_of_option. Qed.
Lemma wr_tcb_ok k t b f (Q : unit -> K -> Prop) : tcbs k !! t = Some b ->
  Q tt (set_tcbs (<[t := f b]> (tcbs k)) k) -> wp (wr_tcb t f) k Q.
Proof. intros Hb HQ. apply wp_bind. eapply rd_tcb_ok; [done|]. by apply wp_modify. Qed.
Lemma current_ok k b (Q : TCB -> K -> Prop) : tcbs k !! pxCurrentTCB k = Some b -> Q b k -> wp current k Q.
Proof. intros Hb HQ. apply wp_bind, wp_gets. by eapply rd_tcb_ok. Qed.

(** ** Putting an item on a list *)

Lemma sched_put E k V l i xs s' : sched E k V -> shows s' (v_put l i xs V) ->
  (forall t b, tcbs k !! t = Some b -> i = xStateListItem t -> state_place (uxPriority b) l) ->
  (forall t, is_Some (tcbs k !! t) -> i = xEventListItem t -> event_place E l) ->
  (forall p, 0 <= p < configMAX_PRIORITIES -> l = pxReadyTasksLists p -> p <= uxTopReadyPriority k) ->
  (l = xDelayedTaskList1 \/ l = xDelayedTaskList2 ->
     ordered (fun x => Some (value V x)) xs /\
     (l = pxDelayedTaskList k -> forall x, x ∈ xs -> xNextTaskUnblockTime k <= value V x)) ->
  sched E (set_kls s' k) (v_put l i xs V).
Proof.
  intros HI HV Hst Hev Hr Hd. apply (sched_kls E k V); [done|done|done|done|done| | | |].
  - intros t b Hb. cbn. split.
    + destruct (upd_case (cont V) i l (xStateListItem t)) as [[<- ->]|[_ ->]]; [by eapply Hst|by apply (sc_state _ _ _ HI)].
    + destruct (upd_case (cont V) i l (xEventListItem t)) as [[<- ->]|[_ ->]]; [eapply Hev; eauto|apply (sc_event _ _ _ HI); eauto].
  - intros p Hp. cbn. destruct (upd_case (elems V) l xs (pxReadyTasksLists p)) as [[<- _]|[_ ->]].
    + intros _. by apply Hr.
    + by apply (sc_ready _ _ _ HI).
  - intros m Hm. cbn. destruct (upd_case (elems V) l xs m) as [[-> ->]|[_ ->]]; [by apply Hd|by apply (sc_sorted _ _ _ HI)].
  - cbn. intros x. destruct (upd_case (elems V) l xs (pxDelayedTaskList k)) as [[El ->]|[_ ->]]; [|by apply (sc_due _ _ _ HI)].
    apply Hd; [|done]. rewrite <- El. destruct (sc_delays _ _ _ HI) as [[-> _]|[-> _]]; auto.
Qed.

Lemma sched_top E k V p : sched E k V -> uxTopReadyPriority k <= p < configMAX_PRIORITIES ->
  sched E (set_uxTopReadyPriority p k) V.
Proof.
  intros [I1 I2 I3 I4 I5 I6 I7 I8 I9 I10 I11 I12 I13 I14 I15 I16] Hp.
  split; cbn; try done; [lia|]. intros q Hq Hne. pose proof (I12 q Hq Hne). lia.
Qed.

Lemma place_ready p : 0 <= p < configMAX_PRIORITIES ->
  ~ (pxReadyTasksLists p = xDelayedTaskList1 \/ pxReadyTasksLists p = xDelayedTaskList2).
Proof. intros Hp Hr. apply (statics_ready p Hp). destruct Hr as [-> | ->]; set_solver. Qed.

(** The ready task [t]: its control block in the highest-priority bookkeeping
    and its state item before the cursor of its list. *)
Definition readied (t p : Z) (s' : lstate) (k : K) : K :=
  set_kls s' (set_uxTopReadyPriority (Z.max (uxTopReadyPriority k) p) k).

Lemma set_top_same k : set_uxTopReadyPriority (uxTopReadyPriority k) k = k.
Proof. by destruct k. Qed.

Lemma record_ok k p (Q : unit -> K -> Prop) :
  Q tt (set_uxTopReadyPriority (Z.max (uxTopReadyPriority k) p) k) -> wp (taskRECORD_READY_PRIORITY p) k Q.
Proof.
  intros HQ. apply wp_bind, wp_gets. destruct (Z.ltb_spec (uxTopReadyPriority k) p).
  - apply wp_modify. by rewrite Z.max_r in HQ by lia.
  - apply wp_ret. by rewrite Z.max_l, set_top_same in HQ by lia.
Qed.

Lemma add_ready_ok E k V t b (Q : unit -> K -> Prop) : sched E k V -> tcbs k !! t = Some b ->
  cont V (xStateListItem t) = 0 ->
  (forall s', sched E (readied t (uxPriority b) s' k) (v_insert_end (pxReadyTasksLists (uxPriority b)) (xStateListItem t) V) ->
     Q tt (readied t (uxPriority b) s' k)) ->
  wp (prvAddTaskToReadyList t) k Q.
Proof.
  intros HI Hb Hc HQ. pose proof (ok_priority _ (sc_tcb _ _ _ HI t b Hb)) as Hp.
  apply wp_bind. eapply rd_tcb_ok; [done|]. apply wp_bind, record_ok.
  set (k1 := set_uxTopReadyPriority _ k).
  assert (HI1 : sched E k1 V).
  { apply sched_top; [done|]. pose proof (sc_top _ _ _ HI). lia. }
  rewrite listINSERT_END_eq. apply onl_ok. eapply wp_mono.
  { apply (vListInsertEnd_ok _ V); [apply (sc_shows _ _ _ HI)|by apply (kl_ready E k)|by eapply it_state|done]. }
  intros [] s' HV. apply HQ. apply (sched_put E k1); [done|done| | | |].
  - intros u c Hu Eq. unfold xStateListItem in Eq. replace u with t in Hu by lia. left.
    change (tcbs k !! t = Some c) in Hu. by simplify_eq.
  - intros u Hu Eq. exfalso. eapply (state_event E k); [done| | |exact Eq]; [eauto|done].
  - intros q Hq Eq. apply ready_inj in Eq. subst q. cbn. lia.
  - intros Hl. exfalso. by eapply place_ready.
Qed.

(** The lists of a suspended, a deleted and a pending task. *)
Lemma put_end_ok E k V l i (Q : unit -> K -> Prop) : sched E k V -> l ∈ vlists V -> i ∈ vitems V -> cont V i = 0 ->
  ~ (l = xDelayedTaskList1 \/ l = xDelayedTaskList2) -> (forall p, 0 <= p < configMAX_PRIORITIES -> l <> pxReadyTasksLists p) ->
  (forall t b, tcbs k !! t = Some b -> i = xStateListItem t -> state_place (uxPriority b) l) ->
  (forall t, is_Some (tcbs k !! t) -> i = xEventListItem t -> event_place E l) ->
  (forall s', sched E (set_kls s' k) (v_insert_end l i V) -> Q tt (set_kls s' k)) ->
  wp (onl (vListInsertEnd l i)) k Q.
Proof.
  intros HI Hl Hi Hc Hd Hr Hst Hev HQ. apply onl_ok. eapply wp_mono.
  { apply (vListInsertEnd_ok _ V); [apply (sc_shows _ _ _ HI)|done|done|done]. }
  intros [] s' HV. apply HQ. apply sched_put; [done|done|done|done| |done].
  intros p Hp E0. by destruct (Hr p).
Qed.

(** Values of items that are on no delayed list can change. *)
Lemma sched_value E k V i w s' : sched E k V -> shows s' (v_set_value i w V) ->
  (cont V i <> xDelayedTaskList1 /\ cont V i <> xDelayedTaskList2) ->
  sched E (set_kls s' k) (v_set_value i w V).
Proof.
  intros HI HV [N1 N2]. apply (sched_kls E k V); [done|done|done|done|done| | | |].
  - intros t b Hb. split; [by apply (sc_state _ _ _ HI)|apply (sc_event _ _ _ HI); eauto].
  - apply (sc_ready _ _ _ HI).
  - intros l Hl. cbn. pose proof (sc_sorted _ _ _ HI l Hl) as Ho.
    assert (Hin : l ∈ vlists V) by (apply (kl_static E k V HI); destruct Hl as [-> | ->]; set_solver).
    assert (Hi : ~ (i ∈ elems V l)).
    { intros Hx. pose proof (sh_where _ _ (sc_shows _ _ _ HI) l i Hin Hx). destruct Hl; congruence. }
    unfold ordered in *. clear -Ho Hi. induction Ho as [|x r Hr IH Hx]; [constructor|].
    apply not_elem_of_cons in Hi as [Nx Hi]. constructor; [by apply IH|]. apply Forall_forall. intros y Hy v1 v2.
    rewrite (upd_miss _ _ _ x) by (by apply not_eq_sym). rewrite upd_miss by (by intros ->).
    by apply (proj1 (Forall_forall _ _) Hx).
  - cbn. intros x Hx. assert (Hl := kl_delayed E k V HI). rewrite upd_miss; [by apply (sc_due _ _ _ HI)|].
    intros ->. pose proof (sh_where _ _ (sc_shows _ _ _ HI) _ i (proj1 Hl) Hx).
    destruct (sc_delays _ _ _ HI) as [[? _]|[? _]]; congruence.
Qed.

Lemma event_not_delayed E k V t : sched E k V -> is_Some (tcbs k !! t) ->
  cont V (xEventListItem t) <> xDelayedTaskList1 /\ cont V (xEventListItem t) <> xDelayedTaskList2 /\
  cont V (xEventListItem t) <> xSuspendedTaskList /\ cont V (xEventListItem t) <> xTasksWaitingTermination /\
  (forall p, 0 <= p < configMAX_PRIORITIES -> cont V (xEventListItem t) <> pxReadyTasksLists p).
Proof.
  intros HI Ht. pose proof statics_apart as Hn. rewrite !NoDup_cons, !not_elem_of_cons in Hn.
  assert (Hnull : forall l, kernel_list l -> l <> 0).
  { intros l Hl ->. apply (sh_null _ _ (sc_shows _ _ _ HI)). apply (sc_lists _ _ _ HI). by left. }
  destruct (sc_event _ _ _ HI t Ht) as [E0|[E0|E0]]; rewrite ?E0.
  - repeat split; [| | | |intros p Hp]; apply not_eq_sym, Hnull; auto.
  - repeat split; [intuition congruence..|]. intros p Hp E1. apply (statics_ready p Hp). rewrite <- E1.
    right. right. left.
  - repeat split; [| | | |intros p Hp]; intros E1; apply (sc_events _ _ _ HI _ E0); rewrite E1; auto.
Qed.

Lemma set_event_value_ok E k V t b w (Q : unit -> K -> Prop) : sched E k V -> tcbs k !! t = Some b -> is_u32 w ->
  (forall s', sched E (set_kls s' k) (v_set_value (xEventListItem t) w V) -> Q tt (set_kls s' k)) ->
  wp (onl (listSET_LIST_ITEM_VALUE (xEventListItem t) w)) k Q.
Proof.
  intros HI Hb Hw HQ. apply onl_ok. eapply wp_mono.
  { apply (set_value_ok _ V); [apply (sc_shows _ _ _ HI)|by eapply it_event|done]. }
  intros [] s' HV. apply HQ. apply sched_value; [done|done|].
  destruct (event_not_delayed E k V t) as (? & ? & _); [done|eauto|done].
Qed.

(** An event item on the event list of a queue, in order or at the end. *)
Lemma put_event_ok E k V l t b s' xs : sched E k V -> l = xPendingReadyList \/ l ∈ E -> tcbs k !! t = Some b ->
  shows s' (v_put l (xEventListItem t) xs V) ->
  sched E (set_kls s' k) (v_put l (xEventListItem t) xs V).
Proof.
  intros HI Hl Hb HV. pose proof statics_apart as Hn. rewrite !NoDup_cons, !not_elem_of_cons in Hn.
  apply sched_put; [done|done| | | |].
  - intros u c Hu Eq. exfalso. eapply (state_event E k V HI u t); eauto.
  - intros u Hu Eq. destruct Hl as [-> | Hl]; [right; by left|right; by right].
  - intros p Hp Eq. exfalso. destruct Hl as [-> | Hl].
    + apply (statics_ready p Hp). rewrite <- Eq. set_solver.
    + apply (sc_events _ _ _ HI l Hl). left. eauto.
  - intros Hd. exfalso. destruct Hl as [-> | Hl]; [intuition congruence|].
    apply (sc_events _ _ _ HI l Hl). destruct Hd as [-> | ->]; auto.
Qed.

Lemma insert_event_sched E k V l t b (Q : unit -> K -> Prop) : sched E k V -> l ∈ E -> tcbs k !! t = Some b ->
  cont V (xEventListItem t) = 0 ->
  (forall s', sched E (set_kls s' k) (v_insert l (xEventListItem t) V) -> Q tt (set_kls s' k)) ->
  wp (onl (insert_ordered l (xEventListItem t))) k Q.
Proof.
  intros HI Hl Hb Hc HQ. apply onl_ok. eapply wp_mono.
  { apply (insert_ordered_ok _ V); [apply (sc_shows _ _ _ HI)|by apply (kl_event E k)|by eapply it_event|done]. }
  intros [] s' HV. apply HQ. eapply put_event_ok; eauto.
Qed.
Lemma append_event_ok E k V l t b (Q : unit -> K -> Prop) : sched E k V -> l = xPendingReadyList \/ l ∈ E ->
  tcbs k !! t = Some b -> cont V (xEventListItem t) = 0 ->
  (forall s', sched E (set_kls s' k) (v_insert_end l (xEventListItem t) V) -> Q tt (set_kls s' k)) ->
  wp (onl (vListInsertEnd l (xEventListItem t))) k Q.
Proof.
  intros HI Hl Hb Hc HQ. apply onl_ok. eapply wp_mono.
  { apply (vListInsertEnd_ok _ V); [apply (sc_shows _ _ _ HI)| |by eapply it_event|done].
    destruct Hl as [-> | Hl]; [apply (kl_static E k V HI); set_solver|by apply (kl_event E k)]. }
  intros [] s' HV. apply HQ. eapply put_event_ok; eauto.
Qed.

Lemma set_unblock_sched E k V v : sched E k V -> is_u32 v ->
  (forall x, x ∈ elems V (pxDelayedTaskList k) -> v <= value V x) -> sched E (set_xNextTaskUnblockTime v k) V.
Proof. intros [I1 I2 I3 I4 I5 I6 I7 I8 I9 I10 I11 I12 I13 I14 I15 I16] Hv Hx. by split. Qed.

(** A state item on a delayed list, with the time to wake as its value. *)
Lemma place_ordered_in V i v xs : value V i = v ->
  ordered (fun x => Some (value V x)) xs -> ordered (fun x => Some (value V x)) (place (fun x => Some (value V x)) i v xs).
Proof. intros Hv Ho. apply place_ordered; [by rewrite Hv|eauto|done]. Qed.

(** Inserting before [xNextTaskUnblockTime] is adapted: the state is in order
    for every bound [u] that also covers the new item. *)
Lemma delay_ok E k V l t b w (Q : unit -> K -> Prop) : sched E k V -> tcbs k !! t = Some b ->
  cont V (xStateListItem t) = 0 -> is_u32 w -> l = xDelayedTaskList1 \/ l = xDelayedTaskList2 ->
  (forall s1, (forall Q2 : unit -> K -> Prop,
      (forall s2, (forall u, is_u32 u -> u <= xNextTaskUnblockTime k -> (l = pxDelayedTaskList k -> u <= w) ->
         sched E (set_xNextTaskUnblockTime u (set_kls s2 k)) (v_insert l (xStateListItem t) (v_set_value (xStateListItem t) w V))) ->
         Q2 tt (set_kls s2 k)) ->
      wp (onl (insert_ordered l (xStateListItem t))) (set_kls s1 k) Q2) -> Q tt (set_kls s1 k)) ->
  wp (onl (listSET_LIST_ITEM_VALUE (xStateListItem t) w)) k Q.
Proof.
  intros HI Hb Hc Hw Hl HQ.
  assert (Hin : l ∈ vlists V) by (apply (kl_static E k V HI); destruct Hl as [-> | ->]; set_solver).
  assert (Hi : xStateListItem t ∈ vitems V) by (by eapply it_state).
  apply onl_ok. eapply wp_mono; [apply (set_value_ok _ V); [apply (sc_shows _ _ _ HI)|done|done]|].
  intros [] s1 HV1. cbv beta. set (V1 := v_set_value (xStateListItem t) w V) in *. apply HQ. intros Q2 HQ2.
  assert (H0 : forall x, x ∈ [xDelayedTaskList1; xDelayedTaskList2] -> cont V (xStateListItem t) <> x).
  { intros x Hx. rewrite Hc. intros <-. apply (sh_null _ _ (sc_shows _ _ _ HI)). apply (kl_static E k V HI). set_solver. }
  apply onl_ok. eapply wp_mono; [apply (insert_ordered_ok _ V1); [exact HV1|done|done|done]|].
  intros [] s2 HV2. apply HQ2. intros u Hu Hle Hdue.
  assert (HI1 : sched E (set_xNextTaskUnblockTime u (set_kls s1 k)) V1).
  { apply set_unblock_sched; [apply sched_value; [done|done|split; apply H0; set_solver]|done|].
    cbn. intros x Hx. transitivity (xNextTaskUnblockTime k); [done|]. rewrite upd_miss; [by apply (sc_due _ _ _ HI)|].
    intros ->. pose proof (sh_where _ _ (sc_shows _ _ _ HI) _ _ (proj1 (kl_delayed E k V HI)) Hx) as Hx'.
    destruct (sc_delays _ _ _ HI) as [[E1 _]|[E1 _]]; rewrite E1 in Hx'; (eapply H0; [|exact Hx']; set_solver). }
  assert (HI2 : sched E (set_kls s2 (set_xNextTaskUnblockTime u (set_kls s1 k))) (v_insert l (xStateListItem t) V1)); [|done].
  apply sched_put; [done|done| | | |].
  - intros x c Hx Eq. right. right. destruct Hl; auto.
  - intros x Hx Eq. exfalso. eapply (state_event E k V HI t x); eauto.
  - intros p Hp Eq. exfalso. apply (place_ready p Hp). by rewrite <- Eq.
  - intros _. split.
    + apply place_ordered_in; [done|]. apply (sc_sorted _ _ _ HI1). done.
    + intros Ed x Hx. cbn in Ed |- *. rewrite place_perm in Hx. apply elem_of_cons in Hx as [->|Hx].
      * rewrite upd_hit. auto.
      * apply (sc_due _ _ _ HI1). by rewrite Ed in Hx.
Qed.

(** ** The whole invariant

    [D] are the deleted tasks whose memory is not free yet, [X] the tasks on
    the termination list. *)

Record settled (D X : gset Z) (k : K) (V : view) : Prop := {
  se_dead t : t ∈ D \/ t ∈ X -> is_Some (tcbs k !! t);
  se_alive t : is_Some (tcbs k !! t) -> cont V (xStateListItem t) = 0 <-> t ∈ D;
  se_event t : is_Some (tcbs k !! t) -> cont V (xEventListItem t) <> 0 -> ~ (t ∈ D) /\ ~ (t ∈ X);
  se_term t : is_Some (tcbs k !! t) -> cont V (xStateListItem t) = xTasksWaitingTermination <-> t ∈ X;
  se_current : is_Some (tcbs k !! pxCurrentTCB k) /\ ~ (pxCurrentTCB k ∈ D);
  se_idle : exists b, tcbs k !! xIdleTaskHandle k = Some b /\
              cont V (xStateListItem (xIdleTaskHandle k)) = pxReadyTasksLists (uxPriority b);
  se_count : uxCurrentNumberOfTasks k = Z.of_nat (size (tcbs k)) - Z.of_nat (size D);
  se_deleted : uxDeletedTasksWaitingCleanUp k = Z.of_nat (size X);
  se_running : xSchedulerRunning k = true;
  se_suspended : is_u32 (uxSchedulerSuspended k);
  se_pended : is_u32 (xPendedTicks k)
}.

(** A task on the delayed list wakes at [lo] or later, one on the overflow list
    after the next overflow of the tick count. *)
Definition wakes_later (lo : Z) (k : K) (V : view) (t : Z) : Prop :=
  (cont V (xStateListItem t) = pxDelayedTaskList k -> lo <= value V (xStateListItem t)) /\
  (cont V (xStateListItem t) = pxOverflowDelayedTaskList k -> value V (xStateListItem t) < xTickCount k).
Definition timed (lo : Z) (k : K) (V : view) : Prop := forall t, is_Some (tcbs k !! t) -> wakes_later lo k V t.

(** No ready task has a higher priority than the current one. *)
Definition leads (k : K) (V : view) : Prop := forall t b c,
  tcbs k !! t = Some b -> cont V (xStateListItem t) = pxReadyTasksLists (uxPriority b) ->
  tcbs k !! pxCurrentTCB k = Some c -> uxPriority b <= uxPriority c.
Definition switching (k : K) : Prop := swi_pending k = true \/ xYieldPending k = true.

(** A good state up to tasks that are due from [lo] on, and up to a switch that
    the caller will ask for ([sw]). *)
Record good_at (lo : Z) (sw : bool) (E D X : gset Z) (k : K) (V : view) : Prop := {
  gd_sched : sched E k V;
  gd_settled : settled D X k V;
  gd_timed : timed lo k V;
  gd_preempt : sw = true \/ switching k \/ leads k V
}.

(** While the scheduler runs nothing is held back for it. *)
Definition resumed (k : K) (V : view) : Prop := uxSchedulerSuspended k = 0 ->
  xPendedTicks k = 0 /\ forall t, is_Some (tcbs k !! t) -> cont V (xEventListItem t) <> xPendingReadyList.

Record good (E D X : gset Z) (k : K) (V : view) : Prop := {
  gd_at : good_at (xTickCount k + 1) false E D X k V;
  gd_resumed : resumed k V
}.

(** ** Steps that concern one task *)

Record task_move (t : Z) (k k' : K) (V V' : view) : Prop := {
  tm_dom u : is_Some (tcbs k' !! u) <-> is_Some (tcbs k !! u);
  tm_size : size (tcbs k') = size (tcbs k);
  tm_tcb u : u <> t -> tcbs k' !! u = tcbs k !! u;
  tm_state u : u <> t -> is_Some (tcbs k !! u) ->
    cont V' (xStateListItem u) = cont V (xStateListItem u) /\ value V' (xStateListItem u) = value V (xStateListItem u);
  tm_event u : u <> t -> is_Some (tcbs k !! u) -> cont V' (xEventListItem u) = cont V (xEventListItem u);
  tm_control : pxCurrentTCB k' = pxCurrentTCB k /\ xIdleTaskHandle k' = xIdleTaskHandle k /\
    uxCurrentNumberOfTasks k' = uxCurrentNumberOfTasks k /\
    uxDeletedTasksWaitingCleanUp k' = uxDeletedTasksWaitingCleanUp k /\
    xSchedulerRunning k' = xSchedulerRunning k /\ uxSchedulerSuspended k' = uxSchedulerSuspended k /\
    xPendedTicks k' = xPendedTicks k;
  tm_time : xTickCount k' = xTickCount k /\ pxDelayedTaskList k' = pxDelayedTaskList k /\
    pxOverflowDelayedTaskList k' = pxOverflowDelayedTaskList k /\ xNumOfOverflows k' = xNumOfOverflows k;
  tm_heap : kheap k' = kheap k
}.

Lemma task_move_trans t k1 k2 k3 V1 V2 V3 :
  task_move t k1 k2 V1 V2 -> task_move t k2 k3 V2 V3 -> task_move t k1 k3 V1 V3.
Proof.
  intros [A1 A2 A3 A4 A5 A6 A7 A8] [B1 B2 B3 B4 B5 B6 B7 B8]. split.
  - intros u. by rewrite B1.
  - congruence.
  - intros u N. by rewrite B3, A3.
  - intros u N Hu. destruct (A4 u N Hu) as [<- <-]. apply B4; [done|by apply A1].
  - intros u N Hu. rewrite <- (A5 u N Hu). apply B5; [done|by apply A1].
  - intuition congruence.
  - intuition congruence.
  - congruence.
Qed.

Section Moves.
Context (E : gset Z) (t : Z) (k : K) (V : view) (HI : sched E k V) (b : TCB) (Hb : tcbs k !! t = Some b).

Lemma state_ne u : u <> t -> xStateListItem u <> xStateListItem t.
Proof. unfold xStateListItem. lia. Qed.
Lemma event_ne u : u <> t -> xEventListItem u <> xEventListItem t.
Proof. unfold xEventListItem. lia. Qed.
Lemma own_items u : is_Some (tcbs k !! u) ->
  xStateListItem u <> xEventListItem t /\ xEventListItem u <> xStateListItem t.
Proof.
  intros Hu. split; [|apply not_eq_sym]; apply (state_event E k V); eauto.
Qed.

(** Changes of the two items of [t]. *)
Lemma move_view s V' i : i = xStateListItem t \/ i = xEventListItem t ->
  (forall x, x <> i -> cont V' x = cont V x /\ value V' x = value V x) ->
  task_move t k (set_kls s k) V V'.
Proof.
  intros Hi Hx. split; try done.
  - intros u N Hu. apply Hx. destruct (own_items u Hu), Hi as [-> | ->]; [by apply state_ne|done].
  - intros u N Hu. apply Hx. destruct (own_items u Hu), Hi as [-> | ->]; [done|by apply event_ne].
Qed.
Lemma move_remove i s : i = xStateListItem t \/ i = xEventListItem t -> task_move t k (set_kls s k) V (v_remove i V).
Proof. intros Hi. apply (move_view _ _ i Hi). intros x N. cbn. by rewrite upd_miss. Qed.
Lemma move_put l i xs s : i = xStateListItem t \/ i = xEventListItem t -> task_move t k (set_kls s k) V (v_put l i xs V).
Proof. intros Hi. apply (move_view _ _ i Hi). intros x N. cbn. by rewrite upd_miss. Qed.
Lemma move_value i w s : i = xStateListItem t \/ i = xEventListItem t -> task_move t k (set_kls s k) V (v_set_value i w V).
Proof. intros Hi. apply (move_view _ _ i Hi). intros x N. cbn. by rewrite upd_miss. Qed.
Lemma move_wr b' : task_move t k (set_tcbs (<[t := b']> (tcbs k)) k) V V.
Proof.
  split; cbn; try done.
  - intros u. destruct (decide (u = t)) as [->|N]; [by rewrite lookup_insert_eq, Hb|by rewrite lookup_insert_ne].
  - by rewrite map_size_insert, Hb.
  - intros u N. by rewrite lookup_insert_ne.
Qed.
End Moves.

Lemma good_move lo sw sw' E D X t k k' V V' : good_at lo sw E D X k V -> sched E k' V' -> task_move t k k' V V' ->
  is_Some (tcbs k !! t) -> ~ (t ∈ D) -> ~ (t ∈ X) -> cont V' (xStateListItem t) <> 0 ->
  cont V' (xStateListItem t) <> xTasksWaitingTermination ->
  (t = xIdleTaskHandle k -> exists b, tcbs k' !! t = Some b /\ cont V' (xStateListItem t) = pxReadyTasksLists (uxPriority b)) ->
  wakes_later lo k' V' t -> sw' = true \/ switching k' \/ leads k' V' -> good_at lo sw' E D X k' V'.
Proof.
  intros [G1 [S1 S2 S3 S4 S5 S6 S7 S8 S9 S10 S11] G3 G4] HI [T1 T2 T3 T4 T5 (C1 & C2 & C3 & C4 & C5 & C6 & C7) (C8 & C9 & C10 & C11) _]
    Ht HD HX H0 HT Hidle Hwake Hpre.
  split; [done| | |done].
  - split; rewrite ?C1, ?C2, ?C3, ?C4, ?C5, ?C6, ?C7, ?T2; try done.
    + intros u Hu. apply T1. by apply S1.
    + intros u Hu. apply T1 in Hu. destruct (decide (u = t)) as [->|N]; [tauto|]. destruct (T4 u N Hu) as [-> _]. by apply S2.
    + intros u Hu. apply T1 in Hu. destruct (decide (u = t)) as [->|N]; [done|]. rewrite (T5 u N Hu). by apply S3.
    + intros u Hu. apply T1 in Hu. destruct (decide (u = t)) as [->|N]; [tauto|]. destruct (T4 u N Hu) as [-> _]. by apply S4.
    + by rewrite T1.
    + destruct (decide (xIdleTaskHandle k = t)) as [Ei|N]; [subst t; by apply Hidle|].
      destruct S6 as (c & Hc & Hr). exists c. rewrite T3 by done. split; [done|].
      destruct (T4 _ N) as [-> _]; [eauto|done].
  - intros u Hu. apply T1 in Hu. destruct (decide (u = t)) as [->|N]; [done|].
    unfold wakes_later. destruct (T4 u N Hu) as [-> ->]. rewrite C8, C9, C10. by apply G3.
Qed.

Lemma resumed_move t k k' V V' : resumed k V -> task_move t k k' V V' ->
  (uxSchedulerSuspended k = 0 -> cont V' (xEventListItem t) <> xPendingReadyList) -> resumed k' V'.
Proof.
  intros HR [T1 T2 T3 T4 T5 (C1 & C2 & C3 & C4 & C5 & C6 & C7) _ _] Hp. unfold resumed. rewrite C6, C7. intros Hs.
  destruct (HR Hs) as [P1 P2]. split; [done|]. intros u Hu. apply T1 in Hu.
  destruct (decide (u = t)) as [->|N]; [by apply Hp|]. rewrite (T5 u N Hu). by apply P2.
Qed.

(** The moved task does not get in front of the current one. *)
Lemma lead_move t k k' V V' : leads k V -> task_move t k k' V V' ->
  (forall c c', tcbs k !! pxCurrentTCB k = Some c -> tcbs k' !! pxCurrentTCB k = Some c' -> uxPriority c <= uxPriority c') ->
  is_Some (tcbs k !! pxCurrentTCB k) ->
  (forall b c, tcbs k' !! t = Some b -> cont V' (xStateListItem t) = pxReadyTasksLists (uxPriority b) ->
     tcbs k' !! pxCurrentTCB k = Some c -> uxPriority b <= uxPriority c) ->
  leads k' V'.
Proof.
  intros HL [T1 T2 T3 T4 T5 (C1 & _) _ _] Hc [c0 Hc0] Ht u b c Hu Hr Hcur. rewrite C1 in Hcur.
  destruct (decide (u = t)) as [->|N]; [by eapply Ht|].
  destruct (T4 u N) as [E1 _]; [by apply T1; eauto|]. rewrite E1 in Hr. rewrite T3 in Hu by done.
  etransitivity; [by apply (HL u b c0)|by apply (Hc c0 c)].
Qed.
End Inv.
