(* ===== verification/TasksStep.v ===== *)
(** Moving one task: a [spot] says where the items of a task are after some
    moves that started in a good state, and what those moves left alone.  Each
    primitive of tasks.c takes a spot to a spot; a spot with the task on a
    proper list is a good state again. *)
From S2P Require Import Prelude FList Klist Tasks TasksInv.

Section Spots.
Context {A : Type} `{HS : StaticsOk} (E : gset Z).
Abbreviation K := (kernel A).
Implicit Types (k : K) (V : view) (b : TCB).

Record spot (t : Z) (k0 : K) (V0 : view) (k : K) (V : view) (b : TCB) (ps pe : Z) : Prop := {
  sp_sched : sched E k V;
  sp_move : task_move t k0 k V0 V;
  sp_tcb : tcbs k !! t = Some b;
  sp_state : cont V (xStateListItem t) = ps;
  sp_event : cont V (xEventListItem t) = pe;
  sp_value : value V (xStateListItem t) = value V0 (xStateListItem t);
  sp_flags : switching k0 -> switching k
}.

Lemma task_move_refl t k V : task_move t k k V V.
Proof. by split. Qed.

Lemma spot_start t k V b : sched E k V -> tcbs k !! t = Some b ->
  spot t k V k V b (cont V (xStateListItem t)) (cont V (xEventListItem t)).
Proof. by intros HI Hb. Qed.

(** Changes of the kernel's variables that no list depends on. *)
Lemma spot_ext t k0 V0 k k' V b ps pe : spot t k0 V0 k V b ps pe ->
  sched E k' V -> tcbs k' = tcbs k -> task_move t k k' V V -> (switching k -> switching k') ->
  spot t k0 V0 k' V b ps pe.
Proof.
  intros [S1 S2 S3 S4 S5 S6 S7] HI Et Hm Hf. split; try done.
  - by eapply task_move_trans.
  - by rewrite Et.
  - auto.
Qed.
Lemma spot_swi t k0 V0 k V b ps pe : spot t k0 V0 k V b ps pe -> spot t k0 V0 (set_swi_pending true k) V b ps pe.
Proof.
  intros HS'. eapply spot_ext; [exact HS'|eapply sched_ext; [apply HS'|done..]|done|by split|]. intros _. by left.
Qed.
Lemma spot_yield t k0 V0 k V b ps pe : spot t k0 V0 k V b ps pe -> spot t k0 V0 (set_xYieldPending true k) V b ps pe.
Proof.
  intros HS'. eapply spot_ext; [exact HS'|eapply sched_ext; [apply HS'|done..]|done|by split|]. intros _. by right.
Qed.

Section Prims.
Context (t : Z) (k0 : K) (V0 : view) (k : K) (V : view) (b : TCB) (ps pe : Z) (SP : spot t k0 V0 k V b ps pe).

Local Lemma spot_items : xStateListItem t ∈ vitems V /\ xEventListItem t ∈ vitems V.
Proof. split; [eapply it_state|eapply it_event]; apply SP. Qed.
Local Lemma items_differ : xStateListItem t <> xEventListItem t.
Proof. unfold xStateListItem, xEventListItem. lia. Qed.
Hint Resolve items_differ not_eq_sym : core.

Local Lemma spot_removed s i : i = xStateListItem t \/ i = xEventListItem t -> sched E (set_kls s k) (v_remove i V) ->
  spot t k0 V0 (set_kls s k) (v_remove i V) b (upd (cont V) i 0 (xStateListItem t)) (upd (cont V) i 0 (xEventListItem t)).
Proof.
  intros Hi HI. destruct SP as [S1 S2 S3 S4 S5 S6 S7]. split; try done.
  eapply task_move_trans; [exact S2|]. by eapply move_remove.
Qed.

Lemma spot_remove_state (Q : unit -> K -> Prop) : ps <> 0 ->
  (forall k' V', spot t k0 V0 k' V' b 0 pe -> Q tt k') -> wp (onl (listREMOVE_ITEM (xStateListItem t))) k Q.
Proof.
  intros Hp HQ. eapply remove_ok; [apply SP|apply spot_items|by rewrite (sp_state _ _ _ _ _ _ _ _ SP)|].
  intros s HI. pose proof (spot_removed s _ (or_introl eq_refl) HI) as HS'.
  rewrite upd_hit, upd_miss, (sp_event _ _ _ _ _ _ _ _ SP) in HS' by auto. eauto.
Qed.
Lemma spot_ux_remove_state (Q : Z -> K -> Prop) : ps <> 0 ->
  (forall n k' V', spot t k0 V0 k' V' b 0 pe -> Q n k') -> wp (onl (uxListRemove (xStateListItem t))) k Q.
Proof.
  intros Hp HQ. eapply ux_remove_ok; [apply SP|apply spot_items|by rewrite (sp_state _ _ _ _ _ _ _ _ SP)|].
  intros n s HI. pose proof (spot_removed s _ (or_introl eq_refl) HI) as HS'.
  rewrite upd_hit, upd_miss, (sp_event _ _ _ _ _ _ _ _ SP) in HS' by auto. eauto.
Qed.
Lemma spot_remove_event (Q : unit -> K -> Prop) : pe <> 0 ->
  (forall k' V', spot t k0 V0 k' V' b ps 0 -> Q tt k') -> wp (onl (listREMOVE_ITEM (xEventListItem t))) k Q.
Proof.
  intros Hp HQ. eapply remove_ok; [apply SP|apply spot_items|by rewrite (sp_event _ _ _ _ _ _ _ _ SP)|].
  intros s HI. pose proof (spot_removed s _ (or_intror eq_refl) HI) as HS'.
  rewrite upd_hit, upd_miss, (sp_state _ _ _ _ _ _ _ _ SP) in HS' by auto. eauto.
Qed.
Lemma spot_ux_remove_event (Q : Z -> K -> Prop) : pe <> 0 ->
  (forall n k' V', spot t k0 V0 k' V' b ps 0 -> Q n k') -> wp (onl (uxListRemove (xEventListItem t))) k Q.
Proof.
  intros Hp HQ. eapply ux_remove_ok; [apply SP|apply spot_items|by rewrite (sp_event _ _ _ _ _ _ _ _ SP)|].
  intros n s HI. pose proof (spot_removed s _ (or_intror eq_refl) HI) as HS'.
  rewrite upd_hit, upd_miss, (sp_state _ _ _ _ _ _ _ _ SP) in HS' by auto. eauto.
Qed.

Lemma spot_container_state (Q : Z -> K -> Prop) : Q ps k -> wp (onl (listLIST_ITEM_CONTAINER (xStateListItem t))) k Q.
Proof.
  intros HQ. apply onl_read, (container_ok _ V); [apply (sc_shows _ _ _ (sp_sched _ _ _ _ _ _ _ _ SP))|apply spot_items|].
  by rewrite (sp_state _ _ _ _ _ _ _ _ SP).
Qed.
Lemma spot_container_event (Q : Z -> K -> Prop) : Q pe k -> wp (onl (listLIST_ITEM_CONTAINER (xEventListItem t))) k Q.
Proof.
  intros HQ. apply onl_read, (container_ok _ V); [apply (sc_shows _ _ _ (sp_sched _ _ _ _ _ _ _ _ SP))|apply spot_items|].
  by rewrite (sp_event _ _ _ _ _ _ _ _ SP).
Qed.
Lemma spot_within_state l (Q : bool -> K -> Prop) : Q (ps =? l) k -> wp (onl (listIS_CONTAINED_WITHIN l (xStateListItem t))) k Q.
Proof.
  intros HQ. apply onl_read, (contained_ok _ V); [apply (sc_shows _ _ _ (sp_sched _ _ _ _ _ _ _ _ SP))|apply spot_items|].
  by rewrite (sp_state _ _ _ _ _ _ _ _ SP).
Qed.
Lemma spot_within_event l (Q : bool -> K -> Prop) : Q (pe =? l) k -> wp (onl (listIS_CONTAINED_WITHIN l (xEventListItem t))) k Q.
Proof.
  intros HQ. apply onl_read, (contained_ok _ V); [apply (sc_shows _ _ _ (sp_sched _ _ _ _ _ _ _ _ SP))|apply spot_items|].
  by rewrite (sp_event _ _ _ _ _ _ _ _ SP).
Qed.

Lemma spot_leave_event (Q : unit -> K -> Prop) :
  (forall k' V', spot t k0 V0 k' V' b ps 0 -> Q tt k') -> wp (remove_event t) k Q.
Proof.
  intros HQ. apply wp_bind, spot_container_event. destruct (Z.eqb_spec pe 0) as [E0|N].
  - apply wp_ret. apply (HQ k V). by rewrite <- E0.
  - by apply spot_remove_event.
Qed.

Lemma spot_add_ready (Q : unit -> K -> Prop) : ps = 0 ->
  (forall k' V', spot t k0 V0 k' V' b (pxReadyTasksLists (uxPriority b)) pe -> Q tt k') -> wp (prvAddTaskToReadyList t) k Q.
Proof.
  intros Hp HQ. pose proof SP as [S1 S2 S3 S4 S5 S6 S7].
  eapply add_ready_ok; [exact S1|exact S3|by rewrite S4|]. intros s HI.
  set (V' := v_insert_end _ _ V) in *. apply (HQ _ V'). split; [done| |done|cbn; by rewrite upd_hit| |done|done].
  - eapply task_move_trans; [exact S2|].
    assert (H1 : task_move t k (set_kls s k) V V') by (unfold V', v_insert_end; eapply (move_put E); [exact S1|exact S3|auto]).
    eapply task_move_trans; [exact H1|]. by split.
  - cbn. by rewrite upd_miss by auto.
Qed.

Lemma spot_wr f (Q : unit -> K -> Prop) : tcb_ok (f b) ->
  uxPriority (f b) = uxPriority b \/ ps <> pxReadyTasksLists (uxPriority b) ->
  (forall k' V', spot t k0 V0 k' V' (f b) ps pe -> Q tt k') -> wp (wr_tcb t f) k Q.
Proof.
  intros Hok Hp HQ. pose proof SP as [S1 S2 S3 S4 S5 S6 S7].
  eapply wr_tcb_ok; [exact S3|]. apply (HQ _ V). split; [| |cbn; by rewrite lookup_insert_eq|done|done|done|done].
  - eapply sched_tcb; [done|exact S3|done|]. by rewrite S4.
  - eapply task_move_trans; [exact S2|]. by eapply move_wr.
Qed.

Lemma spot_get_event (Q : Z -> K -> Prop) : Q (value V (xEventListItem t)) k ->
  wp (onl (listGET_LIST_ITEM_VALUE (xEventListItem t))) k Q.
Proof.
  intros HQ. apply onl_read, (get_value_ok _ V); [apply (sc_shows _ _ _ (sp_sched _ _ _ _ _ _ _ _ SP))|apply spot_items|done].
Qed.
Lemma spot_set_event w (Q : unit -> K -> Prop) : is_u32 w ->
  (forall k' V', spot t k0 V0 k' V' b ps pe -> Q tt k') -> wp (onl (listSET_LIST_ITEM_VALUE (xEventListItem t) w)) k Q.
Proof.
  intros Hw HQ. pose proof SP as [S1 S2 S3 S4 S5 S6 S7].
  eapply set_event_value_ok; [exact S1|exact S3|done|]. intros s HI. eapply HQ. split; [exact HI| |done|done|done| |done].
  - eapply task_move_trans; [exact S2|]. eapply (move_value E); [exact S1|exact S3|auto].
  - cbn. by rewrite upd_miss by auto.
Qed.
Lemma spot_event_priority p (Q : unit -> K -> Prop) :
  (forall k' V', spot t k0 V0 k' V' b ps pe -> Q tt k') -> wp (set_event_priority t p) k Q.
Proof.
  intros HQ. apply wp_bind, spot_get_event. destruct (_ =? 0).
  - apply spot_set_event; [apply u32_range|done].
  - apply wp_ret. by apply (HQ k V).
Qed.

Lemma spot_put_event l (Q : unit -> K -> Prop) : pe = 0 -> l = xPendingReadyList \/ l ∈ E ->
  (forall k' V', spot t k0 V0 k' V' b ps l -> Q tt k') -> wp (onl (vListInsertEnd l (xEventListItem t))) k Q.
Proof.
  intros Hp Hl HQ. pose proof SP as [S1 S2 S3 S4 S5 S6 S7].
  eapply append_event_ok; [exact S1|done|exact S3|by rewrite S5|]. intros s HI.
  eapply HQ. split; [exact HI| |done| |cbn; by rewrite upd_hit|done|done].
  - eapply task_move_trans; [exact S2|]. eapply (move_put E); [exact S1|exact S3|auto].
  - cbn. by rewrite upd_miss by auto.
Qed.
Lemma spot_insert_event l (Q : unit -> K -> Prop) : pe = 0 -> l ∈ E ->
  (forall k' V', spot t k0 V0 k' V' b ps l -> Q tt k') -> wp (onl (insert_ordered l (xEventListItem t))) k Q.
Proof.
  intros Hp Hl HQ. pose proof SP as [S1 S2 S3 S4 S5 S6 S7].
  eapply insert_event_sched; [exact S1|done|exact S3|by rewrite S5|]. intros s HI.
  eapply HQ. split; [exact HI| |done| |cbn; by rewrite upd_hit|done|done].
  - eapply task_move_trans; [exact S2|]. eapply (move_put E); [exact S1|exact S3|auto].
  - cbn. by rewrite upd_miss by auto.
Qed.

Lemma spot_put_state l (Q : unit -> K -> Prop) : ps = 0 -> l = xSuspendedTaskList \/ l = xTasksWaitingTermination ->
  (forall k' V', spot t k0 V0 k' V' b l pe -> Q tt k') -> wp (onl (vListInsertEnd l (xStateListItem t))) k Q.
Proof.
  intros Hp Hl HQ. pose proof SP as [S1 S2 S3 S4 S5 S6 S7]. pose proof statics_apart as Hn.
  rewrite !NoDup_cons, !not_elem_of_cons in Hn. eapply put_end_ok; [exact S1| |apply spot_items|by rewrite S4| | | | |].
  - apply (kl_static E k V S1). destruct Hl as [-> | ->]; set_solver.
  - destruct Hl as [-> | ->]; intuition congruence.
  - intros p Hp' Eq. apply (statics_ready p Hp'). rewrite <- Eq. destruct Hl as [-> | ->]; set_solver.
  - intros u c Hu _. destruct Hl as [-> | ->]; unfold state_place; auto 7.
  - intros u Hu Eq. exfalso. eapply (state_event E k V S1 t u); eauto.
  - intros s HI. eapply HQ. split; [exact HI| |done|cbn; by rewrite upd_hit| |done|done].
    + eapply task_move_trans; [exact S2|]. eapply (move_put E); [exact S1|exact S3|auto].
    + cbn. by rewrite upd_miss by auto.
Qed.
End Prims.

(** ** From a spot to a good state *)

Lemma ready_place k V p : sched E k V -> 0 <= p < configMAX_PRIORITIES ->
  pxReadyTasksLists p <> 0 /\ pxReadyTasksLists p <> xDelayedTaskList1 /\ pxReadyTasksLists p <> xDelayedTaskList2 /\
  pxReadyTasksLists p <> xTasksWaitingTermination /\ pxReadyTasksLists p <> xSuspendedTaskList.
Proof.
  intros HI Hp. pose proof (statics_ready p Hp) as Hn. rewrite !not_elem_of_cons in Hn.
  split; [|tauto]. intros E0. apply (sh_null _ _ (sc_shows _ _ _ HI)). rewrite <- E0. by apply (kl_ready E k V).
Qed.
Lemma suspended_place k V : sched E k V -> xSuspendedTaskList <> 0 /\ xSuspendedTaskList <> xDelayedTaskList1 /\
  xSuspendedTaskList <> xDelayedTaskList2 /\ xSuspendedTaskList <> xTasksWaitingTermination.
Proof.
  intros HI. pose proof statics_apart as Hn. rewrite !NoDup_cons, !not_elem_of_cons in Hn.
  split; [|intuition congruence]. intros E0. apply (sh_null _ _ (sc_shows _ _ _ HI)). rewrite <- E0.
  apply (kl_static E k V HI). set_solver.
Qed.

Lemma spot_leads t k0 V0 k V b ps pe : spot t k0 V0 k V b ps pe -> is_Some (tcbs k0 !! pxCurrentTCB k0) ->
  (t = pxCurrentTCB k0 -> forall b0, tcbs k0 !! t = Some b0 -> uxPriority b0 <= uxPriority b) ->
  (t <> pxCurrentTCB k0 -> ps = pxReadyTasksLists (uxPriority b) ->
     forall c, tcbs k0 !! pxCurrentTCB k0 = Some c -> uxPriority b <= uxPriority c) ->
  leads k0 V0 -> leads k V.
Proof.
  intros [S1 S2 S3 S4 S5 S6 S7] Hcur Hc Ht HL. eapply lead_move; [exact HL|exact S2| |done|].
  - intros c c' H1 H2. destruct (decide (t = pxCurrentTCB k0)) as [Et|N].
    + rewrite <- Et in H1, H2. rewrite S3 in H2. injection H2 as <-. by apply Hc.
    + rewrite (tm_tcb _ _ _ _ _ S2) in H2 by congruence. by simplify_eq.
  - intros b' c H1 Hr H2. rewrite S3 in H1. injection H1 as <-. rewrite S4 in Hr.
    destruct (decide (t = pxCurrentTCB k0)) as [Et|N].
    + rewrite <- Et, S3 in H2. injection H2 as <-. lia.
    + rewrite (tm_tcb _ _ _ _ _ S2) in H2 by congruence. by eapply Ht.
Qed.

Lemma good_spot lo sw sw' D X t k0 V0 k V b ps pe : good_at lo sw E D X k0 V0 -> spot t k0 V0 k V b ps pe ->
  ~ (t ∈ D) -> ~ (t ∈ X) -> ps <> 0 -> ps <> xTasksWaitingTermination ->
  (t = xIdleTaskHandle k0 -> ps = pxReadyTasksLists (uxPriority b)) ->
  ps = cont V0 (xStateListItem t) \/ ps <> xDelayedTaskList1 /\ ps <> xDelayedTaskList2 ->
  sw' = true \/ switching k \/ (sw = true -> sw' = true) /\ (leads k0 V0 -> leads k V) -> good_at lo sw' E D X k V.
Proof.
  intros G [S1 S2 S3 S4 S5 S6 S7] HD HX H0 HT Hidle Hwake Hpre.
  assert (Ht : is_Some (tcbs k0 !! t)) by (apply (tm_dom _ _ _ _ _ S2); eauto).
  eapply good_move; [exact G|exact S1|exact S2|done|done|done|by rewrite S4|by rewrite S4| | |].
  - intros Ei. exists b. split; [done|]. rewrite S4. auto.
  - unfold wakes_later. rewrite S4, S6. destruct (tm_time _ _ _ _ _ S2) as (-> & -> & -> & _).
    destruct Hwake as [->|[N1 N2]]; [by apply (gd_timed _ _ _ _ _ _ _ G)|].
    destruct (sc_delays _ _ _ (gd_sched _ _ _ _ _ _ _ G)) as [[-> ->]|[-> ->]]; by split.
  - destruct Hpre as [?|[?|[Hsw Hpre]]]; [by left|by right; left|].
    destruct (gd_preempt _ _ _ _ _ _ _ G) as [?|[?|?]]; [left|right; left|right; right]; auto.
Qed.

(** A task that has become ready: the caller has seen to it that a switch is
    under way if the task is to run before the current one. *)
Lemma good_ready lo sw sw' D X t k0 V0 k V b pe : good_at lo sw E D X k0 V0 ->
  spot t k0 V0 k V b (pxReadyTasksLists (uxPriority b)) pe -> ~ (t ∈ D) -> ~ (t ∈ X) ->
  sw' = true \/ switching k \/ (sw = true -> sw' = true) /\
    (t = pxCurrentTCB k0 -> forall b0, tcbs k0 !! t = Some b0 -> uxPriority b0 <= uxPriority b) /\
    (t <> pxCurrentTCB k0 -> forall c, tcbs k0 !! pxCurrentTCB k0 = Some c -> uxPriority b <= uxPriority c) ->
  good_at lo sw' E D X k V.
Proof.
  intros G SP HD HX Hpre. destruct (ready_place k V (uxPriority b)) as (P1 & P2 & P3 & P4 & P5).
  { apply SP. } { apply (sc_tcb _ _ _ (sp_sched _ _ _ _ _ _ _ _ SP) t b), SP. }
  eapply good_spot; [exact G|exact SP|done|done|done|done|done|by right|].
  destruct Hpre as [?|[?|(Hsw & P6 & P7)]]; [by left|by right; left|right; right]. split; [done|].
  eapply spot_leads; [exact SP|apply (se_current _ _ _ _ (gd_settled _ _ _ _ _ _ _ G))|done|auto].
Qed.

Lemma resumed_spot t k0 V0 k V b ps pe : resumed k0 V0 -> spot t k0 V0 k V b ps pe ->
  (uxSchedulerSuspended k0 = 0 -> pe <> xPendingReadyList) -> resumed k V.
Proof.
  intros HR SP Hp. eapply resumed_move; [exact HR|apply SP|]. by rewrite (sp_event _ _ _ _ _ _ _ _ SP).
Qed.

(** The task control block of the current task, wherever the moved task is. *)
Lemma spot_current t k0 V0 k V b ps pe c (Q : TCB -> K -> Prop) : spot t k0 V0 k V b ps pe ->
  tcbs k0 !! pxCurrentTCB k0 = Some c ->
  (forall c', tcbs k !! pxCurrentTCB k = Some c' -> (t <> pxCurrentTCB k0 -> c' = c) -> (t = pxCurrentTCB k0 -> c' = b) -> Q c' k) ->
  wp current k Q.
Proof.
  intros SP Hc HQ. pose proof SP as [S1 S2 S3 S4 S5 S6 S7]. destruct (tm_control _ _ _ _ _ S2) as (Ec & _).
  destruct (decide (t = pxCurrentTCB k0)) as [Et|N].
  - eapply current_ok; [rewrite Ec, <- Et; exact S3|]. apply HQ; [by rewrite Ec, <- Et|done|done].
  - assert (E1 : tcbs k !! pxCurrentTCB k = Some c) by (rewrite Ec, (tm_tcb _ _ _ _ _ S2) by congruence; done).
    eapply current_ok; [exact E1|]. by apply HQ.
Qed.
End Spots.
