(* ===== verification/TasksRun.v ===== *)
(** The operations of the scheduler keep its invariant, and what they do: the
    tick readies the tasks that are due, the switch selects the first task of
    highest priority, the scheduler resumes with what happened meanwhile. *)
From S2P Require Import Prelude FList Klist Tasks TasksInv TasksStep.

Section Run.
Context {A : Type} `{HS : StaticsOk} (E : gset Z).
Abbreviation K := (kernel A).
Implicit Types (k : K) (V : view) (b : TCB) (D X : gset Z).

(** ** The tick *)

Definition control_same (k k' : K) : Prop :=
  pxCurrentTCB k' = pxCurrentTCB k /\ xIdleTaskHandle k' = xIdleTaskHandle k /\
  uxSchedulerSuspended k' = uxSchedulerSuspended k /\ xPendedTicks k' = xPendedTicks k /\
  xTickCount k' = xTickCount k /\ pxDelayedTaskList k' = pxDelayedTaskList k /\
  pxOverflowDelayedTaskList k' = pxOverflowDelayedTaskList k /\ xNumOfOverflows k' = xNumOfOverflows k.

(** From [V] to [V'] the tasks of the delayed list that are due at [now] have
    become ready, off their event lists; the others are where they were. *)
Definition due (now : Z) (k : K) (V : view) (t : Z) : Prop :=
  cont V (xStateListItem t) = pxDelayedTaskList k /\ value V (xStateListItem t) <= now.
Record woke (now : Z) (k k' : K) (V V' : view) : Prop := {
  wk_tcbs : tcbs k' = tcbs k;
  wk_control : control_same k k';
  wk_flags : switching k -> switching k';
  wk_due t b : tcbs k !! t = Some b -> due now k V t ->
    cont V' (xStateListItem t) = pxReadyTasksLists (uxPriority b) /\ cont V' (xEventListItem t) = 0;
  wk_rest t : is_Some (tcbs k !! t) -> ~ due now k V t ->
    cont V' (xStateListItem t) = cont V (xStateListItem t) /\ cont V' (xEventListItem t) = cont V (xEventListItem t);
  wk_value t : is_Some (tcbs k !! t) -> value V' (xStateListItem t) = value V (xStateListItem t)
}.

(** The tasks on a state list. *)
Definition tasks_on (k : K) (V : view) (l : Z) : gset Z :=
  filter (fun t => cont V (xStateListItem t) = l) (dom (tcbs k)).
Lemma tasks_on_spec k V l t : t ∈ tasks_on k V l <-> is_Some (tcbs k !! t) /\ cont V (xStateListItem t) = l.
Proof. unfold tasks_on. rewrite elem_of_filter, elem_of_dom. tauto. Qed.

Lemma on_list_iff k V l t : sched E k V -> l ∈ vlists V -> is_Some (tcbs k !! t) ->
  xStateListItem t ∈ elems V l <-> cont V (xStateListItem t) = l.
Proof.
  intros HI Hl [b Hb]. rewrite (sh_on _ _ (sc_shows _ _ _ HI) l _ Hl). split; [tauto|]. intros Hc. split; [by eapply it_state|done].
Qed.

Lemma empty_list k V l : sched E k V -> l ∈ vlists V -> elems V l = [] -> forall t, is_Some (tcbs k !! t) -> cont V (xStateListItem t) <> l.
Proof. intros HI Hl He t Ht Hc. apply (on_list_iff k V l t HI Hl Ht) in Hc. rewrite He in Hc. inversion Hc. Qed.

Lemma ready_not_zero k V p : sched E k V -> 0 <= p < configMAX_PRIORITIES -> pxReadyTasksLists p <> 0.
Proof. intros HI Hp. by apply (ready_place E k V p). Qed.

Lemma delayed_places k V : sched E k V ->
  pxDelayedTaskList k <> 0 /\ pxDelayedTaskList k <> xTasksWaitingTermination /\
  pxDelayedTaskList k <> pxOverflowDelayedTaskList k /\
  (forall p, 0 <= p < configMAX_PRIORITIES -> pxReadyTasksLists p <> pxDelayedTaskList k) /\
  pxDelayedTaskList k <> xPendingReadyList /\ kernel_list (pxDelayedTaskList k).
Proof.
  intros HI. pose proof statics_apart as Hn. rewrite !NoDup_cons, !not_elem_of_cons in Hn.
  assert (Hnull : xDelayedTaskList1 <> 0 /\ xDelayedTaskList2 <> 0).
  { split; intros E0; apply (sh_null _ _ (sc_shows _ _ _ HI)); rewrite <- E0; apply (kl_static E k V HI); set_solver. }
  destruct (sc_delays _ _ _ HI) as [[-> ->]|[-> ->]];
    (repeat split; [apply Hnull|intuition congruence|intuition congruence| |intuition congruence|auto using kernel_delayed1, kernel_delayed2]);
    intros p Hp; apply (ready_place E k V p HI Hp).
Qed.

(** The first task of the delayed list. *)
Lemma delayed_head k V x r : sched E k V -> elems V (pxDelayedTaskList k) = x :: r ->
  exists t b, x = xStateListItem t /\ tcbs k !! t = Some b /\ cont V (xStateListItem t) = pxDelayedTaskList k /\
    owner V x = t /\ forall u, is_Some (tcbs k !! u) -> cont V (xStateListItem u) = pxDelayedTaskList k ->
      value V (xStateListItem t) <= value V (xStateListItem u).
Proof.
  intros HI Ex. destruct (delayed_places k V HI) as (D1 & D2 & D3 & D4 & D5 & D6).
  assert (Hl : pxDelayedTaskList k ∈ vlists V) by apply (kl_delayed E k V HI).
  destruct (on_state_list E k V HI _ x Hl) as (t & b & -> & Hb & Hc); [rewrite Ex; left|done|done|].
  exists t, b. do 3 (split; [done|]). split; [by eapply own_state|]. intros u Hu Hcu.
  apply (on_list_iff k V _ u HI Hl Hu) in Hcu. rewrite Ex in Hcu.
  assert (Ho : ordered (fun x => Some (value V x)) (elems V (pxDelayedTaskList k)))
    by (apply (sc_sorted _ _ _ HI); destruct (sc_delays _ _ _ HI) as [[-> _]|[-> _]]; auto).
  rewrite Ex in Ho. inversion_clear Ho as [|? ? _ Hx]. apply elem_of_cons in Hcu as [->|Hin]; [lia|].
  by apply (proj1 (Forall_forall _ _) Hx _ Hin).
Qed.

Lemma control_same_refl k : control_same k k.
Proof. by repeat split. Qed.

(** One woken task is one [woke] for a list with that task only. *)
Lemma spot_control t k0 V0 k V b ps pe : spot E t k0 V0 k V b ps pe -> control_same k0 k.
Proof.
  intros SP. destruct (tm_control _ _ _ _ _ (sp_move _ _ _ _ _ _ _ _ _ SP)) as (? & ? & ? & ? & ? & ? & ?).
  destruct (tm_time _ _ _ _ _ (sp_move _ _ _ _ _ _ _ _ _ SP)) as (? & ? & ? & ?). by repeat split.
Qed.
Lemma spot_tcbs t k0 V0 k V b ps pe : spot E t k0 V0 k V b ps pe -> tcbs k0 !! t = Some b -> tcbs k = tcbs k0.
Proof.
  intros SP Hb. apply map_eq. intros u. destruct (decide (u = t)) as [->|N]; [by rewrite Hb, (sp_tcb _ _ _ _ _ _ _ _ _ SP)|].
  by apply (tm_tcb _ _ _ _ _ (sp_move _ _ _ _ _ _ _ _ _ SP)).
Qed.

Lemma woke_done now k k' V : tcbs k' = tcbs k -> control_same k k' -> (switching k -> switching k') ->
  (forall t, is_Some (tcbs k !! t) -> ~ due now k V t) -> woke now k k' V V.
Proof. intros Ht Hc Hf Hn. split; try done. intros t b Hb Hd. exfalso. eapply Hn; eauto. Qed.

Lemma woke_step now t k k1 k2 V V1 V2 b : tcbs k !! t = Some b -> sched E k V -> due now k V t ->
  spot E t k V k1 V1 b (pxReadyTasksLists (uxPriority b)) 0 -> woke now k1 k2 V1 V2 -> woke now k k2 V V2.
Proof.
  intros Hb HI Hdue SP [W1 W2 W3 W4 W5 W6]. pose proof (spot_tcbs _ _ _ _ _ _ _ _ SP Hb) as Et.
  pose proof (spot_control _ _ _ _ _ _ _ _ SP) as Hc. pose proof (sp_move _ _ _ _ _ _ _ _ _ SP) as Hm.
  destruct (delayed_places k V HI) as (D1 & D2 & D3 & D4 & _).
  assert (Ed : pxDelayedTaskList k1 = pxDelayedTaskList k) by apply Hc.
  assert (Hnt : ~ due now k1 V1 t).
  { intros [Hl _]. rewrite (sp_state _ _ _ _ _ _ _ _ _ SP), Ed in Hl. apply (D4 (uxPriority b)); [|done].
    apply (sc_tcb _ _ _ HI t b Hb). }
  assert (Hdu : forall u, u <> t -> is_Some (tcbs k !! u) -> due now k1 V1 u <-> due now k V u).
  { intros u N Hu. unfold due. destruct (tm_state _ _ _ _ _ Hm u N Hu) as [-> ->]. by rewrite Ed. }
  split.
  - congruence.
  - unfold control_same in *. intuition congruence.
  - intros Hs. apply W3. by apply (sp_flags _ _ _ _ _ _ _ _ _ SP).
  - intros u c Hu Hd. destruct (decide (u = t)) as [->|N].
    + simplify_eq. destruct (W5 t) as [-> ->]; [rewrite Et; eauto|done|].
      by rewrite (sp_state _ _ _ _ _ _ _ _ _ SP), (sp_event _ _ _ _ _ _ _ _ _ SP).
    + apply W4; [by rewrite Et|]. apply Hdu; eauto.
  - intros u Hu Hd. destruct (decide (u = t)) as [->|N]; [done|].
    destruct (W5 u) as [-> ->]; [by rewrite Et|by rewrite Hdu|].
    split; [by apply (tm_state _ _ _ _ _ Hm)|by apply (tm_event _ _ _ _ _ Hm)].
  - intros u Hu. rewrite W6 by (by rewrite Et). destruct (decide (u = t)) as [->|N].
    + apply (sp_value _ _ _ _ _ _ _ _ _ SP).
    + by apply (tm_state _ _ _ _ _ Hm).
Qed.

(** The end of the loop: no task left is due. *)
Lemma unblock_done lo sw D X k V v : good_at lo sw E D X k V -> is_u32 v ->
  (forall t, is_Some (tcbs k !! t) -> cont V (xStateListItem t) = pxDelayedTaskList k -> v <= value V (xStateListItem t) /\ lo < value V (xStateListItem t)) ->
  good_at (lo + 1) sw E D X (set_xNextTaskUnblockTime v k) V /\ woke lo k (set_xNextTaskUnblockTime v k) V V.
Proof.
  intros [G1 G2 G3 G4] Hv Hlt. destruct (delayed_places k V G1) as (D1 & D2 & D3 & D4 & D5 & D6). split.
  - split; [|by destruct G2; split| |done].
    + apply set_unblock_sched; [done|done|]. intros x Hx.
      destruct (on_state_list E k V G1 _ x (proj1 (kl_delayed E k V G1)) Hx D6 D5) as (t & b & -> & Hb & Hc).
      apply Hlt; [eauto|done].
    + intros t Ht. split; [|by apply G3]. intros Hc. pose proof (proj2 (Hlt t Ht Hc)). lia.
  - apply woke_done; [done|by repeat split|done|]. intros t Ht [Hc Hle]. pose proof (proj2 (Hlt t Ht Hc)). lia.
Qed.

Lemma tasks_on_move t k0 V0 k V b ps pe l : spot E t k0 V0 k V b ps pe -> cont V0 (xStateListItem t) = l -> ps <> l ->
  (size (tasks_on k V l) < size (tasks_on k0 V0 l))%nat.
Proof.
  intros SP Hl Hps. pose proof (sp_move _ _ _ _ _ _ _ _ _ SP) as Hm. apply subset_size. split.
  - intros u. rewrite !tasks_on_spec, (tm_dom _ _ _ _ _ Hm). intros [Hu Hc].
    destruct (decide (u = t)) as [->|N]; [by rewrite (sp_state _ _ _ _ _ _ _ _ _ SP) in Hc|].
    by rewrite (proj1 (tm_state _ _ _ _ _ Hm u N Hu)) in Hc.
  - intros Hs. assert (Ht : t ∈ tasks_on k V l).
    { apply Hs, tasks_on_spec. split; [|done]. apply (tm_dom _ _ _ _ _ Hm). rewrite (sp_tcb _ _ _ _ _ _ _ _ _ SP). eauto. }
    apply tasks_on_spec in Ht as [_ Hc]. by rewrite (sp_state _ _ _ _ _ _ _ _ _ SP) in Hc.
Qed.

Lemma unblock_due_ok f : forall lo sw D X k V, good_at lo sw E D X k V -> xTickCount k = lo -> is_u32 lo ->
  (size (tasks_on k V (pxDelayedTaskList k)) < f)%nat ->
  wp (unblock_due f lo sw) k (fun r k' => exists V', good_at (lo + 1) r E D X k' V' /\ woke lo k k' V V' /\ (sw = true -> r = true)).
Proof.
  induction f as [|f IH]; intros lo sw D X k V G Etick Hlo Hf; [lia|]. pose proof (gd_sched _ _ _ _ _ _ _ G) as HI.
  destruct (delayed_places k V HI) as (D1 & D2 & D3 & D4 & D5 & D6).
  assert (Hl : pxDelayedTaskList k ∈ vlists V) by apply (kl_delayed E k V HI).
  cbn [unblock_due]. apply wp_bind, wp_gets, wp_bind, onl_read, (is_empty_ok _ V (sc_shows _ _ _ HI)); [done|]. split; [done|].
  destruct (bool_decide_reflect (elems V (pxDelayedTaskList k) = [])) as [Ee|Ne].
  { apply wp_bind, wp_modify, wp_ret. exists V.
    edestruct (unblock_done lo sw D X k V portMAX_DELAY) as [HG HW]; [done|by_decision| |by auto].
    intros t Ht Hc. exfalso. eapply empty_list; [exact HI|exact Hl|exact Ee|exact Ht|exact Hc]. }
  destruct (elems V (pxDelayedTaskList k)) as [|x r] eqn:Ex; [done|].
  destruct (delayed_head k V x r HI Ex) as (t & b & -> & Hb & Hc & Ho & Hmin).
  apply wp_bind, onl_read. eapply (head_owner_ok _ V (sc_shows _ _ _ HI)); [exact Hl|exact Ex|]. split; [done|]. rewrite Ho.
  apply wp_bind, onl_read. apply (get_value_ok _ V (sc_shows _ _ _ HI)); [by eapply it_state|]. split; [done|].
  destruct (Z.ltb_spec lo (value V (xStateListItem t))) as [Hlt|Hge].
  { apply wp_bind, wp_modify, wp_ret. exists V.
    edestruct (unblock_done lo sw D X k V (value V (xStateListItem t))) as [HG HW]; [done| | |by auto].
    - apply (sh_val _ _ (sc_shows _ _ _ HI)). by eapply it_state.
    - intros u Hu Hcu. pose proof (Hmin u Hu Hcu). lia. }
  pose proof (spot_start E t k V b HI Hb) as S0. rewrite Hc in S0.
  pose proof (gd_settled _ _ _ _ _ _ _ G) as HSe.
  assert (HD : ~ (t ∈ D)) by (intros Hd; apply (se_alive _ _ _ _ HSe) in Hd; [congruence|eauto]).
  assert (HX : ~ (t ∈ X)) by (intros Hd; apply (se_term _ _ _ _ HSe) in Hd; [congruence|eauto]).
  apply wp_bind. eapply spot_remove_state; [exact S0|done|]. intros k1 V1 S1.
  apply wp_bind. eapply spot_leave_event; [exact S1|]. intros k2 V2 S2.
  apply wp_bind. eapply spot_add_ready; [exact S2|done|]. intros k3 V3 S3.
  apply wp_bind. eapply rd_tcb_ok; [apply (sp_tcb _ _ _ _ _ _ _ _ _ S3)|].
  destruct (proj1 (se_current _ _ _ _ HSe)) as [c Hcur].
  apply wp_bind. eapply spot_current; [exact S3|exact Hcur|]. intros c' Hc' Ec1 Ec2.
  pose proof (spot_control _ _ _ _ _ _ _ _ S3) as (C1 & C2 & C3 & C4 & C5 & C6 & C7 & C8).
  assert (G3 : good_at lo (sw || (uxPriority c' <=? uxPriority b)) E D X k3 V3).
  { eapply good_ready; [exact G|exact S3|done|done|].
    destruct (Z.leb_spec (uxPriority c') (uxPriority b)) as [Hle|Hgt]; [left; apply orb_true_r|]. right. right.
    split; [intros ->; done|]. split; [intros _ b0 Hb0; simplify_eq; lia|].
    intros N c0 Hc0. rewrite (Ec1 N) in Hgt. simplify_eq. lia. }
  eapply wp_mono; [apply (IH lo _ D X k3 V3 G3); [congruence|done|]|].
  - rewrite C6. pose proof (tasks_on_move _ _ _ _ _ _ _ _ _ S3 Hc (D4 _ (ok_priority _ (sc_tcb _ _ _ HI t b Hb)))). lia.
  - intros r0 k' (V' & HG & HW & Hr). exists V'. split; [done|]. split; [|intros ->; by apply Hr].
    eapply woke_step; [exact Hb|exact HI|by split|exact S3|exact HW].
Qed.

Lemma good_sw lo sw sw' D X k V : good_at lo sw E D X k V -> (sw = true -> sw' = true) -> good_at lo sw' E D X k V.
Proof. intros [G1 G2 G3 G4] Hs. split; [done..|]. destruct G4; auto. Qed.

(** Variables that the invariant does not read. *)
Lemma good_ext lo sw D X k k' V : good_at lo sw E D X k V -> sched E k' V -> settled D X k' V ->
  tcbs k' = tcbs k -> control_same k k' -> (switching k -> switching k') -> good_at lo sw E D X k' V.
Proof.
  intros [G1 G2 G3 G4] HI HSe Et (C1 & C2 & C3 & C4 & C5 & C6 & C7 & C8) Hf. split; [done|done| |].
  - intros t. rewrite Et. unfold wakes_later. rewrite C5, C6, C7. apply G3.
  - destruct G4 as [?|[?|HL]]; [by left|right; left; auto|right; right].
    intros t b c. rewrite Et, C1. apply HL.
Qed.

Lemma set_tick_sched k V v : sched E k V -> is_u32 v -> sched E (set_xTickCount v k) V.
Proof. intros [I1 I2 I3 I4 I5 I6 I7 I8 I9 I10 I11 I12 I13 I14 I15 I16] Hv. by split. Qed.

(** [prvResetNextTaskUnblockTime] restores the bound of the delayed list. *)
Lemma no_unblock k V : sched E k V -> sched E (set_xNextTaskUnblockTime 0 k) V.
Proof.
  intros HI. apply set_unblock_sched; [done|by_decision|]. intros x Hx.
  pose proof (sh_val _ _ (sc_shows _ _ _ HI) x) as Hv.
  destruct Hv; [|done]. apply (sh_in _ _ (sc_shows _ _ _ HI) _ _ (proj1 (kl_delayed E k V HI)) Hx).
Qed.
Lemma reset_unblock_ok k V (Q : unit -> K -> Prop) : sched E (set_xNextTaskUnblockTime 0 k) V ->
  (forall v, sched E (set_xNextTaskUnblockTime v k) V -> Q tt (set_xNextTaskUnblockTime v k)) ->
  wp prvResetNextTaskUnblockTime k Q.
Proof.
  intros HI HQ. set (k0 := set_xNextTaskUnblockTime 0 k) in *.
  assert (Hl : pxDelayedTaskList k ∈ vlists V) by apply (kl_delayed E k0 V HI).
  assert (Hset : forall v, is_u32 v -> (forall x, x ∈ elems V (pxDelayedTaskList k) -> v <= value V x) ->
    sched E (set_xNextTaskUnblockTime v k) V) by (intros v Hv Hx; by apply (set_unblock_sched E k0)).
  pose proof (sc_shows _ _ _ HI) as HV. change (kls k0) with (kls k) in HV.
  apply wp_bind, wp_gets, wp_bind, onl_read, (is_empty_ok _ V HV); [done|]. split; [done|].
  destruct (bool_decide_reflect (elems V (pxDelayedTaskList k) = [])) as [Ee|Ne].
  { apply wp_modify, HQ, Hset; [by_decision|]. rewrite Ee. intros x Hx. inversion Hx. }
  destruct (elems V (pxDelayedTaskList k)) as [|x r] eqn:Ex; [done|].
  destruct (delayed_head k0 V x r HI Ex) as (t & b & -> & Hb & Hc & Ho & Hmin).
  apply wp_bind, onl_read. eapply (head_value_ok _ V HV); [exact Hl|exact Ex|]. split; [done|].
  apply wp_modify, HQ, Hset; [apply (sh_val _ _ HV); by eapply (it_state E k0)|].
  intros y Hy. destruct (delayed_places k0 V HI) as (_ & _ & _ & _ & D5 & D6). rewrite <- Ex in Hy.
  destruct (on_state_list E k0 V HI _ y Hl Hy D6 D5) as (u & c & -> & Hu & Hcu). apply Hmin; [eauto|done].
Qed.

Lemma settled_same D X k k' V : settled D X k V -> tcbs k' = tcbs k -> pxCurrentTCB k' = pxCurrentTCB k ->
  xIdleTaskHandle k' = xIdleTaskHandle k -> uxCurrentNumberOfTasks k' = uxCurrentNumberOfTasks k ->
  uxDeletedTasksWaitingCleanUp k' = uxDeletedTasksWaitingCleanUp k -> xSchedulerRunning k' = xSchedulerRunning k ->
  uxSchedulerSuspended k' = uxSchedulerSuspended k -> xPendedTicks k' = xPendedTicks k -> settled D X k' V.
Proof.
  intros [S1 S2 S3 S4 S5 S6 S7 S8 S9 S10 S11] E1 E2 E3 E4 E5 E6 E7 E8.
  split; rewrite ?E1, ?E2, ?E3, ?E4, ?E5, ?E6, ?E7, ?E8; done.
Qed.

(** The new tick before the due tasks are readied. *)
Lemma next_tick_ok D X k V sw (Q : unit -> K -> Prop) : good_at (xTickCount k + 1) sw E D X k V ->
  (forall k1, good_at (xTickCount k1) sw E D X k1 V -> tcbs k1 = tcbs k -> pxCurrentTCB k1 = pxCurrentTCB k ->
     uxSchedulerSuspended k1 = uxSchedulerSuspended k -> xPendedTicks k1 = xPendedTicks k ->
     xTickCount k1 = u32 (xTickCount k + 1) ->
     (forall t, is_Some (tcbs k !! t) -> due (xTickCount k1) k1 V t <->
        (cont V (xStateListItem t) = xDelayedTaskList1 \/ cont V (xStateListItem t) = xDelayedTaskList2) /\
        value V (xStateListItem t) = u32 (xTickCount k + 1)) ->
     (switching k -> switching k1) ->
     xNumOfOverflows k1 = xNumOfOverflows k + (if u32 (xTickCount k + 1) =? 0 then 1 else 0) ->
     (pxDelayedTaskList k1, pxOverflowDelayedTaskList k1) =
       (if u32 (xTickCount k + 1) =? 0 then (pxOverflowDelayedTaskList k, pxDelayedTaskList k)
        else (pxDelayedTaskList k, pxOverflowDelayedTaskList k)) -> Q tt k1) ->
  wp (if u32 (xTickCount k + 1) =? 0 then taskSWITCH_DELAYED_LISTS else mret tt) (set_xTickCount (u32 (xTickCount k + 1)) k) Q.
Proof.
  intros [G1 G2 G3 G4] HQ. set (tick := u32 (xTickCount k + 1)) in *. set (k' := set_xTickCount tick k).
  pose proof (sc_tick _ _ _ G1) as Ht. pose proof (sc_delays _ _ _ G1) as Hd.
  assert (HI : sched E k' V) by (apply set_tick_sched; [done|apply u32_range]).
  assert (Hval : forall t, is_Some (tcbs k !! t) -> is_u32 (value V (xStateListItem t))).
  { intros t [b Hb]. apply (sh_val _ _ (sc_shows _ _ _ G1)). by eapply it_state. }
  destruct (Z.eqb_spec tick 0) as [E0|N0].
  - assert (Et : xTickCount k = 4294967295) by (unfold tick in E0; zlia).
    assert (Hnone : forall t, is_Some (tcbs k !! t) -> cont V (xStateListItem t) <> pxDelayedTaskList k).
    { intros t Hx Hc. pose proof (proj1 (G3 t Hx) Hc). pose proof (Hval t Hx). zlia. }
    destruct (delayed_places k V G1) as (_ & _ & _ & _ & D5 & D6).
    assert (Hl : pxDelayedTaskList k ∈ vlists V) by apply (kl_delayed E k V G1).
    assert (Ee : elems V (pxDelayedTaskList k) = []).
    { destruct (elems V (pxDelayedTaskList k)) as [|x r] eqn:Ex; [done|]. exfalso.
      destruct (on_state_list E k V G1 _ x Hl) as (t & b & -> & Hb & Hc); [rewrite Ex; left|done|done|].
      eapply Hnone; [eauto|exact Hc]. }
    apply wp_bind, wp_gets, wp_bind, onl_read, (is_empty_ok _ V (sc_shows _ _ _ HI)); [done|]. split; [done|].
    change (pxDelayedTaskList k') with (pxDelayedTaskList k). rewrite Ee. do 4 wp1. apply wp_bind, wp_modify.
    apply wp_bind, wp_modify. apply wp_bind, wp_modify. match goal with |- wp _ ?x _ => set (k2 := x) end.
    apply (reset_unblock_ok k2 V).
    { pose proof (no_unblock k' V HI) as [I1 I2 I3 I4 I5 I6 I7 I8 I9 I10 I11 I12 I13 I14 I15 I16]. split; try done.
      - cbn. destruct Hd as [[-> ->]|[-> ->]]; auto.
      - intros x Hx. pose proof (sh_val _ _ (sc_shows _ _ _ G1) x) as Hv. cbn. destruct Hv; [|done].
        apply (sh_in _ _ (sc_shows _ _ _ G1) _ _ (proj2 (kl_delayed E k V G1)) Hx). }
    intros v HI2. apply HQ; try done.
    + split; [done|by eapply settled_same; [exact G2|done..]| |done].
      intros t Hx. split; cbn.
      * intros _. pose proof (Hval t Hx). unfold is_u32 in *. lia.
      * intros Hc. exfalso. by apply (Hnone t Hx).
    + intros t Hx. unfold due. cbn. pose proof (Hval t Hx) as Hv. pose proof (Hnone t Hx) as Hn. unfold is_u32 in Hv.
      destruct Hd as [[Ed Eo]|[Ed Eo]]; rewrite Ed in Hn; rewrite Eo; intuition (try done; try lia).
  - apply wp_ret. apply HQ; try done; [| |cbn; lia].
    + split; [done|by eapply settled_same; [exact G2|done..]| |done].
      intros t Hx. destruct (G3 t Hx) as [P1 P2]. unfold tick in N0. split; cbn; intros Hc.
      * specialize (P1 Hc). unfold tick. zlia.
      * specialize (P2 Hc). unfold tick. zlia.
    + intros t Hx. destruct (G3 t Hx) as [P1 P2]. unfold due. cbn. unfold tick in *.
      destruct Hd as [[Ed Eo]|[Ed Eo]]; rewrite Ed in *; rewrite Eo in P2; split.
      * intros [Hc Hle]. specialize (P1 Hc). split; [auto|zlia].
      * intros [[Hc|Hc] Ev]; [split; [done|lia]|]. specialize (P2 Hc). zlia.
      * intros [Hc Hle]. specialize (P1 Hc). split; [auto|zlia].
      * intros [[Hc|Hc] Ev]; [|split; [done|lia]]. specialize (P2 Hc). zlia.
Qed.

(** What a tick does to the tasks: those whose time to wake is the new tick
    count are ready and off their event lists, the others are where they were. *)
Definition waits_until (V : view) (t now : Z) : Prop :=
  (cont V (xStateListItem t) = xDelayedTaskList1 \/ cont V (xStateListItem t) = xDelayedTaskList2) /\
  value V (xStateListItem t) = now.
Record ticked (k k' : K) (V V' : view) : Prop := {
  tk_tcbs : tcbs k' = tcbs k;
  tk_current : pxCurrentTCB k' = pxCurrentTCB k;
  tk_suspended : uxSchedulerSuspended k' = uxSchedulerSuspended k;
  tk_pended : xPendedTicks k' = xPendedTicks k;
  tk_flags : switching k -> switching k';
  tk_count : xTickCount k' = u32 (xTickCount k + 1);
  tk_overflows : xNumOfOverflows k' = xNumOfOverflows k + (if u32 (xTickCount k + 1) =? 0 then 1 else 0);
  tk_lists : (pxDelayedTaskList k', pxOverflowDelayedTaskList k') =
       (if u32 (xTickCount k + 1) =? 0 then (pxOverflowDelayedTaskList k, pxDelayedTaskList k)
        else (pxDelayedTaskList k, pxOverflowDelayedTaskList k));
  tk_due t b : tcbs k !! t = Some b -> waits_until V t (xTickCount k') ->
    cont V' (xStateListItem t) = pxReadyTasksLists (uxPriority b) /\ cont V' (xEventListItem t) = 0;
  tk_rest t : is_Some (tcbs k !! t) -> ~ waits_until V t (xTickCount k') ->
    cont V' (xStateListItem t) = cont V (xStateListItem t) /\ cont V' (xEventListItem t) = cont V (xEventListItem t);
  tk_value t : is_Some (tcbs k !! t) -> value V' (xStateListItem t) = value V (xStateListItem t)
}.

Lemma tasks_on_size k V l : (size (tasks_on k V l) < S (size (tcbs k)))%nat.
Proof.
  apply Nat.lt_succ_r. rewrite <- size_dom. apply subseteq_size. intros t. rewrite tasks_on_spec, elem_of_dom. tauto.
Qed.

Lemma not_due_later lo sw D X k V : good_at lo sw E D X k V -> xTickCount k = lo -> lo < xNextTaskUnblockTime k ->
  good_at (lo + 1) sw E D X k V /\ woke lo k k V V.
Proof.
  intros [G1 G2 G3 G4] Et Hlt.
  assert (Hv : forall t, is_Some (tcbs k !! t) -> cont V (xStateListItem t) = pxDelayedTaskList k -> lo < value V (xStateListItem t)).
  { intros t Ht Hc. apply (on_list_iff k V _ t G1 (proj1 (kl_delayed E k V G1)) Ht) in Hc.
    pose proof (sc_due _ _ _ G1 _ Hc). lia. }
  split.
  - split; [done|done| |done]. intros t Ht. split; [|by apply G3]. intros Hc. pose proof (Hv t Ht Hc). lia.
  - apply woke_done; [done|apply control_same_refl|done|]. intros t Ht [Hc Hle]. pose proof (Hv t Ht Hc). lia.
Qed.

Lemma woke_ticked k k1 k' V V' : woke (xTickCount k1) k1 k' V V' -> tcbs k1 = tcbs k -> pxCurrentTCB k1 = pxCurrentTCB k ->
  uxSchedulerSuspended k1 = uxSchedulerSuspended k -> xPendedTicks k1 = xPendedTicks k ->
  xTickCount k1 = u32 (xTickCount k + 1) ->
  (forall t, is_Some (tcbs k !! t) -> due (xTickCount k1) k1 V t <-> waits_until V t (xTickCount k1)) ->
  (switching k -> switching k1) ->
  xNumOfOverflows k1 = xNumOfOverflows k + (if u32 (xTickCount k + 1) =? 0 then 1 else 0) ->
  (pxDelayedTaskList k1, pxOverflowDelayedTaskList k1) =
       (if u32 (xTickCount k + 1) =? 0 then (pxOverflowDelayedTaskList k, pxDelayedTaskList k)
        else (pxDelayedTaskList k, pxOverflowDelayedTaskList k)) -> ticked k k' V V'.
Proof.
  intros [W1 (C1 & C2 & C3 & C4 & C5 & C6 & C7 & C8) W3 W4 W5 W6] Et Ec Es Ep Ek Hd Hf Ho El. split; try congruence; auto.
  - intros t b Ht Hw. rewrite C5 in Hw. apply W4; [by rewrite Et|]. apply Hd; [eauto|done].
  - intros t Ht Hw. rewrite C5 in Hw. apply W5; [by rewrite Et|]. by rewrite Hd.
  - intros t Ht. apply W6. by rewrite Et.
Qed.

(** A tick, while the scheduler runs. *)
Lemma xTaskIncrementTick_ok D X k V : good_at (xTickCount k + 1) false E D X k V -> uxSchedulerSuspended k = 0 ->
  wp xTaskIncrementTick k (fun r k' => exists V', good_at (xTickCount k' + 1) r E D X k' V' /\ ticked k k' V V').
Proof.
  intros G Hs. unfold xTaskIncrementTick. apply wp_bind, wp_gets. rewrite Hs. apply wp_bind, wp_gets.
  apply wp_bind, wp_modify, wp_bind. eapply next_tick_ok; [exact G|].
  intros k1 G1 Et Ec Es Ep Ek Hdue Hf Ho El. apply wp_bind, wp_gets, wp_bind, wp_gets. rewrite <- Ek in Hdue |- *.
  apply wp_bind. eapply wp_mono with (Q := fun r k' => exists V', good_at (xTickCount k1 + 1) r E D X k' V' /\
    woke (xTickCount k1) k1 k' V V').
  { destruct (Z.leb_spec (xNextTaskUnblockTime k1) (xTickCount k1)) as [Hle|Hgt].
    - eapply wp_mono; [apply unblock_due_ok; [exact G1|done|apply (sc_tick _ _ _ (gd_sched _ _ _ _ _ _ _ G1))|apply tasks_on_size]|].
      intros r k' (V' & HG & HW & _). eauto.
    - apply wp_ret. exists V. by apply not_due_later. }
  intros r k' (V' & HG & HW). pose proof (gd_sched _ _ _ _ _ _ _ HG) as HI.
  destruct (proj1 (se_current _ _ _ _ (gd_settled _ _ _ _ _ _ _ HG))) as [c Hc].
  apply wp_bind. eapply current_ok; [exact Hc|]. apply wp_bind, onl_read, (length_ok _ V' (sc_shows _ _ _ HI)).
  { apply (kl_ready E k' V' HI). apply (sc_tcb _ _ _ HI _ c Hc). }
  split; [done|]. apply wp_bind, wp_gets, wp_ret. exists V'.
  assert (HT : ticked k k' V V') by (by eapply woke_ticked).
  split; [|done]. rewrite (tk_count _ _ _ _ HT), <- Ek. eapply good_sw; [exact HG|]. by intros ->.
Qed.

Lemma resumed_ticked k k' V V' : resumed k V -> ticked k k' V V' -> sched E k V -> resumed k' V'.
Proof.
  intros HR [T1 T2 T3 T4 T5 T6 T7 T0 T8 T9 T10] HI. unfold resumed. rewrite T1, T3, T4. intros Hs. destruct (HR Hs) as [P1 P2].
  split; [done|]. intros t Ht. destruct (decide (waits_until V t (xTickCount k'))) as [Hw|Hw].
  - destruct Ht as [b Hb]. rewrite (proj2 (T8 t b Hb Hw)). intros E0. apply (sh_null _ _ (sc_shows _ _ _ HI)). rewrite E0.
    apply (kl_static E k V HI). set_solver.
  - rewrite (proj2 (T9 t Ht Hw)). by apply P2.
Qed.

Lemma SysTick_Handler_ok D X k V : good E D X k V ->
  wp SysTick_Handler k (fun _ k' => exists V', good E D X k' V' /\
    (uxSchedulerSuspended k = 0 -> ticked k k' V V')).
Proof.
  intros [G R]. apply wp_bind. destruct (decide (uxSchedulerSuspended k = 0)) as [Hs|Hs].
  - eapply wp_mono; [eapply xTaskIncrementTick_ok; [exact G|exact Hs]|]. intros r k' (V' & HG & HT).
    assert (R' : resumed k' V') by (eapply resumed_ticked; [exact R|exact HT|apply G]). destruct r.
    + apply wp_modify. exists V'. destruct HG as [G1 G2 G3 G4], HT as [T1 T2 T3 T4 T5 T6 T7 T0 T8 T9 T10]. split.
      * split; [|done]. split; [by eapply sched_ext; [exact G1|done..]|by eapply settled_same; [exact G2|done..]|exact G3|].
        right. left. by left.
      * intros _. split; try done. intros _. by left.
    + apply wp_ret. exists V'. by split.
  - unfold xTaskIncrementTick. apply wp_bind, wp_gets. rewrite (proj2 (Z.eqb_neq _ _) Hs).
    apply wp_bind, wp_modify, wp_ret, wp_ret. exists V. split; [|done]. destruct G as [G1 G2 G3 G4].
    split; [|done]. split; [by eapply sched_ext; [exact G1|done..]| |exact G3|exact G4].
    destruct G2 as [S1 S2 S3 S4 S5 S6 S7 S8 S9 S10 S11]. split; try done. apply u32_range.
Qed.

(** ** The switch *)

(** The first task after the cursor of the ready list of highest priority. *)
Record selected (k : K) (V : view) (p t : Z) : Prop := {
  sl_range : 0 <= p < configMAX_PRIORITIES;
  sl_some : elems V (pxReadyTasksLists p) <> [];
  sl_highest q : p < q < configMAX_PRIORITIES -> elems V (pxReadyTasksLists q) = [];
  sl_next : xStateListItem t = succ_of (List.hd 0 (elems V (pxReadyTasksLists p)))
              (cursor V (pxReadyTasksLists p)) (elems V (pxReadyTasksLists p));
  sl_task : exists b, tcbs k !! t = Some b /\ uxPriority b = p /\ cont V (xStateListItem t) = pxReadyTasksLists p
}.

Lemma succ_of_in d c xs : d ∈ xs -> succ_of d c xs ∈ xs.
Proof.
  intros Hd. destruct (decide (c ∈ xs)) as [Hc|Hc]; [|by rewrite succ_of_out].
  apply list_elem_of_split_l in Hc as (a & b & -> & Ha). rewrite succ_of_split by done.
  destruct b as [|y b]; [done|]. cbn. set_solver.
Qed.

Lemma ready_priority k V t b p : sched E k V -> tcbs k !! t = Some b -> 0 <= p < configMAX_PRIORITIES ->
  cont V (xStateListItem t) = pxReadyTasksLists p -> uxPriority b = p.
Proof.
  intros HI Hb Hp Hc. destruct (ready_place E k V p HI Hp) as (P1 & P2 & P3 & P4 & P5).
  pose proof (sc_state _ _ _ HI t b Hb) as Hs. rewrite Hc in Hs.
  destruct Hs as [Hs|[Hs|[Hs|[Hs|[Hs|Hs]]]]]; try congruence. symmetry. by apply ready_inj.
Qed.

Lemma select_top_ok k V n : sched E k V -> Z.of_nat n < configMAX_PRIORITIES ->
  (forall q, Z.of_nat n < q < configMAX_PRIORITIES -> elems V (pxReadyTasksLists q) = []) ->
  (exists q, 0 <= q <= Z.of_nat n /\ elems V (pxReadyTasksLists q) <> []) ->
  wp (select_top n) k (fun p k' => k' = k /\ 0 <= p < configMAX_PRIORITIES /\ elems V (pxReadyTasksLists p) <> [] /\
    forall q, p < q < configMAX_PRIORITIES -> elems V (pxReadyTasksLists q) = []).
Proof.
  intros HI. induction n as [|n IH]; intros Hn Hup (q & Hq & Hne); cbn [select_top];
    (apply wp_bind, onl_read, (is_empty_ok _ V (sc_shows _ _ _ HI)); [apply (kl_ready E k V HI); lia|]; split; [done|]).
  - assert (q = 0) as -> by lia. rewrite bool_decide_false by done. apply wp_ret. split; [done|]. split; [lia|]. by split.
  - destruct (bool_decide_reflect (elems V (pxReadyTasksLists (Z.of_nat (S n))) = [])) as [Ee|Ne].
    + apply IH; [lia| |].
      * intros r Hr. destruct (decide (r = Z.of_nat (S n))) as [->|N]; [done|]. apply Hup. lia.
      * exists q. split; [|done]. destruct (decide (q = Z.of_nat (S n))) as [->|N]; [done|lia].
    + apply wp_ret. split; [done|]. split; [lia|]. by split.
Qed.

Lemma sched_next k V l s' : sched E k V -> shows s' (v_next l V) -> sched E (set_kls s' k) (v_next l V).
Proof.
  intros HI HV. apply (sched_kls E k V); [done|done|done|done|done| | | |]; cbn.
  - intros t b Hb. split; [by apply (sc_state _ _ _ HI)|apply (sc_event _ _ _ HI); eauto].
  - apply (sc_ready _ _ _ HI).
  - apply (sc_sorted _ _ _ HI).
  - apply (sc_due _ _ _ HI).
Qed.

Lemma lower_top k V p : sched E k V -> 0 <= p < configMAX_PRIORITIES ->
  (forall q, 0 <= q < configMAX_PRIORITIES -> elems V (pxReadyTasksLists q) <> [] -> q <= p) ->
  sched E (set_uxTopReadyPriority p k) V.
Proof. intros [I1 I2 I3 I4 I5 I6 I7 I8 I9 I10 I11 I12 I13 I14 I15 I16] Hp Hq. by split. Qed.

Lemma select_ok D X k V : sched E k V -> settled D X k V ->
  wp taskSELECT_HIGHEST_PRIORITY_TASK k (fun _ k' => exists p t s', selected k V p t /\
    k' = set_uxTopReadyPriority p (set_pxCurrentTCB t (set_kls s' k)) /\ sched E k' (v_next (pxReadyTasksLists p) V)).
Proof.
  intros HI HSe. pose proof (sc_top _ _ _ HI) as Htop. apply wp_bind, wp_gets, wp_bind.
  eapply wp_mono; [apply (select_top_ok k V (Z.to_nat (uxTopReadyPriority k)) HI)|].
  - lia.
  - intros q Hq. destruct (elems V (pxReadyTasksLists q)) eqn:Eq; [done|]. exfalso.
    pose proof (sc_ready _ _ _ HI q) as Hr. rewrite Eq in Hr. assert (q <= uxTopReadyPriority k) by (apply Hr; [lia|done]). lia.
  - destruct (se_idle _ _ _ _ HSe) as (b & Hb & Hr). exists (uxPriority b).
    pose proof (ok_priority _ (sc_tcb _ _ _ HI _ b Hb)) as Hp.
    assert (Hne : elems V (pxReadyTasksLists (uxPriority b)) <> []).
    { apply (on_list_iff k V _ _ HI (kl_ready E k V HI _ Hp)) in Hr; [|eauto]. intros Ee. rewrite Ee in Hr. inversion Hr. }
    split; [|done]. pose proof (sc_ready _ _ _ HI _ Hp Hne). lia.
  - intros p k' (-> & Hp & Hne & Hup). pose proof (kl_ready E k V HI p Hp) as Hl.
    apply wp_bind, onl_ok, (next_entry_ok _ V (sc_shows _ _ _ HI)); [done|done|]. intros s' HV.
    set (x := cursor (v_next (pxReadyTasksLists p) V) (pxReadyTasksLists p)).
    assert (Ex : x = succ_of (List.hd 0 (elems V (pxReadyTasksLists p))) (cursor V (pxReadyTasksLists p)) (elems V (pxReadyTasksLists p))).
    { unfold x. cbn. by rewrite upd_hit. }
    assert (Hx : x ∈ elems V (pxReadyTasksLists p)).
    { rewrite Ex. apply succ_of_in. destruct (elems V (pxReadyTasksLists p)); [done|left]. }
    destruct (ready_place E k V p HI Hp) as (P1 & P2 & P3 & P4 & P5).
    destruct (on_state_list E k V HI _ x Hl Hx) as (t & b & Et & Hb & Hc); [by apply kernel_ready| |].
    { intros E0. apply (statics_ready p Hp). rewrite E0. set_solver. }
    assert (Ho : owner V x = t) by (rewrite Et; by eapply own_state). rewrite Ho.
    apply wp_bind, wp_modify, wp_modify. exists p, t, s'. split; [|split; [done|]].
    + split; [done|done|done|by rewrite <- Et|]. exists b. split; [done|].
      rewrite Et in Hc. split; [|done]. by eapply ready_priority.
    + apply lower_top; [eapply sched_ext; [apply sched_next; [exact HI|exact HV]|done..]|done|].
      intros q Hq Hnq. destruct (decide (q <= p)); [done|]. destruct Hnq. cbn. apply Hup. lia.
Qed.

(** The task selected leads, whatever the state before. *)
Lemma selected_leads k k' V V' p t : sched E k V -> selected k V p t -> pxCurrentTCB k' = t -> tcbs k' = tcbs k ->
  (forall i, cont V' i = cont V i) -> leads k' V'.
Proof.
  intros HI [S1 S2 S3 S4 (b & Hb & Hp & Hc)] Ec Et Ev u c d Hu Hr Hd. rewrite Ec, Et, Hb in Hd. injection Hd as <-.
  rewrite Et in Hu. rewrite Ev in Hr. subst p. pose proof (ok_priority _ (sc_tcb _ _ _ HI u c Hu)) as Hpc.
  apply (on_list_iff k V _ u HI (kl_ready E k V HI _ Hpc)) in Hr; [|eauto].
  destruct (decide (uxPriority c <= uxPriority b)) as [?|N]; [done|]. rewrite (S3 (uxPriority c)) in Hr by lia. inversion Hr.
Qed.

Lemma settled_current D X k V V' t k' : settled D X k V -> is_Some (tcbs k !! t) -> ~ (t ∈ D) ->
  (forall i, cont V' i = cont V i) -> pxCurrentTCB k' = t ->
  tcbs k' = tcbs k -> xIdleTaskHandle k' = xIdleTaskHandle k -> uxCurrentNumberOfTasks k' = uxCurrentNumberOfTasks k ->
  uxDeletedTasksWaitingCleanUp k' = uxDeletedTasksWaitingCleanUp k -> xSchedulerRunning k' = xSchedulerRunning k ->
  uxSchedulerSuspended k' = uxSchedulerSuspended k -> xPendedTicks k' = xPendedTicks k -> settled D X k' V'.
Proof.
  intros [S1 S2 S3 S4 S5 S6 S7 S8 S9 S10 S11] Ht HD Ev E0 E1 E3 E4 E5 E6 E7 E8.
  split; rewrite ?E0, ?E1, ?E3, ?E4, ?E5, ?E6, ?E7, ?E8; try done.
  - intros u Hu. rewrite Ev. by apply S2.
  - intros u Hu. rewrite Ev. by apply S3.
  - intros u Hu. rewrite Ev. by apply S4.
  - rewrite Ev. exact S6.
Qed.

Record switched (k k' : K) (V V' : view) : Prop := {
  sw_swi : swi_pending k' = swi_pending k;
  sw_yield : xYieldPending k' = false;
  sw_tcbs : tcbs k' = tcbs k;
  sw_selected : exists p, selected k V p (pxCurrentTCB k') /\ V' = v_next (pxReadyTasksLists p) V
}.

Lemma vTaskSwitchContext_ok D X k V c : good_at (xTickCount k + 1) true E D X k V -> tcbs k !! pxCurrentTCB k = Some c -> pxStack c < pxTopOfStack c ->
  wp vTaskSwitchContext k (fun _ k' => exists V', good_at (xTickCount k' + 1) false E D X k' V' /\ (resumed k V -> resumed k' V') /\
    (uxSchedulerSuspended k <> 0 -> V' = V /\ k' = set_xYieldPending true k) /\
    (uxSchedulerSuspended k = 0 -> switched k k' V V')).
Proof.
  intros [G1 G2 G3 G4] Hc Hst. apply wp_bind, wp_gets. destruct (Z.eqb_spec (uxSchedulerSuspended k) 0) as [E0|N0].
  - apply wp_bind, wp_modify, wp_bind. set (k1 := set_xYieldPending false k).
    unfold taskCHECK_FOR_STACK_OVERFLOW. apply wp_bind. eapply current_ok; [exact Hc|].
    destruct (Z.leb_spec (pxTopOfStack c) (pxStack c)); [lia|]. apply wp_ret.
    assert (HI : sched E k1 V) by (eapply sched_ext; [exact G1|done..]).
    eapply wp_mono; [apply (select_ok D X k1 V HI)|].
    { eapply settled_same; [exact G2|done..]. }
    intros _ k' (p & t & s' & Hsel & -> & HI'). exists (v_next (pxReadyTasksLists p) V).
    destruct (sl_task _ _ _ _ Hsel) as (b & Hb & Hp & Hr).
    split; [|split; [done|split; [done|intros _; split; [done|done|done|exists p; split; [by destruct Hsel|done]]]]].
    split; [done| |exact G3|right; right].
    + eapply settled_current; [exact G2|exists b; exact Hb| |done|done|done..].
      intros HD. apply (se_alive _ _ _ _ G2) in HD; [|exists b; exact Hb]. rewrite Hr in HD.
      by apply (ready_not_zero k V p G1 (sl_range _ _ _ _ Hsel)).
    + eapply (selected_leads k1); [exact HI|exact Hsel|done..].
  - apply wp_modify. exists V. split; [|split; [done|by split]].
    split; [by eapply sched_ext; [exact G1|done..]|by eapply settled_same; [exact G2|done..]|exact G3|].
    right. left. by right.
Qed.

(** A change of a task control block that keeps the priority. *)
Lemma good_wr lo sw D X k V t b b' : good_at lo sw E D X k V -> tcbs k !! t = Some b -> tcb_ok b' ->
  uxPriority b' = uxPriority b -> good_at lo sw E D X (set_tcbs (<[t := b']> (tcbs k)) k) V.
Proof.
  intros [G1 G2 G3 G4] Hb Hok Hp. set (k' := set_tcbs _ k).
  assert (Hd : forall u, is_Some (tcbs k' !! u) <-> is_Some (tcbs k !! u)).
  { intros u. cbn. destruct (decide (u = t)) as [->|N]; [by rewrite lookup_insert_eq, Hb|by rewrite lookup_insert_ne]. }
  assert (Hold : forall u c, tcbs k' !! u = Some c -> exists c0, tcbs k !! u = Some c0 /\ uxPriority c0 = uxPriority c).
  { intros u c. cbn. destruct (decide (u = t)) as [->|N]; [rewrite lookup_insert_eq; intros [= <-]; eauto|rewrite lookup_insert_ne by done; eauto]. }
  split.
  - eapply sched_tcb; eauto.
  - destruct G2 as [S1 S2 S3 S4 S5 S6 S7 S8 S9 S10 S11]. split; try done.
    + intros u Hu. apply Hd. auto.
    + intros u Hu. apply S2. by apply Hd.
    + intros u Hu. apply S3. by apply Hd.
    + intros u Hu. apply S4. by apply Hd.
    + rewrite Hd. exact S5.
    + destruct S6 as (c & Hc & Hr). change (xIdleTaskHandle k') with (xIdleTaskHandle k).
      destruct (decide (xIdleTaskHandle k = t)) as [Ei|N]; [rewrite Ei in *|].
      * exists b'. cbn. rewrite lookup_insert_eq. split; [done|]. rewrite Hr, Hp. by simplify_eq.
      * exists c. cbn. by rewrite lookup_insert_ne.
    + cbn. by rewrite map_size_insert, Hb.
  - intros u Hu. apply Hd in Hu. by apply G3.
  - destruct G4 as [?|[?|HL]]; [by left|right; by left|right; right].
    intros u c d Hu Hr Hcur. destruct (Hold u c Hu) as (c0 & H1 & E1). destruct (Hold _ d Hcur) as (d0 & H2 & E2).
    rewrite <- E1, <- E2. rewrite <- E1 in Hr. by eapply HL.
Qed.

(** The interrupt handler of the switch: the interrupted task has stack left. *)
Lemma SW_Handler_ok D X k V c sp : good E D X k V -> tcbs k !! pxCurrentTCB k = Some c -> pxStack c < sp ->
  wp (SW_Handler sp) k (fun _ k' => exists V', good E D X k' V' /\ swi_pending k' = false /\
    tcbs k' = <[pxCurrentTCB k := set_pxTopOfStack sp c]> (tcbs k) /\
    (uxSchedulerSuspended k <> 0 -> V' = V /\ pxCurrentTCB k' = pxCurrentTCB k /\ xYieldPending k' = true) /\
    (uxSchedulerSuspended k = 0 -> xYieldPending k' = false /\
       exists p, selected k V p (pxCurrentTCB k') /\ V' = v_next (pxReadyTasksLists p) V)).
Proof.
  intros [G R] Hc Hsp. pose proof (gd_sched _ _ _ _ _ _ _ G) as HI.
  assert (G1 : good_at (xTickCount k + 1) true E D X (set_tcbs (<[pxCurrentTCB k := set_pxTopOfStack sp c]> (tcbs k)) k) V).
  { eapply good_wr; [eapply good_sw; [exact G|done]|exact Hc| |done]. by destruct (sc_tcb _ _ _ HI _ c Hc). }
  apply wp_bind, wp_modify, wp_bind, wp_gets, wp_bind.
  eapply (wr_tcb_ok (set_swi_pending false k)); [exact Hc|]. match goal with |- wp _ ?x _ => set (k2 := x) end.
  eapply wp_mono; [eapply (vTaskSwitchContext_ok D X k2 V (set_pxTopOfStack sp c))|].
  - destruct G1 as [P1 P2 P3 P4]. split; [by eapply sched_ext; [exact P1|done..]|by eapply settled_same; [exact P2|done..]|exact P3|by left].
  - apply lookup_insert_eq.
  - exact Hsp.
  - intros _ k' (V' & HG & HR & H1 & H2). exists V'. split.
    { split; [done|]. apply HR. intros Hs. destruct (R Hs) as [P1 P2]. split; [done|]. intros u Hu. apply P2.
      revert Hu. cbn. destruct (decide (u = pxCurrentTCB k)) as [->|N]; [by rewrite Hc|by rewrite lookup_insert_ne]. }
    change (uxSchedulerSuspended k2) with (uxSchedulerSuspended k) in *.
    destruct (decide (uxSchedulerSuspended k = 0)) as [E0|N0].
    + destruct (H2 E0) as [W1 W2 W3 (p & [T1 T2 T3 T4 (b & Hb & Hp & Hr)] & ->)]. split; [done|]. split; [done|]. split; [done|]. intros _.
      split; [done|]. exists p. split; [|done]. split; [done..|]. revert Hb. cbn.
      destruct (decide (pxCurrentTCB k' = pxCurrentTCB k)) as [Ec|N]; [rewrite Ec in *|].
      * rewrite lookup_insert_eq. intros [= <-]. exists c. by split.
      * rewrite lookup_insert_ne by done. intros Hb. by exists b.
    + destruct (H1 N0) as [-> ->]. by repeat split.
Qed.
End Run.
