(* ===== verification/TasksApi.v ===== *)
(** The calls of the scheduler on top of its tick and its switch: time in
    reference ticks, resuming the scheduler, blocking, waking, priorities. *)
From S2P Require Import Prelude FList Klist Tasks TasksInv TasksStep TasksRun.

Section Api.
Context {A : Type} `{HS : StaticsOk} (E : gset Z).
Abbreviation K := (kernel A).
Implicit Types (k : K) (V : view) (b : TCB) (D X : gset Z).

(** ** Reference time

    The number of ticks since the start, and the number at which a sleeping
    task is to wake. *)
Definition now (k : K) : Z := xNumOfOverflows k * 4294967296 + xTickCount k.
Definition wake_time (k : K) (V : view) (t : Z) : option Z :=
  if cont V (xStateListItem t) =? pxDelayedTaskList k
  then Some (xNumOfOverflows k * 4294967296 + value V (xStateListItem t))
  else if cont V (xStateListItem t) =? pxOverflowDelayedTaskList k
  then Some ((xNumOfOverflows k + 1) * 4294967296 + value V (xStateListItem t))
  else None.

(** [n] ticks have passed: who was to wake by now is ready and on no event
    list, the others sleep on, and nothing else has moved. *)
Record elapsed (n : Z) (k k' : K) (V V' : view) : Prop := {
  el_tcbs : tcbs k' = tcbs k;
  el_current : pxCurrentTCB k' = pxCurrentTCB k;
  el_suspended : uxSchedulerSuspended k' = uxSchedulerSuspended k;
  el_flags : switching k -> switching k';
  el_now : now k' = now k + n;
  el_due t b w : tcbs k !! t = Some b -> wake_time k V t = Some w -> w <= now k + n ->
    cont V' (xStateListItem t) = pxReadyTasksLists (uxPriority b) /\ cont V' (xEventListItem t) = 0;
  el_later t w : is_Some (tcbs k !! t) -> wake_time k V t = Some w -> now k + n < w ->
    wake_time k' V' t = Some w /\ cont V' (xEventListItem t) = cont V (xEventListItem t);
  el_awake t : is_Some (tcbs k !! t) -> wake_time k V t = None ->
    cont V' (xStateListItem t) = cont V (xStateListItem t) /\ cont V' (xEventListItem t) = cont V (xEventListItem t)
}.

Lemma wake_time_none k V t : sched E k V -> wake_time k V t = None <->
  cont V (xStateListItem t) <> xDelayedTaskList1 /\ cont V (xStateListItem t) <> xDelayedTaskList2.
Proof.
  intros HI. unfold wake_time. destruct (sc_delays _ _ _ HI) as [[-> ->]|[-> ->]];
    repeat case_match; rewrite ?Z.eqb_eq, ?Z.eqb_neq in *; intuition congruence.
Qed.

(** Sleepers wake in the future, less than one turn of the tick count away. *)
Lemma wake_time_future sw D X k V t w : good_at (xTickCount k + 1) sw E D X k V -> is_Some (tcbs k !! t) ->
  wake_time k V t = Some w -> now k < w < now k + 4294967296.
Proof.
  intros G Ht Hw. destruct (gd_timed _ _ _ _ _ _ _ G t Ht) as [P1 P2].
  pose proof (gd_sched _ _ _ _ _ _ _ G) as HI. pose proof (sc_tick _ _ _ HI).
  assert (Hv : is_u32 (value V (xStateListItem t))).
  { destruct Ht as [b Hb]. apply (sh_val _ _ (sc_shows _ _ _ HI)). by eapply it_state. }
  unfold wake_time in Hw. unfold now, is_u32 in *.
  destruct (Z.eqb_spec (cont V (xStateListItem t)) (pxDelayedTaskList k)) as [E1|N1]; [specialize (P1 E1); injection Hw as <-; lia|].
  destruct (Z.eqb_spec (cont V (xStateListItem t)) (pxOverflowDelayedTaskList k)) as [E2|N2]; [|done].
  specialize (P2 E2). injection Hw as <-. lia.
Qed.

Lemma wake_time_cases k V t w : wake_time k V t = Some w ->
  cont V (xStateListItem t) = pxDelayedTaskList k /\ w = xNumOfOverflows k * 4294967296 + value V (xStateListItem t) \/
  cont V (xStateListItem t) = pxOverflowDelayedTaskList k /\ w = (xNumOfOverflows k + 1) * 4294967296 + value V (xStateListItem t).
Proof. unfold wake_time. repeat case_match; rewrite ?Z.eqb_eq in *; intros [= <-]; auto. Qed.
Lemma wake_time_delayed k V t : cont V (xStateListItem t) = pxDelayedTaskList k ->
  wake_time k V t = Some (xNumOfOverflows k * 4294967296 + value V (xStateListItem t)).
Proof. intros Hc. unfold wake_time. by rewrite (proj2 (Z.eqb_eq _ _) Hc). Qed.
Lemma wake_time_overflow k V t : pxDelayedTaskList k <> pxOverflowDelayedTaskList k ->
  cont V (xStateListItem t) = pxOverflowDelayedTaskList k ->
  wake_time k V t = Some ((xNumOfOverflows k + 1) * 4294967296 + value V (xStateListItem t)).
Proof.
  intros N Hc. unfold wake_time. rewrite Hc, Z.eqb_refl. by rewrite (proj2 (Z.eqb_neq _ _) (not_eq_sym N)).
Qed.

(** Both delayed lists change their meaning when the count overflows; the
    reference time of a sleeper stays. *)
Lemma ticked_now k k' V V' : is_u32 (xTickCount k) -> ticked k k' V V' -> now k' = now k + 1.
Proof.
  intros Hk [T1 T2 T3 T4 T5 T6 T7 T0 T8 T9 T10]. unfold now. rewrite T6, T7. destruct (Z.eqb_spec (u32 (xTickCount k + 1)) 0); zlia.
Qed.
Lemma ticked_wake sw D X k k' V V' t w : good_at (xTickCount k + 1) sw E D X k V -> ticked k k' V V' ->
  is_Some (tcbs k !! t) -> wake_time k V t = Some w -> w <> now k + 1 -> wake_time k' V' t = Some w.
Proof.
  intros G HT Ht Hw N. pose proof (gd_sched _ _ _ _ _ _ _ G) as HI. pose proof (sc_tick _ _ _ HI) as Hk.
  pose proof (wake_time_future _ _ _ _ _ _ _ G Ht Hw) as Hf. unfold now in *.
  destruct (delayed_places E k V HI) as (_ & _ & Nd & _). destruct HT as [T1 T2 T3 T4 T5 T6 T7 T0 T8 T9 T10].
  assert (Hv : is_u32 (value V (xStateListItem t))).
  { destruct Ht as [b Hb]. apply (sh_val _ _ (sc_shows _ _ _ HI)). by eapply it_state. }
  assert (Hn : ~ waits_until V t (xTickCount k')).
  { intros [Hc Hv']. rewrite T6 in Hv'. destruct (wake_time_cases _ _ _ _ Hw) as [[E1 E2]|[E1 E2]]; zlia. }
  destruct (T9 t Ht Hn) as [Ec _]. specialize (T10 t Ht).
  destruct (Z.eqb_spec (u32 (xTickCount k + 1)) 0) as [E0|N0]; injection T0 as D1 D2;
    destruct (wake_time_cases _ _ _ _ Hw) as [[E1 E2]|[E1 E2]].
  - zlia.
  - rewrite wake_time_delayed by congruence. rewrite T10, T7. f_equal. lia.
  - rewrite wake_time_delayed by congruence. rewrite T10, T7. f_equal. lia.
  - rewrite wake_time_overflow by congruence. rewrite T10, T7. f_equal. lia.
Qed.
Lemma ticked_elapsed sw D X k k' V V' : good_at (xTickCount k + 1) sw E D X k V -> ticked k k' V V' -> elapsed 1 k k' V V'.
Proof.
  intros G HT. pose proof (gd_sched _ _ _ _ _ _ _ G) as HI. pose proof (sc_tick _ _ _ HI) as Hk.
  assert (Hdel : forall t, cont V (xStateListItem t) = pxDelayedTaskList k \/ cont V (xStateListItem t) = pxOverflowDelayedTaskList k ->
    cont V (xStateListItem t) = xDelayedTaskList1 \/ cont V (xStateListItem t) = xDelayedTaskList2).
  { intros t. destruct (sc_delays _ _ _ HI) as [[-> ->]|[-> ->]]; tauto. }
  pose proof HT as [T1 T2 T3 T4 T5 T6 T7 T0 T8 T9 T10]. split; try done; [by eapply ticked_now| | |].
  - intros t b w Hb Hw Hle. apply T8; [done|]. assert (Ht : is_Some (tcbs k !! t)) by eauto.
    pose proof (wake_time_future _ _ _ _ _ _ _ G Ht Hw) as Hf. rewrite T6.
    assert (Hv : is_u32 (value V (xStateListItem t))) by (apply (sh_val _ _ (sc_shows _ _ _ HI)); by eapply it_state).
    unfold now in *. destruct (wake_time_cases _ _ _ _ Hw) as [[E1 E2]|[E1 E2]]; (split; [auto|zlia]).
  - intros t w Ht Hw Hlt. split; [eapply ticked_wake; [exact G|exact HT|done|done|lia]|].
    apply T9; [done|]. intros [Hc Hv']. rewrite T6 in Hv'. unfold now in *.
    destruct (gd_timed _ _ _ _ _ _ _ G t Ht) as [P1 P2].
    destruct (wake_time_cases _ _ _ _ Hw) as [[E1 E2]|[E1 E2]]; [specialize (P1 E1)|specialize (P2 E1)]; zlia.
  - intros t Ht Hw. apply T9; [done|]. intros [Hc _]. apply (wake_time_none k V t HI) in Hw. tauto.
Qed.

Lemma elapsed_refl sw D X k V : good_at (xTickCount k + 1) sw E D X k V -> elapsed 0 k k V V.
Proof.
  intros G. split; try done; [lia|].
  intros t b w Hb Hw Hle. assert (Ht : is_Some (tcbs k !! t)) by eauto.
  pose proof (wake_time_future _ _ _ _ _ _ _ G Ht Hw). lia.
Qed.

Lemma ready_awake k V t p : sched E k V -> 0 <= p < configMAX_PRIORITIES ->
  cont V (xStateListItem t) = pxReadyTasksLists p -> wake_time k V t = None.
Proof. intros HI Hp Hc. apply (wake_time_none k V t HI). rewrite Hc. by destruct (ready_place E k V p HI Hp) as (? & ? & ? & _). Qed.

Lemma elapsed_trans n m k k1 k2 V V1 V2 : 0 <= n -> 0 <= m -> sched E k V -> sched E k1 V1 ->
  elapsed n k k1 V V1 -> elapsed m k1 k2 V1 V2 -> elapsed (n + m) k k2 V V2.
Proof.
  intros Hn Hm HI HI1 [A1 A2 A3 A4 A5 A6 A7 A8] [B1 B2 B3 B4 B5 B6 B7 B8].
  split; try congruence; auto; [lia|..].
  - intros t b w Hb Hw Hle. destruct (decide (w <= now k + n)) as [Hd|Hd].
    + destruct (A6 t b w Hb Hw Hd) as [E1 E2]. rewrite <- E1, <- E2. apply B8; [rewrite A1; eauto|].
      eapply ready_awake; [exact HI1|apply (sc_tcb _ _ _ HI t b Hb)|exact E1].
    + destruct (A7 t w) as [E1 _]; [eauto|done|lia|]. apply (B6 t b w); [by rewrite A1|done|lia].
  - intros t w Ht Hw Hlt. destruct (A7 t w Ht Hw) as [E1 E2]; [lia|].
    destruct (B7 t w) as [E3 E4]; [by rewrite A1|done|lia|]. split; [done|congruence].
  - intros t Ht Hw. destruct (A8 t Ht Hw) as [E1 E2]. destruct (B8 t) as [E3 E4]; [by rewrite A1| |split; congruence].
    apply (wake_time_none k1 V1 t HI1). rewrite E1. by apply (wake_time_none k V t HI).
Qed.

(** ** Resuming the scheduler *)

Lemma set_yield_good lo sw D X k V : good_at lo sw E D X k V -> good_at lo false E D X (set_xYieldPending true k) V.
Proof.
  intros [G1 G2 G3 G4]. split; [by eapply sched_ext; [exact G1|done..]|by eapply settled_same; [exact G2|done..]|exact G3|].
  right. left. by right.
Qed.
Lemma set_swi_good lo sw D X k V : good_at lo sw E D X k V -> good_at lo false E D X (set_swi_pending true k) V.
Proof.
  intros [G1 G2 G3 G4]. split; [by eapply sched_ext; [exact G1|done..]|by eapply settled_same; [exact G2|done..]|exact G3|].
  right. left. by left.
Qed.
Lemma elapsed_same n k k1 k' V V' : elapsed n k k1 V V' -> tcbs k' = tcbs k1 -> pxCurrentTCB k' = pxCurrentTCB k1 ->
  uxSchedulerSuspended k' = uxSchedulerSuspended k1 -> (switching k1 -> switching k') -> xTickCount k' = xTickCount k1 ->
  xNumOfOverflows k' = xNumOfOverflows k1 -> pxDelayedTaskList k' = pxDelayedTaskList k1 ->
  pxOverflowDelayedTaskList k' = pxOverflowDelayedTaskList k1 -> elapsed n k k' V V'.
Proof.
  intros [A1 A2 A3 A4 A5 A6 A7 A8] E1 E2 E3 E4 E5 E6 E7 E8. split; try congruence; auto.
  - unfold now in *. by rewrite E5, E6.
  - intros t w Ht Hw Hlt. unfold wake_time. rewrite E6, E7, E8. by apply A7.
Qed.

Lemma run_pended_ok n : forall D X k V, good_at (xTickCount k + 1) false E D X k V -> uxSchedulerSuspended k = 0 ->
  wp (run_pended n) k (fun _ k' => exists V', good_at (xTickCount k' + 1) false E D X k' V' /\
    elapsed (Z.of_nat n) k k' V V').
Proof.
  induction n as [|n IH]; intros D X k V G Hs; cbn [run_pended].
  - apply wp_ret. exists V. split; [done|]. by eapply elapsed_refl.
  - apply wp_bind. eapply wp_mono; [by eapply xTaskIncrementTick_ok|]. intros r k1 (V1 & G1 & HT).
    pose proof (ticked_elapsed _ _ _ _ _ _ _ G HT) as HE.
    pose proof (tk_suspended _ _ _ _ HT) as Hs1.
    assert (Hset : exists k2, (if r then modify (set_xYieldPending true) else mret tt) k1 = Done (tt, k2) /\
      good_at (xTickCount k2 + 1) false E D X k2 V1 /\ elapsed 1 k k2 V V1 /\ uxSchedulerSuspended k2 = 0).
    { destruct r; [exists (set_xYieldPending true k1)|exists k1]; (split; [done|]).
      - split; [by eapply set_yield_good|]. split; [|cbn; congruence].
        eapply elapsed_same; [exact HE|done|done|done| |done..]. intros _. by right.
      - split; [done|]. split; [done|congruence]. }
    destruct Hset as (k2 & Hrun & G2 & HE2 & Hs2). apply wp_bind. eapply wp_use; [exact Hrun|].
    eapply wp_mono; [by apply (IH D X k2 V1)|]. intros _ k3 (V3 & G3 & HE3). exists V3. split; [done|].
    replace (Z.of_nat (S n)) with (1 + Z.of_nat n) by lia.
    eapply elapsed_trans; [lia|lia|apply G|apply G2|done|done].
Qed.

(** The tasks readied while the scheduler was suspended leave the pending list
    for their ready lists; the others stay. *)
Record freed (k k' : K) (V V' : view) : Prop := {
  fr_tcbs : tcbs k' = tcbs k;
  fr_control : control_same k k';
  fr_flags : switching k -> switching k';
  fr_pending t b : tcbs k !! t = Some b -> cont V (xEventListItem t) = xPendingReadyList ->
    cont V' (xStateListItem t) = pxReadyTasksLists (uxPriority b) /\ cont V' (xEventListItem t) = 0;
  fr_rest t : is_Some (tcbs k !! t) -> cont V (xEventListItem t) <> xPendingReadyList ->
    cont V' (xStateListItem t) = cont V (xStateListItem t) /\ cont V' (xEventListItem t) = cont V (xEventListItem t);
  fr_value t : is_Some (tcbs k !! t) -> value V' (xStateListItem t) = value V (xStateListItem t)
}.

Lemma pending_nonnull k V : sched E k V -> xPendingReadyList <> 0.
Proof. intros HI E0. apply (sh_null _ _ (sc_shows _ _ _ HI)). rewrite <- E0. apply (kl_static E k V HI). set_solver. Qed.

Lemma freed_step t k k1 k2 V V1 V2 b : sched E k V -> tcbs k !! t = Some b -> cont V (xEventListItem t) = xPendingReadyList ->
  spot E t k V k1 V1 b (pxReadyTasksLists (uxPriority b)) 0 -> freed k1 k2 V1 V2 -> freed k k2 V V2.
Proof.
  intros HI Hb Hp SP [W1 W2 W3 W4 W5 W6]. pose proof (spot_tcbs E _ _ _ _ _ _ _ _ SP Hb) as Et.
  pose proof (spot_control E _ _ _ _ _ _ _ _ SP) as Hc. pose proof (sp_move _ _ _ _ _ _ _ _ _ SP) as Hm.
  pose proof (pending_nonnull k V HI) as Hpn.
  split.
  - congruence.
  - unfold control_same in *. intuition congruence.
  - intros Hs. apply W3. by apply (sp_flags _ _ _ _ _ _ _ _ _ SP).
  - intros u c Hu Hd. destruct (decide (u = t)) as [->|N].
    + simplify_eq. destruct (W5 t) as [-> ->]; [rewrite Et; eauto| |].
      * rewrite (sp_event _ _ _ _ _ _ _ _ _ SP). congruence.
      * by rewrite (sp_state _ _ _ _ _ _ _ _ _ SP), (sp_event _ _ _ _ _ _ _ _ _ SP).
    + apply W4; [by rewrite Et|]. rewrite (tm_event _ _ _ _ _ Hm); eauto.
  - intros u Hu Hd. destruct (decide (u = t)) as [->|N]; [done|].
    destruct (W5 u) as [-> ->]; [by rewrite Et|by rewrite (tm_event _ _ _ _ _ Hm)|].
    split; [by apply (tm_state _ _ _ _ _ Hm)|by apply (tm_event _ _ _ _ _ Hm)].
  - intros u Hu. rewrite W6 by (by rewrite Et). destruct (decide (u = t)) as [->|N].
    + apply (sp_value _ _ _ _ _ _ _ _ _ SP).
    + by apply (tm_state _ _ _ _ _ Hm).
Qed.

Definition events_on (k : K) (V : view) (l : Z) : gset Z :=
  filter (fun t => cont V (xEventListItem t) = l) (dom (tcbs k)).
Lemma events_on_spec k V l t : t ∈ events_on k V l <-> is_Some (tcbs k !! t) /\ cont V (xEventListItem t) = l.
Proof. unfold events_on. rewrite elem_of_filter, elem_of_dom. tauto. Qed.
Lemma events_on_size k V l : (size (events_on k V l) < S (size (tcbs k)))%nat.
Proof.
  apply Nat.lt_succ_r. rewrite <- size_dom. apply subseteq_size. intros t. rewrite events_on_spec, elem_of_dom. tauto.
Qed.
Lemma events_on_move t k0 V0 k V b ps pe l : spot E t k0 V0 k V b ps pe -> cont V0 (xEventListItem t) = l -> pe <> l ->
  (size (events_on k V l) < size (events_on k0 V0 l))%nat.
Proof.
  intros SP Hl Hps. pose proof (sp_move _ _ _ _ _ _ _ _ _ SP) as Hm. apply subset_size. split.
  - intros u. rewrite !events_on_spec, (tm_dom _ _ _ _ _ Hm). intros [Hu Hc].
    destruct (decide (u = t)) as [->|N]; [by rewrite (sp_event _ _ _ _ _ _ _ _ _ SP) in Hc|].
    by rewrite (tm_event _ _ _ _ _ Hm u N Hu) in Hc.
  - intros Hs. assert (Ht : t ∈ events_on k V l).
    { apply Hs, events_on_spec. split; [|done]. apply (tm_dom _ _ _ _ _ Hm). rewrite (sp_tcb _ _ _ _ _ _ _ _ _ SP). eauto. }
    apply events_on_spec in Ht as [_ Hc]. by rewrite (sp_event _ _ _ _ _ _ _ _ _ SP) in Hc.
Qed.

(** The first task of a list of event items. *)
Lemma event_head k V l x r : sched E k V -> l = xPendingReadyList \/ l ∈ E -> elems V l = x :: r ->
  l ∈ vlists V /\ exists t b, x = xEventListItem t /\ owner V x = t /\ tcbs k !! t = Some b /\ cont V (xEventListItem t) = l.
Proof.
  intros HI Hl Ex.
  assert (Hin : l ∈ vlists V).
  { destruct Hl as [-> | Hl]; [apply (kl_static E k V HI); set_solver|by apply (kl_event E k)]. }
  split; [done|]. destruct (on_event_list E k V HI l x Hin) as (t & b & -> & Hb & Hc); [rewrite Ex; left|done|].
  exists t, b. split; [done|]. split; [by eapply own_event|done].
Qed.

Lemma ready_pended_ok f : forall lo moved D X k V, good_at lo false E D X k V ->
  (size (events_on k V xPendingReadyList) < f)%nat ->
  wp (ready_pended f moved) k (fun r k' => exists V', good_at lo false E D X k' V' /\ freed k k' V V' /\
    (forall t, is_Some (tcbs k' !! t) -> cont V' (xEventListItem t) <> xPendingReadyList)).
Proof.
  induction f as [|f IH]; intros lo moved D X k V G Hf; [lia|]. pose proof (gd_sched _ _ _ _ _ _ _ G) as HI.
  assert (Hl : xPendingReadyList ∈ vlists V) by (apply (kl_static E k V HI); set_solver).
  cbn [ready_pended]. apply wp_bind, onl_read, (is_empty_ok _ V (sc_shows _ _ _ HI)); [done|]. split; [done|].
  destruct (bool_decide_reflect (elems V xPendingReadyList = [])) as [Ee|Ne].
  { assert (Hno : forall t, is_Some (tcbs k !! t) -> cont V (xEventListItem t) <> xPendingReadyList).
    { intros t [b Hb] Hc. assert (Hin : xEventListItem t ∈ elems V xPendingReadyList).
      { apply (sh_on _ _ (sc_shows _ _ _ HI)); [done|]. split; [by eapply it_event|done]. }
      rewrite Ee in Hin. inversion Hin. }
    apply wp_ret. exists V. split; [done|]. split; [|done]. split; try done.
    intros t b Hb Hc. exfalso. eapply Hno; eauto. }
  destruct (elems V xPendingReadyList) as [|x r] eqn:Ex; [done|].
  destruct (event_head k V _ x r HI (or_introl eq_refl) Ex) as (_ & t & b & -> & Ho & Hb & Hc).
  apply wp_bind, onl_read. eapply (head_owner_ok _ V (sc_shows _ _ _ HI)); [exact Hl|exact Ex|]. split; [done|]. rewrite Ho.
  pose proof (gd_settled _ _ _ _ _ _ _ G) as HSe. pose proof (pending_nonnull k V HI) as Hpn.
  destruct (se_event _ _ _ _ HSe t) as [HD HX]; [eauto|congruence|].
  assert (Hps : cont V (xStateListItem t) <> 0) by (intros E0; apply HD, (se_alive _ _ _ _ HSe); eauto).
  pose proof (spot_start E t k V b HI Hb) as S0. rewrite Hc in S0.
  apply wp_bind. eapply spot_remove_event; [exact S0|done|]. intros k1 V1 S1.
  apply wp_bind. eapply spot_remove_state; [exact S1|done|]. intros k2 V2 S2.
  apply wp_bind. eapply spot_add_ready; [exact S2|done|]. intros k3 V3 S3.
  apply wp_bind. eapply rd_tcb_ok; [apply (sp_tcb _ _ _ _ _ _ _ _ _ S3)|].
  destruct (proj1 (se_current _ _ _ _ HSe)) as [c Hcur].
  apply wp_bind. eapply spot_current; [exact S3|exact Hcur|]. intros c' Hc' Ec1 Ec2.
  assert (Hset : exists k4, (if uxPriority c' <=? uxPriority b then modify (set_xYieldPending true) else mret tt) k3 = Done (tt, k4) /\
    spot E t k V k4 V3 b (pxReadyTasksLists (uxPriority b)) 0 /\ good_at lo false E D X k4 V3).
  { destruct (Z.leb_spec (uxPriority c') (uxPriority b)) as [Hle|Hgt].
    - exists (set_xYieldPending true k3). split; [done|]. assert (S4 := spot_yield _ _ _ _ _ _ _ _ _ S3). split; [done|].
      eapply good_ready; [exact G|exact S4|done|done|]. right. left. by right.
    - exists k3. split; [done|]. split; [done|]. eapply good_ready; [exact G|exact S3|done|done|]. right. right.
      split; [done|]. split; [intros _ b0 Hb0; simplify_eq; lia|].
      intros N c0 Hc0. rewrite (Ec1 N) in Hgt. simplify_eq. lia. }
  destruct Hset as (k4 & Hrun & S4 & G4). apply wp_bind. eapply wp_use; [exact Hrun|].
  eapply wp_mono; [apply (IH lo true D X k4 V3 G4)|].
  - pose proof (events_on_move _ _ _ _ _ _ _ _ _ S4 Hc (not_eq_sym Hpn)). lia.
  - intros r0 k' (V' & HG & HF & Hno). exists V'. split; [done|]. split; [|done].
    eapply freed_step; [exact HI|exact Hb|exact Hc|exact S4|exact HF].
Qed.

(** What [xTaskResumeAll] makes of a state: the tasks held back are ready, and
    the ticks that came in between pass now. *)
Record caught_up (k k' : K) (V V' : view) : Prop := {
  cu_mid : exists k1 V1, freed (set_uxSchedulerSuspended 0 k) k1 V V1 /\ elapsed (xPendedTicks k) k1 k' V1 V';
  cu_pended : xPendedTicks k' = 0
}.

Lemma set_suspended_good lo sw D X k V n : good_at lo sw E D X k V -> is_u32 n ->
  good_at lo sw E D X (set_uxSchedulerSuspended n k) V.
Proof.
  intros [G1 [S1 S2 S3 S4 S5 S6 S7 S8 S9 S10 S11] G3 G4] Hn.
  split; [by eapply sched_ext; [exact G1|done..]|by split|exact G3|exact G4].
Qed.
Lemma set_pended_good lo sw D X k V n : good_at lo sw E D X k V -> is_u32 n ->
  good_at lo sw E D X (set_xPendedTicks n k) V.
Proof.
  intros [G1 [S1 S2 S3 S4 S5 S6 S7 S8 S9 S10 S11] G3 G4] Hn.
  split; [by eapply sched_ext; [exact G1|done..]|by split|exact G3|exact G4].
Qed.

Lemma alive_count D X k V : settled D X k V -> sched E k V -> 0 < uxCurrentNumberOfTasks k.
Proof.
  intros HSe HI. rewrite (se_count _ _ _ _ HSe). destruct (se_idle _ _ _ _ HSe) as (b & Hb & Hr).
  assert (Hn : ~ (xIdleTaskHandle k ∈ D)).
  { intros HD. apply (se_alive _ _ _ _ HSe) in HD; [|eauto]. rewrite Hr in HD.
    eapply ready_not_zero; [exact HI|apply (sc_tcb _ _ _ HI _ b Hb)|exact HD]. }
  assert (Hlt : (size D < size (dom (tcbs k)))%nat).
  { apply subset_size. split.
    - intros t Ht. apply elem_of_dom. apply (se_dead _ _ _ _ HSe). by left.
    - intros Hs. apply Hn, Hs, elem_of_dom. eauto. }
  rewrite size_dom in Hlt. lia.
Qed.

(** The last part of [xTaskResumeAll]: the pended ticks. *)
Definition finish_resume : M K bool :=
  pended ← gets xPendedTicks;
  (if 0 <? pended then run_pended (Z.to_nat pended);; modify (set_xPendedTicks 0) else mret tt);;
  y ← gets xYieldPending;
  (if y : bool then portYIELD;; mret true else mret false).

Lemma run_all_pended D X k V (Q : unit -> K -> Prop) : good_at (xTickCount k + 1) false E D X k V ->
  uxSchedulerSuspended k = 0 ->
  (forall k' V', good_at (xTickCount k' + 1) false E D X k' V' -> elapsed (xPendedTicks k) k k' V V' ->
     xPendedTicks k' = 0 -> Q tt k') ->
  wp (if 0 <? xPendedTicks k then run_pended (Z.to_nat (xPendedTicks k));; modify (set_xPendedTicks 0) else mret tt) k Q.
Proof.
  intros G Hs HQ. pose proof (se_pended _ _ _ _ (gd_settled _ _ _ _ _ _ _ G)) as Hp.
  destruct (Z.ltb_spec 0 (xPendedTicks k)) as [Hlt|Hge].
  - apply wp_bind. eapply wp_mono; [by apply run_pended_ok|]. intros _ k1 (V1 & G1 & HE).
    rewrite Z2Nat.id in HE by lia. apply wp_modify. apply (HQ _ V1); [|by eapply elapsed_same|done].
    by apply (set_pended_good _ _ _ _ k1).
  - assert (xPendedTicks k = 0) as E0 by (unfold is_u32 in Hp; lia). apply wp_ret. apply (HQ k V); [done| |done].
    rewrite E0. by eapply elapsed_refl.
Qed.

Lemma xTaskResumeAll_ok D X k V : good E D X k V -> uxSchedulerSuspended k <> 0 ->
  wp xTaskResumeAll k (fun r k' => exists V', good E D X k' V' /\
    uxSchedulerSuspended k' = uxSchedulerSuspended k - 1 /\ pxCurrentTCB k' = pxCurrentTCB k /\ tcbs k' = tcbs k /\
    (uxSchedulerSuspended k <> 1 -> V' = V /\ k' = set_uxSchedulerSuspended (uxSchedulerSuspended k - 1) k) /\
    (uxSchedulerSuspended k = 1 -> caught_up k k' V V' /\ (r = true -> swi_pending k' = true))).
Proof.
  intros [G R] Hs. pose proof (se_suspended _ _ _ _ (gd_settled _ _ _ _ _ _ _ G)) as Hu.
  pose proof (alive_count _ _ _ _ (gd_settled _ _ _ _ _ _ _ G) (gd_sched _ _ _ _ _ _ _ G)) as Hn.
  unfold xTaskResumeAll. apply wp_bind, wp_gets, wp_bind, wp_assert; [by rewrite (proj2 (Z.eqb_neq _ _) Hs)|].
  apply wp_bind, wp_modify, wp_bind, wp_gets. set (k0 := set_uxSchedulerSuspended (uxSchedulerSuspended k - 1) k).
  assert (G0 : good_at (xTickCount k0 + 1) false E D X k0 V) by (apply set_suspended_good; [done|zlia]).
  change (uxCurrentNumberOfTasks k0) with (uxCurrentNumberOfTasks k). rewrite (proj2 (Z.ltb_lt _ _) Hn), andb_true_r.
  destruct (Z.eqb_spec (uxSchedulerSuspended k - 1) 0) as [E1|N1].
  - apply wp_bind, wp_gets, wp_bind.
    eapply wp_mono; [apply (ready_pended_ok _ _ false D X k0 V G0), events_on_size|].
    intros moved k1 (V1 & G1 & F & Hno). pose proof F as [F1 (C1 & C2 & C3 & C4 & C5 & C6 & C7 & C8) F3 F4 F5 F6].
    apply wp_bind. eapply wp_mono with (Q := fun _ k2 => exists v, k2 = set_xNextTaskUnblockTime v k1 /\
      good_at (xTickCount k2 + 1) false E D X k2 V1).
    { rewrite <- C5 in G1. pose proof G1 as [P1 P2 P3 P4]. destruct moved.
      - apply (reset_unblock_ok E k1 V1); [by apply no_unblock|]. intros v Hv. exists v. split; [done|].
        split; [done|by eapply settled_same; [exact P2|done..]|exact P3|exact P4].
      - apply wp_ret. exists (xNextTaskUnblockTime k1). by destruct k1. }
    intros _ k2 (v & -> & G2). apply wp_bind, wp_gets, wp_bind. set (k2 := set_xNextTaskUnblockTime v k1) in *.
    assert (E2 : uxSchedulerSuspended k2 = 0) by (cbn; rewrite C3; exact E1).
    apply (run_all_pended D X k2 V1); [done|done|]. intros k3 V3 G3 HE Hp3.
    assert (HC : caught_up k k3 V V3).
    { split; [|done]. exists k2, V1. split; [|cbn in HE; by rewrite C4 in HE]. unfold k0 in *. rewrite E1 in *. by split. }
    assert (R3 : resumed k3 V3).
    { intros _. split; [done|]. rewrite (el_tcbs _ _ _ _ _ HE). intros t Ht.
      destruct (wake_time k2 V1 t) as [w|] eqn:Ew.
      - destruct (decide (w <= now k2 + xPendedTicks k2)).
        + destruct Ht as [b Hb]. destruct (el_due _ _ _ _ _ HE t b w) as [_ ->]; [done|done|done|].
          apply not_eq_sym. by eapply pending_nonnull, G2.
        + destruct (el_later _ _ _ _ _ HE t w) as [_ ->]; [done|done|lia|]. by apply Hno.
      - destruct (el_awake _ _ _ _ _ HE t) as [_ ->]; [done|done|]. by apply Hno. }
    assert (Hfin : uxSchedulerSuspended k3 = uxSchedulerSuspended k - 1 /\ pxCurrentTCB k3 = pxCurrentTCB k /\ tcbs k3 = tcbs k).
    { rewrite (el_suspended _ _ _ _ _ HE), (el_current _ _ _ _ _ HE), (el_tcbs _ _ _ _ _ HE). cbn. by rewrite C3, C1, F1. }
    apply wp_bind, wp_gets. destruct (xYieldPending k3) eqn:Ey.
    + apply wp_bind, wp_modify, wp_ret. exists V3. split; [|split; [apply Hfin|split; [apply Hfin|split; [apply Hfin|split; [lia|]]]]].
      * split; [by eapply set_swi_good|exact R3].
      * intros _. split; [|done]. destruct HC as [(ka & Va & HF & HEl) Hp]. split; [|done]. exists ka, Va. split; [done|].
        eapply elapsed_same; [exact HEl|done|done|done| |done..]. intros _. by left.
    + apply wp_ret. exists V3. split; [by split|]. destruct Hfin as (? & ? & ?). do 3 (split; [done|]). split; [lia|by auto].
  - apply wp_ret. exists V. split; [|do 3 (split; [done|]); split; [done|lia]]. split; [done|]. intros Hs0. done.
Qed.

(** ** Blocking *)

(** The task [t] sleeps until [w], or is suspended if there is no [w]; nothing
    else has moved. *)
Record blocked (t : Z) (w : option Z) (k k' : K) (V V' : view) : Prop := {
  bl_control : control_same k k';
  bl_flags : switching k -> switching k';
  bl_dom u : is_Some (tcbs k' !! u) <-> is_Some (tcbs k !! u);
  bl_tcbs u : u <> t -> tcbs k' !! u = tcbs k !! u;
  bl_wake : wake_time k' V' t = w;
  bl_suspended : w = None -> cont V' (xStateListItem t) = xSuspendedTaskList;
  bl_event : cont V' (xEventListItem t) = cont V (xEventListItem t);
  bl_rest u : u <> t -> is_Some (tcbs k !! u) -> cont V' (xStateListItem u) = cont V (xStateListItem u) /\
    cont V' (xEventListItem u) = cont V (xEventListItem u) /\ wake_time k' V' u = wake_time k V u
}.

Lemma blocked_of_move t w k k' V V' : task_move t k k' V V' -> (switching k -> switching k') ->
  wake_time k' V' t = w -> (w = None -> cont V' (xStateListItem t) = xSuspendedTaskList) ->
  cont V' (xEventListItem t) = cont V (xEventListItem t) -> blocked t w k k' V V'.
Proof.
  intros Hm Hf Hw Hn He. pose proof Hm as [T1 T2 T3 T4 T5 (? & ? & ? & ? & ? & ? & ?) (C1 & C2 & C3 & C4) _].
  split; try done. intros u N Hu. destruct (T4 u N Hu) as [E1 E2]. split; [done|]. split; [by apply T5|].
  unfold wake_time. by rewrite E1, E2, C2, C3, C4.
Qed.

Lemma set_unblock_same k : set_xNextTaskUnblockTime (xNextTaskUnblockTime k) k = k.
Proof. by destruct k. Qed.

(** The new sleeper, on the list its time to wake belongs to. *)
Lemma delay_good D X t k0 V0 k V b0 b w l s2 u : good E D X k0 V0 -> spot E t k0 V0 k V b 0 (cont V0 (xEventListItem t)) ->
  tcbs k0 !! t = Some b0 -> uxPriority b = uxPriority b0 ->
  ~ (t ∈ D) -> ~ (t ∈ X) -> t <> xIdleTaskHandle k0 ->
  l = pxDelayedTaskList k /\ xTickCount k < w \/ l = pxOverflowDelayedTaskList k /\ w < xTickCount k ->
  sched E (set_xNextTaskUnblockTime u (set_kls s2 k)) (v_insert l (xStateListItem t) (v_set_value (xStateListItem t) w V)) ->
  good E D X (set_xNextTaskUnblockTime u (set_kls s2 k)) (v_insert l (xStateListItem t) (v_set_value (xStateListItem t) w V)) /\
  blocked t (Some (xNumOfOverflows k0 * 4294967296 + w + (if w <? xTickCount k0 then 4294967296 else 0))) k0
    (set_xNextTaskUnblockTime u (set_kls s2 k)) V0 (v_insert l (xStateListItem t) (v_set_value (xStateListItem t) w V)).
Proof.
  intros [G R] SP Hb0 Hpr HD HX Hidle Hl HI. pose proof SP as [S1 S2 S3 S4 S5 S6 S7].
  set (k' := set_xNextTaskUnblockTime u (set_kls s2 k)) in *. set (V' := v_insert _ _ _) in *.
  assert (Hm : task_move t k0 k' V0 V').
  { eapply task_move_trans; [exact S2|]. assert (H1 : task_move t k (set_kls s2 k) V V').
    { eapply (move_view E _ _ _ S1 _ S3 _ _ (xStateListItem t)); [by left|]. intros x N. cbn. by rewrite !upd_miss. }
    eapply task_move_trans; [exact H1|]. by split. }
  assert (Ec : cont V' (xStateListItem t) = l) by (cbn; by rewrite upd_hit).
  assert (Ee : cont V' (xEventListItem t) = cont V0 (xEventListItem t)).
  { cbn. rewrite upd_miss; [done|]. unfold xStateListItem, xEventListItem. lia. }
  assert (Ev : value V' (xStateListItem t) = w) by (cbn; by rewrite upd_hit).
  destruct (delayed_places E k V S1) as (D1 & D2 & D3 & _ & _ & _).
  assert (Ho : pxOverflowDelayedTaskList k <> 0 /\ pxOverflowDelayedTaskList k <> xTasksWaitingTermination).
  { pose proof statics_apart as Hn. rewrite !NoDup_cons, !not_elem_of_cons in Hn. split.
    - intros E0. apply (sh_null _ _ (sc_shows _ _ _ S1)). rewrite <- E0. apply (kl_delayed E k V S1).
    - destruct (sc_delays _ _ _ S1) as [[_ ->]|[_ ->]]; intuition congruence. }
  destruct (tm_time _ _ _ _ _ S2) as (T1 & T2 & T3 & T4).
  assert (Hwk : wake_time k' V' t = Some (xNumOfOverflows k0 * 4294967296 + w + (if w <? xTickCount k0 then 4294967296 else 0))).
  { rewrite <- T1, <- T4. destruct Hl as [[-> Hlt]|[-> Hlt]].
    - rewrite wake_time_delayed by done. rewrite Ev. change (xNumOfOverflows k') with (xNumOfOverflows k).
      destruct (Z.ltb_spec w (xTickCount k)); f_equal; lia.
    - rewrite wake_time_overflow by done. rewrite Ev. change (xNumOfOverflows k') with (xNumOfOverflows k).
      destruct (Z.ltb_spec w (xTickCount k)); f_equal; lia. }
  split; [|apply blocked_of_move; [done|exact S7|done|by intros|done]].
  split; [|eapply resumed_move; [exact R|exact Hm|]; rewrite Ee; intros Hs; apply (R Hs); apply (tm_dom _ _ _ _ _ S2); eauto].
  change (xTickCount k') with (xTickCount k). rewrite T1.
  eapply good_move; [exact G|exact HI|exact Hm|apply (tm_dom _ _ _ _ _ S2); eauto|done|done|rewrite Ec| rewrite Ec|done| |].
  - destruct Hl as [[-> _]|[-> _]]; tauto.
  - destruct Hl as [[-> _]|[-> _]]; tauto.
  - unfold wakes_later. rewrite Ec, Ev. change (xTickCount k') with (xTickCount k).
    change (pxDelayedTaskList k') with (pxDelayedTaskList k). change (pxOverflowDelayedTaskList k') with (pxOverflowDelayedTaskList k).
    destruct Hl as [[-> Hlt]|[-> Hlt]]; split; intros; (congruence || lia).
  - right. destruct (gd_preempt _ _ _ _ _ _ _ G) as [?|[?|HL]]; [done|left; by apply S7|right].
    eapply lead_move; [exact HL|exact Hm| |apply (se_current _ _ _ _ (gd_settled _ _ _ _ _ _ _ G))|].
    + intros c c' Hc Hc'. change (tcbs k') with (tcbs k) in Hc'. destruct (decide (t = pxCurrentTCB k0)) as [Et|N].
      * rewrite <- Et in *. simplify_eq. lia.
      * rewrite (tm_tcb _ _ _ _ _ S2) in Hc' by congruence. by simplify_eq.
    + intros b1 c Hb1 Hr. change (tcbs k') with (tcbs k) in Hb1. rewrite Ec in Hr. exfalso.
      apply (place_ready (uxPriority b1)); [apply (sc_tcb _ _ _ S1 t b1 Hb1)|]. rewrite <- Hr.
      destruct (sc_delays _ _ _ S1) as [[E1 E2]|[E1 E2]], Hl as [[-> _]|[-> _]]; rewrite ?E1, ?E2; auto.
Qed.

Lemma prvAddCurrentTaskToDelayedList_ok D X k V c n (blk : bool) : good E D X k V -> tcbs k !! pxCurrentTCB k = Some c ->
  cont V (xStateListItem (pxCurrentTCB k)) = pxReadyTasksLists (uxPriority c) -> pxCurrentTCB k <> xIdleTaskHandle k ->
  0 < n < 4294967296 ->
  wp (prvAddCurrentTaskToDelayedList n blk) k (fun _ k' => exists V', good E D X k' V' /\
    blocked (pxCurrentTCB k) (if (n =? portMAX_DELAY) && blk then None else Some (now k + n)) k k' V V').
Proof.
  intros GR Hc Hready Hidle Hn. pose proof GR as [G R]. pose proof (gd_sched _ _ _ _ _ _ _ G) as HI.
  pose proof (gd_settled _ _ _ _ _ _ _ G) as HSe.
  set (t := pxCurrentTCB k) in *. pose proof (sc_tcb _ _ _ HI t c Hc) as Hok.
  destruct (ready_place E k V (uxPriority c) HI (ok_priority _ Hok)) as (P1 & P2 & P3 & P4 & P5).
  assert (HD : ~ (t ∈ D)) by (intros Hd; apply (se_alive _ _ _ _ HSe) in Hd; [congruence|eauto]).
  assert (HX : ~ (t ∈ X)) by (intros Hd; apply (se_term _ _ _ _ HSe) in Hd; [congruence|eauto]).
  pose proof (spot_start E t k V c HI Hc) as S0. rewrite Hready in S0.
  unfold prvAddCurrentTaskToDelayedList. apply wp_bind, wp_gets, wp_bind, wp_gets, wp_bind. fold t.
  eapply spot_wr; [exact S0|by destruct Hok|by left|]. intros k1 V1 S1.
  apply wp_bind. eapply spot_ux_remove_state; [exact S1|done|]. intros _ k2 V2 S2.
  destruct (tm_time _ _ _ _ _ (sp_move _ _ _ _ _ _ _ _ _ S2)) as (T1 & T2 & T3 & T4).
  destruct ((n =? portMAX_DELAY) && blk) eqn:Eb.
  - rewrite listINSERT_END_eq. eapply spot_put_state; [exact S2|done|by left|]. intros k3 V3 S3. exists V3.
    destruct (suspended_place E k V HI) as (Q1 & Q2 & Q3 & Q4).
    assert (Ek3 : xTickCount k3 = xTickCount k) by apply (tm_time _ _ _ _ _ (sp_move _ _ _ _ _ _ _ _ _ S3)).
    split; [split; [rewrite Ek3|]|].
    + eapply good_spot; [exact G|exact S3|done|done|done|done|by intros|by right|].
      right. right. split; [done|]. eapply spot_leads; [exact S3|eauto| |].
      * intros _ b0 Hb0. simplify_eq. done.
      * done.
    + eapply resumed_spot; [exact R|exact S3|]. intros Hs. apply (R Hs). eauto.
    + apply blocked_of_move; [apply S3|apply S3| |intros _; exact (sp_state _ _ _ _ _ _ _ _ _ S3)|exact (sp_event _ _ _ _ _ _ _ _ _ S3)].
      apply (wake_time_none k3 V3 t (sp_sched _ _ _ _ _ _ _ _ _ S3)). by rewrite (sp_state _ _ _ _ _ _ _ _ _ S3).
  - pose proof (sc_tick _ _ _ HI) as Hu. set (w := u32 (xTickCount k + n)).
    assert (Hw : is_u32 w) by apply u32_range.
    assert (Hwake : xNumOfOverflows k * 4294967296 + w + (if w <? xTickCount k then 4294967296 else 0) = now k + n).
    { unfold now, w. destruct (Z.ltb_spec (u32 (xTickCount k + n)) (xTickCount k)); zlia. }
    apply wp_bind. cbv zeta. fold w. rewrite <- T1.
    eapply (delay_ok E k2 V2 (if w <? xTickCount k2 then pxOverflowDelayedTaskList k2 else pxDelayedTaskList k2) t _ w);
      [exact (sp_sched _ _ _ _ _ _ _ _ _ S2)|exact (sp_tcb _ _ _ _ _ _ _ _ _ S2)|exact (sp_state _ _ _ _ _ _ _ _ _ S2)|done| |].
    { destruct (sc_delays _ _ _ (sp_sched _ _ _ _ _ _ _ _ _ S2)) as [[-> ->]|[-> ->]]; destruct (w <? xTickCount k2); auto. }
    intros s1 Hins.
    assert (Hend : forall l s2 u, (l = pxDelayedTaskList k2 /\ xTickCount k2 < w \/ l = pxOverflowDelayedTaskList k2 /\ w < xTickCount k2) ->
      sched E (set_xNextTaskUnblockTime u (set_kls s2 k2)) (v_insert l (xStateListItem t) (v_set_value (xStateListItem t) w V2)) ->
      exists V', good E D X (set_xNextTaskUnblockTime u (set_kls s2 k2)) V' /\
        blocked t (Some (now k + n)) k (set_xNextTaskUnblockTime u (set_kls s2 k2)) V V').
    { intros l s2 u Hl HI2. rewrite <- Hwake. eexists. eapply delay_good; [exact GR|exact S2|exact Hc|done|done|done|done|done|exact HI2]. }
    pose proof (sc_unblock _ _ _ (sp_sched _ _ _ _ _ _ _ _ _ S2)) as Hub.
    destruct (Z.ltb_spec w (xTickCount k2)) as [Hlt|Hge].
    + apply wp_bind, wp_gets. apply Hins. intros s2 Hs2.
      rewrite <- (set_unblock_same (set_kls s2 k2)). apply (Hend (pxOverflowDelayedTaskList k2)); [by right|].
      apply Hs2; [done|done|]. intros E0.
      destruct (delayed_places E k2 V2 (sp_sched _ _ _ _ _ _ _ _ _ S2)) as (_ & _ & N & _). congruence.
    + apply wp_bind, wp_gets, wp_bind. apply Hins. intros s2 Hs2.
      assert (Hgt : xTickCount k2 < w) by (unfold w in *; zlia).
      apply wp_bind, wp_gets. change (xNextTaskUnblockTime (set_kls s2 k2)) with (xNextTaskUnblockTime k2).
      destruct (Z.ltb_spec w (xNextTaskUnblockTime k2)) as [Hn2|Hn2].
      * apply wp_modify. apply (Hend (pxDelayedTaskList k2)); [by left|]. apply Hs2; [done|lia|done].
      * apply wp_ret. rewrite <- (set_unblock_same (set_kls s2 k2)). apply (Hend (pxDelayedTaskList k2)); [by left|].
        apply Hs2; [done|done|]. intros _. exact Hn2.
Qed.
End Api.
