(* ===== verification/TasksCalls.v ===== *)
(** Events, priorities and the suspension of tasks keep the scheduler's
    invariant, and where they leave the task they are called for. *)
From S2P Require Import Prelude FList Klist Tasks TasksInv TasksStep TasksRun TasksApi.

Lemma in_use_range v : is_u32 v -> is_u32 (Z.lor v taskEVENT_LIST_ITEM_VALUE_IN_USE).
Proof.
  intros [V1 V2]. set (u := taskEVENT_LIST_ITEM_VALUE_IN_USE). assert (U : 0 <= u) by done.
  assert (Hn : 0 <= Z.lor v u) by (by apply Z.lor_nonneg). split; [done|].
  destruct (Z.eq_dec (Z.lor v u) 0) as [->|N]; [done|]. apply (Z.log2_lt_pow2 _ 32); [lia|].
  rewrite Z.log2_lor by done. apply Z.max_lub_lt; [|done].
  destruct (Z.eq_dec v 0) as [->|]; [done|]. apply Z.log2_lt_pow2; lia.
Qed.

Section Calls.
Context {A : Type} `{HS : StaticsOk} (E : gset Z).
Abbreviation K := (kernel A).
Implicit Types (k : K) (V : view) (b : TCB) (D X : gset Z).

Section Good.
Context (D X : gset Z) (k : K) (V : view) (G : good E D X k V).

Lemma in_sched : sched E k V.
Proof. apply G. Qed.
Lemma in_settled : settled D X k V.
Proof. apply G. Qed.
Lemma cur_some : exists c, tcbs k !! pxCurrentTCB k = Some c.
Proof. apply (se_current _ _ _ _ in_settled). Qed.
Lemma alive_iff t b : tcbs k !! t = Some b -> cont V (xStateListItem t) <> 0 <-> ~ (t ∈ D).
Proof. intros Hb. rewrite (se_alive _ _ _ _ in_settled); [done|eauto]. Qed.
Lemma term_iff t b : tcbs k !! t = Some b -> cont V (xStateListItem t) <> xTasksWaitingTermination <-> ~ (t ∈ X).
Proof. intros Hb. rewrite (se_term _ _ _ _ in_settled); [done|eauto]. Qed.
Lemma waiting_alive t b : tcbs k !! t = Some b -> cont V (xEventListItem t) <> 0 -> ~ (t ∈ D) /\ ~ (t ∈ X).
Proof. intros Hb He. apply (se_event _ _ _ _ in_settled); eauto. Qed.
Lemma idle_ready t : t = xIdleTaskHandle k -> exists b, tcbs k !! t = Some b /\ cont V (xStateListItem t) = pxReadyTasksLists (uxPriority b).
Proof. intros ->. apply (se_idle _ _ _ _ in_settled). Qed.

(** The spot of a task is its place. *)
Lemma here t b : tcbs k !! t = Some b -> spot E t k V k V b (cont V (xStateListItem t)) (cont V (xEventListItem t)).
Proof. apply spot_start, in_sched. Qed.

(** The time of the tick is the same at a spot. *)
Lemma spot_tick t k' V' b ps pe : spot E t k V k' V' b ps pe -> xTickCount k' = xTickCount k.
Proof. intros SP. apply (tm_time _ _ _ _ _ (sp_move _ _ _ _ _ _ _ _ _ SP)). Qed.

(** A task that stayed on its list. *)
Lemma good_stay t k' V' b b0 pe : spot E t k V k' V' b (cont V (xStateListItem t)) pe -> tcbs k !! t = Some b0 ->
  ~ (t ∈ D) -> ~ (t ∈ X) ->
  (uxPriority b = uxPriority b0 \/ cont V (xStateListItem t) <> pxReadyTasksLists (uxPriority b0) /\
     cont V (xStateListItem t) <> pxReadyTasksLists (uxPriority b)) ->
  (uxSchedulerSuspended k = 0 -> pe <> xPendingReadyList) ->
  switching k' \/ (t = pxCurrentTCB k -> uxPriority b0 <= uxPriority b) -> good E D X k' V'.
Proof.
  intros SP Hb HD HX Hp Hpe Hpre. destruct G as [G0 R]. pose proof in_sched as HI. split; [|by eapply resumed_spot].
  rewrite (spot_tick _ _ _ _ _ _ SP). eapply good_spot; [exact G0|exact SP|done|done| | | |by left|].
  - by eapply alive_iff.
  - by eapply term_iff.
  - intros Ei. destruct (idle_ready t Ei) as (c & Hc & Hr). simplify_eq.
    destruct Hp as [->|[Hp _]]; [done|by rewrite Hr in Hp].
  - destruct Hpre as [?|Hpre]; [by right; left|]. right. right. split; [done|].
    intros HL. eapply spot_leads; [exact SP|by destruct cur_some as [c Hc]; eauto| | |exact HL].
    + intros Ec b1 Hb1. simplify_eq. auto.
    + intros N Hr c Hc. destruct Hp as [Ep|[_ Hp]]; [|done]. rewrite Ep in Hr |- *. by eapply HL.
Qed.

(** A task that has become ready. *)
Lemma good_woken t k' V' b b0 pe : spot E t k V k' V' b (pxReadyTasksLists (uxPriority b)) pe -> tcbs k !! t = Some b0 ->
  ~ (t ∈ D) -> ~ (t ∈ X) -> (uxSchedulerSuspended k = 0 -> pe <> xPendingReadyList) ->
  switching k' \/ (t = pxCurrentTCB k -> uxPriority b0 <= uxPriority b) /\
    (t <> pxCurrentTCB k -> forall c, tcbs k !! pxCurrentTCB k = Some c -> uxPriority b <= uxPriority c) -> good E D X k' V'.
Proof.
  intros SP Hb HD HX Hpe Hpre. destruct G as [G0 R]. split; [|by eapply resumed_spot].
  rewrite (spot_tick _ _ _ _ _ _ SP). eapply good_ready; [exact G0|exact SP|done|done|].
  destruct Hpre as [?|[P1 P2]]; [by right; left|]. right. right. split; [done|]. split; [|done].
  intros Ec b1 Hb1. simplify_eq. auto.
Qed.

(** A task off the ready lists, not asleep. *)
Lemma good_parked t k' V' b b0 ps pe : spot E t k V k' V' b ps pe -> tcbs k !! t = Some b0 -> uxPriority b = uxPriority b0 ->
  ~ (t ∈ D) -> ~ (t ∈ X) -> ps = xSuspendedTaskList -> t <> xIdleTaskHandle k ->
  (uxSchedulerSuspended k = 0 -> pe <> xPendingReadyList) -> good E D X k' V'.
Proof.
  intros SP Hb Hp HD HX -> Hi Hpe. destruct G as [G0 R]. split; [|by eapply resumed_spot].
  destruct (suspended_place E k V in_sched) as (Q1 & Q2 & Q3 & Q4).
  rewrite (spot_tick _ _ _ _ _ _ SP). eapply good_spot; [exact G0|exact SP|done|done|done|done|done|by right|].
  right. right. split; [done|]. eapply spot_leads; [exact SP|by destruct cur_some as [c Hc]; eauto| |].
  - intros Ec b1 Hb1. simplify_eq. lia.
  - intros N Hr. exfalso. destruct (ready_place E k V (uxPriority b) in_sched) as (_ & _ & _ & _ & P5); [|congruence].
    apply (sc_tcb _ _ _ (sp_sched _ _ _ _ _ _ _ _ _ SP) t b), SP.
Qed.
End Good.

(** ** Waiting for an event *)

(** The running task is ready, on no event list, and is not the idle task. *)
Record can_wait (k : K) (V : view) (c : TCB) : Prop := {
  cw_tcb : tcbs k !! pxCurrentTCB k = Some c;
  cw_ready : cont V (xStateListItem (pxCurrentTCB k)) = pxReadyTasksLists (uxPriority c);
  cw_event : cont V (xEventListItem (pxCurrentTCB k)) = 0;
  cw_idle : pxCurrentTCB k <> xIdleTaskHandle k
}.

Lemma ready_alive D X k V t b : good E D X k V -> tcbs k !! t = Some b ->
  cont V (xStateListItem t) = pxReadyTasksLists (uxPriority b) -> ~ (t ∈ D) /\ ~ (t ∈ X).
Proof.
  intros G Hb Hr. pose proof (in_sched _ _ _ _ G) as HI.
  destruct (ready_place E k V (uxPriority b) HI) as (P1 & P2 & P3 & P4 & P5); [by apply (sc_tcb _ _ _ HI t b)|].
  split; [eapply alive_iff|eapply term_iff]; eauto; congruence.
Qed.

Definition wait_until (k : K) (n : Z) (blk : bool) : option Z :=
  if (n =? portMAX_DELAY) && blk then None else Some (now k + n).

(** The current task waits on the event list [l], until [w] at the latest. *)
Definition waits_on (l : Z) (w : option Z) (k k' : K) (V V' : view) : Prop :=
  exists k1 V1 c, spot E (pxCurrentTCB k) k V k1 V1 c (cont V (xStateListItem (pxCurrentTCB k))) l /\
    blocked (pxCurrentTCB k) w k1 k' V1 V'.

Lemma event_nonnull k V l : sched E k V -> l ∈ E -> l <> 0.
Proof. intros HI Hl ->. apply (sh_null _ _ (sc_shows _ _ _ HI)). by apply (kl_event E k). Qed.
Lemma event_not_pending k V l : sched E k V -> l ∈ E -> l <> xPendingReadyList.
Proof. intros HI Hl ->. apply (sc_events _ _ _ HI _ Hl). apply kernel_pending. Qed.

Lemma wait_start D X k V c : good E D X k V -> can_wait k V c ->
  spot E (pxCurrentTCB k) k V k V c (cont V (xStateListItem (pxCurrentTCB k))) 0.
Proof. intros G [Hc Hr He Hi]. rewrite <- He. by apply spot_start; [apply (in_sched _ _ _ _ G)|]. Qed.

(** Once its event item is on [l], the task goes to sleep. *)
Lemma event_then_delay D X k V c l n (blk : bool) k1 V1 : good E D X k V -> can_wait k V c -> l ∈ E -> 0 < n < 4294967296 ->
  spot E (pxCurrentTCB k) k V k1 V1 c (cont V (xStateListItem (pxCurrentTCB k))) l ->
  wp (prvAddCurrentTaskToDelayedList n blk) k1 (fun _ k' => exists V', good E D X k' V' /\
    waits_on l (wait_until k n blk) k k' V V').
Proof.
  intros G [Hc Hr He Hi] Hl Hn S1. set (t := pxCurrentTCB k) in *. destruct (ready_alive D X k V t c G Hc Hr) as [HD HX].
  assert (Hl0 : l <> xPendingReadyList) by (eapply event_not_pending; [apply (in_sched _ _ _ _ G)|done]).
  assert (G1 : good E D X k1 V1) by (eapply (good_stay D X k V G t); [exact S1|exact Hc|done|done|by left|done|by right]).
  destruct (spot_control E _ _ _ _ _ _ _ _ S1) as (C1 & C2 & C3 & C4 & C5 & C6 & C7 & C8).
  eapply wp_mono; [apply (prvAddCurrentTaskToDelayedList_ok E D X k1 V1 c n blk G1)|].
  - rewrite C1. apply S1.
  - rewrite C1. fold t. rewrite (sp_state _ _ _ _ _ _ _ _ _ S1). done.
  - by rewrite C1, C2.
  - done.
  - intros _ k' (V' & G' & B). exists V'. split; [done|]. exists k1, V1, c. split; [done|]. fold t. rewrite C1 in B.
    unfold wait_until, now in *. by rewrite C5, C8 in B.
Qed.

Section Waiting.
Context (D X : gset Z) (k : K) (V : view) (c : TCB) (G : good E D X k V) (Hw : can_wait k V c) (l : Z) (Hl : l ∈ E).

Lemma vTaskPlaceOnEventList_ok n : 0 < n < 4294967296 ->
  wp (vTaskPlaceOnEventList l n) k (fun _ k' => exists V', good E D X k' V' /\ waits_on l (wait_until k n true) k k' V V').
Proof.
  intros Hn. apply wp_bind, wp_assert; [by rewrite (proj2 (Z.eqb_neq l 0) (event_nonnull k V l (in_sched _ _ _ _ G) Hl))|].
  apply wp_bind, wp_gets, wp_bind. eapply spot_insert_event; [by eapply wait_start|done|done|].
  intros k1 V1 S1. by eapply event_then_delay.
Qed.

Lemma vTaskPlaceOnUnorderedEventList_ok v n : is_u32 v -> uxSchedulerSuspended k <> 0 -> 0 < n < 4294967296 ->
  wp (vTaskPlaceOnUnorderedEventList l v n) k (fun _ k' => exists V', good E D X k' V' /\
    waits_on l (wait_until k n true) k k' V V').
Proof.
  intros Hv Hs Hn. apply wp_bind, wp_assert; [by rewrite (proj2 (Z.eqb_neq l 0) (event_nonnull k V l (in_sched _ _ _ _ G) Hl))|].
  apply wp_bind, wp_gets, wp_bind, wp_assert; [by rewrite (proj2 (Z.eqb_neq _ 0) Hs)|].
  apply wp_bind, wp_gets, wp_bind. eapply spot_set_event; [by eapply wait_start|by apply in_use_range|].
  intros k1 V1 S1. apply wp_bind. rewrite listINSERT_END_eq. eapply spot_put_event; [exact S1|done|by right|].
  intros k2 V2 S2. by eapply event_then_delay.
Qed.

Lemma vTaskPlaceOnEventListRestricted_ok n (blk : bool) : 0 < n < 4294967296 ->
  wp (vTaskPlaceOnEventListRestricted l n blk) k (fun _ k' => exists V', good E D X k' V' /\
    waits_on l (if blk then None else Some (now k + n)) k k' V V').
Proof.
  intros Hn. apply wp_bind, wp_assert; [by rewrite (proj2 (Z.eqb_neq l 0) (event_nonnull k V l (in_sched _ _ _ _ G) Hl))|].
  apply wp_bind, wp_gets, wp_bind. rewrite listINSERT_END_eq. eapply spot_put_event; [by eapply wait_start|done|by right|].
  intros k1 V1 S1. eapply wp_mono; [apply (event_then_delay D X k V c l _ blk k1 V1)|]; try done; [by destruct blk|].
  unfold wait_until. destruct blk; cbn; [done|]. by rewrite andb_false_r.
Qed.
End Waiting.

(** ** Waking the waiters of an event *)

(** The task [t] has left its event list: it is ready, or on the pending ready
    list while the scheduler is suspended. *)
Definition woken (t : Z) (b : TCB) (k k' : K) (V V' : view) : Prop :=
  if uxSchedulerSuspended k =? 0 then spot E t k V k' V' b (pxReadyTasksLists (uxPriority b)) 0
  else spot E t k V k' V' b (cont V (xStateListItem t)) xPendingReadyList.

Lemma alive_state D X k V t b : good E D X k V -> tcbs k !! t = Some b -> ~ (t ∈ D) -> cont V (xStateListItem t) <> 0.
Proof. intros G Hb HD. by eapply alive_iff. Qed.

(** After a task has been readied its priority is compared with the current one;
    without a switch it does not run before the current task. *)
Lemma spot_compare t k V k1 V1 b ps pe {Y} (flag : bool -> M K Y) (lt : Z -> Z -> bool) (Q : Y -> K -> Prop) c :
  spot E t k V k1 V1 b ps pe -> tcbs k !! t = Some b -> tcbs k !! pxCurrentTCB k = Some c ->
  wp (flag (lt (uxPriority c) (uxPriority b))) k1 Q ->
  wp (b ← rd_tcb t; c ← current; flag (lt (uxPriority c) (uxPriority b))) k1 Q.
Proof.
  intros SP Hb Hc HQ. apply wp_bind. eapply rd_tcb_ok; [apply SP|]. apply wp_bind.
  eapply spot_current; [exact SP|exact Hc|]. intros c' Hc' E1 E2. destruct (decide (t = pxCurrentTCB k)) as [Et|N].
  - rewrite (E2 Et). rewrite <- Et, Hb in Hc. by injection Hc as <-.
  - by rewrite (E1 N).
Qed.

Lemma woken_spot t b k k' V V' : woken t b k k' V V' -> exists ps pe, spot E t k V k' V' b ps pe.
Proof. unfold woken. case_match; eauto. Qed.

Lemma woken_good D X t b c k k' V V' : good E D X k V -> tcbs k !! t = Some b -> tcbs k !! pxCurrentTCB k = Some c ->
  ~ (t ∈ D) -> ~ (t ∈ X) -> woken t b k k' V V' -> switching k' \/ uxPriority b <= uxPriority c -> good E D X k' V'.
Proof.
  intros G Hb Hc HD HX W Hp. pose proof (in_sched _ _ _ _ G) as HI. unfold woken in W.
  destruct (Z.eqb_spec (uxSchedulerSuspended k) 0) as [E0|N0].
  - eapply (good_woken D X k V G t); [exact W|exact Hb|done|done|intros _; apply not_eq_sym; by eapply pending_nonnull|].
    destruct Hp as [?|Hp]; [by left|right]. split; [intros _; lia|]. intros _ c0 Hc0. by simplify_eq.
  - eapply (good_stay D X k V G t); [exact W|exact Hb|done|done|by left|done|by right].
Qed.

Lemma woken_compare D X t b c k V k1 V1 : good E D X k V -> tcbs k !! t = Some b -> tcbs k !! pxCurrentTCB k = Some c ->
  ~ (t ∈ D) -> ~ (t ∈ X) -> woken t b k k1 V V1 ->
  wp (b ← rd_tcb t; c ← current;
      if uxPriority c <? uxPriority b then modify (set_xYieldPending true);; mret true else mret false) k1
    (fun y k' => exists V', good E D X k' V' /\ woken t b k k' V V' /\
       y = (uxPriority c <? uxPriority b) /\ (y = true -> xYieldPending k' = true)).
Proof.
  intros G Hb Hc HD HX W. destruct (woken_spot _ _ _ _ _ _ W) as (ps & pe & SP).
  apply (spot_compare t k V k1 V1 b ps pe (fun y => if y then modify (set_xYieldPending true);; mret true else mret false) Z.ltb _ c SP Hb Hc).
  destruct (Z.ltb_spec (uxPriority c) (uxPriority b)) as [Hlt|Hge].
  - apply wp_bind, wp_modify, wp_ret. exists V1.
    assert (W1 : woken t b k (set_xYieldPending true k1) V V1) by (unfold woken in *; case_match; by apply spot_yield).
    split; [|by auto]. eapply woken_good; [exact G|exact Hb|exact Hc|done|done|exact W1|left; by right].
  - apply wp_ret. exists V1. split; [|by auto].
    eapply woken_good; [exact G|exact Hb|exact Hc|done|done|exact W|by right].
Qed.

Lemma xTaskRemoveFromEventList_ok D X k V l t b c r : good E D X k V -> l ∈ E -> elems V l = xEventListItem t :: r ->
  tcbs k !! t = Some b -> tcbs k !! pxCurrentTCB k = Some c ->
  wp (xTaskRemoveFromEventList l) k (fun y k' => exists V', good E D X k' V' /\ woken t b k k' V V' /\
    y = (uxPriority c <? uxPriority b) /\ (y = true -> xYieldPending k' = true)).
Proof.
  intros G Hl Ex Hb Hcur. pose proof (in_sched _ _ _ _ G) as HI. pose proof (event_nonnull k V l HI Hl) as Hl0.
  assert (Hin : l ∈ vlists V) by (by apply (kl_event E k)).
  assert (Hc : cont V (xEventListItem t) = l) by (apply (sh_where _ _ (sc_shows _ _ _ HI) l _ Hin); rewrite Ex; left).
  destruct (waiting_alive D X k V G t b Hb) as [HD HX]; [congruence|].
  pose proof (alive_state D X k V t b G Hb HD) as Hps.
  apply wp_bind, onl_read. eapply (head_owner_ok _ V (sc_shows _ _ _ HI)); [exact Hin|exact Ex|]. split; [done|].
  rewrite (own_event E k V HI t b Hb).
  apply wp_bind, wp_assert. { destruct (Z.eqb_spec t 0) as [->|]; [|done]. by rewrite (sc_null _ _ _ HI) in Hb. }
  pose proof (here D X k V G t b Hb) as S0. rewrite Hc in S0.
  apply wp_bind. eapply spot_remove_event; [exact S0|done|]. intros k1 V1 S1. apply wp_bind, wp_gets.
  destruct (spot_control E _ _ _ _ _ _ _ _ S1) as (_ & _ & Es & _). rewrite Es. apply wp_bind.
  pose proof (fun k2 V2 => woken_compare D X t b c k V k2 V2 G Hb Hcur HD HX) as Hfin. unfold woken in Hfin at 1.
  destruct (Z.eqb_spec (uxSchedulerSuspended k) 0) as [E0|N0].
  - apply wp_bind. eapply spot_remove_state; [exact S1|done|]. intros k2 V2 S2.
    eapply spot_add_ready; [exact S2|done|]. intros k3 V3 S3. by apply (Hfin k3 V3).
  - rewrite listINSERT_END_eq. eapply spot_put_event; [exact S1|done|by left|]. intros k3 V3 S3. by apply (Hfin k3 V3).
Qed.

Lemma vTaskRemoveFromUnorderedEventList_ok D X k V t b c v : good E D X k V -> cont V (xEventListItem t) <> 0 ->
  uxSchedulerSuspended k <> 0 -> is_u32 v -> tcbs k !! t = Some b -> tcbs k !! pxCurrentTCB k = Some c ->
  wp (vTaskRemoveFromUnorderedEventList (xEventListItem t) v) k (fun _ k' => exists V', good E D X k' V' /\
    spot E t k V k' V' b (pxReadyTasksLists (uxPriority b)) 0 /\ (uxPriority c < uxPriority b -> xYieldPending k' = true)).
Proof.
  intros G Hc Hs Hv Hb Hcur. pose proof (in_sched _ _ _ _ G) as HI.
  destruct (waiting_alive D X k V G t b Hb Hc) as [HD HX]. pose proof (alive_state D X k V t b G Hb HD) as Hps.
  pose proof (here D X k V G t b Hb) as S0.
  apply wp_bind, wp_gets, wp_bind, wp_assert; [by rewrite (proj2 (Z.eqb_neq _ 0) Hs)|].
  apply wp_bind. eapply spot_set_event; [exact S0|by apply in_use_range|]. intros k1 V1 S1.
  apply wp_bind, onl_read. pose proof (sp_sched _ _ _ _ _ _ _ _ _ S1) as HI1. pose proof (sp_tcb _ _ _ _ _ _ _ _ _ S1) as Hb1.
  apply (get_owner_ok _ V1); [apply (sc_shows _ _ _ HI1)|by eapply it_event|]. split; [done|].
  rewrite (own_event E k1 V1 HI1 t b Hb1).
  apply wp_bind, wp_assert. { destruct (Z.eqb_spec t 0) as [->|]; [|done]. by rewrite (sc_null _ _ _ HI) in Hb. }
  apply wp_bind. eapply spot_remove_event; [exact S1|done|]. intros k2 V2 S2.
  apply wp_bind. eapply spot_remove_state; [exact S2|done|]. intros k3 V3 S3.
  apply wp_bind. eapply spot_add_ready; [exact S3|done|]. intros k4 V4 S4.
  apply (spot_compare t k V k4 V4 b _ _ (fun y => if y then modify (set_xYieldPending true) else mret tt) Z.ltb _ c S4 Hb Hcur).
  assert (Hg : forall k5, spot E t k V k5 V4 b (pxReadyTasksLists (uxPriority b)) 0 ->
    switching k5 \/ uxPriority b <= uxPriority c -> good E D X k5 V4).
  { intros k5 S5 Hp. eapply (good_woken D X k V G t); [exact S5|exact Hb|done|done|done|].
    destruct Hp as [?|Hp]; [by left|right]. split; [intros _; lia|]. intros _ c0 Hc0. by simplify_eq. }
  destruct (Z.ltb_spec (uxPriority c) (uxPriority b)) as [Hlt|Hge].
  - apply wp_modify. exists V4. pose proof (spot_yield _ _ _ _ _ _ _ _ _ S4) as S5. split; [|done]. apply Hg; [done|left; by right].
  - apply wp_ret. exists V4. split; [apply Hg; auto|]. split; [done|lia].
Qed.
End Calls.
