(* ===== verification/TasksPrio.v ===== *)
(** Priorities: setting them, and what a mutex makes of the priority of the task
    that holds it. *)
From S2P Require Import Prelude FList Klist Tasks TasksInv TasksStep TasksRun TasksApi TasksCalls.

Section Prio.
Context {A : Type} `{HS : StaticsOk} (E : gset Z).
Abbreviation K := (kernel A).
Implicit Types (k : K) (V : view) (b : TCB) (D X : gset Z).

(** [vTaskPrioritySet] writes the priority before it takes the task off the
    ready list of the old one.  List operations do not look at the control
    blocks, so the write may be seen to come after them. *)
Lemma onl_later {Y} (m : M lstate Y) T k (Q : Y -> K -> Prop) :
  wp (onl m) k (fun r k' => Q r (set_tcbs T k')) -> wp (onl m) (set_tcbs T k) Q.
Proof. unfold wp, onl, zoom. cbn. by destruct (m (kls k)) as [[]|]. Qed.

Lemma wp_unbind {S Y Z} (m : M S Y) (f : Y -> M S Z) s Q : wp (m ≫= f) s Q -> wp m s (fun r s' => wp (f r) s' Q).
Proof. unfold wp, mbind, M_bind. by destruct (m s) as [[]|]. Qed.

Lemma event_priority_later t p T k (Q : unit -> K -> Prop) :
  wp (set_event_priority t p) k (fun r k' => Q r (set_tcbs T k')) -> wp (set_event_priority t p) (set_tcbs T k) Q.
Proof.
  intros HQ. apply wp_unbind in HQ. apply wp_bind, onl_later. eapply wp_mono; [exact HQ|].
  intros v k1. cbv beta. destruct (_ =? 0); [apply onl_later|done].
Qed.

Lemma spot_late_wr t k0 V0 k V b b' ps pe : spot E t k0 V0 k V b ps pe -> tcb_ok b' ->
  uxPriority b' = uxPriority b \/ ps <> pxReadyTasksLists (uxPriority b) ->
  spot E t k0 V0 (set_tcbs (<[t := b']> (tcbs k)) k) V b' ps pe.
Proof.
  intros [S1 S2 S3 S4 S5 S6 S7] Hok Hp. split; [| |cbn; by rewrite lookup_insert_eq|done|done|done|done].
  - eapply sched_tcb; [done|exact S3|done|]. by rewrite S4.
  - eapply task_move_trans; [exact S2|]. by eapply move_wr.
Qed.

(** Where the state item of a task is when its priority changes: it goes with
    the ready list. *)
Definition along (k : K) (V : view) (t : Z) (b b' : TCB) : Z :=
  if cont V (xStateListItem t) =? pxReadyTasksLists (uxPriority b) then pxReadyTasksLists (uxPriority b')
  else cont V (xStateListItem t).

Lemma not_ready_any k V t b p : sched E k V -> tcbs k !! t = Some b -> 0 <= p < configMAX_PRIORITIES ->
  cont V (xStateListItem t) <> pxReadyTasksLists (uxPriority b) -> cont V (xStateListItem t) <> pxReadyTasksLists p.
Proof. intros HI Hb Hp N Hr. apply N. rewrite Hr. f_equal. symmetry. by eapply ready_priority. Qed.

(** A change of priority keeps the invariant if a switch is under way or the
    task does not get in front of the current one. *)
Lemma set_tcbs_twice T T' k : set_tcbs T (set_tcbs T' k) = set_tcbs T k.
Proof. done. Qed.

Section Along.
Context (D X : gset Z) (k : K) (V : view) (G : good E D X k V) (t : Z) (b c : TCB).
Context (Hb : tcbs k !! t = Some b) (Hc : tcbs k !! pxCurrentTCB k = Some c) (HD : ~ (t ∈ D)) (HX : ~ (t ∈ X)).

Lemma along_place b' : tcb_ok b' -> along k V t b b' <> 0 /\ along k V t b b' <> xTasksWaitingTermination /\
  (t = xIdleTaskHandle k -> along k V t b b' = pxReadyTasksLists (uxPriority b')) /\
  (along k V t b b' = cont V (xStateListItem t) \/
     along k V t b b' <> xDelayedTaskList1 /\ along k V t b b' <> xDelayedTaskList2).
Proof.
  intros Hok. pose proof (in_sched _ _ _ _ _ G) as HI.
  destruct (ready_place E k V (uxPriority b') HI (ok_priority _ Hok)) as (P1 & P2 & P3 & P4 & P5). unfold along.
  destruct (Z.eqb_spec (cont V (xStateListItem t)) (pxReadyTasksLists (uxPriority b))) as [Er|Nr].
  - split; [done|]. split; [done|]. split; [done|by right].
  - split; [by eapply alive_iff|]. split; [by eapply term_iff|]. split; [|by left]. intros Et.
    destruct (idle_ready E D X k V G t Et) as (b0 & Hb0 & Hr). by simplify_eq.
Qed.

(** A change of priority keeps the invariant if a switch is under way or the
    task does not get in front of the current one. *)
Lemma good_along sw b' k' V' pe : spot E t k V k' V' b' (along k V t b b') pe ->
  (uxSchedulerSuspended k = 0 -> pe <> xPendingReadyList) ->
  sw = true \/ switching k' \/
    (t = pxCurrentTCB k -> uxPriority b <= uxPriority b') /\
    (t <> pxCurrentTCB k -> uxPriority b' <= uxPriority b \/ uxPriority b' <= uxPriority c) ->
  good_at (xTickCount k' + 1) sw E D X k' V' /\ resumed k' V'.
Proof.
  intros SP Hpe Hpre. pose proof (in_sched _ _ _ _ _ G) as HI. pose proof G as [G0 R].
  assert (Hok : tcb_ok b') by (apply (sc_tcb _ _ _ (sp_sched _ _ _ _ _ _ _ _ _ SP) t b'), SP).
  destruct (along_place b' Hok) as (A1 & A2 & A3 & A4).
  split; [|by eapply resumed_spot]. rewrite (spot_tick _ _ _ _ _ _ _ _ _ SP).
  eapply good_spot; [exact G0|exact SP|done|done|done|done|done|done|].
  destruct Hpre as [?|[?|[P1 P2]]]; [by left|by right; left|right; right]. split; [done|]. intros HL.
  eapply spot_leads; [exact SP|eauto| | |exact HL].
  - intros Et b0 Hb0. simplify_eq. auto.
  - intros Nt Hr c0 Hc0. simplify_eq. destruct (P2 Nt) as [Hle|Hle]; [|done]. transitivity (uxPriority b); [done|].
    apply (HL t b c Hb); [|done]. unfold along in Hr. destruct (Z.eqb_spec (cont V (xStateListItem t)) (pxReadyTasksLists (uxPriority b))) as [?|Nr]; [done|].
    exfalso. eapply (not_ready_any k V t b (uxPriority b')); eauto. apply Hok.
Qed.

(** The event item is where it was; it is not on the pending ready list while
    the scheduler runs. *)
Lemma event_kept : uxSchedulerSuspended k = 0 -> cont V (xEventListItem t) <> xPendingReadyList.
Proof. intros Hs. apply (gd_resumed _ _ _ _ _ G Hs). eauto. Qed.

(** Moving the state item from the old ready list to the new one, the priority
    written before ([late]) or already there. *)
Lemma along_stays b' : uxPriority b' = uxPriority b -> along k V t b b' = cont V (xStateListItem t).
Proof. intros Hp. unfold along. rewrite Hp. by destruct (Z.eqb_spec (cont V (xStateListItem t)) (pxReadyTasksLists (uxPriority b))) as [->|]. Qed.

Lemma reorder_ok b' k1 V1 pe p (Q : unit -> K -> Prop) : tcb_ok b' -> p = uxPriority b ->
  spot E t k V k1 V1 b (cont V (xStateListItem t)) pe ->
  (forall k' V', spot E t k V k' V' b' (along k V t b b') pe -> Q tt k') ->
  wp (r ← onl (listIS_CONTAINED_WITHIN (pxReadyTasksLists p) (xStateListItem t));
      if r : bool then onl (uxListRemove (xStateListItem t));; prvAddTaskToReadyList t else mret tt)
     (set_tcbs (<[t := b']> (tcbs k)) k1) Q.
Proof.
  intros Hok -> S1 HQ. pose proof (in_sched _ _ _ _ _ G) as HI. apply wp_bind, onl_later. eapply spot_within_state; [exact S1|].
  assert (Hps : cont V (xStateListItem t) <> 0) by (by eapply alive_iff).
  pose proof (fun k2 V2 ps S2 => spot_late_wr t k V k2 V2 b b' ps pe S2 Hok) as Hlate.
  destruct (Z.eqb_spec (cont V (xStateListItem t)) (pxReadyTasksLists (uxPriority b))) as [Er|Nr].
  - apply wp_bind, onl_later. eapply spot_ux_remove_state; [exact S1|done|]. intros _ k2 V2 S2.
    assert (S3 := Hlate k2 V2 0 S2 ltac:(right; apply not_eq_sym; by apply (ready_place E k V _ HI), (sc_tcb _ _ _ HI t b Hb))).
    rewrite (spot_tcbs _ _ _ _ _ _ _ _ _ S2 Hb) in S3. eapply spot_add_ready; [exact S3|done|]. intros k3 V3 S4.
    apply (HQ k3 V3). unfold along. by rewrite (proj2 (Z.eqb_eq _ _) Er).
  - apply wp_ret. apply (HQ _ V1). unfold along. rewrite (proj2 (Z.eqb_neq _ _) Nr).
    rewrite <- (spot_tcbs _ _ _ _ _ _ _ _ _ S1 Hb). apply Hlate; [done|by right].
Qed.
End Along.

(** ** vTaskPrioritySet *)

Definition reprioritised (p : Z) (b : TCB) : TCB :=
  if uxBasePriority b =? p then b
  else set_uxBasePriority p (if uxBasePriority b =? uxPriority b then set_uxPriority p b else b).

Lemma reprioritised_ok p b : tcb_ok b -> 0 <= p < configMAX_PRIORITIES -> tcb_ok (reprioritised p b).
Proof. intros [B1 B2 B3] Hp. unfold reprioritised. repeat case_match; by split. Qed.

Lemma prvGetTCBFromHandle_ok k h (Q : Z -> K -> Prop) : Q (if h =? 0 then pxCurrentTCB k else h) k -> wp (prvGetTCBFromHandle h) k Q.
Proof. intros HQ. by apply wp_bind, wp_gets, wp_ret. Qed.

Lemma vTaskPrioritySet_ok D X k V h p b : good E D X k V -> 0 <= p < configMAX_PRIORITIES ->
  let t := if h =? 0 then pxCurrentTCB k else h in
  tcbs k !! t = Some b -> ~ (t ∈ D) -> ~ (t ∈ X) ->
  wp (vTaskPrioritySet h p) k (fun _ k' => exists V', good E D X k' V' /\
    spot E t k V k' V' (reprioritised p b) (along k V t b (reprioritised p b)) (cont V (xEventListItem t))).
Proof.
  intros G Hp t Hb HD HX. pose proof (in_sched _ _ _ _ _ G) as HI. destruct (cur_some E D X k V G) as [c Hc].
  assert (Hok := sc_tcb _ _ _ HI t b Hb).
  apply wp_bind, wp_assert; [apply Z.ltb_lt, Hp|]. apply wp_bind, prvGetTCBFromHandle_ok. fold t.
  apply wp_bind. eapply rd_tcb_ok; [exact Hb|]. generalize (reprioritised_ok p b Hok Hp). unfold reprioritised.
  destruct (Z.eqb_spec (uxBasePriority b) p) as [Eb|Nb]; intros Hok'.
  { apply wp_ret. exists V. split; [done|]. rewrite along_stays by done. exact (spot_start E t k V b HI Hb). }
  apply wp_bind, wp_gets, wp_bind. eapply current_ok; [exact Hc|]. apply wp_bind.
  set (b1 := if uxBasePriority b =? uxPriority b then set_uxPriority p b else b) in *.
  set (b' := set_uxBasePriority p b1) in *. eapply wp_use with (a := tt) (s' := set_tcbs (<[t := b1]> (tcbs k)) k).
  { unfold b1. destruct (uxBasePriority b =? uxPriority b); [unfold wr_tcb, rd_tcb, mbind, M_bind; cbn; by rewrite Hb|].
    rewrite insert_id by done. by destruct k. }
  apply wp_bind. eapply wr_tcb_ok; [cbn; by rewrite lookup_insert_eq|]. cbn [tcbs set_tcbs]. rewrite insert_insert_eq, set_tcbs_twice.
  apply wp_bind, event_priority_later. eapply spot_event_priority; [exact (spot_start E t k V b HI Hb)|]. intros k1 V1 S1.
  pose proof (reorder_ok D X k V G t b Hb HD b' k1 V1 _ (uxPriority b)
    (fun _ k2 => exists V2, spot E t k V k2 V2 b' (along k V t b b') (cont V (xEventListItem t)))
    Hok' eq_refl S1 (fun k2 V2 S2 => ex_intro _ V2 S2)) as Hre.
  apply wp_bind. eapply wp_mono; [exact (wp_unbind _ _ _ _ Hre)|].
  intros r k2 HQ. apply wp_bind. eapply wp_mono; [exact HQ|]. intros [] k3 (V3 & S3). cbv beta.
  assert (Hend : forall k4, spot E t k V k4 V3 b' (along k V t b b') (cont V (xEventListItem t)) ->
    switching k4 \/ (t = pxCurrentTCB k -> uxPriority b <= uxPriority b') /\
      (t <> pxCurrentTCB k -> uxPriority b' <= uxPriority b \/ uxPriority b' <= uxPriority c) ->
    exists V', good E D X k4 V' /\ spot E t k V k4 V' b' (along k V t b b') (cont V (xEventListItem t))).
  { intros k4 S4 Hp4. exists V3. split; [|done]. destruct (good_along D X k V G t b c Hb Hc HD HX false b' k4 V3 _ S4); [|by right|by split].
    by eapply event_kept. }
  case_match eqn:Ey.
  - apply wp_modify, Hend; [by apply spot_swi|left; by left].
  - apply wp_ret, Hend; [done|right].
    assert (Ep : uxPriority b' = if uxBasePriority b =? uxPriority b then p else uxPriority b).
    { unfold b', b1. by destruct (uxBasePriority b =? uxPriority b). }
    rewrite Ep. destruct (Z.ltb_spec (uxBasePriority b) p), (Z.eqb_spec (uxBasePriority b) (uxPriority b)),
      (Z.eqb_spec t (pxCurrentTCB k)), (Z.leb_spec (uxPriority c) p); cbn in Ey; (split; intros; (done || lia)).
Qed.

(** ** Mutexes *)

Lemma set_tcb_good D X k V t b b' : good E D X k V -> tcbs k !! t = Some b -> tcb_ok b' -> uxPriority b' = uxPriority b ->
  good E D X (set_tcbs (<[t := b']> (tcbs k)) k) V.
Proof.
  intros [G R] Hb Hok Hp. split; [by eapply good_wr|]. intros Hs. destruct (R Hs) as [P1 P2]. split; [done|].
  intros u Hu. apply P2. revert Hu. cbn. destruct (decide (u = t)) as [->|N]; [by rewrite Hb|by rewrite lookup_insert_ne].
Qed.

Lemma uxTaskResetEventItemValue_ok D X k V c : good E D X k V -> tcbs k !! pxCurrentTCB k = Some c -> ~ (pxCurrentTCB k ∈ X) ->
  wp uxTaskResetEventItemValue k (fun v k' => exists V', good E D X k' V' /\
    spot E (pxCurrentTCB k) k V k' V' c (cont V (xStateListItem (pxCurrentTCB k))) (cont V (xEventListItem (pxCurrentTCB k))) /\
    v = value V (xEventListItem (pxCurrentTCB k))).
Proof.
  intros G Hc HX. pose proof (here E D X k V G _ c Hc) as S0.
  apply wp_bind, wp_gets, wp_bind. eapply spot_get_event; [exact S0|]. apply wp_bind. eapply rd_tcb_ok; [exact Hc|].
  apply wp_bind. eapply spot_set_event; [exact S0|apply u32_range|]. intros k1 V1 S1. apply wp_ret. exists V1.
  split; [|done]. eapply (good_stay E D X k V G (pxCurrentTCB k)); [exact S1|exact Hc|apply (se_current _ _ _ _ (in_settled _ _ _ _ _ G))|done|by left| |right; lia].
  intros Hs. eapply event_kept; eauto.
Qed.

(** The task that holds one more mutex. *)
Lemma pvTaskIncrementMutexHeldCount_ok D X k V c : good E D X k V -> tcbs k !! pxCurrentTCB k = Some c ->
  wp pvTaskIncrementMutexHeldCount k (fun r k' => r = pxCurrentTCB k /\ good E D X k' V /\
    k' = set_tcbs (<[pxCurrentTCB k := set_uxMutexesHeld (u32 (uxMutexesHeld c + 1)) c]> (tcbs k)) k).
Proof.
  intros G Hc. pose proof (in_sched _ _ _ _ _ G) as HI. destruct (sc_tcb _ _ _ HI _ c Hc) as [B1 B2 B3].
  apply wp_bind, wp_gets, wp_bind. destruct (Z.eqb_spec (pxCurrentTCB k) 0) as [E0|N].
  { rewrite E0, (sc_null _ _ _ HI) in Hc. done. }
  eapply wr_tcb_ok; [exact Hc|]. apply wp_ret. split; [done|]. split; [|done].
  eapply set_tcb_good; [exact G|exact Hc| |done]. split; [done|done|apply u32_range].
Qed.

(** The holder of a mutex that the current task waits for gets its priority. *)
Lemma xTaskPriorityInherit_ok D X k V h b c : good E D X k V -> tcbs k !! h = Some b -> tcbs k !! pxCurrentTCB k = Some c ->
  ~ (h ∈ D) -> ~ (h ∈ X) ->
  wp (xTaskPriorityInherit h) k (fun r k' => exists V' b', good E D X k' V' /\
    spot E h k V k' V' b' (along k V h b b') (cont V (xEventListItem h)) /\
    b' = (if uxPriority b <? uxPriority c then set_uxPriority (uxPriority c) b else b) /\
    r = (uxPriority b <? uxPriority c) || (uxBasePriority b <? uxPriority c)).
Proof.
  intros G Hb Hc HD HX. pose proof (in_sched _ _ _ _ _ G) as HI. pose proof (here E D X k V G _ b Hb) as S0.
  destruct (sc_tcb _ _ _ HI _ b Hb) as [B1 B2 B3]. destruct (sc_tcb _ _ _ HI _ c Hc) as [C1 _ _].
  assert (Hps : cont V (xStateListItem h) <> 0) by (by eapply alive_iff).
  unfold xTaskPriorityInherit. destruct (Z.eqb_spec h 0) as [->|N]; [by rewrite (sc_null _ _ _ HI) in Hb|].
  apply wp_bind. eapply rd_tcb_ok; [exact Hb|]. apply wp_bind. eapply current_ok; [exact Hc|].
  destruct (Z.ltb_spec (uxPriority b) (uxPriority c)) as [Hlt|Hge].
  2:{ apply wp_ret. exists V, b. split; [done|]. rewrite along_stays by done. by split. }
  set (b' := set_uxPriority (uxPriority c) b). assert (Hok' : tcb_ok b') by by split.
  assert (Hfin : forall k1 V1, spot E h k V k1 V1 b' (along k V h b b') (cont V (xEventListItem h)) -> good E D X k1 V1).
  { intros k1 V1 S1. destruct (good_along D X k V G h b c Hb Hc HD HX false b' k1 V1 _ S1); [by eapply event_kept| |by split].
    right. right. split; [cbn; lia|]. intros _. by right. }
  apply wp_bind. eapply spot_event_priority; [exact S0|]. intros k1 V1 S1. apply wp_bind.
  eapply spot_within_state; [exact S1|]. unfold along in *.
  destruct (Z.eqb_spec (cont V (xStateListItem h)) (pxReadyTasksLists (uxPriority b))) as [Er|Nr]; apply wp_bind.
  - apply wp_bind. eapply spot_ux_remove_state; [exact S1|done|]. intros _ k2 V2 S2.
    apply wp_bind. eapply spot_wr; [exact S2|exact Hok'|right; apply not_eq_sym; by apply (ready_place E k V _ HI B1)|]. intros k3 V3 S3.
    eapply spot_add_ready; [exact S3|done|]. intros k4 V4 S4. apply wp_ret. exists V4, b'. split; [by eapply Hfin|by split].
  - eapply spot_wr; [exact S1|exact Hok'|by right|]. intros k2 V2 S2. apply wp_ret. exists V2, b'. split; [by eapply Hfin|by split].
Qed.

(** The current task gives a mutex back; with the last one it gets its own
    priority again, and the caller has to switch. *)
Definition disinherited (b : TCB) : TCB :=
  let b1 := set_uxMutexesHeld (uxMutexesHeld b - 1) b in
  if negb (uxPriority b =? uxBasePriority b) && (uxMutexesHeld b - 1 =? 0) then set_uxPriority (uxBasePriority b) b1 else b1.

Lemma xTaskPriorityDisinherit_ok D X k V b : good E D X k V -> tcbs k !! pxCurrentTCB k = Some b ->
  ~ (pxCurrentTCB k ∈ X) -> uxMutexesHeld b <> 0 ->
  cont V (xStateListItem (pxCurrentTCB k)) = pxReadyTasksLists (uxPriority b) ->
  wp (xTaskPriorityDisinherit (pxCurrentTCB k)) k (fun r k' => exists V',
    good_at (xTickCount k' + 1) r E D X k' V' /\ resumed k' V' /\
    spot E (pxCurrentTCB k) k V k' V' (disinherited b) (pxReadyTasksLists (uxPriority (disinherited b)))
      (cont V (xEventListItem (pxCurrentTCB k))) /\
    r = negb (uxPriority b =? uxBasePriority b) && (uxMutexesHeld b - 1 =? 0)).
Proof.
  intros G Hb HX Hheld Hr. pose proof (in_sched _ _ _ _ _ G) as HI. set (t := pxCurrentTCB k) in *.
  pose proof (here E D X k V G _ b Hb) as S0. destruct (sc_tcb _ _ _ HI _ b Hb) as [B1 B2 B3].
  assert (HD : ~ (t ∈ D)) by apply (se_current _ _ _ _ (in_settled _ _ _ _ _ G)).
  assert (Hps : cont V (xStateListItem t) <> 0) by (by eapply alive_iff).
  unfold xTaskPriorityDisinherit. destruct (Z.eqb_spec t 0) as [E0|N]; [by rewrite E0, (sc_null _ _ _ HI) in Hb|].
  apply wp_bind, wp_gets, wp_bind, wp_assert; [apply Z.eqb_refl|]. apply wp_bind. eapply rd_tcb_ok; [exact Hb|].
  apply wp_bind, wp_assert; [by rewrite (proj2 (Z.eqb_neq _ 0) Hheld)|].
  set (b1 := set_uxMutexesHeld (uxMutexesHeld b - 1) b). assert (Hok1 : tcb_ok b1) by (split; [done|done|cbn; zlia]).
  apply wp_bind. eapply spot_wr; [exact S0|exact Hok1|by left|]. intros k1 V1 S1.
  assert (Hfin : forall (r : bool) b2 k2 V2, spot E t k V k2 V2 b2 (pxReadyTasksLists (uxPriority b2)) (cont V (xEventListItem t)) ->
    r = true \/ uxPriority b2 = uxPriority b -> good_at (xTickCount k2 + 1) r E D X k2 V2 /\ resumed k2 V2).
  { intros r b2 k2 V2 S2 Hp. apply (good_along D X k V G t b b Hb Hb HD HX r b2 k2 V2 (cont V (xEventListItem t))).
    - unfold along. by rewrite (proj2 (Z.eqb_eq _ _) Hr).
    - by eapply event_kept.
    - destruct Hp as [->| ->]; [by left|right; right]. split; intros; lia. }
  unfold disinherited. fold b1. destruct (_ && _) eqn:Ey.
  - apply wp_bind. eapply spot_ux_remove_state; [exact S1|done|]. intros _ k2 V2 S2.
    apply wp_bind. eapply spot_wr; [exact S2| |right; apply not_eq_sym; by apply (ready_place E k V _ HI B1)|]; [by split; destruct Hok1|]. intros k3 V3 S3.
    apply wp_bind. eapply spot_set_event; [exact S3|apply u32_range|]. intros k4 V4 S4.
    apply wp_bind. eapply spot_add_ready; [exact S4|done|]. intros k5 V5 S5. apply wp_ret. exists V5.
    destruct (Hfin true _ k5 V5 S5); [by left|]. by split.
  - rewrite Hr in S1. apply wp_ret. exists V1. destruct (Hfin false _ k1 V1 S1); [by right|]. by split.
Qed.

(** A waiter has given up: the holder keeps the highest priority still waiting. *)
Definition lowered (p : Z) (b : TCB) : TCB :=
  let p := Z.max (uxBasePriority b) p in
  if negb (uxPriority b =? p) && (uxMutexesHeld b =? 1) then set_uxPriority p b else b.

Lemma vTaskPriorityDisinheritAfterTimeout_ok D X k V h b c p : good E D X k V -> tcbs k !! h = Some b ->
  tcbs k !! pxCurrentTCB k = Some c -> h <> pxCurrentTCB k -> ~ (h ∈ D) -> ~ (h ∈ X) -> uxMutexesHeld b <> 0 ->
  0 <= p < configMAX_PRIORITIES -> Z.max (uxBasePriority b) p <= Z.max (uxPriority b) (uxPriority c) ->
  wp (vTaskPriorityDisinheritAfterTimeout h p) k (fun _ k' => exists V', good E D X k' V' /\
    spot E h k V k' V' (lowered p b) (along k V h b (lowered p b)) (cont V (xEventListItem h))).
Proof.
  intros G Hb Hc Hne HD HX Hheld Hp Hle. pose proof (in_sched _ _ _ _ _ G) as HI.
  destruct (sc_tcb _ _ _ HI _ b Hb) as [B1 B2 B3].
  unfold vTaskPriorityDisinheritAfterTimeout. destruct (Z.eqb_spec h 0) as [->|N]; [by rewrite (sc_null _ _ _ HI) in Hb|].
  apply wp_bind. eapply rd_tcb_ok; [exact Hb|]. apply wp_bind, wp_assert; [by rewrite (proj2 (Z.eqb_neq _ 0) Hheld)|].
  cbv zeta. replace (if uxBasePriority b <? p then p else uxBasePriority b) with (Z.max (uxBasePriority b) p)
    by (destruct (Z.ltb_spec (uxBasePriority b) p); lia).
  unfold lowered. set (m := Z.max (uxBasePriority b) p) in *. destruct (_ && _) eqn:Ey.
  2:{ apply wp_ret. exists V. split; [done|]. rewrite along_stays by done. exact (here E D X k V G _ b Hb). }
  set (b' := set_uxPriority m b). assert (Hok' : tcb_ok b') by (split; [cbn; lia|done|done]).
  apply wp_bind, wp_gets, wp_bind, wp_assert; [by rewrite (proj2 (Z.eqb_neq _ _) Hne)|].
  apply wp_bind. eapply wr_tcb_ok; [exact Hb|]. fold b'.
  apply wp_bind, event_priority_later. eapply spot_event_priority; [exact (here E D X k V G _ b Hb)|]. intros k1 V1 S1.
  eapply (reorder_ok D X k V G h b Hb HD b' k1 V1 _ (uxPriority b)); [exact Hok'|done|exact S1|]. intros k2 V2 S2.
  exists V2. split; [|done]. destruct (good_along D X k V G h b c Hb Hc HD HX false b' k2 V2 _ S2); [by eapply event_kept| |by split].
  right. right. split; [done|]. intros _. cbn. lia.
Qed.
End Prio.
