(* ===== verification/TasksSusp.v ===== *)
(** Suspending, resuming and aborting: what they do to a task, and the state
    that [eTaskGetState] tells. *)
From S2P Require Import Prelude FList Klist Tasks TasksInv TasksStep TasksRun TasksApi TasksCalls TasksPrio.

Section Susp.
Context {A : Type} `{HS : StaticsOk} (E : gset Z).
Abbreviation K := (kernel A).
Implicit Types (k : K) (V : view) (b : TCB) (D X : gset Z).

Definition tcb_suspended (b : TCB) : TCB :=
  if ucNotifyState b =? taskWAITING_NOTIFICATION then set_ucNotifyState taskNOT_WAITING_NOTIFICATION b else b.

Lemma suspend_section_ok D X k V h b : good E D X k V ->
  let t := if h =? 0 then pxCurrentTCB k else h in
  tcbs k !! t = Some b -> ~ (t ∈ D) -> ~ (t ∈ X) -> t <> xIdleTaskHandle k ->
  wp (suspend_section h) k (fun r k' => r = t /\ exists V', good E D X k' V' /\
    spot E t k V k' V' (tcb_suspended b) xSuspendedTaskList 0).
Proof.
  intros G t Hb HD HX Hi. pose proof (in_sched _ _ _ _ _ G) as HI. pose proof (here E D X k V G t b Hb) as S0.
  assert (Hps : cont V (xStateListItem t) <> 0) by (by eapply alive_iff).
  apply wp_bind, prvGetTCBFromHandle_ok. fold t.
  apply wp_bind. eapply spot_ux_remove_state; [exact S0|done|]. intros _ k1 V1 S1.
  apply wp_bind. eapply spot_leave_event; [exact S1|]. intros k2 V2 S2.
  apply wp_bind. eapply spot_put_state; [exact S2|done|by left|]. intros k3 V3 S3.
  apply wp_bind. eapply rd_tcb_ok; [apply S3|].
  assert (Hfin : forall k4 V4, spot E t k V k4 V4 (tcb_suspended b) xSuspendedTaskList 0 -> good E D X k4 V4).
  { intros k4 V4 S4. eapply (good_parked E D X k V G t); [exact S4|exact Hb| |done|done|done|done|].
    - unfold tcb_suspended. by case_match.
    - intros _. apply not_eq_sym. by eapply pending_nonnull. }
  apply wp_bind. unfold tcb_suspended in *. destruct (ucNotifyState b =? taskWAITING_NOTIFICATION).
  - destruct (sc_tcb _ _ _ HI t b Hb) as [B1 B2 B3]. eapply spot_wr; [exact S3|by split|by left|]. intros k4 V4 S4.
    apply wp_ret. split; [done|]. exists V4. split; [by apply Hfin|done].
  - apply wp_ret. split; [done|]. exists V3. split; [by apply Hfin|done].
Qed.

Lemma reset_unblock_good D X k V : good E D X k V -> wp prvResetNextTaskUnblockTime k (fun _ k' => exists v,
  k' = set_xNextTaskUnblockTime v k /\ good E D X k' V).
Proof.
  intros [[P1 P2 P3 P4] R]. apply (reset_unblock_ok E k V); [by apply no_unblock|]. intros v Hv. exists v. split; [done|].
  split; [|done]. split; [done|by eapply settled_same; [exact P2|done..]|exact P3|exact P4].
Qed.

Lemma good_swi D X k V : good E D X k V -> good E D X (set_swi_pending true k) V.
Proof. intros [G R]. split; [by eapply set_swi_good|exact R]. Qed.
Lemma good_yield D X k V : good E D X k V -> good E D X (set_xYieldPending true k) V.
Proof. intros [G R]. split; [by eapply set_yield_good|exact R]. Qed.

Lemma suspend_finish_ok D X k V t : good E D X k V -> (t = pxCurrentTCB k -> uxSchedulerSuspended k = 0) ->
  wp (suspend_finish t) k (fun _ k' => good E D X k' V /\
    k' = if t =? pxCurrentTCB k then set_swi_pending true k else k).
Proof.
  intros G Hs. apply wp_bind, wp_gets. destruct (Z.eqb_spec t (pxCurrentTCB k)) as [Et|N]; cbn [negb].
  - apply wp_bind, wp_gets. rewrite (se_running _ _ _ _ (in_settled _ _ _ _ _ G)).
    apply wp_bind, wp_gets, wp_bind, wp_assert; [apply Z.eqb_eq; auto|]. apply wp_modify. split; [by apply good_swi|done].
  - by apply wp_ret.
Qed.

Lemma vTaskSuspend_ok D X k V h b : good E D X k V ->
  let t := if h =? 0 then pxCurrentTCB k else h in
  tcbs k !! t = Some b -> ~ (t ∈ D) -> ~ (t ∈ X) -> t <> xIdleTaskHandle k ->
  (t = pxCurrentTCB k -> uxSchedulerSuspended k = 0) ->
  wp (vTaskSuspend h) k (fun _ k' => exists V', good E D X k' V' /\
    spot E t k V k' V' (tcb_suspended b) xSuspendedTaskList 0 /\ (t = pxCurrentTCB k -> swi_pending k' = true)).
Proof.
  intros G t Hb HD HX Hi Hs. apply wp_bind. eapply wp_mono; [by apply (suspend_section_ok D X k V h b)|]. fold t.
  intros _ k1 (-> & V1 & G1 & S1). apply wp_bind, wp_gets. rewrite (se_running _ _ _ _ (in_settled _ _ _ _ _ G1)).
  apply wp_bind. eapply wp_mono; [by apply (reset_unblock_good D X k1 V1)|]. intros _ k2 (v & -> & G2). cbv beta.
  destruct (spot_control E _ _ _ _ _ _ _ _ S1) as (C1 & _ & C3 & _).
  assert (S2 : spot E t k V (set_xNextTaskUnblockTime v k1) V1 (tcb_suspended b) xSuspendedTaskList 0).
  { eapply (spot_ext E); [exact S1|apply (in_sched _ _ _ _ _ G2)|done|by split|done]. }
  eapply wp_mono; [apply (suspend_finish_ok D X _ V1 t G2)|].
  - cbn. by rewrite C1, C3.
  - intros _ k3 [G3 ->]. exists V1. split; [done|]. cbn [pxCurrentTCB set_xNextTaskUnblockTime]. rewrite C1.
    destruct (Z.eqb_spec t (pxCurrentTCB k)) as [Et|N]; [|by split]. split; [by apply spot_swi|done].
Qed.

(** ** Resuming a task *)

Lemma spot_trans t k V k1 V1 b1 ps1 pe1 k2 V2 b2 ps2 pe2 : spot E t k V k1 V1 b1 ps1 pe1 -> spot E t k1 V1 k2 V2 b2 ps2 pe2 ->
  spot E t k V k2 V2 b2 ps2 pe2.
Proof.
  intros [A1 A2 A3 A4 A5 A6 A7] [B1 B2 B3 B4 B5 B6 B7]. split; try done; [by eapply task_move_trans|congruence|auto].
Qed.

Lemma prvTaskIsTaskSuspended_ok D X k V t b (Q : bool -> K -> Prop) : good E D X k V -> tcbs k !! t = Some b ->
  Q ((cont V (xStateListItem t) =? xSuspendedTaskList) && (cont V (xEventListItem t) =? 0)) k ->
  wp (prvTaskIsTaskSuspended t) k Q.
Proof.
  intros G Hb HQ. pose proof (in_sched _ _ _ _ _ G) as HI. pose proof (here E D X k V G t b Hb) as S0.
  apply wp_bind, wp_assert. { destruct (Z.eqb_spec t 0) as [->|]; [|done]. by rewrite (sc_null _ _ _ HI) in Hb. }
  apply wp_bind. eapply spot_within_state; [exact S0|].
  destruct (cont V (xStateListItem t) =? xSuspendedTaskList); cbn [negb andb] in *; [|by apply wp_ret].
  apply wp_bind. eapply spot_within_event; [exact S0|].
  destruct (Z.eqb_spec (cont V (xEventListItem t)) xPendingReadyList) as [Ep|Np]; [|by eapply spot_within_event].
  apply wp_ret. destruct (Z.eqb_spec (cont V (xEventListItem t)) 0) as [E0|N0]; [|done].
  exfalso. eapply pending_nonnull; [exact HI|congruence].
Qed.

(** A task suspended without an end, not by an event list. *)
Definition is_suspended (V : view) (t : Z) : bool :=
  (cont V (xStateListItem t) =? xSuspendedTaskList) && (cont V (xEventListItem t) =? 0).

Lemma suspended_alive D X k V t b : good E D X k V -> tcbs k !! t = Some b -> is_suspended V t = true ->
  ~ (t ∈ D) /\ ~ (t ∈ X) /\ cont V (xStateListItem t) = xSuspendedTaskList /\ cont V (xEventListItem t) = 0.
Proof.
  intros G Hb [Hs%Z.eqb_eq He%Z.eqb_eq]%andb_true_iff. pose proof (in_sched _ _ _ _ _ G) as HI.
  destruct (suspended_place E k V HI) as (Q1 & Q2 & Q3 & Q4).
  split; [|split; [|done]]; [eapply alive_iff; eauto; congruence|eapply term_iff; eauto; congruence].
Qed.

Lemma vTaskResume_ok D X k V t b c : good E D X k V -> tcbs k !! t = Some b -> tcbs k !! pxCurrentTCB k = Some c ->
  wp (vTaskResume t) k (fun _ k' => exists V', good E D X k' V' /\
    if negb (t =? pxCurrentTCB k) && is_suspended V t
    then spot E t k V k' V' b (pxReadyTasksLists (uxPriority b)) 0 /\ (uxPriority c <= uxPriority b -> swi_pending k' = true)
    else k' = k /\ V' = V).
Proof.
  intros G Hb Hc. pose proof (in_sched _ _ _ _ _ G) as HI.
  apply wp_bind, wp_assert. { destruct (Z.eqb_spec t 0) as [->|]; [|done]. by rewrite (sc_null _ _ _ HI) in Hb. }
  apply wp_bind, wp_gets. destruct (Z.eqb_spec t (pxCurrentTCB k)) as [Et|N]; cbn [negb andb]; [apply wp_ret; by exists V|].
  apply wp_bind. eapply prvTaskIsTaskSuspended_ok; [exact G|exact Hb|]. fold (is_suspended V t).
  destruct (is_suspended V t) eqn:Es; cbn [negb]; [|apply wp_ret; by exists V].
  destruct (suspended_alive D X k V t b G Hb Es) as (HD & HX & E1 & E2).
  pose proof (here E D X k V G t b Hb) as S0. rewrite E1, E2 in S0.
  apply wp_bind. eapply spot_ux_remove_state; [exact S0|apply (suspended_place E k V HI)|]. intros _ k1 V1 S1.
  apply wp_bind. eapply spot_add_ready; [exact S1|done|]. intros k2 V2 S2.
  apply (spot_compare E t k V k2 V2 b _ _ (fun y => if y then portYIELD else mret tt) Z.leb _ c S2 Hb Hc).
  assert (Hg : forall k3, spot E t k V k3 V2 b (pxReadyTasksLists (uxPriority b)) 0 ->
    switching k3 \/ uxPriority b <= uxPriority c -> good E D X k3 V2).
  { intros k3 S3 Hp. eapply (good_woken E D X k V G t); [exact S3|exact Hb|done|done|intros _; apply not_eq_sym; by eapply pending_nonnull|].
    destruct Hp as [?|Hp]; [by left|right]. split; [done|]. intros _ c0 Hc0. by simplify_eq. }
  destruct (Z.leb_spec (uxPriority c) (uxPriority b)) as [Hle|Hgt].
  - apply wp_modify. pose proof (spot_swi _ _ _ _ _ _ _ _ _ S2) as S3. exists V2. split; [|by split].
    apply Hg; [done|left; by left].
  - apply wp_ret. exists V2. split; [apply Hg; [done|right; lia]|]. split; [done|lia].
Qed.

(** From an interrupt: while the scheduler is suspended the task is only put
    on the pending ready list. *)
Lemma xTaskResumeFromISR_ok D X k V t b c : good E D X k V -> tcbs k !! t = Some b -> tcbs k !! pxCurrentTCB k = Some c ->
  wp (xTaskResumeFromISR t) k (fun r k' => exists V', good E D X k' V' /\
    if is_suspended V t
    then woken E t b k k' V V' /\ r = (uxSchedulerSuspended k =? 0) && (uxPriority c <=? uxPriority b) /\
         (r = true -> switching k')
    else r = false /\ k' = k /\ V' = V).
Proof.
  intros G Hb Hc. pose proof (in_sched _ _ _ _ _ G) as HI.
  apply wp_bind, wp_assert. { destruct (Z.eqb_spec t 0) as [->|]; [|done]. by rewrite (sc_null _ _ _ HI) in Hb. }
  apply wp_bind. eapply prvTaskIsTaskSuspended_ok; [exact G|exact Hb|]. fold (is_suspended V t).
  destruct (is_suspended V t) eqn:Es; cbn [negb]; [|apply wp_ret; by exists V].
  destruct (suspended_alive D X k V t b G Hb Es) as (HD & HX & E1 & E2).
  pose proof (here E D X k V G t b Hb) as S0. rewrite E2 in S0.
  pose proof (fun k' V' => woken_good E D X t b c k k' V V' G Hb Hc HD HX) as Hg. unfold woken in *.
  apply wp_bind, wp_gets. destruct (Z.eqb_spec (uxSchedulerSuspended k) 0) as [Ez|Nz]; cbn [andb].
  - rewrite E1 in S0. apply wp_bind. eapply rd_tcb_ok; [exact Hb|]. apply wp_bind. eapply current_ok; [exact Hc|].
    assert (Hset : exists k1, (if uxPriority c <=? uxPriority b then modify (set_xYieldPending true) else mret tt) k = Done (tt, k1) /\
      spot E t k V k1 V b xSuspendedTaskList 0 /\ ((uxPriority c <=? uxPriority b) = true -> switching k1)).
    { destruct (uxPriority c <=? uxPriority b); [exists (set_xYieldPending true k)|exists k]; (split; [done|]); [|by auto].
      split; [by apply spot_yield|by right]. }
    destruct Hset as (k1 & Hrun & S1 & Hy). apply wp_bind. eapply wp_use; [exact Hrun|].
    pose proof (spot_start E t k1 V b (sp_sched _ _ _ _ _ _ _ _ _ S1) (sp_tcb _ _ _ _ _ _ _ _ _ S1)) as T1. rewrite E1, E2 in T1.
    apply wp_bind. eapply spot_ux_remove_state; [exact T1|apply (suspended_place E k V HI)|]. intros _ k2 V2 T2.
    apply wp_bind. eapply spot_add_ready; [exact T2|done|]. intros k3 V3 T3. apply wp_ret. exists V3.
    pose proof (spot_trans _ _ _ _ _ _ _ _ _ _ _ _ _ S1 T3) as S3. pose proof (sp_flags _ _ _ _ _ _ _ _ _ T3) as Hf.
    split; [|by auto]. apply Hg; [done|]. destruct (Z.leb_spec (uxPriority c) (uxPriority b)) as [Hle|Hgt]; [left; auto|right; lia].
  - apply wp_bind. eapply spot_put_event; [exact S0|done|by left|]. intros k1 V1 S1. apply wp_ret. exists V1.
    split; [|by auto]. eapply (good_stay E D X k V G t); [exact S1|exact Hb|done|done|by left|done|right; intros _; lia].
Qed.

(** ** The state of a task, and aborting a delay *)

Definition state_of (k : K) (V : view) (t : Z) (b : TCB) : eTaskState :=
  if t =? pxCurrentTCB k then eRunning
  else if (cont V (xStateListItem t) =? pxDelayedTaskList k) || (cont V (xStateListItem t) =? pxOverflowDelayedTaskList k) then eBlocked
  else if cont V (xStateListItem t) =? xSuspendedTaskList then
    if (cont V (xEventListItem t) =? 0) && negb (ucNotifyState b =? taskWAITING_NOTIFICATION) then eSuspended else eBlocked
  else if (cont V (xStateListItem t) =? xTasksWaitingTermination) || (cont V (xStateListItem t) =? 0) then eDeleted
  else eReady.

Lemma eTaskGetState_ok k V t b (Q : eTaskState -> K -> Prop) : sched E k V -> tcbs k !! t = Some b ->
  Q (state_of k V t b) k -> wp (eTaskGetState t) k Q.
Proof.
  intros HI Hb HQ. pose proof (spot_start E t k V b HI Hb) as S0. unfold state_of in HQ.
  apply wp_bind, wp_assert. { destruct (Z.eqb_spec t 0) as [->|]; [|done]. by rewrite (sc_null _ _ _ HI) in Hb. }
  apply wp_bind, wp_gets. destruct (t =? pxCurrentTCB k); [by apply wp_ret|].
  apply wp_bind. eapply spot_container_state; [exact S0|]. apply wp_bind, wp_gets, wp_bind, wp_gets.
  destruct (_ || _); [by apply wp_ret|]. destruct (cont V (xStateListItem t) =? xSuspendedTaskList).
  - apply wp_bind. eapply spot_container_event; [exact S0|].
    destruct (cont V (xEventListItem t) =? 0); [|by apply wp_ret].
    apply wp_bind. eapply rd_tcb_ok; [exact Hb|]. apply wp_ret.
    by destruct (ucNotifyState b =? taskWAITING_NOTIFICATION).
  - destruct (_ || _); by apply wp_ret.
Qed.

Lemma blocked_alive D X k V t b : good E D X k V -> tcbs k !! t = Some b -> state_of k V t b = eBlocked ->
  t <> pxCurrentTCB k /\ ~ (t ∈ D) /\ ~ (t ∈ X).
Proof.
  intros G Hb. pose proof (in_sched _ _ _ _ _ G) as HI. destruct (suspended_place E k V HI) as (Q1 & Q2 & Q3 & Q4).
  destruct (delayed_places E k V HI) as (D1 & D2 & D3 & _).
  assert (Ho : pxOverflowDelayedTaskList k <> 0 /\ pxOverflowDelayedTaskList k <> xTasksWaitingTermination).
  { pose proof statics_apart as Hn. rewrite !NoDup_cons, !not_elem_of_cons in Hn. split.
    - intros E0. apply (sh_null _ _ (sc_shows _ _ _ HI)). rewrite <- E0. apply (kl_delayed E k V HI).
    - destruct (sc_delays _ _ _ HI) as [[_ ->]|[_ ->]]; intuition congruence. }
  unfold state_of. destruct (Z.eqb_spec t (pxCurrentTCB k)) as [|N]; [done|]. intros Hs. split; [done|].
  assert (Hp : cont V (xStateListItem t) <> 0 /\ cont V (xStateListItem t) <> xTasksWaitingTermination).
  { destruct (Z.eqb_spec (cont V (xStateListItem t)) (pxDelayedTaskList k)) as [->|]; [tauto|].
    destruct (Z.eqb_spec (cont V (xStateListItem t)) (pxOverflowDelayedTaskList k)) as [->|]; [tauto|].
    destruct (Z.eqb_spec (cont V (xStateListItem t)) xSuspendedTaskList) as [->|]; [tauto|].
    cbn [orb] in Hs. destruct (Z.eqb_spec (cont V (xStateListItem t)) xTasksWaitingTermination); [done|].
    by destruct (Z.eqb_spec (cont V (xStateListItem t)) 0). }
  split; [apply (alive_iff E D X k V G t b Hb), Hp|apply (term_iff E D X k V G t b Hb), Hp].
Qed.

(** A blocked task becomes ready before its time; if it waited on an event list
    it learns so. *)
Definition tcb_aborted (V : view) (t : Z) (b : TCB) : TCB :=
  if cont V (xEventListItem t) =? 0 then b else set_ucDelayAborted true b.

Lemma abort_section_ok D X k V t b c : good E D X k V -> tcbs k !! t = Some b -> tcbs k !! pxCurrentTCB k = Some c ->
  wp (abort_section t) k (fun r k' => exists V', good E D X k' V' /\
    if bool_decide (state_of k V t b = eBlocked)
    then spot E t k V k' V' (tcb_aborted V t b) (pxReadyTasksLists (uxPriority b)) 0 /\ r = true /\
         (uxPriority c < uxPriority b -> xYieldPending k' = true)
    else r = false /\ k' = k /\ V' = V).
Proof.
  intros G Hb Hc. pose proof (in_sched _ _ _ _ _ G) as HI. apply wp_bind. eapply eTaskGetState_ok; [exact HI|exact Hb|].
  case_bool_decide as Es; [|apply wp_ret; by exists V]. destruct (blocked_alive D X k V t b G Hb Es) as (N & HD & HX).
  assert (Hps : cont V (xStateListItem t) <> 0) by (by eapply alive_iff).
  pose proof (here E D X k V G t b Hb) as S0.
  apply wp_bind. eapply spot_ux_remove_state; [exact S0|done|]. intros _ k1 V1 S1.
  apply wp_bind. eapply spot_container_event; [exact S1|].
  assert (Hp : uxPriority (tcb_aborted V t b) = uxPriority b) by (unfold tcb_aborted; by case_match).
  apply wp_bind. eapply wp_mono with (Q := fun _ k2 => exists V2, spot E t k V k2 V2 (tcb_aborted V t b) 0 0).
  { unfold tcb_aborted. destruct (Z.eqb_spec (cont V (xEventListItem t)) 0) as [E0|N0].
    - apply wp_ret. exists V1. rewrite E0 in S1. exact S1.
    - apply wp_bind. eapply spot_ux_remove_event; [exact S1|done|]. intros _ k2 V2 S2.
      destruct (sc_tcb _ _ _ HI t b Hb). eapply spot_wr; [exact S2|by split|by left|]. intros k3 V3 S3. by exists V3. }
  intros _ k2 (V2 & S2). apply wp_bind. eapply spot_add_ready; [exact S2|done|]. rewrite Hp. intros k3 V3 S3.
  apply wp_bind. eapply rd_tcb_ok; [apply S3|]. rewrite Hp. apply wp_bind. eapply spot_current; [exact S3|exact Hc|].
  intros c' Hc' E1 _. rewrite (E1 N).
  assert (Hg : forall k4, spot E t k V k4 V3 (tcb_aborted V t b) (pxReadyTasksLists (uxPriority b)) 0 ->
    switching k4 \/ uxPriority b <= uxPriority c -> good E D X k4 V3).
  { intros k4 S4 Hpr. eapply (good_woken E D X k V G t); [rewrite Hp; exact S4|exact Hb|done|done|intros _; apply not_eq_sym; by eapply pending_nonnull|].
    rewrite Hp. destruct Hpr as [?|Hpr]; [by left|right]. split; [done|]. intros _ c0 Hc0. by simplify_eq. }
  apply wp_bind. destruct (Z.ltb_spec (uxPriority c) (uxPriority b)) as [Hlt|Hge].
  - pose proof (spot_yield _ _ _ _ _ _ _ _ _ S3) as S4. apply wp_modify, wp_ret. exists V3. split; [apply Hg; [done|left; by right]|done].
  - apply wp_ret, wp_ret. exists V3. split; [apply Hg; auto|]. split; [done|]. split; [done|lia].
Qed.
End Susp.
