(* ===== verification/TasksNotify.v ===== *)
(** Task notifications: a value and a state in every control block, that a task
    waits for and others and interrupts change. *)
From S2P Require Import Prelude FList Klist Tasks TasksInv TasksStep TasksRun TasksApi TasksCalls TasksPrio TasksSusp.

Section Notify.
Context {A : Type} `{Statics}.
Abbreviation K := (kernel A).

(** The switch over the actions: the new value and whether it was taken. *)
Definition notified_value (eAction : eNotifyAction) (ulValue : Z) (ucOriginalNotifyState old : Z) : Z * bool :=
  match eAction with
  | eSetBits => (Z.lor old ulValue, true)
  | eIncrement => (u32 (old + 1), true)
  | eSetValueWithOverwrite => (ulValue, true)
  | eSetValueWithoutOverwrite =>
      if ucOriginalNotifyState =? taskNOTIFICATION_RECEIVED then (old, false) else (ulValue, true)
  | eNoAction => (old, true)
  end.

(** The first critical section of [ulTaskGenericNotifyTake]. *)
Definition take_section (xTicksToWait : Z) : M K unit :=
  t ← gets pxCurrentTCB;
  b ← rd_tcb t;
  if ulNotifiedValue b =? 0 then
    wr_tcb t (set_ucNotifyState taskWAITING_NOTIFICATION);;
    if 0 <? xTicksToWait then prvAddCurrentTaskToDelayedList xTicksToWait true;; portYIELD else mret tt
  else mret tt.
(** The second one, after the task has run again. *)
Definition take_finish (xClearCountOnExit : bool) : M K Z :=
  t ← gets pxCurrentTCB;
  b ← rd_tcb t;
  let ulReturn := ulNotifiedValue b in
  (if negb (ulReturn =? 0) then wr_tcb t (set_ulNotifiedValue (if xClearCountOnExit then 0 else ulReturn - 1)) else mret tt);;
  wr_tcb t (set_ucNotifyState taskNOT_WAITING_NOTIFICATION);;
  mret ulReturn.
(** [others] is what happens until the task runs again. *)
Definition ulTaskGenericNotifyTake (others : M K unit) (uxIndexToWait : Z) (xClearCountOnExit : bool) (xTicksToWait : Z) : M K Z :=
  assert_ (uxIndexToWait <? 1);;
  take_section xTicksToWait;;
  others;;
  take_finish xClearCountOnExit.

Definition clear_bits (v bits : Z) : Z := Z.land v (Z.lxor bits 4294967295).
Definition wait_section (ulBitsToClearOnEntry xTicksToWait : Z) : M K unit :=
  t ← gets pxCurrentTCB;
  b ← rd_tcb t;
  if negb (ucNotifyState b =? taskNOTIFICATION_RECEIVED) then
    wr_tcb t (set_ulNotifiedValue (clear_bits (ulNotifiedValue b) ulBitsToClearOnEntry));;
    wr_tcb t (set_ucNotifyState taskWAITING_NOTIFICATION);;
    if 0 <? xTicksToWait then prvAddCurrentTaskToDelayedList xTicksToWait true;; portYIELD else mret tt
  else mret tt.
(** Whether a notification was received, and the value. *)
Definition wait_finish (ulBitsToClearOnExit : Z) : M K (bool * Z) :=
  t ← gets pxCurrentTCB;
  b ← rd_tcb t;
  let received := ucNotifyState b =? taskNOTIFICATION_RECEIVED in
  (if received then wr_tcb t (set_ulNotifiedValue (clear_bits (ulNotifiedValue b) ulBitsToClearOnExit)) else mret tt);;
  wr_tcb t (set_ucNotifyState taskNOT_WAITING_NOTIFICATION);;
  mret (received, ulNotifiedValue b).
Definition xTaskGenericNotifyWait (others : M K unit) (uxIndexToWait ulBitsToClearOnEntry ulBitsToClearOnExit xTicksToWait : Z) : M K (bool * Z) :=
  assert_ (uxIndexToWait <? 1);;
  wait_section ulBitsToClearOnEntry xTicksToWait;;
  others;;
  wait_finish ulBitsToClearOnExit.

(** The result and the previous value. *)
Definition xTaskGenericNotify (t uxIndexToNotify ulValue : Z) (eAction : eNotifyAction) : M K (bool * Z) :=
  assert_ (uxIndexToNotify <? 1);;
  assert_ (negb (t =? 0));;
  b ← rd_tcb t;
  let '(v, ok) := notified_value eAction ulValue (ucNotifyState b) (ulNotifiedValue b) in
  wr_tcb t (fun b => set_ulNotifiedValue v (set_ucNotifyState taskNOTIFICATION_RECEIVED b));;
  (if ucNotifyState b =? taskWAITING_NOTIFICATION then
     onl (listREMOVE_ITEM (xStateListItem t));;
     prvAddTaskToReadyList t;;
     ev ← onl (listLIST_ITEM_CONTAINER (xEventListItem t));
     assert_ (ev =? 0);;
     b ← rd_tcb t;
     c ← current;
     (if uxPriority c <? uxPriority b then portYIELD else mret tt)
   else mret tt);;
  mret (ok, ulNotifiedValue b).

(** What an interrupt does for a waiting task; whether it should run. *)
Definition wake_from_isr (t : Z) : M K bool :=
  ev ← onl (listLIST_ITEM_CONTAINER (xEventListItem t));
  assert_ (ev =? 0);;
  sus ← gets uxSchedulerSuspended;
  (if sus =? 0 then
     onl (listREMOVE_ITEM (xStateListItem t));;
     prvAddTaskToReadyList t
   else onl (listINSERT_END xPendingReadyList (xEventListItem t)));;
  b ← rd_tcb t;
  c ← current;
  if uxPriority c <? uxPriority b then modify (set_xYieldPending true);; mret true else mret false.

(** The result, the previous value and [*pxHigherPriorityTaskWoken]. *)
Definition xTaskGenericNotifyFromISR (t uxIndexToNotify ulValue : Z) (eAction : eNotifyAction) : M K (bool * Z * bool) :=
  assert_ (negb (t =? 0));;
  assert_ (uxIndexToNotify <? 1);;
  b ← rd_tcb t;
  let '(v, ok) := notified_value eAction ulValue (ucNotifyState b) (ulNotifiedValue b) in
  wr_tcb t (fun b => set_ulNotifiedValue v (set_ucNotifyState taskNOTIFICATION_RECEIVED b));;
  woken ← (if ucNotifyState b =? taskWAITING_NOTIFICATION then wake_from_isr t else mret false);
  mret (ok, ulNotifiedValue b, woken).

Definition vTaskGenericNotifyGiveFromISR (t uxIndexToNotify : Z) : M K bool :=
  assert_ (negb (t =? 0));;
  assert_ (uxIndexToNotify <? 1);;
  b ← rd_tcb t;
  wr_tcb t (fun b => set_ulNotifiedValue (u32 (ulNotifiedValue b + 1)) (set_ucNotifyState taskNOTIFICATION_RECEIVED b));;
  (if ucNotifyState b =? taskWAITING_NOTIFICATION then wake_from_isr t else mret false).

Definition xTaskGenericNotifyStateClear (xTask uxIndexToClear : Z) : M K bool :=
  assert_ (uxIndexToClear <? 1);;
  t ← prvGetTCBFromHandle xTask;
  b ← rd_tcb t;
  if ucNotifyState b =? taskNOTIFICATION_RECEIVED
  then wr_tcb t (set_ucNotifyState taskNOT_WAITING_NOTIFICATION);; mret true
  else mret false.

Definition ulTaskGenericNotifyValueClear (xTask uxIndexToClear ulBitsToClear : Z) : M K Z :=
  t ← prvGetTCBFromHandle xTask;
  b ← rd_tcb t;
  wr_tcb t (set_ulNotifiedValue (clear_bits (ulNotifiedValue b) ulBitsToClear));;
  mret (ulNotifiedValue b).
End Notify.

(** ** The calls keep the scheduler's invariant *)

Section Proof.
Context {A : Type} `{HS : StaticsOk} (E : gset Z).
Abbreviation K := (kernel A).
Implicit Types (k : K) (V : view) (b c : TCB) (D X : gset Z).

(** The control block of a task that has been notified. *)
Definition notified (a : eNotifyAction) (v : Z) (b : TCB) : TCB :=
  set_ulNotifiedValue (notified_value a v (ucNotifyState b) (ulNotifiedValue b)).1 (set_ucNotifyState taskNOTIFICATION_RECEIVED b).

(** Changes of the notification alone. *)
Lemma set_notify_good t f D X k V b : good E D X k V -> tcbs k !! t = Some b -> uxPriority (f b) = uxPriority b -> tcb_ok (f b) ->
  wp (wr_tcb t f) k (fun _ k' => good E D X k' V /\ k' = set_tcbs (<[t := f b]> (tcbs k)) k).
Proof. intros G Hb Hp Hok. eapply wr_tcb_ok; [exact Hb|]. split; [by eapply set_tcb_good|done]. Qed.

Lemma tcb_ok_notify f b : tcb_ok b -> uxPriority (f b) = uxPriority b -> uxBasePriority (f b) = uxBasePriority b ->
  uxMutexesHeld (f b) = uxMutexesHeld b -> tcb_ok (f b).
Proof. intros [O1 O2 O3] E1 E2 E3. split; by rewrite ?E1, ?E2, ?E3. Qed.

(** The task goes to sleep and has to yield, or does not want to wait. *)
Lemma maybe_block_ok D X k V c n : good E D X k V -> tcbs k !! pxCurrentTCB k = Some c -> 0 <= n < 4294967296 ->
  (0 < n -> cont V (xStateListItem (pxCurrentTCB k)) = pxReadyTasksLists (uxPriority c) /\ pxCurrentTCB k <> xIdleTaskHandle k) ->
  wp (if 0 <? n then prvAddCurrentTaskToDelayedList n true;; portYIELD else mret tt) k (fun _ k' => exists V', good E D X k' V' /\
    if 0 <? n then swi_pending k' = true /\ exists k1, k' = set_swi_pending true k1 /\ blocked (pxCurrentTCB k) (wait_until k n true) k k1 V V'
    else k' = k /\ V' = V).
Proof.
  intros G Hc Hn Hw. destruct (Z.ltb_spec 0 n) as [Hlt|_]; [|apply wp_ret; by exists V].
  destruct (Hw Hlt) as [Hr Hi]. apply wp_bind. eapply wp_mono; [apply (prvAddCurrentTaskToDelayedList_ok E D X k V c n true G Hc Hr Hi); lia|].
  intros [] k1 (V1 & G1 & B). apply wp_modify. exists V1. split; [by apply good_swi|]. split; [done|]. by exists k1.
Qed.

Lemma take_section_ok D X k V c n : good E D X k V -> tcbs k !! pxCurrentTCB k = Some c -> 0 <= n < 4294967296 ->
  (0 < n -> cont V (xStateListItem (pxCurrentTCB k)) = pxReadyTasksLists (uxPriority c) /\ pxCurrentTCB k <> xIdleTaskHandle k) ->
  wp (take_section n) k (fun _ k' => exists V', good E D X k' V' /\
    if ulNotifiedValue c =? 0 then
      let k1 := set_tcbs (<[pxCurrentTCB k := set_ucNotifyState taskWAITING_NOTIFICATION c]> (tcbs k)) k in
      if 0 <? n then swi_pending k' = true /\ exists k2, k' = set_swi_pending true k2 /\ blocked (pxCurrentTCB k) (wait_until k n true) k1 k2 V V'
      else k' = k1 /\ V' = V
    else k' = k /\ V' = V).
Proof.
  intros G Hc Hn Hw. pose proof (sc_tcb _ _ _ (in_sched _ _ _ _ _ G) _ _ Hc) as Hok.
  apply wp_bind, wp_gets, wp_bind. eapply rd_tcb_ok; [exact Hc|]. destruct (ulNotifiedValue c =? 0); [|apply wp_ret; by exists V].
  apply wp_bind. eapply wp_mono; [apply (set_notify_good _ (set_ucNotifyState taskWAITING_NOTIFICATION) D X k V c G Hc eq_refl); by apply tcb_ok_notify|].
  intros [] k1 [G1 ->]. eapply wp_mono; [apply (maybe_block_ok D X _ V (set_ucNotifyState taskWAITING_NOTIFICATION c) n G1); [apply lookup_insert_eq|done|exact Hw]|].
  intros [] k2 Hk. exact Hk.
Qed.

Lemma wait_section_ok D X k V c bits n : good E D X k V -> tcbs k !! pxCurrentTCB k = Some c -> 0 <= n < 4294967296 ->
  (0 < n -> cont V (xStateListItem (pxCurrentTCB k)) = pxReadyTasksLists (uxPriority c) /\ pxCurrentTCB k <> xIdleTaskHandle k) ->
  wp (wait_section bits n) k (fun _ k' => exists V', good E D X k' V' /\
    if negb (ucNotifyState c =? taskNOTIFICATION_RECEIVED) then
      let c1 := set_ucNotifyState taskWAITING_NOTIFICATION (set_ulNotifiedValue (clear_bits (ulNotifiedValue c) bits) c) in
      let k1 := set_tcbs (<[pxCurrentTCB k := c1]> (tcbs k)) k in
      if 0 <? n then swi_pending k' = true /\ exists k2, k' = set_swi_pending true k2 /\ blocked (pxCurrentTCB k) (wait_until k n true) k1 k2 V V'
      else k' = k1 /\ V' = V
    else k' = k /\ V' = V).
Proof.
  intros G Hc Hn Hw. pose proof (sc_tcb _ _ _ (in_sched _ _ _ _ _ G) _ _ Hc) as Hok.
  apply wp_bind, wp_gets, wp_bind. eapply rd_tcb_ok; [exact Hc|].
  destruct (negb (ucNotifyState c =? taskNOTIFICATION_RECEIVED)); [|apply wp_ret; by exists V].
  set (c0 := set_ulNotifiedValue (clear_bits (ulNotifiedValue c) bits) c). assert (Hok0 : tcb_ok c0) by (by apply (tcb_ok_notify (set_ulNotifiedValue _))).
  apply wp_bind. eapply wp_mono; [by apply (set_notify_good _ (set_ulNotifiedValue (clear_bits (ulNotifiedValue c) bits)) D X k V c G Hc eq_refl)|].
  intros [] k1 [G1 ->]. apply wp_bind. eapply wp_mono.
  { apply (set_notify_good _ (set_ucNotifyState taskWAITING_NOTIFICATION) D X _ V c0 G1); [apply lookup_insert_eq|done|by apply tcb_ok_notify]. }
  intros [] k2 [G2 Ek]. rewrite set_tcbs_twice in Ek. cbn [tcbs set_tcbs] in Ek. rewrite insert_insert_eq in Ek. subst k2.
  eapply wp_mono; [apply (maybe_block_ok D X _ V (set_ucNotifyState taskWAITING_NOTIFICATION c0) n G2); [apply lookup_insert_eq|done|exact Hw]|].
  intros [] k2 Hk. exact Hk.
Qed.

(** What the two calls do when the task runs again. *)
Definition taken (clear : bool) (c : TCB) : TCB :=
  set_ucNotifyState taskNOT_WAITING_NOTIFICATION
    (if ulNotifiedValue c =? 0 then c else set_ulNotifiedValue (if clear then 0 else ulNotifiedValue c - 1) c).
Lemma take_finish_ok D X k V c clear : good E D X k V -> tcbs k !! pxCurrentTCB k = Some c ->
  wp (take_finish clear) k (fun r k' => r = ulNotifiedValue c /\ good E D X k' V /\
    k' = set_tcbs (<[pxCurrentTCB k := taken clear c]> (tcbs k)) k).
Proof.
  intros G Hc. pose proof (sc_tcb _ _ _ (in_sched _ _ _ _ _ G) _ _ Hc) as Hok.
  apply wp_bind, wp_gets, wp_bind. eapply rd_tcb_ok; [exact Hc|]. cbv zeta. apply wp_bind. unfold taken.
  destruct (ulNotifiedValue c =? 0); cbn [negb].
  - apply wp_ret, wp_bind. eapply wp_mono; [apply (set_notify_good _ (set_ucNotifyState taskNOT_WAITING_NOTIFICATION) D X k V c G Hc eq_refl); by apply tcb_ok_notify|].
    intros [] k1 [G1 ->]. by apply wp_ret.
  - set (v := if clear then 0 else _). assert (Hok0 : tcb_ok (set_ulNotifiedValue v c)) by (by apply (tcb_ok_notify (set_ulNotifiedValue v))).
    eapply wp_mono; [by apply (set_notify_good _ (set_ulNotifiedValue v) D X k V c G Hc eq_refl)|].
    intros [] k1 [G1 ->]. apply wp_bind. eapply wp_mono.
    { apply (set_notify_good _ (set_ucNotifyState taskNOT_WAITING_NOTIFICATION) D X _ V (set_ulNotifiedValue v c) G1); [apply lookup_insert_eq|done|by apply tcb_ok_notify]. }
    intros [] k2 [G2 Ek]. rewrite set_tcbs_twice in Ek. cbn [tcbs set_tcbs] in Ek. rewrite insert_insert_eq in Ek. by apply wp_ret.
Qed.

Definition waited (bits : Z) (c : TCB) : TCB :=
  set_ucNotifyState taskNOT_WAITING_NOTIFICATION
    (if ucNotifyState c =? taskNOTIFICATION_RECEIVED then set_ulNotifiedValue (clear_bits (ulNotifiedValue c) bits) c else c).
Lemma wait_finish_ok D X k V c bits : good E D X k V -> tcbs k !! pxCurrentTCB k = Some c ->
  wp (wait_finish bits) k (fun r k' => r = (ucNotifyState c =? taskNOTIFICATION_RECEIVED, ulNotifiedValue c) /\ good E D X k' V /\
    k' = set_tcbs (<[pxCurrentTCB k := waited bits c]> (tcbs k)) k).
Proof.
  intros G Hc. pose proof (sc_tcb _ _ _ (in_sched _ _ _ _ _ G) _ _ Hc) as Hok.
  apply wp_bind, wp_gets, wp_bind. eapply rd_tcb_ok; [exact Hc|]. cbv zeta. apply wp_bind. unfold waited.
  destruct (ucNotifyState c =? taskNOTIFICATION_RECEIVED).
  - set (v := clear_bits _ _). assert (Hok0 : tcb_ok (set_ulNotifiedValue v c)) by (by apply (tcb_ok_notify (set_ulNotifiedValue v))).
    eapply wp_mono; [by apply (set_notify_good _ (set_ulNotifiedValue v) D X k V c G Hc eq_refl)|].
    intros [] k1 [G1 ->]. apply wp_bind. eapply wp_mono.
    { apply (set_notify_good _ (set_ucNotifyState taskNOT_WAITING_NOTIFICATION) D X _ V (set_ulNotifiedValue v c) G1); [apply lookup_insert_eq|done|by apply tcb_ok_notify]. }
    intros [] k2 [G2 Ek]. rewrite set_tcbs_twice in Ek. cbn [tcbs set_tcbs] in Ek. rewrite insert_insert_eq in Ek. by apply wp_ret.
  - apply wp_ret, wp_bind. eapply wp_mono; [apply (set_notify_good _ (set_ucNotifyState taskNOT_WAITING_NOTIFICATION) D X k V c G Hc eq_refl); by apply tcb_ok_notify|].
    intros [] k1 [G1 ->]. by apply wp_ret.
Qed.

(** ** Notifying *)

(** [k1] is the kernel with the new value and state in the control block. *)
Definition posted (t : Z) (b' : TCB) (k : K) : K := set_tcbs (<[t := b']> (tcbs k)) k.
Lemma notified_ok a v b : tcb_ok b -> tcb_ok (notified a v b).
Proof. intros Hok. by apply (tcb_ok_notify (notified a v)). Qed.

Lemma posted_good D X k V t a v b : good E D X k V -> tcbs k !! t = Some b -> good E D X (posted t (notified a v b) k) V.
Proof. intros G Hb. eapply set_tcb_good; [exact G|exact Hb|apply notified_ok, (sc_tcb _ _ _ (in_sched _ _ _ _ _ G) _ _ Hb)|done]. Qed.

(** The current task in a kernel where only the notification has changed. *)
Lemma posted_current k t b' c b : tcbs k !! t = Some b -> tcbs k !! pxCurrentTCB k = Some c -> uxPriority b' = uxPriority b ->
  exists c', tcbs (posted t b' k) !! pxCurrentTCB k = Some c' /\ uxPriority c' = uxPriority c.
Proof.
  intros Hb Hc Hp. unfold posted. cbn. destruct (decide (pxCurrentTCB k = t)) as [Eq|N].
  - rewrite Eq in Hc |- *. rewrite lookup_insert_eq. exists b'. split; [done|congruence].
  - rewrite lookup_insert_ne by congruence. eauto.
Qed.

Lemma xTaskGenericNotify_ok D X k V t b c v a : good E D X k V -> tcbs k !! t = Some b -> tcbs k !! pxCurrentTCB k = Some c ->
  ~ (t ∈ D) -> ~ (t ∈ X) -> (ucNotifyState b = taskWAITING_NOTIFICATION -> cont V (xEventListItem t) = 0) ->
  let b' := notified a v b in
  wp (xTaskGenericNotify t 0 v a) k (fun r k' => exists V', good E D X k' V' /\
    r = ((notified_value a v (ucNotifyState b) (ulNotifiedValue b)).2, ulNotifiedValue b) /\
    if ucNotifyState b =? taskWAITING_NOTIFICATION
    then spot E t (posted t b' k) V k' V' b' (pxReadyTasksLists (uxPriority b)) 0 /\ (uxPriority c < uxPriority b -> swi_pending k' = true)
    else k' = posted t b' k /\ V' = V).
Proof.
  intros G Hb Hc HD HX Hev b'. assert (Ht : t <> 0) by (intros ->; by rewrite (sc_null _ _ _ (in_sched _ _ _ _ _ G)) in Hb).
  apply wp_bind, wp_assert; [done|]. apply wp_bind, wp_assert; [by rewrite (proj2 (Z.eqb_neq _ _) Ht)|].
  apply wp_bind. eapply rd_tcb_ok; [exact Hb|]. destruct (notified_value a v (ucNotifyState b) (ulNotifiedValue b)) as [w ok] eqn:Ew.
  apply wp_bind. eapply wr_tcb_ok; [exact Hb|].
  assert (ok = (notified_value a v (ucNotifyState b) (ulNotifiedValue b)).2) as -> by by rewrite Ew.
  change (set_ulNotifiedValue _ _) with (set_ulNotifiedValue w (set_ucNotifyState taskNOTIFICATION_RECEIVED b)).
  assert (w = (notified_value a v (ucNotifyState b) (ulNotifiedValue b)).1) as -> by by rewrite Ew. clear Ew. fold (notified a v b). fold b'. fold (posted t b' k). pose proof (posted_good D X k V t a v b G Hb) as G1. fold b' in G1.
  assert (Hb1 : tcbs (posted t b' k) !! t = Some b') by apply lookup_insert_eq. apply wp_bind.
  destruct (Z.eqb_spec (ucNotifyState b) taskWAITING_NOTIFICATION) as [Ewait|_]; [|apply wp_ret, wp_ret; by exists V].
  destruct (posted_current k t b' c b Hb Hc eq_refl) as (c' & Hc1 & Ec').
  pose proof (here E D X _ V G1 t b' Hb1) as S0. rewrite (Hev Ewait) in S0.
  apply wp_bind. eapply spot_remove_state; [exact S0|exact (alive_state E D X _ V t b' G1 Hb1 HD)|]. intros k2 V2 S2.
  apply wp_bind. eapply spot_add_ready; [exact S2|done|]. intros k3 V3 S3.
  apply wp_bind. eapply spot_container_event; [exact S3|]. apply wp_bind, wp_assert; [done|].
  apply (spot_compare E t _ V k3 V3 b' _ _ (fun y => if y then portYIELD else mret tt) Z.ltb _ c' S3 Hb1 Hc1).
  assert (Hg : forall k4, spot E t (posted t b' k) V k4 V3 b' (pxReadyTasksLists (uxPriority b')) 0 ->
    switching k4 \/ uxPriority b' <= uxPriority c' -> good E D X k4 V3).
  { intros k4 S4 Hp. eapply (good_woken E D X _ V G1 t); [exact S4|exact Hb1|done|done|intros _; eapply not_eq_sym, pending_nonnull, in_sched, G1|].
    destruct Hp as [?|Hp]; [by left|right]. split; [done|]. intros _ c0 Hc0. change (pxCurrentTCB (posted t b' k)) with (pxCurrentTCB k) in Hc0. by simplify_eq. }
  destruct (Z.ltb_spec (uxPriority c') (uxPriority b')) as [Hlt|Hge].
  - apply wp_modify, wp_ret. pose proof (spot_swi _ _ _ _ _ _ _ _ _ S3) as S4. exists V3. split; [apply Hg; [done|left; by left]|]. by split.
  - apply wp_ret, wp_ret. exists V3. split; [apply Hg; [done|by right]|]. split; [done|]. split; [done|]. change (uxPriority b') with (uxPriority b) in *. lia.
Qed.

(** From an interrupt; while the scheduler is suspended the task only gets onto
    the pending ready list. *)
Lemma wake_from_isr_ok D X k V t b c : good E D X k V -> tcbs k !! t = Some b -> tcbs k !! pxCurrentTCB k = Some c ->
  ~ (t ∈ D) -> ~ (t ∈ X) -> cont V (xEventListItem t) = 0 ->
  wp (wake_from_isr t) k (fun r k' => exists V', good E D X k' V' /\ woken E t b k k' V V' /\
    r = (uxPriority c <? uxPriority b) /\ (r = true -> xYieldPending k' = true)).
Proof.
  intros G Hb Hc HD HX Hev. pose proof (here E D X _ V G t b Hb) as S0. rewrite Hev in S0.
  apply wp_bind. eapply spot_container_event; [exact S0|]. apply wp_bind, wp_assert; [done|]. apply wp_bind, wp_gets, wp_bind.
  eapply wp_mono with (Q := fun _ k1 => exists V1, woken E t b k k1 V V1).
  - unfold woken. destruct (uxSchedulerSuspended k =? 0).
    + apply wp_bind. eapply spot_remove_state; [exact S0|exact (alive_state E D X _ V t b G Hb HD)|]. intros k2 V2 S2.
      eapply spot_add_ready; [exact S2|done|]. intros k3 V3 S3. by exists V3.
    + rewrite listINSERT_END_eq. eapply spot_put_event; [exact S0|done|by left|]. intros k1 V1 S1. by exists V1.
  - intros [] k1 (V1 & W). by eapply (woken_compare E D X t b c).
Qed.

Lemma xTaskGenericNotifyFromISR_ok D X k V t b c v a : good E D X k V -> tcbs k !! t = Some b -> tcbs k !! pxCurrentTCB k = Some c ->
  ~ (t ∈ D) -> ~ (t ∈ X) -> (ucNotifyState b = taskWAITING_NOTIFICATION -> cont V (xEventListItem t) = 0) ->
  let b' := notified a v b in
  wp (xTaskGenericNotifyFromISR t 0 v a) k (fun r k' => exists V', good E D X k' V' /\
    r.1 = ((notified_value a v (ucNotifyState b) (ulNotifiedValue b)).2, ulNotifiedValue b) /\
    if ucNotifyState b =? taskWAITING_NOTIFICATION
    then woken E t b' (posted t b' k) k' V V' /\ r.2 = (uxPriority c <? uxPriority b) /\ (r.2 = true -> xYieldPending k' = true)
    else k' = posted t b' k /\ V' = V /\ r.2 = false).
Proof.
  intros G Hb Hc HD HX Hev b'. assert (Ht : t <> 0) by (intros ->; by rewrite (sc_null _ _ _ (in_sched _ _ _ _ _ G)) in Hb).
  apply wp_bind, wp_assert; [by rewrite (proj2 (Z.eqb_neq _ _) Ht)|]. apply wp_bind, wp_assert; [done|].
  apply wp_bind. eapply rd_tcb_ok; [exact Hb|]. destruct (notified_value a v (ucNotifyState b) (ulNotifiedValue b)) as [w ok] eqn:Ew.
  apply wp_bind. eapply wr_tcb_ok; [exact Hb|].
  assert (ok = (notified_value a v (ucNotifyState b) (ulNotifiedValue b)).2) as -> by by rewrite Ew.
  change (set_ulNotifiedValue _ _) with (set_ulNotifiedValue w (set_ucNotifyState taskNOTIFICATION_RECEIVED b)).
  assert (w = (notified_value a v (ucNotifyState b) (ulNotifiedValue b)).1) as -> by by rewrite Ew. clear Ew. fold (notified a v b). fold b'. fold (posted t b' k). pose proof (posted_good D X k V t a v b G Hb) as G1. fold b' in G1.
  assert (Hb1 : tcbs (posted t b' k) !! t = Some b') by apply lookup_insert_eq. apply wp_bind.
  destruct (Z.eqb_spec (ucNotifyState b) taskWAITING_NOTIFICATION) as [Ewait|_]; [|apply wp_ret, wp_ret; by exists V].
  destruct (posted_current k t b' c b Hb Hc eq_refl) as (c' & Hc1 & Ec').
  eapply wp_mono; [apply (wake_from_isr_ok D X _ V t b' c' G1 Hb1 Hc1 HD HX (Hev Ewait))|].
  intros r k1 (V1 & G2 & W & Er & Hy). apply wp_ret. exists V1. split; [done|]. split; [done|]. rewrite Ec' in Er. by split.
Qed.

Lemma vTaskGenericNotifyGiveFromISR_ok D X k V t b c : good E D X k V -> tcbs k !! t = Some b -> tcbs k !! pxCurrentTCB k = Some c ->
  ~ (t ∈ D) -> ~ (t ∈ X) -> (ucNotifyState b = taskWAITING_NOTIFICATION -> cont V (xEventListItem t) = 0) ->
  let b' := notified eIncrement 0 b in
  wp (vTaskGenericNotifyGiveFromISR t 0) k (fun r k' => exists V', good E D X k' V' /\
    if ucNotifyState b =? taskWAITING_NOTIFICATION
    then woken E t b' (posted t b' k) k' V V' /\ r = (uxPriority c <? uxPriority b) /\ (r = true -> xYieldPending k' = true)
    else k' = posted t b' k /\ V' = V /\ r = false).
Proof.
  intros G Hb Hc HD HX Hev b'. assert (Ht : t <> 0) by (intros ->; by rewrite (sc_null _ _ _ (in_sched _ _ _ _ _ G)) in Hb).
  apply wp_bind, wp_assert; [by rewrite (proj2 (Z.eqb_neq _ _) Ht)|]. apply wp_bind, wp_assert; [done|].
  apply wp_bind. eapply rd_tcb_ok; [exact Hb|]. apply wp_bind. eapply wr_tcb_ok; [exact Hb|].
  change (set_ulNotifiedValue _ _) with b'. fold (posted t b' k). pose proof (posted_good D X k V t eIncrement 0 b G Hb) as G1. fold b' in G1.
  assert (Hb1 : tcbs (posted t b' k) !! t = Some b') by apply lookup_insert_eq.
  destruct (Z.eqb_spec (ucNotifyState b) taskWAITING_NOTIFICATION) as [Ewait|_]; [|apply wp_ret; by exists V].
  destruct (posted_current k t b' c b Hb Hc eq_refl) as (c' & Hc1 & Ec').
  eapply wp_mono; [apply (wake_from_isr_ok D X _ V t b' c' G1 Hb1 Hc1 HD HX (Hev Ewait))|].
  intros r k1 (V1 & G2 & W & Er & Hy). exists V1. split; [done|]. rewrite Ec' in Er. by split.
Qed.

Lemma xTaskGenericNotifyStateClear_ok D X k V h b : good E D X k V -> tcbs k !! (if h =? 0 then pxCurrentTCB k else h) = Some b ->
  wp (xTaskGenericNotifyStateClear h 0) k (fun r k' => good E D X k' V /\ r = (ucNotifyState b =? taskNOTIFICATION_RECEIVED)).
Proof.
  intros G Hb. apply wp_bind, wp_assert; [done|]. apply wp_bind, prvGetTCBFromHandle_ok, wp_bind. eapply rd_tcb_ok; [exact Hb|].
  destruct (ucNotifyState b =? taskNOTIFICATION_RECEIVED); [|by apply wp_ret]. apply wp_bind.
  eapply wp_mono; [apply (set_notify_good _ (set_ucNotifyState taskNOT_WAITING_NOTIFICATION) D X k V b G Hb eq_refl)|].
  - apply tcb_ok_notify; [exact (sc_tcb _ _ _ (in_sched _ _ _ _ _ G) _ _ Hb)|done..].
  - intros [] k1 [G1 _]. by apply wp_ret.
Qed.
Lemma ulTaskGenericNotifyValueClear_ok D X k V h b i bits : good E D X k V -> tcbs k !! (if h =? 0 then pxCurrentTCB k else h) = Some b ->
  wp (ulTaskGenericNotifyValueClear h i bits) k (fun r k' => good E D X k' V /\ r = ulNotifiedValue b).
Proof.
  intros G Hb. apply wp_bind, prvGetTCBFromHandle_ok, wp_bind. eapply rd_tcb_ok; [exact Hb|]. apply wp_bind.
  eapply wp_mono; [apply (set_notify_good _ (set_ulNotifiedValue (clear_bits (ulNotifiedValue b) bits)) D X k V b G Hb eq_refl)|].
  - apply (tcb_ok_notify (set_ulNotifiedValue _)); [exact (sc_tcb _ _ _ (in_sched _ _ _ _ _ G) _ _ Hb)|done..].
  - intros [] k1 [G1 _]. by apply wp_ret.
Qed.
End Proof.
