(* ===== verification/TasksNew.v ===== *)
(** FreeRTOS/tasks.c: the life of a task.  Creating one allocates its stack and
    its control block from the kernel heap, deleting one gives them back; the
    start of the scheduler. *)
From S2P Require Import Prelude FList Klist Tasks.

(** The kernel heap as tasks.c uses it. *)
Class HeapApi (A : Type) := {
  heap_malloc : Z -> M A Z;
  heap_free : Z -> M A unit
}.

(** What the memory of a new control block holds. *)
Record raw_tcb := mkRaw {
  raw_fields : TCB;
  raw_state_mini : MiniListItem_t;
  raw_state_tail : ItemTail;
  raw_event_mini : MiniListItem_t;
  raw_event_tail : ItemTail
}.

Definition pdPASS : Z := 1.
Definition portCONTEXT_WORDS : Z := 30.
Definition tskIDLE_PRIORITY : Z := 0.
Definition configMINIMAL_STACK_SIZE : Z := 512.
Definition configTIMER_TASK_PRIORITY : Z := 5.

(** The loop that copies the name, up to its terminator. *)
Fixpoint copy_name (n : nat) (src dst : list Z) : option (list Z) :=
  match n with
  | O => Some dst
  | S n =>
      match src, dst with
      | c :: src, _ :: dst => if c =? 0 then Some (c :: dst) else r ← copy_name n src dst; Some (c :: r)
      | _, _ => None
      end
  end.
Definition new_name (pcName : option (list Z)) (old : list Z) : option (list Z) :=
  match pcName with
  | Some name => r ← copy_name (Z.to_nat configMAX_TASK_NAME_LEN) name old;
                 Some (<[Z.to_nat (configMAX_TASK_NAME_LEN - 1) := 0]> r)
  | None => Some (<[0%nat := 0]> old)
  end.

(** portASM.S: room for the initial register frame. *)
Definition pxPortInitialiseStack (pxTopOfStack : Z) : Z := pxTopOfStack - 4 - 22 * 4 - 6 * 4 - 4.

Section New.
Context {A : Type} `{Statics} `{HeapApi A}.
Abbreviation K := (kernel A).

Definition onh {X} (m : M A X) : M K X := zoom kheap set_kheap m.

(** portable/MemMang/heap_4.c works with the scheduler suspended. *)
Definition kernel_malloc (xWantedSize : Z) : M K Z :=
  vTaskSuspendAll;;
  pvReturn ← onh (heap_malloc xWantedSize);
  xTaskResumeAll;;
  mret pvReturn.
Definition kernel_free (pv : Z) : M K unit :=
  if pv =? 0 then mret tt
  else
    vTaskSuspendAll;;
    onh (heap_free pv);;
    xTaskResumeAll;;
    mret tt.

(** A control block comes to be at [t], with the contents of its memory. *)
Definition place_tcb (raw : raw_tcb) (t : Z) : M K unit :=
  modify (fun k => set_tcbs (<[t := raw_fields raw]> (tcbs k)) (set_kls (mkLstate
    (<[xStateListItem t := raw_state_mini raw]> (<[xEventListItem t := raw_event_mini raw]> (minis (kls k))))
    (<[xStateListItem t := raw_state_tail raw]> (<[xEventListItem t := raw_event_tail raw]> (tails (kls k))))
    (lists (kls k))) k)).
(** The memory of the control block is no longer one. *)
Definition drop_tcb (t : Z) : M K unit :=
  modify (fun k => set_tcbs (delete t (tcbs k)) (set_kls (mkLstate
    (delete (xStateListItem t) (delete (xEventListItem t) (minis (kls k))))
    (delete (xStateListItem t) (delete (xEventListItem t) (tails (kls k))))
    (lists (kls k))) k)).

(** ** Creating tasks *)

Definition prvInitialiseNewTask (pcName : option (list Z)) (ulStackDepth uxPriority t : Z) : M K unit :=
  b ← rd_tcb t;
  let top := Z.land (pxStack b + 4 * (ulStackDepth - 1)) (-16) in
  assert_ (Z.land top 15 =? 0);;
  name ← of_option (new_name pcName (pcTaskName b));
  assert_ (uxPriority <? configMAX_PRIORITIES);;
  let p := if configMAX_PRIORITIES <=? uxPriority then configMAX_PRIORITIES - 1 else uxPriority in
  wr_tcb t (fun b => mkTCB (pxTopOfStack b) p (pxStack b) name p 0 (ulNotifiedValue b) (ucNotifyState b) (ucDelayAborted b));;
  onl (vListInitialiseItem (xStateListItem t));;
  onl (vListInitialiseItem (xEventListItem t));;
  onl (listSET_LIST_ITEM_OWNER (xStateListItem t) t);;
  onl (listSET_LIST_ITEM_VALUE (xEventListItem t) (u32 (configMAX_PRIORITIES - p)));;
  onl (listSET_LIST_ITEM_OWNER (xEventListItem t) t);;
  wr_tcb t (fun b => set_ucDelayAborted false (set_ucNotifyState 0 (set_ulNotifiedValue 0 b)));;
  wr_tcb t (set_pxTopOfStack (pxPortInitialiseStack top)).

Fixpoint init_ready (n : nat) (uxPriority : Z) : M lstate unit :=
  match n with
  | O => mret tt
  | S n => vListInitialise (pxReadyTasksLists uxPriority);; init_ready n (uxPriority + 1)
  end.

Definition prvInitialiseTaskLists : M K unit :=
  onl (init_ready (Z.to_nat configMAX_PRIORITIES) 0);;
  onl (vListInitialise xDelayedTaskList1);;
  onl (vListInitialise xDelayedTaskList2);;
  onl (vListInitialise xPendingReadyList);;
  onl (vListInitialise xTasksWaitingTermination);;
  onl (vListInitialise xSuspendedTaskList);;
  modify (set_pxDelayedTaskList xDelayedTaskList1);;
  modify (set_pxOverflowDelayedTaskList xDelayedTaskList2).

Definition prvAddNewTaskToReadyList (t : Z) : M K unit :=
  modify (fun k => set_uxCurrentNumberOfTasks (u32 (uxCurrentNumberOfTasks k + 1)) k);;
  cur ← gets pxCurrentTCB;
  (if cur =? 0 then
     modify (set_pxCurrentTCB t);;
     n ← gets uxCurrentNumberOfTasks;
     if n =? 1 then prvInitialiseTaskLists else mret tt
   else
     run ← gets xSchedulerRunning;
     if run : bool then mret tt
     else
       c ← rd_tcb cur;
       b ← rd_tcb t;
       if uxPriority c <=? uxPriority b then modify (set_pxCurrentTCB t) else mret tt);;
  modify (fun k => set_uxTaskNumber (u32 (uxTaskNumber k + 1)) k);;
  prvAddTaskToReadyList t;;
  run ← gets xSchedulerRunning;
  if run : bool then
    c ← current;
    b ← rd_tcb t;
    if uxPriority c <? uxPriority b then portYIELD else mret tt
  else mret tt.

(** The result code and the handle. *)
Definition xTaskCreate (raw : raw_tcb) (pcName : option (list Z)) (usStackDepth uxPriority : Z) : M K (Z * Z) :=
  stack ← kernel_malloc (usStackDepth * 4);
  t ← (if stack =? 0 then mret 0
       else
         t ← kernel_malloc SIZEOF_TCB;
         if t =? 0 then kernel_free stack;; mret 0
         else
           place_tcb raw t;;
           wr_tcb t (fun b => mkTCB (pxTopOfStack b) (Tasks.uxPriority b) stack (pcTaskName b) (uxBasePriority b) (uxMutexesHeld b)
             (ulNotifiedValue b) (ucNotifyState b) (ucDelayAborted b));;
           mret t);
  if t =? 0 then mret (errCOULD_NOT_ALLOCATE_REQUIRED_MEMORY, 0)
  else
    prvInitialiseNewTask pcName usStackDepth uxPriority t;;
    prvAddNewTaskToReadyList t;;
    mret (pdPASS, t).

(** ** Deleting tasks *)

Definition prvDeleteTCB (t : Z) : M K unit :=
  b ← rd_tcb t;
  kernel_free (pxStack b);;
  kernel_free t;;
  drop_tcb t.

(** The critical section of [vTaskDelete]. *)
Definition delete_section (xTaskToDelete : Z) : M K Z :=
  t ← prvGetTCBFromHandle xTaskToDelete;
  onl (uxListRemove (xStateListItem t));;
  ev ← onl (listLIST_ITEM_CONTAINER (xEventListItem t));
  (if ev =? 0 then mret 0 else onl (uxListRemove (xEventListItem t)));;
  modify (fun k => set_uxTaskNumber (u32 (uxTaskNumber k + 1)) k);;
  cur ← gets pxCurrentTCB;
  (if t =? cur then
     onl (vListInsertEnd xTasksWaitingTermination (xStateListItem t));;
     modify (fun k => set_uxDeletedTasksWaitingCleanUp (u32 (uxDeletedTasksWaitingCleanUp k + 1)) k)
   else
     modify (fun k => set_uxCurrentNumberOfTasks (u32 (uxCurrentNumberOfTasks k - 1)) k);;
     prvResetNextTaskUnblockTime);;
  mret t.

(** What is left for a task that deletes itself: the switch. *)
Definition delete_yield (t : Z) : M K unit :=
  run ← gets xSchedulerRunning;
  if run : bool then
    cur ← gets pxCurrentTCB;
    if t =? cur then
      sus ← gets uxSchedulerSuspended;
      assert_ (sus =? 0);;
      portYIELD
    else mret tt
  else mret tt.

Definition vTaskDelete (xTaskToDelete : Z) : M K unit :=
  t ← delete_section xTaskToDelete;
  cur ← gets pxCurrentTCB;
  (if t =? cur then mret tt else prvDeleteTCB t);;
  delete_yield t.

(** The critical section of [prvCheckTasksWaitingTermination]. *)
Definition cleanup_section : M K Z :=
  t ← onl (listGET_OWNER_OF_HEAD_ENTRY xTasksWaitingTermination);
  onl (uxListRemove (xStateListItem t));;
  modify (fun k => set_uxCurrentNumberOfTasks (u32 (uxCurrentNumberOfTasks k - 1)) k);;
  modify (fun k => set_uxDeletedTasksWaitingCleanUp (u32 (uxDeletedTasksWaitingCleanUp k - 1)) k);;
  mret t.

Fixpoint prvCheckTasksWaitingTermination (fuel : nat) : M K unit :=
  n ← gets uxDeletedTasksWaitingCleanUp;
  if 0 <? n then
    match fuel with
    | O => stop_ NoFuel
    | S fuel => t ← cleanup_section; prvDeleteTCB t;; prvCheckTasksWaitingTermination fuel
    end
  else mret tt.

(** ** Starting the scheduler *)

(** The idle task first, then the timer task; [timer_list_and_queue] is
    [prvCheckForValidListAndQueue] of timers.c, whose result is whether the
    queue of the timer task exists. *)
Definition xTimerCreateTimerTask (timer_list_and_queue : M K bool) (raw : raw_tcb) : M K Z :=
  q ← timer_list_and_queue;
  r ← (if q : bool then x ← xTaskCreate raw (Some [84; 109; 114; 32; 83; 118; 99; 0]) configMINIMAL_STACK_SIZE configTIMER_TASK_PRIORITY; mret x.1
       else mret 0);
  assert_ (negb (r =? 0));;
  mret r.

Definition vTaskStartScheduler (timer_list_and_queue : M K bool) (raw_idle raw_timer : raw_tcb) : M K unit :=
  x ← xTaskCreate raw_idle (Some [73; 68; 76; 69; 0]) configMINIMAL_STACK_SIZE tskIDLE_PRIORITY;
  (if x.1 =? pdPASS then modify (set_xIdleTaskHandle x.2) else mret tt);;
  xReturn ← (if x.1 =? pdPASS then xTimerCreateTimerTask timer_list_and_queue raw_timer else mret x.1);
  if xReturn =? pdPASS then
    modify (set_xNextTaskUnblockTime portMAX_DELAY);;
    modify (set_xSchedulerRunning true);;
    modify (set_xTickCount configINITIAL_TICK_COUNT)
  else assert_ (negb (xReturn =? errCOULD_NOT_ALLOCATE_REQUIRED_MEMORY)).
End New.
