(* ===== verification/TasksLife.v ===== *)
(** The life of a task keeps the scheduler's invariant and its memory: a new
    task lies apart from everything else, a deleted one leaves no item behind
    before its memory is free. *)
From S2P Require Import Prelude FList Klist KlistNew Tasks TasksInv TasksStep TasksRun TasksApi TasksCalls TasksPrio TasksSusp TasksNew.

(** What the kernel heap promises: the live blocks with their sizes lie apart
    from each other between two addresses. *)
Class KernelHeap (A : Type) `{HeapApi A} := {
  heap_lo : Z;
  heap_hi : Z;
  heap_is : A -> gmap Z Z -> Prop;
  heap_in h L p n : heap_is h L -> L !! p = Some n -> 0 < heap_lo <= p /\ p + n <= heap_hi;
  heap_apart h L p q n m : heap_is h L -> L !! p = Some n -> L !! q = Some m -> p <> q -> p + n <= q \/ q + m <= p;
  heap_take n h L : heap_is h L -> 0 < n < 4294967296 ->
    wp (heap_malloc n) h (fun r h' => r = 0 /\ heap_is h' L \/ L !! r = None /\ heap_is h' (<[r := n]> L));
  heap_give h L p n : heap_is h L -> L !! p = Some n -> wp (heap_free p) h (fun _ h' => heap_is h' (delete p L))
}.

Section Life.
Context {A : Type} `{HS : StaticsOk} `{HH : KernelHeap A} (E : gset Z).
Abbreviation K := (kernel A).
Implicit Types (k : K) (V : view) (b : TCB) (D X : gset Z) (L : gmap Z Z).

(** ** A new control block *)

Definition is_list (l : Z) : Prop := kernel_list l \/ l ∈ E.

(** The items of a block at [t] are not the items of a task and not the end
    marker of a list. *)
Record fresh (k : K) (t : Z) : Prop := {
  fr_none : tcbs k !! t = None;
  fr_zero : t <> 0;
  fr_items u : is_Some (tcbs k !! u) -> xStateListItem t <> xEventListItem u /\ xEventListItem t <> xStateListItem u;
  fr_ends l : is_list l -> xStateListItem t <> xListEnd l /\ xEventListItem t <> xListEnd l
}.

(** The tasks own their control blocks and their stacks; every list is outside
    the heap or in a live block of its own. *)
Definition not_task (k : K) (p : Z) : Prop := tcbs k !! p = None /\ forall t b, tcbs k !! t = Some b -> pxStack b <> p.
Record owns (k : K) (L : gmap Z Z) : Prop := {
  ow_heap : heap_is (kheap k) L;
  ow_tcb t b : tcbs k !! t = Some b -> L !! t = Some SIZEOF_TCB;
  ow_stack t b : tcbs k !! t = Some b -> is_Some (L !! pxStack b) /\ tcbs k !! pxStack b = None;
  ow_stacks t u b c : tcbs k !! t = Some b -> tcbs k !! u = Some c -> pxStack b = pxStack c -> t = u;
  ow_lists l : is_list l -> l + 20 <= heap_lo \/ heap_hi <= l \/
    exists p n, L !! p = Some n /\ p <= l /\ l + 20 <= p + n /\ not_task k p
}.

Lemma fresh_block k L h t n stack : owns k L -> L !! stack = None -> <[stack := n]> L !! t = None ->
  heap_is h (<[t := SIZEOF_TCB]> (<[stack := n]> L)) -> fresh k t.
Proof.
  intros HO Hs Ht HI. set (L' := <[t := SIZEOF_TCB]> _) in *.
  assert (Lt : L' !! t = Some SIZEOF_TCB) by apply lookup_insert_eq.
  assert (Hin : forall p m, L !! p = Some m -> L' !! p = Some m /\ p <> t).
  { intros p m Hp. assert (p <> stack) by congruence. assert (p <> t) by (intros ->; rewrite lookup_insert_ne in Ht by done; congruence).
    unfold L'. by rewrite !lookup_insert_ne by done. }
  destruct (heap_in h L' t _ HI Lt) as [Hlo Hhi]. unfold SIZEOF_TCB in *. split.
  - destruct (tcbs k !! t) as [b|] eqn:Hb; [|done]. pose proof (ow_tcb _ _ HO t b Hb) as Hl. by destruct (Hin t _ Hl) as [_ []].
  - lia.
  - intros u [c Hc]. destruct (Hin u _ (ow_tcb _ _ HO u c Hc)) as [Hu N].
    destruct (heap_apart h L' t u _ _ HI Lt Hu (not_eq_sym N)); unfold xStateListItem, xEventListItem, SIZEOF_TCB in *; lia.
  - intros l Hl. unfold xStateListItem, xEventListItem, xListEnd.
    destruct (ow_lists _ _ HO l Hl) as [?|[?|(p & m & Hp & ? & ? & _)]]; [lia|lia|].
    destruct (Hin p m Hp) as [Hp' N]. destruct (heap_apart h L' t p _ _ HI Lt Hp' (not_eq_sym N)); lia.
Qed.

(** The view with the two items of a new task. *)
Definition v_task (t v w : Z) (V : view) : view := v_new (xEventListItem t) w t (v_new (xStateListItem t) v t V).

Definition new_tcb (name : list Z) (stack depth p : Z) : TCB :=
  mkTCB (pxPortInitialiseStack (Z.land (stack + 4 * (depth - 1)) (-16))) p stack name p 0 0 0 false.

(** What a call of [xTaskCreate] is given. *)
Record create_args (raw : raw_tcb) (pcName : option (list Z)) (name : list Z) (depth p : Z) : Prop := {
  ca_value : is_u32 (xItemValue (raw_state_mini raw));
  ca_name : new_name pcName (pcTaskName (raw_fields raw)) = Some name;
  ca_depth : 0 < depth < 65536;
  ca_priority : 0 <= p < configMAX_PRIORITIES
}.

(** The items after [prvInitialiseNewTask]. *)
Definition task_store (raw : raw_tcb) (t w : Z) (s : lstate) : lstate :=
  mkLstate (<[xEventListItem t := set_xItemValue w (raw_event_mini raw)]> (<[xStateListItem t := raw_state_mini raw]> (minis s)))
    (<[xEventListItem t := mkTail t 0]> (<[xStateListItem t := mkTail t 0]> (tails s))) (lists s).

Lemma items_apart t : xStateListItem t <> xEventListItem t.
Proof. unfold xStateListItem, xEventListItem. lia. Qed.

Definition room (k : K) : Prop :=
  Z.of_nat (size (minis (kls k))) + 2 < 4294967296 /\ Z.of_nat (size (tcbs k)) + 1 < 4294967296.

(** Every item of the view belongs to a task, every list is one of the kernel's. *)
Definition of_tasks (k : K) (V : view) : Prop :=
  (forall i, i ∈ vitems V -> exists u, is_Some (tcbs k !! u) /\ (i = xStateListItem u \/ i = xEventListItem u)) /\
  (forall l, l ∈ vlists V -> is_list l).

Lemma fresh_items k V t : of_tasks k V -> fresh k t ->
  ~ (xStateListItem t ∈ vitems V) /\ ~ (xEventListItem t ∈ vitems V) /\
  forall l, l ∈ vlists V -> xStateListItem t <> xListEnd l /\ xEventListItem t <> xListEnd l.
Proof.
  intros [Hi Hl] [F1 F2 F3 F4]. split; [|split].
  - intros Hx. destruct (Hi _ Hx) as (u & Hu & [Eq|Eq]); [|exact (proj1 (F3 u Hu) Eq)].
    unfold xStateListItem in Eq. replace u with t in Hu by lia. rewrite F1 in Hu. by destruct Hu.
  - intros Hx. destruct (Hi _ Hx) as (u & Hu & [Eq|Eq]); [exact (proj2 (F3 u Hu) Eq)|].
    unfold xEventListItem in Eq. replace u with t in Hu by lia. rewrite F1 in Hu. by destruct Hu.
  - intros l Hin. by apply F4, Hl.
Qed.

Lemma task_store_shows raw t w k V : shows (kls k) V -> of_tasks k V -> fresh k t -> room k ->
  is_u32 (xItemValue (raw_state_mini raw)) -> is_u32 w ->
  shows (task_store raw t w (kls k)) (v_task t (xItemValue (raw_state_mini raw)) w V).
Proof.
  intros HV Hof Hf [Hr _] Hv Hw. destruct (fresh_items k V t Hof Hf) as (N1 & N2 & N3).
  assert (Hsz : (size (vitems V) <= size (minis (kls k)))%nat).
  { rewrite <- size_dom. apply subseteq_size. intros i Hi. apply elem_of_dom. destruct (sh_mini _ _ HV i Hi) as (m & Hm & _). eauto. }
  pose proof (items_apart t) as Na.
  apply (shows_new _ _ (shows_new _ _ HV (xStateListItem t) (raw_state_mini raw) t N1 (fun l Hl => proj1 (N3 l Hl)) Hv ltac:(lia))
    (xEventListItem t) (set_xItemValue w (raw_event_mini raw)) t).
  - cbn. set_solver.
  - cbn. intros l Hl. by apply N3.
  - done.
  - cbn. rewrite size_union, size_singleton by set_solver. lia.
Qed.

Lemma insert_twice {Y} (m : gmap Z Y) (e s : Z) (a b c d : Y) : s <> e ->
  <[e := a]> (<[s := b]> (<[e := c]> (<[s := d]> m))) = <[e := a]> (<[s := b]> m).
Proof.
  intros N. rewrite (insert_insert_ne (<[s := d]> m) s e) by done. by rewrite !insert_insert_eq.
Qed.

Lemma insert_over {Y} (m : gmap Z Y) (e s : Z) (a b c : Y) : s <> e ->
  <[e := a]> (<[s := b]> (<[e := c]> m)) = <[e := a]> (<[s := b]> m).
Proof. intros N. rewrite (insert_insert_ne m s e) by done. by rewrite insert_insert_eq. Qed.

(** What [prvInitialiseNewTask] makes of a control block. *)
Lemma land_aligned x : (Z.land (Z.land x (-16)) 15 =? 0) = true.
Proof. rewrite <- Z.land_assoc. cbn. by rewrite Z.land_0_r. Qed.

Lemma prvInitialiseNewTask_ok raw pcName name depth p k t b m1 m2 t1 t2 (Q : unit -> K -> Prop) :
  create_args raw pcName name depth p -> tcbs k !! t = Some b -> pcTaskName b = pcTaskName (raw_fields raw) ->
  minis (kls k) !! xStateListItem t = Some m1 -> minis (kls k) !! xEventListItem t = Some m2 ->
  tails (kls k) !! xStateListItem t = Some t1 -> tails (kls k) !! xEventListItem t = Some t2 ->
  Q tt (set_tcbs (<[t := new_tcb name (pxStack b) depth p]> (tcbs k)) (set_kls (mkLstate
    (<[xEventListItem t := set_xItemValue (u32 (configMAX_PRIORITIES - p)) m2]> (minis (kls k)))
    (<[xEventListItem t := mkTail t 0]> (<[xStateListItem t := mkTail t 0]> (tails (kls k)))) (lists (kls k))) k)) ->
  wp (prvInitialiseNewTask pcName depth p t) k Q.
Proof.
  intros [C1 C2 C3 C4] Hb Hn Hm1 Hm2 Ht1 Ht2 HQ. pose proof (items_apart t) as Na.
  apply wp_bind. eapply rd_tcb_ok; [exact Hb|]. cbv zeta. apply wp_bind, wp_assert; [apply land_aligned|].
  apply wp_bind. eapply wp_of_option; [by rewrite Hn|]. apply wp_bind, wp_assert; [apply Z.ltb_lt, C4|].
  destruct (Z.leb_spec configMAX_PRIORITIES p) as [Hge|_]; [lia|].
  apply wp_bind. eapply wr_tcb_ok; [exact Hb|].
  do 5 (apply wp_bind, onl_ok; eapply wp_use; [cbn [kls set_tcbs set_kls minis tails lists];
    unfold vListInitialiseItem, listSET_LIST_ITEM_OWNER, listSET_LIST_ITEM_VALUE; lstep; reflexivity|]; cbv beta).
  apply wp_bind. eapply wr_tcb_ok; [apply lookup_insert_eq|]. eapply wr_tcb_ok; [apply lookup_insert_eq|].
  cbn [tcbs kls set_tcbs set_kls]. rewrite !set_tcbs_twice, !insert_insert_eq, (insert_twice _ _ _ _ _ _ _ Na). exact HQ.
Qed.

(** ** xTaskCreate *)

Definition live_with (t stack n : Z) (L : gmap Z Z) : gmap Z Z := <[t := SIZEOF_TCB]> (<[stack := n]> L).
(** The kernel with the control block of a new task that is on no list yet. *)
Definition with_task (h : A) (raw : raw_tcb) (t p : Z) (b : TCB) (k : K) : K :=
  set_kheap h (set_tcbs (<[t := b]> (tcbs k)) (set_kls (task_store raw t (u32 (configMAX_PRIORITIES - p)) (kls k)) k)).

Lemma onh_ok {Y} (m : M A Y) k (Q : Y -> K -> Prop) : wp m (kheap k) (fun x h => Q x (set_kheap h k)) -> wp (onh m) k Q.
Proof. apply wp_zoom. Qed.

(** The heap works with the scheduler suspended.  When nothing has been held back
    for the scheduler its resumption only passes on a switch that is due. *)
Definition calm (k : K) : Prop := uxSchedulerSuspended k + 1 < 4294967296 /\ 0 <= uxSchedulerSuspended k /\
  (0 < uxCurrentNumberOfTasks k -> uxSchedulerSuspended k = 0 ->
   xPendedTicks k = 0 /\ listLIST_IS_EMPTY xPendingReadyList (kls k) = Done (true, kls k)).
Definition yielded (k : K) : K :=
  if (uxSchedulerSuspended k =? 0) && (0 <? uxCurrentNumberOfTasks k) && xYieldPending k then set_swi_pending true k else k.

Lemma suspend_resume h k k1 : calm k -> k1 = set_kheap h (set_uxSchedulerSuspended (u32 (uxSchedulerSuspended k + 1)) k) ->
  exists y, xTaskResumeAll k1 = Done (y, yielded (set_kheap h k)).
Proof.
  intros (C1 & C2 & C3) ->. rewrite u32_small by (split; lia). unfold xTaskResumeAll, gets, assert_, modify, mbind, M_bind, stop_, mret, M_ret.
  cbn [uxSchedulerSuspended set_kheap set_uxSchedulerSuspended]. destruct (Z.eqb_spec (uxSchedulerSuspended k + 1) 0); [lia|]. cbn [negb].
  replace (uxSchedulerSuspended k + 1 - 1) with (uxSchedulerSuspended k) by lia. unfold yielded.
  cbn [uxSchedulerSuspended set_kheap set_uxSchedulerSuspended uxCurrentNumberOfTasks xYieldPending].
  destruct (Z.eqb_spec (uxSchedulerSuspended k) 0) as [E0|N0]; cbn [andb]; [|exists false; by destruct k].
  destruct (Z.ltb_spec 0 (uxCurrentNumberOfTasks k)) as [Hlt|_]; cbn [andb]; [|exists false; by destruct k].
  destruct (C3 Hlt E0) as [Hp He]. cbn [ready_pended]. unfold onl, zoom, mbind, M_bind. cbn [kls set_kheap set_uxSchedulerSuspended].
  rewrite He. unfold mret, M_ret, gets, portYIELD, modify.
  cbn -[listLIST_IS_EMPTY]. rewrite Hp. cbn -[listLIST_IS_EMPTY].
  destruct (xYieldPending k); eexists; by destruct k.
Qed.

Lemma calm_same k k' : calm k -> kls k' = kls k -> uxSchedulerSuspended k' = uxSchedulerSuspended k ->
  uxCurrentNumberOfTasks k' = uxCurrentNumberOfTasks k -> xPendedTicks k' = xPendedTicks k -> calm k'.
Proof. unfold calm. by intros C -> -> -> ->. Qed.
Lemma yielded_fields k : kls (yielded k) = kls k /\ tcbs (yielded k) = tcbs k /\ kheap (yielded k) = kheap k /\
  uxSchedulerSuspended (yielded k) = uxSchedulerSuspended k /\ uxCurrentNumberOfTasks (yielded k) = uxCurrentNumberOfTasks k /\
  xPendedTicks (yielded k) = xPendedTicks k.
Proof. unfold yielded. by case_match. Qed.
Lemma yielded_control k : control_same k (yielded k).
Proof. unfold yielded. case_match; by repeat split. Qed.
Lemma calm_yielded k : calm k -> calm (yielded k).
Proof. intros C. unfold yielded. case_match; [by eapply calm_same|done]. Qed.
Lemma yielded_heap h k : yielded (set_kheap h k) = set_kheap h (yielded k).
Proof. unfold yielded. cbn. by case_match. Qed.
Lemma yielded_twice k : yielded (yielded k) = yielded k.
Proof. unfold yielded at 2 3. case_match eqn:Ec; [|unfold yielded; by rewrite Ec]. unfold yielded. cbn. by rewrite Ec. Qed.

Lemma kernel_malloc_ok n k L (Q : Z -> K -> Prop) : calm k -> heap_is (kheap k) L -> 0 < n < 4294967296 ->
  (forall h, heap_is h L -> Q 0 (set_kheap h (yielded k))) ->
  (forall r h, L !! r = None -> r <> 0 -> heap_is h (<[r := n]> L) -> Q r (set_kheap h (yielded k))) -> wp (kernel_malloc n) k Q.
Proof.
  intros C HI Hn HF HQ. apply wp_bind, wp_modify, wp_bind, onh_ok. eapply wp_mono; [by apply heap_take|].
  intros r h Hr. destruct (suspend_resume h k _ C eq_refl) as [y Hrun]. rewrite yielded_heap in Hrun.
  apply wp_bind. eapply wp_use; [exact Hrun|]. apply wp_ret. destruct Hr as [[-> Hh]|[Hr Hh]]; [by apply HF|].
  apply HQ; [done| |done]. pose proof (heap_in h _ r _ Hh (lookup_insert_eq _ _ _)). lia.
Qed.
Lemma kernel_free_ok p n k L (Q : unit -> K -> Prop) : calm k -> heap_is (kheap k) L -> L !! p = Some n ->
  (forall h, heap_is h (delete p L) -> Q tt (set_kheap h (yielded k))) -> wp (kernel_free p) k Q.
Proof.
  intros C HI Hp HQ. unfold kernel_free. pose proof (heap_in _ _ _ _ HI Hp). destruct (Z.eqb_spec p 0); [lia|].
  apply wp_bind, wp_modify, wp_bind, onh_ok. eapply wp_mono; [by eapply heap_give|].
  intros [] h Hh. destruct (suspend_resume h k _ C eq_refl) as [y Hrun]. rewrite yielded_heap in Hrun.
  apply wp_bind. eapply wp_use; [exact Hrun|]. by apply wp_ret, HQ.
Qed.

Lemma xTaskCreate_run raw pcName name depth p k L (Q : Z * Z -> K -> Prop) :
  create_args raw pcName name depth p -> owns k L -> calm k ->
  (forall h, heap_is h L -> Q (errCOULD_NOT_ALLOCATE_REQUIRED_MEMORY, 0) (set_kheap h (yielded k))) ->
  (forall h stack t, let n := depth * 4 in L !! stack = None -> <[stack := n]> L !! t = None ->
     heap_is h (live_with t stack n L) -> fresh k t ->
     wp (prvAddNewTaskToReadyList t) (with_task h raw t p (new_tcb name stack depth p) (yielded k)) (fun _ k' => Q (pdPASS, t) k')) ->
  wp (xTaskCreate raw pcName depth p) k Q.
Proof.
  intros HA HO C HF HQ. pose proof HA as [C1 C2 C3 C4]. pose proof (ow_heap _ _ HO) as HI.
  apply wp_bind. apply (kernel_malloc_ok _ k L); [done|done|lia|intros h H1|intros stack h Hs Hs0 H1].
  { apply wp_bind, wp_ret. rewrite Z.eqb_refl. apply wp_ret. by apply HF. }
  apply wp_bind. rewrite (proj2 (Z.eqb_neq _ _) Hs0). apply wp_bind.
  assert (Cy : calm (set_kheap h (yielded k))) by (eapply (calm_same (yielded k)); [by apply calm_yielded|done..]).
  destruct (yielded_fields k) as (Y1 & Y2 & Y3 & _).
  assert (Ey : forall h2, set_kheap h2 (yielded (set_kheap h (yielded k))) = set_kheap h2 (yielded k)).
  { intros h2. by rewrite yielded_heap, yielded_twice. }
  apply (kernel_malloc_ok _ _ _ _ Cy H1); [by_decision|intros h2 H2|intros t h2 Ht Ht0 H2]; rewrite Ey.
  { rewrite Z.eqb_refl. apply wp_bind.
    assert (Cy2 : calm (set_kheap h2 (yielded k))) by (eapply (calm_same (yielded k)); [by apply calm_yielded|done..]).
    eapply (kernel_free_ok stack _ _ _ _ Cy2 H2); [apply lookup_insert_eq|]. intros h3 H3. rewrite yielded_heap, yielded_twice.
    apply wp_ret. rewrite Z.eqb_refl. apply wp_ret. rewrite delete_insert_id in H3 by done. by apply HF. }
  pose proof (fresh_block k L h2 t _ stack HO Hs Ht H2) as Hf. pose proof (items_apart t) as Na.
  rewrite (proj2 (Z.eqb_neq t 0) Ht0). apply wp_bind, wp_modify, wp_bind.
  eapply wr_tcb_ok; [apply lookup_insert_eq|]. apply wp_ret. rewrite (proj2 (Z.eqb_neq t 0) Ht0).
  apply wp_bind. eapply (prvInitialiseNewTask_ok raw pcName name depth p); [exact HA|apply lookup_insert_eq|done|..].
  1-4: cbn [kls set_tcbs set_kls set_kheap minis tails]; by simplify_map_eq.
  specialize (HQ h2 stack t Hs Ht H2 Hf). apply wp_bind. eapply wp_mono.
  { match goal with |- wp _ ?x _ => match type of HQ with wp _ ?y _ => replace x with y; [exact HQ|] end end.
    unfold with_task, task_store. cbn [tcbs kls set_tcbs set_kls set_kheap minis tails lists pxStack].
    rewrite !insert_insert_eq, !(insert_over _ _ _ _ _ _ Na). reflexivity. }
  intros [] k' Hk. by apply wp_ret.
Qed.

(** ** The new task joins the others *)

Definition view_with (raw : raw_tcb) (t p : Z) (V : view) : view :=
  v_task t (xItemValue (raw_state_mini raw)) (u32 (configMAX_PRIORITIES - p)) V.

(** Old items are seen as before. *)
Lemma view_with_old raw t p V x : x <> xStateListItem t -> x <> xEventListItem t ->
  value (view_with raw t p V) x = value V x /\ owner (view_with raw t p V) x = owner V x /\ cont (view_with raw t p V) x = cont V x.
Proof. intros N1 N2. cbn. by rewrite !upd_miss. Qed.
Lemma view_with_new raw t p V : cont (view_with raw t p V) (xStateListItem t) = 0 /\ cont (view_with raw t p V) (xEventListItem t) = 0 /\
  owner (view_with raw t p V) (xStateListItem t) = t /\ owner (view_with raw t p V) (xEventListItem t) = t.
Proof. pose proof (items_apart t). cbn. rewrite !upd_hit, !(upd_miss _ (xEventListItem t)), !upd_hit by done. done. Qed.
Lemma fresh_old k t u : fresh k t -> is_Some (tcbs k !! u) -> u <> t /\
  (xStateListItem u <> xStateListItem t /\ xStateListItem u <> xEventListItem t) /\
  xEventListItem u <> xStateListItem t /\ xEventListItem u <> xEventListItem t.
Proof.
  intros [F1 F2 F3 F4] Hu. assert (N : u <> t) by (intros ->; rewrite F1 in Hu; by destruct Hu).
  destruct (F3 u Hu) as [N1 N2]. unfold xStateListItem, xEventListItem in *. lia.
Qed.

Lemma sched_of_tasks k V : sched E k V -> of_tasks k V.
Proof. intros HI. split; [intros i Hi; by apply (sc_items _ _ _ HI)|intros l Hl; by apply (sc_lists _ _ _ HI)]. Qed.

Lemma sched_with h raw t p b k V : sched E k V -> fresh k t -> room k -> is_u32 (xItemValue (raw_state_mini raw)) -> tcb_ok b ->
  sched E (with_task h raw t p b k) (view_with raw t p V).
Proof.
  intros HI Hf Hr Hv Hok. pose proof (sched_of_tasks k V HI) as Hof.
  pose proof (task_store_shows raw t (u32 (configMAX_PRIORITIES - p)) k V (sc_shows _ _ _ HI) Hof Hf Hr Hv (u32_range _)) as HV.
  destruct (fresh_items k V t Hof Hf) as (N1 & N2 & N3). destruct (view_with_new raw t p V) as (W1 & W2 & W3 & W4).
  assert (Hel : forall l x, l ∈ vlists V -> x ∈ elems V l -> x <> xStateListItem t /\ x <> xEventListItem t).
  { intros l x Hl Hx. pose proof (sh_in _ _ (sc_shows _ _ _ HI) l x Hl Hx). split; by intros ->. }
  assert (Hval : forall l x, l ∈ vlists V -> x ∈ elems V l -> value (view_with raw t p V) x = value V x).
  { intros l x Hl Hx. destruct (Hel l x Hl Hx). by apply view_with_old. }
  pose proof HI as [I1 I2 I3 I4 I5 I6 I7 I8 I9 I10 I11 I12 I13 I14 I15 I16].
  assert (Hold : forall u c, tcbs (with_task h raw t p b k) !! u = Some c -> u = t /\ c = b \/ u <> t /\ tcbs k !! u = Some c).
  { intros u c. cbn. destruct (decide (u = t)) as [->|N]; [rewrite lookup_insert_eq; intros [= <-]; by left|].
    rewrite lookup_insert_ne by done. by right. }
  split; try done.
  - intros i. cbn [vitems view_with v_task v_new]. rewrite !elem_of_union, !elem_of_singleton, I4. cbn. split.
    + intros [->|[->|(u & Hu & Hi)]]; [exists t|exists t|exists u]; rewrite ?lookup_insert_eq; try (by eauto).
      split; [|done]. destruct (decide (u = t)) as [->|N]; [by rewrite lookup_insert_eq|by rewrite lookup_insert_ne].
    + intros (u & Hu & Hi). destruct (decide (u = t)) as [->|N]; [tauto|]. rewrite lookup_insert_ne in Hu by done. right. right. eauto.
  - intros u [c Hc]. destruct (Hold u c Hc) as [[-> ->]|[N Hu]]; [done|].
    destruct (fresh_old k t u Hf) as (_ & [? ?] & ? & ?); [eauto|].
    destruct (view_with_old raw t p V (xStateListItem u)) as (_ & -> & _); [done|done|].
    destruct (view_with_old raw t p V (xEventListItem u)) as (_ & -> & _); [done|done|]. apply I5. eauto.
  - cbn. rewrite lookup_insert_ne; [done|apply Hf].
  - intros u c Hc. destruct (Hold u c Hc) as [[-> ->]|[N Hu]]; [done|by eapply I8].
  - intros u c Hc. destruct (Hold u c Hc) as [[-> ->]|[N Hu]]; [rewrite W1; right; by left|].
    destruct (fresh_old k t u Hf) as (_ & [? ?] & ? & ?); [eauto|].
    destruct (view_with_old raw t p V (xStateListItem u)) as (_ & _ & ->); [done|done|]. by apply I9.
  - intros u [c Hc]. destruct (Hold u c Hc) as [[-> ->]|[N Hu]]; [rewrite W2; by left|].
    destruct (fresh_old k t u Hf) as (_ & [? ?] & ? & ?); [eauto|].
    destruct (view_with_old raw t p V (xEventListItem u)) as (_ & _ & ->); [done|done|]. apply I10. eauto.
  - intros l Hl. pose proof (I13 l Hl) as Ho. assert (Hin : l ∈ vlists V) by (apply I2; left; right; destruct Hl as [-> | ->]; set_solver).
    change (elems (view_with raw t p V) l) with (elems V l). unfold ordered in *.
    specialize (Hval l). clear -Ho Hval Hin. induction Ho as [|x r Hr IH Hx]; [constructor|].
    constructor; [apply IH; intros y ? Hy; apply Hval; [done|by right]|]. apply Forall_forall. intros y Hy.
    rewrite !Hval; [|done|by right|done|by left]. by apply (proj1 (Forall_forall _ _) Hx).
  - intros x Hx. change (elems V (pxDelayedTaskList k)) with (elems V (pxDelayedTaskList k)) in Hx.
    destruct (kl_delayed E k V HI) as [Hd _]. rewrite (Hval _ x Hd Hx). by apply I14.
Qed.

(** A new task, ready; nothing else has moved. *)
Record arrived (t : Z) (b : TCB) (k k' : K) (V V' : view) : Prop := {
  ar_none : tcbs k !! t = None;
  ar_tcbs : tcbs k' = <[t := b]> (tcbs k);
  ar_here : cont V' (xStateListItem t) = pxReadyTasksLists (uxPriority b) /\ cont V' (xEventListItem t) = 0;
  ar_state u : is_Some (tcbs k !! u) -> cont V' (xStateListItem u) = cont V (xStateListItem u) /\
    value V' (xStateListItem u) = value V (xStateListItem u) /\ cont V' (xEventListItem u) = cont V (xEventListItem u)
}.

(** The last part of [prvAddNewTaskToReadyList]. *)
Lemma new_ready_ok h raw t p b k k1 V (Q : unit -> K -> Prop) : sched E k V -> fresh k t -> room k ->
  is_u32 (xItemValue (raw_state_mini raw)) -> tcb_ok b ->
  kls k1 = kls (with_task h raw t p b k) -> tcbs k1 = tcbs (with_task h raw t p b k) ->
  pxDelayedTaskList k1 = pxDelayedTaskList k -> pxOverflowDelayedTaskList k1 = pxOverflowDelayedTaskList k ->
  uxTopReadyPriority k1 = uxTopReadyPriority k -> xTickCount k1 = xTickCount k -> xNextTaskUnblockTime k1 = xNextTaskUnblockTime k ->
  (forall s' V', let k' := readied t (uxPriority b) s' k1 in sched E k' V' -> arrived t b k k' V V' -> Q tt k') ->
  wp (prvAddTaskToReadyList t) k1 Q.
Proof.
  intros HI Hf Hr Hv Hok E1 E2 E3 E4 E5 E6 E7 HQ.
  assert (H1 : sched E k1 (view_with raw t p V)) by (eapply sched_ext; [eapply (sched_with h raw t p b k V HI Hf Hr Hv Hok)|done..]).
  destruct (view_with_new raw t p V) as (W1 & W2 & W3 & W4). pose proof (items_apart t) as Na.
  eapply add_ready_ok; [exact H1|rewrite E2; apply lookup_insert_eq|exact W1|]. intros s' H2. eapply HQ; [exact H2|].
  split; [apply Hf|exact E2|split|].
  - cbn. by rewrite upd_hit.
  - cbn -[view_with]. by rewrite upd_miss by done.
  - intros u Hu. destruct (fresh_old k t u Hf Hu) as (_ & [? ?] & ? & ?). cbn. by rewrite !upd_miss.
Qed.

(** The memory of the tasks after a new one has come. *)
Lemma owns_arrived k k' L h stack t n b : owns k L -> L !! stack = None -> <[stack := n]> L !! t = None ->
  heap_is h (live_with t stack n L) -> kheap k' = h -> tcbs k' = <[t := b]> (tcbs k) -> pxStack b = stack ->
  owns k' (live_with t stack n L).
Proof.
  intros HO Hs Ht Hh Eh Et Es. unfold live_with in *. assert (Nts : t <> stack) by (intros ->; by rewrite lookup_insert_eq in Ht).
  assert (Hkeep : forall p m, L !! p = Some m -> p <> t /\ p <> stack /\ <[t := SIZEOF_TCB]> (<[stack := n]> L) !! p = Some m).
  { intros p m Hp. assert (p <> stack) by congruence. assert (p <> t) by (intros ->; rewrite lookup_insert_ne in Ht by done; congruence).
    by rewrite !lookup_insert_ne by done. }
  assert (Hold : forall u c, tcbs k' !! u = Some c -> u = t /\ c = b \/ u <> t /\ tcbs k !! u = Some c).
  { intros u c. rewrite Et. destruct (decide (u = t)) as [->|N]; [rewrite lookup_insert_eq; intros [= <-]; by left|].
    rewrite lookup_insert_ne by done. by right. }
  assert (Hnone : forall p m, L !! p = Some m -> tcbs k !! p = None -> tcbs k' !! p = None).
  { intros p m Hp Hn. destruct (Hkeep p m Hp) as (? & _). rewrite Et. by rewrite lookup_insert_ne. }
  split.
  - by rewrite Eh.
  - intros u c Hu. destruct (Hold u c Hu) as [[-> ->]|[N Hu']]; [by rewrite lookup_insert_eq|].
    by apply Hkeep, (ow_tcb _ _ HO u c).
  - intros u c Hu. destruct (Hold u c Hu) as [[-> ->]|[N Hu']].
    + rewrite Es, lookup_insert_ne, lookup_insert_eq by done. split; [eauto|]. rewrite Et, lookup_insert_ne by done.
      destruct (tcbs k !! stack) as [d|] eqn:Ed; [|done]. by rewrite (ow_tcb _ _ HO _ _ Ed) in Hs.
    + destruct (ow_stack _ _ HO u c Hu') as [[m Hm] Hn]. split; [|by eapply Hnone]. destruct (Hkeep _ _ Hm) as (_ & _ & ->). eauto.
  - assert (Hst : forall u c, tcbs k !! u = Some c -> pxStack c <> stack).
    { intros u c Hu Eq. destruct (ow_stack _ _ HO u c Hu) as [[m Hm] _]. congruence. }
    intros u v c d Hu Hv Eq. destruct (Hold u c Hu) as [[-> ->]|[N Hu']], (Hold v d Hv) as [[-> ->]|[N' Hv']].
    + done.
    + exfalso. eapply Hst; [exact Hv'|congruence].
    + exfalso. eapply Hst; [exact Hu'|congruence].
    + by eapply (ow_stacks _ _ HO).
  - intros l Hl. destruct (ow_lists _ _ HO l Hl) as [?|[?|(p & m & Hp & Hle & Hhi & Hn1 & Hn2)]]; [by left|by right; left|].
    right. right. destruct (Hkeep p m Hp) as (Np & Nps & Hp'). exists p, m. do 3 (split; [done|]). split; [by eapply Hnone|].
    intros u c Hu. destruct (Hold u c Hu) as [[-> ->]|[N Hu']]; [congruence|by apply (Hn2 u)].
Qed.

Lemma good_arrived D X k V k' V' t b : good E D X k V -> sched E k' V' -> arrived t b k k' V V' ->
  uxCurrentNumberOfTasks k' = uxCurrentNumberOfTasks k + 1 ->
  uxDeletedTasksWaitingCleanUp k' = uxDeletedTasksWaitingCleanUp k -> xSchedulerRunning k' = xSchedulerRunning k ->
  control_same k k' -> (switching k -> switching k') ->
  switching k' \/ (forall c, tcbs k !! pxCurrentTCB k = Some c -> uxPriority b <= uxPriority c) -> good E D X k' V'.
Proof.
  intros [G R] HI [A1 A2 [A3 A4] A5] Ecnt Edel Erun (C1 & C2 & C3 & C4 & C5 & C6 & C7 & C8) Hf Hpre.
  pose proof (gd_settled _ _ _ _ _ _ _ G) as [S1 S2 S3 S4 [S5 S5'] S6 S7 S8 S9 S10 S11].
  assert (Hp : 0 <= uxPriority b < configMAX_PRIORITIES) by (apply (sc_tcb _ _ _ HI t b); rewrite A2; apply lookup_insert_eq).
  destruct (ready_place E k' V' (uxPriority b) HI Hp) as (P1 & P2 & P3 & P4 & P5).
  assert (Hold : forall u, is_Some (tcbs k' !! u) -> u = t \/ u <> t /\ is_Some (tcbs k !! u)).
  { intros u. rewrite A2. destruct (decide (u = t)) as [->|N]; [by left|]. rewrite lookup_insert_ne by done. by right. }
  assert (Hdom : forall u, is_Some (tcbs k !! u) -> is_Some (tcbs k' !! u) /\ u <> t).
  { intros u Hu. assert (N : u <> t) by (intros ->; rewrite A1 in Hu; by destruct Hu). rewrite A2. by rewrite lookup_insert_ne. }
  assert (HD : ~ (t ∈ D) /\ ~ (t ∈ X)).
  { split; intros Hx; (destruct (S1 t) as [c Hc]; [tauto|congruence]). }
  assert (Hpn : xPendingReadyList <> 0) by (by eapply pending_nonnull). split; [split; [done| | |]|].
  - split; rewrite ?C1, ?C2, ?C3, ?C4, ?Ecnt, ?Edel, ?Erun; try done.
    + intros u Hu. apply Hdom, S1, Hu.
    + intros u Hu. destruct (Hold u Hu) as [->|[N Hu']]; [rewrite A3; tauto|]. destruct (A5 u Hu') as (-> & _). by apply S2.
    + intros u Hu. destruct (Hold u Hu) as [->|[N Hu']]; [done|]. destruct (A5 u Hu') as (_ & _ & ->). by apply S3.
    + intros u Hu. destruct (Hold u Hu) as [->|[N Hu']]; [rewrite A3; tauto|]. destruct (A5 u Hu') as (-> & _). by apply S4.
    + split; [by apply Hdom|done].
    + destruct S6 as (c & Hc & Hr). destruct (Hdom _ (ex_intro _ c Hc)) as [_ N]. exists c. rewrite A2, lookup_insert_ne by done.
      split; [done|]. destruct (A5 _ (ex_intro _ c Hc)) as (-> & _). done.
    + rewrite A2, map_size_insert, A1. lia.
  - intros u Hu. unfold wakes_later. rewrite C5, C6, C7. destruct (Hold u Hu) as [->|[N Hu']].
    + rewrite A3. destruct (sc_delays _ _ _ (gd_sched _ _ _ _ _ _ _ G)) as [[-> ->]|[-> ->]]; by split.
    + destruct (A5 u Hu') as (-> & -> & _). by apply (gd_timed _ _ _ _ _ _ _ G).
  - right. destruct (gd_preempt _ _ _ _ _ _ _ G) as [?|[?|HL]]; [done|left; auto|]. destruct Hpre as [?|Hpre]; [by left|right].
    destruct S5 as [c0 Hc0]. intros u c d Hu Hr Hd. rewrite C1, A2, lookup_insert_ne in Hd by (apply not_eq_sym, Hdom; eauto).
    destruct (Hold u (ex_intro _ c Hu)) as [->|[N Hu']].
    + rewrite A2, lookup_insert_eq in Hu. injection Hu as <-. by apply Hpre.
    + destruct (A5 u Hu') as (Ec & _). rewrite Ec in Hr. rewrite A2, lookup_insert_ne in Hu by done. by apply (HL u c d).
  - unfold resumed. rewrite C3, C4. intros Hs. destruct (R Hs) as [R1 R2]. split; [done|]. intros u Hu.
    destruct (Hold u Hu) as [->|[N Hu']]; [rewrite A4; by apply not_eq_sym|]. destruct (A5 u Hu') as (_ & _ & ->). by apply R2.
Qed.

(** With the scheduler running: a switch follows if the new task is to run. *)
Lemma add_new_running h raw t p D X k V b : good E D X k V -> fresh k t -> room k ->
  is_u32 (xItemValue (raw_state_mini raw)) -> tcb_ok b ->
  wp (prvAddNewTaskToReadyList t) (with_task h raw t p b k) (fun _ k' => exists V', good E D X k' V' /\
    arrived t b k k' V V' /\ kheap k' = h /\ control_same k k').
Proof.
  intros G Hf Hr Hv Hok. pose proof (in_sched _ _ _ _ _ G) as HI. destruct (cur_some E D X k V G) as [c Hc].
  pose proof (in_settled _ _ _ _ _ G) as HSe. assert (Ncur : pxCurrentTCB k <> t) by (intros Eq; destruct Hf; congruence).
  assert (Hcnt : u32 (uxCurrentNumberOfTasks k + 1) = uxCurrentNumberOfTasks k + 1).
  { pose proof (alive_count E D X k V HSe HI). apply u32_small. rewrite (se_count _ _ _ _ HSe) in *. destruct Hr. split; lia. }
  apply wp_bind, wp_modify, wp_bind, wp_gets. cbn [pxCurrentTCB set_uxCurrentNumberOfTasks with_task set_kheap set_tcbs set_kls].
  destruct (Z.eqb_spec (pxCurrentTCB k) 0) as [E0|_]; [rewrite E0, (sc_null _ _ _ HI) in Hc; done|].
  apply wp_bind, wp_bind, wp_gets. cbn [xSchedulerRunning set_uxCurrentNumberOfTasks with_task set_kheap set_tcbs set_kls].
  rewrite (se_running _ _ _ _ HSe). apply wp_ret, wp_bind, wp_modify, wp_bind.
  eapply (new_ready_ok h raw t p b k); [exact HI|exact Hf|exact Hr|exact Hv|exact Hok|done..|]. intros s' V' k2 HI2 Har.
  apply wp_bind, wp_gets. change (xSchedulerRunning k2) with (xSchedulerRunning k). rewrite (se_running _ _ _ _ HSe).
  apply wp_bind. eapply (current_ok _ c); [change (<[t := b]> (tcbs k) !! pxCurrentTCB k = Some c); by rewrite lookup_insert_ne|].
  apply wp_bind. eapply (rd_tcb_ok _ t b); [apply lookup_insert_eq|].
  destruct (Z.ltb_spec (uxPriority c) (uxPriority b)) as [Hlt|Hge].
  - apply wp_modify. exists V'. split; [|split; [|done]].
    + eapply (good_arrived D X k V); [exact G|eapply sched_ext; [exact HI2|done..]| |exact Hcnt|done|done|by repeat split|by left|left; by left].
      destruct Har as [B1 B2 B3 B4]. by split.
    + destruct Har as [B1 B2 B3 B4]. by split.
  - apply wp_ret. exists V'. split; [|by split]. eapply (good_arrived D X k V); [exact G|exact HI2|exact Har|exact Hcnt|done|done|by repeat split|done|].
    right. intros c0 Hc0. by simplify_eq.
Qed.

(** ** A calm kernel *)

Lemma pending_empty k V : sched E k V -> (forall t, is_Some (tcbs k !! t) -> cont V (xEventListItem t) <> xPendingReadyList) ->
  listLIST_IS_EMPTY xPendingReadyList (kls k) = Done (true, kls k).
Proof.
  intros HI Hno. assert (Hin : xPendingReadyList ∈ vlists V) by (apply (kl_static E k V HI); set_solver).
  assert (He : elems V xPendingReadyList = []).
  { destruct (elems V xPendingReadyList) as [|x r] eqn:Ex; [done|]. exfalso.
    destruct (event_head E k V xPendingReadyList x r HI (or_introl eq_refl) Ex) as (_ & t & b & _ & _ & Hb & Hc). by apply (Hno t); eauto. }
  unfold listLIST_IS_EMPTY, rd_list. mred. rewrite (sh_list _ _ (sc_shows _ _ _ HI) _ Hin). mred. by rewrite He.
Qed.

Lemma calm_good D X k V : good E D X k V -> uxSchedulerSuspended k + 1 < 4294967296 -> calm k.
Proof.
  intros G Hs. pose proof (se_suspended _ _ _ _ (in_settled _ _ _ _ _ G)) as [S1 _]. split; [done|]. split; [done|].
  intros _ E0. destruct (gd_resumed _ _ _ _ _ G E0) as [P1 P2]. split; [done|]. eapply pending_empty; [by eapply in_sched|done].
Qed.
Lemma good_yielded D X k V : good E D X k V -> good E D X (yielded k) V.
Proof. intros G. unfold yielded. case_match; [by apply good_swi|done]. Qed.
Lemma fresh_same k k' t : fresh k t -> tcbs k' = tcbs k -> fresh k' t.
Proof. intros [F1 F2 F3 F4] Et. split; rewrite ?Et; done. Qed.
Lemma room_yielded k : room k -> room (yielded k).
Proof. unfold room. by destruct (yielded_fields k) as (-> & -> & _). Qed.
Lemma fresh_yielded k t : fresh k t -> fresh (yielded k) t.
Proof. intros Hf. apply (fresh_same k); [done|apply yielded_fields]. Qed.
Lemma owns_same k k' L : owns k L -> tcbs k' = tcbs k -> kheap k' = kheap k -> owns k' L.
Proof.
  intros [O1 O2 O3 O4 O5] Et Eh. split; rewrite ?Et, ?Eh; try done. intros l Hl. unfold not_task. rewrite Et. by apply O5.
Qed.
Lemma owns_heap h k L : owns k L -> heap_is h L -> owns (set_kheap h k) L.
Proof. intros [O1 O2 O3 O4 O5] Hh. by split. Qed.
Lemma owns_yielded h k L : owns k L -> heap_is h L -> owns (set_kheap h (yielded k)) L.
Proof. intros HO Hh. apply owns_heap; [|done]. destruct (yielded_fields k) as (_ & E1 & E2 & _). by eapply owns_same. Qed.
End Life.
