(* ===== verification/TasksStart.v ===== *)
(** The start of the scheduler: the first task initialises the lists, tasks
    created before the start make the highest of them current, and
    [vTaskStartScheduler] ends in a good state. *)
From S2P Require Import Prelude FList Klist KlistNew Tasks TasksInv TasksStep TasksRun TasksApi TasksCalls TasksPrio TasksSusp TasksNew TasksLife.

(** ** Computations that may stop in an assertion *)

Definition wpa {S A} (m : M S A) (s : S) (Q : A -> S -> Prop) : Prop :=
  match m s with Done (a, s') => Q a s' | Stop w => w = Asserted end.

Lemma wpa_wp {S A} (m : M S A) (s : S) (Q : A -> S -> Prop) : wp m s Q -> wpa m s Q.
Proof. unfold wp, wpa. by destruct (m s) as [[]|]. Qed.
Lemma wpa_bind {S A B} (m : M S A) (f : A -> M S B) (s : S) (Q : B -> S -> Prop) :
  wpa m s (fun a s' => wpa (f a) s' Q) -> wpa (m ≫= f) s Q.
Proof. unfold wpa, mbind, M_bind. by destruct (m s) as [[]|]. Qed.
Lemma wpa_assert {S} (b : bool) (s : S) (Q : unit -> S -> Prop) : (b = true -> Q tt s) -> wpa (assert_ b) s Q.
Proof. unfold wpa, assert_, stop_. destruct b; [by intros HQ; apply HQ|done]. Qed.
Lemma wpa_mono {S A} (m : M S A) (s : S) (Q Q' : A -> S -> Prop) :
  wpa m s Q -> (forall a s', Q a s' -> Q' a s') -> wpa m s Q'.
Proof. unfold wpa. destruct (m s) as [[a s']|w]; auto. Qed.

Section Start.
Context {A : Type} `{HS : StaticsOk} `{HH : KernelHeap A}.
Abbreviation K := (kernel A).
Implicit Types (k : K) (V : view) (b : TCB) (E D X T : gset Z) (L : gmap Z Z).

(** ** The lists of the kernel *)

(** Every list of the kernel has its memory. *)
Definition raw_lists (s : lstate) : Prop :=
  forall l, kernel_list l -> is_Some (lists s !! l) /\ is_Some (minis s !! xListEnd l).

(** The lists of [T] have been initialised; the rest is as in [V0]. *)
Record initialised (T : gset Z) (s : lstate) (V0 V : view) : Prop := {
  in_shows : shows s V;
  in_raw : raw_lists s;
  in_lists : vlists V = T ∪ vlists V0;
  in_items : vitems V = vitems V0 /\ cont V = cont V0 /\ value V = value V0 /\ owner V = owner V0;
  in_empty l : l ∈ T -> elems V l = []
}.

Lemma initialise_step T s V0 V l (Q : unit -> lstate -> Prop) : initialised T s V0 V -> kernel_list l -> l <> 0 ->
  ~ (l ∈ T) -> ~ (l ∈ vlists V0) -> ~ (xListEnd l ∈ vitems V0) ->
  (forall s' V', initialised ({[l]} ∪ T) s' V0 V' -> Q tt s') -> wp (vListInitialise l) s Q.
Proof.
  intros [I1 I2 I3 (I4 & I5 & I6 & I7) I8] Hk Hnz HT HV Hend HQ. destruct (I2 l Hk) as [Hl Hm].
  apply (vListInitialise_ok s V I1); [rewrite I3; set_solver|done|by rewrite I4|done|done|].
  intros s' HV' Hl' Hm'. apply (HQ s' (v_list l V)). split; cbn; [done| |by rewrite I3, union_assoc_L|done|].
  - intros x Hx. destruct (I2 x Hx). auto.
  - intros x Hx. destruct (upd_case (elems V) l [] x) as [[-> ->]|[N ->]]; [done|]. apply I8. set_solver.
Qed.

Lemma ready_distinct p q : pxReadyTasksLists p = pxReadyTasksLists q -> p = q.
Proof. apply ready_inj. Qed.

(** The memory of the lists before the first task exists. *)
Record apart (V0 : view) : Prop := {
  ap_null l : kernel_list l -> l <> 0;
  ap_new l : kernel_list l -> ~ (l ∈ vlists V0);
  ap_end l : kernel_list l -> ~ (xListEnd l ∈ vitems V0)
}.

Lemma init_ready_ok n : forall p T s V0 V (Q : unit -> lstate -> Prop), 0 <= p -> p + Z.of_nat n <= configMAX_PRIORITIES -> apart V0 ->
  initialised T s V0 V -> (forall q, p <= q -> ~ (pxReadyTasksLists q ∈ T)) ->
  (forall T' s' V', (forall l, l ∈ T' <-> l ∈ T \/ exists q, p <= q < p + Z.of_nat n /\ l = pxReadyTasksLists q) ->
     initialised T' s' V0 V' -> Q tt s') -> wp (init_ready n p) s Q.
Proof.
  induction n as [|n IH]; intros p T s V0 V Q Hp Hn HA HI HT HQ; cbn [init_ready].
  - apply wp_ret. apply (HQ T s V); [|done]. intros l. split; [by left|]. intros [?|(q & Hq & _)]; [done|lia].
  - assert (Hk : kernel_list (pxReadyTasksLists p)) by (apply kernel_ready; lia). destruct HA as [A1 A2 A3].
    apply wp_bind. eapply initialise_step; [exact HI|done|auto..|apply HT; lia|auto|auto|].
    intros s1 V1 HI1. apply (IH (p + 1) ({[pxReadyTasksLists p]} ∪ T) s1 V0 V1); [lia|lia|done|exact HI1| |].
    + intros q Hq [Eq%elem_of_singleton|Hin]%elem_of_union; [apply ready_inj in Eq; lia|by apply (HT q); [lia|]].
    + intros T' s' V' HT' HI'. apply (HQ T' s' V'); [|done]. intros l. rewrite HT', elem_of_union, elem_of_singleton. split.
      * intros [[->|Hl]|(q & Hq & ->)]; [right; exists p; split; [lia|done]|by left|right; exists q; split; [lia|done]].
      * intros [Hl|(q & Hq & ->)]; [by left; right|]. destruct (decide (q = p)) as [->|N]; [by left; left|right; exists q; split; [lia|done]].
Qed.

(** All of them. *)
Lemma prvInitialiseTaskLists_ok k V0 (Q : unit -> K -> Prop) : apart V0 -> shows (kls k) V0 -> raw_lists (kls k) ->
  (forall s' V', shows s' V' -> (forall l, l ∈ vlists V' <-> kernel_list l \/ l ∈ vlists V0) ->
     (forall l, kernel_list l -> elems V' l = []) ->
     vitems V' = vitems V0 /\ cont V' = cont V0 /\ value V' = value V0 /\ owner V' = owner V0 ->
     Q tt (set_pxOverflowDelayedTaskList xDelayedTaskList2 (set_pxDelayedTaskList xDelayedTaskList1 (set_kls s' k)))) ->
  wp prvInitialiseTaskLists k Q.
Proof.
  intros HA HV Hraw HQ. pose proof HA as [A1 A2 A3]. pose proof statics_apart as Hn. rewrite !NoDup_cons, !not_elem_of_cons in Hn.
  assert (HI0 : initialised ∅ (kls k) V0 V0) by (split; [done|done|by rewrite union_empty_l_L|done|set_solver]).
  set (statics := [xDelayedTaskList1; xDelayedTaskList2; xPendingReadyList; xTasksWaitingTermination; xSuspendedTaskList]) in *.
  assert (Hstat : forall l, l ∈ statics ->
    forall q, 0 <= q < configMAX_PRIORITIES -> pxReadyTasksLists q <> l).
  { intros l Hl q Hq Eq. apply (statics_ready q Hq). by rewrite Eq. }
  apply wp_bind, onl_ok. eapply (init_ready_ok _ 0 ∅ (kls k) V0 V0); [lia|done|done|exact HI0|set_solver|].
  intros T s1 V1 HT0 HI1. cbv beta.
  assert (HT : forall l, l ∈ T <-> exists q, 0 <= q < configMAX_PRIORITIES /\ l = pxReadyTasksLists q).
  { intros l. rewrite HT0. split; [intros [Hl|Hq]; [by apply elem_of_empty in Hl|exact Hq]|by right]. }
  assert (Hnot : forall l, l ∈ statics -> ~ (l ∈ T)).
  { intros l Hl (q & Hq & Eq)%HT. by apply (Hstat l Hl q). }
  assert (Hnext : forall l T' s' V' k' (Q' : unit -> K -> Prop), l ∈ statics ->
    kls k' = s' -> initialised T' s' V0 V' -> ~ (l ∈ T') ->
    (forall s2 V2, initialised ({[l]} ∪ T') s2 V0 V2 -> Q' tt (set_kls s2 k')) -> wp (onl (vListInitialise l)) k' Q').
  { intros l T' s' V' k' Q' Hl <- HI' HT' HQ'. apply onl_ok.
    eapply initialise_step; [exact HI'|by right|apply A1; by right|done|apply A2; by right|apply A3; by right|exact HQ']. }
  assert (M : xDelayedTaskList1 ∈ statics /\ xDelayedTaskList2 ∈ statics /\ xPendingReadyList ∈ statics /\
    xTasksWaitingTermination ∈ statics /\ xSuspendedTaskList ∈ statics).
  { unfold statics. rewrite !elem_of_cons. tauto. }
  destruct M as (M1 & M2 & M3 & M4 & M5).
  apply wp_bind. eapply Hnext; [exact M1|done|exact HI1|by apply Hnot|]. intros s2 V2 HI2.
  apply wp_bind. eapply Hnext; [exact M2|done|exact HI2| |].
  { rewrite elem_of_union, elem_of_singleton. intros [E1|Hin]; [intuition congruence|by apply Hnot in Hin]. }
  intros s3 V3 HI3. apply wp_bind. eapply Hnext; [exact M3|done|exact HI3| |].
  { rewrite !elem_of_union, !elem_of_singleton. intros [E1|[E1|Hin]]; [intuition congruence..|by apply Hnot in Hin]. }
  intros s4 V4 HI4. apply wp_bind. eapply Hnext; [exact M4|done|exact HI4| |].
  { rewrite !elem_of_union, !elem_of_singleton. intros [E1|[E1|[E1|Hin]]]; [intuition congruence..|by apply Hnot in Hin]. }
  intros s5 V5 HI5. apply wp_bind. eapply Hnext; [exact M5|done|exact HI5| |].
  { rewrite !elem_of_union, !elem_of_singleton. intros [E1|[E1|[E1|[E1|Hin]]]]; [intuition congruence..|by apply Hnot in Hin]. }
  intros s6 V6 [J1 J2 J3 J4 J5]. apply wp_bind, wp_modify, wp_modify.
  assert (Hall : forall l, l ∈ {[xSuspendedTaskList]} ∪ ({[xTasksWaitingTermination]} ∪ ({[xPendingReadyList]} ∪
      ({[xDelayedTaskList2]} ∪ ({[xDelayedTaskList1]} ∪ T)))) <-> kernel_list l).
  { intros l. unfold kernel_list. rewrite !elem_of_union, !elem_of_singleton, HT, !elem_of_cons, elem_of_nil. tauto. }
  apply (HQ s6 V6); [done| | |done].
  - intros l. by rewrite J3, elem_of_union, Hall.
  - intros l Hl. by apply J5, Hall.
Qed.

(** ** Before the start *)

Section Before.
Context (E : gset Z).

(** The kernel of a program that has just been loaded. *)
Definition kernel_bss (s : lstate) (h : A) : K :=
  mkKernel ∅ s 0 0 0 0 0 configINITIAL_TICK_COUNT 0 false 0 false 0 0 0 0 0 false h.

Record loaded (s : lstate) (V : view) : Prop := {
  ld_shows : shows s V;
  ld_lists : vlists V = E;
  ld_items : vitems V = ∅;
  ld_raw : raw_lists s;
  ld_apart l : kernel_list l -> l <> 0 /\ ~ (l ∈ E)
}.

(** Tasks have been created: they are ready, and a task of the highest priority
    is current. *)
Record prestart (k : K) (V : view) : Prop := {
  ps_sched : sched E k V;
  ps_current : is_Some (tcbs k !! pxCurrentTCB k);
  ps_ready t b : tcbs k !! t = Some b ->
    cont V (xStateListItem t) = pxReadyTasksLists (uxPriority b) /\ cont V (xEventListItem t) = 0;
  ps_leads : leads k V;
  ps_count : uxCurrentNumberOfTasks k = Z.of_nat (size (tcbs k));
  ps_rest : uxDeletedTasksWaitingCleanUp k = 0 /\ xSchedulerRunning k = false /\ uxSchedulerSuspended k = 0 /\ xPendedTicks k = 0
}.

Definition before_start (k : K) (V : view) : Prop :=
  (exists s h, k = kernel_bss s h /\ loaded s V) \/ prestart k V.

Lemma loaded_of_tasks s h V : loaded s V -> of_tasks E (kernel_bss s h) V.
Proof.
  intros [L1 L2 L3 L4 L5]. split; [intros i Hi; rewrite L3 in Hi; by apply elem_of_empty in Hi|]. intros l Hl. right. by rewrite <- L2.
Qed.

(** The lists around the first task. *)
Lemma first_lists raw t p s h V (Q : unit -> K -> Prop) k : loaded s V -> fresh E (kernel_bss s h) t ->
  room (kernel_bss s h) -> is_u32 (xItemValue (raw_state_mini raw)) ->
  kls k = task_store raw t (u32 (configMAX_PRIORITIES - p)) s ->
  (forall s' V', shows s' V' -> (forall l, l ∈ vlists V' <-> kernel_list l \/ l ∈ E) -> (forall l, kernel_list l -> elems V' l = []) ->
     vitems V' = {[xEventListItem t]} ∪ {[xStateListItem t]} ->
     cont V' (xStateListItem t) = 0 /\ cont V' (xEventListItem t) = 0 /\ owner V' (xStateListItem t) = t /\ owner V' (xEventListItem t) = t ->
     Q tt (set_pxOverflowDelayedTaskList xDelayedTaskList2 (set_pxDelayedTaskList xDelayedTaskList1 (set_kls s' k)))) ->
  wp prvInitialiseTaskLists k Q.
Proof.
  intros HL Hf Hr Hv Ek HQ. pose proof (loaded_of_tasks s h V HL) as Hof. pose proof HL as [L1 L2 L3 L4 L5].
  pose proof (task_store_shows E raw t (u32 (configMAX_PRIORITIES - p)) (kernel_bss s h) V L1 Hof Hf Hr Hv (u32_range _)) as HV.
  change (kls (kernel_bss s h)) with s in HV. fold (view_with raw t p V) in HV.
  destruct (view_with_new raw t p V) as (W1 & W2 & W3 & W4).
  eapply (prvInitialiseTaskLists_ok k (view_with raw t p V)).
  - split; intros l Hl.
    + by apply L5.
    + cbn. rewrite L2. by apply L5.
    + cbn. rewrite L3. destruct (fr_ends _ _ _ Hf l (or_introl Hl)). rewrite !elem_of_union, !elem_of_singleton.
      intros [Eq|[Eq|Hin]]; [congruence|congruence|by apply elem_of_empty in Hin].
  - by rewrite Ek.
  - intros l Hl. rewrite Ek. destruct (L4 l Hl) as [X1 X2]. split; [done|]. cbn.
    destruct (fr_ends _ _ _ Hf l (or_introl Hl)). by rewrite !lookup_insert_ne.
  - intros s' V' HV' Hl' He' (Hi & Hc & _ & Ho). apply (HQ s' V'); [done| |done| |by rewrite Hc, Ho].
    + intros l. rewrite Hl'. cbn. by rewrite L2.
    + rewrite Hi. cbn. rewrite L3. by rewrite union_empty_r_L.
Qed.

(** The first task: the scheduler's invariant begins. *)
Lemma first_task_sched t b k V' : tcbs k = {[t := b]} -> t <> 0 -> tcb_ok b -> shows (kls k) V' ->
  (forall l, l ∈ E -> ~ kernel_list l) ->
  (forall l, l ∈ vlists V' <-> kernel_list l \/ l ∈ E) -> (forall l, kernel_list l -> elems V' l = []) ->
  vitems V' = {[xEventListItem t]} ∪ {[xStateListItem t]} ->
  cont V' (xStateListItem t) = 0 /\ cont V' (xEventListItem t) = 0 /\ owner V' (xStateListItem t) = t /\ owner V' (xEventListItem t) = t ->
  pxDelayedTaskList k = xDelayedTaskList1 -> pxOverflowDelayedTaskList k = xDelayedTaskList2 ->
  uxTopReadyPriority k = 0 -> xTickCount k = 0 -> xNextTaskUnblockTime k = 0 -> sched E k V'.
Proof.
  intros Et Hz Hok HV HE Hl He Hi (W1 & W2 & W3 & W4) E1 E2 E3 E4 E5.
  assert (Hone : forall u c, tcbs k !! u = Some c -> u = t /\ c = b).
  { intros u c. rewrite Et, lookup_singleton_Some. intros [-> ->]. done. }
  assert (Hd : forall l, l = xDelayedTaskList1 \/ l = xDelayedTaskList2 -> elems V' l = []).
  { intros l [-> | ->]; apply He; [apply kernel_delayed1|apply kernel_delayed2]. }
  split; rewrite ?E1, ?E2, ?E3, ?E4, ?E5; try done.
  - intros i. rewrite Hi, elem_of_union, !elem_of_singleton. split.
    + intros Hx. exists t. rewrite Et, lookup_singleton_eq. split; [eauto|tauto].
    + intros (u & [c Hu] & Hx). destruct (Hone u c Hu) as [-> _]. tauto.
  - intros u [c Hu]. by destruct (Hone u c Hu) as [-> _].
  - rewrite Et. by apply lookup_singleton_ne.
  - by left.
  - intros u c Hu. by destruct (Hone u c Hu) as [-> ->].
  - intros u c Hu. destruct (Hone u c Hu) as [-> ->]. rewrite W1. right. by left.
  - intros u [c Hu]. destruct (Hone u c Hu) as [-> ->]. rewrite W2. by left.
  - intros p Hp Hne. exfalso. by apply Hne, He, kernel_ready.
  - intros l Hx. rewrite (Hd l Hx). constructor.
  - rewrite (Hd xDelayedTaskList1) by by left. intros x Hx. by apply elem_of_nil in Hx.
Qed.

Lemma add_new_first h raw t p b s h0 V : loaded s V -> fresh E (kernel_bss s h0) t -> room (kernel_bss s h0) ->
  is_u32 (xItemValue (raw_state_mini raw)) -> tcb_ok b ->
  wp (prvAddNewTaskToReadyList t) (with_task h raw t p b (kernel_bss s h0)) (fun _ k' => exists V', prestart k' V' /\
    tcbs k' = {[t := b]} /\ kheap k' = h /\ xIdleTaskHandle k' = 0).
Proof.
  intros HL Hf Hr Hv Hok. pose proof HL as [L1 L2 L3 L4 L5].
  apply wp_bind, wp_modify, wp_bind, wp_gets. cbn [pxCurrentTCB set_uxCurrentNumberOfTasks with_task set_kheap set_tcbs set_kls kernel_bss].
  cbn [Z.eqb]. apply wp_bind, wp_bind, wp_modify, wp_bind, wp_gets.
  match goal with |- context [uxCurrentNumberOfTasks ?x] => change (uxCurrentNumberOfTasks x) with 1 end. cbn [Z.eqb Pos.eqb].
  eapply (first_lists raw t p s h0 V); [exact HL|exact Hf|exact Hr|exact Hv|done|]. intros s' V' HV' Hl' He' Hi' HW.
  apply wp_bind, wp_modify, wp_bind.
  match goal with |- wp _ ?x _ => set (k1 := x) end. pose proof HW as (W1 & W2 & _).
  assert (HI : sched E k1 V').
  { eapply (first_task_sched t b k1 V'); try done; [apply Hf|]. intros l Hl Hk. by apply (L5 l Hk). }
  eapply add_ready_ok; [exact HI|apply lookup_singleton_eq|exact W1|]. intros s2 HI2. set (V2 := v_insert_end _ _ V') in *.
  set (k2 := readied t (uxPriority b) s2 k1) in *. apply wp_bind, wp_gets. change (xSchedulerRunning k2) with false. apply wp_ret.
  exists V2. split; [|done]. assert (Ec : cont V2 (xStateListItem t) = pxReadyTasksLists (uxPriority b)) by (cbn; by rewrite upd_hit).
  assert (Hone : forall u c, tcbs k2 !! u = Some c -> u = t /\ c = b).
  { intros u c. change (tcbs k2) with ({[t := b]} : gmap Z TCB). rewrite lookup_singleton_Some. by intros [-> ->]. }
  split; [done|exists b; apply lookup_singleton_eq| | | |by repeat split].
  - intros u c Hu. destruct (Hone u c Hu) as [-> ->]. split; [done|]. cbn. rewrite upd_miss; [done|]. apply not_eq_sym, items_apart.
  - intros u c d Hu _ Hd. destruct (Hone u c Hu) as [_ ->]. destruct (Hone _ d Hd) as [_ ->]. lia.
  - change (1 = Z.of_nat (size ({[t := b]} : gmap Z TCB))). by rewrite map_size_singleton.
Qed.

Lemma add_new_prestart h raw t p k V b : prestart k V -> fresh E k t -> room k ->
  is_u32 (xItemValue (raw_state_mini raw)) -> tcb_ok b ->
  wp (prvAddNewTaskToReadyList t) (with_task h raw t p b k) (fun _ k' => exists V', prestart k' V' /\
    tcbs k' = <[t := b]> (tcbs k) /\ kheap k' = h /\ xIdleTaskHandle k' = xIdleTaskHandle k).
Proof.
  intros [HI [c Hc] Hready HLd Hcnt (P1 & P2 & P3 & P4)] Hf Hr Hv Hok.
  assert (Ncur : pxCurrentTCB k <> t) by (intros Eq; destruct Hf; congruence).
  assert (Hc1 : u32 (uxCurrentNumberOfTasks k + 1) = uxCurrentNumberOfTasks k + 1).
  { rewrite Hcnt. apply u32_small. destruct Hr. split; lia. }
  apply wp_bind, wp_modify, wp_bind, wp_gets. cbn [pxCurrentTCB set_uxCurrentNumberOfTasks with_task set_kheap set_tcbs set_kls].
  destruct (Z.eqb_spec (pxCurrentTCB k) 0) as [E0|_]; [rewrite E0, (sc_null _ _ _ HI) in Hc; done|].
  apply wp_bind, wp_bind, wp_gets. cbn [xSchedulerRunning set_uxCurrentNumberOfTasks with_task set_kheap set_tcbs set_kls].
  rewrite P2. apply wp_bind. eapply (rd_tcb_ok _ _ c); [cbn; by rewrite lookup_insert_ne|].
  apply wp_bind. eapply (rd_tcb_ok _ t b); [apply lookup_insert_eq|].
  assert (Hend : forall cur k1, (cur = t /\ uxPriority c <= uxPriority b \/ cur = pxCurrentTCB k /\ uxPriority b < uxPriority c) ->
    k1 = set_pxCurrentTCB cur (set_uxCurrentNumberOfTasks (u32 (uxCurrentNumberOfTasks k + 1)) (with_task h raw t p b k)) ->
    wp (modify (fun k => set_uxTaskNumber (u32 (uxTaskNumber k + 1)) k);; prvAddTaskToReadyList t;;
        run ← gets xSchedulerRunning;
        if run : bool then c ← current; b ← rd_tcb t; if uxPriority c <? uxPriority b then portYIELD else mret tt else mret tt) k1
      (fun _ k' => exists V', prestart k' V' /\ tcbs k' = <[t := b]> (tcbs k) /\ kheap k' = h /\ xIdleTaskHandle k' = xIdleTaskHandle k)).
  { intros cur k1 Hcur ->. apply wp_bind, wp_modify, wp_bind.
    eapply (new_ready_ok E h raw t p b k); [exact HI|exact Hf|exact Hr|exact Hv|exact Hok|done..|]. intros s' V' k2 HI2 [B1 B2 [B3 B3'] B4].
    apply wp_bind, wp_gets. change (xSchedulerRunning k2) with (xSchedulerRunning k). rewrite P2. apply wp_ret. exists V'.
    split; [|by rewrite B2].
    assert (Hold : forall u d, tcbs k2 !! u = Some d -> u = t /\ d = b \/ u <> t /\ tcbs k !! u = Some d).
    { intros u d. rewrite B2. destruct (decide (u = t)) as [->|N]; [rewrite lookup_insert_eq; intros [= <-]; by left|].
      rewrite lookup_insert_ne by done. by right. }
    split; [done| | | | |done].
    - rewrite B2. change (pxCurrentTCB k2) with cur. destruct Hcur as [[-> _]|[-> _]]; [rewrite lookup_insert_eq|rewrite lookup_insert_ne by done]; eauto.
    - intros u d Hu. destruct (Hold u d Hu) as [[-> ->]|[N Hu']]; [done|]. destruct (B4 u) as (-> & _ & ->); [eauto|]. by apply Hready.
    - intros u d e Hu Hru He. change (pxCurrentTCB k2) with cur in He.
      assert (Hle : forall v x, tcbs k !! v = Some x -> uxPriority x <= uxPriority c).
      { intros v x Hvx. apply (HLd v x c Hvx); [by apply (Hready v x)|done]. }
      destruct (Hold u d Hu) as [[-> ->]|[N Hu']], Hcur as [[-> Hle2]|[-> Hlt2]].
      + rewrite B2, lookup_insert_eq in He. injection He as <-. lia.
      + rewrite B2, lookup_insert_ne in He by done. simplify_eq. lia.
      + rewrite B2, lookup_insert_eq in He. injection He as <-. specialize (Hle u d Hu'). lia.
      + rewrite B2, lookup_insert_ne in He by done. simplify_eq. by apply (Hle u).
    - rewrite B2, map_size_insert. destruct Hf as [-> _ _ _]. cbn. rewrite Hc1, Hcnt. lia. }
  destruct (Z.leb_spec (uxPriority c) (uxPriority b)) as [Hle|Hgt].
  - apply wp_modify. by eapply (Hend t); [left|].
  - apply wp_ret. eapply (Hend (pxCurrentTCB k)); [by right|done].
Qed.

(** ** xTaskCreate *)

(** A task has been created: where it lies and what it is. *)
Record born (raw : raw_tcb) (name : list Z) (depth p t : Z) (L L' : gmap Z Z) (k k' : K) : Prop := {
  bo_new : tcbs k !! t = None;
  bo_tcbs : exists stack, L !! stack = None /\ <[stack := depth * 4]> L !! t = None /\ L' = live_with t stack (depth * 4) L /\
    tcbs k' = <[t := new_tcb name stack depth p]> (tcbs k);
  bo_idle : xIdleTaskHandle k' = xIdleTaskHandle k;
  bo_owns : owns E k' L'
}.

Lemma new_tcb_ok name stack depth p : 0 <= p < configMAX_PRIORITIES -> tcb_ok (new_tcb name stack depth p).
Proof. intros Hp. split; [done|done|by_decision]. Qed.

Lemma prestart_heap h k V : prestart k V -> prestart (set_kheap h k) V.
Proof. intros [P1 P2 P3 P4 P5 P6]. split; try done. by eapply sched_ext. Qed.

Lemma prestart_yielded k V : prestart k V -> prestart (yielded k) V.
Proof. intros [P1 P2 P3 P4 P5 P6]. unfold yielded. case_match; [|done]. split; try done. by eapply sched_ext. Qed.
Lemma calm_before k V : before_start k V -> calm k.
Proof.
  intros [(s & h & -> & _)|[P1 P2 P3 P4 P5 (P6 & P7 & P8 & P9)]].
  - split; [done|]. split; [done|]. intros Hc. cbn in Hc. lia.
  - split; [rewrite P8; done|]. split; [by rewrite P8|]. intros _ _. split; [done|]. eapply pending_empty; [exact P1|].
    intros t [b Hb]. destruct (P3 t b Hb) as [_ ->]. apply not_eq_sym. by eapply pending_nonnull.
Qed.
Lemma yielded_idle k : xIdleTaskHandle (yielded k) = xIdleTaskHandle k.
Proof. unfold yielded. by case_match. Qed.

Lemma xTaskCreate_before raw pcName name depth p k V L : before_start k V -> owns E k L -> create_args raw pcName name depth p -> room k ->
  wp (xTaskCreate raw pcName depth p) k (fun r k' =>
    r = (errCOULD_NOT_ALLOCATE_REQUIRED_MEMORY, 0) /\ before_start k' V /\ owns E k' L /\ tcbs k' = tcbs k \/
    exists t V' L', r = (pdPASS, t) /\ prestart k' V' /\ born raw name depth p t L L' k k').
Proof.
  intros HB HO HA Hr. destruct (yielded_fields k) as (Y1 & Y2 & Y3 & _). pose proof (yielded_idle k) as Y4.
  eapply (xTaskCreate_run E raw pcName name depth p k L); [exact HA|exact HO|by eapply calm_before| |].
  - intros h Hh. left. split; [done|]. split; [|split; [by apply owns_yielded|exact Y2]].
    destruct HB as [(s & h0 & -> & HL)|HP]; [left; by exists s, h|right; by apply prestart_heap, prestart_yielded].
  - intros h stack t n Hs Ht Hh Hf. pose proof (new_tcb_ok name stack depth p (ca_priority _ _ _ _ _ HA)) as Hok.
    assert (Hend : forall k' V', prestart k' V' -> tcbs k' = <[t := new_tcb name stack depth p]> (tcbs k) -> kheap k' = h ->
      xIdleTaskHandle k' = xIdleTaskHandle k ->
      (pdPASS, t) = (errCOULD_NOT_ALLOCATE_REQUIRED_MEMORY, 0) /\ before_start k' V /\ owns E k' L /\ tcbs k' = tcbs k \/
      exists t' V1 L', (pdPASS, t) = (pdPASS, t') /\ prestart k' V1 /\ born raw name depth p t' L L' k k').
    { intros k' V' HP Et Eh Ei. right. exists t, V', (live_with t stack n L). do 2 (split; [done|]). split; [apply Hf|by exists stack|done|].
      by eapply (owns_arrived E k k' L h stack t n). }
    destruct HB as [(s & h0 & -> & HL)|HP].
    + eapply wp_mono; [apply (add_new_first h raw t p _ s h0 V HL Hf Hr (ca_value _ _ _ _ _ HA) Hok)|].
      intros _ k' (V' & HP & Et & Eh & Ei). apply (Hend k' V'); [done| |done|done]. exact Et.
    + eapply wp_mono; [apply (add_new_prestart h raw t p (yielded k) V _ (prestart_yielded k V HP) (fresh_yielded _ _ _ Hf) (room_yielded _ Hr) (ca_value _ _ _ _ _ HA) Hok)|].
      intros _ k' (V' & HP' & Et & Eh & Ei). rewrite Y2 in Et. rewrite Y4 in Ei. by apply (Hend k' V').
Qed.

Lemma good_heap D X h k V : good E D X k V -> good E D X (set_kheap h k) V.
Proof.
  intros [G R]. split; [|exact R]. eapply (good_ext E (xTickCount k + 1)); [exact G|eapply sched_ext; [apply G|done..]| |done|by repeat split|done].
  eapply settled_same; [apply G|done..].
Qed.


Lemma xTaskCreate_running raw pcName name depth p D X k V L : good E D X k V -> owns E k L -> create_args raw pcName name depth p -> room k ->
  uxSchedulerSuspended k + 1 < 4294967296 ->
  wp (xTaskCreate raw pcName depth p) k (fun r k' => control_same k k' /\
    (r = (errCOULD_NOT_ALLOCATE_REQUIRED_MEMORY, 0) /\ good E D X k' V /\ owns E k' L /\ tcbs k' = tcbs k \/
     exists t V' L', r = (pdPASS, t) /\ good E D X k' V' /\ born raw name depth p t L L' k k' /\
       cont V' (xStateListItem t) = pxReadyTasksLists p)).
Proof.
  intros G HO HA Hr Hs0. destruct (yielded_fields k) as (Y1 & Y2 & Y3 & _). pose proof (yielded_idle k) as Y4. pose proof (yielded_control k) as Yc.
  eapply (xTaskCreate_run E raw pcName name depth p k L); [exact HA|exact HO|by eapply calm_good| |].
  - intros h Hh. split; [exact Yc|]. left. split; [done|]. split; [by apply good_heap, good_yielded|]. split; [by apply owns_yielded|exact Y2].
  - intros h stack t n Hs Ht Hh Hf. pose proof (new_tcb_ok name stack depth p (ca_priority _ _ _ _ _ HA)) as Hok.
    eapply wp_mono; [apply (add_new_running E h raw t p D X (yielded k) V _ (good_yielded _ _ _ _ _ G) (fresh_yielded _ _ _ Hf) (room_yielded _ Hr) (ca_value _ _ _ _ _ HA) Hok)|].
    intros _ k' (V' & G' & [A1 A2 [A3 A3'] A4] & Eh & HC). rewrite Y2 in *. split; [unfold control_same in *; intuition congruence|].
    right. exists t, V', (live_with t stack n L).
    split; [done|]. split; [done|]. split; [|exact A3].
    split; [done|by exists stack|rewrite <- Y4; apply HC|]. by eapply (owns_arrived E k k' L h stack t n).
Qed.
End Before.

(** ** vTaskStartScheduler *)

(** [E] are the event lists before the queue of the timer task exists, [E'] those
    with it. *)
Section Scheduler.
Context (E E' : gset Z) (timer_list_and_queue : M K bool).

Definition makes_timer_queue : Prop := forall k V L, prestart E k V -> owns E k L ->
  wp timer_list_and_queue k (fun (q : bool) k' => exists V' L', prestart E' k' V' /\ owns E' k' L' /\ (q = true -> room k') /\
    tcbs k' = tcbs k /\ xIdleTaskHandle k' = xIdleTaskHandle k).

(** The running scheduler, from the tasks created before. *)
Lemma started D k V : prestart E' k V -> (exists b, tcbs k !! xIdleTaskHandle k = Some b) -> D = ∅ ->
  good E' D D (set_xTickCount configINITIAL_TICK_COUNT (set_xSchedulerRunning true (set_xNextTaskUnblockTime portMAX_DELAY k))) V.
Proof.
  intros [HI Hc Hready HL Hcnt (P1 & P2 & P3 & P4)] [bi Hbi] ->. set (k' := set_xTickCount _ _).
  assert (Hpl : forall t b, tcbs k !! t = Some b -> 0 <= uxPriority b < configMAX_PRIORITIES) by (intros t b Hb; apply (sc_tcb _ _ _ HI t b Hb)).
  assert (Hel : elems V (pxDelayedTaskList k) = []).
  { destruct (delayed_places E' k V HI) as (_ & _ & _ & _ & Hp & Hk). destruct (kl_delayed E' k V HI) as [Hin _].
    destruct (elems V (pxDelayedTaskList k)) as [|x r] eqn:Ex; [done|]. exfalso.
    destruct (on_state_list E' k V HI (pxDelayedTaskList k) x Hin) as (t & b & -> & Hb & Hcx); [rewrite Ex; left|done|done|].
    destruct (Hready t b Hb) as [Er _]. rewrite Er in Hcx. apply (place_ready (uxPriority b) (Hpl t b Hb)).
    rewrite Hcx. destruct (sc_delays _ _ _ HI) as [[-> _]|[-> _]]; auto. }
  assert (HI' : sched E' k' V).
  { apply set_tick_sched; [|by_decision]. assert (H1 : sched E' (set_xNextTaskUnblockTime portMAX_DELAY k) V).
    { apply set_unblock_sched; [done|by_decision|]. rewrite Hel. intros x Hx. by apply elem_of_nil in Hx. }
    by eapply sched_ext. }
  assert (Hr : forall t, is_Some (tcbs k !! t) -> exists b, tcbs k !! t = Some b /\ cont V (xStateListItem t) = pxReadyTasksLists (uxPriority b) /\
    cont V (xEventListItem t) = 0) by (intros t [b Hb]; destruct (Hready t b Hb); eauto).
  split; [split; [done| | |]|].
  - split; try done.
    + intros t [Ht|Ht]; by apply elem_of_empty in Ht.
    + intros t Ht. destruct (Hr t Ht) as (b & Hb & Er & _). rewrite Er. destruct (ready_place E' k V _ HI (Hpl t b Hb)) as (N & _).
      split; [done|]. intros Ht'. by apply elem_of_empty in Ht'.
    + intros t Ht. destruct (Hr t Ht) as (b & Hb & Er & _). rewrite Er. destruct (ready_place E' k V _ HI (Hpl t b Hb)) as (_ & _ & _ & N & _).
      split; [done|]. intros Ht'. by apply elem_of_empty in Ht'.
    + exists bi. split; [done|]. by apply (Hready _ bi Hbi).
    + cbn. rewrite Hcnt, size_empty. lia.
    + cbn. rewrite P3. by_decision.
    + cbn. rewrite P4. by_decision.
  - intros t Ht. destruct (Hr t Ht) as (b & Hb & Er & _). destruct (ready_place E' k V _ HI (Hpl t b Hb)) as (_ & N1 & N2 & _).
    unfold wakes_later. rewrite Er. destruct (sc_delays _ _ _ HI) as [[D1 D2]|[D1 D2]]; cbn; rewrite D1, D2; by split.
  - right. right. exact HL.
  - intros _. split; [done|]. intros t Ht. destruct (Hr t Ht) as (b & Hb & _ & ->). apply not_eq_sym. by eapply pending_nonnull.
Qed.

Lemma vTaskStartScheduler_ok raw_idle raw_timer n1 n2 k V L : makes_timer_queue -> before_start E k V -> owns E k L -> room k ->
  create_args raw_idle (Some [73; 68; 76; 69; 0]) n1 configMINIMAL_STACK_SIZE tskIDLE_PRIORITY ->
  create_args raw_timer (Some [84; 109; 114; 32; 83; 118; 99; 0]) n2 configMINIMAL_STACK_SIZE configTIMER_TASK_PRIORITY ->
  wpa (vTaskStartScheduler timer_list_and_queue raw_idle raw_timer) k (fun _ k' => exists V' L' idle timer,
    good E' ∅ ∅ k' V' /\ owns E' k' L' /\ xTickCount k' = configINITIAL_TICK_COUNT /\ xIdleTaskHandle k' = idle /\
    dom (tcbs k') = {[timer; idle]} ∪ dom (tcbs k)).
Proof.
  intros Htq HB HO Hr A1 A2. apply wpa_bind. eapply wpa_mono; [apply wpa_wp, (xTaskCreate_before E _ _ _ _ _ k V L HB HO A1 Hr)|].
  intros r k1 [(-> & _)|(idle & V1 & L1 & -> & HP & [B1 (st1 & _ & _ & _ & B2) B3 B4])]; cbn [fst snd].
  { apply wpa_bind, wpa_wp, wp_ret, wpa_bind, wpa_wp, wp_ret. cbn [Z.eqb]. by apply wpa_assert. }
  apply wpa_bind, wpa_wp, wp_modify, wpa_bind. set (k2 := set_xIdleTaskHandle idle k1).
  assert (HP2 : prestart E k2 V1) by (destruct HP; split; try done; by eapply sched_ext).
  assert (HO2 : owns E k2 L1) by (destruct B4; by split).
  apply wpa_bind. eapply wpa_mono; [apply wpa_wp, (Htq k2 V1 L1 HP2 HO2)|].
  intros q k3 (V3 & L3 & HP3 & HO3 & Hr3 & Et3 & Ei3). apply wpa_bind. destruct q.
  2:{ apply wpa_wp, wp_ret, wpa_bind, wpa_assert. done. }
  apply wpa_bind. eapply wpa_mono; [apply wpa_wp, (xTaskCreate_before E' _ _ _ _ _ k3 V3 L3 (or_intror HP3) HO3 A2 (Hr3 eq_refl))|].
  intros r k4 [(-> & _)|(timer & V4 & L4 & -> & HP4 & [C1 (st2 & _ & _ & _ & C2) C3 C4])]; cbn [fst snd].
  { apply wpa_wp, wp_ret, wpa_bind, wpa_assert. intros _. apply wpa_wp, wp_ret. cbn [Z.eqb]. by apply wpa_assert. }
  apply wpa_wp, wp_ret, wpa_bind, wpa_assert. intros _. apply wpa_wp, wp_ret. cbn [Z.eqb].
  apply wpa_bind, wpa_wp, wp_modify, wpa_bind, wpa_wp, wp_modify, wpa_wp, wp_modify.
  assert (Ei4 : xIdleTaskHandle k4 = idle) by (rewrite C3, Ei3; done).
  exists V4, L4, idle, timer. split; [|split; [|split; [done|split; [done|]]]].
  - apply started; [done| |done]. rewrite Ei4, C2, Et3. cbn. rewrite B2.
    assert (N : idle <> timer). { intros <-. rewrite Et3 in C1. cbn in C1. by rewrite B2, lookup_insert_eq in C1. }
    rewrite lookup_insert_ne, lookup_insert_eq by done. eauto.
  - by destruct C4.
  - cbn. rewrite C2, Et3. cbn. rewrite B2, !dom_insert_L. set_solver.
Qed.
End Scheduler.
End Start.
