(* ===== verification/TasksDelete.v ===== *)
(** Deleting tasks: a task leaves every list before its memory is freed, by the
    task that deletes it or, when it deletes itself, by the idle task. *)
From S2P Require Import Prelude FList Klist KlistNew Tasks TasksInv TasksStep TasksRun TasksApi TasksCalls TasksPrio TasksSusp TasksNew TasksLife.

Section Delete.
Context {A : Type} `{HS : StaticsOk} `{HH : KernelHeap A} (E : gset Z).
Abbreviation K := (kernel A).
Implicit Types (k : K) (V : view) (b : TCB) (D X : gset Z) (L : gmap Z Z).

Lemma term_nonnull k V : sched E k V -> xTasksWaitingTermination <> 0.
Proof. intros HI E0. apply (sh_null _ _ (sc_shows _ _ _ HI)). rewrite <- E0. apply (kl_static E k V HI). set_solver. Qed.

(** ** Leaving the lists *)

(** The task [t] is dead ([ps] null) or waits for its end on the termination
    list; [D'] and [X'] say so. *)
Record leaving (t ps : Z) (D X D' X' : gset Z) : Prop := {
  lv_place : ps = 0 \/ ps = xTasksWaitingTermination;
  lv_dead u : u ∈ D' <-> u <> t /\ u ∈ D \/ u = t /\ ps = 0;
  lv_term u : u ∈ X' <-> u <> t /\ u ∈ X \/ u = t /\ ps = xTasksWaitingTermination
}.

Lemma good_leave D X D' X' t k V k2 V2 k' b ps : good E D X k V -> tcbs k !! t = Some b -> spot E t k V k2 V2 b ps 0 ->
  leaving t ps D X D' X' -> t <> xIdleTaskHandle k -> (ps = 0 -> t <> pxCurrentTCB k) ->
  sched E k' V2 -> tcbs k' = tcbs k2 -> control_same k2 k' -> (switching k2 -> switching k') ->
  xSchedulerRunning k' = xSchedulerRunning k2 ->
  uxCurrentNumberOfTasks k' = Z.of_nat (size (tcbs k)) - Z.of_nat (size D') ->
  uxDeletedTasksWaitingCleanUp k' = Z.of_nat (size X') -> good E D' X' k' V2.
Proof.
  intros [G R] Hb SP [Lp Ld Lx] Hi Hc HI Et Hcs Hf Erun Ecnt Edel. pose proof SP as [S1 S2 S3 S4 S5 S6 S7].
  destruct S2 as [T1 T2 T3 T4 T5 (M1 & M2 & M3 & M4 & M5 & M6 & M7) (M8 & M9 & M10 & M11) _].
  destruct Hcs as (C1 & C2 & C3 & C4 & C5 & C6 & C7 & C8).
  pose proof (gd_settled _ _ _ _ _ _ _ G) as [Q1 Q2 Q3 Q4 [Q5 Q5'] Q6 Q7 Q8 Q9 Q10 Q11].
  assert (Hterm : xTasksWaitingTermination <> 0).
  { intros E0. apply (sh_null _ _ (sc_shows _ _ _ HI)). rewrite <- E0. apply (kl_static E k' V2 HI). set_solver. }
  assert (Hdom : forall u, is_Some (tcbs k' !! u) <-> is_Some (tcbs k !! u)) by (intros u; by rewrite Et, T1).
  assert (Ht : is_Some (tcbs k !! t)) by (apply T1; eauto).
  split; [split; [done| | |]|].
  - split.
    + intros u Hu. apply Hdom. rewrite Ld, Lx in Hu. destruct Hu as [[[_ Hu]|[-> _]]|[[_ Hu]|[-> _]]]; [by apply Q1; left|done|by apply Q1; right|done].
    + intros u Hu. apply Hdom in Hu. rewrite Ld. destruct (decide (u = t)) as [->|N]; [rewrite S4; tauto|].
      destruct (T4 u N Hu) as [-> _]. rewrite (Q2 u Hu). tauto.
    + intros u Hu. apply Hdom in Hu. destruct (decide (u = t)) as [->|N]; [done|]. rewrite (T5 u N Hu). intros He.
      rewrite Ld, Lx. destruct (Q3 u Hu He). tauto.
    + intros u Hu. apply Hdom in Hu. rewrite Lx. destruct (decide (u = t)) as [->|N]; [rewrite S4; tauto|].
      destruct (T4 u N Hu) as [-> _]. rewrite (Q4 u Hu). tauto.
    + rewrite C1, M1. split; [by apply Hdom|]. rewrite Ld. intros [[_ Hd]|[E1 E2]]; [done|]. by apply Hc.
    + rewrite C2, M2. destruct Q6 as (c & Hc0 & Hr). exists c. rewrite Et, (T3 _ (not_eq_sym Hi)). split; [done|].
      destruct (T4 _ (not_eq_sym Hi) (ex_intro _ c Hc0)) as [-> _]. done.
    + by rewrite Ecnt, Et, T2.
    + done.
    + by rewrite Erun, M5.
    + by rewrite C3, M6.
    + by rewrite C4, M7.
  - intros u Hu. apply Hdom in Hu. unfold wakes_later. rewrite C5, C6, C7, M8, M9, M10.
    destruct (decide (u = t)) as [->|N].
    + rewrite S4. pose proof statics_apart as Hn. rewrite !NoDup_cons, !not_elem_of_cons in Hn.
      destruct (kl_delayed E k V (gd_sched _ _ _ _ _ _ _ G)) as [K1 K2]. pose proof (sh_null _ _ (sc_shows _ _ _ (gd_sched _ _ _ _ _ _ _ G))).
      split; intros Eq; exfalso; destruct Lp as [-> | ->]; [by rewrite <- Eq in K1| |by rewrite <- Eq in K2|];
        destruct (sc_delays _ _ _ (gd_sched _ _ _ _ _ _ _ G)) as [[E1 E2]|[E1 E2]]; intuition congruence.
    + destruct (T4 u N Hu) as [-> ->]. by apply (gd_timed _ _ _ _ _ _ _ G).
  - right. destruct (gd_preempt _ _ _ _ _ _ _ G) as [?|[?|HL]]; [done|left; auto|right].
    intros u c d Hu Hr Hd. rewrite Et in Hu, Hd. rewrite C1, M1 in Hd. destruct Q5 as [c0 Hc0].
    assert (Hold : forall x y, tcbs k2 !! x = Some y -> x = t \/ x <> t /\ tcbs k !! x = Some y).
    { intros x y Hx. destruct (decide (x = t)) as [->|N]; [by left|]. right. by rewrite <- T3. }
    assert (Hp : 0 <= uxPriority c < configMAX_PRIORITIES) by (apply (sc_tcb _ _ _ S1 u c Hu)).
    destruct (ready_place E k' V2 (uxPriority c) HI Hp) as (P1 & P2 & P3 & P4 & P5).
    destruct (Hold u c Hu) as [->|[N Hu']]; [rewrite S4 in Hr; destruct Lp; congruence|].
    destruct (T4 u N (ex_intro _ c Hu')) as [Ec _]. rewrite Ec in Hr.
    destruct (Hold _ d Hd) as [Eq|[N' Hd']]; [|by apply (HL u c d)].
    apply (HL u c d Hu' Hr). rewrite Eq in Hd |- *. congruence.
  - unfold resumed. rewrite C3, C4, M6, M7. intros Hs. destruct (R Hs) as [R1 R2]. split; [done|]. intros u Hu.
    apply Hdom in Hu. destruct (decide (u = t)) as [->|N]; [rewrite S5; apply not_eq_sym; by eapply pending_nonnull|].
    rewrite (T5 u N Hu). by apply R2.
Qed.

(** ** vTaskDelete *)

Lemma size_dead D t : ~ (t ∈ D) -> Z.of_nat (size ({[t]} ∪ D)) = Z.of_nat (size D) + 1.
Proof. intros N. rewrite size_union, size_singleton by set_solver. lia. Qed.

Lemma dead_undo D t : ~ (t ∈ D) -> ({[t]} ∪ D) ∖ {[t]} = D.
Proof. set_solver. Qed.
Lemma term_less X t : t ∈ X -> size (X ∖ {[t]}) = (size X - 1)%nat.
Proof. intros Ht. by rewrite size_difference, size_singleton by (by apply singleton_subseteq_l). Qed.

Lemma set_deleted_sched k V n : sched E k V -> sched E (set_uxDeletedTasksWaitingCleanUp n k) V.
Proof. intros HI. by eapply sched_ext. Qed.
Lemma set_count_sched k V n : sched E k V -> sched E (set_uxCurrentNumberOfTasks n k) V.
Proof. intros HI. by eapply sched_ext. Qed.
Lemma set_number_sched k V n : sched E k V -> sched E (set_uxTaskNumber n k) V.
Proof. intros HI. by eapply sched_ext. Qed.

Lemma left_facts t k V k4 V4 b ps k' : tcbs k !! t = Some b -> spot E t k V k4 V4 b ps 0 -> tcbs k' = tcbs k4 ->
  kheap k' = kheap k4 -> control_same k4 k' -> tcbs k' = tcbs k /\ kheap k' = kheap k /\ control_same k k' /\
  (forall u, u <> t -> is_Some (tcbs k !! u) ->
     cont V4 (xStateListItem u) = cont V (xStateListItem u) /\ cont V4 (xEventListItem u) = cont V (xEventListItem u)).
Proof.
  intros Hb S4 Et Eh Hc. pose proof (spot_tcbs E _ _ _ _ _ _ _ _ S4 Hb) as E1. pose proof (spot_control E _ _ _ _ _ _ _ _ S4) as E2.
  pose proof (sp_move _ _ _ _ _ _ _ _ _ S4) as Hm. split; [congruence|]. split; [by rewrite Eh, (tm_heap _ _ _ _ _ Hm)|].
  split; [unfold control_same in *; intuition congruence|]. intros u N Hu.
  split; [by apply (tm_state _ _ _ _ _ Hm)|by apply (tm_event _ _ _ _ _ Hm)].
Qed.

Lemma dead_sizes D X k V : settled D X k V -> (size D <= size (tcbs k))%nat /\ (size X <= size (tcbs k))%nat.
Proof.
  intros HSe. rewrite <- size_dom. split; apply subseteq_size; intros u Hu; apply elem_of_dom, (se_dead _ _ _ _ HSe); tauto.
Qed.

(** Off both lists; then dead, or on the termination list if it is the current
    task. *)
Lemma delete_section_ok D X k V h b : good E D X k V ->
  let t := if h =? 0 then pxCurrentTCB k else h in
  tcbs k !! t = Some b -> ~ (t ∈ D) -> ~ (t ∈ X) -> t <> xIdleTaskHandle k -> Z.of_nat (size (tcbs k)) + 1 < 4294967296 ->
  wp (delete_section h) k (fun r k' => r = t /\ exists V', tcbs k' = tcbs k /\ kheap k' = kheap k /\
    control_same k k' /\ (forall u, u <> t -> is_Some (tcbs k !! u) ->
       cont V' (xStateListItem u) = cont V (xStateListItem u) /\ cont V' (xEventListItem u) = cont V (xEventListItem u)) /\
    if t =? pxCurrentTCB k then good E D ({[t]} ∪ X) k' V' else good E ({[t]} ∪ D) X k' V').
Proof.
  intros G t Hb HD HX Hi Hroom. pose proof (in_sched _ _ _ _ _ G) as HI. pose proof (in_settled _ _ _ _ _ G) as HSe.
  pose proof (here E D X k V G t b Hb) as S0. assert (Hps : cont V (xStateListItem t) <> 0) by (by eapply alive_iff).
  apply wp_bind, prvGetTCBFromHandle_ok. fold t.
  apply wp_bind. eapply spot_ux_remove_state; [exact S0|done|]. intros _ k1 V1 S1.
  apply wp_bind. eapply spot_container_event; [exact S1|].
  apply wp_bind. eapply wp_mono with (Q := fun _ k2 => exists V2, spot E t k V k2 V2 b 0 0).
  { destruct (Z.eqb_spec (cont V (xEventListItem t)) 0) as [E0|N0]; [apply wp_ret; exists V1; by rewrite E0 in S1|].
    eapply spot_ux_remove_event; [exact S1|done|]. intros _ k2 V2 S2. by exists V2. }
  intros _ k2 (V2 & S2). apply wp_bind, wp_modify, wp_bind, wp_gets. pose proof (sp_sched _ _ _ _ _ _ _ _ _ S2) as HI2.
  assert (Hcur : pxCurrentTCB (set_uxTaskNumber (u32 (uxTaskNumber k2 + 1)) k2) = pxCurrentTCB k) by apply (spot_control E _ _ _ _ _ _ _ _ S2).
  rewrite Hcur. apply wp_bind. destruct (tm_control _ _ _ _ _ (sp_move _ _ _ _ _ _ _ _ _ S2)) as (_ & _ & Ecnt & Edel & Erun & _).
  assert (Hterm : xTasksWaitingTermination <> 0).
  { intros E0. apply (sh_null _ _ (sc_shows _ _ _ HI)). rewrite <- E0. apply (kl_static E k V HI). set_solver. }
  assert (S3 : spot E t k V (set_uxTaskNumber (u32 (uxTaskNumber k2 + 1)) k2) V2 b 0 0).
  { eapply (spot_ext E); [exact S2|by apply set_number_sched|done|by split|done]. }
  destruct (Z.eqb_spec t (pxCurrentTCB k)) as [Et|Nt].
  - apply wp_bind. eapply spot_put_state; [exact S3|done|by right|]. intros k4 V4 S4. apply wp_modify, wp_ret. split; [done|].
    exists V4. set (k' := set_uxDeletedTasksWaitingCleanUp _ k4).
    destruct (left_facts t k V k4 V4 b xTasksWaitingTermination k' Hb S4 eq_refl eq_refl) as (F1 & F2 & F3 & F4); [by repeat split|].
    do 4 (split; [done|]). destruct (tm_control _ _ _ _ _ (sp_move _ _ _ _ _ _ _ _ _ S4)) as (_ & _ & Ec4 & Ed4 & Er4 & _).
    destruct (dead_sizes D X k V HSe). pose proof (size_dead X t HX) as Hsz.
    eapply (good_leave D X D ({[t]} ∪ X) t k V k4 V4 k' b xTasksWaitingTermination); try done; [|by apply set_deleted_sched, S4| |].
    + split; [by right|set_solver|set_solver].
    + cbn. by rewrite Ec4, (se_count _ _ _ _ HSe).
    + cbn. rewrite Ed4, (se_deleted _ _ _ _ HSe), u32_small; [lia|]. split; lia.
  - apply wp_bind, wp_modify. eapply (reset_unblock_ok E _ V2).
    { apply no_unblock, set_count_sched, S3. }
    intros v Hv. apply wp_ret. split; [done|]. exists V2. set (k' := set_xNextTaskUnblockTime v _).
    destruct (left_facts t k V k2 V2 b 0 k' Hb S2 eq_refl eq_refl) as (F1 & F2 & F3 & F4); [by repeat split|].
    do 4 (split; [done|]). destruct (dead_sizes D X k V HSe). pose proof (size_dead D t HD) as Hsz.
    pose proof (alive_count E D X k V HSe HI) as Hpos. rewrite (se_count _ _ _ _ HSe) in Hpos.
    eapply (good_leave D X ({[t]} ∪ D) X t k V k2 V2 k' b 0); try done; [| |].
    + split; [by left|set_solver|set_solver].
    + cbn. rewrite Ecnt, (se_count _ _ _ _ HSe), u32_small; [lia|]. split; lia.
    + cbn. by rewrite Edel, (se_deleted _ _ _ _ HSe).
Qed.

(** ** Freeing the memory *)

Definition view_without (t : Z) (V : view) : view := v_forget (xStateListItem t) (v_forget (xEventListItem t) V).
Definition without_task (h : A) (t : Z) (k : K) : K :=
  set_tcbs (delete t (tcbs k)) (set_kls (mkLstate
    (delete (xStateListItem t) (delete (xEventListItem t) (minis (kls k))))
    (delete (xStateListItem t) (delete (xEventListItem t) (tails (kls k)))) (lists (kls k))) (set_kheap h k)).

Lemma other_task k t u c : delete t (tcbs k) !! u = Some c -> u <> t /\ tcbs k !! u = Some c.
Proof. rewrite lookup_delete_Some. intros [N Hu]. split; [by apply not_eq_sym|done]. Qed.
Lemma still_there k t u : u <> t -> delete t (tcbs k) !! u = tcbs k !! u.
Proof. intros N. by rewrite lookup_delete_ne. Qed.

Lemma sched_without h t b k V : sched E k V -> tcbs k !! t = Some b -> cont V (xStateListItem t) = 0 ->
  cont V (xEventListItem t) = 0 -> sched E (without_task h t k) (view_without t V).
Proof.
  intros HI Hb Hs He. pose proof (sc_shows _ _ _ HI) as HV. pose proof (items_apart t) as Na.
  assert (HV1 : shows (kls (without_task h t k)) (view_without t V)).
  { apply (shows_forget _ _ (shows_forget _ _ HV (xEventListItem t) (it_event E k V HI t b Hb) He)); [|done].
    cbn. pose proof (it_state E k V HI t b Hb). set_solver. }
  pose proof HI as [I1 I2 I3 I4 I5 I6 I7 I8 I9 I10 I11 I12 I13 I14 I15 I16]. split; try done.
  - intros i. cbn. rewrite !elem_of_difference, !elem_of_singleton, I4. split.
    + intros [[(u & [c Hu] & Hi) Ne] Nst]. exists u. split; [|done].
      rewrite still_there; [eauto|]. intros ->. tauto.
    + intros (u & [c Hu] & Hi). apply other_task in Hu as [N Hu]. split; [split; [eauto|]|].
      * intros ->. destruct Hi as [Hi|Hi]; [by eapply (state_event E k V HI u t); eauto|unfold xEventListItem in Hi; lia].
      * intros ->. destruct Hi as [Hi|Hi]; [unfold xStateListItem in Hi; lia|by eapply (state_event E k V HI t u); eauto].
  - intros u [c Hu]. apply other_task in Hu as [N Hu]. apply I5. eauto.
  - cbn. apply lookup_delete_None. by right.
  - intros u c Hu. apply other_task in Hu as [N Hu]. by eapply I8.
  - intros u c Hu. apply other_task in Hu as [N Hu]. by apply I9.
  - intros u [c Hu]. apply other_task in Hu as [N Hu]. apply I10. eauto.
Qed.

Lemma good_without h t b D X k V : good E D X k V -> tcbs k !! t = Some b -> t ∈ D ->
  good E (D ∖ {[t]}) X (without_task h t k) (view_without t V).
Proof.
  intros [G R] Hb HD. pose proof (gd_settled _ _ _ _ _ _ _ G) as [Q1 Q2 Q3 Q4 [Q5 Q5'] Q6 Q7 Q8 Q9 Q10 Q11].
  pose proof (gd_sched _ _ _ _ _ _ _ G) as HI. assert (Hs : cont V (xStateListItem t) = 0) by (apply Q2; eauto).
  assert (He : cont V (xEventListItem t) = 0).
  { destruct (Z.eq_dec (cont V (xEventListItem t)) 0) as [|N]; [done|]. exfalso. by destruct (Q3 t ltac:(eauto) N). }
  assert (HX : ~ (t ∈ X)).
  { intros Hx. apply Q4 in Hx; [|eauto]. apply (sh_null _ _ (sc_shows _ _ _ HI)). rewrite <- Hs, Hx. apply (kl_static E k V HI). set_solver. }
  assert (Hold : forall u, is_Some (delete t (tcbs k) !! u) -> u <> t /\ is_Some (tcbs k !! u)).
  { intros u [c Hu]. apply other_task in Hu as [N Hu]. eauto. }
  assert (Hkeep : forall u, u <> t -> is_Some (tcbs k !! u) -> is_Some (delete t (tcbs k) !! u)).
  { intros u N Hu. by rewrite still_there. }
  split; [split; [by eapply sched_without| | |]|].
  - split; try done.
    + intros u Hu. cbn. apply Hkeep; [set_solver|]. apply Q1. set_solver.
    + intros u Hu. destruct (Hold u Hu) as [N Hu']. cbn. rewrite (Q2 u Hu'). set_solver.
    + intros u Hu. destruct (Hold u Hu) as [N Hu']. cbn. intros Hc. destruct (Q3 u Hu' Hc). set_solver.
    + intros u Hu. destruct (Hold u Hu) as [N Hu']. by apply Q4.
    + cbn. split; [apply Hkeep; [congruence|done]|set_solver].
    + destruct Q6 as (c & Hc & Hr). exists c. cbn. split; [|done]. rewrite still_there; [done|]. intros Ei. rewrite Ei in Hc, Hr.
      rewrite Hb in Hc. injection Hc as <-. eapply (ready_not_zero E k V (uxPriority b)); [done|apply (sc_tcb _ _ _ HI t b Hb)|congruence].
    + cbn. rewrite Q7, map_size_delete, Hb, size_difference, size_singleton by set_solver.
      assert (size D <= size (tcbs k))%nat by (rewrite <- size_dom; apply subseteq_size; intros u Hu; apply elem_of_dom, Q1; by left).
      assert (0 < size D)%nat by (apply Nat.neq_0_lt_0; intros E0; apply size_empty_inv in E0; set_solver). lia.
  - intros u Hu. destruct (Hold u Hu) as [N Hu']. by apply (gd_timed _ _ _ _ _ _ _ G).
  - destruct (gd_preempt _ _ _ _ _ _ _ G) as [?|[?|HL]]; [done|by right; left|right; right].
    intros u c d Hu Hr Hd. apply other_task in Hu as [N Hu]. apply other_task in Hd as [N' Hd]. by apply (HL u).
  - intros H1. destruct (R H1) as [R1 R2]. split; [done|]. intros u Hu. destruct (Hold u Hu) as [N Hu']. by apply R2.
Qed.

(** The two blocks of the task go back to the heap. *)
Lemma owns_without k L h t b : owns E k L -> tcbs k !! t = Some b -> heap_is h (delete t (delete (pxStack b) L)) ->
  owns E (without_task h t k) (delete t (delete (pxStack b) L)).
Proof.
  intros HO Hb Hh. destruct (ow_stack _ _ _ HO t b Hb) as [[n Hn] Hns].
  assert (Hkeep : forall p m, L !! p = Some m -> p <> t -> p <> pxStack b -> delete t (delete (pxStack b) L) !! p = Some m).
  { intros p m Hp N1 N2. by rewrite !lookup_delete_ne. }
  split; [done| | | |].
  - intros u c Hu. apply other_task in Hu as [N Hu]. apply Hkeep; [by eapply (ow_tcb _ _ _ HO)|done|congruence].
  - intros u c Hu. apply other_task in Hu as [N Hu]. destruct (ow_stack _ _ _ HO u c Hu) as [[m Hm] Hns'].
    assert (pxStack c <> t) by congruence. split; [|cbn; by rewrite still_there].
    exists m. apply Hkeep; [done|done|]. intros Eq. apply N. by eapply (ow_stacks _ _ _ HO).
  - intros u v c d Hu Hv. apply other_task in Hu as [N Hu]. apply other_task in Hv as [N' Hv]. by apply (ow_stacks _ _ _ HO).
  - intros l Hl. destruct (ow_lists _ _ _ HO l Hl) as [?|[?|(p & m & Hp & Hle & Hhi & Hn1 & Hn2)]]; [by left|by right; left|].
    right. right. exists p, m. split; [apply Hkeep; [done|congruence|apply not_eq_sym; by eapply Hn2]|]. do 2 (split; [done|]).
    split; [cbn; rewrite still_there by congruence; done|]. intros u c Hu. apply other_task in Hu as [N Hu]. by eapply Hn2.
Qed.

Lemma prvDeleteTCB_ok D X k V L t b : good E D X k V -> owns E k L -> tcbs k !! t = Some b -> t ∈ D ->
  uxSchedulerSuspended k + 1 < 4294967296 ->
  wp (prvDeleteTCB t) k (fun _ k' => exists h, k' = without_task h t (yielded k) /\
    good E (D ∖ {[t]}) X k' (view_without t V) /\ owns E k' (delete t (delete (pxStack b) L))).
Proof.
  intros G HO Hb HD Hsus. destruct (ow_stack _ _ _ HO t b Hb) as [[n Hn] Hns]. pose proof (calm_good E D X k V G Hsus) as C.
  apply wp_bind. eapply rd_tcb_ok; [exact Hb|]. apply wp_bind.
  apply (kernel_free_ok _ n k L); [done|by eapply ow_heap|done|]. intros h H1. apply wp_bind.
  assert (Cy : calm (set_kheap h (yielded k))) by (eapply (calm_same (yielded k)); [by apply calm_yielded|done..]).
  apply (kernel_free_ok t SIZEOF_TCB _ (delete (pxStack b) L)); [done|done| |].
  { rewrite lookup_delete_ne by congruence. by apply (ow_tcb _ _ _ HO t b). }
  intros h2 H2. rewrite yielded_heap, yielded_twice. apply wp_modify. exists h2. split; [done|].
  change (good E (D ∖ {[t]}) X (without_task h2 t (yielded k)) (view_without t V) /\
    owns E (without_task h2 t (yielded k)) (delete t (delete (pxStack b) L))).
  assert (Hby : tcbs (yielded k) !! t = Some b) by (by destruct (yielded_fields k) as (_ & -> & _)).
  split; [by apply (good_without h2 t b); [apply good_yielded|..]|].
  apply owns_without; [|done|done]. by eapply owns_same; [exact HO|apply yielded_fields..].
Qed.

(** A task that deletes itself has to go, at once unless the scheduler is
    suspended. *)
Lemma delete_yield_ok D X k V t : good E D X k V -> (t = pxCurrentTCB k -> uxSchedulerSuspended k = 0) ->
  wp (delete_yield t) k (fun _ k' => good E D X k' V /\
    k' = if t =? pxCurrentTCB k then set_swi_pending true k else k).
Proof.
  intros G Hs. apply wp_bind, wp_gets. rewrite (se_running _ _ _ _ (in_settled _ _ _ _ _ G)).
  apply wp_bind, wp_gets. destruct (Z.eqb_spec t (pxCurrentTCB k)) as [Et|N]; [|by apply wp_ret].
  apply wp_bind, wp_gets, wp_bind, wp_assert; [apply Z.eqb_eq; auto|]. apply wp_modify. split; [by apply good_swi|done].
Qed.

(** Deleting another task gives its memory back at once; deleting oneself puts
    off the clean up to the idle task. *)
Lemma vTaskDelete_ok D X k V L h b : good E D X k V -> owns E k L ->
  let t := if h =? 0 then pxCurrentTCB k else h in
  tcbs k !! t = Some b -> ~ (t ∈ D) -> ~ (t ∈ X) -> t <> xIdleTaskHandle k -> Z.of_nat (size (tcbs k)) + 1 < 4294967296 ->
  uxSchedulerSuspended k + 1 < 4294967296 -> (t = pxCurrentTCB k -> uxSchedulerSuspended k = 0) ->
  wp (vTaskDelete h) k (fun _ k' => exists V', pxCurrentTCB k' = pxCurrentTCB k /\
    if t =? pxCurrentTCB k then good E D ({[t]} ∪ X) k' V' /\ owns E k' L /\ tcbs k' = tcbs k /\ swi_pending k' = true
    else good E D X k' V' /\ owns E k' (delete t (delete (pxStack b) L)) /\ tcbs k' = delete t (tcbs k)).
Proof.
  intros G HO t Hb HD HX Hi Hr Hsus Hs. apply wp_bind. eapply wp_mono; [by apply (delete_section_ok D X k V h b)|]. fold t.
  intros _ k1 (-> & V1 & Et & Eh & HC & Hrest & G1). pose proof HC as (C1 & C2 & C3 & _).
  pose proof (owns_same E k k1 L HO Et Eh) as HO1. apply wp_bind, wp_gets, wp_bind. rewrite C1.
  destruct (Z.eqb_spec t (pxCurrentTCB k)) as [Ec|Nc].
  - apply wp_ret. eapply wp_mono; [apply (delete_yield_ok _ _ k1 V1 t G1); rewrite C3; auto|].
    intros _ k2 [G2 ->]. rewrite C1, (proj2 (Z.eqb_eq _ _) Ec) in *. exists V1. split; [done|]. split; [done|].
    split; [by eapply owns_same; [exact HO1|done..]|by split].
  - eapply wp_mono.
    { apply (prvDeleteTCB_ok _ X k1 V1 L t b G1 HO1); [by rewrite Et|by apply elem_of_union_l, elem_of_singleton|by rewrite C3]. }
    intros [] k2 (h2 & -> & G2 & HO2). destruct (yielded_fields k1) as (_ & Ey & _).
    destruct (yielded_control k1) as (Yc & _). eapply wp_mono.
    { eapply (delete_yield_ok _ _ _ _ t G2). cbn. intros E1. congruence. }
    intros _ k3 [G3 ->]. cbn [pxCurrentTCB without_task set_tcbs set_kls set_kheap] in *.
    rewrite Yc, C1, (proj2 (Z.eqb_neq _ _) Nc) in *.
    exists (view_without t V1). split; [cbn; congruence|]. split; [|split; [exact HO2|cbn; by rewrite Ey, Et]].
    by rewrite (dead_undo D t HD) in G3.
Qed.

(** ** The idle task's clean up *)

Lemma cleanup_section_ok D X k V : good E D X k V -> pxCurrentTCB k = xIdleTaskHandle k ->
  0 < uxDeletedTasksWaitingCleanUp k -> Z.of_nat (size (tcbs k)) + 1 < 4294967296 ->
  wp cleanup_section k (fun t k' => exists V', t ∈ X /\ good E ({[t]} ∪ D) (X ∖ {[t]}) k' V' /\ tcbs k' = tcbs k /\
    kheap k' = kheap k /\ control_same k k').
Proof.
  intros G Hidle Hdel Hroom. pose proof (in_sched _ _ _ _ _ G) as HI. pose proof (in_settled _ _ _ _ _ G) as HSe.
  assert (Hin : xTasksWaitingTermination ∈ vlists V) by (apply (kl_static E k V HI); set_solver).
  destruct (dead_sizes D X k V HSe) as [Sz1 Sz2].
  assert (Hex : exists x r, elems V xTasksWaitingTermination = x :: r).
  { rewrite (se_deleted _ _ _ _ HSe) in Hdel. destruct (size_pos_elem_of X) as [u Hu]; [lia|].
    assert (Hsu : is_Some (tcbs k !! u)) by (apply (se_dead _ _ _ _ HSe); by right).
    apply (se_term _ _ _ _ HSe u Hsu) in Hu. destruct Hsu as [c Hc].
    assert (Hon : xStateListItem u ∈ elems V xTasksWaitingTermination).
    { apply (sh_on _ _ (sc_shows _ _ _ HI)); [done|]. split; [by eapply it_state|done]. }
    destruct (elems V xTasksWaitingTermination) as [|x r]; [inversion Hon|eauto]. }
  destruct Hex as (x & r & Ex). destruct (on_state_list E k V HI xTasksWaitingTermination x) as (t & b & -> & Hb & Hc); [done|rewrite Ex; left|apply kernel_termination| |].
  { pose proof statics_apart as Hn. rewrite !NoDup_cons, !not_elem_of_cons in Hn. intuition congruence. }
  assert (HX : t ∈ X) by (apply (se_term _ _ _ _ HSe); eauto).
  assert (Hterm : xTasksWaitingTermination <> 0) by (intros E0; apply (sh_null _ _ (sc_shows _ _ _ HI)); by rewrite <- E0).
  assert (HD : ~ (t ∈ D)) by (intros Hd; apply (se_alive _ _ _ _ HSe) in Hd; [congruence|eauto]).
  assert (He : cont V (xEventListItem t) = 0).
  { destruct (Z.eq_dec (cont V (xEventListItem t)) 0) as [|N]; [done|]. by destruct (se_event _ _ _ _ HSe t ltac:(eauto) N). }
  assert (Hi : t <> xIdleTaskHandle k).
  { intros Ei. destruct (idle_ready E D X k V G t Ei) as (c & Hc0 & Hr). rewrite Hc in Hr.
    assert (Hp : 0 <= uxPriority c < configMAX_PRIORITIES) by (apply (sc_tcb _ _ _ HI t c Hc0)).
    by destruct (ready_place E k V _ HI Hp) as (_ & _ & _ & P4 & _). }
  pose proof (here E D X k V G t b Hb) as S0. rewrite Hc, He in S0.
  apply wp_bind, onl_read. eapply (head_owner_ok _ V (sc_shows _ _ _ HI)); [exact Hin|exact Ex|]. split; [done|].
  rewrite (own_state E k V HI t b Hb). apply wp_bind. eapply spot_ux_remove_state; [exact S0|done|]. intros _ k1 V1 S1.
  destruct (tm_control _ _ _ _ _ (sp_move _ _ _ _ _ _ _ _ _ S1)) as (_ & _ & Ecnt & Edel & Erun & _).
  apply wp_bind, wp_modify, wp_bind, wp_modify, wp_ret. exists V1. split; [done|].
  match goal with |- context [good _ _ _ ?x _] => set (k' := x) end.
  destruct (left_facts t k V k1 V1 b 0 k' Hb S1 eq_refl eq_refl) as (F1 & F2 & F3 & F4); [by repeat split|].
  split; [|done]. pose proof (alive_count E D X k V HSe HI) as Hpos. rewrite (se_count _ _ _ _ HSe) in Hpos.
  pose proof (size_dead D t HD) as Hsz.
  assert (Hsx : Z.of_nat (size (X ∖ {[t]})) = Z.of_nat (size X) - 1).
  { rewrite (term_less X t HX). rewrite (se_deleted _ _ _ _ HSe) in Hdel. lia. }
  eapply (good_leave D X ({[t]} ∪ D) (X ∖ {[t]}) t k V k1 V1 k' b 0); try done.
  - split; [by left|set_solver|]. intros u. rewrite elem_of_difference, elem_of_singleton. split; [tauto|]. intros [[N Hu]|[_ E0]]; [done|congruence].
  - intros _. congruence.
  - apply set_deleted_sched, set_count_sched, S1.
  - cbn. rewrite Ecnt, (se_count _ _ _ _ HSe), u32_small; [lia|]. split; lia.
  - cbn. rewrite Edel, (se_deleted _ _ _ _ HSe), Hsx, u32_small; [done|]. rewrite (se_deleted _ _ _ _ HSe) in Hdel. split; lia.
Qed.

(** After the idle task's loop no deleted task is left. *)
Lemma cleanup_ok fuel : forall D X k V L, good E D X k V -> owns E k L -> pxCurrentTCB k = xIdleTaskHandle k -> Z.of_nat (size (tcbs k)) + 1 < 4294967296 ->
  uxSchedulerSuspended k + 1 < 4294967296 -> (size X <= fuel)%nat ->
  wp (prvCheckTasksWaitingTermination fuel) k (fun _ k' => exists V' L', good E D ∅ k' V' /\ owns E k' L' /\
    uxDeletedTasksWaitingCleanUp k' = 0 /\
    forall u c, tcbs k' !! u = Some c <-> tcbs k !! u = Some c /\ ~ (u ∈ X)).
Proof.
  induction fuel as [|fuel IH]; intros D X k V L G HO Hidle Hroom Hsus Hf.
  all: pose proof (in_settled _ _ _ _ _ G) as HSe; pose proof (se_deleted _ _ _ _ HSe) as Hdel; cbn [prvCheckTasksWaitingTermination];
    apply wp_bind, wp_gets.
  all: destruct (Z.ltb_spec 0 (uxDeletedTasksWaitingCleanUp k)) as [Hlt|Hge]; [try lia|].
  1,3: assert (X = ∅) as -> by (apply leibniz_equiv, size_empty_inv; lia); apply wp_ret; exists V, L;
    split; [done|]; split; [done|]; split; [lia|]; intros u c; split; [intros Hu; split; [done|apply not_elem_of_empty]|by intros [? _]].
  apply wp_bind. eapply wp_mono; [by apply (cleanup_section_ok D X k V)|].
  intros t k1 (V1 & HX & G1 & Et & Eh & HC). assert (exists b, tcbs k1 !! t = Some b) as [b Hb].
  { rewrite Et. apply (se_dead _ _ _ _ HSe). by right. }
  apply wp_bind. eapply wp_mono.
  { apply (prvDeleteTCB_ok ({[t]} ∪ D) (X ∖ {[t]}) k1 V1 L t b G1); [by eapply owns_same|done|by apply elem_of_union_l, elem_of_singleton|].
    by destruct HC as (_ & _ & -> & _). }
  intros [] k2 (h2 & -> & G2 & HO2). destruct HC as (C1 & C2 & C3 & _). destruct (yielded_fields k1) as (_ & Ey & _ & Ys & _).
  destruct (yielded_control k1) as (Yc & Yi & _).
  assert (HD : ~ (t ∈ D)).
  { intros Hd. pose proof (in_sched _ _ _ _ _ G) as HI. assert (Hs : is_Some (tcbs k !! t)) by (apply (se_dead _ _ _ _ HSe); by left).
    apply (se_term _ _ _ _ HSe t Hs) in HX. apply (se_alive _ _ _ _ HSe t Hs) in Hd.
    by apply (term_nonnull k V HI); rewrite <- HX. }
  eapply wp_mono; [eapply (IH (({[t]} ∪ D) ∖ {[t]}) (X ∖ {[t]})); [exact G2|exact HO2| | | |]|].
  - cbn. congruence.
  - change (tcbs (without_task h2 t (yielded k1))) with (delete t (tcbs (yielded k1))). rewrite Ey, Et, map_size_delete. case_match; unfold id; lia.
  - cbn. by rewrite Ys, C3.
  - rewrite (term_less X t HX). lia.
  - intros _ k3 (V3 & L3 & G3 & HO3 & Hz & Hall). exists V3, L3. split; [|split; [done|split; [done|]]].
    + by rewrite (dead_undo D t HD) in G3.
    + intros u c. rewrite Hall. cbn. rewrite Ey, Et, lookup_delete_Some, elem_of_difference, elem_of_singleton. split.
      * intros [[N Hu] Hx]. split; [done|]. intros Hx'. apply Hx. split; [done|by apply not_eq_sym].
      * intros [Hu Hx]. split; [split; [intros <-|]; done|]. by intros [? _].
Qed.
End Delete.
