(* ===== verification/TasksHeap.v ===== *)
(** The kernel heap of the tasks is portable/MemMang/heap_4.c: its allocator
    keeps the promises of [KernelHeap], on which the life of a task rests. *)
From S2P Require Import Prelude FList Heap4 Klist Tasks TasksNew TasksLife.

Section TasksHeap.
(** The linker's placement, as for [Heap4]. *)
Context (ucHeap xStart : Z).
Hypothesis heap_placed : 0 < ucHeap /\ ucHeap + configTOTAL_HEAP_SIZE <= 4294967296.
Hypothesis start_apart : 0 < xStart /\ (xStart + 8 <= ucHeap \/ ucHeap + configTOTAL_HEAP_SIZE <= xStart).

#[local] Instance heap_4 : HeapApi heap_state := {
  heap_malloc := pvPortMalloc ucHeap xStart;
  heap_free := vPortFree ucHeap xStart
}.

(** The blocks the program holds, as a map. *)
Definition heap_4_is (h : heap_state) (L : gmap Z Z) : Prop := exists live, reach ucHeap xStart h live /\ live ≡ₚ map_to_list L.

Lemma heap_4_block h L p n : heap_4_is h L -> L !! p = Some n -> 0 < ucHeap <= p /\ p + n <= ucHeap + configTOTAL_HEAP_SIZE /\ 0 < n.
Proof.
  intros (live & Hr & Hp) Hl. assert (Hin : (p, n) ∈ live) by (rewrite Hp; by apply elem_of_map_to_list).
  destruct (reach_live ucHeap xStart heap_placed start_apart _ _ Hr) as [[_ ->]|Hlive]; [by apply elem_of_nil in Hin|].
  destruct (live_apart ucHeap xStart heap_placed start_apart _ _ Hlive) as [_ Hb].
  pose proof (proj1 (Forall_forall _ _) Hb _ Hin) as (_ & H1 & H2).
  destruct Hlive as (ts & As & _ & _ & Hf). apply list_elem_of_lookup in Hin as (i & Hi).
  destruct (Forall2_lookup_l _ _ _ _ _ Hf Hi) as (T & _ & _ & Hn & _). cbn in *. lia.
Qed.

Lemma pairs_of (R : Z * Z -> Z * Z -> Prop) `{!Symmetric R} l x y : ForallOrdPairs R l -> x ∈ l -> y ∈ l -> x <> y -> R x y.
Proof.
  induction 1 as [|z l Hz Hl IH]; [by intros ?%elem_of_nil|]. rewrite Forall_forall in Hz.
  intros [->|Hx]%elem_of_cons [->|Hy]%elem_of_cons N; [done|by apply Hz|by symmetry; apply Hz|by apply IH].
Qed.

Lemma heap_4_apart h L p q n m : heap_4_is h L -> L !! p = Some n -> L !! q = Some m -> p <> q -> p + n <= q \/ q + m <= p.
Proof.
  intros (live & Hr & Hp) Hn Hm N. apply elem_of_map_to_list in Hn, Hm. rewrite <- Hp in Hn, Hm.
  destruct (reach_live ucHeap xStart heap_placed start_apart _ _ Hr) as [[_ ->]|Hlive]; [by apply elem_of_nil in Hn|].
  destruct (live_apart ucHeap xStart heap_placed start_apart _ _ Hlive) as [Ha _].
  apply (pairs_of Heap4.apart live (p, n) (q, m) Ha Hn Hm). congruence.
Qed.

Lemma reach_run h live n : reach ucHeap xStart h live -> is_u32 n ->
  exists p s', pvPortMalloc ucHeap xStart n h = Done (p, s').
Proof.
  intros Hr Hn. destruct (reach_live ucHeap xStart heap_placed start_apart _ _ Hr) as [[-> ->]|Hl].
  - destruct (live_init ucHeap xStart heap_placed start_apart heap_bss n eq_refl Hn) as (s0 & Hl & ->).
    destruct (live_malloc ucHeap xStart heap_placed start_apart _ _ _ Hl Hn) as (p & s' & ? & _). eauto.
  - destruct (live_malloc ucHeap xStart heap_placed start_apart _ _ _ Hl Hn) as (p & s' & ? & _). eauto.
Qed.

Lemma heap_4_take n h L : heap_4_is h L -> 0 < n < 4294967296 ->
  wp (pvPortMalloc ucHeap xStart n) h (fun r h' => r = 0 /\ heap_4_is h' L \/ L !! r = None /\ heap_4_is h' (<[r := n]> L)).
Proof.
  intros (live & Hr & Hp) Hn. assert (Hu : is_u32 n) by (split; lia). destruct (reach_run h live n Hr Hu) as (p & s' & Hrun).
  pose proof (reach_malloc ucHeap xStart h live n p s' Hr Hu Hrun) as Hr'. eapply wp_use; [exact Hrun|].
  destruct (Z.eqb_spec p 0) as [->|N]; [left; split; [done|by exists live]|right].
  assert (Hf : L !! p = None).
  { destruct (L !! p) as [m|] eqn:Em; [|done]. exfalso.
    destruct (heap_4_block h L p m (ex_intro _ live (conj Hr Hp)) Em) as (_ & _ & Hm).
    apply elem_of_map_to_list in Em. rewrite <- Hp in Em.
    destruct (reach_live ucHeap xStart heap_placed start_apart _ _ Hr') as [[_ ?]|Hl]; [done|].
    destruct (live_apart ucHeap xStart heap_placed start_apart _ _ Hl) as [Ha _].
    inversion_clear Ha as [|? ? Hx _]. destruct (proj1 (Forall_forall _ _) Hx _ Em); cbn in *; lia. }
  split; [done|]. exists ((p, n) :: live). split; [done|]. by rewrite map_to_list_insert, Hp.
Qed.

Lemma heap_4_give h L p n : heap_4_is h L -> L !! p = Some n -> wp (vPortFree ucHeap xStart p) h (fun _ h' => heap_4_is h' (delete p L)).
Proof.
  intros (live & Hr & Hp) Hl. assert (Hin : (p, n) ∈ live) by (rewrite Hp; by apply elem_of_map_to_list).
  apply list_elem_of_split in Hin as (l1 & l2 & ->).
  destruct (reach_live ucHeap xStart heap_placed start_apart _ _ Hr) as [[_ ?]|Hlive]; [by destruct l1|].
  destruct (live_free ucHeap xStart heap_placed start_apart _ _ _ _ _ Hlive) as (s' & Hrun & _).
  eapply wp_use; [exact Hrun|]. exists (l1 ++ l2). split; [by eapply reach_free|].
  rewrite <- (map_to_list_delete L p n Hl), <- Permutation_middle in Hp. by apply Permutation_cons_inv in Hp.
Qed.

#[local] Instance kernel_heap_4 : KernelHeap heap_state := {
  heap_lo := ucHeap;
  heap_hi := ucHeap + configTOTAL_HEAP_SIZE;
  heap_is := heap_4_is;
  heap_in := fun h L p n Hh Hl => let Hb := heap_4_block h L p n Hh Hl in conj (proj1 Hb) (proj1 (proj2 Hb));
  heap_apart := heap_4_apart;
  heap_take := heap_4_take;
  heap_give := heap_4_give
}.

(** At reset the program holds nothing. *)
Lemma heap_4_bss : heap_is heap_bss ∅.
Proof. exists []. split; [apply reach_bss|by rewrite map_to_list_empty]. Qed.
End TasksHeap.
