(* ===== verification/TasksFrame.v ===== *)
(** What the calls of the scheduler leave alone: the kernel heap, the control
    blocks that exist and their stacks.  So the memory of the tasks stays theirs. *)
From S2P Require Import Prelude FList Klist KlistNew Tasks TasksInv TasksStep TasksRun TasksApi TasksNew TasksNotify TasksLife.

Create HintDb frame.

Section Frame.
Context {A : Type} `{Statics}.
Abbreviation K := (kernel A).
Implicit Types (k : K).

Definition stacks (k : K) : gmap Z Z := pxStack <$> tcbs k.
Definition frames {Y} (m : M K Y) : Prop := forall k r k', m k = Done (r, k') -> kheap k' = kheap k /\ stacks k' = stacks k.

Lemma frames_ret {Y} (y : Y) : frames (mret y).
Proof. intros k r k' E. mred in E. by simplify_eq. Qed.
Lemma frames_stop {Y} w : frames (stop_ w : M K Y).
Proof. intros k r k' E. mred in E. by simplify_eq. Qed.
Lemma frames_gets {Y} (f : K -> Y) : frames (gets f).
Proof. intros k r k' E. mred in E. by simplify_eq. Qed.
Lemma frames_assert b : frames (assert_ b : M K unit).
Proof. intros k r k' E. mred in E. destruct b; by simplify_eq. Qed.
Lemma frames_modify (f : K -> K) : (forall k, kheap (f k) = kheap k /\ stacks (f k) = stacks k) -> frames (modify f).
Proof. intros Hf k r k' E. mred in E. simplify_eq. apply Hf. Qed.
Lemma frames_bind {Y Z} (m : M K Y) (f : Y -> M K Z) : frames m -> (forall y, frames (f y)) -> frames (m ≫= f).
Proof.
  intros Hm Hf k r k' E. apply bind_inv in E as (y & k1 & E1 & E2).
  destruct (Hm _ _ _ E1) as [<- <-]. by apply (Hf _ _ _ _ E2).
Qed.
Lemma frames_onl {Y} (m : M lstate Y) : frames (onl m).
Proof. intros k r k' E. unfold onl, zoom in E. destruct (m (kls k)) as [[y s]|w]; by simplify_eq. Qed.
Lemma frames_rd t : frames (rd_tcb t).
Proof. intros k r k' E. unfold rd_tcb in E. mred in E. destruct (tcbs k !! t); by simplify_eq. Qed.
Lemma frames_current : frames current.
Proof. apply frames_bind; [apply frames_gets|apply frames_rd]. Qed.
Lemma frames_wr t f : (forall b, pxStack (f b) = pxStack b) -> frames (wr_tcb t f).
Proof.
  intros Hf k r k' E. unfold wr_tcb, rd_tcb in E. mred in E. destruct (tcbs k !! t) as [b|] eqn:Eb; [|done]. simplify_eq.
  split; [done|]. unfold stacks. cbn. rewrite fmap_insert, Hf. apply insert_id. by rewrite lookup_fmap, Eb.
Qed.
Lemma frames_if {Y} (b : bool) (m1 m2 : M K Y) : frames m1 -> frames m2 -> frames (if b then m1 else m2).
Proof. by destruct b. Qed.

Hint Resolve frames_ret frames_stop frames_gets frames_assert frames_onl frames_rd frames_current : frame.
Ltac frame_step :=
  first [ progress intros
        | solve [eauto with frame nocore]
        | apply frames_wr; done
        | apply frames_modify; intros; by split
        | apply frames_bind
        | apply frames_if ].
Ltac framed := repeat (cbv zeta; frame_step).

Lemma frames_yield : frames portYIELD.
Proof. framed. Qed.
Lemma frames_handle h : frames (prvGetTCBFromHandle h).
Proof. unfold prvGetTCBFromHandle. framed. Qed.
Lemma frames_ready t : frames (prvAddTaskToReadyList t).
Proof. unfold prvAddTaskToReadyList, taskRECORD_READY_PRIORITY. framed. Qed.
Lemma frames_reset : frames prvResetNextTaskUnblockTime.
Proof. unfold prvResetNextTaskUnblockTime. framed. Qed.
Lemma frames_remove_event t : frames (remove_event t).
Proof. unfold remove_event. framed. Qed.
Hint Resolve frames_yield frames_handle frames_ready frames_reset frames_remove_event : frame.

Lemma frames_unblock n now sw : frames (unblock_due n now sw).
Proof. revert sw. induction n as [|n IH]; intros sw; cbn [unblock_due]; framed. Qed.
Hint Resolve frames_unblock : frame.
Lemma frames_increment : frames xTaskIncrementTick.
Proof. unfold xTaskIncrementTick, taskSWITCH_DELAYED_LISTS. framed. Qed.
Hint Resolve frames_increment : frame.
Lemma frames_tick : frames SysTick_Handler.
Proof. unfold SysTick_Handler. framed. Qed.
Lemma frames_select_top n : frames (select_top n).
Proof. induction n as [|n IH]; cbn [select_top]; framed. Qed.
Hint Resolve frames_select_top : frame.
Lemma frames_switch : frames vTaskSwitchContext.
Proof. unfold vTaskSwitchContext, taskCHECK_FOR_STACK_OVERFLOW, taskSELECT_HIGHEST_PRIORITY_TASK. framed. Qed.
Hint Resolve frames_switch : frame.
Lemma frames_handler sp : frames (SW_Handler sp).
Proof. unfold SW_Handler. framed. Qed.

Lemma frames_ready_pended n : forall b, frames (ready_pended n b).
Proof. induction n as [|n IH]; intros b; cbn [ready_pended]; framed. Qed.
Lemma frames_run_pended n : frames (run_pended n).
Proof. induction n as [|n IH]; cbn [run_pended]; framed. Qed.
Hint Resolve frames_ready_pended frames_run_pended : frame.
Lemma frames_suspend_all : frames vTaskSuspendAll.
Proof. unfold vTaskSuspendAll. framed. Qed.
Lemma frames_resume_all : frames xTaskResumeAll.
Proof. unfold xTaskResumeAll. framed. Qed.
Hint Resolve frames_suspend_all frames_resume_all : frame.
Lemma frames_catch_up n : frames (xTaskCatchUpTicks n).
Proof. unfold xTaskCatchUpTicks. framed. Qed.

Lemma frames_delay n b : frames (prvAddCurrentTaskToDelayedList n b).
Proof. unfold prvAddCurrentTaskToDelayedList. framed. Qed.
Hint Resolve frames_delay : frame.
Lemma frames_place l n : frames (vTaskPlaceOnEventList l n).
Proof. unfold vTaskPlaceOnEventList. framed. Qed.
Lemma frames_place_unordered l v n : frames (vTaskPlaceOnUnorderedEventList l v n).
Proof. unfold vTaskPlaceOnUnorderedEventList. framed. Qed.
Lemma frames_place_restricted l n b : frames (vTaskPlaceOnEventListRestricted l n b).
Proof. unfold vTaskPlaceOnEventListRestricted. framed. Qed.
Lemma frames_remove l : frames (xTaskRemoveFromEventList l).
Proof. unfold xTaskRemoveFromEventList. framed. Qed.
Lemma frames_remove_unordered i v : frames (vTaskRemoveFromUnorderedEventList i v).
Proof. unfold vTaskRemoveFromUnorderedEventList. framed. Qed.
Lemma frames_reset_event : frames uxTaskResetEventItemValue.
Proof. unfold uxTaskResetEventItemValue. framed. Qed.
Lemma frames_missed : frames vTaskMissedYield.
Proof. unfold vTaskMissedYield. framed. Qed.

Lemma frames_event_priority t p : frames (set_event_priority t p).
Proof. unfold set_event_priority. framed. Qed.
Hint Resolve frames_event_priority : frame.
Lemma frames_priority_set h p : frames (vTaskPrioritySet h p).
Proof. unfold vTaskPrioritySet. framed. Qed.
Lemma frames_hold : frames pvTaskIncrementMutexHeldCount.
Proof. unfold pvTaskIncrementMutexHeldCount. framed. Qed.
Lemma frames_inherit h : frames (xTaskPriorityInherit h).
Proof. unfold xTaskPriorityInherit. framed. Qed.
Lemma frames_disinherit h : frames (xTaskPriorityDisinherit h).
Proof. unfold xTaskPriorityDisinherit. framed. Qed.
Hint Resolve frames_disinherit : frame.
Lemma frames_after_timeout h p : frames (vTaskPriorityDisinheritAfterTimeout h p).
Proof. unfold vTaskPriorityDisinheritAfterTimeout. framed. Qed.
Lemma frames_suspend_section h : frames (suspend_section h).
Proof. unfold suspend_section. framed. Qed.
Lemma frames_suspend_finish t : frames (suspend_finish t).
Proof. unfold suspend_finish. framed. Qed.
Lemma frames_is_suspended t : frames (prvTaskIsTaskSuspended t).
Proof. unfold prvTaskIsTaskSuspended. framed. Qed.
Lemma frames_state t : frames (eTaskGetState t).
Proof. unfold eTaskGetState. framed. Qed.
Hint Resolve frames_is_suspended frames_state frames_suspend_section frames_suspend_finish : frame.
Lemma frames_resume t : frames (vTaskResume t).
Proof. unfold vTaskResume. framed. Qed.
Lemma frames_resume_isr t : frames (xTaskResumeFromISR t).
Proof. unfold xTaskResumeFromISR. framed. Qed.
Lemma frames_abort t : frames (abort_section t).
Proof. unfold abort_section. framed. Qed.
Lemma frames_take_section n : frames (take_section n).
Proof. unfold take_section. framed. Qed.
Lemma frames_take_finish c : frames (take_finish c).
Proof. unfold take_finish. framed. Qed.
Lemma frames_wait_section b n : frames (wait_section b n).
Proof. unfold wait_section. framed. Qed.
Lemma frames_wait_finish b : frames (wait_finish b).
Proof. unfold wait_finish. framed. Qed.
Lemma frames_notify t i v a : frames (xTaskGenericNotify t i v a).
Proof. unfold xTaskGenericNotify. framed. destruct (notified_value _ _ _ _). framed. Qed.
Lemma frames_wake_from_isr t : frames (wake_from_isr t).
Proof. unfold wake_from_isr. framed. Qed.
Hint Resolve frames_wake_from_isr : frame.
Lemma frames_notify_isr t i v a : frames (xTaskGenericNotifyFromISR t i v a).
Proof. unfold xTaskGenericNotifyFromISR. framed. destruct (notified_value _ _ _ _). framed. Qed.
Lemma frames_give_isr t i : frames (vTaskGenericNotifyGiveFromISR t i).
Proof. unfold vTaskGenericNotifyGiveFromISR. framed. Qed.
Lemma frames_state_clear t i : frames (xTaskGenericNotifyStateClear t i).
Proof. unfold xTaskGenericNotifyStateClear. framed. Qed.
Lemma frames_value_clear t i b : frames (ulTaskGenericNotifyValueClear t i b).
Proof. unfold ulTaskGenericNotifyValueClear. framed. Qed.
Lemma frames_delete_section `{HeapApi A} h : frames (delete_section h).
Proof. unfold delete_section. framed. Qed.
Lemma frames_delete_yield `{HeapApi A} t : frames (delete_yield t).
Proof. unfold delete_yield. framed. Qed.
Lemma frames_cleanup_section `{HeapApi A} : frames cleanup_section.
Proof. unfold cleanup_section. framed. Qed.
End Frame.
#[export] Hint Resolve frames_ret frames_tick frames_handler frames_yield frames_suspend_all frames_resume_all frames_catch_up
  frames_delay frames_place frames_place_unordered frames_place_restricted frames_remove frames_remove_unordered frames_reset_event
  frames_missed frames_priority_set frames_hold frames_inherit frames_disinherit frames_after_timeout frames_suspend_section
  frames_reset frames_suspend_finish frames_resume frames_resume_isr frames_abort frames_delete_section frames_delete_yield
  frames_cleanup_section frames_take_section frames_take_finish frames_wait_section frames_wait_finish frames_notify frames_notify_isr
  frames_give_isr frames_state_clear frames_value_clear : frame.

(** ** The tasks keep their memory *)

Section Owned.
Context {A : Type} `{HS : StaticsOk} `{HH : KernelHeap A} (E : gset Z).
Abbreviation K := (kernel A).
Implicit Types (k : K) (L : gmap Z Z).

Lemma stacks_some k k' t b : stacks k' = stacks k -> tcbs k' !! t = Some b -> exists c, tcbs k !! t = Some c /\ pxStack c = pxStack b.
Proof.
  intros Es Hb. assert (Hs : stacks k !! t = Some (pxStack b)) by (rewrite <- Es; unfold stacks; by rewrite lookup_fmap, Hb).
  unfold stacks in Hs. apply lookup_fmap_Some in Hs as (c & Ec & Hc). eauto.
Qed.
Lemma stacks_none k k' t : stacks k' = stacks k -> tcbs k !! t = None -> tcbs k' !! t = None.
Proof. intros Es Hn. destruct (tcbs k' !! t) as [b|] eqn:Eb; [|done]. destruct (stacks_some k k' t b Es Eb) as (c & Hc & _). congruence. Qed.

Lemma owns_frame k k' L : owns E k L -> kheap k' = kheap k -> stacks k' = stacks k -> owns E k' L.
Proof.
  intros [O1 O2 O3 O4 O5] Eh Es. split.
  - by rewrite Eh.
  - intros t b Hb. destruct (stacks_some k k' t b Es Hb) as (c & Hc & _). by eapply O2.
  - intros t b Hb. destruct (stacks_some k k' t b Es Hb) as (c & Hc & <-). destruct (O3 t c Hc) as [? ?]. split; [done|]. by eapply stacks_none.
  - intros t u b b' Hb Hb' Eq. destruct (stacks_some k k' t b Es Hb) as (c & Hc & Ec).
    destruct (stacks_some k k' u b' Es Hb') as (c' & Hc' & Ec'). apply (O4 t u c c'); congruence.
  - intros l Hl. destruct (O5 l Hl) as [?|[?|(p & n & Hp & ? & ? & Hn & Hno)]]; [by left|by right; left|]. right. right. exists p, n.
    do 3 (split; [done|]). split; [by eapply stacks_none|]. intros t b Hb. destruct (stacks_some k k' t b Es Hb) as (c & Hc & <-). by eapply Hno.
Qed.

(** The memory side of a call, next to what [wp] says of it. *)
Lemma wp_frame {Y} (m : M K Y) k L (Q : Y -> K -> Prop) : frames m -> owns E k L -> wp m k Q ->
  wp m k (fun y k' => Q y k' /\ owns E k' L).
Proof.
  intros Hm HO. unfold wp. destruct (m k) as [[y k']|w] eqn:Em; [|done]. intros HQ. split; [done|].
  destruct (Hm k y k' Em) as [Eh Es]. by eapply owns_frame.
Qed.
End Owned.
