(* ===== verification/TasksValues.v ===== *)
(** Which calls of the scheduler leave the values of all list items alone: the
    ones that only move items. *)
From S2P Require Import Prelude FList Klist Tasks TasksInv TasksStep TasksRun TasksApi.

Create HintDb values.

Definition keeps {Y} (m : M lstate Y) : Prop := forall s y s', m s = Done (y, s') -> forall i, val s' i = val s i.

Lemma keeps_ret {Y} (y : Y) : keeps (mret y).
Proof. intros s r s' E. mred in E. by simplify_eq. Qed.
Lemma keeps_stop {Y} w : keeps (stop_ w : M lstate Y).
Proof. intros s r s' E. mred in E. by simplify_eq. Qed.
Lemma keeps_bind {Y Z} (m : M lstate Y) (f : Y -> M lstate Z) : keeps m -> (forall y, keeps (f y)) -> keeps (m ≫= f).
Proof.
  intros Hm Hf s r s' E i. apply bind_inv in E as (y & s1 & E1 & E2). rewrite <- (Hm _ _ _ E1). by apply (Hf _ _ _ _ E2).
Qed.
Lemma keeps_rd_mini a : keeps (rd_mini a).
Proof. intros s r s' E. unfold rd_mini in E. mred in E. destruct (minis s !! a); by simplify_eq. Qed.
Lemma keeps_rd_tail a : keeps (rd_tail a).
Proof. intros s r s' E. unfold rd_tail in E. mred in E. destruct (tails s !! a); by simplify_eq. Qed.
Lemma keeps_rd_list a : keeps (rd_list a).
Proof. intros s r s' E. unfold rd_list in E. mred in E. destruct (lists s !! a); by simplify_eq. Qed.
Lemma keeps_wr_mini a f : (forall m, xItemValue (f m) = xItemValue m) -> keeps (wr_mini a f).
Proof.
  intros Hf s r s' E i. unfold wr_mini, rd_mini in E. mred in E. destruct (minis s !! a) as [m|] eqn:Em; [|done]. simplify_eq.
  unfold val. cbn. destruct (decide (i = a)) as [->|N]; [by rewrite lookup_insert_eq, Em; cbn; rewrite Hf|by rewrite lookup_insert_ne].
Qed.
Lemma keeps_wr_tail a f : keeps (wr_tail a f).
Proof. intros s r s' E i. unfold wr_tail, rd_tail in E. mred in E. destruct (tails s !! a); by simplify_eq. Qed.
Lemma keeps_wr_list a f : keeps (wr_list a f).
Proof. intros s r s' E i. unfold wr_list, rd_list in E. mred in E. destruct (lists s !! a); by simplify_eq. Qed.
#[export] Hint Resolve keeps_ret keeps_stop keeps_rd_mini keeps_rd_tail keeps_rd_list keeps_wr_tail keeps_wr_list : values.

Ltac keep_step :=
  first [ progress intros
        | solve [eauto with values nocore]
        | apply keeps_wr_mini; done
        | apply keeps_bind
        | match goal with |- keeps (if ?c then _ else _) => destruct c end ].
Ltac kept := repeat (cbv zeta; keep_step).

Lemma keeps_remove i : keeps (listREMOVE_ITEM i).
Proof. unfold listREMOVE_ITEM. kept. Qed.
Lemma keeps_ux_remove i : keeps (uxListRemove i).
Proof. unfold uxListRemove. kept. Qed.
Lemma keeps_insert_end l i : keeps (listINSERT_END l i).
Proof. unfold listINSERT_END. kept. Qed.
Lemma keeps_empty l : keeps (listLIST_IS_EMPTY l).
Proof. unfold listLIST_IS_EMPTY. kept. Qed.
Lemma keeps_head_owner l : keeps (listGET_OWNER_OF_HEAD_ENTRY l).
Proof. unfold listGET_OWNER_OF_HEAD_ENTRY. kept. Qed.
Lemma keeps_head_value l : keeps (listGET_ITEM_VALUE_OF_HEAD_ENTRY l).
Proof. unfold listGET_ITEM_VALUE_OF_HEAD_ENTRY. kept. Qed.
Lemma keeps_value i : keeps (listGET_LIST_ITEM_VALUE i).
Proof. unfold listGET_LIST_ITEM_VALUE. kept. Qed.
Lemma keeps_length l : keeps (listCURRENT_LIST_LENGTH l).
Proof. unfold listCURRENT_LIST_LENGTH. kept. Qed.
Lemma keeps_container i : keeps (listLIST_ITEM_CONTAINER i).
Proof. unfold listLIST_ITEM_CONTAINER. kept. Qed.
#[export] Hint Resolve keeps_remove keeps_ux_remove keeps_insert_end keeps_empty keeps_head_owner keeps_head_value keeps_value keeps_length keeps_container : values.

Section Kernel.
Context {A : Type} `{HS : StaticsOk}.
Abbreviation K := (kernel A).
Implicit Types (k : K) (V : view).

Definition same_values {Y} (m : M K Y) : Prop := forall k y k', m k = Done (y, k') -> forall i, val (kls k') i = val (kls k) i.

Lemma values_ret {Y} (y : Y) : same_values (mret y).
Proof. intros k r k' E. mred in E. by simplify_eq. Qed.
Lemma values_stop {Y} w : same_values (stop_ w : M K Y).
Proof. intros k r k' E. mred in E. by simplify_eq. Qed.
Lemma values_gets {Y} (f : K -> Y) : same_values (gets f).
Proof. intros k r k' E. mred in E. by simplify_eq. Qed.
Lemma values_assert c : same_values (assert_ c : M K unit).
Proof. intros k r k' E. mred in E. destruct c; by simplify_eq. Qed.
Lemma values_modify (f : K -> K) : (forall k, kls (f k) = kls k) -> same_values (modify f).
Proof. intros Hf k r k' E i. mred in E. simplify_eq. by rewrite Hf. Qed.
Lemma values_bind {Y Z} (m : M K Y) (f : Y -> M K Z) : same_values m -> (forall y, same_values (f y)) -> same_values (m ≫= f).
Proof.
  intros Hm Hf k r k' E i. apply bind_inv in E as (y & k1 & E1 & E2). rewrite <- (Hm _ _ _ E1). by apply (Hf _ _ _ _ E2).
Qed.
Lemma values_onl {Y} (m : M lstate Y) : keeps m -> same_values (onl m).
Proof. intros Hm k r k' E i. unfold onl, zoom in E. destruct (m (kls k)) as [[y s]|w] eqn:Em; simplify_eq. by apply (Hm _ _ _ Em). Qed.
Lemma values_rd t : same_values (rd_tcb t).
Proof. intros k r k' E. unfold rd_tcb in E. mred in E. destruct (tcbs k !! t); by simplify_eq. Qed.
Lemma values_wr t f : same_values (wr_tcb t f).
Proof. intros k r k' E. unfold wr_tcb, rd_tcb in E. mred in E. destruct (tcbs k !! t); by simplify_eq. Qed.
Hint Resolve values_ret values_stop values_gets values_assert values_rd values_wr : values.

Ltac value_step :=
  first [ progress intros
        | solve [eauto with values nocore]
        | apply values_modify; done
        | apply values_onl
        | apply values_bind
        | match goal with |- same_values (if ?c then _ else _) => destruct c end ].
Ltac valued := repeat (cbv zeta; value_step).

Lemma values_ready t : same_values (prvAddTaskToReadyList t).
Proof. unfold prvAddTaskToReadyList, taskRECORD_READY_PRIORITY. valued. Qed.
Lemma values_reset : same_values prvResetNextTaskUnblockTime.
Proof. unfold prvResetNextTaskUnblockTime. valued. Qed.
Lemma values_remove_event t : same_values (remove_event t).
Proof. unfold remove_event. valued. Qed.
Lemma values_current : same_values current.
Proof. unfold current. valued. Qed.
Hint Resolve values_ready values_reset values_remove_event values_current : values.
Lemma values_unblock n now sw : same_values (unblock_due n now sw).
Proof. revert sw. induction n as [|n IH]; intros sw; cbn [unblock_due]; valued. Qed.
Hint Resolve values_unblock : values.
Lemma values_increment : same_values xTaskIncrementTick.
Proof. unfold xTaskIncrementTick, taskSWITCH_DELAYED_LISTS. valued. Qed.
Hint Resolve values_increment : values.
Lemma values_ready_pended n : forall c, same_values (ready_pended n c).
Proof. induction n as [|n IH]; intros c; cbn [ready_pended]; valued. Qed.
Lemma values_run_pended n : same_values (run_pended n).
Proof. induction n as [|n IH]; cbn [run_pended]; valued. Qed.
Hint Resolve values_ready_pended values_run_pended : values.
Lemma values_resume_all : same_values xTaskResumeAll.
Proof. unfold xTaskResumeAll, portYIELD. valued. Qed.

(** What [wp] says of a call and what its run says. *)
Lemma wp_values {Y} (m : M K Y) k (Q : Y -> K -> Prop) : same_values m -> wp m k Q ->
  wp m k (fun y k' => Q y k' /\ forall i, val (kls k') i = val (kls k) i).
Proof. intros Hm. unfold wp. destruct (m k) as [[y k']|w] eqn:E; [|done]. intros HQ. split; [done|]. by eapply Hm. Qed.
Lemma val_view E k k' V V' i : sched E k V -> sched E k' V' -> i ∈ vitems V -> i ∈ vitems V' ->
  (forall i, val (kls k') i = val (kls k) i) -> value V' i = value V i.
Proof.
  intros H1 H2 I1 I2 Hv. pose proof (Hv i) as Ev. unfold val in Ev.
  destruct (sh_mini _ _ (sc_shows _ _ _ H1) i I1) as (m1 & M1 & <-). destruct (sh_mini _ _ (sc_shows _ _ _ H2) i I2) as (m2 & M2 & <-).
  rewrite M1, M2 in Ev. cbn in Ev. congruence.
Qed.

(** ** Going to sleep sets the value of the state item, and no other *)

Lemma keeps_walk n v i : keeps (insert_walk n v i).
Proof. revert i. induction n as [|n IH]; intros i; cbn [insert_walk]; kept. Qed.
Hint Resolve keeps_walk : values.
Lemma keeps_insert_ordered l i : keeps (insert_ordered l i).
Proof.
  unfold insert_ordered, vListInsert. apply keeps_bind; [|kept]. intros s r s' E. mred in E. by simplify_eq.
Qed.
Hint Resolve keeps_insert_ordered : values.

Lemma set_value_val j v s s' : listSET_LIST_ITEM_VALUE j v s = Done (tt, s') ->
  val s' j = Some v /\ forall i, i <> j -> val s' i = val s i.
Proof.
  unfold listSET_LIST_ITEM_VALUE, wr_mini, rd_mini. intros E. mred in E. destruct (minis s !! j) as [m|]; [|done]. simplify_eq.
  unfold val. cbn. split; [by rewrite lookup_insert_eq|]. intros i N. by rewrite lookup_insert_ne.
Qed.

Lemma delay_values n blk k k' i : prvAddCurrentTaskToDelayedList n blk k = Done (tt, k') -> i <> xStateListItem (pxCurrentTCB k) ->
  val (kls k') i = val (kls k) i.
Proof.
  unfold prvAddCurrentTaskToDelayedList. intros E Hi.
  apply bind_inv in E as (tick & k0 & E0 & E). mred in E0. symmetry in E0. simplify_eq.
  apply bind_inv in E as (t & k0 & E0 & E). mred in E0. symmetry in E0. simplify_eq.
  apply bind_inv in E as ([] & k1 & E1 & E). rewrite <- (values_wr _ _ _ _ _ E1 i).
  apply bind_inv in E as (m & k2 & E2 & E). rewrite <- (values_onl _ (keeps_ux_remove _) _ _ _ E2 i).
  destruct ((n =? portMAX_DELAY) && blk); [by apply (values_onl _ (keeps_insert_end _ _) _ _ _ E)|].
  apply bind_inv in E as ([] & k3 & E3 & E). transitivity (val (kls k3) i).
  - assert (same_values (if u32 (xTickCount k + n) <? xTickCount k then
      l ← gets pxOverflowDelayedTaskList; onl (insert_ordered l (xStateListItem (pxCurrentTCB k)))
      else l ← gets pxDelayedTaskList; onl (insert_ordered l (xStateListItem (pxCurrentTCB k)));;
        next ← gets xNextTaskUnblockTime;
        if u32 (xTickCount k + n) <? next then modify (set_xNextTaskUnblockTime (u32 (xTickCount k + n))) else mret tt)) as Hv by valued.
    by apply (Hv _ _ _ E).
  - unfold onl, zoom in E3. destruct (listSET_LIST_ITEM_VALUE _ _ (kls k2)) as [[[] s]|w] eqn:Es; simplify_eq.
    by apply (set_value_val _ _ _ _ Es).
Qed.

Lemma place_unordered_value l v n k k' : vTaskPlaceOnUnorderedEventList l v n k = Done (tt, k') ->
  val (kls k') (xEventListItem (pxCurrentTCB k)) = Some (Z.lor v taskEVENT_LIST_ITEM_VALUE_IN_USE).
Proof.
  unfold vTaskPlaceOnUnorderedEventList. intros E.
  apply bind_inv in E as ([] & k0 & E0 & E). mred in E0. destruct (negb (l =? 0)); [|done]. symmetry in E0. simplify_eq.
  apply bind_inv in E as (sus & k0 & E0 & E). mred in E0. symmetry in E0. simplify_eq.
  apply bind_inv in E as ([] & k0 & E0 & E). mred in E0. destruct (negb _); [|done]. symmetry in E0. simplify_eq.
  apply bind_inv in E as (t & k0 & E0 & E). mred in E0. symmetry in E0. simplify_eq.
  apply bind_inv in E as ([] & k1 & E1 & E). unfold onl, zoom in E1.
  destruct (listSET_LIST_ITEM_VALUE _ _ (kls k)) as [[[] s1]|w] eqn:Es; simplify_eq.
  apply bind_inv in E as ([] & k2 & E2 & E). pose proof E2 as E2'. unfold onl, zoom in E2'.
  destruct (listINSERT_END l _ _) as [[[] s2]|w] eqn:Ei; simplify_eq.
  rewrite (delay_values _ _ _ _ _ E) by (cbn; unfold xStateListItem, xEventListItem; lia). cbn.
  rewrite (keeps_insert_end _ _ _ _ _ Ei). cbn. by apply (set_value_val _ _ _ _ Es).
Qed.
End Kernel.
