(* ===== verification/TasksSystem.v ===== *)
(** The scheduler as a system: every critical section of tasks.c is a step, an
    interrupt may come between any two.  The conditions under which a step may
    be taken are boolean functions of the kernel's state. *)
From S2P Require Import Prelude FList Klist KlistNew Tasks TasksInv TasksStep TasksRun TasksApi TasksCalls TasksPrio TasksSusp TasksNotify TasksNew TasksLife TasksStart TasksDelete TasksFrame.

(** A step: an interrupt handler, a call of the API, or a critical section of one. *)
Inductive call :=
  | Tick
  | Switch (sp : Z)
  | Yield
  | SuspendAll
  | ResumeAll
  | CatchUp (ticks : Z)
  | Sleep (ticks : Z)
  | Place (list ticks : Z)
  | PlaceUnordered (list value ticks : Z)
  | PlaceRestricted (list ticks : Z) (forever : bool)
  | RemoveFrom (list : Z)
  | RemoveUnordered (task value : Z)
  | ResetEventValue
  | MissedYield
  | PrioritySet (task priority : Z)
  | HoldMutex
  | Inherit (holder : Z)
  | Disinherit
  | AfterTimeout (holder priority : Z)
  | Suspend (task : Z)
  | ResetUnblock
  | SuspendFinish (task : Z)
  | Resume (task : Z)
  | ResumeFromISR (task : Z)
  | Abort (task : Z)
  | Create (raw : raw_tcb) (name : option (list Z)) (depth priority : Z)
  | DeleteSection (task : Z)
  | DeleteTCB (task : Z)
  | DeleteYield (task : Z)
  | CleanUp
  | NotifyTake (ticks : Z)
  | NotifyTaken (clear : bool)
  | NotifyWait (clear_on_entry ticks : Z)
  | NotifyWaited (clear_on_exit : Z)
  | Notify (task value : Z) (action : eNotifyAction)
  | NotifyFromISR (task value : Z) (action : eNotifyAction)
  | NotifyGiveFromISR (task : Z)
  | NotifyStateClear (task : Z)
  | NotifyValueClear (task bits : Z).

Section System.
Context {A : Type} `{Statics} `{HeapApi A}.
Abbreviation K := (kernel A).

(** A mutex is given back: queue.c yields when the priority was lowered. *)
Definition give_back : M K unit :=
  t ← gets pxCurrentTCB; r ← xTaskPriorityDisinherit t; if r : bool then portYIELD else mret tt.

Definition run_call (c : call) : M K unit :=
  match c with
  | Tick => SysTick_Handler
  | Switch sp => SW_Handler sp
  | Yield => portYIELD
  | SuspendAll => vTaskSuspendAll
  | ResumeAll => xTaskResumeAll;; mret tt
  | CatchUp n => xTaskCatchUpTicks n;; mret tt
  | Sleep n => prvAddCurrentTaskToDelayedList n false
  | Place l n => vTaskPlaceOnEventList l n
  | PlaceUnordered l v n => vTaskPlaceOnUnorderedEventList l v n
  | PlaceRestricted l n b => vTaskPlaceOnEventListRestricted l n b
  | RemoveFrom l => xTaskRemoveFromEventList l;; mret tt
  | RemoveUnordered t v => vTaskRemoveFromUnorderedEventList (xEventListItem t) v
  | ResetEventValue => uxTaskResetEventItemValue;; mret tt
  | MissedYield => vTaskMissedYield
  | PrioritySet h p => vTaskPrioritySet h p
  | HoldMutex => pvTaskIncrementMutexHeldCount;; mret tt
  | Inherit h => xTaskPriorityInherit h;; mret tt
  | Disinherit => give_back
  | AfterTimeout h p => vTaskPriorityDisinheritAfterTimeout h p
  | Suspend h => suspend_section h;; mret tt
  | ResetUnblock => prvResetNextTaskUnblockTime
  | SuspendFinish t => suspend_finish t
  | Resume t => vTaskResume t
  | ResumeFromISR t => xTaskResumeFromISR t;; mret tt
  | Abort t => abort_section t;; mret tt
  | Create raw name n p => xTaskCreate raw name n p;; mret tt
  | DeleteSection h => delete_section h;; mret tt
  | DeleteTCB t => prvDeleteTCB t
  | DeleteYield t => delete_yield t
  | CleanUp => cleanup_section;; mret tt
  | NotifyTake n => take_section n
  | NotifyTaken c => take_finish c;; mret tt
  | NotifyWait b n => wait_section b n
  | NotifyWaited b => wait_finish b;; mret tt
  | Notify t v a => xTaskGenericNotify t 0 v a;; mret tt
  | NotifyFromISR t v a => xTaskGenericNotifyFromISR t 0 v a;; mret tt
  | NotifyGiveFromISR t => vTaskGenericNotifyGiveFromISR t 0;; mret tt
  | NotifyStateClear t => xTaskGenericNotifyStateClear t 0;; mret tt
  | NotifyValueClear t b => ulTaskGenericNotifyValueClear t 0 b;; mret tt
  end.

Fixpoint run_calls (cs : list call) : M K unit :=
  match cs with [] => mret tt | c :: cs => run_call c;; run_calls cs end.

(** ** When a step may be taken *)

(** The list an item is on, read from the store. *)
Definition list_of (k : K) (i : Z) : Z := match tails (kls k) !! i with Some t => pxContainer t | None => 0 end.
Definition is_task (k : K) (t : Z) : bool := bool_decide (is_Some (tcbs k !! t)).
(** Neither deleted nor waiting to be. *)
Definition is_alive (k : K) (t : Z) : bool :=
  is_task k t && negb (list_of k (xStateListItem t) =? 0) && negb (list_of k (xStateListItem t) =? xTasksWaitingTermination).
Definition handle (k : K) (h : Z) : Z := if h =? 0 then pxCurrentTCB k else h.
Definition is_ready (k : K) (t : Z) : bool :=
  match tcbs k !! t with Some b => list_of k (xStateListItem t) =? pxReadyTasksLists (uxPriority b) | None => false end.
(** The current task may block: it is ready and waits for nothing; the idle
    task never does. *)
Definition may_block (k : K) : bool :=
  is_ready k (pxCurrentTCB k) && (list_of k (xEventListItem (pxCurrentTCB k)) =? 0) && negb (pxCurrentTCB k =? xIdleTaskHandle k).
Definition in_word (n : Z) : bool := (0 <? n) && (n <? 4294967296).
Definition may_nest (k : K) : bool := uxSchedulerSuspended k + 1 <? 4294967296.
Definition is_priority (p : Z) : bool := (0 <=? p) && (p <? configMAX_PRIORITIES).
Definition is_u32b (v : Z) : bool := (0 <=? v) && (v <? 4294967296).
Definition few_tasks (k : K) : bool := Z.of_nat (size (tcbs k)) + 1 <? 4294967296.
Definition held (k : K) (t : Z) : bool := match tcbs k !! t with Some b => negb (uxMutexesHeld b =? 0) | None => false end.
Definition priority_of (k : K) (t : Z) : Z := match tcbs k !! t with Some b => uxPriority b | None => 0 end.
Definition base_of (k : K) (t : Z) : Z := match tcbs k !! t with Some b => uxBasePriority b | None => 0 end.
Definition enough_stack (k : K) (sp : Z) : bool :=
  match tcbs k !! pxCurrentTCB k with Some b => pxStack b <? sp | None => false end.
Definition has_items (k : K) (l : Z) : bool := match lists (kls k) !! l with Some x => 0 <? uxNumberOfItems x | None => false end.
Definition implb (a b : bool) : bool := negb a || b.
Definition creatable (k : K) (raw : raw_tcb) (name : option (list Z)) (depth p : Z) : bool :=
  is_u32b (xItemValue (raw_state_mini raw)) && bool_decide (is_Some (new_name name (pcTaskName (raw_fields raw)))) &&
  (0 <? depth) && (depth <? 65536) && is_priority p && few_tasks k && (Z.of_nat (size (minis (kls k))) + 2 <? 4294967296) && may_nest k.

(** The task may wait for a notification of at most [n] ticks. *)
Definition may_wait (k : K) (n : Z) : bool :=
  is_u32b n && implb (0 <? n) (is_ready k (pxCurrentTCB k) && negb (pxCurrentTCB k =? xIdleTaskHandle k)).
(** A task that waits for a notification waits for nothing else. *)
Definition may_notify (k : K) (t : Z) : bool :=
  is_alive k t && match tcbs k !! t with
                  | Some b => implb (ucNotifyState b =? taskWAITING_NOTIFICATION) (list_of k (xEventListItem t) =? 0)
                  | None => false
                  end.

(** [E] lists the event lists of the queues and event groups. *)
Definition call_ok (E : gset Z) (c : call) (k : K) : bool :=
  match c with
  | Tick | Yield | MissedYield | ResetUnblock | HoldMutex | NotifyTaken _ | NotifyWaited _ => true
  | NotifyTake n | NotifyWait _ n => may_wait k n
  | Notify t _ _ | NotifyFromISR t _ _ | NotifyGiveFromISR t => may_notify k t
  | NotifyStateClear t | NotifyValueClear t _ => is_task k (handle k t)
  | Switch sp => enough_stack k sp
  | SuspendAll => may_nest k
  | ResumeAll => negb (uxSchedulerSuspended k =? 0)
  | CatchUp n => uxSchedulerSuspended k =? 0
  | Sleep n => in_word n && may_block k
  | Place l n => in_word n && may_block k && bool_decide (l ∈ E)
  | PlaceUnordered l v n => in_word n && may_block k && bool_decide (l ∈ E) && is_u32b v && negb (uxSchedulerSuspended k =? 0)
  | PlaceRestricted l n b => in_word n && may_block k && bool_decide (l ∈ E)
  | RemoveFrom l => bool_decide (l ∈ E) && has_items k l
  | RemoveUnordered t v => is_task k t && negb (list_of k (xEventListItem t) =? 0) && is_u32b v && negb (uxSchedulerSuspended k =? 0)
  | ResetEventValue => is_alive k (pxCurrentTCB k)
  | PrioritySet h p => is_priority p && is_alive k (handle k h)
  | Inherit h => is_alive k h
  | Disinherit => held k (pxCurrentTCB k) && is_ready k (pxCurrentTCB k)
  | AfterTimeout h p => is_alive k h && held k h && negb (h =? pxCurrentTCB k) && is_priority p &&
      (Z.max (base_of k h) p <=? Z.max (priority_of k h) (priority_of k (pxCurrentTCB k)))
  | Suspend h => is_alive k (handle k h) && negb (handle k h =? xIdleTaskHandle k)
  | SuspendFinish t | DeleteYield t => implb (t =? pxCurrentTCB k) (uxSchedulerSuspended k =? 0)
  | Resume t | ResumeFromISR t | Abort t => is_task k t
  | Create raw name n p => creatable k raw name n p
  | DeleteSection h => is_alive k (handle k h) && negb (handle k h =? xIdleTaskHandle k) && few_tasks k
  | DeleteTCB t => is_task k t && (list_of k (xStateListItem t) =? 0) && may_nest k
  | CleanUp => (pxCurrentTCB k =? xIdleTaskHandle k) && (0 <? uxDeletedTasksWaitingCleanUp k) && few_tasks k
  end.

(** Every step of a history is allowed where it is taken. *)
Fixpoint calls_ok (E : gset Z) (cs : list call) (k : K) : bool :=
  match cs with
  | [] => true
  | c :: cs => call_ok E c k && match run_call c k with Done (_, k') => calls_ok E cs k' | Stop _ => true end
  end.
End System.

(** ** Every step keeps the invariant *)

Section Proof.
Context {A : Type} `{HS : StaticsOk} `{HH : KernelHeap A} (E : gset Z).
Abbreviation K := (kernel A).
Implicit Types (k : K) (V : view) (D X : gset Z) (L : gmap Z Z).

Ltac split_ands := repeat match goal with
  | Hb : _ && _ = true |- _ => apply andb_true_iff in Hb as [? Hb]
  end.
Ltac booleans := repeat match goal with
  | Hb : (_ && _) = true |- _ => apply andb_true_iff in Hb as [? ?]
  | Hb : (_ =? _) = true |- _ => apply Z.eqb_eq in Hb
  | Hb : (_ <? _) = true |- _ => apply Z.ltb_lt in Hb
  | Hb : (_ <=? _) = true |- _ => apply Z.leb_le in Hb
  | Hb : negb (_ =? _) = true |- _ => apply negb_true_iff, Z.eqb_neq in Hb
  | Hb : bool_decide _ = true |- _ => apply bool_decide_eq_true in Hb
  end.

Section Reading.
Context (D X : gset Z) (k : K) (V : view) (G : good E D X k V).

Lemma reads_state t b : tcbs k !! t = Some b -> list_of k (xStateListItem t) = cont V (xStateListItem t).
Proof.
  intros Hb. pose proof (in_sched _ _ _ _ _ G) as HI. unfold list_of.
  by rewrite (sh_tail _ _ (sc_shows _ _ _ HI) _ (it_state E k V HI t b Hb)).
Qed.
Lemma reads_event t b : tcbs k !! t = Some b -> list_of k (xEventListItem t) = cont V (xEventListItem t).
Proof.
  intros Hb. pose proof (in_sched _ _ _ _ _ G) as HI. unfold list_of.
  by rewrite (sh_tail _ _ (sc_shows _ _ _ HI) _ (it_event E k V HI t b Hb)).
Qed.

Lemma is_task_ok t : is_task k t = true -> exists b, tcbs k !! t = Some b.
Proof. intros Ht. unfold is_task in Ht. booleans. by destruct Ht as [b Hb]; eauto. Qed.
Lemma is_alive_ok t : is_alive k t = true -> exists b, tcbs k !! t = Some b /\ ~ (t ∈ D) /\ ~ (t ∈ X).
Proof.
  unfold is_alive. intros Ht. apply andb_true_iff in Ht as [Ht Hx]. apply andb_true_iff in Ht as [Ht Hd].
  destruct (is_task_ok t Ht) as [b Hb]. booleans. rewrite (reads_state t b Hb) in *. exists b. split; [done|].
  split; [by apply (alive_iff E D X k V G t b Hb)|by apply (term_iff E D X k V G t b Hb)].
Qed.
Lemma is_ready_ok t : is_ready k t = true -> exists b, tcbs k !! t = Some b /\ cont V (xStateListItem t) = pxReadyTasksLists (uxPriority b).
Proof.
  unfold is_ready. destruct (tcbs k !! t) as [b|] eqn:Hb; [|done]. intros Ht. booleans. rewrite (reads_state t b Hb) in Ht. eauto.
Qed.
Lemma may_block_ok : may_block k = true -> exists c, can_wait k V c.
Proof.
  unfold may_block. intros Hm. apply andb_true_iff in Hm as [Hm Hi]. apply andb_true_iff in Hm as [Hr He].
  destruct (is_ready_ok _ Hr) as (c & Hc & Hs). booleans. rewrite (reads_event _ c Hc) in He. by exists c.
Qed.
Lemma in_word_ok n : in_word n = true -> 0 < n < 4294967296.
Proof. unfold in_word. intros Hn. booleans. lia. Qed.
Lemma is_priority_ok p : is_priority p = true -> 0 <= p < configMAX_PRIORITIES.
Proof. unfold is_priority. intros Hn. booleans. lia. Qed.
Lemma is_u32b_ok p : is_u32b p = true -> is_u32 p.
Proof. unfold is_u32b. intros Hn. booleans. split; lia. Qed.
Lemma implb_ok t : implb (t =? pxCurrentTCB k) (uxSchedulerSuspended k =? 0) = true -> t = pxCurrentTCB k -> uxSchedulerSuspended k = 0.
Proof. unfold implb. intros Hi ->. rewrite Z.eqb_refl in Hi. cbn in Hi. by booleans. Qed.

(** A list with items has a first one, of a task that waits on it. *)
Lemma has_items_ok l : l ∈ E -> has_items k l = true -> exists t b r, elems V l = xEventListItem t :: r /\ tcbs k !! t = Some b.
Proof.
  intros Hl Hh. pose proof (in_sched _ _ _ _ _ G) as HI. unfold has_items in Hh.
  rewrite (sh_list _ _ (sc_shows _ _ _ HI) l) in Hh by (by apply (kl_event E k)). cbn in Hh. booleans.
  destruct (elems V l) as [|x r] eqn:Ex; [cbn in Hh; lia|].
  destruct (on_event_list E k V HI l x) as (t & b & -> & Hb & _); [by apply (kl_event E k)|rewrite Ex; left|by right|]. eauto.
Qed.
End Reading.

(** The invariant after a step; deletions change who is dead or waits for its end. *)
Definition fine (k : K) : Prop := exists D X V, good E D X k V.
Lemma fine_good D X k V : good E D X k V -> fine k.
Proof. by exists D, X, V. Qed.

Lemma suspend_all_good D X k V : good E D X k V -> uxSchedulerSuspended k + 1 < 4294967296 ->
  good E D X (set_uxSchedulerSuspended (uxSchedulerSuspended k + 1) k) V.
Proof.
  intros [[HI HSe Ht Hp] R] Hs. destruct HSe as [S1 S2 S3 S4 S5 S6 S7 S8 S9 S10 S11]. split; [split; [|split; try done|done|done]|].
  - by eapply sched_ext.
  - destruct S10. split; cbn; lia.
  - intros E0. cbn in E0. destruct S10. lia.
Qed.

Lemma vTaskSuspendAll_ok D X k V : good E D X k V -> uxSchedulerSuspended k + 1 < 4294967296 ->
  wp vTaskSuspendAll k (fun _ k' => good E D X k' V /\ k' = set_uxSchedulerSuspended (uxSchedulerSuspended k + 1) k).
Proof.
  intros G Hs. apply wp_modify. pose proof (se_suspended _ _ _ _ (in_settled _ _ _ _ _ G)) as [H1 H2].
  rewrite u32_small by (split; lia). split; [by apply suspend_all_good|done].
Qed.

Lemma xTaskCatchUpTicks_ok D X k V n : good E D X k V -> uxSchedulerSuspended k = 0 ->
  wp (xTaskCatchUpTicks n) k (fun r k' => exists V' k1, good E D X k' V' /\
    k1 = set_xPendedTicks (u32 (xPendedTicks k + n)) (set_uxSchedulerSuspended 1 k) /\ caught_up k1 k' V V').
Proof.
  intros G Hs. apply wp_bind, wp_gets, wp_bind, wp_assert; [by rewrite Hs|].
  apply wp_bind. eapply wp_mono; [apply (vTaskSuspendAll_ok D X k V G); lia|]. intros _ k1 [G1 ->]. rewrite Hs in *.
  apply wp_bind, wp_modify. cbn [xPendedTicks set_uxSchedulerSuspended]. set (k2 := set_xPendedTicks _ _).
  assert (G2 : good E D X k2 V).
  { destruct G1 as [[HI HSe Ht Hp] R]. destruct HSe as [S1 S2 S3 S4 S5 S6 S7 S8 S9 S10 S11].
    split; [split; [by eapply sched_ext|split; try done; apply u32_range|done|done]|]. intros E0. by cbn in E0. }
  eapply wp_mono; [by apply (xTaskResumeAll_ok E D X k2 V G2)|]. intros r k3 (V3 & G3 & _ & _ & _ & _ & H3).
  exists V3, k2. split; [done|]. split; [done|]. by apply H3.
Qed.

Lemma give_back_ok D X k V b : good E D X k V -> tcbs k !! pxCurrentTCB k = Some b -> ~ (pxCurrentTCB k ∈ X) ->
  uxMutexesHeld b <> 0 -> cont V (xStateListItem (pxCurrentTCB k)) = pxReadyTasksLists (uxPriority b) ->
  wp give_back k (fun _ k' => exists V', good E D X k' V').
Proof.
  intros G Hb HX Hh Hr. apply wp_bind, wp_gets, wp_bind. eapply wp_mono; [by apply (xTaskPriorityDisinherit_ok E D X k V b)|].
  intros r k1 (V1 & [G1 G2 G3 G4] & R1 & _). destruct r.
  - apply wp_modify. exists V1. split; [|exact R1]. split; [by eapply sched_ext|by eapply settled_same; [exact G2|done..]|exact G3|right; left; by left].
  - apply wp_ret. exists V1. split; [|exact R1]. by split.
Qed.

Lemma wp_fine {Y} (m : M K Y) k (Q : Y -> K -> Prop) : wp m k Q -> (forall y k', Q y k' -> fine k') ->
  wp (m;; mret tt) k (fun _ k' => fine k').
Proof. intros Hm HQ. apply wp_bind. eapply wp_mono; [exact Hm|]. intros y k' Hy. apply wp_ret. by eapply HQ. Qed.
Ltac fine_by := let V' := fresh in intros ? ? (V' & ? & _); by eapply fine_good.

(** The steps that neither create a task nor free the memory of one. *)
Lemma block_fine c k : fine k -> match c with Sleep _ | Place _ _ | PlaceUnordered _ _ _ | PlaceRestricted _ _ _ => True | _ => False end ->
  call_ok E c k = true -> wp (run_call c) k (fun _ k' => fine k').
Proof.
  intros (D & X & V & G) Hc Hok. destruct c; try done; cbn [call_ok run_call] in *; booleans.
  all: match goal with Hm : may_block ?k = true, G : good _ ?D ?X ?k ?V |- _ => destruct (may_block_ok D X k V G Hm) as (b & Hw) end.
  all: match goal with Hn : in_word _ = true |- _ => apply in_word_ok in Hn end.
  - destruct Hw. eapply wp_mono; [by apply (prvAddCurrentTaskToDelayedList_ok E D X k V b)|]. fine_by.
  - eapply wp_mono; [by apply (vTaskPlaceOnEventList_ok E D X k V b G Hw)|]. fine_by.
  - eapply wp_mono; [apply (vTaskPlaceOnUnorderedEventList_ok E D X k V b G Hw); try done; by apply is_u32b_ok|]. fine_by.
  - eapply wp_mono; [by apply (vTaskPlaceOnEventListRestricted_ok E D X k V b G Hw)|]. fine_by.
Qed.

Lemma wake_fine c k : fine k -> match c with RemoveFrom _ | RemoveUnordered _ _ | Resume _ | ResumeFromISR _ | Abort _ => True | _ => False end ->
  call_ok E c k = true -> wp (run_call c) k (fun _ k' => fine k').
Proof.
  intros (D & X & V & G) Hc Hok. destruct (cur_some E D X k V G) as [d Hd].
  destruct c; try done; cbn [call_ok run_call] in *; booleans.
  2-5: match goal with Ht : is_task ?k _ = true |- _ => destruct (is_task_ok k _ Ht) as [b Hb] end.
  - match goal with Hh : has_items k _ = true |- _ => destruct (has_items_ok D X k V G _ ltac:(done) Hh) as (t & b & r & El & Hb) end.
    eapply wp_fine; [by eapply (xTaskRemoveFromEventList_ok E D X k V _ t b d r)|]. fine_by.
  - match goal with Ht : list_of k _ <> 0 |- _ => rewrite (reads_event D X k V G _ b Hb) in Ht end.
    eapply wp_mono; [eapply (vTaskRemoveFromUnorderedEventList_ok E D X k V _ b d); try done; by apply is_u32b_ok|]. fine_by.
  - eapply wp_mono; [by eapply (vTaskResume_ok E D X k V _ b d)|]. fine_by.
  - eapply wp_fine; [by eapply (xTaskResumeFromISR_ok E D X k V _ b d)|]. fine_by.
  - eapply wp_fine; [by eapply (abort_section_ok E D X k V _ b d)|]. fine_by.
Qed.

Lemma priority_fine c k : fine k -> match c with ResetEventValue | PrioritySet _ _ | HoldMutex | Inherit _ | Disinherit | AfterTimeout _ _ => True | _ => False end ->
  call_ok E c k = true -> wp (run_call c) k (fun _ k' => fine k').
Proof.
  intros (D & X & V & G) Hc Hok. destruct (cur_some E D X k V G) as [d Hd].
  destruct c; try done; cbn [call_ok run_call] in *; booleans.
  1,2,4,6: match goal with Ht : is_alive ?k _ = true, G : good _ ?D ?X ?k ?V |- _ => destruct (is_alive_ok D X k V G _ Ht) as (b & Hb & HD & HX) end.
  - eapply wp_fine; [by apply (uxTaskResetEventItemValue_ok E D X k V b)|]. fine_by.
  - eapply wp_mono; [eapply (vTaskPrioritySet_ok E D X k V _ _ b); try done; by apply is_priority_ok|]. fine_by.
  - eapply wp_fine; [eapply (xTaskPriorityInherit_ok E D X k V _ b d); try done|]. intros r k' (V' & b' & G' & _). by eapply fine_good.
  - match goal with Ht : held k _ = true |- _ => unfold held in Ht; rewrite Hb in Ht end.
    unfold base_of, priority_of in *. rewrite Hb, Hd in *. booleans.
    eapply wp_mono; [eapply (vTaskPriorityDisinheritAfterTimeout_ok E D X k V _ b d); try done; by apply is_priority_ok|]. fine_by.
  - eapply wp_fine; [by apply (pvTaskIncrementMutexHeldCount_ok E D X k V d)|]. intros r k' (_ & G' & _). by eapply fine_good.
  - match goal with Ht : is_ready k _ = true |- _ => destruct (is_ready_ok D X k V G _ Ht) as (b & Hb & Hr) end. simplify_eq.
    match goal with Ht : held k _ = true |- _ => unfold held in Ht; rewrite Hd in Ht end. booleans.
    destruct (ready_alive E D X k V _ d G Hd Hr) as [_ HX].
    eapply wp_mono; [by apply (give_back_ok D X k V d)|]. intros [] k' (V' & G'). by eapply fine_good.
Qed.

Lemma kernel_fine c k : fine k -> match c with Tick | Switch _ | Yield | SuspendAll | ResumeAll | CatchUp _ | MissedYield | ResetUnblock => True | _ => False end ->
  call_ok E c k = true -> wp (run_call c) k (fun _ k' => fine k').
Proof.
  intros (D & X & V & G) Hc Hok. destruct (cur_some E D X k V G) as [d Hd].
  destruct c; try done; cbn [call_ok run_call] in *; unfold may_nest, enough_stack in Hok; booleans.
  - eapply wp_mono; [by apply (SysTick_Handler_ok E D X k V)|]. fine_by.
  - rewrite Hd in Hok. booleans. eapply wp_mono; [by eapply (SW_Handler_ok E D X k V d)|]. fine_by.
  - apply wp_modify. eapply fine_good. by apply good_swi.
  - eapply wp_mono; [by apply (vTaskSuspendAll_ok D X k V)|]. intros [] k' [G' _]. by eapply fine_good.
  - eapply wp_fine; [by apply (xTaskResumeAll_ok E D X k V)|]. fine_by.
  - eapply wp_fine; [by apply (xTaskCatchUpTicks_ok D X k V)|]. intros r k' (V' & k1 & G' & _). by eapply fine_good.
  - apply wp_modify. eapply fine_good. by apply good_yield.
  - eapply wp_mono; [by apply (reset_unblock_good E D X k V)|]. intros [] k' (v & _ & G'). by eapply fine_good.
Qed.

Lemma end_fine c k : fine k -> match c with Suspend _ | SuspendFinish _ | DeleteSection _ | DeleteYield _ | CleanUp => True | _ => False end ->
  call_ok E c k = true -> wp (run_call c) k (fun _ k' => fine k').
Proof.
  intros (D & X & V & G) Hc Hok. unfold few_tasks in Hok. destruct c; try done; cbn [call_ok run_call] in *; booleans.
  1,3: match goal with Ht : is_alive ?k _ = true, G : good _ ?D ?X ?k ?V |- _ => destruct (is_alive_ok D X k V G _ Ht) as (b & Hb & HD & HX) end.
  - eapply wp_fine; [by apply (suspend_section_ok E D X k V _ b)|]. intros r k' (_ & V' & G' & _). by eapply fine_good.
  - unfold few_tasks in *. booleans. eapply wp_fine; [by apply (delete_section_ok E D X k V _ b)|]. intros r k' (_ & V' & _ & _ & _ & _ & G').
    cbn in G'. case_match; by eapply fine_good.
  - eapply wp_mono; [apply (suspend_finish_ok E D X k V); [done|by apply implb_ok]|]. intros [] k' [G' _]. by eapply fine_good.
  - eapply wp_mono; [apply (delete_yield_ok E D X k V); [done|by apply implb_ok]|]. intros [] k' [G' _]. by eapply fine_good.
  - unfold few_tasks in *. booleans. eapply wp_fine; [by apply (cleanup_section_ok E D X k V)|]. intros t k' (V' & _ & G' & _). by eapply fine_good.
Qed.

Lemma may_wait_ok D X k V n c : good E D X k V -> tcbs k !! pxCurrentTCB k = Some c -> may_wait k n = true -> 0 <= n < 4294967296 /\
  (0 < n -> cont V (xStateListItem (pxCurrentTCB k)) = pxReadyTasksLists (uxPriority c) /\ pxCurrentTCB k <> xIdleTaskHandle k).
Proof.
  intros G Hc Hm. unfold may_wait, implb in Hm. apply andb_true_iff in Hm as [Hn Hm]. apply is_u32b_ok in Hn as [? ?]. split; [lia|].
  intros Hlt. rewrite (proj2 (Z.ltb_lt _ _) Hlt) in Hm. cbn in Hm. apply andb_true_iff in Hm as [Hr Hi]. booleans.
  destruct (is_ready_ok D X k V G _ Hr) as (b & Hb & Hs). by simplify_eq.
Qed.
Lemma may_notify_ok D X k V t : good E D X k V -> may_notify k t = true -> exists b, tcbs k !! t = Some b /\ ~ (t ∈ D) /\ ~ (t ∈ X) /\
  (ucNotifyState b = taskWAITING_NOTIFICATION -> cont V (xEventListItem t) = 0).
Proof.
  intros G Hm. unfold may_notify in Hm. apply andb_true_iff in Hm as [Ha Hm]. destruct (is_alive_ok D X k V G t Ha) as (b & Hb & HD & HX).
  rewrite Hb in Hm. exists b. do 3 (split; [done|]). intros Hw. unfold implb in Hm. rewrite Hw, Z.eqb_refl in Hm. cbn in Hm. booleans.
  by rewrite (reads_event D X k V G t b Hb) in Hm.
Qed.

Lemma notify_fine c k : fine k -> match c with NotifyTake _ | NotifyTaken _ | NotifyWait _ _ | NotifyWaited _ | Notify _ _ _ | NotifyFromISR _ _ _ |
    NotifyGiveFromISR _ | NotifyStateClear _ | NotifyValueClear _ _ => True | _ => False end ->
  call_ok E c k = true -> wp (run_call c) k (fun _ k' => fine k').
Proof.
  intros (D & X & V & G) Hc Hok. destruct (cur_some E D X k V G) as [d Hd].
  destruct c; try done; cbn [call_ok run_call] in *.
  1,3: destruct (may_wait_ok D X k V _ d G Hd Hok) as [Hn Hw].
  - eapply wp_mono; [by apply (take_section_ok E D X k V d)|]. fine_by.
  - eapply wp_mono; [by apply (wait_section_ok E D X k V d)|]. fine_by.
  - eapply wp_fine; [by apply (take_finish_ok E D X k V d)|]. intros r k' (_ & G' & _). by eapply fine_good.
  - eapply wp_fine; [by apply (wait_finish_ok E D X k V d)|]. intros r k' (_ & G' & _). by eapply fine_good.
  - destruct (may_notify_ok D X k V _ G Hok) as (b & Hb & HD & HX & He).
    eapply wp_fine; [by apply (xTaskGenericNotify_ok E D X k V _ b d)|]. fine_by.
  - destruct (may_notify_ok D X k V _ G Hok) as (b & Hb & HD & HX & He).
    eapply wp_fine; [by apply (xTaskGenericNotifyFromISR_ok E D X k V _ b d)|]. fine_by.
  - destruct (may_notify_ok D X k V _ G Hok) as (b & Hb & HD & HX & He).
    eapply wp_fine; [by apply (vTaskGenericNotifyGiveFromISR_ok E D X k V _ b d)|]. fine_by.
  - destruct (is_task_ok k _ Hok) as [b Hb]. eapply wp_fine; [by apply (xTaskGenericNotifyStateClear_ok E D X k V _ b)|].
    intros r k' [G' _]. by eapply fine_good.
  - destruct (is_task_ok k _ Hok) as [b Hb]. eapply wp_fine; [by apply (ulTaskGenericNotifyValueClear_ok E D X k V _ b)|].
    intros r k' [G' _]. by eapply fine_good.
Qed.

Lemma frames_call c : match c with Create _ _ _ _ | DeleteTCB _ => False | _ => True end -> frames (run_call c).
Proof.
  intros Hc. destruct c; try done; cbn [run_call].
  all: first [by eauto with frame nocore|apply frames_bind; [by eauto with frame nocore|intros; apply frames_ret]|idtac].
  apply frames_bind; [apply frames_gets|intros t]. apply frames_bind; [by eauto with frame nocore|].
  intros [|]; [by eauto with frame nocore|apply frames_ret].
Qed.

(** The whole invariant: the state of the scheduler and the memory of its tasks. *)
Definition sound (k : K) : Prop := exists D X V L, good E D X k V /\ owns E k L.

Lemma framed_sound c k : sound k -> match c with Create _ _ _ _ | DeleteTCB _ => False | _ => True end ->
  (fine k -> wp (run_call c) k (fun _ k' => fine k')) -> wp (run_call c) k (fun _ k' => sound k').
Proof.
  intros (D & X & V & L & G & HO) Hc Hw. eapply wp_mono.
  { apply (wp_frame E _ k L (fun _ k' => fine k') (frames_call c Hc) HO), Hw. by eapply fine_good. }
  intros [] k' [(D' & X' & V' & G') HO']. by exists D', X', V', L.
Qed.

Lemma create_sound raw name n p k : sound k -> call_ok E (Create raw name n p) k = true ->
  wp (run_call (Create raw name n p)) k (fun _ k' => sound k').
Proof.
  intros (D & X & V & L & G & HO) Hok. cbn [call_ok run_call] in *. unfold creatable, few_tasks, may_nest in Hok. booleans.
  match goal with Hn : is_Some (new_name _ _) |- _ => destruct Hn as [nm Hn] end.
  apply wp_bind. eapply wp_mono; [eapply (xTaskCreate_running E raw name nm n p D X k V L); [done|done| | |]|].
  - split; [by apply is_u32b_ok|done|lia|by apply is_priority_ok].
  - split; lia.
  - lia.
  - intros r k' [_ [(_ & G' & HO' & _)|(t & V' & L' & _ & G' & [_ _ _ HO'] & _)]]; apply wp_ret;
      [by exists D, X, V, L|by exists D, X, V', L'].
Qed.

Lemma delete_sound t k : sound k -> call_ok E (DeleteTCB t) k = true -> wp (run_call (DeleteTCB t)) k (fun _ k' => sound k').
Proof.
  intros (D & X & V & L & G & HO) Hok. cbn [call_ok run_call] in *. unfold may_nest in Hok. booleans.
  match goal with Ht : is_task k _ = true |- _ => destruct (is_task_ok k _ Ht) as [b Hb] end.
  match goal with Ht : list_of k _ = 0 |- _ => rewrite (reads_state D X k V G t b Hb) in Ht end.
  assert (HD : t ∈ D) by (apply (se_alive _ _ _ _ (in_settled _ _ _ _ _ G)); [by exists b|done]).
  eapply wp_mono; [by apply (prvDeleteTCB_ok E D X k V L t b)|]. intros [] k' (h & _ & G' & HO'). by exists (D ∖ {[t]}), X, (view_without t V), (delete t (delete (pxStack b) L)).
Qed.

Lemma call_sound c k : sound k -> call_ok E c k = true -> wp (run_call c) k (fun _ k' => sound k').
Proof.
  intros HS0 Hok. destruct c; try (by apply create_sound); try (by apply delete_sound).
  all: apply framed_sound; [done|done|intros Hf].
  all: first [by apply block_fine|by apply wake_fine|by apply priority_fine|by apply kernel_fine|by apply end_fine|by apply notify_fine].
Qed.

Lemma calls_sound cs : forall k, sound k -> calls_ok E cs k = true -> wp (run_calls cs) k (fun _ k' => sound k').
Proof.
  induction cs as [|c cs IH]; intros k Hs Hok; [by apply wp_ret|]. cbn [calls_ok run_calls] in *.
  apply andb_true_iff in Hok as [Hc Hok]. pose proof (call_sound c k Hs Hc) as Hw. apply wp_bind. unfold wp in *.
  destruct (run_call c k) as [[y k']|w]; [|done]. by apply IH.
Qed.
End Proof.
