(* ===== verification/TasksBoot.v ===== *)
(** A concrete boot: the lists of tasks.c and the kernel heap where a linker may
    put them, two application tasks, the idle task and the timer task.  The
    theorems about the scheduler are applied to it. *)
From S2P Require Import Prelude FList Heap4 Klist KlistNew Tasks TasksInv TasksStep TasksRun TasksApi TasksCalls TasksNew TasksLife TasksDelete TasksStart TasksHeap TasksSystem.

#[export] Instance boot_statics : Statics := {
  ready_base := 536900000;
  xDelayedTaskList1 := 536901000;
  xDelayedTaskList2 := 536901020;
  xPendingReadyList := 536901040;
  xTasksWaitingTermination := 536901060;
  xSuspendedTaskList := 536901080
}.
#[export] Instance boot_statics_ok : StaticsOk.
Proof.
  split; [by_decision|]. intros p Hp Hin. unfold pxReadyTasksLists, configMAX_PRIORITIES in *. cbn in *.
  rewrite !elem_of_cons, elem_of_nil in Hin. lia.
Qed.
#[export] Instance boot_api : HeapApi heap_state := heap_4 uc0 st0.
#[export] Instance boot_heap : KernelHeap heap_state := kernel_heap_4 uc0 st0 placed0 apart0.

(** The list of the tasks that wait on a queue. *)
Definition waiters : Z := 536902000.
Definition event_lists : gset Z := {[waiters]}.
Definition static_lists : list Z :=
  [xDelayedTaskList1; xDelayedTaskList2; xPendingReadyList; xTasksWaitingTermination; xSuspendedTaskList; waiters] ++
  map (fun n => pxReadyTasksLists (Z.of_nat n)) (seq 0 15).
Definition raw_store : lstate :=
  mkLstate (list_to_map (map (fun l => (xListEnd l, mkMini 0 0 0)) static_lists)) ∅
    (list_to_map (map (fun l => (l, mkList 0 0)) static_lists)).
Definition boot_store : lstate := exec (vListInitialise waiters) raw_store.
Definition kernel0 : kernel heap_state := kernel_bss boot_store heap_bss.

Definition no_view : view := mkView ∅ ∅ (fun _ => []) (fun _ => 0) (fun _ => 0) (fun _ => 0) (fun _ => 0).
Definition view0 : view := v_list waiters no_view.

Lemma in_static l : kernel_list l -> l ∈ static_lists.
Proof.
  intros [(p & Hp & ->)|Hl].
  - apply elem_of_app. right. apply list_elem_of_fmap. exists (Z.to_nat p). split; [by rewrite Z2Nat.id by lia|].
    apply elem_of_seq. unfold configMAX_PRIORITIES in Hp. lia.
  - apply elem_of_app. left. cbn in *. set_solver.
Qed.
Lemma static_range l : kernel_list l -> 536900000 <= l /\ l <> waiters.
Proof.
  intros [(p & Hp & ->)|Hl]; unfold pxReadyTasksLists, configMAX_PRIORITIES, waiters in *; cbn in *; [lia|].
  rewrite !elem_of_cons, elem_of_nil in Hl. lia.
Qed.
Lemma no_view_shows : shows raw_store no_view.
Proof. split; cbn; try done; intros; set_solver. Qed.

Lemma static_there : forallb (fun l => bool_decide (is_Some (lists boot_store !! l)) && bool_decide (is_Some (minis boot_store !! xListEnd l)))
  static_lists = true.
Proof. vm_compute. reflexivity. Qed.

Lemma boot_loaded : loaded event_lists boot_store view0.
Proof.
  assert (Hs : shows boot_store view0).
  { assert (Hw : wp (vListInitialise waiters) raw_store (fun _ s' => shows s' view0)).
    { apply (vListInitialise_ok _ _ no_view_shows); [cbn; set_solver|done|cbn; set_solver|by_decision|by_decision|done]. }
    unfold boot_store, exec, wp in *. by destruct (vListInitialise waiters raw_store) as [[[] s']|w]. }
  split; [done|cbn; set_solver|done| |].
  - intros l Hl. pose proof (proj1 (forallb_forall _ _) static_there l) as Hall. cbv beta in Hall.
    apply in_static, list_elem_of_In in Hl. specialize (Hall Hl). apply andb_true_iff in Hall as [H1 H2].
    by apply bool_decide_eq_true in H1, H2.
  - intros l Hl. destruct (static_range l Hl). split; [lia|]. unfold event_lists. set_solver.
Qed.

Lemma boot_owns : owns event_lists kernel0 ∅.
Proof.
  split; cbn [tcbs kernel0 kernel_bss]; try by intros; rewrite lookup_empty in *.
  - apply (heap_4_bss uc0 st0).
  - intros l Hl. right. left. change (uc0 + configTOTAL_HEAP_SIZE <= l). unfold uc0, configTOTAL_HEAP_SIZE.
    destruct Hl as [Hl|Hl]; [destruct (static_range l Hl); lia|]. unfold event_lists in Hl. apply elem_of_singleton in Hl as ->.
    unfold waiters. lia.
Qed.

(** ** Two tasks and the start *)

Definition raw0 : raw_tcb :=
  mkRaw (mkTCB 0 0 0 (repeat 0 16) 0 0 0 0 false) (mkMini 0 0 0) (mkTail 0 0) (mkMini 0 0 0) (mkTail 0 0).
Definition name_of (cs : list Z) : list Z := cs ++ repeat 0 (16 - length cs).

(** The queue of the timer task exists; nothing is created for it here. *)
Definition boot_queue : M (kernel heap_state) bool :=
  gets (fun k => (Z.of_nat (size (minis (kls k))) + 2 <? 4294967296) && few_tasks k).
Lemma boot_makes_queue : makes_timer_queue event_lists event_lists boot_queue.
Proof.
  intros k V L HP HO. apply wp_gets. exists V, L. split; [done|]. split; [done|]. split; [|done].
  unfold room, few_tasks. intros [H1 H2]%andb_true_iff. apply Z.ltb_lt in H1, H2. lia.
Qed.

(** The network task below, the console task above it. *)
Definition create_net : M (kernel heap_state) (Z * Z) := xTaskCreate raw0 (Some [110; 101; 116; 0]) 128 3.
Definition create_console : M (kernel heap_state) (Z * Z) := xTaskCreate raw0 (Some [99; 111; 110; 0]) 128 4.
Definition result_of {S} (m : M S (Z * Z)) (s : S) : Z * Z := match m s with Done (r, _) => r | Stop _ => (0, 0) end.
Definition kernel1 : kernel heap_state := Eval vm_compute in exec create_net kernel0.
Definition net : Z := Eval vm_compute in (result_of create_net kernel0).2.
Definition kernel2 : kernel heap_state := Eval vm_compute in exec create_console kernel1.
Definition console : Z := Eval vm_compute in (result_of create_console kernel1).2.
Definition kernel3 : kernel heap_state := Eval vm_compute in exec (vTaskStartScheduler boot_queue raw0 raw0) kernel2.
Definition timer : Z := Eval vm_compute in pxCurrentTCB kernel3.
Definition idle : Z := Eval vm_compute in xIdleTaskHandle kernel3.

Lemma create_net_run : xTaskCreate raw0 (Some ([110; 101; 116] ++ [0])) 128 3 kernel0 = Done ((pdPASS, net), kernel1).
Proof. vm_compute. reflexivity. Qed.
Lemma create_console_run : xTaskCreate raw0 (Some ([99; 111; 110] ++ [0])) 128 4 kernel1 = Done ((pdPASS, console), kernel2).
Proof. vm_compute. reflexivity. Qed.
Lemma start_run : vTaskStartScheduler boot_queue raw0 raw0 kernel2 = Done (tt, kernel3).
Proof. vm_compute. reflexivity. Qed.

Definition roomy (k : kernel heap_state) : bool := (Z.of_nat (size (minis (kls k))) + 2 <? 4294967296) && few_tasks k.
Lemma roomy_ok k : roomy k = true -> room k.
Proof. unfold roomy, room, few_tasks. intros [H1 H2]%andb_true_iff. apply Z.ltb_lt in H1, H2. lia. Qed.
Lemma raw0_args cs depth p : (length cs < 16)%nat -> Forall (fun c => c <> 0) cs -> 0 < depth < 65536 -> 0 <= p < configMAX_PRIORITIES ->
  create_args raw0 (Some (cs ++ [0])) (name_of cs) depth p.
Proof.
  intros Hl Hc Hd Hp. split; [by_decision| |done|done]. unfold new_name. assert (Hcopy : forall n cs d, (length cs < n)%nat -> length d = n ->
    Forall (fun c => c <> 0) cs -> copy_name n (cs ++ [0]) d = Some (cs ++ 0 :: drop (S (length cs)) d)).
  { clear. induction n as [|n IH]; intros cs d Hl Hd Hc; [lia|]. destruct d as [|x d]; [done|]. destruct cs as [|c cs].
    - cbn. by rewrite drop_0.
    - cbn [copy_name app]. apply Forall_cons in Hc as [H1 Hc]. rewrite (proj2 (Z.eqb_neq c 0) H1). cbn in Hl, Hd.
      rewrite IH; [done|lia|lia|done]. }
  rewrite Hcopy by (done || (cbn; lia)). cbn [mbind option_bind]. f_equal.
  change (pcTaskName (raw_fields raw0)) with (repeat 0 16). unfold name_of.
  do 16 (destruct cs as [|? cs]; [reflexivity|]). cbn in Hl. lia.
Qed.
Lemma roomy0 : roomy kernel0 = true.
Proof. vm_compute. reflexivity. Qed.
Lemma roomy1 : roomy kernel1 = true.
Proof. vm_compute. reflexivity. Qed.
Lemma roomy2 : roomy kernel2 = true.
Proof. vm_compute. reflexivity. Qed.

(** A creation that succeeds before the start. *)
Lemma created k V L cs depth p t k' : before_start event_lists k V -> owns event_lists k L -> roomy k = true ->
  create_args raw0 (Some (cs ++ [0])) (name_of cs) depth p -> xTaskCreate raw0 (Some (cs ++ [0])) depth p k = Done ((pdPASS, t), k') ->
  exists V' L', prestart event_lists k' V' /\ owns event_lists k' L'.
Proof.
  intros HB HO Hr HA Hrun. pose proof (xTaskCreate_before event_lists raw0 _ _ depth p k V L HB HO HA (roomy_ok k Hr)) as Hw.
  unfold wp in Hw. rewrite Hrun in Hw. destruct Hw as [(E1 & _)|(t' & V' & L' & _ & HP' & HN)]; [discriminate|].
  exists V', L'. split; [done|apply HN].
Qed.

Lemma kernel0_before : before_start event_lists kernel0 view0.
Proof. left. exists boot_store, heap_bss. exact (conj eq_refl boot_loaded). Qed.
Lemma kernel1_prestart : exists V L, prestart event_lists kernel1 V /\ owns event_lists kernel1 L.
Proof.
  refine (created kernel0 view0 ∅ [110; 101; 116] 128 3 net kernel1 kernel0_before boot_owns roomy0 _ create_net_run).
  apply raw0_args; [cbn; lia|repeat constructor; lia|lia|by_decision].
Qed.
Lemma kernel2_prestart : exists V L, prestart event_lists kernel2 V /\ owns event_lists kernel2 L.
Proof.
  destruct kernel1_prestart as (V & L & HP & HO).
  refine (created kernel1 V L [99; 111; 110] 128 4 console kernel2 (or_intror HP) HO roomy1 _ create_console_run).
  apply raw0_args; [cbn; lia|repeat constructor; lia|lia|by_decision].
Qed.
Lemma idle_args : create_args raw0 (Some [73; 68; 76; 69; 0]) (name_of [73; 68; 76; 69]) configMINIMAL_STACK_SIZE tskIDLE_PRIORITY.
Proof. apply (raw0_args [73; 68; 76; 69]); [cbn; lia|repeat constructor; lia|by_decision|by_decision]. Qed.
Lemma timer_args : create_args raw0 (Some [84; 109; 114; 32; 83; 118; 99; 0]) (name_of [84; 109; 114; 32; 83; 118; 99])
  configMINIMAL_STACK_SIZE configTIMER_TASK_PRIORITY.
Proof. apply (raw0_args [84; 109; 114; 32; 83; 118; 99]); [cbn; lia|repeat constructor; lia|by_decision|by_decision]. Qed.

Lemma start_good k V L k' : prestart event_lists k V -> owns event_lists k L -> roomy k = true ->
  vTaskStartScheduler boot_queue raw0 raw0 k = Done (tt, k') -> exists V' L', good event_lists ∅ ∅ k' V' /\ owns event_lists k' L'.
Proof.
  intros HP HO Hr Hrun.
  pose proof (vTaskStartScheduler_ok event_lists event_lists boot_queue raw0 raw0 _ _ k V L boot_makes_queue (or_intror HP) HO
    (roomy_ok k Hr) idle_args timer_args) as Hw.
  unfold wpa in Hw. rewrite Hrun in Hw. destruct Hw as (V' & L' & _ & _ & G & HO' & _). by exists V', L'.
Qed.
Lemma kernel3_good : exists V L, good event_lists ∅ ∅ kernel3 V /\ owns event_lists kernel3 L.
Proof.
  destruct kernel2_prestart as (V & L & HP & HO). exact (start_good kernel2 V L kernel3 HP HO roomy2 start_run).
Qed.
Lemma kernel3_sound : sound event_lists kernel3.
Proof. destruct kernel3_good as (V & L & G & HO). by exists ∅, ∅, V, L. Qed.
