(* ===== verification/TasksProps.v ===== *)
(** What the scheduler promises: the theorems about tasks.c as a whole. *)
From S2P Require Import Prelude FList Heap4 Klist KlistNew Tasks TasksInv TasksStep TasksRun TasksApi TasksCalls TasksPrio TasksSusp TasksNew TasksLife TasksDelete TasksStart TasksHeap TasksFrame TasksSystem TasksBoot.

(** [n] tick interrupts. *)
Fixpoint ticks {A} `{Statics} (n : nat) : M (kernel A) unit :=
  match n with O => mret tt | S n => SysTick_Handler;; ticks n end.

Section Delay.
Context {A : Type} `{HS : StaticsOk} (E : gset Z).
Abbreviation K := (kernel A).
Implicit Types (k : K) (V : view) (D X : gset Z).

Lemma tick_suspended k : uxSchedulerSuspended k <> 0 ->
  SysTick_Handler k = Done (tt, set_xPendedTicks (u32 (xPendedTicks k + 1)) k).
Proof. intros N. unfold SysTick_Handler, xTaskIncrementTick. mred. by rewrite (proj2 (Z.eqb_neq _ _) N). Qed.

(** Ticks are counted while the scheduler is suspended. *)
Lemma ticks_suspended m : forall k, uxSchedulerSuspended k <> 0 -> is_u32 (xPendedTicks k) ->
  ticks m k = Done (tt, set_xPendedTicks (u32 (xPendedTicks k + Z.of_nat m)) k).
Proof.
  induction m as [|m IH]; intros k N Hp; cbn [ticks].
  - replace (xPendedTicks k + Z.of_nat 0) with (xPendedTicks k) by lia. rewrite u32_small by done. by destruct k.
  - erewrite bind_done by by apply tick_suspended. rewrite IH; [|done|apply u32_range]. cbn [xPendedTicks set_xPendedTicks].
    assert (u32 (u32 (xPendedTicks k + 1) + Z.of_nat m) = u32 (xPendedTicks k + Z.of_nat (S m))) as -> by zlia. done.
Qed.

Lemma ticks_run n : forall D X k V, good E D X k V -> uxSchedulerSuspended k = 0 ->
  wp (ticks n) k (fun _ k' => exists V', good E D X k' V' /\ uxSchedulerSuspended k' = 0 /\ elapsed (Z.of_nat n) k k' V V').
Proof.
  induction n as [|n IH]; intros D X k V G Hs; cbn [ticks].
  - apply wp_ret. exists V. split; [done|]. split; [done|]. eapply elapsed_refl, G.
  - apply wp_bind. eapply wp_mono; [by apply (SysTick_Handler_ok E D X k V)|]. intros [] k1 (V1 & G1 & HT). specialize (HT Hs).
    assert (Hs1 : uxSchedulerSuspended k1 = 0) by (by rewrite (tk_suspended _ _ _ _ HT)).
    pose proof (ticked_elapsed E _ _ _ _ _ _ _ (gd_at _ _ _ _ _ G) HT) as HE.
    eapply wp_mono; [by apply (IH D X k1 V1)|]. intros [] k2 (V2 & G2 & Hs2 & HE2). exists V2. do 2 (split; [done|]).
    replace (Z.of_nat (S n)) with (1 + Z.of_nat n) by lia.
    eapply (elapsed_trans E 1 (Z.of_nat n) k k1); [lia|lia|by eapply in_sched|by eapply in_sched|done|done].
Qed.

(** A task that sleeps until [w] when [n] ticks are counted. *)
Definition slept (w : Z) (t : Z) (k' : K) (V' : view) : Prop :=
  if now k' <? w then wake_time k' V' t = Some w
  else exists b, tcbs k' !! t = Some b /\ cont V' (xStateListItem t) = pxReadyTasksLists (uxPriority b).
Lemma wakes_slept w t n k k' V V' : elapsed n k k' V V' -> is_Some (tcbs k !! t) -> wake_time k V t = Some w -> slept w t k' V'.
Proof.
  intros [E1 E2 E3 E4 E5 E6 E7 E8] [b Hb] Hw. unfold slept. rewrite E5.
  destruct (Z.ltb_spec (now k + n) w); [eapply E7; eauto|]. exists b. rewrite E1. split; [done|]. by eapply E6.
Qed.
Lemma slept_elapsed n w t k k' V V' : sched E k V -> 0 <= n -> elapsed n k k' V V' -> is_Some (tcbs k !! t) ->
  slept w t k V -> slept w t k' V'.
Proof.
  intros HI Hn HE Ht Hw. unfold slept in Hw. destruct (Z.ltb_spec (now k) w) as [Hlt|Hge]; [by eapply wakes_slept|].
  destruct Hw as (c & Hc & Hr), HE as [E1 E2 E3 E4 E5 E6 E7 E8]. unfold slept. rewrite E5.
  destruct (Z.ltb_spec (now k + n) w); [lia|]. exists c. rewrite E1. split; [done|]. rewrite <- Hr.
  apply E8; [eauto|]. eapply (ready_awake E); [done|apply (sc_tcb _ _ _ HI t c Hc)|done].
Qed.
Lemma slept_same w t k k' V : slept w t k V -> tcbs k' = tcbs k -> now k' = now k -> pxDelayedTaskList k' = pxDelayedTaskList k ->
  pxOverflowDelayedTaskList k' = pxOverflowDelayedTaskList k -> xNumOfOverflows k' = xNumOfOverflows k -> slept w t k' V.
Proof. unfold slept, wake_time. by intros Hs -> -> -> -> ->. Qed.

(** The sleep of [vTaskDelay] with [m] ticks before the scheduler runs again. *)
Lemma vTaskDelay_ok D X k V c n m : good E D X k V -> can_wait k V c -> uxSchedulerSuspended k = 0 -> 0 < n < 4294967296 ->
  Z.of_nat m < 4294967296 ->
  wp (vTaskDelay (ticks m) n) k (fun _ k' => exists V', good E D X k' V' /\ uxSchedulerSuspended k' = 0 /\
    is_Some (tcbs k' !! pxCurrentTCB k) /\ now k' = now k + Z.of_nat m /\ slept (now k + n) (pxCurrentTCB k) k' V').
Proof.
  intros G [Hc Hr He Hi] Hs Hn Hm. set (t := pxCurrentTCB k) in *. unfold vTaskDelay. rewrite (proj2 (Z.ltb_lt 0 n)) by lia.
  apply wp_bind, wp_gets, wp_bind, wp_assert; [by rewrite Hs|].
  apply wp_bind. eapply wp_mono; [apply (vTaskSuspendAll_ok E D X k V G); lia|]. intros [] k1 [G1 ->]. rewrite Hs in *.
  apply wp_bind. eapply wp_mono; [apply (prvAddCurrentTaskToDelayedList_ok E D X _ V c n false G1); done|].
  intros [] k2 (V2 & G2 & B). rewrite andb_false_r in B. cbn [pxCurrentTCB set_uxSchedulerSuspended] in B. fold t in B.
  destruct B as [(C1 & C2 & C3 & C4 & C5 & C6 & C7 & C8) _ Hdom _ Hw _ Hev _].
  destruct (gd_resumed _ _ _ _ _ G Hs) as [Hp0 Hpe]. cbn in C3, C4. rewrite Hp0 in C4.
  assert (Ht : is_Some (tcbs k2 !! t)) by (apply Hdom; cbn; eauto).
  apply wp_bind. eapply wp_use; [apply ticks_suspended; [lia|rewrite C4; by_decision]|]. rewrite C4, u32_small by (split; lia).
  set (k3 := set_xPendedTicks _ k2). assert (G3 : good E D X k3 V2).
  { destruct G2 as [[HI HSe HT HP] R]. destruct HSe as [S1 S2 S3 S4 S5 S6 S7 S8 S9 S10 S11].
    split; [split; [by eapply sched_ext|split; try done; split; cbn; lia|done|done]|]. intros E0. cbn in E0. lia. }
  assert (Hs3 : uxSchedulerSuspended k3 = 1) by (cbn; lia).
  unfold resume_and_yield. apply wp_bind. eapply wp_mono; [apply (xTaskResumeAll_ok E D X k3 V2 G3); lia|].
  intros r k4 (V4 & G4 & Hs4 & _ & Et4 & _ & H4). destruct (H4 Hs3) as [[(k5 & V5 & HF & HE) _] _]. clear H4.
  destruct HF as [F1 (_ & _ & _ & _ & F5 & F6 & F7 & F8) _ _ F9 F10]. cbn in F1, F5, F6, F7, F8.
  assert (Hnow : now k5 = now k) by (unfold now; rewrite F5, F8, C5, C8; done).
  assert (Hw5 : wake_time k5 V5 t = Some (now k + n)).
  { destruct (F9 t) as [E9 _]; [done|rewrite Hev, He; by eapply not_eq_sym, pending_nonnull, in_sched|].
    specialize (F10 t Ht). change (now (set_uxSchedulerSuspended (0 + 1) k)) with (now k) in Hw.
    rewrite <- Hw. unfold wake_time. by rewrite E9, F10, F6, F7, F8. }
  assert (Ht5 : is_Some (tcbs k5 !! t)) by (by rewrite F1).
  pose proof (wakes_slept _ _ _ _ _ _ _ HE Ht5 Hw5) as Hsl. pose proof (el_now _ _ _ _ _ HE) as Hn4.
  rewrite Hnow in Hn4. cbn in Hn4. assert (Ht4 : is_Some (tcbs k4 !! t)) by (by rewrite Et4).
  destruct r; [apply wp_ret; exists V4; split; [done|]; split; [lia|by repeat split]|].
  apply wp_modify. exists V4. split; [by apply good_swi|]. split; [cbn; lia|]. split; [done|]. split; [done|].
  by eapply slept_same.
Qed.
End Delay.

Section Properties.
Context {A : Type} `{HS : StaticsOk} `{HH : KernelHeap A} (E : gset Z).
Abbreviation K := (kernel A).
Implicit Types (k : K) (V : view) (D X : gset Z) (L : gmap Z Z).


(** C2: the software interrupt hands the processor to a ready task that no
    ready task has a higher priority than, the next after the last one in its
    list, and saves the stack pointer of the task that ran. *)
Theorem SW_Handler_runs_highest_ready D X k V c sp : good E D X k V -> tcbs k !! pxCurrentTCB k = Some c -> pxStack c < sp ->
  uxSchedulerSuspended k = 0 ->
  exists k' V' b, SW_Handler sp k = Done (tt, k') /\ good E D X k' V' /\ swi_pending k' = false /\ xYieldPending k' = false /\
    tcbs k' = <[pxCurrentTCB k := set_pxTopOfStack sp c]> (tcbs k) /\ tcbs k' !! pxCurrentTCB k' = Some b /\
    (let l := pxReadyTasksLists (uxPriority b) in
     cont V (xStateListItem (pxCurrentTCB k')) = l /\
     xStateListItem (pxCurrentTCB k') = succ_of (List.hd 0 (elems V l)) (cursor V l) (elems V l) /\
     elems V' l = elems V l /\ cursor V' l = xStateListItem (pxCurrentTCB k')) /\
    (forall u d, tcbs k' !! u = Some d -> cont V' (xStateListItem u) = pxReadyTasksLists (uxPriority d) -> uxPriority d <= uxPriority b).
Proof.
  intros G Hc Hsp Hs. pose proof (SW_Handler_ok E D X k V c sp G Hc Hsp) as Hw.
  apply wp_done in Hw as ([] & k' & Hrun & V' & G' & Hswi & Et & _ & Hsel). destruct (Hsel Hs) as (Hy & p & [P1 P2 P3 P4 (b0 & Hb0 & Hp & Hr)] & ->).
  destruct (cur_some E D X k' _ G') as [b Hb]. assert (Hpb : uxPriority b = p).
  { rewrite Et in Hb. destruct (decide (pxCurrentTCB k' = pxCurrentTCB k)) as [Eq|N].
    - rewrite Eq, lookup_insert_eq in Hb. injection Hb as <-. rewrite Eq, Hc in Hb0. by injection Hb0 as <-.
    - rewrite lookup_insert_ne, Hb0 in Hb by congruence. by injection Hb as <-. }
  exists k', (v_next (pxReadyTasksLists p) V), b. do 6 (split; [done|]). rewrite Hpb. split.
  - split; [done|]. split; [done|]. split; [done|]. cbn. by rewrite upd_hit, P4.
  - assert (HL : leads k' (v_next (pxReadyTasksLists p) V)).
    { destruct (gd_preempt _ _ _ _ _ _ _ (gd_at _ _ _ _ _ G')) as [?|[[?|?]|?]]; [done|congruence|congruence|done]. }
    intros u d Hu Hd. rewrite <- Hpb. by apply (HL u d b).
Qed.

(** C3: a tick adds one to the time, the overflow of the 32-bit count included;
    exactly the sleepers whose time has come become ready and leave their event
    list, the others keep the time they wake at, and nobody else moves. *)
Theorem SysTick_Handler_wakes_exactly_due D X k V : good E D X k V -> uxSchedulerSuspended k = 0 ->
  exists k' V', SysTick_Handler k = Done (tt, k') /\ good E D X k' V' /\ now k' = now k + 1 /\ tcbs k' = tcbs k /\
    pxCurrentTCB k' = pxCurrentTCB k /\
    (forall t b w, tcbs k !! t = Some b -> wake_time k V t = Some w ->
       if w <=? now k'
       then cont V' (xStateListItem t) = pxReadyTasksLists (uxPriority b) /\ cont V' (xEventListItem t) = 0
       else wake_time k' V' t = Some w /\ cont V' (xEventListItem t) = cont V (xEventListItem t)) /\
    (forall t, is_Some (tcbs k !! t) -> wake_time k V t = None ->
       cont V' (xStateListItem t) = cont V (xStateListItem t) /\ cont V' (xEventListItem t) = cont V (xEventListItem t)).
Proof.
  intros G Hs. pose proof (SysTick_Handler_ok E D X k V G) as Hw. apply wp_done in Hw as ([] & k' & Hrun & V' & G' & HT).
  destruct (ticked_elapsed E _ _ _ _ _ _ _ (gd_at _ _ _ _ _ G) (HT Hs)) as [E1 E2 E3 E4 E5 E6 E7 E8].
  exists k', V'. do 5 (split; [done|]). split; [|exact E8]. intros t b w Hb Hw. rewrite E5.
  destruct (Z.leb_spec w (now k + 1)); [by eapply E6|eapply E7; eauto].
Qed.

(** C4: [vTaskDelay] suspends the caller for exactly the ticks it asks for: with
    [m] ticks before the scheduler runs again and [j] after that it still
    sleeps if [m + j] is less, and is ready if not; the count may overflow. *)
Theorem vTaskDelay_sleeps_exactly D X k V c n m j : good E D X k V -> can_wait k V c -> uxSchedulerSuspended k = 0 ->
  0 < n < 4294967296 -> Z.of_nat m < 4294967296 ->
  exists k' V', (vTaskDelay (ticks m) n;; ticks j) k = Done (tt, k') /\ good E D X k' V' /\
    now k' = now k + Z.of_nat (m + j) /\
    if Z.of_nat (m + j) <? n then wake_time k' V' (pxCurrentTCB k) = Some (now k + n)
    else exists b, tcbs k' !! pxCurrentTCB k = Some b /\ cont V' (xStateListItem (pxCurrentTCB k)) = pxReadyTasksLists (uxPriority b).
Proof.
  intros G Hw Hs Hn Hm. assert (Hall : wp (vTaskDelay (ticks m) n;; ticks j) k (fun _ k' => exists V', good E D X k' V' /\
    now k' = now k + Z.of_nat (m + j) /\ slept (now k + n) (pxCurrentTCB k) k' V')).
  { apply wp_bind. eapply wp_mono; [by apply (vTaskDelay_ok E D X k V c n m)|]. intros [] k1 (V1 & G1 & Hs1 & Ht1 & Hn1 & Hsl).
    eapply wp_mono; [by apply (ticks_run E j D X k1 V1)|]. intros [] k2 (V2 & G2 & _ & HE). exists V2. split; [done|].
    split; [rewrite (el_now _ _ _ _ _ HE); lia|]. apply (slept_elapsed E (Z.of_nat j) _ _ k1 k2 V1 V2); [by eapply in_sched|lia|done|done|done]. }
  apply wp_done in Hall as ([] & k' & Hrun & V' & G' & Hnow & Hsl). exists k', V'. do 3 (split; [done|]).
  unfold slept in Hsl. rewrite Hnow in Hsl.
  destruct (Z.ltb_spec (Z.of_nat (m + j)) n), (Z.ltb_spec (now k + Z.of_nat (m + j)) (now k + n)); try lia; done.
Qed.

(** C5: a task that blocks on a mutex lends its priority to the holder: the
    holder's priority becomes the higher of the two and it joins the ready list
    of that priority if it was ready, its base priority and every other task
    stay, and the scheduler's invariant holds. *)
Theorem xTaskPriorityInherit_raises_holder D X k V h b c : good E D X k V -> tcbs k !! h = Some b -> tcbs k !! pxCurrentTCB k = Some c ->
  ~ (h ∈ D) -> ~ (h ∈ X) ->
  exists r k' V' b', xTaskPriorityInherit h k = Done (r, k') /\ good E D X k' V' /\ tcbs k' !! h = Some b' /\
    uxPriority b' = Z.max (uxPriority b) (uxPriority c) /\ uxBasePriority b' = uxBasePriority b /\
    uxMutexesHeld b' = uxMutexesHeld b /\ r = (uxPriority b <? uxPriority c) || (uxBasePriority b <? uxPriority c) /\
    cont V' (xStateListItem h) =
      (if cont V (xStateListItem h) =? pxReadyTasksLists (uxPriority b) then pxReadyTasksLists (uxPriority b')
       else cont V (xStateListItem h)) /\
    cont V' (xEventListItem h) = cont V (xEventListItem h) /\ task_move h k k' V V'.
Proof.
  intros G Hb Hc HD HX. pose proof (xTaskPriorityInherit_ok E D X k V h b c G Hb Hc HD HX) as Hw.
  apply wp_done in Hw as (r & k' & Hrun & V' & b' & G' & [S1 S2 S3 S4 S5 S6 S7] & Eb & Er).
  exists r, k', V', b'. do 3 (split; [done|]). rewrite S4, S5. unfold along. subst b' r.
  destruct (Z.ltb_spec (uxPriority b) (uxPriority c)); cbn [uxPriority uxBasePriority uxMutexesHeld set_uxPriority];
    (split; [lia|]; by do 5 (split; [done|])).
Qed.


(** When the scheduler is resumed for good the tasks readied meanwhile join
    their ready lists, the ticks held back pass, each with its effects, and a
    switch that became due is pending; a nested resumption only counts. *)
Theorem xTaskResumeAll_catches_up D X k V : good E D X k V -> uxSchedulerSuspended k <> 0 ->
  exists r k' V', xTaskResumeAll k = Done (r, k') /\ good E D X k' V' /\ uxSchedulerSuspended k' = uxSchedulerSuspended k - 1 /\
    tcbs k' = tcbs k /\ (if uxSchedulerSuspended k =? 1
       then now k' = now k + xPendedTicks k /\ xPendedTicks k' = 0 /\ (r = true -> swi_pending k' = true) /\
         (forall t b, tcbs k !! t = Some b -> cont V (xEventListItem t) = xPendingReadyList ->
            cont V' (xStateListItem t) = pxReadyTasksLists (uxPriority b) /\ cont V' (xEventListItem t) = 0) /\
         (forall t w, is_Some (tcbs k !! t) -> cont V (xEventListItem t) <> xPendingReadyList -> wake_time k V t = Some w ->
            slept w t k' V')
       else now k' = now k /\ V' = V).
Proof.
  intros G Hs. pose proof (xTaskResumeAll_ok E D X k V G Hs) as Hw.
  apply wp_done in Hw as (r & k' & Hrun & V' & G' & Hs' & _ & Et & H1 & H2). exists r, k', V'. do 4 (split; [done|]).
  destruct (Z.eqb_spec (uxSchedulerSuspended k) 1) as [E1|N1]; [|by destruct (H1 N1) as [-> ->]].
  destruct (H2 E1) as [[(k1 & V1 & [F1 (_ & _ & _ & _ & F5 & F6 & F7 & F8) _ F2 F9 F10] & HE) Hp] Hr].
  cbn in F1, F5, F6, F7, F8, F2, F9, F10.
  assert (Hnow : now k1 = now k) by (unfold now; rewrite F5, F8; done).
  split; [by rewrite (el_now _ _ _ _ _ HE), Hnow|]. do 2 (split; [done|]). split.
  - intros t b Hb Hpd. destruct (F2 t b Hb Hpd) as [Er Ee]. rewrite <- Er, <- Ee. pose proof (in_sched _ _ _ _ _ G) as HI.
    apply (el_awake _ _ _ _ _ HE); [rewrite F1; eauto|]. unfold wake_time. rewrite Er, F6, F7.
    destruct (ready_place E k V (uxPriority b) HI) as (_ & N2 & N3 & _); [by apply (sc_tcb _ _ _ HI t b)|].
    destruct (sc_delays _ _ _ HI) as [[-> ->]|[-> ->]]; by rewrite (proj2 (Z.eqb_neq _ _) N2), (proj2 (Z.eqb_neq _ _) N3).
  - intros t w Ht Hn Hw. eapply (wakes_slept w t); [exact HE|by rewrite F1|]. destruct (F9 t Ht Hn) as [E9 _].
    rewrite <- Hw. unfold wake_time. by rewrite E9, F10, F6, F7, F8.
Qed.

(** Create a task and delete it again. *)
Definition create_delete (raw : raw_tcb) (name : option (list Z)) (depth p : Z) : M K Z :=
  r ← xTaskCreate raw name depth p; (if r.1 =? pdPASS then vTaskDelete r.2 else mret tt);; mret r.1.

Lemma delete_live_with t stack n L : L !! stack = None -> <[stack := n]> L !! t = None -> delete t (delete stack (live_with t stack n L)) = L.
Proof.
  intros Hs Ht. unfold live_with. assert (N : t <> stack) by (intros ->; by rewrite lookup_insert_eq in Ht).
  rewrite (delete_insert_ne _ stack t) by done. rewrite (delete_insert_id L stack) by done.
  apply delete_insert_id. by rewrite lookup_insert_ne in Ht.
Qed.

(** C7: deleting a task that was just created gives its stack and its control
    block back to the heap, so that the live blocks and the tasks are those from
    before, and so does a creation that finds no memory for both. *)
Theorem create_delete_leaks_nothing raw pcName name depth p D X k V L : good E D X k V -> owns E k L ->
  create_args raw pcName name depth p -> room k -> Z.of_nat (size (tcbs k)) + 2 < 4294967296 -> uxSchedulerSuspended k + 1 < 4294967296 ->
  exists r k' V', create_delete raw pcName depth p k = Done (r, k') /\ (r = pdPASS \/ r = errCOULD_NOT_ALLOCATE_REQUIRED_MEMORY) /\
    good E D X k' V' /\ tcbs k' = tcbs k /\ pxCurrentTCB k' = pxCurrentTCB k /\ heap_is (kheap k') L.
Proof.
  intros G HO HA Hr Hsz Hsus. assert (Hw : wp (create_delete raw pcName depth p) k (fun r k' => exists V',
    (r = pdPASS \/ r = errCOULD_NOT_ALLOCATE_REQUIRED_MEMORY) /\
    good E D X k' V' /\ tcbs k' = tcbs k /\ pxCurrentTCB k' = pxCurrentTCB k /\ heap_is (kheap k') L)).
  { apply wp_bind. eapply wp_mono; [by apply (xTaskCreate_running E raw pcName name depth p D X k V L)|].
    intros r k1 [(C1 & C2 & C3 & _) [(-> & G1 & HO1 & Et)|(t & V1 & L1 & -> & G1 & [B1 (stack & Hs & Ht & -> & B2) B3 B4] & Hrd)]]; cbn [fst snd].
    { apply wp_bind, wp_ret, wp_ret. exists V. split; [by right|]. do 3 (split; [done|]). apply HO1. }
    set (b := new_tcb name stack depth p) in *. apply wp_bind. assert (Hb : tcbs k1 !! t = Some b) by (rewrite B2; apply lookup_insert_eq).
    assert (Ht0 : t <> 0) by (intros ->; by rewrite (sc_null _ _ _ (in_sched _ _ _ _ _ G1)) in Hb).
    destruct (cur_some E D X k V G) as [c Hc]. destruct (idle_ready E D X k V G _ eq_refl) as (bi & Hbi & _).
    destruct (ready_alive E D X k1 V1 t b G1 Hb Hrd) as [HD HX].
    assert (Nc : t <> pxCurrentTCB k1) by (rewrite C1; congruence).
    assert (Hsz1 : Z.of_nat (size (tcbs k1)) + 1 < 4294967296) by (rewrite B2, map_size_insert, B1; lia).
    pose proof (vTaskDelete_ok E D X k1 V1 (live_with t stack (depth * 4) L) t b G1 B4) as Hd. cbv zeta in Hd.
    rewrite (proj2 (Z.eqb_neq _ _) Ht0), (proj2 (Z.eqb_neq _ _) Nc) in Hd.
    eapply wp_mono; [apply Hd; try done; [rewrite B3; congruence|by rewrite C3]|].
    intros [] k2 (V2 & Ec & G2 & HO2 & Et2). apply wp_ret. exists V2. split; [by left|]. split; [done|].
    split; [by rewrite Et2, B2, delete_insert_id|]. split; [congruence|].
    change (pxStack b) with stack in HO2. pose proof (ow_heap _ _ _ HO2) as Hh. by rewrite (delete_live_with t stack _ L Hs Ht) in Hh. }
  apply wp_done in Hw as (r & k' & Hrun & V' & Hall). by exists r, k', V'.
Qed.

(** C9: the idle task's loop ends, after it no deleted task waits for its
    memory, and exactly the tasks that waited are gone. *)
Theorem idle_cleanup_frees_deleted D X k V L : good E D X k V -> owns E k L -> pxCurrentTCB k = xIdleTaskHandle k ->
  Z.of_nat (size (tcbs k)) + 1 < 4294967296 -> uxSchedulerSuspended k + 1 < 4294967296 ->
  exists k' V' L', prvCheckTasksWaitingTermination (size X) k = Done (tt, k') /\ good E D ∅ k' V' /\ owns E k' L' /\
    uxDeletedTasksWaitingCleanUp k' = 0 /\ forall u c, tcbs k' !! u = Some c <-> tcbs k !! u = Some c /\ ~ (u ∈ X).
Proof.
  intros G HO Hi Hsz Hsus. pose proof (cleanup_ok E (size X) D X k V L G HO Hi Hsz Hsus (Nat.le_refl _)) as Hw.
  apply wp_done in Hw as ([] & k' & Hrun & V' & L' & Hall). by exists k', V', L'.
Qed.

End Properties.

(** ** The theorems on the concrete boot *)

Definition stack_pointer : Z := 536890000.
Definition led : Z := 536871472.
(** Sleeping, blocking on a mutex with inheritance, creating, suspending and
    deleting tasks, with interrupts in between. *)
Definition busy_day : list call :=
  [SuspendAll; Sleep 3; Tick; ResumeAll; Switch stack_pointer; HoldMutex; Tick; Tick; Switch stack_pointer; Inherit console;
   Place waiters 10; Yield; Switch stack_pointer; RemoveFrom waiters; Disinherit; Switch stack_pointer;
   DeleteSection net; DeleteTCB net; DeleteYield net; Create raw0 (Some [108; 101; 100; 0]) 64 2; PrioritySet led 2;
   Switch stack_pointer; Suspend 0; ResetUnblock; SuspendFinish timer; Switch stack_pointer; DeleteSection 0; DeleteYield console;
   Switch stack_pointer; Sleep 4294967295; Yield; Switch stack_pointer; CleanUp; DeleteTCB console; Tick; Resume timer;
   Switch stack_pointer; NotifyTake 5; Switch stack_pointer; NotifyGiveFromISR timer; Switch stack_pointer; NotifyTaken true].
Lemma busy_day_ok : calls_ok event_lists busy_day kernel3 = true.
Proof. vm_compute. reflexivity. Qed.


Definition tcb_of (k : kernel heap_state) (t : Z) : TCB := default (raw_fields raw0) (tcbs k !! t).
Lemma current3 : tcbs kernel3 !! pxCurrentTCB kernel3 = Some (tcb_of kernel3 timer).
Proof. vm_compute. reflexivity. Qed.

Lemma SW_Handler_runs_highest_ready_witness : exists k' V' b, SW_Handler stack_pointer kernel3 = Done (tt, k') /\
  good event_lists ∅ ∅ k' V' /\ tcbs k' !! pxCurrentTCB k' = Some b.
Proof.
  destruct kernel3_good as (V & L & G & _).
  destruct (SW_Handler_runs_highest_ready event_lists ∅ ∅ kernel3 V (tcb_of kernel3 timer) stack_pointer G current3 ltac:(by_decision) eq_refl)
    as (k' & V' & b & E1 & E2 & _ & _ & _ & E3 & _).
  exact (ex_intro _ k' (ex_intro _ V' (ex_intro _ b (conj E1 (conj E2 E3))))).
Defined.

Lemma SysTick_Handler_wakes_exactly_due_witness : exists k' V', SysTick_Handler kernel3 = Done (tt, k') /\
  good event_lists ∅ ∅ k' V' /\ now k' = 1.
Proof.
  destruct kernel3_good as (V & L & G & _).
  destruct (SysTick_Handler_wakes_exactly_due event_lists ∅ ∅ kernel3 V G eq_refl) as (k' & V' & E1 & E2 & E3 & _).
  exact (ex_intro _ k' (ex_intro _ V' (conj E1 (conj E2 E3)))).
Defined.

Lemma vTaskDelay_sleeps_exactly_witness : exists k' V', (vTaskDelay (ticks 2) 5;; ticks 3) kernel3 = Done (tt, k') /\
  good event_lists ∅ ∅ k' V' /\ now k' = 5.
Proof.
  destruct kernel3_good as (V & L & G & _). destruct (may_block_ok event_lists ∅ ∅ kernel3 V G eq_refl) as (c & Hc).
  destruct (vTaskDelay_sleeps_exactly event_lists ∅ ∅ kernel3 V c 5 2 3 G Hc eq_refl ltac:(lia) ltac:(lia)) as (k' & V' & E1 & E2 & E3 & _).
  exact (ex_intro _ k' (ex_intro _ V' (conj E1 (conj E2 E3)))).
Defined.

Lemma alive3 t : is_alive kernel3 t = true -> exists b, tcbs kernel3 !! t = Some b /\ ~ (t ∈ (∅ : gset Z)) /\ ~ (t ∈ (∅ : gset Z)).
Proof. destruct kernel3_good as (V & L & G & _). apply (is_alive_ok event_lists ∅ ∅ kernel3 V G). Qed.

Lemma xTaskPriorityInherit_raises_holder_witness : exists r k' V' b', xTaskPriorityInherit net kernel3 = Done (r, k') /\
  good event_lists ∅ ∅ k' V' /\ tcbs k' !! net = Some b' /\ uxPriority b' = 5.
Proof.
  destruct kernel3_good as (V & L & G & _).
  destruct (xTaskPriorityInherit_raises_holder event_lists ∅ ∅ kernel3 V net (tcb_of kernel3 net) (tcb_of kernel3 timer) G eq_refl current3
    (not_elem_of_empty _) (not_elem_of_empty _)) as (r & k' & V' & b' & E1 & E2 & E3 & E4 & _).
  exact (ex_intro _ r (ex_intro _ k' (ex_intro _ V' (ex_intro _ b' (conj E1 (conj E2 (conj E3 E4))))))).
Defined.

(** The timer task holds a mutex. *)
Definition kernel4 : kernel heap_state := Eval vm_compute in exec pvTaskIncrementMutexHeldCount kernel3.
Lemma kernel4_run : run_call HoldMutex kernel3 = Done (tt, kernel4).
Proof. vm_compute. reflexivity. Qed.
Lemma kernel4_good : exists D X V L, good event_lists D X kernel4 V /\ owns event_lists kernel4 L.
Proof.
  exact (wp_run _ _ _ _ _ (call_sound event_lists HoldMutex kernel3 kernel3_sound eq_refl) kernel4_run).
Qed.

(** The scheduler is suspended and three ticks are held back. *)
Definition kernel5 : kernel heap_state := Eval vm_compute in exec (vTaskSuspendAll;; ticks 3) kernel3.
Lemma kernel5_run : run_calls [SuspendAll; Tick; Tick; Tick] kernel3 = Done (tt, kernel5).
Proof. vm_compute. reflexivity. Qed.
Lemma kernel5_good : exists D X V L, good event_lists D X kernel5 V /\ owns event_lists kernel5 L.
Proof.
  exact (wp_run _ _ _ _ _ (calls_sound event_lists [SuspendAll; Tick; Tick; Tick] kernel3 kernel3_sound eq_refl) kernel5_run).
Qed.
Lemma xTaskResumeAll_catches_up_witness : exists D X r k' V', xTaskResumeAll kernel5 = Done (r, k') /\ good event_lists D X k' V' /\ now k' = 3.
Proof.
  destruct kernel5_good as (D & X & V & L & G & _).
  destruct (xTaskResumeAll_catches_up event_lists D X kernel5 V G ltac:(by_decision)) as (r & k' & V' & E1 & E2 & _ & _ & E3).
  exact (ex_intro _ D (ex_intro _ X (ex_intro _ r (ex_intro _ k' (ex_intro _ V' (conj E1 (conj E2 (proj1 E3)))))))).
Defined.

Lemma led_args : create_args raw0 (Some ([108; 101; 100] ++ [0])) (name_of [108; 101; 100]) 64 2.
Proof. apply raw0_args; [cbn; lia|repeat constructor; lia|lia|by_decision]. Qed.
Lemma roomy3 : roomy kernel3 = true.
Proof. vm_compute. reflexivity. Qed.
Lemma create_delete_leaks_nothing_witness : exists r k' V' L, create_delete raw0 (Some ([108; 101; 100] ++ [0])) 64 2 kernel3 = Done (r, k') /\
  good event_lists ∅ ∅ k' V' /\ tcbs k' = tcbs kernel3 /\ heap_is (kheap kernel3) L /\ heap_is (kheap k') L.
Proof.
  destruct kernel3_good as (V & L & G & HO).
  destruct (create_delete_leaks_nothing event_lists raw0 _ _ 64 2 ∅ ∅ kernel3 V L G HO led_args (roomy_ok kernel3 roomy3)
    ltac:(by_decision) ltac:(by_decision)) as (r & k' & V' & E1 & _ & E2 & E3 & _ & E4).
  exact (ex_intro _ r (ex_intro _ k' (ex_intro _ V' (ex_intro _ L (conj E1 (conj E2 (conj E3 (conj (ow_heap _ _ _ HO) E4)))))))).
Defined.

(** Everybody but the idle task sleeps or is deleted. *)
Definition to_idle : list call :=
  [DeleteSection 0; DeleteYield timer; Switch stack_pointer; DeleteSection 0; DeleteYield console; Switch stack_pointer; Sleep 100;
   Yield; Switch stack_pointer].
Definition kernel6 : kernel heap_state := Eval vm_compute in exec (run_calls to_idle) kernel3.
Lemma kernel6_run : run_calls to_idle kernel3 = Done (tt, kernel6).
Proof. vm_compute. reflexivity. Qed.
Lemma to_idle_ok : calls_ok event_lists to_idle kernel3 = true.
Proof. vm_compute. reflexivity. Qed.
Lemma kernel6_good : exists D X V L, good event_lists D X kernel6 V /\ owns event_lists kernel6 L.
Proof.
  exact (wp_run _ _ _ _ _ (calls_sound event_lists to_idle kernel3 kernel3_sound to_idle_ok) kernel6_run).
Qed.
Lemma idle_cleanup_frees_deleted_witness : exists (D X : gset Z) k' V', prvCheckTasksWaitingTermination (size X) kernel6 = Done (tt, k') /\
  good event_lists D ∅ k' V' /\ uxDeletedTasksWaitingCleanUp k' = 0.
Proof.
  destruct kernel6_good as (D & X & V & L & G & HO).
  destruct (idle_cleanup_frees_deleted event_lists D X kernel6 V L G HO eq_refl ltac:(by_decision) ltac:(by_decision))
    as (k' & V' & L' & E1 & E2 & _ & E3 & _).
  exact (ex_intro _ D (ex_intro _ X (ex_intro _ k' (ex_intro _ V' (conj E1 (conj E2 E3)))))).
Defined.

