(* ===== verification/EventGroups.v ===== *)
(** FreeRTOS/event_groups.c: groups of event bits that tasks wait for, one or
    all of them, and that are cleared when a waiting task asks for it.  What a
    task waits for is kept in the value of its event item. *)
From S2P Require Import Prelude FList Klist KlistNew Tasks TasksInv TasksStep TasksRun TasksApi TasksCalls TasksPrio TasksNew TasksNotify TasksFrame.

Definition eventCLEAR_EVENTS_ON_EXIT_BIT : Z := 0x01000000.
Definition eventUNBLOCKED_DUE_TO_BIT_SET : Z := 0x02000000.
Definition eventWAIT_FOR_ALL_BITS : Z := 0x04000000.
Definition eventEVENT_BITS_CONTROL_BYTES : Z := 0xff000000.
Definition SIZEOF_EVENT_GROUP : Z := 24.

(** A group at [g]: its bits, then its list. *)
Definition xTasksWaitingForBits (g : Z) : Z := g + 4.

Record groups (A : Type) := mkGroups { gkernel : kernel A; uxEventBits : gmap Z Z }.
Arguments mkGroups {A}.
Arguments gkernel {A} _.
Arguments uxEventBits {A} _.

Definition prvTestWaitCondition (uxCurrentEventBits uxBitsToWaitFor : Z) (xWaitForAllBits : bool) : bool :=
  if xWaitForAllBits then Z.land uxCurrentEventBits uxBitsToWaitFor =? uxBitsToWaitFor
  else negb (Z.land uxCurrentEventBits uxBitsToWaitFor =? 0).
Definition control_bits (xClearOnExit xWaitForAllBits : bool) : Z :=
  Z.lor (if xClearOnExit then eventCLEAR_EVENTS_ON_EXIT_BIT else 0) (if xWaitForAllBits then eventWAIT_FOR_ALL_BITS else 0).

(** Does an item with value [v] match the bits; which bits it clears then. *)
Definition match_found (v bits : Z) : bool :=
  let uxControlBits := Z.land v eventEVENT_BITS_CONTROL_BYTES in
  let uxBitsWaitedFor := clear_bits v eventEVENT_BITS_CONTROL_BYTES in
  if Z.land uxControlBits eventWAIT_FOR_ALL_BITS =? 0
  then negb (Z.land uxBitsWaitedFor bits =? 0)
  else Z.land uxBitsWaitedFor bits =? uxBitsWaitedFor.
Definition add_cleared (v uxBitsToClear : Z) : Z :=
  if negb (Z.land (Z.land v eventEVENT_BITS_CONTROL_BYTES) eventCLEAR_EVENTS_ON_EXIT_BIT =? 0)
  then Z.lor uxBitsToClear (clear_bits v eventEVENT_BITS_CONTROL_BYTES) else uxBitsToClear.

Definition listGET_HEAD_ENTRY (pxList : Z) : M lstate Z := e ← rd_mini (xListEnd pxList); mret (pxNext e).
Definition listGET_NEXT (pxListItem : Z) : M lstate Z := m ← rd_mini pxListItem; mret (pxNext m).

Section Groups.
Context {A : Type} `{Statics} `{HeapApi A}.
Abbreviation G := (groups A).

Definition set_gkernel (k : kernel A) (s : G) : G := mkGroups k (uxEventBits s).
Definition set_uxEventBits (m : gmap Z Z) (s : G) : G := mkGroups (gkernel s) m.
Definition onk {X} (m : M (kernel A) X) : M G X := zoom gkernel set_gkernel m.
Definition rd_bits (g : Z) : M G Z := m ← gets uxEventBits; of_option (m !! g).
Definition wr_bits (g v : Z) : M G unit := rd_bits g;; modify (fun s => set_uxEventBits (<[g := v]> (uxEventBits s)) s).

(** The memory of a new group and what it held. *)
Definition place_group (raw : List_t * MiniListItem_t) (g : Z) : M G unit :=
  onk (onl (modify (fun s => mkLstate (<[xListEnd (xTasksWaitingForBits g) := raw.2]> (minis s)) (tails s)
                               (<[xTasksWaitingForBits g := raw.1]> (lists s)))));;
  modify (fun s => set_uxEventBits (<[g := 0]> (uxEventBits s)) s).
Definition drop_group (g : Z) : M G unit :=
  onk (onl (modify (fun s => mkLstate (delete (xListEnd (xTasksWaitingForBits g)) (minis s)) (tails s)
                               (delete (xTasksWaitingForBits g) (lists s)))));;
  modify (fun s => set_uxEventBits (delete g (uxEventBits s)) s).

Definition xEventGroupCreate (raw : List_t * MiniListItem_t) : M G Z :=
  pxEventBits ← onk (kernel_malloc SIZEOF_EVENT_GROUP);
  if pxEventBits =? 0 then mret 0
  else
    place_group raw pxEventBits;;
    wr_bits pxEventBits 0;;
    onk (onl (vListInitialise (xTasksWaitingForBits pxEventBits)));;
    mret pxEventBits.

(** The walk over the waiting tasks; the bits to clear. *)
Fixpoint set_loop (fuel : nat) (pxEventBits pxListEnd pxListItem uxBitsToClear : Z) : M G Z :=
  match fuel with
  | O => stop_ NoFuel
  | S fuel =>
      if pxListItem =? pxListEnd then mret uxBitsToClear
      else
        next ← onk (onl (listGET_NEXT pxListItem));
        v ← onk (onl (listGET_LIST_ITEM_VALUE pxListItem));
        bits ← rd_bits pxEventBits;
        if match_found v bits then
          onk (vTaskRemoveFromUnorderedEventList pxListItem (Z.lor bits eventUNBLOCKED_DUE_TO_BIT_SET));;
          set_loop fuel pxEventBits pxListEnd next (add_cleared v uxBitsToClear)
        else set_loop fuel pxEventBits pxListEnd next uxBitsToClear
  end.

(** What [xEventGroupSetBits] does while the scheduler is suspended. *)
Definition set_section (xEventGroup uxBitsToSet : Z) : M G unit :=
  let pxList := xTasksWaitingForBits xEventGroup in
  item ← onk (onl (listGET_HEAD_ENTRY pxList));
  bits ← rd_bits xEventGroup;
  wr_bits xEventGroup (Z.lor bits uxBitsToSet);;
  fuel ← gets (fun s => S (size (tcbs (gkernel s))));
  clear ← set_loop fuel xEventGroup (xListEnd pxList) item 0;
  bits ← rd_bits xEventGroup;
  wr_bits xEventGroup (clear_bits bits clear).
Definition xEventGroupSetBits (xEventGroup uxBitsToSet : Z) : M G Z :=
  assert_ (negb (xEventGroup =? 0));;
  assert_ (Z.land uxBitsToSet eventEVENT_BITS_CONTROL_BYTES =? 0);;
  onk vTaskSuspendAll;;
  set_section xEventGroup uxBitsToSet;;
  onk xTaskResumeAll;;
  rd_bits xEventGroup.

Definition xEventGroupClearBits (xEventGroup uxBitsToClear : Z) : M G Z :=
  assert_ (negb (xEventGroup =? 0));;
  assert_ (Z.land uxBitsToClear eventEVENT_BITS_CONTROL_BYTES =? 0);;
  bits ← rd_bits xEventGroup;
  wr_bits xEventGroup (clear_bits bits uxBitsToClear);;
  mret bits.
Definition xEventGroupGetBitsFromISR (xEventGroup : Z) : M G Z := rd_bits xEventGroup.

(** ** Waiting *)

Definition may_wait_for (uxBitsToWaitFor xTicksToWait : Z) : M G unit :=
  assert_ (Z.land uxBitsToWaitFor eventEVENT_BITS_CONTROL_BYTES =? 0);;
  assert_ (negb (uxBitsToWaitFor =? 0));;
  st ← onk xTaskGetSchedulerState;
  assert_ (negb ((st =? taskSCHEDULER_SUSPENDED) && negb (xTicksToWait =? 0))).

(** With the scheduler suspended: [None] when the task has gone to sleep. *)
Definition wait_bits_section (xEventGroup uxBitsToWaitFor : Z) (xClearOnExit xWaitForAllBits : bool) (xTicksToWait : Z) : M G (option Z) :=
  uxCurrentEventBits ← rd_bits xEventGroup;
  if prvTestWaitCondition uxCurrentEventBits uxBitsToWaitFor xWaitForAllBits then
    (if xClearOnExit then wr_bits xEventGroup (clear_bits uxCurrentEventBits uxBitsToWaitFor) else mret tt);;
    mret (Some uxCurrentEventBits)
  else if xTicksToWait =? 0 then mret (Some uxCurrentEventBits)
  else
    onk (vTaskPlaceOnUnorderedEventList (xTasksWaitingForBits xEventGroup)
           (Z.lor uxBitsToWaitFor (control_bits xClearOnExit xWaitForAllBits)) xTicksToWait);;
    mret None.
Definition resume_and_switch : M G unit :=
  xAlreadyYielded ← onk xTaskResumeAll;
  if xAlreadyYielded : bool then mret tt else onk portYIELD.
(** The task runs again: it was woken, or its time is over. *)
Definition wait_bits_finish (xEventGroup uxBitsToWaitFor : Z) (xClearOnExit xWaitForAllBits : bool) : M G Z :=
  v ← onk uxTaskResetEventItemValue;
  r ← (if Z.land v eventUNBLOCKED_DUE_TO_BIT_SET =? 0 then
         bits ← rd_bits xEventGroup;
         (if prvTestWaitCondition bits uxBitsToWaitFor xWaitForAllBits
          then if xClearOnExit then wr_bits xEventGroup (clear_bits bits uxBitsToWaitFor) else mret tt
          else mret tt);;
         mret bits
       else mret v);
  mret (clear_bits r eventEVENT_BITS_CONTROL_BYTES).
(** [others] is what happens until the task runs again. *)
Definition xEventGroupWaitBits (others : M G unit) (xEventGroup uxBitsToWaitFor : Z) (xClearOnExit xWaitForAllBits : bool) (xTicksToWait : Z) : M G Z :=
  assert_ (negb (xEventGroup =? 0));;
  may_wait_for uxBitsToWaitFor xTicksToWait;;
  onk vTaskSuspendAll;;
  r ← wait_bits_section xEventGroup uxBitsToWaitFor xClearOnExit xWaitForAllBits xTicksToWait;
  match r with
  | Some bits => onk xTaskResumeAll;; mret bits
  | None => resume_and_switch;; others;; wait_bits_finish xEventGroup uxBitsToWaitFor xClearOnExit xWaitForAllBits
  end.

Definition sync_section (xEventGroup uxBitsToSet uxBitsToWaitFor xTicksToWait : Z) : M G (option Z) :=
  uxOriginalBitValue ← rd_bits xEventGroup;
  xEventGroupSetBits xEventGroup uxBitsToSet;;
  if Z.land (Z.lor uxOriginalBitValue uxBitsToSet) uxBitsToWaitFor =? uxBitsToWaitFor then
    bits ← rd_bits xEventGroup;
    wr_bits xEventGroup (clear_bits bits uxBitsToWaitFor);;
    mret (Some (Z.lor uxOriginalBitValue uxBitsToSet))
  else if negb (xTicksToWait =? 0) then
    onk (vTaskPlaceOnUnorderedEventList (xTasksWaitingForBits xEventGroup)
           (Z.lor (Z.lor uxBitsToWaitFor eventCLEAR_EVENTS_ON_EXIT_BIT) eventWAIT_FOR_ALL_BITS) xTicksToWait);;
    mret None
  else bits ← rd_bits xEventGroup; mret (Some bits).
Definition sync_finish (xEventGroup uxBitsToWaitFor : Z) : M G Z :=
  v ← onk uxTaskResetEventItemValue;
  r ← (if Z.land v eventUNBLOCKED_DUE_TO_BIT_SET =? 0 then
         bits ← rd_bits xEventGroup;
         (if Z.land bits uxBitsToWaitFor =? uxBitsToWaitFor then wr_bits xEventGroup (clear_bits bits uxBitsToWaitFor) else mret tt);;
         mret bits
       else mret v);
  mret (clear_bits r eventEVENT_BITS_CONTROL_BYTES).
Definition xEventGroupSync (others : M G unit) (xEventGroup uxBitsToSet uxBitsToWaitFor xTicksToWait : Z) : M G Z :=
  may_wait_for uxBitsToWaitFor xTicksToWait;;
  onk vTaskSuspendAll;;
  r ← sync_section xEventGroup uxBitsToSet uxBitsToWaitFor xTicksToWait;
  match r with
  | Some bits => onk xTaskResumeAll;; mret bits
  | None => resume_and_switch;; others;; sync_finish xEventGroup uxBitsToWaitFor
  end.

(** ** Deleting a group *)

Fixpoint delete_loop (fuel : nat) (pxTasksWaitingForBits : Z) : M (kernel A) unit :=
  match fuel with
  | O => stop_ NoFuel
  | S fuel =>
      n ← onl (listCURRENT_LIST_LENGTH pxTasksWaitingForBits);
      if 0 <? n then
        item ← onl (listGET_HEAD_ENTRY pxTasksWaitingForBits);
        assert_ (negb (item =? xListEnd pxTasksWaitingForBits));;
        vTaskRemoveFromUnorderedEventList item eventUNBLOCKED_DUE_TO_BIT_SET;;
        delete_loop fuel pxTasksWaitingForBits
      else mret tt
  end.
Definition vEventGroupDelete (xEventGroup : Z) : M G unit :=
  assert_ (negb (xEventGroup =? 0));;
  onk vTaskSuspendAll;;
  fuel ← gets (fun s => S (size (tcbs (gkernel s))));
  onk (delete_loop fuel (xTasksWaitingForBits xEventGroup));;
  drop_group xEventGroup;;
  onk (kernel_free xEventGroup);;
  onk xTaskResumeAll;;
  mret tt.

Definition vEventGroupSetBitsCallback (pvEventGroup ulBitsToSet : Z) : M G unit :=
  xEventGroupSetBits pvEventGroup ulBitsToSet;; mret tt.
Definition vEventGroupClearBitsCallback (pvEventGroup ulBitsToClear : Z) : M G unit :=
  xEventGroupClearBits pvEventGroup ulBitsToClear;; mret tt.
End Groups.
