(* ===== verification/EventGroupsOk.v ===== *)
(** Event groups: setting bits wakes exactly the tasks whose bits are there, and
    tells each of them the bits; waiting and the rendezvous. *)
From S2P Require Import Prelude FList Klist KlistNew Tasks TasksInv TasksStep TasksRun TasksApi TasksCalls TasksPrio TasksNew TasksLife TasksNotify TasksFrame TasksValues EventGroups.

(** ** A store shows one view *)

Lemma chain_unique s e xs : forall y ys, chain s (y :: xs ++ [e]) -> chain s (y :: ys ++ [e]) -> ~ (e ∈ xs) -> ~ (e ∈ ys) -> xs = ys.
Proof.
  induction xs as [|x xs IH]; intros y ys Hx Hy Nx Ny.
  - destruct ys as [|z ys]; [done|]. destruct Hx as [[Hx _] _], Hy as [[Hy _] _]. set_solver.
  - destruct ys as [|z ys]; cbn [app] in *.
    + destruct Hx as [[Hx _] _], Hy as [[Hy _] _]. set_solver.
    + destruct Hx as [[Hx _] Cx], Hy as [[Hy _] Cy]. assert (x = z) as <- by congruence. f_equal. eapply IH; [exact Cx|exact Cy| |]; set_solver.
Qed.

Record same_shown (V V' : view) : Prop := {
  ss_elems l : l ∈ vlists V -> elems V' l = elems V l;
  ss_value i : i ∈ vitems V -> value V' i = value V i;
  ss_cont i : i ∈ vitems V -> cont V' i = cont V i
}.

Lemma shows_unique s V V' : shows s V -> shows s V' -> vlists V' = vlists V -> vitems V' = vitems V -> same_shown V V'.
Proof.
  intros H1 H2 El Ei. split.
  - intros l Hl. pose proof (sh_rep _ _ H1 l Hl) as R1. pose proof (sh_rep _ _ H2 l ltac:(by rewrite El)) as R2.
    pose proof (rep_nodup _ _ _ _ R1) as N1. pose proof (rep_nodup _ _ _ _ R2) as N2. apply NoDup_cons in N1 as [N1 _], N2 as [N2 _].
    eapply chain_unique; [apply R2|apply R1|done|done].
  - intros i Hi. destruct (sh_mini _ _ H1 i Hi) as (m & Hm & <-). destruct (sh_mini _ _ H2 i) as (m' & Hm' & <-); [by rewrite Ei|congruence].
  - intros i Hi. pose proof (sh_tail _ _ H1 i Hi) as T1. pose proof (sh_tail _ _ H2 i ltac:(by rewrite Ei)) as T2. congruence.
Qed.

Section Views.
Context {A : Type} `{HS : StaticsOk} (E : gset Z).
Abbreviation K := (kernel A).
Implicit Types (k : K) (V : view) (b c : TCB) (D X : gset Z).

Lemma sched_unique k V V' : sched E k V -> sched E k V' -> same_shown V V'.
Proof.
  intros H1 H2. apply (shows_unique (kls k)); [apply H1|apply H2| |].
  - apply set_eq. intros l. by rewrite (sc_lists _ _ _ H1), (sc_lists _ _ _ H2).
  - apply set_eq. intros i. by rewrite (sc_items _ _ _ H1), (sc_items _ _ _ H2).
Qed.

(** ** Where the two calls put the items *)

Definition v_unblocked (t : Z) (b : TCB) (w : Z) (V : view) : view :=
  v_insert_end (pxReadyTasksLists (uxPriority b)) (xStateListItem t)
    (v_remove (xStateListItem t) (v_remove (xEventListItem t) (v_set_value (xEventListItem t) w V))).

Lemma item_apart t : xStateListItem t <> xEventListItem t.
Proof. unfold xStateListItem, xEventListItem. lia. Qed.

Lemma remove_unordered_view k V t b c v : sched E k V -> tcbs k !! t = Some b -> tcbs k !! pxCurrentTCB k = Some c ->
  cont V (xEventListItem t) <> 0 -> cont V (xStateListItem t) <> 0 -> uxSchedulerSuspended k <> 0 -> is_u32 v ->
  wp (vTaskRemoveFromUnorderedEventList (xEventListItem t) v) k
    (fun _ k' => sched E k' (v_unblocked t b (Z.lor v taskEVENT_LIST_ITEM_VALUE_IN_USE) V)).
Proof.
  intros HI Hb Hc He Hs Hsus Hv. pose proof (item_apart t) as Hne.
  apply wp_bind, wp_gets, wp_bind, wp_assert; [by rewrite (proj2 (Z.eqb_neq _ 0) Hsus)|].
  apply wp_bind. eapply set_event_value_ok; [exact HI|exact Hb|by apply in_use_range|]. intros s1 H1.
  apply wp_bind, onl_read. eapply (get_owner_ok _ _ (sc_shows _ _ _ H1)); [by eapply (it_event E _ _ H1)|]. split; [done|].
  rewrite (own_event E _ _ H1 t b Hb). apply wp_bind, wp_assert; [destruct (Z.eqb_spec t 0) as [->|]; [by rewrite (sc_null _ _ _ HI) in Hb|done]|].
  apply wp_bind. eapply remove_ok; [exact H1|by eapply (it_event E _ _ H1)|done|]. intros s2 H2.
  apply wp_bind. eapply remove_ok; [exact H2|by eapply (it_state E _ _ H2)|cbn; by rewrite upd_miss|]. intros s3 H3.
  apply wp_bind. eapply add_ready_ok; [exact H3|exact Hb|cbn; by rewrite upd_hit|]. intros s4 H4.
  apply wp_bind. eapply rd_tcb_ok; [exact Hb|]. apply wp_bind. eapply current_ok; [exact Hc|].
  destruct (_ <? _); [apply wp_modify|apply wp_ret]; [|exact H4]. eapply sched_ext; [exact H4|done..].
Qed.

Lemma unblocked_event t b w V l : l <> pxReadyTasksLists (uxPriority b) -> cont V (xEventListItem t) = l -> cont V (xStateListItem t) <> l ->
  elems (v_unblocked t b w V) l = without (xEventListItem t) (elems V l).
Proof.
  intros N1 He Hs. pose proof (item_apart t) as Hne. cbn. rewrite upd_miss by done. rewrite (upd_miss (cont V)) by done.
  rewrite upd_miss by congruence. by rewrite He, upd_hit.
Qed.
Lemma unblocked_value t b w V i : value (v_unblocked t b w V) i = upd (value V) (xEventListItem t) w i.
Proof. done. Qed.

(** The items of [u] are as they were. *)
Record apart (u : Z) (V V' : view) : Prop := {
  ap_state : cont V' (xStateListItem u) = cont V (xStateListItem u);
  ap_wake : value V' (xStateListItem u) = value V (xStateListItem u);
  ap_event : cont V' (xEventListItem u) = cont V (xEventListItem u);
  ap_value : value V' (xEventListItem u) = value V (xEventListItem u)
}.
Lemma apart_trans u V1 V2 V3 : apart u V1 V2 -> apart u V2 V3 -> apart u V1 V3.
Proof. intros [A1 A2 A3 A4] [B1 B2 B3 B4]. split; congruence. Qed.
Lemma apart_refl u V : apart u V V.
Proof. done. Qed.

(** The task [t] has been woken from its event list with the value [w]. *)
Record unblocked (t : Z) (b : TCB) (w : Z) (k k' : K) (V V' : view) : Prop := {
  ub_tcbs : tcbs k' = tcbs k;
  ub_control : control_same k k';
  ub_flags : switching k -> switching k';
  ub_here : cont V' (xStateListItem t) = pxReadyTasksLists (uxPriority b) /\ cont V' (xEventListItem t) = 0 /\ value V' (xEventListItem t) = w;
  ub_rest u : u <> t -> is_Some (tcbs k !! u) -> apart u V V';
  ub_elems l : l ∈ E -> elems V' l = without (xEventListItem t) (elems V l)
}.

Lemma wp_and {S Y} (m : M S Y) s (Q1 Q2 : Y -> S -> Prop) : wp m s Q1 -> wp m s Q2 -> wp m s (fun y s' => Q1 y s' /\ Q2 y s').
Proof. unfold wp. destruct (m s) as [[y s']|w]; [by split|done]. Qed.

Lemma state_not_event k V t b l : sched E k V -> tcbs k !! t = Some b -> l ∈ E -> cont V (xStateListItem t) <> l /\ l <> pxReadyTasksLists (uxPriority b).
Proof.
  intros HI Hb Hl. pose proof (sc_events _ _ _ HI l Hl) as Hn. pose proof (sc_tcb _ _ _ HI t b Hb) as [Hp _ _]. split.
  - intros Eq. pose proof (event_nonnull E k V l HI Hl). destruct (sc_state _ _ _ HI t b Hb) as [Es|[Es|Es]]; [|congruence|].
    + apply Hn. left. rewrite <- Eq, Es. eauto.
    + apply Hn. right. rewrite <- Eq. destruct Es as [->|[->|[->| ->]]]; set_solver.
  - intros ->. apply Hn. left. eauto.
Qed.

(** The list of a task's event item loses that item, every other list of an
    event stays as it is. *)
Lemma unblocked_elems k V t b w l : sched E k V -> tcbs k !! t = Some b -> l ∈ E ->
  elems (v_unblocked t b w V) l = without (xEventListItem t) (elems V l).
Proof.
  intros HI Hb Hl. destruct (state_not_event k V t b l HI Hb Hl) as [N1 N2]. pose proof (item_apart t) as Hne.
  destruct (decide (cont V (xEventListItem t) = l)) as [Eq|N]; [by apply unblocked_event|].
  cbn. rewrite upd_miss by done. rewrite (upd_miss (cont V)) by done. rewrite !upd_miss by congruence.
  symmetry. apply without_out. intros Hx. pose proof (sh_where _ _ (sc_shows _ _ _ HI) l _ (kl_event E k V HI l Hl) Hx). congruence.
Qed.

Lemma unblock_ok D X k V t b c v : good E D X k V -> cont V (xEventListItem t) <> 0 -> uxSchedulerSuspended k <> 0 -> is_u32 v ->
  tcbs k !! t = Some b -> tcbs k !! pxCurrentTCB k = Some c ->
  wp (vTaskRemoveFromUnorderedEventList (xEventListItem t) v) k (fun _ k' => exists V', good E D X k' V' /\
    unblocked t b (Z.lor v taskEVENT_LIST_ITEM_VALUE_IN_USE) k k' V V' /\ (uxPriority c < uxPriority b -> switching k')).
Proof.
  intros G He Hs Hv Hb Hc. pose proof (in_sched _ _ _ _ _ G) as HI. destruct (waiting_alive E D X k V G t b Hb He) as [HD HX].
  pose proof (alive_state E D X k V t b G Hb HD) as Hst.
  eapply wp_mono; [apply (wp_and _ _ _ _ (vTaskRemoveFromUnorderedEventList_ok E D X k V t b c v G He Hs Hv Hb Hc)
    (remove_unordered_view k V t b c v HI Hb Hc He Hst Hs Hv))|].
  intros [] k1 [(V1 & G1 & SP & Hy) HV]. pose proof (sched_unique k1 _ _ HV (in_sched _ _ _ _ _ G1)) as [Ul Uv _].
  pose proof (spot_tcbs E _ _ _ _ _ _ _ _ SP Hb) as Et. pose proof (sp_move _ _ _ _ _ _ _ _ _ SP) as Hm.
  exists V1. split; [done|]. split; [|intros Hlt; right; by apply Hy]. split.
  - done.
  - by eapply spot_control.
  - exact (sp_flags _ _ _ _ _ _ _ _ _ SP).
  - split; [exact (sp_state _ _ _ _ _ _ _ _ _ SP)|]. split; [exact (sp_event _ _ _ _ _ _ _ _ _ SP)|]. rewrite Uv by (eapply (it_event E _ _ HV); by rewrite Et). by rewrite unblocked_value, upd_hit.
  - intros u N [d Hd]. destruct (tm_state _ _ _ _ _ Hm u N) as [M1 M2]; [eauto|].
    split; [done|done|apply (tm_event _ _ _ _ _ Hm); eauto|]. rewrite Uv by (eapply (it_event E _ _ HV); by rewrite Et). rewrite unblocked_value, upd_miss; [done|]. by apply event_ne.
  - intros l Hl. rewrite Ul by (by apply (kl_event E k1)). by eapply unblocked_elems.
Qed.

(** ** Walking a list *)

Lemma next_ok s V l pre x ys (Q : Z -> lstate -> Prop) : shows s V -> l ∈ vlists V -> elems V l = pre ++ x :: ys ->
  Q (List.hd (xListEnd l) ys) s -> wp (listGET_NEXT x) s Q.
Proof.
  intros HV Hl Ex HQ. pose proof (rep_chain _ _ _ _ (sh_rep _ _ HV l Hl)) as Hc. rewrite Ex in Hc.
  assert (link s x (List.hd (xListEnd l) ys)) as [Hn _].
  { destruct ys as [|y ys].
    - eapply (chain_at _ (xListEnd l :: pre) x (xListEnd l) [] _ _ Hc). by rewrite <- app_assoc.
    - eapply (chain_at _ (xListEnd l :: pre) x y (ys ++ [xListEnd l]) _ _ Hc). by rewrite <- app_assoc. }
  apply nxt_Some in Hn as (m & Hm & En). unfold listGET_NEXT, rd_mini. apply wp_bind, wp_bind, wp_get. eapply wp_of_option; [done|].
  apply wp_ret. by rewrite En.
Qed.
Lemma head_entry_ok s V l (Q : Z -> lstate -> Prop) : shows s V -> l ∈ vlists V ->
  Q (List.hd (xListEnd l) (elems V l)) s -> wp (listGET_HEAD_ENTRY l) s Q.
Proof.
  intros HV Hl HQ. pose proof (rep_chain _ _ _ _ (sh_rep _ _ HV l Hl)) as Hc.
  assert (link s (xListEnd l) (List.hd (xListEnd l) (elems V l))) as [Hn _] by (destruct (elems V l); by destruct Hc).
  apply nxt_Some in Hn as (m & Hm & En). unfold listGET_HEAD_ENTRY, rd_mini. apply wp_bind, wp_bind, wp_get. eapply wp_of_option; [done|].
  apply wp_ret. by rewrite En.
Qed.

(** ** Bits *)

Lemma land_control v : is_u32 v -> Z.land v eventEVENT_BITS_CONTROL_BYTES = v / 16777216 * 16777216.
Proof.
  intros Hv. change eventEVENT_BITS_CONTROL_BYTES with (Z.shiftl 255 24). rewrite <- shiftr_24, <- shiftl_24.
  replace (Z.shiftr v 24) with (Z.land (Z.shiftr v 24) (Z.ones 8)).
  - apply Z.bits_inj'. intros n Hn. rewrite Z.land_spec, !Z.shiftl_spec by done. destruct (Z.ltb_spec n 24).
    + rewrite !(Z.testbit_neg_r _ (n - 24)) by lia. by rewrite andb_false_r.
    + rewrite Z.land_spec, Z.shiftr_spec by lia. by replace (n - 24 + 24) with n by lia.
  - rewrite land_ones_mod, shiftr_24 by done. apply Z.mod_small. zlia.
Qed.
Lemma clear_control v : clear_bits v eventEVENT_BITS_CONTROL_BYTES = v mod 16777216.
Proof. unfold clear_bits. change (Z.lxor eventEVENT_BITS_CONTROL_BYTES 4294967295) with (Z.ones 24). by rewrite land_ones_mod. Qed.
Lemma no_control v : is_u32 v -> Z.land v eventEVENT_BITS_CONTROL_BYTES = 0 <-> v < 16777216.
Proof. intros Hv. rewrite land_control by done. zlia. Qed.

(** The value a woken task finds. *)
Definition told (bits : Z) : Z := Z.lor (Z.lor bits eventUNBLOCKED_DUE_TO_BIT_SET) taskEVENT_LIST_ITEM_VALUE_IN_USE.
Definition is_bits (v : Z) : Prop := 0 <= v < 16777216.
Lemma unblocked_bit bits : is_bits bits -> Z.lor bits eventUNBLOCKED_DUE_TO_BIT_SET = 2 * 2 ^ 24 + bits.
Proof. intros Hb. unfold is_bits in *. rewrite Z.lor_comm. exact (lor_disjoint_add 2 bits 24 ltac:(lia) Hb). Qed.
Lemma told_eq bits : is_bits bits -> told bits = 1 * 2 ^ 31 + (2 * 2 ^ 24 + bits).
Proof.
  intros Hb. unfold told. rewrite (unblocked_bit bits Hb), Z.lor_comm. unfold is_bits in *.
  by rewrite <- (lor_disjoint_add 1 (2 * 2 ^ 24 + bits) 31) by lia.
Qed.
Lemma told_u32 bits : is_bits bits -> is_u32 (Z.lor bits eventUNBLOCKED_DUE_TO_BIT_SET).
Proof. intros Hb. rewrite unblocked_bit by done. unfold is_bits in *. zlia. Qed.
Lemma land_bits v w : is_bits v -> 0 <= w -> is_bits (Z.land v w).
Proof.
  intros Hv Hw. unfold is_bits in *. assert (Hm : Z.land v w = Z.land v w mod 2 ^ 24).
  { rewrite <- land_ones_mod by done. rewrite <- Z.land_assoc, (Z.land_comm w), Z.land_assoc. rewrite land_ones_mod by done.
    by rewrite (Z.mod_small v) by lia. }
  rewrite Hm. apply Z.mod_pos_bound. lia.
Qed.
Lemma lor_bits v w : is_bits v -> is_bits w -> is_bits (Z.lor v w).
Proof.
  unfold is_bits. intros Hv Hw. assert (Hm : Z.lor v w = Z.lor v w mod 2 ^ 24).
  { rewrite <- land_ones_mod, Z.land_lor_distr_l, !land_ones_mod by done. by rewrite !Z.mod_small by lia. }
  rewrite Hm. apply Z.mod_pos_bound. lia.
Qed.
Lemma clear_bits_range v w : is_bits v -> is_bits w -> is_bits (clear_bits v w).
Proof. intros Hv Hw. apply land_bits; [done|]. apply Z.lxor_nonneg. unfold is_bits in *. lia. Qed.
End Views.

(** ** Setting bits *)

(** The bits that the matching ones of the waiting items clear. *)
Fixpoint cleared (bits : Z) (vs : list Z) (acc : Z) : Z :=
  match vs with
  | [] => acc
  | v :: vs => cleared bits vs (if match_found v bits then add_cleared v acc else acc)
  end.

Section Setting.
Context {A : Type} `{HS : StaticsOk} (E : gset Z).
Abbreviation K := (kernel A).
Abbreviation G := (groups A).
Implicit Types (k : K) (V : view) (b c : TCB) (D X : gset Z) (s : G).

Lemma onk_ok {Y} (m : M K Y) s (Q : Y -> G -> Prop) : wp m (gkernel s) (fun y k => Q y (set_gkernel k s)) -> wp (onk m) s Q.
Proof. apply wp_zoom. Qed.
Lemma onk_read {Y} (m : M lstate Y) s (Q : Y -> G -> Prop) :
  wp m (kls (gkernel s)) (fun y l => l = kls (gkernel s) /\ Q y s) -> wp (onk (onl m)) s Q.
Proof.
  intros Hm. apply onk_ok, onl_ok. eapply wp_mono; [exact Hm|]. intros y l [-> HQ].
  assert (set_gkernel (set_kls (kls (gkernel s)) (gkernel s)) s = s) as -> by (destruct s as [k m']; by destruct k). done.
Qed.
Lemma rd_bits_ok s g w (Q : Z -> G -> Prop) : uxEventBits s !! g = Some w -> Q w s -> wp (rd_bits g) s Q.
Proof. intros Hb HQ. apply wp_bind, wp_gets. by eapply wp_of_option. Qed.
Lemma wr_bits_ok s g w v (Q : unit -> G -> Prop) : uxEventBits s !! g = Some w ->
  Q tt (set_uxEventBits (<[g := v]> (uxEventBits s)) s) -> wp (wr_bits g v) s Q.
Proof. intros Hb HQ. apply wp_bind. eapply rd_bits_ok; [exact Hb|]. by apply wp_modify. Qed.

(** From [V] to [V'] the tasks of the items [ys] whose bits are there have been
    woken and told the bits; every other task is where it was. *)
Record released (bits : Z) (ys : list Z) (k k' : K) (V V' : view) : Prop := {
  re_tcbs : tcbs k' = tcbs k;
  re_control : control_same k k';
  re_flags : switching k -> switching k';
  re_woken t b : tcbs k !! t = Some b -> xEventListItem t ∈ ys -> match_found (value V (xEventListItem t)) bits = true ->
    cont V' (xStateListItem t) = pxReadyTasksLists (uxPriority b) /\ cont V' (xEventListItem t) = 0 /\ value V' (xEventListItem t) = told bits;
  re_yield t b c : tcbs k !! t = Some b -> tcbs k !! pxCurrentTCB k = Some c -> xEventListItem t ∈ ys ->
    match_found (value V (xEventListItem t)) bits = true -> uxPriority c < uxPriority b -> switching k';
  re_rest t : is_Some (tcbs k !! t) -> ~ (xEventListItem t ∈ ys) \/ match_found (value V (xEventListItem t)) bits = false -> apart t V V'
}.

Lemma released_done bits k V : released bits [] k k V V.
Proof.
  split; try done.
  - intros t b _ Hx. by apply not_elem_of_nil in Hx.
  - intros t b c _ _ Hx. by apply not_elem_of_nil in Hx.
Qed.

Lemma event_item_inj t u : xEventListItem t = xEventListItem u -> t = u.
Proof. unfold xEventListItem. lia. Qed.

Lemma released_skip bits t ys k k' V V' : match_found (value V (xEventListItem t)) bits = false ->
  released bits ys k k' V V' -> released bits (xEventListItem t :: ys) k k' V V'.
Proof.
  intros Hm [R1 R2 R3 R4 R5 R6]. split; try done.
  - intros u b Hb [->%event_item_inj|Hu]%elem_of_cons Hf; [congruence|by apply R4].
  - intros u b c Hb Hc [->%event_item_inj|Hu]%elem_of_cons Hf; [congruence|by eapply R5].
  - intros u Hu [N|Hf]; apply R6; auto. left. intros Hx. apply N. by right.
Qed.

Lemma released_step bits t b ys k k1 k' V V1 V' : tcbs k !! t = Some b -> ~ (xEventListItem t ∈ ys) ->
  match_found (value V (xEventListItem t)) bits = true -> unblocked E t b (told bits) k k1 V V1 ->
  (forall c, tcbs k !! pxCurrentTCB k = Some c -> uxPriority c < uxPriority b -> switching k1) ->
  released bits ys k1 k' V1 V' -> released bits (xEventListItem t :: ys) k k' V V'.
Proof.
  intros Hb Hn Hm [U1 U2 U3 (U4 & U5 & U6) U7 U8] Hy [R1 R2 R3 R4 R5 R6].
  assert (Hcur : pxCurrentTCB k1 = pxCurrentTCB k) by apply U2.
  assert (Hother : forall u, xEventListItem u ∈ ys -> u <> t) by (intros u Hu ->; done). split.
  - congruence.
  - unfold control_same in *. intuition congruence.
  - auto.
  - intros u b' Hb' [->%event_item_inj|Hu]%elem_of_cons Hf.
    + simplify_eq. destruct (R6 t) as [-> _ -> ->]; [rewrite U1; eauto|by left|done].
    + destruct (U7 u (Hother u Hu)) as [_ _ _ Ev]; [eauto|]. apply R4; [by rewrite U1|done|by rewrite Ev].
  - intros u b' c Hb' Hc [->%event_item_inj|Hu]%elem_of_cons Hf Hlt.
    + simplify_eq. apply R3. by eapply Hy.
    + destruct (U7 u (Hother u Hu)) as [_ _ _ Ev]; [eauto|]. apply (R5 u b' c); [by rewrite U1|by rewrite U1, Hcur|done|by rewrite Ev|done].
  - intros u Hu Hno. destruct (decide (u = t)) as [->|N].
    + exfalso. destruct Hno as [Hno|Hno]; [apply Hno; left|congruence].
    + pose proof (U7 u N Hu) as Ha. eapply apart_trans; [exact Ha|]. apply R6; [by rewrite U1|]. rewrite (ap_value _ _ _ Ha).
      destruct Hno as [Hno|Hno]; [left|by right]. intros Hx. apply Hno. by right.
Qed.

Lemma set_loop_ok g bits ys : is_bits bits -> xTasksWaitingForBits g ∈ E -> forall fuel D X s V pre acc,
  good E D X (gkernel s) V -> uxSchedulerSuspended (gkernel s) <> 0 -> uxEventBits s !! g = Some bits ->
  elems V (xTasksWaitingForBits g) = pre ++ ys -> (length ys < fuel)%nat ->
  wp (set_loop fuel g (xListEnd (xTasksWaitingForBits g)) (List.hd (xListEnd (xTasksWaitingForBits g)) ys) acc) s (fun r s' => exists V',
    good E D X (gkernel s') V' /\ uxEventBits s' = uxEventBits s /\ released bits ys (gkernel s) (gkernel s') V V' /\
    r = cleared bits (value V <$> ys) acc).
Proof.
  intros Hbits Hl. set (l := xTasksWaitingForBits g) in *.
  induction ys as [|x ys IH]; intros [|fuel] D X s V pre acc GD Hs Hg Ex Hf; cbn [length] in Hf; try lia; cbn [set_loop List.hd].
  { rewrite Z.eqb_refl. apply wp_ret. exists V. split; [done|]. split; [done|]. split; [apply released_done|done]. }
  pose proof (in_sched _ _ _ _ _ GD) as HI. assert (Hin : l ∈ vlists V) by (by apply (kl_event E (gkernel s))).
  assert (Hx : x ∈ elems V l) by (rewrite Ex; set_solver).
  destruct (on_event_list E _ V HI l x Hin Hx (or_intror Hl)) as (t & b & -> & Hb & Hc).
  pose proof (sh_nodup _ _ (sc_shows _ _ _ HI) l Hin) as Hnd. rewrite Ex in Hnd.
  destruct (Z.eqb_spec (xEventListItem t) (xListEnd l)) as [Eq|_].
  { exfalso. apply (sh_end _ _ (sc_shows _ _ _ HI) l Hin). rewrite <- Eq. by eapply (it_event E). }
  apply wp_bind, onk_read. eapply (next_ok _ V l pre _ ys (fun _ _ => _) (sc_shows _ _ _ HI) Hin Ex). split; [done|].
  apply wp_bind, onk_read. apply (get_value_ok _ V (sc_shows _ _ _ HI)); [by eapply (it_event E)|]. split; [done|].
  apply wp_bind. eapply rd_bits_ok; [exact Hg|]. cbn [fmap list_fmap cleared].
  destruct (match_found (value V (xEventListItem t)) bits) eqn:Em.
  - destruct (cur_some E D X _ V GD) as [c Hcur]. apply wp_bind, onk_ok.
    eapply wp_mono; [apply (unblock_ok E D X _ V t b c _ GD ltac:(rewrite Hc; by eapply event_nonnull) Hs (told_u32 bits Hbits) Hb Hcur)|].
    intros [] k1 (V1 & G1 & U & Hy). assert (Hno : ~ (xEventListItem t ∈ ys)).
    { apply NoDup_app in Hnd as (_ & _ & Hnd). by apply NoDup_cons in Hnd as [? _]. }
    assert (Ev : value V1 <$> ys = value V <$> ys).
    { apply list_fmap_ext. intros i y Hy'. apply list_elem_of_lookup_2 in Hy' as Hin'.
      destruct (on_event_list E _ V HI l y Hin ltac:(rewrite Ex; set_solver) (or_intror Hl)) as (u & d & -> & Hd & _).
      apply (ub_rest _ _ _ _ _ _ _ _ U); [|eauto]. by intros ->. }
    rewrite <- Ev. eapply wp_mono; [apply (IH fuel D X (set_gkernel k1 s) V1 pre)|].
    + done.
    + cbn. by rewrite (proj1 (proj2 (proj2 (ub_control _ _ _ _ _ _ _ _ U)))).
    + done.
    + rewrite (ub_elems _ _ _ _ _ _ _ _ U l Hl), Ex. by apply without_split.
    + lia.
    + intros r s' (V' & G' & Eb & R & Er). exists V'. split; [done|]. split; [done|]. split; [|done].
      eapply released_step; [exact Hb|done|done|exact U| |exact R]. intros c' Hc' Hlt. simplify_eq. by apply Hy.
  - eapply wp_mono; [apply (IH fuel D X s V (pre ++ [xEventListItem t]))|]; try done; [by rewrite <- app_assoc|lia|].
    intros r s' (V' & G' & Eb & R & Er). exists V'. split; [done|]. split; [done|]. split; [|done]. by apply released_skip.
Qed.

(** Groups have their lists among the event lists. *)
Definition groups_ok (s : G) : Prop := forall g w, uxEventBits s !! g = Some w -> xTasksWaitingForBits g ∈ E /\ is_bits w.

Lemma waiting_length k V l : sched E k V -> l ∈ E -> (length (elems V l) < S (size (tcbs k)))%nat.
Proof.
  intros HI Hl. assert (Hin : l ∈ vlists V) by (by apply (kl_event E k)). apply Nat.lt_succ_r.
  transitivity (length (xEventListItem <$> elements (dom (tcbs k)))).
  - apply submseteq_length, NoDup_submseteq; [by apply (sh_nodup _ _ (sc_shows _ _ _ HI))|]. intros x Hx.
    destruct (on_event_list E k V HI l x Hin Hx (or_intror Hl)) as (t & b & -> & Hb & _).
    apply list_elem_of_fmap. exists t. split; [done|]. apply elem_of_elements, elem_of_dom. eauto.
  - rewrite length_fmap. change (length (elements (dom (tcbs k)))) with (size (dom (tcbs k))). by rewrite size_dom.
Qed.

Lemma cleared_bits bits vs : Forall is_u32 vs -> forall acc, is_bits acc -> is_bits (cleared bits vs acc).
Proof.
  induction 1 as [|v vs Hv Hvs IH]; intros acc Ha; cbn [cleared]; [done|]. apply IH. destruct (match_found v bits); [|done].
  unfold add_cleared. destruct (negb _); [|done]. apply lor_bits; [done|]. rewrite clear_control. unfold is_bits. apply Z.mod_pos_bound. lia.
Qed.

(** What the waiting tasks ask for. *)
Definition asked (V : view) (g : Z) : list Z := value V <$> elems V (xTasksWaitingForBits g).
Lemma asked_u32 k V g : sched E k V -> xTasksWaitingForBits g ∈ E -> Forall is_u32 (asked V g).
Proof.
  intros HI Hl. apply Forall_fmap, Forall_forall. intros x Hx. apply (sh_val _ _ (sc_shows _ _ _ HI)).
  eapply (sh_in _ _ (sc_shows _ _ _ HI)); [|exact Hx]. by apply (kl_event E k).
Qed.

Definition new_bits (V : view) (g w n : Z) : Z := clear_bits (Z.lor w n) (cleared (Z.lor w n) (asked V g) 0).
Lemma new_bits_range k V g w n : sched E k V -> xTasksWaitingForBits g ∈ E -> is_bits w -> is_bits n -> is_bits (new_bits V g w n).
Proof.
  intros HI Hl Hw Hn. apply clear_bits_range; [by apply lor_bits|]. apply cleared_bits; [by eapply asked_u32|done].
Qed.

Lemma set_section_ok D X s V g w n : good E D X (gkernel s) V -> groups_ok s -> uxSchedulerSuspended (gkernel s) <> 0 ->
  uxEventBits s !! g = Some w -> is_bits n ->
  wp (set_section g n) s (fun _ s' => exists V', good E D X (gkernel s') V' /\
    uxEventBits s' = <[g := new_bits V g w n]> (uxEventBits s) /\
    released (Z.lor w n) (elems V (xTasksWaitingForBits g)) (gkernel s) (gkernel s') V V').
Proof.
  intros GD Hgs Hsus Hg Hn. destruct (Hgs g w Hg) as [Hl Hw]. pose proof (in_sched _ _ _ _ _ GD) as HI.
  assert (Hin : xTasksWaitingForBits g ∈ vlists V) by (by apply (kl_event E (gkernel s))).
  apply wp_bind, onk_read. apply (head_entry_ok _ V _ (fun _ _ => _) (sc_shows _ _ _ HI) Hin). split; [done|].
  apply wp_bind. eapply rd_bits_ok; [exact Hg|]. apply wp_bind. eapply wr_bits_ok; [exact Hg|].
  apply wp_bind, wp_gets, wp_bind. set (s1 := set_uxEventBits _ s).
  eapply wp_mono; [eapply (set_loop_ok g (Z.lor w n) (elems V (xTasksWaitingForBits g)) (lor_bits w n Hw Hn) Hl _ D X s1 V [] 0)|].
  - exact GD.
  - exact Hsus.
  - apply lookup_insert_eq.
  - done.
  - by apply waiting_length.
  - intros r s2 (V' & G' & Eb & R & ->). apply wp_bind.
    assert (Hg2 : uxEventBits s2 !! g = Some (Z.lor w n)) by (rewrite Eb; apply lookup_insert_eq).
    eapply rd_bits_ok; [exact Hg2|]. eapply wr_bits_ok; [exact Hg2|]. exists V'. split; [exact G'|]. split; [|exact R].
    cbn. rewrite Eb. cbn. by rewrite insert_insert_eq.
Qed.

(** ** Resuming the scheduler when nothing was held back *)

Record quiet (k k' : K) (V V' : view) : Prop := {
  qu_tcbs : tcbs k' = tcbs k;
  qu_current : pxCurrentTCB k' = pxCurrentTCB k;
  qu_now : now k' = now k;
  qu_flags : switching k -> switching k';
  qu_ready t b : tcbs k !! t = Some b -> cont V (xStateListItem t) = pxReadyTasksLists (uxPriority b) ->
    cont V' (xStateListItem t) = pxReadyTasksLists (uxPriority b);
  qu_rest t : is_Some (tcbs k !! t) -> wake_time k' V' t = wake_time k V t /\
    cont V' (xEventListItem t) = cont V (xEventListItem t) /\ value V' (xEventListItem t) = value V (xEventListItem t)
}.

Lemma freed_quiet D X k k1 V V1 : good_at (xTickCount k + 1) false E D X k V -> freed k k1 V V1 ->
  (forall t, is_Some (tcbs k !! t) -> cont V (xEventListItem t) <> xPendingReadyList) ->
  forall t, is_Some (tcbs k !! t) -> cont V1 (xStateListItem t) = cont V (xStateListItem t) /\
    cont V1 (xEventListItem t) = cont V (xEventListItem t) /\ wake_time k1 V1 t = wake_time k V t.
Proof.
  intros GD [F1 (C1 & C2 & C3 & C4 & C5 & C6 & C7 & C8) F3 F4 F5 F6] Hno t Ht. destruct (F5 t Ht (Hno t Ht)) as [E1 E2].
  split; [done|]. split; [done|]. unfold wake_time. by rewrite E1, C6, C7, C8, F6.
Qed.

Lemma resume_quiet D X k V : good E D X k V -> uxSchedulerSuspended k = 1 -> xPendedTicks k = 0 ->
  (forall t, is_Some (tcbs k !! t) -> cont V (xEventListItem t) <> xPendingReadyList) ->
  wp xTaskResumeAll k (fun r k' => exists V', good E D X k' V' /\ uxSchedulerSuspended k' = 0 /\ quiet k k' V V' /\
    (r = true -> swi_pending k' = true)).
Proof.
  intros GD Hs Hp Hno. eapply wp_mono; [apply (wp_values _ _ _ values_resume_all (xTaskResumeAll_ok E D X k V GD ltac:(lia)))|].
  intros r k' [(V' & G' & Es & Ec & Et & _ & Hcu) Hval]. destruct (Hcu Hs) as [[(k1 & V1 & F & HE) _] Hr].
  pose proof (in_sched _ _ _ _ _ GD) as HI. pose proof (in_sched _ _ _ _ _ G') as HI'. rewrite Hp in HE.
  exists V'. split; [done|]. split; [lia|]. split; [|done]. set (k0 := set_uxSchedulerSuspended 0 k) in *.
  assert (G0 : good_at (xTickCount k0 + 1) false E D X k0 V) by (apply set_suspended_good; [apply GD|done]).
  pose proof F as [F1 (C1 & C2 & C3 & C4 & C5 & C6 & C7 & C8) F3 _ _ _].
  assert (Hq := freed_quiet D X k0 k1 V V1 G0 F Hno).
  assert (Hel : forall t, is_Some (tcbs k !! t) -> wake_time k' V' t = wake_time k V t /\ cont V' (xEventListItem t) = cont V (xEventListItem t) /\
    (wake_time k V t = None -> cont V' (xStateListItem t) = cont V (xStateListItem t))).
  { intros t Ht. destruct (Hq t Ht) as (Q1 & Q2 & Q3). change (wake_time k0 V t) with (wake_time k V t) in Q3.
    assert (Ht1 : is_Some (tcbs k1 !! t)) by (by rewrite F1). destruct (wake_time k1 V1 t) as [w|] eqn:Ew.
    - assert (Hlt : now k1 + 0 < w).
      { pose proof (wake_time_future E false D X k V t w (gd_at _ _ _ _ _ GD) Ht ltac:(congruence)) as Hw. unfold now in *.
        rewrite C5, C8. cbn. lia. }
      destruct (el_later _ _ _ _ _ HE t w Ht1 Ew Hlt) as [-> ->]. rewrite Q2, <- Q3. by split.
    - destruct (el_awake _ _ _ _ _ HE t Ht1 Ew) as [Ea ->]. rewrite Q2. split; [|split; [done|by rewrite Ea]].
      rewrite <- Q3. apply (wake_time_none E k' V' t HI'). rewrite Ea, Q1. apply (wake_time_none E k V t HI). congruence. }
  split.
  - done.
  - done.
  - rewrite (el_now _ _ _ _ _ HE). unfold now. rewrite C5, C8. cbn. lia.
  - intros Hsw. apply (el_flags _ _ _ _ _ HE), F3. exact Hsw.
  - intros t b Hb Hr'. destruct (Hel t ltac:(eauto)) as (_ & _ & Hn). rewrite Hn; [done|].
    apply (wake_time_none E k V t HI). rewrite Hr'. pose proof (ready_place E k V (uxPriority b) HI (ok_priority _ (sc_tcb _ _ _ HI t b Hb))). tauto.
  - intros t [b Hb]. destruct (Hel t ltac:(eauto)) as (E1 & E2 & _). split; [done|]. split; [done|].
    eapply (val_view E k k'); [exact HI|exact HI'|by eapply (it_event E)|eapply (it_event E k'); [done|by rewrite Et]|exact Hval].
Qed.

(** What setting bits does when the scheduler runs: the tasks on the group's
    list whose bits are there are ready and have been told the bits, every
    other task waits as before. *)
Record bits_set (g bits : Z) (k k' : K) (V V' : view) : Prop := {
  bs_tcbs : tcbs k' = tcbs k;
  bs_current : pxCurrentTCB k' = pxCurrentTCB k;
  bs_now : now k' = now k;
  bs_woken t b : tcbs k !! t = Some b -> cont V (xEventListItem t) = xTasksWaitingForBits g ->
    match_found (value V (xEventListItem t)) bits = true ->
    cont V' (xStateListItem t) = pxReadyTasksLists (uxPriority b) /\ cont V' (xEventListItem t) = 0 /\
    value V' (xEventListItem t) = told bits;
  bs_yield t b c : tcbs k !! t = Some b -> tcbs k !! pxCurrentTCB k = Some c -> cont V (xEventListItem t) = xTasksWaitingForBits g ->
    match_found (value V (xEventListItem t)) bits = true -> uxPriority c < uxPriority b -> switching k';
  bs_rest t : is_Some (tcbs k !! t) ->
    cont V (xEventListItem t) <> xTasksWaitingForBits g \/ match_found (value V (xEventListItem t)) bits = false ->
    wake_time k' V' t = wake_time k V t /\ cont V' (xEventListItem t) = cont V (xEventListItem t) /\
    value V' (xEventListItem t) = value V (xEventListItem t)
}.

Lemma on_group k V l t : sched E k V -> l ∈ E -> is_Some (tcbs k !! t) -> xEventListItem t ∈ elems V l <-> cont V (xEventListItem t) = l.
Proof.
  intros HI Hl [b Hb]. rewrite (sh_on _ _ (sc_shows _ _ _ HI) l) by (by apply (kl_event E k)).
  split; [by intros [_ ?]|]. intros Hc. split; [by eapply (it_event E)|done].
Qed.

Lemma bits_set_of g bits k k1 k2 V V1 V2 : sched E k V -> sched E k1 V1 -> xTasksWaitingForBits g ∈ E ->
  released bits (elems V (xTasksWaitingForBits g)) k k1 V V1 -> quiet k1 k2 V1 V2 -> bits_set g bits k k2 V V2.
Proof.
  intros HI HI1 Hl [R1 (C1 & C2 & C3 & C4 & C5 & C6 & C7 & C8) R3 R4 R5 R6] [Q1 Q2 Q3 Q4 Q5 Q6]. split.
  - congruence.
  - congruence.
  - rewrite Q3. unfold now. by rewrite C5, C8.
  - intros t b Hb Hc Hm. destruct (R4 t b Hb) as (W1 & W2 & W3); [by apply (on_group k V _ t HI Hl); eauto|done|].
    destruct (Q6 t) as (_ & E2 & E3); [by rewrite R1; eauto|]. rewrite E2, E3. split; [|done]. by apply Q5; [by rewrite R1|].
  - intros t b c Hb Hcur Hc Hm Hlt. apply Q4. eapply (R5 t b c); [done|done|by apply (on_group k V _ t HI Hl); eauto|done|done].
  - intros t Ht Hno. destruct (R6 t Ht) as [A1 A2 A3 A4]; [destruct Hno as [Hno|Hno]; [left|by right]; by rewrite (on_group k V _ t HI Hl)|].
    destruct (Q6 t) as (E1 & E2 & E3); [by rewrite R1|]. rewrite E1, E2, E3, A3, A4. split; [|done].
    unfold wake_time. by rewrite A1, A2, C6, C7, C8.
Qed.

Lemma suspend_start D X s V (Q : unit -> G -> Prop) : good E D X (gkernel s) V -> uxSchedulerSuspended (gkernel s) = 0 ->
  (let s1 := set_gkernel (set_uxSchedulerSuspended 1 (gkernel s)) s in good E D X (gkernel s1) V -> Q tt s1) ->
  wp (onk vTaskSuspendAll) s Q.
Proof.
  intros [GA GR] Hs HQ. apply onk_ok, wp_modify. rewrite Hs. change (u32 (0 + 1)) with 1. apply HQ.
  split; [by apply set_suspended_good|]. intros Hs'. done.
Qed.

Lemma xEventGroupSetBits_run D X s V g w n : good E D X (gkernel s) V -> groups_ok s -> uxSchedulerSuspended (gkernel s) = 0 ->
  uxEventBits s !! g = Some w -> is_bits n -> g <> 0 ->
  wp (xEventGroupSetBits g n) s (fun r s' => exists V', good E D X (gkernel s') V' /\ uxSchedulerSuspended (gkernel s') = 0 /\
    r = new_bits V g w n /\ uxEventBits s' = <[g := r]> (uxEventBits s) /\ bits_set g (Z.lor w n) (gkernel s) (gkernel s') V V').
Proof.
  intros GD Hgs Hs Hg Hn Hg0. destruct (Hgs g w Hg) as [Hl Hw]. pose proof (in_sched _ _ _ _ _ GD) as HI.
  destruct (gd_resumed _ _ _ _ _ GD Hs) as [Hp Hno].
  apply wp_bind, wp_assert; [by rewrite (proj2 (Z.eqb_neq _ _) Hg0)|].
  apply wp_bind, wp_assert; [apply Z.eqb_eq, no_control; unfold is_bits in Hn; zlia|].
  apply wp_bind. eapply suspend_start; [exact GD|exact Hs|]. intros s1 G1.
  apply wp_bind. eapply wp_mono; [apply (set_section_ok D X s1 V g w n G1); [exact Hgs|done|done|done]|].
  intros [] s2 (V2 & G2 & Eb & R). apply wp_bind, onk_ok.
  assert (C := re_control _ _ _ _ _ _ R). destruct C as (C1 & C2 & C3 & C4 & C5 & C6 & C7 & C8).
  eapply wp_mono; [apply (resume_quiet D X (gkernel s2) V2 G2)|].
  - rewrite C3. done.
  - rewrite C4. exact Hp.
  - intros t Ht. assert (Ht' : is_Some (tcbs (gkernel s) !! t)) by (rewrite (re_tcbs _ _ _ _ _ _ R) in Ht; exact Ht).
    destruct Ht' as [b Hb]. destruct (decide (xEventListItem t ∈ elems V (xTasksWaitingForBits g))) as [Hin|Hin];
      [destruct (match_found (value V (xEventListItem t)) (Z.lor w n)) eqn:Em|].
    + destruct (re_woken _ _ _ _ _ _ R t b Hb Hin Em) as (_ & -> & _). apply not_eq_sym. by eapply (pending_nonnull E (gkernel s)).
    + rewrite (ap_event _ _ _ (re_rest _ _ _ _ _ _ R t ltac:(cbn; eauto) (or_intror Em))). eauto.
    + rewrite (ap_event _ _ _ (re_rest _ _ _ _ _ _ R t ltac:(cbn; eauto) (or_introl Hin))). eauto.
  - intros r k3 (V3 & G3 & Hs3 & Hq & _). assert (Hg3 : uxEventBits (set_gkernel k3 s2) !! g = Some (new_bits V g w n)) by (cbn; rewrite Eb; apply lookup_insert_eq).
    eapply rd_bits_ok; [exact Hg3|]. exists V3. split; [exact G3|]. split; [exact Hs3|]. split; [done|]. split; [exact Eb|].
    destruct (bits_set_of g (Z.lor w n) (gkernel s1) (gkernel s2) k3 V V2 V3) as [B1 B2 B3 B4 B5 B6];
      [apply (in_sched _ _ _ _ _ G1)|apply (in_sched _ _ _ _ _ G2)|done|exact R|exact Hq|]. by split.
Qed.

(** ** What a waiting task asks for *)

Definition asks (n : Z) (clear all : bool) : Z := Z.lor (Z.lor n (control_bits clear all)) taskEVENT_LIST_ITEM_VALUE_IN_USE.

Lemma asks_eq n clear all : is_bits n -> asks n clear all = (128 + (if clear then 1 else 0) + (if all then 4 else 0)) * 2 ^ 24 + n.
Proof.
  intros Hn. unfold asks, is_bits in *. set (c := (if clear then 1 else 0) + (if all then 4 else 0)).
  assert (Hc : 0 <= c <= 5) by (unfold c; destruct clear, all; lia).
  replace (control_bits clear all) with (c * 2 ^ 24) by (unfold c; by destruct clear, all).
  rewrite (Z.lor_comm n), lor_disjoint_add by lia. rewrite Z.lor_comm.
  change taskEVENT_LIST_ITEM_VALUE_IN_USE with (1 * 2 ^ 31). rewrite lor_disjoint_add by lia. unfold c. lia.
Qed.
Lemma asks_u32 n clear all : is_bits n -> is_u32 (Z.lor n (control_bits clear all)).
Proof.
  intros Hn. unfold is_bits in *. set (c := (if clear then 1 else 0) + (if all then 4 else 0)).
  assert (Hc : 0 <= c <= 5) by (unfold c; destruct clear, all; lia).
  replace (control_bits clear all) with (c * 2 ^ 24) by (unfold c; by destruct clear, all).
  rewrite (Z.lor_comm n), lor_disjoint_add by lia. zlia.
Qed.
Lemma asks_parts n clear all : is_bits n -> clear_bits (asks n clear all) eventEVENT_BITS_CONTROL_BYTES = n /\
  Z.land (asks n clear all) eventEVENT_BITS_CONTROL_BYTES = (128 + (if clear then 1 else 0) + (if all then 4 else 0)) * 2 ^ 24.
Proof.
  intros Hn. rewrite clear_control, asks_eq by done. unfold is_bits in *. split; [zlia|].
  rewrite land_control by (destruct clear, all; zlia). destruct clear, all; zlia.
Qed.

(** The walk understands what the task asked for. *)
Lemma match_asked n clear all bits : is_bits n -> match_found (asks n clear all) bits = prvTestWaitCondition bits n all.
Proof.
  intros Hn. unfold match_found, prvTestWaitCondition. destruct (asks_parts n clear all Hn) as [-> ->]. rewrite (Z.land_comm bits n).
  by destruct clear, all.
Qed.
Lemma add_asked n clear all acc : is_bits n -> add_cleared (asks n clear all) acc = if clear then Z.lor acc n else acc.
Proof.
  intros Hn. unfold add_cleared. destruct (asks_parts n clear all Hn) as [-> ->]. by destruct clear, all.
Qed.

(** ** Waiting *)

Lemma place_ok D X k V c l v n : good E D X k V -> can_wait k V c -> l ∈ E -> is_u32 v -> uxSchedulerSuspended k <> 0 -> 0 < n < 4294967296 ->
  wp (vTaskPlaceOnUnorderedEventList l v n) k (fun _ k' => exists V', good E D X k' V' /\ waits_on E l (wait_until k n true) k k' V V' /\
    value V' (xEventListItem (pxCurrentTCB k)) = Z.lor v taskEVENT_LIST_ITEM_VALUE_IN_USE).
Proof.
  intros GD Hw Hl Hv Hs Hn. pose proof (vTaskPlaceOnUnorderedEventList_ok E D X k V c GD Hw l Hl v n Hv Hs Hn) as Hwp. unfold wp in *.
  destruct (vTaskPlaceOnUnorderedEventList l v n k) as [[[] k']|w] eqn:Ek; [|done]. destruct Hwp as (V' & G' & W).
  exists V'. split; [done|]. split; [done|]. pose proof (place_unordered_value _ _ _ _ _ Ek) as Hval.
  pose proof (in_sched _ _ _ _ _ G') as HI'. assert (Hc : exists b, tcbs k' !! pxCurrentTCB k = Some b).
  { destruct W as (k1 & V1 & c1 & SP & B). apply (bl_dom _ _ _ _ _ _ B (pxCurrentTCB k)). exists c1. apply SP. }
  destruct Hc as [b Hb]. destruct (sh_mini _ _ (sc_shows _ _ _ HI') (xEventListItem (pxCurrentTCB k))) as (m & Hm & <-); [by eapply (it_event E)|].
  unfold val in Hval. rewrite Hm in Hval. cbn in Hval. congruence.
Qed.

Definition put_bits (g v : Z) (s : G) : G := set_uxEventBits (<[g := v]> (uxEventBits s)) s.

Lemma wait_bits_section_ok D X s V c g w n (clear all : bool) ticks : good E D X (gkernel s) V -> groups_ok s ->
  uxSchedulerSuspended (gkernel s) <> 0 -> uxEventBits s !! g = Some w -> is_bits n -> 0 <= ticks < 4294967296 ->
  (ticks <> 0 -> can_wait (gkernel s) V c) ->
  wp (wait_bits_section g n clear all ticks) s (fun r s' =>
    if prvTestWaitCondition w n all then r = Some w /\ s' = (if clear then put_bits g (clear_bits w n) s else s)
    else if ticks =? 0 then r = Some w /\ s' = s
    else r = None /\ uxEventBits s' = uxEventBits s /\ exists V', good E D X (gkernel s') V' /\
      waits_on E (xTasksWaitingForBits g) (wait_until (gkernel s) ticks true) (gkernel s) (gkernel s') V V' /\
      value V' (xEventListItem (pxCurrentTCB (gkernel s))) = asks n clear all).
Proof.
  intros GD Hgs Hs Hg Hn Ht Hw. destruct (Hgs g w Hg) as [Hl _]. apply wp_bind. eapply rd_bits_ok; [exact Hg|].
  destruct (prvTestWaitCondition w n all).
  - apply wp_bind. destruct clear; [eapply wr_bits_ok; [exact Hg|]|apply wp_ret]; by apply wp_ret.
  - destruct (Z.eqb_spec ticks 0) as [E0|N0]; [by apply wp_ret|]. apply wp_bind, onk_ok.
    eapply wp_mono; [apply (place_ok D X (gkernel s) V c _ _ ticks GD (Hw N0) Hl (asks_u32 n clear all Hn) Hs ltac:(lia))|].
    intros [] k' (V' & G' & W & Ev). apply wp_ret. split; [done|]. split; [done|]. by exists V'.
Qed.

(** The task runs again: it has been told the bits, or its time is over and it
    looks at the bits itself. *)
Lemma wait_bits_finish_ok D X s V c g w n (clear all : bool) : good E D X (gkernel s) V -> tcbs (gkernel s) !! pxCurrentTCB (gkernel s) = Some c ->
  ~ (pxCurrentTCB (gkernel s) ∈ X) -> uxEventBits s !! g = Some w -> is_bits w ->
  let v := value V (xEventListItem (pxCurrentTCB (gkernel s))) in
  wp (wait_bits_finish g n clear all) s (fun r s' => exists V', good E D X (gkernel s') V' /\
    if Z.land v eventUNBLOCKED_DUE_TO_BIT_SET =? 0
    then r = w /\ uxEventBits s' = (if prvTestWaitCondition w n all && clear then <[g := clear_bits w n]> (uxEventBits s) else uxEventBits s)
    else r = v mod 16777216 /\ uxEventBits s' = uxEventBits s).
Proof.
  intros GD Hc HX Hg Hw v. apply wp_bind, onk_ok.
  eapply wp_mono; [apply (uxTaskResetEventItemValue_ok E D X _ V c GD Hc HX)|]. intros v' k' (V' & G' & _ & ->). fold v.
  apply wp_bind. destruct (Z.land v eventUNBLOCKED_DUE_TO_BIT_SET =? 0).
  - assert (Hsm : clear_bits w eventEVENT_BITS_CONTROL_BYTES = w) by (rewrite clear_control; by apply Z.mod_small).
    apply wp_bind. eapply rd_bits_ok; [exact Hg|]. apply wp_bind. destruct (prvTestWaitCondition w n all); [destruct clear|]; cbn [andb].
    + eapply wr_bits_ok; [exact Hg|]. apply wp_ret, wp_ret. exists V'. by rewrite Hsm.
    + apply wp_ret, wp_ret, wp_ret. exists V'. by rewrite Hsm.
    + apply wp_ret, wp_ret, wp_ret. exists V'. by rewrite Hsm.
  - apply wp_ret, wp_ret. exists V'. by rewrite clear_control.
Qed.

(** What a woken task was told is what it returns. *)
Lemma told_returns bits : is_bits bits -> Z.land (told bits) eventUNBLOCKED_DUE_TO_BIT_SET <> 0 /\ told bits mod 16777216 = bits.
Proof.
  intros Hb. split; [|rewrite told_eq by done; unfold is_bits in *; zlia].
  change eventUNBLOCKED_DUE_TO_BIT_SET with (2 ^ 25). rewrite land_pow2 by lia. rewrite testbit_div by lia.
  rewrite told_eq by done. unfold is_bits in *. replace ((1 * 2 ^ 31 + (2 * 2 ^ 24 + bits)) / 2 ^ 25 mod 2) with 1 by zlia. done.
Qed.

(** ** The bits that stay *)

(** Task [t] waits for bits of the group. *)
Definition waits_for (k : K) (V : view) (g t n : Z) (clear all : bool) : Prop :=
  is_Some (tcbs k !! t) /\ cont V (xEventListItem t) = xTasksWaitingForBits g /\ value V (xEventListItem t) = asks n clear all /\ is_bits n.
(** Every task on a group's list says what it waits for. *)
Definition waiters_ok (s : G) (V : view) : Prop := forall g t, is_Some (uxEventBits s !! g) -> is_Some (tcbs (gkernel s) !! t) ->
  cont V (xEventListItem t) = xTasksWaitingForBits g -> exists n clear all, is_bits n /\ value V (xEventListItem t) = asks n clear all.

Lemma testbit_cleared bits i vs : Forall (fun v => exists n clear all, is_bits n /\ v = asks n clear all) vs -> forall acc,
  Z.testbit (cleared bits vs acc) i = true <-> Z.testbit acc i = true \/
    exists n all, asks n true all ∈ vs /\ is_bits n /\ prvTestWaitCondition bits n all = true /\ Z.testbit n i = true.
Proof.
  induction 1 as [|v vs (n & clear & all & Hn & ->) Hvs IH]; intros acc; cbn [cleared].
  { split; [by left|]. intros [?|(n & all & Hx & _)]; [done|]. by apply not_elem_of_nil in Hx. }
  rewrite IH, match_asked, add_asked by done.
  assert (Hinj : forall n' all', is_bits n' -> asks n' true all' = asks n clear all -> n' = n /\ clear = true /\ (prvTestWaitCondition bits n' all' = prvTestWaitCondition bits n all)).
  { intros n' all' Hn' Eq. destruct (asks_parts n' true all' Hn') as [P1 P2], (asks_parts n clear all Hn) as [P3 P4].
    rewrite Eq in P1, P2. rewrite P3 in P1. rewrite P4 in P2. subst n'. destruct clear, all, all'; done. }
  split.
  - intros [Hb|(n' & all' & Hx & Hr)]; [|right; exists n', all'; set_solver].
    destruct (prvTestWaitCondition bits n all) eqn:Ep; [|by left]. destruct clear; [|by left].
    rewrite Z.lor_spec in Hb. apply orb_true_iff in Hb as [Hb|Hb]; [by left|right]. exists n, all. set_solver.
  - intros [Hb|(n' & all' & [Eq|Hx]%elem_of_cons & Hn' & Hp & Hi)]; [|destruct (Hinj n' all' Hn' Eq) as (-> & -> & Ep)|right; eauto 6]; left.
    + destruct (prvTestWaitCondition bits n all), clear; try done. by rewrite Z.lor_spec, Hb.
    + rewrite <- Ep, Hp, Z.lor_spec, Hi. apply orb_true_r.
Qed.

Lemma testbit_clear v y i : is_bits v -> Z.testbit (clear_bits v y) i = Z.testbit v i && negb (Z.testbit y i).
Proof.
  intros Hv. unfold clear_bits. rewrite Z.land_spec, Z.lxor_spec. destruct (decide (0 <= i < 32)).
  - change 4294967295 with (Z.ones 32). rewrite Z.ones_spec_low by lia. by rewrite xorb_true_r.
  - unfold is_bits in Hv. replace (Z.testbit v i) with false; [done|]. symmetry. destruct (decide (i < 0)); [apply Z.testbit_neg_r; lia|].
    rewrite testbit_div by lia. rewrite (Z.div_small v); [done|]. split; [lia|]. transitivity (2 ^ 24); [lia|].
    apply Z.pow_lt_mono_r; lia.
Qed.

Lemma new_bits_spec D X s V g w m i : good E D X (gkernel s) V -> groups_ok s -> waiters_ok s V -> uxEventBits s !! g = Some w -> is_bits m ->
  Z.testbit (new_bits V g w m) i = true <-> Z.testbit (Z.lor w m) i = true /\
    ~ exists t n all, waits_for (gkernel s) V g t n true all /\ prvTestWaitCondition (Z.lor w m) n all = true /\ Z.testbit n i = true.
Proof.
  intros GD Hgs Hws Hg Hm. destruct (Hgs g w Hg) as [Hl Hw]. pose proof (in_sched _ _ _ _ _ GD) as HI.
  assert (Hon : forall x, x ∈ elems V (xTasksWaitingForBits g) -> exists t, x = xEventListItem t /\ is_Some (tcbs (gkernel s) !! t) /\ cont V x = xTasksWaitingForBits g).
  { intros x Hx. destruct (on_event_list E _ V HI _ x (kl_event E _ V HI _ Hl) Hx (or_intror Hl)) as (t & b & -> & Hb & Hc). eauto. }
  unfold new_bits. rewrite testbit_clear by (by apply lor_bits). rewrite andb_true_iff, negb_true_iff, <- not_true_iff_false.
  rewrite testbit_cleared.
  2:{ apply Forall_fmap, Forall_forall. intros x Hx. destruct (Hon x Hx) as (t & -> & Ht & Hc). cbn. eapply Hws; eauto. }
  rewrite Z.testbit_0_l. apply and_iff_compat_l, not_iff_compat. split.
  - intros [?|(n & all & Hx & Hn & Hp & Hi)]; [done|]. unfold asked in Hx. apply list_elem_of_fmap in Hx as (x & Ev & Hx).
    destruct (Hon x Hx) as (t & -> & Ht & Hc). exists t, n, all. repeat split; try done; by apply Hn.
  - intros (t & n & all & (Ht & Hc & Ev & Hn) & Hp & Hi). right. exists n, all. split; [|done]. unfold asked. rewrite <- Ev.
    apply list_elem_of_fmap. exists (xEventListItem t). split; [done|]. by apply (on_group (gkernel s) V _ t HI Hl Ht).
Qed.
End Setting.
