(* ===== verification/EventGroupsProps.v ===== *)
(** What event groups promise, and the theorem applied to tasks of the boot that
    wait for bits. *)
From S2P Require Import Prelude FList Heap4 Klist Tasks TasksInv TasksStep TasksRun TasksApi TasksCalls TasksNew TasksLife TasksNotify TasksHeap TasksSystem TasksBoot TasksProps EventGroups EventGroupsOk.

Section Properties.
Context {A : Type} `{HS : StaticsOk} `{HH : KernelHeap A} (E : gset Z).
Implicit Types (k : kernel A) (V : view) (b c : TCB) (D X : gset Z) (s : groups A).

Lemma bits_set_waiters g bits s s' V V' : sched E (gkernel s) V -> waiters_ok s V -> groups_ok E s -> is_Some (uxEventBits s !! g) ->
  (forall g', is_Some (uxEventBits s' !! g') -> is_Some (uxEventBits s !! g')) ->
  bits_set g bits (gkernel s) (gkernel s') V V' -> waiters_ok s' V'.
Proof.
  intros HI Hws Hgs Hg Hdom [B1 _ _ B4 _ B6] g' t Hg' Ht Hc. rewrite B1 in Ht. pose proof Ht as [b Hb].
  assert (Hrest : cont V (xEventListItem t) <> xTasksWaitingForBits g \/ match_found (value V (xEventListItem t)) bits = false ->
    exists n clear all, is_bits n /\ value V' (xEventListItem t) = asks n clear all).
  { intros Hno. destruct (B6 t Ht Hno) as (_ & Ec & ->). eapply Hws; [by apply Hdom|done|]. by rewrite <- Ec. }
  destruct (decide (cont V (xEventListItem t) = xTasksWaitingForBits g)) as [Eg|N]; [|by apply Hrest; left].
  destruct (match_found (value V (xEventListItem t)) bits) eqn:Em; [|by apply Hrest; right].
  destruct (B4 t b Hb Eg Em) as (_ & E0 & _). exfalso. destruct (Hdom g' Hg') as [w' Hw']. destruct (Hgs g' w' Hw') as [Hl' _].
  apply (event_nonnull E (gkernel s) V _ HI Hl'). congruence.
Qed.

End Properties.

(** ** Two tasks of the boot wait *)

Definition group : Z := waiters - 4.
Definition to_waiting : list call :=
  [SuspendAll; PlaceUnordered waiters (Z.lor 3 (control_bits true true)) 100; ResumeAll; Yield; Switch stack_pointer;
   SuspendAll; PlaceUnordered waiters (Z.lor 4 (control_bits false false)) 50; ResumeAll; Yield; Switch stack_pointer].
Definition kernel7 : kernel heap_state := Eval vm_compute in exec (run_calls to_waiting) kernel3.
Lemma kernel7_run : run_calls to_waiting kernel3 = Done (tt, kernel7).
Proof. vm_compute. reflexivity. Qed.
Lemma to_waiting_ok : calls_ok event_lists to_waiting kernel3 = true.
Proof. vm_compute. reflexivity. Qed.
Lemma kernel7_good : exists D X V L, good event_lists D X kernel7 V /\ owns event_lists kernel7 L.
Proof. exact (wp_run _ _ _ _ _ (calls_sound event_lists to_waiting kernel3 kernel3_sound to_waiting_ok) kernel7_run). Qed.
Definition groups7 : groups heap_state := mkGroups kernel7 {[group := 1]}.

Lemma groups7_ok : groups_ok event_lists groups7.
Proof.
  intros g w Hg. cbn in Hg. apply lookup_singleton_Some in Hg as [<- <-]. split; [|done]. apply elem_of_singleton. reflexivity.
Qed.

(** Does a value say which bits are waited for? *)
Definition is_asking (v : Z) : bool := v =? asks (v mod 16777216) (Z.testbit v 24) (Z.testbit v 26).
Definition value_in (k : kernel heap_state) (i : Z) : Z := match minis (kls k) !! i with Some m => xItemValue m | None => 0 end.
Definition waiters_okb (s : groups heap_state) : bool :=
  forallb (fun t => forallb (fun g => implb (list_of (gkernel s) (xEventListItem t) =? xTasksWaitingForBits g)
    (is_asking (value_in (gkernel s) (xEventListItem t)))) (elements (dom (uxEventBits s)))) (elements (dom (tcbs (gkernel s)))).

Lemma waiters_okb_ok E D X s V : good E D X (gkernel s) V -> waiters_okb s = true -> waiters_ok s V.
Proof.
  intros GD Hb g t [w Hw] [b Ht] Hc. pose proof (in_sched _ _ _ _ _ GD) as HI.
  assert (Ha := proj1 (forallb_forall _ _) Hb t ltac:(apply list_elem_of_In, elem_of_elements, elem_of_dom; eauto)). cbv beta in Ha.
  assert (Hg := proj1 (forallb_forall _ _) Ha g ltac:(apply list_elem_of_In, elem_of_elements, elem_of_dom; eauto)). cbv beta in Hg.
  rewrite (reads_event E D X _ V GD t b Ht), Hc, Z.eqb_refl in Hg. cbn [implb] in Hg. apply Z.eqb_eq in Hg.
  assert (Hv : value_in (gkernel s) (xEventListItem t) = value V (xEventListItem t)).
  { unfold value_in. destruct (sh_mini _ _ (sc_shows _ _ _ HI) (xEventListItem t)) as (m & -> & <-); [by eapply (it_event E)|done]. }
  rewrite Hv in Hg. exists (value V (xEventListItem t) mod 16777216), (Z.testbit (value V (xEventListItem t)) 24), (Z.testbit (value V (xEventListItem t)) 26).
  split; [|exact Hg]. unfold is_bits. apply Z.mod_pos_bound. lia.
Qed.

Lemma waits7 D X V : good event_lists D X kernel7 V -> waits_for kernel7 V group timer 3 true true /\ waits_for kernel7 V group console 4 false false.
Proof.
  intros GD. pose proof (in_sched _ _ _ _ _ GD) as HI.
  assert (Hx : forall t n clear all, is_Some (tcbs kernel7 !! t) -> list_of kernel7 (xEventListItem t) = xTasksWaitingForBits group ->
    (xItemValue <$> minis (kls kernel7) !! xEventListItem t) = Some (asks n clear all) -> is_bits n -> waits_for kernel7 V group t n clear all).
  { intros t n clear all [b Ht] Hl Hv Hn. split; [eauto|]. split; [by rewrite <- (reads_event event_lists D X kernel7 V GD t b Ht)|]. split; [|done].
    destruct (sh_mini _ _ (sc_shows _ _ _ HI) (xEventListItem t)) as (m & Hm & <-); [by eapply (it_event event_lists)|].
    rewrite Hm in Hv. cbn in Hv. congruence. }
  split; apply Hx; by_decision || done.
Qed.


(** A rendezvous of two tasks: each sets its own bit and waits for both; both
    get the two bits and the group is empty again. *)
Definition groups3 : groups heap_state := mkGroups kernel3 {[group := 0]}.
Definition second_arrives : M (groups heap_state) Z :=
  onk (SW_Handler stack_pointer);;
  r ← xEventGroupSync (mret tt) group 2 3 100;
  onk (SW_Handler stack_pointer);;
  mret r.
Definition rendezvous : M (groups heap_state) (Z * Z) :=
  r1 ← xEventGroupSync (second_arrives;; mret tt) group 1 3 100;
  cur ← gets (fun s => pxCurrentTCB (gkernel s));
  mret (r1, cur).
Example rendezvous_runs : exists s', rendezvous groups3 = Done ((3, timer), s') /\ uxEventBits s' !! group = Some 0.
Proof. eexists. split; [vm_compute; reflexivity|reflexivity]. Qed.
