(* ===== verification/Streams.v ===== *)
(** FreeRTOS/stream_buffer.c, the ring of bytes: positions, copying in and out
    around the end of the storage, streams of bytes and whole messages.  One
    writer and one reader share a buffer without a lock: the writer copies, then
    moves the head, the reader copies, then moves the tail. *)
From S2P Require Import Prelude.

Definition sbFLAGS_IS_MESSAGE_BUFFER : Z := 1.
Definition sbBYTES_TO_STORE_MESSAGE_LENGTH : Z := 4.

(** The storage area is the list of its bytes; 0 is no task. *)
Record StreamBuffer_t := mkStream {
  xTail : Z;
  xHead : Z;
  xLength : Z;
  xTriggerLevelBytes : Z;
  xTaskWaitingToReceive : Z;
  xTaskWaitingToSend : Z;
  pucBuffer : list Z;
  ucFlags : Z
}.

Definition set_xTail (v : Z) (b : StreamBuffer_t) : StreamBuffer_t :=
  mkStream v (xHead b) (xLength b) (xTriggerLevelBytes b) (xTaskWaitingToReceive b) (xTaskWaitingToSend b) (pucBuffer b) (ucFlags b).
Definition set_xHead (v : Z) (b : StreamBuffer_t) : StreamBuffer_t :=
  mkStream (xTail b) v (xLength b) (xTriggerLevelBytes b) (xTaskWaitingToReceive b) (xTaskWaitingToSend b) (pucBuffer b) (ucFlags b).
Definition set_xTriggerLevelBytes (v : Z) (b : StreamBuffer_t) : StreamBuffer_t :=
  mkStream (xTail b) (xHead b) (xLength b) v (xTaskWaitingToReceive b) (xTaskWaitingToSend b) (pucBuffer b) (ucFlags b).
Definition set_xTaskWaitingToReceive (v : Z) (b : StreamBuffer_t) : StreamBuffer_t :=
  mkStream (xTail b) (xHead b) (xLength b) (xTriggerLevelBytes b) v (xTaskWaitingToSend b) (pucBuffer b) (ucFlags b).
Definition set_xTaskWaitingToSend (v : Z) (b : StreamBuffer_t) : StreamBuffer_t :=
  mkStream (xTail b) (xHead b) (xLength b) (xTriggerLevelBytes b) (xTaskWaitingToReceive b) v (pucBuffer b) (ucFlags b).
Definition set_pucBuffer (v : list Z) (b : StreamBuffer_t) : StreamBuffer_t :=
  mkStream (xTail b) (xHead b) (xLength b) (xTriggerLevelBytes b) (xTaskWaitingToReceive b) (xTaskWaitingToSend b) v (ucFlags b).

Definition is_message (b : StreamBuffer_t) : bool := negb (Z.land (ucFlags b) sbFLAGS_IS_MESSAGE_BUFFER =? 0).
(** The assertion fills the storage with 0x55. *)
Definition prvInitialiseNewStreamBuffer (xBufferSizeBytes xTriggerLevelBytes flags : Z) : StreamBuffer_t :=
  mkStream 0 0 xBufferSizeBytes xTriggerLevelBytes 0 0 (repeat 85 (Z.to_nat xBufferSizeBytes)) flags.

(** ** Bytes and space *)

Definition prvBytesInBuffer (b : StreamBuffer_t) : Z :=
  let xCount := u32 (u32 (xLength b + xHead b) - xTail b) in
  if xLength b <=? xCount then xCount - xLength b else xCount.
(** The loop reads the tail again until it has not changed; nothing runs in
    between here. *)
Definition xStreamBufferSpacesAvailable (b : StreamBuffer_t) : Z :=
  let xSpace := u32 (u32 (u32 (xLength b + xTail b) - xHead b) - 1) in
  if xLength b <=? xSpace then xSpace - xLength b else xSpace.
Definition xStreamBufferBytesAvailable (b : StreamBuffer_t) : Z := prvBytesInBuffer b.
Definition xStreamBufferIsEmpty (b : StreamBuffer_t) : bool := xHead b =? xTail b.
Definition length_bytes (b : StreamBuffer_t) : Z := if is_message b then sbBYTES_TO_STORE_MESSAGE_LENGTH else 0.
Definition xStreamBufferIsFull (b : StreamBuffer_t) : bool := xStreamBufferSpacesAvailable b <=? length_bytes b.

(** ** Copying *)

(** memcpy from and into an area of memory; out of its bounds is a fault. *)
Definition copy_from (area : list Z) (off n : Z) : option (list Z) :=
  if (0 <=? off) && (0 <=? n) && (off + n <=? Z.of_nat (length area)) then Some (take (Z.to_nat n) (drop (Z.to_nat off) area)) else None.
Definition copy_into (area : list Z) (off : Z) (data : list Z) : option (list Z) :=
  if (0 <=? off) && (off + Z.of_nat (length data) <=? Z.of_nat (length area))
  then Some (take (Z.to_nat off) area ++ data ++ drop (Z.to_nat off + length data) area) else None.

Definition store_bytes (off : Z) (data : list Z) : M StreamBuffer_t unit :=
  area ← gets pucBuffer; area' ← of_option (copy_into area off data); modify (set_pucBuffer area').
Definition load_bytes (off n : Z) : M StreamBuffer_t (list Z) := area ← gets pucBuffer; of_option (copy_from area off n).

(** The new head. *)
Definition prvWriteBytesToBuffer (pucData : list Z) (xCount head : Z) : M StreamBuffer_t Z :=
  assert_ (0 <? xCount);;
  len ← gets xLength;
  let xFirstLength := Z.min (u32 (len - head)) xCount in
  assert_ (u32 (head + xFirstLength) <=? len);;
  d ← of_option (copy_from pucData 0 xFirstLength);
  store_bytes head d;;
  (if xFirstLength <? xCount then
     assert_ (xCount - xFirstLength <=? len);;
     d ← of_option (copy_from pucData xFirstLength (xCount - xFirstLength));
     store_bytes 0 d
   else mret tt);;
  let head := u32 (head + xCount) in
  mret (if len <=? head then head - len else head).

(** What is read, and the new tail. *)
Definition prvReadBytesFromBuffer (xCount tail : Z) : M StreamBuffer_t (list Z * Z) :=
  assert_ (negb (xCount =? 0));;
  len ← gets xLength;
  let xFirstLength := Z.min (u32 (len - tail)) xCount in
  assert_ (xFirstLength <=? xCount);;
  assert_ (u32 (tail + xFirstLength) <=? len);;
  d ← load_bytes tail xFirstLength;
  d2 ← (if xFirstLength <? xCount then load_bytes 0 (xCount - xFirstLength) else mret []);
  let tail := u32 (tail + xCount) in
  mret (d ++ d2, if len <=? tail then tail - len else tail).

(** ** Messages *)

Definition bytes_of_length (v : Z) : list Z := [v mod 256; v / 256 mod 256; v / 65536 mod 256; v / 16777216 mod 256].
Definition length_of_bytes (bs : list Z) : Z :=
  match bs with [a; b; c; d] => a + 256 * b + 65536 * c + 16777216 * d | _ => 0 end.

(** [prvWriteMessageToBuffer] up to the move of the head: the length written, and
    the new head if there is one. *)
Definition write_copy (pvTxData : list Z) (xDataLengthBytes xSpace xRequiredSpace : Z) : M StreamBuffer_t (Z * option Z) :=
  b ← get;
  '(n, next) ← (if is_message b then
      if xRequiredSpace <=? xSpace then
        next ← prvWriteBytesToBuffer (bytes_of_length xDataLengthBytes) sbBYTES_TO_STORE_MESSAGE_LENGTH (xHead b);
        mret (xDataLengthBytes, next)
      else mret (0, xHead b)
    else mret (Z.min xDataLengthBytes xSpace, xHead b));
  if negb (n =? 0) then next ← prvWriteBytesToBuffer pvTxData n next; mret (n, Some next) else mret (n, None).
Definition publish_head (next : option Z) : M StreamBuffer_t unit :=
  match next with Some h => modify (set_xHead h) | None => mret tt end.
Definition prvWriteMessageToBuffer (pvTxData : list Z) (xDataLengthBytes xSpace xRequiredSpace : Z) : M StreamBuffer_t Z :=
  '(n, next) ← write_copy pvTxData xDataLengthBytes xSpace xRequiredSpace;
  publish_head next;;
  mret n.

(** [prvReadMessageFromBuffer] up to the move of the tail. *)
Definition read_copy (xBufferLengthBytes xBytesAvailable : Z) : M StreamBuffer_t (list Z * option Z) :=
  b ← get;
  '(want, avail, next) ← (if is_message b then
      '(bs, next) ← prvReadBytesFromBuffer sbBYTES_TO_STORE_MESSAGE_LENGTH (xTail b);
      let n := length_of_bytes bs in
      mret (if xBufferLengthBytes <? n then 0 else n, u32 (xBytesAvailable - sbBYTES_TO_STORE_MESSAGE_LENGTH), next)
    else mret (xBufferLengthBytes, xBytesAvailable, xTail b));
  let xCount := Z.min want avail in
  if negb (xCount =? 0) then '(d, next) ← prvReadBytesFromBuffer xCount next; mret (d, Some next) else mret ([], None).
Definition publish_tail (next : option Z) : M StreamBuffer_t unit :=
  match next with Some t => modify (set_xTail t) | None => mret tt end.
Definition prvReadMessageFromBuffer (xBufferLengthBytes xBytesAvailable : Z) : M StreamBuffer_t (list Z) :=
  '(d, next) ← read_copy xBufferLengthBytes xBytesAvailable;
  publish_tail next;;
  mret d.

Definition xStreamBufferNextMessageLengthBytes : M StreamBuffer_t Z :=
  b ← get;
  if is_message b then
    let n := prvBytesInBuffer b in
    if sbBYTES_TO_STORE_MESSAGE_LENGTH <? n then
      '(bs, _) ← prvReadBytesFromBuffer sbBYTES_TO_STORE_MESSAGE_LENGTH (xTail b); mret (length_of_bytes bs)
    else assert_ (n =? 0);; mret 0
  else mret 0.
Definition xStreamBufferSetTriggerLevel (xTriggerLevel : Z) : M StreamBuffer_t bool :=
  let level := if xTriggerLevel =? 0 then 1 else xTriggerLevel in
  len ← gets xLength;
  if level <? len then modify (set_xTriggerLevelBytes level);; mret true else mret false.
