(* ===== verification/StreamsOk.v ===== *)
(** The ring of a stream buffer as a sequence of bytes, and what copying in and
    out does to it. *)
From S2P Require Import Prelude Streams.

Definition wrap (len x : Z) : Z := if len <=? x then x - len else x.
Definition ahead (len h j : Z) : Z := if j <? h then j - h + len else j - h.
Definition byte_at (bs : list Z) (j : Z) : Z := nth (Z.to_nat j) bs 0.

(** [n] bytes of the storage from position [t] on. *)
Definition ring (len : Z) (buf : list Z) (t n : Z) : list Z := (fun i => byte_at buf (wrap len (t + i))) <$> seqZ 0 n.
Definition used (b : StreamBuffer_t) : Z := ahead (xLength b) (xTail b) (xHead b).
Definition content (b : StreamBuffer_t) : list Z := ring (xLength b) (pucBuffer b) (xTail b) (used b).

Record sb_ok (b : StreamBuffer_t) : Prop := {
  sb_length : 1 < xLength b < 2147483648;
  sb_storage : Z.of_nat (length (pucBuffer b)) = xLength b;
  sb_tail : 0 <= xTail b < xLength b;
  sb_head : 0 <= xHead b < xLength b
}.

(** Case analysis on every position. *)
Ltac ring_lia := unfold wrap, ahead in *; repeat match goal with
  | |- context [?a <? ?b] => destruct (Z.ltb_spec a b)
  | |- context [?a <=? ?b] => destruct (Z.leb_spec a b)
  | H : context [?a <? ?b] |- _ => destruct (Z.ltb_spec a b)
  | H : context [?a <=? ?b] |- _ => destruct (Z.leb_spec a b)
  end; try lia.

(** ** Areas of memory *)

Lemma byte_at_lookup bs i : byte_at bs (Z.of_nat i) = default 0 (bs !! i).
Proof. unfold byte_at. rewrite Nat2Z.id. revert i. by induction bs as [|x bs IH]; intros [|i]; cbn. Qed.

Lemma bytes_eq bs bs' : length bs = length bs' -> (forall j, 0 <= j < Z.of_nat (length bs) -> byte_at bs j = byte_at bs' j) -> bs = bs'.
Proof.
  intros Hl Hb. apply list_eq_same_length with (length bs); [done|done|]. intros i x y Hi Hx Hy.
  specialize (Hb (Z.of_nat i) ltac:(lia)). rewrite !byte_at_lookup, Hx, Hy in Hb. done.
Qed.

Lemma length_ring len buf t n : 0 <= n -> Z.of_nat (length (ring len buf t n)) = n.
Proof. intros Hn. unfold ring. rewrite length_fmap, length_seqZ. lia. Qed.
Lemma ring_at len buf t n j : 0 <= j < n -> byte_at (ring len buf t n) j = byte_at buf (wrap len (t + j)).
Proof.
  intros Hj. rewrite <- (Z2Nat.id j) by lia. rewrite byte_at_lookup. unfold ring. rewrite list_lookup_fmap.
  rewrite (lookup_seqZ_lt _ _ (Z.to_nat j)) by lia. done.
Qed.

Lemma copy_into_ok area off data : 0 <= off -> off + Z.of_nat (length data) <= Z.of_nat (length area) ->
  exists area', copy_into area off data = Some area' /\ length area' = length area /\
    forall j, 0 <= j -> byte_at area' j = if (off <=? j) && (j <? off + Z.of_nat (length data)) then byte_at data (j - off) else byte_at area j.
Proof.
  intros H0 H1. unfold copy_into. rewrite (proj2 (Z.leb_le 0 off) H0), (proj2 (Z.leb_le _ _) H1). eexists. split; [reflexivity|]. split.
  - rewrite !length_app, length_take, length_drop. lia.
  - intros j Hj. rewrite <- (Z2Nat.id j) by lia. set (i := Z.to_nat j). rewrite byte_at_lookup.
    destruct (Z.leb_spec off (Z.of_nat i)) as [Ho|Ho]; cbn [andb].
    + rewrite lookup_app_r by (rewrite length_take; lia). rewrite length_take_le by lia.
      destruct (Z.ltb_spec (Z.of_nat i) (off + Z.of_nat (length data))) as [Hd|Hd].
      * rewrite lookup_app_l by lia. replace (Z.of_nat i - off) with (Z.of_nat (i - Z.to_nat off)) by lia. by rewrite byte_at_lookup.
      * rewrite lookup_app_r by lia. rewrite lookup_drop, byte_at_lookup. do 2 f_equal; lia.
    + rewrite lookup_app_l by (rewrite length_take; lia). rewrite lookup_take_lt by lia. by rewrite byte_at_lookup.
Qed.

Lemma copy_from_ok area off n : 0 <= off -> 0 <= n -> off + n <= Z.of_nat (length area) ->
  exists d, copy_from area off n = Some d /\ Z.of_nat (length d) = n /\ forall j, 0 <= j < n -> byte_at d j = byte_at area (off + j).
Proof.
  intros H0 H1 H2. unfold copy_from. rewrite (proj2 (Z.leb_le 0 off) H0), (proj2 (Z.leb_le 0 n) H1), (proj2 (Z.leb_le _ _) H2).
  eexists. split; [reflexivity|]. split; [rewrite length_take, length_drop; lia|].
  intros j Hj. rewrite <- (Z2Nat.id j) by lia. rewrite byte_at_lookup, lookup_take_lt, lookup_drop by lia.
  replace (off + Z.of_nat (Z.to_nat j)) with (Z.of_nat (Z.to_nat off + Z.to_nat j)) by lia. by rewrite byte_at_lookup.
Qed.

Lemma store_bytes_ok b off data (Q : unit -> StreamBuffer_t -> Prop) : 0 <= off -> off + Z.of_nat (length data) <= Z.of_nat (length (pucBuffer b)) ->
  (forall area', length area' = length (pucBuffer b) ->
     (forall j, 0 <= j -> byte_at area' j = if (off <=? j) && (j <? off + Z.of_nat (length data)) then byte_at data (j - off) else byte_at (pucBuffer b) j) ->
     Q tt (set_pucBuffer area' b)) -> wp (store_bytes off data) b Q.
Proof.
  intros H0 H1 HQ. destruct (copy_into_ok _ off data H0 H1) as (area' & He & Hl & Hb). apply wp_bind, wp_gets, wp_bind.
  eapply wp_of_option; [exact He|]. apply wp_modify. by apply HQ.
Qed.
Lemma load_bytes_ok b off n (Q : list Z -> StreamBuffer_t -> Prop) : 0 <= off -> 0 <= n -> off + n <= Z.of_nat (length (pucBuffer b)) ->
  (forall d, Z.of_nat (length d) = n -> (forall j, 0 <= j < n -> byte_at d j = byte_at (pucBuffer b) (off + j)) -> Q d b) -> wp (load_bytes off n) b Q.
Proof.
  intros H0 H1 H2 HQ. destruct (copy_from_ok _ off n H0 H1 H2) as (d & He & Hl & Hb). apply wp_bind, wp_gets. eapply wp_of_option; [exact He|].
  by apply HQ.
Qed.

(** ** Counting *)

Section Counting.
Context (b : StreamBuffer_t) (OK : sb_ok b).

Lemma used_range : 0 <= used b < xLength b.
Proof. destruct OK as [H1 H2 H3 H4]. unfold used. ring_lia. Qed.
Lemma head_wraps : xHead b = wrap (xLength b) (xTail b + used b).
Proof. destruct OK as [H1 H2 H3 H4]. unfold used. ring_lia. Qed.
Lemma prvBytesInBuffer_eq : prvBytesInBuffer b = used b.
Proof.
  destruct OK as [H1 H2 H3 H4]. unfold prvBytesInBuffer, used. rewrite !u32_small by (rewrite ?u32_small; unfold is_u32; lia). ring_lia.
Qed.
Lemma spaces_eq : xStreamBufferSpacesAvailable b = xLength b - 1 - used b.
Proof.
  destruct OK as [H1 H2 H3 H4]. unfold xStreamBufferSpacesAvailable, used. rewrite !u32_small by (rewrite ?u32_small; rewrite ?u32_small; unfold is_u32; lia). ring_lia.
Qed.
End Counting.

(** ** Copying *)

Lemma prvWriteBytesToBuffer_ok b data n h (Q : Z -> StreamBuffer_t -> Prop) : sb_ok b -> 0 < n <= xLength b -> 0 <= h < xLength b ->
  n <= Z.of_nat (length data) ->
  (forall buf, Z.of_nat (length buf) = xLength b ->
     (forall j, 0 <= j < xLength b -> byte_at buf j =
        if ahead (xLength b) h j <? n then byte_at data (ahead (xLength b) h j) else byte_at (pucBuffer b) j) ->
     Q (wrap (xLength b) (h + n)) (set_pucBuffer buf b)) -> wp (prvWriteBytesToBuffer data n h) b Q.
Proof.
  intros [H1 H2 H3 H4] Hn Hh Hd HQ. set (len := xLength b) in *.
  apply wp_bind, wp_assert; [lia|]. apply wp_bind, wp_gets. fold len. cbv zeta.
  assert (E1 : u32 (len - h) = len - h) by (apply u32_small; unfold is_u32; lia). rewrite E1.
  set (first := Z.min (len - h) n). assert (Hf : 0 < first /\ first <= n /\ h + first <= len /\ (first = n \/ first = len - h)) by (unfold first; lia).
  destruct Hf as (F1 & F2 & F3 & F4). apply wp_bind, wp_assert; [rewrite u32_small by (unfold is_u32; lia); lia|].
  destruct (copy_from_ok data 0 first) as (d & Ed & Ld & Bd); [lia|lia|lia|].
  apply wp_bind. eapply wp_of_option; [exact Ed|]. apply wp_bind, store_bytes_ok; [lia|lia|]. intros a1 L1 B1. rewrite Ld in B1.
  assert (E2 : u32 (h + n) = h + n) by (apply u32_small; unfold is_u32; lia). rewrite E2. change (if len <=? h + n then h + n - len else h + n) with (wrap len (h + n)).
  apply wp_bind. destruct (Z.ltb_spec first n) as [Hlt|Hge].
  - apply wp_bind, wp_assert; [lia|]. destruct (copy_from_ok data first (n - first)) as (d2 & Ed2 & Ld2 & Bd2); [lia|lia|lia|].
    apply wp_bind. eapply wp_of_option; [exact Ed2|]. apply store_bytes_ok; [lia|cbn; lia|]. intros a2 L2 B2. cbn [pucBuffer set_pucBuffer] in *. rewrite Ld2 in B2.
    apply wp_ret. apply (HQ a2); [lia|]. intros j Hj. rewrite B2, B1 by lia.
    destruct (Z.leb_spec 0 j), (Z.ltb_spec j (0 + (n - first))), (Z.leb_spec h j), (Z.ltb_spec j (h + first)); cbn [andb];
      unfold ahead; destruct (Z.ltb_spec j h); try lia; try (destruct (Z.ltb_spec (j - h + len) n)); try (destruct (Z.ltb_spec (j - h) n)); try lia; try done.
    + rewrite Bd2 by lia. f_equal; lia.
    + rewrite Bd by lia. f_equal; lia.
  - apply wp_ret, wp_ret. apply (HQ a1); [lia|]. intros j Hj. rewrite B1 by lia.
    destruct (Z.leb_spec h j), (Z.ltb_spec j (h + first)); cbn [andb];
      unfold ahead; destruct (Z.ltb_spec j h); try lia; try (destruct (Z.ltb_spec (j - h + len) n)); try (destruct (Z.ltb_spec (j - h) n)); try lia; try done.
    rewrite Bd by lia. f_equal; lia.
Qed.

Lemma prvReadBytesFromBuffer_ok b n t (Q : list Z * Z -> StreamBuffer_t -> Prop) : sb_ok b -> 0 < n <= xLength b -> 0 <= t < xLength b ->
  Q (ring (xLength b) (pucBuffer b) t n, wrap (xLength b) (t + n)) b -> wp (prvReadBytesFromBuffer n t) b Q.
Proof.
  intros [H1 H2 H3 H4] Hn Ht HQ. set (len := xLength b) in *.
  apply wp_bind, wp_assert; [by rewrite (proj2 (Z.eqb_neq n 0)) by lia|]. apply wp_bind, wp_gets. fold len. cbv zeta.
  assert (E1 : u32 (len - t) = len - t) by (apply u32_small; unfold is_u32; lia). rewrite E1.
  set (first := Z.min (len - t) n). assert (Hf : 0 < first /\ first <= n /\ t + first <= len /\ (first = n \/ first = len - t)) by (unfold first; lia).
  destruct Hf as (F1 & F2 & F3 & F4). apply wp_bind, wp_assert; [lia|]. apply wp_bind, wp_assert; [rewrite u32_small by (unfold is_u32; lia); lia|].
  apply wp_bind, load_bytes_ok; [lia|lia|lia|]. intros d Ld Bd.
  assert (E2 : u32 (t + n) = t + n) by (apply u32_small; unfold is_u32; lia). rewrite E2. change (if len <=? t + n then t + n - len else t + n) with (wrap len (t + n)).
  apply wp_bind. assert (Hgo : forall d2, Z.of_nat (length d2) = n - first -> (forall j, 0 <= j < n - first -> byte_at d2 j = byte_at (pucBuffer b) j) ->
    d ++ d2 = ring len (pucBuffer b) t n).
  { intros d2 L2 B2. apply bytes_eq; [rewrite length_app; pose proof (length_ring len (pucBuffer b) t n); lia|]. intros j Hj. rewrite length_app in Hj. rewrite ring_at by lia.
    rewrite <- (Z2Nat.id j) by lia. set (i := Z.to_nat j). rewrite byte_at_lookup. destruct (Z.ltb_spec (Z.of_nat i) first).
    - rewrite lookup_app_l by lia. rewrite <- byte_at_lookup, Bd by lia. f_equal; ring_lia.
    - rewrite lookup_app_r by lia. rewrite <- byte_at_lookup, B2 by lia. f_equal; ring_lia. }
  destruct (Z.ltb_spec first n) as [Hlt|Hge].
  - apply load_bytes_ok; [lia|lia|lia|]. intros d2 L2 B2. apply wp_ret. rewrite Hgo; [exact HQ|done|]. intros j Hj. by rewrite B2 by lia.
  - apply wp_ret, wp_ret. rewrite Hgo; [exact HQ|cbn; lia|]. intros j Hj. lia.
Qed.

(** ** Rings *)

Lemma seqZ_range m n i x : seqZ m n !! i = Some x -> m <= x < m + n.
Proof. intros Hx. apply lookup_seqZ in Hx. lia. Qed.
Lemma ring_same len buf buf' t n : (forall i, 0 <= i < n -> byte_at buf' (wrap len (t + i)) = byte_at buf (wrap len (t + i))) ->
  ring len buf' t n = ring len buf t n.
Proof. intros Hb. unfold ring. apply list_fmap_ext. intros k i Hi. apply seqZ_range in Hi. apply Hb. lia. Qed.
Lemma ring_app len buf t n m : 0 <= n -> 0 <= m -> 0 <= t < len -> n + m <= len ->
  ring len buf t (n + m) = ring len buf t n ++ ring len buf (wrap len (t + n)) m.
Proof.
  intros Hn Hm Ht Hl. unfold ring. rewrite seqZ_app by lia. rewrite fmap_app. f_equal.
  replace (0 + n) with (n + 0) by lia. rewrite <- fmap_add_seqZ, <- list_fmap_compose. apply list_fmap_ext. intros k i Hi. apply seqZ_range in Hi.
  cbn. f_equal. ring_lia.
Qed.
Lemma ring_of_data len buf h n data : 0 <= n <= Z.of_nat (length data) -> (forall i, 0 <= i < n -> byte_at buf (wrap len (h + i)) = byte_at data i) ->
  ring len buf h n = take (Z.to_nat n) data.
Proof.
  intros Hn Hb. apply bytes_eq.
  - rewrite length_take. pose proof (length_ring len buf h n ltac:(lia)). lia.
  - intros j Hj. rewrite length_ring in Hj by lia. rewrite ring_at, Hb by lia. rewrite <- (Z2Nat.id j) by lia. by rewrite !byte_at_lookup, lookup_take_lt by lia.
Qed.

(** ** Writing and reading a chunk *)

Definition frame (m : list Z) : list Z := bytes_of_length (Z.of_nat (length m)) ++ m.
(** The bytes that [m] takes in the buffer. *)
Definition wire (message : bool) (m : list Z) : list Z := if message then frame m else m.
Definition len (m : list Z) : Z := Z.of_nat (length m).

Lemma len_app xs ys : len (xs ++ ys) = len xs + len ys.
Proof. unfold len. rewrite length_app. lia. Qed.
Lemma len_frame m : len (frame m) = 4 + len m.
Proof. unfold frame. rewrite len_app. done. Qed.
Lemma length_bytes_roundtrip n : is_u32 n -> length_of_bytes (bytes_of_length n) = n.
Proof. intros Hn. cbn -[Z.mul Z.div Z.modulo]. zlia. Qed.

Lemma frame_inj d m x y : is_u32 (len d) -> is_u32 (len m) -> frame d ++ x = frame m ++ y -> d = m /\ x = y.
Proof.
  intros Hd Hm E. assert (Hl : len d = len m).
  { pose proof (f_equal (take 4) E) as E4. cbn [frame app take bytes_of_length] in E4.
    assert (Hb : bytes_of_length (len d) = bytes_of_length (len m)) by exact E4.
    apply (f_equal length_of_bytes) in Hb. by rewrite !length_bytes_roundtrip in Hb. }
  apply app_inj_1 in E as [Hf ->]; [|pose proof (len_frame d); pose proof (len_frame m); unfold len in *; lia].
  split; [|done]. by apply (f_equal (drop 4)) in Hf.
Qed.

(** What was written at [h] is on the ring there; the rest stays. *)
Lemma ring_written b buf data n h : sb_ok b -> 0 < n <= xLength b -> 0 <= h < xLength b -> n <= len data ->
  (forall j, 0 <= j < xLength b -> byte_at buf j = if ahead (xLength b) h j <? n then byte_at data (ahead (xLength b) h j) else byte_at (pucBuffer b) j) ->
  ring (xLength b) buf h n = take (Z.to_nat n) data.
Proof.
  intros [H1 H2 H3 H4] Hn Hh Hd Hb. apply ring_of_data; [unfold len in Hd; lia|]. intros i Hi.
  assert (Ha : ahead (xLength b) h (wrap (xLength b) (h + i)) = i) by ring_lia. rewrite Hb by ring_lia. rewrite Ha.
  by rewrite (proj2 (Z.ltb_lt i n)) by lia.
Qed.
Lemma ring_unwritten b buf data n h t k : sb_ok b -> 0 <= h < xLength b -> 0 <= t < xLength b -> 0 <= k ->
  ahead (xLength b) t h + n <= xLength b -> k <= ahead (xLength b) t h ->
  (forall j, 0 <= j < xLength b -> byte_at buf j = if ahead (xLength b) h j <? n then byte_at data (ahead (xLength b) h j) else byte_at (pucBuffer b) j) ->
  ring (xLength b) buf t k = ring (xLength b) (pucBuffer b) t k.
Proof.
  intros [H1 H2 H3 H4] Hh Ht Hk Hn Hka Hb. apply ring_same. intros i Hi. rewrite Hb by ring_lia.
  destruct (Z.ltb_spec (ahead (xLength b) h (wrap (xLength b) (t + i))) n) as [Hlt|]; [|done]. exfalso. ring_lia.
Qed.

Lemma set_pucBuffer_ok b buf : sb_ok b -> Z.of_nat (length buf) = xLength b -> sb_ok (set_pucBuffer buf b).
Proof. intros [H1 H2 H3 H4] Hl. by split. Qed.

(** The result of [write_copy]: nothing to publish, or the new head behind the
    chunk; the content is as before. *)
Definition written (b : StreamBuffer_t) (data : list Z) (n : Z) (next : option Z) (buf : list Z) : Prop :=
  match next with
  | None => n = 0
  | Some h => 0 < n <= len data /\ (is_message b = true -> n = len data) /\
      let chunk := wire (is_message b) (take (Z.to_nat n) data) in
      h = wrap (xLength b) (xHead b + len chunk) /\ len chunk <= xLength b - 1 - used b /\
      ring (xLength b) buf (xHead b) (len chunk) = chunk
  end.

(** How many bytes of [data] go into [sp] bytes of space: a whole message or
    none, as much of a stream as fits. *)
Definition sendable (b : StreamBuffer_t) (data : list Z) (sp : Z) : Z :=
  if is_message b then if len data + 4 <=? sp then len data else 0 else Z.min (len data) sp.

Section Writing.
Context (b : StreamBuffer_t) (data : list Z) (Q : Z * option Z -> StreamBuffer_t -> Prop) (OK : sb_ok b).

(** The length of a message is in the buffer; now its bytes. *)
Lemma write_message_ok buf1 : is_message b = true -> 0 < len data -> len data + 4 <= xLength b - 1 - used b ->
  len data + 4 < 4294967296 -> Z.of_nat (length buf1) = xLength b ->
  ring (xLength b) buf1 (xTail b) (used b) = content b -> ring (xLength b) buf1 (xHead b) 4 = bytes_of_length (len data) ->
  (forall buf, Z.of_nat (length buf) = xLength b -> ring (xLength b) buf (xTail b) (used b) = content b ->
     written b data (len data) (Some (wrap (xLength b) (wrap (xLength b) (xHead b + 4) + len data))) buf ->
     Q (len data, Some (wrap (xLength b) (wrap (xLength b) (xHead b + 4) + len data))) (set_pucBuffer buf b)) ->
  wp (next ← prvWriteBytesToBuffer data (len data) (wrap (xLength b) (xHead b + 4)); mret (len data, Some next)) (set_pucBuffer buf1 b) Q.
Proof.
  intros Em Hd Hfit Hw L1 R1 W1 HQ. pose proof OK as [H1 H2 H3 H4]. pose proof (used_range b OK) as Hu.
  assert (OK1 : sb_ok (set_pucBuffer buf1 b)) by (by apply set_pucBuffer_ok).
  assert (Hall : take (Z.to_nat (len data)) data = data) by (unfold len; by rewrite Nat2Z.id, firstn_all).
  assert (Hkeep : forall buf2 t k, 0 <= t < xLength b -> 0 <= k ->
    ahead (xLength b) t (wrap (xLength b) (xHead b + 4)) + len data <= xLength b -> k <= ahead (xLength b) t (wrap (xLength b) (xHead b + 4)) ->
    (forall j, 0 <= j < xLength b -> byte_at buf2 j = if ahead (xLength b) (wrap (xLength b) (xHead b + 4)) j <? len data
       then byte_at data (ahead (xLength b) (wrap (xLength b) (xHead b + 4)) j) else byte_at buf1 j) ->
    ring (xLength b) buf2 t k = ring (xLength b) buf1 t k).
  { intros buf2 t k Ht Hk Ha1 Ha2 B2. apply (ring_unwritten (set_pucBuffer buf1 b) buf2 data (len data) (wrap (xLength b) (xHead b + 4))); try done; cbn; ring_lia. }
  apply wp_bind, prvWriteBytesToBuffer_ok; [done|cbn; lia|cbn; ring_lia|unfold len; lia|].
  cbn [pucBuffer set_pucBuffer xLength xHead]. intros buf2 L2 B2. apply wp_ret. apply (HQ buf2); [done| |].
  - rewrite <- R1. apply Hkeep; try done; unfold used in *; ring_lia.
  - split; [lia|]. split; [done|]. rewrite Em. cbv zeta. cbn [wire]. rewrite Hall, len_frame. split; [ring_lia|]. split; [lia|].
    rewrite ring_app by lia. unfold frame. f_equal.
    + etransitivity; [|exact W1]. apply Hkeep; try done; unfold used in *; ring_lia.
    + rewrite (ring_written (set_pucBuffer buf1 b) buf2 data (len data)); try done; cbn; ring_lia.
Qed.

Lemma write_stream_ok n : is_message b = false -> 0 < n <= len data -> n <= xLength b - 1 - used b ->
  (forall buf, Z.of_nat (length buf) = xLength b -> ring (xLength b) buf (xTail b) (used b) = content b ->
     written b data n (Some (wrap (xLength b) (xHead b + n))) buf -> Q (n, Some (wrap (xLength b) (xHead b + n))) (set_pucBuffer buf b)) ->
  wp (next ← prvWriteBytesToBuffer data n (xHead b); mret (n, Some next)) b Q.
Proof.
  intros Em Hn Hfit HQ. pose proof OK as [H1 H2 H3 H4]. pose proof (used_range b OK) as Hu.
  assert (Hahead : ahead (xLength b) (xTail b) (xHead b) = used b) by done.
  apply wp_bind, prvWriteBytesToBuffer_ok; [done|lia|lia|unfold len in *; lia|]. intros buf1 L1 B1. apply wp_ret. apply HQ; [done| |].
  - apply (ring_unwritten b buf1 data n (xHead b)); try done; lia.
  - split; [lia|]. rewrite Em. split; [done|]. cbv zeta. cbn [wire]. assert (Hl : len (take (Z.to_nat n) data) = n) by (unfold len in *; rewrite length_take; lia).
    rewrite Hl. split; [done|]. split; [lia|]. apply (ring_written b buf1 data n); try done; lia.
Qed.

Lemma write_copy_ok sp : 0 <= sp <= xLength b - 1 - used b -> len data + 4 < 4294967296 ->
  (forall n next buf, Z.of_nat (length buf) = xLength b -> ring (xLength b) buf (xTail b) (used b) = content b ->
     written b data n next buf -> n = sendable b data sp -> Q (n, next) (set_pucBuffer buf b)) ->
  wp (write_copy data (len data) sp (len data + (if is_message b then 4 else 0))) b Q.
Proof.
  intros Hsp Hd HQ. pose proof OK as [H1 H2 H3 H4]. pose proof (used_range b OK) as Hu.
  assert (Hnone : sendable b data sp = 0 -> Q (0, None) b).
  { intros E. assert (Hsame : set_pucBuffer (pucBuffer b) b = b) by (by destruct b). rewrite <- Hsame. by apply HQ. }
  assert (Hl0 : 0 <= len data) by (unfold len; lia). apply wp_bind, wp_get, wp_bind.
  unfold sendable in *. destruct (is_message b) eqn:Em.
  - destruct (Z.leb_spec (len data + 4) sp) as [Hfit|_]; [|apply wp_ret; cbn; apply wp_ret; by apply Hnone].
    apply wp_bind, prvWriteBytesToBuffer_ok; [done|unfold sbBYTES_TO_STORE_MESSAGE_LENGTH, len in *; lia|lia|done|].
    intros buf1 L1 B1. unfold sbBYTES_TO_STORE_MESSAGE_LENGTH in *. apply wp_ret. cbv beta iota.
    assert (R1 : ring (xLength b) buf1 (xTail b) (used b) = content b).
    { apply (ring_unwritten b buf1 (bytes_of_length (len data)) 4 (xHead b)); try done; unfold used in *; lia. }
    destruct (Z.eqb_spec (len data) 0) as [E0|N0]; cbn [negb]; [apply wp_ret; by apply HQ|].
    apply write_message_ok; [done|lia|lia|done|done|done| |].
    + rewrite (ring_written b buf1 (bytes_of_length (len data)) 4); try done. lia.
    + intros buf L R W. by apply HQ.
  - apply wp_ret. cbv beta iota. destruct (Z.eqb_spec (Z.min (len data) sp) 0) as [E0|N0]; cbn [negb]; [rewrite E0; apply wp_ret; by apply Hnone|].
    apply write_stream_ok; [done|lia|lia|]. intros buf L R W. by apply HQ.
Qed.
End Writing.

Lemma ring_prefix b k : sb_ok b -> 0 <= k <= used b -> ring (xLength b) (pucBuffer b) (xTail b) k = take (Z.to_nat k) (content b).
Proof.
  intros OK Hk. pose proof (used_range b OK). unfold content. replace (used b) with (k + (used b - k)) by lia.
  rewrite ring_app by (try lia; apply OK). rewrite take_app_le by (pose proof (length_ring (xLength b) (pucBuffer b) (xTail b) k); lia).
  symmetry. apply take_ge. pose proof (length_ring (xLength b) (pucBuffer b) (xTail b) k). lia.
Qed.
Lemma len_content b : sb_ok b -> len (content b) = used b.
Proof. intros OK. pose proof (used_range b OK). unfold len, content. apply length_ring. lia. Qed.

Lemma read_stream_ok b cap a (Q : list Z * option Z -> StreamBuffer_t -> Prop) : sb_ok b -> is_message b = false -> 0 <= a <= used b -> 0 <= cap ->
  (let k := Z.min cap a in
   Q (take (Z.to_nat k) (content b), if k =? 0 then None else Some (wrap (xLength b) (xTail b + k))) b) -> wp (read_copy cap a) b Q.
Proof.
  intros OK Em Ha Hc HQ. pose proof (used_range b OK). apply wp_bind, wp_get, wp_bind. rewrite Em. apply wp_ret. cbv beta iota zeta in *.
  destruct (Z.eqb_spec (Z.min cap a) 0) as [E0|N0]; cbn [negb]; [rewrite E0 in HQ; by apply wp_ret|].
  apply wp_bind, prvReadBytesFromBuffer_ok; [done|lia|apply OK|]. apply wp_ret. rewrite ring_prefix by (done || lia). exact HQ.
Qed.

Lemma read_message_ok b cap a m rest (Q : list Z * option Z -> StreamBuffer_t -> Prop) : sb_ok b -> is_message b = true ->
  content b = frame m ++ rest -> 0 < len m -> 4 + len m <= a <= used b ->
  (if cap <? len m then Q ([], None) b else Q (m, Some (wrap (xLength b) (xTail b + len (frame m)))) b) -> wp (read_copy cap a) b Q.
Proof.
  intros OK Em Hc Hm Ha HQ. pose proof OK as [H1 H2 H3 H4]. pose proof (used_range b OK) as Hu. apply wp_bind, wp_get, wp_bind. rewrite Em.
  apply wp_bind, prvReadBytesFromBuffer_ok; [done|unfold sbBYTES_TO_STORE_MESSAGE_LENGTH; lia|lia|]. unfold sbBYTES_TO_STORE_MESSAGE_LENGTH.
  apply wp_ret. cbv beta iota zeta.
  assert (E4 : ring (xLength b) (pucBuffer b) (xTail b) 4 = bytes_of_length (len m)) by (rewrite ring_prefix, Hc by (done || lia); done).
  rewrite E4, length_bytes_roundtrip by (unfold is_u32; lia). rewrite u32_small by (unfold is_u32; lia).
  destruct (Z.ltb_spec cap (len m)) as [Hlt|Hge].
  - rewrite Z.min_l by lia. cbn [negb Z.eqb]. by apply wp_ret.
  - rewrite Z.min_l by lia. destruct (Z.eqb_spec (len m) 0); [lia|]. cbn [negb].
    apply wp_bind, prvReadBytesFromBuffer_ok; [done|lia|ring_lia|]. apply wp_ret.
    assert (Er : ring (xLength b) (pucBuffer b) (xTail b) (4 + len m) = frame m).
    { rewrite ring_prefix, Hc by (done || lia). rewrite take_app_le by (pose proof (len_frame m); unfold len in *; lia).
      apply take_ge. pose proof (len_frame m). unfold len in *. lia. }
    rewrite ring_app in Er by lia. rewrite E4 in Er. unfold frame in Er. apply app_inv_head in Er. rewrite Er.
    rewrite len_frame in HQ. replace (wrap (xLength b) (wrap (xLength b) (xTail b + 4) + len m)) with (wrap (xLength b) (xTail b + (4 + len m))) by ring_lia.
    exact HQ.
Qed.

(** Moving the tail or the head. *)
Lemma used_tail b k : sb_ok b -> 0 <= k <= used b -> used (set_xTail (wrap (xLength b) (xTail b + k)) b) = used b - k.
Proof. intros [H1 H2 H3 H4] Hk. unfold used in *. cbn. ring_lia. Qed.
Lemma used_head b n : sb_ok b -> 0 <= n <= xLength b - 1 - used b -> used (set_xHead (wrap (xLength b) (xHead b + n)) b) = used b + n.
Proof. intros [H1 H2 H3 H4] Hk. unfold used in *. cbn. ring_lia. Qed.
Lemma set_xTail_ok b k : sb_ok b -> 0 <= k <= used b -> sb_ok (set_xTail (wrap (xLength b) (xTail b + k)) b).
Proof. intros OK Hk. pose proof (used_range b OK). destruct OK as [H1 H2 H3 H4]. split; cbn; try done. ring_lia. Qed.
Lemma set_xHead_ok b n : sb_ok b -> 0 <= n <= xLength b -> sb_ok (set_xHead (wrap (xLength b) (xHead b + n)) b).
Proof. intros [H1 H2 H3 H4] Hk. split; cbn; try done. ring_lia. Qed.
Lemma content_tail b k : sb_ok b -> 0 <= k <= used b ->
  content (set_xTail (wrap (xLength b) (xTail b + k)) b) = drop (Z.to_nat k) (content b).
Proof.
  intros OK Hk. pose proof (used_range b OK). unfold content at 1. rewrite used_tail by done. cbn [xLength pucBuffer xTail set_xTail].
  unfold content. replace (used b) with (k + (used b - k)) at 2 by lia. rewrite ring_app by (try lia; apply OK).
  pose proof (length_ring (xLength b) (pucBuffer b) (xTail b) k). rewrite drop_app_ge by lia. by replace (Z.to_nat k - length (ring (xLength b) (pucBuffer b) (xTail b) k))%nat with 0%nat by lia.
Qed.
Lemma content_head b n : sb_ok b -> 0 <= n <= xLength b - 1 - used b ->
  content (set_xHead (wrap (xLength b) (xHead b + n)) b) = content b ++ ring (xLength b) (pucBuffer b) (xHead b) n.
Proof.
  intros OK Hn. pose proof (used_range b OK). unfold content at 1. rewrite used_head by done. cbn [xLength pucBuffer xTail set_xHead].
  rewrite ring_app by (try lia; apply OK). f_equal. f_equal. symmetry. by apply head_wraps.
Qed.
