(* ===== verification/StreamsShared.v ===== *)
(** One writer and one reader of a stream buffer, interleaved at the points
    where they look at the shared positions, copy, and move the head or the
    tail: whatever the order, the reader gets what the writer sent. *)
From S2P Require Import Prelude Streams StreamsOk.

(** Where the writer and the reader are in [xStreamBufferSendFromISR] and
    [xStreamBufferReceiveFromISR], and in the calls from tasks without waiting. *)
Inductive writer := WIdle | WLooked (data : list Z) (xSpace : Z) | WCopied (data : list Z) (n : Z) (next : option Z).
Inductive reader := RIdle | RLooked (xBytesAvailable : Z) | RCopied (d : list Z) (next : option Z).

(** The buffer, the two parties, and what they have passed on so far. *)
Record shared := mkShared { sb : StreamBuffer_t; w : writer; r : reader; sent : list (list Z); got : list (list Z) }.
Definition set_sb (b : StreamBuffer_t) (s : shared) : shared := mkShared b (w s) (r s) (sent s) (got s).
Definition set_w (v : writer) (s : shared) : shared := mkShared (sb s) v (r s) (sent s) (got s).
Definition set_r (v : reader) (s : shared) : shared := mkShared (sb s) (w s) v (sent s) (got s).
Definition log_sent (m : list Z) (s : shared) : shared := mkShared (sb s) (w s) (r s) (if 0 <? len m then sent s ++ [m] else sent s) (got s).
Definition log_got (m : list Z) (s : shared) : shared := mkShared (sb s) (w s) (r s) (sent s) (if 0 <? len m then got s ++ [m] else got s).
Definition on_sb {A} (m : M StreamBuffer_t A) : M shared A := zoom sb set_sb m.

Inductive action := WLook (data : list Z) | WCopy | WPublish | RLook | RCopy (xBufferLengthBytes : Z) | RPublish.

(** An action out of turn does nothing. *)
Definition act (a : action) : M shared unit :=
  s ← get;
  match a, w s, r s with
  | WLook data, WIdle, _ => modify (set_w (WLooked data (xStreamBufferSpacesAvailable (sb s))))
  | WCopy, WLooked data xSpace, _ =>
      '(n, next) ← on_sb (write_copy data (len data) xSpace (len data + length_bytes (sb s)));
      modify (set_w (WCopied data n next))
  | WPublish, WCopied data n next, _ =>
      on_sb (publish_head next);; modify (log_sent (take (Z.to_nat n) data));; modify (set_w WIdle)
  | RLook, _, RIdle =>
      let n := prvBytesInBuffer (sb s) in
      if length_bytes (sb s) <? n then modify (set_r (RLooked n)) else mret tt
  | RCopy cap, _, RLooked n => '(d, next) ← on_sb (read_copy cap n); modify (set_r (RCopied d next))
  | RPublish, _, RCopied d next => on_sb (publish_tail next);; modify (log_got d);; modify (set_r RIdle)
  | _, _, _ => mret tt
  end.
Fixpoint acts (l : list action) : M shared unit := match l with [] => mret tt | a :: l => act a;; acts l end.

Definition sensible (a : action) : Prop :=
  match a with
  | WLook data => len data + 4 < 4294967296
  | RCopy cap => 0 <= cap
  | _ => True
  end.

(** ** The invariant *)

Definition wires (message : bool) (ms : list (list Z)) : list Z := concat (map (wire message) ms).
Lemma wires_app message a b : wires message (a ++ b) = wires message a ++ wires message b.
Proof. unfold wires. by rewrite map_app, concat_app. Qed.

Definition proper (m : list Z) : Prop := 0 < len m /\ len m + 4 < 4294967296.

(** The content is what was sent and not got: bytes of a stream, or messages. *)
Definition holds (s : shared) : Prop :=
  if is_message (sb s) then exists pending, sent s = got s ++ pending /\ Forall proper pending /\ content (sb s) = wires true pending
  else concat (sent s) = concat (got s) ++ content (sb s).
Definition writer_ok (b : StreamBuffer_t) (v : writer) : Prop :=
  match v with
  | WIdle => True
  | WLooked data sp => len data + 4 < 4294967296 /\ 0 <= sp <= xLength b - 1 - used b
  | WCopied data n next => len data + 4 < 4294967296 /\ written b data n next (pucBuffer b)
  end.
Definition reader_ok (b : StreamBuffer_t) (v : reader) : Prop :=
  match v with
  | RIdle => True
  | RLooked n =>
      if is_message b then exists ms, ms <> [] /\ Forall proper ms /\ n = len (wires true ms) /\ n <= used b /\ exists more, content b = wires true ms ++ more
      else 0 <= n <= used b
  | RCopied d None => d = []
  | RCopied d (Some t) => 0 < len d /\ t = wrap (xLength b) (xTail b + len (wire (is_message b) d)) /\
      exists more, content b = wire (is_message b) d ++ more
  end.
Record inv (kind : bool) (s : shared) : Prop := {
  iv_sb : sb_ok (sb s);
  iv_holds : holds s;
  iv_writer : writer_ok (sb s) (w s);
  iv_reader : reader_ok (sb s) (r s);
  iv_kind : is_message (sb s) = kind
}.

Lemma written_le b data n h buf : written b data n (Some h) buf -> len (wire (is_message b) (take (Z.to_nat n) data)) <= xLength b - 1 - used b.
Proof. by intros (_ & _ & _ & Hl & _). Qed.
Lemma len_wire message m : 0 <= len (wire message m).
Proof. unfold len. lia. Qed.

(** What the reader knows survives what the writer does, and conversely. *)
Lemma reader_more b b' v : reader_ok b v -> xLength b' = xLength b -> is_message b' = is_message b -> xTail b' = xTail b -> used b <= used b' ->
  (exists more, content b' = content b ++ more) -> reader_ok b' v.
Proof.
  intros Hv El Em Et Hu (x & Ec). destruct v as [|n|d [t|]]; cbn in *; rewrite ?El, ?Em, ?Et in *; [done| | |done].
  - destruct (is_message b); [|lia]. destruct Hv as (ms & H1 & H2 & H3 & H4 & more & Hm). exists ms. split; [done|]. split; [done|]. split; [done|]. split; [lia|].
    exists (more ++ x). by rewrite Ec, Hm, app_assoc.
  - destruct Hv as (H1 & H2 & more & Hm). split; [done|]. split; [done|]. exists (more ++ x). by rewrite Ec, Hm, app_assoc.
Qed.
Lemma writer_less b b' v : writer_ok b v -> xLength b' = xLength b -> is_message b' = is_message b -> xHead b' = xHead b -> pucBuffer b' = pucBuffer b ->
  used b' <= used b -> writer_ok b' v.
Proof.
  intros Hv El Em Eh Ep Hu. destruct v as [|data sp|data n next]; cbn in *; [done|rewrite El; split; [tauto|lia]|].
  destruct Hv as [Hl Hw]. split; [done|]. unfold written in *. destruct next as [h|]; [|done]. rewrite El, Em, Eh, Ep.
  destruct Hw as (H1 & H2 & H3 & H4 & H5). do 3 (split; [done|]). split; [cbv zeta; lia|done].
Qed.

Lemma on_sb_ok {A} (m : M StreamBuffer_t A) s (Q : A -> shared -> Prop) : wp m (sb s) (fun y b => Q y (set_sb b s)) -> wp (on_sb m) s Q.
Proof. apply wp_zoom. Qed.

(** ** Every action keeps it *)

Lemma look_ok kind s data : inv kind s -> w s = WIdle -> len data + 4 < 4294967296 -> inv kind (set_w (WLooked data (xStreamBufferSpacesAvailable (sb s))) s).
Proof.
  intros [I1 I2 I3 I4 I5] _ Hd. split; [done|done| |done|done]. cbn. split; [done|]. rewrite spaces_eq by done. pose proof (used_range _ I1). lia.
Qed.

Lemma copy_ok kind s data sp : inv kind s -> w s = WLooked data sp -> wp ('(n, next) ← on_sb (write_copy data (len data) sp (len data + length_bytes (sb s)));
  modify (set_w (WCopied data n next))) s (fun _ => inv kind).
Proof.
  intros [I1 I2 I3 I4 I5] Ew. rewrite Ew in I3. destruct I3 as [Hd Hsp]. apply wp_bind, on_sb_ok.
  apply write_copy_ok; [done|done|done|]. intros n next buf Hl Hc Hw _. apply wp_modify. set (b' := set_pucBuffer buf (sb s)).
  assert (Ec : content b' = content (sb s)) by exact Hc. split; cbn.
  - by apply set_pucBuffer_ok.
  - unfold holds in *. cbn. fold b'. change (is_message b') with (is_message (sb s)). by rewrite Ec.
  - split; [done|exact Hw].
  - fold b'. apply (reader_more (sb s)); try done. exists []. by rewrite app_nil_r.
  - done.
Qed.

Lemma publish_ok kind s data n next : inv kind s -> w s = WCopied data n next ->
  wp (on_sb (publish_head next);; modify (log_sent (take (Z.to_nat n) data));; modify (set_w WIdle)) s (fun _ => inv kind).
Proof.
  intros [I1 I2 I3 I4 I5] Ew. rewrite Ew in I3. destruct I3 as [Hd Hw]. apply wp_bind, on_sb_ok. destruct next as [h|]; cbn [publish_head].
  - destruct Hw as (H1 & H2 & H3 & H4 & H5). cbv zeta in H3. subst h. set (m := take (Z.to_nat n) data) in *. set (b := sb s) in *.
    apply wp_modify, wp_bind, wp_modify, wp_modify. pose proof (used_range b I1) as Hu. pose proof (len_wire (is_message b) m) as Hl0.
    set (b' := set_xHead _ b). assert (Ec : content b' = content b ++ wire (is_message b) m) by (unfold b'; rewrite content_head by (done || lia); by rewrite H5).
    assert (Hm : 0 < len m /\ len m + 4 < 4294967296) by (unfold m, len in *; rewrite length_take; lia).
    split; cbn [sb w r sent got set_w log_sent set_sb].
    + apply set_xHead_ok; [done|lia].
    + unfold holds in *. cbn [sb sent got set_w log_sent set_sb]. change (is_message b') with (is_message b). rewrite (proj2 (Z.ltb_lt 0 (len m))) by lia.
      change (is_message (sb s)) with (is_message b) in I2. change (content (sb s)) with (content b) in I2. destruct (is_message b).
      * destruct I2 as (pending & E1 & E2 & E3). exists (pending ++ [m]). rewrite E1, Ec, E3, wires_app. split; [by rewrite app_assoc|].
        split; [apply Forall_app; split; [done|by constructor]|]. f_equal. unfold wires. cbn. by rewrite app_nil_r.
      * rewrite concat_app, I2, Ec. cbn. by rewrite app_nil_r, app_assoc.
    + done.
    + apply (reader_more b); try done; [unfold b'; rewrite used_head by (done || lia); lia|]. by exists (wire (is_message b) m).
    + done.
  - cbn in Hw. subst n. apply wp_ret, wp_bind, wp_modify, wp_modify. by destruct s.
Qed.

Lemma look_bytes_ok kind s : inv kind s -> wp (let n := prvBytesInBuffer (sb s) in
  if length_bytes (sb s) <? n then modify (set_r (RLooked n)) else mret tt) s (fun _ => inv kind).
Proof.
  intros [I1 I2 I3 I4 I5]. cbv zeta. rewrite prvBytesInBuffer_eq by done. pose proof (used_range _ I1) as Hu.
  destruct (Z.ltb_spec (length_bytes (sb s)) (used (sb s))) as [Hlt|_]; [|by apply wp_ret]. apply wp_modify.
  split; [done|done|done| |done]. cbn. unfold holds, length_bytes in *. destruct (is_message (sb s)); [|lia].
  destruct I2 as (pending & E1 & E2 & E3). exists pending. split.
  - intros ->. rewrite <- (len_content _ I1), E3 in Hlt. by cbn in Hlt.
  - split; [done|]. split; [by rewrite <- E3, len_content|]. split; [lia|]. exists []. by rewrite app_nil_r.
Qed.

Lemma read_ok kind s cap n : inv kind s -> r s = RLooked n -> 0 <= cap ->
  wp ('(d, next) ← on_sb (read_copy cap n); modify (set_r (RCopied d next))) s (fun _ => inv kind).
Proof.
  intros [I1 I2 I3 I4 I5] Er Hcap. rewrite Er in I4. cbn in I4. apply wp_bind, on_sb_ok. set (b := sb s) in *.
  assert (Hgo : forall d next, reader_ok b (RCopied d next) -> wp (modify (set_r (RCopied d next))) (set_sb b s) (fun _ => inv kind)).
  { intros d next Hr. apply wp_modify. split; cbn; [done|unfold holds in *; exact I2|done|exact Hr|done]. }
  destruct (is_message b) eqn:Em.
  - destruct I4 as (ms & Hne & Hp & -> & Hle & more & Hc). destruct ms as [|m ms]; [done|]. apply Forall_cons in Hp as [[Hm _] Hp].
    assert (Hw : wires true (m :: ms) = frame m ++ wires true ms) by done. rewrite Hw in Hle, Hc |- *. rewrite len_app, len_frame in Hle |- *.
    pose proof (len_wire true (wires true ms)) as Hl. assert (Hl0 : 0 <= len (wires true ms)) by (unfold len; lia).
    eapply (read_message_ok b cap _ m (wires true ms ++ more)); [done|done|by rewrite Hc, <- app_assoc|done|lia|].
    destruct (cap <? len m); apply Hgo; cbn; [done|]. rewrite Em. split; [done|]. split; [done|]. exists (wires true ms ++ more). by rewrite Hc, <- app_assoc.
  - apply (read_stream_ok b cap n); [done|done|done|done|]. cbv zeta. set (k := Z.min cap n) in *. pose proof (len_content b I1) as Hl.
    destruct (Z.eqb_spec k 0) as [E0|N0]; apply Hgo; cbn; [by rewrite E0|]. rewrite Em.
    assert (Hk : len (take (Z.to_nat k) (content b)) = k) by (unfold len in *; rewrite length_take; lia).
    cbn [wire]. rewrite Hk. split; [lia|]. split; [done|]. exists (drop (Z.to_nat k) (content b)). by rewrite take_drop.
Qed.

Lemma take_ok kind s d next : inv kind s -> r s = RCopied d next ->
  wp (on_sb (publish_tail next);; modify (log_got d);; modify (set_r RIdle)) s (fun _ => inv kind).
Proof.
  intros [I1 I2 I3 I4 I5] Er. rewrite Er in I4. apply wp_bind, on_sb_ok. destruct next as [t|]; cbn [publish_tail] in *; cbn in I4.
  - destruct I4 as (Hd & -> & more & Hc). set (b := sb s) in *. apply wp_modify, wp_bind, wp_modify, wp_modify.
    pose proof (used_range b I1) as Hu. pose proof (len_wire (is_message b) d) as Hl0. pose proof (len_content b I1) as Hl. rewrite Hc, len_app in Hl.
    assert (Hl1 : 0 <= len more) by (unfold len; lia).
    set (b' := set_xTail _ b). assert (Ec : content b' = more).
    { unfold b'. rewrite content_tail by (done || lia). rewrite Hc. apply drop_app_length'. unfold len. lia. }
    split; cbn [sb w r sent got set_r log_got set_sb].
    + apply set_xTail_ok; [done|lia].
    + unfold holds in *. cbn [sb sent got set_r log_got set_sb]. change (is_message b') with (is_message b). rewrite (proj2 (Z.ltb_lt 0 (len d))) by lia.
      change (is_message (sb s)) with (is_message b) in I2. change (content (sb s)) with (content b) in I2. rewrite Ec. destruct (is_message b).
      * destruct I2 as (pending & E1 & E2 & E3). rewrite Hc in E3. destruct pending as [|m pending]; [by apply app_eq_nil in E3 as [? _]|].
        assert (Hw : wires true (m :: pending) = frame m ++ wires true pending) by done. rewrite Hw in E3. cbn [wire] in E3.
        apply Forall_cons in E2 as [[Hm1 Hm2] E2].
        destruct (frame_inj d m more (wires true pending)) as [-> ->];
          [cbn [wire] in Hl; rewrite len_frame in Hl; destruct I1; unfold is_u32; lia|unfold is_u32; lia|exact E3|].
        exists pending. split; [by rewrite E1, <- app_assoc|by split].
      * rewrite concat_app, I2, Hc. cbn. by rewrite app_nil_r, app_assoc.
    + apply (writer_less b); try done. unfold b'. rewrite used_tail by (done || lia). lia.
    + done.
    + done.
  - subst d. apply wp_ret, wp_bind, wp_modify, wp_modify. by destruct s.
Qed.

Lemma act_ok kind a s : inv kind s -> sensible a -> wp (act a) s (fun _ => inv kind).
Proof.
  intros I Ha. apply wp_bind, wp_get. destruct (w s) as [|data sp|data n next] eqn:Ew, (r s) as [|n'|d next'] eqn:Er, a as [data'| | | |cap|]; cbn in Ha;
    try (by apply wp_ret); try (apply wp_modify; by apply look_ok); try (by apply copy_ok); try (by apply publish_ok); try (by apply look_bytes_ok);
    try (by apply read_ok); by apply take_ok.
Qed.
Lemma acts_ok kind l : forall s, inv kind s -> Forall sensible l -> wp (acts l) s (fun _ => inv kind).
Proof.
  induction l as [|a l IH]; intros s I Hl; [by apply wp_ret|]. apply Forall_cons in Hl as [Ha Hl]. apply wp_bind.
  eapply wp_mono; [by apply act_ok|]. intros [] s' I'. by apply IH.
Qed.

(** C11: one writer and one reader share a stream buffer without a lock.  In
    whatever order their accesses come, no copy leaves the storage and no
    assertion fails; the messages read are the first of those sent, whole and in
    order, or for a stream the bytes read are the first of the bytes sent; the
    rest is in the buffer. *)
Theorem stream_buffer_lock_free b l : sb_ok b -> xHead b = xTail b -> Forall sensible l ->
  exists s, acts l (mkShared b WIdle RIdle [] []) = Done (tt, s) /\ sb_ok (sb s) /\
    if is_message b then exists pending, sent s = got s ++ pending /\ content (sb s) = wires true pending
    else concat (sent s) = concat (got s) ++ content (sb s).
Proof.
  intros OK He Hl. assert (I : inv (is_message b) (mkShared b WIdle RIdle [] [])).
  { split; cbn; [done| |done|done|done]. assert (Hc : content b = []).
    { pose proof (len_content b OK) as Hlen. unfold used, ahead in Hlen. rewrite He, Z.ltb_irrefl, Z.sub_diag in Hlen.
      destruct (content b); [done|]. unfold len in Hlen. cbn in Hlen. lia. }
    unfold holds. cbn. rewrite Hc. destruct (is_message b); [|done]. by exists []. }
  pose proof (acts_ok _ l _ I Hl) as Hw. apply wp_done in Hw as ([] & s & Hrun & [I1 I2 _ _ I5]). exists s. split; [done|]. split; [done|].
  unfold holds in I2. rewrite I5 in I2. destruct (is_message b); [|done]. destruct I2 as (pending & E1 & _ & E2). by exists pending.
Qed.

(** A message buffer of eleven bytes, written around its end. *)
Definition small : StreamBuffer_t := mkStream 7 7 11 1 0 0 (repeat 85 11) 1.
Definition two_messages : list action :=
  [WLook [1; 2; 3]; RLook; WCopy; RLook; WPublish; WLook [4]; RLook; WCopy; RCopy 8; WPublish; RPublish; WLook [5; 6]; WCopy; WPublish; RLook; RCopy 8; RPublish].
Lemma stream_buffer_lock_free_witness : exists s, acts two_messages (mkShared small WIdle RIdle [] []) = Done (tt, s) /\
  sent s = [[1; 2; 3]; [5; 6]] /\ got s = [[1; 2; 3]; [5; 6]] /\ sb_ok (sb s).
Proof.
  destruct (stream_buffer_lock_free small two_messages) as (s & Hrun & OK & _); [by split|done|repeat constructor; cbn; lia|].
  exists s. split; [exact Hrun|]. assert (Hs : acts two_messages (mkShared small WIdle RIdle [] []) = Done (tt, s)) by exact Hrun.
  vm_compute in Hs. injection Hs as <-. split; [reflexivity|]. split; [reflexivity|]. exact OK.
Defined.
