(* ===== verification/StreamBuffers.v ===== *)
(** FreeRTOS/stream_buffer.c, the calls: stream and message buffers in the memory
    of the kernel heap, their readers and writers wait for task notifications. *)
From S2P Require Import Prelude FList Klist Tasks TasksNew TasksNotify Streams.

Definition sbFLAGS_IS_STATICALLY_ALLOCATED : Z := 2.
Definition SIZEOF_STREAM_BUFFER : Z := 32.

Record TimeOut_t := mkTimeOut { xOverflowCount : Z; xTimeOnEntering : Z }.

Record streams (A : Type) := mkStreams { skernel : kernel A; buffers : gmap Z StreamBuffer_t }.
Arguments mkStreams {A}.
Arguments skernel {A} _.
Arguments buffers {A} _.

Section Buffers.
Context {A : Type} `{Statics} `{HeapApi A}.
Abbreviation S := (streams A).
Abbreviation K := (kernel A).

Definition set_skernel (k : K) (s : S) : S := mkStreams k (buffers s).
Definition set_buffers (m : gmap Z StreamBuffer_t) (s : S) : S := mkStreams (skernel s) m.
Definition onk {X} (m : M K X) : M S X := zoom skernel set_skernel m.
Definition rd_buffer (h : Z) : M S StreamBuffer_t := m ← gets buffers; of_option (m !! h).
(** A function of the ring on the buffer [h]. *)
Definition onb {X} (h : Z) (m : M StreamBuffer_t X) : M S X :=
  b ← rd_buffer h;
  match m b with
  | Done (x, b') => modify (fun s => set_buffers (<[h := b']> (buffers s)) s);; mret x
  | Stop w => stop_ w
  end.

(** ** Time-outs (tasks.c) *)

Definition vTaskInternalSetTimeOutState : M K TimeOut_t :=
  o ← gets xNumOfOverflows; t ← gets xTickCount; mret (mkTimeOut (u32 o) t).
Definition vTaskSetTimeOutState : M K TimeOut_t := vTaskInternalSetTimeOutState.
(** Whether the time is over, and the time-out and the remaining ticks. *)
Definition xTaskCheckForTimeOut (t : TimeOut_t) (xTicksToWait : Z) : M K (bool * Z * TimeOut_t) :=
  xConstTickCount ← gets xTickCount;
  let xElapsedTime := u32 (xConstTickCount - xTimeOnEntering t) in
  c ← current;
  if ucDelayAborted c then
    cur ← gets pxCurrentTCB; wr_tcb cur (set_ucDelayAborted false);; mret (true, xTicksToWait, t)
  else if xTicksToWait =? portMAX_DELAY then mret (false, xTicksToWait, t)
  else
    o ← gets xNumOfOverflows;
    if negb (u32 o =? xOverflowCount t) && (xTimeOnEntering t <=? xConstTickCount) then mret (true, 0, t)
    else if xElapsedTime <? xTicksToWait then
      t' ← vTaskInternalSetTimeOutState;
      mret (false, xTicksToWait - xElapsedTime, t')
    else mret (true, 0, t).

(** ** Life *)

Definition xStreamBufferGenericCreate (xBufferSizeBytes xTriggerLevelBytes : Z) (xIsMessageBuffer : bool) : M S Z :=
  let flags := if xIsMessageBuffer then sbFLAGS_IS_MESSAGE_BUFFER else 0 in
  assert_ ((if xIsMessageBuffer then sbBYTES_TO_STORE_MESSAGE_LENGTH else 0) <? xBufferSizeBytes);;
  assert_ (xTriggerLevelBytes <=? xBufferSizeBytes);;
  let level := if xTriggerLevelBytes =? 0 then 1 else xTriggerLevelBytes in
  if xBufferSizeBytes <? u32 (xBufferSizeBytes + 1 + SIZEOF_STREAM_BUFFER) then
    p ← onk (kernel_malloc (u32 (u32 (xBufferSizeBytes + 1) + SIZEOF_STREAM_BUFFER)));
    (if p =? 0 then mret tt
     else modify (fun s => set_buffers (<[p := prvInitialiseNewStreamBuffer (u32 (xBufferSizeBytes + 1)) level flags]> (buffers s)) s));;
    mret p
  else mret 0.
Definition vStreamBufferDelete (h : Z) : M S unit :=
  assert_ (negb (h =? 0));;
  b ← rd_buffer h;
  if Z.land (ucFlags b) sbFLAGS_IS_STATICALLY_ALLOCATED =? 0 then
    modify (fun s => set_buffers (delete h (buffers s)) s);; onk (kernel_free h)
  else onb h (put (mkStream 0 0 0 0 0 0 [] 0)).
Definition xStreamBufferReset (h : Z) : M S bool :=
  assert_ (negb (h =? 0));;
  b ← rd_buffer h;
  if (xTaskWaitingToReceive b =? 0) && (xTaskWaitingToSend b =? 0) then
    onb h (put (prvInitialiseNewStreamBuffer (xLength b) (Streams.xTriggerLevelBytes b) (ucFlags b)));; mret true
  else mret false.

(** ** Telling the other party *)

Definition notify_waiting (h : Z) (who : StreamBuffer_t -> Z) (clear : StreamBuffer_t -> StreamBuffer_t) : M S unit :=
  onk vTaskSuspendAll;;
  b ← rd_buffer h;
  (if who b =? 0 then mret tt
   else onk (xTaskGenericNotify (who b) 0 0 eNoAction);; onb h (modify clear));;
  onk xTaskResumeAll;;
  mret tt.
(** Whether there was one, and whether it should run. *)
Definition notify_waiting_from_isr (h : Z) (who : StreamBuffer_t -> Z) (clear : StreamBuffer_t -> StreamBuffer_t) : M S (bool * bool) :=
  b ← rd_buffer h;
  if who b =? 0 then mret (false, false)
  else '(_, _, woken) ← onk (xTaskGenericNotifyFromISR (who b) 0 0 eNoAction); onb h (modify clear);; mret (true, woken).
Definition sbRECEIVE_COMPLETED (h : Z) : M S unit := notify_waiting h xTaskWaitingToSend (set_xTaskWaitingToSend 0).
Definition sbSEND_COMPLETED (h : Z) : M S unit := notify_waiting h xTaskWaitingToReceive (set_xTaskWaitingToReceive 0).
Definition sbRECEIVE_COMPLETED_FROM_ISR (h : Z) : M S bool :=
  r ← notify_waiting_from_isr h xTaskWaitingToSend (set_xTaskWaitingToSend 0); mret r.2.
Definition sbSEND_COMPLETE_FROM_ISR (h : Z) : M S bool :=
  r ← notify_waiting_from_isr h xTaskWaitingToReceive (set_xTaskWaitingToReceive 0); mret r.2.
Definition xStreamBufferSendCompletedFromISR (h : Z) : M S (bool * bool) :=
  assert_ (negb (h =? 0));; notify_waiting_from_isr h xTaskWaitingToReceive (set_xTaskWaitingToReceive 0).
Definition xStreamBufferReceiveCompletedFromISR (h : Z) : M S (bool * bool) :=
  assert_ (negb (h =? 0));; notify_waiting_from_isr h xTaskWaitingToSend (set_xTaskWaitingToSend 0).

(** Wait for a notification; [others] is what happens until the task runs again. *)
Definition notify_wait (others : M S unit) (xTicksToWait : Z) : M S unit :=
  onk (wait_section 0 xTicksToWait);; others;; onk (wait_finish 0);; mret tt.

(** ** Sending *)

(** The space needed and the ticks to wait. *)
Definition send_plan (b : StreamBuffer_t) (xDataLengthBytes xTicksToWait : Z) : M S (Z * Z) :=
  let xMaxReportedSpace := u32 (xLength b - 1) in
  if is_message b then
    let xRequiredSpace := u32 (xDataLengthBytes + sbBYTES_TO_STORE_MESSAGE_LENGTH) in
    assert_ (xDataLengthBytes <? xRequiredSpace);;
    mret (xRequiredSpace, if xMaxReportedSpace <? xRequiredSpace then 0 else xTicksToWait)
  else mret (if xMaxReportedSpace <? xDataLengthBytes then xMaxReportedSpace else xDataLengthBytes, xTicksToWait).

(** The loop that waits for space: the space found last. *)
Fixpoint send_loop (fuel : nat) (others : M S unit) (h xRequiredSpace xTicksToWait : Z) (t : TimeOut_t) : M S Z :=
  match fuel with
  | O => stop_ NoFuel
  | Datatypes.S fuel =>
      b ← rd_buffer h;
      let xSpace := xStreamBufferSpacesAvailable b in
      if xSpace <? xRequiredSpace then
        onk (xTaskGenericNotifyStateClear 0 0);;
        assert_ (xTaskWaitingToSend b =? 0);;
        cur ← onk xTaskGetCurrentTaskHandle;
        onb h (modify (set_xTaskWaitingToSend cur));;
        notify_wait others xTicksToWait;;
        onb h (modify (set_xTaskWaitingToSend 0));;
        '(over, ticks, t) ← onk (xTaskCheckForTimeOut t xTicksToWait);
        if over : bool then mret xSpace else send_loop fuel others h xRequiredSpace ticks t
      else mret xSpace
  end.

(** [data] is the memory at [pvTxData]; at most [rounds] times the task finds
    too little space. *)
Definition xStreamBufferSend (others : M S unit) (rounds : nat) (h : Z) (data : list Z) (xDataLengthBytes xTicksToWait : Z) : M S Z :=
  assert_ (negb (h =? 0));;
  b ← rd_buffer h;
  '(xRequiredSpace, ticks) ← send_plan b xDataLengthBytes xTicksToWait;
  xSpace ← (if ticks =? 0 then mret 0
            else t ← onk vTaskSetTimeOutState; send_loop rounds others h xRequiredSpace ticks t);
  b ← rd_buffer h;
  let xSpace := if xSpace =? 0 then xStreamBufferSpacesAvailable b else xSpace in
  n ← onb h (prvWriteMessageToBuffer data xDataLengthBytes xSpace xRequiredSpace);
  (if 0 <? n then
     b ← rd_buffer h;
     if Streams.xTriggerLevelBytes b <=? prvBytesInBuffer b then sbSEND_COMPLETED h else mret tt
   else mret tt);;
  mret n.

(** The result and [*pxHigherPriorityTaskWoken]. *)
Definition xStreamBufferSendFromISR (h : Z) (data : list Z) (xDataLengthBytes : Z) : M S (Z * bool) :=
  assert_ (negb (h =? 0));;
  b ← rd_buffer h;
  let xRequiredSpace := if is_message b then u32 (xDataLengthBytes + sbBYTES_TO_STORE_MESSAGE_LENGTH) else xDataLengthBytes in
  let xSpace := xStreamBufferSpacesAvailable b in
  n ← onb h (prvWriteMessageToBuffer data xDataLengthBytes xSpace xRequiredSpace);
  woken ← (if 0 <? n then
     b ← rd_buffer h;
     if Streams.xTriggerLevelBytes b <=? prvBytesInBuffer b then sbSEND_COMPLETE_FROM_ISR h else mret false
   else mret false);
  mret (n, woken).

(** ** Receiving *)

(** Wait if there is nothing to read; the bytes available then. *)
Definition receive_wait (others : M S unit) (h xTicksToWait : Z) : M S Z :=
  b ← rd_buffer h;
  let n := prvBytesInBuffer b in
  if n <=? length_bytes b then
    onk (xTaskGenericNotifyStateClear 0 0);;
    assert_ (xTaskWaitingToReceive b =? 0);;
    cur ← onk xTaskGetCurrentTaskHandle;
    onb h (modify (set_xTaskWaitingToReceive cur));;
    notify_wait others xTicksToWait;;
    onb h (modify (set_xTaskWaitingToReceive 0));;
    b ← rd_buffer h;
    mret (prvBytesInBuffer b)
  else mret n.

(** What is received into the memory of the caller. *)
Definition xStreamBufferReceive (others : M S unit) (h xBufferLengthBytes xTicksToWait : Z) : M S (list Z) :=
  assert_ (negb (h =? 0));;
  b ← rd_buffer h;
  n ← (if xTicksToWait =? 0 then mret (prvBytesInBuffer b) else receive_wait others h xTicksToWait);
  if length_bytes b <? n then
    d ← onb h (prvReadMessageFromBuffer xBufferLengthBytes n);
    (if Z.of_nat (length d) =? 0 then mret tt else sbRECEIVE_COMPLETED h);;
    mret d
  else mret [].
Definition xStreamBufferReceiveFromISR (h xBufferLengthBytes : Z) : M S (list Z * bool) :=
  assert_ (negb (h =? 0));;
  b ← rd_buffer h;
  let n := prvBytesInBuffer b in
  if length_bytes b <? n then
    d ← onb h (prvReadMessageFromBuffer xBufferLengthBytes n);
    woken ← (if Z.of_nat (length d) =? 0 then mret false else sbRECEIVE_COMPLETED_FROM_ISR h);
    mret (d, woken)
  else mret ([], false).
End Buffers.
