(* ===== verification/StreamBuffersOk.v ===== *)
(** What a call on a stream buffer from an interrupt does, to the bytes and to
    the task that waits at the other end. *)
From S2P Require Import Prelude FList Heap4 Klist Tasks TasksInv TasksStep TasksRun TasksApi TasksCalls TasksNew TasksLife TasksNotify TasksHeap TasksSystem TasksBoot TasksProps Streams StreamsOk StreamBuffers.

(** The bytes that [n] bytes of [data] add to the content. *)
Definition added (b : StreamBuffer_t) (data : list Z) (n : Z) : list Z :=
  if 0 <? n then wire (is_message b) (take (Z.to_nat n) data) else [].
Definition room (b : StreamBuffer_t) : Z := xLength b - 1 - used b.

Lemma publish_written_ok b data n next buf : sb_ok b -> Z.of_nat (length buf) = xLength b ->
  ring (xLength b) buf (xTail b) (used b) = content b -> written b data n next buf ->
  exists hd, wp (publish_head next) (set_pucBuffer buf b) (fun _ b' => b' = set_xHead hd (set_pucBuffer buf b) /\
    sb_ok b' /\ content b' = content b ++ added b data n).
Proof.
  intros OK Hl Hc Hw. pose proof (set_pucBuffer_ok b buf OK Hl) as OK1. pose proof (used_range b OK) as Hu.
  destruct next as [h|]; cbn [publish_head].
  - destruct Hw as (Hn & _ & Hw). cbv zeta in Hw. set (m := wire (is_message b) (take (Z.to_nat n) data)) in *. destruct Hw as (-> & Hfit & Hr).
    assert (Hm0 : 0 <= len m) by (unfold len; lia). eexists. apply wp_modify. split; [reflexivity|]. split.
    + apply (set_xHead_ok (set_pucBuffer buf b)); [done|cbn [xLength set_pucBuffer]; lia].
    + rewrite (content_head (set_pucBuffer buf b)); [|done|change (used (set_pucBuffer buf b)) with (used b); cbn [xLength set_pucBuffer]; lia]. unfold added. rewrite (proj2 (Z.ltb_lt 0 n)) by lia. cbn [xLength pucBuffer xHead set_pucBuffer].
      rewrite Hr. f_equal. exact Hc.
  - cbn in Hw. subst n. exists (xHead b). apply wp_ret. split; [by destruct b|]. split; [done|]. unfold added. cbn. rewrite app_nil_r. exact Hc.
Qed.

(** Whole messages or what fits of a stream, behind what is there. *)
Lemma prvWriteMessageToBuffer_ok b data (Q : Z -> StreamBuffer_t -> Prop) : sb_ok b -> len data + 4 < 4294967296 ->
  let n := sendable b data (room b) in
  (forall hd buf, let b' := set_xHead hd (set_pucBuffer buf b) in sb_ok b' -> content b' = content b ++ added b data n -> Q n b') ->
  wp (prvWriteMessageToBuffer data (len data) (room b) (len data + (if is_message b then 4 else 0))) b Q.
Proof.
  intros OK Hd n HQ. pose proof (used_range b OK) as Hu. apply wp_bind, write_copy_ok; [done|unfold room; lia|done|].
  intros n' next buf Hl Hc Hw ->. fold n in Hw |- *. destruct (publish_written_ok b data n next buf OK Hl Hc Hw) as (hd & Hp).
  apply wp_bind. eapply wp_mono; [exact Hp|]. intros [] b' (-> & OK' & Hc'). apply wp_ret. by apply HQ.
Qed.

Section Calls.
Context {A : Type} `{HS : StaticsOk} `{HH : KernelHeap A} (E : gset Z).
Abbreviation K := (kernel A).
Abbreviation S := (streams A).
Implicit Types (k : K) (V : view) (D X : gset Z) (s : S).

Lemma on_kernel_ok {Y} (m : M K Y) s (Q : Y -> S -> Prop) : wp m (skernel s) (fun y k => Q y (set_skernel k s)) -> wp (onk m) s Q.
Proof. apply wp_zoom. Qed.
Lemma rd_buffer_ok s h b (Q : StreamBuffer_t -> S -> Prop) : buffers s !! h = Some b -> Q b s -> wp (rd_buffer h) s Q.
Proof. intros Hb HQ. apply wp_bind, wp_gets. by eapply wp_of_option. Qed.
Definition put_buffer (h : Z) (b : StreamBuffer_t) (s : S) : S := set_buffers (<[h := b]> (buffers s)) s.
Lemma onb_ok {Y} h (m : M StreamBuffer_t Y) s b (Q : Y -> S -> Prop) : buffers s !! h = Some b ->
  wp m b (fun y b' => Q y (put_buffer h b' s)) -> wp (onb h m) s Q.
Proof.
  intros Hb Hm. apply wp_bind. eapply rd_buffer_ok; [exact Hb|]. unfold wp in Hm. destruct (m b) as [[y b']|w]; [|done].
  apply wp_bind, wp_modify, wp_ret. exact Hm.
Qed.

(** The task at the other end, if there is one: neither deleted nor dying, and
    waiting, if for a notification, for nothing else. *)
Definition party_ok (D X : gset Z) (k : K) (V : view) (t : Z) : Prop :=
  t = 0 \/ exists b, tcbs k !! t = Some b /\ ~ (t ∈ D) /\ ~ (t ∈ X) /\
    (ucNotifyState b = taskWAITING_NOTIFICATION -> cont V (xEventListItem t) = 0).

(** The task has its notification; if it waited for it, it is ready, or pending
    while the scheduler is suspended. *)
Definition alerted (t : Z) (woken : bool) (k k' : K) (V' : view) : Prop :=
  exists b c b', tcbs k !! t = Some b /\ tcbs k !! pxCurrentTCB k = Some c /\ tcbs k' !! t = Some b' /\
    ucNotifyState b' = taskNOTIFICATION_RECEIVED /\
    if ucNotifyState b =? taskWAITING_NOTIFICATION then
      (if uxSchedulerSuspended k =? 0 then cont V' (xStateListItem t) = pxReadyTasksLists (uxPriority b)
       else cont V' (xEventListItem t) = xPendingReadyList) /\
      woken = (uxPriority c <? uxPriority b) /\ (woken = true -> xYieldPending k' = true)
    else woken = false.

Lemma notify_party_ok D X k V t : good E D X k V -> t <> 0 -> party_ok D X k V t ->
  wp (xTaskGenericNotifyFromISR t 0 0 eNoAction) k (fun r k' => exists V', good E D X k' V' /\ alerted t r.2 k k' V').
Proof.
  intros G Ht [?|(b & Hb & HD & HX & Hev)]; [done|]. destruct (cur_some E D X k V G) as [c Hc].
  eapply wp_mono; [apply (xTaskGenericNotifyFromISR_ok E D X k V t b c 0 eNoAction G Hb Hc HD HX Hev)|].
  intros r k' (V' & G' & _ & Hr). exists V'. split; [done|]. unfold alerted.
  destruct (ucNotifyState b =? taskWAITING_NOTIFICATION) eqn:Ew.
  - destruct Hr as (W & -> & Hy). unfold woken in W. change (uxSchedulerSuspended (posted t _ k)) with (uxSchedulerSuspended k) in W.
    exists b, c, (notified eNoAction 0 b). rewrite Ew. destruct (uxSchedulerSuspended k =? 0); destruct W as [_ _ Wt Ws We _ _]; by auto 7.
  - destruct Hr as (-> & -> & ->). exists b, c, (notified eNoAction 0 b). rewrite Ew. split; [done|]. split; [done|]. split; [|done].
    apply lookup_insert_eq.
Qed.

(** Telling the waiting task, if there is one. *)
Lemma notify_waiting_from_isr_ok D X s V h b who clear : good E D X (skernel s) V -> buffers s !! h = Some b ->
  party_ok D X (skernel s) V (who b) ->
  wp (notify_waiting_from_isr h who clear) s (fun r s' => exists V', good E D X (skernel s') V' /\
    if who b =? 0 then s' = s /\ V' = V /\ r.2 = false
    else alerted (who b) r.2 (skernel s) (skernel s') V' /\ buffers s' = <[h := clear b]> (buffers s)).
Proof.
  intros G Hb Hp. apply wp_bind. eapply rd_buffer_ok; [exact Hb|]. destruct (Z.eqb_spec (who b) 0) as [_|N]; [apply wp_ret; by exists V|].
  apply wp_bind, on_kernel_ok. eapply wp_mono; [by apply (notify_party_ok D X _ V)|]. intros [[ok v] woken] k' (V' & G' & Ha).
  apply wp_bind. eapply onb_ok; [exact Hb|]. apply wp_modify, wp_ret. by exists V'.
Qed.

Lemma xStreamBufferSendFromISR_run D X s V h b data : good E D X (skernel s) V -> buffers s !! h = Some b -> sb_ok b -> h <> 0 ->
  len data + 4 < 4294967296 -> party_ok D X (skernel s) V (xTaskWaitingToReceive b) ->
  let n := sendable b data (room b) in let t := xTaskWaitingToReceive b in
  wp (xStreamBufferSendFromISR h data (len data)) s (fun r s' => exists b' V', r.1 = n /\ good E D X (skernel s') V' /\
    buffers s' = <[h := b']> (buffers s) /\ sb_ok b' /\ content b' = content b ++ added b data n /\
    if (0 <? n) && (xTriggerLevelBytes b <=? used b') && negb (t =? 0)
    then xTaskWaitingToReceive b' = 0 /\ alerted t r.2 (skernel s) (skernel s') V'
    else xTaskWaitingToReceive b' = t /\ skernel s' = skernel s /\ r.2 = false).
Proof.
  intros G Hb OK Hh Hd Hp n t. apply wp_bind, wp_assert; [by rewrite (proj2 (Z.eqb_neq _ _) Hh)|].
  apply wp_bind. eapply rd_buffer_ok; [exact Hb|].
  assert (Hreq : (if is_message b then u32 (len data + sbBYTES_TO_STORE_MESSAGE_LENGTH) else len data) = len data + (if is_message b then 4 else 0)).
  { unfold sbBYTES_TO_STORE_MESSAGE_LENGTH. destruct (is_message b); [|lia]. apply u32_small. unfold is_u32, len in *. lia. }
  cbv zeta. rewrite Hreq, spaces_eq by done. fold (room b). apply wp_bind. eapply onb_ok; [exact Hb|].
  apply prvWriteMessageToBuffer_ok; [done|done|]. fold n. intros hd buf b' OK' Hc'. set (s1 := put_buffer h b' s).
  assert (Hb1 : buffers s1 !! h = Some b') by apply lookup_insert_eq. apply wp_bind.
  destruct (Z.ltb_spec 0 n) as [Hn|Hn]; cbn [andb].
  2:{ apply wp_ret, wp_ret. by exists b', V. }
  apply wp_bind. eapply rd_buffer_ok; [exact Hb1|]. rewrite prvBytesInBuffer_eq by done. change (xTriggerLevelBytes b') with (xTriggerLevelBytes b).
  destruct (xTriggerLevelBytes b <=? used b') eqn:El; cbn [andb].
  2:{ apply wp_ret, wp_ret. exists b', V. by rewrite El. }
  apply wp_bind. eapply wp_mono; [by apply (notify_waiting_from_isr_ok D X s1 V h b' xTaskWaitingToReceive (set_xTaskWaitingToReceive 0))|].
  intros r s' (V' & G' & Hr). apply wp_ret, wp_ret. change (xTaskWaitingToReceive b') with t in Hr. destruct (t =? 0) eqn:Et; cbn [negb].
  - destruct Hr as (-> & -> & ->). exists b', V. by rewrite El.
  - destruct Hr as (Ha & Hbs). exists (set_xTaskWaitingToReceive 0 b'), V'.
    change (used (set_xTaskWaitingToReceive 0 b')) with (used b'). rewrite El. split; [done|]. split; [done|]. split; [|split; [|split; [exact Hc'|by split]]].
    + rewrite Hbs. unfold s1, put_buffer. cbn. by rewrite insert_insert_eq.
    + destruct OK' as [O1 O2 O3 O4]. by split.
Qed.

(** C12: an interrupt sends: a whole message or none, of a stream as much as fits,
    goes behind what is in the buffer, and the number of bytes is returned; if
    the trigger level is reached a task that waits to receive gets its
    notification, and if it was blocked it is ready, or pending while the
    scheduler is suspended, and the interrupt learns whether it should run;
    otherwise the kernel is as before.  The scheduler's invariant holds. *)
Theorem xStreamBufferSendFromISR_delivers D X s V h b data : good E D X (skernel s) V -> buffers s !! h = Some b -> sb_ok b -> h <> 0 ->
  len data + 4 < 4294967296 -> party_ok D X (skernel s) V (xTaskWaitingToReceive b) ->
  let n := sendable b data (xLength b - 1 - used b) in let t := xTaskWaitingToReceive b in
  exists woken s' b' V', xStreamBufferSendFromISR h data (len data) s = Done ((n, woken), s') /\ good E D X (skernel s') V' /\
    buffers s' = <[h := b']> (buffers s) /\ sb_ok b' /\
    content b' = content b ++ (if 0 <? n then wire (is_message b) (take (Z.to_nat n) data) else []) /\
    if (0 <? n) && (xTriggerLevelBytes b <=? used b') && negb (t =? 0)
    then xTaskWaitingToReceive b' = 0 /\ alerted t woken (skernel s) (skernel s') V'
    else xTaskWaitingToReceive b' = t /\ skernel s' = skernel s /\ woken = false.
Proof.
  intros G Hb OK Hh Hd Hp n t. pose proof (xStreamBufferSendFromISR_run D X s V h b data G Hb OK Hh Hd Hp) as Hw.
  apply wp_done in Hw as ([n' woken] & s' & Hrun & b' & V' & Hn & Hrest). cbn in Hn. subst n'. by exists woken, s', b', V'.
Qed.
End Calls.

(** ** The timer task of the boot waits for a message *)

Definition stream : Z := 536903000.
Definition to_receiving : list call := [NotifyStateClear 0; NotifyWait 0 100; Switch stack_pointer].
Definition kernel8 : kernel heap_state := Eval vm_compute in exec (run_calls to_receiving) kernel3.
Lemma kernel8_run : run_calls to_receiving kernel3 = Done (tt, kernel8).
Proof. vm_compute. reflexivity. Qed.
Lemma kernel8_good : exists D X V L, good event_lists D X kernel8 V /\ owns event_lists kernel8 L.
Proof. exact (wp_run _ _ _ _ _ (calls_sound event_lists to_receiving kernel3 kernel3_sound ltac:(vm_compute; reflexivity)) kernel8_run). Qed.
Definition waited_for : StreamBuffer_t := mkStream 9 9 11 1 timer 0 (repeat 85 11) 1.
Definition streams8 : streams heap_state := mkStreams kernel8 {[stream := waited_for]}.

Lemma timer_waits D X V : good event_lists D X kernel8 V -> party_ok D X kernel8 V timer.
Proof.
  intros G. right. destruct (is_alive_ok event_lists D X kernel8 V G timer ltac:(vm_compute; reflexivity)) as (b & Hb & HD & HX).
  exists b. split; [done|]. split; [done|]. split; [done|]. intros _. rewrite <- (reads_event event_lists D X kernel8 V G timer b Hb). by_decision.
Qed.

Lemma xStreamBufferSendFromISR_delivers_witness : exists D X V woken s' b' V', good event_lists D X kernel8 V /\
  xStreamBufferSendFromISR stream [1; 2; 3] 3 streams8 = Done ((3, woken), s') /\ good event_lists D X (skernel s') V' /\
  buffers s' !! stream = Some b' /\ content b' = [3; 0; 0; 0; 1; 2; 3] /\ alerted timer woken kernel8 (skernel s') V'.
Proof.
  destruct kernel8_good as (D & X & V & L & G & _).
  destruct (xStreamBufferSendFromISR_delivers event_lists D X streams8 V stream waited_for [1; 2; 3] G (lookup_singleton_eq stream waited_for)
    ltac:(by split) ltac:(by_decision) ltac:(by_decision) (timer_waits D X V G)) as (woken & s' & b' & V' & Hrun & G' & Hbs & OK & Hc & Hrest).
  assert (Hu : used b' = 7) by (rewrite <- len_content by done; rewrite Hc; reflexivity). rewrite Hu in Hrest.
  exists D, X, V, woken, s', b', V'. split; [exact G|]. split; [exact Hrun|]. split; [exact G'|]. split; [rewrite Hbs; apply lookup_insert_eq|].
  split; [exact Hc|exact (proj2 Hrest)].
Defined.

(** A task receives with nothing there: it sleeps, an interrupt sends a message
    around the end of the storage, the task runs again and has the message. *)
Definition empty_stream : streams heap_state := mkStreams kernel3 {[stream := mkStream 9 9 11 1 0 0 (repeat 85 11) 1]}.
Definition interrupt_sends : M (streams heap_state) unit :=
  onk (SW_Handler stack_pointer);;
  xStreamBufferSendFromISR stream [1; 2; 3] 3;;
  onk (SysTick_Handler);;
  onk (SW_Handler stack_pointer).
Example receive_waits_for_the_interrupt :
  exists s', xStreamBufferReceive interrupt_sends stream 8 100 empty_stream = Done ([1; 2; 3], s') /\
    pxCurrentTCB (skernel s') = timer /\ xStreamBufferIsEmpty <$> buffers s' !! stream = Some true.
Proof. eexists. split; [vm_compute; reflexivity|]. split; reflexivity. Qed.
