(* ===== verification/Timers.v ===== *)
(** FreeRTOS/timers.c: software timers.  A daemon task keeps the active timers
    on two lists in the order of their expiry, one for each half of the wrapped
    tick count, and takes commands from a queue.  What it asks of the queue, the
    scheduler and the heap, and the callbacks, are an interface. *)
From S2P Require Import Prelude FList Klist.

Definition tmrNO_DELAY : Z := 0.
Definition tmrMAX_TIME_BEFORE_OVERFLOW : Z := 4294967295.
Definition tmrSTATUS_IS_ACTIVE : Z := 1.
Definition tmrSTATUS_IS_STATICALLY_ALLOCATED : Z := 2.
Definition tmrSTATUS_IS_AUTORELOAD : Z := 4.
Definition tmrCOMMAND_EXECUTE_CALLBACK_FROM_ISR : Z := -2.
Definition tmrCOMMAND_EXECUTE_CALLBACK : Z := -1.
Definition tmrCOMMAND_START : Z := 1.
Definition tmrCOMMAND_RESET : Z := 2.
Definition tmrCOMMAND_STOP : Z := 3.
Definition tmrCOMMAND_CHANGE_PERIOD : Z := 4.
Definition tmrCOMMAND_DELETE : Z := 5.
Definition tmrFIRST_FROM_ISR_COMMAND : Z := 6.
Definition tmrCOMMAND_START_FROM_ISR : Z := 6.
Definition tmrCOMMAND_RESET_FROM_ISR : Z := 7.
Definition tmrCOMMAND_STOP_FROM_ISR : Z := 8.
Definition tmrCOMMAND_CHANGE_PERIOD_FROM_ISR : Z := 9.
Definition configTIMER_QUEUE_LENGTH : Z := 4.
Definition SIZEOF_TIMER : Z := 40.
Definition SIZEOF_MESSAGE : Z := 16.
Definition taskSCHEDULER_RUNNING : Z := 2.
Definition pdPASS : Z := 1.
Definition pdFAIL : Z := 0.

Record Timer_t := mkTimer {
  pcTimerName : Z;
  xTimerPeriodInTicks : Z;
  pvTimerID : Z;
  pxCallbackFunction : Z;
  ucStatus : Z
}.
Definition set_period (v : Z) (t : Timer_t) : Timer_t := mkTimer (pcTimerName t) v (pvTimerID t) (pxCallbackFunction t) (ucStatus t).
Definition set_id (v : Z) (t : Timer_t) : Timer_t := mkTimer (pcTimerName t) (xTimerPeriodInTicks t) v (pxCallbackFunction t) (ucStatus t).
Definition set_status (v : Z) (t : Timer_t) : Timer_t := mkTimer (pcTimerName t) (xTimerPeriodInTicks t) (pvTimerID t) (pxCallbackFunction t) v.
Definition set_bit (m : Z) (t : Timer_t) : Timer_t := set_status (Z.lor (ucStatus t) m) t.
Definition clear_bit (m : Z) (t : Timer_t) : Timer_t := set_status (Z.land (ucStatus t) (255 - m)) t.
Definition is_active (t : Timer_t) : bool := negb (Z.land (ucStatus t) tmrSTATUS_IS_ACTIVE =? 0).
Definition is_autoreload (t : Timer_t) : bool := negb (Z.land (ucStatus t) tmrSTATUS_IS_AUTORELOAD =? 0).
Definition is_static (t : Timer_t) : bool := negb (Z.land (ucStatus t) tmrSTATUS_IS_STATICALLY_ALLOCATED =? 0).
(** The list item of the timer at [t]. *)
Definition xTimerListItem (t : Z) : Z := t + 4.

(** The union is three words: the value and the timer of a timer command, or the
    function and its two parameters. *)
Record DaemonTaskMessage_t := mkMessage { xMessageID : Z; u_1 : Z; u_2 : Z; u_3 : Z }.
Abbreviation xMessageValue := u_1 (only parsing).
Abbreviation pxTimer := u_2 (only parsing).

Class TimerStatics := { xActiveTimerList1 : Z; xActiveTimerList2 : Z }.

(** What the module asks of tasks.c, queue.c and the heap; the functions of the
    application that timers and pended calls run. *)
Class Daemon (W : Type) := {
  xTaskGetTickCount : W -> Z;
  xTaskGetSchedulerState : W -> Z;
  vTaskSuspendAll : W -> W;
  xTaskResumeAll : W -> bool * W;
  portYIELD_WITHIN_API : W -> W;
  pvPortMalloc : Z -> W -> Z * W;
  vPortFree : Z -> W -> W;
  xQueueCreate : Z -> Z -> W -> Z * W;
  vQueueAddToRegistry : Z -> W -> W;
  xQueueReceive : Z -> Z -> W -> option DaemonTaskMessage_t * W;
  xQueueSendToBack : Z -> DaemonTaskMessage_t -> Z -> W -> Z * W;
  xQueueSendToBackFromISR : Z -> DaemonTaskMessage_t -> W -> Z * bool * W;
  vQueueWaitForMessageRestricted : Z -> Z -> bool -> W -> W;
  timer_callback : Z -> Z -> W -> W;
  pended_function : Z -> Z -> Z -> W -> W
}.

Record timers (W : Type) := mkTimers {
  tls : lstate;
  timer : gmap Z Timer_t;
  pxCurrentTimerList : Z;
  pxOverflowTimerList : Z;
  xTimerQueue : Z;
  xLastTime : Z;
  world : W
}.
Arguments mkTimers {W}.
Arguments tls {W} _.
Arguments timer {W} _.
Arguments pxCurrentTimerList {W} _.
Arguments pxOverflowTimerList {W} _.
Arguments xTimerQueue {W} _.
Arguments xLastTime {W} _.
Arguments world {W} _.

Section Timers.
Context {W : Type} `{TimerStatics} `{Daemon W}.
Abbreviation T := (timers W).

Definition set_tls (v : lstate) (s : T) : T := mkTimers v (timer s) (pxCurrentTimerList s) (pxOverflowTimerList s) (xTimerQueue s) (xLastTime s) (world s).
Definition set_timer (v : gmap Z Timer_t) (s : T) : T := mkTimers (tls s) v (pxCurrentTimerList s) (pxOverflowTimerList s) (xTimerQueue s) (xLastTime s) (world s).
Definition set_timer_lists (c o : Z) (s : T) : T := mkTimers (tls s) (timer s) c o (xTimerQueue s) (xLastTime s) (world s).
Definition set_xTimerQueue (v : Z) (s : T) : T := mkTimers (tls s) (timer s) (pxCurrentTimerList s) (pxOverflowTimerList s) v (xLastTime s) (world s).
Definition set_xLastTime (v : Z) (s : T) : T := mkTimers (tls s) (timer s) (pxCurrentTimerList s) (pxOverflowTimerList s) (xTimerQueue s) v (world s).
Definition set_world (v : W) (s : T) : T := mkTimers (tls s) (timer s) (pxCurrentTimerList s) (pxOverflowTimerList s) (xTimerQueue s) (xLastTime s) v.

Definition onl {X} (m : M lstate X) : M T X := zoom tls set_tls m.
Definition ask {X} (f : W -> X) : M T X := gets (fun s => f (world s)).
Definition tell (f : W -> W) : M T unit := modify (fun s => set_world (f (world s)) s).
Definition call {X} (f : W -> X * W) : M T X := s ← get; let '(x, w) := f (world s) in put (set_world w s);; mret x.
Definition rd_timer (t : Z) : M T Timer_t := m ← gets timer; of_option (m !! t).
Definition wr_timer (t : Z) (f : Timer_t -> Timer_t) : M T unit :=
  b ← rd_timer t; modify (fun s => set_timer (<[t := f b]> (timer s)) s).

(** ** Creation and access *)

Definition prvCheckForValidListAndQueue : M T unit :=
  q ← gets xTimerQueue;
  if q =? 0 then
    onl (vListInitialise xActiveTimerList1);;
    onl (vListInitialise xActiveTimerList2);;
    modify (set_timer_lists xActiveTimerList1 xActiveTimerList2);;
    q ← call (xQueueCreate configTIMER_QUEUE_LENGTH SIZEOF_MESSAGE);
    modify (set_xTimerQueue q);;
    (if negb (q =? 0) then tell (vQueueAddToRegistry q) else mret tt)
  else mret tt.
Definition prvInitialiseNewTimer (name period : Z) (uxAutoReload : bool) (id callback t : Z) : M T unit :=
  assert_ (0 <? period);;
  prvCheckForValidListAndQueue;;
  wr_timer t (fun b => mkTimer name period id callback (ucStatus b));;
  onl (vListInitialiseItem (xTimerListItem t));;
  (if uxAutoReload then wr_timer t (set_bit tmrSTATUS_IS_AUTORELOAD) else mret tt).
(** The memory of a new timer and what it held; the memory of a freed one. *)
Definition place_timer (raw : Timer_t * MiniListItem_t * ItemTail) (t : Z) : M T unit :=
  modify (fun s => set_timer (<[t := raw.1.1]> (timer s)) s);;
  onl (modify (fun s => mkLstate (<[xTimerListItem t := raw.1.2]> (minis s)) (<[xTimerListItem t := raw.2]> (tails s)) (lists s))).
Definition drop_timer (t : Z) : M T unit :=
  rd_timer t;;
  modify (fun s => set_timer (delete t (timer s)) s);;
  onl (modify (fun s => mkLstate (delete (xTimerListItem t) (minis s)) (delete (xTimerListItem t) (tails s)) (lists s))).
Definition xTimerCreate (raw : Timer_t * MiniListItem_t * ItemTail) (name period : Z) (uxAutoReload : bool) (id callback : Z) : M T Z :=
  t ← call (pvPortMalloc SIZEOF_TIMER);
  (if negb (t =? 0) then
     place_timer raw t;;
     wr_timer t (set_status 0);;
     prvInitialiseNewTimer name period uxAutoReload id callback t
   else mret tt);;
  mret t.

Definition xTimerGetPeriod (t : Z) : M T Z := assert_ (negb (t =? 0));; b ← rd_timer t; mret (xTimerPeriodInTicks b).
Definition vTimerSetReloadMode (t : Z) (uxAutoReload : bool) : M T unit :=
  assert_ (negb (t =? 0));;
  wr_timer t (if uxAutoReload then set_bit tmrSTATUS_IS_AUTORELOAD else clear_bit tmrSTATUS_IS_AUTORELOAD).
Definition uxTimerGetReloadMode (t : Z) : M T bool := assert_ (negb (t =? 0));; b ← rd_timer t; mret (is_autoreload b).
Definition xTimerGetExpiryTime (t : Z) : M T Z := assert_ (negb (t =? 0));; onl (listGET_LIST_ITEM_VALUE (xTimerListItem t)).
Definition pcTimerGetName (t : Z) : M T Z := assert_ (negb (t =? 0));; b ← rd_timer t; mret (pcTimerName b).
Definition xTimerIsTimerActive (t : Z) : M T bool := assert_ (negb (t =? 0));; b ← rd_timer t; mret (is_active b).
Definition pvTimerGetTimerID (t : Z) : M T Z := assert_ (negb (t =? 0));; b ← rd_timer t; mret (pvTimerID b).
Definition vTimerSetTimerID (t pvNewID : Z) : M T unit := assert_ (negb (t =? 0));; wr_timer t (set_id pvNewID).

(** ** Commands *)

(** The result and [*pxHigherPriorityTaskWoken]. *)
Definition xTimerGenericCommand (t xCommandID xOptionalValue xTicksToWait : Z) : M T (Z * bool) :=
  assert_ (negb (t =? 0));;
  q ← gets xTimerQueue;
  if negb (q =? 0) then
    let xMessage := mkMessage xCommandID xOptionalValue t 0 in
    if xCommandID <? tmrFIRST_FROM_ISR_COMMAND then
      st ← ask xTaskGetSchedulerState;
      r ← call (xQueueSendToBack q xMessage (if st =? taskSCHEDULER_RUNNING then xTicksToWait else tmrNO_DELAY));
      mret (r, false)
    else call (xQueueSendToBackFromISR q xMessage)
  else mret (pdFAIL, false).
Definition xTimerStart (t xTicksToWait : Z) : M T (Z * bool) :=
  now ← ask xTaskGetTickCount; xTimerGenericCommand t tmrCOMMAND_START now xTicksToWait.
Definition xTimerStop (t xTicksToWait : Z) : M T (Z * bool) := xTimerGenericCommand t tmrCOMMAND_STOP 0 xTicksToWait.
Definition xTimerChangePeriod (t xNewPeriod xTicksToWait : Z) : M T (Z * bool) := xTimerGenericCommand t tmrCOMMAND_CHANGE_PERIOD xNewPeriod xTicksToWait.
Definition xTimerDelete (t xTicksToWait : Z) : M T (Z * bool) := xTimerGenericCommand t tmrCOMMAND_DELETE 0 xTicksToWait.
Definition xTimerReset (t xTicksToWait : Z) : M T (Z * bool) :=
  now ← ask xTaskGetTickCount; xTimerGenericCommand t tmrCOMMAND_RESET now xTicksToWait.

Definition xTimerPendFunctionCallFromISR (xFunctionToPend pvParameter1 ulParameter2 : Z) : M T (Z * bool) :=
  q ← gets xTimerQueue;
  call (xQueueSendToBackFromISR q (mkMessage tmrCOMMAND_EXECUTE_CALLBACK_FROM_ISR xFunctionToPend pvParameter1 ulParameter2)).
Definition xTimerPendFunctionCall (xFunctionToPend pvParameter1 ulParameter2 xTicksToWait : Z) : M T Z :=
  q ← gets xTimerQueue;
  assert_ (negb (q =? 0));;
  call (xQueueSendToBack q (mkMessage tmrCOMMAND_EXECUTE_CALLBACK xFunctionToPend pvParameter1 ulParameter2) xTicksToWait).

(** ** Expiry *)

(** Whether the timer is to be processed now. *)
Definition prvInsertTimerInActiveList (t xNextExpiryTime xTimeNow xCommandTime : Z) : M T bool :=
  onl (listSET_LIST_ITEM_VALUE (xTimerListItem t) xNextExpiryTime);;
  onl (listSET_LIST_ITEM_OWNER (xTimerListItem t) t);;
  if xNextExpiryTime <=? xTimeNow then
    b ← rd_timer t;
    if xTimerPeriodInTicks b <=? u32 (xTimeNow - xCommandTime) then mret true
    else l ← gets pxOverflowTimerList; onl (insert_ordered l (xTimerListItem t));; mret false
  else if (xTimeNow <? xCommandTime) && (xCommandTime <=? xNextExpiryTime) then mret true
  else l ← gets pxCurrentTimerList; onl (insert_ordered l (xTimerListItem t));; mret false.

Definition call_back (t : Z) : M T unit := b ← rd_timer t; tell (timer_callback (pxCallbackFunction b) t).

Fixpoint reload_loop (fuel : nat) (t xExpiredTime xTimeNow : Z) : M T unit :=
  match fuel with
  | O => stop_ NoFuel
  | S fuel =>
      b ← rd_timer t;
      again ← prvInsertTimerInActiveList t (u32 (xExpiredTime + xTimerPeriodInTicks b)) xTimeNow xExpiredTime;
      if again : bool then
        call_back t;;
        reload_loop fuel t (u32 (xExpiredTime + xTimerPeriodInTicks b)) xTimeNow
      else mret tt
  end.
(** One turn for each period that has passed. *)
Definition prvReloadTimer (t xExpiredTime xTimeNow : Z) : M T unit :=
  b ← rd_timer t;
  reload_loop (S (Z.to_nat (u32 (xTimeNow - xExpiredTime) / xTimerPeriodInTicks b))) t xExpiredTime xTimeNow.

Definition prvProcessExpiredTimer (xNextExpireTime xTimeNow : Z) : M T unit :=
  l ← gets pxCurrentTimerList;
  t ← onl (listGET_OWNER_OF_HEAD_ENTRY l);
  onl (uxListRemove (xTimerListItem t));;
  b ← rd_timer t;
  (if is_autoreload b then prvReloadTimer t xNextExpireTime xTimeNow
   else wr_timer t (clear_bit tmrSTATUS_IS_ACTIVE));;
  call_back t.

Fixpoint switch_loop (fuel : nat) : M T unit :=
  match fuel with
  | O => stop_ NoFuel
  | S fuel =>
      l ← gets pxCurrentTimerList;
      empty ← onl (listLIST_IS_EMPTY l);
      if empty : bool then mret tt
      else
        xNextExpireTime ← onl (listGET_ITEM_VALUE_OF_HEAD_ENTRY l);
        prvProcessExpiredTimer xNextExpireTime tmrMAX_TIME_BEFORE_OVERFLOW;;
        switch_loop fuel
  end.
Definition prvSwitchTimerLists : M T unit :=
  n ← gets (fun s => size (timer s));
  switch_loop (S n);;
  modify (fun s => set_timer_lists (pxOverflowTimerList s) (pxCurrentTimerList s) s).

(** The tick count, and whether the lists were switched. *)
Definition prvSampleTimeNow : M T (Z * bool) :=
  xTimeNow ← ask xTaskGetTickCount;
  last ← gets xLastTime;
  let switched := xTimeNow <? last in
  (if switched then prvSwitchTimerLists else mret tt);;
  modify (set_xLastTime xTimeNow);;
  mret (xTimeNow, switched).

(** ** The daemon *)

(** The time and whether the list is empty. *)
Definition prvGetNextExpireTime : M T (Z * bool) :=
  l ← gets pxCurrentTimerList;
  empty ← onl (listLIST_IS_EMPTY l);
  if empty : bool then mret (0, true) else v ← onl (listGET_ITEM_VALUE_OF_HEAD_ENTRY l); mret (v, false).

Definition prvProcessTimerOrBlockTask (xNextExpireTime : Z) (xListWasEmpty : bool) : M T unit :=
  tell vTaskSuspendAll;;
  '(xTimeNow, switched) ← prvSampleTimeNow;
  if negb switched then
    if negb xListWasEmpty && (xNextExpireTime <=? xTimeNow) then
      call xTaskResumeAll;;
      prvProcessExpiredTimer xNextExpireTime xTimeNow
    else
      xListWasEmpty ← (if xListWasEmpty then l ← gets pxOverflowTimerList; onl (listLIST_IS_EMPTY l) else mret false);
      q ← gets xTimerQueue;
      tell (vQueueWaitForMessageRestricted q (u32 (xNextExpireTime - xTimeNow)) xListWasEmpty);;
      already ← call xTaskResumeAll;
      if already : bool then mret tt else tell portYIELD_WITHIN_API
  else call xTaskResumeAll;; mret tt.

(** A timer command; the lists may be switched by taking the time. *)
Definition start_command (t xMessageValue xTimeNow : Z) : M T unit :=
  wr_timer t (set_bit tmrSTATUS_IS_ACTIVE);;
  b ← rd_timer t;
  now ← prvInsertTimerInActiveList t (u32 (xMessageValue + xTimerPeriodInTicks b)) xTimeNow xMessageValue;
  if now : bool then
    b ← rd_timer t;
    (if is_autoreload b then prvReloadTimer t (u32 (xMessageValue + xTimerPeriodInTicks b)) xTimeNow
     else wr_timer t (clear_bit tmrSTATUS_IS_ACTIVE));;
    call_back t
  else mret tt.
Definition switch_command (m : DaemonTaskMessage_t) (xTimeNow : Z) : M T unit :=
  let t := pxTimer m in
  let id := xMessageID m in
  if (id =? tmrCOMMAND_START) || (id =? tmrCOMMAND_START_FROM_ISR) || (id =? tmrCOMMAND_RESET) || (id =? tmrCOMMAND_RESET_FROM_ISR) then
    start_command t (xMessageValue m) xTimeNow
  else if (id =? tmrCOMMAND_STOP) || (id =? tmrCOMMAND_STOP_FROM_ISR) then
    wr_timer t (clear_bit tmrSTATUS_IS_ACTIVE)
  else if (id =? tmrCOMMAND_CHANGE_PERIOD) || (id =? tmrCOMMAND_CHANGE_PERIOD_FROM_ISR) then
    wr_timer t (set_bit tmrSTATUS_IS_ACTIVE);;
    wr_timer t (set_period (xMessageValue m));;
    assert_ (0 <? xMessageValue m);;
    prvInsertTimerInActiveList t (u32 (xTimeNow + xMessageValue m)) xTimeNow xTimeNow;;
    mret tt
  else if id =? tmrCOMMAND_DELETE then
    b ← rd_timer t;
    if negb (is_static b) then drop_timer t;; tell (vPortFree t)
    else wr_timer t (clear_bit tmrSTATUS_IS_ACTIVE)
  else mret tt.
Definition timer_command (m : DaemonTaskMessage_t) : M T unit :=
  let t := pxTimer m in
  alone ← onl (listIS_CONTAINED_WITHIN 0 (xTimerListItem t));
  (if alone : bool then mret tt else onl (uxListRemove (xTimerListItem t));; mret tt);;
  '(xTimeNow, _) ← prvSampleTimeNow;
  switch_command m xTimeNow.
Definition process_message (m : DaemonTaskMessage_t) : M T unit :=
  (if xMessageID m <? 0 then tell (pended_function (u_1 m) (u_2 m) (u_3 m)) else mret tt);;
  (if 0 <=? xMessageID m then timer_command m else mret tt).

(** At most [fuel] messages are there before the queue is found empty. *)
Fixpoint prvProcessReceivedCommands (fuel : nat) : M T unit :=
  match fuel with
  | O => stop_ NoFuel
  | S fuel =>
      q ← gets xTimerQueue;
      r ← call (xQueueReceive q tmrNO_DELAY);
      match r with
      | Some m => process_message m;; prvProcessReceivedCommands fuel
      | None => mret tt
      end
  end.

(** One turn of the loop of [prvTimerTask]. *)
Definition timer_turn (fuel : nat) : M T unit :=
  '(xNextExpireTime, xListWasEmpty) ← prvGetNextExpireTime;
  prvProcessTimerOrBlockTask xNextExpireTime xListWasEmpty;;
  prvProcessReceivedCommands fuel.
End Timers.
