(* ===== verification/TimersOk.v ===== *)
(** Software timers over the wrapping tick count: every active timer has a time
    at which it is due, in ticks that do not wrap, and the two lists hold the
    timers due in this turn of the tick count and in the next. *)
From S2P Require Import Prelude FList Klist Timers.

Definition turn : Z := 4294967296.

Definition v_set_owner (i o : Z) (V : view) : view :=
  mkView (vlists V) (vitems V) (elems V) (cursor V) (value V) (upd (owner V) i o) (cont V).
Lemma set_owner_ok (ls : lstate) V i o : shows ls V -> i ∈ vitems V ->
  wp (listSET_LIST_ITEM_OWNER i o) ls (fun _ ls' => shows ls' (v_set_owner i o V)).
Proof.
  intros HV Hi. pose proof (sh_tail _ _ HV i Hi) as Ht. apply wp_bind. unfold rd_tail. apply wp_bind, wp_get.
  eapply wp_of_option; [exact Ht|]. apply wp_modify. cbn [pxContainer].
  split; cbn [vlists vitems elems cursor value owner cont v_set_owner minis tails lists]; try apply HV.
  - intros l Hl. apply (rep_frame ls); [by apply (sh_rep _ _ HV)|done| |done]. intros x _. cbn.
    destruct (decide (x = i)) as [->|N]; [by rewrite lookup_insert_eq, Ht|by rewrite lookup_insert_ne].
  - intros x Hx. destruct (upd_case (owner V) i o x) as [[-> ->]|[N ->]]; [apply lookup_insert_eq|].
    rewrite lookup_insert_ne by done. by apply (sh_tail _ _ HV).
Qed.

Section Proof.
Context {W : Type} `{TimerStatics} `{Daemon W}.
Abbreviation T := (timers W).
Implicit Types (s : T) (V : view) (b : Timer_t) (due : gmap Z Z).

(** [e] is the number of times the tick count has wrapped. *)
Record timers_ok (e : Z) due s V : Prop := {
  to_shows : shows (tls s) V;
  to_current : pxCurrentTimerList s ∈ vlists V;
  to_overflow : pxOverflowTimerList s ∈ vlists V;
  to_apart : pxCurrentTimerList s <> pxOverflowTimerList s;
  to_item t b : timer s !! t = Some b -> xTimerListItem t ∈ vitems V /\ 0 < xTimerPeriodInTicks b < turn;
  to_timer t d : due !! t = Some d -> is_Some (timer s !! t);
  to_idle t b : timer s !! t = Some b -> due !! t = None -> cont V (xTimerListItem t) = 0;
  to_due t d : due !! t = Some d -> value V (xTimerListItem t) = u32 d /\ owner V (xTimerListItem t) = t /\
    (d / turn = e /\ cont V (xTimerListItem t) = pxCurrentTimerList s \/
     d / turn = e + 1 /\ cont V (xTimerListItem t) = pxOverflowTimerList s);
  to_only i : i ∈ vitems V -> cont V i <> 0 -> exists t, i = xTimerListItem t /\ is_Some (due !! t);
  to_sorted l : l = pxCurrentTimerList s \/ l = pxOverflowTimerList s -> ordered (fun x => Some (value V x)) (elems V l)
}.

(** A timer says that it is active when it is due some time. *)
Definition active_in (P : Z -> Prop) due s : Prop := forall t b, P t -> timer s !! t = Some b -> is_active b = bool_decide (is_Some (due !! t)).
Abbreviation active_ok := (active_in (fun _ => True)).

Lemma item_inj t u : xTimerListItem t = xTimerListItem u -> t = u.
Proof. unfold xTimerListItem. lia. Qed.
Lemma tls_ok {X} (m : M lstate X) s (Q : X -> T -> Prop) : wp m (tls s) (fun x l => Q x (set_tls l s)) -> wp (onl m) s Q.
Proof. apply wp_zoom. Qed.
Lemma rd_timer_ok t b s (Q : Timer_t -> T -> Prop) : timer s !! t = Some b -> Q b s -> wp (rd_timer t) s Q.
Proof. intros Hb HQ. apply wp_bind, wp_gets. by eapply wp_of_option. Qed.
Lemma wr_timer_ok t f b s (Q : unit -> T -> Prop) : timer s !! t = Some b -> Q tt (set_timer (<[t := f b]> (timer s)) s) -> wp (wr_timer t f) s Q.
Proof. intros Hb HQ. apply wp_bind. eapply rd_timer_ok; [exact Hb|]. by apply wp_modify. Qed.
Lemma call_ok {X} (f : W -> X * W) s (Q : X -> T -> Prop) : Q (f (world s)).1 (set_world (f (world s)).2 s) -> wp (call f) s Q.
Proof. intros HQ. apply wp_bind, wp_get. destruct (f (world s)) as [x w]. apply wp_bind, wp_put, wp_ret. exact HQ. Qed.
Lemma set_tls_same s : set_tls (tls s) s = s.
Proof. by destruct s. Qed.

(** The state apart from the stores of lists and of the world. *)
Definition same_timers s s' : Prop :=
  timer s' = timer s /\ pxCurrentTimerList s' = pxCurrentTimerList s /\ pxOverflowTimerList s' = pxOverflowTimerList s /\
  xTimerQueue s' = xTimerQueue s /\ xLastTime s' = xLastTime s.

Lemma timers_ok_world e due s V w : timers_ok e due s V -> timers_ok e due (set_world w s) V.
Proof. by intros []. Qed.
Lemma timers_ok_time e due s V v : timers_ok e due s V -> timers_ok e due (set_xLastTime v s) V.
Proof. by intros []. Qed.
(** A timer may change, but its period stays in range. *)
Lemma timers_ok_timer e due s V t b f : timers_ok e due s V -> timer s !! t = Some b -> 0 < xTimerPeriodInTicks (f b) < turn ->
  timers_ok e due (set_timer (<[t := f b]> (timer s)) s) V.
Proof.
  intros [T1 T2 T3 T4 T5 T6 T7 T8 T9 T10] Hb Hp. split; try done; cbn.
  - intros u c [[<- <-]|[_ Hu]]%lookup_insert_Some; [split; [by eapply T5|done]|by eapply T5].
  - intros u d Hu. destruct (T6 u d Hu) as [c Hc]. destruct (decide (t = u)) as [->|N]; [rewrite lookup_insert_eq|rewrite lookup_insert_ne by done]; eauto.
  - intros u c [[<- <-]|[_ Hu]]%lookup_insert_Some; [by eapply T7|by eapply T7].
Qed.

(** ** A timer leaves its list and gets onto one *)

Lemma timers_ok_remove e due s V t d ls : timers_ok e due s V -> due !! t = Some d -> shows ls (v_remove (xTimerListItem t) V) ->
  timers_ok e (delete t due) (set_tls ls s) (v_remove (xTimerListItem t) V).
Proof.
  intros [T1 T2 T3 T4 T5 T6 T7 T8 T9 T10] Hd HV. split; cbn [tls set_tls pxCurrentTimerList pxOverflowTimerList timer]; try done.
  - intros u k [_ Hu]%lookup_delete_Some. by eapply T6.
  - intros u c Hu Hk. cbn. destruct (decide (u = t)) as [->|N]; [by rewrite upd_hit|].
    rewrite upd_miss by (intros E; by apply item_inj in E). rewrite lookup_delete_ne in Hk by done. by eapply T7.
  - intros u k [N Hu]%lookup_delete_Some. cbn. rewrite upd_miss by (intros E; apply item_inj in E; congruence). by apply T8.
  - intros i Hi. cbn. destruct (decide (i = xTimerListItem t)) as [->|N]; [by rewrite upd_hit|]. rewrite upd_miss by done. intros Hc.
    destruct (T9 i Hi Hc) as (u & -> & Hu). exists u. split; [done|]. rewrite lookup_delete_ne; [done|]. intros ->. done.
  - intros l Hl. cbn. destruct (upd_case (elems V) (cont V (xTimerListItem t)) (without (xTimerListItem t) (elems V (cont V (xTimerListItem t)))) l) as [[-> ->]|[_ ->]];
      [apply ordered_without|]; by apply T10.
Qed.

Lemma timers_ok_value e due s V t v ls : timers_ok e due s V -> due !! t = None -> shows ls (v_set_value (xTimerListItem t) v V) ->
  timers_ok e due (set_tls ls s) (v_set_value (xTimerListItem t) v V).
Proof.
  intros HT Hd HV. pose proof HT as [T1 T2 T3 T4 T5 T6 T7 T8 T9 T10]. split; cbn [tls set_tls pxCurrentTimerList pxOverflowTimerList timer]; try done.
  - intros u k Hu. cbn. rewrite upd_miss by (intros E; apply item_inj in E; congruence). by apply T8.
  - intros l Hl. cbn. assert (Hll : l ∈ vlists V) by (destruct Hl; by subst). destruct (decide (xTimerListItem t ∈ elems V l)) as [Hin|Hout].
    + exfalso. apply (sh_on _ _ T1 l _ Hll) in Hin as [Hi Hc].
      destruct (T9 _ Hi) as (u & E & Hu); [rewrite Hc; intros ->; by apply (sh_null _ _ T1)|]. apply item_inj in E. subst u. rewrite Hd in Hu. by destruct Hu.
    + specialize (T10 l Hl). unfold ordered in *. clear -T10 Hout. induction T10 as [|x xs Hxs IH Hx]; constructor.
      * apply IH. intros Hin. apply Hout. by right.
      * rewrite Forall_forall in Hx |- *. intros y Hy v' w [= <-] [= <-].
        rewrite !upd_miss by (intros ->; apply Hout; (by left) || (by right)). by apply (Hx y Hy).
Qed.

Lemma timers_ok_owner e due s V t ls : timers_ok e due s V -> due !! t = None -> shows ls (v_set_owner (xTimerListItem t) t V) ->
  timers_ok e due (set_tls ls s) (v_set_owner (xTimerListItem t) t V).
Proof.
  intros [T1 T2 T3 T4 T5 T6 T7 T8 T9 T10] Hd HV. split; cbn [tls set_tls pxCurrentTimerList pxOverflowTimerList timer]; try done.
  intros u k Hu. cbn. rewrite upd_miss by (intros E; apply item_inj in E; congruence). by apply T8.
Qed.

Lemma timers_ok_insert e due s V t d l ls : timers_ok e due s V -> due !! t = None -> is_Some (timer s !! t) ->
  value V (xTimerListItem t) = u32 d -> owner V (xTimerListItem t) = t ->
  d / turn = e /\ l = pxCurrentTimerList s \/ d / turn = e + 1 /\ l = pxOverflowTimerList s ->
  shows ls (v_insert l (xTimerListItem t) V) -> timers_ok e (<[t := d]> due) (set_tls ls s) (v_insert l (xTimerListItem t) V).
Proof.
  intros [T1 T2 T3 T4 T5 T6 T7 T8 T9 T10] Hd Ht Hv Ho Hl HV. set (i := xTimerListItem t) in *.
  split; cbn [tls set_tls pxCurrentTimerList pxOverflowTimerList timer]; try done.
  - intros u k [[<- <-]|[_ Hu]]%lookup_insert_Some; [done|by eapply T6].
  - intros u c Hu [Hk N]%lookup_insert_None. cbn. rewrite upd_miss by (intros E; apply item_inj in E; congruence). by eapply T7.
  - intros u k [[<- <-]|[N Hu]]%lookup_insert_Some; cbn.
    + fold i. rewrite upd_hit. split; [done|]. split; [done|]. destruct Hl as [[? ->]|[? ->]]; auto.
    + rewrite upd_miss by (intros E; apply item_inj in E; congruence). by apply T8.
  - intros x Hx. cbn. destruct (upd_case (cont V) i l x) as [[-> ->]|[_ ->]]; intros Hc.
    + exists t. split; [done|]. by rewrite lookup_insert_eq.
    + destruct (T9 x Hx Hc) as (u & -> & k & Hu). exists u. split; [done|].
      destruct (decide (u = t)) as [->|N]; [by rewrite lookup_insert_eq|rewrite lookup_insert_ne by done; eauto].
  - intros m Hm. cbn. destruct (upd_case (elems V) l (place (fun x => Some (value V x)) i (value V i) (elems V l)) m) as [[-> ->]|[_ ->]]; [|by apply T10].
    apply place_ordered; [done|eauto|by apply T10].
Qed.

(** The new time and owner of a timer that is on no list. *)
Lemma arm_ok {X} e due s V t v (k : M T X) (Q : X -> T -> Prop) : timers_ok e due s V -> due !! t = None -> is_Some (timer s !! t) -> is_u32 v ->
  (forall ls V', timers_ok e due (set_tls ls s) V' -> value V' (xTimerListItem t) = v -> owner V' (xTimerListItem t) = t -> wp k (set_tls ls s) Q) ->
  wp (onl (listSET_LIST_ITEM_VALUE (xTimerListItem t) v);; onl (listSET_LIST_ITEM_OWNER (xTimerListItem t) t);; k) s Q.
Proof.
  intros HT Hd [b Hb] Hv HQ. destruct (to_item _ _ _ _ HT t b Hb) as [Hi _]. apply wp_bind, tls_ok.
  eapply wp_mono; [by apply (set_value_ok _ _ (to_shows _ _ _ _ HT))|]. intros [] l1 S1. cbv beta in S1.
  pose proof (timers_ok_value _ _ _ _ _ _ _ HT Hd S1) as HT1. apply wp_bind, tls_ok.
  eapply wp_mono; [by apply (set_owner_ok _ _ _ t (to_shows _ _ _ _ HT1))|]. intros [] l2 S2. cbv beta in S2.
  pose proof (timers_ok_owner _ _ _ _ _ _ HT1 Hd S2) as HT2. eapply (HQ _ _ HT2); cbn; by rewrite upd_hit.
Qed.

(** *** The decision about the wrapped times

    [c] is the time of the command, [n] the time now, both without wrapping and
    less than a turn apart: the timer is processed now exactly when its time is
    over, otherwise it gets onto the list of the turn it is due in. *)
Lemma elapsed c n : c <= n < c + turn -> u32 (u32 n - u32 c) = n - c.
Proof. unfold turn. intros Hc. zlia. Qed.
Lemma decision c p n : c <= n < c + turn -> 0 < p < turn ->
  if u32 (c + p) <=? u32 n then
    if p <=? n - c then c + p <= n else n < c + p /\ (c + p) / turn = n / turn + 1
  else if (u32 n <? u32 c) && (u32 c <=? u32 (c + p)) then c + p <= n else n < c + p /\ (c + p) / turn = n / turn.
Proof.
  unfold turn. intros Hc Hp.
  destruct (Z.leb_spec (u32 (c + p)) (u32 n)) as [H1|H1];
    [destruct (Z.leb_spec p (n - c)) as [H2|H2]|destruct (Z.ltb_spec (u32 n) (u32 c)) as [H2|H2], (Z.leb_spec (u32 c) (u32 (c + p))) as [H3|H3]];
    cbn [andb]; zlia.
Qed.

Lemma prvInsertTimerInActiveList_ok e due s V t b c n v (Q : bool -> T -> Prop) :
  timers_ok e due s V -> due !! t = None -> timer s !! t = Some b ->
  let p := xTimerPeriodInTicks b in
  n / turn = e -> c <= n < c + turn -> v = u32 (c + p) ->
  (forall ls V', (if c + p <=? n then timers_ok e due (set_tls ls s) V' else timers_ok e (<[t := c + p]> due) (set_tls ls s) V') ->
     Q (c + p <=? n) (set_tls ls s)) ->
  wp (prvInsertTimerInActiveList t v (u32 n) (u32 c)) s Q.
Proof.
  intros HT Hd Hb p He Hc -> HQ. destruct (to_item _ _ _ _ HT t b Hb) as [Hi Hp]. fold p in Hp.
  pose proof (decision c p n Hc Hp) as Hdec. rewrite He in Hdec.
  assert (Hready : forall ls V', timers_ok e due (set_tls ls s) V' -> c + p <= n -> Q true (set_tls ls s)).
  { intros ls V' HT' Hle. specialize (HQ ls V'). rewrite (proj2 (Z.leb_le _ _) Hle) in HQ. by apply HQ. }
  assert (Hlater : forall l ls V', timers_ok e due (set_tls ls s) V' -> value V' (xTimerListItem t) = u32 (c + p) ->
    owner V' (xTimerListItem t) = t -> n < c + p ->
    (c + p) / turn = e /\ l = pxCurrentTimerList s \/ (c + p) / turn = e + 1 /\ l = pxOverflowTimerList s ->
    wp (onl (insert_ordered l (xTimerListItem t));; mret false) (set_tls ls s) Q).
  { intros l ls V' HT' Hv Ho Hlt Hl. apply wp_bind, tls_ok. pose proof (to_shows _ _ _ _ HT') as HS.
    eapply wp_mono; [apply (insert_ordered_ok _ _ HS l)|].
    - destruct Hl as [[_ ->]|[_ ->]]; [apply (to_current _ _ _ _ HT')|apply (to_overflow _ _ _ _ HT')].
    - by apply (to_item _ _ _ _ HT' t b).
    - by apply (to_idle _ _ _ _ HT' t b).
    - intros [] ls' HS'. cbv beta in HS'. apply wp_ret. specialize (HQ ls' (v_insert l (xTimerListItem t) V')).
      rewrite (proj2 (Z.leb_gt _ _) Hlt) in HQ. apply HQ.
      apply (timers_ok_insert e due (set_tls ls s) V' t (c + p) l ls' HT' Hd); cbn; eauto. }
  apply (arm_ok e due s V t (u32 (c + p))); [done|done|eauto|apply u32_range|]. intros ls V' HT' Hv Ho.
  rewrite elapsed by done. destruct (u32 (c + p) <=? u32 n).
  - apply wp_bind. eapply rd_timer_ok; [exact Hb|]. fold p. destruct (p <=? n - c); [apply wp_ret; by eapply Hready|].
    apply wp_bind, wp_gets. destruct Hdec. eapply Hlater; eauto.
  - destruct (_ && _); [apply wp_ret; by eapply Hready|]. apply wp_bind, wp_gets. destruct Hdec. eapply Hlater; eauto.
Qed.

(** ** Callbacks *)

Definition run_callbacks (m : gmap Z Timer_t) (calls : list Z) (w : W) : W :=
  foldl (fun w t => match m !! t with Some b => timer_callback (pxCallbackFunction b) t w | None => w end) w calls.
Lemma run_callbacks_app m l1 l2 w : run_callbacks m (l1 ++ l2) w = run_callbacks m l2 (run_callbacks m l1 w).
Proof. apply foldl_app. Qed.
(** A timer changes its status only. *)
Definition same_settings b b' : Prop :=
  xTimerPeriodInTicks b' = xTimerPeriodInTicks b /\ pxCallbackFunction b' = pxCallbackFunction b /\ is_autoreload b' = is_autoreload b /\
  pcTimerName b' = pcTimerName b /\ pvTimerID b' = pvTimerID b /\ is_static b' = is_static b.
Lemma same_settings_refl b : same_settings b b.
Proof. done. Qed.
Definition same_map (m m' : gmap Z Timer_t) : Prop := forall t,
  match m !! t with Some b => exists b', m' !! t = Some b' /\ same_settings b b' | None => m' !! t = None end.
Lemma same_map_refl m : same_map m m.
Proof. intros t. destruct (m !! t); eauto using same_settings_refl. Qed.
Lemma same_map_trans m1 m2 m3 : same_map m1 m2 -> same_map m2 m3 -> same_map m1 m3.
Proof.
  intros H1 H2 t. specialize (H1 t). specialize (H2 t). destruct (m1 !! t) as [b1|]; [|by rewrite H1 in H2].
  destruct H1 as (b2 & E2 & S1). rewrite E2 in H2. destruct H2 as (b3 & E3 & S2). exists b3. split; [done|].
  unfold same_settings in *. intuition congruence.
Qed.
Lemma run_callbacks_same m m' l : same_map m m' -> forall w, run_callbacks m' l w = run_callbacks m l w.
Proof.
  intros Hm. induction l as [|t l IH]; intros w; [done|]. cbn. specialize (Hm t). destruct (m !! t) as [b|].
  - destruct Hm as (b' & -> & _ & -> & _). apply IH.
  - rewrite Hm. apply IH.
Qed.

Lemma call_back_ok t b s (Q : unit -> T -> Prop) : timer s !! t = Some b ->
  Q tt (set_world (timer_callback (pxCallbackFunction b) t (world s)) s) -> wp (call_back t) s Q.
Proof. intros Hb HQ. apply wp_bind. eapply rd_timer_ok; [exact Hb|]. by apply wp_modify. Qed.

(** The state after some callbacks: the timers, the lists in use, the queue. *)
Record called (calls : list Z) s s' : Prop := {
  ca_world : world s' = run_callbacks (timer s) calls (world s);
  ca_timer : same_map (timer s) (timer s');
  ca_current : pxCurrentTimerList s' = pxCurrentTimerList s;
  ca_overflow : pxOverflowTimerList s' = pxOverflowTimerList s;
  ca_queue : xTimerQueue s' = xTimerQueue s;
  ca_last : xLastTime s' = xLastTime s
}.
Lemma called_tls ls s : called [] s (set_tls ls s).
Proof. split; try done. apply same_map_refl. Qed.
Lemma called_trans l1 l2 s1 s2 s3 : called l1 s1 s2 -> called l2 s2 s3 -> called (l1 ++ l2) s1 s3.
Proof.
  intros [A1 A2 A3 A4 A5 A6] [B1 B2 B3 B4 B5 B6]. split; try congruence.
  - rewrite B1, A1, run_callbacks_app. by apply run_callbacks_same.
  - by eapply same_map_trans.
Qed.
Lemma called_one t b s : timer s !! t = Some b -> called [t] s (set_world (timer_callback (pxCallbackFunction b) t (world s)) s).
Proof. intros Hb. split; try done; [|apply same_map_refl]. unfold run_callbacks. cbn. by rewrite Hb. Qed.

(** ** Reloading

    An auto-reload timer that was due at [c] is called back for every period
    that has passed and is due one period after the last of them. *)
Lemma reload_loop_ok e due t b n : n / turn = e -> forall fuel s V c,
  timers_ok e due s V -> due !! t = None -> timer s !! t = Some b -> c <= n < c + turn ->
  (Z.to_nat ((n - c) / xTimerPeriodInTicks b) < fuel)%nat ->
  wp (reload_loop fuel t (u32 c) (u32 n)) s (fun _ s' => exists k V', let p := xTimerPeriodInTicks b in
    timers_ok e (<[t := c + (Z.of_nat k + 1) * p]> due) s' V' /\ called (replicate k t) s s' /\ timer s' = timer s /\
    c + Z.of_nat k * p <= n < c + (Z.of_nat k + 1) * p).
Proof.
  intros He. induction fuel as [|fuel IH]; intros s V c HT Hd Hb Hc Hf; [lia|]. destruct (to_item _ _ _ _ HT t b Hb) as [_ Hp].
  set (p := xTimerPeriodInTicks b) in *. cbn [reload_loop]. apply wp_bind. eapply rd_timer_ok; [exact Hb|]. fold p.
  assert (Eu : u32 (u32 c + p) = u32 (c + p)) by (unfold u32; by rewrite Zplus_mod_idemp_l). rewrite Eu. apply wp_bind.
  eapply (prvInsertTimerInActiveList_ok e due s V t b c n); [done|done|done|done|done|done|]. fold p. intros ls V' HT'.
  destruct (Z.leb_spec (c + p) n) as [Hle|Hgt].
  - apply wp_bind. eapply call_back_ok; [exact Hb|]. set (s1 := set_world _ _).
    assert (Hdiv : (n - c) / p = (n - (c + p)) / p + 1).
    { replace (n - c) with (n - (c + p) + 1 * p) by lia. rewrite Z.div_add by lia. lia. }
    assert (Hpos : 0 <= (n - (c + p)) / p) by (apply Z.div_pos; lia).
    eapply wp_mono; [apply (IH s1 V' (c + p)); [by apply timers_ok_world|done|done|lia|lia]|].
    intros [] s' (k & V2 & HT2 & Hcal & Et & Hk). exists (S k), V2. cbv zeta. fold p in HT2, Hk.
    replace (c + (Z.of_nat (S k) + 1) * p) with (c + p + (Z.of_nat k + 1) * p) by lia. split; [done|]. split; [|split; [done|lia]].
    change (replicate (S k) t) with (([] ++ [t]) ++ replicate k t). eapply called_trans; [|exact Hcal].
    eapply called_trans; [apply called_tls|]. by apply (called_one t b (set_tls ls s)).
  - apply wp_ret. exists 0%nat, V'. cbv zeta. fold p. replace (c + (Z.of_nat 0 + 1) * p) with (c + p) by lia.
    split; [done|]. split; [apply called_tls|]. split; [done|lia].
Qed.

Lemma prvReloadTimer_ok e due s V t b c n : timers_ok e due s V -> due !! t = None -> timer s !! t = Some b ->
  n / turn = e -> c <= n < c + turn ->
  wp (prvReloadTimer t (u32 c) (u32 n)) s (fun _ s' => exists k V', let p := xTimerPeriodInTicks b in
    timers_ok e (<[t := c + (Z.of_nat k + 1) * p]> due) s' V' /\ called (replicate k t) s s' /\ timer s' = timer s /\
    c + Z.of_nat k * p <= n < c + (Z.of_nat k + 1) * p).
Proof.
  intros HT Hd Hb He Hc. apply wp_bind. eapply rd_timer_ok; [exact Hb|]. rewrite elapsed by done.
  eapply reload_loop_ok; [done|exact HT|done|done|done|lia].
Qed.

(** ** The first timer of the current list *)

Lemma on_current e due s V t d : timers_ok e due s V -> due !! t = Some d ->
  xTimerListItem t ∈ elems V (pxCurrentTimerList s) <-> d / turn = e.
Proof.
  intros HT Hd. pose proof (to_shows _ _ _ _ HT) as HS. rewrite (sh_on _ _ HS _ _ (to_current _ _ _ _ HT)).
  destruct (to_due _ _ _ _ HT t d Hd) as (_ & _ & Hw). pose proof (to_apart _ _ _ _ HT) as Hap. split.
  - intros [_ Ec]. destruct Hw as [[? _]|[_ E]]; [done|congruence].
  - intros E. destruct (to_timer _ _ _ _ HT t d Hd) as [b Hb]. split; [by eapply to_item|]. destruct Hw as [[_ ?]|[? _]]; [done|lia].
Qed.
Lemma current_is_timer e due s V i : timers_ok e due s V -> i ∈ elems V (pxCurrentTimerList s) ->
  exists t d, i = xTimerListItem t /\ due !! t = Some d /\ d / turn = e.
Proof.
  intros HT Hi. pose proof (to_shows _ _ _ _ HT) as HS. pose proof (to_current _ _ _ _ HT) as Hl.
  destruct (to_only _ _ _ _ HT i) as (t & -> & d & Hd).
  - by eapply sh_in.
  - rewrite (sh_where _ _ HS _ _ Hl Hi). intros E. rewrite E in Hl. by apply (sh_null _ _ HS).
  - exists t, d. split; [done|]. split; [done|]. by apply (proj1 (on_current e due s V t d HT Hd)).
Qed.
Lemma due_turn e due s V t d : timers_ok e due s V -> due !! t = Some d -> d / turn = e \/ (e + 1) * turn <= d.
Proof.
  intros HT Hd. destruct (to_due _ _ _ _ HT t d Hd) as (_ & _ & [[? _]|[E _]]); [by left|right]. unfold turn in *. zlia.
Qed.
Lemma head_first e due s V i r : timers_ok e due s V -> elems V (pxCurrentTimerList s) = i :: r ->
  exists t d b, i = xTimerListItem t /\ due !! t = Some d /\ timer s !! t = Some b /\ d / turn = e /\
    value V i = u32 d /\ owner V i = t /\ forall t' d', due !! t' = Some d' -> d <= d'.
Proof.
  intros HT Ei. destruct (current_is_timer e due s V i HT) as (t & d & -> & Hd & He); [rewrite Ei; left|].
  destruct (to_timer _ _ _ _ HT t d Hd) as [b Hb]. destruct (to_due _ _ _ _ HT t d Hd) as (Hv & Ho & _).
  exists t, d, b. do 6 (split; [done|]). intros t' d' Hd'. destruct (due_turn e due s V t' d' HT Hd') as [E'|?]; [|unfold turn in *; zlia].
  assert (Hin : xTimerListItem t' ∈ elems V (pxCurrentTimerList s)) by (by apply (proj2 (on_current e due s V t' d' HT Hd'))).
  destruct (to_due _ _ _ _ HT t' d' Hd') as (Hv' & _). rewrite Ei in Hin. apply elem_of_cons in Hin as [E|Hin].
  - apply item_inj in E. subst t'. rewrite Hd in Hd'. injection Hd' as ->. lia.
  - pose proof (to_sorted _ _ _ _ HT _ (or_introl eq_refl)) as Hs. rewrite Ei in Hs. apply StronglySorted_inv in Hs as [_ Hs].
    rewrite Forall_forall in Hs. specialize (Hs _ Hin _ _ eq_refl eq_refl). rewrite Hv, Hv' in Hs. unfold turn in *. zlia.
Qed.
Lemma empty_current e due s V : timers_ok e due s V -> elems V (pxCurrentTimerList s) = [] -> forall t d, due !! t = Some d -> (e + 1) * turn <= d.
Proof.
  intros HT E t d Hd. destruct (due_turn e due s V t d HT Hd) as [Ed|?]; [|done]. apply (proj2 (on_current e due s V t d HT Hd)) in Ed.
  rewrite E in Ed. by apply not_elem_of_nil in Ed.
Qed.
Lemma empty_overflow e due s V : timers_ok e due s V -> elems V (pxCurrentTimerList s) = [] ->
  elems V (pxOverflowTimerList s) = [] <-> due = ∅.
Proof.
  intros HT Ec. pose proof (to_shows _ _ _ _ HT) as HS. split.
  - intros Eo. apply map_empty. intros t. destruct (due !! t) as [d|] eqn:Hd; [|done]. exfalso.
    destruct (to_timer _ _ _ _ HT t d Hd) as [b Hb]. destruct (to_item _ _ _ _ HT t b Hb) as [Hi _].
    destruct (to_due _ _ _ _ HT t d Hd) as (_ & _ & [[_ E]|[_ E]]).
    + pose proof (proj2 (sh_on _ _ HS _ (xTimerListItem t) (to_current _ _ _ _ HT)) (conj Hi E)) as Hin. rewrite Ec in Hin. by apply not_elem_of_nil in Hin.
    + pose proof (proj2 (sh_on _ _ HS _ (xTimerListItem t) (to_overflow _ _ _ _ HT)) (conj Hi E)) as Hin. rewrite Eo in Hin. by apply not_elem_of_nil in Hin.
  - intros ->. destruct (elems V (pxOverflowTimerList s)) as [|i r] eqn:Eo; [done|]. exfalso.
    assert (Hin : i ∈ elems V (pxOverflowTimerList s)) by (rewrite Eo; left). pose proof (to_overflow _ _ _ _ HT) as Hl.
    destruct (to_only _ _ _ _ HT i) as (t & _ & d & Hd); [by eapply sh_in| |by rewrite lookup_empty in Hd].
    rewrite (sh_where _ _ HS _ _ Hl Hin). intros E. rewrite E in Hl. by apply (sh_null _ _ HS).
Qed.

(** ** Expiry *)

Lemma not_active b : is_active (clear_bit tmrSTATUS_IS_ACTIVE b) = false /\ same_settings b (clear_bit tmrSTATUS_IS_ACTIVE b).
Proof.
  unfold is_active, same_settings, is_autoreload, is_static, clear_bit, tmrSTATUS_IS_STATICALLY_ALLOCATED, tmrSTATUS_IS_ACTIVE, tmrSTATUS_IS_AUTORELOAD. cbn [ucStatus set_status].
  rewrite <- !Z.land_assoc. change (Z.land (255 - 1) 1) with 0. change (Z.land (255 - 1) 4) with 4. change (Z.land (255 - 1) 2) with 2. by rewrite Z.land_0_r.
Qed.
Lemma now_active b : is_active (set_bit tmrSTATUS_IS_ACTIVE b) = true /\ same_settings b (set_bit tmrSTATUS_IS_ACTIVE b).
Proof.
  unfold is_active, same_settings, is_autoreload, is_static, set_bit, tmrSTATUS_IS_STATICALLY_ALLOCATED, tmrSTATUS_IS_ACTIVE, tmrSTATUS_IS_AUTORELOAD. cbn [ucStatus set_status].
  rewrite !Z.land_lor_distr_l. change (Z.land 1 4) with 0. change (Z.land 1 2) with 0. rewrite !Z.lor_0_r. split; [|done].
  change (Z.land 1 1) with 1. destruct (Z.eqb_spec (Z.lor (Z.land (ucStatus b) 1) 1) 0) as [E|]; [|done].
  apply (f_equal (fun x => Z.testbit x 0)) in E. by rewrite Z.lor_spec, orb_true_r in E.
Qed.

(** A timer due at [d] is served at the time [n] by so many callbacks, and due
    again after that. *)
Definition served (n : Z) b (d : Z) (calls : nat) (next : option Z) : Prop :=
  if is_autoreload b then let p := xTimerPeriodInTicks b in
    (0 < calls)%nat /\ next = Some (d + Z.of_nat calls * p) /\ d + (Z.of_nat calls - 1) * p <= n < d + Z.of_nat calls * p
  else calls = 1%nat /\ next = None.
Definition active_after due (t : Z) (next : option Z) : gmap Z Z := partial_alter (fun _ => next) t due.

(** The timer [t] is on no list: it is reloaded or not active any more, and
    called back. *)
Lemma serve_ok e due s V t b n d : timers_ok e due s V -> due !! t = None -> timer s !! t = Some b ->
  n / turn = e -> d <= n < d + turn ->
  wp ((if is_autoreload b then prvReloadTimer t (u32 d) (u32 n) else wr_timer t (clear_bit tmrSTATUS_IS_ACTIVE));; call_back t) s
    (fun _ s' => exists k next V', served n b d k next /\ timers_ok e (active_after due t next) s' V' /\ called (replicate k t) s s' /\
       (forall u, u <> t -> timer s' !! u = timer s !! u) /\ (exists b', timer s' !! t = Some b' /\ same_settings b b' /\
         is_active b' = match next with Some _ => is_active b | None => false end)).
Proof.
  intros HT Hd Hb He Hdn. unfold served. apply wp_bind. destruct (to_item _ _ _ _ HT t b Hb) as [_ Hp]. destruct (is_autoreload b).
  - eapply wp_mono; [by apply (prvReloadTimer_ok e due s V t b d n)|]. intros [] s' (k & V' & HT' & Hc & Et & Hk). cbv zeta in HT', Hk.
    rewrite <- Et in Hb. eapply call_back_ok; [exact Hb|]. exists (S k), (Some (d + (Z.of_nat k + 1) * xTimerPeriodInTicks b)), V'. cbv zeta.
    replace (Z.of_nat (S k)) with (Z.of_nat k + 1) by lia. split; [split; [lia|]; split; [done|lia]|]. split; [by apply timers_ok_world|].
    split; [rewrite replicate_S_end; eapply called_trans; [exact Hc|by apply called_one]|]. cbn [timer set_world].
    split; [by intros u _; rewrite Et|]. exists b. by split.
  - eapply wr_timer_ok; [exact Hb|]. destruct (not_active b) as [Hna Hs]. set (b' := clear_bit _ b) in *. set (s1 := set_timer _ s).
    assert (HT1 : timers_ok e due s1 V) by (apply timers_ok_timer; [done|done|]; destruct Hs as [Ep _]; unfold b' in Ep; by rewrite Ep).
    assert (Hb1 : timer s1 !! t = Some b') by apply lookup_insert_eq.
    eapply call_back_ok; [exact Hb1|]. exists 1%nat, None, V. split; [done|]. split.
    + apply timers_ok_world. change (timers_ok e (delete t due) s1 V). by rewrite delete_id.
    + assert (Hc : called [] s s1).
      { split; try done. cbn. intros u. destruct (decide (u = t)) as [->|N]; [rewrite Hb, lookup_insert_eq; eauto|].
        rewrite lookup_insert_ne by done. apply (same_map_refl (timer s) u). }
      split; [change (replicate 1 t) with ([] ++ [t]); eapply called_trans; [exact Hc|by apply called_one]|]. cbn [timer set_world].
      split; [intros u N; cbn; by rewrite lookup_insert_ne|]. exists b'. by split.
Qed.

Lemma prvProcessExpiredTimer_ok e due s V t b n d r : timers_ok e due s V -> elems V (pxCurrentTimerList s) = xTimerListItem t :: r ->
  due !! t = Some d -> timer s !! t = Some b -> n / turn = e -> d <= n ->
  wp (prvProcessExpiredTimer (u32 d) (u32 n)) s (fun _ s' => exists k next V', served n b d k next /\
    timers_ok e (active_after due t next) s' V' /\ called (replicate k t) s s' /\ (forall P, active_in P due s -> active_in P (active_after due t next) s')).
Proof.
  intros HT Ei Hd Hb He Hdn. pose proof (to_shows _ _ _ _ HT) as HS. pose proof (to_current _ _ _ _ HT) as Hl.
  assert (Hin : xTimerListItem t ∈ elems V (pxCurrentTimerList s)) by (rewrite Ei; left).
  pose proof (proj1 (on_current e due s V t d HT Hd) Hin) as Hde.
  destruct (to_due _ _ _ _ HT t d Hd) as (_ & Ho & _). destruct (to_item _ _ _ _ HT t b Hb) as [Hi _].
  assert (Hc : cont V (xTimerListItem t) <> 0) by (rewrite (sh_where _ _ HS _ _ Hl Hin); intros E; rewrite E in Hl; by apply (sh_null _ _ HS)).
  apply wp_bind, wp_gets, wp_bind, tls_ok. eapply (head_owner_ok _ _ HS); [exact Hl|exact Ei|]. rewrite Ho, set_tls_same.
  apply wp_bind, tls_ok. eapply wp_mono; [by apply (uxListRemove_ok _ _ HS)|]. intros len ls [HS1 _].
  pose proof (timers_ok_remove e due s V t d ls HT Hd HS1) as HT1. apply wp_bind. eapply rd_timer_ok; [exact Hb|].
  eapply wp_mono; [apply (serve_ok e (delete t due) (set_tls ls s) _ t b n d HT1); [apply lookup_delete_eq|done|done|unfold turn in *; zlia]|].
  intros [] s' (k & next & V' & Hs & HT' & Hcal & Hoth & b' & Hb' & _ & Ha).
  assert (Ed : active_after (delete t due) t next = active_after due t next) by (unfold active_after; by rewrite partial_alter_delete_eq).
  rewrite Ed in HT'. exists k, next, V'. split; [done|]. split; [done|].
  split; [change (replicate k t) with ([] ++ replicate k t); eapply called_trans; [apply (called_tls ls)|exact Hcal]|].
  intros P Hact u c HP Hu. unfold active_after. destruct (decide (u = t)) as [->|N].
  - rewrite lookup_partial_alter_eq. rewrite Hb' in Hu. injection Hu as <-. rewrite Ha. specialize (Hact t b HP Hb). rewrite Hd in Hact. by destruct next.
  - rewrite lookup_partial_alter_ne by done. rewrite Hoth in Hu by done. by apply Hact.
Qed.

(** ** The end of a turn *)

(** What every timer had when it was served up to the time [n]. *)
Definition all_served (n : Z) (m : gmap Z Timer_t) due due' (calls : list Z) : Prop := forall t,
  match due !! t with
  | Some d => if d <=? n then exists b, m !! t = Some b /\ served n b d (count_occ Z.eq_dec calls t) (due' !! t)
              else count_occ Z.eq_dec calls t = 0%nat /\ due' !! t = Some d
  | None => count_occ Z.eq_dec calls t = 0%nat /\ due' !! t = None
  end.
Lemma served_later n b d k next : served n b d k next -> match next with Some d' => n < d' | None => True end.
Proof. unfold served. destruct (is_autoreload b); [intros (_ & -> & ?); lia|by intros [_ ->]]. Qed.
Lemma served_same n b b' d k next : same_settings b b' -> served n b' d k next -> served n b d k next.
Proof. intros (Ep & _ & Ea & _). unfold served. by rewrite Ep, Ea. Qed.

Lemma count_replicate k t u : count_occ Z.eq_dec (replicate k t) u = if decide (u = t) then k else 0%nat.
Proof.
  induction k as [|k IH]; cbn; [by destruct (decide (u = t))|]. rewrite IH. destruct (Z.eq_dec t u), (decide (u = t)); congruence.
Qed.

(** The first timer is served, then the others. *)
Lemma all_served_cons n (m m1 : gmap Z Timer_t) due due' t b d k next calls : due !! t = Some d -> d <= n -> m !! t = Some b -> served n b d k next ->
  same_map m m1 -> all_served n m1 (active_after due t next) due' calls -> all_served n m due due' (replicate k t ++ calls).
Proof.
  intros Hd Hdn Hb Hs Hm Hall u. specialize (Hall u). rewrite count_occ_app, count_replicate. unfold active_after in Hall.
  destruct (decide (u = t)) as [->|N].
  - rewrite lookup_partial_alter_eq in Hall. rewrite Hd, (proj2 (Z.leb_le d n) Hdn). exists b. split; [done|].
    pose proof (served_later _ _ _ _ _ Hs) as Hlt. destruct next as [d'|].
    + rewrite (proj2 (Z.leb_gt d' n) Hlt) in Hall. destruct Hall as [-> ->]. by rewrite Nat.add_0_r.
    + destruct Hall as [-> ->]. by rewrite Nat.add_0_r.
  - rewrite lookup_partial_alter_ne in Hall by done. cbn. destruct (due !! u) as [du|]; [|done]. destruct (du <=? n); [|done].
    destruct Hall as (b1 & Hb1 & Hs1). specialize (Hm u). destruct (m !! u) as [bu|]; [|by rewrite Hm in Hb1].
    destruct Hm as (b1' & E & Hsame). rewrite Hb1 in E. injection E as <-. exists bu. split; [done|]. by eapply served_same.
Qed.

Lemma current_shorter e due s s' V V' t r next n : timers_ok e due s V -> timers_ok e (active_after due t next) s' V' ->
  pxCurrentTimerList s' = pxCurrentTimerList s -> elems V (pxCurrentTimerList s) = xTimerListItem t :: r ->
  n = (e + 1) * turn - 1 -> match next with Some d' => n < d' | None => True end ->
  (length (elems V' (pxCurrentTimerList s')) <= length r)%nat.
Proof.
  intros HT HT' Ec Ei -> Hn. pose proof (sh_nodup _ _ (to_shows _ _ _ _ HT') _ (to_current _ _ _ _ HT')) as Hd.
  apply submseteq_length, NoDup_submseteq; [done|]. intros i Hi.
  destruct (current_is_timer e _ s' V' i HT' Hi) as (u & du & -> & Hu & He). unfold active_after in Hu.
  destruct (decide (u = t)) as [->|N].
  - rewrite lookup_partial_alter_eq in Hu. subst next. unfold turn in *. zlia.
  - rewrite lookup_partial_alter_ne in Hu by done. pose proof (proj2 (on_current e due s V u du HT Hu) He) as Hin.
    rewrite Ei in Hin. apply elem_of_cons in Hin as [E|Hin]; [|done]. by apply item_inj in E.
Qed.

Lemma switch_loop_ok e n : n = (e + 1) * turn - 1 -> forall fuel due s V, timers_ok e due s V -> (length (elems V (pxCurrentTimerList s)) < fuel)%nat ->
  wp (switch_loop fuel) s (fun _ s' => exists due' calls V', timers_ok e due' s' V' /\ elems V' (pxCurrentTimerList s') = [] /\
    called calls s s' /\ all_served n (timer s) due due' calls /\ (forall P, active_in P due s -> active_in P due' s')).
Proof.
  intros Hn. assert (He : n / turn = e) by (unfold turn in *; zlia). assert (Hmax : u32 n = tmrMAX_TIME_BEFORE_OVERFLOW) by (unfold turn, tmrMAX_TIME_BEFORE_OVERFLOW in *; zlia).
  induction fuel as [|fuel IH]; intros due s V HT Hf; [lia|]. pose proof (to_shows _ _ _ _ HT) as HS. pose proof (to_current _ _ _ _ HT) as Hl.
  apply wp_bind, wp_gets, wp_bind, tls_ok. apply (is_empty_ok _ _ HS); [exact Hl|]. rewrite set_tls_same.
  destruct (elems V (pxCurrentTimerList s)) as [|i r] eqn:Ei.
  - apply wp_ret. exists due, [], V. split; [done|]. split; [done|]. split; [rewrite <- (set_tls_same s) at 2; apply called_tls|]. split; [|done].
    intros t. destruct (due !! t) as [d|] eqn:Hd; [|done]. pose proof (empty_current e due s V HT Ei t d Hd). by rewrite (proj2 (Z.leb_gt d n)) by lia.
  - rewrite bool_decide_eq_false_2 by done. destruct (head_first e due s V i r HT Ei) as (t & d & b & -> & Hd & Hb & Hde & Hv & _ & _).
    apply wp_bind, tls_ok. eapply (head_value_ok _ _ HS); [exact Hl|exact Ei|]. rewrite set_tls_same, Hv.
    assert (Hdn : d <= n) by (unfold turn in *; zlia). apply wp_bind.
    pose proof (prvProcessExpiredTimer_ok e due s V t b n d r HT Ei Hd Hb He Hdn) as Hp. rewrite Hmax in Hp.
    eapply wp_mono; [exact Hp|]. intros [] s1 (k & next & V1 & Hs & HT1 & Hc1 & Ha1).
    cbn [length] in Hf. eapply wp_mono; [apply (IH _ _ _ HT1)|].
    + pose proof (current_shorter e due s s1 V V1 t r next n HT HT1 (ca_current _ _ _ Hc1) Ei Hn (served_later _ _ _ _ _ Hs)). lia.
    + intros [] s2 (due2 & calls & V2 & HT2 & E2 & Hc2 & Hall & Ha2). exists due2, (replicate k t ++ calls), V2. split; [done|]. split; [done|].
      split; [by eapply called_trans|]. split; [|by auto]. eapply all_served_cons; [done|done|done|exact Hs|exact (ca_timer _ _ _ Hc1)|done].
Qed.

Lemma current_length e due s V : timers_ok e due s V -> (length (elems V (pxCurrentTimerList s)) <= size (timer s))%nat.
Proof.
  intros HT. rewrite <- (size_dom (D := gset Z)). rewrite <- (length_fmap (fun i => i - 4)). unfold size, set_size.
  apply submseteq_length, NoDup_submseteq.
  - apply NoDup_fmap_2; [intros x y E; cbn in E; lia|]. apply (sh_nodup _ _ (to_shows _ _ _ _ HT)), (to_current _ _ _ _ HT).
  - intros x Hx. apply list_elem_of_fmap in Hx as (i & -> & Hi). destruct (current_is_timer e due s V i HT Hi) as (t & d & -> & Hd & _).
    apply elem_of_elements, elem_of_dom. unfold xTimerListItem. replace (t + 4 - 4) with t by lia. by eapply (to_timer _ _ _ _ HT).
Qed.

Lemma lists_switched e due s V : timers_ok e due s V -> elems V (pxCurrentTimerList s) = [] ->
  timers_ok (e + 1) due (set_timer_lists (pxOverflowTimerList s) (pxCurrentTimerList s) s) V.
Proof.
  intros HT Ei. pose proof (empty_current e due s V HT Ei) as Hlate. destruct HT as [T1 T2 T3 T4 T5 T6 T7 T8 T9 T10].
  split; cbn [tls set_timer_lists pxCurrentTimerList pxOverflowTimerList timer]; try done.
  - intros t d Hd. destruct (T8 t d Hd) as (Hv & Ho & [[E _]|[E Hc]]); [|by auto]. specialize (Hlate t d Hd). unfold turn in *. zlia.
  - intros k [ -> | -> ]; apply T10; auto.
Qed.

Lemma prvSwitchTimerLists_ok e due s V : timers_ok e due s V ->
  wp prvSwitchTimerLists s (fun _ s' => exists due' calls V', timers_ok (e + 1) due' s' V' /\ xTimerQueue s' = xTimerQueue s /\
    same_map (timer s) (timer s') /\ world s' = run_callbacks (timer s) calls (world s) /\
    all_served ((e + 1) * turn - 1) (timer s) due due' calls /\ (forall P, active_in P due s -> active_in P due' s')).
Proof.
  intros HT. apply wp_bind, wp_gets, wp_bind. pose proof (current_length e due s V HT) as Hlen.
  eapply wp_mono; [apply (switch_loop_ok e _ eq_refl _ due s V HT); lia|]. intros [] s1 (due' & calls & V1 & HT1 & E1 & [C1 C2 C3 C4 C5 C6] & Hall & Ha).
  apply wp_modify. exists due', calls, V1. by split; [apply lists_switched|].
Qed.

Lemma prvSampleTimeNow_ok due s V l n : timers_ok (l / turn) due s V -> xLastTime s = u32 l ->
  xTaskGetTickCount (world s) = u32 n -> l <= n < l + turn ->
  wp prvSampleTimeNow s (fun r s' => exists due' calls V', timers_ok (n / turn) due' s' V' /\ xLastTime s' = u32 n /\
    xTimerQueue s' = xTimerQueue s /\ (forall P, active_in P due s -> active_in P due' s') /\
    (r = (u32 n, false) /\ n / turn = l / turn /\ due' = due /\ V' = V /\ s' = set_xLastTime (u32 n) s \/
     r = (u32 n, true) /\ n / turn = l / turn + 1 /\ same_map (timer s) (timer s') /\ world s' = run_callbacks (timer s) calls (world s) /\
     all_served (n / turn * turn - 1) (timer s) due due' calls)).
Proof.
  intros HT Hl Hn Hln. apply wp_bind, wp_gets, wp_bind, wp_gets. rewrite Hl, Hn. cbv zeta. apply wp_bind.
  destruct (Z.ltb_spec (u32 n) (u32 l)) as [Hlt|Hge].
  - assert (En : n / turn = l / turn + 1) by (unfold turn in *; zlia). eapply wp_mono; [by apply (prvSwitchTimerLists_ok (l / turn) due s V)|].
    intros [] s1 (due' & calls & V1 & HT1 & Hq & Hm & Hw & Hall & Ha). apply wp_bind, wp_modify, wp_ret. exists due', calls, V1. rewrite En.
    split; [by apply timers_ok_time|]. split; [done|]. split; [done|]. split; [exact Ha|]. right. by auto 6.
  - assert (En : n / turn = l / turn) by (unfold turn in *; zlia). apply wp_ret, wp_bind, wp_modify, wp_ret. exists due, [], V. rewrite En.
    split; [by apply timers_ok_time|]. split; [done|]. split; [done|]. split; [by auto|]. left. by auto 6.
Qed.

(** ** The daemon looks at the timers *)

(** What it does at the time [n], having looked at the time [l]: it serves the timer that is due first; or the
    tick count has wrapped and it serves every timer of the old turn; or no
    timer is due and it waits, at most until the first one is. *)
Inductive daemon_step (l n : Z) due due' s s' : Prop :=
  | First_served t b d k next : n / turn = l / turn -> due !! t = Some d -> timer s !! t = Some b -> d <= n -> (forall t' d', due !! t' = Some d' -> d <= d') ->
      served n b d k next -> due' = active_after due t next ->
      world s' = run_callbacks (timer s) (replicate k t) (xTaskResumeAll (vTaskSuspendAll (world s))).2 -> daemon_step l n due due' s s'
  | Turn_over calls : n / turn = l / turn + 1 -> all_served (n / turn * turn - 1) (timer s) due due' calls ->
      world s' = (xTaskResumeAll (run_callbacks (timer s) calls (vTaskSuspendAll (world s)))).2 -> daemon_step l n due due' s s'
  | Sleeps ticks forever : n / turn = l / turn -> due' = due -> (forall t d, due !! t = Some d -> forever = false /\ n + Z.max 1 ticks <= d) ->
      (let r := xTaskResumeAll (vQueueWaitForMessageRestricted (xTimerQueue s) ticks forever (vTaskSuspendAll (world s))) in
       world s' = if r.1 then r.2 else portYIELD_WITHIN_API r.2) -> daemon_step l n due due' s s'.

(** The time is taken and the first timer is due, or there is none that is. *)
Definition looked (l n : Z) due s s' : Prop := exists due' V', timers_ok (n / turn) due' s' V' /\ active_ok due' s' /\ xLastTime s' = u32 n /\
  xTimerQueue s' = xTimerQueue s /\ same_map (timer s) (timer s') /\ daemon_step l n due due' s s'.

Lemma serve_first_ok l due s V n i r : timers_ok (n / turn) due s V -> n / turn = l / turn -> active_ok due s -> xLastTime s = u32 n ->
  elems V (pxCurrentTimerList s) = i :: r -> value V i <= u32 n -> forall w,
  world s = vTaskSuspendAll w ->
  wp (call xTaskResumeAll;; prvProcessExpiredTimer (value V i) (u32 n)) s (fun _ s' => looked l n due (set_world w s) s').
Proof.
  intros HT Enl Ha Hl Ei Hv w Hw. apply wp_bind, call_ok. destruct (head_first _ due s V i r HT Ei) as (t & d & b & -> & Hd & Hb & Hde & Ev & _ & Hfst).
  rewrite Ev in *. assert (Hdn : d <= n) by (unfold turn in *; zlia).
  eapply wp_mono; [eapply (prvProcessExpiredTimer_ok (n / turn) due _ V t b n d r); [apply timers_ok_world, HT|exact Ei|done|exact Hb|done|done]|].
  intros [] s' (k & next & V' & Hs & HT' & [C1 C2 C3 C4 C5 C6] & Hact). exists (active_after due t next), V'.
  split; [done|]. split; [by apply Hact|]. split; [by rewrite C6|]. split; [done|]. split; [done|].
  eapply (First_served l n _ _ _ _ t b d k next); try done. cbn [world set_world timer] in *. by rewrite C1, Hw.
Qed.

(** Nothing is due now. *)
Lemma sleep_ok l due s V n next : timers_ok (n / turn) due s V -> n / turn = l / turn -> active_ok due s -> xLastTime s = u32 n ->
  let empty := bool_decide (elems V (pxCurrentTimerList s) = []) in
  (if empty then next = 0 else exists i r, elems V (pxCurrentTimerList s) = i :: r /\ next = value V i /\ u32 n < value V i) -> forall w,
  world s = vTaskSuspendAll w ->
  wp (forever ← (if empty then l ← gets pxOverflowTimerList; onl (listLIST_IS_EMPTY l) else mret false);
      q ← gets xTimerQueue;
      tell (vQueueWaitForMessageRestricted q (u32 (next - u32 n)) forever);;
      already ← call xTaskResumeAll;
      if already : bool then mret tt else tell portYIELD_WITHIN_API) s (fun _ s' => looked l n due (set_world w s) s').
Proof.
  intros HT Enl Ha Hl empty Hnext w Hw. pose proof (to_shows _ _ _ _ HT) as HS.
  assert (Hrest : forall forever, (forall t d, due !! t = Some d -> forever = false /\ n + Z.max 1 (u32 (next - u32 n)) <= d) ->
    wp (q ← gets xTimerQueue; tell (vQueueWaitForMessageRestricted q (u32 (next - u32 n)) forever);;
        already ← call xTaskResumeAll; if already : bool then mret tt else tell portYIELD_WITHIN_API) s (fun _ s' => looked l n due (set_world w s) s')).
  { intros forever Hf. apply wp_bind, wp_gets, wp_bind, wp_modify, wp_bind, call_ok. cbn [world set_world xTimerQueue]. rewrite Hw.
    assert (Hl1 : forall w', world (set_world w' s) = (let r := xTaskResumeAll (vQueueWaitForMessageRestricted (xTimerQueue s) (u32 (next - u32 n)) forever (vTaskSuspendAll w)) in
       if r.1 then r.2 else portYIELD_WITHIN_API r.2) -> looked l n due (set_world w s) (set_world w' s)).
    { intros w' Ew. exists due, V. split; [by apply timers_ok_world|]. do 3 (split; [done|]). split; [apply same_map_refl|]. by eapply (Sleeps l n). }
    destruct (xTaskResumeAll _) as [[] w1]; cbn [fst snd] in *; [apply wp_ret|apply wp_modify]; by apply Hl1. }
  unfold empty in *. clear empty. case_bool_decide as Ec; apply wp_bind.
  - subst next. apply wp_bind, wp_gets, tls_ok. apply (is_empty_ok _ _ HS); [by eapply to_overflow|]. rewrite set_tls_same. apply Hrest.
    intros t d Hd. pose proof (empty_current _ due s V HT Ec t d Hd) as Hlate. split.
    + apply bool_decide_eq_false_2. intros Eo. apply (proj1 (empty_overflow _ due s V HT Ec)) in Eo. by rewrite Eo in Hd.
    + unfold turn in *. zlia.
  - apply wp_ret, Hrest. destruct Hnext as (i & r & Ei & -> & Hlt). destruct (head_first _ due s V i r HT Ei) as (t0 & d0 & b0 & -> & Hd0 & _ & Hde & Ev & _ & Hfst).
    rewrite Ev in *. intros t d Hd. split; [done|]. specialize (Hfst t d Hd). unfold turn in *. zlia.
Qed.

Lemma daemon_look_ok due s V l n : timers_ok (l / turn) due s V -> active_ok due s -> xLastTime s = u32 l ->
  xTaskGetTickCount (vTaskSuspendAll (world s)) = u32 n -> l <= n < l + turn ->
  wp ('(next, empty) ← prvGetNextExpireTime; prvProcessTimerOrBlockTask next empty) s (fun _ s' => looked l n due s s').
Proof.
  intros HT Ha Hl Hn Hln. pose proof (to_shows _ _ _ _ HT) as HS. pose proof (to_current _ _ _ _ HT) as Hcu.
  set (s1 := set_world (vTaskSuspendAll (world s)) s). assert (HT1 : timers_ok (l / turn) due s1 V) by (by apply timers_ok_world).
  assert (Es : set_world (world s) s1 = s) by (unfold s1, set_world; cbn; by destruct s).
  assert (Hmain : forall next, let empty := bool_decide (elems V (pxCurrentTimerList s) = []) in
    (if empty then next = 0 else exists i r, elems V (pxCurrentTimerList s) = i :: r /\ next = value V i) ->
    wp (prvProcessTimerOrBlockTask next empty) s (fun _ s' => looked l n due s s')).
  2:{ apply wp_bind, wp_bind, wp_gets, wp_bind, tls_ok. apply (is_empty_ok _ _ HS); [done|]. rewrite set_tls_same.
      specialize (Hmain (match elems V (pxCurrentTimerList s) with [] => 0 | i :: _ => value V i end)). cbv zeta in Hmain.
      destruct (elems V (pxCurrentTimerList s)) as [|i r] eqn:Ei.
      - apply wp_ret. by apply Hmain.
      - rewrite bool_decide_eq_false_2 in * by done. apply wp_bind, tls_ok. eapply (head_value_ok _ _ HS); [done|exact Ei|].
        rewrite set_tls_same. apply wp_ret, Hmain. eauto. }
  intros next empty Hnext. apply wp_bind, wp_modify. fold s1. apply wp_bind.
  eapply wp_mono; [apply (prvSampleTimeNow_ok due s1 V l n HT1); done|].
  intros r s2 (due' & calls & V2 & HT2 & Hl2 & Hq & Ha2 & [(-> & En & -> & -> & ->)|(-> & En & Hm & Hw & Hall)]); cbn [fst snd negb].
  - change (set_xLastTime _ _) with (set_world (vTaskSuspendAll (world s)) (set_xLastTime (u32 n) s)) in *.
    set (s2 := set_world _ (set_xLastTime (u32 n) s)) in *.
    assert (Hq2 : forall s', looked l n due (set_world (world s) s2) s' -> looked l n due s s').
    { intros s' (due' & V' & A & B & C & D & E & F). exists due', V'. do 5 (split; [done|]). destruct F; econstructor; done. }
    destruct empty eqn:Ee; cbn [negb andb].
    + eapply wp_mono; [|intros x s' Hx; exact (Hq2 s' Hx)]. pose proof (sleep_ok l due s2 V n next HT2 En (Ha2 _ Ha) eq_refl) as Hsl. cbv zeta in Hsl.
      change (bool_decide (elems V (pxCurrentTimerList s2) = [])) with empty in Hsl. rewrite Ee in Hsl. by apply Hsl.
    + destruct Hnext as (i & r & Ei & ->). destruct (Z.leb_spec (value V i) (u32 n)) as [Hle|Hgt]; (eapply wp_mono; [|intros x s' Hx; exact (Hq2 s' Hx)]).
      * eapply (serve_first_ok l due s2 V n i r); try done; by apply Ha2.
      * pose proof (sleep_ok l due s2 V n (value V i) HT2 En (Ha2 _ Ha) eq_refl) as Hsl. cbv zeta in Hsl.
        change (bool_decide (elems V (pxCurrentTimerList s2) = [])) with empty in Hsl. rewrite Ee in Hsl. apply Hsl; eauto.
  - apply wp_bind, call_ok, wp_ret. exists due', V2. split; [by apply timers_ok_world|]. split; [by apply Ha2|]. do 3 (split; [done|]).
    eapply (Turn_over l n _ _ _ _ calls); [done|done|]. cbn [world set_world]. by rewrite Hw.
Qed.
End Proof.
