(* ===== verification/TimersCmd.v ===== *)
(** The commands of software timers: the daemon starts, stops, changes and
    deletes a timer; a new timer joins the others. *)
From S2P Require Import Prelude FList Klist KlistNew Timers TimersOk.

Section Commands.
Context {W : Type} `{TimerStatics} `{Daemon W}.
Abbreviation T := (timers W).
Abbreviation active_ok := (active_in (fun _ => True)).
Implicit Types (s : T) (V : view) (b : Timer_t) (m : DaemonTaskMessage_t) (due : gmap Z Z).

Definition starts (id : Z) : bool := (id =? tmrCOMMAND_START) || (id =? tmrCOMMAND_START_FROM_ISR) || (id =? tmrCOMMAND_RESET) || (id =? tmrCOMMAND_RESET_FROM_ISR).
Definition stops (id : Z) : bool := (id =? tmrCOMMAND_STOP) || (id =? tmrCOMMAND_STOP_FROM_ISR).
Definition changes (id : Z) : bool := (id =? tmrCOMMAND_CHANGE_PERIOD) || (id =? tmrCOMMAND_CHANGE_PERIOD_FROM_ISR).
Definition deletes (id : Z) : bool := id =? tmrCOMMAND_DELETE.

Lemma starts_only i : starts i = true -> stops i = false /\ changes i = false /\ deletes i = false.
Proof. unfold starts. rewrite !orb_true_iff, !Z.eqb_eq. by intros [[[->| ->]| ->]| ->]. Qed.
Lemma stops_only i : stops i = true -> starts i = false /\ changes i = false /\ deletes i = false.
Proof. unfold stops. rewrite !orb_true_iff, !Z.eqb_eq. by intros [->| ->]. Qed.
Lemma changes_only i : changes i = true -> starts i = false /\ stops i = false /\ deletes i = false.
Proof. unfold changes. rewrite !orb_true_iff, !Z.eqb_eq. by intros [->| ->]. Qed.
Lemma deletes_only i : deletes i = true -> starts i = false /\ stops i = false /\ changes i = false.
Proof. unfold deletes. rewrite Z.eqb_eq. by intros ->. Qed.

(** A command given at the time [c] and taken at the time [n]. *)
Record command_ok (c n : Z) m : Prop := {
  cm_known : starts (xMessageID m) || stops (xMessageID m) || changes (xMessageID m) || deletes (xMessageID m) = true;
  cm_time : c <= n < c + turn;
  cm_start : starts (xMessageID m) = true -> xMessageValue m = u32 c;
  cm_period : changes (xMessageID m) = true -> 0 < xMessageValue m < turn
}.

(** How often the command calls the timer back, and when the timer is due next. *)
Definition outcome (c n : Z) m b (k : nat) (next : option Z) : Prop :=
  let id := xMessageID m in
  let d := c + xTimerPeriodInTicks b in
  if starts id then (if d <=? n then served n b d k next else k = 0%nat /\ next = Some d)
  else k = 0%nat /\ next = if changes id then Some (n + xMessageValue m) else None.
Definition settings_after m b : Timer_t := if changes (xMessageID m) then set_period (xMessageValue m) b else b.
Definition freed m b : bool := deletes (xMessageID m) && negb (is_static b).

(** ** Before the command: the timer leaves its list *)

Lemma detach_ok {X} e due s V t b (k : M T X) (Q : X -> T -> Prop) : timers_ok e due s V -> timer s !! t = Some b ->
  (forall ls V', timers_ok e (delete t due) (set_tls ls s) V' -> wp k (set_tls ls s) Q) ->
  wp (alone ← onl (listIS_CONTAINED_WITHIN 0 (xTimerListItem t));
      (if alone : bool then mret tt else onl (uxListRemove (xTimerListItem t));; mret tt);; k) s Q.
Proof.
  intros HT Hb HQ. pose proof (to_shows _ _ _ _ HT) as HS. destruct (to_item _ _ _ _ HT t b Hb) as [Hi _].
  apply wp_bind, tls_ok, (contained_ok _ _ HS); [done|]. rewrite set_tls_same. destruct (Z.eqb_spec (cont V (xTimerListItem t)) 0) as [E|N].
  - apply wp_bind, wp_ret. rewrite <- (set_tls_same s). apply (HQ _ V). rewrite set_tls_same, delete_id; [done|].
    destruct (due !! t) as [d|] eqn:Hd; [|done]. exfalso. destruct (to_due _ _ _ _ HT t d Hd) as (_ & _ & Hw).
    rewrite E in Hw. apply (sh_null _ _ HS). destruct Hw as [[_ ->]|[_ ->]]; [apply (to_current _ _ _ _ HT)|apply (to_overflow _ _ _ _ HT)].
  - destruct (to_only _ _ _ _ HT _ Hi N) as (u & E & d & Hd). apply item_inj in E. subst u.
    apply wp_bind, wp_bind, tls_ok. eapply wp_mono; [by apply (uxListRemove_ok _ _ HS)|]. intros r ls [HS1 _]. apply wp_ret.
    eapply HQ. by apply (timers_ok_remove e due s V t d ls).
Qed.

(** ** The command itself *)

(** The state after a command for the timer [t], which is on no list before. *)
Definition commanded (c n : Z) due s m b s' : Prop := let t := pxTimer m in
  exists k next V', outcome c n m b k next /\ timers_ok (n / turn) (active_after due t next) s' V' /\
    xLastTime s' = xLastTime s /\ xTimerQueue s' = xTimerQueue s /\
    world s' = (if freed m b then vPortFree t else id) (run_callbacks (timer s) (replicate k t) (world s)) /\
    (forall u, u <> t -> timer s' !! u = timer s !! u) /\
    (if freed m b then timer s' !! t = None else exists b', timer s' !! t = Some b' /\ same_settings (settings_after m b) b' /\
       is_active b' = bool_decide (is_Some next)).

Lemma start_command_ok due s V b c n m : timers_ok (n / turn) due s V -> due !! pxTimer m = None -> timer s !! pxTimer m = Some b ->
  c <= n < c + turn -> starts (xMessageID m) = true -> wp (start_command (pxTimer m) (u32 c) (u32 n)) s (fun _ s' => commanded c n due s m b s').
Proof.
  intros HT Hd Hb Hcn Hst. set (t := pxTimer m) in *. destruct (to_item _ _ _ _ HT t b Hb) as [_ Hp].
  destruct (now_active b) as [Ha Hs]. set (b1 := set_bit tmrSTATUS_IS_ACTIVE b) in *. pose proof Hs as (Ep & _ & Ea & _).
  assert (Hnf : freed m b = false /\ settings_after m b = b).
  { unfold freed, settings_after. by destruct (starts_only _ Hst) as (_ & -> & ->). }
  unfold commanded, outcome. fold t. rewrite Hst. destruct Hnf as [-> ->].
  apply wp_bind. eapply wr_timer_ok; [exact Hb|]. fold b1. set (s1 := set_timer _ s).
  assert (HT1 : timers_ok (n / turn) due s1 V) by (by apply (timers_ok_timer _ due s V t b (set_bit tmrSTATUS_IS_ACTIVE))).
  assert (Hb1 : timer s1 !! t = Some b1) by apply lookup_insert_eq.
  assert (Hoth : forall u, u <> t -> timer s1 !! u = timer s !! u) by (intros u N; cbn; by rewrite lookup_insert_ne).
  apply wp_bind. eapply rd_timer_ok; [exact Hb1|]. assert (Eu : u32 (u32 c + xTimerPeriodInTicks b1) = u32 (c + xTimerPeriodInTicks b)).
  { rewrite Ep. unfold u32. by rewrite Zplus_mod_idemp_l. }
  rewrite Eu. apply wp_bind. eapply (prvInsertTimerInActiveList_ok _ due s1 V t b1 c n); [done|done|done|done|done|done|].
  cbv zeta. rewrite Ep. intros ls V' HT'. destruct (Z.leb_spec (c + xTimerPeriodInTicks b) n) as [Hle|Hgt].
  - apply wp_bind. eapply rd_timer_ok; [exact Hb1|]. rewrite Eu. eapply wp_mono; [apply (serve_ok (n / turn) due _ V' t b1 n (c + xTimerPeriodInTicks b) HT'); [done|done|done|lia]|].
    intros [] s' (k & next & V2 & Hsv & HT2 & [C1 C2 C3 C4 C5 C6] & Hk & b2 & Hb2 & Hs2 & Ha2). exists k, next, V2.
    split; [by eapply served_same|]. split; [done|]. split; [done|]. split; [done|]. split.
    + rewrite C1. cbn [timer set_tls world set_timer s1]. unfold id. apply run_callbacks_same. intros u.
      destruct (decide (u = t)) as [->|N]; [rewrite Hb; eauto|]. rewrite Hoth by done. apply (same_map_refl _ u).
    + split; [intros u N; rewrite Hk by done; by apply Hoth|]. exists b2. split; [done|].
      split; [unfold same_settings in *; intuition congruence|]. rewrite Ha2, Ha. by destruct next.
  - apply wp_ret. exists 0%nat, (Some (c + xTimerPeriodInTicks b)), V'. do 5 (split; [done|]). split; [done|]. exists b1. by rewrite bool_decide_eq_true_2.
Qed.

(** A timer that is on no list may go. *)
Lemma timers_ok_drop e due s V t b : timers_ok e due s V -> due !! t = None -> timer s !! t = Some b ->
  timers_ok e due (set_tls (mkLstate (delete (xTimerListItem t) (minis (tls s))) (delete (xTimerListItem t) (tails (tls s))) (lists (tls s)))
    (set_timer (delete t (timer s)) s)) (v_forget (xTimerListItem t) V).
Proof.
  intros [T1 T2 T3 T4 T5 T6 T7 T8 T9 T10] Hd Hb. destruct (T5 t b Hb) as [Hi _].
  split; cbn [tls set_tls set_timer pxCurrentTimerList pxOverflowTimerList timer]; try done.
  - by apply shows_forget, (T7 t b).
  - intros u k [N Hu]%lookup_delete_Some. destruct (T5 u k Hu) as [Hiu Hpu]. split; [|done]. apply elem_of_difference. split; [done|].
    intros E%elem_of_singleton%item_inj. congruence.
  - intros u k Hu. rewrite lookup_delete_ne; [by eapply T6|]. congruence.
  - intros u k [_ Hu]%lookup_delete_Some. by eapply T7.
  - intros i [Hx _]%elem_of_difference. by apply T9.
Qed.

Lemma drop_timer_ok e due s V t b (Q : unit -> T -> Prop) : timers_ok e due s V -> due !! t = None -> timer s !! t = Some b ->
  (forall ls V', timers_ok e due (set_tls ls (set_timer (delete t (timer s)) s)) V' -> Q tt (set_tls ls (set_timer (delete t (timer s)) s))) ->
  wp (drop_timer t) s Q.
Proof.
  intros HT Hd Hb HQ. apply wp_bind. eapply rd_timer_ok; [exact Hb|]. apply wp_bind, wp_modify, tls_ok, wp_modify.
  eapply HQ. by apply (timers_ok_drop e due s V t b).
Qed.

Lemma status_command_ok due s V c n m b f : timers_ok (n / turn) due s V -> due !! pxTimer m = None -> timer s !! pxTimer m = Some b ->
  freed m b = false -> outcome c n m b 0 None -> same_settings (settings_after m b) (f b) -> is_active (f b) = false ->
  xTimerPeriodInTicks (f b) = xTimerPeriodInTicks b ->
  wp (wr_timer (pxTimer m) f) s (fun _ s' => commanded c n due s m b s').
Proof.
  intros HT Hd Hb Hf Ho Hs Ha Ep. destruct (to_item _ _ _ _ HT _ b Hb) as [_ Hp]. eapply wr_timer_ok; [exact Hb|]. unfold commanded. rewrite Hf.
  exists 0%nat, None, V. split; [done|]. split.
  { unfold active_after. change (partial_alter _ _ due) with (delete (pxTimer m) due). rewrite delete_id by done.
    apply (timers_ok_timer _ due s V (pxTimer m) b f); [done|done|by rewrite Ep]. }
  do 3 (split; [done|]). split; [intros u N; cbn; by rewrite lookup_insert_ne|].
  exists (f b). split; [apply lookup_insert_eq|]. split; [done|]. rewrite bool_decide_eq_false_2; [done|by intros []].
Qed.

Lemma period_command_ok due s V c n m b : timers_ok (n / turn) due s V -> due !! pxTimer m = None -> timer s !! pxTimer m = Some b ->
  changes (xMessageID m) = true -> 0 < xMessageValue m < turn ->
  wp (wr_timer (pxTimer m) (set_bit tmrSTATUS_IS_ACTIVE);; wr_timer (pxTimer m) (set_period (xMessageValue m));; assert_ (0 <? xMessageValue m);;
      prvInsertTimerInActiveList (pxTimer m) (u32 (u32 n + xMessageValue m)) (u32 n) (u32 n);; mret tt) s (fun _ s' => commanded c n due s m b s').
Proof.
  intros HT Hd Hb Hch Hp. set (t := pxTimer m) in *. destruct (changes_only _ Hch) as (Hst & _ & Hde). destruct (now_active b) as [Ha Hs].
  destruct (to_item _ _ _ _ HT t b Hb) as [_ Hpb]. set (b1 := set_bit tmrSTATUS_IS_ACTIVE b) in *.
  apply wp_bind. eapply wr_timer_ok; [exact Hb|]. fold b1. set (s1 := set_timer _ s).
  assert (HT1 : timers_ok (n / turn) due s1 V) by (by apply (timers_ok_timer _ due s V t b (set_bit tmrSTATUS_IS_ACTIVE))).
  assert (Hb1 : timer s1 !! t = Some b1) by apply lookup_insert_eq.
  apply wp_bind. eapply wr_timer_ok; [exact Hb1|]. set (s2 := set_timer _ s1). set (b2 := set_period (xMessageValue m) b1) in *.
  assert (HT2 : timers_ok (n / turn) due s2 V) by (by apply (timers_ok_timer _ due s1 V t b1 (set_period (xMessageValue m)))).
  assert (Hb2 : timer s2 !! t = Some b2) by apply lookup_insert_eq.
  apply wp_bind, wp_assert; [lia|]. assert (Eu : u32 (u32 n + xMessageValue m) = u32 (n + xMessageValue m)) by (unfold u32; by rewrite Zplus_mod_idemp_l).
  rewrite Eu. apply wp_bind. eapply (prvInsertTimerInActiveList_ok _ due s2 V t b2 n n); [done|done|done|done|unfold turn; lia|done|].
  cbv zeta. change (xTimerPeriodInTicks b2) with (xMessageValue m). intros ls V'. rewrite (proj2 (Z.leb_gt (n + xMessageValue m) n)) by lia. intros HT'.
  apply wp_ret. unfold commanded, outcome, freed, settings_after. fold t. rewrite Hst, Hch, Hde. cbn [andb].
  exists 0%nat, (Some (n + xMessageValue m)), V'. do 5 (split; [done|]).
  split; [intros u N; cbn; by rewrite !lookup_insert_ne|]. exists b2. rewrite bool_decide_eq_true_2 by done. split; [done|].
  split; [|exact Ha]. by destruct Hs as (_ & Hs).
Qed.

Lemma switch_command_ok due s V c n m b : timers_ok (n / turn) due s V -> due !! pxTimer m = None -> timer s !! pxTimer m = Some b ->
  command_ok c n m -> wp (switch_command m (u32 n)) s (fun _ s' => commanded c n due s m b s').
Proof.
  intros HT Hd Hb [Hk Hc Hst Hch]. destruct (not_active b) as [Hna Hs]. pose proof Hs as (Ep & _).
  unfold switch_command. fold (starts (xMessageID m)) (stops (xMessageID m)) (changes (xMessageID m)) (deletes (xMessageID m)).
  destruct (starts (xMessageID m)) eqn:E1; [rewrite Hst by done; by eapply start_command_ok|].
  destruct (stops (xMessageID m)) eqn:E2.
  { destruct (stops_only _ E2) as (_ & E3 & E4). eapply status_command_ok; try done; unfold freed, outcome, settings_after; rewrite ?E1, ?E3, ?E4; done. }
  destruct (changes (xMessageID m)) eqn:E3; [eapply (period_command_ok due s V); auto|]. destruct (deletes (xMessageID m)) eqn:E4; [|done].
  apply wp_bind. eapply rd_timer_ok; [exact Hb|]. destruct (is_static b) eqn:E5; cbn [negb].
  { eapply status_command_ok; try done; unfold freed, outcome, settings_after; rewrite ?E1, ?E3, ?E4, ?E5; done. }
  apply wp_bind. eapply (drop_timer_ok _ due s V (pxTimer m) b); [exact HT|done|done|]. intros ls V' HT'. apply wp_modify.
  unfold commanded, outcome, freed, settings_after. rewrite E1, E3, E4, E5. cbn [andb negb]. exists 0%nat, None, V'. split; [done|]. split.
  { unfold active_after. change (partial_alter _ _ due) with (delete (pxTimer m) due). rewrite delete_id by done. by apply timers_ok_world. }
  do 3 (split; [done|]). split; [intros u N; cbn; by rewrite lookup_delete_ne|]. cbn. apply lookup_delete_eq.
Qed.

(** ** A command from the queue *)

Definition command_taken (l c n : Z) due s m b s' : Prop := let t := pxTimer m in
  exists due1 calls k next V', let due' := active_after due1 t next in
    timers_ok (n / turn) due' s' V' /\ active_ok due' s' /\ xLastTime s' = u32 n /\ xTimerQueue s' = xTimerQueue s /\
    outcome c n m b k next /\
    (if n / turn =? l / turn then due1 = delete t due /\ calls = [] else all_served (n / turn * turn - 1) (timer s) (delete t due) due1 calls) /\
    world s' = (if freed m b then vPortFree t else id) (run_callbacks (timer s) (calls ++ replicate k t) (world s)) /\
    same_map (delete t (timer s)) (delete t (timer s')) /\
    (if freed m b then timer s' !! t = None else exists b', timer s' !! t = Some b' /\ same_settings (settings_after m b) b').

Lemma settings_same m b b' : same_settings b b' -> same_settings (settings_after m b) (settings_after m b') /\ freed m b' = freed m b /\
  forall c n k next, outcome c n m b' k next -> outcome c n m b k next.
Proof.
  intros Hs. pose proof Hs as (E1 & E2 & E3 & E4 & E5 & E6). unfold settings_after, freed, outcome. rewrite E1, E6. split; [|split; [done|]].
  - destruct (changes _); [|done]. by split.
  - intros c n k next. destruct (starts _); [|done]. destruct (_ <=? n); [|done]. by apply served_same.
Qed.

Lemma command_taken_same l c n due s s1 s' V1 b b1 m due1 calls : let t := pxTimer m in
  timer s !! t = Some b -> timer s1 !! t = Some b1 -> same_map (timer s) (timer s1) -> xLastTime s1 = u32 n -> xTimerQueue s1 = xTimerQueue s ->
  world s1 = run_callbacks (timer s) calls (world s) ->
  (if n / turn =? l / turn then due1 = delete t due /\ calls = [] else all_served (n / turn * turn - 1) (timer s) (delete t due) due1 calls) ->
  due1 !! t = None -> timers_ok (n / turn) due1 s1 V1 -> active_in (fun u => u <> t) due1 s1 ->
  commanded c n due1 s1 m b1 s' -> command_taken l c n due s m b s'.
Proof.
  intros t Hb Hb1 Hm Hl Hq Hw Hd1 Hn1 HT1 Ha (k & next & V' & Ho & HT' & Hl' & Hq' & Hw' & Hoth & Hnew). fold t in HT', Hw', Hoth, Hnew.
  assert (Hs : same_settings b b1). { specialize (Hm t). rewrite Hb in Hm. destruct Hm as (b1' & E & Hs). rewrite Hb1 in E. by injection E as <-. }
  destruct (settings_same m b b1 Hs) as (Hset & Hfr & Hout). rewrite Hfr in *.
  exists due1, calls, k, next, V'. cbv zeta. fold t. split; [done|]. split; [|split; [congruence|]; split; [congruence|]; split; [by apply Hout|]; split; [done|]; split; [|split]].
  - intros u c' _ Hu. unfold active_after. destruct (decide (u = t)) as [->|N].
    + rewrite lookup_partial_alter_eq. destruct (freed m b); [congruence|]. destruct Hnew as (b' & Hb' & _ & Hact). congruence.
    + rewrite lookup_partial_alter_ne by done. rewrite Hoth in Hu by done. by apply Ha.
  - by rewrite Hw', Hw, run_callbacks_app, (run_callbacks_same _ _ _ Hm).
  - intros u. destruct (decide (u = t)) as [->|N]; [by rewrite !lookup_delete_eq|]. rewrite !lookup_delete_ne by done. rewrite Hoth by done. apply Hm.
  - destruct (freed m b); [done|]. destruct Hnew as (b' & Hb' & Hs' & _). exists b'. split; [done|]. unfold same_settings in *. intuition congruence.
Qed.

Lemma timer_command_ok due s V l n c m b : timers_ok (l / turn) due s V -> active_ok due s -> xLastTime s = u32 l ->
  xTaskGetTickCount (world s) = u32 n -> l <= n < l + turn -> timer s !! pxTimer m = Some b -> command_ok c n m ->
  wp (timer_command m) s (fun _ s' => command_taken l c n due s m b s').
Proof.
  intros HT Ha Hl Hn Hln Hb Hm. unfold timer_command. cbv zeta. set (t := pxTimer m) in *.
  eapply (detach_ok (l / turn) due s V t b); [done|done|]. intros ls V0 HT0. set (s0 := set_tls ls s) in *.
  assert (Ha0 : active_in (fun u => u <> t) (delete t due) s0) by (intros u c' N Hu; rewrite lookup_delete_ne by done; by apply Ha).
  apply wp_bind. eapply wp_mono; [by apply (prvSampleTimeNow_ok (delete t due) s0 V0 l n)|].
  intros r s1 (due1 & calls & V1 & HT1 & Hl1 & Hq1 & Ha1 & Hcase). specialize (Ha1 _ Ha0).
  assert (Hsum : r.1 = u32 n /\ same_map (timer s) (timer s1) /\ due1 !! t = None /\ exists calls', world s1 = run_callbacks (timer s) calls' (world s) /\
    (if n / turn =? l / turn then due1 = delete t due /\ calls' = [] else all_served (n / turn * turn - 1) (timer s) (delete t due) due1 calls')).
  { destruct Hcase as [(-> & En & -> & -> & ->)|(-> & En & Hm1 & Hw & Hall)].
    - split; [done|]. split; [apply same_map_refl|]. split; [apply lookup_delete_eq|]. exists []. by rewrite (proj2 (Z.eqb_eq _ _) En).
    - split; [done|]. split; [done|]. pose proof (Hall t) as Ht. rewrite lookup_delete_eq in Ht. split; [by destruct Ht|].
      exists calls. by rewrite (proj2 (Z.eqb_neq (n / turn) (l / turn))) by lia. }
  destruct r as [now sw]. cbn [fst] in Hsum. destruct Hsum as (-> & Hsame & Hd1 & calls' & Hw & Hcalls). cbv beta iota.
  pose proof (Hsame t) as Hb1. rewrite Hb in Hb1. destruct Hb1 as (b1 & Hb1 & Hs1).
  eapply wp_mono; [by apply (switch_command_ok due1 s1 V1 c n m b1)|]. intros [] s' Hc. cbv beta in Hc.
  by eapply (command_taken_same l c n due s s1 s' V1 b b1 m due1 calls').
Qed.
End Commands.
