(* ===== verification/TimersProps.v ===== *)
(** Software timers from the first one on: the lists and the queue, a new timer,
    what the daemon does; a daemon with a clock and a log. *)
From S2P Require Import Prelude FList Klist KlistNew Timers TimersOk TimersCmd.

Section New.
Context {W : Type} `{TimerStatics} `{Daemon W}.
Abbreviation T := (timers W).
Abbreviation active_ok := (active_in (fun _ => True)).
Implicit Types (s : T) (V : view) (b : Timer_t) (due : gmap Z Z).

(** ** The lists and the queue *)

Definition no_view : view := mkView ∅ ∅ (fun _ => []) (fun _ => 0) (fun _ => 0) (fun _ => 0) (fun _ => 0).
Lemma empty_view_shows ls : shows ls no_view.
Proof. by split; cbn; try set_solver. Qed.

(** The memory of the two lists. *)
Record raw_lists (ls : lstate) : Prop := {
  rl_apart : xActiveTimerList1 <> xActiveTimerList2;
  rl_null1 : xActiveTimerList1 <> 0;
  rl_null2 : xActiveTimerList2 <> 0;
  rl_list1 : is_Some (lists ls !! xActiveTimerList1) /\ is_Some (minis ls !! xListEnd xActiveTimerList1);
  rl_list2 : is_Some (lists ls !! xActiveTimerList2) /\ is_Some (minis ls !! xListEnd xActiveTimerList2)
}.
Definition first_view : view := v_list xActiveTimerList2 (v_list xActiveTimerList1 no_view).

Lemma prvCheckForValidListAndQueue_ok e s : xTimerQueue s = 0 -> timer s = ∅ -> raw_lists (tls s) ->
  wp prvCheckForValidListAndQueue s (fun _ s' => timers_ok e ∅ s' first_view /\ timer s' = ∅ /\ xLastTime s' = xLastTime s /\
    let q := xQueueCreate configTIMER_QUEUE_LENGTH SIZEOF_MESSAGE (world s) in
    xTimerQueue s' = q.1 /\ world s' = if q.1 =? 0 then q.2 else vQueueAddToRegistry q.1 q.2).
Proof.
  intros Hq Et [R1 R2 R3 [R4 R5] [R6 R7]]. apply wp_bind, wp_gets. rewrite Hq. cbn [Z.eqb].
  apply wp_bind, tls_ok. apply (vListInitialise_ok _ no_view (empty_view_shows _)); [apply not_elem_of_empty|done|apply not_elem_of_empty|done|done|].
  intros l1 S1 K1 K1'. apply wp_bind, tls_ok. apply (vListInitialise_ok _ _ S1); [cbn; set_solver|done|cbn; set_solver|by apply K1|by apply K1'|].
  intros l2 S2 _ _. apply wp_bind, wp_modify, wp_bind, call_ok. cbn [world set_timer_lists set_tls].
  assert (HT : forall q w, timers_ok e ∅ (set_xTimerQueue q (set_world w (set_timer_lists xActiveTimerList1 xActiveTimerList2 (set_tls l2 (set_tls l1 s))))) first_view).
  { intros q w. split; cbn [tls set_xTimerQueue set_world set_timer_lists set_tls pxCurrentTimerList pxOverflowTimerList timer]; rewrite ?Et; try done.
    all: try (intros ? ? Hx; by rewrite lookup_empty in Hx).
    1,2: apply elem_of_union; (by left; apply elem_of_singleton) || (right; apply elem_of_union; by left; apply elem_of_singleton).
    intros l Hl. unfold first_view, v_list. cbn [elems value]. unfold upd. repeat destruct (_ =? _); constructor. }
  set (q := xQueueCreate _ _ _) in *. apply wp_bind, wp_modify. destruct (Z.eqb_spec q.1 0) as [E|N]; cbn [negb];
    [apply wp_ret|apply wp_modify]; by (split; [first [apply HT|apply timers_ok_world, HT]|]).
Qed.

(** ** A new timer *)

Record fresh_timer (t : Z) (raw : Timer_t * MiniListItem_t * ItemTail) s V : Prop := {
  ft_timer : timer s !! t = None;
  ft_item : ~ (xTimerListItem t ∈ vitems V);
  ft_end l : l ∈ vlists V -> xTimerListItem t <> xListEnd l;
  ft_value : is_u32 (xItemValue raw.1.2);
  ft_room : Z.of_nat (size (vitems V)) + 1 < 4294967296
}.

Lemma timers_ok_new e due s V t raw b : timers_ok e due s V -> fresh_timer t raw s V -> 0 < xTimerPeriodInTicks b < turn ->
  timers_ok e due (set_tls (mkLstate (<[xTimerListItem t := raw.1.2]> (minis (tls s))) (<[xTimerListItem t := mkTail (pvOwner raw.2) 0]> (tails (tls s))) (lists (tls s)))
    (set_timer (<[t := b]> (timer s)) s)) (v_new (xTimerListItem t) (xItemValue raw.1.2) (pvOwner raw.2) V).
Proof.
  intros HT [F1 F2 F3 F4 F5] Hp. pose proof HT as [T1 T2 T3 T4 T5 T6 T7 T8 T9 T10]. set (i := xTimerListItem t) in *.
  assert (Hd : due !! t = None). { destruct (due !! t) as [d|] eqn:Hd; [|done]. destruct (T6 t d Hd) as [c Hc]. by rewrite F1 in Hc. }
  assert (Hne : forall u c, timer s !! u = Some c -> xTimerListItem u <> i) by (intros u c Hu E; apply item_inj in E; congruence).
  split; cbn [tls set_tls set_timer pxCurrentTimerList pxOverflowTimerList timer]; try done.
  - by apply shows_new.
  - intros u c [[<- <-]|[_ Hu]]%lookup_insert_Some; [split; [apply elem_of_union; left; by apply elem_of_singleton|done]|].
    destruct (T5 u c Hu). split; [by apply elem_of_union; right|done].
  - intros u d Hu. destruct (T6 u d Hu) as [c Hc]. rewrite lookup_insert_ne; [eauto|]. congruence.
  - intros u c [[<- <-]|[_ Hu]]%lookup_insert_Some Hk; cbn; [by rewrite upd_hit|rewrite upd_miss by (by eapply Hne); by eapply T7].
  - intros u d Hu. destruct (T6 u d Hu) as [c Hc]. cbn. rewrite !upd_miss by (by eapply Hne). by apply T8.
  - intros x [->%elem_of_singleton|Hx]%elem_of_union; cbn; [by rewrite upd_hit|]. rewrite upd_miss by (intros ->; done). by apply T9.
  - intros l Hl. cbn. assert (Hll : l ∈ vlists V) by (destruct Hl; by subst). specialize (T10 l Hl). unfold ordered in *.
    assert (Hin : forall x, x ∈ elems V l -> x <> i) by (intros x Hx ->; by apply F2, (sh_in _ _ T1 l)).
    clear -T10 Hin. induction T10 as [|x xs Hxs IH Hx]; constructor; [apply IH; intros y Hy; apply Hin; by right|].
    rewrite Forall_forall in Hx |- *. intros y Hy v w [= <-] [= <-]. rewrite !upd_miss; [by apply (Hx y Hy)|apply Hin; by right|apply Hin; by left].
Qed.

Definition new_timer (name period : Z) (auto : bool) (i cb : Z) : Timer_t := mkTimer name period i cb (if auto then tmrSTATUS_IS_AUTORELOAD else 0).

Lemma xTimerCreate_ok e due s V raw name period auto i cb : timers_ok e due s V -> active_ok due s -> xTimerQueue s <> 0 -> 0 < period < turn ->
  let r := pvPortMalloc SIZEOF_TIMER (world s) in
  (r.1 <> 0 -> fresh_timer r.1 raw s V) ->
  wp (xTimerCreate raw name period auto i cb) s (fun t s' => t = r.1 /\ world s' = r.2 /\ xTimerQueue s' = xTimerQueue s /\ xLastTime s' = xLastTime s /\
    active_ok due s' /\ if t =? 0 then s' = set_world r.2 s else
      timer s' = <[t := new_timer name period auto i cb]> (timer s) /\
      timers_ok e due s' (v_new (xTimerListItem t) (xItemValue raw.1.2) (pvOwner raw.2) V)).
Proof.
  intros HT Ha Hq Hp r Hf. apply wp_bind, call_ok. fold r. set (t := r.1) in *. destruct (Z.eqb_spec t 0) as [E|N]; cbn [negb].
  { apply wp_bind, wp_ret, wp_ret. cbv beta. by rewrite (proj2 (Z.eqb_eq t 0) E). }
  specialize (Hf N). pose proof (ft_timer _ _ _ _ Hf) as Ht.
  assert (Hd : due !! t = None). { destruct (due !! t) as [d|] eqn:Hd; [|done]. destruct (to_timer _ _ _ _ HT t d Hd) as [c Hc]. by rewrite Ht in Hc. }
  apply wp_bind, wp_bind, wp_bind, wp_modify, tls_ok, wp_modify. apply wp_bind. eapply wr_timer_ok; [apply lookup_insert_eq|].
  apply wp_bind, wp_assert; [lia|]. apply wp_bind, wp_bind, wp_gets. cbn [xTimerQueue set_timer set_tls set_world].
  rewrite (proj2 (Z.eqb_neq _ _) Hq). apply wp_ret.
  apply wp_bind. eapply wr_timer_ok; [apply lookup_insert_eq|]. apply wp_bind, tls_ok.
  apply wp_bind. unfold rd_tail. apply wp_bind, wp_get. eapply wp_of_option; [apply lookup_insert_eq|]. apply wp_modify.
  cbn [tls timer minis tails lists set_tls set_timer set_world]. rewrite !insert_insert_eq.
  set (ls := mkLstate _ _ _). set (b := new_timer name period auto i cb).
  assert (Hfin : forall s', s' = set_tls ls (set_timer (<[t := b]> (timer s)) (set_world r.2 s)) -> t = t /\ world s' = r.2 /\ xTimerQueue s' = xTimerQueue s /\
    xLastTime s' = xLastTime s /\ active_ok due s' /\ if t =? 0 then s' = set_world r.2 s else timer s' = <[t := b]> (timer s) /\
      timers_ok e due s' (v_new (xTimerListItem t) (xItemValue raw.1.2) (pvOwner raw.2) V)).
  { intros s' ->. do 4 (split; [done|]). rewrite (proj2 (Z.eqb_neq t 0) N). split; [|split; [done|]].
    - intros u c _ Hu. apply (lookup_insert_Some (timer s)) in Hu as [[<- <-]|[_ Hu]]; [rewrite Hd; by unfold b; destruct auto|by apply (Ha u)].
    - destruct raw as [[b0 mi] tl]. apply (timers_ok_new e due (set_world r.2 s) V t (b0, mi, tl) b); [by apply timers_ok_world|by destruct Hf|done]. }
  destruct auto; [eapply wr_timer_ok; [apply lookup_insert_eq|]|apply wp_ret]; apply wp_ret, Hfin; unfold set_tls, set_timer, set_world; cbn;
    destruct raw as [[b0 mi] tl]; f_equal; by rewrite !insert_insert_eq.
Qed.
End New.

(** ** A daemon with a clock and a log

    The world is the tick count, the commands in the queue, the number of blocks
    taken from the heap and the callbacks so far with the time of each. *)
Record room := mkRoom { clock : Z; posted : list DaemonTaskMessage_t; blocks : Z; log : list (Z * Z); waits : list (Z * bool) }.
#[local] Instance room_daemon : Daemon room := {
  xTaskGetTickCount w := clock w;
  xTaskGetSchedulerState w := taskSCHEDULER_RUNNING;
  vTaskSuspendAll w := w;
  xTaskResumeAll w := (true, w);
  portYIELD_WITHIN_API w := w;
  pvPortMalloc n w := (4096 + 64 * blocks w, mkRoom (clock w) (posted w) (blocks w + 1) (log w) (waits w));
  vPortFree p w := w;
  xQueueCreate n k w := (512, w);
  vQueueAddToRegistry q w := w;
  xQueueReceive q t w := match posted w with m :: r => (Some m, mkRoom (clock w) r (blocks w) (log w) (waits w)) | [] => (None, w) end;
  xQueueSendToBack q m t w := (pdPASS, mkRoom (clock w) (posted w ++ [m]) (blocks w) (log w) (waits w));
  xQueueSendToBackFromISR q m w := (pdPASS, false, mkRoom (clock w) (posted w ++ [m]) (blocks w) (log w) (waits w));
  vQueueWaitForMessageRestricted q n forever w := mkRoom (clock w) (posted w) (blocks w) (log w) (waits w ++ [(n, forever)]);
  timer_callback f t w := mkRoom (clock w) (posted w) (blocks w) (log w ++ [(f, clock w)]) (waits w);
  pended_function f a b w := w
}.
#[local] Instance room_statics : TimerStatics := { xActiveTimerList1 := 1024; xActiveTimerList2 := 1088 }.
Definition raw_mini : MiniListItem_t := mkMini 0 0 0.
Definition raw_timer : Timer_t * MiniListItem_t * ItemTail := (mkTimer 0 0 0 0 0, raw_mini, mkTail 0 0).
Definition room_lists : lstate :=
  mkLstate (<[xListEnd 1024 := raw_mini]> (<[xListEnd 1088 := raw_mini]> ∅)) ∅ (<[1024 := mkList 0 0]> (<[1088 := mkList 0 0]> ∅)).
Definition room0 : timers room := mkTimers room_lists ∅ 0 0 0 4294967290 (mkRoom 4294967290 [] 0 [] []).
Definition at_time (n : Z) (s : timers room) : timers room := set_world (mkRoom n (posted (world s)) (blocks (world s)) (log (world s)) (waits (world s))) s.

(** The timer of netconf.c, ten milliseconds or five ticks, six ticks before the
    tick count wraps: the daemon looks at the times given. *)
Definition localtime : M (timers room) unit :=
  prvCheckForValidListAndQueue;;
  t ← xTimerCreate raw_timer 0 5 true 1 77;
  xTimerStart t 0;;
  mret tt.
Fixpoint turns (times : list Z) : M (timers room) unit :=
  match times with
  | [] => mret tt
  | n :: r => modify (at_time n);; timer_turn 4;; turns r
  end.
Definition seen (m : M (timers room) unit) : option (list (Z * Z) * list (Z * bool)) :=
  match m room0 with Done (_, s) => Some (log (world s), waits (world s)) | Stop _ => None end.
Example localtime_ticks : seen (localtime;; turns [4294967290; 4294967290; 4294967295; 4294967295; 4; 4; 9; 20; 20]) =
  Some ([(77, 4294967295); (77, 4); (77, 9); (77, 20); (77, 20)], [(6, true); (5, false); (1, false); (4, false)]).
Proof. vm_compute. reflexivity. Qed.

(** ** The timers of the demonstration *)

Abbreviation active_ok := (active_in (fun _ => True)).
Definition localtime_timer : Timer_t := new_timer 0 5 true 1 77.
Definition start_message (t c : Z) : DaemonTaskMessage_t := mkMessage tmrCOMMAND_START (u32 c) t 0.

Lemma room_created : exists (s : timers room) V, timers_ok (4294967290 / turn) ∅ s V /\ active_ok ∅ s /\ xLastTime s = u32 4294967290 /\
  xTaskGetTickCount (world s) = u32 4294967290 /\ timer s !! 4096 = Some localtime_timer.
Proof.
  assert (Hw : wp (prvCheckForValidListAndQueue;; xTimerCreate raw_timer 0 5 true 1 77) room0 (fun t s => t = 4096 /\ exists V,
    timers_ok (4294967290 / turn) ∅ s V /\ active_ok ∅ s /\ xLastTime s = u32 4294967290 /\ xTaskGetTickCount (world s) = u32 4294967290 /\
    timer s !! 4096 = Some localtime_timer)).
  { apply wp_bind. eapply wp_mono; [apply (prvCheckForValidListAndQueue_ok (4294967290 / turn) room0)|]; [done|done| |].
    - split; try done; cbn; split; eexists; reflexivity.
    - intros [] s1 (T1 & Et & El & Eq & Ew). cbv zeta in Eq, Ew. cbn in Eq, Ew.
      assert (Ha : active_ok ∅ s1) by (intros u c _ Hu; by rewrite Et, lookup_empty in Hu).
      eapply wp_mono; [apply (xTimerCreate_ok (4294967290 / turn) ∅ s1 first_view raw_timer 0 5 true 1 77 T1 Ha)|].
      + by rewrite Eq.
      + done.
      + intros _. rewrite Ew. split; [by rewrite Et| | |done|done].
        * apply not_elem_of_empty.
        * cbn. intros l Hl. by apply elem_of_union in Hl as [->%elem_of_singleton|[->%elem_of_singleton|?%not_elem_of_empty]%elem_of_union].
      + intros t s2 (-> & Ew2 & Eq2 & El2 & Ha2 & Hr). rewrite Ew in *. cbn in Hr. destruct Hr as [Et2 HT2]. split; [done|]. eexists.
        split; [exact HT2|]. split; [exact Ha2|]. split; [by rewrite El2, El|]. split; [by rewrite Ew2|]. rewrite Et2. apply lookup_insert_eq. }
  apply wp_done in Hw as (t & s & _ & _ & V & Hs). eauto.
Qed.
Lemma start_command_fits : command_ok 4294967290 4294967290 (start_message 4096 4294967290).
Proof. by split. Qed.
Lemma room_started : exists (s : timers room) V, timers_ok (4294967290 / turn) {[4096 := 4294967295]} s V /\ active_ok {[4096 := 4294967295]} s /\ xLastTime s = u32 4294967290.
Proof.
  destruct room_created as (s & V & HT & Ha & Hl & Hn & Hb).
  pose proof (timer_command_ok ∅ s V 4294967290 4294967290 4294967290 (start_message 4096 4294967290) localtime_timer HT Ha Hl Hn ltac:(done) Hb start_command_fits) as Hw.
  apply wp_done in Hw as ([] & s' & _ & due1 & calls & k & next & V' & HT' & Ha' & Hl' & _ & Ho & Hd & _). cbn in Ho, Hd. destruct Ho as [-> ->]. destruct Hd as [-> _].
  exists s', V'. split; [|split]; done.
Qed.

(** ** What the daemon promises *)

(** C13: The timer daemon never oversleeps and never loses or repeats an expiry,
    across the wrapping of the tick count.  Let every active timer have the time
    at which it is due in ticks that do not wrap, the two lists hold the timers of
    this turn of the 32-bit tick count and of the next in order, and let the daemon
    look again less than a turn after it last did.  Then one turn of its loop
    finishes with the same invariant, and it did one of three things.  The first
    timer was due: that one is called back, an auto-reload timer once for every
    period that has passed, and is due again at the first multiple of its period
    that has not (a one-shot timer becomes inactive).  Or the tick count has
    wrapped: every timer of the old turn is served like that up to the end of the
    turn.  Or no timer is due: the daemon waits for a command, without a limit
    only if there is no active timer, otherwise at most until the first is due. *)
Theorem timer_daemon_never_oversleeps {W} `{TimerStatics} `{Daemon W} (due : gmap Z Z) (s : timers W) V l n :
  timers_ok (l / turn) due s V -> active_ok due s -> xLastTime s = u32 l ->
  xTaskGetTickCount (vTaskSuspendAll (world s)) = u32 n -> l <= n < l + turn ->
  exists s', ('(xNextExpireTime, xListWasEmpty) ← prvGetNextExpireTime; prvProcessTimerOrBlockTask xNextExpireTime xListWasEmpty) s = Done (tt, s') /\
    exists due' V', timers_ok (n / turn) due' s' V' /\ active_ok due' s' /\ xLastTime s' = u32 n /\
      xTimerQueue s' = xTimerQueue s /\ same_map (timer s) (timer s') /\ daemon_step l n due due' s s'.
Proof. intros HT Ha Hl Hn Hln. by destruct (proj1 (wp_done _ _ _) (daemon_look_ok due s V l n HT Ha Hl Hn Hln)) as ([] & s' & Hrun & Hs); exists s'. Qed.

(** The timer of netconf.c is due in the tick before the count wraps and called
    back ten ticks later, in the next turn of the count. *)
Lemma timer_daemon_never_oversleeps_witness : exists (s : timers room) V s', timers_ok (4294967290 / turn) {[4096 := 4294967295]} s V /\
  ('(xNextExpireTime, xListWasEmpty) ← prvGetNextExpireTime; prvProcessTimerOrBlockTask xNextExpireTime xListWasEmpty) (at_time 4 s) = Done (tt, s') /\
  exists due' V', timers_ok (4294967300 / turn) due' s' V' /\ daemon_step 4294967290 4294967300 {[4096 := 4294967295]} due' (at_time 4 s) s'.
Proof.
  destruct room_started as (s & V & HT & Ha & Hl).
  destruct (timer_daemon_never_oversleeps {[4096 := 4294967295]} (at_time 4 s) V 4294967290 4294967300) as (s' & Hrun & due' & V' & HT' & _ & _ & _ & _ & Hs).
  - by apply timers_ok_world.
  - exact Ha.
  - exact Hl.
  - reflexivity.
  - unfold turn. lia.
  - exists s, V, s'. split; [exact HT|]. split; [exact Hrun|]. exists due', V'. by split.
Defined.

(** C14: A command does to its timer what its time says, whenever the daemon gets to
    it.  For a command given at the time [c] and taken at the time [n], less than a
    turn of the tick count later, the timer first leaves the list it is on; a start
    or reset makes it due one period after [c], or, if that is over, calls it back
    and reloads it as an expiry at that time would have been; a change of the period
    makes it due one new period after [n]; a stop or the deletion of a static timer
    leaves it inactive; the deletion of another timer frees its memory.  If the tick
    count has wrapped since the daemon last looked, the other timers of the old turn
    are served first.  The invariant of the two lists holds afterwards, every timer
    is active exactly when it is due some time, and no other timer is touched. *)
Theorem timer_command_takes_effect {W} `{TimerStatics} `{Daemon W} (due : gmap Z Z) (s : timers W) V l n c m b :
  timers_ok (l / turn) due s V -> active_ok due s -> xLastTime s = u32 l ->
  xTaskGetTickCount (world s) = u32 n -> l <= n < l + turn -> timer s !! pxTimer m = Some b -> command_ok c n m ->
  exists s', process_message m s = Done (tt, s') /\ command_taken l c n due s m b s'.
Proof.
  intros HT Ha Hl Hn Hln Hb Hm. assert (Hid : 0 <= xMessageID m).
  { destruct Hm as [Hk _ _ _]. unfold starts, stops, changes, deletes in Hk. rewrite !orb_true_iff, !Z.eqb_eq in Hk.
    unfold tmrCOMMAND_START, tmrCOMMAND_START_FROM_ISR, tmrCOMMAND_RESET, tmrCOMMAND_RESET_FROM_ISR, tmrCOMMAND_STOP, tmrCOMMAND_STOP_FROM_ISR,
      tmrCOMMAND_CHANGE_PERIOD, tmrCOMMAND_CHANGE_PERIOD_FROM_ISR, tmrCOMMAND_DELETE in Hk. lia. }
  assert (Hw : wp (process_message m) s (fun _ s' => command_taken l c n due s m b s')).
  { unfold process_message. rewrite (proj2 (Z.ltb_ge _ _) Hid), (proj2 (Z.leb_le _ _) Hid). apply wp_bind, wp_ret. by eapply timer_command_ok. }
  apply wp_done in Hw as ([] & s' & Hrun & Hs). eauto.
Qed.

Lemma timer_command_takes_effect_witness : exists (s : timers room) V s', timers_ok (4294967290 / turn) ∅ s V /\
  process_message (start_message 4096 4294967290) s = Done (tt, s') /\
  command_taken 4294967290 4294967290 4294967290 ∅ s (start_message 4096 4294967290) localtime_timer s'.
Proof.
  destruct room_created as (s & V & HT & Ha & Hl & Hn & Hb).
  destruct (timer_command_takes_effect ∅ s V 4294967290 4294967290 4294967290 (start_message 4096 4294967290) localtime_timer) as (s' & Hrun & Hs);
    [exact HT|exact Ha|exact Hl|exact Hn|unfold turn; lia|exact Hb|exact start_command_fits|].
  exists s, V, s'. split; [exact HT|]. split; [exact Hrun|exact Hs].
Defined.
