(* ===== verification/EthDriver.v ===== *)
(** ETH_Driver/eth_driver_RMII.c with the routines of
    Peripheral/src/ch32v30x_eth.c it calls: the descriptor rings shared with the
    DMA engine, the link state machine of the LAN8720A and the interrupt
    service routine.

    The hardware is a parameter: [smi_read] and [smi_write] are the PHY behind
    the management interface, [idle n] is all that the DMA engine, the PHY and
    the interrupts do to the state while a task sleeps or blocks for [n] ticks.
    Clock, pin and interrupt-controller programming touches no modelled state
    and is left out. *)
From S2P Require Import Prelude CMem.

(** ** Registers and descriptors *)

Inductive reg :=
  | MACCR | MACFFR | MACHTHR | MACHTLR | MACMIIAR | MACFCR | MACVLANTR | MACA0HR | MACA0LR
  | MMCRIMR | MMCTIMR | DMABMR | DMATPDR | DMARPDR | DMARDLAR | DMATDLAR | DMASR | DMAOMR | DMAIER.
#[export] Instance reg_eq_dec : EqDecision reg.
Proof. solve_decision. Defined.

Record desc := mkDesc {
  Status : Z;
  ControlBufferSize : Z;
  Buffer1Addr : Z;
  Buffer2NextDescAddr : Z
}.
Definition set_Status (v : Z) (d : desc) :=
  mkDesc v (ControlBufferSize d) (Buffer1Addr d) (Buffer2NextDescAddr d).
Definition set_ControlBufferSize (v : Z) (d : desc) :=
  mkDesc (Status d) v (Buffer1Addr d) (Buffer2NextDescAddr d).

Definition ETH_DMATxDesc_OWN : Z := 2147483648.
Definition ETH_DMATxDesc_IC : Z := 1073741824.
Definition ETH_DMATxDesc_LS : Z := 536870912.
Definition ETH_DMATxDesc_FS : Z := 268435456.
Definition ETH_DMATxDesc_TCH : Z := 1048576.
Definition ETH_DMATxDesc_TBS1 : Z := 8191.
Definition ETH_DMARxDesc_OWN : Z := 2147483648.
Definition ETH_DMARxDesc_FL : Z := 1073676288.
Definition ETH_DMARxDesc_ES : Z := 32768.
Definition ETH_DMARxDesc_FS : Z := 512.
Definition ETH_DMARxDesc_LS : Z := 256.
Definition ETH_DMARxDesc_RCH : Z := 16384.
Definition ETH_MAX_PACKET_SIZE : Z := 1524.
Definition ETH_RXBUFNB : nat := 4.
Definition ETH_TXBUFNB : nat := 2.
Definition PHY_LINK_TASK_PERIOD : Z := 50.
Definition PHY_BCR : Z := 0.
Definition PHY_BSR : Z := 1.
Definition PHY_ANAR : Z := 4.
Definition LAN8720A_CLEAR_PHY_REG : Z := 30.
Definition LAN8720A_PSCR_REG : Z := 31.
Definition LAN8720A_PHY_ADDRESS : Z := 1.
Definition PHY_Reset : Z := 32768.
Definition PHY_Linked_Status : Z := 4.
Definition PHY_AutoNegotiation : Z := 4096.
Definition PHY_Restart_AutoNegotiation : Z := 512.
Definition ETH_Speed_100M : Z := 16384.
Definition ETH_Mode_FullDuplex : Z := 2048.
Definition ETH_MACCR_TE : Z := 8.
Definition ETH_MACCR_RE : Z := 4.
Definition ETH_DMAOMR_FTF : Z := 1048576.
Definition ETH_DMAOMR_ST : Z := 8192.
Definition ETH_DMAOMR_SR : Z := 2.
Definition ETH_DMABMR_SR : Z := 1.
Definition ETH_DMASR_TBUS : Z := 4.
Definition ETH_DMA_IT_NIS : Z := 65536.
Definition ETH_DMA_IT_AIS : Z := 32768.
Definition ETH_DMA_IT_RBU : Z := 128.
Definition ETH_DMA_IT_R : Z := 64.
Definition ETH_DMA_IT_T : Z := 1.
Definition ETH_ReceiveAll_Enable : Z := 2147483648.
Definition ETH_PromiscuousMode_Enable : Z := 1.
Definition ETH_SUCCESS : Z := 1.
Definition ETH_ERROR : Z := 0.

(** The linker's addresses of the four static arrays. *)
Class EthLayout := {
  DMARxDscrTab : Z;
  DMATxDscrTab : Z;
  MACRxBuf : Z;
  MACTxBuf : Z
}.
Definition sizeof_desc : Z := 16.

(** C's bitwise complement of a 32-bit register. *)
Definition bic (x y : Z) : Z := Z.land x (u32 (Z.lnot y)).
Definition has (x mask : Z) : bool := nz (Z.land x mask).

Record eth (phy : Type) := mkEth {
  regs : reg -> Z;
  descs : gmap Z desc;
  emem : mem;
  pDMARxSet : Z;
  DMATxDescToSet : Z;
  pDMATxSet : Z;
  DMARxDescToGet : Z;
  gPHYAddress : Z;
  LocalTime : Z;
  link_poll_time : Z;
  phy_link_state : Z;
  LinkSta : Z;
  eth_rx_semaphore : option Z;
  eth_tx_semaphore : option Z;
  ephy : phy
}.
Arguments mkEth {_}.
Arguments regs {_}.
Arguments descs {_}.
Arguments emem {_}.
Arguments pDMARxSet {_}.
Arguments DMATxDescToSet {_}.
Arguments pDMATxSet {_}.
Arguments DMARxDescToGet {_}.
Arguments gPHYAddress {_}.
Arguments LocalTime {_}.
Arguments link_poll_time {_}.
Arguments phy_link_state {_}.
Arguments LinkSta {_}.
Arguments eth_rx_semaphore {_}.
Arguments eth_tx_semaphore {_}.
Arguments ephy {_}.

(** The state split in its four groups, each written as a whole. *)
Section Setters.
Context {phy : Type}.
Abbreviation E := (eth phy).
Definition set_regs (f : (reg -> Z) -> reg -> Z) (s : E) : E :=
  mkEth (f (regs s)) (descs s) (emem s) (pDMARxSet s) (DMATxDescToSet s) (pDMATxSet s)
    (DMARxDescToGet s) (gPHYAddress s) (LocalTime s) (link_poll_time s) (phy_link_state s)
    (LinkSta s) (eth_rx_semaphore s) (eth_tx_semaphore s) (ephy s).
Definition set_descs (m : gmap Z desc) (s : E) : E :=
  mkEth (regs s) m (emem s) (pDMARxSet s) (DMATxDescToSet s) (pDMATxSet s)
    (DMARxDescToGet s) (gPHYAddress s) (LocalTime s) (link_poll_time s) (phy_link_state s)
    (LinkSta s) (eth_rx_semaphore s) (eth_tx_semaphore s) (ephy s).
Definition set_emem (m : mem) (s : E) : E :=
  mkEth (regs s) (descs s) m (pDMARxSet s) (DMATxDescToSet s) (pDMATxSet s)
    (DMARxDescToGet s) (gPHYAddress s) (LocalTime s) (link_poll_time s) (phy_link_state s)
    (LinkSta s) (eth_rx_semaphore s) (eth_tx_semaphore s) (ephy s).
Definition set_cursors (rx tx tx2 rx2 : Z) (s : E) : E :=
  mkEth (regs s) (descs s) (emem s) rx tx tx2 rx2 (gPHYAddress s) (LocalTime s)
    (link_poll_time s) (phy_link_state s) (LinkSta s) (eth_rx_semaphore s)
    (eth_tx_semaphore s) (ephy s).
Definition set_rx_cursor (a : Z) (s : E) : E :=
  set_cursors a (DMATxDescToSet s) (pDMATxSet s) (DMARxDescToGet s) s.
Definition set_tx_cursor (a : Z) (s : E) : E :=
  set_cursors (pDMARxSet s) a (pDMATxSet s) (DMARxDescToGet s) s.
Definition set_link (addr time poll st sta : Z) (s : E) : E :=
  mkEth (regs s) (descs s) (emem s) (pDMARxSet s) (DMATxDescToSet s) (pDMATxSet s)
    (DMARxDescToGet s) addr time poll st sta (eth_rx_semaphore s) (eth_tx_semaphore s) (ephy s).
Definition set_sems (rx tx : option Z) (s : E) : E :=
  mkEth (regs s) (descs s) (emem s) (pDMARxSet s) (DMATxDescToSet s) (pDMATxSet s)
    (DMARxDescToGet s) (gPHYAddress s) (LocalTime s) (link_poll_time s) (phy_link_state s)
    (LinkSta s) rx tx (ephy s).
Definition set_ephy (p : phy) (s : E) : E :=
  mkEth (regs s) (descs s) (emem s) (pDMARxSet s) (DMATxDescToSet s) (pDMATxSet s)
    (DMARxDescToGet s) (gPHYAddress s) (LocalTime s) (link_poll_time s) (phy_link_state s)
    (LinkSta s) (eth_rx_semaphore s) (eth_tx_semaphore s) p.
End Setters.

Section Driver.
Context {phy : Type}.
Abbreviation E := (eth phy).
Context (smi_read : Z -> Z -> phy -> option Z * phy)
        (smi_write : Z -> Z -> Z -> phy -> phy)
        (idle : Z -> E -> E).
Context `{EthLayout}.

(** *** Register and descriptor accesses *)

Definition rd_reg (r : reg) : M E Z := gets (fun s => regs s r).
(** [DMASR] clears the bits written as 1; the poll-demand registers and all
    others take the value. *)
Definition wr_reg (r : reg) (v : Z) : M E unit :=
  modify (set_regs (fun f r' => if decide (r' = r)
                                then (if decide (r = DMASR) then bic (f DMASR) v else v)
                                else f r')).
Definition rd_desc (a : Z) : M E desc := s ← get; of_option (descs s !! a).
Definition wr_desc (a : Z) (f : desc -> desc) : M E unit :=
  d ← rd_desc a; modify (fun s => set_descs (<[a := f d]> (descs s)) s).
Definition vTaskDelay (n : Z) : M E unit := modify (idle n).

(** *** The semaphores shared with the interrupt (ethernetif.c) *)

Definition ethernetif_sync_init (rx_created tx_created : bool) : M E unit :=
  let sem (b : bool) := if b then Some 0 else None in
  modify (set_sems (sem rx_created) (sem tx_created));;
  assert_ rx_created;;
  assert_ tx_created.

(** [xSemaphoreGiveFromISR] on a binary semaphore: asserts a valid handle; a
    give to a full semaphore is refused and changes nothing. *)
Definition ethernetif_rx_signal : M E unit :=
  s ← get;
  assert_ (bool_decide (is_Some (eth_rx_semaphore s)));;
  put (set_sems (Some 1) (eth_tx_semaphore s) s).
Definition ethernetif_tx_signal : M E unit :=
  s ← get;
  assert_ (bool_decide (is_Some (eth_tx_semaphore s)));;
  put (set_sems (eth_rx_semaphore s) (Some 1) s).

(** [xSemaphoreTake]: at once when the semaphore is given, otherwise the task
    blocks and takes it if it was given in the meantime. *)
Definition rx_take (ticks : Z) : M E bool :=
  s ← get;
  match eth_rx_semaphore s with
  | None => stop_ Asserted
  | Some n =>
      if 0 <? n then put (set_sems (Some 0) (eth_tx_semaphore s) s);; mret true
      else
        modify (idle ticks);;
        s ← get;
        match eth_rx_semaphore s with
        | Some n => if 0 <? n then put (set_sems (Some 0) (eth_tx_semaphore s) s);; mret true
                    else mret false
        | None => mret false
        end
  end.
Definition tx_take (ticks : Z) : M E bool :=
  s ← get;
  match eth_tx_semaphore s with
  | None => stop_ Asserted
  | Some n =>
      if 0 <? n then put (set_sems (eth_rx_semaphore s) (Some 0) s);; mret true
      else
        modify (idle ticks);;
        s ← get;
        match eth_tx_semaphore s with
        | Some n => if 0 <? n then put (set_sems (eth_rx_semaphore s) (Some 0) s);; mret true
                    else mret false
        | None => mret false
        end
  end.

(** *** ch32v30x_eth.c *)

(** The busy-wait on the MII busy bit is summarised by whether it times out. *)
Definition ETH_ReadPHYRegister (PHYAddress PHYReg : Z) : M E Z :=
  s ← get;
  let '(v, p) := smi_read PHYAddress PHYReg (ephy s) in
  put (set_ephy p s);;
  mret (match v with Some v => u16 v | None => u16 ETH_ERROR end).
Definition ETH_WritePHYRegister (PHYAddress PHYReg PHYValue : Z) : M E unit :=
  modify (fun s => set_ephy (smi_write PHYAddress PHYReg PHYValue (ephy s)) s).

Definition or_reg (r : reg) (v : Z) : M E unit := x ← rd_reg r; wr_reg r (Z.lor x v).
Definition and_not_reg (r : reg) (v : Z) : M E unit := x ← rd_reg r; wr_reg r (bic x v).

Definition ETH_MACTransmissionCmd (enable : bool) : M E unit :=
  if enable then or_reg MACCR ETH_MACCR_TE else and_not_reg MACCR ETH_MACCR_TE.
Definition ETH_MACReceptionCmd (enable : bool) : M E unit :=
  if enable then or_reg MACCR ETH_MACCR_RE else and_not_reg MACCR ETH_MACCR_RE.
Definition ETH_FlushTransmitFIFO : M E unit := or_reg DMAOMR ETH_DMAOMR_FTF.
Definition ETH_DMATransmissionCmd (enable : bool) : M E unit :=
  if enable then or_reg DMAOMR ETH_DMAOMR_ST else and_not_reg DMAOMR ETH_DMAOMR_ST.
Definition ETH_DMAReceptionCmd (enable : bool) : M E unit :=
  if enable then or_reg DMAOMR ETH_DMAOMR_SR else and_not_reg DMAOMR ETH_DMAOMR_SR.
Definition ETH_DMAITConfig (its : Z) (enable : bool) : M E unit :=
  if enable then or_reg DMAIER its else and_not_reg DMAIER its.
Definition ETH_DMAClearITPendingBit (its : Z) : M E unit := wr_reg DMASR its.
Definition ETH_SoftwareReset : M E unit := or_reg DMABMR ETH_DMABMR_SR.

Definition ETH_Start : M E unit :=
  ETH_MACTransmissionCmd true;;
  ETH_FlushTransmitFIFO;;
  ETH_MACReceptionCmd true;;
  ETH_DMATransmissionCmd true;;
  ETH_DMAReceptionCmd true.

(** The loop bodies of the two chain initialisations, from index [i] on; [n] is
    the number of descriptors. *)
Fixpoint tx_chain (tab buf : Z) (n todo i : nat) : M E unit :=
  match todo with
  | O => mret tt
  | S todo =>
      let a := tab + sizeof_desc * Z.of_nat i in
      modify (fun s => set_descs
        (<[a := mkDesc (Z.lor ETH_DMATxDesc_TCH ETH_DMATxDesc_IC)
                  (ControlBufferSize (default (mkDesc 0 0 0 0) (descs s !! a)))
                  (buf + Z.of_nat i * ETH_MAX_PACKET_SIZE)
                  (if bool_decide (i < n - 1)%nat
                   then tab + sizeof_desc * Z.of_nat (i + 1) else tab)]> (descs s)) s);;
      tx_chain tab buf n todo (S i)
  end.
Definition ETH_DMATxDescChainInit (tab buf : Z) (n : nat) : M E unit :=
  modify (set_tx_cursor tab);;
  tx_chain tab buf n n 0;;
  wr_reg DMATDLAR tab.

Fixpoint rx_chain (tab buf : Z) (n todo i : nat) : M E unit :=
  match todo with
  | O => mret tt
  | S todo =>
      let a := tab + sizeof_desc * Z.of_nat i in
      modify (fun s => set_descs
        (<[a := mkDesc ETH_DMARxDesc_OWN (Z.lor ETH_DMARxDesc_RCH ETH_MAX_PACKET_SIZE)
                  (buf + Z.of_nat i * ETH_MAX_PACKET_SIZE)
                  (if bool_decide (i < n - 1)%nat
                   then tab + sizeof_desc * Z.of_nat (i + 1) else tab)]> (descs s)) s);;
      rx_chain tab buf n todo (S i)
  end.
Definition ETH_DMARxDescChainInit (tab buf : Z) (n : nat) : M E unit :=
  modify (fun s => set_cursors (pDMARxSet s) (DMATxDescToSet s) (pDMATxSet s) tab s);;
  rx_chain tab buf n n 0;;
  wr_reg DMARDLAR tab.

(** *** eth_driver_RMII.c *)

Definition ROM_CFG_USERADR_ID : Z := 536868840.
(** [rom] is the byte at an address of the chip ROM; the result fills the six
    bytes at [p]. *)
Definition WCHNET_GetMacAddr (rom : Z -> Z) : list Z :=
  map (fun i => rom (ROM_CFG_USERADR_ID + 5 - i)) (seqZ 0 6).

Definition WCHNET_TimeIsr (timperiod : Z) : M E unit :=
  modify (fun s => set_link (gPHYAddress s) (u32 (LocalTime s + timperiod)) (link_poll_time s)
                     (phy_link_state s) (LinkSta s) s).

(** A bounded [do { vTaskDelay(10); if(!(--timeout)) break; } while(busy)]. *)
Fixpoint wait_while (timeout : nat) (busy : M E bool) : M E unit :=
  match timeout with
  | O => mret tt
  | S rest =>
      vTaskDelay 10;;
      match rest with
      | O => mret tt
      | S _ => b ← busy; if (b : bool) then wait_while rest busy else mret tt
      end
  end.

(** The register values are those of the constants [ETH_Configuration] passes. *)
Definition ETH_RegInit (PHYAddress : Z) : M E Z :=
  wr_reg MACMIIAR 0;;
  wr_reg MACCR (Z.shiftl 1 9);;
  wr_reg MACFFR 64;;
  wr_reg MACHTHR 0;;
  wr_reg MACHTLR 0;;
  wr_reg MACFCR 0;;
  wr_reg MACVLANTR 0;;
  wr_reg DMAOMR (Z.lor (Z.lor 2097152 128) 64);;
  ETH_WritePHYRegister PHYAddress PHY_BCR PHY_Reset;;
  wait_while (Z.to_nat 1000) (v ← ETH_ReadPHYRegister PHYAddress PHY_BCR; mret (has v PHY_Reset));;
  ETH_WritePHYRegister PHYAddress LAN8720A_CLEAR_PHY_REG 0;;
  ETH_WritePHYRegister PHYAddress PHY_ANAR 481;;
  ETH_WritePHYRegister PHYAddress PHY_BCR (Z.lor PHY_AutoNegotiation PHY_Restart_AutoNegotiation);;
  mret ETH_SUCCESS.

(** [macAddr] is the array of six bytes. *)
Definition ETH_Configuration (m0 m1 m2 m3 m4 m5 : Z) : M E unit :=
  modify (fun s => set_link LAN8720A_PHY_ADDRESS (LocalTime s) (link_poll_time s)
                     (phy_link_state s) (LinkSta s) s);;
  ETH_SoftwareReset;;
  wait_while (Z.to_nat 10000) (v ← rd_reg DMABMR; mret (has v ETH_DMABMR_SR));;
  s ← get;
  ETH_RegInit (gPHYAddress s);;
  wr_reg MACA0HR (u32 (Z.lor (Z.shiftl m5 8) m4));;
  wr_reg MACA0LR (u32 (Z.lor (Z.lor (Z.lor m0 (Z.shiftl m1 8)) (Z.shiftl m2 16)) (Z.shiftl m3 24)));;
  wr_reg MMCTIMR 2097152;;
  wr_reg MMCRIMR (Z.lor 131072 32);;
  ETH_DMAITConfig (Z.lor (Z.lor (Z.lor (Z.lor ETH_DMA_IT_NIS ETH_DMA_IT_AIS) ETH_DMA_IT_RBU)
                     ETH_DMA_IT_R) ETH_DMA_IT_T) true.

Definition ETH_Stop : M E unit :=
  ETH_MACTransmissionCmd false;;
  ETH_FlushTransmitFIFO;;
  ETH_MACReceptionCmd false.

(** [Some (buffer, len)], or [None] for NULL. *)
Fixpoint ETH_RecPeek (fuel : nat) : M E (option (Z * Z)) :=
  match fuel with
  | O => stop_ NoFuel
  | S fuel =>
      s ← get;
      d ← rd_desc (pDMARxSet s);
      if negb (has (Status d) ETH_DMARxDesc_OWN) then
        if negb (has (Status d) ETH_DMARxDesc_ES) && has (Status d) ETH_DMARxDesc_FS
           && has (Status d) ETH_DMARxDesc_LS
        then mret (Some (Buffer1Addr d,
                         u16 (u16 (Z.shiftr (Z.land (Status d) ETH_DMARxDesc_FL) 16) - 4)))
        else
          wr_desc (pDMARxSet s) (set_Status ETH_DMARxDesc_OWN);;
          modify (set_rx_cursor (Buffer2NextDescAddr d));;
          ETH_RecPeek fuel
      else mret None
  end.

Definition ETH_RecFree : M E unit :=
  s ← get;
  d ← rd_desc (pDMARxSet s);
  wr_desc (pDMARxSet s) (set_Status ETH_DMARxDesc_OWN);;
  modify (set_rx_cursor (Buffer2NextDescAddr d));;
  wr_reg DMARPDR 0.

(** 0 stands for NULL. *)
Definition ETH_GetTxBuf : M E Z :=
  s ← get;
  d ← rd_desc (DMATxDescToSet s);
  mret (if has (Status d) ETH_DMATxDesc_OWN then 0 else Buffer1Addr d).

Definition ETH_SendFrame (len : Z) : M E Z :=
  s ← get;
  let a := DMATxDescToSet s in
  wr_desc a (set_ControlBufferSize (Z.land len ETH_DMATxDesc_TBS1));;
  wr_desc a (fun d => set_Status (Z.lor (Status d) (Z.lor ETH_DMATxDesc_LS ETH_DMATxDesc_FS)) d);;
  wr_desc a (fun d => set_Status (Z.lor (Status d) ETH_DMATxDesc_OWN) d);;
  wr_reg DMASR ETH_DMASR_TBUS;;
  wr_reg DMATPDR 0;;
  d ← rd_desc a;
  modify (set_tx_cursor (Buffer2NextDescAddr d));;
  mret ETH_SUCCESS.

(** [buff] holds [len] bytes. *)
Definition MACRAW_Tx (buff : list Z) (len : Z) : M E Z :=
  s ← get;
  let a := DMATxDescToSet s in
  d ← rd_desc a;
  if has (Status d) ETH_DMATxDesc_OWN then mret ETH_ERROR
  else
    wr_desc a (set_ControlBufferSize (Z.land len ETH_DMATxDesc_TBS1));;
    m ← (s ← get; of_option (store_bytes (emem s) (Buffer1Addr d) (take (Z.to_nat len) buff)));
    modify (set_emem m);;
    wr_desc a (fun d => set_Status (Z.lor (Status d) (Z.lor ETH_DMATxDesc_LS ETH_DMATxDesc_FS)) d);;
    wr_desc a (fun d => set_Status (Z.lor (Status d) ETH_DMATxDesc_OWN) d);;
    wr_reg DMASR ETH_DMASR_TBUS;;
    wr_reg DMATPDR 0;;
    d ← rd_desc a;
    modify (set_tx_cursor (Buffer2NextDescAddr d));;
    mret ETH_SUCCESS.

Definition ETH_EnableMacFilter : M E unit :=
  and_not_reg MACFFR (Z.lor ETH_ReceiveAll_Enable ETH_PromiscuousMode_Enable).

Definition set_phy_link_state (v : Z) : M E unit :=
  modify (fun s => set_link (gPHYAddress s) (LocalTime s) (link_poll_time s) v (LinkSta s) s).
Definition set_LinkSta (v : Z) : M E unit :=
  modify (fun s => set_link (gPHYAddress s) (LocalTime s) (link_poll_time s) (phy_link_state s) v s).
Definition set_link_poll_time (v : Z) : M E unit :=
  modify (fun s => set_link (gPHYAddress s) (LocalTime s) v (phy_link_state s) (LinkSta s) s).

Definition WCHNET_HandlePhyNegotiation : M E unit :=
  s ← get;
  if u32 (LocalTime s - link_poll_time s) <? PHY_LINK_TASK_PERIOD then mret tt
  else
    set_link_poll_time (LocalTime s);;
    ETH_ReadPHYRegister (gPHYAddress s) PHY_BSR;;
    bsr ← ETH_ReadPHYRegister (gPHYAddress s) PHY_BSR;
    if has bsr PHY_Linked_Status then
      (if phy_link_state s =? 0 then
         pscr ← ETH_ReadPHYRegister (gPHYAddress s) LAN8720A_PSCR_REG;
         set_phy_link_state 1;;
         (if has pscr (Z.shiftl 1 3) then or_reg MACCR ETH_Speed_100M
          else and_not_reg MACCR ETH_Speed_100M);;
         (if has pscr (Z.shiftl 1 4) then or_reg MACCR ETH_Mode_FullDuplex
          else and_not_reg MACCR ETH_Mode_FullDuplex);;
         ETH_Start
       else mret tt);;
      set_LinkSta 1
    else
      (if negb (phy_link_state s =? 0) then
         set_phy_link_state 0;;
         ETH_Stop
       else mret tt);;
      set_LinkSta 0.

Definition WCHNET_ETHIsr : M E unit :=
  int_sta ← rd_reg DMASR;
  (if has int_sta ETH_DMA_IT_AIS then
     (if has int_sta ETH_DMA_IT_RBU then
        wr_reg DMARPDR 0;;
        ETH_DMAClearITPendingBit ETH_DMA_IT_RBU
      else mret tt);;
     ETH_DMAClearITPendingBit ETH_DMA_IT_AIS
   else mret tt);;
  if has int_sta ETH_DMA_IT_NIS then
    (if has int_sta ETH_DMA_IT_R then
       ethernetif_rx_signal;;
       ETH_DMAClearITPendingBit ETH_DMA_IT_R
     else mret tt);;
    (if has int_sta ETH_DMA_IT_T then
       ethernetif_tx_signal;;
       ETH_DMAClearITPendingBit ETH_DMA_IT_T
     else mret tt);;
    ETH_DMAClearITPendingBit ETH_DMA_IT_NIS
  else mret tt.

Definition ETH_IRQHandler : M E unit := WCHNET_ETHIsr.

Definition ETH_Init (m0 m1 m2 m3 m4 m5 : Z) : M E unit :=
  set_LinkSta 0;;
  set_phy_link_state 0;;
  vTaskDelay 20;;
  ETH_Configuration m0 m1 m2 m3 m4 m5;;
  ETH_DMATxDescChainInit DMATxDscrTab MACTxBuf ETH_TXBUFNB;;
  ETH_DMARxDescChainInit DMARxDscrTab MACRxBuf ETH_RXBUFNB;;
  modify (set_rx_cursor DMARxDscrTab);;
  modify (fun s => set_cursors (pDMARxSet s) (DMATxDescToSet s) DMATxDscrTab (DMARxDescToGet s) s);;
  s ← get;
  set_link_poll_time (u32 (LocalTime s - PHY_LINK_TASK_PERIOD)).

End Driver.

(** ** The receive ring *)

Section Ring.
Context {phy : Type} `{EthLayout}.
Abbreviation E := (eth phy).

Definition ring_next (i : Z) : Z := (i + 1) mod 4.
Definition rx_addr (i : Z) : Z := DMARxDscrTab + sizeof_desc * i.
Definition rx_buf (i : Z) : Z := MACRxBuf + i * ETH_MAX_PACKET_SIZE.
Definition owned (st : Z) : bool := has st ETH_DMARxDesc_OWN.
(** A whole frame without error in one descriptor. *)
Definition good (st : Z) : bool :=
  negb (has st ETH_DMARxDesc_ES) && has st ETH_DMARxDesc_FS && has st ETH_DMARxDesc_LS.
Definition frame_len (st : Z) : Z := Z.shiftr (Z.land st ETH_DMARxDesc_FL) 16.

(** The descriptors from index [r] on have the statuses [sts]. *)
Record rx_ring (s : E) (r : Z) (sts : list Z) : Prop := {
  ring_idx : 0 <= r < 4;
  ring_len : length sts = 4%nat;
  ring_cursor : pDMARxSet s = rx_addr r;
  ring_descs i st : sts !! i = Some st ->
    exists c, descs s !! rx_addr ((r + Z.of_nat i) mod 4) =
      Some (mkDesc st c (rx_buf ((r + Z.of_nat i) mod 4)) (rx_addr (ring_next ((r + Z.of_nat i) mod 4))))
}.

(** [pend] are the statuses of the frames the DMA has handed over, oldest
    first; the DMA owns the other descriptors. *)
Definition rx_rep (s : E) (r : Z) (pend : list Z) : Prop :=
  exists tail, rx_ring s r (pend ++ tail) /\ Forall (fun st => owned st = false) pend /\
    Forall (fun st => owned st = true) tail.

Lemma rx_addr_inj i j : rx_addr i = rx_addr j <-> i = j.
Proof. unfold rx_addr, sizeof_desc. lia. Qed.

(** What the driver does to give a descriptor back. *)
Definition give_back (s : E) (r : Z) (d : desc) : E :=
  set_rx_cursor (Buffer2NextDescAddr d)
    (set_descs (<[rx_addr r := set_Status ETH_DMARxDesc_OWN d]> (descs s)) s).

Lemma rx_ring_head s r st sts : rx_ring s r (st :: sts) ->
  exists c, descs s !! rx_addr r = Some (mkDesc st c (rx_buf r) (rx_addr (ring_next r))).
Proof.
  intros Hr. destruct (ring_descs _ _ _ Hr 0%nat st eq_refl) as (c & Hc).
  pose proof (ring_idx _ _ _ Hr). exists c. rewrite Z.add_0_r, Z.mod_small in Hc by lia. done.
Qed.

Lemma rx_ring_advance s r st sts d :
  rx_ring s r (st :: sts) -> descs s !! rx_addr r = Some d ->
  rx_ring (give_back s r d) (ring_next r) (sts ++ [ETH_DMARxDesc_OWN]).
Proof.
  intros Hr Hd. pose proof (ring_idx _ _ _ Hr) as Hi. pose proof (ring_len _ _ _ Hr) as Hl.
  destruct (rx_ring_head _ _ _ _ Hr) as (c & Hc). rewrite Hd in Hc. injection Hc as ->. cbn in Hl.
  constructor.
  - unfold ring_next. zlia.
  - rewrite length_app. cbn. lia.
  - done.
  - intros i x Hx. cbn [give_back set_rx_cursor set_cursors set_descs descs].
    replace ((ring_next r + Z.of_nat i) mod 4) with ((r + Z.of_nat (S i)) mod 4)
      by (unfold ring_next; zlia).
    destruct (decide (i < length sts)%nat) as [Hlt|Hge].
    + rewrite lookup_app_l in Hx by done.
      destruct (ring_descs _ _ _ Hr (S i) x Hx) as (c' & Hc'). exists c'.
      rewrite lookup_insert_ne; [done|]. rewrite rx_addr_inj. zlia.
    + rewrite lookup_app_r in Hx by lia. assert (i = length sts) as ->.
      { apply lookup_lt_Some in Hx. cbn in Hx. lia. }
      rewrite Nat.sub_diag in Hx. injection Hx as <-.
      replace ((r + Z.of_nat (S (length sts))) mod 4) with r by zlia.
      exists c. by rewrite lookup_insert_eq.
Qed.

Lemma rx_rep_advance s r st pend d :
  rx_rep s r (st :: pend) -> descs s !! rx_addr r = Some d ->
  rx_rep (give_back s r d) (ring_next r) pend.
Proof.
  intros (tail & Hr & Hp & Ht) Hd. exists (tail ++ [ETH_DMARxDesc_OWN]).
  rewrite app_assoc. split; [by eapply rx_ring_advance|]. split; [by inversion Hp|].
  apply Forall_app. split; [done|]. by repeat constructor.
Qed.

(** Number of frames at the front that [ETH_RecPeek] discards. *)
Fixpoint bad_count (pend : list Z) : nat :=
  match pend with
  | [] => 0
  | st :: r => if good st then 0 else S (bad_count r)
  end.

(** What [ETH_RecPeek] returns with cursor [r] on the frames [pend]. *)
Definition peeked (r : Z) (pend : list Z) : option (Z * Z) :=
  match pend with
  | [] => None
  | st :: _ => Some (rx_buf r, u16 (frame_len st - 4))
  end.

Lemma frame_len_range st : 0 <= frame_len st < 16384.
Proof.
  unfold frame_len, ETH_DMARxDesc_FL. rewrite shiftr_16.
  change 1073676288 with (Z.shiftl (Z.ones 14) 16). rewrite <- shiftr_16, Z.shiftr_land.
  change (Z.shiftr (Z.shiftl (Z.ones 14) 16) 16) with (Z.ones 14).
  rewrite Z.land_ones by lia. change (2 ^ 14) with 16384. zlia.
Qed.

(** The receive ring and the bytes it holds are all that [ETH_RecPeek] and
    [ETH_RecFree] touch. *)
Definition rx_only (s s' : E) : Prop :=
  emem s' = emem s /\ DMATxDescToSet s' = DMATxDescToSet s /\
  eth_rx_semaphore s' = eth_rx_semaphore s /\ eth_tx_semaphore s' = eth_tx_semaphore s /\
  (forall a, (forall i, 0 <= i < 4 -> a <> rx_addr i) -> descs s' !! a = descs s !! a).

#[local] Instance rx_only_preorder : PreOrder rx_only.
Proof.
  split; [done|]. intros s1 s2 s3 (A1 & A2 & A3 & A4 & A5) (B1 & B2 & B3 & B4 & B5).
  unfold rx_only. repeat split; try congruence. intros a Ha. by rewrite B5, A5.
Qed.

Lemma give_back_rx_only s r d : 0 <= r < 4 -> rx_only s (give_back s r d).
Proof.
  intros Hr. repeat split. intros a Ha. cbn. rewrite lookup_insert_ne; [done|].
  apply not_eq_sym. by apply Ha.
Qed.

Lemma ETH_RecPeek_run s r pend fuel :
  rx_rep s r pend -> (length pend < fuel)%nat ->
  let k := bad_count pend in
  let r' := (r + Z.of_nat k) mod 4 in
  exists s', ETH_RecPeek fuel s = Done (peeked r' (drop k pend), s') /\
    rx_rep s' r' (drop k pend) /\ rx_only s s'.
Proof.
  revert s r pend. induction fuel as [|fuel IH]; intros s r pend Hr Hf; [lia|].
  pose proof Hr as (tail & Hg & Hp & Ht). pose proof (ring_idx _ _ _ Hg) as Hi.
  pose proof (ring_len _ _ _ Hg) as Hl. cbn [ETH_RecPeek]. unfold rd_desc. mred.
  rewrite (ring_cursor _ _ _ Hg). destruct pend as [|st pend]; cbn [bad_count].
  - destruct tail as [|t tail]; [done|]. destruct (rx_ring_head _ _ _ _ Hg) as (c & ->). mred.
    apply Forall_cons in Ht as [Ho _]. cbn [Status]. fold (owned t). rewrite Ho. cbn [negb]. mred.
    rewrite Z.add_0_r, Z.mod_small by done. exists s. done.
  - destruct (rx_ring_head _ _ _ _ Hg) as (c & Hd). rewrite Hd. mred. cbn [Status].
    apply Forall_cons in Hp as [Ho Hp]. fold (owned st). rewrite Ho. cbn [negb]. fold (good st).
    destruct (good st) eqn:Eg.
    + mred. rewrite Z.add_0_r, Z.mod_small by done. exists s. cbn [drop peeked Buffer1Addr].
      pose proof (frame_len_range st). fold (frame_len st). rewrite (u16_small (frame_len st)) by zlia.
      done.
    + unfold wr_desc, rd_desc. mred. rewrite Hd. mred. cbn [length] in Hf.
      destruct (IH (give_back s r (mkDesc st c (rx_buf r) (rx_addr (ring_next r)))) (ring_next r) pend)
        as (s' & Hrun & Hr' & Ho'); [by eapply rx_rep_advance|lia|].
      cbn [drop Buffer2NextDescAddr].
      replace ((r + Z.of_nat (S (bad_count pend))) mod 4) with ((ring_next r + Z.of_nat (bad_count pend)) mod 4)
        by (unfold ring_next; zlia).
      exists s'. split; [exact Hrun|]. split; [done|]. etrans; [|exact Ho']. by apply give_back_rx_only.
Qed.

Lemma ETH_RecFree_run s r st pend :
  rx_rep s r (st :: pend) ->
  exists s', ETH_RecFree s = Done (tt, s') /\ rx_rep s' (ring_next r) pend /\ rx_only s s'.
Proof.
  intros Hr. pose proof Hr as (tail & Hg & _). destruct (rx_ring_head _ _ _ _ Hg) as (c & Hd).
  pose proof (rx_rep_advance _ _ _ _ _ Hr Hd) as Ha. pose proof (ring_idx _ _ _ Hg) as Hi.
  unfold ETH_RecFree, wr_desc, rd_desc, wr_reg. mred. rewrite (ring_cursor _ _ _ Hg), Hd. mred. rewrite Hd. mred.
  eexists. split; [reflexivity|]. split.
  - destruct Ha as (tl & [A1 A2 A3 A4] & A5 & A6). exists tl. done.
  - by apply (give_back_rx_only s r).
Qed.
End Ring.

(** ** The transmit ring *)

Section TxRing.
Context {phy : Type} `{EthLayout}.
Abbreviation E := (eth phy).

Definition tx_addr (i : Z) : Z := DMATxDscrTab + sizeof_desc * i.
Definition tx_buf (i : Z) : Z := MACTxBuf + i * ETH_MAX_PACKET_SIZE.
Definition tx_next (i : Z) : Z := (i + 1) mod 2.
Definition tx_owned (st : Z) : bool := has st ETH_DMATxDesc_OWN.
(** Status of a descriptor handed to the DMA. *)
Definition sent (st : Z) : Z :=
  Z.lor (Z.lor st (Z.lor ETH_DMATxDesc_LS ETH_DMATxDesc_FS)) ETH_DMATxDesc_OWN.

(** The cursor is at [t]; [st0] is the status there and [st1] that of the other
    descriptor. *)
Record tx_ring (s : E) (t st0 st1 : Z) : Prop := {
  txr_idx : 0 <= t < 2;
  txr_cursor : DMATxDescToSet s = tx_addr t;
  txr_here : exists c, descs s !! tx_addr t = Some (mkDesc st0 c (tx_buf t) (tx_addr (tx_next t)));
  txr_there : exists c, descs s !! tx_addr (tx_next t) =
                Some (mkDesc st1 c (tx_buf (tx_next t)) (tx_addr t))
}.

Lemma tx_addr_next t : 0 <= t < 2 -> tx_addr t <> tx_addr (tx_next t) /\ tx_next (tx_next t) = t.
Proof. unfold tx_addr, tx_next, sizeof_desc. intros. split; zlia. Qed.

Definition tx_only (s s' : E) : Prop :=
  emem s' = emem s /\ pDMARxSet s' = pDMARxSet s /\
  eth_rx_semaphore s' = eth_rx_semaphore s /\ eth_tx_semaphore s' = eth_tx_semaphore s /\
  (forall a, (forall i, 0 <= i < 2 -> a <> tx_addr i) -> descs s' !! a = descs s !! a).

Lemma ETH_GetTxBuf_run s t st0 st1 : tx_ring s t st0 st1 ->
  ETH_GetTxBuf s = Done (if tx_owned st0 then 0 else tx_buf t, s).
Proof.
  intros Hr. destruct (txr_here _ _ _ _ Hr) as (c & Hd). unfold ETH_GetTxBuf, rd_desc. mred.
  by rewrite (txr_cursor _ _ _ _ Hr), Hd.
Qed.

Lemma ETH_SendFrame_run s t st0 st1 len : tx_ring s t st0 st1 ->
  exists s', ETH_SendFrame len s = Done (ETH_SUCCESS, s') /\
    tx_ring s' (tx_next t) st1 (sent st0) /\
    descs s' !! tx_addr t =
      Some (mkDesc (sent st0) (Z.land len ETH_DMATxDesc_TBS1) (tx_buf t) (tx_addr (tx_next t))) /\
    tx_only s s'.
Proof.
  intros Hr. destruct (txr_here _ _ _ _ Hr) as (c & Hd), (txr_there _ _ _ _ Hr) as (c' & Hd').
  pose proof (txr_idx _ _ _ _ Hr) as Hi. destruct (tx_addr_next t Hi) as [Hne Hnn].
  unfold ETH_SendFrame, wr_desc, rd_desc, wr_reg. mred. rewrite (txr_cursor _ _ _ _ Hr).
  repeat (progress (simplify_map_eq; mred)).
  cbn [set_descs descs set_regs set_tx_cursor set_cursors].
  repeat (progress (simplify_map_eq; mred; cbn [set_descs descs set_regs])).
  eexists. split; [reflexivity|]. cbn.
  split; [|split; [by rewrite lookup_insert_eq|]].
  - constructor; cbn; [unfold tx_next; zlia|done| |].
    + exists c'. rewrite !lookup_insert_ne by done. by rewrite Hnn.
    + rewrite Hnn. exists (Z.land len ETH_DMATxDesc_TBS1). by rewrite lookup_insert_eq.
  - repeat split. intros a Ha. cbn. by rewrite !lookup_insert_ne by (apply not_eq_sym; by apply Ha).
Qed.
End TxRing.

(** ** Initialisation *)

(** The linker keeps the two descriptor tables apart. *)
Class LayoutOk `{EthLayout} : Prop := {
  tables_apart : DMATxDscrTab + 32 <= DMARxDscrTab \/ DMARxDscrTab + 64 <= DMATxDscrTab
}.

Section Init.
Context {phy : Type}.
Abbreviation E := (eth phy).
Context (smi_read : Z -> Z -> phy -> option Z * phy)
        (smi_write : Z -> Z -> Z -> phy -> phy)
        (idle : Z -> E -> E).
Context `{LayoutOk}.

(** A computation that ends normally from every state. *)
Definition total {A} (m : M E A) : Prop := forall s, exists a s', m s = Done (a, s').

Lemma total_bind {A B} (m : M E A) (k : A -> M E B) :
  total m -> (forall a, total (k a)) -> total (m ≫= k).
Proof.
  intros Hm Hk s. destruct (Hm s) as (a & s1 & E1). destruct (Hk a s1) as (b & s2 & E2).
  exists b, s2. by erewrite bind_done.
Qed.
Lemma total_ret {A} (a : A) : total (mret a).
Proof. intros s. by eexists _, _. Qed.
Lemma total_modify f : total (modify f).
Proof. intros s. by eexists _, _. Qed.
Lemma total_gets {A} (f : E -> A) : total (gets f).
Proof. intros s. by eexists _, _. Qed.
Lemma total_get : total get.
Proof. intros s. by eexists _, _. Qed.
Lemma total_wr_reg r v : total (wr_reg r v).
Proof. apply total_modify. Qed.
Lemma total_rd_reg r : total (rd_reg r).
Proof. apply total_gets. Qed.
Lemma total_phy_read a r : total (ETH_ReadPHYRegister smi_read a r).
Proof.
  intros s. unfold ETH_ReadPHYRegister. mred. destruct (smi_read a r (ephy s)). by eexists _, _.
Qed.
Lemma total_phy_write a r v : total (ETH_WritePHYRegister smi_write a r v).
Proof. apply total_modify. Qed.

Lemma total_wait busy n : total busy -> total (wait_while idle n busy).
Proof.
  intros Hb. induction n as [|n IH]; cbn; [apply total_ret|].
  apply total_bind; [apply total_modify|]. intros _. destruct n; [apply total_ret|].
  apply total_bind; [done|]. intros []; [done|apply total_ret].
Qed.

#[local] Opaque wait_while.
#[local] Hint Resolve total_ret total_modify total_gets total_get total_wr_reg total_rd_reg
  total_phy_read total_phy_write : core.

Lemma total_RegInit a : total (ETH_RegInit smi_read smi_write idle a).
Proof.
  unfold ETH_RegInit. repeat (apply total_bind; [|intros _]); auto.
  apply total_wait, total_bind; auto.
Qed.

(** The station address as the two MAC registers hold it. *)
Definition mac_hi (m4 m5 : Z) : Z := m5 * 256 + m4.
Definition mac_lo (m0 m1 m2 m3 : Z) : Z := m0 + m1 * 256 + m2 * 65536 + m3 * 16777216.

Lemma mac_regs m0 m1 m2 m3 m4 m5 :
  is_u8 m0 -> is_u8 m1 -> is_u8 m2 -> is_u8 m3 -> is_u8 m4 -> is_u8 m5 ->
  u32 (Z.lor (Z.shiftl m5 8) m4) = mac_hi m4 m5 /\
  u32 (Z.lor (Z.lor (Z.lor m0 (Z.shiftl m1 8)) (Z.shiftl m2 16)) (Z.shiftl m3 24)) = mac_lo m0 m1 m2 m3.
Proof.
  unfold is_u8, mac_hi, mac_lo. intros. rewrite !Z.shiftl_mul_pow2 by lia.
  rewrite (Z.lor_comm m0), (Z.lor_comm _ (m2 * _)), (Z.lor_comm _ (m3 * _)).
  rewrite (lor_disjoint_add m1 m0 8), (lor_disjoint_add m5 m4 8) by lia.
  rewrite (lor_disjoint_add m2 _ 16) by lia. rewrite (lor_disjoint_add m3 _ 24) by lia.
  change (2 ^ 8) with 256. change (2 ^ 16) with 65536. change (2 ^ 24) with 16777216.
  rewrite !u32_small by (unfold is_u32; lia). lia.
Qed.

Lemma ETH_Configuration_run m0 m1 m2 m3 m4 m5 s :
  is_u8 m0 -> is_u8 m1 -> is_u8 m2 -> is_u8 m3 -> is_u8 m4 -> is_u8 m5 ->
  exists s', ETH_Configuration smi_read smi_write idle m0 m1 m2 m3 m4 m5 s = Done (tt, s') /\
    regs s' MACA0HR = mac_hi m4 m5 /\ regs s' MACA0LR = mac_lo m0 m1 m2 m3.
Proof.
  intros B0 B1 B2 B3 B4 B5. destruct (mac_regs m0 m1 m2 m3 m4 m5 B0 B1 B2 B3 B4 B5) as [Eh El].
  unfold ETH_Configuration, ETH_SoftwareReset, or_reg. rewrite Eh, El.
  erewrite bind_done by reflexivity. erewrite bind_done by reflexivity.
  assert (Hw : total (wait_while idle (Z.to_nat 10000) (v ← rd_reg DMABMR; mret (has v ETH_DMABMR_SR)))).
  { apply total_wait, total_bind; auto. }
  match goal with |- context [(_ ≫= _) ?s1] => destruct (Hw s1) as ([] & s2 & E2) end.
  erewrite bind_done by exact E2. erewrite bind_done by reflexivity.
  destruct (total_RegInit (gPHYAddress s2) s2) as (v & s3 & E3). erewrite bind_done by exact E3.
  eexists. split; [reflexivity|]. done.
Qed.

(** Look a descriptor up in the table the chain initialisation built. *)
Ltac find_desc :=
  cbn [descs set_descs set_regs set_rx_cursor set_cursors set_tx_cursor]; cbv [rx_addr tx_addr sizeof_desc ring_next tx_next rx_buf tx_buf];
  cbn -[Z.lor];
  repeat (rewrite lookup_insert;
          match goal with |- context [decide ?P] => destruct (decide P) end; try (exfalso; zlia));
  (reflexivity || (do 2 f_equal; try case_bool_decide; zlia)).

Lemma chains_run (s : E) :
  exists s', (ETH_DMATxDescChainInit DMATxDscrTab MACTxBuf ETH_TXBUFNB;;
      ETH_DMARxDescChainInit DMARxDscrTab MACRxBuf ETH_RXBUFNB;;
      modify (set_rx_cursor DMARxDscrTab)) s = Done (tt, s') /\
    rx_rep s' 0 [] /\
    tx_ring s' 0 (Z.lor ETH_DMATxDesc_TCH ETH_DMATxDesc_IC) (Z.lor ETH_DMATxDesc_TCH ETH_DMATxDesc_IC) /\
    LocalTime s' = LocalTime s /\ emem s' = emem s /\
    (forall r, r <> DMATDLAR -> r <> DMARDLAR -> regs s' r = regs s r).
Proof.
  eexists. split; [reflexivity|]. pose proof tables_apart as Hap.
  split; [|split; [|split; [done|split; [done|]]]].
  - exists (repeat ETH_DMARxDesc_OWN 4). split; [|split; [constructor|by repeat constructor]].
    constructor; [lia|done|cbn; unfold rx_addr, sizeof_desc; lia|].
    intros i st Hi. assert (i < 4)%nat by (apply lookup_lt_Some in Hi; done).
    assert (st = ETH_DMARxDesc_OWN) as -> by (eapply repeat_spec, list_elem_of_In, list_elem_of_lookup_2; exact Hi).
    exists (Z.lor ETH_DMARxDesc_RCH ETH_MAX_PACKET_SIZE).
    destruct i as [|[|[|[|i]]]]; [..|lia]; find_desc.
  - constructor; [lia|cbn; unfold tx_addr, sizeof_desc; lia| |]; eexists; find_desc.
  - intros r N1 N2. cbn. by repeat (case_decide; [congruence|]).
Qed.

Lemma ETH_Init_run m0 m1 m2 m3 m4 m5 s :
  is_u8 m0 -> is_u8 m1 -> is_u8 m2 -> is_u8 m3 -> is_u8 m4 -> is_u8 m5 ->
  exists s', ETH_Init smi_read smi_write idle m0 m1 m2 m3 m4 m5 s = Done (tt, s') /\
    rx_rep s' 0 [] /\
    tx_ring s' 0 (Z.lor ETH_DMATxDesc_TCH ETH_DMATxDesc_IC) (Z.lor ETH_DMATxDesc_TCH ETH_DMATxDesc_IC) /\
    regs s' MACA0HR = mac_hi m4 m5 /\ regs s' MACA0LR = mac_lo m0 m1 m2 m3 /\
    link_poll_time s' = u32 (LocalTime s' - PHY_LINK_TASK_PERIOD).
Proof.
  intros B0 B1 B2 B3 B4 B5. unfold ETH_Init, set_LinkSta, set_phy_link_state, vTaskDelay.
  do 3 (erewrite bind_done by reflexivity).
  match goal with |- context [(_ ≫= _) ?s1] =>
    destruct (ETH_Configuration_run m0 m1 m2 m3 m4 m5 s1 B0 B1 B2 B3 B4 B5) as (s2 & E2 & Hh & Hl) end.
  erewrite bind_done by exact E2. destruct (chains_run s2) as (s3 & E3 & Hrx & Htx & Ht & Hm & Hregs).
  apply bind_inv in E3 as ([] & s4 & E4 & E3). apply bind_inv in E3 as ([] & s5 & E5 & E3).
  erewrite bind_done by exact E4. erewrite bind_done by exact E5. erewrite bind_done by exact E3.
  do 2 (erewrite bind_done by reflexivity). eexists. split; [reflexivity|].
  split; [|split; [|split; [|split]]].
  - destruct Hrx as (tl & [A1 A2 A3 A4] & A5 & A6). by exists tl.
  - by destruct Htx as [A1 A2 A3 A4].
  - cbn. by rewrite Hregs.
  - cbn. by rewrite Hregs.
  - done.
Qed.

(** *** The link state machine *)

Lemma testbit_has x n : 0 <= n -> has x (Z.shiftl 1 n) = Z.testbit x n.
Proof.
  intros Hn. unfold has, nz. rewrite Z.shiftl_1_l, land_pow2 by done.
  destruct (Z.testbit x n); [|done]. by destruct (Z.eqb_spec (2 ^ n) 0); [lia|].
Qed.

Lemma testbit_bic x k n : 0 <= n < 32 -> Z.testbit (bic x (2 ^ k)) n = Z.testbit x n && negb (k =? n).
Proof.
  intros Hn. unfold bic, u32. rewrite Z.land_spec. change 4294967296 with (2 ^ 32).
  rewrite Z.mod_pow2_bits_low, Z.lnot_spec by lia. f_equal. f_equal.
  destruct (Z.leb_spec 0 k); [by rewrite Z.pow2_bits_eqb|].
  rewrite Z.pow_neg_r, Z.testbit_0_l by done. by destruct (Z.eqb_spec k n); [lia|].
Qed.

Lemma testbit_lor x k n : 0 <= k -> Z.testbit (Z.lor x (2 ^ k)) n = Z.testbit x n || (k =? n).
Proof. intros. by rewrite Z.lor_spec, Z.pow2_bits_eqb. Qed.

(** The bits of [MACCR] the link handling drives. *)
Definition link_bits (cr : Z) (te re speed duplex : bool) : Prop :=
  Z.testbit cr 3 = te /\ Z.testbit cr 2 = re /\ Z.testbit cr 14 = speed /\ Z.testbit cr 11 = duplex.

(** Only the registers differ. *)
Definition regs_only (s s' : E) : Prop := s' = set_regs (fun _ => regs s') s.

Lemma regs_only_trans s1 s2 s3 : regs_only s1 s2 -> regs_only s2 s3 -> regs_only s1 s3.
Proof. unfold regs_only. intros -> ->. done. Qed.

(** A read-modify-write of one register. *)
Definition updates (m : M E unit) (r : reg) (f : Z -> Z) : Prop :=
  forall s, exists s', m s = Done (tt, s') /\ regs_only s s' /\ regs s' r = f (regs s r) /\
    (forall r', r' <> r -> regs s' r' = regs s r').

Lemma or_reg_updates r v : r <> DMASR -> updates (or_reg r v) r (fun x => Z.lor x v).
Proof.
  intros Hr s. eexists. split; [reflexivity|]. split; [done|]. cbn.
  rewrite decide_True by done. rewrite decide_False by done. split; [done|].
  intros r' Hr'. by rewrite decide_False.
Qed.
Lemma and_not_reg_updates r v : r <> DMASR -> updates (and_not_reg r v) r (fun x => bic x v).
Proof.
  intros Hr s. eexists. split; [reflexivity|]. split; [done|]. cbn.
  rewrite decide_True by done. rewrite decide_False by done. split; [done|].
  intros r' Hr'. by rewrite decide_False.
Qed.

(** Computations that only touch registers, and what becomes of [MACCR]. *)
Definition on_maccr (m : M E unit) (f : Z -> Z) : Prop :=
  forall s, exists s', m s = Done (tt, s') /\ regs_only s s' /\ regs s' MACCR = f (regs s MACCR).

Lemma on_maccr_bind m k f g : on_maccr m f -> on_maccr k g -> on_maccr (m;; k) (fun x => g (f x)).
Proof.
  intros Hm Hk s. destruct (Hm s) as (s1 & E1 & R1 & F1). destruct (Hk s1) as (s2 & E2 & R2 & F2).
  exists s2. split; [by erewrite bind_done|]. split; [by eapply regs_only_trans|]. by rewrite F2, F1.
Qed.
Lemma on_maccr_self m f : updates m MACCR f -> on_maccr m f.
Proof. intros H1 s. destruct (H1 s) as (s' & ? & ? & ? & _). eauto. Qed.
Lemma on_maccr_other m r f : updates m r f -> r <> MACCR -> on_maccr m (fun x => x).
Proof. intros H1 Hr s. destruct (H1 s) as (s' & ? & ? & _ & Ho). exists s'. rewrite Ho by done. done. Qed.

Lemma ETH_Start_maccr : on_maccr ETH_Start (fun x => Z.lor (Z.lor x ETH_MACCR_TE) ETH_MACCR_RE).
Proof.
  unfold ETH_Start.
  apply (on_maccr_bind _ _ (fun x => Z.lor x ETH_MACCR_TE)
    (fun x => Z.lor x ETH_MACCR_RE)); [by apply on_maccr_self, or_reg_updates|].
  apply (on_maccr_bind _ _ (fun x => x) (fun x => Z.lor x ETH_MACCR_RE));
    [by eapply on_maccr_other; [apply or_reg_updates|]|].
  apply (on_maccr_bind _ _ (fun x => Z.lor x ETH_MACCR_RE) (fun x => x)); [by apply on_maccr_self, or_reg_updates|].
  apply (on_maccr_bind _ _ (fun x => x) (fun x => x)); by eapply on_maccr_other; [apply or_reg_updates|].
Qed.

Lemma ETH_Stop_maccr : on_maccr ETH_Stop (fun x => bic (bic x ETH_MACCR_TE) ETH_MACCR_RE).
Proof.
  unfold ETH_Stop.
  apply (on_maccr_bind _ _ (fun x => bic x ETH_MACCR_TE)
    (fun x => bic x ETH_MACCR_RE)); [by apply on_maccr_self, and_not_reg_updates|].
  apply (on_maccr_bind _ _ (fun x => x) (fun x => bic x ETH_MACCR_RE));
    [by eapply on_maccr_other; [apply or_reg_updates|]|].
  by apply on_maccr_self, and_not_reg_updates.
Qed.

(** The reconfiguration on a link-up edge. *)
Lemma link_up_maccr pscr :
  on_maccr ((if has pscr (Z.shiftl 1 3) then or_reg MACCR ETH_Speed_100M
             else and_not_reg MACCR ETH_Speed_100M);;
            (if has pscr (Z.shiftl 1 4) then or_reg MACCR ETH_Mode_FullDuplex
             else and_not_reg MACCR ETH_Mode_FullDuplex);;
            ETH_Start)
    (fun cr => Z.lor (Z.lor
      (if Z.testbit pscr 4
       then Z.lor (if Z.testbit pscr 3 then Z.lor cr ETH_Speed_100M else bic cr ETH_Speed_100M) ETH_Mode_FullDuplex
       else bic (if Z.testbit pscr 3 then Z.lor cr ETH_Speed_100M else bic cr ETH_Speed_100M) ETH_Mode_FullDuplex)
      ETH_MACCR_TE) ETH_MACCR_RE).
Proof.
  rewrite !testbit_has by lia.
  apply (on_maccr_bind _ _
    (fun cr => if Z.testbit pscr 3 then Z.lor cr ETH_Speed_100M else bic cr ETH_Speed_100M)
    (fun cr => Z.lor (Z.lor (if Z.testbit pscr 4 then Z.lor cr ETH_Mode_FullDuplex
                             else bic cr ETH_Mode_FullDuplex) ETH_MACCR_TE) ETH_MACCR_RE)).
  - destruct (Z.testbit pscr 3); by apply on_maccr_self; (apply or_reg_updates || apply and_not_reg_updates).
  - apply (on_maccr_bind _ _ (fun cr => if Z.testbit pscr 4 then Z.lor cr ETH_Mode_FullDuplex
       else bic cr ETH_Mode_FullDuplex) (fun x => Z.lor (Z.lor x ETH_MACCR_TE) ETH_MACCR_RE)); [|apply ETH_Start_maccr].
    destruct (Z.testbit pscr 4); by apply on_maccr_self; (apply or_reg_updates || apply and_not_reg_updates).
Qed.

(** What the PHY answers to two reads of BSR and one of PSCSR. *)
Definition bsr_of (s : E) : Z * phy :=
  let '(_, p) := smi_read (gPHYAddress s) PHY_BSR (ephy s) in
  let '(v, p) := smi_read (gPHYAddress s) PHY_BSR p in (u16 (default ETH_ERROR v), p).
Definition pscr_of (s : E) (p : phy) : Z :=
  u16 (default ETH_ERROR (smi_read (gPHYAddress s) LAN8720A_PSCR_REG p).1).

Definition due (s : E) : Prop := PHY_LINK_TASK_PERIOD <= u32 (LocalTime s - link_poll_time s).
#[local] Instance due_dec s : Decision (due s).
Proof. unfold due. apply _. Defined.

Definition bits_from (cr0 cr : Z) (te re speed duplex : bool) : Prop :=
  link_bits cr te re speed duplex /\
  (forall n, 0 <= n < 32 -> n <> 2 -> n <> 3 -> n <> 11 -> n <> 14 -> Z.testbit cr n = Z.testbit cr0 n).

Lemma maccr_up cr speed duplex :
  bits_from cr
    (Z.lor (Z.lor (if duplex : bool then Z.lor (if speed : bool then Z.lor cr ETH_Speed_100M else bic cr ETH_Speed_100M)
                             ETH_Mode_FullDuplex
                   else bic (if speed then Z.lor cr ETH_Speed_100M else bic cr ETH_Speed_100M)
                          ETH_Mode_FullDuplex) ETH_MACCR_TE) ETH_MACCR_RE)
    true true speed duplex.
Proof.
  change ETH_MACCR_RE with (2 ^ 2). change ETH_MACCR_TE with (2 ^ 3).
  change ETH_Speed_100M with (2 ^ 14). change ETH_Mode_FullDuplex with (2 ^ 11).
  split; [split; [|split; [|split]]|].
  1-4: destruct speed, duplex; repeat rewrite ?testbit_lor, ?testbit_bic by lia;
    cbn [Z.eqb Pos.eqb negb]; by rewrite ?orb_true_r, ?orb_false_r, ?andb_false_r, ?andb_true_r, ?orb_true_r.
  intros n Hn N2 N3 N11 N14.
  destruct speed, duplex; repeat rewrite ?testbit_lor, ?testbit_bic by lia;
    repeat (match goal with |- context [?a =? n] => destruct (Z.eqb_spec a n); [lia|] end);
    cbn [negb]; by rewrite ?andb_true_r, ?orb_false_r, ?andb_true_r, ?orb_false_r.
Qed.

Lemma maccr_down cr :
  link_bits (bic (bic cr ETH_MACCR_TE) ETH_MACCR_RE) false false (Z.testbit cr 14) (Z.testbit cr 11).
Proof.
  change ETH_MACCR_RE with (2 ^ 2). change ETH_MACCR_TE with (2 ^ 3).
  split; [|split; [|split]]; rewrite !testbit_bic by lia; cbn [Z.eqb Pos.eqb negb];
    by rewrite ?andb_false_r, ?andb_true_r.
Qed.

(** The rings, the buffers and the semaphores are as before. *)
Definition same_rings (s s' : E) : Prop :=
  descs s' = descs s /\ emem s' = emem s /\ pDMARxSet s' = pDMARxSet s /\
  DMATxDescToSet s' = DMATxDescToSet s /\ eth_rx_semaphore s' = eth_rx_semaphore s /\
  eth_tx_semaphore s' = eth_tx_semaphore s.

Lemma negotiation_run (s : E) : due s ->
  exists s', WCHNET_HandlePhyNegotiation smi_read s = Done (tt, s') /\ same_rings s s' /\
    let '(bsr, p) := bsr_of s in
    let up := Z.testbit bsr 2 in
    LinkSta s' = b2z up /\ phy_link_state s' = (if up then (if phy_link_state s =? 0 then 1 else phy_link_state s) else 0) /\
    link_poll_time s' = LocalTime s /\ LocalTime s' = LocalTime s /\
    (up = true -> phy_link_state s = 0 ->
       bits_from (regs s MACCR) (regs s' MACCR) true true
         (Z.testbit (pscr_of s p) 3) (Z.testbit (pscr_of s p) 4)) /\
    (up = false -> phy_link_state s <> 0 ->
       link_bits (regs s' MACCR) false false (Z.testbit (regs s MACCR) 14) (Z.testbit (regs s MACCR) 11)) /\
    (up = negb (phy_link_state s =? 0) -> regs s' MACCR = regs s MACCR).
Proof.
  intros Hd. unfold due in Hd. unfold WCHNET_HandlePhyNegotiation, bsr_of, pscr_of. mred.
  destruct (Z.ltb_spec (u32 (LocalTime s - link_poll_time s)) PHY_LINK_TASK_PERIOD); [lia|].
  unfold ETH_ReadPHYRegister, set_link_poll_time. mred. cbn [gPHYAddress set_link ephy set_ephy].
  destruct (smi_read (gPHYAddress s) PHY_BSR (ephy s)) as [v1 p1]. cbn [gPHYAddress set_link ephy set_ephy].
  destruct (smi_read (gPHYAddress s) PHY_BSR p1) as [v2 p2].
  set (bsr := u16 (default ETH_ERROR v2)).
  replace (match v2 with Some v => u16 v | None => u16 ETH_ERROR end) with bsr by (by destruct v2).
  change PHY_Linked_Status with (Z.shiftl 1 2). rewrite testbit_has by lia.
  set (s1 := set_ephy p2 _). destruct (Z.testbit bsr 2) eqn:Eb,
    (Z.eqb_spec (phy_link_state s) 0) as [E0|E0]; cbn [negb]; cbv beta iota; cbn [ephy set_ephy].
  - change (ephy s1) with p2.
    destruct (smi_read (gPHYAddress s) LAN8720A_PSCR_REG p2) as [v3 p3].
    set (pscr := u16 (default ETH_ERROR v3)).
    replace (match v3 with Some v => u16 v | None => u16 ETH_ERROR end) with pscr by (by destruct v3).
    destruct (link_up_maccr pscr (set_link (gPHYAddress s) (LocalTime s) (LocalTime s) 1 (LinkSta s)
      (set_ephy p3 s1))) as (s' & Hrun & Ho & Hcr). mred in Hrun.
    unfold set_phy_link_state. mred. unfold s1 in Hrun |- *. cbn in Hrun |- *. rewrite Hrun. mred.
    eexists. split; [reflexivity|]. unfold regs_only in Ho. rewrite Ho. cbn. rewrite Ho in Hcr. cbn in Hcr.
    rewrite Hcr. do 5 (split; [done|]). split; [intros _ _; apply maccr_up|done].
  - eexists. split; [reflexivity|]. by do 7 (split; [done|]).
  - eexists. split; [reflexivity|]. do 7 (split; [done|]). done.
  - destruct (ETH_Stop_maccr (set_link (gPHYAddress s) (LocalTime s) (LocalTime s) 0 (LinkSta s) s1))
      as (s' & Hrun & Ho & Hcr). unfold set_phy_link_state. mred. unfold s1 in Hrun |- *. cbn in Hrun |- *.
    rewrite Hrun. eexists. split; [reflexivity|]. unfold regs_only in Ho. rewrite Ho. cbn. rewrite Ho in Hcr.
    cbn in Hcr. rewrite Hcr. do 6 (split; [done|]). split; [|done]. intros _ _. apply maccr_down.
Qed.

Lemma negotiation_total (s : E) :
  exists s', WCHNET_HandlePhyNegotiation smi_read s = Done (tt, s') /\ same_rings s s'.
Proof.
  destruct (decide (due s)) as [Hd|Hd].
  - destruct (negotiation_run s Hd) as (s' & Hrun & Hs & _). by exists s'.
  - exists s. unfold WCHNET_HandlePhyNegotiation. mred. unfold due in Hd.
    destruct (Z.ltb_spec (u32 (LocalTime s - link_poll_time s)) PHY_LINK_TASK_PERIOD); [done|lia].
Qed.

(** *** The interrupt service routine *)

Lemma u32_land x : u32 x = Z.land x (Z.ones 32).
Proof. symmetry. apply (Z.land_ones x 32). lia. Qed.

Lemma bic_bic x a b : bic (bic x a) b = bic x (Z.lor a b).
Proof.
  unfold bic. rewrite !u32_land, Z.lnot_lor. apply Z.bits_inj'. intros n Hn. rewrite !Z.land_spec.
  destruct (Z.testbit x n), (Z.testbit (Z.lnot a) n), (Z.testbit (Z.lnot b) n),
    (Z.testbit (Z.ones 32) n); done.
Qed.

(** The status bits the routine has seen and acknowledges. *)
Definition acked (st : Z) : Z :=
  Z.lor (if has st ETH_DMA_IT_AIS
         then Z.lor (if has st ETH_DMA_IT_RBU then ETH_DMA_IT_RBU else 0) ETH_DMA_IT_AIS else 0)
        (if has st ETH_DMA_IT_NIS
         then Z.lor (Z.lor (if has st ETH_DMA_IT_R then ETH_DMA_IT_R else 0)
                           (if has st ETH_DMA_IT_T then ETH_DMA_IT_T else 0)) ETH_DMA_IT_NIS else 0).

Lemma bic_0 x : is_u32 x -> bic x 0 = x.
Proof. intros Hx. change (bic x 0) with (Z.land x (Z.ones 32)). rewrite <- u32_land. by apply u32_small. Qed.

Lemma WCHNET_ETHIsr_run (s : E) n m :
  eth_rx_semaphore s = Some n -> eth_tx_semaphore s = Some m -> is_u32 (regs s DMASR) ->
  let st := regs s DMASR in
  exists s', WCHNET_ETHIsr s = Done (tt, s') /\
    regs s' DMASR = bic st (acked st) /\
    eth_rx_semaphore s' = Some (if has st ETH_DMA_IT_NIS && has st ETH_DMA_IT_R then 1 else n) /\
    eth_tx_semaphore s' = Some (if has st ETH_DMA_IT_NIS && has st ETH_DMA_IT_T then 1 else m) /\
    descs s' = descs s /\ emem s' = emem s.
Proof.
  destruct s as [rg ds em c1 c2 c3 c4 pa lt lp pl ls rs ts ph]. cbn [eth_rx_semaphore eth_tx_semaphore regs].
  intros -> -> Hu. set (st := rg DMASR) in *. unfold WCHNET_ETHIsr, acked.
  erewrite bind_done by reflexivity. cbn [regs]. fold st in Hu |- *.
  assert (H0' : bic st 0 = st) by (by apply bic_0).
  destruct (has st ETH_DMA_IT_AIS), (has st ETH_DMA_IT_RBU), (has st ETH_DMA_IT_NIS),
    (has st ETH_DMA_IT_R), (has st ETH_DMA_IT_T); cbn [andb];
    (eexists; split; [reflexivity|]; cbn -[bic Z.lor];
     split; [|done]; repeat first [rewrite decide_True by done|rewrite decide_False by done];
     fold st; rewrite ?bic_bic; try done; try (symmetry; exact H0')).
Qed.

(** *** Properties *)

(** Whatever the hardware does during its bounded waits, [ETH_Init]
    returns with the receive ring empty and owned by the DMA, both transmit
    descriptors free, the station address in the MAC registers and a link poll
    due at once. *)
Theorem ETH_Init_prepares_rings m0 m1 m2 m3 m4 m5 s :
  is_u8 m0 -> is_u8 m1 -> is_u8 m2 -> is_u8 m3 -> is_u8 m4 -> is_u8 m5 ->
  exists s', ETH_Init smi_read smi_write idle m0 m1 m2 m3 m4 m5 s = Done (tt, s') /\
    rx_rep s' 0 [] /\
    (exists st0 st1, tx_ring s' 0 st0 st1 /\ tx_owned st0 = false /\ tx_owned st1 = false) /\
    regs s' MACA0HR = mac_hi m4 m5 /\ regs s' MACA0LR = mac_lo m0 m1 m2 m3 /\
    (is_u32 (LocalTime s') -> due s').
Proof.
  intros B0 B1 B2 B3 B4 B5.
  destruct (ETH_Init_run m0 m1 m2 m3 m4 m5 s B0 B1 B2 B3 B4 B5) as (s' & Hrun & Hrx & Htx & Hh & Hl & Hp).
  exists s'. split; [done|]. split; [done|]. split; [by eexists _, _|]. split; [done|]. split; [done|].
  intros Ht. unfold due. rewrite Hp. unfold PHY_LINK_TASK_PERIOD. zlia.
Qed.

(** When a poll is due, [WCHNET_HandlePhyNegotiation] makes [LinkSta] the
    link bit of the second read of BSR; on a link-up edge it sets speed and duplex
    of the MAC from PSCSR bits 3 and 4 and enables it, on a link-down edge it
    disables it, and without an edge it leaves [MACCR] alone. *)
Theorem negotiation_tracks_link (s : E) : due s ->
  exists s', WCHNET_HandlePhyNegotiation smi_read s = Done (tt, s') /\ same_rings s s' /\
    let '(bsr, p) := bsr_of s in
    let up := Z.testbit bsr 2 in
    LinkSta s' = b2z up /\ phy_link_state s' = (if up then (if phy_link_state s =? 0 then 1 else phy_link_state s) else 0) /\
    link_poll_time s' = LocalTime s /\ LocalTime s' = LocalTime s /\
    (up = true -> phy_link_state s = 0 ->
       bits_from (regs s MACCR) (regs s' MACCR) true true
         (Z.testbit (pscr_of s p) 3) (Z.testbit (pscr_of s p) 4)) /\
    (up = false -> phy_link_state s <> 0 ->
       link_bits (regs s' MACCR) false false (Z.testbit (regs s MACCR) 14) (Z.testbit (regs s MACCR) 11)) /\
    (up = negb (phy_link_state s =? 0) -> regs s' MACCR = regs s MACCR).
Proof. apply negotiation_run. Qed.

(** The interrupt routine acknowledges exactly the summary and cause bits
    it has seen, and gives the receive (transmit) semaphore exactly when a
    receive (transmit) interrupt is pending. *)
Theorem WCHNET_ETHIsr_acknowledges (s : E) n m :
  eth_rx_semaphore s = Some n -> eth_tx_semaphore s = Some m -> is_u32 (regs s DMASR) ->
  let st := regs s DMASR in
  exists s', WCHNET_ETHIsr s = Done (tt, s') /\
    regs s' DMASR = bic st (acked st) /\
    eth_rx_semaphore s' = Some (if has st ETH_DMA_IT_NIS && has st ETH_DMA_IT_R then 1 else n) /\
    eth_tx_semaphore s' = Some (if has st ETH_DMA_IT_NIS && has st ETH_DMA_IT_T then 1 else m) /\
    descs s' = descs s /\ emem s' = emem s.
Proof. apply WCHNET_ETHIsr_run. Qed.
End Init.

Create HintDb total.
#[export] Hint Resolve total_bind total_ret total_modify total_gets total_get total_wr_reg
  total_phy_read total_phy_write total_wait : total.

(** ** The properties on a concrete board *)

Module Board.
Definition layout : EthLayout :=
  Build_EthLayout 536874240 536874176 536875008 536883200.
#[local] Existing Instance layout.
Lemma layout_ok : LayoutOk.
Proof. constructor. cbn. lia. Qed.
#[local] Existing Instance layout_ok.

(** A PHY that reports a 100M full-duplex link; hardware that stays idle. *)
Definition smi_read (_ r : Z) (p : unit) : option Z * unit :=
  (Some (if r =? PHY_BSR then 4 else if r =? LAN8720A_PSCR_REG then 24 else 0), p).
Definition smi_write (_ _ _ : Z) (p : unit) : unit := p.
Definition idle (_ : Z) (s : eth unit) : eth unit := s.

Definition start : eth unit :=
  mkEth (fun _ => 0) ∅ (map_block (map_block ∅ MACTxBuf 3048) MACRxBuf 6096)
    0 0 0 0 0 100 0 0 0 (Some 0) (Some 0) tt.
Definition pending : eth unit := set_regs (fun f r => if decide (r = DMASR) then 65601 else f r) start.
End Board.
#[local] Existing Instance Board.layout.
#[local] Existing Instance Board.layout_ok.

Lemma ETH_Init_prepares_rings_witness :
  exists s', ETH_Init Board.smi_read Board.smi_write Board.idle 4 191 27 17 34 51 Board.start = Done (tt, s') /\
    rx_rep s' 0 [] /\ regs s' MACA0HR = 13090.
Proof.
  destruct (ETH_Init_prepares_rings Board.smi_read Board.smi_write Board.idle 4 191 27 17 34 51 Board.start)
    as (s' & H1 & H2 & _ & H3 & _); [by_decision..|].
  exists s'. split; [exact H1|]. split; [exact H2|exact H3].
Defined.

Lemma negotiation_tracks_link_witness :
  exists s', WCHNET_HandlePhyNegotiation Board.smi_read Board.start = Done (tt, s') /\ LinkSta s' = 1 /\
    Z.testbit (regs s' MACCR) 14 = true.
Proof.
  destruct (negotiation_tracks_link Board.smi_read Board.start) as (s' & H1 & _ & H2 & _ & _ & _ & H3 & _).
  - unfold due. vm_compute. discriminate.
  - exists s'. split; [exact H1|]. split; [exact H2|].
    destruct (H3 eq_refl eq_refl) as [(_ & _ & H4 & _) _]. exact H4.
Defined.

Lemma WCHNET_ETHIsr_acknowledges_witness :
  exists s', WCHNET_ETHIsr Board.pending = Done (tt, s') /\ regs s' DMASR = 0 /\
    eth_rx_semaphore s' = Some 1 /\ eth_tx_semaphore s' = Some 1.
Proof.
  destruct (WCHNET_ETHIsr_acknowledges Board.pending 0 0) as (s' & H1 & H2 & H3 & H4 & _);
    [reflexivity|reflexivity|by_decision|].
  exists s'. split; [exact H1|]. split; [exact H2|]. split; [exact H3|exact H4].
Defined.
