(* ===== verification/EthernetIf.v ===== *)
(** LWIP_PORT/ethernetif.c: the network interface between the driver rings and
    lwIP.  A pbuf chain is the list of the payloads of its pbufs; whether
    [pbuf_alloc] and [netif->input] succeed is an argument of the operations. *)
From S2P Require Import Prelude CMem EthDriver.

Definition pdMS_TO_TICKS (ms : Z) : Z := u32 (ms * 500) / 1000.

Section If.
Context {phy : Type} `{EthLayout}.
Abbreviation E := (eth phy).
Context (idle : Z -> E -> E).

(** The functions an interface's [output] and [linkoutput] point to. *)
Inductive outfn := No_output | Etharp_output | Low_level_output.

Record netif := mkNetif {
  hwaddr : list Z;
  hwaddr_len : Z;
  mtu : Z;
  flags : Z;
  name : Z * Z;
  output : outfn;
  linkoutput : outfn
}.

Definition low_level_init (n : netif) : netif :=
  mkNetif (hwaddr n) 6 1500 (Z.lor (Z.lor 2 8) 16) (101, 110) (output n) (linkoutput n).

Definition ethernetif_init (n : netif) : Z * netif :=
  let n := mkNetif (hwaddr n) (hwaddr_len n) (mtu n) (flags n) (101, 110)
             Etharp_output Low_level_output in
  (ERR_OK, low_level_init n).

(** The copy loop over the chain. *)
Fixpoint copy_segs (dst off : Z) (segs : list (list Z)) : M E unit :=
  match segs with
  | [] => mret tt
  | q :: r =>
      s ← get;
      m ← of_option (store_bytes (emem s) (dst + off) q);
      put (set_emem m s);;
      copy_segs dst (u16 (off + u16 (Z.of_nat (length q)))) r
  end.

Definition low_level_output (tot_len : Z) (segs : list (list Z)) : M E Z :=
  if ETH_MAX_PACKET_SIZE <? tot_len then mret ERR_MEM
  else
    dst ← ETH_GetTxBuf;
    dst ← (if dst =? 0 then
             taken ← tx_take idle (pdMS_TO_TICKS 50);
             if (taken : bool) then ETH_GetTxBuf else mret dst
           else mret dst);
    if dst =? 0 then mret ERR_IF
    else
      copy_segs dst 0 segs;;
      ETH_SendFrame tot_len;;
      mret ERR_OK.

(** Four descriptors are peeked at most. *)
Definition rx_fuel : nat := S ETH_RXBUFNB.

(** [alloc] is the success of [pbuf_alloc]; the result is the frame, or [None]
    for NULL. *)
Definition low_level_input (alloc : bool) : M E (option (list Z)) :=
  r ← ETH_RecPeek rx_fuel;
  match r with
  | None => mret None
  | Some (src, len) =>
      p ← (if alloc then
             s ← get;
             bs ← of_option (load_bytes (emem s) src (Z.to_nat len));
             mret (Some bs)
           else mret None);
      ETH_RecFree;;
      mret p
  end.

(** The drain loop: the frames given to [netif->input], in order.  [allocs] are
    the successive results of [pbuf_alloc]. *)
Fixpoint input_loop (fuel : nat) (allocs : list bool) : M E (list (list Z)) :=
  match fuel with
  | O => stop_ NoFuel
  | S fuel =>
      p ← low_level_input (default false (head allocs));
      match p with
      | None => mret []
      | Some f => fs ← input_loop fuel (tail allocs); mret (f :: fs)
      end
  end.

Definition ethernetif_input (allocs : list bool) : M E (list (list Z)) :=
  rx_take idle (pdMS_TO_TICKS 10);;
  input_loop rx_fuel allocs.

(** ** Transmission *)

Lemma copy_segs_run segs s dst off :
  0 <= off -> mapped (emem s) (dst + off) (Z.of_nat (length (concat segs))) ->
  off + Z.of_nat (length (concat segs)) < 65536 ->
  exists m, store_bytes (emem s) (dst + off) (concat segs) = Some m /\
    copy_segs dst off segs s = Done (tt, set_emem m s).
Proof.
  revert s off. induction segs as [|q segs IH]; intros s off Ho Hm Hl; cbn [concat copy_segs].
  - exists (emem s). split; [done|]. by destruct s.
  - cbn [concat] in Hm, Hl. rewrite length_app in Hm, Hl. rewrite store_bytes_app.
    destruct (store_bytes_mapped (emem s) (dst + off) q) as (m1 & Hm1 & _);
      [eapply mapped_sub; [exact Hm|lia|lia]|]. rewrite Hm1. cbn [mbind option_bind].
    mred. rewrite Hm1. rewrite (u16_small (Z.of_nat _)), u16_small by zlia.
    destruct (IH (set_emem m1 s) (off + Z.of_nat (length q))) as (m2 & Hm2 & Hrun); cbn [set_emem emem].
    + lia.
    + eapply mapped_store; [exact Hm1|]. eapply mapped_sub; [exact Hm|lia|lia].
    + lia.
    + exists m2. cbn in Hm2. rewrite Z.add_assoc in Hm2. split; [done|]. exact Hrun.
Qed.

(** The transmit buffers are mapped and lie in the address space. *)
Definition tx_mem (s : E) : Prop :=
  0 < MACTxBuf /\ mapped (emem s) MACTxBuf (2 * ETH_MAX_PACKET_SIZE).

Lemma land_TBS1 len : 0 <= len <= ETH_MAX_PACKET_SIZE -> Z.land len ETH_DMATxDesc_TBS1 = len.
Proof.
  unfold ETH_MAX_PACKET_SIZE. intros Hl. change ETH_DMATxDesc_TBS1 with (Z.ones 13).
  rewrite Z.land_ones by lia. apply Z.mod_small. change (2 ^ 13) with 8192. lia.
Qed.

(** The frame handed to the DMA: descriptor [t] holds it. *)
Definition frame_sent (s s' : E) (t st0 : Z) (frame : list Z) : Prop :=
  descs s' !! tx_addr t = Some (mkDesc (sent st0) (Z.of_nat (length frame)) (tx_buf t) (tx_addr (tx_next t))) /\
  load_bytes (emem s') (tx_buf t) (length frame) = Some frame /\
  (forall x, x < tx_buf t \/ tx_buf t + ETH_MAX_PACKET_SIZE <= x -> emem s' !! x = emem s !! x) /\
  (forall a, (forall i, 0 <= i < 2 -> a <> tx_addr i) -> descs s' !! a = descs s !! a).

Lemma send_run s t st0 st1 tot_len segs :
  tx_ring s t st0 st1 -> tx_mem s -> tot_len = Z.of_nat (length (concat segs)) ->
  tot_len <= ETH_MAX_PACKET_SIZE ->
  exists s', (copy_segs (tx_buf t) 0 segs;; ETH_SendFrame tot_len;; mret ERR_OK) s = Done (ERR_OK, s') /\
    tx_ring s' (tx_next t) st1 (sent st0) /\ tx_mem s' /\ frame_sent s s' t st0 (concat segs).
Proof.
  intros Hr [Hp Hm] Hl Hmax. pose proof (txr_idx _ _ _ _ Hr) as Hi.
  unfold ETH_MAX_PACKET_SIZE in *.
  assert (Hmt : mapped (emem s) (tx_buf t + 0) (Z.of_nat (length (concat segs)))).
  { eapply mapped_sub; [exact Hm|unfold tx_buf, ETH_MAX_PACKET_SIZE; lia..]. }
  destruct (copy_segs_run segs s (tx_buf t) 0 ltac:(lia) Hmt ltac:(lia)) as (m & Hst & Hrun).
  assert (Hr1 : tx_ring (set_emem m s) t st0 st1) by (by destruct Hr).
  destruct (ETH_SendFrame_run (set_emem m s) t st0 st1 tot_len Hr1) as (s' & Hrun2 & Hr2 & Hd & Ho).
  exists s'. split; [erewrite bind_done by exact Hrun; by erewrite bind_done by exact Hrun2|].
  destruct Ho as (Hem & _ & _ & _ & Hod). cbn in Hem. rewrite Z.add_0_r in Hst.
  split; [done|]. split; [split; [done|rewrite Hem; eapply mapped_store; [exact Hst|exact Hm]]|].
  split; [|split; [|split]].
  - rewrite Hd. rewrite land_TBS1 by (unfold ETH_MAX_PACKET_SIZE; lia). by rewrite Hl.
  - rewrite Hem. by eapply store_load.
  - intros x Hx. rewrite Hem. eapply store_bytes_frame; [exact Hst|].
    unfold ETH_MAX_PACKET_SIZE in Hx. lia.
  - exact Hod.
Qed.

Lemma tx_buf_pos s t : tx_mem s -> 0 <= t -> tx_buf t <> 0.
Proof. intros [Hp _] Ht. unfold tx_buf, ETH_MAX_PACKET_SIZE. lia. Qed.

Lemma low_level_output_run s t st0 st1 tot_len segs :
  tx_ring s t st0 st1 -> tx_mem s -> tot_len = Z.of_nat (length (concat segs)) ->
  tot_len <= ETH_MAX_PACKET_SIZE -> tx_owned st0 = false ->
  exists s', low_level_output tot_len segs s = Done (ERR_OK, s') /\
    tx_ring s' (tx_next t) st1 (sent st0) /\ tx_mem s' /\ frame_sent s s' t st0 (concat segs).
Proof.
  intros Hr Hm Hl Hmax Hf. unfold low_level_output.
  destruct (Z.ltb_spec ETH_MAX_PACKET_SIZE tot_len); [lia|].
  erewrite bind_done by (by eapply ETH_GetTxBuf_run). rewrite Hf.
  pose proof (tx_buf_pos s t Hm ltac:(pose proof (txr_idx _ _ _ _ Hr); lia)).
  destruct (Z.eqb_spec (tx_buf t) 0) as [|_]; [done|]. erewrite bind_done by reflexivity.
  destruct (Z.eqb_spec (tx_buf t) 0) as [|_]; [done|]. by apply send_run.
Qed.

Lemma low_level_output_waits s t st0 st1 tot_len segs :
  tx_ring s t st0 st1 -> tx_owned st0 = true -> eth_tx_semaphore s = Some 0 ->
  tot_len <= ETH_MAX_PACKET_SIZE ->
  let w := idle 25 s in
  low_level_output tot_len segs s =
  match eth_tx_semaphore w with
  | Some n => if 0 <? n then
      (dst ← ETH_GetTxBuf;
       if dst =? 0 then mret ERR_IF
       else copy_segs dst 0 segs;; ETH_SendFrame tot_len;; mret ERR_OK)
        (set_sems (eth_rx_semaphore w) (Some 0) w)
      else Done (ERR_IF, w)
  | None => Done (ERR_IF, w)
  end.
Proof.
  intros Hr Ho Hs Hmax w. unfold low_level_output.
  destruct (Z.ltb_spec ETH_MAX_PACKET_SIZE tot_len); [lia|].
  erewrite bind_done by (by eapply ETH_GetTxBuf_run). rewrite Ho. cbn [Z.eqb].
  unfold tx_take, mbind, M_bind, get. rewrite Hs. cbn [Z.ltb Z.compare].
  change (pdMS_TO_TICKS 50) with 25. unfold modify. fold w.
  destruct (eth_tx_semaphore w) as [n|] eqn:Ew; [|done].
  destruct (0 <? n); [|done]. unfold put, mret, M_ret. cbv beta iota.
  by destruct (ETH_GetTxBuf _) as [[? ?]|?].
Qed.

(** ** Reception *)

(** A frame in the ring: the status the DMA wrote and all its bytes, the CRC
    included. *)
Abbreviation frame := (Z * list Z)%type.
Definition frame_ok (f : frame) : Prop :=
  owned f.1 = false /\ Z.of_nat (length f.2) <= ETH_MAX_PACKET_SIZE /\
  (good f.1 = true -> frame_len f.1 = Z.of_nat (length f.2) /\ (4 <= length f.2)%nat).
Definition frame_data (f : frame) : list Z := take (length f.2 - 4) f.2.

(** What the DMA engine does with an arriving frame when its next descriptor is
    [i]: it fills a descriptor it owns and moves on, or misses the frame. *)
Definition dma_arrive (i : Z) (f : frame) : M E Z :=
  d ← rd_desc (rx_addr i);
  if owned (Status d) then
    s ← get;
    m ← of_option (store_bytes (emem s) (Buffer1Addr d) f.2);
    put (set_emem m (set_descs (<[rx_addr i := set_Status f.1 d]> (descs s)) s));;
    mret (ring_next i)
  else mret i.

(** The specification: a queue of at most four frames. *)
Definition q_arrive (f : frame) (q : list frame) : list frame :=
  if bool_decide (length q < 4)%nat then q ++ [f] else q.
Fixpoint q_good (q : list frame) : list frame :=
  match q with
  | [] => []
  | f :: r => if good f.1 then q else q_good r
  end.
Fixpoint q_drain (allocs : list bool) (q : list frame) : list (list Z) * list frame :=
  match q_good q with
  | [] => ([], [])
  | f :: r => match allocs with
              | true :: allocs => let '(fs, q) := q_drain allocs r in (frame_data f :: fs, q)
              | _ => ([], r)
              end
  end.

(** The ring holds the queue [q] and the DMA continues at [i]. *)
Definition rx_queue (s : E) (i : Z) (q : list frame) : Prop :=
  exists r, rx_rep s r (map fst q) /\ i = (r + Z.of_nat (length q)) mod 4 /\ Forall frame_ok q /\
    mapped (emem s) MACRxBuf (4 * ETH_MAX_PACKET_SIZE) /\
    (forall k f, q !! k = Some f ->
       load_bytes (emem s) (rx_buf ((r + Z.of_nat k) mod 4)) (length f.2) = Some f.2).

Lemma q_good_drop q : q_good q = drop (bad_count (map fst q)) q.
Proof. induction q as [|f q IH]; cbn; [done|]. destruct (good f.1); [done|]. by rewrite IH. Qed.

Lemma q_good_head q f r : q_good q = f :: r -> good f.1 = true.
Proof.
  induction q as [|g q IH]; cbn; [done|]. destruct (good g.1) eqn:E; [by intros [= <- _]|done].
Qed.

Lemma rx_rep_len (s : E) r pend : rx_rep s r pend -> (length pend <= 4)%nat /\ 0 <= r < 4.
Proof.
  intros (tail & Hg & _). pose proof (ring_len _ _ _ Hg) as Hl. pose proof (ring_idx _ _ _ Hg).
  rewrite length_app in Hl. lia.
Qed.

Lemma bad_count_le pend : (bad_count pend <= length pend)%nat.
Proof. induction pend as [|st p IH]; cbn; [lia|]. destruct (good st); lia. Qed.

Lemma peek_queue s i q : rx_queue s i q ->
  exists s' r, ETH_RecPeek rx_fuel s = Done (peeked r (map fst (q_good q)), s') /\
    rx_queue s' i (q_good q) /\ rx_rep s' r (map fst (q_good q)) /\ emem s' = emem s /\
    (forall f q', q_good q = f :: q' -> good f.1 = true /\
       load_bytes (emem s') (rx_buf r) (length f.2) = Some f.2 /\ rx_queue s' i (f :: q')).
Proof.
  intros (r & Hr & Hi & Hok & Hmap & Hby). destruct (rx_rep_len _ _ _ Hr) as [Hl4 Hrr].
  rewrite length_map in Hl4. pose proof (bad_count_le (map fst q)) as Hbc. rewrite length_map in Hbc.
  destruct (ETH_RecPeek_run s r (map fst q) rx_fuel Hr) as (s' & Hrun & Hr' & Ho).
  { rewrite length_map. unfold rx_fuel, ETH_RXBUFNB. lia. }
  set (k := bad_count (map fst q)) in *. rewrite skipn_map in Hrun, Hr'.
  destruct Ho as (Hem & _).
  assert (Hq' : rx_queue s' i (drop k q)).
  { exists ((r + Z.of_nat k) mod 4). split; [done|]. rewrite length_drop, Hem.
    split; [rewrite Hi, Zplus_mod_idemp_l; f_equal; lia|]. split; [by apply Forall_drop|]. split; [done|].
    intros j f Hj. rewrite lookup_drop in Hj. rewrite <- (Hby _ _ Hj), Zplus_mod_idemp_l. do 3 f_equal. lia. }
  exists s', ((r + Z.of_nat k) mod 4). rewrite q_good_drop. fold k. split; [done|]. split; [done|].
  split; [done|]. split; [done|]. intros f q' Hfq. rewrite Hfq in Hq'. split; [|split; [|done]].
  - unfold k in Hfq. rewrite <- (q_good_drop q) in Hfq. by eapply q_good_head.
  - rewrite Hem, <- (Hby k f); [done|].
    assert (E0 : drop k q !! 0%nat = Some f) by (by rewrite Hfq). rewrite lookup_drop in E0.
    by rewrite Nat.add_0_r in E0.
Qed.

Lemma low_level_input_none s i q alloc : rx_queue s i q -> q_good q = [] ->
  exists s', low_level_input alloc s = Done (None, s') /\ rx_queue s' i [].
Proof.
  intros Hq Hn. destruct (peek_queue _ _ _ Hq) as (s' & r & Hrun & Hq' & _).
  rewrite Hn in Hrun, Hq'. exists s'. unfold low_level_input. by erewrite bind_done by exact Hrun.
Qed.

(** Handing the oldest frame back to the DMA. *)
Lemma free_queue s i r f q : rx_queue s i (f :: q) -> rx_rep s r (map fst (f :: q)) ->
  exists s', ETH_RecFree s = Done (tt, s') /\ rx_queue s' i q.
Proof.
  intros (r' & Hr' & Hi & Hok & Hmap & Hby) Hr.
  assert (r' = r) as ->.
  { destruct Hr as (t1 & G1 & _), Hr' as (t2 & G2 & _).
    pose proof (ring_cursor _ _ _ G1) as C1. rewrite (ring_cursor _ _ _ G2) in C1. by apply rx_addr_inj. }
  destruct (ETH_RecFree_run _ _ _ _ Hr) as (s' & Hrun & Hr2 & Hem & _). exists s'. split; [done|].
  pose proof (rx_rep_len _ _ _ Hr) as [_ Hrr]. cbn [length] in Hi.
  exists (ring_next r). split; [done|]. rewrite Hem.
  assert (Hmod : forall k, (ring_next r + Z.of_nat k) mod 4 = (r + Z.of_nat (S k)) mod 4).
  { intros k. unfold ring_next. rewrite Zplus_mod_idemp_l. f_equal. lia. }
  split; [by rewrite Hmod|]. split; [by inversion Hok|]. split; [done|].
  intros k g Hk. rewrite Hmod. by apply Hby.
Qed.

Lemma low_level_input_some s i q alloc f q' : rx_queue s i q -> q_good q = f :: q' ->
  exists s', low_level_input alloc s = Done (if alloc then Some (frame_data f) else None, s') /\
    rx_queue s' i q'.
Proof.
  intros Hq Hn. destruct (peek_queue _ _ _ Hq) as (s1 & r & Hrun & Hq1 & Hr1 & _ & Hh).
  destruct (Hh f q' Hn) as (Hg & Hld & Hq2). rewrite Hn in Hrun, Hr1.
  destruct (free_queue _ _ _ _ _ Hq2 Hr1) as (s2 & Hrun2 & Hq3).
  exists s2. split; [|done]. unfold low_level_input. erewrite bind_done by exact Hrun.
  pose proof Hq2 as (_ & _ & _ & Hok & _). apply Forall_cons in Hok as [(_ & Hle & Hgl) _].
  destruct (Hgl Hg) as [Hfl Hge]. unfold ETH_MAX_PACKET_SIZE in Hle. cbn [peeked map].
  rewrite Hfl, u16_small by zlia.
  replace (Z.to_nat (Z.of_nat (length f.2) - 4)) with (length f.2 - 4)%nat by lia.
  destruct alloc.
  - erewrite bind_done; [by erewrite bind_done by exact Hrun2|].
    unfold mbind, M_bind, get. by rewrite (load_bytes_take _ _ _ _ _ Hld) by lia.
  - erewrite bind_done by reflexivity. by erewrite bind_done by exact Hrun2.
Qed.

Lemma q_good_length q f r : q_good q = f :: r -> (length r < length q)%nat.
Proof.
  induction q as [|g q IH]; cbn; [done|]. destruct (good g.1); [intros [= _ ->]; lia|].
  intros Hq. specialize (IH Hq). lia.
Qed.

Lemma input_loop_run fuel allocs s i q : rx_queue s i q -> (length q < fuel)%nat ->
  exists s', input_loop fuel allocs s = Done ((q_drain allocs q).1, s') /\
    rx_queue s' i (q_drain allocs q).2.
Proof.
  revert allocs s q. induction fuel as [|fuel IH]; intros allocs s q Hq Hf; [lia|]. cbn [input_loop].
  destruct (q_good q) as [|f r] eqn:Eq.
  - destruct (low_level_input_none s i q (default false (head allocs)) Hq Eq) as (s' & Hrun & Hq').
    exists s'. erewrite bind_done by exact Hrun. destruct allocs; cbn; rewrite Eq; done.
  - destruct (low_level_input_some s i q (default false (head allocs)) f r Hq Eq) as (s1 & Hrun & Hq1).
    pose proof (q_good_length _ _ _ Eq) as Hlen. erewrite bind_done by exact Hrun.
    destruct allocs as [|[] allocs]; cbn [head default id tail]; cbn [q_drain]; rewrite Eq;
      [by exists s1| |by exists s1].
    destruct (IH allocs s1 r Hq1 ltac:(lia)) as (s' & Hrun' & Hq').
    destruct (q_drain allocs r) as [fs q2]. exists s'. by erewrite bind_done by exact Hrun'.
Qed.

(** The DMA writes a status into the descriptor [k] places behind the cursor. *)
Lemma rx_ring_set (s : E) r sts k d v m :
  rx_ring s r sts -> (k < length sts)%nat ->
  descs s !! rx_addr ((r + Z.of_nat k) mod 4) = Some d ->
  rx_ring (set_emem m (set_descs (<[rx_addr ((r + Z.of_nat k) mod 4) := set_Status v d]> (descs s)) s)) r
    (<[k := v]> sts).
Proof.
  intros Hg Hk Hd. pose proof (ring_len _ _ _ Hg) as Hl. constructor.
  - apply (ring_idx _ _ _ Hg).
  - by rewrite length_insert.
  - apply (ring_cursor _ _ _ Hg).
  - intros j st Hj. cbn [descs set_emem set_descs].
    apply list_lookup_insert_Some in Hj as [(<- & <- & _)|[Hne Hj]].
    + destruct (lookup_lt_is_Some_2 _ _ Hk) as [x Hx]. destruct (ring_descs _ _ _ Hg k x Hx) as (c & Hc).
      rewrite Hd in Hc. injection Hc as ->. exists c. by rewrite lookup_insert_eq.
    + destruct (ring_descs _ _ _ Hg j st Hj) as (c & Hc). exists c. rewrite lookup_insert_ne; [done|].
      rewrite rx_addr_inj. apply lookup_lt_Some in Hj. pose proof (ring_idx _ _ _ Hg). zlia.
Qed.

Lemma buf_apart r j k n :
  0 <= r < 4 -> (j < 4)%nat -> (k < 4)%nat -> j <> k -> n <= ETH_MAX_PACKET_SIZE ->
  forall x, rx_buf ((r + Z.of_nat j) mod 4) <= x < rx_buf ((r + Z.of_nat j) mod 4) + n ->
  x < rx_buf ((r + Z.of_nat k) mod 4) \/ rx_buf ((r + Z.of_nat k) mod 4) + ETH_MAX_PACKET_SIZE <= x.
Proof.
  unfold rx_buf, ETH_MAX_PACKET_SIZE. intros Hr Hj Hk Hn Hle x Hx.
  assert ((r + Z.of_nat j) mod 4 <> (r + Z.of_nat k) mod 4) by zlia. lia.
Qed.

Lemma dma_arrive_room (s : E) r q f t tail m :
  rx_ring s r (map fst q ++ t :: tail) -> Forall frame_ok q -> frame_ok f ->
  Forall (fun st => owned st = false) (map fst q) -> Forall (fun st => owned st = true) (t :: tail) ->
  mapped (emem s) MACRxBuf (4 * ETH_MAX_PACKET_SIZE) ->
  (forall k g, q !! k = Some g ->
     load_bytes (emem s) (rx_buf ((r + Z.of_nat k) mod 4)) (length g.2) = Some g.2) ->
  let i := (r + Z.of_nat (length q)) mod 4 in
  forall d, descs s !! rx_addr i = Some d -> store_bytes (emem s) (rx_buf i) f.2 = Some m ->
  rx_queue (set_emem m (set_descs (<[rx_addr i := set_Status f.1 d]> (descs s)) s)) (ring_next i) (q ++ [f]).
Proof.
  intros Hg Hok Hf Hp Ht Hmap Hby i d Hd Hm. pose proof (ring_idx _ _ _ Hg) as Hrr.
  pose proof (ring_len _ _ _ Hg) as Hl. rewrite length_app, length_map in Hl. cbn in Hl.
  exists r. split; [|split; [|split; [|split]]].
  - exists tail. rewrite map_app. cbn [map]. split; [|split].
    + assert (Hk : (length q < length (map fst q ++ t :: tail))%nat) by (rewrite length_app, length_map; cbn; lia).
      pose proof (rx_ring_set s r _ (length q) d f.1 m Hg Hk Hd) as Hs.
      rewrite <- (length_map fst q), insert_app_r_alt, Nat.sub_diag in Hs by lia.
      rewrite <- app_assoc. cbn. rewrite length_map in Hs. exact Hs.
    + apply Forall_app. split; [done|]. constructor; [apply Hf|done].
    + by inversion Ht.
  - rewrite length_app. cbn [length]. unfold i, ring_next. rewrite Zplus_mod_idemp_l. f_equal. lia.
  - apply Forall_app. split; [done|]. by constructor.
  - cbn. by eapply mapped_store.
  - intros k g Hk. cbn [set_emem emem]. destruct (decide (k = length q)) as [->|N].
    + rewrite lookup_app_r, Nat.sub_diag in Hk by lia. injection Hk as <-. by eapply store_load.
    + assert (k < length q)%nat by (apply lookup_lt_Some in Hk; rewrite length_app in Hk; cbn in Hk; lia).
      rewrite lookup_app_l in Hk by done. rewrite <- (Hby k g Hk). apply load_bytes_frame.
      intros x Hx. eapply store_bytes_frame; [exact Hm|].
      rewrite Forall_forall in Hok. destruct (Hok g) as (_ & Hgl & _); [by eapply list_elem_of_lookup_2|].
      destruct Hf as (_ & Hfl & _).
      destruct (buf_apart r k (length q) (Z.of_nat (length g.2)) ltac:(lia) ltac:(lia) ltac:(lia) N Hgl x Hx);
        [by left|right]. unfold i. lia.
Qed.

Lemma dma_arrive_run s i q f : rx_queue s i q -> frame_ok f ->
  exists i' s', dma_arrive i f s = Done (i', s') /\ rx_queue s' i' (q_arrive f q).
Proof.
  destruct f as [fs fbs]. intros (r & Hr & Hi & Hok & Hmap & Hby) Hf. pose proof Hr as (tail & Hg & Hp & Ht).
  pose proof (ring_len _ _ _ Hg) as Hl. pose proof (ring_idx _ _ _ Hg) as Hrr.
  rewrite length_app, length_map in Hl. unfold dma_arrive, q_arrive, rd_desc.
  destruct tail as [|t tail].
  - cbn in Hl. rewrite bool_decide_eq_false_2 by lia. destruct q as [|[st bs] q]; [cbn in Hl; lia|].
    assert (i = r) as -> by (rewrite Hi; replace (length ((st, bs) :: q)) with 4%nat by lia; zlia).
    destruct (rx_ring_head s r st _ Hg) as (c & Hc). mred. rewrite Hc. mred. cbn [Status].
    cbn in Hp. apply Forall_cons in Hp as [-> _]. exists r, s. split; [done|]. by exists r.
  - cbn in Hl. rewrite bool_decide_eq_true_2 by lia.
    destruct (ring_descs _ _ _ Hg (length q) t) as (c & Hc).
    { rewrite <- (length_map fst q), lookup_app_r, Nat.sub_diag by lia. done. }
    destruct (store_bytes_mapped (emem s) (rx_buf i) fbs) as (m & Hm & _).
    { destruct Hf as (_ & Hfl & _). cbn [snd] in Hfl. rewrite Hi. eapply mapped_sub; [exact Hmap|..];
        unfold rx_buf, ETH_MAX_PACKET_SIZE in *; zlia. }
    rewrite <- Hi in Hc. mred. rewrite Hc. mred. cbn [Status]. pose proof Ht as Ht2.
    apply Forall_cons in Ht2 as [-> _]. mred. cbn [Buffer1Addr]. rewrite Hm. mred.
    eexists _, _. split; [reflexivity|]. subst i. by eapply (dma_arrive_room s r q (fs, fbs)).
Qed.

(** The receive operations leave the semaphores alone. *)
Definition sems (s : E) : option Z * option Z := (eth_rx_semaphore s, eth_tx_semaphore s).

Lemma RecPeek_sems fuel (s s' : E) r : ETH_RecPeek fuel s = Done (r, s') -> sems s' = sems s.
Proof.
  revert s. induction fuel as [|fuel IH]; intros s; cbn [ETH_RecPeek]; [done|].
  unfold rd_desc, wr_desc, mbind, M_bind, get, of_option. destruct (descs s !! pDMARxSet s) as [d|] eqn:Ed; [|done].
  destruct (negb _); [|by intros [= _ <-]]. destruct (_ && _); [by intros [= _ <-]|].
  unfold rd_desc, mbind, M_bind, get, of_option. rewrite Ed. unfold modify. intros Hr. by apply IH in Hr.
Qed.
Lemma RecFree_sems (s s' : E) u : ETH_RecFree s = Done (u, s') -> sems s' = sems s.
Proof.
  unfold ETH_RecFree, rd_desc, wr_desc, rd_desc. mred. destruct (descs s !! pDMARxSet s) as [d|] eqn:Ed; [|done].
  mred. rewrite Ed. unfold wr_reg. mred. by intros [= _ <-].
Qed.
Lemma low_level_input_sems (s s' : E) alloc p : low_level_input alloc s = Done (p, s') -> sems s' = sems s.
Proof.
  unfold low_level_input. intros (r & s1 & H1 & H2)%bind_inv. apply RecPeek_sems in H1.
  destruct r as [[src len]|]; [|by injection H2 as _ <-].
  apply bind_inv in H2 as (q & s2 & H2 & H3). apply bind_inv in H3 as (u & s3 & H3 & H4).
  apply RecFree_sems in H3. injection H4 as _ <-. rewrite H3, <- H1. destruct alloc; [|by injection H2 as _ <-].
  unfold mbind, M_bind, get, of_option in H2. destruct (load_bytes _ _ _); [|done]. by injection H2 as _ <-.
Qed.
Lemma input_loop_sems fuel allocs (s s' : E) fs : input_loop fuel allocs s = Done (fs, s') -> sems s' = sems s.
Proof.
  revert allocs s fs. induction fuel as [|fuel IH]; intros allocs s fs; cbn [input_loop]; [done|].
  intros (p & s1 & H1 & H2)%bind_inv. apply low_level_input_sems in H1.
  destruct p as [f|]; [|by injection H2 as _ <-].
  apply bind_inv in H2 as (gs & s2 & H2 & H3). injection H3 as _ <-. apply IH in H2. congruence.
Qed.

(** A run of the receive side: frames arrive, the interface task drains. *)
Inductive rx_event := Arrive (f : frame) | Input (allocs : list bool).

Fixpoint rx_run (evs : list rx_event) (i : Z) : M E (Z * list (list Z)) :=
  match evs with
  | [] => mret (i, [])
  | Arrive f :: evs => i ← dma_arrive i f; rx_run evs i
  | Input allocs :: evs =>
      fs ← input_loop rx_fuel allocs;
      r ← rx_run evs i;
      mret (r.1, fs ++ r.2)
  end.

Fixpoint q_run (evs : list rx_event) (q : list frame) : list (list Z) * list frame :=
  match evs with
  | [] => ([], q)
  | Arrive f :: evs => q_run evs (q_arrive f q)
  | Input allocs :: evs =>
      let '(fs, q) := q_drain allocs q in
      let '(gs, q) := q_run evs q in (fs ++ gs, q)
  end.

Definition event_ok (e : rx_event) : Prop := match e with Arrive f => frame_ok f | Input _ => True end.

Lemma rx_run_run evs s i q : rx_queue s i q -> Forall event_ok evs ->
  exists i' s', rx_run evs i s = Done ((i', (q_run evs q).1), s') /\ rx_queue s' i' (q_run evs q).2.
Proof.
  revert s i q. induction evs as [|e evs IH]; intros s i q Hq He; [by exists i, s|].
  apply Forall_cons in He as [He Hes]. destruct e as [f|allocs]; cbn [rx_run q_run].
  - destruct (dma_arrive_run s i q f Hq He) as (i1 & s1 & Hrun & Hq1).
    destruct (IH s1 i1 _ Hq1 Hes) as (i2 & s2 & Hrun2 & Hq2). exists i2, s2.
    by erewrite bind_done by exact Hrun.
  - assert (Hlen : (length q < rx_fuel)%nat).
    { destruct Hq as (r & Hr & _). apply rx_rep_len in Hr as [Hr _]. rewrite length_map in Hr.
      unfold rx_fuel, ETH_RXBUFNB. lia. }
    destruct (input_loop_run rx_fuel allocs s i q Hq Hlen) as (s1 & Hrun & Hq1).
    destruct (q_drain allocs q) as [fs q1]. destruct (IH s1 i q1 Hq1 Hes) as (i2 & s2 & Hrun2 & Hq2).
    destruct (q_run evs q1) as [gs q2]. exists i2, s2. erewrite bind_done by exact Hrun.
    by erewrite bind_done by exact Hrun2.
Qed.

Lemma rx_queue_init (s : E) : rx_rep s 0 [] -> mapped (emem s) MACRxBuf (4 * ETH_MAX_PACKET_SIZE) ->
  rx_queue s 0 [].
Proof. intros Hr Hm. exists 0. split; [done|]. split; [done|]. split; [constructor|]. by split. Qed.

(** A token left by an earlier completion ends the wait at once. *)
Lemma low_level_output_stale s t st0 st1 n tot_len segs :
  tx_ring s t st0 st1 -> tx_owned st0 = true -> eth_tx_semaphore s = Some n -> 0 < n ->
  tot_len <= ETH_MAX_PACKET_SIZE ->
  low_level_output tot_len segs s = Done (ERR_IF, set_sems (eth_rx_semaphore s) (Some 0) s).
Proof.
  intros Hr Ho Hs Hn Hmax. unfold low_level_output.
  destruct (Z.ltb_spec ETH_MAX_PACKET_SIZE tot_len); [lia|].
  erewrite bind_done by (by eapply ETH_GetTxBuf_run). rewrite Ho. cbn [Z.eqb].
  set (s1 := set_sems (eth_rx_semaphore s) (Some 0) s).
  assert (Htake : tx_take idle (pdMS_TO_TICKS 50) s = Done (true, s1)).
  { unfold tx_take, mbind, M_bind, get. rewrite Hs. destruct (Z.ltb_spec 0 n); [done|lia]. }
  assert (Hr1 : tx_ring s1 t st0 st1) by (by destruct Hr).
  erewrite bind_done; [|erewrite bind_done by exact Htake; eapply ETH_GetTxBuf_run; exact Hr1].
  by rewrite Ho.
Qed.

(** *** Properties *)


(** C19: when the next transmit descriptor is free, [low_level_output] copies the
    whole chain into that descriptor's buffer, hands exactly that descriptor to
    the DMA with the length of the chain, touches no other buffer and moves the
    ring on by one. *)
Theorem low_level_output_sends s t st0 st1 tot_len segs :
  tx_ring s t st0 st1 -> tx_mem s -> tot_len = Z.of_nat (length (concat segs)) ->
  tot_len <= ETH_MAX_PACKET_SIZE -> tx_owned st0 = false ->
  exists s', low_level_output tot_len segs s = Done (ERR_OK, s') /\
    tx_ring s' (tx_next t) st1 (sent st0) /\ tx_mem s' /\ frame_sent s s' t st0 (concat segs).
Proof. apply low_level_output_run. Qed.

(** when every transmit descriptor belongs to the DMA and the transmit
    semaphore still holds the token of an earlier completion, [low_level_output]
    consumes the token and drops the frame at once, without waiting. *)
Theorem low_level_output_stale_token s t st0 st1 n tot_len segs :
  tx_ring s t st0 st1 -> tx_owned st0 = true -> tx_owned st1 = true ->
  eth_tx_semaphore s = Some n -> 0 < n -> tot_len <= ETH_MAX_PACKET_SIZE ->
  low_level_output tot_len segs s = Done (ERR_IF, set_sems (eth_rx_semaphore s) (Some 0) s).
Proof. intros Hr Ho _. by apply (low_level_output_stale s t st0 st1 n). Qed.
End If.

(** ** The properties on a concrete board *)

#[local] Existing Instance Board.layout.
#[local] Existing Instance Board.layout_ok.

(** The board with its two descriptor chains set up. *)
Definition ready : eth unit :=
  exec (ETH_DMATxDescChainInit DMATxDscrTab MACTxBuf ETH_TXBUFNB;;
        ETH_DMARxDescChainInit DMARxDscrTab MACRxBuf ETH_RXBUFNB;;
        modify (set_rx_cursor DMARxDscrTab)) Board.start.
Definition idle_desc : Z := Z.lor ETH_DMATxDesc_TCH ETH_DMATxDesc_IC.

Lemma ready_ok : rx_queue ready 0 [] /\ tx_ring ready 0 idle_desc idle_desc /\ tx_mem ready.
Proof.
  destruct (chains_run Board.smi_read Board.smi_write Board.idle Board.start) as (s' & Hrun & Hrx & Htx & _ & Hm & _).
  unfold ready, exec. rewrite Hrun. split; [|split; [done|]].
  - apply rx_queue_init; [done|]. rewrite Hm. apply map_block_mapped; unfold ETH_MAX_PACKET_SIZE; cbn; lia.
  - split; [cbn; lia|]. rewrite Hm. cbn [Board.start emem].
    apply map_block_under, map_block_mapped; unfold ETH_MAX_PACKET_SIZE; cbn; lia.
Qed.

(** Both transmit descriptors busy. *)
Definition busy : eth unit :=
  exec (low_level_output Board.idle 3 [[1]; [2; 3]];; low_level_output Board.idle 1 [[4]])
    (set_sems (Some 0) (Some 1) ready).

Lemma busy_ok : tx_ring busy 0 (sent idle_desc) (sent idle_desc) /\ eth_tx_semaphore busy = Some 1.
Proof.
  split; [|vm_compute; reflexivity].
  constructor; [by_decision|vm_compute; reflexivity|eexists; vm_compute; reflexivity..].
Qed.

Definition frame64 : Z * list Z := (Z.shiftl 64 16 + 768, repeat 7 64).
Definition broken : Z * list Z := (Z.shiftl 64 16 + 768 + 32768, repeat 8 64).


Lemma low_level_output_sends_witness :
  exists s', low_level_output Board.idle 3 [[1]; [2; 3]] ready = Done (ERR_OK, s') /\
    load_bytes (emem s') (tx_buf 0) 3 = Some [1; 2; 3].
Proof.
  destruct (low_level_output_sends Board.idle ready 0 idle_desc idle_desc 3 [[1]; [2; 3]])
    as (s' & H1 & _ & _ & _ & H2 & _); [apply ready_ok|apply ready_ok|reflexivity|by_decision|reflexivity|].
  exists s'. split; [exact H1|exact H2].
Defined.

Lemma low_level_output_stale_token_witness :
  low_level_output Board.idle 1 [[5]] busy = Done (ERR_IF, set_sems (eth_rx_semaphore busy) (Some 0) busy).
Proof.
  apply (low_level_output_stale_token Board.idle busy 0 (sent idle_desc) (sent idle_desc) 1);
    [apply busy_ok|vm_compute; reflexivity|vm_compute; reflexivity|apply busy_ok|by_decision|by_decision].
Defined.
