(* ===== verification/NetConf.v ===== *)
(** LWIP_PORT/netconf.c: bringing the interface up and the task that moves
    frames and tracks the link.  The calls into lwIP (netifapi_*, tcpip_init) and
    into the kernel (timer and task creation) are recorded in [calls]; their
    results are arguments. *)
From S2P Require Import Prelude CMem EthDriver EthernetIf IpAddr.

Inductive call :=
  | Timer_start
  | Tcpip_init
  | Netif_add (ip mask gw : Z)
  | Netif_set_default
  | Netif_set_up
  | Task_create
  | Netif_input (f : list Z)
  | Set_link_up
  | Set_link_down.

Definition WCHNETTIMERPERIOD : Z := 10.
Definition LWIP_MAC_ADDR : list Z := [4; 191; 27; 17; 34; 51].

Section NetConf.
Context {phy : Type}.
Abbreviation E := (eth phy).
Context (smi_read : Z -> Z -> phy -> option Z * phy)
        (smi_write : Z -> Z -> Z -> phy -> phy)
        (idle : Z -> E -> E).
Context `{LayoutOk}.

Record net := mkNet {
  drv : E;
  g_netif : netif;
  g_ip : Z;
  g_mask : Z;
  g_gw : Z;
  link_was_up : Z;
  calls : list call       (* oldest first *)
}.
Definition set_drv (e : E) (s : net) : net :=
  mkNet e (g_netif s) (g_ip s) (g_mask s) (g_gw s) (link_was_up s) (calls s).
Definition on_drv {A} (m : M E A) : M net A := zoom drv set_drv m.
Definition logged (c : call) (s : net) : net :=
  mkNet (drv s) (g_netif s) (g_ip s) (g_mask s) (g_gw s) (link_was_up s) (calls s ++ [c]).
Definition log (c : call) : M net unit := modify (logged c).
Definition set_link_was_up (v : Z) : M net unit :=
  modify (fun s => mkNet (drv s) (g_netif s) (g_ip s) (g_mask s) (g_gw s) v (calls s)).
Definition with_netif (n : netif) (s : net) : net :=
  mkNet (drv s) n (g_ip s) (g_mask s) (g_gw s) (link_was_up s) (calls s).
Definition with_addrs (ip mask gw : Z) (s : net) : net :=
  mkNet (drv s) (g_netif s) ip mask gw (link_was_up s) (calls s).
Definition set_g_netif (n : netif) : M net unit := modify (with_netif n).

Definition localtime_timer_cb : M net unit := on_drv (WCHNET_TimeIsr WCHNETTIMERPERIOD).

(** The second half of an iteration: report an edge of the link. *)
Definition link_update : M net unit :=
  s ← get;
  if negb (LinkSta (drv s) =? 0) then
    if link_was_up s =? 0 then
      set_link_was_up 1;;
      log Set_link_up;;
      on_drv ETH_EnableMacFilter
    else mret tt
  else
    if negb (link_was_up s =? 0) then
      set_link_was_up 0;;
      log Set_link_down
    else mret tt.

(** One iteration of the task's loop; [allocs] are the results of [pbuf_alloc]
    while it drains the ring. *)
Definition netif_iteration (allocs : list bool) : M net unit :=
  fs ← on_drv (ethernetif_input idle allocs);
  modify (fun s => mkNet (drv s) (g_netif s) (g_ip s) (g_mask s) (g_gw s) (link_was_up s)
                     (calls s ++ map Netif_input fs));;
  on_drv (WCHNET_HandlePhyNegotiation smi_read);;
  link_update.

(** The task: its loop never ends; this is what it does in the first iterations. *)
Fixpoint lwip_netif_thread (allocs : list (list bool)) : M net unit :=
  match allocs with
  | [] => mret tt
  | a :: allocs => netif_iteration a;; lwip_netif_thread allocs
  end.

(** [created], [timer], [err] and [task] are the results of creating the
    semaphores and the timer, of netif_add and of xTaskCreate. *)
Definition LwIP_Init (created timer : bool) (err : Z) (task : bool) : M net unit :=
  on_drv (ethernetif_sync_init created created);;
  on_drv (ETH_Init smi_read smi_write idle 4 191 27 17 34 51);;
  (if timer then log Timer_start else mret tt);;
  log Tcpip_init;;
  modify (with_addrs (IP4_ADDR 169 254 231 0) (IP4_ADDR 255 255 0 0) (IP4_ADDR 169 254 231 203));;
  s ← get;
  set_g_netif (mkNetif LWIP_MAC_ADDR (hwaddr_len (g_netif s)) (mtu (g_netif s)) (flags (g_netif s))
                 (name (g_netif s)) (output (g_netif s)) (linkoutput (g_netif s)));;
  s ← get;
  log (Netif_add (g_ip s) (g_mask s) (g_gw s));;
  (* netif_add calls the interface's init function *)
  set_g_netif (ethernetif_init (g_netif s)).2;;
  if negb (err =? ERR_OK) then mret tt
  else
    log Netif_set_default;;
    log Netif_set_up;;
    if task then log Task_create else mret tt.

Definition LwIP_GetIPAddr (s : net) : list Z := map (ip4_addr_get_byte (g_ip s)) [0; 1; 2; 3].
Definition LwIP_GetMACAddr (s : net) : list Z := take 6 (hwaddr (g_netif s)).

(** ** The interface task *)

(** The receive ring is well formed and the semaphores exist. *)
Definition drv_ok (s : E) : Prop :=
  (exists i q, rx_queue s i q) /\ is_Some (eth_rx_semaphore s) /\ is_Some (eth_tx_semaphore s).

Lemma rx_queue_rings (s s' : E) i q : same_rings s s' -> rx_queue s i q -> rx_queue s' i q.
Proof.
  intros (Hd & Hm & Hc & _) (r & (tl & [A1 A2 A3 A4] & A5 & A6) & Hi & Hok & Hmap & Hby).
  exists r. rewrite Hm. split; [|done]. exists tl. split; [|done].
  constructor; [done|done|by rewrite Hc|]. intros k st Hk. rewrite Hd. by apply A4.
Qed.

Lemma drv_ok_rings (s s' : E) : same_rings s s' -> drv_ok s -> drv_ok s'.
Proof.
  intros Hs ((i & q & Hq) & H1 & H2). split; [exists i, q; by eapply rx_queue_rings|].
  destruct Hs as (_ & _ & _ & _ & -> & ->). done.
Qed.

(** The environment keeps the driver state well formed: the DMA only fills
    descriptors it owns, the interrupts only give the semaphores. *)
Hypothesis env_ok : forall n s, drv_ok s -> drv_ok (idle n s).

Lemma set_sems_ok rx tx (s : E) : is_Some rx -> is_Some tx -> drv_ok s -> drv_ok (set_sems rx tx s).
Proof.
  intros H1 H2 ((i & q & r & (tl & [A1 A2 A3 A4] & A5 & A6) & Hi & Hok & Hmap & Hby) & _).
  split; [|done]. exists i, q, r. split; [|done]. by exists tl.
Qed.

Lemma rx_take_total (s : E) ticks : drv_ok s ->
  exists b s', rx_take idle ticks s = Done (b, s') /\ drv_ok s'.
Proof.
  intros Hs. pose proof Hs as (_ & [n Hn] & Htx). unfold rx_take, mbind, M_bind, get. rewrite Hn.
  destruct (0 <? n).
  - eexists _, _. split; [reflexivity|]. by apply set_sems_ok.
  - unfold modify. pose proof (env_ok ticks s Hs) as Hw. pose proof Hw as (_ & [k ->] & Htx').
    destruct (0 <? k); (eexists _, _; split; [reflexivity|]); [by apply set_sems_ok|done].
Qed.

Lemma ethernetif_input_total (s : E) allocs : drv_ok s ->
  exists fs s', ethernetif_input idle allocs s = Done (fs, s') /\ drv_ok s'.
Proof.
  intros Hs. destruct (rx_take_total s (pdMS_TO_TICKS 10) Hs) as (b & s1 & Hrun & Hok).
  unfold ethernetif_input. erewrite bind_done by exact Hrun.
  pose proof Hok as ((i & q & Hq) & H1 & H2).
  destruct (input_loop_run idle rx_fuel allocs s1 i q Hq) as (s2 & Hrun2 & Hq2).
  { destruct Hq as (r & Hr & _). apply rx_rep_len in Hr as [Hr _]. rewrite length_map in Hr.
    unfold rx_fuel, ETH_RXBUFNB. lia. }
  eexists _, s2. split; [exact Hrun2|]. apply input_loop_sems in Hrun2. injection Hrun2 as E1 E2.
  split; [by eauto|]. by rewrite E1, E2.
Qed.

(** The link reports of a call log, oldest first. *)
Fixpoint link_reports (cs : list call) : list bool :=
  match cs with
  | [] => []
  | Set_link_up :: cs => true :: link_reports cs
  | Set_link_down :: cs => false :: link_reports cs
  | _ :: cs => link_reports cs
  end.

(** up, down, up, ... *)
Fixpoint alternating (first : bool) (bs : list bool) : Prop :=
  match bs with
  | [] => True
  | b :: bs => b = first /\ alternating (negb first) bs
  end.

Lemma link_reports_app a b : link_reports (a ++ b) = link_reports a ++ link_reports b.
Proof. induction a as [|[] a IH]; cbn; rewrite ?IH; done. Qed.
Lemma link_reports_input fs : link_reports (map Netif_input fs) = [].
Proof. induction fs; done. Qed.

Lemma alternating_snoc f bs b : alternating f bs -> b = (if Nat.even (length bs) then f else negb f) ->
  alternating f (bs ++ [b]).
Proof.
  revert f. induction bs as [|x bs IH]; intros f; cbn [alternating app length].
  - cbn. by intros _ ->.
  - intros [-> Ha] ->. split; [done|]. apply IH; [done|].
    rewrite Nat.even_succ, <- Nat.negb_even. destruct (Nat.even (length bs)); cbn; by rewrite ?negb_involutive.
Qed.

(** The task has reported every edge of the link, and nothing else. *)
Record link_inv (s : net) : Prop := {
  li_drv : drv_ok (drv s);
  li_alt : alternating true (link_reports (calls s));
  li_parity : link_was_up s = b2z (negb (Nat.even (length (link_reports (calls s)))))
}.

Lemma same_rings_filter (s : E) : exists s', ETH_EnableMacFilter s = Done (tt, s') /\
  same_rings s s' /\ LinkSta s' = LinkSta s.
Proof. eexists. split; [reflexivity|]. done. Qed.

Lemma link_update_run s : link_inv s ->
  exists s', link_update s = Done (tt, s') /\ link_inv s' /\ link_was_up s' = b2z (nz (LinkSta (drv s'))).
Proof.
  intros [Hd Ha Hp]. unfold link_update, mbind, M_bind, get, nz.
  destruct (Nat.even (length (link_reports (calls s)))) eqn:Ev; cbn [negb b2z] in Hp; rewrite Hp;
    (destruct (Z.eqb_spec (LinkSta (drv s)) 0) as [E0|E0]); cbn [negb Z.eqb].
  - exists s. split; [done|]. split; [constructor; [done|done|by rewrite Ev]|]. by rewrite E0.
  - destruct (same_rings_filter (drv s)) as (e & Hrun & Hsr & Hls).
    unfold set_link_was_up, log, on_drv, modify, zoom. cbn [drv logged]. rewrite Hrun.
    eexists. split; [reflexivity|]. cbn [drv set_drv link_was_up logged]. rewrite Hls. split.
    + constructor; cbn [drv set_drv calls link_was_up logged]; rewrite ?link_reports_app; cbn [link_reports].
      * by eapply drv_ok_rings.
      * apply alternating_snoc; [done|]. by rewrite Ev.
      * rewrite length_app, Nat.add_comm. cbn [length Nat.add]. by rewrite Nat.even_succ, <- Nat.negb_even, Ev.
    + by destruct (Z.eqb_spec (LinkSta (drv s)) 0).
  - unfold set_link_was_up, log, modify. eexists. split; [reflexivity|]. cbn [drv link_was_up logged]. split.
    + constructor; cbn [drv calls link_was_up logged]; rewrite ?link_reports_app; cbn [link_reports].
      * done.
      * apply alternating_snoc; [done|]. by rewrite Ev.
      * rewrite length_app, Nat.add_comm. cbn [length Nat.add]. by rewrite Nat.even_succ, <- Nat.negb_even, Ev.
    + by rewrite E0.
  - exists s. split; [done|]. split; [constructor; [done|done|by rewrite Ev]|].
    rewrite Hp. by destruct (Z.eqb_spec (LinkSta (drv s)) 0).
Qed.

Lemma iteration_run s allocs : link_inv s ->
  exists s', netif_iteration allocs s = Done (tt, s') /\ link_inv s' /\
    link_was_up s' = b2z (nz (LinkSta (drv s'))).
Proof.
  intros [Hd Ha Hp]. unfold netif_iteration, on_drv.
  destruct (ethernetif_input_total (drv s) allocs Hd) as (fs & e1 & Hrun1 & Hd1).
  destruct (negotiation_total smi_read e1) as (e2 & Hrun2 & Hsr). apply (drv_ok_rings _ _ Hsr) in Hd1.
  erewrite bind_done by (unfold zoom; rewrite Hrun1; reflexivity). erewrite bind_done by reflexivity.
  erewrite bind_done by (unfold zoom; cbn [drv set_drv]; rewrite Hrun2; reflexivity).
  set (s2 := set_drv e2 _). assert (Hrep : link_reports (calls s2) = link_reports (calls s)).
  { cbn. by rewrite link_reports_app, link_reports_input, app_nil_r. }
  apply link_update_run. constructor; rewrite ?Hrep; done.
Qed.

Lemma thread_run s allocs : link_inv s -> allocs <> [] ->
  exists s', lwip_netif_thread allocs s = Done (tt, s') /\ link_inv s' /\
    link_was_up s' = b2z (nz (LinkSta (drv s'))).
Proof.
  intros Hi Hne. revert s Hi. induction allocs as [|a allocs IH]; intros s Hi; [done|].
  destruct (iteration_run s a Hi) as (s1 & Hrun & Hi1 & Hl). cbn [lwip_netif_thread].
  erewrite bind_done by exact Hrun. destruct allocs as [|b allocs]; [by exists s1|]. by apply IH.
Qed.

(** What [LwIP_Init] tells the kernel and lwIP. *)
Definition init_calls (timer : bool) (err : Z) (task : bool) : list call :=
  (if timer then [Timer_start] else []) ++
  [Tcpip_init; Netif_add (IP4_ADDR 169 254 231 0) (IP4_ADDR 255 255 0 0) (IP4_ADDR 169 254 231 203)] ++
  (if err =? ERR_OK then [Netif_set_default; Netif_set_up] ++ (if task then [Task_create] else []) else []).

Lemma LwIP_Init_run timer err task s :
  exists s', LwIP_Init true timer err task s = Done (tt, s') /\
    calls s' = calls s ++ init_calls timer err task /\
    g_ip s' = IP4_ADDR 169 254 231 0 /\ hwaddr (g_netif s') = LWIP_MAC_ADDR /\
    flags (g_netif s') = 26 /\ mtu (g_netif s') = 1500 /\
    rx_rep (drv s') 0 [] /\
    tx_ring (drv s') 0 (Z.lor ETH_DMATxDesc_TCH ETH_DMATxDesc_IC) (Z.lor ETH_DMATxDesc_TCH ETH_DMATxDesc_IC) /\
    regs (drv s') MACA0HR = mac_hi 34 51 /\ regs (drv s') MACA0LR = mac_lo 4 191 27 17 /\
    link_was_up s' = link_was_up s.
Proof.
  set (e0 := set_sems (Some 0) (Some 0) (drv s)).
  destruct (ETH_Init_run smi_read smi_write idle 4 191 27 17 34 51 e0) as (e & Hrun & H1 & H2 & H3 & H4 & _);
    [by_decision..|].
  unfold LwIP_Init, on_drv.
  erewrite (bind_done _ _ s) by (unfold zoom; reflexivity).
  erewrite bind_done by (unfold zoom; cbn [drv set_drv]; fold e0; rewrite Hrun; reflexivity).
  set (s1 := set_drv e _). assert (Es : calls s1 = calls s /\ drv s1 = e /\ link_was_up s1 = link_was_up s) by done.
  clearbody s1. clear Hrun. destruct Es as (<- & <- & <-). unfold log, set_g_netif.
  assert (Ht : exists s2, (if timer then modify (logged Timer_start) else mret tt) s1 = Done (tt, s2) /\
    drv s2 = drv s1 /\ link_was_up s2 = link_was_up s1 /\
    calls s2 = calls s1 ++ (if timer then [Timer_start] else [])).
  { destruct timer; (eexists; split; [reflexivity|]); [done|]. by rewrite app_nil_r. }
  destruct Ht as (s2 & Ht & Ed & El & Ec). erewrite bind_done by exact Ht. clear Ht.
  unfold init_calls. rewrite app_assoc, <- Ec, <- El. rewrite <- Ed in H1, H2, H3, H4. clear Ec Ed El s1.
  do 7 (erewrite bind_done by reflexivity). set (s3 := with_netif _ (logged _ _)).
  assert (E3 : calls s3 = calls s2 ++ [Tcpip_init; Netif_add (IP4_ADDR 169 254 231 0) (IP4_ADDR 255 255 0 0)
      (IP4_ADDR 169 254 231 203)] /\ drv s3 = drv s2 /\ link_was_up s3 = link_was_up s2 /\
    g_ip s3 = IP4_ADDR 169 254 231 0 /\ hwaddr (g_netif s3) = LWIP_MAC_ADDR /\ flags (g_netif s3) = 26 /\
    mtu (g_netif s3) = 1500).
  { unfold s3. cbn [calls with_netif logged with_addrs drv link_was_up g_ip g_netif]. by rewrite <- app_assoc. }
  clearbody s3. destruct E3 as (Ec & Ed & El & Ei & Eh & Ef & Em). rewrite <- Ed in H1, H2, H3, H4.
  rewrite app_assoc, <- Ec, <- El, <- Ei, <- Eh, <- Ef, <- Em. clear - H1 H2 H3 H4.
  destruct (Z.eqb_spec err ERR_OK); cbn [negb]; [destruct task|];
    (eexists; split; [reflexivity|]; cbn [calls logged]; rewrite <- ?app_assoc, ?app_nil_r; done).
Qed.

Lemma LwIP_Init_no_semaphore timer err task s :
  LwIP_Init false timer err task s = Stop Asserted.
Proof. reflexivity. Qed.

(** *** Properties *)

(** after any number of iterations the interface task has reported to lwIP
    exactly the edges of the link (up, down, up, ... and never the same twice),
    its record of the link equals the driver's [LinkSta], and the receive ring is
    well formed; no iteration stops. *)
Theorem netif_thread_reports_link_edges s allocs : link_inv s -> allocs <> [] ->
  exists s', lwip_netif_thread allocs s = Done (tt, s') /\ link_inv s' /\
    link_was_up s' = b2z (nz (LinkSta (drv s'))).
Proof. apply thread_run. Qed.

(** [LwIP_Init] leaves an empty receive ring, free transmit descriptors and
    the station address in the MAC; it starts the timer if it could be created,
    starts the stack, adds the interface with the static address, and sets it up
    and starts the task only when [netif_add] reported success. *)
Theorem LwIP_Init_brings_up timer err task s :
  exists s', LwIP_Init true timer err task s = Done (tt, s') /\
    calls s' = calls s ++ init_calls timer err task /\
    g_ip s' = IP4_ADDR 169 254 231 0 /\ hwaddr (g_netif s') = LWIP_MAC_ADDR /\
    flags (g_netif s') = 26 /\ mtu (g_netif s') = 1500 /\
    rx_rep (drv s') 0 [] /\
    tx_ring (drv s') 0 (Z.lor ETH_DMATxDesc_TCH ETH_DMATxDesc_IC) (Z.lor ETH_DMATxDesc_TCH ETH_DMATxDesc_IC) /\
    regs (drv s') MACA0HR = mac_hi 34 51 /\ regs (drv s') MACA0LR = mac_lo 4 191 27 17 /\
    link_was_up s' = link_was_up s.
Proof. apply LwIP_Init_run. Qed.
End NetConf.

(** ** The properties on a concrete board *)

#[local] Existing Instance Board.layout.
#[local] Existing Instance Board.layout_ok.

Definition net0 : net :=
  mkNet ready (mkNetif [] 0 0 0 (0, 0) No_output No_output) 0 0 0 0 [].

Lemma net0_ok : link_inv net0.
Proof.
  constructor; [|done|done]. split; [exists 0, []; apply ready_ok|].
  split; eexists; vm_compute; reflexivity.
Qed.

Lemma netif_thread_reports_link_edges_witness :
  exists s', lwip_netif_thread Board.smi_read Board.idle [[]; []] net0 = Done (tt, s') /\
    link_was_up s' = b2z (nz (LinkSta (drv s'))).
Proof.
  destruct (netif_thread_reports_link_edges Board.smi_read Board.idle
    (fun _ _ H => H) net0 [[]; []] net0_ok) as (s' & H1 & _ & H2); [discriminate|].
  exists s'. split; [exact H1|exact H2].
Defined.

Lemma LwIP_Init_brings_up_witness :
  exists s', LwIP_Init Board.smi_read Board.smi_write Board.idle true true ERR_OK true net0 = Done (tt, s') /\
    calls s' = [Timer_start; Tcpip_init;
      Netif_add (IP4_ADDR 169 254 231 0) (IP4_ADDR 255 255 0 0) (IP4_ADDR 169 254 231 203);
      Netif_set_default; Netif_set_up; Task_create].
Proof.
  destruct (LwIP_Init_brings_up Board.smi_read Board.smi_write Board.idle true ERR_OK true net0)
    as (s' & H1 & H2 & _).
  exists s'. split; [exact H1|exact H2].
Defined.
